(* ===== verification/_CoqProject ===== *)
-Q . S2P
Prelude.v
Sections.v
Syspage.v
Strings.v
Asinfo.v
Hwinfo.v
HwinfoTags.v
HwinfoItems.v
HwinfoOps.v
HwinfoSet.v
HwinfoWalk.v
Pages.v
Ram.v
Cmdline.v
Clock.v
Text.v
Getopt.v
Fat.v
Sdmmc.v
SdmmcCard.v
SdmmcCsd.v
SdmmcInit.v
SdmmcRead.v
SdmmcDisk.v
MxSdhc.v
MxDevice.v
MxDisk.v
Mmu.v
Libc.v
SdmaSys.v
Sdma.v
SdmaXfer.v
Enet.v
EnetRing.v
EnetOps.v
EnetRun.v
EnetPtp.v
EnetClock.v
EnetRx.v
EnetRxRing.v
EnetRxOps.v
EnetRxRun.v
Nor.v
NorChip.v
NorFlash.v
Ecspi.v
EcspiPort.v
SdioConst.v
Sdio.v
SdioSd.v
SdioMmc.v
SdioBase.v
SdioFacts.v
SdioRun.v
SdioCard.v
SdioBits.v
SdioPool.v
I2c.v
I2cBus.v
I2cXfer.v
I2cSpeed.v
I2cInit.v
DemoMem.v
DemoHwinfo.v
DemoFat.v
DemoSdmmc.v
DemoMx.v
DemoSdma.v
DemoEnet.v
DemoEnetRx.v
DemoNor.v
DemoSdio.v
DemoI2c.v
