(* ===== verification/Prelude.v ===== *)
(** * The i.MX6 QNX board support package: a verification library

    The repository is a QNX 7.0 board support package for the i.MX6: the initial program loader
    (src/src/hardware/ipl), the startup program that describes the machine to the kernel
    (src/src/hardware/startup), and the drivers and libraries of the board.  This library models the
    parts that carry state and algorithms, in the order in which the board runs them.

    ** The parts

    - The loader reads the next stage from a FAT volume on the SD card.  [Fat] models
      ipl/lib/fs/fat-fs.c: detection of the FAT type, FAT entries of 12, 16 and 32 bits through the
      one-sector cache, directory search, and the file copy that merges consecutive clusters.  The card
      is an interface, [BlockDevice], with the laws the reader relies on, [BlockDeviceLaws].

    - The card itself is driven by ipl/lib/sdmmc/sdmmc.c, modelled in [Sdmmc] over the function
      pointers of its host controller (class [HostController]).  [SdmmcCard] says what a card on the
      bus does and what the driver relies on of a controller ([HostLaws]); [SdmmcCsd] is about the
      register with the capacity, [SdmmcInit] about identification, [SdmmcRead] about the two entry
      points, initialisation and reading.  [SdmmcDisk] makes the card the [BlockDevice] of [Fat].
      [MxSdhc] models ipl/lib/arm/mx_sdmmc.c, the i.MX6 controller, over its registers, and
      [MxDevice] shows from what the registers are documented to do ([MxLaws]) that it keeps
      [HostLaws]; [MxDisk] puts all of it together.

    - Startup builds the system page, one block of memory with sections that grow.  [Syspage] models
      startup/lib/syspage_memory.c and the callout owner list of callouts.c on the page's bytes.
      The code that fills sections is proved against the interface of [Sections] (class
      [SectionStore], laws [SectionLaws]), which [Syspage] implements: [Strings] is strings.c,
      [Asinfo] the address-space table (as_*.c), whose containers are split by
      [as_add_containing].

    - The hardware-information section describes devices to drivers.  [Hwinfo] models hwi_alloc.c and
      the routines that add and set devices, buses and tags (hwi_*.c, hwidev_*.c, hwibus_*.c,
      hwitag_*.c), over [SectionStore] and the strings; the structures of the SDK and the searches of
      the C library are parameters ([HwiHeader], [HwiLibc]).  [HwinfoTags] reads bytes as tags and
      items, [HwinfoItems] shows that the section always holds a list of items, [HwinfoOps] which tags
      each device gets, [HwinfoSet] that a tag is found again and set alone; [HwinfoWalk] has searches
      that satisfy what is assumed of the C library.

    - [Ram] models startup/lib/ram.c: the list of free RAM, the avoid list, [alloc_ram], [find_ram],
      the early workspace, and the carving of "sysram" out of the address-space table.  It
      implements the interface of [Pages] (class [PageAlloc], laws [PageAllocLaws]).

    - [Cmdline] models startup/lib/bootstrap_cmdline.c, the editing of the arguments and environment
      in the boot image; [Text] the number and size parsing (strtoul.c, getsize.c, get_freq of
      common_options.c) and the formatted printing (kprintf.c); [Getopt] getopt.c; [Clock] the
      calendar and timer arithmetic (gmtime.c, calc_time_t.c, bcd2bin.c, invert_timer_freq.c,
      timer_tick2ns.c, timer_ns2tick.c).

    - [Mmu] models startup/lib/arm/mmu_v7.c over physical memory (a finite map from addresses to
      words) and any [PageAlloc]: the two levels of ARMv7 page tables of each CPU.

    - The SDMA library, src/lib/dma/sdma, is the code drivers share.  [SdmaSys] holds its state, the
      operating system and the controller as interfaces ([Os], [SdmaDevice] with [SdmaDeviceLaws]),
      and models sync.c, irq.c, cmd.c and imx6x/script.c; [Sdma] models api.c and init.c; [SdmaXfer]
      holds the meaning of descriptor tables and of the interrupt handler.  [Libc] has the option
      scanning and number parsing of the C library it uses.

    - The Ethernet driver, devnp/mx6x, hands packets to its controller through a ring of descriptors.
      [Enet] is the transmit side as transmit.c, detect.c and event.c write it; [EnetRing] reads the
      ring as a queue of packets, with the controller as the environment that takes ready
      descriptors; [EnetOps] shows each call keeps the ring; [EnetRun] is the step relation of a
      running interface, with the theorems on all its states.  [EnetPtp] is its 1588 clock (ptp.c and
      the interrupts of event.c), and [EnetClock] lets time pass.  [EnetRx] is the receive side
      (receive.c, and the receive thread, queue and interrupt of detect.c and event.c) over mbufs and
      their clusters; [EnetRxRing] adds the controller that fills descriptors, [EnetRxOps] shows what
      each turn of the receive loop does, and [EnetRxRun] runs controller, interrupt, receive thread
      and the stack's thread in any order.

    - The serial flash driver, flash/boards/norspi, gives the flash file system an SPI chip.  [Nor] is
      f3s_spi_*.c and spi_cmds.c over the bus functions of the board (class [SpiPort]); [NorChip] says
      what the chip does ([NorChipLaws]) and what the driver relies on of the bus ([SpiLaws]);
      [NorFlash] reads the callouts as operations on an array of cells.  [Ecspi] models
      ecspi/arm/mxecspi.c, the bus, over registers, pulses and system calls, and [EcspiPort] shows from
      what the controller is documented to do ([EcspiLaws]) that it keeps [SpiLaws].

    - The block driver of the running system, devb/sdmmc, drives SD and MMC cards through its bus layer,
      sdiodi.  [Sdio] is the state of base.c and the commands both kinds of card have, over the function
      pointers of a controller (class [HostEntry]); [SdioConst] has its numbers, [SdioSd] is sd.c,
      [SdioMmc] mmc.c, [SdioBase] the rest of base.c: sending a command, waking, resetting and attaching
      a card, which call each other, and [SdioCard] card.c, with the removal of a card ([sdio_cd]) as a
      step relation.  [SdioFacts] shows what every function keeps, for any relation that its primitive
      steps keep (class [Frame]), and that it stops only at one of three faults of the code ([fault]);
      [SdioRun] and [SdioPool] use it, [SdioBits] is about registers as numbers.

    - The I2C driver, hardware/i2c/imx, is the library of a resource manager that sends to and receives
      from chips.  [I2c] models all of it: a call writes the address and waits for a pulse, the interrupt
      handler does the rest, byte by byte.  [I2cBus] shows on any machine that the calls return;
      [I2cXfer] says what the chips and the controller do ([I2cSlaves], [I2cLaws]) and shows that the
      calls are the transfers of the I2C specification; [I2cSpeed] is about the divider of the clock,
      [I2cInit] about what start and end take and give back.

    - [DemoMem], [DemoHwinfo], [DemoFat], [DemoSdmmc], [DemoMx], [DemoSdma],
      [DemoEnet], [DemoEnetRx], [DemoNor], [DemoSdio] and [DemoI2c] apply the theorems to concrete
      machines; [DemoMx], [DemoNor] and [DemoI2c] run the drivers on simulated controllers, register by
      register, [DemoSdio] the bus layer on a simulated card.

    ** Conventions

    A machine word is a [Z] kept in range by [wrap] ([u32], [u64], [signed]); memory is a list of bytes
    or a finite map.  A routine returns [res]: a value, or the reason it stops, which is [Crash] with
    the message of the code's [crash()], [BadAccess] for an access outside an array (or through a null
    pointer), or [NoFuel] for a fuelled loop that was not given enough.  Startup's routines pass their
    file's static variables explicitly; the SDMA library runs in the state monad [M].

    Fuel: a loop over a list gets the length of the list plus one; a FAT chain walk the number of
    clusters plus one; a FAT subtraction loop its first operand; option scanning the length of the
    string; the search of the address-space table its number of entries; the reaping of the transmit
    ring its number of descriptors; a call of [mx6q_receive] an element of its list of allocations for
    each turn, one more than there are descriptors; the years of a 32-bit time 137 ([gmtime_fuel]); the
    search for a free vector the bytes of the section plus one; [hwi_alloc_tag], which calls itself for
    padding, two levels ([pad_fuel]); the digits of an inverted frequency 19 ([invert_fuel]).  The wait
    for a pulse of the I2C driver serves at most as many interrupts as its transfer has bytes, and four;
    that for an idle bus has half its count, which goes down twice a round.  The functions of the bus
    layer call each other through [_sdio_send_cmd], three deep at most, which is the depth [send] has.
    The theorems show these are enough, by stating that the routine returns.

    Some waits have no bound in the code.  That for the SDMA's completion pulse ends when the system
    answers within [pulse_fuel] pulses ([OsLaws]); those of the card driver end when a card is done
    programming within [poll_fuel] polls ([card_ok]), and those of its controller when the registers
    settle within [mx_polls] reads ([MxLaws]).  The pulse the SPI driver waits for comes within
    [ecspi_fuel] pulses ([EcspiLaws]).  The loop of the bus layer that switches a card to 1.8 V takes
    two rounds for a card that offers it only when asked ([offers_if_asked]).  The wait for a card to
    power up is bounded by the code ([POWER_UP_WAIT]), that for a flash page too ([POLL_COUNT]).

    ** The theorems

    - [Mmu]: mapping and the page walk agree on every CPU, and other mappings are kept.
    - [Syspage]: a grown, relocated, placed or initial page is well formed; sections keep their
      contents and callout owners follow; the crash is exactly the overflow.
    - [Strings], [Asinfo]: tables stay consistent, offsets given out stay valid, searches return the
      first match or say there is none, ranges are split exactly over the containers.
    - [HwinfoItems], [HwinfoOps], [HwinfoSet]: sizes, owners and counts of children in the section are
      right after every allocation; a device has exactly the tags of its attributes; setting a tag
      finds the one asked for and changes nothing else.
    - [Ram]: the RAM list stays canonical and changes by exactly the block; what is allocated was
      free, aligned and not avoided; workspace blocks never overlap; the array limits are reached as
      stated.
    - [Fat]: the type is the one of the cluster count; the copied bytes are the cluster chain on the
      card; the search copies the first matching entry or reports an error.
    - [SdmmcCsd], [SdmmcRead]: any card that follows the specification is brought from any state into
      the transfer state, with its type and address known, and its capacity as far as the driver reads
      it: SD cards up to 32G and MMC cards up to 2G in full; a read writes exactly the blocks asked for
      (no more than the controller can count), or is refused if they are not all on the card.
      [MxSdhc], [MxDevice]: the programmed clock is the best one that is not too fast; the controller's
      functions keep the driver's interface.  [MxDisk]: a file comes from the card into memory as it is
      on the card, from any state, down to the registers.
    - [Sdma]: initialisation and attaching return, except that they fault for an option without its
      value or a type without a script, and give back what they took on every error path, but for a copy
      of the options; channel operations change only their own bits of shared registers; release frees
      what attach took.
    - [SdmaXfer]: the engine's walk over a programmed table is the list of fragments; the interrupt
      handler serves the lowest pending channel and no other.

    - [Cmdline]: an adjustment edits exactly its own list of strings.  [Text]: what is printed is read
      back.  [Getopt]: the calls are the parse of the command line.  [Clock]: a time that
      is split into a date is the time of that date; the inverted frequency and the nanoseconds of a
      tick are exact to the stated precision.
    - [EnetRun]: in every reachable state the ring is consistent, frames leave in order and once,
      packets come back once; the controller may work while a packet is loaded; everything accepted
      is sent; the calls return with one of the stated results.  The states are those of an interface
      that is stopped only when the controller is done ([step true]); [DemoEnet] shows what fails in the
      others.
    - [EnetRxRun]: what the stack gets is the frames of the controller, in order, whole and once each,
      except those counted as dropped; while the interface is up, the receive interrupt is never lost; a
      call of [mx6q_receive] ends.  In these states no allocation of an mbuf fails in the middle of a
      frame ([step false]); [DemoEnetRx] shows what happens then.  [EnetClock]: the time stamp of a
      message is exact whatever the order of the clock's interrupts, and is found again, if the clock is
      only set when its half-second flag agrees; the correction of the clock's rate, below its
      frequency, is the best there is.

    - [NorFlash], [EcspiPort]: every callout of the flash driver is a step of an array of cells that a
      write can only clear and an erase sets, or reports the fault of the bus; the bus functions are
      transactions with the chip; down to the registers, data written to an erased sector is read back.
    - [SdioRun], [SdioPool], [SdioCard], [SdioBits]: the functions of the bus layer and all operations of
      a client return with no command in progress, or stop at a fault; a card gets an application command
      only after its prefix; every command taken from the pool is given back;
      while the removal of a card runs no thread is within an operation on it, and it always gets to
      run; the capacity read from a card's register is the one the specification gives.

    - [I2cXfer], [I2cBus]: with a controller as its manual describes it, sending and receiving are the
      transfers of the specification with the chip that is set; on any controller they return, within
      their buffers.  [I2cSpeed]: the divider is the best of the table, where it has one.  [I2cInit]: a
      failed start gives back all but the mapping of the registers; [DemoI2c] shows what stays at the end.

    ** Not modelled

    Assembly (callouts, start-up vectors), register set-up sequences with no state, console output,
    cryptography taken from elsewhere, and the drivers over the io-audio, io-char and mtd
    frameworks, whose other half is not in the repository.  Of the block driver, its side towards the
    CAM framework (sim_sdmmc.c), its threads, options and scatter lists and the functions of its
    controllers (hc/) are left out.  Of the I2C driver, the mutex: its theorems are about one
    call at a time.  Of the Ethernet driver: the PHY and its media selection, the statistics registers, device control, and the build for the i.MX6 SoloX with
    three queues each way.  Within one turn of the receive loop the controller writes nothing; in the
    code it may write a new time stamp into the descriptor between the two moments when the turn gives
    it back and reads the stamp from it.  Growing the system page leaves out the hook that polls the
    mini drivers ([mdriver_check]).
    SDK constants and structure sizes are parameters ([struct_sizes], [as_header], [mmu_consts],
    [Os]).  Of image loading only the boot arguments are modelled: the checks of the loader read
    structures whose headers are not in the repository.  Of the card driver, writing is modelled as it
    is written -- it reads -- and has no theorem; the OMAP controller of the same interface is for other boards.

    ** This file

    Words and bit operations, outcomes, byte buffers, and the tactics and hint databases the other
    files share. *)

From Stdlib Require Export ZArith Lia List Bool Sorted.
From stdpp Require Export base list numbers strings option sets gmap sorting.

#[global] Open Scope Z_scope.

(** ** Machine words *)

(** [wrap w z] is the value an unsigned [w]-bit C object holds after [z] is stored in it. *)
Definition wrap (w z : Z) : Z := z mod 2 ^ w.

Abbreviation u8 := (wrap 8).
Abbreviation u16 := (wrap 16).
Abbreviation u32 := (wrap 32).
Abbreviation u64 := (wrap 64).

(** [signed w z]: the two's complement reading of the low [w] bits of [z]. *)
Definition signed (w z : Z) : Z :=
  let v := wrap w z in if v <? 2 ^ (w - 1) then v else v - 2 ^ w.

Abbreviation s32 := (signed 32).

(** [fits w z]: [z] is a value of an unsigned [w]-bit type. *)
Definition fits (w z : Z) : Prop := 0 <= z < 2 ^ w.

(** Bitwise complement at width [w], as C's [~] on an unsigned operand. *)
Definition bnot (w z : Z) : Z := wrap w (Z.lnot z).

(** Constants of startup.h: [KILO], [MEG], [GIG], the null physical addresses
    (64-bit [paddr_t], 32-bit [PADDR_T] on ARM) and the page size. *)
Definition KILO (k : Z) : Z := k * 1024.
Definition MEG (m : Z) : Z := m * (1024 * 1024).
Definition GIG (m : Z) : Z := m * (1024 * 1024 * 1024).
Definition NULL_PADDR : Z := 2 ^ 64 - 1.
Definition NULL_PADDR_STARTUP : Z := 2 ^ 32 - 1.
Definition PAGESIZE : Z := 4096.

(** [TRUNC]/[ROUND] of startup.h, with the wrap-around of [paddr_t] arithmetic. *)
Definition TRUNC (x a : Z) : Z := Z.land (u64 x) (bnot 64 (u64 (u64 a - 1))).
Definition ROUND (x a : Z) : Z := TRUNC (u64 (u64 x + u64 (u64 a - 1))) (u64 a).
Definition ROUNDPG (x : Z) : Z := ROUND x PAGESIZE.

(** ** Outcomes *)

(** How a modelled routine can stop: [crash()] with its message, an access outside
    the object it indexes, or (for the fuelled loops only) no fuel left. *)
Inductive err : Type :=
  | Crash (msg : string)
  | BadAccess
  | NoFuel.

Inductive res (A : Type) : Type :=
  | Ok (a : A)
  | Err (e : err).
Arguments Ok {A} _.
Arguments Err {A} _.

#[export] Instance res_ret : MRet res := fun A a => Ok a.
#[export] Instance res_bind : MBind res :=
  fun A B f m => match m with Ok a => f a | Err e => Err e end.

(** A partial lookup read as an access that must be in range. *)
Definition get_or_bad {A} (o : option A) : res A :=
  match o with Some a => Ok a | None => Err BadAccess end.

#[export] Instance err_eq_dec : EqDecision err.
Proof. solve_decision. Defined.

(** ** Automation *)

Create HintDb words.
Create HintDb zlen.

(** Case on the first boolean comparison of the goal or a hypothesis. *)
Ltac zbool :=
  repeat match goal with
  | H : context [Z.ltb ?a ?b] |- _ => destruct (Z.ltb_spec a b)
  | H : context [Z.leb ?a ?b] |- _ => destruct (Z.leb_spec a b)
  | H : context [Z.eqb ?a ?b] |- _ => destruct (Z.eqb_spec a b)
  | |- context [Z.ltb ?a ?b] => destruct (Z.ltb_spec a b)
  | |- context [Z.leb ?a ?b] => destruct (Z.leb_spec a b)
  | |- context [Z.eqb ?a ?b] => destruct (Z.eqb_spec a b)
  end.

(** Split a goal on the conditionals of the code it mentions. *)
Ltac split_ifs :=
  repeat match goal with
  | |- context [if ?b then _ else _] => destruct b eqn:?
  end.

Ltac inv_res H :=
  match type of H with
  | Ok _ = Ok _ => injection H as H; try subst
  | Err _ = Ok _ => discriminate H
  | Ok _ = Err _ => discriminate H
  end.

(** ** Words: the lemmas the components share *)

Lemma wrap_fits w z : 0 <= w -> fits w (wrap w z).
Proof. intros. apply Z.mod_pos_bound. lia. Qed.

Lemma wrap_id w z : fits w z -> wrap w z = z.
Proof. apply Z.mod_small. Qed.

Lemma wrap_wrap w z : wrap w (wrap w z) = wrap w z.
Proof. unfold wrap. apply Zmod_mod. Qed.

Lemma wrap_land w z : 0 <= w -> wrap w z = Z.land z (Z.ones w).
Proof. intros. symmetry. apply Z.land_ones. lia. Qed.

Lemma signed_id w z : 0 < w -> 0 <= z < 2 ^ (w - 1) -> signed w z = z.
Proof.
  intros Hw Hz. unfold signed.
  assert (2 ^ w = 2 * 2 ^ (w - 1)) by (rewrite <- Z.pow_succ_r by lia; f_equal; lia).
  rewrite wrap_id by (unfold fits; lia). zbool; lia.
Qed.

Lemma land_bnot_pow2 x k :
  fits 64 x -> 0 <= k < 64 -> Z.land x (bnot 64 (2 ^ k - 1)) = x - x mod 2 ^ k.
Proof.
  intros Hx Hk. unfold bnot. rewrite wrap_land by lia.
  rewrite (Z.land_comm (Z.lnot _)), Z.land_assoc, <- wrap_land by lia.
  rewrite wrap_id by done.
  replace (2 ^ k - 1) with (Z.ones k) by (rewrite Z.ones_equiv; lia).
  rewrite <- Z.ldiff_land, Z.ldiff_ones_r by lia.
  rewrite Z.shiftl_mul_pow2, Z.shiftr_div_pow2 by lia.
  pose proof (Z.div_mod x (2 ^ k) ltac:(lia)). lia.
Qed.

Lemma TRUNC_pow2 x k :
  fits 64 x -> 0 <= k < 64 -> TRUNC x (2 ^ k) = x - x mod 2 ^ k.
Proof.
  intros Hx Hk. unfold TRUNC.
  assert (1 <= 2 ^ k < 2 ^ 64).
  { split; [apply (Z.pow_le_mono_r 2 0 k); lia | apply Z.pow_lt_mono_r; lia]. }
  rewrite (wrap_id 64 x), (wrap_id 64 (2 ^ k)) by (unfold fits in *; lia).
  rewrite wrap_id by (unfold fits; lia). apply land_bnot_pow2; done.
Qed.

(** Rounding up to a power of two, when it does not overflow 64 bits. *)
Lemma ROUND_pow2 x k :
  0 <= x -> 0 <= k < 64 -> x + 2 ^ k - 1 < 2 ^ 64 ->
  ROUND x (2 ^ k) = (x + 2 ^ k - 1) - (x + 2 ^ k - 1) mod 2 ^ k.
Proof.
  intros Hx Hk Hb. unfold ROUND.
  assert (1 <= 2 ^ k < 2 ^ 64).
  { split; [apply (Z.pow_le_mono_r 2 0 k); lia | apply Z.pow_lt_mono_r; lia]. }
  rewrite (wrap_id 64 x), (wrap_id 64 (2 ^ k)) by (unfold fits; lia).
  rewrite (wrap_id 64 (2 ^ k - 1)) by (unfold fits; lia).
  rewrite wrap_id by (unfold fits; lia).
  rewrite TRUNC_pow2 by (unfold fits; lia). f_equal; [lia|]. f_equal. lia.
Qed.

Lemma ROUND_bounds x k :
  0 <= x -> 0 <= k < 64 -> x + 2 ^ k - 1 < 2 ^ 64 ->
  x <= ROUND x (2 ^ k) < x + 2 ^ k /\ ROUND x (2 ^ k) mod 2 ^ k = 0.
Proof.
  intros Hx Hk Hb. rewrite ROUND_pow2 by done.
  assert (0 < 2 ^ k) by (apply Z.pow_pos_nonneg; lia).
  pose proof (Z.mod_pos_bound (x + 2 ^ k - 1) (2 ^ k) ltac:(lia)). split; [lia|].
  rewrite Zminus_mod_idemp_r, Z.sub_diag. apply Z.mod_0_l. lia.
Qed.

Lemma ROUND_ge_0 x a : 0 <= ROUND x a.
Proof.
  unfold ROUND, TRUNC. apply Z.land_nonneg. left.
  pose proof (wrap_fits 64 (u64 (u64 x + u64 (u64 a - 1))) ltac:(lia)). unfold fits in *. lia.
Qed.

(** Single-bit masks. *)
Lemma land_pow2_testbit x n : 0 <= n -> Z.land x (2 ^ n) = 0 <-> Z.testbit x n = false.
Proof.
  intros Hn. split; intros Hx.
  - assert (Hb : Z.testbit (Z.land x (2 ^ n)) n = false) by (by rewrite Hx, Z.bits_0).
    by rewrite Z.land_spec, Z.pow2_bits_true, andb_true_r in Hb.
  - apply Z.bits_inj'. intros i Hi. rewrite Z.land_spec, Z.bits_0.
    destruct (decide (i = n)) as [->|]; [by rewrite Hx|].
    by rewrite Z.pow2_bits_false, andb_false_r by done.
Qed.

Lemma testbit_bnot w z i :
  0 <= w -> 0 <= i -> Z.testbit (bnot w z) i = (i <? w) && negb (Z.testbit z i).
Proof.
  intros Hw Hi. unfold bnot. rewrite wrap_land, Z.land_spec, Z.lnot_spec, Z.testbit_ones by lia.
  rewrite (proj2 (Z.leb_le 0 i)) by done. cbn [andb]. apply andb_comm.
Qed.

(** Bitwise operations and division by a power of two. *)
Lemma lor_div x y k : 0 <= k -> Z.lor x y / 2 ^ k = Z.lor (x / 2 ^ k) (y / 2 ^ k).
Proof. intros. rewrite <- !Z.shiftr_div_pow2 by done. apply Z.shiftr_lor. Qed.

Lemma land_div x y k : 0 <= k -> Z.land x y / 2 ^ k = Z.land (x / 2 ^ k) (y / 2 ^ k).
Proof. intros. rewrite <- !Z.shiftr_div_pow2 by done. apply Z.shiftr_land. Qed.

(** Adding bits below the [k]-th to a word does not change what is above. *)
Lemma lor_low x a k : 0 <= k -> 0 <= a < 2 ^ k -> Z.lor x a / 2 ^ k = x / 2 ^ k.
Proof. intros. rewrite lor_div, (Z.div_small a) by done. apply Z.lor_0_r. Qed.

Lemma fits_div w x : 0 <= w -> fits w x <-> 0 <= x /\ x / 2 ^ w = 0.
Proof.
  intros Hw. unfold fits. assert (0 < 2 ^ w) by (apply Z.pow_pos_nonneg; lia). split.
  - intros. split; [lia|]. by apply Z.div_small.
  - intros [H0 Hd]. apply Z.div_small_iff in Hd; lia.
Qed.

Lemma fits_lor w x y : 0 <= w -> fits w x -> fits w y -> fits w (Z.lor x y).
Proof.
  intros Hw [Hx0 Hx]%fits_div [Hy0 Hy]%fits_div; try done. apply fits_div; [done|].
  split; [by apply Z.lor_nonneg|]. by rewrite lor_div, Hx, Hy.
Qed.

Lemma fits_land w x y : 0 <= w -> fits w x -> 0 <= y -> fits w (Z.land x y).
Proof.
  intros Hw [Hx0 Hx]%fits_div Hy; try done. apply fits_div; [done|].
  split; [apply Z.land_nonneg; tauto|]. by rewrite land_div, Hx.
Qed.

(** Two pieces of a field, put together. *)
Lemma lor_pieces a b n : 0 <= n -> 0 <= b < 2 ^ n -> Z.lor (Z.shiftl a n) b = a * 2 ^ n + b.
Proof.
  intros Hn Hb. rewrite Z.shiftl_mul_pow2, <- Z.add_lor_land by done.
  replace (Z.land (a * 2 ^ n) b) with 0; [lia|]. symmetry. apply Z.bits_inj'. intros i Hi.
  rewrite Z.land_spec, Z.bits_0. destruct (Z.ltb_spec i n).
  - rewrite Z.mul_pow2_bits_low by lia. done.
  - rewrite <- (Z.mod_small b (2 ^ n)) by done. rewrite Z.mod_pow2_bits_high by lia. apply andb_false_r.
Qed.

(** Masking with the complement of bits below the [k]-th. *)
Lemma land_bnot_low w x m k :
  0 <= k <= w -> fits w x -> 0 <= m < 2 ^ k -> Z.land x (bnot w m) / 2 ^ k = x / 2 ^ k.
Proof.
  intros Hk Hx Hm. apply Z.bits_inj'. intros i Hi.
  rewrite <- !Z.shiftr_div_pow2, !Z.shiftr_spec, Z.land_spec, testbit_bnot by lia.
  destruct (Z.ltb_spec (i + k) w) as [Hiw|Hiw].
  - assert (Z.testbit m (i + k) = false) as ->; [|by rewrite andb_true_r].
    rewrite <- (Z.mod_small m (2 ^ k)) by done. apply Z.mod_pow2_bits_high. lia.
  - rewrite <- (Z.mod_small x (2 ^ w)) by done. rewrite Z.mod_pow2_bits_high; [done|lia].
Qed.

Lemma land_bnot_ones w x k :
  0 <= k <= w -> fits w x -> Z.land x (bnot w (2 ^ k - 1)) = 2 ^ k * (x / 2 ^ k).
Proof.
  intros Hk Hx. apply Z.bits_inj'. intros i Hi.
  rewrite Z.land_spec, testbit_bnot, Z.mul_comm, Z.mul_pow2_bits by lia.
  replace (2 ^ k - 1) with (Z.ones k) by (rewrite Z.ones_equiv; lia). rewrite Z.testbit_ones by lia.
  rewrite (proj2 (Z.leb_le 0 i)) by done. cbn [andb].
  destruct (Z.ltb_spec i k) as [Hik|Hik]; cbn [negb].
  - rewrite !andb_false_r. symmetry. apply Z.testbit_neg_r. lia.
  - rewrite andb_true_r, <- Z.shiftr_div_pow2, Z.shiftr_spec by lia.
    replace (i - k + k) with i by lia. destruct (Z.ltb_spec i w); [by rewrite andb_true_r|].
    rewrite <- (Z.mod_small x (2 ^ w)) by done. by rewrite Z.mod_pow2_bits_high by lia.
Qed.

#[export] Hint Resolve wrap_fits ROUND_ge_0 : words.

(** ** Byte strings and buffers *)

(** Memory is read and written as lists of byte values; an index is a [Z], and an
    access outside the buffer has no value. *)
Definition byte_at (m : list Z) (i : Z) : option Z :=
  if i <? 0 then None else m !! Z.to_nat i.

Definition set_byte (m : list Z) (i v : Z) : list Z := <[Z.to_nat i := u8 v]> m.

(** [splice m i bs] overwrites [m] from offset [i] with [bs]; [zeros n] is a
    cleared block. *)
Definition splice (m : list Z) (i : Z) (bs : list Z) : list Z :=
  take (Z.to_nat i) m ++ bs ++ drop (Z.to_nat i + length bs) m.

(** The characters of a string constant. *)
Definition chars (s : string) : list Z :=
  map (fun a => Z.of_N (Ascii.N_of_ascii a)) (String.list_ascii_of_string s).

Definition zeros (n : Z) : list Z := replicate (Z.to_nat n) 0.

Definition zlen {A} (l : list A) : Z := Z.of_nat (length l).

(** The [n] bytes of [m] at offset [i]. *)
Definition slice (m : list Z) (i n : Z) : list Z :=
  take (Z.to_nat n) (drop (Z.to_nat i) m).

(** Little-endian words in memory. *)
Fixpoint le_word (bs : list Z) : Z :=
  match bs with [] => 0 | b :: r => b + 256 * le_word r end.

Fixpoint le_bytes (n : nat) (v : Z) : list Z :=
  match n with O => [] | S n => v mod 256 :: le_bytes n (v / 256) end.

Lemma length_le_bytes n v : length (le_bytes n v) = n.
Proof. revert v; induction n; intros; cbn [le_bytes length]; auto. Qed.

Lemma le_word_bytes n v : le_word (le_bytes n v) = v mod 2 ^ (8 * Z.of_nat n).
Proof.
  revert v; induction n as [|n IH]; intros v.
  - cbn. symmetry. apply Z.mod_1_r.
  - cbn [le_bytes le_word]. rewrite IH.
    replace (8 * Z.of_nat (S n)) with (8 + 8 * Z.of_nat n) by lia.
    rewrite Z.pow_add_r by lia. rewrite Z.rem_mul_r by lia. done.
Qed.

Lemma insert_middle {A} (l1 l2 : list A) (x y : A) :
  <[length l1 := y]> (l1 ++ x :: l2) = l1 ++ y :: l2.
Proof. induction l1 as [|z l1 IH]; [done|]. exact (f_equal (cons z) IH). Qed.

Lemma zlen_nonneg {A} (l : list A) : 0 <= zlen l.
Proof. unfold zlen. lia. Qed.

Lemma zlen_app {A} (l k : list A) : zlen (l ++ k) = zlen l + zlen k.
Proof. unfold zlen. rewrite length_app. lia. Qed.

Lemma zlen_cons {A} (x : A) l : zlen (x :: l) = zlen l + 1.
Proof. unfold zlen. cbn [length]. lia. Qed.

Lemma zlen_nil {A} : zlen (@nil A) = 0.
Proof. done. Qed.

Lemma zlen_zeros n : 0 <= n -> zlen (zeros n) = n.
Proof. intros. unfold zlen, zeros. rewrite length_replicate. lia. Qed.

#[export] Hint Rewrite @zlen_app @zlen_cons @zlen_nil : zlen.

(** Compute the length of concatenations, everywhere. *)
Ltac zlen_simpl := cbn [app] in *; autorewrite with zlen in *.
