(* ===== verification/Sections.v ===== *)
(** * Sections: what the system page promises to the code that fills its sections.

    The string, typed-string, address-space and hardware-information code only use a section
    through its bytes, [grow_syspage_section] and stores inside it.  [SectionStore] names those
    operations and [SectionLaws] what they guarantee; Syspage.v implements them. *)

From S2P Require Import Prelude.

(** The sections of the system page, by their place in [struct local_syspage]. *)
Definition SEC_syspage : nat := 0.
Definition SEC_system_private : nat := 1.
Definition SEC_meminfo : nat := 2.
Definition SEC_asinfo : nat := 3.
Definition SEC_hwinfo : nat := 4.
Definition SEC_cpuinfo : nat := 5.
Definition SEC_cacheattr : nat := 6.
Definition SEC_qtime : nat := 7.
Definition SEC_callout : nat := 8.
Definition SEC_callin : nat := 9.
Definition SEC_typed_strings : nat := 10.
Definition SEC_strings : nat := 11.
Definition SEC_intrinfo : nat := 12.
Definition SEC_smp : nat := 13.
Definition SEC_pminfo : nat := 14.
Definition SEC_mdriver : nat := 15.

Class SectionStore (St : Type) := {
  st_wf : St -> Prop;
  st_has : St -> nat -> Prop;
  st_bytes : St -> nat -> list Z;
  st_room : St -> Z;
  st_grow : St -> nat -> Z -> res St;
  st_write : St -> nat -> Z -> list Z -> St
}.

(** [s'] is [s] with the bytes of section [i] replaced by [bs] and [n] bytes of room used. *)
Record updated {St} `{SectionStore St} (s s' : St) (i : nat) (bs : list Z) (n : Z) : Prop := {
  up_wf : st_wf s';
  up_has : forall j, st_has s j -> st_has s' j;
  up_room : st_room s' = st_room s - n;
  up_bytes : st_bytes s' i = bs;
  up_others : forall j, j <> i -> st_bytes s' j = st_bytes s j
}.

Class SectionLaws (St : Type) `{SectionStore St} : Prop := {
  law_grow : forall s i add,
    st_wf s -> st_has s i -> 0 < add < 2 ^ 31 -> ROUND add 8 <= st_room s ->
    exists s', st_grow s i add = Ok s' /\
      updated s s' i (st_bytes s i ++ zeros (ROUND add 8)) (ROUND add 8);
  law_write : forall s i off bs,
    st_wf s -> st_has s i -> 0 <= off -> off + zlen bs <= zlen (st_bytes s i) ->
    updated s (st_write s i off bs) i (splice (st_bytes s i) off bs) 0;
  law_bound : forall s i, st_wf s -> 0 <= st_room s /\ zlen (st_bytes s i) + st_room s < 2 ^ 32
}.

Lemma updated_trans {St} `{SectionStore St} s1 s2 s3 i b1 b2 n1 n2 :
  updated s1 s2 i b1 n1 -> updated s2 s3 i b2 n2 -> updated s1 s3 i b2 (n1 + n2).
Proof.
  intros [? ? ? ? ?] [? ? ? ? ?]. split; auto; [lia|].
  intros j Hj. by rewrite up_others1, up_others0.
Qed.

Lemma updated_refl {St} `{SectionStore St} s i :
  st_wf s -> updated s s i (st_bytes s i) 0.
Proof. split; auto; lia. Qed.

(** ** C strings in a section *)

(** [strlen] and [strcmp(...) == 0] on the memory from a pointer on; no value when the
    memory ends before the terminating NUL. *)
Fixpoint strlen (m : list Z) : option Z :=
  match m with
  | [] => None
  | b :: r => if b =? 0 then Some 0 else n ← strlen r; Some (n + 1)
  end.

Fixpoint streq (name m : list Z) : option bool :=
  match m with
  | [] => None
  | b :: r =>
      match name with
      | [] => Some (b =? 0)
      | c :: name' => if b =? c then streq name' r else Some false
      end
  end.

(** The string that starts the memory [m]. *)
Fixpoint cstr (m : list Z) : list Z :=
  match m with
  | [] => []
  | b :: r => if b =? 0 then [] else b :: cstr r
  end.

(** A C string's characters: no NUL among them. *)
Definition cname (n : list Z) : Prop := Forall (fun b => 0 < b < 256) n.

#[export] Instance cname_dec n : Decision (cname n).
Proof. unfold cname. apply _. Defined.

Lemma strlen_cname n r : cname n -> strlen (n ++ 0 :: r) = Some (zlen n).
Proof.
  induction 1 as [|b n Hb _ IH]; [done|]. cbn [app strlen]. zbool; [lia|].
  rewrite IH. cbn. f_equal. unfold zlen. cbn [length]. lia.
Qed.

Lemma cstr_cname n r : cname n -> cstr (n ++ 0 :: r) = n.
Proof.
  induction 1 as [|b n Hb _ IH]; [done|]. cbn [app cstr]. zbool; [lia|]. by rewrite IH.
Qed.

Lemma streq_cname name n r :
  cname name -> cname n -> streq name (n ++ 0 :: r) = Some (bool_decide (n = name)).
Proof.
  intros Hname Hn. revert name Hname. induction Hn as [|b n Hb _ IH]; intros name Hname.
  - destruct Hname as [|c name Hc _]; [done|]. cbn [app streq].
    zbool; [lia|]. by rewrite bool_decide_false.
  - destruct Hname as [|c name Hc Hname]; cbn [app streq].
    + zbool; [lia|]. by rewrite bool_decide_false.
    + zbool; subst.
      * rewrite IH by done. f_equal. apply bool_decide_ext. split; congruence.
      * rewrite bool_decide_false; congruence.
Qed.

(** ** Overwriting inside a buffer *)

Lemma zlen_splice m off bs :
  0 <= off -> off + zlen bs <= zlen m -> zlen (splice m off bs) = zlen m.
Proof.
  unfold splice, zlen. intros. rewrite !length_app, length_take, length_drop. lia.
Qed.

Lemma splice_at a old bs r :
  zlen old = zlen bs -> splice (a ++ old ++ r) (zlen a) bs = a ++ bs ++ r.
Proof.
  unfold splice, zlen. intros H. rewrite Nat2Z.id, take_app_length.
  f_equal. f_equal. rewrite app_assoc, drop_app_length'; [done|].
  rewrite length_app. lia.
Qed.

Lemma drop_app_zlen {A} (a r : list A) : drop (Z.to_nat (zlen a)) (a ++ r) = r.
Proof. unfold zlen. rewrite Nat2Z.id. apply drop_app_length. Qed.

Lemma byte_at_app a b r : byte_at (a ++ b :: r) (zlen a) = Some b.
Proof.
  unfold byte_at. pose proof (zlen_nonneg a). zbool; [lia|].
  unfold zlen. rewrite Nat2Z.id. apply list_lookup_middle. done.
Qed.

Lemma zeros_split a b : 0 <= a -> 0 <= b -> zeros (a + b) = zeros a ++ zeros b.
Proof. intros. unfold zeros. rewrite Z2Nat.inj_add, replicate_add by lia. done. Qed.

Lemma zeros_S k : 0 < k -> zeros k = 0 :: zeros (k - 1).
Proof.
  intros. unfold zeros. replace (Z.to_nat k) with (S (Z.to_nat (k - 1))) by lia. done.
Qed.

(** ** Reading parts of a buffer *)

Lemma slice_app_left (a b : list Z) q k :
  0 <= q -> 0 <= k -> q + k <= zlen a -> slice (a ++ b) q k = slice a q k.
Proof.
  unfold slice, zlen. intros. rewrite drop_app_le by lia.
  rewrite take_app_le; [done|]. rewrite length_drop. lia.
Qed.

Lemma slice_app_right (a b : list Z) q k :
  zlen a <= q -> slice (a ++ b) q k = slice b (q - zlen a) k.
Proof.
  unfold slice, zlen. intros. rewrite drop_app_ge by lia. f_equal. f_equal. lia.
Qed.

Lemma slice_parts (m : list Z) p n :
  0 <= p -> 0 <= n -> p + n <= zlen m ->
  exists a b, m = a ++ slice m p n ++ b /\ zlen a = p /\ zlen (slice m p n) = n.
Proof.
  intros. exists (take (Z.to_nat p) m), (drop (Z.to_nat n) (drop (Z.to_nat p) m)).
  unfold slice, zlen in *. rewrite !take_drop. split; [done|].
  rewrite !length_take, length_drop. lia.
Qed.

Lemma splice_mid a x (b : list Z) off bs :
  0 <= off -> off + zlen bs <= zlen x ->
  splice (a ++ x ++ b) (zlen a + off) bs = a ++ splice x off bs ++ b.
Proof.
  intros. unfold splice. unfold zlen in *.
  replace (Z.to_nat (Z.of_nat (length a) + off)) with (length a + Z.to_nat off)%nat by lia.
  rewrite take_app_add, <- Nat.add_assoc, drop_app_add'; [|lia].
  replace (length a + (Z.to_nat off + length bs) - length a)%nat
    with (Z.to_nat off + length bs)%nat by lia.
  rewrite (take_app_le x), (drop_app_le x) by lia. by rewrite <- !app_assoc.
Qed.

(** Overwriting two adjacent ranges one after the other. *)
Lemma splice_splice (m : list Z) off a b :
  0 <= off <= zlen m -> splice (splice m off a) (off + zlen a) b = splice m off (a ++ b).
Proof.
  unfold splice, zlen. intros Hoff.
  assert (Hl : length (take (Z.to_nat off) m) = Z.to_nat off) by (rewrite length_take; lia).
  replace (Z.to_nat (off + Z.of_nat (length a))) with (Z.to_nat off + length a)%nat by lia.
  set (t := take (Z.to_nat off) m) in *. set (r := drop _ m).
  assert (Hta : take (Z.to_nat off + length a) (t ++ a ++ r) = t ++ a)
    by (rewrite app_assoc; apply take_app_length'; rewrite length_app; lia).
  assert (Hdr : drop (Z.to_nat off + length a + length b) (t ++ a ++ r) = drop (length b) r)
    by (rewrite app_assoc, drop_app_ge by (rewrite length_app; lia); f_equal; rewrite length_app; lia).
  rewrite Hta, Hdr. unfold r. rewrite drop_drop, <- !app_assoc, length_app.
  do 3 f_equal. f_equal. lia.
Qed.

Lemma splice_nil (m : list Z) off : splice m off [] = m.
Proof. unfold splice. cbn. by rewrite Nat.add_0_r, take_drop. Qed.

Lemma slice_splice (m d : list Z) a :
  0 <= a -> a + zlen d <= zlen m -> slice (splice m a d) a (zlen d) = d.
Proof.
  intros Ha Hd. unfold slice, splice, zlen in *. rewrite Nat2Z.id.
  rewrite drop_app_length' by (rewrite length_take; lia). apply take_app_length.
Qed.

(** Byte by byte. *)
Lemma lookup_splice (m : list Z) off bs i :
  0 <= off -> off + zlen bs <= zlen m ->
  splice m off bs !! i =
    if decide (Z.to_nat off <= i < Z.to_nat off + length bs)%nat then bs !! (i - Z.to_nat off)%nat
    else m !! i.
Proof.
  unfold splice, zlen. intros H0 H1.
  assert (Hl : length (take (Z.to_nat off) m) = Z.to_nat off) by (rewrite length_take; lia).
  destruct (decide (i < Z.to_nat off)%nat).
  - rewrite lookup_app_l by lia. rewrite lookup_take, !decide_True by lia.
    rewrite decide_False by lia. done.
  - rewrite lookup_app_r, Hl by lia. destruct (decide (i < Z.to_nat off + length bs)%nat).
    + rewrite decide_True, lookup_app_l by lia. done.
    + rewrite decide_False, lookup_app_r, lookup_drop by lia. f_equal. lia.
Qed.

Lemma slice_lookup (m : list Z) off n i :
  (i < Z.to_nat n)%nat -> slice m off n !! i = m !! (Z.to_nat off + i)%nat.
Proof. intros. unfold slice. by rewrite lookup_take, decide_True, lookup_drop by lia. Qed.

(** Words read and written back. *)
Lemma le_bytes_word l : Forall (fits 8) l -> le_bytes (length l) (le_word l) = l.
Proof.
  induction 1 as [|b l Hb Hl IH]; [done|]. cbn [length le_bytes le_word]. unfold fits in Hb.
  replace ((b + 256 * le_word l) mod 256) with b by (Z.to_euclidean_division_equations; lia).
  replace ((b + 256 * le_word l) / 256) with (le_word l) by (Z.to_euclidean_division_equations; lia).
  by rewrite IH.
Qed.
