(* ===== verification/Syspage.v ===== *)
(** * Syspage: the temporary system page and its sections (startup/lib/syspage_memory.c,
    callout relocation of startup/lib/callouts.c).

    The page is one block of memory; every section of [struct local_syspage] is a pointer
    and a size into it.  Growing a section opens a gap at its end and moves everything above,
    so the pointers of the other sections and the registered callout owners must follow.

    Left out is the call of [mdriver_check] at the start of a growth, the hook that polls the mini
    drivers (by default a function that does nothing).  The [total_size] and [size] members and the
    sizes of the sections are members of the state here; in the code the first two lie at the head of
    the page itself, in a section that no growth moves. *)

From S2P Require Import Prelude.
From S2P Require Import Sections.

(** ** State *)

(** A [local_section]: the address of the section and its size in bytes. *)
Record sect := mk_sect { sec_p : Z; sec_size : Z }.

(** [sy_mem] holds the [total_size] bytes at [lsp.syspage.p]; [sy_total] and [sy_max] are
    the [total_size] and [size] fields kept at its head; [sy_patch] lists the [u.owner]
    addresses of the callout data registered so far. *)
Record syspage := mk_syspage {
  sy_base : Z;
  sy_mem : list Z;
  sy_total : Z;
  sy_max : Z;
  sy_fixed : Z;
  sy_lsp : list sect;
  sy_patch : list Z
}.

(** Sixteen generic sections and the one ARM adds in [cpu_local_syspage]. *)
Definition NSECT : nat := 17.

(** ** Operations *)

(** [callout_reloc_data]: owners inside [base, base+len) move by [diff]. *)
Definition callout_reloc_data (patch : list Z) (base len diff : Z) : list Z :=
  map (fun owner => if (base <=? owner) && (owner <? u32 (base + len))
                    then u32 (owner + diff) else owner) patch.

Definition too_big : string := "Syspage memory request exceeds maximum".

(** The pointer update of [grow_syspage_section]: every other section at or above
    [bottom] moves up by [add]; section [i] keeps its place and gains [add] bytes. *)
Definition shift_sections (i : nat) (bottom add : Z) (lsp : list sect) : list sect :=
  imap (fun j s2 =>
    if decide (j = i) then mk_sect (sec_p s2) (u32 (sec_size s2 + add))
    else if bottom <=? sec_p s2 then mk_sect (u32 (sec_p s2 + add)) (sec_size s2)
    else s2) lsp.

Definition grow_syspage_section (s : syspage) (i : nat) (add : Z) : res syspage :=
  if 0 <? add then
    let add := u32 (ROUND add 8) in
    let new_size := u32 (sy_total s + add) in
    if sy_max s <? new_size then Err (Crash too_big)
    else
      sect ← get_or_bad (sy_lsp s !! i);
      let bottom := u32 (sec_p sect + sec_size sect) in
      let at_ := bottom - sy_base s in
      let len := u32 (sy_total s - at_) in
      mret {| sy_base := sy_base s;
              sy_mem := take (Z.to_nat at_) (sy_mem s) ++ zeros add
                          ++ drop (Z.to_nat at_) (sy_mem s);
              sy_total := new_size;
              sy_max := sy_max s;
              sy_fixed := sy_fixed s;
              sy_lsp := shift_sections i bottom add (sy_lsp s);
              sy_patch := callout_reloc_data (sy_patch s) bottom len add |}
  else mret s.

(** [set_syspage_section]: place the section at the end of the fixed ones, then grow it. *)
Definition set_syspage_section (s : syspage) (i : nat) (size : Z) : res syspage :=
  let size := u32 (ROUND size 8) in
  sect ← get_or_bad (sy_lsp s !! i);
  let s1 := {| sy_base := sy_base s; sy_mem := sy_mem s; sy_total := sy_total s;
               sy_max := sy_max s; sy_fixed := u32 (sy_fixed s + size);
               sy_lsp := <[i := mk_sect (u32 (sy_base s + sy_fixed s)) (sec_size sect)]>
                           (sy_lsp s);
               sy_patch := sy_patch s |} in
  grow_syspage_section s1 i size.

(** Sizes of the kernel's structures, which the SDK's headers define. *)
Record struct_sizes := {
  sz_syspage_entry : Z; sz_callout_entry : Z; sz_callin_entry : Z; sz_hwi_prefix : Z
}.

(** [init_syspage_memory], up to the calls into the architecture and hwinfo code. *)
Definition init_syspage_memory (sz : struct_sizes) (base max_size : Z) : res syspage :=
  let spsize := u32 (ROUND (sz_syspage_entry sz) 8) in
  let s0 := {| sy_base := base; sy_mem := zeros spsize; sy_total := spsize;
               sy_max := max_size; sy_fixed := spsize;
               sy_lsp := <[SEC_syspage := mk_sect base spsize]>
                           (replicate NSECT (mk_sect (u32 (base + spsize)) 0));
               sy_patch := [] |} in
  s1 ← set_syspage_section s0 SEC_callout (sz_callout_entry sz);
  s2 ← set_syspage_section s1 SEC_callin (sz_callin_entry sz);
  s3 ← grow_syspage_section s2 SEC_typed_strings 4;
  s4 ← grow_syspage_section s3 SEC_strings 1;
  grow_syspage_section s4 SEC_hwinfo (sz_hwi_prefix sz).

(** [reloc_syspage_memory]: the whole page moves to [base]. *)
Definition reloc_syspage_memory (s : syspage) (base max_size : Z) : syspage :=
  let diff := base - sy_base s in
  {| sy_base := u32 (sy_base s + diff); sy_mem := sy_mem s; sy_total := sy_total s;
     sy_max := max_size; sy_fixed := sy_fixed s;
     sy_lsp := map (fun sc => mk_sect (u32 (sec_p sc + diff)) (sec_size sc)) (sy_lsp s);
     sy_patch := callout_reloc_data (sy_patch s) (sy_base s) (sy_total s) diff |}.

(** ** Contents and well-formedness *)

(** The bytes section [j] holds. *)
Definition sec_bytes (s : syspage) (j : nat) : list Z :=
  match sy_lsp s !! j with
  | Some sc => slice (sy_mem s) (sec_p sc - sy_base s) (sec_size sc)
  | None => []
  end.

(** Store [bs] at offset [off] of section [j] (an assignment through its pointer). *)
Definition sec_write (s : syspage) (j : nat) (off : Z) (bs : list Z) : syspage :=
  match sy_lsp s !! j with
  | Some sc => {| sy_base := sy_base s;
                  sy_mem := splice (sy_mem s) (sec_p sc - sy_base s + off) bs;
                  sy_total := sy_total s; sy_max := sy_max s; sy_fixed := sy_fixed s;
                  sy_lsp := sy_lsp s; sy_patch := sy_patch s |}
  | None => s
  end.

(** Where an address inside the page lies: section and offset. *)
Definition points_to (s : syspage) (a : Z) (j : nat) (off : Z) : Prop :=
  exists sc, sy_lsp s !! j = Some sc /\ a = sec_p sc + off /\ 0 <= off < sec_size sc.

Definition sect_disjoint (a b : sect) : Prop :=
  sec_p a + sec_size a <= sec_p b \/ sec_p b + sec_size b <= sec_p a.

Record sy_wf (s : syspage) : Prop := {
  wf_mem : zlen (sy_mem s) = sy_total s;
  wf_base : 0 <= sy_base s;
  wf_total : 0 <= sy_total s <= sy_max s;
  wf_max : sy_base s + sy_max s < 2 ^ 32;
  wf_range : forall j sc, sy_lsp s !! j = Some sc ->
    sy_base s <= sec_p sc /\ 0 <= sec_size sc /\
    sec_p sc + sec_size sc <= sy_base s + sy_total s;
  wf_disj : forall j k a b, sy_lsp s !! j = Some a -> sy_lsp s !! k = Some b -> j <> k ->
    sect_disjoint a b
}.

(** ** Lemmas on memory blocks *)

Lemma slice_insert_below m k z off n :
  0 <= off -> 0 <= n -> off + n <= k -> k <= zlen m ->
  slice (take (Z.to_nat k) m ++ z ++ drop (Z.to_nat k) m) off n = slice m off n.
Proof.
  unfold slice, zlen. intros.
  rewrite drop_app_le by (rewrite length_take; lia).
  rewrite take_app_le by (rewrite length_drop, length_take; lia).
  rewrite skipn_firstn_comm, take_take. f_equal. lia.
Qed.

Lemma slice_insert_above m k (z : list Z) off n :
  0 <= k <= off -> k <= zlen m ->
  slice (take (Z.to_nat k) m ++ z ++ drop (Z.to_nat k) m) (off + zlen z) n = slice m off n.
Proof.
  unfold slice, zlen. intros. f_equal.
  rewrite app_assoc, drop_app_ge by (rewrite length_app, length_take; lia).
  rewrite drop_drop. f_equal. rewrite length_app, length_take. lia.
Qed.

Lemma slice_insert_at m k (z : list Z) off n :
  0 <= off -> 0 <= n -> off + n = k -> k <= zlen m ->
  slice (take (Z.to_nat k) m ++ z ++ drop (Z.to_nat k) m) off (n + zlen z)
    = slice m off n ++ z.
Proof.
  unfold slice, zlen. intros.
  rewrite drop_app_le by (rewrite length_take; lia).
  rewrite take_app_ge by (rewrite length_drop, length_take; lia).
  rewrite length_drop, length_take.
  rewrite take_app_le by lia. rewrite (take_ge z) by lia.
  rewrite skipn_firstn_comm. f_equal. f_equal. lia.
Qed.

(** ** Growing a section *)

Lemma ROUND8 n :
  0 <= n < 2 ^ 32 -> n <= ROUND n 8 < n + 8.
Proof. intros. pose proof (ROUND_bounds n 3 ltac:(lia) ltac:(lia) ltac:(lia)). change (2 ^ 3) with 8 in *. lia. Qed.

Lemma shift_sections_lookup i bottom add lsp j :
  shift_sections i bottom add lsp !! j =
    (fun s2 => if decide (j = i) then mk_sect (sec_p s2) (u32 (sec_size s2 + add))
    else if bottom <=? sec_p s2 then mk_sect (u32 (sec_p s2 + add)) (sec_size s2)
    else s2) <$> lsp !! j.
Proof. unfold shift_sections. rewrite list_lookup_imap. done. Qed.

(** Every fact about a successful call, in unwrapped arithmetic. *)
Lemma grow_inv s i add sc :
  sy_wf s -> sy_lsp s !! i = Some sc -> 0 < add < 2 ^ 32 -> sy_total s + ROUND add 8 <= sy_max s ->
  let add' := ROUND add 8 in
  let bottom := sec_p sc + sec_size sc in
  let at_ := bottom - sy_base s in
  grow_syspage_section s i add = Ok
    {| sy_base := sy_base s;
       sy_mem := take (Z.to_nat at_) (sy_mem s) ++ zeros add' ++ drop (Z.to_nat at_) (sy_mem s);
       sy_total := sy_total s + add'; sy_max := sy_max s; sy_fixed := sy_fixed s;
       sy_lsp := shift_sections i bottom add' (sy_lsp s);
       sy_patch := callout_reloc_data (sy_patch s) bottom (sy_total s - at_) add' |}.
Proof.
  intros Hwf Hsc Hadd Hfit add' bottom at_.
  destruct Hwf as [Hm Hb Ht Hmx Hr Hd]. destruct (Hr _ _ Hsc) as (?&?&?).
  pose proof (ROUND8 add ltac:(lia)).
  unfold grow_syspage_section. cbv zeta. rewrite (proj2 (Z.ltb_lt _ _)) by lia.
  rewrite Hsc. cbn [get_or_bad mbind res_bind mret res_ret].
  rewrite !(wrap_id 32 (ROUND add 8)) by (unfold fits; lia).
  rewrite !(wrap_id 32 (sy_total s + _)) by (unfold fits; lia).
  rewrite !(wrap_id 32 (sec_p sc + _)) by (unfold fits; lia).
  rewrite (wrap_id 32 (sy_total s - _)) by (unfold fits; lia).
  zbool; try lia. reflexivity.
Qed.

(** The section table after a growth, in unwrapped arithmetic. *)
Lemma grow_sections s i add sc j b :
  sy_wf s -> sy_lsp s !! i = Some sc -> 0 <= add -> sy_total s + add <= sy_max s ->
  sy_lsp s !! j = Some b ->
  let bottom := sec_p sc + sec_size sc in
  shift_sections i bottom add (sy_lsp s) !! j = Some
    (if decide (j = i) then mk_sect (sec_p b) (sec_size b + add)
     else if bottom <=? sec_p b then mk_sect (sec_p b + add) (sec_size b) else b).
Proof.
  intros Hwf Hsc Ha Hfit Hj bottom. destruct Hwf as [Hm Hb Ht Hmx Hr Hd].
  destruct (Hr _ _ Hj) as (?&?&?). rewrite shift_sections_lookup, Hj. cbn.
  case_decide; [|zbool; [|done]]; rewrite wrap_id by (unfold fits; lia); done.
Qed.

Lemma sect_below s i j sc b :
  sy_wf s -> sy_lsp s !! i = Some sc -> sy_lsp s !! j = Some b -> j <> i ->
  sec_p b < sec_p sc + sec_size sc -> sec_p b + sec_size b <= sec_p sc.
Proof.
  intros [Hm Hb Ht Hmx Hr Hd] Hi Hj Hne Hlt. destruct (Hr _ _ Hj) as (?&?&?).
  destruct (Hd _ _ _ _ Hj Hi Hne); lia.
Qed.

Definition grown (s : syspage) (i : nat) (sc : sect) (add : Z) : syspage :=
  let bottom := sec_p sc + sec_size sc in
  let at_ := bottom - sy_base s in
  {| sy_base := sy_base s;
     sy_mem := take (Z.to_nat at_) (sy_mem s) ++ zeros add ++ drop (Z.to_nat at_) (sy_mem s);
     sy_total := sy_total s + add; sy_max := sy_max s; sy_fixed := sy_fixed s;
     sy_lsp := shift_sections i bottom add (sy_lsp s);
     sy_patch := callout_reloc_data (sy_patch s) bottom (sy_total s - at_) add |}.

Lemma grown_lookup s i add sc j b :
  sy_wf s -> sy_lsp s !! i = Some sc -> 0 <= add -> sy_total s + add <= sy_max s ->
  sy_lsp s !! j = Some b ->
  sy_lsp (grown s i sc add) !! j = Some
    (if decide (j = i) then mk_sect (sec_p b) (sec_size b + add)
     else if sec_p sc + sec_size sc <=? sec_p b then mk_sect (sec_p b + add) (sec_size b) else b).
Proof. apply grow_sections. Qed.

Lemma grown_lookup_inv s i sc add j b' :
  sy_lsp (grown s i sc add) !! j = Some b' -> exists b, sy_lsp s !! j = Some b.
Proof.
  cbn. rewrite shift_sections_lookup. destruct (sy_lsp s !! j); [eauto|done].
Qed.

Lemma grown_wf s i sc add :
  sy_wf s -> sy_lsp s !! i = Some sc -> 0 <= add -> sy_total s + add <= sy_max s ->
  sy_wf (grown s i sc add).
Proof.
  intros Hwf Hi Ha Hfit. pose proof Hwf as [Hm Hb Ht Hmx Hr Hd].
  destruct (Hr _ _ Hi) as (?&?&?). split; cbn [grown sy_mem sy_base sy_total sy_max]; try lia.
  - rewrite !zlen_app, zlen_zeros by lia. unfold zlen in *.
    rewrite length_take, length_drop. lia.
  - intros j b' Hj'. destruct (grown_lookup_inv _ _ _ _ _ _ Hj') as [b Hj].
    rewrite (grown_lookup s i add sc j b) in Hj' by done.
    destruct (Hr _ _ Hj) as (?&?&?). injection Hj' as <-.
    case_decide; [simplify_eq; cbn; lia|]. zbool; cbn; lia.
  - intros j k a' b' Hj' Hk' Hne.
    destruct (grown_lookup_inv _ _ _ _ _ _ Hj') as [a Hj].
    destruct (grown_lookup_inv _ _ _ _ _ _ Hk') as [b Hk].
    rewrite (grown_lookup s i add sc j a) in Hj' by done.
    rewrite (grown_lookup s i add sc k b) in Hk' by done.
    destruct (Hr _ _ Hj) as (?&?&?), (Hr _ _ Hk) as (?&?&?).
    pose proof (Hd _ _ _ _ Hj Hk Hne) as Hjk. unfold sect_disjoint in *.
    pose proof (sect_below s i j sc a Hwf Hi Hj). pose proof (sect_below s i k sc b Hwf Hi Hk).
    injection Hj' as <-. injection Hk' as <-.
    repeat case_decide; simplify_eq; zbool; cbn; try lia.
Qed.

Lemma grown_bytes s i sc add j :
  sy_wf s -> sy_lsp s !! i = Some sc -> 0 <= add -> sy_total s + add <= sy_max s ->
  sec_bytes (grown s i sc add) j
    = if decide (j = i) then sec_bytes s i ++ zeros add else sec_bytes s j.
Proof.
  intros Hwf Hi Ha Hfit. pose proof Hwf as [Hm Hb Ht Hmx Hr Hd].
  destruct (Hr _ _ Hi) as (?&?&?). unfold sec_bytes. cbn [grown sy_mem sy_lsp sy_base].
  destruct (sy_lsp s !! j) as [b|] eqn:Hj.
  - rewrite (grow_sections s i add sc j b) by done. destruct (Hr _ _ Hj) as (?&?&?).
    case_decide; simplify_eq; cbn [sec_p sec_size].
    + rewrite Hi. rewrite <- (zlen_zeros add) at 2 by lia. apply slice_insert_at; lia.
    + pose proof (sect_below s i j sc b Hwf Hi Hj).
      zbool; cbn [sec_p sec_size].
      * rewrite <- (zlen_zeros add) at 2 by lia.
        replace (sec_p b + zlen (zeros add) - sy_base s)
          with (sec_p b - sy_base s + zlen (zeros add)) by lia.
        apply slice_insert_above; lia.
      * apply slice_insert_below; lia.
  - rewrite shift_sections_lookup, Hj. case_decide; simplify_eq; done.
Qed.

Lemma grown_points s i sc add a j off :
  sy_wf s -> sy_lsp s !! i = Some sc -> 0 <= add -> sy_total s + add <= sy_max s ->
  points_to s a j off ->
  points_to (grown s i sc add)
    (if (sec_p sc + sec_size sc <=? a) then a + add else a) j off.
Proof.
  intros Hwf Hi Ha Hfit (b & Hj & -> & Hoff). pose proof Hwf as [Hm Hb Ht Hmx Hr Hd].
  destruct (Hr _ _ Hi) as (?&?&?), (Hr _ _ Hj) as (?&?&?).
  pose proof (sect_below s i j sc b Hwf Hi Hj).
  eexists. split; [apply grown_lookup; done|].
  case_decide; simplify_eq; zbool; cbn; lia.
Qed.

Lemma grow_ok s i add sc :
  sy_wf s -> sy_lsp s !! i = Some sc -> 0 < add < 2 ^ 32 -> sy_total s + ROUND add 8 <= sy_max s ->
  grow_syspage_section s i add = Ok (grown s i sc (ROUND add 8)).
Proof. intros. rewrite (grow_inv s i add sc) by done. reflexivity. Qed.

(** ** Theorems *)

(** C31.  Growing a section of a well-formed system page by [add] bytes that fit succeeds;
    the page stays well formed (sections in range and pairwise disjoint), the grown section
    reads as before followed by [ROUND(add, 8)] zero bytes, and every other section reads
    exactly as before although it may have moved. *)
Theorem grow_syspage_section_correct s i add sc :
  sy_wf s -> sy_lsp s !! i = Some sc -> 0 < add < 2 ^ 32 -> sy_total s + ROUND add 8 <= sy_max s ->
  exists s', grow_syspage_section s i add = Ok s' /\ sy_wf s' /\
    sy_total s' = sy_total s + ROUND add 8 /\
    sec_bytes s' i = sec_bytes s i ++ zeros (ROUND add 8) /\
    (forall j, j <> i -> sec_bytes s' j = sec_bytes s j).
Proof.
  intros Hwf Hi Ha Hfit. exists (grown s i sc (ROUND add 8)).
  pose proof (ROUND_ge_0 add 8). split_and!; try done.
  - by apply grow_ok.
  - by apply grown_wf.
  - rewrite grown_bytes by done. by rewrite decide_True.
  - intros j Hj. rewrite grown_bytes by done. by rewrite decide_False.
Qed.

(** C32.  A callout owner registered inside any section keeps designating the same byte of the
    same section after a section grows: [callout_reloc_data] moves exactly the owners that lie
    in the part of the page [memmove] moved. *)
Theorem grow_callout_owners_follow s i add sc n a j off :
  sy_wf s -> sy_lsp s !! i = Some sc -> 0 < add < 2 ^ 32 -> sy_total s + ROUND add 8 <= sy_max s ->
  sy_patch s !! n = Some a -> points_to s a j off ->
  exists s' a', grow_syspage_section s i add = Ok s' /\ sy_patch s' !! n = Some a' /\
    points_to s' a' j off.
Proof.
  intros Hwf Hi Ha Hfit Hn Hpt. pose proof (ROUND_ge_0 add 8).
  exists (grown s i sc (ROUND add 8)). eexists. split_and!.
  - by apply grow_ok.
  - cbn. unfold callout_reloc_data. rewrite list_lookup_fmap, Hn. reflexivity.
  - destruct Hwf as [Hm Hb Ht Hmx Hr Hd] eqn:Hw. clear Hw.
    pose proof Hpt as (b & Hj & He & Hoff).
    destruct (Hr _ _ Hi) as (?&?&?), (Hr _ _ Hj) as (?&?&?).
    rewrite !wrap_id by (unfold fits; lia).
    replace (sec_p sc + sec_size sc + _) with (sy_base s + sy_total s) by lia.
    rewrite (proj2 (Z.ltb_lt a _)), andb_true_r by lia.
    by apply grown_points.
Qed.

(** A request the page cannot hold is refused: [crash()] is reached exactly when the
    rounded request would push [total_size] past the maximum. *)
Theorem grow_syspage_section_crash s i add :
  sy_wf s -> 0 < add -> sy_max s + add + 8 <= 2 ^ 32 -> is_Some (sy_lsp s !! i) ->
  (grow_syspage_section s i add = Err (Crash too_big) <-> sy_max s < sy_total s + ROUND add 8).
Proof.
  intros [Hm Hb Ht Hmx Hr Hd] Ha Hmax [sc Hsc]. pose proof (ROUND8 add ltac:(lia)).
  unfold grow_syspage_section. cbv zeta. rewrite (proj2 (Z.ltb_lt 0 _)) by lia.
  rewrite !(wrap_id 32 (ROUND add 8)) by (unfold fits; lia).
  rewrite !(wrap_id 32 (sy_total s + _)) by (unfold fits; lia).
  rewrite Hsc. cbn [get_or_bad mbind res_bind mret res_ret].
  zbool; split; intros; done || lia.
Qed.

(** [reloc_syspage_memory] keeps the page: in a well-formed page moved to an address where
    it fits, the sections are again in range and disjoint, hold the same bytes, and every callout
    owner designates the same byte of the same section as before. *)
Theorem reloc_syspage_memory_correct s base max_size :
  sy_wf s -> 0 <= base -> sy_total s <= max_size -> base + max_size < 2 ^ 32 ->
  let s' := reloc_syspage_memory s base max_size in
  sy_wf s' /\ sy_base s' = base /\ (forall j, sec_bytes s' j = sec_bytes s j) /\
  (forall n a j off, sy_patch s !! n = Some a -> points_to s a j off ->
     exists a', sy_patch s' !! n = Some a' /\ points_to s' a' j off).
Proof.
  intros [Hm Hb Ht Hmx Hr Hd] Hbase Hfit Hmax s'.
  assert (Hbs : sy_base s' = base).
  { cbn. rewrite wrap_id by (unfold fits; lia). lia. }
  assert (Hl : forall j, sy_lsp s' !! j =
    (fun sc => mk_sect (sec_p sc + (base - sy_base s)) (sec_size sc)) <$> sy_lsp s !! j).
  { intros j. cbn. rewrite list_lookup_fmap. destruct (sy_lsp s !! j) as [b|] eqn:Hj; [|done].
    cbn. destruct (Hr _ _ Hj) as (?&?&?). rewrite wrap_id by (unfold fits; lia). done. }
  split_and!; [split| | |]; try done; try (cbn; lia).
  - rewrite Hbs. cbn. lia.
  - rewrite Hbs. cbn. lia.
  - intros j b'. rewrite Hl, Hbs. destruct (sy_lsp s !! j) as [b|] eqn:Hj; [|done].
    intros [= <-]. destruct (Hr _ _ Hj) as (?&?&?). cbn. lia.
  - intros j k a' b'. rewrite !Hl.
    destruct (sy_lsp s !! j) as [a|] eqn:Hj, (sy_lsp s !! k) as [b|] eqn:Hk; try done.
    intros [= <-] [= <-] Hne. destruct (Hd _ _ _ _ Hj Hk Hne); [left|right]; cbn; lia.
  - intros j. unfold sec_bytes. rewrite Hl, Hbs. destruct (sy_lsp s !! j); [|done].
    cbn. f_equal. lia.
  - intros n a j off Hn (b & Hj & -> & Hoff). destruct (Hr _ _ Hj) as (?&?&?).
    eexists. split.
    + cbn. unfold callout_reloc_data. rewrite list_lookup_fmap, Hn. reflexivity.
    + eexists. split; [rewrite Hl, Hj; reflexivity|]. cbn.
      rewrite (wrap_id 32 (sy_base s + _)) by (unfold fits; lia).
      rewrite (proj2 (Z.leb_le _ _)), (proj2 (Z.ltb_lt _ _)) by lia. cbn.
      rewrite wrap_id by (unfold fits; lia). lia.
Qed.

(** ** Fixed sections *)

(** The boundary [set_syspage_section] places sections at: no section crosses it. *)
Definition fixed_split (s : syspage) : Prop :=
  0 <= sy_fixed s <= sy_total s /\ forall j sc, sy_lsp s !! j = Some sc ->
    sec_p sc + sec_size sc <= sy_base s + sy_fixed s \/ sy_base s + sy_fixed s <= sec_p sc.

Definition placed (s : syspage) (i : nat) (size : Z) : syspage :=
  {| sy_base := sy_base s; sy_mem := sy_mem s; sy_total := sy_total s; sy_max := sy_max s;
     sy_fixed := sy_fixed s + size;
     sy_lsp := <[i := mk_sect (sy_base s + sy_fixed s) 0]> (sy_lsp s);
     sy_patch := sy_patch s |}.

Lemma placed_lookup s i size j b :
  sy_lsp (placed s i size) !! j = Some b ->
  (j = i /\ b = mk_sect (sy_base s + sy_fixed s) 0) \/ (j <> i /\ sy_lsp s !! j = Some b).
Proof.
  cbn. intros H. apply list_lookup_insert_Some in H as [(-> & <- & _)|[? ?]]; auto.
Qed.

Lemma placed_wf s i size : sy_wf s -> fixed_split s -> sy_wf (placed s i size).
Proof.
  intros [Hm Hb Ht Hmx Hr Hd] [Hf Hsp]. split; try done.
  - intros j b [[-> ->]|[Hne Hj]]%placed_lookup; [cbn; lia|]. apply (Hr _ _ Hj).
  - intros j k a b [[-> ->]|[Hj Ha]]%placed_lookup [[-> ->]|[Hk Hb']]%placed_lookup Hne; try done.
    + destruct (Hsp _ _ Hb'); [right|left]; cbn; lia.
    + destruct (Hsp _ _ Ha); [left|right]; cbn; lia.
    + by apply (Hd _ _ _ _ Ha Hb').
Qed.

(** Growing a section above the boundary does not move the boundary. *)
Lemma grown_fixed_split s i sc add :
  sy_wf s -> fixed_split s -> sy_lsp s !! i = Some sc -> 0 <= add ->
  sy_total s + add <= sy_max s -> sy_base s + sy_fixed s <= sec_p sc ->
  fixed_split (grown s i sc add).
Proof.
  intros Hwf [Hf Hsp] Hi Ha Hfit Habove. pose proof Hwf as [Hm Hb Ht Hmx Hr Hd].
  destruct (Hr _ _ Hi) as (?&?&?). split; [cbn; lia|].
  intros j b' Hj'. destruct (grown_lookup_inv _ _ _ _ _ _ Hj') as [b Hj].
  rewrite (grown_lookup s i add sc j b) in Hj' by done.
  destruct (Hr _ _ Hj) as (?&?&?). injection Hj' as <-.
  specialize (Hsp _ _ Hj). cbn. case_decide; simplify_eq; zbool; cbn; lia.
Qed.

Lemma ROUND8_idem size : 0 < size < 2 ^ 31 -> ROUND (ROUND size 8) 8 = ROUND size 8.
Proof.
  intros Hs. pose proof (ROUND8 size ltac:(lia)) as HR. set (n := ROUND size 8) in *.
  pose proof (ROUND_bounds size 3 ltac:(lia) ltac:(lia) ltac:(lia)) as [_ Hm8].
  change (2 ^ 3) with 8 in Hm8. fold n in Hm8.
  change 8 with (2 ^ 3) at 1. rewrite ROUND_pow2 by (change (2 ^ 3) with 8; lia).
  change (2 ^ 3) with 8. replace (n + 8 - 1) with (n + 7) by lia.
  apply Z.mod_divide in Hm8 as [q ->]; [|lia].
  rewrite (Z.add_comm _ 7), Z_mod_plus_full. change (7 mod 8) with 7. lia.
Qed.

(** The page [set_syspage_section] leaves. *)
Definition set_at (s : syspage) (i : nat) (n : Z) : syspage :=
  grown (placed s i n) i (mk_sect (sy_base s + sy_fixed s) 0) n.

Lemma placed_self s i size sc :
  sy_lsp s !! i = Some sc ->
  sy_lsp (placed s i size) !! i = Some (mk_sect (sy_base s + sy_fixed s) 0).
Proof. intros H. cbn. apply list_lookup_insert_eq. by apply lookup_lt_Some in H. Qed.

Lemma set_run s i sc size :
  sy_wf s -> fixed_split s -> sy_lsp s !! i = Some sc -> sec_size sc = 0 ->
  0 < size < 2 ^ 31 -> sy_total s + ROUND size 8 <= sy_max s ->
  set_syspage_section s i size = Ok (set_at s i (ROUND size 8)).
Proof.
  intros Hwf Hsp Hi H0 Hs Hfit. pose proof Hwf as [Hm Hb Ht Hmx Hr Hd].
  pose proof Hsp as [Hf Hsp']. pose proof (ROUND8 size ltac:(lia)) as HR.
  pose proof (ROUND8_idem size Hs) as Hn. set (n := ROUND size 8) in *.
  unfold set_syspage_section, set_at. cbv zeta. rewrite Hi. cbn [get_or_bad mbind res_bind].
  fold n. rewrite H0, (wrap_id 32 n), !wrap_id by (unfold fits; lia).
  change ({| sy_base := _ |}) with (placed s i n).
  rewrite (grow_ok (placed s i n) i n (mk_sect (sy_base s + sy_fixed s) 0));
    [by rewrite Hn|by apply placed_wf|by eapply placed_self|lia|cbn; lia].
Qed.

Lemma set_at_fixed_split s i sc n :
  sy_wf s -> fixed_split s -> sy_lsp s !! i = Some sc -> 0 <= n -> sy_total s + n <= sy_max s ->
  fixed_split (set_at s i n).
Proof.
  intros Hwf Hsp Hi Hn Hfit. pose proof Hwf as [Hm Hb Ht Hmx Hr Hd].
  pose proof Hsp as [Hf Hsp']. pose proof (placed_self s i n _ Hi) as Hi'.
  pose proof (placed_wf s i n Hwf Hsp) as Hwf'.
  split; [cbn; lia|]. intros j b' Hj'.
  destruct (grown_lookup_inv _ _ _ _ _ _ Hj') as [b Hj]. unfold set_at in Hj'.
  erewrite grown_lookup in Hj' by (done || cbn; lia). injection Hj' as <-.
  apply placed_lookup in Hj as [[-> ->]|[Hne Hj]].
  - rewrite decide_True by done. cbn. lia.
  - rewrite decide_False by done. destruct (Hr _ _ Hj) as (?&?&?).
    specialize (Hsp' _ _ Hj). cbn. zbool; cbn in *; lia.
Qed.

Lemma set_syspage_section_spec s i sc size :
  sy_wf s -> fixed_split s -> sy_lsp s !! i = Some sc -> sec_size sc = 0 ->
  0 < size < 2 ^ 31 -> sy_total s + ROUND size 8 <= sy_max s ->
  exists s', set_syspage_section s i size = Ok s' /\ sy_wf s' /\ fixed_split s' /\
    sy_total s' = sy_total s + ROUND size 8 /\ sy_max s' = sy_max s /\
    sy_lsp s' !! i = Some (mk_sect (sy_base s + sy_fixed s) (ROUND size 8)) /\
    sec_bytes s' i = zeros (ROUND size 8) /\
    (forall j, j <> i -> sec_bytes s' j = sec_bytes s j).
Proof.
  intros Hwf Hsp Hi H0 Hs Hfit. pose proof (ROUND_ge_0 size 8) as HR.
  pose proof (placed_self s i (ROUND size 8) _ Hi) as Hi'.
  pose proof (placed_wf s i (ROUND size 8) Hwf Hsp) as Hwf'.
  eexists. split; [by eapply set_run|]. unfold set_at. split_and!; try done.
  - by apply grown_wf.
  - by eapply set_at_fixed_split.
  - erewrite grown_lookup by done. rewrite decide_True by done. cbn.
    by rewrite Z.add_0_l.
  - rewrite grown_bytes by done. rewrite decide_True by done.
    unfold sec_bytes. rewrite Hi'. cbn. done.
  - intros j Hj. rewrite grown_bytes by done. rewrite decide_False by done.
    unfold sec_bytes. cbn. by rewrite list_lookup_insert_ne.
Qed.

(** Placing an empty section with [set_syspage_section]: it succeeds when the page has
    room, puts the section at the end of the fixed part, gives it [ROUND(size,8)] zero bytes,
    moves the boundary past it, and leaves every other section's contents alone. *)
Theorem set_syspage_section_correct s i sc size :
  sy_wf s -> fixed_split s -> sy_lsp s !! i = Some sc -> sec_size sc = 0 ->
  0 < size < 2 ^ 31 -> sy_total s + ROUND size 8 <= sy_max s ->
  exists s', set_syspage_section s i size = Ok s' /\ sy_wf s' /\ fixed_split s' /\
    sy_total s' = sy_total s + ROUND size 8 /\ sy_max s' = sy_max s /\
    sy_lsp s' !! i = Some (mk_sect (sy_base s + sy_fixed s) (ROUND size 8)) /\
    sec_bytes s' i = zeros (ROUND size 8) /\
    (forall j, j <> i -> sec_bytes s' j = sec_bytes s j).
Proof. apply set_syspage_section_spec. Qed.

(** ** The page [init_syspage_memory] builds *)

(** Section [j] is still empty and lies above the fixed part. *)
Definition unplaced (s : syspage) (j : nat) : Prop :=
  exists sc, sy_lsp s !! j = Some sc /\ sec_size sc = 0 /\ sy_base s + sy_fixed s <= sec_p sc.

Lemma grown_unplaced s i sc add j :
  sy_wf s -> sy_lsp s !! i = Some sc -> 0 <= add -> sy_total s + add <= sy_max s -> j <> i ->
  unplaced s j -> unplaced (grown s i sc add) j.
Proof.
  intros Hwf Hi Ha Hfit Hne (b & Hj & H0 & Hp). eexists.
  split; [apply grown_lookup; done|]. rewrite decide_False by done. cbn.
  zbool; cbn; lia.
Qed.

Lemma set_at_unplaced s i sc n j :
  sy_wf s -> fixed_split s -> sy_lsp s !! i = Some sc -> 0 <= n -> sy_total s + n <= sy_max s ->
  j <> i -> unplaced s j -> unplaced (set_at s i n) j.
Proof.
  intros Hwf Hsp Hi Hn Hfit Hne (b & Hj & H0 & Hp). eexists. unfold set_at.
  split.
  - apply grown_lookup; [by apply placed_wf|by eapply placed_self|done..|].
    cbn. by rewrite list_lookup_insert_ne.
  - rewrite decide_False by done. cbn. zbool; cbn; lia.
Qed.

(** An invariant the initialisation steps share: a well-formed page with the boundary [B]
    respected, at most [n] bytes used, and the sections [js] still to be placed. *)
Record building (max n : Z) (js : list nat) (s : syspage) : Prop := {
  bd_wf : sy_wf s;
  bd_split : fixed_split s;
  bd_max : sy_max s = max;
  bd_total : sy_total s = n;
  bd_left : Forall (unplaced s) js
}.

Lemma building_set max n js i s size :
  building max n (i :: js) s -> i ∉ js -> 0 < size < 2 ^ 31 -> n + ROUND size 8 <= max ->
  exists s', set_syspage_section s i size = Ok s' /\ building max (n + ROUND size 8) js s' /\
    sec_bytes s' i = zeros (ROUND size 8) /\ (forall j, j <> i -> sec_bytes s' j = sec_bytes s j).
Proof.
  intros [Hwf Hsp Hm Ht Hl] Hni Hs Hfit. inversion_clear Hl as [|? ? Hi Hjs].
  destruct Hi as (sc & Hi & H0 & Hp). pose proof (ROUND_ge_0 size 8).
  destruct (set_syspage_section_spec s i sc size) as (s' & Hr & ? & ? & ? & ? & ? & ? & ?);
    try done; [lia|].
  exists s'. split_and!; try done. split; try done; [congruence|lia|].
  rewrite (set_run s i sc size) in Hr by (done || lia). injection Hr as <-.
  apply Forall_forall. intros j Hj. rewrite Forall_forall in Hjs.
  eapply set_at_unplaced; [done..|lia|set_solver|by apply Hjs].
Qed.

Lemma building_grow max n js i s add :
  building max n (i :: js) s -> i ∉ js -> 0 < add < 2 ^ 31 -> n + ROUND add 8 <= max ->
  exists s', grow_syspage_section s i add = Ok s' /\ building max (n + ROUND add 8) js s' /\
    sec_bytes s' i = zeros (ROUND add 8) /\ (forall j, j <> i -> sec_bytes s' j = sec_bytes s j).
Proof.
  intros [Hwf Hsp Hm Ht Hl] Hni Hs Hfit. inversion_clear Hl as [|? ? Hi Hjs].
  destruct Hi as (sc & Hi & H0 & Hp). pose proof (ROUND_ge_0 add 8).
  exists (grown s i sc (ROUND add 8)). split_and!.
  - apply grow_ok; done || lia.
  - split; [apply grown_wf|apply grown_fixed_split| | |]; try done; cbn; try lia.
    apply Forall_forall. intros j Hj. rewrite Forall_forall in Hjs.
    apply grown_unplaced; [done..|lia|set_solver|by apply Hjs].
  - rewrite grown_bytes by (done || lia). rewrite decide_True by done.
    unfold sec_bytes. rewrite Hi, H0. unfold slice. by rewrite take_0.
  - intros j Hj. rewrite grown_bytes by (done || lia). by rewrite decide_False.
Qed.

Lemma building_init sz base max :
  0 < sz < 2 ^ 31 -> 0 <= base -> base + max < 2 ^ 32 -> ROUND sz 8 <= max ->
  building max (ROUND sz 8) [SEC_callout; SEC_callin; SEC_typed_strings; SEC_strings; SEC_hwinfo]
    {| sy_base := base; sy_mem := zeros (ROUND sz 8); sy_total := ROUND sz 8;
       sy_max := max; sy_fixed := ROUND sz 8;
       sy_lsp := <[SEC_syspage := mk_sect base (ROUND sz 8)]>
                   (replicate NSECT (mk_sect (base + ROUND sz 8) 0));
       sy_patch := [] |}.
Proof.
  intros Hsz Hb Hmx Hfit. pose proof (ROUND8 sz ltac:(lia)) as HR. set (n := ROUND sz 8) in *.
  assert (Hl : forall j b, (<[SEC_syspage := mk_sect base n]>
      (replicate NSECT (mk_sect (base + n) 0))) !! j = Some b ->
      (j = SEC_syspage /\ b = mk_sect base n) \/ b = mk_sect (base + n) 0).
  { intros j b H. apply list_lookup_insert_Some in H as [(-> & <- & _)|[? H]]; [by left|].
    apply lookup_replicate in H as [-> _]. by right. }
  split; [split| | | |]; cbn [sy_base sy_mem sy_total sy_max sy_fixed sy_lsp]; try lia.
  - apply zlen_zeros. lia.
  - intros j b [[_ ->]| ->]%Hl; cbn; lia.
  - intros j k a b [[-> ->]| ->]%Hl [[-> ->]| ->]%Hl Hne; try done; unfold sect_disjoint; cbn; lia.
  - split; [cbn; lia|]. intros j b [[_ ->]| ->]%Hl; cbn; lia.
  - repeat constructor; eexists; (split; [reflexivity|cbn; lia]).
Qed.

Lemma init_syspage_memory_spec sz base max :
  let n := ROUND (sz_syspage_entry sz) 8 + ROUND (sz_callout_entry sz) 8
           + ROUND (sz_callin_entry sz) 8 + 8 + 8 + ROUND (sz_hwi_prefix sz) 8 in
  0 < sz_syspage_entry sz < 2 ^ 31 -> 0 < sz_callout_entry sz < 2 ^ 31 ->
  0 < sz_callin_entry sz < 2 ^ 31 -> 0 < sz_hwi_prefix sz < 2 ^ 31 ->
  0 <= base -> base + max < 2 ^ 32 -> n <= max ->
  exists s, init_syspage_memory sz base max = Ok s /\ sy_wf s /\ fixed_split s /\
    sy_total s = n /\ sec_bytes s SEC_typed_strings = zeros 8 /\ sec_bytes s SEC_strings = zeros 8.
Proof.
  intros n H1 H2 H3 H4 Hb Hmx Hfit.
  pose proof (ROUND8 (sz_syspage_entry sz) ltac:(lia)).
  pose proof (ROUND_ge_0 (sz_callout_entry sz) 8). pose proof (ROUND_ge_0 (sz_callin_entry sz) 8).
  pose proof (ROUND_ge_0 (sz_hwi_prefix sz) 8).
  assert (ROUND 4 8 = 8 /\ ROUND 1 8 = 8) as [R4 R1] by (split; reflexivity).
  pose proof (building_init (sz_syspage_entry sz) base max H1 Hb Hmx ltac:(lia)) as B0.
  eapply (building_set _ _ _ _ _ (sz_callout_entry sz)) in B0 as (s1 & E1 & B1 & _ & _);
    [|set_solver|lia..].
  eapply (building_set _ _ _ _ _ (sz_callin_entry sz)) in B1 as (s2 & E2 & B2 & _ & _);
    [|set_solver|lia..].
  eapply (building_grow _ _ _ _ _ 4) in B2 as (s3 & E3 & B3 & C3 & _); [|set_solver|lia..].
  eapply (building_grow _ _ _ _ _ 1) in B3 as (s4 & E4 & B4 & C4 & D4); [|set_solver|lia..].
  eapply (building_grow _ _ _ _ _ (sz_hwi_prefix sz)) in B4 as (s5 & E5 & B5 & C5 & D5);
    [|set_solver|lia..].
  exists s5. split.
  - unfold init_syspage_memory. cbv zeta.
    rewrite !(wrap_id 32 (ROUND (sz_syspage_entry sz) 8)) by (unfold fits; lia).
    rewrite (wrap_id 32 (base + _)) by (unfold fits; lia).
    rewrite E1. cbn [mbind res_bind]. rewrite E2. cbn [mbind res_bind]. rewrite E3.
    cbn [mbind res_bind]. rewrite E4. cbn [mbind res_bind]. done.
  - destruct B5 as [? ? ? ? _]. split_and!; try done; rewrite D5 by done.
    + rewrite D4 by done. by rewrite C3, R4.
    + by rewrite C4, R1.
Qed.

(** [init_syspage_memory] succeeds whenever the initial sections fit, leaving a well-formed
    page of exactly the rounded sizes, with the string, typed-string and hwinfo sections present
    and zeroed. *)
Theorem init_syspage_memory_correct sz base max :
  let n := ROUND (sz_syspage_entry sz) 8 + ROUND (sz_callout_entry sz) 8
           + ROUND (sz_callin_entry sz) 8 + 8 + 8 + ROUND (sz_hwi_prefix sz) 8 in
  0 < sz_syspage_entry sz < 2 ^ 31 -> 0 < sz_callout_entry sz < 2 ^ 31 ->
  0 < sz_callin_entry sz < 2 ^ 31 -> 0 < sz_hwi_prefix sz < 2 ^ 31 ->
  0 <= base -> base + max < 2 ^ 32 -> n <= max ->
  exists s, init_syspage_memory sz base max = Ok s /\ sy_wf s /\ fixed_split s /\
    sy_total s = n /\ sec_bytes s SEC_typed_strings = zeros 8 /\ sec_bytes s SEC_strings = zeros 8.
Proof. apply init_syspage_memory_spec. Qed.

(** ** The page as a section store *)

#[export] Instance syspage_store : SectionStore syspage := {
  st_wf := sy_wf;
  st_has := fun s i => is_Some (sy_lsp s !! i);
  st_bytes := sec_bytes;
  st_room := fun s => sy_max s - sy_total s;
  st_grow := grow_syspage_section;
  st_write := sec_write
}.

Lemma sec_write_updated s i off bs :
  sy_wf s -> is_Some (sy_lsp s !! i) -> 0 <= off -> off + zlen bs <= zlen (sec_bytes s i) ->
  updated s (sec_write s i off bs) i (splice (sec_bytes s i) off bs) 0.
Proof.
  intros Hwf [sc Hi] Hoff Hfit. pose proof Hwf as [Hm Hb Ht Hmx Hr Hd].
  destruct (Hr _ _ Hi) as (?&?&?).
  destruct (slice_parts (sy_mem s) (sec_p sc - sy_base s) (sec_size sc)) as (a & b & Hp & Ha & Hx);
    [lia..|].
  assert (Hsb : sec_bytes s i = slice (sy_mem s) (sec_p sc - sy_base s) (sec_size sc))
    by (unfold sec_bytes; by rewrite Hi).
  rewrite <- Hsb in *. set (x := sec_bytes s i) in *.
  assert (Hmem : sy_mem (sec_write s i off bs) = a ++ splice x off bs ++ b).
  { unfold sec_write. rewrite Hi. cbn. rewrite Hp, <- Ha. by apply splice_mid. }
  assert (Hz : zlen (splice x off bs) = zlen x) by (apply zlen_splice; lia).
  assert (Hrest : sy_base (sec_write s i off bs) = sy_base s /\
    sy_total (sec_write s i off bs) = sy_total s /\ sy_max (sec_write s i off bs) = sy_max s /\
    sy_lsp (sec_write s i off bs) = sy_lsp s) by (unfold sec_write; by rewrite Hi).
  destruct Hrest as (E1 & E2 & E3 & E4).
  split; cbn [st_wf st_has st_room st_bytes syspage_store].
  - split; rewrite ?E1, ?E2, ?E3, ?E4; try done. rewrite Hmem, !zlen_app, Hz, <- !zlen_app.
    by rewrite <- Hp.
  - by rewrite E4.
  - rewrite E2, E3. lia.
  - unfold sec_bytes at 1. rewrite E4, Hi, Hmem, E1.
    rewrite slice_app_right, slice_app_left by lia. unfold slice.
    replace (Z.to_nat (_ - _)) with 0%nat by lia. rewrite drop_0. apply take_ge.
    unfold zlen in *. lia.
  - intros j Hj. unfold sec_bytes. rewrite E4, E1, Hmem.
    destruct (sy_lsp s !! j) as [c|] eqn:Hjl; [|done]. destruct (Hr _ _ Hjl) as (?&?&?).
    rewrite Hp. destruct (Hd _ _ _ _ Hjl Hi Hj).
    + rewrite !slice_app_left by lia. done.
    + rewrite !(slice_app_right a), !slice_app_right by lia. by rewrite Hz.
Qed.

#[export] Instance syspage_laws : SectionLaws syspage.
Proof.
  split.
  - intros s i add Hwf [sc Hi] Ha Hfit. pose proof (ROUND_ge_0 add 8).
    cbn [st_room st_wf st_has st_bytes st_grow syspage_store] in *.
    exists (grown s i sc (ROUND add 8)). split; [apply grow_ok; done || lia|].
    split; cbn [st_room st_wf st_has st_bytes st_grow syspage_store].
    + apply grown_wf; done || lia.
    + intros j [b Hj]. eexists. apply grown_lookup; done || lia.
    + cbn. lia.
    + rewrite grown_bytes by (done || lia). by rewrite decide_True.
    + intros j Hj. rewrite grown_bytes by (done || lia). by rewrite decide_False.
  - intros. by apply sec_write_updated.
  - intros s i [Hm Hb Ht Hmx Hr Hd]. cbn [st_room st_bytes syspage_store]. split; [lia|].
    unfold sec_bytes. destruct (sy_lsp s !! i) as [b|] eqn:Hi; [|unfold zlen; cbn [length]; lia].
    destruct (Hr _ _ Hi) as (?&?&?). unfold slice, zlen. rewrite length_take, length_drop. lia.
Qed.
