(* ===== verification/Strings.v ===== *)
(** * Strings: the string and typed-string sections (startup/lib/strings.c).

    Both tables are byte sequences scanned from the start; the code is translated on the bytes
    and proved against lists of names.  It only uses the section interface of Sections.v. *)

From S2P Require Import Prelude.
From S2P Require Import Sections.

(** ** The code *)

Section Code.
Context {St : Type} `{SectionStore St}.

(** The search loop of [add_string]: [(true, i)] when the name is at offset [i],
    [(false, i)] when the scan stops at the empty string at offset [i]. *)
Fixpoint add_string_scan (fuel : nat) (p name : list Z) (i : Z) : res (bool * Z) :=
  match fuel with
  | O => Err NoFuel
  | S fuel =>
      c ← get_or_bad (byte_at p i);
      if c =? 0 then mret (false, i)
      else
        eq ← get_or_bad (streq name (drop (Z.to_nat i) p));
        if eq : bool then mret (true, i)
        else
          n ← get_or_bad (strlen (drop (Z.to_nat i) p));
          add_string_scan fuel p name (u32 (i + (n + 1)))
  end.

Definition add_string (s : St) (name : list Z) : res (St * Z) :=
  let p := st_bytes s SEC_strings in
  '(found, i) ← add_string_scan (S (length p)) p name 0;
  if found : bool then mret (s, i)
  else
    let len := u32 (zlen name + 2) in
    let spare := u32 (zlen p - i) in
    s1 ← (if spare <? len then st_grow s SEC_strings (u32 (len - u32 (zlen p - i))) else mret s);
    mret (st_write s1 SEC_strings i (name ++ [0]), i).

(** [__hwi_find_string]: the string at an offset of the section. *)
Definition hwi_find_string (s : St) (off : Z) : list Z :=
  cstr (drop (Z.to_nat off) (st_bytes s SEC_strings)).

(** [_CS_NONE]: the type code that ends the typed-string table (zero-filled memory). *)
Definition CS_NONE : Z := 0.

(** Offset of the entry with the type, or -1. *)
Fixpoint find_typed_scan (fuel : nat) (p : list Z) (type_index i : Z) : res Z :=
  match fuel with
  | O => Err NoFuel
  | S fuel =>
      if (zlen p <? i + 4) then Err BadAccess
      else
        let type := le_word (slice p i 4) in
        if type =? u32 type_index then mret i
        else if type =? CS_NONE then mret (-1)
        else
          let i := u32 (i + 4) in
          n ← get_or_bad (strlen (drop (Z.to_nat i) p));
          let i := u32 (i + (n + 1)) in
          find_typed_scan fuel p type_index (u32 (ROUND i 4))
  end.

Definition find_typed_string (s : St) (type_index : Z) : res Z :=
  let p := st_bytes s SEC_typed_strings in
  find_typed_scan (S (length p)) p type_index 0.

(** The two copy loops of [del_typed_string]: [while(j < end) p[i++] = p[j++];] run [n] times,
    and [while(i < j) p[i++] = 0;]. *)
Fixpoint move_down (n : nat) (p : list Z) (i j : nat) : list Z :=
  match n with
  | O => p
  | S n => match p !! j with
           | Some b => move_down n (<[i := b]> p) (S i) (S j)
           | None => p
           end
  end.

Fixpoint clear_bytes (n : nat) (p : list Z) (i : nat) : list Z :=
  match n with
  | O => p
  | S n => clear_bytes n (<[i := 0]> p) (S i)
  end.

Definition del_typed_bytes (p : list Z) (i j end_ : Z) : list Z :=
  let n := Z.to_nat (end_ - j) in
  let p1 := move_down n p (Z.to_nat i) (Z.to_nat j) in
  let i1 := (Z.to_nat i + n)%nat in
  let j1 := (Z.to_nat j + n)%nat in
  clear_bytes (j1 - i1) p1 i1.

Definition del_typed_string (s : St) (type_index : Z) : res (St * Z) :=
  let p := st_bytes s SEC_typed_strings in
  i ← find_typed_string s type_index;
  if i <? 0 then mret (s, 0)
  else
    let j := i + 4 in
    n ← get_or_bad (strlen (drop (Z.to_nat j) p));
    let j := s32 (ROUND (j + (n + 1)) 4) in
    end_ ← find_typed_string s CS_NONE;
    mret (st_write s SEC_typed_strings 0 (del_typed_bytes p i j end_), 1).

Definition add_typed_string (s : St) (type_index : Z) (name : list Z) : res (St * Z) :=
  '(s0, _) ← del_typed_string s type_index;
  i ← find_typed_string s0 CS_NONE;
  let i := u32 i in
  let len := u32 (zlen name + 1) in
  let len := u32 (ROUND len 4) in
  let need := u32 (len + 2 * 4) in
  let spare := u32 (zlen (st_bytes s0 SEC_typed_strings) - i) in
  s1 ← (if spare <? need then st_grow s0 SEC_typed_strings (u32 (need - spare)) else mret s0);
  let s2 := st_write s1 SEC_typed_strings i (le_bytes 4 (u32 type_index)) in
  mret (st_write s2 SEC_typed_strings (i + 4) (name ++ [0]), i).

End Code.

(** ** The string table *)

(** The bytes of a list of names: each name, then its NUL. *)
Definition flat (names : list (list Z)) : list Z := concat (map (fun n => n ++ [0]) names).

(** The abstract table: [p] holds the names in order, then only zero bytes, at least one. *)
Definition strtab (p : list Z) (names : list (list Z)) : Prop :=
  Forall (fun n => cname n /\ n <> []) names /\
  exists k, 0 < k /\ p = flat names ++ zeros k.

(** Where the first entry equal to [name] starts. *)
Fixpoint str_off (names : list (list Z)) (name : list Z) : option Z :=
  match names with
  | [] => None
  | n :: r => if decide (n = name) then Some 0
              else o ← str_off r name; Some (zlen n + 1 + o)
  end.

Lemma flat_cons n names : flat (n :: names) = n ++ 0 :: flat names.
Proof. unfold flat. cbn. by rewrite <- app_assoc. Qed.

Lemma flat_app a b : flat (a ++ b) = flat a ++ flat b.
Proof. unfold flat. by rewrite map_app, concat_app. Qed.

Lemma str_off_bound names name o :
  str_off names name = Some o -> 0 <= o /\ o + zlen name + 1 <= zlen (flat names).
Proof.
  revert o; induction names as [|n names IH]; intros o; [done|]. cbn [str_off].
  rewrite flat_cons, zlen_app, zlen_cons. pose proof (zlen_nonneg n).
  pose proof (zlen_nonneg (flat names)).
  case_decide; [intros [= <-]; subst; lia|].
  destruct (str_off names name) as [o'|]; [|done]. intros [= <-].
  destruct (IH o' eq_refl). lia.
Qed.

Lemma str_off_app names extra name o :
  str_off names name = Some o -> str_off (names ++ extra) name = Some o.
Proof.
  revert o; induction names as [|n names IH]; intros o; [done|]. cbn [str_off app].
  case_decide; [done|]. destruct (str_off names name) as [o'|]; [|done].
  by rewrite (IH o').
Qed.

Lemma str_off_new names name :
  str_off names name = None -> str_off (names ++ [name]) name = Some (zlen (flat names)).
Proof.
  induction names as [|n names IH]; cbn [str_off app].
  - by rewrite decide_True.
  - case_decide; [done|]. destruct (str_off names name) as [o'|]; [done|]. intros _.
    rewrite IH by done. rewrite flat_cons, zlen_app, zlen_cons. cbn. f_equal. lia.
Qed.

(** Reading back: the offset of a listed name designates that name. *)
Lemma strtab_read p names name o :
  strtab p names -> str_off names name = Some o -> cstr (drop (Z.to_nat o) p) = name.
Proof.
  intros [Hn (k & Hk & ->)]. revert o. induction Hn as [|n names [Hc Hne] _ IH]; intros o; [done|].
  cbn [str_off]. rewrite flat_cons. case_decide as Heq.
  - intros [= <-]. subst. cbn [Z.to_nat drop]. rewrite <- app_assoc. by apply cstr_cname.
  - destruct (str_off names name) as [o'|] eqn:Ho; [|done]. intros [= <-].
    destruct (str_off_bound _ _ _ Ho). rewrite <- (IH o' eq_refl). f_equal.
    rewrite cons_middle, app_assoc, <- app_assoc.
    replace (Z.to_nat (zlen n + 1 + o')) with (length (n ++ [0]%Z) + Z.to_nat o')%nat
      by (rewrite length_app; unfold zlen in *; cbn [length]; lia).
    by rewrite drop_app_add.
Qed.

Lemma add_string_scan_correct names name k fuel pre :
  Forall (fun n => cname n /\ n <> []) names -> cname name -> 0 < k ->
  zlen (pre ++ flat names ++ zeros k) < 2 ^ 32 -> (length names < fuel)%nat ->
  add_string_scan fuel (pre ++ flat names ++ zeros k) name (zlen pre)
    = Ok (match str_off names name with
          | Some o => (true, zlen pre + o)
          | None => (false, zlen pre + zlen (flat names))
          end).
Proof.
  intros Hn Hname Hk. revert fuel pre.
  induction Hn as [|n names [Hc Hne] _ IH]; intros fuel pre Hlen Hf;
    (destruct fuel as [|fuel]; [cbn in Hf; lia|]); cbn [add_string_scan].
  - cbn [flat map concat app]. rewrite zeros_S by done. rewrite byte_at_app.
    cbn [get_or_bad mbind res_bind Z.eqb str_off]. unfold mret, res_ret. do 2 f_equal.
    change (zlen (@nil Z)) with 0. lia.
  - destruct n as [|b n]; [done|]. inversion Hc as [|? ? Hb Hc']; subst.
    rewrite flat_cons, <- app_assoc. cbn [app] in *.
    rewrite byte_at_app. cbn [get_or_bad mbind res_bind]. zbool; [lia|].
    rewrite drop_app_zlen, app_comm_cons, streq_cname, strlen_cname by done.
    cbn [get_or_bad mbind res_bind str_off].
    rewrite flat_cons in Hlen. zlen_simpl.
    pose proof (zlen_nonneg pre). pose proof (zlen_nonneg (flat names ++ zeros k)).
    pose proof (zlen_nonneg n). zlen_simpl. case_decide as Heq.
    + rewrite bool_decide_true by done. cbn. do 2 f_equal. lia.
    + rewrite bool_decide_false by done.
      replace (pre ++ b :: n ++ 0 :: flat names ++ zeros k)
        with ((pre ++ (b :: n) ++ [0]) ++ flat names ++ zeros k)
        by (rewrite <- !app_assoc; done).
      rewrite wrap_id by (unfold fits; lia).
      replace (zlen pre + (zlen n + 1 + 1)) with (zlen (pre ++ (b :: n) ++ [0]))
        by (rewrite !zlen_app, !zlen_cons; unfold zlen; cbn [length]; lia).
      assert (zlen (pre ++ (b :: n) ++ [0]) = zlen pre + zlen n + 2) as Hz
        by (rewrite !zlen_app, !zlen_cons; unfold zlen; cbn [length]; lia).
      rewrite IH; [|rewrite zlen_app, Hz, zlen_app; lia|cbn in Hf; lia].
      rewrite Hz. destruct (str_off names name); cbn; do 2 f_equal; lia.
Qed.

Lemma length_flat names :
  Forall (fun n => cname n /\ n <> []) names -> (length names <= length (flat names))%nat.
Proof.
  induction 1 as [|n names [_ Hne] _ IH]; [done|].
  rewrite flat_cons, length_app. destruct n; [done|]. cbn [length]. lia.
Qed.

(** Writing a new string at the end of the table, with room for a second NUL. *)
Lemma strtab_append names name k p :
  Forall (fun n => cname n /\ n <> []) names -> cname name -> name <> [] ->
  zlen name + 2 <= k -> p = flat names ++ zeros k ->
  strtab (splice p (zlen (flat names)) (name ++ [0])) (names ++ [name]).
Proof.
  intros Hn Hc Hne Hk ->. split; [apply Forall_app_2; auto|].
  exists (k - (zlen name + 1)). split; [lia|].
  pose proof (zlen_nonneg name).
  replace k with ((zlen name + 1) + (k - (zlen name + 1))) at 1 by lia.
  rewrite zeros_split, splice_at; [|zlen_simpl; rewrite zlen_zeros; lia|lia..].
  rewrite flat_app, flat_cons. cbn [flat map concat]. by rewrite <- !app_assoc.
Qed.

Lemma str_off_in names name : str_off names name <> None <-> name ∈ names.
Proof.
  induction names as [|n names IH]; cbn [str_off]; [set_solver|].
  case_decide; [set_solver|]. rewrite elem_of_cons, <- IH.
  destruct (str_off names name); cbn; naive_solver.
Qed.

Section StringTable.
Context {St : Type} `{HL : SectionLaws St}.

(** The room that adding the string [name] may take. *)
Definition name_room (names : list (list Z)) (name : list Z) : Z :=
  if decide (name ∈ names) then 0 else ROUND (zlen name + 2) 8.

Lemma name_room_nonneg names name : 0 <= name_room names name.
Proof. unfold name_room. case_decide; [done|apply ROUND_ge_0]. Qed.

(** What a call of [add_string] guarantees. *)
Record add_string_post (s s' : St) (names : list (list Z)) (name : list Z) (off : Z) : Prop := {
  asp_names : exists names', strtab (st_bytes s' SEC_strings) names' /\
    names' = (if decide (name ∈ names) then names else names ++ [name]) /\
    str_off names' name = Some off;
  asp_find : hwi_find_string s' off = name;
  asp_keep : forall n o, str_off names n = Some o ->
    hwi_find_string s o = n /\ hwi_find_string s' o = n;
  asp_wf : st_wf s';
  asp_has : forall j, st_has s j -> st_has s' j;
  asp_room : st_room s - name_room names name <= st_room s' <= st_room s;
  asp_others : forall j, j <> SEC_strings -> st_bytes s' j = st_bytes s j
}.

(** The growth step of [add_string]: room for [need] bytes after the [used] ones. *)
Lemma string_room s used k need :
  st_wf s -> st_has s SEC_strings -> st_bytes s SEC_strings = used ++ zeros k -> 0 <= k ->
  0 < need < 2 ^ 31 -> ROUND need 8 <= st_room s ->
  exists s1 k', (if k <? need then st_grow s SEC_strings (u32 (need - k)) else mret s) = Ok s1 /\
    updated s s1 SEC_strings (used ++ zeros k') (st_room s - st_room s1) /\
    need <= k' /\ st_room s - ROUND need 8 <= st_room s1 <= st_room s.
Proof.
  intros Hwf Hhas Hp Hk Hneed Hroom.
  pose proof (ROUND_bounds need 3 ltac:(lia) ltac:(lia) ltac:(lia)) as [HR _].
  change (2 ^ 3) with 8 in HR. zbool.
  - set (add := need - k). rewrite wrap_id by (unfold fits; lia).
    pose proof (ROUND_bounds add 3 ltac:(lia) ltac:(lia) ltac:(lia)) as [HRa _].
    change (2 ^ 3) with 8 in HRa.
    assert (ROUND add 8 <= ROUND need 8).
    { change 8 with (2 ^ 3). rewrite !ROUND_pow2 by lia. change (2 ^ 3) with 8.
      Z.to_euclidean_division_equations. lia. }
    destruct (law_grow s SEC_strings add Hwf Hhas) as (s1 & Hg & Hup); [lia..|].
    exists s1, (k + ROUND add 8). split; [done|]. pose proof (up_room _ _ _ _ _ Hup) as Hru.
    split_and!; [|lia..]. rewrite Hru. rewrite Hp, <- app_assoc, <- zeros_split in Hup by lia.
    by replace (st_room s - (st_room s - ROUND add 8)) with (ROUND add 8) by lia.
  - exists s, k. split; [done|]. split_and!; try lia.
    rewrite Z.sub_diag, <- Hp. by apply updated_refl.
Qed.

(** The scan of the whole table. *)
Lemma add_string_scan_start names name k p :
  Forall (fun n => cname n /\ n <> []) names -> cname name -> 0 < k ->
  p = flat names ++ zeros k -> zlen p < 2 ^ 32 ->
  add_string_scan (S (length p)) p name 0 = Ok (match str_off names name with
    | Some o => (true, o) | None => (false, zlen (flat names)) end).
Proof.
  intros Hn Hc Hk Hp Hl.
  assert (Hscan := add_string_scan_correct names name k (S (length p)) []).
  cbn [app] in Hscan. change (zlen (@nil Z)) with 0 in Hscan. rewrite <- Hp in Hscan.
  apply Hscan; [done..|]. rewrite Hp, length_app. pose proof (length_flat names Hn). lia.
Qed.

(** Writing the string after the growth step. *)
Lemma add_string_write s s1 names name k' :
  st_wf s -> st_has s SEC_strings -> strtab (st_bytes s SEC_strings) names ->
  Forall (fun n => cname n /\ n <> []) names ->
  cname name -> name <> [] -> name ∉ names -> zlen name + 2 <= k' ->
  updated s s1 SEC_strings (flat names ++ zeros k') (st_room s - st_room s1) ->
  st_room s - ROUND (zlen name + 2) 8 <= st_room s1 <= st_room s ->
  add_string_post s (st_write s1 SEC_strings (zlen (flat names)) (name ++ [0])) names name
    (zlen (flat names)).
Proof.
  intros Hwf Hhas Htab Hn Hc Hne Hni Hk' [Hwf1 Hhas1 _ Hbytes Hoth] Hrm.
  pose proof (zlen_nonneg name). pose proof (zlen_nonneg (flat names)).
  destruct (law_write s1 SEC_strings (zlen (flat names)) (name ++ [0]))
    as [Hwf2 Hhas2 Hrm2 Hbytes2 Hoth2];
    [auto|auto|lia|rewrite Hbytes; zlen_simpl; rewrite zlen_zeros; lia|].
  assert (Htab' : strtab (st_bytes (st_write s1 SEC_strings (zlen (flat names)) (name ++ [0]))
    SEC_strings) (names ++ [name])).
  { rewrite Hbytes2, Hbytes. by eapply strtab_append. }
  assert (Hnew : str_off (names ++ [name]) name = Some (zlen (flat names))).
  { apply str_off_new. destruct (str_off names name) eqn:E; [|done].
    destruct Hni. apply str_off_in. congruence. }
  split; auto.
  - exists (names ++ [name]). by rewrite decide_False.
  - by eapply strtab_read.
  - intros n o Hno. split; eapply strtab_read; [done..|]. by apply str_off_app.
  - unfold name_room. rewrite decide_False by done. lia.
  - intros j Hj. by rewrite Hoth2, Hoth.
Qed.

Lemma add_string_spec s names name :
  st_wf s -> st_has s SEC_strings -> strtab (st_bytes s SEC_strings) names ->
  cname name -> name <> [] -> zlen name < 2 ^ 30 -> name_room names name <= st_room s ->
  exists s' off, add_string s name = Ok (s', off) /\ add_string_post s s' names name off.
Proof.
  intros Hwf Hhas Htab Hc Hne Hlen Hroom.
  pose proof Htab as [Hn (k & Hk & Hp)]. set (p := st_bytes s SEC_strings) in *.
  destruct (law_bound s SEC_strings Hwf) as [Hr0 Hb]. fold p in Hb.
  pose proof (zlen_nonneg name). pose proof (zlen_nonneg (flat names)).
  unfold add_string. fold p. rewrite (add_string_scan_start names name k) by (done || lia).
  destruct (str_off names name) as [o|] eqn:Ho; cbn [mbind res_bind].
  - exists s, o. split; [done|].
    assert (name ∈ names) by (apply str_off_in; congruence).
    split; auto; [|by eapply strtab_read|split; by eapply strtab_read|].
    + exists names. by rewrite decide_True.
    + unfold name_room. rewrite decide_True by done. lia.
  - assert (Hni : name ∉ names) by (intros Hin; by apply str_off_in in Hin).
    assert (Hzp : zlen p = zlen (flat names) + k) by (rewrite Hp, zlen_app, zlen_zeros; lia).
    unfold name_room in Hroom. rewrite decide_False in Hroom by done.
    rewrite (wrap_id 32 (zlen name + 2)), (wrap_id 32 (zlen p - _)) by (unfold fits; lia).
    replace (zlen p - zlen (flat names)) with k by lia.
    destruct (string_room s (flat names) k (zlen name + 2)) as (s1 & k' & Hg & Hup & Hk' & Hrm);
      [done..|lia|lia|done|].
    rewrite Hg. cbn [mbind res_bind]. unfold mret, res_ret.
    eexists _, _. split; [reflexivity|]. by eapply add_string_write.
Qed.

(** [add_string] on a well-formed table: when the page has room it always succeeds; a name
    already present is found and the table is untouched, a new one is appended after the existing
    names; the returned offset reads back as the name, and all offsets given out earlier still
    read as the names they were given for. *)
Theorem add_string_correct s names name :
  st_wf s -> st_has s SEC_strings -> strtab (st_bytes s SEC_strings) names ->
  cname name -> name <> [] -> zlen name < 2 ^ 30 -> name_room names name <= st_room s ->
  exists s' off, add_string s name = Ok (s', off) /\ add_string_post s s' names name off.
Proof. apply add_string_spec. Qed.

End StringTable.

(** ** The typed-string table *)

(** An entry in memory: the type, the string, its NUL and padding to a word boundary. *)
Definition tpad (n : list Z) : Z := ROUND (zlen n + 1) 4 - (zlen n + 1).
Definition tenc (e : Z * list Z) : list Z :=
  le_bytes 4 (fst e) ++ snd e ++ 0 :: zeros (tpad (snd e)).
Definition tflat (es : list (Z * list Z)) : list Z := concat (map tenc es).

Definition tentry_ok (e : Z * list Z) : Prop :=
  0 < fst e < 2 ^ 32 /\ cname (snd e) /\ zlen (snd e) < 2 ^ 30.

(** The abstract table: the entries in order, then zero bytes holding the end mark. *)
Definition typed_tab (p : list Z) (es : list (Z * list Z)) : Prop :=
  Forall tentry_ok es /\ exists k, 4 <= k /\ p = tflat es ++ zeros k.

Fixpoint typ_off (es : list (Z * list Z)) (t : Z) : option Z :=
  match es with
  | [] => None
  | e :: r => if fst e =? t then Some 0 else o ← typ_off r t; Some (zlen (tenc e) + o)
  end.

Fixpoint typ_lookup (es : list (Z * list Z)) (t : Z) : option (list Z) :=
  match es with
  | [] => None
  | e :: r => if fst e =? t then Some (snd e) else typ_lookup r t
  end.

(** Remove the first entry of a type. *)
Fixpoint typ_remove (es : list (Z * list Z)) (t : Z) : list (Z * list Z) :=
  match es with
  | [] => []
  | e :: r => if fst e =? t then r else e :: typ_remove r t
  end.

Lemma ROUND4 n : 0 <= n < 2 ^ 33 -> n <= ROUND n 4 < n + 4 /\ ROUND n 4 mod 4 = 0.
Proof. intros. apply (ROUND_bounds n 2); lia. Qed.

Lemma tpad_bounds n : zlen n < 2 ^ 30 -> 0 <= tpad n < 4.
Proof.
  intros. pose proof (zlen_nonneg n). pose proof (ROUND4 (zlen n + 1) ltac:(lia)).
  unfold tpad. lia.
Qed.

Lemma zlen_le_bytes n v : zlen (le_bytes n v) = Z.of_nat n.
Proof. unfold zlen. by rewrite length_le_bytes. Qed.

Lemma zlen_tenc e : tentry_ok e -> zlen (tenc e) = 4 + ROUND (zlen (snd e) + 1) 4.
Proof.
  intros (_ & _ & Hl). pose proof (tpad_bounds _ Hl). unfold tenc. zlen_simpl.
  rewrite zlen_le_bytes, zlen_zeros by lia. unfold tpad. lia.
Qed.

Lemma zlen_tenc_mod e : tentry_ok e -> zlen (tenc e) mod 4 = 0 /\ 8 <= zlen (tenc e).
Proof.
  intros He. rewrite zlen_tenc by done. destruct He as (_ & _ & Hl).
  pose proof (zlen_nonneg (snd e)). destruct (ROUND4 (zlen (snd e) + 1) ltac:(lia)).
  split; [|Z.to_euclidean_division_equations; lia].
  rewrite <- Z.add_mod_idemp_r, H1 by lia. done.
Qed.

Lemma tflat_cons e es : tflat (e :: es) = tenc e ++ tflat es.
Proof. done. Qed.

Lemma tflat_app a b : tflat (a ++ b) = tflat a ++ tflat b.
Proof. unfold tflat. by rewrite map_app, concat_app. Qed.

Lemma tflat_mod es : Forall tentry_ok es -> zlen (tflat es) mod 4 = 0.
Proof.
  induction 1 as [|e es He _ IH]; [done|]. rewrite tflat_cons, zlen_app.
  destruct (zlen_tenc_mod e He). rewrite Z.add_mod, IH, H by lia. done.
Qed.

Lemma length_tflat es : Forall tentry_ok es -> (length es <= length (tflat es))%nat.
Proof.
  induction 1 as [|e es He _ IH]; [done|]. rewrite tflat_cons, length_app.
  destruct (zlen_tenc_mod e He). unfold zlen in *. cbn [length]. lia.
Qed.

(** Rounding from a word boundary. *)
Lemma ROUND4_add i n :
  0 <= i -> i mod 4 = 0 -> 0 <= n -> i + n < 2 ^ 33 -> ROUND (i + n) 4 = i + ROUND n 4.
Proof.
  intros. change 4 with (2 ^ 2). rewrite !ROUND_pow2 by lia. change (2 ^ 2) with 4.
  Z.to_euclidean_division_equations. lia.
Qed.

Lemma tenc_read_type pre e r :
  tentry_ok e -> le_word (slice (pre ++ tenc e ++ r) (zlen pre) 4) = fst e.
Proof.
  intros (Ht & _). unfold tenc. rewrite slice_app_right, Z.sub_diag, <- app_assoc by lia.
  rewrite slice_app_left by (rewrite ?zlen_le_bytes; lia).
  unfold slice. rewrite drop_0, take_ge by (rewrite length_le_bytes; lia).
  rewrite le_word_bytes. apply Z.mod_small. lia.
Qed.

Lemma tenc_read_name pre e r :
  drop (Z.to_nat (zlen pre + 4)) (pre ++ tenc e ++ r)
    = snd e ++ 0 :: zeros (tpad (snd e)) ++ r.
Proof.
  unfold tenc. replace (zlen pre + 4) with (zlen (pre ++ le_bytes 4 (fst e)))
    by (rewrite zlen_app, zlen_le_bytes; done).
  rewrite <- app_assoc, app_assoc.
  rewrite drop_app_zlen. by rewrite <- app_assoc.
Qed.

Lemma slice_zeros k off n : 0 <= off -> off + n <= k -> slice (zeros k) off n = zeros n.
Proof.
  intros. unfold slice, zeros. rewrite drop_replicate, take_replicate. f_equal. lia.
Qed.

Lemma typed_end_word pre k : 4 <= k -> le_word (slice (pre ++ zeros k) (zlen pre) 4) = 0.
Proof.
  intros. rewrite slice_app_right, Z.sub_diag, slice_zeros by lia. reflexivity.
Qed.

(** One step of the scan over an entry that does not match. *)
Lemma find_typed_skip fuel pre e r ti :
  tentry_ok e -> zlen pre mod 4 = 0 -> zlen (pre ++ tenc e ++ r) < 2 ^ 32 -> fst e <> u32 ti ->
  find_typed_scan (S fuel) (pre ++ tenc e ++ r) ti (zlen pre)
    = find_typed_scan fuel (pre ++ tenc e ++ r) ti (zlen (pre ++ tenc e)).
Proof.
  intros He Hm Hlen Hne. pose proof He as (Ht & Hc & Hl).
  pose proof (zlen_nonneg pre). pose proof (zlen_nonneg r). pose proof (zlen_nonneg (snd e)).
  destruct (ROUND4 (zlen (snd e) + 1) ltac:(lia)) as [HR _].
  pose proof (zlen_tenc e He). rewrite !zlen_app in Hlen. cbn [find_typed_scan].
  rewrite tenc_read_type, !zlen_app by done. unfold CS_NONE.
  assert (fst e =? u32 ti = false) as -> by (by apply Z.eqb_neq).
  assert (fst e =? 0 = false) as -> by (apply Z.eqb_neq; lia).
  rewrite (proj2 (Z.ltb_ge _ (zlen pre + 4))) by lia.
  rewrite (wrap_id 32 (zlen pre + 4)) by (unfold fits; lia).
  rewrite tenc_read_name, strlen_cname by done. cbn [get_or_bad mbind res_bind].
  rewrite (wrap_id 32 (zlen pre + 4 + _)) by (unfold fits; lia).
  assert ((zlen pre + 4) mod 4 = 0) by (Z.to_euclidean_division_equations; lia).
  rewrite ROUND4_add by lia.
  rewrite wrap_id by (unfold fits; lia). f_equal. lia.
Qed.

Lemma find_typed_scan_correct es k fuel pre ti :
  Forall tentry_ok es -> 4 <= k -> zlen pre mod 4 = 0 ->
  zlen (pre ++ tflat es ++ zeros k) < 2 ^ 32 -> (length es < fuel)%nat ->
  find_typed_scan fuel (pre ++ tflat es ++ zeros k) ti (zlen pre)
    = Ok (match typ_off es (u32 ti) with
          | Some o => zlen pre + o
          | None => if u32 ti =? 0 then zlen pre + zlen (tflat es) else -1
          end).
Proof.
  intros Hes Hk. revert fuel pre.
  induction Hes as [|e es He _ IH]; intros fuel pre Hm Hlen Hf;
    (destruct fuel as [|fuel]; [cbn in Hf; lia|]).
  - cbn [tflat concat map app find_typed_scan typ_off]. rewrite typed_end_word by done.
    rewrite zlen_app, zlen_zeros by lia. rewrite (proj2 (Z.ltb_ge _ _)) by lia.
    change (zlen (@nil Z)) with 0. rewrite (Z.eqb_sym 0 (u32 ti)), Z.add_0_r. by destruct (u32 ti =? 0).
  - rewrite tflat_cons in Hlen |- *. rewrite <- app_assoc in Hlen |- *. cbn [typ_off].
    destruct (zlen_tenc_mod e He) as [Hm8 _]. destruct (Z.eqb_spec (fst e) (u32 ti)) as [Heq|Hne].
    + cbn [find_typed_scan]. rewrite tenc_read_type, Heq, Z.eqb_refl by done.
      pose proof (zlen_tenc_mod e He). pose proof (zlen_nonneg (tflat es ++ zeros k)).
      rewrite !zlen_app in *. rewrite (proj2 (Z.ltb_ge _ _)) by lia.
      unfold mret, res_ret. f_equal. lia.
    + rewrite find_typed_skip by done. rewrite app_assoc in Hlen |- *.
      rewrite IH; [|rewrite zlen_app, Z.add_mod, Hm, Hm8 by lia; done|done|cbn in Hf; lia].
      rewrite !zlen_app. destruct (typ_off es (u32 ti)); cbn.
      * f_equal. lia.
      * destruct (u32 ti =? 0); f_equal; lia.
Qed.

(** The deletion loops. *)
Lemma move_down_app a g m r :
  move_down (length m) (a ++ g ++ m ++ r) (length a) (length a + length g)
    = a ++ m ++ drop (length m) (g ++ m) ++ r.
Proof.
  revert a g. induction m as [|b m IH]; intros a g; cbn [length move_down app].
  - by rewrite drop_0, app_nil_r.
  - rewrite lookup_app_r by lia. rewrite Nat.add_sub_swap, Nat.sub_diag by lia.
    rewrite lookup_app_r by lia. rewrite Nat.add_0_l, Nat.sub_diag. cbn [lookup list_lookup].
    destruct g as [|g0 g].
    + rewrite Nat.add_0_r. cbn [app length drop].
      rewrite insert_app_r_alt, Nat.sub_diag by lia. cbn.
      specialize (IH (a ++ [b]) []). cbn in IH. rewrite length_app, Nat.add_0_r in IH.
      cbn [length] in IH. rewrite Nat.add_1_r, <- app_assoc in IH. cbn [app] in IH.
      rewrite IH. by rewrite drop_all, <- app_assoc.
    + rewrite insert_app_r_alt, Nat.sub_diag by lia. cbn [app insert list_insert].
      specialize (IH (a ++ [b]) (g ++ [b])). rewrite <- !app_assoc in IH. cbn [app] in IH.
      rewrite !length_app in IH. cbn [length] in IH.
      replace (S (length a)) with (length a + 1)%nat by lia. cbn [length].
      replace (S (length a + S (length g)))%nat with (length a + 1 + (length g + 1))%nat by lia.
      rewrite IH. done.
Qed.

Lemma clear_bytes_app a g r :
  clear_bytes (length g) (a ++ g ++ r) (length a) = a ++ replicate (length g) 0 ++ r.
Proof.
  revert a. induction g as [|b g IH]; intros a; [done|]. cbn [length clear_bytes app].
  rewrite insert_app_r_alt, Nat.sub_diag by lia. cbn [insert list_insert].
  specialize (IH (a ++ [0])). rewrite length_app, <- !app_assoc in IH. cbn [length app] in IH.
  rewrite Nat.add_1_r in IH. by rewrite IH.
Qed.

Lemma del_typed_bytes_correct a g m r :
  del_typed_bytes (a ++ g ++ m ++ r) (zlen a) (zlen a + zlen g) (zlen a + zlen g + zlen m)
    = a ++ m ++ zeros (zlen g) ++ r.
Proof.
  unfold del_typed_bytes. unfold zlen.
  replace (Z.to_nat (_ - _)) with (length m) by lia.
  replace (Z.to_nat (Z.of_nat (length a) + Z.of_nat (length g))) with (length a + length g)%nat by lia.
  rewrite Nat2Z.id, move_down_app, app_assoc.
  assert (length (drop (length m) (g ++ m)) = length g) as Hd
    by (rewrite length_drop, length_app; lia).
  replace (length a + length g + length m - (length a + length m))%nat
    with (length (drop (length m) (g ++ m))) by lia.
  rewrite <- length_app, clear_bytes_app, Hd, <- app_assoc.
  unfold zeros. by rewrite Nat2Z.id.
Qed.

(** ** Typed strings as a table *)

Lemma typ_off_split es t o :
  typ_off es t = Some o ->
  exists es1 e es2, es = es1 ++ e :: es2 /\ fst e = t /\ o = zlen (tflat es1) /\
    typ_remove es t = es1 ++ es2 /\ typ_lookup es t = Some (snd e).
Proof.
  revert o; induction es as [|e es IH]; intros o; [done|]. cbn [typ_off typ_remove typ_lookup].
  destruct (Z.eqb_spec (fst e) t) as [Heq|Hne].
  - intros [= <-]. by exists [], e, es.
  - destruct (typ_off es t) as [o'|]; [|done]. intros [= <-].
    destruct (IH o' eq_refl) as (es1 & e' & es2 & -> & ? & -> & -> & ->).
    exists (e :: es1), e', es2. split_and!; try done. by rewrite tflat_cons, zlen_app.
Qed.

Lemma typ_off_None es t :
  typ_off es t = None -> typ_remove es t = es /\ typ_lookup es t = None.
Proof.
  induction es as [|e es IH]; [done|]. cbn [typ_off typ_remove typ_lookup].
  destruct (fst e =? t); [done|]. destruct (typ_off es t); [done|]. intros _.
  destruct (IH eq_refl) as [-> ->]. done.
Qed.

Lemma typ_lookup_app a b t :
  typ_lookup (a ++ b) t = match typ_lookup a t with Some n => Some n | None => typ_lookup b t end.
Proof. induction a as [|e a IH]; [done|]. cbn. destruct (fst e =? t); done. Qed.

Lemma typ_lookup_fresh es t : t ∉ map fst es -> typ_lookup es t = None.
Proof.
  induction es as [|e es IH]; [done|]. cbn. intros H. rewrite not_elem_of_cons in H.
  destruct (Z.eqb_spec (fst e) t); [naive_solver|]. naive_solver.
Qed.

Lemma typ_remove_other es t t' : t' <> t -> typ_lookup (typ_remove es t) t' = typ_lookup es t'.
Proof.
  intros Hne. induction es as [|e es IH]; [done|]. cbn.
  destruct (Z.eqb_spec (fst e) t); cbn.
  - subst. by rewrite (proj2 (Z.eqb_neq _ _)).
  - by rewrite IH.
Qed.

Lemma typ_remove_sub es t e : e ∈ typ_remove es t -> e ∈ es.
Proof.
  induction es as [|e' es IH]; [done|]. cbn. destruct (fst e' =? t); set_solver.
Qed.

Lemma typ_remove_gone es t :
  NoDup (map fst es) -> NoDup (map fst (typ_remove es t)) /\ t ∉ map fst (typ_remove es t).
Proof.
  induction es as [|e es IH]; cbn [map typ_remove]; [split; [done|set_solver]|].
  intros [Hni Hnd]%NoDup_cons. destruct (IH Hnd) as [IH1 IH2].
  destruct (Z.eqb_spec (fst e) t) as [<-|Hne]; [done|]. cbn [map]. split.
  - apply NoDup_cons. split; [|done]. intros (e' & He' & Hin)%list_elem_of_fmap.
    apply Hni, list_elem_of_fmap. exists e'. split; [done|]. by eapply typ_remove_sub.
  - set_solver.
Qed.

Lemma typ_off_fresh es t n :
  t ∉ map fst es -> typ_off (es ++ [(t, n)]) t = Some (zlen (tflat es)).
Proof.
  induction es as [|e es IH]; cbn [map app typ_off fst]; [by rewrite Z.eqb_refl|].
  intros H. rewrite not_elem_of_cons in H. destruct (Z.eqb_spec (fst e) t); [naive_solver|].
  rewrite IH by naive_solver. by rewrite tflat_cons, zlen_app.
Qed.

Lemma typed_append es k t name :
  zlen name < 2 ^ 30 -> ROUND (zlen name + 1) 4 + 8 <= k -> 0 < t < 2 ^ 32 ->
  splice (splice (tflat es ++ zeros k) (zlen (tflat es)) (le_bytes 4 t))
    (zlen (tflat es) + 4) (name ++ [0])
  = tflat (es ++ [(t, name)]) ++ zeros (k - 4 - ROUND (zlen name + 1) 4).
Proof.
  intros Hl Hk Ht. pose proof (zlen_nonneg name).
  destruct (ROUND4 (zlen name + 1) ltac:(lia)) as [HR _]. set (len := ROUND (zlen name + 1) 4) in *.
  replace k with (4 + ((zlen name + 1) + (tpad name + (k - 4 - len))))
    by (unfold tpad; fold len; lia).
  assert (0 <= tpad name) by (unfold tpad; fold len; lia).
  rewrite (zeros_split 4), (zeros_split (zlen name + 1)), (zeros_split (tpad name)) by lia.
  rewrite splice_at by (rewrite zlen_zeros, zlen_le_bytes; lia).
  replace (zlen (tflat es) + 4) with (zlen (tflat es ++ le_bytes 4 t))
    by (rewrite zlen_app, zlen_le_bytes; done).
  rewrite app_assoc, splice_at by (zlen_simpl; rewrite zlen_zeros; lia).
  rewrite tflat_app, tflat_cons. unfold tenc. cbn [tflat map concat fst snd].
  rewrite app_nil_r, <- !app_assoc. cbn [app].
  replace (4 + _ - 4 - len) with (k - 4 - len) by (unfold tpad; fold len; lia). done.
Qed.

Section TypedStrings.
Context {St : Type} `{HL : SectionLaws St}.

Lemma find_typed_string_run s es ti :
  st_wf s -> typed_tab (st_bytes s SEC_typed_strings) es ->
  find_typed_string s ti = Ok (match typ_off es (u32 ti) with
    | Some o => o | None => if u32 ti =? 0 then zlen (tflat es) else -1 end).
Proof.
  intros Hwf [Hes (k & Hk & Hp)]. unfold find_typed_string.
  destruct (law_bound s SEC_typed_strings Hwf) as [? Hb]. rewrite Hp in *.
  pose proof (find_typed_scan_correct es k (S (length (tflat es ++ zeros k))) [] ti Hes Hk eq_refl) as Hf.
  cbn [app] in Hf. change (zlen (@nil Z)) with 0 in Hf. rewrite Hf.
  - destruct (typ_off es (u32 ti)); done.
  - lia.
  - rewrite length_app. pose proof (length_tflat es Hes). lia.
Qed.

Lemma typ_off_zero es : Forall tentry_ok es -> typ_off es 0 = None.
Proof.
  induction 1 as [|e es (Ht & _) _ IH]; [done|]. cbn. rewrite (proj2 (Z.eqb_neq _ _)) by lia.
  by rewrite IH.
Qed.

Lemma find_typed_end s es :
  st_wf s -> typed_tab (st_bytes s SEC_typed_strings) es ->
  find_typed_string s CS_NONE = Ok (zlen (tflat es)).
Proof.
  intros Hwf Htab. rewrite (find_typed_string_run s es) by done.
  change (u32 CS_NONE) with 0. destruct Htab as [Hes _]. by rewrite typ_off_zero.
Qed.

Lemma tflat_take_zeros pre e es1 : zlen (tflat (pre ++ e :: es1)) = zlen (tflat pre) + zlen (tenc e) + zlen (tflat es1).
Proof. rewrite tflat_app, tflat_cons, !zlen_app. lia. Qed.

(** [del_typed_string] of a type other than the end mark removes the first entry of that
    type, if any, closes the gap and keeps the table terminated; it returns 1 exactly when there
    was such an entry, and touches no other section. *)
Theorem del_typed_string_correct s es ti :
  st_wf s -> st_has s SEC_typed_strings -> typed_tab (st_bytes s SEC_typed_strings) es ->
  u32 ti <> 0 -> zlen (st_bytes s SEC_typed_strings) < 2 ^ 31 - 16 ->
  exists s' bs, del_typed_string s ti
      = Ok (s', if typ_lookup es (u32 ti) then 1 else 0) /\
    updated s s' SEC_typed_strings bs 0 /\ typed_tab bs (typ_remove es (u32 ti)) /\
    zlen bs = zlen (st_bytes s SEC_typed_strings).
Proof.
  intros Hwf Hhas Htab Hti Hsmall. pose proof Htab as [Hes (k & Hk & Hp)].
  unfold del_typed_string. rewrite (find_typed_string_run s es ti) by done.
  destruct (typ_off es (u32 ti)) as [o|] eqn:Ho; cbn [mbind res_bind].
  - destruct (typ_off_split _ _ _ Ho) as (es1 & e & es2 & Hsplit & He & -> & -> & ->).
    rewrite (proj2 (Z.ltb_ge _ _)) by apply zlen_nonneg.
    rewrite Hsplit in Hes. apply Forall_app in Hes as [Hes1 Hes2].
    apply Forall_cons in Hes2 as [Hoke Hes2]. pose proof Hoke as (Hte & Hce & Hle).
    assert (Hp' : st_bytes s SEC_typed_strings = tflat es1 ++ tenc e ++ tflat es2 ++ zeros k)
      by (rewrite Hp, Hsplit, tflat_app, tflat_cons, <- !app_assoc; done).
    pose proof (zlen_nonneg (tflat es1)). pose proof (zlen_nonneg (tflat es2)).
    pose proof (zlen_nonneg (snd e)). pose proof (zlen_tenc e Hoke).
    destruct (ROUND4 (zlen (snd e) + 1) ltac:(lia)) as [HR _].
    assert (zlen (st_bytes s SEC_typed_strings) = zlen (tflat es1) + zlen (tenc e) + zlen (tflat es2) + k)
      by (rewrite Hp', !zlen_app, zlen_zeros; lia).
    assert (drop (Z.to_nat (zlen (tflat es1) + 4)) (st_bytes s SEC_typed_strings)
      = snd e ++ 0 :: zeros (tpad (snd e)) ++ tflat es2 ++ zeros k) as ->
      by (rewrite Hp'; apply tenc_read_name).
    rewrite strlen_cname by done. cbn [get_or_bad mbind res_bind].
    rewrite (find_typed_end s es) by done. cbn [mbind res_bind].
    pose proof (tflat_mod es1 Hes1).
    assert ((zlen (tflat es1) + 4) mod 4 = 0) by (Z.to_euclidean_division_equations; lia).
    rewrite ROUND4_add by lia.
    replace (zlen (tflat es1) + 4 + ROUND (zlen (snd e) + 1) 4)
      with (zlen (tflat es1) + zlen (tenc e)) by lia.
    rewrite signed_id by lia.
    rewrite Hsplit, tflat_take_zeros, Hp', del_typed_bytes_correct.
    eexists _, (tflat (es1 ++ es2) ++ zeros (zlen (tenc e)  + k)). split; [reflexivity|].
    rewrite zeros_split, tflat_app, <- app_assoc by (try apply zlen_nonneg; lia).
    set (bs := tflat es1 ++ _). assert (zlen bs = zlen (st_bytes s SEC_typed_strings)) as Hz.
    { unfold bs. rewrite !zlen_app, !zlen_zeros by (try apply zlen_nonneg; lia). lia. }
    split_and!.
    + assert (splice (st_bytes s SEC_typed_strings) 0 bs = bs) as Hsp.
      { unfold splice. cbn [Z.to_nat take app]. rewrite drop_ge by (unfold zlen in Hz; lia).
        by rewrite app_nil_r. }
      pose proof (law_write s SEC_typed_strings 0 bs Hwf Hhas ltac:(lia) ltac:(lia)) as Hw.
      by rewrite Hsp in Hw.
    + split; [by apply Forall_app|]. exists (zlen (tenc e) + k). pose proof (zlen_nonneg (tenc e)).
      split; [lia|]. unfold bs. rewrite zeros_split, tflat_app, <- app_assoc by lia. done.
    + by rewrite <- Hp'.
  - destruct (typ_off_None _ _ Ho) as [-> ->]. rewrite (proj2 (Z.eqb_neq _ _)) by done.
    exists s, (st_bytes s SEC_typed_strings). split; [done|]. split_and!; try done.
    by apply updated_refl.
Qed.

(** Room for one more entry: what the growth step of [add_typed_string] does. *)
Lemma typed_grow s es need :
  st_wf s -> st_has s SEC_typed_strings -> typed_tab (st_bytes s SEC_typed_strings) es ->
  8 <= need < 2 ^ 31 -> ROUND need 8 <= st_room s ->
  exists s1 k1 n, (if u32 (zlen (st_bytes s SEC_typed_strings) - zlen (tflat es)) <? need
      then st_grow s SEC_typed_strings
             (u32 (need - u32 (zlen (st_bytes s SEC_typed_strings) - zlen (tflat es))))
      else mret s) = Ok s1 /\ updated s s1 SEC_typed_strings (tflat es ++ zeros k1) n /\
    need <= k1 /\ 0 <= n.
Proof.
  intros Hwf Hhas [Hes (k & Hk & Hp)] Hneed Hroom.
  destruct (law_bound s SEC_typed_strings Hwf) as [Hr0 Hb].
  rewrite Hp, zlen_app, zlen_zeros in Hb |- * by lia. pose proof (zlen_nonneg (tflat es)).
  replace (zlen (tflat es) + k - zlen (tflat es)) with k by lia.
  rewrite (wrap_id 32 k) by (unfold fits; lia). zbool.
  - rewrite wrap_id by (unfold fits; lia).
    pose proof (ROUND_bounds (need - k) 3 ltac:(lia) ltac:(lia) ltac:(lia)) as [HRa _].
    change (2 ^ 3) with 8 in HRa.
    assert (ROUND (need - k) 8 <= ROUND need 8).
    { change 8 with (2 ^ 3). rewrite !ROUND_pow2 by lia. change (2 ^ 3) with 8.
      Z.to_euclidean_division_equations. lia. }
    destruct (law_grow s SEC_typed_strings (need - k) Hwf Hhas) as (s1 & Hg & Hup); [lia..|].
    exists s1, (k + ROUND (need - k) 8), (ROUND (need - k) 8). split_and!; [done| |lia..].
    by rewrite Hp, <- app_assoc, <- zeros_split in Hup by lia.
  - exists s, k, 0. split_and!; [done| |lia..]. rewrite <- Hp. by apply updated_refl.
Qed.

(** [add_typed_string]: with room in the page it succeeds, the new value replaces any entry
    of the same type and is found by [find_typed_string] at the returned offset; entries of the
    other types keep their values, and each type still occurs at most once. *)
Theorem add_typed_string_correct s es ti name :
  st_wf s -> st_has s SEC_typed_strings -> typed_tab (st_bytes s SEC_typed_strings) es ->
  NoDup (map fst es) -> u32 ti <> 0 -> cname name -> zlen name < 2 ^ 30 ->
  zlen (st_bytes s SEC_typed_strings) < 2 ^ 31 - 16 -> ROUND (zlen name + 12) 8 <= st_room s ->
  exists s' off es', add_typed_string s ti name = Ok (s', off) /\ st_wf s' /\
    typed_tab (st_bytes s' SEC_typed_strings) es' /\ NoDup (map fst es') /\
    find_typed_string s' ti = Ok off /\ typ_lookup es' (u32 ti) = Some name /\
    (forall t, t <> u32 ti -> typ_lookup es' t = typ_lookup es t) /\
    (forall j, j <> SEC_typed_strings -> st_bytes s' j = st_bytes s j).
Proof.
  intros Hwf Hhas Htab Hnd Hti Hc Hl Hsmall Hroom.
  destruct (del_typed_string_correct s es ti Hwf Hhas Htab Hti Hsmall)
    as (s0 & bs & Hdel & Hup0 & Htab0 & Hz0).
  destruct (typ_remove_gone es (u32 ti) Hnd) as [Hnd0 Hgone].
  set (es0 := typ_remove es (u32 ti)) in *.
  pose proof Hup0 as [Hwf0 Hhas0 Hroom0 Hbytes0 Hoth0]. rewrite <- Hbytes0 in Htab0.
  pose proof (zlen_nonneg name). pose proof (wrap_fits 32 ti ltac:(lia)) as Htf. unfold fits in Htf.
  destruct (ROUND4 (zlen name + 1) ltac:(lia)) as [HR _].
  set (need := ROUND (zlen name + 1) 4 + 8).
  assert (ROUND need 8 <= ROUND (zlen name + 12) 8).
  { change 8 with (2 ^ 3). rewrite !ROUND_pow2 by lia. change (2 ^ 3) with 8.
    unfold need. Z.to_euclidean_division_equations. lia. }
  destruct (typed_grow s0 es0 need Hwf0 (Hhas0 _ Hhas) Htab0 ltac:(lia) ltac:(lia))
    as (s1 & k1 & n1 & Hg & Hup1 & Hk1 & _).
  pose proof Hup1 as [Hwf1 Hhas1 Hroom1 Hbytes1 Hoth1].
  pose proof (law_bound s1 SEC_typed_strings Hwf1) as [? Hb1].
  rewrite Hbytes1, zlen_app, zlen_zeros in Hb1 by lia. pose proof (zlen_nonneg (tflat es0)).
  destruct (law_write s1 SEC_typed_strings (zlen (tflat es0)) (le_bytes 4 (u32 ti))) as
    [Hwf2 Hhas2 _ Hbytes2 Hoth2]; [auto|auto|lia| |].
  { rewrite Hbytes1, zlen_app, zlen_le_bytes, zlen_zeros by lia. lia. }
  set (s2 := st_write s1 _ _ _) in *.
  destruct (law_write s2 SEC_typed_strings (zlen (tflat es0) + 4) (name ++ [0])) as
    [Hwf3 Hhas3 _ Hbytes3 Hoth3]; [auto|auto|lia| |].
  { rewrite Hbytes2, zlen_splice by (rewrite ?Hbytes1, ?zlen_app, ?zlen_le_bytes, ?zlen_zeros; lia).
    rewrite Hbytes1, !zlen_app, zlen_zeros by lia. change (zlen [0]) with 1. lia. }
  set (s3 := st_write s2 _ _ _) in *. rewrite Hbytes2, Hbytes1 in Hbytes3.
  rewrite typed_append in Hbytes3 by lia.
  assert (Htab3 : typed_tab (st_bytes s3 SEC_typed_strings) (es0 ++ [(u32 ti, name)])).
  { split; [apply Forall_app; split; [apply Htab0|repeat constructor; cbn; (done || lia)]|].
    eexists. split; [|exact Hbytes3]. lia. }
  exists s3, (zlen (tflat es0)), (es0 ++ [(u32 ti, name)]). split_and!; try done.
  - unfold add_typed_string. rewrite Hdel. cbn [mbind res_bind].
    rewrite (find_typed_end s0 es0) by done. cbn [mbind res_bind]. cbv zeta.
    rewrite (wrap_id 32 (zlen (tflat es0))), (wrap_id 32 (zlen name + 1)) by (unfold fits; lia).
    rewrite (wrap_id 32 (ROUND _ 4)), (wrap_id 32 (_ + 2 * 4)) by (unfold fits; lia).
    change (2 * 4) with 8. fold need. rewrite Hg. done.
  - rewrite map_app. apply NoDup_app. split_and!; [done|set_solver|apply NoDup_singleton].
  - rewrite (find_typed_string_run s3 _ ti Hwf3 Htab3). by rewrite typ_off_fresh.
  - rewrite typ_lookup_app, typ_lookup_fresh by done. cbn. by rewrite Z.eqb_refl.
  - intros t Ht. rewrite typ_lookup_app. unfold es0. rewrite typ_remove_other by done.
    destruct (typ_lookup es t); [done|]. cbn. by rewrite (proj2 (Z.eqb_neq _ _)).
  - intros j Hj. by rewrite Hoth3, Hoth2, Hoth1, Hoth0.
Qed.

End TypedStrings.
