(* ===== verification/Asinfo.v ===== *)
(** * Asinfo: the address-space table (startup/lib/as_*.c, common_arm/as_default.c,
    hwi_find_as.c).

    Entries are kept in the order they were added; each names its range, its owner (the byte
    offset of an earlier entry) and its name (an offset in the string section). *)

From S2P Require Import Prelude.
From S2P Require Import Sections.
From S2P Require Import Strings.

(** What the SDK's <sys/syspage.h> fixes: the size of [struct asinfo_entry], the null offset, the
    attribute bits and the default priority. *)
Record as_header := {
  asz : Z;
  AS_NULL_OFF : Z;
  AS_ATTR_KIDS : Z;
  AS_ATTR_CONTINUED : Z;
  AS_ATTR_RAM : Z;
  AS_PRIORITY_DEFAULT : Z
}.

Definition AS_ATTR_NONE : Z := 0.
Definition AS_OVERLAY_IO : Z := 2 ^ 31.

Record asinfo_entry := mk_as {
  as_start : Z;
  as_end : Z;
  as_owner : Z;
  as_name : Z;
  as_attr : Z;
  as_priority : Z;
  as_checker : option nat
}.

(** The store that holds the sections, and the table itself. *)
Record as_state (St : Type) := mk_ast { as_sys : St; as_tab : list asinfo_entry }.
Arguments mk_ast {St} _ _.
Arguments as_sys {St} _.
Arguments as_tab {St} _.

Section Code.
Context (H : as_header).
Context {St : Type} `{SectionStore St}.

(** Offsets and entries: [as_info2off]/[as_off2info]. *)
Definition as_info2off (idx : nat) : Z := u32 (Z.of_nat idx * asz H).
Definition as_idx (off : Z) : nat := Z.to_nat (off / asz H).
Definition as_off2info (s : as_state St) (off : Z) : option asinfo_entry :=
  as_tab s !! as_idx off.

Definition set_attr (e : asinfo_entry) (a : Z) : asinfo_entry :=
  mk_as (as_start e) (as_end e) (as_owner e) (as_name e) a (as_priority e) (as_checker e).
Definition set_range (e : asinfo_entry) (s e' : Z) : asinfo_entry :=
  mk_as s e' (as_owner e) (as_name e) (as_attr e) (as_priority e) (as_checker e).

Definition upd (s : as_state St) (idx : nat) (f : asinfo_entry -> asinfo_entry) : as_state St :=
  mk_ast (as_sys s) (alter f idx (as_tab s)).

(** [as_add64] without its overlay tail: append the entry and mark its owner. *)
Definition as_add_one (s : as_state St) (start end_ attr : Z) (name : list Z) (owner : Z)
    : res (as_state St * Z) :=
  '(sys1, name_off) ← add_string (as_sys s) name;
  sys2 ← st_grow sys1 SEC_asinfo (asz H);
  let idx := length (as_tab s) in
  let e := mk_as (u64 start) (u64 end_) owner name_off (Z.land attr 65535)
                 (AS_PRIORITY_DEFAULT H) None in
  let s1 := mk_ast sys2 (as_tab s ++ [e]) in
  let s2 := if owner =? AS_NULL_OFF H then s1
            else upd s1 (as_idx owner) (fun o => set_attr o (Z.lor (as_attr o) (AS_ATTR_KIDS H))) in
  mret (s2, as_info2off idx).

Definition io_name : list Z := chars "io".

Definition as_add64 (s : as_state St) (start end_ attr : Z) (name : list Z) (owner : Z)
    : res (as_state St * Z) :=
  '(s1, off) ← as_add_one s start end_ attr name owner;
  if Z.land attr AS_OVERLAY_IO =? 0 then mret (s1, off)
  else
    '(s2, _) ← as_add_one s1 start end_ (Z.land attr (bnot 32 AS_OVERLAY_IO)) io_name off;
    mret (s2, off).

Definition as_add := as_add64.

Definition memory_name : list Z := chars "memory".

(** [as_default]: the whole physical address space. *)
Definition as_default (s : as_state St) (paddr_bits : Z) : res (as_state St * Z) :=
  as_add s 0 (u64 (u64 (Z.shiftl 1 paddr_bits) - 1)) AS_ATTR_NONE memory_name (AS_NULL_OFF H).

(** [as_set_priority]: the entry and the pieces it continues into. *)
Fixpoint set_priority_from (fuel : nat) (s : as_state St) (idx : nat) (prio : Z)
    : res (as_state St) :=
  match fuel with
  | O => Err NoFuel
  | S fuel =>
      e ← get_or_bad (as_tab s !! idx);
      let s1 := upd s idx (fun e => mk_as (as_start e) (as_end e) (as_owner e) (as_name e)
                                         (as_attr e) prio (as_checker e)) in
      if Z.land (as_attr e) (AS_ATTR_CONTINUED H) =? 0 then mret s1
      else set_priority_from fuel s1 (S idx) prio
  end.

Definition as_set_priority (s : as_state St) (off prio : Z) : res (as_state St) :=
  set_priority_from (S (length (as_tab s))) s (as_idx off) prio.

(** [match_name] of as_find_containing.c: the entry or one of its owners has the name. *)
Fixpoint match_name (fuel : nat) (s : as_state St) (idx : nat) (name : list Z) : res bool :=
  match fuel with
  | O => Err NoFuel
  | S fuel =>
      e ← get_or_bad (as_tab s !! idx);
      if bool_decide (hwi_find_string (as_sys s) (as_name e) = name) then mret true
      else if as_owner e =? AS_NULL_OFF H then mret false
      else match_name fuel s (as_idx (as_owner e)) name
  end.

(** The three range tests of [as_find_containing]. *)
Definition overlaps (start end_ : Z) (e : asinfo_entry) : bool :=
  ((as_start e <=? start) && (start <=? as_end e))
  || ((as_start e <=? end_) && (end_ <=? as_end e))
  || ((start <=? as_start e) && (as_end e <=? end_)).

Fixpoint find_containing_from (n : nat) (s : as_state St) (idx : nat) (start end_ : Z)
    (container : list Z) : res Z :=
  match n with
  | O => mret (AS_NULL_OFF H)
  | S n =>
      e ← get_or_bad (as_tab s !! idx);
      m ← match_name (S (length (as_tab s))) s idx container;
      if (m : bool) && overlaps start end_ e then mret (as_info2off idx)
      else find_containing_from n s (S idx) start end_ container
  end.

(** Where a search that starts after [off] begins. *)
Definition start_idx (off : Z) : nat := if off =? AS_NULL_OFF H then O else S (as_idx off).

Definition as_find_containing (s : as_state St) (off start end_ : Z) (container : list Z)
    : res Z :=
  let i := start_idx off in
  find_containing_from (length (as_tab s) - i) s i start end_ container.

(** [hwi_find_as]. *)
Definition hwi_find_as (s : as_state St) (base : Z) (mmap : bool) : res Z :=
  as_find_containing s (AS_NULL_OFF H) base (u64 (base + 1))
    (if mmap then memory_name else io_name).

(** [match_item] of as_find.c: the names, last argument first, against the entry and its owners. *)
Fixpoint match_item (s : as_state St) (idx : nat) (names : list (list Z)) : res bool :=
  match names with
  | [] => Err BadAccess
  | n :: rest =>
      e ← get_or_bad (as_tab s !! idx);
      if bool_decide (hwi_find_string (as_sys s) (as_name e) = n) then
        match rest with
        | [] => mret true
        | _ => if as_owner e =? AS_NULL_OFF H then mret false
               else match_item s (as_idx (as_owner e)) rest
        end
      else mret false
  end.

Fixpoint find_from (n : nat) (s : as_state St) (idx : nat) (names : list (list Z)) : res Z :=
  match n with
  | O => mret (AS_NULL_OFF H)
  | S n =>
      m ← match_item s idx names;
      if m : bool then mret (as_info2off idx) else find_from n s (S idx) names
  end.

(** [as_find]: the path of names from the outermost owner; crashes on an empty path. *)
Definition as_find (s : as_state St) (start : Z) (path : list (list Z)) : res Z :=
  match path with
  | [] => Err (Crash "as_find: NULL name argument")
  | _ => let i := start_idx start in find_from (length (as_tab s) - i) s i (reverse path)
  end.

(** ** [as_add_containing]: split a range among the containers that cover it *)

Record as_range := mk_range { ar_start : Z; ar_end : Z; ar_owner : Z }.

(** Insert one container's piece into the list of pieces found so far. *)
Fixpoint place_piece (new : as_range) (l : list as_range) : list as_range :=
  match l with
  | [] => [new]
  | curr :: rest =>
      if (ar_start curr <=? ar_start new) && (ar_start new <=? ar_end curr) then
        if (ar_start curr =? ar_start new) && (ar_end curr =? ar_end new) then
          mk_range (ar_start curr) (ar_end curr) (ar_owner new) :: rest
        else if ar_start curr =? ar_start new then
          new :: mk_range (u64 (ar_end new + 1)) (ar_end curr) (ar_owner curr) :: rest
        else
          let old_end := ar_end curr in
          mk_range (ar_start curr) (u64 (ar_start new - 1)) (ar_owner curr) :: new ::
            (if old_end =? ar_end new then rest
             else mk_range (u64 (ar_end new + 1)) old_end (ar_owner curr) :: rest)
      else curr :: place_piece new rest
  end.

(** The outer loop: every containing entry contributes its intersection with the range. *)
Fixpoint collect_pieces (fuel : nat) (s : as_state St) (owner start end_ : Z)
    (container : list Z) (l : list as_range) : res (list as_range) :=
  match fuel with
  | O => Err NoFuel
  | S fuel =>
      owner ← as_find_containing s owner start end_ container;
      if owner =? AS_NULL_OFF H then mret l
      else
        e ← get_or_bad (as_off2info s owner);
        let piece_start := if start <? as_start e then as_start e else start in
        let piece_end := if as_end e <? end_ then as_end e else end_ in
        collect_pieces fuel s owner start end_ container
          (place_piece (mk_range piece_start piece_end owner) l)
  end.

(** Add the non-empty pieces; returns the offsets of the first and the last one added. *)
Fixpoint add_pieces (s : as_state St) (attr : Z) (name : list Z) (l : list as_range)
    (start_off off : Z) : res (as_state St * Z * Z) :=
  match l with
  | [] => mret (s, start_off, off)
  | p :: rest =>
      if ar_start p <=? ar_end p then
        '(s1, off) ← as_add s (ar_start p) (ar_end p) attr name (ar_owner p);
        add_pieces s1 attr name rest (if start_off =? AS_NULL_OFF H then off else start_off) off
      else add_pieces s attr name rest start_off off
  end.

(** The overlay pass: one more entry for each piece, owned by it. *)
Fixpoint overlay_pieces (fuel : nat) (s : as_state St) (attr : Z) (name : list Z) (off : Z)
    : res (as_state St) :=
  match fuel with
  | O => Err NoFuel
  | S fuel =>
      e ← get_or_bad (as_off2info s off);
      '(s1, _) ← as_add s (as_start e) (as_end e) attr name off;
      e1 ← get_or_bad (as_off2info s1 off);
      if Z.land (as_attr e1) (AS_ATTR_CONTINUED H) =? 0 then mret s1
      else overlay_pieces fuel s1 attr name (u32 (off + asz H))
  end.

Definition as_add_containing (s : as_state St) (start end_ attr : Z) (name container : list Z)
    : res (as_state St * Z) :=
  l ← collect_pieces (S (length (as_tab s))) s (AS_NULL_OFF H) start end_ container [];
  let no_io := bnot 32 AS_OVERLAY_IO in
  let piece_attr := Z.lor (Z.land attr no_io) (AS_ATTR_CONTINUED H) in
  '(s1, start_off, off) ← add_pieces s piece_attr name l (AS_NULL_OFF H) 0;
  if start_off =? AS_NULL_OFF H then mret (s1, start_off)
  else
    let s2 := upd s1 (as_idx off)
                (fun e => set_attr e (Z.land (as_attr e) (bnot 32 (AS_ATTR_CONTINUED H)))) in
    if Z.land attr AS_OVERLAY_IO =? 0 then mret (s2, start_off)
    else
      s3 ← overlay_pieces (S (length l)) s2 (Z.land attr no_io) name start_off;
      mret (s3, start_off).

End Code.

(** ** Tables up to attributes *)

(** Tables that differ only in attribute bits. *)
Definition same_but_attr (l l' : list asinfo_entry) : Prop :=
  Forall2 (fun e e' => e' = set_attr e (as_attr e')) l l'.

Lemma same_but_attr_refl l : same_but_attr l l.
Proof. induction l as [|e l IH]; constructor; [by destruct e|done]. Qed.

Lemma same_but_attr_trans a b c : same_but_attr a b -> same_but_attr b c -> same_but_attr a c.
Proof.
  intros Hab. revert c.
  induction Hab as [|e e' l l' He _ IH]; intros c Hbc; inversion Hbc as [|? e'' ? l'' He' Hl']; subst;
    constructor; [by rewrite He', He|by apply IH].
Qed.

Lemma same_but_attr_alter l i f :
  (forall e, f e = set_attr e (as_attr (f e))) -> same_but_attr l (alter f i l).
Proof.
  intros Hf. revert i. induction l as [|e l IH]; intros [|i]; cbn; constructor;
    try apply Hf; try apply IH; try apply same_but_attr_refl. by destruct e.
Qed.

Lemma same_but_attr_app a b a' b' :
  same_but_attr a a' -> same_but_attr b b' -> same_but_attr (a ++ b) (a' ++ b').
Proof. apply Forall2_app. Qed.

Lemma same_but_attr_length l l' : same_but_attr l l' -> length l = length l'.
Proof. apply Forall2_length. Qed.

(** ** Invariant *)

(** Facts about the SDK constants the code relies on: entries keep the section aligned, and the
    null offset is a 32-bit value. *)
Record header_ok (H : as_header) : Prop := {
  h_asz : 0 < asz H < 2 ^ 20;
  h_align : ROUND (asz H) 8 = asz H;
  h_null : 0 < AS_NULL_OFF H < 2 ^ 32;
  h_cont : exists k, 0 <= k < 16 /\ AS_ATTR_CONTINUED H = 2 ^ k
}.

Section Correct.
Context (H : as_header) (HO : header_ok H).
Context {St : Type} `{HL : SectionLaws St}.

Implicit Types (s : as_state St).

(** The owner of an entry comes earlier in the table, its name is a listed string, and its range
    is not empty; offsets stay below the null offset. *)
Record as_inv s (names : list (list Z)) : Prop := {
  ai_wf : st_wf (as_sys s);
  ai_has : st_has (as_sys s) SEC_asinfo /\ st_has (as_sys s) SEC_strings;
  ai_names : strtab (st_bytes (as_sys s) SEC_strings) names;
  ai_owner : forall i e, as_tab s !! i = Some e ->
    as_owner e = AS_NULL_OFF H \/ exists j, (j < i)%nat /\ as_owner e = as_info2off H j;
  ai_name : forall i e, as_tab s !! i = Some e ->
    exists n, str_off names n = Some (as_name e);
  ai_range : forall i e, as_tab s !! i = Some e -> 0 <= as_start e <= as_end e /\ as_end e < 2 ^ 64;
  ai_size : Z.of_nat (length (as_tab s)) * asz H <= AS_NULL_OFF H
}.

Lemma as_info2off_small s names i :
  as_inv s names -> (i < length (as_tab s))%nat ->
  as_info2off H i = Z.of_nat i * asz H /\ as_info2off H i <> AS_NULL_OFF H /\
  as_idx H (as_info2off H i) = i.
Proof.
  intros Hi Hlt. pose proof (ai_size _ _ Hi). destruct HO as [[? ?] _ [? ?] _].
  assert (as_info2off H i = Z.of_nat i * asz H) as ->
    by (unfold as_info2off; apply wrap_id; unfold fits; nia).
  split; [done|]. split; [nia|]. unfold as_idx. rewrite Z.div_mul by lia. lia.
Qed.

(** [in_container s i name]: entry [i] or one of its owners is called [name]. *)
Inductive in_container s (i : nat) (name : list Z) : Prop :=
  | ic_self e : as_tab s !! i = Some e -> hwi_find_string (as_sys s) (as_name e) = name ->
      in_container s i name
  | ic_owner e : as_tab s !! i = Some e -> as_owner e <> AS_NULL_OFF H ->
      in_container s (as_idx H (as_owner e)) name -> in_container s i name.

Lemma match_name_correct s names i name fuel :
  as_inv s names -> (i < length (as_tab s))%nat -> (i < fuel)%nat ->
  exists b, match_name H fuel s i name = Ok b /\ (b = true <-> in_container s i name).
Proof.
  intros Hinv. revert i. induction fuel as [|fuel IH]; intros i Hi Hf; [lia|].
  destruct (lookup_lt_is_Some_2 _ _ Hi) as [e He]. cbn [match_name]. rewrite He.
  cbn [get_or_bad mbind res_bind]. case_bool_decide as Hn.
  - exists true. split; [done|]. split; [|done]. intros _. by eapply ic_self.
  - destruct (Z.eqb_spec (as_owner e) (AS_NULL_OFF H)) as [Ho|Ho].
    + exists false. split; [done|]. split; [done|]. intros [e' He' ?|e' He' ? _]; simplify_eq.
    + destruct (ai_owner _ _ Hinv i e He) as [|(j & Hj & Hje)]; [done|].
      destruct (as_info2off_small s names j Hinv ltac:(lia)) as (_ & _ & Hidx).
      rewrite Hje, Hidx. destruct (IH j ltac:(lia) ltac:(lia)) as (b & Hb & Hiff).
      exists b. split; [done|]. rewrite Hiff. split.
      * intros Hc. eapply ic_owner; [done..|]. by rewrite Hje, Hidx.
      * intros [e' He' ?|e' He' ? Hc]; simplify_eq. by rewrite Hje, Hidx in Hc.
Qed.

(** The range tests of the code are intersection. *)
Lemma overlaps_iff start end_ e :
  start <= end_ -> as_start e <= as_end e ->
  overlaps start end_ e = true <->
    exists x, start <= x <= end_ /\ as_start e <= x <= as_end e.
Proof.
  intros. unfold overlaps. rewrite !orb_true_iff, !andb_true_iff, !Z.leb_le. split.
  - intros [[|]|]; [exists start|exists end_|exists (as_start e)]; lia.
  - intros (x & ?). lia.
Qed.

(** An entry the search accepts. *)
Definition container_at s (start end_ : Z) (name : list Z) (i : nat) : Prop :=
  in_container s i name /\ exists e, as_tab s !! i = Some e /\ overlaps start end_ e = true.

Lemma find_containing_from_correct s names n i start end_ name :
  as_inv s names -> (i + n = length (as_tab s))%nat ->
  exists r, find_containing_from H n s i start end_ name = Ok r /\
    ((r = AS_NULL_OFF H /\ forall j, (i <= j)%nat -> ~ container_at s start end_ name j) \/
     (exists j, r = as_info2off H j /\ (i <= j < length (as_tab s))%nat /\
        container_at s start end_ name j /\
        forall k, (i <= k < j)%nat -> ~ container_at s start end_ name k)).
Proof.
  intros Hinv. revert i. induction n as [|n IH]; intros i Hlen; cbn [find_containing_from].
  - eexists. split; [done|]. left. split; [done|]. intros j Hj [_ (e & He & _)].
    apply lookup_lt_Some in He. lia.
  - destruct (lookup_lt_is_Some_2 (as_tab s) i ltac:(lia)) as [e He]. rewrite He.
    cbn [get_or_bad mbind res_bind].
    destruct (match_name_correct s names i name (S (length (as_tab s))) Hinv ltac:(lia) ltac:(lia))
      as (b & Hb & Hiff). rewrite Hb. cbn [mbind res_bind].
    destruct (b && overlaps start end_ e) eqn:Htest.
    + apply andb_true_iff in Htest as [-> Hov]. eexists. split; [done|]. right. exists i.
      split_and!; try (done || lia). split; [by apply Hiff|eauto].
    + assert (Hnot : ~ container_at s start end_ name i).
      { intros [Hc (e' & He' & Hov)]. simplify_eq. apply Hiff in Hc as ->. by rewrite Hov in Htest. }
      destruct (IH (S i) ltac:(lia)) as (r & -> & [[-> Hno]|(j & -> & Hj & Hc & Hno)]).
      * eexists. split; [done|]. left. split; [done|]. intros j Hj.
        destruct (decide (j = i)) as [->|]; [done|apply Hno; lia].
      * eexists. split; [done|]. right. exists j. split_and!; try (done || lia).
        intros k Hk. destruct (decide (k = i)) as [->|]; [done|apply Hno; lia].
Qed.

Lemma as_find_containing_spec s names off start end_ container :
  as_inv s names -> (start_idx H off <= length (as_tab s))%nat ->
  exists r, as_find_containing H s off start end_ container = Ok r /\
    ((r = AS_NULL_OFF H /\
        forall j, (start_idx H off <= j)%nat -> ~ container_at s start end_ container j) \/
     (exists j, r = as_info2off H j /\ (start_idx H off <= j < length (as_tab s))%nat /\
        container_at s start end_ container j /\
        forall k, (start_idx H off <= k < j)%nat -> ~ container_at s start end_ container k)).
Proof.
  intros Hinv Hle. unfold as_find_containing. cbv zeta.
  apply find_containing_from_correct with names; [done|lia].
Qed.

(** [as_find_containing] on a consistent table never reads outside it or loops: it returns
    the offset of the first entry after [off] that is called [container], or has an owner called
    so, and whose range intersects [start..end], and the null offset exactly when there is none. *)
Theorem as_find_containing_correct s names off start end_ container :
  as_inv s names -> (start_idx H off <= length (as_tab s))%nat ->
  exists r, as_find_containing H s off start end_ container = Ok r /\
    ((r = AS_NULL_OFF H /\
        forall j, (start_idx H off <= j)%nat -> ~ container_at s start end_ container j) \/
     (exists j, r = as_info2off H j /\ (start_idx H off <= j < length (as_tab s))%nat /\
        container_at s start end_ container j /\
        forall k, (start_idx H off <= k < j)%nat -> ~ container_at s start end_ container k)).
Proof. apply as_find_containing_spec. Qed.

(** ** Adding entries *)

Lemma as_inv_attr s names tab' :
  as_inv s names -> same_but_attr (as_tab s) tab' -> as_inv (mk_ast (as_sys s) tab') names.
Proof.
  intros [Hwf Hhas Hn Ho Hnm Hr Hsz] Hsame.
  assert (Hback : forall i e', tab' !! i = Some e' ->
    exists e, as_tab s !! i = Some e /\ e' = set_attr e (as_attr e')).
  { intros i e' He'. destruct (Forall2_lookup_r _ _ _ _ _ Hsame He') as (e & ? & ?). eauto. }
  split; try done; cbn.
  - intros i e' (e & He & ->)%Hback. apply (Ho i e He).
  - intros i e' (e & He & ->)%Hback. apply (Hnm i e He).
  - intros i e' (e & He & ->)%Hback. apply (Hr i e He).
  - by rewrite <- (same_but_attr_length _ _ Hsame).
Qed.

Definition owner_ok s (owner : Z) : Prop :=
  owner = AS_NULL_OFF H \/ exists j, (j < length (as_tab s))%nat /\ owner = as_info2off H j.

(** The table after its entry at [owner] was marked as having children. *)
Definition with_kids (owner : Z) (tab : list asinfo_entry) : list asinfo_entry :=
  if owner =? AS_NULL_OFF H then tab
  else alter (fun o => set_attr o (Z.lor (as_attr o) (AS_ATTR_KIDS H))) (as_idx H owner) tab.

Lemma with_kids_same owner tab : same_but_attr tab (with_kids owner tab).
Proof.
  unfold with_kids. destruct (_ =? _); [apply same_but_attr_refl|]. by apply same_but_attr_alter.
Qed.

Lemma with_kids_app s names owner es :
  as_inv s names -> owner_ok s owner ->
  with_kids owner (as_tab s ++ es) = with_kids owner (as_tab s) ++ es.
Proof.
  intros Hinv Hown. unfold with_kids. destruct (Z.eqb_spec owner (AS_NULL_OFF H)); [done|].
  destruct Hown as [|(j & Hj & ->)]; [done|].
  destruct (as_info2off_small s names j Hinv Hj) as (_ & _ & ->). by apply alter_app_l.
Qed.

(** What adding one entry guarantees: the old entries only change in the owner's kids bit and
    still resolve to the same names; the new entry comes last. *)
Record as_added s s' (names names' : list (list Z)) (e : asinfo_entry) (name : list Z) : Prop := {
  aa_inv : as_inv s' names';
  aa_tab : as_tab s' = with_kids (as_owner e) (as_tab s) ++ [e];
  aa_name : str_off names' name = Some (as_name e);
  aa_keep : forall n o, str_off names n = Some o ->
    str_off names' n = Some o /\ hwi_find_string (as_sys s') o = n;
  aa_room : st_room (as_sys s) - name_room names name - asz H <= st_room (as_sys s');
  aa_mono : names ⊆ names'
}.

Lemma str_off_mono names name n o :
  str_off names n = Some o ->
  str_off (if decide (name ∈ names) then names else names ++ [name]) n = Some o.
Proof. case_decide; [done|]. apply str_off_app. Qed.

Lemma as_add_one_correct s names start end_ attr name owner :
  as_inv s names -> owner_ok s owner -> cname name -> name <> [] -> zlen name < 2 ^ 30 ->
  0 <= start <= end_ -> end_ < 2 ^ 64 ->
  Z.of_nat (S (length (as_tab s))) * asz H <= AS_NULL_OFF H ->
  name_room names name + asz H <= st_room (as_sys s) ->
  exists s' names' e, as_add_one H s start end_ attr name owner
      = Ok (s', as_info2off H (length (as_tab s))) /\
    as_added s s' names names' e name /\
    as_start e = start /\ as_end e = end_ /\ as_owner e = owner /\ as_attr e = Z.land attr 65535.
Proof.
  intros Hinv Hown Hc Hne Hl Hrng He64 Hsz Hroom. pose proof HO as [Hasz Hal Hnull _].
  pose proof Hinv as [Hwf [Hha Hhs] Hn Ho Hnm Hr _]. pose proof (name_room_nonneg names name).
  destruct (add_string_spec (as_sys s) names name) as (sys1 & off & Hadd & Hpost); try done; [lia|].
  destruct Hpost as [(names' & Hn' & Hnames' & Hoff) Hfind Hkeep Hwf1 Hhas1 Hrm1 Hoth1].
  destruct (law_grow sys1 SEC_asinfo (asz H) Hwf1 (Hhas1 _ Hha)) as (sys2 & Hg & Hup); [lia..|].
  destruct Hup as [Hwf2 Hhas2 Hrm2 Hb2 Hoth2]. rewrite Hal in Hrm2.
  assert (Hstr : st_bytes sys2 SEC_strings = st_bytes sys1 SEC_strings) by (by apply Hoth2).
  assert (Hrd : forall o, hwi_find_string sys2 o = hwi_find_string sys1 o)
    by (intros o; unfold hwi_find_string; by rewrite Hstr).
  set (e := mk_as start end_ owner off (Z.land attr 65535) (AS_PRIORITY_DEFAULT H) None).
  exists (mk_ast sys2 (with_kids owner (as_tab s) ++ [e])), names', e. split_and!; try done.
  - unfold as_add_one. rewrite Hadd. cbn [mbind res_bind]. rewrite Hg. cbn [mbind res_bind].
    rewrite (wrap_id 64 start), (wrap_id 64 end_) by (unfold fits; lia).
    rewrite <- (with_kids_app s names owner [e]) by done.
    unfold with_kids, upd. cbn. fold e. destruct (owner =? AS_NULL_OFF H); done.
  - split; cbn [as_sys as_tab].
    + apply (as_inv_attr (mk_ast sys2 (as_tab s ++ [e]))); cbn;
        [|by apply same_but_attr_app, same_but_attr_refl; apply with_kids_same].
      split; cbn; auto.
      * by rewrite Hstr.
      * intros i e' [Hi|[Hge Hi]]%lookup_app_Some; [by apply (Ho i e')|].
        apply list_lookup_singleton_Some in Hi as [Hi <-]. cbn.
        destruct Hown as [|(j & ? & ?)]; [by left|right; exists j; split; [lia|done]].
      * intros i e' [Hi|[Hge Hi]]%lookup_app_Some.
        -- destruct (Hnm i e' Hi) as (n & Hno). exists n. rewrite Hnames'. by apply str_off_mono.
        -- apply list_lookup_singleton_Some in Hi as [Hi <-]. by exists name.
      * intros i e' [Hi|[Hge Hi]]%lookup_app_Some; [by apply (Hr i e')|].
        apply list_lookup_singleton_Some in Hi as [Hi <-]. cbn. lia.
      * rewrite length_app. cbn. lia.
    + done.
    + done.
    + intros n o Hno. rewrite Hrd. split; [rewrite Hnames'; by apply str_off_mono|]. by apply Hkeep.
    + lia.
    + rewrite Hnames'. case_decide; set_solver.
Qed.

(** ** Splitting a range among its containers *)

Definition in_range (p : as_range) (x : Z) : Prop := ar_start p <= x <= ar_end p.
Definition covered (l : list as_range) (x : Z) : Prop := exists p, p ∈ l /\ in_range p x.

(** Bounds on a piece that keep the additions of [as_add_containing] from wrapping. *)
Definition piece_bounds (p : as_range) : Prop := 0 <= ar_start p < 2 ^ 64 /\ ar_end p < 2 ^ 64 - 1.

Lemma covered_cons p l x : covered (p :: l) x <-> in_range p x \/ covered l x.
Proof.
  unfold covered. split.
  - intros (q & [->|Hq]%elem_of_cons & Hx); eauto.
  - intros [|(q & ? & ?)]; [exists p|exists q]; set_solver.
Qed.

Lemma covered_nil x : ~ covered [] x.
Proof. intros (p & Hp & _). set_solver. Qed.

Lemma place_piece_covers new l x :
  ar_start new <= ar_end new -> piece_bounds new -> Forall piece_bounds l ->
  covered (place_piece new l) x <-> in_range new x \/ covered l x.
Proof.
  intros Hne Hb Hl. induction Hl as [|c l Hc _ IH]; cbn [place_piece]; [apply covered_cons|].
  destruct Hb as [? ?], Hc as [? ?].
  destruct ((_ <=? _) && (_ <=? _)) eqn:Hin; cycle 1.
  { rewrite !covered_cons, IH. tauto. }
  apply andb_true_iff in Hin as [Hs%Z.leb_le He%Z.leb_le].
  destruct ((_ =? _) && (_ =? _)) eqn:Heq.
  { apply andb_true_iff in Heq as [Hs'%Z.eqb_eq He'%Z.eqb_eq].
    rewrite !covered_cons. unfold in_range. cbn. rewrite Hs', He'. tauto. }
  rewrite (wrap_id 64 (ar_end new + 1)) by (unfold fits; lia).
  destruct (Z.eqb_spec (ar_start c) (ar_start new)) as [Hst|Hst].
  { rewrite !covered_cons. unfold in_range. cbn. rewrite Hst.
    pose proof (Z.le_gt_cases x (ar_end new)). intuition lia. }
  rewrite (wrap_id 64 (ar_start new - 1)) by (unfold fits; lia).
  destruct (Z.eqb_spec (ar_end c) (ar_end new)); rewrite ?covered_cons; unfold in_range; cbn;
    pose proof (Z.le_gt_cases x (ar_end new)); pose proof (Z.le_gt_cases (ar_start new) x);
    intuition lia.
Qed.

(** The range of a piece lies in a container's, which owns it. *)
Definition piece_owned s (container : list Z) (p : as_range) : Prop :=
  exists i e, ar_owner p = as_info2off H i /\ in_container s i container /\
    as_tab s !! i = Some e /\ as_start e <= ar_start p /\ ar_end p <= as_end e.

Lemma place_piece_inv s container new l :
  ar_start new <= ar_end new -> piece_bounds new -> piece_owned s container new ->
  Forall (fun p => piece_bounds p /\ piece_owned s container p) l ->
  Forall (fun p => piece_bounds p /\ piece_owned s container p) (place_piece new l) /\
  (length (place_piece new l) <= length l + 2)%nat.
Proof.
  intros Hne Hb Hn Hl. induction Hl as [|c l [Hc Hco] Hl [IH ?]]; cbn [place_piece].
  { split; [|cbn; lia]. by apply Forall_singleton. }
  destruct ((_ <=? _) && (_ <=? _)) eqn:Hin; [|split; [by constructor|cbn; lia]].
  destruct Hb as [? ?], Hc as [? ?].
  apply andb_true_iff in Hin as [Hs%Z.leb_le He%Z.leb_le].
  pose proof Hn as (i & e & Hio & Hic & Hie & ? & ?).
  pose proof Hco as (i' & e' & Hio' & Hic' & Hie' & ? & ?).
  unfold piece_owned, piece_bounds in *.
  destruct ((_ =? _) && (_ =? _)) eqn:Heq.
  { apply andb_true_iff in Heq as [Hs'%Z.eqb_eq He'%Z.eqb_eq].
    split; [|cbn; lia]. constructor; [|done]. cbn. rewrite Hs', He'. eauto 10. }
  rewrite (wrap_id 64 (ar_end new + 1)) by (unfold fits; lia).
  assert (exists i0 e0, ar_owner c = as_info2off H i0 /\ in_container s i0 container /\
    as_tab s !! i0 = Some e0 /\ as_start e0 <= ar_end new + 1 /\ ar_end c <= as_end e0).
  { exists i', e'. split_and!; try done. lia. }
  destruct (Z.eqb_spec (ar_start c) (ar_start new)) as [Hst|Hst].
  { split; [|cbn; lia]. rewrite ?Forall_cons; cbn; split_and!; try done; lia. }
  rewrite (wrap_id 64 (ar_start new - 1)) by (unfold fits; lia).
  assert (exists i0 e0, ar_owner c = as_info2off H i0 /\ in_container s i0 container /\
    as_tab s !! i0 = Some e0 /\ as_start e0 <= ar_start c /\ ar_start new - 1 <= as_end e0).
  { exists i', e'. split_and!; try done. lia. }
  split; [|destruct (_ =? _); cbn; lia].
  destruct (_ =? _); rewrite ?Forall_cons; cbn; split_and!; try done; lia.
Qed.

(** The addresses of [start..end_] that some container from index [k] on covers. *)
Definition contained s (container : list Z) (start end_ : Z) (k : nat) (x : Z) : Prop :=
  start <= x <= end_ /\ exists i e, (k <= i)%nat /\ in_container s i container /\
    as_tab s !! i = Some e /\ as_start e <= x <= as_end e.

Lemma collect_pieces_correct s names start end_ container fuel owner l :
  as_inv s names -> 0 <= start <= end_ -> end_ < 2 ^ 64 - 1 ->
  (start_idx H owner <= length (as_tab s))%nat ->
  (length (as_tab s) - start_idx H owner < fuel)%nat ->
  Forall (fun p => piece_bounds p /\ piece_owned s container p) l ->
  exists l', collect_pieces H fuel s owner start end_ container l = Ok l' /\
    Forall (fun p => piece_bounds p /\ piece_owned s container p) l' /\
    (length l' <= length l + 2 * (length (as_tab s) - start_idx H owner))%nat /\
    forall x, covered l' x <-> covered l x \/ contained s container start end_ (start_idx H owner) x.
Proof.
  intros Hinv Hse He. revert owner l. induction fuel as [|fuel IH]; intros owner l Hle Hf Hl; [lia|].
  cbn [collect_pieces].
  destruct (as_find_containing_spec s names owner start end_ container Hinv Hle)
    as (r & -> & [[-> Hno]|(j & -> & Hj & [Hjc (e & Hje & Hov)] & Hno)]); cbn [mbind res_bind].
  - rewrite Z.eqb_refl. exists l. split_and!; [done..|lia|]. intros x. split; [by left|].
    intros [?|(Hx & i & e & Hi & Hc & Hie & ?)]; [done|]. destruct (Hno i Hi). split; [done|].
    exists e. split; [done|]. destruct (ai_range _ _ Hinv i e Hie).
    apply overlaps_iff; [lia..|]. by exists x.
  - destruct (as_info2off_small s names j Hinv ltac:(lia)) as (Hoff & Hnn & Hidx).
    rewrite (proj2 (Z.eqb_neq _ _) Hnn). unfold as_off2info. rewrite Hidx, Hje.
    cbn [get_or_bad mbind res_bind]. cbv zeta.
    destruct (ai_range _ _ Hinv j e Hje) as [Her Hee].
    apply overlaps_iff in Hov as (y & Hy1 & Hy2); [|lia..].
    set (ps := if start <? as_start e then as_start e else start).
    set (pe := if as_end e <? end_ then as_end e else end_).
    assert (Hps : ps = Z.max start (as_start e)) by (unfold ps; zbool; lia).
    assert (Hpe : pe = Z.min end_ (as_end e)) by (unfold pe; zbool; lia).
    assert (Hsi : start_idx H (as_info2off H j) = S j).
    { unfold start_idx. rewrite (proj2 (Z.eqb_neq _ _) Hnn), Hidx. done. }
    destruct (place_piece_inv s container (mk_range ps pe (as_info2off H j)) l) as [Hin' Hlen'];
      [cbn; lia|split; cbn; lia| |done|].
    { exists j, e. cbn. split_and!; try done; lia. }
    destruct (IH (as_info2off H j) (place_piece (mk_range ps pe (as_info2off H j)) l))
      as (l' & -> & Hl' & Hlen & Hcov); [rewrite Hsi; lia..|done|].
    exists l'. split_and!; [done..|lia|]. intros x. rewrite Hcov, Hsi.
    rewrite place_piece_covers; [|cbn; lia|split; cbn; lia|by apply (Forall_impl _ _ _ Hl); intros ? [? _]].
    unfold in_range. cbn [ar_start ar_end]. unfold contained. split.
    + intros [[Hx|?]|(Hx & i & e' & Hi & ?)]; [right|by left|right].
      * split; [lia|]. exists j, e. split_and!; (done || lia).
      * split; [done|]. exists i, e'. split; [lia|done].
    + intros [?|(Hx & i & e' & Hi & Hc & Hie & Hxe)]; [by left; right|].
      destruct (decide (i = j)) as [->|Hij]; [simplify_eq; left; left; lia|].
      destruct (decide (j < i)%nat); [right; split; [done|]; exists i, e'; split_and!; (done || lia)|].
      destruct (Hno i ltac:(lia)). split; [done|]. exists e'. split; [done|].
      destruct (ai_range _ _ Hinv i e' Hie). apply overlaps_iff; [lia..|]. by exists x.
Qed.

Lemma name_room_in names name : name ∈ names -> name_room names name = 0.
Proof. intros. unfold name_room. by rewrite decide_True. Qed.

Lemma owner_ok_grow s s' owner :
  (length (as_tab s) <= length (as_tab s'))%nat -> owner_ok s owner -> owner_ok s' owner.
Proof. intros ? [|(j & ? & ?)]; [by left|right]. exists j. split; [lia|done]. Qed.

Lemma length_with_kids owner tab : length (with_kids owner tab) = length tab.
Proof. symmetry. apply same_but_attr_length, with_kids_same. Qed.

Lemma with_kids_null tab : with_kids (AS_NULL_OFF H) tab = tab.
Proof. unfold with_kids. by rewrite Z.eqb_refl. Qed.

(** What entry [e] records of piece [p]. *)
Record piece_entry s' (attr : Z) (name : list Z) (p : as_range) (e : asinfo_entry) : Prop := {
  pe_start : as_start e = ar_start p;
  pe_end : as_end e = ar_end p;
  pe_owner : as_owner e = ar_owner p;
  pe_attr : as_attr e = Z.land attr 65535;
  pe_name : hwi_find_string (as_sys s') (as_name e) = name
}.

Lemma in_range_add64 s start end_ attr name owner :
  Z.land attr AS_OVERLAY_IO = 0 ->
  as_add H s start end_ attr name owner = as_add_one H s start end_ attr name owner.
Proof.
  intros Ha. unfold as_add, as_add64. rewrite Ha. cbn [Z.eqb].
  destruct (as_add_one H s start end_ attr name owner) as [[s' o]|]; done.
Qed.

(** The pieces that become entries. *)
Definition non_empty (p : as_range) : bool := ar_start p <=? ar_end p.

Definition piece_ready s (p : as_range) : Prop :=
  0 <= ar_start p /\ ar_end p < 2 ^ 64 /\ owner_ok s (ar_owner p).

(** The table after the owners of all the pieces were marked. *)
Definition kids_of (ps : list as_range) (tab : list asinfo_entry) : list asinfo_entry :=
  fold_left (fun t p => with_kids (ar_owner p) t) ps tab.

Lemma kids_of_same ps tab : same_but_attr tab (kids_of ps tab).
Proof.
  revert tab. induction ps as [|p ps IH]; intros tab; cbn; [apply same_but_attr_refl|].
  eapply same_but_attr_trans; [apply with_kids_same|apply IH].
Qed.

Lemma kids_of_app s names ps tab es :
  as_inv s names -> Forall (fun p => owner_ok s (ar_owner p)) ps ->
  length tab = length (as_tab s) -> kids_of ps (tab ++ es) = kids_of ps tab ++ es.
Proof.
  intros Hinv Hps. revert tab. induction Hps as [|p ps Hp _ IH]; intros tab Hlen; [done|].
  cbn [kids_of fold_left]. rewrite <- IH by (by rewrite length_with_kids). unfold kids_of.
  f_equal. unfold with_kids. destruct (Z.eqb_spec (ar_owner p) (AS_NULL_OFF H)); [done|].
  destruct Hp as [|(j & Hj & ->)]; [done|].
  destruct (as_info2off_small s names j Hinv Hj) as (_ & _ & ->). apply alter_app_l. lia.
Qed.

(** What the loop over the pieces guarantees. *)
Record pieces_added s s' (names names' : list (list Z)) (attr : Z) (name : list Z)
    (l : list as_range) (es : list asinfo_entry) : Prop := {
  pa_inv : as_inv s' names';
  pa_tab : as_tab s' = kids_of (filter non_empty l) (as_tab s) ++ es;
  pa_entries : Forall2 (piece_entry s' attr name) (filter non_empty l) es;
  pa_keep : forall n o, str_off names n = Some o ->
    str_off names' n = Some o /\ hwi_find_string (as_sys s') o = n;
  pa_room : st_room (as_sys s) - name_room names name - Z.of_nat (length es) * asz H
    <= st_room (as_sys s')
}.

Lemma add_pieces_correct attr name l : forall s names so off,
  as_inv s names -> cname name -> name <> [] -> zlen name < 2 ^ 30 ->
  Z.land attr AS_OVERLAY_IO = 0 -> Forall (piece_ready s) l ->
  Z.of_nat (length (as_tab s) + length l) * asz H <= AS_NULL_OFF H ->
  name_room names name + Z.of_nat (length l) * asz H <= st_room (as_sys s) ->
  exists s' names' es, add_pieces H s attr name l so off =
      Ok (s', (if so =? AS_NULL_OFF H then
                 match es with [] => so | _ => as_info2off H (length (as_tab s)) end else so),
          match es with [] => off | _ => as_info2off H (length (as_tab s) + length es - 1) end) /\
    pieces_added s s' names names' attr name l es.
Proof.
  induction l as [|p l IH]; intros s names so off Hinv Hc Hne Hlen Ha Hl Hsz Hroom;
    cbn [add_pieces].
  { exists s, names, []. split; [by destruct (_ =? _)|]. split; auto.
    - cbn. by rewrite app_nil_r.
    - intros n o Hno. split; [done|]. by eapply strtab_read; [apply ai_names|].
    - cbn. pose proof (name_room_nonneg names name). lia. }
  inversion Hl as [|? ? (Hp0 & Hp64 & Hpo) Hl']; subst. destruct HO as [Hasz _ _ _].
  cbn [length] in Hsz, Hroom. fold (non_empty p). destruct (non_empty p) eqn:Hnep; cycle 1.
  { destruct (IH s names so off) as (s' & names' & es & He & Hpa); try done; [nia..|].
    exists s', names', es. split; [done|]. destruct Hpa.
    assert (Hf : filter non_empty (p :: l) = filter non_empty l)
      by (apply filter_cons_False; rewrite Hnep; auto).
    split; rewrite ?Hf; auto. }
  assert (Hrange : ar_start p <= ar_end p) by (apply Z.leb_le; exact Hnep).
  rewrite in_range_add64 by done.
  destruct (as_add_one_correct s names (ar_start p) (ar_end p) attr name (ar_owner p))
    as (s1 & names1 & e & Hadd & [Hinv1 Htab1 Hnm1 Hkeep1 Hroom1 Hmono1] & Hes & Hee & Heo & Hea);
    [done..|nia|nia|].
  assert (Hin1 : name ∈ names1) by (apply str_off_in; by rewrite Hnm1).
  rewrite Hadd. cbn [mbind res_bind].
  assert (Hlen1 : length (as_tab s1) = S (length (as_tab s))).
  { rewrite Htab1, length_app, length_with_kids. cbn. lia. }
  destruct (IH s1 names1 (if so =? AS_NULL_OFF H then as_info2off H (length (as_tab s)) else so)
    (as_info2off H (length (as_tab s))))
    as (s' & names' & es & He & [Hinv' Htab' Hes' Hkeep' Hroom']); try done.
  { eapply Forall_impl; [done|]. intros q (? & ? & ?). split_and!; try done.
    eapply owner_ok_grow; [|done]. lia. }
  { rewrite Hlen1. nia. }
  { rewrite (name_room_in names1 name) by done. nia. }
  exists s', names', (e :: es). split.
  - rewrite He. do 2 f_equal; [f_equal|].
    + destruct (Z.eqb_spec so (AS_NULL_OFF H)) as [->|Hso]; [|by rewrite (proj2 (Z.eqb_neq _ _) Hso)].
      destruct (as_info2off_small s1 names1 (length (as_tab s)) Hinv1 ltac:(lia)) as (_ & Hn & _).
      by rewrite (proj2 (Z.eqb_neq _ _) Hn).
    + destruct es; cbn [length]; f_equal; lia.
  - assert (Hf : filter non_empty (p :: l) = p :: filter non_empty l)
      by (apply filter_cons_True; by rewrite Hnep).
    split; auto.
    + rewrite Hf, Htab', Htab1. cbn [kids_of fold_left].
      rewrite (kids_of_app s names), <- app_assoc, Heo; [done..| |by rewrite length_with_kids].
      rewrite Forall_forall in Hl' |- *. intros q [_ Hq]%list_elem_of_filter. by apply Hl'.
    + rewrite Hf. constructor; [|done]. split; try done. by apply Hkeep'.
    + intros n o Hno. destruct (Hkeep1 n o Hno). by apply Hkeep'.
    + rewrite (name_room_in names1 name) in Hroom' by done. cbn [length]. lia.
Qed.

(** ** [as_add_containing] *)

Lemma piece_attr_bits attr k :
  0 <= k < 16 ->
  let a := Z.lor (Z.land attr (bnot 32 AS_OVERLAY_IO)) (2 ^ k) in
  Z.land a AS_OVERLAY_IO = 0 /\ Z.land (Z.land a 65535) (2 ^ k) <> 0.
Proof.
  intros Hk a. split.
  - apply land_pow2_testbit; [lia|]. unfold a.
    rewrite Z.lor_spec, Z.land_spec, testbit_bnot, Z.pow2_bits_false by lia. cbn.
    by rewrite andb_false_r.
  - rewrite land_pow2_testbit by lia. unfold a.
    change 65535 with (Z.ones 16). rewrite Z.land_spec, Z.lor_spec, Z.testbit_ones, Z.pow2_bits_true by lia.
    rewrite (proj2 (Z.leb_le 0 k)), (proj2 (Z.ltb_lt k 16)) by lia.
    by rewrite orb_true_r.
Qed.

Lemma clear_bit a k : 0 <= k < 32 -> Z.land (Z.land a (bnot 32 (2 ^ k))) (2 ^ k) = 0.
Proof.
  intros Hk. apply land_pow2_testbit; [lia|].
  rewrite Z.land_spec, testbit_bnot, Z.pow2_bits_true by lia. cbn. by rewrite !andb_false_r.
Qed.

(** What an entry added by [as_add_containing] says: it is called [name], it is owned by a
    container of the old table and lies in that container's range, and it is marked continued
    unless it is the last one. *)
Definition contained_entry s s' (name container : list Z) (last : bool) (e : asinfo_entry) : Prop :=
  hwi_find_string (as_sys s') (as_name e) = name /\
  (exists i c, as_owner e = as_info2off H i /\ in_container s i container /\
    as_tab s !! i = Some c /\ as_start c <= as_start e /\ as_end e <= as_end c) /\
  (Z.land (as_attr e) (AS_ATTR_CONTINUED H) = 0 <-> last = true).

(** The entries added cover what the non-empty pieces covered. *)
Lemma entries_cover s' attr name l es x :
  Forall2 (piece_entry s' attr name) (filter non_empty l) es ->
  (exists e, e ∈ es /\ as_start e <= x <= as_end e) <-> covered l x.
Proof.
  intros Hf. unfold covered, in_range. split.
  - intros (e & (i & Hi)%list_elem_of_lookup & Hx).
    destruct (Forall2_lookup_r _ _ _ _ _ Hf Hi) as (p & Hp & []). exists p.
    apply list_elem_of_lookup_2, list_elem_of_filter in Hp as [_ Hp]. split; [done|]. lia.
  - intros (p & Hp & Hx).
    assert (Hpf : p ∈ filter non_empty l).
    { apply list_elem_of_filter. split; [|done]. apply Is_true_true, Z.leb_le. lia. }
    apply list_elem_of_lookup in Hpf as (i & Hi).
    destruct (Forall2_lookup_l _ _ _ _ _ Hf Hi) as (e & He & []). exists e.
    split; [by eapply list_elem_of_lookup_2|]. lia.
Qed.

(** Entry [i] of the pieces, after the continued bit of the last one was cleared. *)
Definition clear_last (es : list asinfo_entry) : list asinfo_entry :=
  alter (fun e => set_attr e (Z.land (as_attr e) (bnot 32 (AS_ATTR_CONTINUED H))))
    (length es - 1)%nat es.

Lemma clear_last_entry s s' s1 attr name container l es i e :
  Forall2 (piece_entry s1 (Z.lor (Z.land attr (bnot 32 AS_OVERLAY_IO)) (AS_ATTR_CONTINUED H)) name)
    (filter non_empty l) es ->
  Forall (fun p => piece_bounds p /\ piece_owned s container p) l ->
  as_sys s' = as_sys s1 -> clear_last es !! i = Some e ->
  contained_entry s s' name container (S i =? length es)%nat e.
Proof.
  intros Hf Hl Hsys Hi. destruct HO as [_ _ _ (k & Hk & Hc)].
  assert (exists e0, es !! i = Some e0 /\ e = if (S i =? length es)%nat
    then set_attr e0 (Z.land (as_attr e0) (bnot 32 (AS_ATTR_CONTINUED H))) else e0) as (e0 & Hi0 & ->).
  { unfold clear_last in Hi. destruct (Nat.eqb_spec (S i) (length es)) as [He|He].
    - assert (i = (length es - 1)%nat) as -> by lia. rewrite list_lookup_alter_eq in Hi.
      destruct (es !! (length es - 1)%nat); cbn in Hi; simplify_eq. eauto.
    - rewrite list_lookup_alter_ne in Hi; [eauto|].
      apply lookup_lt_Some in Hi. rewrite length_alter in Hi. lia. }
  destruct (Forall2_lookup_r _ _ _ _ _ Hf Hi0) as (p & Hp & [Hps Hpe Hpo Hpa Hpn]).
  apply list_elem_of_lookup_2, list_elem_of_filter in Hp as [_ Hp].
  rewrite Forall_forall in Hl. destruct (Hl p Hp) as [_ (j & c & ? & ? & ? & ? & ?)].
  destruct (piece_attr_bits attr k Hk) as [_ Hbit]. cbv zeta in Hbit.
  destruct (S i =? length es)%nat; (split; [|split]); cbn; rewrite ?Hsys; try done.
  - exists j, c. rewrite Hps, Hpe, Hpo. done.
  - split; [done|]. intros _. rewrite Hc. apply clear_bit. lia.
  - exists j, c. rewrite Hps, Hpe, Hpo. done.
  - split; [|done]. rewrite Hpa, Hc. done.
Qed.

Lemma clear_last_cover es x :
  (exists e, e ∈ clear_last es /\ as_start e <= x <= as_end e) <->
  (exists e, e ∈ es /\ as_start e <= x <= as_end e).
Proof.
  unfold clear_last. generalize (length es - 1)%nat as n. intros n.
  assert (Hs : same_but_attr es (alter (fun e => set_attr e (Z.land (as_attr e)
    (bnot 32 (AS_ATTR_CONTINUED H)))) n es)) by (by apply same_but_attr_alter).
  split; intros (e & (i & Hi)%list_elem_of_lookup & Hx).
  - destruct (Forall2_lookup_r _ _ _ _ _ Hs Hi) as (e' & Hi' & He). exists e'.
    split; [by eapply list_elem_of_lookup_2|]. by rewrite He in Hx.
  - destruct (Forall2_lookup_l _ _ _ _ _ Hs Hi) as (e' & Hi' & He). exists e'.
    split; [by eapply list_elem_of_lookup_2|]. by rewrite He.
Qed.

Lemma pieces_ready s names container l :
  as_inv s names -> Forall (fun p => piece_bounds p /\ piece_owned s container p) l ->
  Forall (piece_ready s) l.
Proof.
  intros Hinv Hl. eapply Forall_impl; [done|].
  intros p [[? ?] (i & e & ? & ? & Hi & ?)]. split_and!; [lia|lia|]. right. exists i.
  split; [by eapply lookup_lt_Some|done].
Qed.

(** C25.  [as_add_containing], without an overlay: on a consistent table it always terminates and
    appends a run of entries [es] whose ranges cover exactly the addresses of [start..end] that
    lie in some entry called [container] (or owned by one); every new entry has the given name, is
    owned by such a container and inside it, all but the last are marked continued, earlier entries
    only change attribute bits, and the result is the offset of the first new entry, or the null
    offset when nothing was added. *)
Theorem as_add_containing_correct s names start end_ attr name container :
  as_inv s names -> cname name -> name <> [] -> zlen name < 2 ^ 30 ->
  0 <= start <= end_ -> end_ < 2 ^ 64 - 1 -> Z.land attr AS_OVERLAY_IO = 0 ->
  3 * Z.of_nat (length (as_tab s)) * asz H <= AS_NULL_OFF H ->
  name_room names name + 2 * Z.of_nat (length (as_tab s)) * asz H <= st_room (as_sys s) ->
  exists s' names' old es,
    as_add_containing H s start end_ attr name container
      = Ok (s', match es with [] => AS_NULL_OFF H | _ => as_info2off H (length (as_tab s)) end) /\
    as_inv s' names' /\ as_tab s' = old ++ es /\ same_but_attr (as_tab s) old /\
    (forall x, (exists e, e ∈ es /\ as_start e <= x <= as_end e) <->
       contained s container start end_ 0 x) /\
    (forall i e, es !! i = Some e ->
       contained_entry s s' name container (S i =? length es)%nat e).
Proof.
  intros Hinv Hc Hne Hlen Hse He Hov Hsz Hroom. unfold as_add_containing.
  destruct (collect_pieces_correct s names start end_ container (S (length (as_tab s)))
    (AS_NULL_OFF H) []) as (l & -> & Hl & Hll & Hcov); try done.
  { unfold start_idx. rewrite Z.eqb_refl. lia. } { lia. }
  assert (Hsi : start_idx H (AS_NULL_OFF H) = O) by (unfold start_idx; by rewrite Z.eqb_refl).
  rewrite Hsi in *. cbn [length] in Hll. destruct HO as [Hasz _ _ (k & Hk & Hcont)].
  destruct (piece_attr_bits attr k Hk) as [Hio _]. rewrite <- Hcont in Hio. cbn [mbind res_bind].
  set (a := Z.lor _ _) in *.
  destruct (add_pieces_correct a name l s names (AS_NULL_OFF H) 0)
    as (s1 & names1 & es & -> & [Hinv1 Htab1 Hes Hkeep1 Hroom1]); try done.
  { by eapply pieces_ready. } { nia. } { nia. }
  rewrite Z.eqb_refl. cbn [mbind res_bind].
  assert (Hx : forall x, (exists e, e ∈ es /\ as_start e <= x <= as_end e) <->
    contained s container start end_ 0 x).
  { intros x. rewrite (entries_cover s1 a name l es x Hes), Hcov.
    split; [intros [Hn|]; [by apply covered_nil in Hn|done]|by right]. }
  destruct (decide (es = [])) as [->|Hnil].
  { rewrite Z.eqb_refl. exists s1, names1, (kids_of (filter non_empty l) (as_tab s)), [].
    split_and!; try done. apply kids_of_same. }
  assert (Hsz1 : length (as_tab s1) = (length (as_tab s) + length es)%nat).
  { rewrite Htab1, length_app. by rewrite <- (same_but_attr_length _ _ (kids_of_same _ _)). }
  destruct es as [|e0 es0] eqn:Hes0; [done|]. rewrite <- Hes0 in *.
  assert (Hlpos : (0 < length es)%nat) by (rewrite Hes0; cbn; lia).
  destruct (as_info2off_small s1 names1 (length (as_tab s)) Hinv1 ltac:(lia)) as (_ & Hn1 & _).
  destruct (as_info2off_small s1 names1 (length (as_tab s) + length es - 1)%nat Hinv1 ltac:(lia))
    as (_ & _ & Hidx).
  rewrite (proj2 (Z.eqb_neq _ _) Hn1), Hov, Hidx. cbn [Z.eqb].
  assert (Halt : as_tab (upd s1 (length (as_tab s) + length es - 1)%nat (fun e => set_attr e
      (Z.land (as_attr e) (bnot 32 (AS_ATTR_CONTINUED H))))) =
      kids_of (filter non_empty l) (as_tab s) ++ clear_last es).
  { unfold upd. cbn [as_tab]. rewrite Htab1. unfold clear_last.
    rewrite alter_app_r_alt by (rewrite <- (same_but_attr_length _ _ (kids_of_same _ _)); lia).
    do 2 f_equal. rewrite <- (same_but_attr_length _ _ (kids_of_same _ _)). lia. }
  eexists _, names1, (kids_of (filter non_empty l) (as_tab s)), (clear_last es).
  assert (Hcl : length (clear_last es) = length es) by apply length_alter.
  split_and!; [| |exact Halt|apply kids_of_same| |].
  - destruct (clear_last es); [cbn in Hcl; lia|done].
  - apply (as_inv_attr s1); [done|]. by apply same_but_attr_alter.
  - intros x. by rewrite clear_last_cover.
  - intros i e Hi. rewrite Hcl. by eapply clear_last_entry.
Qed.

End Correct.
