(* ===== verification/Hwinfo.v ===== *)
(** * Hwinfo: the hardware-information section (startup/lib/hwi_*.c, hwidev_*.c, hwibus_*.c,
    hwitag_*.c).

    The section is a sequence of tags.  A tag starts with its size in words and the offset of its
    name in the string section; an item is a tag with more fields (its whole size, its own name, the
    offset of the item that owns it, the number of items it owns) followed by the tags that
    describe it.  This file is the code; HwinfoTags.v and HwinfoItems.v read the section as a list of
    items. *)

From S2P Require Import Prelude.
From S2P Require Import Sections.
From S2P Require Import Strings.

(** A member of a structure: its offset and its size in bytes. *)
Record field := mk_fd { fd_off : Z; fd_len : nat }.

(** The three arguments [HWI_TAG_INFO] passes: the name, the size and the alignment of a tag. *)
Record tag_info := mk_ti { ti_name : list Z; ti_size : Z; ti_align : Z }.

(** What the SDK's <hw/sysinfo.h> fixes: the structures, the names, the null offset and the vector
    that stands for none. *)
Class HwiHeader := {
  prefix_size : field; prefix_name : field;
  item_itemsize : field; item_itemname : field; item_owner : field; item_kids : field;
  t_pad : tag_info; t_group : tag_info; t_bus : tag_info; t_device : tag_info; t_synonym : tag_info;
  t_location : tag_info; t_irq : tag_info; t_irqrange : tag_info; t_inputclk : tag_info;
  t_nicphyaddr : tag_info; t_regname : tag_info; t_busattr : tag_info; t_errata : tag_info;
  t_dma : tag_info; t_dll : tag_info; t_optstr : tag_info; t_nanospin : tag_info;
  TAG_NAME_nicaddr : list Z; TAG_ALIGN_nicaddr : Z;
  device_pnpid : field; synonym_real : field;
  location_base : field; location_len : field; location_regshift : field;
  location_addrspace : field;
  irq_vector : field; irqrange_irq : field; irqrange_num : field;
  inputclk_clk : field; inputclk_div : field;
  nicaddr_len : field; nicaddr_addr : Z; nicphyaddr_addr : field;
  regname_regname : field; regname_offset : field;
  busattr_speed : field; busattr_width : field; busattr_addr : field; busattr_flags : field;
  errata_num : field; dma_chnl : field; dll_name : field; optstr_string : field;
  nanospin_hundred_loop_time : field; nanospin_overhead : field;
  HWI_NULL_OFF : Z; HWI_ILLEGAL_VECTOR : Z;
  ITEM_ROOT_HW : list Z; ITEM_BUS_UNKNOWN : list Z; ITEM_DEVCLASS_RTC : list Z;
  ITEM_DEVCLASS_MISC : list Z; ITEM_BUS_CAN : list Z; ITEM_BUS_I2C : list Z;
  ITEM_BUS_PCI : list Z; ITEM_BUS_SDIO : list Z; ITEM_BUS_SPI : list Z; ITEM_BUS_USB : list Z
}.

(** The C library's searches, over the bytes of the section and of the strings (it finds both through
    [__hwi_base] and [__hwi_find_string]): an item by the names on its path, from an item on; the tag
    of an item with a name and an index, with the index of the next. *)
Class HwiLibc := {
  hwi_find_item : list Z -> list Z -> Z -> list (list Z) -> Z;
  hwi_tag_find : list Z -> list Z -> Z -> list Z -> Z -> option (Z * Z)
}.

(** The device classes of sys/hwinfo.h. *)
Definition hwi_devclass_NONE : Z := 0.
Definition hwi_devclass_UART : Z := 1.
Definition hwi_devclass_ENET : Z := 2.
Definition hwi_devclass_RTC : Z := 3.
Definition hwi_devclass_DMA : Z := 4.
Definition hwi_devclass_TIMER : Z := 7.

(** [hwiattr_common_t], and the attributes of the device and bus classes. *)
Record common_attr := mk_common {
  at_base : Z; at_len : Z; at_regshift : Z; at_addrspace : Z;
  at_dll : option (list Z); at_optstr : option (list Z);
  at_num_irq : Z; at_num_errata : Z; at_num_dma : Z
}.
Record enet_attr := mk_enet {
  en_common : common_attr; en_mac : list Z; en_num_clks : Z; en_num_phys : Z
}.
Record rtc_attr := mk_rtc { rt_common : common_attr; rt_name : option (list Z); rt_offset : Z }.
Record clock_attr := mk_clock { ck_common : common_attr; ck_num_clks : Z }.
Record bus_attr := mk_busat { ba_common : common_attr; ba_num_clks : Z; ba_num_busattr : Z }.
Record pci_attr := mk_pci { pc_common : common_attr; pc_num_irqblks : Z; pc_num_busattr : Z }.
Record can_attr := mk_can { ca_common : common_attr; ca_num_clks : Z; ca_num_memaddr : Z }.
Record busattr := mk_battr { bt_speed : Z; bt_width : Z; bt_addr : Z; bt_flags : Z }.

(** The store with the section, and the static variables of hwi_alloc.c. *)
Record hwi_state (St : Type) := mk_hw { hw_sys : St; hw_offset : Z; hw_last : Z }.
Arguments mk_hw {St} _ _ _.
Arguments hw_sys {St} _.
Arguments hw_offset {St} _.
Arguments hw_last {St} _.

(** The routines read and change that state. *)
Definition hw (St A : Type) : Type := hwi_state St -> res (A * hwi_state St).

#[export] Instance hw_ret {St} : MRet (hw St) := fun A a s => Ok (a, s).
#[export] Instance hw_bind {St} : MBind (hw St) :=
  fun A B f m s => match m s with Ok (a, s') => f a s' | Err e => Err e end.

Section Code.
Context {HH : HwiHeader} {HC : HwiLibc} {St : Type} `{SectionStore St}.

Definition hw_bytes (s : hwi_state St) : list Z := st_bytes (hw_sys s) SEC_hwinfo.
Definition hw_strings (s : hwi_state St) : list Z := st_bytes (hw_sys s) SEC_strings.

Definition current : hw St (hwi_state St) := fun s => Ok (s, s).

(** Memory accesses: bytes at an offset of the section, and a member of the structure there. *)
Definition store (off : Z) (bs : list Z) : hw St unit :=
  fun s => Ok (tt, mk_hw (st_write (hw_sys s) SEC_hwinfo off bs) (hw_offset s) (hw_last s)).
Definition set (tag : Z) (f : field) (v : Z) : hw St unit :=
  store (tag + fd_off f) (le_bytes (fd_len f) v).
Definition get (f : field) (t : list Z) : Z := le_word (slice t (fd_off f) (Z.of_nat (fd_len f))).
Definition member (tag : Z) (f : field) : hw St Z :=
  fun s => Ok (get f (drop (Z.to_nat tag) (hw_bytes s)), s).

(** The calls into the other files of startup. *)
Definition string_added (name : list Z) : hw St Z :=
  fun s => '(sys, off) ← add_string (hw_sys s) name; Ok (off, mk_hw sys (hw_offset s) (hw_last s)).
Definition grown (size : Z) : hw St unit :=
  fun s => sys ← st_grow (hw_sys s) SEC_hwinfo size; Ok (tt, mk_hw sys (hw_offset s) (hw_last s)).
Definition set_offset (v : Z) : hw St unit := fun s => Ok (tt, mk_hw (hw_sys s) v (hw_last s)).
Definition set_last (v : Z) : hw St unit := fun s => Ok (tt, mk_hw (hw_sys s) (hw_offset s) v).

(** ** hwi_alloc.c *)

Definition align_tag_with (alloc : tag_info -> hw St Z) (align : Z) : hw St unit :=
  s ← current;
  let grow := u32 (u32 (ROUND (hw_offset s) align) - hw_offset s) in
  if grow =? 0 then mret tt else _ ← alloc t_pad; mret tt.

(** [hwi_alloc_tag] and [align_tag] call each other; the value is the offset of the tag. *)
Fixpoint hwi_alloc_tag_f (fuel : nat) (ti : tag_info) : hw St Z :=
  match fuel with
  | O => fun _ => Err NoFuel
  | S fuel =>
      _ ← align_tag_with (hwi_alloc_tag_f fuel) (ti_align ti);
      name_off ← string_added (ti_name ti);
      _ ← grown (ti_size ti);
      s ← current;
      n ← member (hw_last s) item_itemsize;
      _ ← set (hw_last s) item_itemsize (n + ti_size ti / 4);
      let tag := hw_offset s in
      _ ← set tag prefix_size (ti_size ti / 4);
      _ ← set tag prefix_name name_off;
      _ ← set_offset (u32 (hw_offset s + ti_size ti));
      mret tag
  end.

Definition pad_fuel : nat := 2.
Definition hwi_alloc_tag : tag_info -> hw St Z := hwi_alloc_tag_f pad_fuel.
Definition align_tag : Z -> hw St unit := align_tag_with hwi_alloc_tag.

Definition hwi_alloc_item (ti : tag_info) (itemname : list Z) (owner : Z) : hw St Z :=
  saved_in ← string_added itemname;
  _ ← align_tag (ti_align ti);
  s ← current;
  _ ← set_last (hw_offset s);
  tag ← hwi_alloc_tag ti;
  _ ← set tag item_itemname saved_in;
  _ ← set tag item_owner owner;
  _ ← (if owner =? HWI_NULL_OFF then mret tt
       else n ← member owner item_kids; set owner item_kids (n + 1));
  mret tag.

(** The parameter hides the static variable of the same name, which keeps its value. *)
Definition hwi_grow_tag (offset size : Z) : hw St Z :=
  _ ← grown size;
  s ← current;
  n ← member (hw_last s) item_itemsize;
  _ ← set (hw_last s) item_itemsize (n + size / 4);
  m ← member offset prefix_size;
  _ ← set offset prefix_size (m + size / 4);
  mret offset.

(** ** Adding tags: hwitag_add_*.c *)

Definition hwitag_add_location (base len reg_shift addr_space : Z) : hw St unit :=
  tag ← hwi_alloc_tag t_location;
  _ ← set tag location_base base;
  _ ← set tag location_len len;
  _ ← set tag location_regshift reg_shift;
  set tag location_addrspace addr_space.

Definition hwitag_add_irq (vector : Z) : hw St unit :=
  tag ← hwi_alloc_tag t_irq; set tag irq_vector vector.

Definition hwitag_add_irqrange (start_vector num : Z) : hw St unit :=
  tag ← hwi_alloc_tag t_irqrange;
  _ ← set tag irqrange_irq start_vector;
  set tag irqrange_num num.

Definition hwitag_add_inputclk (clk div : Z) : hw St unit :=
  tag ← hwi_alloc_tag t_inputclk;
  _ ← set tag inputclk_clk clk;
  set tag inputclk_div div.

Definition nicaddr_info (len : Z) : tag_info :=
  mk_ti TAG_NAME_nicaddr (u32 (ROUND (u32 (nicaddr_addr + len)) 4)) TAG_ALIGN_nicaddr.

Definition hwitag_add_nicaddr (addr : list Z) (len : Z) : hw St unit :=
  tag ← hwi_alloc_tag (nicaddr_info len);
  _ ← set tag nicaddr_len len;
  store (tag + nicaddr_addr) (slice addr 0 len).

Definition hwitag_add_nicphyaddr (addr : Z) : hw St unit :=
  tag ← hwi_alloc_tag t_nicphyaddr; set tag nicphyaddr_addr addr.

Definition hwitag_add_regname (name : list Z) (regoffset : Z) : hw St unit :=
  string_idx ← string_added name;
  tag ← hwi_alloc_tag t_regname;
  _ ← set tag regname_regname string_idx;
  set tag regname_offset regoffset.

Definition hwitag_add_busattr (attr : option busattr) : hw St unit :=
  tag ← hwi_alloc_tag t_busattr;
  _ ← set tag busattr_speed (from_option bt_speed 0 attr);
  _ ← set tag busattr_width (from_option bt_width 0 attr);
  _ ← set tag busattr_addr (from_option bt_addr 0 attr);
  set tag busattr_flags (from_option bt_flags 0 attr).

Definition hwitag_add_errata (num : Z) : hw St unit :=
  tag ← hwi_alloc_tag t_errata; set tag errata_num num.

Definition hwitag_add_dma (chnl : Z) : hw St unit :=
  tag ← hwi_alloc_tag t_dma; set tag dma_chnl chnl.

Definition hwitag_add_dll (dll : list Z) : hw St unit :=
  string_idx ← string_added dll;
  tag ← hwi_alloc_tag t_dll; set tag dll_name string_idx.

Definition hwitag_add_optstr (string : list Z) : hw St unit :=
  string_idx ← string_added string;
  tag ← hwi_alloc_tag t_optstr; set tag optstr_string string_idx.

(** Loops: [while (i--)], and [for (i=0; i<n; i++)] from [i] on. *)
Fixpoint times (n : nat) (m : hw St unit) : hw St unit :=
  match n with O => mret tt | S n => _ ← m; times n m end.
Fixpoint for_up (n : nat) (i : Z) (body : Z -> hw St unit) : hw St unit :=
  match n with O => mret tt | S n => _ ← body i; for_up n (i + 1) body end.

(** [if (p != NULL) ...] on a string. *)
Definition if_given (p : option (list Z)) (f : list Z -> hw St unit) : hw St unit :=
  match p with Some x => f x | None => mret tt end.

Definition hwitag_add_common (attr : common_attr) : hw St unit :=
  _ ← hwitag_add_location (at_base attr) (at_len attr) (at_regshift attr) (at_addrspace attr);
  _ ← times (Z.to_nat (at_num_irq attr)) (hwitag_add_irq HWI_ILLEGAL_VECTOR);
  _ ← if_given (at_dll attr) hwitag_add_dll;
  _ ← if_given (at_optstr attr) hwitag_add_optstr;
  _ ← times (Z.to_nat (at_num_errata attr)) (hwitag_add_errata 0);
  times (Z.to_nat (at_num_dma attr)) (hwitag_add_dma 0).

(** ** Adding devices and buses: hwidev_add*.c, hwibus_add*.c *)

(** [hwi_find_item] on the current state. *)
Definition found_item (path : list (list Z)) : hw St Z :=
  fun s => Ok (hwi_find_item (hw_bytes s) (hw_strings s) HWI_NULL_OFF path, s).

Definition hwidev_add (device_name : list Z) (pnp bus_hwi_off : Z) : hw St Z :=
  bus ← (if bus_hwi_off =? HWI_NULL_OFF then found_item [ITEM_ROOT_HW; ITEM_BUS_UNKNOWN]
         else mret bus_hwi_off);
  if bus =? HWI_NULL_OFF then mret HWI_NULL_OFF
  else
    tag ← hwi_alloc_item t_device device_name bus;
    _ ← set tag device_pnpid pnp;
    mret tag.

Definition hwibus_add (bus_name : list Z) (parent_hwi_off : Z) : hw St Z :=
  parent ← (if parent_hwi_off =? HWI_NULL_OFF then found_item [ITEM_ROOT_HW]
            else mret parent_hwi_off);
  if parent =? HWI_NULL_OFF then mret HWI_NULL_OFF
  else hwi_alloc_item t_bus bus_name parent.

(** The tail all of them share: [if ((hwi_off != HWI_NULL_OFF) && (attr != NULL))]. *)
Definition described {A} (hwi_off : Z) (attr : option A) (tags : A -> hw St unit) : hw St Z :=
  if hwi_off =? HWI_NULL_OFF then mret hwi_off
  else match attr with Some a => _ ← tags a; mret hwi_off | None => mret hwi_off end.

Definition input_clocks (n : Z) : hw St unit :=
  for_up (Z.to_nat n) 0 (fun _ => hwitag_add_inputclk 0 1).
Definition bus_attributes (n : Z) : hw St unit :=
  for_up (Z.to_nat n) 0 (fun _ => hwitag_add_busattr None).

Definition hwidev_add_enet (device_name : list Z) (attr : option enet_attr) (bus_hwi_off : Z)
    : hw St Z :=
  hwi_off ← hwidev_add device_name hwi_devclass_ENET bus_hwi_off;
  described hwi_off attr (fun a =>
    _ ← hwitag_add_common (en_common a);
    _ ← for_up (Z.to_nat (en_num_phys a)) 0 hwitag_add_nicphyaddr;
    _ ← input_clocks (en_num_clks a);
    if bool_decide (en_mac a = zeros 6) then mret tt else hwitag_add_nicaddr (en_mac a) 6).

Definition hwidev_add_rtc (device_name : list Z) (attr : option rtc_attr) (bus_hwi_off : Z)
    : hw St Z :=
  hwi_off ← hwidev_add device_name hwi_devclass_RTC bus_hwi_off;
  described hwi_off attr (fun a =>
    _ ← hwitag_add_common (rt_common a);
    if_given (rt_name a) (fun name => hwitag_add_regname name (rt_offset a))).

Definition hwidev_add_timer (device_name : list Z) (attr : option clock_attr) (bus_hwi_off : Z)
    : hw St Z :=
  hwi_off ← hwidev_add device_name hwi_devclass_TIMER bus_hwi_off;
  described hwi_off attr (fun a =>
    _ ← hwitag_add_common (ck_common a); input_clocks (ck_num_clks a)).

Definition hwidev_add_uart (device_name : list Z) (attr : option clock_attr) (bus_hwi_off : Z)
    : hw St Z :=
  hwi_off ← hwidev_add device_name hwi_devclass_UART bus_hwi_off;
  described hwi_off attr (fun a =>
    _ ← hwitag_add_common (ck_common a); input_clocks (ck_num_clks a)).

Definition hwidev_add_dma (device_name : list Z) (attr : option common_attr) (bus_hwi_off : Z)
    : hw St Z :=
  hwi_off ← hwidev_add device_name hwi_devclass_DMA bus_hwi_off;
  described hwi_off attr hwitag_add_common.

Definition hwibus_add_can (parent_hwi_off : Z) (attr : option can_attr) : hw St Z :=
  hwi_off ← hwibus_add ITEM_BUS_CAN parent_hwi_off;
  described hwi_off attr (fun a =>
    _ ← hwitag_add_common (ca_common a);
    _ ← input_clocks (ca_num_clks a);
    for_up (Z.to_nat (ca_num_memaddr a)) 0 (fun _ => hwitag_add_location 0 0 0 0)).

(** hwibus_add_i2c.c, hwibus_add_sdio.c and hwibus_add_spi.c differ in the name only. *)
Definition clocked_bus (name : list Z) (parent_hwi_off : Z) (attr : option bus_attr) : hw St Z :=
  hwi_off ← hwibus_add name parent_hwi_off;
  described hwi_off attr (fun a =>
    _ ← hwitag_add_common (ba_common a);
    _ ← input_clocks (ba_num_clks a);
    bus_attributes (ba_num_busattr a)).

Definition hwibus_add_i2c := clocked_bus ITEM_BUS_I2C.
Definition hwibus_add_sdio := clocked_bus ITEM_BUS_SDIO.
Definition hwibus_add_spi := clocked_bus ITEM_BUS_SPI.

Definition hwibus_add_pci (parent_hwi_off : Z) (attr : option pci_attr) : hw St Z :=
  hwi_off ← hwibus_add ITEM_BUS_PCI parent_hwi_off;
  described hwi_off attr (fun a =>
    _ ← hwitag_add_common (pc_common a);
    _ ← for_up (Z.to_nat (pc_num_irqblks a)) 0 (fun _ => hwitag_add_irqrange HWI_ILLEGAL_VECTOR 0);
    bus_attributes (pc_num_busattr a)).

Definition hwibus_add_usb (parent_hwi_off : Z) (attr : option common_attr) : hw St Z :=
  hwi_off ← hwibus_add ITEM_BUS_USB parent_hwi_off;
  described hwi_off attr hwitag_add_common.

(** ** The first items and the older interface: hwi_default.c, hwi_add_*.c *)

Definition hwi_default : hw St unit :=
  tag ← hwi_alloc_item t_group ITEM_ROOT_HW HWI_NULL_OFF;
  _ ← hwi_alloc_item t_bus ITEM_BUS_UNKNOWN tag;
  mret tt.

Definition hwi_add_device (bname cname dname : list Z) (pnp : Z) : hw St unit :=
  bus0 ← found_item [bname];
  bus ← (if bus0 =? HWI_NULL_OFF
         then off ← found_item [ITEM_ROOT_HW]; hwi_alloc_item t_bus bname off
         else mret bus0);
  class0 ← found_item [bname; cname];
  class ← (if class0 =? HWI_NULL_OFF then hwi_alloc_item t_group cname bus else mret class0);
  tag ← hwi_alloc_item t_device dname class;
  set tag device_pnpid pnp.

Definition hwi_add_synonym (hwi_off : Z) (synonym_name : list Z) : hw St Z :=
  owner ← found_item [ITEM_ROOT_HW];
  if (hwi_off =? HWI_NULL_OFF) || (owner =? HWI_NULL_OFF) then mret HWI_NULL_OFF
  else
    tag ← hwi_alloc_item t_synonym synonym_name owner;
    _ ← set tag synonym_real hwi_off;
    mret tag.

Definition hwi_add_nanospin (hundred_loop_time overhead : Z) : hw St unit :=
  _ ← hwi_add_device ITEM_BUS_UNKNOWN ITEM_DEVCLASS_MISC (chars "nanospin_calibrate") 0;
  tag ← hwi_alloc_tag t_nanospin;
  _ ← set tag nanospin_hundred_loop_time hundred_loop_time;
  set tag nanospin_overhead overhead.

(** The address space of the clock is looked up in its own table ([hwi_find_as]); here it is the
    argument [addr_space]. *)
Definition hwi_add_rtc (name : list Z) (base reg_shift len addr_space cent_reg : Z) : hw St unit :=
  _ ← hwi_add_device ITEM_BUS_UNKNOWN ITEM_DEVCLASS_RTC name 0;
  _ ← hwitag_add_location base (u32 (Z.shiftl len reg_shift)) reg_shift addr_space;
  if cent_reg =? -1 then mret tt
  else
    cent ← hwi_alloc_tag t_regname;
    _ ← set cent regname_regname 0;
    set cent regname_offset cent_reg.

(** ** Setting tags: hwitag_set_*.c *)

(** [tag = hwi_tag_find(hwi_off, name, &idx)], the store if there is one, and the result. *)
Definition with_tag (hwi_off : Z) (name : list Z) (idx : Z) (k : Z -> hw St unit) : hw St Z :=
  s ← current;
  match hwi_tag_find (hw_bytes s) (hw_strings s) hwi_off name idx with
  | Some (tag, _) => _ ← k tag; mret 1
  | None => mret 0
  end.

Definition hwitag_set_ivec (hwi_off ivec_idx vector : Z) : hw St Z :=
  with_tag hwi_off (ti_name t_irq) ivec_idx (fun tag => set tag irq_vector vector).

Definition hwitag_set_dma (hwi_off dma_idx chnl : Z) : hw St Z :=
  with_tag hwi_off (ti_name t_dma) dma_idx (fun tag => set tag dma_chnl chnl).

Definition hwitag_set_errata (hwi_off errata_idx errata : Z) : hw St Z :=
  with_tag hwi_off (ti_name t_errata) errata_idx (fun tag => set tag errata_num errata).

Definition hwitag_set_ivecrange (hwi_off ivecrange_idx start_vector num : Z) : hw St Z :=
  with_tag hwi_off (ti_name t_irqrange) ivecrange_idx (fun tag =>
    _ ← set tag irqrange_irq start_vector; set tag irqrange_num num).

Definition hwitag_set_phyaddr (hwi_off phy_idx phy_addr : Z) : hw St Z :=
  with_tag hwi_off (ti_name t_nicphyaddr) phy_idx (fun tag => set tag nicphyaddr_addr phy_addr).

Definition hwitag_set_nicaddr (hwi_off nic_idx : Z) (nic_addr : list Z) : hw St Z :=
  with_tag hwi_off TAG_NAME_nicaddr nic_idx (fun tag =>
    n ← member tag nicaddr_len; store (tag + nicaddr_addr) (slice nic_addr 0 n)).

(** A structure of the caller's is stored whole, after the tag's prefix has been copied into it. *)
Definition store_struct (tag : Z) (bs : list Z) : hw St unit :=
  n ← member tag prefix_size;
  o ← member tag prefix_name;
  store tag (splice (splice bs (fd_off prefix_size) (le_bytes (fd_len prefix_size) n))
                    (fd_off prefix_name) (le_bytes (fd_len prefix_name) o)).

Definition hwitag_set_inputclk (hwi_off clksrc_idx : Z) (clk : list Z) : hw St Z :=
  with_tag hwi_off (ti_name t_inputclk) clksrc_idx (fun tag => store_struct tag clk).

Definition hwitag_set_busattr (hwi_off busattr_idx : Z) (attr : list Z) : hw St Z :=
  with_tag hwi_off (ti_name t_busattr) busattr_idx (fun tag => store_struct tag attr).

(** The search for a free vector; each turn asks for the tag with the index the last one left. *)
Fixpoint avail_loop (fuel : nat) (hwi_off ivec_idx vector tag_idx : Z) : hw St Z :=
  match fuel with
  | O => fun _ => Err NoFuel
  | S fuel =>
      s ← current;
      match hwi_tag_find (hw_bytes s) (hw_strings s) hwi_off (ti_name t_irq) tag_idx with
      | None => mret (-1)
      | Some (tag, tag_idx) =>
          v ← member tag irq_vector;
          if v =? HWI_ILLEGAL_VECTOR then _ ← set tag irq_vector vector; mret (tag_idx - 1)
          else if 0 <=? ivec_idx then mret (-1)
          else avail_loop fuel hwi_off ivec_idx vector tag_idx
      end
  end.

Definition hwitag_set_avail_ivec (hwi_off ivec_idx vector : Z) : hw St Z :=
  s ← current;
  avail_loop (S (length (hw_bytes s))) hwi_off ivec_idx vector (if ivec_idx <? 0 then 0 else ivec_idx).
End Code.
