(* ===== verification/HwinfoTags.v ===== *)
(** * HwinfoTags: the hardware-information section read as a list of items.

    A tag is described by what it was allocated with and the members stored in it since; [enc_item]
    gives the bytes.  [hw_rep s n its] says that the section of [s] holds exactly the items [its], that
    they form a tree whose counts of kids are right, that every tag is aligned, and that there is
    credit for [n] more tags or strings. *)

From S2P Require Import Prelude.
From S2P Require Import Sections.
From S2P Require Import Strings.
From S2P Require Import Hwinfo.

(** ** Overwriting pieces of a buffer *)

Definition put (t : list Z) (w : Z * list Z) : list Z := splice t w.1 w.2.
Definition puts (t : list Z) (ws : list (Z * list Z)) : list Z := foldl put t ws.

(** Inside a buffer of [n] bytes; with no byte in common. *)
Definition inside (n : Z) (w : Z * list Z) : Prop := 0 <= w.1 /\ w.1 + zlen w.2 <= n.
Definition apart (w v : Z * list Z) : Prop := w.1 + zlen w.2 <= v.1 \/ v.1 + zlen v.2 <= w.1.

Lemma put_comm t w v :
  inside (zlen t) w -> inside (zlen t) v -> apart w v -> put (put t w) v = put (put t v) w.
Proof.
  intros [? ?] [? ?] Ha. unfold put. apply list_eq. intros i.
  rewrite !lookup_splice by (rewrite ?zlen_splice; lia).
  unfold apart, zlen in *. repeat case_decide; (done || lia).
Qed.

Lemma put_put t w v :
  inside (zlen t) w -> w.1 = v.1 -> length w.2 = length v.2 -> put (put t w) v = put t v.
Proof.
  intros [? ?] H1 H2. unfold put, zlen in *. apply list_eq. intros i.
  rewrite !lookup_splice by (rewrite ?zlen_splice; unfold zlen; lia).
  repeat case_decide; (done || lia).
Qed.

Lemma put_same t w : inside (zlen t) w -> slice t w.1 (zlen w.2) = w.2 -> put t w = t.
Proof.
  intros [? ?] Hs. unfold put, zlen in *. apply list_eq. intros i.
  rewrite lookup_splice by (unfold zlen; lia). case_decide; [|done].
  rewrite <- Hs, slice_lookup by lia. f_equal. lia.
Qed.

Lemma zlen_put t w : inside (zlen t) w -> zlen (put t w) = zlen t.
Proof. intros [? ?]. by apply zlen_splice. Qed.

Lemma zlen_puts t ws : Forall (inside (zlen t)) ws -> zlen (puts t ws) = zlen t.
Proof.
  revert t; induction ws as [|w ws IH]; intros t Hw; [done|]. apply Forall_cons in Hw as [Hi Hw].
  unfold puts. cbn [foldl]. rewrite IH; rewrite zlen_put; done.
Qed.

Lemma puts_app t a b : puts t (a ++ b) = puts (puts t a) b.
Proof. apply foldl_app. Qed.

Lemma puts_comm t ws w :
  Forall (inside (zlen t)) ws -> inside (zlen t) w -> Forall (apart w) ws ->
  put (puts t ws) w = puts (put t w) ws.
Proof.
  revert t; induction ws as [|v ws IH]; intros t Hw Hi Ha; [done|].
  apply Forall_cons in Hw as [Hv Hw]. apply Forall_cons in Ha as [Hav Ha].
  unfold puts. cbn [foldl]. fold (puts (put t v) ws) (puts (put (put t w) v) ws).
  rewrite IH; rewrite ?zlen_put; try done. f_equal. by apply put_comm; [done..|destruct Hav; [right|left]].
Qed.

(** Storing a member again replaces the first store. *)
Lemma puts_update t a w w' b :
  Forall (inside (zlen t)) (a ++ w :: b) -> w.1 = w'.1 -> length w.2 = length w'.2 ->
  Forall (apart w') b -> put (puts t (a ++ w :: b)) w' = puts t (a ++ w' :: b).
Proof.
  intros [Ha [Hw Hb]%Forall_cons]%Forall_app H1 H2 Hap. rewrite !puts_app.
  assert (Hza := zlen_puts t a Ha).
  assert (Hw' : inside (zlen t) w') by (destruct Hw; unfold inside, zlen in *; lia).
  unfold puts at 1 3. cbn [foldl]. fold (puts (put (puts t a) w) b) (puts (put (puts t a) w') b).
  assert (Hwa : inside (zlen (puts t a)) w) by (by rewrite Hza).
  rewrite puts_comm by (rewrite ?zlen_put, ?Hza; done). by rewrite put_put.
Qed.

(** What is read back is what was stored last. *)
Lemma slice_put_same t w : inside (zlen t) w -> slice (put t w) w.1 (zlen w.2) = w.2.
Proof.
  intros [? ?]. apply list_eq. intros i. destruct (decide (i < length w.2)%nat).
  - unfold zlen in *. rewrite slice_lookup by lia. unfold put. rewrite lookup_splice by (unfold zlen; lia).
    rewrite decide_True by lia. f_equal. lia.
  - rewrite !lookup_ge_None_2; [done|lia|]. unfold slice, zlen. rewrite length_take. lia.
Qed.

Lemma slice_put_other t w off n :
  inside (zlen t) w -> 0 <= off -> off + n <= w.1 \/ w.1 + zlen w.2 <= off ->
  slice (put t w) off n = slice t off n.
Proof.
  intros [? ?] Hoff Ha. apply list_eq. intros i. destruct (decide (i < Z.to_nat n)%nat).
  - rewrite !slice_lookup by lia. unfold put. rewrite lookup_splice by lia.
    unfold zlen in *. rewrite decide_False by lia. done.
  - rewrite !lookup_ge_None_2; [done|..]; unfold slice; rewrite length_take; lia.
Qed.

Lemma slice_puts_other t ws off n :
  Forall (inside (zlen t)) ws -> 0 <= off ->
  Forall (fun w => off + n <= w.1 \/ w.1 + zlen w.2 <= off) ws ->
  slice (puts t ws) off n = slice t off n.
Proof.
  revert t; induction ws as [|w ws IH]; intros t Hi Hoff Ha; [done|].
  apply Forall_cons in Hi as [Hw Hi]. apply Forall_cons in Ha as [Haw Ha].
  unfold puts. cbn [foldl]. fold (puts (put t w) ws).
  rewrite IH by (rewrite ?zlen_put; done). by apply slice_put_other.
Qed.

Lemma slice_puts t a w b :
  Forall (inside (zlen t)) (a ++ w :: b) -> Forall (apart w) b ->
  slice (puts t (a ++ w :: b)) w.1 (zlen w.2) = w.2.
Proof.
  intros [Ha [Hw Hb]%Forall_cons]%Forall_app Hap. rewrite puts_app.
  assert (Hza := zlen_puts t a Ha). unfold puts at 1. cbn [foldl]. fold (puts (put (puts t a) w) b).
  rewrite slice_puts_other.
  - apply slice_put_same. by rewrite Hza.
  - by rewrite zlen_put, Hza by (by rewrite Hza).
  - by destruct Hw.
  - eapply Forall_impl; [exact Hap|]. intros v [?|?]; [left|right]; lia.
Qed.

(** Stores commute with what surrounds the buffer. *)
Lemma puts_mid a t b ws :
  Forall (inside (zlen t)) ws ->
  puts (a ++ t ++ b) (map (fun w => (zlen a + w.1, w.2)) ws) = a ++ puts t ws ++ b.
Proof.
  revert t; induction ws as [|w ws IH]; intros t Hi; [done|]. apply Forall_cons in Hi as [Hw Hi].
  cbn [map]. unfold puts. cbn [foldl]. unfold put at 2 4. cbn [fst snd].
  destruct Hw. rewrite splice_mid by done. apply IH.
  by rewrite zlen_splice by done.
Qed.

(** ** Tags and items *)

(** What has been stored in a structure: bytes, a number, or the offset of a string. *)
Inductive mem : Type :=
  | Lit (off : Z) (bs : list Z)
  | Num (f : field) (v : Z)
  | Ref (f : field) (name : list Z).

Definition mem_off (m : mem) : Z :=
  match m with Lit off _ => off | Num f _ | Ref f _ => fd_off f end.
Definition mem_len (m : mem) : Z :=
  match m with Lit _ bs => zlen bs | Num f _ | Ref f _ => Z.of_nat (fd_len f) end.
Definition mem_in (n : Z) (m : mem) : Prop := 0 <= mem_off m /\ mem_off m + mem_len m <= n.
Definition mem_apart (m m' : mem) : Prop :=
  mem_off m + mem_len m <= mem_off m' \/ mem_off m' + mem_len m' <= mem_off m.

(** The bytes of a member, given the strings. *)
Definition enc_mem (names : list (list Z)) (m : mem) : Z * list Z :=
  match m with
  | Lit off bs => (off, bs)
  | Num f v => (fd_off f, le_bytes (fd_len f) v)
  | Ref f name => (fd_off f, le_bytes (fd_len f) (default 0 (str_off names name)))
  end.
Definition mem_known (names : list (list Z)) (m : mem) : Prop :=
  match m with Ref _ name => name ∈ names | _ => True end.

Record tag := mk_tag { tg_info : tag_info; tg_mem : list mem }.
Record item := mk_item {
  it_info : tag_info; it_name : list Z; it_owner : Z; it_kids : Z; it_mem : list mem;
  it_tags : list tag
}.

#[export] Instance field_eq_dec : EqDecision field.
Proof. solve_decision. Defined.
#[export] Instance tag_info_eq_dec : EqDecision tag_info.
Proof. solve_decision. Defined.

Definition size_of (ts : list tag) : Z := foldr (fun t n => ti_size (tg_info t) + n) 0 ts.
Definition item_size (i : item) : Z := ti_size (it_info i) + size_of (it_tags i).
Definition its_size (its : list item) : Z := foldr (fun i n => item_size i + n) 0 its.

(** Where the [j]-th item is. *)
Definition item_at (its : list item) (j : nat) : Z := its_size (take j its).

Definition with_tags (i : item) (ts : list tag) : item :=
  mk_item (it_info i) (it_name i) (it_owner i) (it_kids i) (it_mem i) ts.
Definition with_mem (i : item) (ms : list mem) : item :=
  mk_item (it_info i) (it_name i) (it_owner i) (it_kids i) ms (it_tags i).
Definition with_kids (i : item) (k : Z) : item :=
  mk_item (it_info i) (it_name i) (it_owner i) k (it_mem i) (it_tags i).

Section Model.
Context {HH : HwiHeader}.

(** The members of a tag and of the head of an item, in the order of the stores. *)
Definition tag_mem (t : tag) : list mem :=
  Num prefix_size (ti_size (tg_info t) / 4) :: Ref prefix_name (ti_name (tg_info t)) :: tg_mem t.
Definition own_mem (i : item) : list mem :=
  Num prefix_size (ti_size (it_info i) / 4) :: Ref prefix_name (ti_name (it_info i)) ::
  Ref item_itemname (it_name i) :: Num item_owner (it_owner i) :: Num item_kids (it_kids i) ::
  it_mem i.
Definition head_mem (i : item) : list mem := Num item_itemsize (item_size i / 4) :: own_mem i.

Definition enc (names : list (list Z)) (size : Z) (ms : list mem) : list Z :=
  puts (zeros size) (map (enc_mem names) ms).
Definition enc_tag names t := enc names (ti_size (tg_info t)) (tag_mem t).
Definition enc_tags names ts := concat (map (enc_tag names) ts).
Definition enc_head names i := enc names (ti_size (it_info i)) (head_mem i).
Definition enc_item names i := enc_head names i ++ enc_tags names (it_tags i).
Definition enc_items names its := concat (map (enc_item names) its).

(** Names the section may use, and the structures of the header. *)
Definition str_ok (n : list Z) : Prop := cname n /\ n <> [] /\ zlen n <= 100.

Definition hdr_fields : list field :=
  [item_itemsize; prefix_size; prefix_name; item_itemname; item_owner; item_kids].

Definition fd_in (size : Z) (f : field) : Prop := mem_in size (Num f 0).

Record ti_ok (ti : tag_info) : Prop := {
  tk_name : str_ok (ti_name ti);
  tk_align : ti_align ti = 4 \/ ti_align ti = 8;
  tk_size : 4 <= ti_size ti <= 128;
  tk_words : ti_size ti mod 4 = 0;
  tk_psize : fd_in (ti_size ti) prefix_size;
  tk_pname : fd_in (ti_size ti) prefix_name
}.

(** A tag other than padding; an item. *)
Definition tag_ti (ti : tag_info) : Prop := ti_ok ti /\ ti_name ti <> ti_name t_pad.
Definition item_ti (ti : tag_info) : Prop := tag_ti ti /\ Forall (fd_in (ti_size ti)) hdr_fields.

(** What the documentation of the section says of the header: 16-bit members that do not overlap,
    padding of one word, 0xffff for no offset, and the tags as above. *)
Record header_ok : Prop := {
  ho_pad : ti_ok t_pad /\ ti_size t_pad = 4 /\ ti_align t_pad = 4;
  ho_hdr : Forall (fun f => fd_len f = 2%nat) hdr_fields;
  ho_apart : ForallOrdPairs (fun f g => mem_apart (Num f 0) (Num g 0)) hdr_fields;
  ho_null : HWI_NULL_OFF = 65535
}.

(** A member of a tag, beside the prefix. *)
Definition mem_ok (ti : tag_info) (m : mem) : Prop :=
  mem_in (ti_size ti) m /\ mem_apart m (Num prefix_size 0) /\ mem_apart m (Num prefix_name 0).

Definition tag_wf (t : tag) : Prop := ti_ok (tg_info t) /\ Forall (mem_ok (tg_info t)) (tg_mem t).
Record item_wf (i : item) : Prop := {
  iw_info : item_ti (it_info i);
  iw_name : str_ok (it_name i);
  iw_mem : Forall (mem_in (ti_size (it_info i))) (it_mem i);
  iw_apart : Forall (fun m => Forall (fun f => mem_apart m (Num f 0)) hdr_fields) (it_mem i);
  iw_tags : Forall tag_wf (it_tags i)
}.

Definition tag_known names (t : tag) : Prop := Forall (mem_known names) (tag_mem t).
Definition item_known names (i : item) : Prop :=
  Forall (mem_known names) (own_mem i) /\ Forall (tag_known names) (it_tags i).

(** The tags of the section in order, each at a multiple of its alignment. *)
Definition infos (i : item) : list tag_info := it_info i :: map tg_info (it_tags i).
Fixpoint aligned (off : Z) (l : list tag_info) : Prop :=
  match l with [] => True | ti :: r => off mod ti_align ti = 0 /\ aligned (off + ti_size ti) r end.

(** How many items have the owner at [o]; the items are a tree, with the right counts. *)
Definition owned (its : list item) (o : Z) : Z := zlen (filter (fun i => it_owner i = o) its).
Definition tree_ok (its : list item) : Prop :=
  forall j i, its !! j = Some i ->
    (it_owner i = HWI_NULL_OFF \/ exists k, (k < j)%nat /\ it_owner i = item_at its k) /\
    it_kids i = owned its (item_at its j).

(** Tags without the padding. *)
Definition strip (ts : list tag) : list tag :=
  filter (fun t => ti_name (tg_info t) <> ti_name t_pad) ts.
End Model.

(** ** Sizes and encodings *)

Section Encoding.
Context {HH : HwiHeader}.

Lemma size_of_app a b : size_of (a ++ b) = size_of a + size_of b.
Proof. unfold size_of. induction a as [|t a IH]; cbn [foldr app]; lia. Qed.

Lemma its_size_app a b : its_size (a ++ b) = its_size a + its_size b.
Proof. unfold its_size. induction a as [|t a IH]; cbn [foldr app]; lia. Qed.

Lemma its_size_one i : its_size [i] = item_size i.
Proof. unfold its_size. cbn. lia. Qed.

Lemma enc_mem_shape names m : (enc_mem names m).1 = mem_off m /\ zlen (enc_mem names m).2 = mem_len m.
Proof. destruct m; cbn; unfold zlen; rewrite ?length_le_bytes; done. Qed.

Lemma enc_mem_inside names n m : mem_in n m -> inside n (enc_mem names m).
Proof. destruct (enc_mem_shape names m) as [H1 H2]. unfold inside. by rewrite H1, H2. Qed.

Lemma enc_mems_inside names n ms : Forall (mem_in n) ms -> Forall (inside n) (map (enc_mem names) ms).
Proof. intros H. apply Forall_map. eapply Forall_impl; [exact H|]. intros. by apply enc_mem_inside. Qed.

Lemma enc_mem_apart names m m' : mem_apart m m' -> apart (enc_mem names m) (enc_mem names m').
Proof.
  destruct (enc_mem_shape names m) as [H1 H2], (enc_mem_shape names m') as [H3 H4].
  unfold apart. by rewrite H1, H2, H3, H4.
Qed.

Lemma zlen_enc names n ms : 0 <= n -> Forall (mem_in n) ms -> zlen (enc names n ms) = n.
Proof.
  intros Hn Hi. unfold enc. rewrite zlen_puts; rewrite zlen_zeros by done; [done|].
  by apply enc_mems_inside.
Qed.

Lemma tag_mem_in t : tag_wf t -> Forall (mem_in (ti_size (tg_info t))) (tag_mem t).
Proof.
  intros [[_ _ _ _ Hs Hn] Hm]. constructor; [exact Hs|]. constructor; [exact Hn|].
  eapply Forall_impl; [exact Hm|]. by intros m [? _].
Qed.

Lemma fd_in_all size f : Forall (fd_in size) hdr_fields -> f ∈ hdr_fields -> fd_in size f.
Proof. intros H Hf. by apply (proj1 (Forall_forall _ _) H). Qed.

Lemma own_mem_in i : item_wf i -> Forall (mem_in (ti_size (it_info i))) (own_mem i).
Proof.
  intros [[_ Hh] _ Hm _ _]. unfold own_mem.
  repeat (constructor; [apply (fd_in_all _ _ Hh); unfold hdr_fields; set_solver|]). done.
Qed.

Lemma head_mem_in i : item_wf i -> Forall (mem_in (ti_size (it_info i))) (head_mem i).
Proof.
  intros Hw. constructor; [|by apply own_mem_in]. destruct Hw as [[_ Hh] _ _ _ _].
  apply (fd_in_all _ _ Hh). unfold hdr_fields. set_solver.
Qed.

Lemma zlen_enc_tag names t : tag_wf t -> zlen (enc_tag names t) = ti_size (tg_info t).
Proof. intros Hw. apply zlen_enc; [|by apply tag_mem_in]. destruct Hw as [[_ _ ? _ _ _] _]. lia. Qed.

Lemma zlen_enc_tags names ts : Forall tag_wf ts -> zlen (enc_tags names ts) = size_of ts.
Proof.
  unfold enc_tags, size_of. induction 1 as [|t ts Hw _ IH]; [done|]. cbn [map concat foldr].
  rewrite zlen_app, IH, zlen_enc_tag by done. done.
Qed.

Lemma zlen_enc_head names i : item_wf i -> zlen (enc_head names i) = ti_size (it_info i).
Proof.
  intros Hw. apply zlen_enc; [|by apply head_mem_in]. destruct Hw as [[[[_ _ ? _ _ _] _] _] _ _ _ _]. lia.
Qed.

Lemma zlen_enc_item names i : item_wf i -> zlen (enc_item names i) = item_size i.
Proof.
  intros Hw. unfold enc_item, item_size. rewrite zlen_app, zlen_enc_head, zlen_enc_tags; [done| |done].
  apply Hw.
Qed.

Lemma enc_items_app names a b : enc_items names (a ++ b) = enc_items names a ++ enc_items names b.
Proof. unfold enc_items. by rewrite map_app, concat_app. Qed.

Lemma enc_items_one names i : enc_items names [i] = enc_item names i.
Proof. unfold enc_items. cbn. by rewrite app_nil_r. Qed.

Lemma enc_tags_app names a b : enc_tags names (a ++ b) = enc_tags names a ++ enc_tags names b.
Proof. unfold enc_tags. by rewrite map_app, concat_app. Qed.

Lemma enc_tags_one names t : enc_tags names [t] = enc_tag names t.
Proof. unfold enc_tags. cbn. by rewrite app_nil_r. Qed.

Lemma zlen_enc_items names its : Forall item_wf its -> zlen (enc_items names its) = its_size its.
Proof.
  unfold enc_items, its_size. induction 1 as [|i its Hw _ IH]; [done|]. cbn [map concat foldr].
  rewrite zlen_app, IH, zlen_enc_item by done. done.
Qed.

(** More strings leave the bytes as they are. *)
Lemma enc_mem_mono names names' m :
  (forall n o, str_off names n = Some o -> str_off names' n = Some o) -> mem_known names m ->
  enc_mem names' m = enc_mem names m.
Proof.
  intros Hm Hk. destruct m as [| |f n]; [done..|]. unfold mem_known in Hk. cbn [enc_mem]. do 2 f_equal.
  destruct (str_off names n) as [o|] eqn:E; [by rewrite (Hm n o)|].
  by destruct (proj2 (str_off_in names n) Hk).
Qed.

Lemma enc_mono names names' size ms :
  (forall n o, str_off names n = Some o -> str_off names' n = Some o) -> Forall (mem_known names) ms ->
  enc names' size ms = enc names size ms.
Proof.
  intros Hm Hk. unfold enc. f_equal. apply map_ext_in. intros m Hin.
  apply enc_mem_mono; [done|]. apply (proj1 (Forall_forall _ _) Hk). by apply list_elem_of_In.
Qed.

Lemma enc_items_mono names names' its :
  (forall n o, str_off names n = Some o -> str_off names' n = Some o) -> Forall (item_known names) its ->
  enc_items names' its = enc_items names its.
Proof.
  intros Hm. induction 1 as [|i its [Hh Ht] _ IH]; [done|].
  change (enc_items names' (i :: its)) with (enc_item names' i ++ enc_items names' its).
  change (enc_items names (i :: its)) with (enc_item names i ++ enc_items names its). rewrite IH.
  f_equal. unfold enc_item, enc_head. f_equal; [apply enc_mono; [done|by constructor]|].
  unfold enc_tags. f_equal. apply map_ext_in. intros t Hin. apply enc_mono; [done|].
  apply (proj1 (Forall_forall _ _) Ht). by apply list_elem_of_In.
Qed.

Lemma mem_known_mono names names' m :
  (forall n, n ∈ names -> n ∈ names') -> mem_known names m -> mem_known names' m.
Proof. destruct m; cbn; auto. Qed.

Lemma item_known_mono names names' i :
  (forall n, n ∈ names -> n ∈ names') -> item_known names i -> item_known names' i.
Proof.
  intros Hn [Hh Ht]. split.
  - eapply Forall_impl; [exact Hh|]. intros. by eapply mem_known_mono.
  - eapply Forall_impl; [exact Ht|]. intros t Hk. eapply Forall_impl; [exact Hk|].
    intros. by eapply mem_known_mono.
Qed.

(** The bytes of a number only depend on the number modulo their range. *)
Lemma le_bytes_mod n v w : v mod 2 ^ (8 * Z.of_nat n) = w mod 2 ^ (8 * Z.of_nat n) -> le_bytes n v = le_bytes n w.
Proof.
  revert v w; induction n as [|n IH]; intros v w He; [done|]. cbn [le_bytes].
  replace (8 * Z.of_nat (S n)) with (8 + 8 * Z.of_nat n) in He by lia.
  rewrite Z.pow_add_r, !Z.rem_mul_r in He by lia. change (2 ^ 8) with 256 in He.
  set (A := 2 ^ (8 * Z.of_nat n)) in *.
  assert (0 < A) by (apply Z.pow_pos_nonneg; lia).
  assert (v mod 256 = w mod 256 /\ (v / 256) mod A = (w / 256) mod A) as [-> H2].
  { pose proof (Z.mod_pos_bound v 256). pose proof (Z.mod_pos_bound w 256).
    pose proof (Z.mod_pos_bound (v / 256) A). pose proof (Z.mod_pos_bound (w / 256) A). lia. }
  f_equal. by apply IH.
Qed.

Lemma le_word_small n v : fits (8 * Z.of_nat n) v -> le_word (le_bytes n v) = v.
Proof. intros H. rewrite le_word_bytes. by apply wrap_id. Qed.

(** Reading a member of a structure. *)
Lemma get_mem names size a m f v b post :
  enc_mem names m = (fd_off f, le_bytes (fd_len f) v) -> 0 <= size ->
  Forall (mem_in size) (a ++ m :: b) -> Forall (mem_apart m) b ->
  get f (enc names size (a ++ m :: b) ++ post) = v mod 2 ^ (8 * Z.of_nat (fd_len f)).
Proof.
  intros He Hs Hi Ha.
  assert (Hin : mem_in size m) by (apply (proj1 (Forall_forall _ _) Hi); set_solver).
  assert (Hz : zlen (le_bytes (fd_len f) v) = Z.of_nat (fd_len f)) by (unfold zlen; by rewrite length_le_bytes).
  pose proof (enc_mem_inside names _ _ Hin) as [Hf0 Hf1]. rewrite He in Hf0, Hf1. cbn [fst snd] in Hf0, Hf1.
  unfold get. rewrite slice_app_left; [|lia|lia|rewrite zlen_enc by done; lia].
  unfold enc. rewrite map_app. cbn [map].
  pose proof (slice_puts (zeros size) (map (enc_mem names) a) (enc_mem names m) (map (enc_mem names) b)) as Hsl.
  rewrite He in Hsl. cbn [fst snd] in Hsl. rewrite Hz in Hsl. rewrite He, Hsl.
  - apply le_word_bytes.
  - rewrite zlen_zeros by done. apply (enc_mems_inside names) in Hi. rewrite map_app in Hi. cbn [map] in Hi.
    by rewrite He in Hi.
  - apply Forall_map. eapply Forall_impl; [exact Ha|]. intros x Hx.
    rewrite <- He. exact (enc_mem_apart names m x Hx).
Qed.
End Encoding.
