(* ===== verification/HwinfoItems.v ===== *)
(** * HwinfoItems: allocating tags and items keeps the section a list of items.

    [hw_rep] relates a state to a list of items; the lemmas follow hwi_alloc.c. *)

From S2P Require Import Prelude.
From S2P Require Import Sections.
From S2P Require Import Strings.
From S2P Require Import Hwinfo.
From S2P Require Import HwinfoTags.

Section Items.
Context {HH : HwiHeader} {HC : HwiLibc} {St : Type} `{HL : SectionLaws St}.
Implicit Types s : hwi_state St.

(** ** The relation *)

Record hw_mid s (names : list (list Z)) (its : list item) (last : Z) : Prop := {
  rp_wf : st_wf (hw_sys s);
  rp_hwinfo : st_has (hw_sys s) SEC_hwinfo;
  rp_strings : st_has (hw_sys s) SEC_strings;
  rp_names : strtab (hw_strings s) names;
  rp_known : Forall (item_known names) its;
  rp_items : Forall item_wf its;
  rp_tree : tree_ok its;
  rp_aligned : aligned 0 (concat (map infos its));
  rp_bytes : exists k, 0 <= k /\ hw_bytes s = enc_items names its ++ zeros k;
  rp_offset : hw_offset s = its_size its;
  rp_last : hw_last s = last
}.

(** Between two operations the last item is the one that started last. *)
Definition hw_rep s names its : Prop := hw_mid s names its (its_size (removelast its)).

(** Room for [n] more tags or strings: of the page, below the largest 16-bit offset in the section and
    in the strings. *)
Definition credit (n : nat) s names its : Prop :=
  256 * Z.of_nat n <= st_room (hw_sys s) /\
  its_size its + 128 * Z.of_nat n <= 2 ^ 16 /\ zlen (flat names) + 128 * Z.of_nat n <= 2 ^ 16.

(** What an operation leaves alone: the other sections, and the strings that were there. *)
Record hw_frame s s' : Prop := {
  fr_has : forall j, st_has (hw_sys s) j -> st_has (hw_sys s') j;
  fr_others : forall j, j <> SEC_hwinfo -> j <> SEC_strings ->
    st_bytes (hw_sys s') j = st_bytes (hw_sys s) j;
  fr_strings : forall names, strtab (hw_strings s) names ->
    exists extra, strtab (hw_strings s') (names ++ extra)
}.

Lemma hw_frame_refl s : hw_frame s s.
Proof. split; [done..|]. intros names Hn. exists []. by rewrite app_nil_r. Qed.

Lemma hw_frame_trans s1 s2 s3 : hw_frame s1 s2 -> hw_frame s2 s3 -> hw_frame s1 s3.
Proof.
  intros [A1 B1 C1] [A2 B2 C2]. split; [auto|intros; by rewrite B2, B1|].
  intros names Hn. destruct (C1 names Hn) as [e1 H1]. destruct (C2 _ H1) as [e2 H2].
  exists (e1 ++ e2). by rewrite app_assoc.
Qed.

Lemma frame_hwinfo s s' :
  (forall j, st_has (hw_sys s) j -> st_has (hw_sys s') j) ->
  (forall j, j <> SEC_hwinfo -> st_bytes (hw_sys s') j = st_bytes (hw_sys s) j) -> hw_frame s s'.
Proof.
  intros Hh Ho. split; [done|auto|]. intros names Hn. exists []. rewrite app_nil_r.
  unfold hw_strings. by rewrite Ho.
Qed.

(** ** Stores *)

(** [s'] is [s] with other bytes in the section. *)
Record stored s s' (bs : list Z) : Prop := {
  sd_wf : st_wf (hw_sys s');
  sd_has : forall j, st_has (hw_sys s) j -> st_has (hw_sys s') j;
  sd_room : st_room (hw_sys s') = st_room (hw_sys s);
  sd_bytes : hw_bytes s' = bs;
  sd_others : forall j, j <> SEC_hwinfo -> st_bytes (hw_sys s') j = st_bytes (hw_sys s) j;
  sd_offset : hw_offset s' = hw_offset s;
  sd_last : hw_last s' = hw_last s
}.

Lemma stored_trans s1 s2 s3 b2 b3 : stored s1 s2 b2 -> stored s2 s3 b3 -> stored s1 s3 b3.
Proof.
  intros [? ? ? ? Ho ? ?] [? ? ? ? Ho' ? ?]. split; auto; try congruence.
  intros j Hj. by rewrite Ho', Ho.
Qed.

Lemma stored_frame s s' bs : stored s s' bs -> hw_frame s s'.
Proof. intros [? ? ? ? Ho ? ?]. by apply frame_hwinfo. Qed.

Lemma hw_bind_ok {A B} (m : hw St A) (f : A -> hw St B) s a s' :
  m s = Ok (a, s') -> mbind f m s = f a s'.
Proof. intros H1. unfold mbind, hw_bind. by rewrite H1. Qed.

Lemma store_run names s pre t post m tag :
  st_wf (hw_sys s) -> st_has (hw_sys s) SEC_hwinfo -> hw_bytes s = pre ++ t ++ post ->
  tag = zlen pre -> mem_in (zlen t) m ->
  exists s', store (tag + mem_off m) (enc_mem names m).2 s = Ok (tt, s') /\
    stored s s' (pre ++ put t (enc_mem names m) ++ post).
Proof.
  intros Hwf Hhas Hb -> Hm. destruct (enc_mem_inside names _ _ Hm) as [H0 H1].
  destruct (enc_mem_shape names m) as [E1 E2].
  eexists. split; [reflexivity|]. pose proof (zlen_nonneg pre). pose proof (zlen_nonneg post).
  destruct (law_write (hw_sys s) SEC_hwinfo (zlen pre + mem_off m) (enc_mem names m).2) as [? ? Hr Hbs Ho];
    [done|done|lia| |].
  { change (st_bytes (hw_sys s) SEC_hwinfo) with (hw_bytes s). rewrite Hb, !zlen_app. lia. }
  split; cbn [hw_sys hw_offset hw_last]; auto; [lia|].
  unfold hw_bytes at 1. cbn [hw_sys]. rewrite Hbs. change (st_bytes (hw_sys s) SEC_hwinfo) with (hw_bytes s).
  rewrite Hb. unfold put. rewrite <- E1, splice_mid by done. done.
Qed.

(** A member of a structure, and adding to it. *)
Lemma member_run names s pre size a f v b post tag :
  hw_bytes s = pre ++ enc names size (a ++ Num f v :: b) ++ post -> tag = zlen pre -> 0 <= size ->
  Forall (mem_in size) (a ++ Num f v :: b) -> Forall (mem_apart (Num f v)) b ->
  member tag f s = Ok (v mod 2 ^ (8 * Z.of_nat (fd_len f)), s).
Proof.
  intros Hb -> Hs Hi Ha. unfold member. rewrite Hb, drop_app_zlen. do 2 f_equal. by apply get_mem.
Qed.

Lemma bump_run names s pre size a f v b post tag x :
  st_wf (hw_sys s) -> st_has (hw_sys s) SEC_hwinfo ->
  hw_bytes s = pre ++ enc names size (a ++ Num f v :: b) ++ post -> tag = zlen pre -> 0 <= size ->
  Forall (mem_in size) (a ++ Num f v :: b) -> Forall (mem_apart (Num f v)) b ->
  exists n s', member tag f s = Ok (n, s) /\ set tag f (n + x) s = Ok (tt, s') /\
    stored s s' (pre ++ enc names size (a ++ Num f (v + x) :: b) ++ post).
Proof.
  intros Hwf Hhas Hb Ht Hs Hi Ha. eexists _.
  assert (Hin : mem_in size (Num f v)) by (apply (proj1 (Forall_forall _ _) Hi); set_solver).
  destruct (store_run names s pre (enc names size (a ++ Num f v :: b)) post (Num f (v + x)) tag)
    as (s' & Hst & Hsd); [done..|by rewrite zlen_enc|].
  exists s'. split_and!; [by eapply member_run| |].
  - unfold set. cbn [enc_mem mem_off snd] in Hst. rewrite <- Hst. f_equal. apply le_bytes_mod.
    by rewrite Zplus_mod_idemp_l.
  - cbn [enc_mem] in Hsd. unfold enc in *. rewrite map_app in *. cbn [map enc_mem] in *.
    rewrite puts_update in Hsd; [done|..].
    + rewrite zlen_zeros by done. apply (enc_mems_inside names) in Hi. by rewrite map_app in Hi.
    + done.
    + cbn [snd]. by rewrite !length_le_bytes.
    + apply Forall_map. eapply Forall_impl; [exact Ha|]. intros m Hm.
      exact (enc_mem_apart names (Num f (v + x)) m Hm).
Qed.

(** ** Strings and growth *)

Definition names_grow (names names' : list (list Z)) : Prop :=
  forall n o, str_off names n = Some o -> str_off names' n = Some o.

Lemma names_grow_in names names' n : names_grow names names' -> n ∈ names -> n ∈ names'.
Proof.
  intros Hg Hn. apply str_off_in in Hn. destruct (str_off names n) as [o|] eqn:E; [|done].
  apply str_off_in. by rewrite (Hg n o).
Qed.

(** [s'] is [s] after a string has been added. *)
Record named s s' (names names' : list (list Z)) (nm : list Z) (off : Z) : Prop := {
  nd_wf : st_wf (hw_sys s');
  nd_names : strtab (hw_strings s') names';
  nd_off : str_off names' nm = Some off;
  nd_grow : names_grow names names';
  nd_size : zlen (flat names') <= zlen (flat names) + 128;
  nd_room : st_room (hw_sys s) - 104 <= st_room (hw_sys s');
  nd_bytes : hw_bytes s' = hw_bytes s;
  nd_offset : hw_offset s' = hw_offset s;
  nd_last : hw_last s' = hw_last s;
  nd_frame : hw_frame s s'
}.

Lemma name_room_104 names nm : zlen nm <= 100 -> name_room names nm <= 104.
Proof.
  intros Hl. unfold name_room. case_decide; [done|]. pose proof (zlen_nonneg nm).
  pose proof (ROUND_bounds (zlen nm + 2) 3 ltac:(lia) ltac:(lia) ltac:(lia)) as [Hb Hm].
  change (2 ^ 3) with 8 in *. rewrite Z.mod_divide in Hm by done. destruct Hm as [q Hq]. lia.
Qed.

Lemma string_added_run s names nm :
  st_wf (hw_sys s) -> st_has (hw_sys s) SEC_strings -> strtab (hw_strings s) names -> str_ok nm ->
  104 <= st_room (hw_sys s) ->
  exists s' names' off, string_added nm s = Ok (off, s') /\ named s s' names names' nm off.
Proof.
  intros Hwf Hhas Hn [Hc [Hne Hl]] Hroom.
  assert (Hspec : forall ns, strtab (hw_strings s) ns -> exists sys off,
    add_string (hw_sys s) nm = Ok (sys, off) /\ add_string_post (hw_sys s) sys ns nm off).
  { intros ns Hns. pose proof (name_room_104 ns nm Hl). apply add_string_spec; try done; lia. }
  destruct (Hspec names Hn) as (sys & off & Hrun & [(names' & Htab & Hnm & Hoff) _ _ Hw Hh Hr Ho]).
  exists (mk_hw sys (hw_offset s) (hw_last s)), names', off. split.
  { unfold string_added, mbind, res_bind. by rewrite Hrun. }
  pose proof (name_room_104 names nm Hl). split; cbn [hw_sys hw_offset hw_last]; try done.
  - intros n o Hno. rewrite Hnm. case_decide; [done|]. by apply str_off_app.
  - rewrite Hnm. pose proof (zlen_nonneg nm). case_decide; [lia|]. rewrite flat_app, flat_cons.
    zlen_simpl. change (zlen (flat [])) with 0. lia.
  - lia.
  - unfold hw_bytes. cbn [hw_sys]. by apply Ho.
  - split; cbn [hw_sys]; [done|intros; by apply Ho|]. intros ns Hns.
    destruct (Hspec ns Hns) as (sys2 & off2 & Hrun2 & [(ns' & Htab2 & Hns2 & _) _ _ _ _ _ _]).
    rewrite Hrun in Hrun2. injection Hrun2 as <- <-. rewrite Hns2 in Htab2.
    case_decide; [exists []; by rewrite app_nil_r|by exists [nm]].
Qed.

Lemma known_grow names names' its :
  names_grow names names' -> Forall (item_known names) its -> Forall (item_known names') its.
Proof.
  intros Hg Hk. eapply Forall_impl; [exact Hk|]. intros i. apply item_known_mono.
  intros n. by apply names_grow_in.
Qed.

Lemma rep_named s s' names names' nm off its l :
  hw_mid s names its l -> named s s' names names' nm off -> hw_mid s' names' its l.
Proof.
  intros [? ? ? ? Hk ? ? ? (k & Hk0 & Hb) Ho Hl] [? ? ? Hg ? ? Hb' Ho' Hl' [Hh _ _]].
  split; auto; try congruence.
  - by eapply known_grow.
  - exists k. split; [done|]. rewrite Hb', Hb. f_equal. symmetry. by apply enc_items_mono.
Qed.

Lemma credit_named n s s' names names' nm off its :
  credit (S n) s names its -> named s s' names names' nm off -> credit n s' names' its.
Proof. intros (? & ? & ?) [? ? ? ? ? ? ? ? ? ?]. unfold credit. lia. Qed.

Lemma rep_string s n names its nm l :
  hw_mid s names its l -> credit (S n) s names its -> str_ok nm ->
  exists s' names' off, string_added nm s = Ok (off, s') /\ named s s' names names' nm off.
Proof.
  intros [Hwf ? Hhas Hn _ _ _ _ _ _ _] (? & _ & _) Hok. apply string_added_run; auto. lia.
Qed.

(** Growing for a tag of [size] bytes. *)
Lemma grown_run s size bs k :
  st_wf (hw_sys s) -> st_has (hw_sys s) SEC_hwinfo -> 4 <= size <= 128 -> 152 <= st_room (hw_sys s) ->
  hw_bytes s = bs ++ zeros k -> 0 <= k ->
  exists s' k', grown size s = Ok (tt, s') /\ st_wf (hw_sys s') /\
    hw_bytes s' = bs ++ zeros size ++ zeros k' /\ 0 <= k' /\
    st_room (hw_sys s) - 152 <= st_room (hw_sys s') /\
    hw_offset s' = hw_offset s /\ hw_last s' = hw_last s /\
    (forall j, st_has (hw_sys s) j -> st_has (hw_sys s') j) /\
    (forall j, j <> SEC_hwinfo -> st_bytes (hw_sys s') j = st_bytes (hw_sys s) j).
Proof.
  intros Hwf Hhas Hs Hroom Hb Hk.
  pose proof (ROUND_bounds size 3 ltac:(lia) ltac:(lia) ltac:(lia)) as [HR _]. change (2 ^ 3) with 8 in HR.
  destruct (law_grow (hw_sys s) SEC_hwinfo size Hwf Hhas) as (sys & Hg & [? ? Hr Hbs Ho]); [lia..|].
  exists (mk_hw sys (hw_offset s) (hw_last s)), (k + ROUND size 8 - size).
  split; [unfold grown, mbind, res_bind; by rewrite Hg|]. cbn [hw_sys hw_offset hw_last].
  split_and!; try done; try lia.
  unfold hw_bytes. cbn [hw_sys]. rewrite Hbs. change (st_bytes (hw_sys s) SEC_hwinfo) with (hw_bytes s).
  rewrite Hb, <- app_assoc, <- !zeros_split by lia. f_equal. f_equal. lia.
Qed.

(** ** Tags *)

Lemma align_grow off a :
  0 <= off < 2 ^ 17 -> a = 4 \/ a = 8 -> off mod 4 = 0 ->
  u32 (u32 (ROUND off a) - off) = if decide (off mod a = 0) then 0 else 4.
Proof.
  intros Ho Ha H4.
  assert (exists k, a = 2 ^ k /\ 0 <= k < 4) as (k & -> & Hk)
    by (destruct Ha as [-> | ->]; [exists 2|exists 3]; lia).
  assert (2 ^ k <= 8) by (destruct Ha as [-> | ->]; lia).
  assert (0 < 2 ^ k) by (apply Z.pow_pos_nonneg; lia).
  destruct (ROUND_bounds off k) as [HR Hm]; [lia..|].
  rewrite (wrap_id 32 (ROUND off _)) by (unfold fits; lia).
  case_decide as Hd.
  - assert (ROUND off (2 ^ k) = off) as ->.
    { rewrite Z.mod_divide in Hd, Hm by lia. destruct Hd as [x ->], Hm as [y Hy]. nia. }
    by rewrite Z.sub_diag.
  - destruct Ha as [E|E]; rewrite E in *; [done|].
    rewrite wrap_id by (unfold fits; lia). Z.to_euclidean_division_equations. lia.
Qed.

Lemma align_tag_aligned alloc align s :
  0 <= hw_offset s < 2 ^ 17 -> align = 4 \/ align = 8 -> hw_offset s mod align = 0 ->
  align_tag_with alloc align s = Ok (tt, s).
Proof.
  intros Ho Ha Hm. unfold align_tag_with. unfold mbind, hw_bind, current.
  rewrite align_grow, decide_True; try done.
  destruct Ha as [-> | ->]; Z.to_euclidean_division_equations; lia.
Qed.

(** The prefix of a fresh tag at the end of the section. *)
Lemma prefix_run names s pre ti a k off :
  st_wf (hw_sys s) -> st_has (hw_sys s) SEC_hwinfo -> ti_ok ti ->
  Forall (mem_in (ti_size ti)) a ->
  hw_bytes s = pre ++ enc names (ti_size ti) a ++ zeros k -> hw_offset s = zlen pre ->
  str_off names (ti_name ti) = Some off -> zlen pre + 128 < 2 ^ 32 ->
  exists s1 s2, set (hw_offset s) prefix_size (ti_size ti / 4) s = Ok (tt, s1) /\
    set (hw_offset s) prefix_name off s1 = Ok (tt, s2) /\
    stored s s2 (pre ++ enc names (ti_size ti)
      (a ++ [Num prefix_size (ti_size ti / 4); Ref prefix_name (ti_name ti)]) ++ zeros k).
Proof.
  intros Hwf Hhas Hti Ha Hb Hoff Hname Hlen. pose proof Hti as [_ _ Hs _ Hps Hpn].
  assert (Hz : zlen (enc names (ti_size ti) a) = ti_size ti) by (apply zlen_enc; [lia|done]).
  destruct (store_run names s pre _ (zeros k) (Num prefix_size (ti_size ti / 4)) (hw_offset s) Hwf Hhas Hb)
    as (s1 & H1 & Hsd1); [done|by rewrite Hz|].
  destruct (store_run names s1 pre _ (zeros k) (Ref prefix_name (ti_name ti)) (hw_offset s)
    (sd_wf _ _ _ Hsd1) (sd_has _ _ _ Hsd1 _ Hhas) (sd_bytes _ _ _ Hsd1)) as (s2 & H2 & Hsd2);
    [done|rewrite zlen_put, Hz; [done|by rewrite Hz; apply enc_mem_inside]|].
  exists s1, s2. split_and!; [exact H1| |].
  - cbn [enc_mem mem_off snd] in H2. rewrite Hname in H2. exact H2.
  - replace (enc names (ti_size ti) (a ++ _)) with
      (put (put (enc names (ti_size ti) a) (enc_mem names (Num prefix_size (ti_size ti / 4))))
           (enc_mem names (Ref prefix_name (ti_name ti)))); [by eapply stored_trans|].
    unfold enc. rewrite map_app, puts_app. done.
Qed.

Lemma aligned_app l1 l2 off :
  aligned off (l1 ++ l2) <->
  aligned off l1 /\ aligned (off + foldr (fun ti n => ti_size ti + n) 0 l1) l2.
Proof.
  revert off; induction l1 as [|ti l1 IH]; intros off; cbn [app aligned foldr].
  - rewrite Z.add_0_r. tauto.
  - rewrite IH, Z.add_assoc. tauto.
Qed.

Lemma infos_size its :
  foldr (fun ti n => ti_size ti + n) 0 (concat (map infos its)) = its_size its.
Proof.
  assert (Happ : forall a b, foldr (fun ti n => ti_size ti + n) 0 (a ++ b)
    = foldr (fun ti n => ti_size ti + n) 0 a + foldr (fun ti n => ti_size ti + n) 0 b).
  { induction a as [|t a IH]; intros b; cbn [app foldr]; [done|]. rewrite IH. lia. }
  induction its as [|i its IH]; [done|]. cbn [map concat]. rewrite Happ, IH.
  unfold its_size. cbn [foldr]. f_equal. unfold item_size, infos, size_of. cbn [foldr]. f_equal.
  induction (it_tags i) as [|t ts IHt]; [done|]. cbn [map foldr]. by rewrite IHt.
Qed.

Lemma size_of_words ts : Forall tag_wf ts -> 0 <= size_of ts /\ size_of ts mod 4 = 0.
Proof.
  unfold size_of. induction 1 as [|t ts [[_ _ Hs Hw _ _] _] _ IH]; [done|]. cbn [foldr].
  Z.to_euclidean_division_equations. lia.
Qed.

Lemma item_size_words i : item_wf i -> 4 <= item_size i /\ item_size i mod 4 = 0.
Proof.
  intros [[[[_ _ Hs Hw _ _] _] _] _ _ _ Ht]. pose proof (size_of_words _ Ht). unfold item_size.
  Z.to_euclidean_division_equations. lia.
Qed.

Lemma its_size_words its : Forall item_wf its -> 0 <= its_size its /\ its_size its mod 4 = 0.
Proof.
  unfold its_size. induction 1 as [|i its Hw _ IH]; [done|]. cbn [foldr].
  pose proof (item_size_words _ Hw). Z.to_euclidean_division_equations. lia.
Qed.

(** ** The tree of items *)

Definition shape (i : item) : Z * Z := (item_size i, it_owner i).

Lemma its_size_shape its its' : map shape its = map shape its' -> its_size its = its_size its'.
Proof.
  revert its'; induction its as [|i its IH]; intros [|i' its'] He; try done. cbn [map] in He.
  injection He as Hs _ He. unfold its_size in *. cbn [foldr]. rewrite Hs. f_equal. by apply IH.
Qed.

Lemma item_at_shape its its' j : map shape its = map shape its' -> item_at its j = item_at its' j.
Proof. intros He. apply its_size_shape. by rewrite <- !firstn_map, He. Qed.

Lemma owned_cons i its o :
  owned (i :: its) o = (if decide (it_owner i = o) then 1 else 0) + owned its o.
Proof. unfold owned. rewrite filter_cons. case_decide; rewrite ?zlen_cons; lia. Qed.

Lemma owned_app a b o : owned (a ++ b) o = owned a o + owned b o.
Proof. unfold owned. rewrite filter_app. apply zlen_app. Qed.

Lemma owned_shape its its' o : map shape its = map shape its' -> owned its o = owned its' o.
Proof.
  revert its'; induction its as [|i its IH]; intros [|i' its'] He; try done. cbn [map] in He.
  injection He as _ Ho He. rewrite !owned_cons, Ho. f_equal. by apply IH.
Qed.

Lemma item_at_app a b j : (j <= length a)%nat -> item_at (a ++ b) j = item_at a j.
Proof. intros Hj. unfold item_at. by rewrite take_app_le. Qed.

Lemma item_at_end a : item_at a (length a) = its_size a.
Proof. unfold item_at. by rewrite firstn_all. Qed.

Lemma item_at_mono its j k :
  Forall item_wf its -> (j < k <= length its)%nat -> item_at its j < item_at its k.
Proof.
  intros Hw Hjk. unfold item_at.
  replace k with (j + (k - j))%nat by lia. rewrite <- take_take_drop.
  rewrite its_size_app. destruct (drop j its) as [|i r] eqn:E.
  { apply (f_equal length) in E. rewrite length_drop in E. cbn in E. lia. }
  replace (k - j)%nat with (S (k - j - 1)) by lia. cbn [take].
  assert (Hr : Forall item_wf (i :: r)) by (rewrite <- E; by apply Forall_drop).
  apply Forall_cons in Hr as [Hi Hr]. pose proof (item_size_words i Hi).
  pose proof (its_size_words (take (k - j - 1) r) ltac:(by apply Forall_take)).
  unfold its_size in *. cbn [foldr]. lia.
Qed.

Lemma item_at_inj its j k :
  Forall item_wf its -> (j <= length its)%nat -> (k <= length its)%nat ->
  item_at its j = item_at its k -> j = k.
Proof.
  intros Hw Hj Hk He. destruct (lt_eq_lt_dec j k) as [[Hlt|Heq]|Hlt]; [|done|].
  - pose proof (item_at_mono its j k Hw ltac:(lia)). lia.
  - pose proof (item_at_mono its k j Hw ltac:(lia)). lia.
Qed.

(** Changing the last item but for its owner and kids. *)
Lemma tree_last front i i' :
  it_owner i' = it_owner i -> it_kids i' = it_kids i ->
  tree_ok (front ++ [i]) -> tree_ok (front ++ [i']).
Proof.
  intros Ho Hk Ht j x Hx.
  assert (Hown : forall o, owned (front ++ [i']) o = owned (front ++ [i]) o)
    by (intros o; by rewrite !owned_app, !owned_cons, Ho).
  assert (Hj : (j <= length front)%nat)
    by (apply lookup_lt_Some in Hx; rewrite length_app in Hx; cbn in Hx; lia).
  assert (Hat : forall k, (k <= j)%nat -> item_at (front ++ [i']) k = item_at (front ++ [i]) k)
    by (intros k Hkj; by rewrite !item_at_app by lia).
  rewrite Hown, Hat by lia.
  assert (exists y, (front ++ [i]) !! j = Some y /\ it_owner x = it_owner y /\ it_kids x = it_kids y)
    as (y & Hy & Ho' & Hk').
  { apply lookup_app_Some in Hx as [Hx|[Hge Hx]].
    - exists x. by rewrite lookup_app_l_Some with (x := x).
    - apply list_lookup_singleton_Some in Hx as [Hz <-]. exists i.
      rewrite lookup_app_r, Hz by done. done. }
  destruct (Ht j y Hy) as [Hown1 Hkid]. rewrite Ho', Hk'. split; [|done].
  destruct Hown1 as [?|(k & Hkj & He)]; [by left|]. right. exists k. split; [done|].
  by rewrite Hat by lia.
Qed.

(** One kid more for the [k]-th item. *)
Definition kid (owner : option nat) (its : list item) : list item :=
  match owner with
  | None => its
  | Some k => alter (fun i => HwinfoTags.with_kids i (it_kids i + 1)) k its
  end.

Definition owner_off (its : list item) (owner : option nat) : Z :=
  match owner with None => HWI_NULL_OFF | Some k => item_at its k end.

Lemma kid_shape owner its : map shape (kid owner its) = map shape its.
Proof.
  destruct owner as [k|]; [|done]. cbn [kid]. revert k. induction its as [|i its IH]; intros k; [done|].
  destruct k as [|k]; cbn; [done|]. f_equal. apply IH.
Qed.

Lemma lookup_kid owner its j i :
  kid owner its !! j = Some i ->
  exists i0, its !! j = Some i0 /\ it_owner i = it_owner i0 /\
    it_kids i = it_kids i0 + (if decide (owner = Some j) then 1 else 0).
Proof.
  destruct owner as [k|]; cbn [kid].
  - destruct (decide (k = j)) as [->|Hne].
    + rewrite list_lookup_alter, decide_True by done. destruct (its !! j) as [i0|]; [|done].
      intros [= <-]. exists i0. rewrite decide_True by done. done.
    + rewrite list_lookup_alter_ne by done. intros Hi. exists i.
      rewrite decide_False by congruence. split_and!; try done. lia.
  - intros Hi. exists i. rewrite decide_False by done. split_and!; try done. lia.
Qed.

(** ** [hwi_alloc_tag] *)

Section Alloc.
Context (Hh : header_ok).

Lemma fd_apart f g :
  f ∈ hdr_fields -> g ∈ hdr_fields -> f <> g -> mem_apart (Num f 0) (Num g 0).
Proof.
  intros Hf Hg Hne. destruct Hh as [_ _ Hap _].
  assert (Hboth : forall x y l, ForallOrdPairs (fun f g => mem_apart (Num f 0) (Num g 0)) l ->
    x ∈ l -> y ∈ l -> x <> y -> mem_apart (Num x 0) (Num y 0) \/ mem_apart (Num y 0) (Num x 0)).
  { induction l as [|z l IH]; intros Hl Hx Hy Hn; [by apply elem_of_nil in Hx|].
    inversion Hl as [|? ? Hz Hr]; subst. rewrite Forall_forall in Hz.
    apply elem_of_cons in Hx as [->|Hx]; apply elem_of_cons in Hy as [->|Hy]; auto; [done|..]; auto. }
  destruct (Hboth f g _ Hap Hf Hg Hne) as [?|[?|?]]; [done|by right|by left].
Qed.

(** The members of the header do not overlap with each other or with the item's own. *)
Lemma item_mem_apart i f v :
  item_wf i -> f ∈ hdr_fields -> Forall (mem_apart (Num f v)) (it_mem i).
Proof.
  intros [_ _ _ Hap _] Hf. eapply Forall_impl; [exact Hap|]. intros m Hm. rewrite Forall_forall in Hm.
  destruct (Hm f Hf); [right|left]; done.
Qed.

Lemma hdr_distinct : NoDup hdr_fields.
Proof.
  destruct Hh as [_ Hl Hap _]. induction Hap as [|f l Hf Hr IH]; [constructor|].
  apply Forall_cons in Hl as [Hlf Hl]. constructor; [|by apply IH].
  intros Hin. rewrite Forall_forall in Hf. pose proof (Hf f Hin) as Ha. unfold mem_apart in Ha.
  cbn in Ha. rewrite Hlf in Ha. lia.
Qed.

Ltac hdr := unfold hdr_fields; rewrite ?elem_of_cons; tauto.
Ltac hdr_ne := let E := fresh in intros E; pose proof hdr_distinct as Hnd; unfold hdr_fields in Hnd;
  rewrite E in Hnd; rewrite ?NoDup_cons, ?elem_of_cons in Hnd; tauto.

(** Each of the first [n] members has no byte in common with those that follow. *)
Fixpoint apart_firsts (n : nat) (ms : list mem) : Prop :=
  match n, ms with S n, m :: r => Forall (mem_apart m) r /\ apart_firsts n r | _, _ => True end.

Lemma head_apart i : item_wf i -> apart_firsts 6 (head_mem i).
Proof.
  intros Hw. unfold head_mem, own_mem. cbn [apart_firsts].
  split; [repeat (constructor; [apply (fd_apart item_itemsize); [hdr|hdr|hdr_ne]|]); exact (item_mem_apart i item_itemsize 0 Hw ltac:(hdr))|].
  split; [repeat (constructor; [apply (fd_apart prefix_size); [hdr|hdr|hdr_ne]|]); exact (item_mem_apart i prefix_size 0 Hw ltac:(hdr))|].
  split; [repeat (constructor; [apply (fd_apart prefix_name); [hdr|hdr|hdr_ne]|]); exact (item_mem_apart i prefix_name 0 Hw ltac:(hdr))|].
  split; [repeat (constructor; [apply (fd_apart item_itemname); [hdr|hdr|hdr_ne]|]); exact (item_mem_apart i item_itemname 0 Hw ltac:(hdr))|].
  split; [repeat (constructor; [apply (fd_apart item_owner); [hdr|hdr|hdr_ne]|]); exact (item_mem_apart i item_owner 0 Hw ltac:(hdr))|].
  split; [repeat (constructor; [apply (fd_apart item_kids); [hdr|hdr|hdr_ne]|]); exact (item_mem_apart i item_kids 0 Hw ltac:(hdr))|].
  done.
Qed.

Lemma itemsize_apart i v : item_wf i -> Forall (mem_apart (Num item_itemsize v)) (own_mem i).
Proof. intros Hw. exact (proj1 (head_apart i Hw)). Qed.

Lemma head_in i v : item_wf i -> Forall (mem_in (ti_size (it_info i))) (Num item_itemsize v :: own_mem i).
Proof. intros Hw. pose proof (head_mem_in i Hw) as [Hx Hr]%Forall_cons. constructor; done. Qed.

(** [s'] is [s] with the items [its'], and [n] left of the credit. *)
Record hw_step s s' (names names' : list (list Z)) (its' : list item) (n : nat) : Prop := {
  hs_rep : hw_rep s' names' its';
  hs_credit : credit n s' names' its';
  hs_grow : names_grow names names';
  hs_frame : hw_frame s s'
}.

Lemma names_grow_trans n1 n2 n3 : names_grow n1 n2 -> names_grow n2 n3 -> names_grow n1 n3.
Proof. unfold names_grow. auto. Qed.

Lemma hw_step_trans s1 s2 s3 n1 n2 n3 i2 i3 c2 c3 :
  hw_step s1 s2 n1 n2 i2 c2 -> hw_step s2 s3 n2 n3 i3 c3 -> hw_step s1 s3 n1 n3 i3 c3.
Proof.
  intros [_ _ G1 F1] [R C G2 F2]. split; [done|done|by eapply names_grow_trans|by eapply hw_frame_trans].
Qed.

(** The string and the growth, up to the first store. *)
Lemma alloc_start s n names its ti l :
  hw_mid s names its l -> credit (S n) s names its -> ti_ok ti ->
  exists s1 s2 names' off k, string_added (ti_name ti) s = Ok (off, s1) /\
    grown (ti_size ti) s1 = Ok (tt, s2) /\ st_wf (hw_sys s2) /\
    hw_bytes s2 = enc_items names' its ++ zeros (ti_size ti) ++ zeros k /\ 0 <= k /\
    hw_offset s2 = hw_offset s /\ hw_last s2 = hw_last s /\
    strtab (hw_strings s2) names' /\ str_off names' (ti_name ti) = Some off /\
    names_grow names names' /\ hw_frame s s2 /\
    256 * Z.of_nat n <= st_room (hw_sys s2) /\ zlen (flat names') + 128 * Z.of_nat n <= 2 ^ 16.
Proof.
  intros Hrep Hcr Hti. pose proof Hti as [Hnm _ Hs _ _ _].
  destruct (rep_string s n names its _ l Hrep Hcr Hnm) as (s1 & names' & off & Hrun & Hnd).
  pose proof (rep_named _ _ _ _ _ _ _ _ Hrep Hnd) as [Hwf1 Hh1 Hs1 Ht1 _ _ _ _ (k & Hk & Hb) _ _].
  destruct Hcr as (Hc1 & Hc2 & Hc3). pose proof Hnd as [? ? Hoff Hg Hz Hr _ Ho Hl Hf].
  destruct (grown_run s1 (ti_size ti) _ k Hwf1 Hh1 Hs ltac:(lia) Hb Hk)
    as (s2 & k' & Hgr & Hwf2 & Hb2 & Hk' & Hr2 & Ho2 & Hl2 & Hh2 & Hoth2).
  exists s1, s2, names', off, k'. split_and!; try done; try congruence; try lia.
  - unfold hw_strings. by rewrite Hoth2.
  - eapply hw_frame_trans; [exact Hf|]. by apply frame_hwinfo.
Qed.

(** The last item with one more tag. *)
Definition add_tags (i : item) (ts : list tag) : item := HwinfoTags.with_tags i (it_tags i ++ ts).
Definition add_tag (i : item) (t : tag) : item := add_tags i [t].

Lemma add_tags_app i a b : add_tags (add_tags i a) b = add_tags i (a ++ b).
Proof. unfold add_tags. cbn. by rewrite app_assoc. Qed.

Lemma add_tags_nil i : add_tags i [] = i.
Proof. destruct i. unfold add_tags, HwinfoTags.with_tags. cbn. by rewrite app_nil_r. Qed.

Lemma size_add_tag i t : item_size (add_tag i t) = item_size i + ti_size (tg_info t).
Proof.
  unfold item_size, add_tag, add_tags. cbn [HwinfoTags.with_tags it_info it_tags]. rewrite size_of_app.
  unfold size_of at 2. cbn [foldr]. lia.
Qed.

Lemma wf_add_tag i t : item_wf i -> tag_wf t -> item_wf (add_tag i t).
Proof. intros [? ? ? ? ?] Ht. split; try done. apply Forall_app_2; [done|]. by constructor. Qed.

Lemma rep_add_tag s s' names names' front i t k :
  hw_rep s names (front ++ [i]) -> tag_wf t -> tag_known names' t ->
  hw_offset s mod ti_align (tg_info t) = 0 -> names_grow names names' ->
  st_wf (hw_sys s') -> hw_frame s s' -> strtab (hw_strings s') names' -> 0 <= k ->
  hw_bytes s' = enc_items names' (front ++ [add_tag i t]) ++ zeros k ->
  hw_offset s' = hw_offset s + ti_size (tg_info t) -> hw_last s' = hw_last s ->
  hw_rep s' names' (front ++ [add_tag i t]).
Proof.
  intros [Hwf Hhas Hhs Htab Hkn Hits Htree Hal Hb Ho Hl] Ht Hkt Hat Hg Hwf' [Hfh _ _] Htab' Hk Hb' Ho' Hl'.
  apply Forall_app in Hits as [Hfr [Hi _]%Forall_cons]. split; auto.
  - pose proof (known_grow _ _ _ Hg Hkn) as Hkn'.
    apply Forall_app in Hkn' as [Hkf [[Hkh Hktags] _]%Forall_cons]. apply Forall_app_2; [done|].
    constructor; [|done]. split; [done|]. apply Forall_app_2; [done|]. by constructor.
  - apply Forall_app_2; [done|]. constructor; [by apply wf_add_tag|done].
  - by apply (tree_last front i).
  - pose proof (infos_size (front ++ [i])) as Hinf.
    rewrite map_app, concat_app in *. cbn [map concat] in *. rewrite app_nil_r in *.
    unfold infos, add_tag, add_tags in *. cbn [HwinfoTags.with_tags it_tags it_info] in *.
    rewrite map_app, app_comm_cons, app_assoc. apply aligned_app. split; [done|].
    cbn [map aligned]. split; [|done]. rewrite Hinf, <- Ho. done.
  - by exists k.
  - rewrite Ho', Ho, !its_size_app, !its_size_one, size_add_tag. lia.
  - rewrite Hl', Hl, !removelast_last. done.
Qed.

Lemma alloc_tag_aligned fuel s n names front i ti :
  hw_rep s names (front ++ [i]) -> credit (S n) s names (front ++ [i]) -> ti_ok ti ->
  hw_offset s mod ti_align ti = 0 ->
  exists s' names', hwi_alloc_tag_f (S fuel) ti s = Ok (hw_offset s, s') /\
    hw_step s s' names names' (front ++ [add_tag i (mk_tag ti [])]) n.
Proof.
  intros Hrep Hcr Hti Hal.
  destruct (alloc_start s n names _ ti _ Hrep Hcr Hti) as
    (s1 & s2 & names' & off & k & Hstr & Hgr & Hwf & Hb & Hk & Ho2 & Hl2 & Htab & Hoff & Hg & Hf & Hc1 & Hc3).
  destruct Hcr as (_ & Hc2 & _). pose proof Hrep as [_ Hhas Hhs _ Hkn Hits Htree Halg _ Hofs Hlast].
  pose proof Hti as [_ Ha Hs Hsw _ _].
  pose proof (its_size_words _ Hits) as [Hz0 Hz4].
  rewrite removelast_last in Hlast.
  pose proof (fr_has _ _ Hf _ Hhas) as Hhas2. pose proof (fr_has _ _ Hf _ Hhs) as Hhs2.
  apply Forall_app in Hits as [Hfr [Hi _]%Forall_cons].
  pose proof Hi as [[[[_ _ Hsi Hswi _ _] _] _] _ _ _ Htags].
  assert (Hpre : zlen (enc_items names' front) = hw_last s2) by (rewrite zlen_enc_items by done; congruence).
  rewrite enc_items_app, enc_items_one in Hb. unfold enc_item, enc_head, head_mem in Hb.
  destruct (bump_run names' s2 (enc_items names' front) (ti_size (it_info i)) [] item_itemsize
    (item_size i / 4) (own_mem i) (enc_tags names' (it_tags i) ++ zeros (ti_size ti) ++ zeros k)
    (hw_last s2) (ti_size ti / 4)) as (v & s3 & Hm & Hst & Hsd); try done; try lia.
  { rewrite Hb. rewrite <- !app_assoc. done. }
  { by apply head_in. }
  { by apply itemsize_apart. }
  set (i' := add_tag i (mk_tag ti [])).
  assert (Hsz' : item_size i' = item_size i + ti_size ti) by apply size_add_tag.
  assert (Hdiv : item_size i / 4 + ti_size ti / 4 = item_size i' / 4).
  { rewrite Hsz'. pose proof (item_size_words i Hi). Z.to_euclidean_division_equations. lia. }
  cbn [app] in Hsd. rewrite Hdiv in Hsd.
  set (pre := enc_items names' front ++ enc names' (ti_size (it_info i))
    (Num item_itemsize (item_size i' / 4) :: own_mem i) ++ enc_tags names' (it_tags i)).
  assert (Hlen : zlen pre = hw_offset s).
  { unfold pre. rewrite !zlen_app, Hpre, zlen_enc, zlen_enc_tags; try done; try lia.
    - rewrite Hl2, Hlast, Hofs, its_size_app, its_size_one. unfold item_size. lia.
    - by apply head_in. }
  assert (Hb3 : hw_bytes s3 = pre ++ enc names' (ti_size ti) [] ++ zeros k).
  { rewrite (sd_bytes _ _ _ Hsd). unfold pre, enc at 3. by rewrite <- !app_assoc. }
  assert (Hofs3 : hw_offset s3 = zlen pre) by (rewrite (sd_offset _ _ _ Hsd); congruence).
  destruct (prefix_run names' s3 pre ti [] k off) as (s4 & s5 & Hs4 & Hs5 & Hsd5); try done.
  { by apply Hsd. } { by apply Hsd. } { rewrite Hlen. lia. }
  pose proof (stored_trans _ _ _ _ _ Hsd Hsd5) as [Hwf5 Hhas5 Hr5 Hb5 Hoth5 Ho5 Hl5].
  exists (mk_hw (hw_sys s5) (u32 (hw_offset s2 + ti_size ti)) (hw_last s5)), names'. split.
  - cbn [hwi_alloc_tag_f]. assert (0 <= hw_offset s < 2 ^ 17) by lia.
    rewrite (hw_bind_ok _ _ s tt s) by (by apply align_tag_aligned).
    rewrite (hw_bind_ok _ _ _ _ _ Hstr), (hw_bind_ok _ _ _ _ _ Hgr).
    rewrite (hw_bind_ok current _ s2 s2 s2 eq_refl), (hw_bind_ok _ _ _ _ _ Hm), (hw_bind_ok _ _ _ _ _ Hst).
    replace (hw_offset s2) with (hw_offset s3) by (by rewrite (sd_offset _ _ _ Hsd)).
    rewrite (hw_bind_ok _ _ _ _ _ Hs4), (hw_bind_ok _ _ _ _ _ Hs5).
    unfold mbind, hw_bind, set_offset, mret, hw_ret. rewrite (sd_offset _ _ _ Hsd), Ho2. done.
  - assert (Hf5 : hw_frame s2 s5) by (by apply frame_hwinfo). assert (Hsize : hw_offset s + ti_size ti < 2 ^ 32) by lia.
    split; [|unfold credit; cbn [hw_sys]; rewrite its_size_app, its_size_one, Hsz'; rewrite its_size_app, its_size_one in *; lia|done|].
    + eapply (rep_add_tag s _ names names' front i (mk_tag ti []) k); cbn [hw_sys hw_offset hw_last tg_info]; try done.
      * constructor; [done|]. constructor; [|done]. cbn. apply str_off_in. by rewrite Hoff.
      * eapply hw_frame_trans; [exact Hf|]. by apply frame_hwinfo.
      * unfold hw_strings in *. cbn [hw_sys]. by rewrite Hoth5.
      * unfold hw_bytes in *. cbn [hw_sys]. rewrite Hb5. unfold pre.
        rewrite enc_items_app, enc_items_one. unfold enc_item at 1. fold i'.
        cbn [i' add_tag add_tags HwinfoTags.with_tags it_tags]. rewrite enc_tags_app, enc_tags_one, <- !app_assoc. done.
      * rewrite Ho2. apply wrap_id. unfold fits. lia.
      * congruence.
    + eapply hw_frame_trans; [exact Hf|]. by apply frame_hwinfo.
Qed.

(** [align_tag]: nothing, or one tag of padding. *)
Lemma offset_small s n names its :
  hw_rep s names its -> credit n s names its -> 0 <= hw_offset s < 2 ^ 17 /\ hw_offset s mod 4 = 0.
Proof.
  intros [_ _ _ _ _ Hits _ _ _ Ho _] (_ & Hc & _). pose proof (its_size_words _ Hits).
  rewrite Ho. lia.
Qed.

Lemma align_run fuel s n names front i align :
  hw_rep s names (front ++ [i]) -> credit (S n) s names (front ++ [i]) -> align = 4 \/ align = 8 ->
  exists s' names' pads, align_tag_with (hwi_alloc_tag_f (S fuel)) align s = Ok (tt, s') /\
    hw_step s s' names names' (front ++ [add_tags i pads]) n /\ strip pads = [] /\
    hw_offset s' mod align = 0.
Proof.
  intros Hrep Hcr Ha. destruct (offset_small _ _ _ _ Hrep Hcr) as [Ho H4].
  destruct (decide (hw_offset s mod align = 0)) as [Hd|Hd].
  - exists s, names, []. rewrite add_tags_nil. split_and!; [by apply align_tag_aligned| |done|done].
    split; [done| |by intros ?|apply hw_frame_refl]. unfold credit in *. lia.
  - destruct Hh as [(Hpad & Hps & Hpa) _ _ _].
    destruct (alloc_tag_aligned fuel s n names front i t_pad Hrep Hcr Hpad) as (s' & names' & Hrun & Hstep);
      [by rewrite Hpa|].
    exists s', names', [mk_tag t_pad []]. split_and!; [|exact Hstep| |].
    + unfold align_tag_with. rewrite (hw_bind_ok current _ s s s eq_refl), align_grow, decide_False by done.
      cbn [Z.eqb]. rewrite (hw_bind_ok _ _ _ _ _ Hrun). done.
    + unfold strip. rewrite filter_cons. rewrite decide_False by (by intros []). done.
    + rewrite (rp_offset _ _ _ _ (hs_rep _ _ _ _ _ _ Hstep)), its_size_app, its_size_one, size_add_tag.
      cbn [tg_info]. pose proof (rp_offset _ _ _ _ Hrep) as Hofs. rewrite its_size_app, its_size_one in Hofs.
      rewrite Hps, Z.add_assoc, <- Hofs. destruct Ha as [-> | ->]; [done|].
      Z.to_euclidean_division_equations. lia.
Qed.

(** [hwi_alloc_tag]: the tag is appended to the last item, after padding. *)
Lemma alloc_tag_run s n names front i ti :
  hw_rep s names (front ++ [i]) -> credit (S (S n)) s names (front ++ [i]) -> ti_ok ti ->
  exists s' names' pads off, hwi_alloc_tag ti s = Ok (off, s') /\
    hw_step s s' names names' (front ++ [add_tags i (pads ++ [mk_tag ti []])]) n /\
    strip pads = [] /\ off = its_size (front ++ [add_tags i pads]).
Proof.
  intros Hrep Hcr Hti.
  destruct (align_run 0 s (S n) names front i (ti_align ti) Hrep Hcr (tk_align _ Hti))
    as (s1 & n1 & pads & Hal & [Hrep1 Hcr1 Hg1 Hf1] & Hpads & Hmod).
  destruct (alloc_tag_aligned 1 s1 n n1 front _ ti Hrep1 Hcr1 Hti Hmod) as (s2 & n2 & Hrun & Hstep).
  exists s2, n2, pads, (hw_offset s1). split_and!; [| |done|apply Hrep1].
  - change (hwi_alloc_tag ti s) with (hwi_alloc_tag_f 2 ti s). cbn [hwi_alloc_tag_f] in Hrun |- *.
    rewrite (hw_bind_ok _ _ _ _ _ Hal).
    rewrite (hw_bind_ok _ _ s1 tt s1) in Hrun; [exact Hrun|].
    destruct (offset_small _ _ _ _ Hrep1 Hcr1). by apply align_tag_aligned; [|apply tk_align|].
  - rewrite <- add_tags_app. eapply hw_step_trans; [|exact Hstep]. by split.
Qed.

(** ** [hwi_alloc_item] *)

Lemma le_bytes_0 n : le_bytes n 0 = zeros (Z.of_nat n).
Proof.
  unfold zeros. rewrite Nat2Z.id. induction n as [|n IH]; [done|].
  cbn [le_bytes replicate]. by rewrite <- IH.
Qed.

(** A member that was never stored holds zero. *)
Lemma enc_zero names size a f :
  0 <= size -> Forall (mem_in size) (a ++ [Num f 0]) -> Forall (fun m => mem_apart m (Num f 0)) a ->
  enc names size (a ++ [Num f 0]) = enc names size a.
Proof.
  intros Hs [Ha [Hf _]%Forall_cons]%Forall_app Hap. unfold enc. rewrite map_app, puts_app.
  assert (Hz : zlen (puts (zeros size) (map (enc_mem names) a)) = size) by (by apply zlen_enc).
  cbn [map enc_mem]. unfold puts at 1. cbn [foldl]. apply put_same.
  - rewrite Hz. exact (enc_mem_inside names size (Num f 0) Hf).
  - cbn [fst snd]. destruct Hf as [Hf0 Hf1]. cbn in Hf0, Hf1.
    assert (Hl : zlen (le_bytes (fd_len f) 0) = Z.of_nat (fd_len f)) by (unfold zlen; by rewrite length_le_bytes).
    rewrite Hl, slice_puts_other.
    + rewrite le_bytes_0. unfold slice, zeros. rewrite drop_replicate, take_replicate. f_equal. lia.
    + rewrite zlen_zeros by done. by apply enc_mems_inside.
    + done.
    + apply Forall_map. eapply Forall_impl; [exact Hap|]. intros m Hm.
      destruct (enc_mem_shape names m) as [-> ->]. destruct Hm; cbn in *; lia.
Qed.

Lemma alloc_head fuel s0 s n names its ti :
  hw_rep s0 names its -> credit (S n) s0 names its -> item_ti ti -> hw_offset s0 mod ti_align ti = 0 ->
  s = mk_hw (hw_sys s0) (hw_offset s0) (hw_offset s0) ->
  exists s' names' k, hwi_alloc_tag_f (S fuel) ti s = Ok (hw_offset s0, s') /\ st_wf (hw_sys s') /\
    hw_bytes s' = enc_items names' its ++ enc names' (ti_size ti)
      [Num item_itemsize (ti_size ti / 4); Num prefix_size (ti_size ti / 4); Ref prefix_name (ti_name ti)]
      ++ zeros k /\ 0 <= k /\
    hw_offset s' = hw_offset s0 + ti_size ti /\ hw_last s' = hw_offset s0 /\
    strtab (hw_strings s') names' /\ ti_name ti ∈ names' /\ names_grow names names' /\ hw_frame s0 s' /\
    256 * Z.of_nat n <= st_room (hw_sys s') /\ zlen (flat names') + 128 * Z.of_nat n <= 2 ^ 16.
Proof.
  intros Hrep Hcr [[Hti _] Hhdr] Hal ->. destruct (offset_small _ _ _ _ Hrep Hcr) as [Ho0 _].
  pose proof Hrep as [Hwf0 Hhas Hhs Ht0 Hkn Hits Htr Ha0 Hb0 Hofs Hlast].
  pose proof Hti as [_ Ha Hs _ _ _].
  set (s := mk_hw (hw_sys s0) (hw_offset s0) (hw_offset s0)).
  assert (Hmid : hw_mid s names its (hw_offset s0)) by (by split).
  destruct (alloc_start s n names its ti _ Hmid Hcr Hti) as
    (s1 & s2 & names' & off & k & Hstr & Hgr & Hwf & Hb & Hk & Ho2 & Hl2 & Htab & Hoff & Hg & Hf & Hc1 & Hc3).
  pose proof (fr_has _ _ Hf _ Hhas) as Hhas2.
  assert (Hpre : zlen (enc_items names' its) = hw_offset s0) by (rewrite zlen_enc_items by done; done).
  assert (Hin : mem_in (ti_size ti) (Num item_itemsize 0)) by (apply (fd_in_all _ _ Hhdr); hdr).
  destruct (bump_run names' s2 (enc_items names' its) (ti_size ti) [] item_itemsize 0 [] (zeros k)
    (hw_last s2) (ti_size ti / 4)) as (v & s3 & Hm & Hst & Hsd); try done; try lia.
  { rewrite enc_zero; [done|lia|by constructor|done]. }
  { rewrite Hl2, Hpre. done. } { by constructor. }
  rewrite Z.add_0_l in Hsd. cbn [app] in Hsd.
  destruct (prefix_run names' s3 (enc_items names' its) ti [Num item_itemsize (ti_size ti / 4)] k off)
    as (s4 & s5 & Hs4 & Hs5 & Hsd5); try done; try (by apply Hsd).
  { constructor; [exact Hin|done]. }
  { rewrite (sd_offset _ _ _ Hsd), Ho2, Hpre. done. } { rewrite Hpre. lia. }
  pose proof (stored_trans _ _ _ _ _ Hsd Hsd5) as [Hwf5 Hhas5 Hr5 Hb5 Hoth5 Ho5 Hl5].
  assert (Hos : hw_offset s = hw_offset s0) by done.
  exists (mk_hw (hw_sys s5) (u32 (hw_offset s2 + ti_size ti)) (hw_last s5)), names', k.
  cbn [hw_sys hw_offset hw_last]. split_and!; try done; try lia.
  - cbn [hwi_alloc_tag_f]. rewrite (hw_bind_ok _ _ s tt s) by (by apply align_tag_aligned).
    rewrite (hw_bind_ok _ _ _ _ _ Hstr), (hw_bind_ok _ _ _ _ _ Hgr).
    rewrite (hw_bind_ok current _ s2 s2 s2 eq_refl), (hw_bind_ok _ _ _ _ _ Hm), (hw_bind_ok _ _ _ _ _ Hst).
    replace (hw_offset s2) with (hw_offset s3) by (by rewrite (sd_offset _ _ _ Hsd)).
    rewrite (hw_bind_ok _ _ _ _ _ Hs4), (hw_bind_ok _ _ _ _ _ Hs5).
    unfold mbind, hw_bind, set_offset, mret, hw_ret. rewrite (sd_offset _ _ _ Hsd), Ho2, Hos. done.
  - rewrite Ho2, Hos. apply wrap_id. unfold fits. lia.
  - rewrite Hl5, Hl2. done.
  - unfold hw_strings in *. cbn [hw_sys]. by rewrite Hoth5.
  - apply str_off_in. by rewrite Hoff.
  - apply (hw_frame_trans _ s2); [|by apply frame_hwinfo]. destruct Hf. by split.
Qed.

(** The items before a new one: the last may have got padding. *)
Inductive padded : list item -> list item -> Prop :=
  | padded_none its : padded its its
  | padded_last front i pads : strip pads = [] -> padded (front ++ [i]) (front ++ [add_tags i pads]).

Lemma padded_length its its1 : padded its its1 -> length its1 = length its.
Proof. intros [|]; [done|]. by rewrite !length_app. Qed.

Lemma padded_at its its1 k : padded its its1 -> (k < length its)%nat -> item_at its1 k = item_at its k.
Proof.
  intros [|front i pads _] Hk; [done|]. rewrite length_app in Hk. cbn in Hk.
  by rewrite !item_at_app by lia.
Qed.

Lemma align_any fuel s n names its align :
  hw_rep s names its -> credit (S n) s names its -> align = 4 \/ align = 8 ->
  exists s' names' its1, align_tag_with (hwi_alloc_tag_f (S fuel)) align s = Ok (tt, s') /\
    hw_step s s' names names' its1 n /\ padded its its1 /\ hw_offset s' mod align = 0.
Proof.
  intros Hrep Hcr Ha. destruct its as [|i front _] using rev_ind.
  - assert (Ho : hw_offset s = 0) by (rewrite (rp_offset _ _ _ _ Hrep); done).
    exists s, names, []. split_and!; [apply align_tag_aligned; rewrite ?Ho; try done| |constructor|by rewrite Ho].
    split; [done|unfold credit in *; lia|by intros ?|apply hw_frame_refl].
  - destruct (align_run fuel s n names front i align Hrep Hcr Ha) as (s' & names' & pads & ? & ? & ? & ?).
    exists s', names', (front ++ [add_tags i pads]). split_and!; try done. by constructor.
Qed.

Lemma item_at_words its j : Forall item_wf its -> 0 <= item_at its j /\ item_at its j mod 4 = 0.
Proof. intros Hw. apply its_size_words. by apply Forall_take. Qed.

Lemma null_no_item its j : Forall item_wf its -> HWI_NULL_OFF <> item_at its j.
Proof.
  intros Hw He. destruct Hh as [_ _ _ Hn]. destruct (item_at_words its j Hw) as [_ Hm].
  rewrite <- He, Hn in Hm. done.
Qed.

Lemma owned_none its o : Forall (fun i => it_owner i <> o) its -> owned its o = 0.
Proof.
  induction 1 as [|i its Hi _ IH]; [done|]. rewrite owned_cons, decide_False by done. lia.
Qed.

Definition owner_valid (its : list item) (ow : option nat) : Prop :=
  match ow with None => True | Some k => (k < length its)%nat end.

Lemma owner_is its ow j :
  Forall item_wf its -> owner_valid its ow -> (j <= length its)%nat ->
  owner_off its ow = item_at its j <-> ow = Some j.
Proof.
  intros Hw Hv Hj. destruct ow as [k|]; cbn in *; split; try congruence.
  - intros He. f_equal. apply (item_at_inj its); [done|lia|done|done].
  - intros He. by destruct (null_no_item its j Hw).
Qed.

(** A new item, and one kid more for its owner. *)
Lemma tree_new its ow i :
  Forall item_wf its -> tree_ok its -> owner_valid its ow -> it_owner i = owner_off its ow ->
  it_kids i = 0 -> tree_ok (kid ow its ++ [i]).
Proof.
  intros Hw Ht Hv Ho Hk0 j x Hx.
  assert (Hlen : length (kid ow its) = length its) by (rewrite <- (length_map shape), kid_shape; apply length_map).
  assert (Hat : forall k, (k <= length its)%nat -> item_at (kid ow its ++ [i]) k = item_at its k).
  { intros k Hk. rewrite item_at_app by lia. apply item_at_shape, kid_shape. }
  assert (Hown : forall o, owned (kid ow its ++ [i]) o
    = owned its o + (if decide (owner_off its ow = o) then 1 else 0)).
  { intros o. rewrite owned_app, owned_cons, Ho. rewrite (owned_shape (kid ow its) its) by apply kid_shape.
    change (owned [] o) with 0. lia. }
  apply lookup_app_Some in Hx as [Hx|[Hge Hx]].
  - assert (Hj : (j < length its)%nat) by (apply lookup_lt_Some in Hx; lia).
    apply lookup_kid in Hx as (x0 & Hx0 & Hox & Hkx). destruct (Ht j x0 Hx0) as [Hown0 Hkid0].
    rewrite Hown, Hat, Hox, Hkx, Hkid0 by lia. split.
    + destruct Hown0 as [?|(k & Hk & He)]; [by left|]. right. exists k. split; [done|]. by rewrite Hat by lia.
    + f_equal. pose proof (owner_is its ow j Hw Hv ltac:(lia)). repeat case_decide; tauto.
  - apply list_lookup_singleton_Some in Hx as [Hj <-]. replace j with (length its) by lia.
    rewrite Hown, Hat, Hk0, item_at_end, owned_none by
      (lia || (apply Forall_lookup; intros k y Hy; destruct (Ht k y Hy) as [[->|(m & Hm & ->)] _];
       [by rewrite <- item_at_end; apply null_no_item|]; apply lookup_lt_Some in Hy;
       pose proof (item_at_mono its m (length its) Hw ltac:(lia)); rewrite item_at_end in *; lia)).
    split.
    + rewrite Ho. destruct ow as [k|]; cbn in *; [|by left]. right. exists k. by rewrite Hat by lia.
    + rewrite decide_False; [done|]. rewrite <- item_at_end. rewrite owner_is by done.
      intros ->. cbn in Hv. lia.
Qed.

Definition fresh_item (ti : tag_info) (nm : list Z) (owner : Z) : item := mk_item ti nm owner 0 [] [].

Lemma fresh_wf ti nm owner : item_ti ti -> str_ok nm -> item_wf (fresh_item ti nm owner).
Proof. intros. by split. Qed.

(** The name and the owner of a new item. *)
Lemma item_stores names s pre ti nm owner k off :
  st_wf (hw_sys s) -> st_has (hw_sys s) SEC_hwinfo -> item_ti ti -> str_ok nm ->
  hw_bytes s = pre ++ enc names (ti_size ti)
    [Num item_itemsize (ti_size ti / 4); Num prefix_size (ti_size ti / 4); Ref prefix_name (ti_name ti)]
    ++ zeros k ->
  str_off names nm = Some off ->
  exists s1 s2, set (zlen pre) item_itemname off s = Ok (tt, s1) /\
    set (zlen pre) item_owner owner s1 = Ok (tt, s2) /\
    stored s s2 (pre ++ enc_item names (fresh_item ti nm owner) ++ zeros k).
Proof.
  intros Hwf Hhas Hti Hnm Hb Hoff. set (i := fresh_item ti nm owner).
  pose proof (fresh_wf ti nm owner Hti Hnm) as Hi. pose proof (head_mem_in i Hi) as Hin.
  pose proof Hti as [[[_ _ Hs _ _ _] _] _].
  set (a := [Num item_itemsize (ti_size ti / 4); Num prefix_size (ti_size ti / 4); Ref prefix_name (ti_name ti)]) in *.
  assert (Hhm : head_mem i = (a ++ [Ref item_itemname nm; Num item_owner owner]) ++ [Num item_kids 0])
    by (unfold head_mem, own_mem, item_size, i, size_of; cbn; by rewrite Z.add_0_r).
  assert (Hz : zlen (enc names (ti_size ti) a) = ti_size ti).
  { apply zlen_enc; [lia|]. rewrite Hhm in Hin. by apply Forall_app in Hin as [[? _]%Forall_app _]. }
  assert (Hin2 : Forall (mem_in (ti_size ti)) [Ref item_itemname nm; Num item_owner owner])
    by (rewrite Hhm in Hin; by apply Forall_app in Hin as [[_ ?]%Forall_app _]).
  apply Forall_cons in Hin2 as [Hin_n [Hin_o _]%Forall_cons].
  destruct (store_run names s pre _ (zeros k) (Ref item_itemname nm) (zlen pre) Hwf Hhas Hb)
    as (s1 & H1 & Hsd1); [done|by rewrite Hz|].
  destruct (store_run names s1 pre _ (zeros k) (Num item_owner owner) (zlen pre)
    (sd_wf _ _ _ Hsd1) (sd_has _ _ _ Hsd1 _ Hhas) (sd_bytes _ _ _ Hsd1)) as (s2 & H2 & Hsd2);
    [done|rewrite zlen_put, Hz; [done|rewrite Hz; by apply enc_mem_inside]|].
  exists s1, s2. split_and!; [|exact H2|].
  - cbn [enc_mem mem_off snd] in H1. rewrite Hoff in H1. exact H1.
  - pose proof (stored_trans _ _ _ _ _ Hsd1 Hsd2) as Hsd.
    replace (enc_item names i) with (put (put (enc names (ti_size ti) a)
      (enc_mem names (Ref item_itemname nm))) (enc_mem names (Num item_owner owner))); [done|].
    unfold enc_item, enc_head. change (it_tags i) with (@nil tag). change (enc_tags names []) with (@nil Z).
    rewrite app_nil_r, Hhm, enc_zero.
    + unfold enc. rewrite !map_app, !puts_app. done.
    + change (ti_size (it_info i)) with (ti_size ti). lia.
    + rewrite <- Hhm. done.
    + assert (Hk : forall f, f ∈ hdr_fields -> f <> item_kids -> mem_apart (Num f 0) (Num item_kids 0))
        by (intros f Hf Hne; apply fd_apart; [done|hdr|done]).
      unfold a. cbn [app].
      constructor; [apply (Hk item_itemsize); [hdr|hdr_ne]|].
      constructor; [apply (Hk prefix_size); [hdr|hdr_ne]|].
      constructor; [apply (Hk prefix_name); [hdr|hdr_ne]|].
      constructor; [apply (Hk item_itemname); [hdr|hdr_ne]|].
      constructor; [apply (Hk item_owner); [hdr|hdr_ne]|]. constructor.
Qed.

Lemma alter_split {A} (f : A -> A) k (l : list A) x :
  l !! k = Some x -> alter f k l = take k l ++ f x :: drop (S k) l.
Proof.
  revert k; induction l as [|y l IH]; intros [|k] Hx; try done; cbn in Hx |- *.
  - by injection Hx as ->.
  - f_equal. by apply IH.
Qed.

(** The count of kids of the owner. *)
Lemma kid_bump names s its ow rest :
  st_wf (hw_sys s) -> st_has (hw_sys s) SEC_hwinfo -> Forall item_wf its -> owner_valid its ow ->
  hw_bytes s = enc_items names its ++ rest ->
  exists s', (if owner_off its ow =? HWI_NULL_OFF then mret tt
              else n ← member (owner_off its ow) item_kids; set (owner_off its ow) item_kids (n + 1)) s
      = Ok (tt, s') /\ stored s s' (enc_items names (kid ow its) ++ rest).
Proof.
  intros Hwf Hhas Hw Hv Hb. destruct ow as [k|]; cbn [owner_off owner_valid kid] in *.
  2: { rewrite Z.eqb_refl. exists s. split; [done|]. by split. }
  destruct (Z.eqb_spec (item_at its k) HWI_NULL_OFF) as [He|_]; [by destruct (null_no_item its k Hw)|].
  destruct (lookup_lt_is_Some_2 its k Hv) as [x Hx].
  assert (Hsplit : its = take k its ++ x :: drop (S k) its) by (by rewrite take_drop_middle).
  assert (Hwx : item_wf x) by (by eapply (Forall_lookup_1 _ its)).
  assert (Hwk : Forall item_wf (take k its)) by (by apply Forall_take).
  rewrite (alter_split _ _ _ _ Hx).
  destruct (bump_run names s (enc_items names (take k its)) (ti_size (it_info x))
    [Num item_itemsize (item_size x / 4); Num prefix_size (ti_size (it_info x) / 4);
     Ref prefix_name (ti_name (it_info x)); Ref item_itemname (it_name x); Num item_owner (it_owner x)]
    item_kids (it_kids x) (it_mem x)
    (enc_tags names (it_tags x) ++ enc_items names (drop (S k) its) ++ rest) (item_at its k) 1)
    as (n & s' & Hm & Hst & Hsd); try done.
  - rewrite Hb. rewrite Hsplit at 1. rewrite enc_items_app.
    change (enc_items names (x :: ?l)) with (enc_item names x ++ enc_items names l).
    unfold enc_item, enc_head, head_mem, own_mem. cbn [app]. by rewrite <- !app_assoc.
  - by rewrite zlen_enc_items.
  - destruct Hwx as [[[[_ _ ? _ _ _] _] _] _ _ _ _]. lia.
  - exact (head_mem_in x Hwx).
  - apply item_mem_apart; [done|hdr].
  - exists s'. split; [rewrite (hw_bind_ok _ _ _ _ _ Hm); exact Hst|].
    rewrite enc_items_app.
    change (enc_items names (?y :: ?l)) with (enc_item names y ++ enc_items names l).
    unfold enc_item at 1, enc_head, head_mem, own_mem. cbn [HwinfoTags.with_kids it_info it_name it_owner
      it_kids it_mem it_tags]. cbn [app] in Hsd. rewrite <- !app_assoc. exact Hsd.
Qed.

Lemma kid_wf ow its : Forall item_wf its -> Forall item_wf (kid ow its).
Proof.
  intros Hw. destruct ow as [k|]; [|done]. apply Forall_lookup. intros j x Hx.
  cbn [kid] in Hx. destruct (decide (k = j)) as [->|Hne].
  - rewrite list_lookup_alter, decide_True in Hx by done. destruct (its !! j) as [y|] eqn:E; [|done]. injection Hx as <-.
    assert (item_wf y) as [? ? ? ? ?] by (by eapply (Forall_lookup_1 _ its)). by split.
  - rewrite list_lookup_alter_ne in Hx by done. by eapply (Forall_lookup_1 _ its).
Qed.

Lemma kid_known names ow its : Forall (item_known names) its -> Forall (item_known names) (kid ow its).
Proof.
  intros Hw. destruct ow as [k|]; [|done]. apply Forall_lookup. intros j x Hx.
  cbn [kid] in Hx. destruct (decide (k = j)) as [->|Hne].
  - rewrite list_lookup_alter, decide_True in Hx by done. destruct (its !! j) as [y|] eqn:E; [|done]. injection Hx as <-.
    assert (item_known names y) as [Hh' Ht] by (by eapply (Forall_lookup_1 _ its)). split; [|done].
    unfold own_mem in *. do 5 apply Forall_cons in Hh' as [? Hh']. by do 5 (constructor; [done|]).
  - rewrite list_lookup_alter_ne in Hx by done. by eapply (Forall_lookup_1 _ its).
Qed.

Lemma kid_infos ow its : map infos (kid ow its) = map infos its.
Proof.
  destruct ow as [k|]; [|done]. cbn [kid]. revert k. induction its as [|i its IH]; intros k; [done|].
  destruct k as [|k]; cbn; [done|]. f_equal. apply IH.
Qed.

Lemma rep_new_item s0 s names names' its ow ti nm k n :
  hw_rep s0 names its -> item_ti ti -> str_ok nm -> owner_valid its ow -> hw_offset s0 mod ti_align ti = 0 ->
  names_grow names names' -> ti_name ti ∈ names' -> nm ∈ names' ->
  st_wf (hw_sys s) -> strtab (hw_strings s) names' -> hw_frame s0 s -> 0 <= k ->
  hw_bytes s = enc_items names' (kid ow its ++ [fresh_item ti nm (owner_off its ow)]) ++ zeros k ->
  hw_offset s = hw_offset s0 + ti_size ti -> hw_last s = hw_offset s0 ->
  256 * Z.of_nat n <= st_room (hw_sys s) -> zlen (flat names') + 128 * Z.of_nat n <= 2 ^ 16 ->
  credit (S n) s0 names its ->
  hw_step s0 s names names' (kid ow its ++ [fresh_item ti nm (owner_off its ow)]) n.
Proof.
  intros [Hwf Hhas Hhs Ht0 Hkn Hits Htr Ha0 Hb0 Hofs Hlast] Hti Hnm Hv Hal Hg Hin1 Hin2 Hwf' Ht' Hf Hk Hb
    Ho Hl Hc1 Hc3 (_ & Hc2 & _).
  pose proof (its_size_shape _ _ (kid_shape ow its)) as Hks.
  set (x := fresh_item ti nm (owner_off its ow)) in *.
  assert (Hx : item_size x = ti_size ti) by (unfold item_size, x, size_of; cbn; lia).
  split; [|unfold credit; rewrite its_size_app, its_size_one, Hks, Hx; destruct Hti as [[[_ _ ? _ _ _] _] _]; lia|done..].
  split; try done.
  - by apply Hf.
  - by apply Hf.
  - apply Forall_app_2; [apply kid_known; by eapply known_grow|]. constructor; [|done]. split; [|constructor].
    unfold own_mem. repeat (constructor; [done|]). constructor.
  - apply Forall_app_2; [by apply kid_wf|]. constructor; [by apply fresh_wf|done].
  - by apply tree_new.
  - rewrite map_app, kid_infos, concat_app. apply aligned_app. split; [done|].
    rewrite infos_size, <- Hofs. cbn [map concat infos app aligned]. split; [exact Hal|done].
  - by exists k.
  - rewrite Ho, Hofs, its_size_app, its_size_one, Hks, Hx. done.
  - rewrite removelast_last, Hks, Hl. done.
Qed.

Lemma padded_valid its its1 ow : padded its its1 -> owner_valid its ow -> owner_valid its1 ow.
Proof. intros Hp. destruct ow; cbn; [|done]. by rewrite (padded_length _ _ Hp). Qed.

Lemma padded_owner its its1 ow :
  padded its its1 -> owner_valid its ow -> owner_off its1 ow = owner_off its ow.
Proof. intros Hp. destruct ow; cbn; [|done]. by apply padded_at. Qed.

(** [hwi_alloc_item]: a new item after the others, aligned, known to its owner. *)
Lemma alloc_item_run s n names its ti nm ow :
  hw_rep s names its -> credit (S (S (S n))) s names its -> item_ti ti -> str_ok nm -> owner_valid its ow ->
  exists s' names' its1, hwi_alloc_item ti nm (owner_off its ow) s = Ok (its_size its1, s') /\
    hw_step s s' names names' (kid ow its1 ++ [fresh_item ti nm (owner_off its ow)]) n /\ padded its its1.
Proof.
  intros Hrep Hcr Hti Hnm Hv. pose proof Hti as [[Htk _] _]. pose proof (tk_align _ Htk) as Ha.
  destruct (rep_string s _ names its nm _ Hrep Hcr Hnm) as (s1 & n1 & off & Hstr & Hnd).
  pose proof (rep_named _ _ _ _ _ _ _ _ Hrep Hnd) as Hrep1.
  pose proof (credit_named _ _ _ _ _ _ _ _ Hcr Hnd) as Hcr1.
  destruct (align_any 1 s1 _ n1 its (ti_align ti) Hrep1 Hcr1 Ha) as
    (s2 & n2 & its1 & Hal & [Hrep2 Hcr2 Hg2 Hf2] & Hpad & Hmod).
  pose proof (padded_valid _ _ _ Hpad Hv) as Hv1. rewrite <- (padded_owner _ _ _ Hpad Hv).
  destruct (alloc_head 1 s2 _ n n2 its1 ti Hrep2 Hcr2 Hti Hmod eq_refl) as
    (s3 & n3 & k & Hrun & Hwf3 & Hb3 & Hk & Ho3 & Hl3 & Ht3 & Hin3 & Hg3 & Hf3 & Hc1 & Hc3).
  pose proof (fr_has _ _ Hf3 _ (rp_hwinfo _ _ _ _ Hrep2)) as Hhas3.
  assert (Hoff : str_off n3 nm = Some off) by (apply Hg3, Hg2, (nd_off _ _ _ _ _ _ Hnd)).
  assert (Hlen : zlen (enc_items n3 its1) = hw_offset s2).
  { rewrite zlen_enc_items by apply Hrep2. symmetry. apply Hrep2. }
  destruct (item_stores n3 s3 _ ti nm (owner_off its1 ow) k off Hwf3 Hhas3 Hti Hnm Hb3 Hoff) as
    (s4 & s5 & Hs4 & Hs5 & Hsd5). rewrite Hlen in Hs4, Hs5.
  destruct (kid_bump n3 s5 its1 ow (enc_item n3 (fresh_item ti nm (owner_off its1 ow)) ++ zeros k)) as
    (s6 & Hs6 & Hsd6); [apply Hsd5|by apply Hsd5|apply Hrep2|done|apply Hsd5|].
  pose proof (stored_trans _ _ _ _ _ Hsd5 Hsd6) as Hsd.
  assert (Hf6 : hw_frame s2 s6) by (eapply hw_frame_trans; [exact Hf3|by eapply stored_frame]).
  exists s6, n3, its1. split_and!; [| |done].
  - unfold hwi_alloc_item. rewrite (hw_bind_ok _ _ _ _ _ Hstr).
    change (align_tag (ti_align ti)) with (align_tag_with (hwi_alloc_tag_f 2) (ti_align ti)).
    rewrite (hw_bind_ok _ _ _ _ _ Hal), (hw_bind_ok current _ s2 s2 s2 eq_refl).
    rewrite (hw_bind_ok (set_last _) _ s2 tt _ eq_refl).
    change (hwi_alloc_tag ti) with (hwi_alloc_tag_f 2 ti).
    rewrite (hw_bind_ok _ _ _ _ _ Hrun), (hw_bind_ok _ _ _ _ _ Hs4), (hw_bind_ok _ _ _ _ _ Hs5).
    rewrite (hw_bind_ok _ _ _ _ _ Hs6). unfold mret, hw_ret. by rewrite (rp_offset _ _ _ _ Hrep2).
  - eapply (hw_step_trans s s2); [split; [exact Hrep2|exact Hcr2| |]|].
    + eapply names_grow_trans; [|exact Hg2]. apply Hnd.
    + eapply hw_frame_trans; [|exact Hf2]. apply Hnd.
    + eapply (rep_new_item s2 s6 n2 n3 its1 ow ti nm k n); try done.
      * apply str_off_in. by rewrite Hoff.
      * apply Hsd.
      * unfold hw_strings in *. by rewrite (sd_others _ _ _ Hsd).
      * rewrite (sd_bytes _ _ _ Hsd), enc_items_app, enc_items_one, <- app_assoc. done.
      * rewrite (sd_offset _ _ _ Hsd). done.
      * rewrite (sd_last _ _ _ Hsd). done.
      * rewrite (sd_room _ _ _ Hsd). done.
Qed.

(** C26.  [hwi_alloc_item], on a section that holds a tree of items, with an owner that is none or one of
    them and room for three tags: the section holds the same items, the last perhaps with padding, the
    owner with one kid more, and the new item at the offset returned, at a multiple of its alignment;
    sizes, names and counts in the bytes are right, and nothing but the section and the end of the
    string table changes. *)
Theorem hwi_alloc_item_correct s n names its ti nm ow :
  hw_rep s names its -> credit (3 + n) s names its -> item_ti ti -> str_ok nm -> owner_valid its ow ->
  exists s' names' its1, hwi_alloc_item ti nm (owner_off its ow) s = Ok (its_size its1, s') /\
    hw_rep s' names' (kid ow its1 ++ [mk_item ti nm (owner_off its ow) 0 [] []]) /\
    padded its its1 /\ its_size its1 mod ti_align ti = 0 /\ credit n s' names'
      (kid ow its1 ++ [mk_item ti nm (owner_off its ow) 0 [] []]) /\ hw_frame s s'.
Proof.
  intros Hrep Hcr Hti Hnm Hv.
  destruct (alloc_item_run s n names its ti nm ow Hrep Hcr Hti Hnm Hv) as (s' & names' & its1 & Hr & [R C _ F] & Hp).
  exists s', names', its1. split_and!; try done.
  pose proof (rp_aligned _ _ _ _ R) as Ha. rewrite map_app, concat_app, kid_infos in Ha.
  apply aligned_app in Ha as [_ Ha]. rewrite infos_size in Ha. apply Ha.
Qed.
End Alloc.
End Items.
