(* ===== verification/HwinfoOps.v ===== *)
(** * HwinfoOps: adding described devices and buses, and setting their tags.

    The routines that add a tag are shown, one by one, to append exactly that tag ([appends]); the
    lists of tags of each device class follow by composition.  The searches of the C library are used
    through [HwiLibcLaws]. *)

From S2P Require Import Prelude.
From S2P Require Import Sections.
From S2P Require Import Strings.
From S2P Require Import Hwinfo.
From S2P Require Import HwinfoTags.
From S2P Require Import HwinfoItems.

Section Ops.
Context {HH : HwiHeader} {HC : HwiLibc} {St : Type} `{HL : SectionLaws St}.
Context (Hh : header_ok).
Implicit Types s : hwi_state St.

(** ** Stores in a tag *)

Definition with_tag_mem (i : item) (a : list tag) (t : tag) (ms : list mem) (b : list tag) : item :=
  HwinfoTags.with_tags i (a ++ mk_tag (tg_info t) ms :: b).

(** Members of a tag may be replaced as long as the bytes agree. *)
Lemma rep_same_shape s s' names its its' k l :
  hw_mid s names its l -> map shape its' = map shape its -> map it_kids its' = map it_kids its ->
  map infos its' = map infos its -> Forall item_wf its' -> Forall (item_known names) its' -> 0 <= k ->
  st_wf (hw_sys s') -> (forall j, st_has (hw_sys s) j -> st_has (hw_sys s') j) ->
  hw_strings s' = hw_strings s ->
  hw_bytes s' = enc_items names its' ++ zeros k -> hw_offset s' = hw_offset s -> hw_last s' = hw_last s ->
  hw_mid s' names its' l.
Proof.
  intros [Hwf Hhas Hhs Ht Hkn Hits Htr Ha Hb Ho Hl] Hshape Hkids Hinf Hwf' Hkn' Hk Hw Hha Hstr Hb' Ho' Hl'.
  split; auto; try congruence.
  - intros j x Hx.
    assert (Hy : map it_kids its' !! j = Some (it_kids x)) by (by rewrite list_lookup_fmap, Hx).
    assert (Hz : map shape its' !! j = Some (shape x)) by (by rewrite list_lookup_fmap, Hx).
    rewrite Hkids, list_lookup_fmap in Hy. rewrite Hshape, list_lookup_fmap in Hz.
    destruct (its !! j) as [y|] eqn:E; [|done]. cbn in Hy, Hz. injection Hy as Hy. injection Hz as _ Hz.
    destruct (Htr j y E) as [Hown Hkid]. rewrite <- Hy, <- Hz, (item_at_shape _ _ _ Hshape), (owned_shape _ _ _ Hshape).
    split; [|done]. destruct Hown as [?|(m & Hm & He)]; [by left|]. right. exists m.
    by rewrite (item_at_shape _ _ _ Hshape).
  - by exists k.
  - rewrite Ho', Ho. symmetry. by apply its_size_shape.
Qed.

(** Where a tag is. *)
Lemma tag_bytes s names front i back a t b l :
  hw_mid s names (front ++ i :: back) l -> it_tags i = a ++ t :: b ->
  exists k, 0 <= k /\ hw_bytes s = (enc_items names front ++ enc_head names i ++ enc_tags names a) ++
      enc_tag names t ++ (enc_tags names b ++ enc_items names back ++ zeros k) /\
    zlen (enc_items names front ++ enc_head names i ++ enc_tags names a)
      = its_size front + ti_size (it_info i) + size_of a.
Proof.
  intros [_ _ _ _ _ Hits _ _ (k & Hk & Hb) _ _] Htags. exists k.
  pose proof Hits as [Hfr [Hi _]%Forall_cons]%Forall_app.
  pose proof (iw_tags _ Hi) as Hwt. rewrite Htags in Hwt. apply Forall_app in Hwt as [Hwa _].
  split_and!; [done| |].
  - rewrite Hb, enc_items_app. change (enc_items names (i :: back)) with (enc_item names i ++ enc_items names back).
    unfold enc_item. rewrite Htags, enc_tags_app. change (enc_tags names (t :: b)) with (enc_tag names t ++ enc_tags names b).
    by rewrite <- !app_assoc.
  - by rewrite !zlen_app, zlen_enc_items, zlen_enc_head, zlen_enc_tags, Z.add_assoc.
Qed.

Lemma tag_stored s names front i back a t b ms m n :
  hw_rep s names (front ++ i :: back) -> credit n s names (front ++ i :: back) ->
  it_tags i = a ++ t :: b -> mem_ok (tg_info t) m -> mem_known names m ->
  Forall (mem_ok (tg_info t)) ms -> Forall (mem_known names) ms ->
  put (enc_tag names t) (enc_mem names m) = enc_tag names (mk_tag (tg_info t) ms) ->
  exists s', store (its_size front + ti_size (it_info i) + size_of a + mem_off m) (enc_mem names m).2 s = Ok (tt, s') /\
    hw_step s s' names names (front ++ with_tag_mem i a t ms b :: back) n.
Proof.
  intros Hrep Hcr Htags Hin Hkm Hms Hkms Hput.
  pose proof Hrep as [Hwf Hhas Hhs Ht Hkn Hits Htr Ha _ Ho Hl].
  pose proof Hits as [Hfr [Hi Hbk]%Forall_cons]%Forall_app.
  pose proof Hkn as [Hkfr [[Hkh Hkt] Hkbk]%Forall_cons]%Forall_app.
  pose proof (iw_tags _ Hi) as Hwt. rewrite Htags in Hwt, Hkt.
  apply Forall_app in Hwt as [Hwa [Hw Hwb]%Forall_cons]. apply Forall_app in Hkt as [Hka [Hkt Hkb]%Forall_cons].
  set (i' := with_tag_mem i a t ms b).
  assert (Hsh : size_of (it_tags i') = size_of (it_tags i)).
  { unfold i', with_tag_mem. cbn [HwinfoTags.with_tags it_tags]. rewrite Htags, !size_of_app. done. }
  assert (Hshape : shape i' = shape i) by (unfold shape, item_size; by rewrite Hsh).
  destruct (tag_bytes s names front i back a t b _ Hrep Htags) as (k & Hk & Hb' & Hpre).
  destruct (store_run names s _ _ _ m (its_size front + ti_size (it_info i) + size_of a) Hwf Hhas Hb')
    as (s' & Hst & Hsd); [done| |].
  { rewrite zlen_enc_tag by done. apply Hin. }
  exists s'. split; [done|]. rewrite Hput in Hsd. pose proof Hsd as [Hw' Hh' Hr' Hbs' Hot' Ho' Hl'].
  assert (Hms2 : map shape (front ++ i' :: back) = map shape (front ++ i :: back))
    by (rewrite !map_app; cbn [map]; by rewrite Hshape).
  split; [| |by intros ?|by eapply stored_frame].
  - unfold hw_rep. replace (its_size (removelast (front ++ i' :: back)))
      with (its_size (removelast (front ++ i :: back))).
    2: { destruct back as [|y back] using rev_ind; [by rewrite !removelast_last|].
         rewrite !app_comm_cons, !app_assoc, !removelast_last. apply its_size_shape.
         rewrite !map_app. cbn [map]. by rewrite Hshape. }
    eapply (rep_same_shape s s' names _ _ k); try done.
    + rewrite !map_app. done.
    + rewrite !map_app. cbn [map]. do 2 f_equal. unfold infos, i', with_tag_mem. cbn. f_equal.
      rewrite Htags, !map_app. done.
    + apply Forall_app_2; [done|]. constructor; [|done]. destruct Hi as [? ? ? ? _]. split; try done.
      apply Forall_app_2; [done|]. constructor; [|done]. by split; [apply Hw|].
    + apply Forall_app_2; [done|]. constructor; [|done]. split; [done|].
      apply Forall_app_2; [done|]. constructor; [|done].
      apply Forall_cons in Hkt as [? [? _]%Forall_cons]. by do 2 (constructor; [done|]).
    + unfold hw_strings. by rewrite Hot'.
    + rewrite Hbs', enc_items_app. change (enc_items names (i' :: back)) with (enc_item names i' ++ enc_items names back).
      unfold enc_item. cbn [i' with_tag_mem HwinfoTags.with_tags it_tags]. rewrite enc_tags_app.
      change (enc_tags names (?x :: b)) with (enc_tag names x ++ enc_tags names b).
      unfold enc_head, head_mem. replace (item_size i') with (item_size i) by (unfold shape in Hshape; congruence).
      by rewrite <- !app_assoc.
  - unfold credit in *. by rewrite Hr', (its_size_shape _ _ Hms2).
Qed.

(** ** Filling the tag that was just allocated *)

Definition fills names (k : Z -> hw St unit) (ms : list mem) : Prop :=
  forall s n front i ts ti l,
    hw_rep s names (front ++ [add_tags i (ts ++ [mk_tag ti l])]) ->
    credit n s names (front ++ [add_tags i (ts ++ [mk_tag ti l])]) ->
    Forall (mem_ok ti) (l ++ ms) -> Forall (mem_known names) (l ++ ms) ->
    exists s', k (its_size (front ++ [add_tags i ts])) s = Ok (tt, s') /\
      hw_step s s' names names (front ++ [add_tags i (ts ++ [mk_tag ti (l ++ ms)])]) n.

Lemma enc_tag_snoc names ti l m :
  put (enc_tag names (mk_tag ti l)) (enc_mem names m) = enc_tag names (mk_tag ti (l ++ [m])).
Proof.
  unfold enc_tag, enc, tag_mem. cbn [tg_mem tg_info]. rewrite !app_comm_cons, map_app, puts_app. done.
Qed.

Lemma fills_store names m :
  fills names (fun tag => store (tag + mem_off m) (enc_mem names m).2) [m].
Proof.
  intros s n front i ts ti l Hrep Hcr Hin Hkn. apply Forall_app in Hin as [Hl Hm], Hkn as [Hkl Hkm].
  destruct (tag_stored s names front (add_tags i (ts ++ [mk_tag ti l])) [] (it_tags i ++ ts)
    (mk_tag ti l) [] (l ++ [m]) m n Hrep Hcr) as (s' & Hst & Hstep).
  - unfold add_tags. cbn [HwinfoTags.with_tags it_tags]. by rewrite app_assoc.
  - by apply Forall_cons in Hm as [? _].
  - by apply Forall_cons in Hkm as [? _].
  - by apply Forall_app_2.
  - by apply Forall_app_2.
  - apply enc_tag_snoc.
  - exists s'. split.
    + rewrite <- Hst. f_equal. f_equal. rewrite its_size_app, its_size_one. unfold item_size, add_tags.
      cbn [HwinfoTags.with_tags it_info it_tags]. rewrite Z.add_assoc. done.
    + unfold with_tag_mem, add_tags in *. cbn [HwinfoTags.with_tags it_info it_name it_owner it_kids
        it_mem it_tags tg_info] in *. by rewrite <- app_assoc in Hstep.
Qed.

Lemma fills_set names f v : fills names (fun tag => set tag f v) [Num f v].
Proof. exact (fills_store names (Num f v)). Qed.

Lemma fills_lit names off bs : fills names (fun tag => store (tag + off) bs) [Lit off bs].
Proof. exact (fills_store names (Lit off bs)). Qed.

Lemma fills_ref names f nm o : str_off names nm = Some o -> fills names (fun tag => set tag f o) [Ref f nm].
Proof. intros Ho. pose proof (fills_store names (Ref f nm)) as H1. cbn [enc_mem snd mem_off] in H1. by rewrite Ho in H1. Qed.

Lemma fills_seq names k1 k2 m1 m2 :
  fills names k1 m1 -> fills names k2 m2 -> fills names (fun tag => _ ← k1 tag; k2 tag) (m1 ++ m2).
Proof.
  intros H1 H2 s n front i ts ti l Hrep Hcr Hin Hkn. rewrite !app_assoc in Hin, Hkn.
  pose proof Hin as [Hin1 _]%Forall_app. pose proof Hkn as [Hkn1 _]%Forall_app.
  destruct (H1 s n front i ts ti l Hrep Hcr Hin1 Hkn1) as (s1 & Hr1 & Hst1).
  destruct (H2 s1 n front i ts ti _ (hs_rep _ _ _ _ _ _ Hst1) (hs_credit _ _ _ _ _ _ Hst1) Hin Hkn) as (s2 & Hr2 & Hst2).
  exists s2. rewrite app_assoc. split; [rewrite (hw_bind_ok _ _ _ _ _ Hr1); exact Hr2|].
  by eapply hw_step_trans.
Qed.

(** ** Appending tags *)

(** [m] appends the tags [ts] to the last item, padding aside, with [c] of the credit. *)
Definition appends (c : nat) (m : hw St unit) (ts : list tag) : Prop :=
  forall s n names front i,
    hw_rep s names (front ++ [i]) -> credit (c + n) s names (front ++ [i]) ->
    exists s' names' ts', m s = Ok (tt, s') /\
      hw_step s s' names names' (front ++ [add_tags i ts']) n /\ strip ts' = ts.

Lemma credit_less n m s names its : (m <= n)%nat -> credit n s names its -> credit m s names its.
Proof. unfold credit. lia. Qed.

Lemma strip_app a b : strip (a ++ b) = strip a ++ strip b.
Proof. apply filter_app. Qed.

Lemma appends_ret : appends 0 (mret tt) [].
Proof.
  intros s n names front i Hrep Hcr. exists s, names, []. rewrite add_tags_nil.
  split_and!; [done| |done]. split; [done|done|by intros ?|apply hw_frame_refl].
Qed.

Lemma appends_more c c' m ts : (c <= c')%nat -> appends c m ts -> appends c' m ts.
Proof.
  intros Hc Hm s n names front i Hrep Hcr.
  destruct (Hm s (c' - c + n)%nat names front i Hrep) as (s' & names' & ts' & Hr & [R C G F] & Hts).
  { by replace (c + (c' - c + n))%nat with (c' + n)%nat by lia. }
  exists s', names', ts'. split_and!; [done| |done]. split; try done. eapply credit_less; [|exact C]. lia.
Qed.

Lemma appends_seq c1 c2 m1 m2 t1 t2 :
  appends c1 m1 t1 -> appends c2 m2 t2 -> appends (c1 + c2) (_ ← m1; m2) (t1 ++ t2).
Proof.
  intros H1 H2 s n names front i Hrep Hcr. rewrite <- Nat.add_assoc in Hcr.
  destruct (H1 s _ names front i Hrep Hcr) as (s1 & n1 & ts1 & Hr1 & Hst1 & Ht1).
  destruct (H2 s1 n n1 front _ (hs_rep _ _ _ _ _ _ Hst1) (hs_credit _ _ _ _ _ _ Hst1)) as (s2 & n2 & ts2 & Hr2 & Hst2 & Ht2).
  exists s2, n2, (ts1 ++ ts2). split_and!.
  - rewrite (hw_bind_ok _ _ _ _ _ Hr1). exact Hr2.
  - rewrite <- add_tags_app. by eapply hw_step_trans.
  - by rewrite strip_app, Ht1, Ht2.
Qed.

Lemma appends_times c m t n : appends c m t -> appends (n * c) (times n m) (concat (replicate n t)).
Proof. intros Hm. induction n as [|n IH]; [apply appends_ret|]. by apply (appends_seq c (n * c)). Qed.

Lemma appends_for_up c body t n i :
  (forall j, appends c (body j) (t j)) ->
  appends (n * c) (for_up n i body) (concat (map (fun j => t (i + Z.of_nat j)) (seq 0 n))).
Proof.
  intros Hb. revert i. induction n as [|n IH]; intros i; [apply appends_ret|].
  cbn [for_up seq map concat]. apply (appends_seq c (n * c)); [by rewrite Z.add_0_r|].
  rewrite <- seq_shift, map_map.
  replace (map (fun x => t (i + Z.of_nat (S x))) (seq 0 n)) with (map (fun j => t (i + 1 + Z.of_nat j)) (seq 0 n)); [done|].
  apply map_ext. intros j. f_equal. lia.
Qed.

(** One tag, and one tag with a string. *)
Lemma appends_tag ti k ms :
  tag_ti ti -> (forall names, fills names k ms) -> Forall (mem_ok ti) ms ->
  (forall names, Forall (mem_known names) ms) ->
  appends 2 (tag ← hwi_alloc_tag ti; k tag) [mk_tag ti ms].
Proof.
  intros [Hti Hnp] Hk Hin Hkn s n names front i Hrep Hcr.
  destruct (alloc_tag_run Hh s n names front i ti Hrep Hcr Hti) as (s1 & n1 & pads & off & Hr & [R C G F] & Hp & ->).
  destruct (Hk n1 s1 n front i pads ti [] R C Hin (Hkn n1)) as (s2 & Hr2 & Hst).
  exists s2, n1, (pads ++ [mk_tag ti ms]). split_and!.
  - rewrite (hw_bind_ok _ _ _ _ _ Hr). exact Hr2.
  - eapply hw_step_trans; [|exact Hst]. by split.
  - rewrite strip_app, Hp. unfold strip. by rewrite filter_cons, decide_True.
Qed.

Lemma appends_str_tag nm ti k ms :
  str_ok nm -> tag_ti ti -> (forall names o, str_off names nm = Some o -> fills names (k o) ms) ->
  Forall (mem_ok ti) ms -> (forall names, nm ∈ names -> Forall (mem_known names) ms) ->
  appends 3 (o ← string_added nm; tag ← hwi_alloc_tag ti; k o tag) [mk_tag ti ms].
Proof.
  intros Hnm [Hti Hnp] Hk Hin Hkn s n names front i Hrep Hcr.
  destruct (rep_string s (2 + n) names _ nm _ Hrep Hcr Hnm) as (s0 & n0 & o & Hstr & Hnd).
  pose proof (rep_named _ _ _ _ _ _ _ _ Hrep Hnd) as Hrep0.
  pose proof (credit_named _ _ _ _ _ _ _ _ Hcr Hnd) as Hcr0.
  destruct (alloc_tag_run Hh s0 n n0 front i ti Hrep0 Hcr0 Hti) as (s1 & n1 & pads & off & Hr & [R C G F] & Hp & ->).
  assert (Ho : str_off n1 nm = Some o) by (apply G; apply Hnd).
  assert (Hin1 : nm ∈ n1) by (apply str_off_in; by rewrite Ho).
  destruct (Hk n1 o Ho s1 n front i pads ti [] R C Hin (Hkn n1 Hin1)) as (s2 & Hr2 & Hst).
  exists s2, n1, (pads ++ [mk_tag ti ms]). split_and!.
  - rewrite (hw_bind_ok _ _ _ _ _ Hstr), (hw_bind_ok _ _ _ _ _ Hr). exact Hr2.
  - eapply hw_step_trans; [|exact Hst]. split; [done|done| |].
    + eapply names_grow_trans; [apply Hnd|exact G].
    + eapply hw_frame_trans; [apply Hnd|exact F].
  - rewrite strip_app, Hp. unfold strip. by rewrite filter_cons, decide_True.
Qed.

(** ** The tags of devices and buses *)

Definition tag_fields : list (tag_info * list field) :=
  [(t_location, [location_base; location_len; location_regshift; location_addrspace]);
   (t_irq, [irq_vector]); (t_irqrange, [irqrange_irq; irqrange_num]);
   (t_inputclk, [inputclk_clk; inputclk_div]); (t_nicphyaddr, [nicphyaddr_addr]);
   (t_regname, [regname_regname; regname_offset]);
   (t_busattr, [busattr_speed; busattr_width; busattr_addr; busattr_flags]);
   (t_errata, [errata_num]); (t_dma, [dma_chnl]); (t_dll, [dll_name]); (t_optstr, [optstr_string])].

Definition fd_ok (ti : tag_info) (f : field) : Prop := mem_ok ti (Num f 0).

(** The structures of <hw/sysinfo.h>: members lie inside, those of items beside the header's. *)
Record tags_ok : Prop := {
  to_fields : Forall (fun e => tag_ti e.1 /\ Forall (fd_ok e.1) e.2) tag_fields;
  to_items : Forall item_ti [t_group; t_bus; t_device; t_synonym];
  to_pnpid : fd_in (ti_size t_device) device_pnpid /\
    Forall (fun f => mem_apart (Num device_pnpid 0) (Num f 0)) hdr_fields;
  to_nicaddr : tag_ti (nicaddr_info 6) /\ fd_ok (nicaddr_info 6) nicaddr_len /\
    mem_ok (nicaddr_info 6) (Lit nicaddr_addr (zeros 6));
  to_names : Forall str_ok [ITEM_ROOT_HW; ITEM_BUS_UNKNOWN; ITEM_BUS_CAN; ITEM_BUS_I2C; ITEM_BUS_PCI;
    ITEM_BUS_SDIO; ITEM_BUS_SPI; ITEM_BUS_USB]
}.
Context (Ht : tags_ok).

Definition nums (fs : list field) (vs : list Z) : list mem := zip_with Num fs vs.

Definition location_tag base len rs as_ : tag :=
  mk_tag t_location [Num location_base base; Num location_len len; Num location_regshift rs;
                     Num location_addrspace as_].
Definition irq_tag v : tag := mk_tag t_irq [Num irq_vector v].
Definition irqrange_tag v n : tag := mk_tag t_irqrange [Num irqrange_irq v; Num irqrange_num n].
Definition inputclk_tag c d : tag := mk_tag t_inputclk [Num inputclk_clk c; Num inputclk_div d].
Definition nicaddr_tag mac : tag :=
  mk_tag (nicaddr_info 6) [Num nicaddr_len 6; Lit nicaddr_addr (slice mac 0 6)].
Definition nicphyaddr_tag a : tag := mk_tag t_nicphyaddr [Num nicphyaddr_addr a].
Definition regname_tag nm o : tag := mk_tag t_regname [Ref regname_regname nm; Num regname_offset o].
Definition busattr_tag (a : busattr) : tag :=
  mk_tag t_busattr [Num busattr_speed (bt_speed a); Num busattr_width (bt_width a);
                    Num busattr_addr (bt_addr a); Num busattr_flags (bt_flags a)].
Definition errata_tag n : tag := mk_tag t_errata [Num errata_num n].
Definition dma_tag c : tag := mk_tag t_dma [Num dma_chnl c].
Definition dll_tag nm : tag := mk_tag t_dll [Ref dll_name nm].
Definition optstr_tag nm : tag := mk_tag t_optstr [Ref optstr_string nm].

Lemma field_facts ti fs : (ti, fs) ∈ tag_fields -> tag_ti ti /\ Forall (fd_ok ti) fs.
Proof. intros Hin. destruct Ht as [Hf _ _ _ _]. rewrite Forall_forall in Hf. exact (Hf _ Hin). Qed.

Lemma nums_in ti fs vs : Forall (fd_ok ti) fs -> Forall (mem_ok ti) (nums fs vs).
Proof. intros Hf. revert vs. induction Hf as [|f fs Hx _ IH]; intros [|v vs]; constructor; [exact Hx|apply IH]. Qed.

(** Each routine, from the table and the shape of its stores. *)
Tactic Notation "one_tag" constr(ti) constr(fs) constr(vs) integer(k) :=
  let Hti := fresh in let Hf := fresh in
  destruct (field_facts ti fs ltac:(unfold tag_fields; set_solver)) as [Hti Hf];
  refine (appends_tag ti _ _ Hti _ (nums_in _ fs vs Hf) _);
  [intros names; do k refine (fills_seq names _ _ [_] _ (fills_set names _ _) _); refine (fills_set names _ _)
  |intros names; repeat constructor].

Lemma location_appends b l r a : appends 2 (hwitag_add_location b l r a) [location_tag b l r a].
Proof. one_tag t_location [location_base; location_len; location_regshift; location_addrspace] [b; l; r; a] 3. Qed.

Lemma irq_appends v : appends 2 (hwitag_add_irq v) [irq_tag v].
Proof. one_tag t_irq [irq_vector] [v] 0. Qed.

Lemma irqrange_appends v n : appends 2 (hwitag_add_irqrange v n) [irqrange_tag v n].
Proof. one_tag t_irqrange [irqrange_irq; irqrange_num] [v; n] 1. Qed.

Lemma inputclk_appends c d : appends 2 (hwitag_add_inputclk c d) [inputclk_tag c d].
Proof. one_tag t_inputclk [inputclk_clk; inputclk_div] [c; d] 1. Qed.

Lemma nicphyaddr_appends a : appends 2 (hwitag_add_nicphyaddr a) [nicphyaddr_tag a].
Proof. one_tag t_nicphyaddr [nicphyaddr_addr] [a] 0. Qed.

Lemma busattr_appends o :
  appends 2 (hwitag_add_busattr o) [busattr_tag (default (mk_battr 0 0 0 0) o)].
Proof.
  destruct o as [a|];
    [one_tag t_busattr [busattr_speed; busattr_width; busattr_addr; busattr_flags] [bt_speed a; bt_width a; bt_addr a; bt_flags a] 3
    |one_tag t_busattr [busattr_speed; busattr_width; busattr_addr; busattr_flags] [0; 0; 0; 0] 3].
Qed.

Lemma errata_appends n : appends 2 (hwitag_add_errata n) [errata_tag n].
Proof. one_tag t_errata [errata_num] [n] 0. Qed.

Lemma dma_appends c : appends 2 (hwitag_add_dma c) [dma_tag c].
Proof. one_tag t_dma [dma_chnl] [c] 0. Qed.

Lemma nicaddr_appends mac : zlen mac = 6 -> appends 2 (hwitag_add_nicaddr mac 6) [nicaddr_tag mac].
Proof.
  intros Hm. destruct Ht as [_ _ _ (Hti & Hl & Ha) _].
  assert (Hs : zlen (slice mac 0 6) = 6)
    by (unfold slice, zlen in *; rewrite length_take, length_drop; lia).
  refine (appends_tag _ _ _ Hti _ _ _).
  - intros names. refine (fills_seq names _ _ [_] _ (fills_set names _ _) _). apply fills_lit.
  - constructor; [exact Hl|]. constructor; [|constructor]. unfold mem_ok, mem_in, mem_apart in *.
    cbn [mem_off mem_len] in *. rewrite Hs. exact Ha.
  - intros names. repeat constructor.
Qed.

Ltac string_tag nm ti f :=
  destruct (field_facts ti [f] ltac:(unfold tag_fields; set_solver)) as [? [? _]%Forall_cons];
  refine (appends_str_tag nm ti _ _ _ _ _ _ _);
  [done|done|intros names o Ho; by apply fills_ref|by constructor|intros names Hknown; by constructor].

Lemma dll_appends nm : str_ok nm -> appends 3 (hwitag_add_dll nm) [dll_tag nm].
Proof. intros Hn. string_tag nm t_dll dll_name. Qed.

Lemma optstr_appends nm : str_ok nm -> appends 3 (hwitag_add_optstr nm) [optstr_tag nm].
Proof. intros Hn. string_tag nm t_optstr optstr_string. Qed.

Lemma regname_appends nm o : str_ok nm -> appends 3 (hwitag_add_regname nm o) [regname_tag nm o].
Proof.
  intros Hn. destruct (field_facts t_regname [regname_regname; regname_offset]) as [Hti Hf];
    [unfold tag_fields; set_solver|].
  apply Forall_cons in Hf as [H1 [H2 _]%Forall_cons].
  refine (appends_str_tag nm t_regname _ _ Hn Hti _ _ _).
  - intros names x Hx. refine (fills_seq names _ _ [_] _ (fills_ref names _ _ _ Hx) (fills_set names _ _)).
  - by do 2 (constructor; [done|]).
  - intros names Hin. by do 2 (constructor; [done|]).
Qed.

Definition if_str (o : option (list Z)) (f : list Z -> tag) : list tag :=
  match o with Some nm => [f nm] | None => [] end.
Definition opt_ok (o : option (list Z)) : Prop := match o with Some nm => str_ok nm | None => True end.

Lemma appends_if_given o f t :
  opt_ok o -> (forall nm, str_ok nm -> appends 3 (f nm) [t nm]) -> appends 3 (if_given o f) (if_str o t).
Proof. intros Ho Hf. destruct o as [nm|]; [by apply Hf|]. apply (appends_more 0); [lia|]. apply appends_ret. Qed.

Lemma concat_replicate_one {A} (x : A) n : concat (replicate n [x]) = replicate n x.
Proof. induction n as [|n IH]; [done|]. cbn. by rewrite IH. Qed.

Lemma times_appends n m t : appends 2 m [t] -> appends (n * 2) (times n m) (replicate n t).
Proof. intros Hm. rewrite <- concat_replicate_one. by apply appends_times. Qed.

Lemma for_up_appends n i body t :
  (forall j, appends 2 (body j) [t]) -> appends (n * 2) (for_up n i body) (replicate n t).
Proof.
  intros Hb. revert i. induction n as [|n IH]; intros i; [apply appends_ret|].
  by apply (appends_seq 2 (n * 2) _ _ [t]).
Qed.

Definition common_tags (a : common_attr) : list tag :=
  location_tag (at_base a) (at_len a) (at_regshift a) (at_addrspace a) ::
  replicate (Z.to_nat (at_num_irq a)) (irq_tag HWI_ILLEGAL_VECTOR) ++
  if_str (at_dll a) dll_tag ++ if_str (at_optstr a) optstr_tag ++
  replicate (Z.to_nat (at_num_errata a)) (errata_tag 0) ++
  replicate (Z.to_nat (at_num_dma a)) (dma_tag 0).
Definition common_ok (a : common_attr) : Prop := opt_ok (at_dll a) /\ opt_ok (at_optstr a).
Definition common_cost (a : common_attr) : nat :=
  2 + (Z.to_nat (at_num_irq a) * 2 + (3 + (3 + (Z.to_nat (at_num_errata a) * 2 + Z.to_nat (at_num_dma a) * 2)))).

Lemma common_appends a : common_ok a -> appends (common_cost a) (hwitag_add_common a) (common_tags a).
Proof.
  intros [Hd Ho]. unfold hwitag_add_common, common_cost.
  apply (appends_seq 2 _ _ _ [_]); [apply location_appends|].
  apply appends_seq; [apply times_appends, irq_appends|].
  apply appends_seq; [by apply appends_if_given; [|apply dll_appends]|].
  apply appends_seq; [by apply appends_if_given; [|apply optstr_appends]|].
  apply appends_seq; [apply times_appends, errata_appends|]. apply times_appends, dma_appends.
Qed.

Lemma clocks_appends n :
  appends (Z.to_nat n * 2) (input_clocks n) (replicate (Z.to_nat n) (inputclk_tag 0 1)).
Proof. apply for_up_appends. intros j. apply inputclk_appends. Qed.

Lemma busattrs_appends n :
  appends (Z.to_nat n * 2) (bus_attributes n) (replicate (Z.to_nat n) (busattr_tag (mk_battr 0 0 0 0))).
Proof. apply for_up_appends. intros j. apply (busattr_appends None). Qed.

Lemma phys_appends n :
  appends (n * 2) (for_up n 0 hwitag_add_nicphyaddr) (map (fun j => nicphyaddr_tag (Z.of_nat j)) (seq 0 n)).
Proof.
  assert (He : forall l : list nat, concat (map (fun j => [nicphyaddr_tag (0 + Z.of_nat j)]) l)
    = map (fun j => nicphyaddr_tag (Z.of_nat j)) l).
  { induction l as [|j l IH]; [done|]. cbn [map concat app]. rewrite IH. done. }
  rewrite <- He. exact (appends_for_up 2 _ (fun j => [nicphyaddr_tag j]) n 0 nicphyaddr_appends).
Qed.

(** The tags of an Ethernet device; an address of zeros is not given. *)
Definition enet_tags (a : enet_attr) : list tag :=
  common_tags (en_common a) ++
  map (fun j => nicphyaddr_tag (Z.of_nat j)) (seq 0 (Z.to_nat (en_num_phys a))) ++
  replicate (Z.to_nat (en_num_clks a)) (inputclk_tag 0 1) ++
  (if bool_decide (en_mac a = zeros 6) then [] else [nicaddr_tag (en_mac a)]).
Definition enet_cost (a : enet_attr) : nat :=
  common_cost (en_common a) + (Z.to_nat (en_num_phys a) * 2 + (Z.to_nat (en_num_clks a) * 2 + 2)).
Definition enet_ok (a : enet_attr) : Prop := common_ok (en_common a) /\ zlen (en_mac a) = 6.

Lemma enet_appends a : enet_ok a ->
  appends (enet_cost a) (_ ← hwitag_add_common (en_common a);
    _ ← for_up (Z.to_nat (en_num_phys a)) 0 hwitag_add_nicphyaddr;
    _ ← input_clocks (en_num_clks a);
    if bool_decide (en_mac a = zeros 6) then mret tt else hwitag_add_nicaddr (en_mac a) 6) (enet_tags a).
Proof.
  intros [Hc Hm]. apply appends_seq; [by apply common_appends|].
  apply appends_seq; [apply phys_appends|]. apply appends_seq; [apply clocks_appends|].
  case_bool_decide; [apply (appends_more 0); [lia|apply appends_ret]|by apply nicaddr_appends].
Qed.

(** ** Adding items *)

Lemma item_stored s names front i m n :
  hw_rep s names (front ++ [i]) -> credit n s names (front ++ [i]) ->
  mem_in (ti_size (it_info i)) m -> mem_known names m ->
  Forall (fun f => mem_apart m (Num f 0)) hdr_fields ->
  exists s', store (its_size front + mem_off m) (enc_mem names m).2 s = Ok (tt, s') /\
    hw_step s s' names names (front ++ [HwinfoTags.with_mem i (it_mem i ++ [m])]) n.
Proof.
  intros Hrep Hcr Hin Hkm Hap.
  pose proof Hrep as [Hwf Hhas Hhs Htab Hkn Hits Htr Ha (k & Hk & Hb) Ho Hl].
  pose proof Hits as [Hfr [Hi _]%Forall_cons]%Forall_app.
  pose proof Hkn as [Hkfr [[Hkh Hkt] _]%Forall_cons]%Forall_app.
  rewrite enc_items_app, enc_items_one in Hb. unfold enc_item in Hb. rewrite <- !app_assoc in Hb.
  destruct (store_run names s _ _ _ m (its_size front) Hwf Hhas Hb) as (s' & Hst & Hsd);
    [by rewrite zlen_enc_items|by rewrite zlen_enc_head|].
  exists s'. split; [done|]. set (i' := HwinfoTags.with_mem i (it_mem i ++ [m])).
  assert (Hput : put (enc_head names i) (enc_mem names m) = enc_head names i').
  { unfold enc_head, enc, head_mem, own_mem. cbn [i' HwinfoTags.with_mem it_info it_name it_owner it_kids it_mem it_tags].
    change (item_size i') with (item_size i). rewrite !app_comm_cons, map_app, puts_app. done. }
  rewrite Hput in Hsd. pose proof Hsd as [Hw' Hh' Hr' Hbs' Hot' Ho' Hl'].
  assert (Hsh : map shape (front ++ [i']) = map shape (front ++ [i])) by (by rewrite !map_app).
  split; [| |by intros ?|by eapply stored_frame].
  - unfold hw_rep in *. rewrite removelast_last in *.
    eapply (rep_same_shape s s' names _ _ k); try done.
    + by rewrite !map_app.
    + by rewrite !map_app.
    + apply Forall_app_2; [done|]. constructor; [|done]. destruct Hi as [? ? Hm Hap' ?].
      split; try done; apply Forall_app_2; try done; by constructor.
    + apply Forall_app_2; [done|]. constructor; [|done]. split; [|done].
      unfold own_mem in *. cbn [i' HwinfoTags.with_mem it_info it_name it_owner it_kids it_mem].
      rewrite !app_comm_cons. apply Forall_app_2; [done|by constructor].
    + unfold hw_strings. by rewrite Hot'.
    + rewrite Hbs', enc_items_app, enc_items_one. unfold enc_item. by rewrite <- !app_assoc.
  - unfold credit in *. by rewrite Hr', (its_size_shape _ _ Hsh).
Qed.

Definition device_item dn owner pnp : item := mk_item t_device dn owner 0 [Num device_pnpid pnp] [].

Lemma item_tis ti : ti ∈ [t_group; t_bus; t_device; t_synonym] -> item_ti ti.
Proof. intros Hin. destruct Ht as [_ Hi _ _ _]. rewrite Forall_forall in Hi. by apply Hi. Qed.

Lemma owner_not_null its b : Forall item_wf its -> (item_at its b =? HWI_NULL_OFF) = false.
Proof. intros Hw. apply Z.eqb_neq. intros He. by destruct (null_no_item Hh its b Hw). Qed.

Lemma hwidev_add_run s n names its dn pnp b :
  hw_rep s names its -> credit (S (S (S n))) s names its -> str_ok dn -> (b < length its)%nat ->
  exists s' names' its1, hwidev_add dn pnp (item_at its b) s = Ok (its_size its1, s') /\
    hw_step s s' names names' (kid (Some b) its1 ++ [device_item dn (item_at its b) pnp]) n /\ padded its its1.
Proof.
  intros Hrep Hcr Hdn Hb. destruct Ht as [_ _ [Hpin Hpap] _ _].
  destruct (alloc_item_run Hh s n names its t_device dn (Some b) Hrep Hcr) as (s1 & n1 & its1 & Hr & [R C G F] & Hp);
    [apply item_tis; set_solver|done|done|].
  cbn [owner_off] in *.
  destruct (item_stored s1 n1 _ _ (Num device_pnpid pnp) n R C Hpin I Hpap) as (s2 & Hst & Hstep).
  assert (Hks : its_size (kid (Some b) its1) = its_size its1) by apply its_size_shape, kid_shape.
  exists s2, n1, its1. split_and!; [| |done].
  - unfold hwidev_add. rewrite owner_not_null by apply Hrep. rewrite (hw_bind_ok (mret _) _ s _ s eq_refl).
    rewrite owner_not_null by apply Hrep. rewrite (hw_bind_ok _ _ _ _ _ Hr).
    rewrite Hks in Hst. rewrite (hw_bind_ok _ _ _ _ _ Hst). done.
  - eapply hw_step_trans; [|exact Hstep]. by split.
Qed.

Lemma hwibus_add_run s n names its bn b :
  hw_rep s names its -> credit (S (S (S n))) s names its -> str_ok bn -> (b < length its)%nat ->
  exists s' names' its1, hwibus_add bn (item_at its b) s = Ok (its_size its1, s') /\
    hw_step s s' names names' (kid (Some b) its1 ++ [fresh_item t_bus bn (item_at its b)]) n /\ padded its its1.
Proof.
  intros Hrep Hcr Hbn Hb. unfold hwibus_add. rewrite owner_not_null by apply Hrep.
  rewrite (hw_bind_ok (mret _) _ s _ s eq_refl), owner_not_null by apply Hrep.
  apply (alloc_item_run Hh s n names its t_bus bn (Some b)); [done..|apply item_tis; set_solver|done|done].
Qed.

(** ** Described devices and buses *)

(** What adding a described item does: the item after the others, with the tags of its class. *)
Definition describes s names its (b : nat) (it : item) (tags : list tag) (n : nat) (m : hw St Z) : Prop :=
  exists s' names' its1 ts, m s = Ok (its_size its1, s') /\
    hw_step s s' names names' (kid (Some b) its1 ++ [HwinfoTags.with_tags it ts]) n /\
    padded its its1 /\ strip ts = tags.

Lemma described_run {A} s n names its b it (m : hw St Z) (a : A) tags c ts s1 n1 its1 :
  m s = Ok (its_size its1, s1) -> hw_step s s1 names n1 (kid (Some b) its1 ++ [it]) (c + n) ->
  padded its its1 -> it_tags it = [] -> appends c (tags a) ts ->
  describes s names its b it ts n (off ← m; described off (Some a) tags).
Proof.
  intros Hm [R C G F] Hp Hnone Ha.
  assert (Hnn : (its_size its1 =? HWI_NULL_OFF) = false).
  { pose proof (rp_items _ _ _ _ R) as [Hw _]%Forall_app.
    rewrite <- (its_size_shape _ _ (kid_shape (Some b) its1)), <- item_at_end. by apply owner_not_null. }
  destruct (Ha s1 n n1 _ it R C) as (s2 & n2 & ts2 & Hr2 & Hst & Hts).
  exists s2, n2, its1, ts2. split_and!; try done.
  - rewrite (hw_bind_ok _ _ _ _ _ Hm). unfold described.
    rewrite Hnn, (hw_bind_ok _ _ _ _ _ Hr2). done.
  - eapply hw_step_trans; [by split|]. unfold add_tags in Hst. by rewrite Hnone in Hst.
Qed.

Lemma device_run {A} s n names its dn pnp b (a : A) tags c ts :
  hw_rep s names its -> credit (3 + (c + n)) s names its -> str_ok dn -> (b < length its)%nat ->
  appends c (tags a) ts ->
  describes s names its b (device_item dn (item_at its b) pnp) ts n
    (off ← hwidev_add dn pnp (item_at its b); described off (Some a) tags).
Proof.
  intros Hrep Hcr Hdn Hb Ha.
  destruct (hwidev_add_run s (c + n) names its dn pnp b Hrep Hcr Hdn Hb) as (s1 & n1 & its1 & Hr & Hst & Hp).
  by eapply described_run.
Qed.

Lemma bus_run {A} s n names its bn b (a : A) tags c ts :
  hw_rep s names its -> credit (3 + (c + n)) s names its -> str_ok bn -> (b < length its)%nat ->
  appends c (tags a) ts ->
  describes s names its b (fresh_item t_bus bn (item_at its b)) ts n
    (off ← hwibus_add bn (item_at its b); described off (Some a) tags).
Proof.
  intros Hrep Hcr Hbn Hb Ha.
  destruct (hwibus_add_run s (c + n) names its bn b Hrep Hcr Hbn Hb) as (s1 & n1 & its1 & Hr & Hst & Hp).
  by eapply described_run.
Qed.

Lemma name_of bn : bn ∈ [ITEM_ROOT_HW; ITEM_BUS_UNKNOWN; ITEM_BUS_CAN; ITEM_BUS_I2C; ITEM_BUS_PCI;
    ITEM_BUS_SDIO; ITEM_BUS_SPI; ITEM_BUS_USB] -> str_ok bn.
Proof. intros Hin. destruct Ht as [_ _ _ _ Hn]. rewrite Forall_forall in Hn. by apply Hn. Qed.

(** The other classes, each with its list of tags. *)
Definition rtc_tags (a : rtc_attr) : list tag :=
  common_tags (rt_common a) ++ if_str (rt_name a) (fun nm => regname_tag nm (rt_offset a)).
Definition clock_tags (a : clock_attr) : list tag :=
  common_tags (ck_common a) ++ replicate (Z.to_nat (ck_num_clks a)) (inputclk_tag 0 1).
Definition can_tags (a : can_attr) : list tag :=
  common_tags (ca_common a) ++ replicate (Z.to_nat (ca_num_clks a)) (inputclk_tag 0 1) ++
  replicate (Z.to_nat (ca_num_memaddr a)) (location_tag 0 0 0 0).
Definition bus_tags (a : bus_attr) : list tag :=
  common_tags (ba_common a) ++ replicate (Z.to_nat (ba_num_clks a)) (inputclk_tag 0 1) ++
  replicate (Z.to_nat (ba_num_busattr a)) (busattr_tag (mk_battr 0 0 0 0)).
Definition pci_tags (a : pci_attr) : list tag :=
  common_tags (pc_common a) ++
  replicate (Z.to_nat (pc_num_irqblks a)) (irqrange_tag HWI_ILLEGAL_VECTOR 0) ++
  replicate (Z.to_nat (pc_num_busattr a)) (busattr_tag (mk_battr 0 0 0 0)).

Section Classes.
Context (s : hwi_state St) (n : nat) (names : list (list Z)) (its : list item) (b : nat).
Context (Hrep : hw_rep s names its) (Hb : (b < length its)%nat).
Let parent : Z := item_at its b.

Lemma enet_describes dn a :
  credit (3 + (enet_cost a + n)) s names its -> str_ok dn -> enet_ok a ->
  describes s names its b (device_item dn parent hwi_devclass_ENET) (enet_tags a) n
    (hwidev_add_enet dn (Some a) parent).
Proof. intros. apply (device_run s n names its dn _ b a _ (enet_cost a)); try done. by apply enet_appends. Qed.

Lemma rtc_describes dn a :
  credit (3 + (common_cost (rt_common a) + 3 + n)) s names its -> str_ok dn ->
  common_ok (rt_common a) -> opt_ok (rt_name a) ->
  describes s names its b (device_item dn parent hwi_devclass_RTC) (rtc_tags a) n
    (hwidev_add_rtc dn (Some a) parent).
Proof.
  intros. apply (device_run s n names its dn _ b a _ (common_cost (rt_common a) + 3)); try done.
  apply appends_seq; [by apply common_appends|]. apply appends_if_given; [done|].
  intros. by apply regname_appends.
Qed.

Lemma clock_describes dn a cls add :
  (add = hwidev_add_timer /\ cls = hwi_devclass_TIMER) \/ (add = hwidev_add_uart /\ cls = hwi_devclass_UART) ->
  credit (3 + (common_cost (ck_common a) + Z.to_nat (ck_num_clks a) * 2 + n)) s names its -> str_ok dn ->
  common_ok (ck_common a) ->
  describes s names its b (device_item dn parent cls) (clock_tags a) n (add dn (Some a) parent).
Proof.
  intros [[-> ->]|[-> ->]] Hcr Hdn Hok;
    (apply (device_run s n names its dn _ b a _ (common_cost (ck_common a) + Z.to_nat (ck_num_clks a) * 2)); try done;
     apply appends_seq; [by apply common_appends|apply clocks_appends]).
Qed.

Lemma dma_describes dn a :
  credit (3 + (common_cost a + n)) s names its -> str_ok dn -> common_ok a ->
  describes s names its b (device_item dn parent hwi_devclass_DMA) (common_tags a) n
    (hwidev_add_dma dn (Some a) parent).
Proof. intros. apply (device_run s n names its dn _ b a _ (common_cost a)); try done. by apply common_appends. Qed.

Lemma can_describes a :
  credit (3 + (common_cost (ca_common a) + (Z.to_nat (ca_num_clks a) * 2 + Z.to_nat (ca_num_memaddr a) * 2) + n))
    s names its -> common_ok (ca_common a) ->
  describes s names its b (fresh_item t_bus ITEM_BUS_CAN parent) (can_tags a) n (hwibus_add_can parent (Some a)).
Proof.
  intros. eapply bus_run; [done|eassumption|apply name_of; set_solver|done|].
  apply appends_seq; [by apply common_appends|]. apply appends_seq; [apply clocks_appends|].
  apply for_up_appends. intros. apply location_appends.
Qed.

Lemma bus_describes bn a :
  bn ∈ [ITEM_BUS_I2C; ITEM_BUS_SDIO; ITEM_BUS_SPI] ->
  credit (3 + (common_cost (ba_common a) + (Z.to_nat (ba_num_clks a) * 2 + Z.to_nat (ba_num_busattr a) * 2) + n))
    s names its -> common_ok (ba_common a) ->
  describes s names its b (fresh_item t_bus bn parent) (bus_tags a) n (clocked_bus bn parent (Some a)).
Proof.
  intros. eapply bus_run; [done|eassumption|apply name_of; set_solver|done|].
  apply appends_seq; [by apply common_appends|]. apply appends_seq; [apply clocks_appends|apply busattrs_appends].
Qed.

Lemma pci_describes a :
  credit (3 + (common_cost (pc_common a) + (Z.to_nat (pc_num_irqblks a) * 2 + Z.to_nat (pc_num_busattr a) * 2) + n))
    s names its -> common_ok (pc_common a) ->
  describes s names its b (fresh_item t_bus ITEM_BUS_PCI parent) (pci_tags a) n (hwibus_add_pci parent (Some a)).
Proof.
  intros. eapply bus_run; [done|eassumption|apply name_of; set_solver|done|].
  apply appends_seq; [by apply common_appends|]. apply appends_seq; [|apply busattrs_appends].
  apply for_up_appends. intros. apply irqrange_appends.
Qed.

Lemma usb_describes a :
  credit (3 + (common_cost a + n)) s names its -> common_ok a ->
  describes s names its b (fresh_item t_bus ITEM_BUS_USB parent) (common_tags a) n (hwibus_add_usb parent (Some a)).
Proof.
  intros. eapply bus_run; [done|eassumption|apply name_of; set_solver|done|]. by apply common_appends.
Qed.
End Classes.

(** [hwi_default]: the root of the tree and the bus of devices with none. *)
Lemma hwi_default_run s n names :
  hw_rep s names [] -> credit (3 + (3 + n)) s names [] ->
  exists s' names' pads, hwi_default s = Ok (tt, s') /\ strip pads = [] /\
    hw_step s s' names names'
      [mk_item t_group ITEM_ROOT_HW HWI_NULL_OFF 1 [] pads; fresh_item t_bus ITEM_BUS_UNKNOWN 0] n.
Proof.
  intros Hrep Hcr.
  destruct (alloc_item_run Hh s (3 + n) names [] t_group ITEM_ROOT_HW None Hrep Hcr) as
    (s1 & n1 & its1 & Hr1 & [R1 C1 G1 F1] & Hp1); [apply item_tis; set_solver|apply name_of; set_solver|done|].
  assert (its1 = []) as -> by (by apply length_zero_iff_nil, (padded_length _ _ Hp1)).
  cbn [owner_off kid app] in *. set (root := fresh_item t_group ITEM_ROOT_HW HWI_NULL_OFF) in *.
  destruct (alloc_item_run Hh s1 n n1 [root] t_bus ITEM_BUS_UNKNOWN (Some 0%nat) R1 C1) as
    (s2 & n2 & its2 & Hr2 & Hst & Hp2); [apply item_tis; set_solver|apply name_of; set_solver|cbn; lia|].
  cbn [owner_off] in *. change (item_at [root] 0) with 0 in *.
  assert (exists pads, strip pads = [] /\ its2 = [add_tags root pads]) as (pads & Hpads & ->).
  { remember [root] as l eqn:El. destruct Hp2 as [l|front i pads Hp].
    - exists []. by rewrite add_tags_nil.
    - destruct front as [|? [|]]; try done. cbn in El. injection El as ->. by exists pads. }
  exists s2, n2, pads. split_and!; [|done|eapply hw_step_trans; [|exact Hst]; by split].
  unfold hwi_default. rewrite (hw_bind_ok _ _ _ _ _ Hr1). change (its_size []) with 0.
  rewrite (hw_bind_ok _ _ _ _ _ Hr2). done.
Qed.

(** C27.  [hwidev_add_enet] on a bus that exists: the device is the last item, owned by the bus, with its
    class and exactly the tags of its attributes in the documented order -- location, interrupts, DLL,
    options, errata, DMA channels, PHYs with addresses from 0, clocks, and the MAC address unless it is
    zero -- padding aside; the bus has one kid more and the offset of the device is returned. *)
Theorem hwidev_add_enet_correct s n names its b dn a :
  hw_rep s names its -> (b < length its)%nat -> credit (3 + (enet_cost a + n)) s names its ->
  str_ok dn -> enet_ok a ->
  exists s' names' its1 ts, hwidev_add_enet dn (Some a) (item_at its b) s = Ok (its_size its1, s') /\
    hw_rep s' names' (kid (Some b) its1 ++
      [mk_item t_device dn (item_at its b) 0 [Num device_pnpid hwi_devclass_ENET] ts]) /\
    strip ts = enet_tags a /\ padded its its1 /\ hw_frame s s'.
Proof.
  intros Hrep Hb Hcr Hdn Hok.
  destruct (enet_describes s n names its b Hrep Hb dn a Hcr Hdn Hok) as (s' & names' & its1 & ts & Hr & [R _ _ F] & Hp & Hts).
  by exists s', names', its1, ts.
Qed.
End Ops.
