(* ===== verification/HwinfoSet.v ===== *)
(** * HwinfoSet: finding items and setting the tags of devices.

    [HwiLibcLaws] is what the documentation of the C library says of its two searches, in terms of the
    list of items; with it the routines that fill in the placeholder tags are shown to change exactly
    the tag they name. *)

From S2P Require Import Prelude.
From S2P Require Import Sections.
From S2P Require Import Strings.
From S2P Require Import Hwinfo.
From S2P Require Import HwinfoTags.
From S2P Require Import HwinfoItems.
From S2P Require Import HwinfoOps.

(** The [idx]-th of the tags with a name: the tags before it, itself, and those after it. *)
Fixpoint nth_tag (nm : list Z) (idx : nat) (ts : list tag) : option (list tag * tag * list tag) :=
  match ts with
  | [] => None
  | t :: r =>
      let next k := '(a, x, b) ← nth_tag nm k r; Some (t :: a, x, b) in
      if decide (ti_name (tg_info t) = nm)
      then match idx with O => Some ([], t, r) | S k => next k end
      else next idx
  end.

Lemma nth_tag_split nm idx ts a t b :
  nth_tag nm idx ts = Some (a, t, b) ->
  ts = a ++ t :: b /\ ti_name (tg_info t) = nm /\
  length (filter (fun x => ti_name (tg_info x) = nm) a) = idx.
Proof.
  revert idx a; induction ts as [|x r IH]; intros idx a; [done|]. cbn [nth_tag].
  case_decide as Hn.
  - destruct idx as [|k].
    + intros [= <- <- <-]. done.
    + destruct (nth_tag nm k r) as [[[a' t'] b']|] eqn:E; [|done]. cbn. intros [= <- <- <-].
      destruct (IH _ _ E) as (-> & ? & Hl). split_and!; [done|done|].
      rewrite filter_cons, decide_True by done. cbn. by rewrite Hl.
  - destruct (nth_tag nm idx r) as [[[a' t'] b']|] eqn:E; [|done]. cbn. intros [= <- <- <-].
    destruct (IH _ _ E) as (-> & ? & Hl). split_and!; [done|done|].
    by rewrite filter_cons, decide_False.
Qed.

(** The item is named by the last name of the path, its owner by the one before, and so on. *)
Fixpoint on_path (its : list item) (j : nat) (rpath : list (list Z)) : Prop :=
  match rpath with
  | [] => False
  | nm :: r => exists i, its !! j = Some i /\ it_name i = nm /\
      (r = [] \/ exists k, (k < length its)%nat /\ it_owner i = item_at its k /\ on_path its k r)
  end.

Section Set_.
Context {HH : HwiHeader} {HC : HwiLibc}.

Definition is_first (P : nat -> Prop) (j : nat) : Prop := P j /\ forall k, (k < j)%nat -> ~ P k.

(** The searches, on any section that holds items and within the range of the offsets. *)
Class HwiLibcLaws : Prop := {
  ll_find : forall bytes strings names its k path,
    strtab strings names -> Forall item_wf its -> Forall (item_known names) its -> tree_ok its ->
    0 <= k -> bytes = enc_items names its ++ zeros k -> its_size its <= 2 ^ 16 -> zlen (flat names) <= 2 ^ 16 ->
    (exists j, is_first (fun j => on_path its j (rev path)) j /\
       hwi_find_item bytes strings HWI_NULL_OFF path = item_at its j) \/
    ((forall j, ~ on_path its j (rev path)) /\ hwi_find_item bytes strings HWI_NULL_OFF path = HWI_NULL_OFF);
  ll_tag : forall bytes strings names its k j i nm idx,
    strtab strings names -> Forall item_wf its -> Forall (item_known names) its -> tree_ok its ->
    0 <= k -> bytes = enc_items names its ++ zeros k -> its_size its <= 2 ^ 16 -> zlen (flat names) <= 2 ^ 16 ->
    its !! j = Some i -> str_ok nm -> nm <> ti_name (it_info i) -> 0 <= idx ->
    hwi_tag_find bytes strings (item_at its j) nm idx =
      '(a, _, _) ← nth_tag nm (Z.to_nat idx) (it_tags i);
      Some (item_at its j + ti_size (it_info i) + size_of a, idx + 1)
}.

Context {LL : HwiLibcLaws} {St : Type} `{HL : SectionLaws St}.
Context (Hh : header_ok).
Implicit Types s : hwi_state St.

(** The search on a state. *)
Lemma tag_found s names its n j i nm idx :
  hw_rep s names its -> credit n s names its -> its !! j = Some i -> str_ok nm ->
  nm <> ti_name (it_info i) -> 0 <= idx ->
  hwi_tag_find (hw_bytes s) (hw_strings s) (item_at its j) nm idx =
    '(a, _, _) ← nth_tag nm (Z.to_nat idx) (it_tags i);
    Some (item_at its j + ti_size (it_info i) + size_of a, idx + 1).
Proof.
  intros [? ? ? Ht Hk Hw Htr _ (k & Hk0 & Hb) _ _] (_ & Hc2 & Hc3) Hi Hnm Hne Hidx.
  eapply (ll_tag _ _ names its k); try done; lia.
Qed.

(** The items with the tag [t] of the [j]-th between [a] and [b] replaced. *)
Definition replaced (its : list item) (j : nat) (i : item) (a : list tag) (t : tag) (b : list tag) : list item :=
  <[j := HwinfoTags.with_tags i (a ++ t :: b)]> its.

(** Storing a member of a tag again. *)
Lemma member_stored s names its n j i a ti l f v v' r b :
  hw_rep s names its -> credit n s names its -> its !! j = Some i ->
  it_tags i = a ++ mk_tag ti (l ++ Num f v :: r) :: b -> Forall (mem_apart (Num f v')) r ->
  exists s', set (item_at its j + ti_size (it_info i) + size_of a) f v' s = Ok (tt, s') /\
    hw_step s s' names names (replaced its j i a (mk_tag ti (l ++ Num f v' :: r)) b) n.
Proof.
  intros Hrep Hcr Hi Htags Hap.
  pose proof (rp_items _ _ _ _ Hrep) as Hw. pose proof (rp_known _ _ _ _ Hrep) as Hkn.
  assert (Hsplit : its = take j its ++ i :: drop (S j) its) by (by rewrite take_drop_middle).
  assert (Hwi : item_wf i) by (by eapply (Forall_lookup_1 _ its)).
  assert (Hki : item_known names i) by (by eapply (Forall_lookup_1 _ its)).
  pose proof (iw_tags _ Hwi) as Hwt. rewrite Htags in Hwt. apply Forall_app in Hwt as [_ [[Hti Hin] _]%Forall_cons].
  destruct Hki as [_ Hkt]. rewrite Htags in Hkt. apply Forall_app in Hkt as [_ [Hkt _]%Forall_cons].
  unfold tag_known, tag_mem in Hkt. do 2 apply Forall_cons in Hkt as [_ Hkt].
  cbn [tg_info tg_mem] in *.
  assert (Hin' : Forall (mem_ok ti) (l ++ Num f v' :: r)).
  { apply Forall_app in Hin as [Hl [Hx Hr]%Forall_cons]. apply Forall_app_2; [done|by constructor]. }
  assert (Hkn' : Forall (mem_known names) (l ++ Num f v' :: r)).
  { apply Forall_app in Hkt as [Hl [Hx Hr]%Forall_cons]. apply Forall_app_2; [done|by constructor]. }
  rewrite Hsplit in Hrep, Hcr.
  destruct (tag_stored s names (take j its) i (drop (S j) its) a (mk_tag ti (l ++ Num f v :: r)) b
    (l ++ Num f v' :: r) (Num f v') n Hrep Hcr Htags) as (s' & Hst & Hstep); try done.
  - cbn [tg_info]. apply Forall_app in Hin as [_ [Hx _]%Forall_cons]. exact Hx.
  - unfold enc_tag, enc, tag_mem. cbn [tg_info tg_mem].
    rewrite !app_comm_cons, !map_app. cbn [map]. apply puts_update.
    + rewrite zlen_zeros by (destruct Hti; lia).
      pose proof (enc_mems_inside names _ _ (tag_mem_in (mk_tag ti (l ++ Num f v :: r)) (conj Hti Hin))) as Hall.
      unfold tag_mem in Hall. cbn [tg_info tg_mem] in Hall. by rewrite !app_comm_cons, map_app in Hall.
    + done.
    + cbn [enc_mem snd]. by rewrite !length_le_bytes.
    + apply Forall_map. eapply Forall_impl; [exact Hap|]. intros m Hm.
      exact (enc_mem_apart names (Num f v') m Hm).
  - exists s'. split; [exact Hst|]. unfold replaced, with_tag_mem in *. cbn [tg_info] in *.
    replace (<[j:=_]> its) with (take j its ++ HwinfoTags.with_tags i (a ++ mk_tag ti (l ++ Num f v' :: r) :: b) :: drop (S j) its); [exact Hstep|].
    rewrite insert_take_drop; [done|]. by eapply lookup_lt_Some.
Qed.

Lemma member_read s names its j i a ti l f v r b :
  hw_rep s names its -> its !! j = Some i ->
  it_tags i = a ++ mk_tag ti (l ++ Num f v :: r) :: b -> Forall (mem_apart (Num f v)) r ->
  member (item_at its j + ti_size (it_info i) + size_of a) f s = Ok (v mod 2 ^ (8 * Z.of_nat (fd_len f)), s).
Proof.
  intros Hrep Hi Htags Hap. pose proof (rp_items _ _ _ _ Hrep) as Hw.
  assert (Hwi : item_wf i) by (by eapply (Forall_lookup_1 _ its)).
  pose proof (iw_tags _ Hwi) as Hwt. rewrite Htags in Hwt. apply Forall_app in Hwt as [_ [Htw _]%Forall_cons].
  assert (Hsplit : its = take j its ++ i :: drop (S j) its) by (by rewrite take_drop_middle).
  rewrite Hsplit in Hrep.
  destruct (tag_bytes s names _ i _ a _ b _ Hrep Htags) as (k & Hk & Hb & Hpre).
  pose proof (tag_mem_in _ Htw) as Hin. unfold tag_mem in Hin. cbn [tg_info tg_mem] in Hin.
  unfold enc_tag, tag_mem in Hb. cbn [tg_info tg_mem] in Hb. rewrite !app_comm_cons in Hin, Hb.
  eapply member_run; [exact Hb|by rewrite Hpre| |exact Hin|done].
  destruct Htw as [[_ _ ? _ _ _] _]. cbn in *. lia.
Qed.

Lemma bind_current {A} (f : hwi_state St -> hw St A) s : (x ← current; f x) s = f s s.
Proof. done. Qed.

(** What a set routine does to the tag it found: [vs'] in place of its members [vs]. *)
Definition sets s names its j i (a : list tag) ti (vs : list mem) (b : list tag) n (m : hw St Z) (r : Z) : Prop :=
  exists s', m s = Ok (r, s') /\ hw_step s s' names names (replaced its j i a (mk_tag ti vs) b) n.

Lemma with_tag_run s names its n j i nm idx k r :
  hw_rep s names its -> credit n s names its -> its !! j = Some i -> str_ok nm ->
  nm <> ti_name (it_info i) -> 0 <= idx ->
  (forall a t b, nth_tag nm (Z.to_nat idx) (it_tags i) = Some (a, t, b) ->
     exists s', k (item_at its j + ti_size (it_info i) + size_of a) s = Ok (tt, s') /\ r a t b s') ->
  match nth_tag nm (Z.to_nat idx) (it_tags i) with
  | Some (a, t, b) => exists s', with_tag (item_at its j) nm idx k s = Ok (1, s') /\ r a t b s'
  | None => with_tag (item_at its j) nm idx k s = Ok (0, s)
  end.
Proof.
  intros Hrep Hcr Hi Hnm Hne Hidx Hk. unfold with_tag.
  pose proof (tag_found s names its n j i nm idx Hrep Hcr Hi Hnm Hne Hidx) as Hf.
  destruct (nth_tag nm (Z.to_nat idx) (it_tags i)) as [[[a t] b]|] eqn:E; cbn [mbind option_bind] in Hf.
  - destruct (Hk a t b eq_refl) as (s' & Hr & Hp). exists s'. split; [|done].
    rewrite bind_current, Hf. by rewrite (hw_bind_ok _ _ _ _ _ Hr).
  - by rewrite bind_current, Hf.
Qed.

(** The interrupt tags of a device, as they are added. *)
Definition irqs_ok (ts : list tag) : Prop :=
  Forall (fun t => ti_name (tg_info t) = ti_name t_irq ->
    exists v, t = irq_tag v /\ fits (8 * Z.of_nat (fd_len irq_vector)) v) ts.

Lemma irq_at ts k a t b :
  irqs_ok ts -> nth_tag (ti_name t_irq) k ts = Some (a, t, b) ->
  exists v, t = irq_tag v /\ fits (8 * Z.of_nat (fd_len irq_vector)) v /\ ts = a ++ irq_tag v :: b.
Proof.
  intros Hok Hn. destruct (nth_tag_split _ _ _ _ _ _ Hn) as (-> & Hname & _).
  apply Forall_app in Hok as [_ [Ht _]%Forall_cons]. destruct (Ht Hname) as (v & -> & Hv). by exists v.
Qed.

Lemma hwitag_set_ivec_run s names its n j i idx vector :
  hw_rep s names its -> credit n s names its -> its !! j = Some i -> str_ok (ti_name t_irq) ->
  ti_name t_irq <> ti_name (it_info i) -> irqs_ok (it_tags i) -> 0 <= idx ->
  match nth_tag (ti_name t_irq) (Z.to_nat idx) (it_tags i) with
  | Some (a, _, b) => exists s', hwitag_set_ivec (item_at its j) idx vector s = Ok (1, s') /\
      hw_step s s' names names (replaced its j i a (irq_tag vector) b) n
  | None => hwitag_set_ivec (item_at its j) idx vector s = Ok (0, s)
  end.
Proof.
  intros Hrep Hcr Hi Hnm Hne Hok Hidx.
  apply (with_tag_run s names its n j i _ _ _ (fun a t b s' =>
    hw_step s s' names names (replaced its j i a (irq_tag vector) b) n)); try done.
  intros a t b Hn. destruct (irq_at _ _ _ _ _ Hok Hn) as (v & -> & Hv & Hts).
  by apply (member_stored s names its n j i a t_irq [] irq_vector v vector [] b).
Qed.

(** A vector that may be taken: one that holds no interrupt, and the one asked for if one was. *)
Definition free (ts : list tag) (ivec_idx : Z) (k : nat) : Prop :=
  (exists a b, nth_tag (ti_name t_irq) k ts = Some (a, irq_tag HWI_ILLEGAL_VECTOR, b)) /\
  (ivec_idx < 0 \/ Z.of_nat k = ivec_idx).

Lemma nth_tag_len nm k ts a t b : nth_tag nm k ts = Some (a, t, b) -> (k < length ts)%nat.
Proof.
  intros Hn. destruct (nth_tag_split _ _ _ _ _ _ Hn) as (-> & _ & <-).
  rewrite length_app. cbn. pose proof (length_filter (fun x => ti_name (tg_info x) = nm) a). lia.
Qed.

(** What the search for a free vector returns. *)
Definition taken s names its j i vector ivec_idx n (m : hw St Z) : Prop :=
  (exists k a b s', is_first (free (it_tags i) ivec_idx) k /\
     nth_tag (ti_name t_irq) k (it_tags i) = Some (a, irq_tag HWI_ILLEGAL_VECTOR, b) /\
     m s = Ok (Z.of_nat k, s') /\ hw_step s s' names names (replaced its j i a (irq_tag vector) b) n) \/
  ((forall k, ~ free (it_tags i) ivec_idx k) /\ m s = Ok (-1, s)).

Lemma irq_tag_inj v w : irq_tag v = irq_tag w -> v = w.
Proof. by intros [= ->]. Qed.

Lemma nth_tag_none nm k k' ts : nth_tag nm k ts = None -> (k <= k')%nat -> nth_tag nm k' ts = None.
Proof.
  revert k k'; induction ts as [|t ts IH]; intros k k' Hn Hk; [done|]. cbn [nth_tag] in *.
  case_decide.
  - destruct k as [|k], k' as [|k']; try done; [lia|].
    destruct (nth_tag nm k ts) as [[[? ?] ?]|] eqn:E; [done|]. by rewrite (IH k k' E) by lia.
  - destruct (nth_tag nm k ts) as [[[? ?] ?]|] eqn:E; [done|]. by rewrite (IH k k' E) by lia.
Qed.

Lemma avail_loop_run fuel s names its n j i ivec vector cur :
  hw_rep s names its -> credit n s names its -> its !! j = Some i -> str_ok (ti_name t_irq) ->
  ti_name t_irq <> ti_name (it_info i) -> irqs_ok (it_tags i) ->
  fits (8 * Z.of_nat (fd_len irq_vector)) HWI_ILLEGAL_VECTOR ->
  (length (it_tags i) - cur < fuel)%nat -> (0 <= ivec -> Z.of_nat cur = ivec) ->
  (forall k, (k < cur)%nat -> ~ free (it_tags i) ivec k) ->
  taken s names its j i vector ivec n (avail_loop fuel (item_at its j) ivec vector (Z.of_nat cur)).
Proof.
  intros Hrep Hcr Hi Hnm Hne Hok Hill. revert cur.
  induction fuel as [|fuel IH]; intros cur Hf Hcur Hno; [lia|].
  pose proof (tag_found s names its n j i _ (Z.of_nat cur) Hrep Hcr Hi Hnm Hne ltac:(lia)) as Hfound.
  rewrite Nat2Z.id in Hfound.
  unfold taken. cbn [avail_loop]. rewrite bind_current.
  destruct (nth_tag (ti_name t_irq) cur (it_tags i)) as [[[a t] b]|] eqn:E; cbn [mbind option_bind] in Hfound.
  2: { right. rewrite Hfound. split; [|done]. intros k [(a & b & Hk) Hiv].
    destruct (decide (k < cur)%nat) as [Hlt|Hge]; [by apply (Hno k Hlt); split; [exists a, b|]|].
    by rewrite (nth_tag_none _ _ k _ E) in Hk by lia. }
  destruct (irq_at _ _ _ _ _ Hok E) as (v & -> & Hv & Hts).
  rewrite Hfound.
  pose proof (member_read s names its j i a t_irq [] irq_vector v [] b Hrep Hi Hts ltac:(done)) as Hm.
  rewrite (hw_bind_ok _ _ _ _ _ Hm). rewrite (Z.mod_small v) by exact Hv.
  destruct (Z.eqb_spec v HWI_ILLEGAL_VECTOR) as [->|Hnill].
  - left. destruct (member_stored s names its n j i a t_irq [] irq_vector _ vector [] b Hrep Hcr Hi Hts) as (s' & Hst & Hstep); [done|].
    exists cur, a, b, s'. split_and!; [split; [|done]|done| |exact Hstep].
    + split; [by exists a, b|]. lia.
    + rewrite (hw_bind_ok _ _ _ _ _ Hst). unfold mret, hw_ret. do 2 f_equal. lia.
  - assert (Hnf : ~ free (it_tags i) ivec cur).
    { intros [(a' & b' & Hc) _]. rewrite E in Hc. injection Hc as _ Hc _. by apply Hnill. }
    destruct (Z.leb_spec 0 ivec) as [Hpos|Hneg].
    + right. split; [|done]. intros k Hk. pose proof Hk as [_ [?|Heq]]; [lia|].
      assert (k = cur) as -> by lia. done.
    + replace (Z.of_nat cur + 1) with (Z.of_nat (S cur)) by lia. apply IH.
      * pose proof (nth_tag_len _ _ _ _ _ _ E). lia.
      * lia.
      * intros k Hk. destruct (decide (k = cur)) as [->|]; [done|]. apply Hno. lia.
Qed.

Lemma tags_fit s names its j i :
  hw_rep s names its -> its !! j = Some i -> (length (it_tags i) <= length (hw_bytes s))%nat.
Proof.
  intros Hrep Hi. pose proof (rp_items _ _ _ _ Hrep) as Hw.
  assert (Hwi : item_wf i) by (by eapply (Forall_lookup_1 _ its)).
  assert (Hts : Z.of_nat (length (it_tags i)) <= size_of (it_tags i)).
  { pose proof (iw_tags _ Hwi) as Ht. unfold size_of. induction Ht as [|t ts [[_ _ ? _ _ _] _] _ IH]; [done|].
    cbn [foldr length]. lia. }
  pose proof (rp_bytes _ _ _ _ Hrep) as (k & Hk & Hb).
  assert (Hz : zlen (hw_bytes s) = its_size its + k) by (by rewrite Hb, zlen_app, zlen_enc_items, zlen_zeros).
  assert (Hsplit : its = take j its ++ i :: drop (S j) its) by (by rewrite take_drop_middle).
  rewrite Hsplit in Hz. change (i :: drop (S j) its) with ([i] ++ drop (S j) its) in Hz.
  rewrite !its_size_app, its_size_one in Hz. unfold item_size in Hz.
  pose proof (its_size_words (take j its) ltac:(by apply Forall_take)).
  pose proof (its_size_words (drop (S j) its) ltac:(by apply Forall_drop)).
  destruct Hwi as [[[[_ _ ? _ _ _] _] _] _ _ _ _]. unfold zlen in Hz. lia.
Qed.

Lemma hwitag_set_avail_ivec_run s names its n j i ivec vector :
  hw_rep s names its -> credit n s names its -> its !! j = Some i -> str_ok (ti_name t_irq) ->
  ti_name t_irq <> ti_name (it_info i) -> irqs_ok (it_tags i) ->
  fits (8 * Z.of_nat (fd_len irq_vector)) HWI_ILLEGAL_VECTOR ->
  taken s names its j i vector ivec n (hwitag_set_avail_ivec (item_at its j) ivec vector).
Proof.
  intros Hrep Hcr Hi Hnm Hne Hok Hill. pose proof (tags_fit s names its j i Hrep Hi).
  unfold taken, hwitag_set_avail_ivec. rewrite bind_current.
  replace (if ivec <? 0 then 0 else ivec) with (Z.of_nat (Z.to_nat ivec)) by (zbool; lia).
  apply (avail_loop_run _ s names its n j i ivec vector (Z.to_nat ivec)); try done; try lia.
  intros k Hk [_ Hv]. lia.
Qed.

(** ** Through the padding *)

Lemma nth_tag_strip nm k ts :
  nm <> ti_name t_pad ->
  nth_tag nm k (strip ts) = (fun '(a, t, b) => (strip a, t, strip b)) <$> nth_tag nm k ts.
Proof.
  intros Hne. revert k; induction ts as [|t ts IH]; intros k; [done|].
  unfold strip in *. rewrite filter_cons. cbn [nth_tag]. destruct (decide (ti_name (tg_info t) = nm)) as [Heq|Hn].
  - rewrite decide_True by congruence. cbn [nth_tag]. rewrite decide_True by done.
    destruct k as [|k]; [done|]. rewrite IH. destruct (nth_tag nm k ts) as [[[a x] b]|]; [|done]. cbn.
    rewrite decide_True by congruence. done.
  - case_decide as Hp; cbn [nth_tag]; rewrite ?(decide_False (P := ti_name (tg_info t) = nm)) by done;
      rewrite IH; destruct (nth_tag nm k ts) as [[[a x] b]|]; try done; cbn; by case_decide.
Qed.

Context (Ht : tags_ok).

(** Only interrupt tags have their name; the vector that stands for none fits its member. *)
Record irq_alone : Prop := {
  ia_others : Forall (fun nm => nm <> ti_name t_irq) ([ti_name t_pad; ti_name t_device; ti_name t_bus;
    TAG_NAME_nicaddr] ++ map ti_name [t_location; t_inputclk; t_nicphyaddr; t_regname; t_busattr; t_errata;
    t_dma; t_dll; t_optstr]);
  ia_illegal : fits (8 * Z.of_nat (fd_len irq_vector)) HWI_ILLEGAL_VECTOR
}.
Context (Hal : irq_alone).

Definition not_irq (t : tag) : Prop := ti_name (tg_info t) <> ti_name t_irq.

Lemma other_name nm : nm ∈ [ti_name t_pad; ti_name t_device; ti_name t_bus; TAG_NAME_nicaddr] ++
    map ti_name [t_location; t_inputclk; t_nicphyaddr; t_regname; t_busattr; t_errata; t_dma; t_dll; t_optstr] ->
  nm <> ti_name t_irq.
Proof. intros Hin. destruct Hal as [Ho _]. rewrite Forall_forall in Ho. by apply Ho. Qed.

Lemma irqs_strip ts : ti_name t_irq <> ti_name t_pad -> irqs_ok (strip ts) -> irqs_ok ts.
Proof.
  intros Hne Hs. unfold irqs_ok, strip in *. rewrite Forall_forall in *. intros t Hin Hname.
  apply (Hs t); [|done]. apply list_elem_of_filter. split; [congruence|done].
Qed.

(** Only interrupt tags have the name. *)
Lemma irqs_other ts : Forall not_irq ts -> irqs_ok ts.
Proof. intros Hn. eapply Forall_impl; [exact Hn|]. intros t H1 H2. done. Qed.

Lemma irqs_app a b : irqs_ok a -> irqs_ok b -> irqs_ok (a ++ b).
Proof. apply Forall_app_2. Qed.

Ltac other := unfold not_irq; apply other_name; cbn; set_solver.

Lemma irqs_replicate n t : not_irq t \/ t = irq_tag HWI_ILLEGAL_VECTOR -> irqs_ok (replicate n t).
Proof.
  intros [Hn| ->].
  - apply irqs_other. by apply Forall_replicate.
  - apply Forall_replicate. intros _. exists HWI_ILLEGAL_VECTOR. split; [done|apply Hal].
Qed.

Lemma irqs_common a : irqs_ok (common_tags a).
Proof.
  unfold common_tags. apply (irqs_app [_]); [apply irqs_other; constructor; [other|done]|].
  apply irqs_app; [apply irqs_replicate; by right|].
  apply irqs_app; [destruct (at_dll a); [apply irqs_other; constructor; [other|done]|constructor]|].
  apply irqs_app; [destruct (at_optstr a); [apply irqs_other; constructor; [other|done]|constructor]|].
  apply irqs_app; apply irqs_replicate; left; other.
Qed.

(** What follows the common tags of an Ethernet device. *)
Definition enet_rest (a : enet_attr) : list tag :=
  map (fun j => nicphyaddr_tag (Z.of_nat j)) (seq 0 (Z.to_nat (en_num_phys a))) ++
  replicate (Z.to_nat (en_num_clks a)) (inputclk_tag 0 1) ++
  (if bool_decide (en_mac a = zeros 6) then [] else [nicaddr_tag (en_mac a)]).

Lemma irqs_enet a : irqs_ok (enet_rest a).
Proof.
  unfold enet_rest.
  apply irqs_app; [apply irqs_other, Forall_map, Forall_true; intros j; other|].
  apply irqs_app; [apply irqs_replicate; left; other|].
  case_bool_decide; [constructor|apply irqs_other; constructor; [other|done]].
Qed.

(** The first interrupt tag of a description. *)
Lemma first_irq a rest :
  0 < at_num_irq a ->
  nth_tag (ti_name t_irq) 0 (common_tags a ++ rest) =
    Some ([location_tag (at_base a) (at_len a) (at_regshift a) (at_addrspace a)],
          irq_tag HWI_ILLEGAL_VECTOR, drop 2 (common_tags a ++ rest)).
Proof.
  intros Hn. unfold common_tags. replace (Z.to_nat (at_num_irq a)) with (S (Z.to_nat (at_num_irq a) - 1)) by lia.
  cbn [replicate app nth_tag]. rewrite decide_False by (apply other_name; cbn; set_solver).
  rewrite decide_True by done. done.
Qed.

Lemma vector_after s s1 n names its b it (a : common_attr) rest off (m : hw St Z) vector :
  m s = Ok (off, s1) -> describes s names its b it (common_tags a ++ rest) n m ->
  irqs_ok rest -> 0 < at_num_irq a -> ti_name (it_info it) <> ti_name t_irq ->
  exists s2 names' its1 ts, hwitag_set_avail_ivec off (-1) vector s1 = Ok (0, s2) /\
    hw_step s s2 names names' (kid (Some b) its1 ++ [HwinfoTags.with_tags it ts]) n /\
    padded its its1 /\ off = its_size its1 /\
    strip ts = <[1%nat := irq_tag vector]> (common_tags a ++ rest).
Proof.
  intros Hm (s1' & n1 & its1 & ts & Hr & [R C G F] & Hp & Hts) Hrest Hn Hne.
  rewrite Hm in Hr. injection Hr as -> <-.
  set (i := HwinfoTags.with_tags it ts) in *. set (front := kid (Some b) its1) in *.
  assert (Hi : (front ++ [i]) !! length front = Some i) by (by rewrite lookup_app_r, Nat.sub_diag).
  assert (Hoff : item_at (front ++ [i]) (length front) = its_size its1).
  { rewrite item_at_app, item_at_end by done. apply its_size_shape, kid_shape. }
  assert (Hnp : ti_name t_irq <> ti_name t_pad) by (apply not_eq_sym, other_name; cbn; set_solver).
  assert (Hirq : tag_ti t_irq) by (apply (field_facts Ht t_irq [irq_vector]); unfold tag_fields; set_solver).
  assert (Hok : irqs_ok (it_tags i)).
  { apply irqs_strip; [done|]. change (it_tags i) with ts. rewrite Hts. by apply irqs_app; [apply irqs_common|]. }
  assert (Hfirst : exists ta tb, nth_tag (ti_name t_irq) 0 ts = Some (ta, irq_tag HWI_ILLEGAL_VECTOR, tb) /\
    strip ta = [location_tag (at_base a) (at_len a) (at_regshift a) (at_addrspace a)] /\
    strip tb = drop 2 (common_tags a ++ rest)).
  { pose proof (nth_tag_strip (ti_name t_irq) 0 ts Hnp) as Hst. rewrite Hts, first_irq in Hst by done.
    destruct (nth_tag (ti_name t_irq) 0 ts) as [[[ta x] tb]|]; [|done]. injection Hst as Ha <- Hb.
    by exists ta, tb. }
  destruct Hfirst as (ta & tb & Hnth & Hta & Htb).
  pose proof (hwitag_set_avail_ivec_run s1 n1 _ n (length front) i (-1) vector R C Hi (tk_name _ (proj1 Hirq))
    (not_eq_sym Hne) Hok (ia_illegal Hal)) as [(k & a' & b' & s2 & [Hfree Hmin] & Hnk & Hr2 & Hst2)|[Hno _]].
  2: { destruct (Hno 0%nat). split; [by exists ta, tb|lia]. }
  assert (k = 0)%nat as ->.
  { destruct k as [|k]; [done|]. destruct (Hmin 0%nat ltac:(lia)). split; [by exists ta, tb|lia]. }
  change (it_tags i) with ts in Hnk. rewrite Hnth in Hnk. injection Hnk as <- <-.
  exists s2, n1, its1, (ta ++ irq_tag vector :: tb). rewrite <- Hoff. split_and!; [done| |done|done|].
  - eapply hw_step_trans; [by split|]. unfold replaced in Hst2.
    rewrite insert_app_r_alt, Nat.sub_diag in Hst2 by done. exact Hst2.
  - rewrite strip_app, Hta. unfold strip at 1. rewrite filter_cons, decide_True by done.
    fold (strip tb). rewrite Htb. unfold common_tags.
    replace (Z.to_nat (at_num_irq a)) with (S (Z.to_nat (at_num_irq a) - 1)) by lia. done.
Qed.

(** C28.  [hwitag_set_avail_ivec]: the first free interrupt tag of the device, or the one asked for if it is
    free, gets the vector and its index is returned, with every other byte's meaning unchanged; if there
    is none, the result is -1 and nothing changes.  The search ends. *)
Theorem hwitag_set_avail_ivec_correct s names its n j i ivec vector :
  hw_rep s names its -> credit n s names its -> its !! j = Some i -> irqs_ok (it_tags i) ->
  ti_name t_irq <> ti_name (it_info i) ->
  (exists k a b s', is_first (free (it_tags i) ivec) k /\
     it_tags i = a ++ irq_tag HWI_ILLEGAL_VECTOR :: b /\
     hwitag_set_avail_ivec (item_at its j) ivec vector s = Ok (Z.of_nat k, s') /\
     hw_rep s' names (replaced its j i a (irq_tag vector) b) /\ hw_frame s s') \/
  ((forall k, ~ free (it_tags i) ivec k) /\ hwitag_set_avail_ivec (item_at its j) ivec vector s = Ok (-1, s)).
Proof.
  intros Hrep Hcr Hi Hok Hne.
  assert (Hirq : tag_ti t_irq) by (apply (field_facts Ht t_irq [irq_vector]); unfold tag_fields; set_solver).
  destruct (hwitag_set_avail_ivec_run s names its n j i ivec vector Hrep Hcr Hi (tk_name _ (proj1 Hirq)) Hne Hok
    (ia_illegal Hal)) as [(k & a & b & s' & Hf & Hn & Hr & [R _ _ F])|Hno]; [left|by right].
  exists k, a, b, s'. split_and!; try done. by apply (nth_tag_split _ _ _ _ _ _ Hn).
Qed.

(** C29.  An Ethernet device is added and its vector set, as the board code does: the device is the last item
    and its first interrupt tag has the vector. *)
Theorem enet_with_vector_correct s n names its b dn a vector :
  hw_rep s names its -> (b < length its)%nat -> credit (3 + (enet_cost a + n)) s names its ->
  str_ok dn -> enet_ok a -> 0 < at_num_irq (en_common a) ->
  exists s' names' its1 ts,
    (off ← hwidev_add_enet dn (Some a) (item_at its b); hwitag_set_avail_ivec off (-1) vector) s = Ok (0, s') /\
    hw_rep s' names' (kid (Some b) its1 ++
      [mk_item t_device dn (item_at its b) 0 [Num device_pnpid hwi_devclass_ENET] ts]) /\
    padded its its1 /\ strip ts = <[1%nat := irq_tag vector]> (enet_tags a) /\ hw_frame s s'.
Proof.
  intros Hrep Hb Hcr Hdn Hok Hn.
  pose proof (enet_describes Hh Ht s n names its b Hrep Hb dn a Hcr Hdn Hok) as Hd.
  pose proof Hd as (s1 & _ & its0 & _ & Hr1 & _).
  destruct (vector_after s s1 n names its b _ (en_common a) (enet_rest a) _ _ vector Hr1 Hd)
    as (s2 & names' & its1 & ts & Hr2 & [R _ _ F] & Hp & _ & Hts);
    [apply irqs_enet|done|apply other_name; cbn; set_solver|].
  exists s2, names', its1, ts. split_and!; try done. rewrite (hw_bind_ok _ _ _ _ _ Hr1). exact Hr2.
Qed.
End Set_.
