(* ===== verification/HwinfoWalk.v ===== *)
(** * HwinfoWalk: reading the section back.

    A reader that walks the bytes, from tag to tag and from item to item, by the sizes it finds.  It
    recovers the list of items the section was built from, so the searches of [HwiLibcLaws] can be
    implemented by it: an instance of the interface, not a model of the C library's code. *)

From S2P Require Import Prelude.
From S2P Require Import Sections.
From S2P Require Import Strings.
From S2P Require Import Hwinfo.
From S2P Require Import HwinfoTags.
From S2P Require Import HwinfoItems.
From S2P Require Import HwinfoOps.
From S2P Require Import HwinfoSet.

Section Reader.
Context {HH : HwiHeader}.

Definition rd (bytes : list Z) (off : Z) (f : field) : Z := get f (drop (Z.to_nat off) bytes).
Definition name_at (bytes strings : list Z) (off : Z) (f : field) : list Z :=
  cstr (drop (Z.to_nat (rd bytes off f)) strings).

Fixpoint walk_tags (fuel : nat) (bytes strings nm : list Z) (off end_ : Z) (idx : nat) : option Z :=
  match fuel with
  | O => None
  | S fuel =>
      if end_ <=? off then None
      else
        let next := off + 4 * rd bytes off prefix_size in
        if decide (name_at bytes strings off prefix_name = nm)
        then match idx with O => Some off | S k => walk_tags fuel bytes strings nm next end_ k end
        else walk_tags fuel bytes strings nm next end_ idx
  end.

Definition walk_tag_find (bytes strings : list Z) (item : Z) (nm : list Z) (idx : Z) : option (Z * Z) :=
  off ← walk_tags (length bytes) bytes strings nm (item + 4 * rd bytes item prefix_size)
          (item + 4 * rd bytes item item_itemsize) (Z.to_nat idx);
  Some (off, idx + 1).

Fixpoint walk_items (fuel : nat) (bytes : list Z) (off : Z) : list Z :=
  match fuel with
  | O => []
  | S fuel =>
      let n := rd bytes off item_itemsize in
      if n =? 0 then [] else off :: walk_items fuel bytes (off + 4 * n)
  end.

Fixpoint walk_on_path (bytes strings : list Z) (offs : list Z) (off : Z) (rpath : list (list Z)) : bool :=
  match rpath with
  | [] => false
  | nm :: r =>
      bool_decide (name_at bytes strings off item_itemname = nm) &&
      match r with
      | [] => true
      | _ => let o := rd bytes off item_owner in
             bool_decide (o ∈ offs) && walk_on_path bytes strings offs o r
      end
  end.

Definition walk_find_item (bytes strings : list Z) (start : Z) (path : list (list Z)) : Z :=
  let offs := walk_items (length bytes) bytes 0 in
  default HWI_NULL_OFF (find (fun off => walk_on_path bytes strings offs off (rev path)) offs).

#[export] Instance walk_libc : HwiLibc :=
  {| hwi_find_item := walk_find_item; hwi_tag_find := walk_tag_find |}.

(** ** What it reads *)

Context (Hh : header_ok).
Context (bytes strings : list Z) (names : list (list Z)) (its : list item) (k : Z).
Context (Htab : strtab strings names) (Hw : Forall item_wf its) (Hkn : Forall (item_known names) its).
Context (Htree : tree_ok its) (Hk : 0 <= k) (Hb : bytes = enc_items names its ++ zeros k).
Context (Hsize : its_size its <= 2 ^ 16) (Hnames : zlen (flat names) <= 2 ^ 16).

Lemma off_small nm : nm ∈ names -> exists o, str_off names nm = Some o /\ 0 <= o < 2 ^ 16.
Proof.
  intros Hin. apply str_off_in in Hin. destruct (str_off names nm) as [o|] eqn:E; [|done].
  exists o. split; [done|]. pose proof (str_off_bound _ _ _ E). pose proof (zlen_nonneg nm). lia.
Qed.

Lemma len2 f : f ∈ hdr_fields -> fd_len f = 2%nat.
Proof. intros Hin. destruct Hh as [_ Hl _ _]. rewrite Forall_forall in Hl. by apply Hl. Qed.

(** A 16-bit number and a name, among the members of a structure. *)
Lemma get_num size a f v b post :
  f ∈ hdr_fields -> 0 <= v < 2 ^ 16 -> 0 <= size ->
  Forall (mem_in size) (a ++ Num f v :: b) -> Forall (mem_apart (Num f v)) b ->
  get f (enc names size (a ++ Num f v :: b) ++ post) = v.
Proof.
  intros Hf Hv Hs Hi Ha. rewrite (get_mem names size a (Num f v) f v b post eq_refl) by done.
  rewrite len2 by done. by apply Z.mod_small.
Qed.

Lemma get_ref size a f nm b post :
  f ∈ hdr_fields -> nm ∈ names -> 0 <= size ->
  Forall (mem_in size) (a ++ Ref f nm :: b) -> Forall (mem_apart (Ref f nm)) b ->
  cstr (drop (Z.to_nat (get f (enc names size (a ++ Ref f nm :: b) ++ post))) strings) = nm.
Proof.
  intros Hf Hin Hs Hi Ha. destruct (off_small nm Hin) as (o & Ho & Hr).
  rewrite (get_mem names size a (Ref f nm) f o b post) by (try done; cbn [enc_mem]; by rewrite Ho).
  rewrite len2, Z.mod_small by done. by eapply strtab_read.
Qed.

Lemma tag_split front i back a t b :
  its = front ++ i :: back -> it_tags i = a ++ t :: b ->
  exists post, drop (Z.to_nat (its_size front + ti_size (it_info i) + size_of a)) bytes = enc_tag names t ++ post.
Proof.
  intros Hs Htags. rewrite Hs in Hw. pose proof Hw as [Hfr [Hi _]%Forall_cons]%Forall_app.
  pose proof (iw_tags _ Hi) as Hwt. rewrite Htags in Hwt. apply Forall_app in Hwt as [Hwa _].
  exists (enc_tags names b ++ enc_items names back ++ zeros k).
  replace (its_size front + ti_size (it_info i) + size_of a)
    with (zlen (enc_items names front ++ enc_head names i ++ enc_tags names a))
    by (by rewrite !zlen_app, zlen_enc_items, zlen_enc_head, zlen_enc_tags, Z.add_assoc).
  rewrite Hb, Hs, enc_items_app.
  change (enc_items names (i :: back)) with (enc_item names i ++ enc_items names back).
  unfold enc_item. rewrite Htags, enc_tags_app.
  change (enc_tags names (t :: b)) with (enc_tag names t ++ enc_tags names b).
  replace (((enc_items names front ++ (enc_head names i ++ enc_tags names a ++ enc_tag names t ++ enc_tags names b) ++
      enc_items names back) ++ zeros k)) with
    ((enc_items names front ++ enc_head names i ++ enc_tags names a) ++
      enc_tag names t ++ enc_tags names b ++ enc_items names back ++ zeros k) by (by rewrite <- !app_assoc).
  apply drop_app_zlen.
Qed.

Lemma item_split front i back :
  its = front ++ i :: back ->
  exists post, drop (Z.to_nat (its_size front)) bytes = enc_head names i ++ post.
Proof.
  intros Hs. rewrite Hs in Hw. pose proof Hw as [Hfr [Hi _]%Forall_cons]%Forall_app.
  exists (enc_tags names (it_tags i) ++ enc_items names back ++ zeros k).
  rewrite <- (zlen_enc_items names) by done. rewrite Hb, Hs, enc_items_app.
  change (enc_items names (i :: back)) with (enc_item names i ++ enc_items names back).
  unfold enc_item. rewrite <- !app_assoc. apply drop_app_zlen.
Qed.

(** An item's head. *)
Lemma item_reads j i :
  its !! j = Some i ->
  rd bytes (item_at its j) item_itemsize = item_size i / 4 /\
  rd bytes (item_at its j) prefix_size = ti_size (it_info i) / 4 /\
  name_at bytes strings (item_at its j) item_itemname = it_name i /\
  rd bytes (item_at its j) item_owner = it_owner i.
Proof.
  intros Hi. assert (Hs : its = take j its ++ i :: drop (S j) its) by (by rewrite take_drop_middle).
  destruct (item_split _ _ _ Hs) as (post & Hd). fold (item_at its j) in Hd.
  assert (Hwi : item_wf i) by (by eapply (Forall_lookup_1 _ its)).
  assert (Hki : item_known names i) by (by eapply (Forall_lookup_1 _ its)).
  pose proof (head_mem_in i Hwi) as Hin. pose proof Hwi as [[[[_ _ Hsz _ _ _] _] _] _ _ _ _].
  destruct (head_apart Hh i Hwi) as (A1 & A2 & A3 & A4 & A5 & A6 & _).
  assert (Hsi : 0 <= item_size i <= 2 ^ 16).
  { pose proof (item_size_words i Hwi). rewrite Hs in Hsize.
    change (i :: drop (S j) its) with ([i] ++ drop (S j) its) in Hsize.
    rewrite !its_size_app, its_size_one in Hsize.
    pose proof (its_size_words (take j its) ltac:(by apply Forall_take)).
    pose proof (its_size_words (drop (S j) its) ltac:(by apply Forall_drop)). lia. }
  assert (Ho : 0 <= it_owner i < 2 ^ 16).
  { destruct (Htree j i Hi) as [[->|(m & Hm & ->)] _]; [by destruct Hh as [_ _ _ ->]|].
    apply lookup_lt_Some in Hi. pose proof (item_at_words its m Hw).
    pose proof (item_at_mono its m (length its) Hw ltac:(lia)). rewrite item_at_end in *. lia. }
  destruct Hki as [Hko _]. unfold own_mem in Hko.
  apply Forall_cons in Hko as [_ [_ [Hkn' _]%Forall_cons]%Forall_cons]. cbn in Hkn'.
  unfold rd, name_at. unfold rd. rewrite Hd. unfold enc_head, head_mem, own_mem in *.
  assert (Hdiv : forall x, 0 <= x <= 2 ^ 16 -> 0 <= x / 4 < 2 ^ 16)
    by (intros x Hx; Z.to_euclidean_division_equations; lia).
  split_and!.
  - apply (get_num _ []); [unfold hdr_fields; set_solver|auto|lia|exact Hin|exact A1].
  - apply (get_num _ [_]); [unfold hdr_fields; set_solver|apply Hdiv; lia|lia|exact Hin|exact A2].
  - apply (get_ref _ [_; _; _]); [unfold hdr_fields; set_solver|exact Hkn'|lia|exact Hin|exact A4].
  - apply (get_num _ [_; _; _; _]); [unfold hdr_fields; set_solver|done|lia|exact Hin|exact A5].
Qed.

(** A tag's prefix. *)
Lemma tag_reads j i a t b :
  its !! j = Some i -> it_tags i = a ++ t :: b ->
  rd bytes (item_at its j + ti_size (it_info i) + size_of a) prefix_size = ti_size (tg_info t) / 4 /\
  name_at bytes strings (item_at its j + ti_size (it_info i) + size_of a) prefix_name = ti_name (tg_info t).
Proof.
  intros Hi Htags. assert (Hs : its = take j its ++ i :: drop (S j) its) by (by rewrite take_drop_middle).
  destruct (tag_split _ _ _ a t b Hs Htags) as (post & Hd). fold (item_at its j) in Hd.
  assert (Hwi : item_wf i) by (by eapply (Forall_lookup_1 _ its)).
  assert (Hki : item_known names i) by (by eapply (Forall_lookup_1 _ its)).
  pose proof (iw_tags _ Hwi) as Hwt. rewrite Htags in Hwt. apply Forall_app in Hwt as [_ [Htw _]%Forall_cons].
  destruct Hki as [_ Hkt]. rewrite Htags in Hkt. apply Forall_app in Hkt as [_ [Hkt _]%Forall_cons].
  unfold tag_known, tag_mem in Hkt. apply Forall_cons in Hkt as [_ [Hk1 _]%Forall_cons]. cbn in Hk1.
  pose proof (tag_mem_in t Htw) as Hin. destruct Htw as [[_ _ Hsz _ _ _] Hm].
  unfold rd, name_at. unfold rd. rewrite Hd. unfold enc_tag, tag_mem in *.
  assert (Hne : prefix_size <> prefix_name).
  { pose proof (hdr_distinct Hh) as Hnd. unfold hdr_fields in Hnd. intros E. rewrite E in Hnd.
    rewrite !NoDup_cons, !elem_of_cons in Hnd. tauto. }
  assert (Hp : mem_apart (Num prefix_size 0) (Num prefix_name 0))
    by (apply (fd_apart Hh); [unfold hdr_fields; set_solver..|done]).
  split.
  - apply (get_num _ []); [unfold hdr_fields; set_solver|Z.to_euclidean_division_equations; lia|lia|exact Hin|].
    constructor; [exact Hp|]. eapply Forall_impl; [exact Hm|]. intros m (_ & [?|?] & _); [by right|by left].
  - apply (get_ref _ [_]); [unfold hdr_fields; set_solver|exact Hk1|lia|exact Hin|].
    eapply Forall_impl; [exact Hm|]. intros m (_ & _ & [?|?]); [by right|by left].
Qed.

(** ** The searches *)

Lemma walk_tags_run j i nm ts a fuel idx :
  its !! j = Some i -> it_tags i = a ++ ts -> (length ts < fuel)%nat ->
  walk_tags fuel bytes strings nm (item_at its j + ti_size (it_info i) + size_of a)
    (item_at its j + item_size i) idx =
  ('(a', _, _) ← nth_tag nm idx ts; Some (item_at its j + ti_size (it_info i) + size_of (a ++ a'))).
Proof.
  intros Hi. revert a fuel idx. induction ts as [|t ts IH]; intros a fuel idx Htags Hf;
    (destruct fuel as [|fuel]; [cbn in Hf; lia|]); cbn [walk_tags nth_tag].
  - rewrite app_nil_r in Htags. rewrite (proj2 (Z.leb_le _ _)); [done|]. unfold item_size. rewrite Htags. lia.
  - destruct (tag_reads j i a t ts Hi Htags) as [-> ->].
    assert (Hwi : item_wf i) by (by eapply (Forall_lookup_1 _ its)).
    pose proof (iw_tags _ Hwi) as Hwt. rewrite Htags in Hwt.
    pose proof Hwt as [Hwa [[[_ _ Hsz Hmod _ _] _] Hwts]%Forall_cons]%Forall_app.
    rewrite (proj2 (Z.leb_gt _ _)).
    2: { unfold item_size. rewrite Htags, size_of_app. unfold size_of at 3. cbn [foldr].
         pose proof (size_of_words ts Hwts). fold (size_of ts). lia. }
    replace (item_at its j + ti_size (it_info i) + size_of a + 4 * (ti_size (tg_info t) / 4))
      with (item_at its j + ti_size (it_info i) + size_of (a ++ [t])).
    2: { rewrite size_of_app. unfold size_of at 2. cbn [foldr]. Z.to_euclidean_division_equations. lia. }
    rewrite cons_middle, app_assoc in Htags. cbn in Hf.
    pose proof (fun x => IH (a ++ [t]) fuel x Htags ltac:(lia)) as IH'.
    case_decide as Hnm.
    + destruct idx as [|x]; [cbn; by rewrite app_nil_r|]. rewrite IH'.
      destruct (nth_tag nm x ts) as [[[a' ?] ?]|]; [|done]. cbn. by rewrite <- app_assoc.
    + rewrite IH'. destruct (nth_tag nm idx ts) as [[[a' ?] ?]|]; [|done]. cbn. by rewrite <- app_assoc.
Qed.

Lemma bytes_len : zlen bytes = its_size its + k.
Proof. by rewrite Hb, zlen_app, zlen_enc_items, zlen_zeros. Qed.

Lemma items_len l : Forall item_wf l -> Z.of_nat (length l) <= its_size l.
Proof.
  unfold its_size. induction 1 as [|i l Hi _ IH]; [done|]. cbn [foldr length].
  pose proof (item_size_words i Hi). lia.
Qed.

Lemma tags_len l : Forall tag_wf l -> Z.of_nat (length l) <= size_of l.
Proof.
  unfold size_of. induction 1 as [|t l [[_ _ ? _ _ _] _] _ IH]; [done|]. cbn [foldr length]. lia.
Qed.

Lemma walk_items_run fuel j :
  (j <= length its)%nat -> (length its - j <= fuel)%nat ->
  walk_items fuel bytes (item_at its j) = map (item_at its) (seq j (length its - j)).
Proof.
  revert j. induction fuel as [|fuel IH]; intros j Hj Hf.
  - by replace (length its - j)%nat with 0%nat by lia.
  - cbn [walk_items]. destruct (decide (j = length its)) as [->|Hne].
    + rewrite Nat.sub_diag. cbn [seq map].
      assert (rd bytes (item_at its (length its)) item_itemsize = 0) as ->; [|done].
      rewrite item_at_end. unfold rd. rewrite <- (zlen_enc_items names), Hb, drop_app_zlen by done.
      unfold get, slice, zeros. rewrite drop_replicate, take_replicate.
      generalize (Z.to_nat (Z.of_nat (fd_len item_itemsize)) `min` (Z.to_nat k - Z.to_nat (fd_off item_itemsize)))%nat.
      induction n as [|n IHn]; [done|]. cbn [replicate le_word]. by rewrite IHn.
    + destruct (lookup_lt_is_Some_2 its j ltac:(lia)) as [i Hi].
      destruct (item_reads j i Hi) as (-> & _).
      assert (Hwi : item_wf i) by (by eapply (Forall_lookup_1 _ its)).
      destruct (item_size_words i Hwi) as [Hz Hm].
      rewrite (proj2 (Z.eqb_neq _ _)) by (Z.to_euclidean_division_equations; lia).
      replace (length its - j)%nat with (S (length its - S j)) by lia. cbn [seq map]. f_equal.
      replace (item_at its j + 4 * (item_size i / 4)) with (item_at its (S j)); [apply IH; lia|].
      unfold item_at. rewrite (take_S_r _ _ _ Hi), its_size_app, its_size_one.
      Z.to_euclidean_division_equations. lia.
Qed.

Lemma walk_all : walk_items (length bytes) bytes 0 = map (item_at its) (seq 0 (length its)).
Proof.
  pose proof (walk_items_run (length bytes) 0) as Hr. rewrite Nat.sub_0_r in Hr. apply Hr; [lia|].
  pose proof bytes_len as Hz. pose proof (items_len its Hw). unfold zlen in Hz. lia.
Qed.

Lemma in_offsets o : o ∈ map (item_at its) (seq 0 (length its)) <-> exists m, (m < length its)%nat /\ o = item_at its m.
Proof.
  rewrite list_elem_of_fmap. split.
  - intros (m & -> & Hm). apply elem_of_seq in Hm. exists m. split; [lia|done].
  - intros (m & Hm & ->). exists m. split; [done|]. apply elem_of_seq. lia.
Qed.

Lemma walk_on_path_spec r j :
  (j < length its)%nat ->
  walk_on_path bytes strings (map (item_at its) (seq 0 (length its))) (item_at its j) r = true <-> on_path its j r.
Proof.
  revert j. induction r as [|nm r IH]; intros j Hj; [done|].
  destruct (lookup_lt_is_Some_2 its j Hj) as [i Hi]. cbn [walk_on_path on_path].
  destruct (item_reads j i Hi) as (_ & _ & -> & Ho). rewrite andb_true_iff, bool_decide_eq_true.
  assert (Htail : (match r with
      | [] => true
      | _ => let o := rd bytes (item_at its j) item_owner in
             bool_decide (o ∈ map (item_at its) (seq 0 (length its))) &&
             walk_on_path bytes strings (map (item_at its) (seq 0 (length its))) o r
      end = true) <-> (r = [] \/ exists m, (m < length its)%nat /\ it_owner i = item_at its m /\ on_path its m r)).
  { destruct r as [|nm2 r]; [naive_solver|]. cbn zeta. rewrite Ho, andb_true_iff, bool_decide_eq_true, in_offsets.
    split.
    - intros [(m & Hm & He) Hp]. right. exists m. rewrite He, IH in Hp by done. done.
    - intros [?|(m & Hm & He & Hp)]; [done|]. split; [by exists m|]. by rewrite He, IH. }
  rewrite Htail. split.
  - intros [Hn Ht]. by exists i.
  - intros (i' & Hi' & Hn & Ht). rewrite Hi in Hi'. injection Hi' as <-. done.
Qed.

Lemma find_seq (f : Z -> bool) (g : nat -> Z) n m :
  match find f (map g (seq m n)) with
  | Some x => exists j, (m <= j < m + n)%nat /\ x = g j /\ f (g j) = true /\ forall i, (m <= i < j)%nat -> f (g i) = false
  | None => forall i, (m <= i < m + n)%nat -> f (g i) = false
  end.
Proof.
  revert m; induction n as [|n IH]; intros m; cbn [seq map find]; [intros; lia|].
  destruct (f (g m)) eqn:E.
  - exists m. split_and!; try done; try lia; intros; lia.
  - specialize (IH (S m)). destruct (find f (map g (seq (S m) n))) as [x|].
    + destruct IH as (j & Hj & -> & Hf & Hall). exists j. split_and!; try done; try lia.
      intros i Hi. destruct (decide (i = m)) as [->|]; [done|]. apply Hall. lia.
    + intros i Hi. destruct (decide (i = m)) as [->|]; [done|]. apply IH. lia.
Qed.

Lemma on_path_in r j : on_path its j r -> (j < length its)%nat.
Proof. destruct r; [done|]. intros (i & Hi & _). by eapply lookup_lt_Some. Qed.

Lemma walk_find_run path :
  (exists j, is_first (fun j => on_path its j (rev path)) j /\
     walk_find_item bytes strings HWI_NULL_OFF path = item_at its j) \/
  ((forall j, ~ on_path its j (rev path)) /\ walk_find_item bytes strings HWI_NULL_OFF path = HWI_NULL_OFF).
Proof.
  unfold walk_find_item. rewrite walk_all.
  pose proof (find_seq (fun off => walk_on_path bytes strings (map (item_at its) (seq 0 (length its))) off (rev path))
    (item_at its) (length its) 0) as Hf.
  destruct (find _ _) as [x|]; cbn [default from_option].
  - left. destruct Hf as (j & Hj & -> & Hok & Hall). exists j. split; [|done]. split.
    + by apply walk_on_path_spec; [lia|].
    + intros m Hm Hp. specialize (Hall m ltac:(lia)). apply walk_on_path_spec in Hp; [congruence|lia].
  - right. split; [|done]. intros j Hp. pose proof (on_path_in _ _ Hp) as Hj.
    specialize (Hf j ltac:(lia)). apply walk_on_path_spec in Hp; [congruence|done].
Qed.

Lemma walk_tag_find_run j i nm idx :
  its !! j = Some i -> 
  walk_tag_find bytes strings (item_at its j) nm idx =
    ('(a, _, _) ← nth_tag nm (Z.to_nat idx) (it_tags i);
     Some (item_at its j + ti_size (it_info i) + size_of a, idx + 1)).
Proof.
  intros Hi. assert (Hwi : item_wf i) by (by eapply (Forall_lookup_1 _ its)).
  unfold walk_tag_find. destruct (item_reads j i Hi) as (-> & -> & _).
  destruct (item_size_words i Hwi) as [Hz Hm]. pose proof Hwi as [[[[_ _ Hsz Hmod _ _] _] _] _ _ _ Htags].
  replace (4 * (item_size i / 4)) with (item_size i) by (Z.to_euclidean_division_equations; lia).
  replace (item_at its j + 4 * (ti_size (it_info i) / 4)) with (item_at its j + ti_size (it_info i) + size_of [])
    by (unfold size_of; cbn; Z.to_euclidean_division_equations; lia).
  rewrite (walk_tags_run j i nm (it_tags i) [] _ _ Hi eq_refl).
  - destruct (nth_tag nm (Z.to_nat idx) (it_tags i)) as [[[a ?] ?]|]; done.
  - pose proof bytes_len as Hlen. pose proof (tags_len _ Htags).
    assert (Hs : its = take j its ++ [i] ++ drop (S j) its) by (symmetry; by apply take_drop_middle).
    rewrite Hs, !its_size_app, its_size_one in Hlen. unfold item_size in Hlen.
    pose proof (its_size_words (take j its) ltac:(by apply Forall_take)).
    pose proof (its_size_words (drop (S j) its) ltac:(by apply Forall_drop)).
    unfold zlen in Hlen. lia.
Qed.
End Reader.

(** The reader keeps the laws of the searches. *)
Lemma walk_laws `{HH : HwiHeader} (Hh : header_ok) : HwiLibcLaws.
Proof.
  split.
  - intros. eapply walk_find_run; eassumption.
  - intros bytes strings names its k. intros. by apply (walk_tag_find_run Hh bytes strings names its k).
Qed.
