(* ===== verification/Pages.v ===== *)
(** * Pages: what the memory allocator promises to the code that builds page tables.

    [pa_calloc] is [calloc_ram]; the MMU code is proved against [PageAllocLaws], and Ram.v shows
    that the RAM list satisfies them. *)

From S2P Require Import Prelude.

Class PageAlloc (A : Type) := {
  pa_calloc : A -> Z -> Z -> res (A * Z);
  pa_ok : A -> Prop;
  pa_free : A -> Z -> Prop
}.

(** A block handed out is aligned, was free and is not free any more; nothing else becomes free. *)
Record page_block {A} `{PageAlloc A} (a a' : A) (p size align : Z) : Prop := {
  pb_ok : pa_ok a';
  pb_align : p mod align = 0;
  pb_range : 0 <= p /\ p + size < 2 ^ 32;
  pb_was : forall x, p <= x < p + size -> pa_free a x;
  pb_now : forall x, pa_free a' x <-> pa_free a x /\ ~ p <= x < p + size
}.

Class PageAllocLaws (A : Type) `{PageAlloc A} : Prop := {
  law_calloc : forall a a' p size k,
    pa_ok a -> 0 < size < 2 ^ 31 -> 0 <= k < 32 ->
    pa_calloc a size (2 ^ k) = Ok (a', p) -> p <> NULL_PADDR_STARTUP ->
    page_block a a' p size (2 ^ k)
}.

(** [a] can serve [n] more requests for a page. *)
Fixpoint can_alloc {A} `{PageAlloc A} (n : nat) (a : A) : Prop :=
  match n with
  | O => True
  | S n => exists a' p, pa_calloc a PAGESIZE PAGESIZE = Ok (a', p) /\ p <> NULL_PADDR_STARTUP /\
             can_alloc n a'
  end.
