(* ===== verification/Ram.v ===== *)
(** * Ram: the RAM and avoid lists and the workspace allocator (startup/lib/ram.c).

    The RAM list is the list of its entries before the terminator of size 0, the avoid list that of
    its entries before the terminator the code keeps after the last one; [ram_list_size] and
    [avoid_list_size] are the sizes of these lists. *)

From S2P Require Import Prelude.
From S2P Require Import Sections.
From S2P Require Import Syspage.
From S2P Require Import Strings.
From S2P Require Import Asinfo.
From S2P Require Import Pages.

Definition sizeof_ram_entry : Z := 16.
Definition sizeof_avoid_entry : Z := 8.
Definition MAX_RAM_LIST_SIZE : Z := KILO 3.
Definition MAX_AVOID_LIST_SIZE : Z := KILO 1.
Definition TEMP_SYSPAGE_SIZE : Z := ROUNDPG (KILO 32).

(** The fields of the startup header the code reads, and the secure-boot flag. *)
Record startup_config := {
  shdr_ram_paddr : Z;
  shdr_ram_size : Z;
  shdr_startup_size : Z;
  secure_system : bool
}.

(** The file's static variables, the system page, and two logs: the calls made to watchers and the
    blocks of memory cleared. *)
Record ram_state := mk_rs {
  ram_list : list (Z * Z);
  avoid_list : option (list (Z * Z));
  ws_early_next : Z;
  temp_syspage : Z;
  sysram_added : bool;
  watch_list : list nat;
  watch_calls : list (nat * Z * Z);
  cleared : list (Z * Z);
  rs_as : as_state syspage
}.

Definition with_ram (s : ram_state) l := mk_rs l (avoid_list s) (ws_early_next s) (temp_syspage s)
  (sysram_added s) (watch_list s) (watch_calls s) (cleared s) (rs_as s).
Definition with_avoid (s : ram_state) l := mk_rs (ram_list s) (Some l) (ws_early_next s)
  (temp_syspage s) (sysram_added s) (watch_list s) (watch_calls s) (cleared s) (rs_as s).
Definition with_early (s : ram_state) n := mk_rs (ram_list s) (avoid_list s) n (temp_syspage s)
  (sysram_added s) (watch_list s) (watch_calls s) (cleared s) (rs_as s).
Definition with_temp (s : ram_state) n := mk_rs (ram_list s) (avoid_list s) (ws_early_next s) n
  (sysram_added s) (watch_list s) (watch_calls s) (cleared s) (rs_as s).
Definition with_sysram (s : ram_state) := mk_rs (ram_list s) (avoid_list s) (ws_early_next s)
  (temp_syspage s) true (watch_list s) (watch_calls s) (cleared s) (rs_as s).
Definition with_watch (s : ram_state) w c := mk_rs (ram_list s) (avoid_list s) (ws_early_next s)
  (temp_syspage s) (sysram_added s) w c (cleared s) (rs_as s).
Definition with_cleared (s : ram_state) c := mk_rs (ram_list s) (avoid_list s) (ws_early_next s)
  (temp_syspage s) (sysram_added s) (watch_list s) (watch_calls s) c (rs_as s).
Definition with_as (s : ram_state) a := mk_rs (ram_list s) (avoid_list s) (ws_early_next s)
  (temp_syspage s) (sysram_added s) (watch_list s) (watch_calls s) (cleared s) a.

Definition initial_ram (a : as_state syspage) : ram_state :=
  mk_rs [] None 0 NULL_PADDR_STARTUP false [] [] [] a.

(** ** The RAM list *)

(** The first loop of [add_mem]: insert before the first entry with a larger address. *)
Fixpoint insert_mem (start size : Z) (l : list (Z * Z)) : list (Z * Z) :=
  match l with
  | [] => [(start, size)]
  | (a, s) :: r => if start <? a then (start, size) :: l else (a, s) :: insert_mem start size r
  end.

(** The second loop: [prev] is [r[-1]]. *)
Fixpoint merge_mem (prev : Z * Z) (l : list (Z * Z)) : list (Z * Z) :=
  match l with
  | [] => [prev]
  | (s, size) :: r =>
      let e := u64 (fst prev + snd prev) in
      if s <=? e then
        let e := if e <? u64 (s + size) then u64 (s + size) else e in
        merge_mem (fst prev, u64 (e - fst prev)) r
      else prev :: merge_mem (s, size) r
  end.

Definition add_mem (l : list (Z * Z)) (start size : Z) : res (list (Z * Z)) :=
  if 0 <? size then
    if MAX_RAM_LIST_SIZE - sizeof_ram_entry <? (zlen l + 1) * sizeof_ram_entry
    then Err (Crash "RAM entry array overflow")
    else match insert_mem start size l with
         | [] => mret []
         | p :: r => mret (merge_mem p r)
         end
  else mret l.

(** [fix_size]: what is left of the candidate [s..e) outside [as_..ae), if anything. *)
Definition fix_size (s e as_ ae : Z) : option (Z * Z) :=
  if (ae <=? s) || (e <=? as_) then Some (s, e)
  else if as_ <=? s then
    if e <=? ae then None else Some (ae, e)
  else if e <? ae then Some (s, as_)
  else if u64 (e - ae) <? u64 (as_ - s) then Some (s, as_)
  else Some (ae, e).

(** The loop over the avoid list, up to an entry whose end is 0. *)
Fixpoint fix_all (av : list (Z * Z)) (s e : Z) : option (Z * Z) :=
  match av with
  | [] => Some (s, e)
  | (as_, ae) :: r =>
      if ae =? 0 then Some (s, e)
      else '(s, e) ← fix_size s e as_ ae; fix_all r s e
  end.

Definition avoids (s : ram_state) : list (Z * Z) := default [] (avoid_list s).

Fixpoint find_top (av l : list (Z * Z)) (size align top : Z) : Z :=
  match l with
  | [] => top
  | (a, sz) :: r =>
      let top' :=
        match fix_all av a (u64 (a + sz)) with
        | None => top
        | Some (s, e) =>
            if size <=? u64 (e - s) then
              let chk := if align =? 0 then u64 (e - size) else TRUNC (e - size) align in
              if s <=? chk then if top <? chk then chk else top else top
            else top
        end in
      find_top av r size align top'
  end.

Definition find_top_ram_aligned (s : ram_state) (size align pagesize : Z) : Z :=
  let top := find_top (avoids s) (ram_list s) (ROUND size pagesize) align 0 in
  if top =? 0 then NULL_PADDR else top.

Definition find_top_ram (s : ram_state) (pagesize size : Z) : Z :=
  find_top_ram_aligned s size 0 pagesize.

(** The address [find_ram_in_range] tries in a candidate that starts at [s]. *)
Definition place_in (s range_start align colour mask : Z) : Z :=
  let addr := ROUND s align in
  let addr :=
    if Z.land addr mask =? colour then addr
    else
      let incr := u32 (Z.lor (u32 (mask - 1)) mask + 1) in
      Z.lor (Z.land (u64 (addr + incr)) (bnot 32 mask)) colour in
  if range_start =? 0 then addr else if addr <? range_start then range_start else addr.

Fixpoint find_in_range (av l : list (Z * Z)) (range_start range_end size align colour mask : Z) : Z :=
  match l with
  | [] => NULL_PADDR
  | (a, sz) :: r =>
      let next := find_in_range av r range_start range_end size align colour mask in
      match fix_all av a (u64 (a + sz)) with
      | None => next
      | Some (s, e) =>
          let addr := place_in s range_start align colour mask in
          let e := if range_end =? 0 then e else if range_end <? e then range_end else e in
          if e <=? addr then next
          else if size <=? u64 (e - addr) then addr else next
      end
  end.

Definition find_ram_in_range (s : ram_state) (range_start range_end size align colour mask : Z) : Z :=
  find_in_range (avoids s) (ram_list s) range_start range_end (u32 size) align colour mask.

Definition find_ram (s : ram_state) (size align colour mask : Z) : Z :=
  let result := find_ram_in_range s 0 (u32 (2 ^ 64 - 1)) size align colour mask in
  if result =? NULL_PADDR then NULL_PADDR_STARTUP else u32 result.

(** ** Removing a block *)

(** The loop of [alloc_ram] over the RAM list, from index [i]. *)
Fixpoint carve (fuel : nat) (addr end_ : Z) (i : nat) (l : list (Z * Z)) : res (list (Z * Z)) :=
  match fuel with
  | O => Err NoFuel
  | S fuel =>
      match l !! i with
      | None => mret l
      | Some (s0, size) =>
          let e0 := u64 (s0 + size) in
          if ((addr <=? s0) && (s0 <? end_)) || ((s0 <=? addr) && (addr <? e0))
             || ((s0 <=? end_) && (end_ <? e0)) then
            let e := if e0 <? end_ then end_ else e0 in
            let s := if addr <? s0 then addr else s0 in
            if (addr =? s) && (end_ =? e) then carve fuel addr end_ i (delete i l)
            else if addr =? s then
              carve fuel addr end_ (S i) (<[i := (end_, u64 (e - end_))]> l)
            else
              let l1 := <[i := (s0, u64 (addr - s))]> l in
              l2 ← (if e =? end_ then mret l1 else add_mem l1 end_ (u64 (e - end_)));
              carve fuel addr end_ (S i) l2
          else carve fuel addr end_ (S i) l
      end
  end.

Definition carve_ram (addr end_ : Z) (l : list (Z * Z)) : res (list (Z * Z)) :=
  carve (S (S (length l))) addr end_ 0 l.

Section WithHeader.
Context (C : startup_config) (H : as_header).

Definition sysram_name : list Z := chars "sysram".

(** The loop of [alloc_ram] over the "sysram" entries; [end_] is the last byte of the block. *)
Fixpoint carve_sysram (fuel : nat) (a : as_state syspage) (off addr end_ : Z)
    : res (as_state syspage) :=
  match fuel with
  | O => Err NoFuel
  | S fuel =>
      off ← as_find_containing H a off addr end_ sysram_name;
      if off =? AS_NULL_OFF H then mret a
      else
        as_ ← get_or_bad (as_off2info H a off);
        let e := if as_end as_ <? end_ then end_ else as_end as_ in
        let s := if addr <? as_start as_ then addr else as_start as_ in
        if (addr =? s) && (end_ =? e) then Err (Crash "Can't remove whole sysram entry.")
        else if addr =? s then
          carve_sysram fuel (upd a (as_idx H off) (fun x => set_range x (u64 (end_ + 1)) (as_end x)))
            off addr end_
        else
          let a1 := upd a (as_idx H off) (fun x => set_range x (as_start x) (u64 (addr - 1))) in
          a2 ← (if e =? end_ then mret a1
                else '(a2, _) ← as_add H a1 (u64 (end_ + 1)) e (AS_ATTR_RAM H) sysram_name
                                  (as_owner as_); mret a2);
          carve_sysram fuel a2 off addr end_
  end.

(** The part of [alloc_ram] from [end = addr + size] on. *)
Definition alloc_at (s : ram_state) (addr size : Z) : res (ram_state * Z) :=
  let end_ := u64 (addr + size) in
  l ← carve_ram addr end_ (ram_list s);
  let s1 := with_ram s l in
  if sysram_added s then
    a ← carve_sysram (S (length (as_tab (rs_as s)))) (rs_as s) (AS_NULL_OFF H) addr
          (u64 (end_ - 1));
    mret (with_as s1 a, addr)
  else mret (s1, addr).

Definition alloc_ram (s : ram_state) (addr size align : Z) : res (ram_state * Z) :=
  if addr =? NULL_PADDR then
    let addr := find_ram s (u32 size) align 0 0 in
    if addr =? NULL_PADDR_STARTUP then mret (s, NULL_PADDR)
    else
      let s1 := if secure_system C then with_cleared s ((addr, u32 size) :: cleared s) else s in
      alloc_at s1 addr size
  else alloc_at s addr size.

Definition calloc_ram (s : ram_state) (size align : Z) : res (ram_state * Z) :=
  '(s1, a64) ← alloc_ram s NULL_PADDR (u32 size) align;
  let a := u32 a64 in
  if negb (a =? NULL_PADDR_STARTUP) && negb (secure_system C)
  then mret (with_cleared s1 ((a, u32 size) :: cleared s1), a)
  else mret (s1, a).

(** ** The avoid list and the workspace *)

(** [avoid_ram] once the list exists: extend the last entry or write a new one.  The list lives in
    an array of [MAX_AVOID_LIST_SIZE] bytes; the code does not check for its end. *)
Definition avoid_add (l : list (Z * Z)) (start size : Z) : res (list (Z * Z)) :=
  match last l with
  | None => Err BadAccess
  | Some (s, e) =>
      if e =? start then mret (removelast l ++ [(s, u32 (e + size))])
      else if (zlen l + 2) * sizeof_avoid_entry <=? MAX_AVOID_LIST_SIZE
      then mret (l ++ [(start, u32 (start + size))])
      else Err BadAccess
  end.

(** [ws_init], with its calls of [ws_alloc] and [avoid_ram] on the state they find. *)
Definition ws_init (s : ram_state) : res ram_state :=
  let early := u32 (ROUND (u32 (shdr_ram_paddr C + shdr_ram_size C)) 8) in
  let early1 := u32 (early + ROUND MAX_AVOID_LIST_SIZE 8) in
  let early2 := u32 (early1 + u32 (ROUND MAX_RAM_LIST_SIZE 8)) in
  av1 ← avoid_add [(early, early1)] early1 (u32 (ROUND MAX_RAM_LIST_SIZE 8));
  av2 ← avoid_add av1 (shdr_ram_paddr C) (shdr_startup_size C);
  mret (with_ram (with_avoid (with_early s early2) av2) []).

Definition avoid_ram (s : ram_state) (start size : Z) : res ram_state :=
  s1 ← (match avoid_list s with None => ws_init s | Some _ => mret s end);
  av ← avoid_add (avoids s1) start size;
  mret (with_avoid s1 av).

(** [ws_alloc]: the address of the block, [None] for the null pointer. *)
Definition ws_alloc (s : ram_state) (size : Z) : res (ram_state * option Z) :=
  s1 ← (match avoid_list s with None => ws_init s | Some _ => mret s end);
  let size := u32 (ROUND size 8) in
  match ram_list s1 with
  | [] =>
      let paddr := ws_early_next s1 in
      s2 ← avoid_ram (with_early s1 (u32 (ws_early_next s1 + size))) paddr size;
      mret (s2, Some paddr)
  | _ =>
      let paddr := find_ram s1 size 8 0 0 in
      if paddr =? NULL_PADDR_STARTUP then mret (s1, None)
      else s2 ← avoid_ram s1 paddr size; mret (s2, Some paddr)
  end.

(** ** Adding RAM *)

(** The board's [init_asinfo] (boards/imx6x/init_asinfo.c). *)
Definition init_asinfo (a : as_state syspage) (mem : Z) : as_state syspage := a.

Definition notify (s : ram_state) (start size : Z) : ram_state :=
  with_watch s (watch_list s)
    (watch_calls s ++ map (fun w => (w, start, size)) (watch_list s)).

Definition add_asinfo_ram (a : as_state syspage) (paddr_bits start size : Z)
    : res (as_state syspage) :=
  a1 ← (match as_tab a with
        | [] => '(a1, mem) ← as_default H a paddr_bits;
                '(a2, _) ← as_add H a1 0 (GIG 4 - 1) 0 (chars "below4G") mem;
                mret (init_asinfo a2 mem)
        | _ => mret a
        end);
  '(a2, _) ← as_add_containing H a1 start (u64 (u64 (start + size) - 1)) (AS_ATTR_RAM H)
               (chars "ram") memory_name;
  mret a2.

(** The temporary system page, placed as soon as there is RAM for it. *)
Definition place_temp_syspage (s : ram_state) : res ram_state :=
  if temp_syspage s =? NULL_PADDR_STARTUP then
    let t := find_ram s TEMP_SYSPAGE_SIZE PAGESIZE 0 0 in
    let s1 := with_temp s t in
    if t =? NULL_PADDR_STARTUP then mret s1
    else
      s2 ← avoid_ram s1 t TEMP_SYSPAGE_SIZE;
      mret (with_as s2 (mk_ast (reloc_syspage_memory (as_sys (rs_as s2)) t TEMP_SYSPAGE_SIZE)
                               (as_tab (rs_as s2))))
  else mret s.

Definition add_ram (s : ram_state) (paddr_bits start size : Z) : res ram_state :=
  a ← add_asinfo_ram (rs_as s) paddr_bits start size;
  l ← add_mem (ram_list s) start size;
  '(s2, _) ← alloc_ram (with_ram (with_as s a) l)
               (u32 (shdr_ram_paddr C + shdr_startup_size C))
               (u32 (shdr_ram_size C - shdr_startup_size C)) 1;
  s3 ← place_temp_syspage s2;
  mret (notify s3 start size).

Fixpoint add_sysram_entries (a : as_state syspage) (l : list (Z * Z)) : res (as_state syspage) :=
  match l with
  | [] => mret a
  | (s, size) :: r =>
      '(a1, _) ← as_add_containing H a s (u64 (u64 (s + size) - 1)) (AS_ATTR_RAM H) sysram_name
                   (chars "ram");
      add_sysram_entries a1 r
  end.

Definition add_sysram (s : ram_state) : res ram_state :=
  let s1 := notify s 0 0 in
  a ← add_sysram_entries (rs_as s1) (ram_list s1);
  mret (with_sysram (with_as s1 a)).

(** [watch_add_ram]: watchers are named by numbers; a [watch_entry] takes 8 bytes. *)
Definition watch_add_ram (s : ram_state) (func : nat) : res ram_state :=
  '(s1, new) ← ws_alloc s 8;
  match new with
  | None => Err (Crash "No memory for watcher")
  | Some _ => mret (with_watch s1 (func :: watch_list s1) (watch_calls s1))
  end.

Definition reserve_ram (s : ram_state) (size align pagesize : Z) : res ram_state :=
  if size =? 0 then mret s
  else
    let al := if align =? 0 then pagesize else align in
    let reserved := find_top_ram_aligned s size al pagesize in
    if reserved =? NULL_PADDR then Err (Crash "Could not reserve 0x%x bytes of memory.")
    else
      '(s1, _) ← alloc_ram s reserved size al;
      '(a, _) ← as_add_containing H (rs_as s1) reserved (u64 (u64 (reserved + size) - 1))
                  (AS_ATTR_RAM H) (chars "reserved") (chars "ram");
      mret (with_as s1 a).

End WithHeader.

(** ** The RAM list as a set of addresses *)

Fixpoint in_ram (l : list (Z * Z)) (x : Z) : Prop :=
  match l with
  | [] => False
  | (a, s) :: r => a <= x < a + s \/ in_ram r x
  end.

Definition block_ok (p : Z * Z) : Prop := 0 <= fst p /\ 0 < snd p /\ fst p + snd p < 2 ^ 64.
Definition apart (p q : Z * Z) : Prop := fst p + snd p < fst q.

(** Blocks are non-empty, in order, and no two of them touch. *)
Definition ram_ok (l : list (Z * Z)) : Prop := Forall block_ok l /\ StronglySorted apart l.

Lemma in_ram_app l k x : in_ram (l ++ k) x <-> in_ram l x \/ in_ram k x.
Proof. induction l as [|[a s] l IH]; cbn; [tauto|]. rewrite IH. tauto. Qed.

Lemma ram_ok_cons p l : ram_ok (p :: l) <-> block_ok p /\ Forall (apart p) l /\ ram_ok l.
Proof.
  unfold ram_ok. rewrite Forall_cons. split.
  - intros [[? ?] Hs]. inversion Hs; subst. tauto.
  - intros (? & ? & ? & ?). split; [tauto|]. by constructor.
Qed.

Lemma in_ram_lt p l x : Forall (apart p) l -> in_ram l x -> fst p + snd p < x.
Proof.
  induction 1 as [|[a s] l Hp _ IH]; cbn; [done|]. unfold apart in Hp. cbn in Hp.
  intros [?|?]; [lia|by apply IH].
Qed.

(** *** [add_mem] *)

Definition addr_le (p q : Z * Z) : Prop := fst p <= fst q.

Lemma insert_mem_spec start size l :
  block_ok (start, size) -> Forall block_ok l -> Sorted addr_le l ->
  Forall block_ok (insert_mem start size l) /\ Sorted addr_le (insert_mem start size l) /\
  length (insert_mem start size l) = S (length l) /\
  (forall x, in_ram (insert_mem start size l) x <-> start <= x < start + size \/ in_ram l x).
Proof.
  intros Hb Hl Hs. induction l as [|[a s] l IH].
  { cbn [insert_mem]. split_and!; [by constructor|by repeat constructor|done|done]. }
  cbn [insert_mem]. inversion Hl as [|? ? Ha Hl']; inversion Hs as [|? ? Hs' Hhd]; subst.
  destruct (Z.ltb_spec start a).
  { split_and!; [by constructor|constructor; [done|constructor; unfold addr_le; cbn; lia]|done|done]. }
  destruct (IH Hl' Hs') as (Hb1 & Hs1 & Hlen & Hin). split_and!.
  - by constructor.
  - constructor; [done|]. destruct l as [|[b t] l]; cbn [insert_mem].
    + constructor. unfold addr_le. cbn. lia.
    + inversion Hhd; subst. destruct (_ <? _); constructor; unfold addr_le in *; cbn in *; lia.
  - cbn [length]. by rewrite Hlen.
  - intros x. cbn [in_ram]. rewrite Hin. tauto.
Qed.

Lemma merge_mem_spec l : forall p,
  block_ok p -> Forall block_ok l -> Sorted addr_le (p :: l) ->
  ram_ok (merge_mem p l) /\ (length (merge_mem p l) <= S (length l))%nat /\
  Forall (fun q => fst p <= fst q) (merge_mem p l) /\
  forall x, in_ram (merge_mem p l) x <-> in_ram (p :: l) x.
Proof.
  induction l as [|[s size] l IH]; intros [a t] (H1 & H2 & H3) Hl Hs; cbn [merge_mem fst snd] in *.
  { split_and!; [|cbn; lia|by repeat constructor|done]. apply ram_ok_cons. by repeat constructor. }
  inversion Hl as [|? ? (H4 & H5 & H6) Hl']; inversion Hs as [|? ? Hs' Hhd]; subst.
  inversion Hhd as [|? ? Hle]; subst. unfold addr_le in Hle. cbn [fst snd] in *.
  rewrite (wrap_id 64 (a + t)), (wrap_id 64 (s + size)) by (unfold fits; lia).
  destruct (Z.leb_spec s (a + t)) as [Hm|Hm].
  - set (e := if a + t <? s + size then s + size else a + t).
    assert (He : e = Z.max (a + t) (s + size)) by (unfold e; zbool; lia).
    rewrite (wrap_id 64 (e - a)) by (unfold fits; lia).
    assert (Hs2 : Sorted addr_le ((a, e - a) :: l)).
    { inversion Hs' as [|? ? Hs'' Hhd']; subst. constructor; [done|].
      destruct l as [|[b u] l]; constructor. inversion Hhd'; subst. unfold addr_le in *. cbn in *. lia. }
    destruct (IH (a, e - a)) as (Hok & Hlen & Hge & Hin); [unfold block_ok; cbn; lia|done|done|].
    split_and!; [done|cbn; lia|done|]. intros x. rewrite Hin. cbn [in_ram].
    pose proof (Z.lt_ge_cases x s). pose proof (Z.lt_ge_cases x (a + t)). intuition lia.
  - destruct (IH (s, size)) as (Hok & Hlen & Hge & Hin); [unfold block_ok; cbn; lia|done|done|].
    split_and!.
    + apply ram_ok_cons. split_and!; [unfold block_ok; cbn; lia| |done].
      eapply Forall_impl; [exact Hge|]. intros q. unfold apart. cbn. lia.
    + cbn [length]. lia.
    + constructor; [cbn; lia|]. eapply Forall_impl; [exact Hge|]. cbn. lia.
    + intros x. cbn [in_ram]. rewrite Hin. done.
Qed.

Lemma ram_ok_sorted l : ram_ok l -> Sorted addr_le l.
Proof.
  intros [Hb Hs]. induction Hs as [|p l Hs IH Hp]; [constructor|].
  inversion Hb as [|? ? (? & ? & ?) Hb']; subst. constructor; [by apply IH|].
  destruct l as [|q l]; constructor. inversion Hp; subst. unfold apart, addr_le in *. lia.
Qed.

Definition RAM_LIST_MAX : Z := 190.

Lemma add_mem_spec l start size :
  ram_ok l -> 0 <= start -> 0 < size -> start + size < 2 ^ 64 -> zlen l <= RAM_LIST_MAX ->
  exists l', add_mem l start size = Ok l' /\ ram_ok l' /\ (length l' <= S (length l))%nat /\
    forall x, in_ram l' x <-> in_ram l x \/ start <= x < start + size.
Proof.
  intros Hok H0 Hsz Hend Hlen. unfold add_mem. rewrite (proj2 (Z.ltb_lt 0 size)) by done.
  unfold RAM_LIST_MAX in Hlen. destruct (Z.ltb_spec (MAX_RAM_LIST_SIZE - sizeof_ram_entry)
    ((zlen l + 1) * sizeof_ram_entry)) as [Ho|_]; [change (3072 - 16 < (zlen l + 1) * 16) in Ho; lia|].
  destruct (insert_mem_spec start size l) as (Hb & Hs & Hl1 & Hin);
    [unfold block_ok; cbn; lia|apply Hok|by apply ram_ok_sorted|].
  destruct (insert_mem start size l) as [|p r]; [done|].
  inversion Hb as [|? ? Hp Hb']; subst. destruct (merge_mem_spec r p) as (Hok' & Hl2 & _ & Hin2); try done.
  exists (merge_mem p r). split; [done|]. split; [done|]. cbn [length] in *.
  split; [lia|]. intros x. rewrite Hin2, Hin. tauto.
Qed.

(** C36.  [add_mem] keeps the RAM list canonical (non-empty blocks, in address order, no two of
    them overlapping or touching) and makes it describe the old addresses together with the new
    block, whatever the block overlaps or joins. *)
Theorem add_mem_correct l start size :
  ram_ok l -> 0 <= start -> 0 < size -> start + size < 2 ^ 64 -> zlen l <= RAM_LIST_MAX ->
  exists l', add_mem l start size = Ok l' /\ ram_ok l' /\ (length l' <= S (length l))%nat /\
    forall x, in_ram l' x <-> in_ram l x \/ start <= x < start + size.
Proof. apply add_mem_spec. Qed.

Lemma add_mem_full l start size :
  0 < size -> RAM_LIST_MAX < zlen l -> add_mem l start size = Err (Crash "RAM entry array overflow").
Proof.
  intros Hsz Hl. unfold add_mem, RAM_LIST_MAX in *. rewrite (proj2 (Z.ltb_lt 0 size)) by done.
  destruct (Z.ltb_spec (MAX_RAM_LIST_SIZE - sizeof_ram_entry) ((zlen l + 1) * sizeof_ram_entry)) as [|Ho];
    [done|change ((zlen l + 1) * 16 <= 3072 - 16) in Ho; lia].
Qed.

(** The crash of [add_mem] is exactly the overflow of its 3K array: with more than 190 blocks
    in the list adding one crashes, whatever it is. *)
Theorem add_mem_overflow l start size :
  0 < size -> add_mem l start size = Err (Crash "RAM entry array overflow") <-> RAM_LIST_MAX < zlen l.
Proof.
  intros Hsz. unfold add_mem, RAM_LIST_MAX. rewrite (proj2 (Z.ltb_lt 0 size)) by done.
  destruct (Z.ltb_spec (MAX_RAM_LIST_SIZE - sizeof_ram_entry) ((zlen l + 1) * sizeof_ram_entry)) as [Ho|Ho];
    [change (3072 - 16 < (zlen l + 1) * 16) in Ho|change ((zlen l + 1) * 16 <= 3072 - 16) in Ho].
  - split; [lia|done].
  - split; [|lia]. destruct (insert_mem start size l); done.
Qed.

(** *** Removing a block *)

Lemma ram_ok_app l k :
  ram_ok (l ++ k) <-> ram_ok l /\ ram_ok k /\ forall p q, p ∈ l -> q ∈ k -> apart p q.
Proof. unfold ram_ok. rewrite Forall_app, StronglySorted_app. naive_solver. Qed.

Lemma ram_ok_shrink pre a s tl a' s' :
  ram_ok (pre ++ (a, s) :: tl) -> block_ok (a', s') -> a <= a' -> a' + s' <= a + s ->
  ram_ok (pre ++ (a', s') :: tl).
Proof.
  rewrite !ram_ok_app, !ram_ok_cons. intros (Hp & (Hb & Ha & Ht) & Hx) Hb' H1 H2.
  split_and!; try done.
  - eapply Forall_impl; [done|]. unfold apart. cbn. lia.
  - intros p q Hpi [->|Hq]%elem_of_cons.
    + specialize (Hx p (a, s) Hpi ltac:(by left)). unfold apart in *. cbn in *. lia.
    + apply Hx; [done|by right].
Qed.

Lemma ram_ok_delete pre p tl : ram_ok (pre ++ p :: tl) -> ram_ok (pre ++ tl).
Proof.
  rewrite !ram_ok_app, ram_ok_cons. intros (Hp & (Hb & Ha & Ht) & Hx).
  split_and!; try done. intros q r Hq Hr. apply Hx; [done|by right].
Qed.

Lemma carve_disjoint addr end_ tl : forall pre fuel,
  ram_ok (pre ++ tl) -> addr < end_ -> (forall x, in_ram tl x -> ~ addr <= x < end_) ->
  (length tl < fuel)%nat -> carve fuel addr end_ (length pre) (pre ++ tl) = Ok (pre ++ tl).
Proof.
  induction tl as [|[s sz] tl IH]; intros pre fuel Hok Hlt Hno Hf;
    (destruct fuel as [|fuel]; [cbn in Hf; lia|]); cbn [carve].
  { by rewrite app_nil_r, lookup_ge_None_2. }
  rewrite list_lookup_middle by done. pose proof Hok as Hok1.
  apply ram_ok_app in Hok1 as (_ & ((H1 & H2 & H3) & _)%ram_ok_cons & _). cbn [fst snd in_ram] in *.
  rewrite (wrap_id 64 (s + sz)) by (unfold fits; lia).
  assert (Hnext : carve fuel addr end_ (S (length pre)) (pre ++ (s, sz) :: tl) = Ok (pre ++ (s, sz) :: tl)).
  { rewrite (app_assoc pre [(s, sz)] tl : pre ++ (s, sz) :: tl = _).
    replace (S (length pre)) with (length (pre ++ [(s, sz)])) by (rewrite length_app; cbn; lia).
    apply IH; [by rewrite <- app_assoc|done| |cbn in Hf; lia]. intros x Hx. apply Hno. by right. }
  pose proof (Hno s ltac:(lia)). pose proof (Hno addr). pose proof (Hno (end_ - 1)).
  assert (end_ <= s \/ s + sz <= addr) by lia.
  destruct (_ || _) eqn:Ht; [|done].
  assert (Heq : end_ = s) by (rewrite !orb_true_iff, !andb_true_iff, !Z.leb_le, !Z.ltb_lt in Ht; lia).
  subst end_. replace (if s + sz <? s then s else s + sz) with (s + sz) by (zbool; lia).
  replace (if addr <? s then addr else s) with addr by (zbool; lia).
  rewrite Z.eqb_refl. destruct (Z.eqb_spec s (s + sz)); [lia|]. cbn [andb].
  rewrite insert_middle.
  rewrite (wrap_id 64 (s + sz - s)) by (unfold fits; lia).
  by replace (s + sz - s) with sz by lia.
Qed.

Lemma carve_disjoint_at addr end_ l i fuel :
  ram_ok l -> addr < end_ -> (forall x, in_ram l x -> ~ addr <= x < end_) ->
  (length l < fuel + i)%nat -> (0 < fuel)%nat -> carve fuel addr end_ i l = Ok l.
Proof.
  intros Hok Hlt Hno Hf H0. destruct (decide (i <= length l)%nat).
  - rewrite <- (take_drop i l) in Hok, Hno |- *.
    replace i with (length (take i l)) at 1 by (rewrite length_take; lia).
    apply carve_disjoint; [done..| |rewrite length_drop; lia].
    intros x Hx. apply Hno, in_ram_app. by right.
  - destruct fuel as [|fuel]; [lia|]. cbn [carve]. rewrite lookup_ge_None_2 by lia. done.
Qed.

(** The outcome of the loop over [l]: the list is canonical and holds the old addresses outside the
    block, or its array was full when a block had to be split. *)
Definition carved (addr end_ : Z) (l : list (Z * Z)) (r : res (list (Z * Z))) : Prop :=
  (exists l', r = Ok l' /\ ram_ok l' /\ (length l' <= S (length l))%nat /\
     forall x, in_ram l' x <-> in_ram l x /\ ~ addr <= x < end_) \/
  (r = Err (Crash "RAM entry array overflow") /\ RAM_LIST_MAX < zlen l).

Lemma carved_room addr end_ l r : carved addr end_ l r -> zlen l <= RAM_LIST_MAX ->
  exists l', r = Ok l' /\ ram_ok l' /\ (length l' <= S (length l))%nat /\
     forall x, in_ram l' x <-> in_ram l x /\ ~ addr <= x < end_.
Proof. intros [?|[_ ?]] ?; [done|lia]. Qed.

(** The piece above the block is put back by [add_mem]; nothing after that is changed. *)
Lemma carve_split addr end_ pre s sz tl fuel :
  ram_ok (pre ++ (s, sz) :: tl) -> s < addr < end_ -> end_ < s + sz ->
  (forall x, in_ram pre x -> ~ addr <= x < end_) -> (S (length tl) < fuel)%nat ->
  carved addr end_ (pre ++ (s, sz) :: tl)
    (l2 ← add_mem (pre ++ (s, addr - s) :: tl) end_ (s + sz - end_);
     carve fuel addr end_ (S (length pre)) l2).
Proof.
  intros Hok Ha He Hpre Hf.
  pose proof Hok as (Hokp & ((H1 & H2 & H3) & Htl & Hokt)%ram_ok_cons & Hx)%ram_ok_app.
  cbn [fst snd] in *.
  assert (Hok2 : ram_ok (pre ++ (s, addr - s) :: tl)).
  { eapply ram_ok_shrink; [done|unfold block_ok; cbn; lia|lia|lia]. }
  assert (Hlen' : zlen (pre ++ (s, addr - s) :: tl) = zlen (pre ++ (s, sz) :: tl))
    by (unfold zlen; by rewrite !length_app).
  destruct (decide (zlen (pre ++ (s, sz) :: tl) <= RAM_LIST_MAX)) as [Hlen|Hlen]; cycle 1.
  { right. split; [|lia].
    assert (Hc : add_mem (pre ++ (s, addr - s) :: tl) end_ (s + sz - end_)
      = Err (Crash "RAM entry array overflow")) by (apply add_mem_full; lia).
    by rewrite Hc. }
  destruct (add_mem_spec (pre ++ (s, addr - s) :: tl) end_ (s + sz - end_))
    as (l2 & -> & Hok' & Hl2 & Hin); [done|lia..|].
  cbn [mbind res_bind].
  assert (Hset : forall x, in_ram l2 x <-> in_ram (pre ++ (s, sz) :: tl) x /\ ~ addr <= x < end_).
  { intros x. rewrite Hin, !in_ram_app. cbn [in_ram].
    assert (in_ram tl x -> s + sz < x) by (intros; by apply (in_ram_lt (s, sz) tl x)).
    pose proof (Hpre x). pose proof (Z.lt_ge_cases x addr). pose proof (Z.lt_ge_cases x end_).
    intuition lia. }
  left. exists l2. rewrite length_app in Hl2. cbn [length] in Hl2.
  split; [|split_and!; [done|rewrite length_app; cbn [length]; lia|done]].
  apply carve_disjoint_at; [done|lia| |lia|lia]. intros x Hx2. by apply Hset.
Qed.

(** What the loop leaves. *)
Lemma carve_spec addr end_ tl : forall pre fuel,
  ram_ok (pre ++ tl) -> 0 <= addr < end_ -> end_ < 2 ^ 64 ->
  (forall x, in_ram pre x -> ~ addr <= x < end_) -> (length tl + 1 < fuel)%nat ->
  carved addr end_ (pre ++ tl) (carve fuel addr end_ (length pre) (pre ++ tl)).
Proof.
  induction tl as [|[s sz] tl IH]; intros pre fuel Hok Hlt H64 Hpre Hf;
    (destruct fuel as [|fuel]; [lia|]); cbn [carve].
  { rewrite app_nil_r in *. rewrite lookup_ge_None_2 by done. left. exists pre. split_and!; auto.
    intros x. split; [|tauto]. eauto. }
  rewrite list_lookup_middle by done. cbn [length] in Hf.
  pose proof Hok as (Hokp & ((H1 & H2 & H3) & Htl & Hokt)%ram_ok_cons & _)%ram_ok_app.
  cbn [fst snd] in *. rewrite (wrap_id 64 (s + sz)) by (unfold fits; lia).
  assert (Hnext : forall s' sz', ram_ok (pre ++ (s', sz') :: tl) ->
    (forall x, s' <= x < s' + sz' <-> s <= x < s + sz /\ ~ addr <= x < end_) ->
    carved addr end_ (pre ++ (s, sz) :: tl)
      (carve fuel addr end_ (S (length pre)) (pre ++ (s', sz') :: tl))).
  { intros s' sz' Hok' Hx. assert (Hc := IH (pre ++ [(s', sz')]) fuel).
    replace (length (pre ++ [(s', sz')])) with (S (length pre)) in Hc by (rewrite length_app; cbn; lia).
    rewrite <- !app_assoc in Hc. cbn [app] in Hc.
    destruct Hc as [(l' & Hc & Hokl & Hll & Hin)|[Hc Hlen]]; try done; [|lia|left|right].
    - intros x [Hp|[Hx'|[]]]%in_ram_app; [by apply Hpre|]. by apply Hx.
    - exists l'. split; [done|]. split; [done|].
      split; [rewrite !length_app in *; cbn in *; lia|]. intros x.
      rewrite Hin, !in_ram_app. cbn. rewrite Hx. tauto.
    - split; [done|]. unfold zlen in *. rewrite !length_app in *. cbn in *. lia. }
  destruct (_ || _) eqn:Ht; cycle 1.
  { apply Hnext; [done|]. apply orb_false_iff in Ht as [[Ht1 Ht2]%orb_false_iff Ht3].
    rewrite !andb_false_iff, !Z.leb_gt, !Z.ltb_ge in *. lia. }
  rewrite !orb_true_iff, !andb_true_iff, !Z.leb_le, !Z.ltb_lt in Ht.
  set (e' := if s + sz <? end_ then end_ else s + sz). set (s' := if addr <? s then addr else s).
  assert (He' : e' = Z.max (s + sz) end_) by (unfold e'; zbool; lia).
  assert (Hs' : s' = Z.min s addr) by (unfold s'; zbool; lia).
  destruct (Z.eqb_spec addr s') as [Ha|Ha]; destruct (Z.eqb_spec end_ e') as [He|He]; cbn [andb].
  - rewrite delete_middle. destruct (IH pre fuel) as [(l' & Hc & Hokl & Hll & Hin)|[Hc Hlen]]; try done;
      [by eapply ram_ok_delete|lia|left|right].
    + exists l'. split_and!; [done..|rewrite !length_app in *; cbn in *; lia|]. intros x.
      rewrite Hin, !in_ram_app. cbn. intuition lia.
    + split; [done|]. unfold zlen in *. rewrite !length_app in *. cbn in *. lia.
  - rewrite insert_middle, He', (wrap_id 64) by (unfold fits; lia).
    apply Hnext; [|lia]. eapply ram_ok_shrink; [done|unfold block_ok; cbn; lia|lia|lia].
  - rewrite insert_middle, Hs', <- He, Z.eqb_refl, (wrap_id 64) by (unfold fits; lia).
    apply Hnext; [|lia]. eapply ram_ok_shrink; [done|unfold block_ok; cbn; lia|lia|lia].
  - rewrite insert_middle, (proj2 (Z.eqb_neq e' end_)) by lia.
    rewrite Hs', He', Z.min_l, Z.max_l, !(wrap_id 64) by (unfold fits; lia).
    apply carve_split; (done || lia).
Qed.

Lemma carve_ram_spec addr end_ l :
  ram_ok l -> 0 <= addr < end_ -> end_ < 2 ^ 64 -> carved addr end_ l (carve_ram addr end_ l).
Proof. intros. apply (carve_spec addr end_ l []); auto. lia. Qed.

(** *** Finding a block *)

(** The addresses the avoid list covers, as the searches read it. *)
Fixpoint avoided (av : list (Z * Z)) (x : Z) : Prop :=
  match av with
  | [] => False
  | (s, e) :: r => if e =? 0 then False else s <= x < e \/ avoided r x
  end.

Definition avoid_ok (av : list (Z * Z)) : Prop :=
  Forall (fun p => 0 <= fst p < snd p /\ snd p < 2 ^ 32) av.

Lemma fix_size_spec s e as_ ae s' e' :
  0 <= s < e -> e < 2 ^ 64 -> 0 <= as_ < ae -> ae < 2 ^ 64 ->
  fix_size s e as_ ae = Some (s', e') ->
  s <= s' < e' /\ e' <= e /\ (forall x, s' <= x < e' -> ~ as_ <= x < ae) /\
  ((s' = s /\ e' = e) \/ e' - s' = Z.max (as_ - s) (e - ae)).
Proof.
  intros Hs He Ha Hae. unfold fix_size.
  destruct (_ || _) eqn:H1; [intros [= <- <-]|].
  { apply orb_true_iff in H1 as [?%Z.leb_le|?%Z.leb_le]; split_and!; lia. }
  apply orb_false_iff in H1 as [H1%Z.leb_gt H2%Z.leb_gt].
  destruct (Z.leb_spec as_ s).
  { destruct (Z.leb_spec e ae); [done|]. intros [= <- <-]. split_and!; try lia. }
  destruct (Z.ltb_spec e ae); [intros [= <- <-]; split_and!; lia|].
  rewrite !(wrap_id 64) by (unfold fits; lia).
  destruct (Z.ltb_spec (e - ae) (as_ - s)); intros [= <- <-]; split_and!; lia.
Qed.

Lemma fix_size_None s e as_ ae :
  0 <= s < e -> e < 2 ^ 64 -> 0 <= as_ < ae ->
  fix_size s e as_ ae = None <-> forall x, s <= x < e -> as_ <= x < ae.
Proof.
  intros Hs He Ha. unfold fix_size. split.
  - destruct (_ || _); [done|]. destruct (Z.leb_spec as_ s); [|split_ifs; done].
    destruct (Z.leb_spec e ae); [|done]. intros _ x. lia.
  - intros Hx. pose proof (Hx s). pose proof (Hx (e - 1)).
    rewrite (proj2 (orb_false_iff _ _)) by (split; apply Z.leb_gt; lia).
    rewrite (proj2 (Z.leb_le as_ s)), (proj2 (Z.leb_le e ae)) by lia. done.
Qed.

(** [fix_size], which removes an avoid range from a candidate block: it gives up exactly when
    the whole candidate is avoided, and otherwise leaves a non-empty part of the candidate free of
    the range -- all of it when they do not meet, else the larger of the two remaining pieces. *)
Theorem fix_size_correct s e as_ ae :
  0 <= s < e -> e < 2 ^ 64 -> 0 <= as_ < ae -> ae < 2 ^ 64 ->
  match fix_size s e as_ ae with
  | None => forall x, s <= x < e -> as_ <= x < ae
  | Some (s', e') => s <= s' < e' /\ e' <= e /\ (forall x, s' <= x < e' -> ~ as_ <= x < ae) /\
      ((s' = s /\ e' = e) \/ e' - s' = Z.max (as_ - s) (e - ae))
  end.
Proof.
  intros. destruct (fix_size s e as_ ae) as [[s' e']|] eqn:Hf.
  - by apply fix_size_spec.
  - by apply fix_size_None.
Qed.

Lemma fix_all_spec av : forall s e s' e',
  0 <= s < e -> e < 2 ^ 64 -> avoid_ok av -> fix_all av s e = Some (s', e') ->
  s <= s' < e' /\ e' <= e /\ forall x, s' <= x < e' -> ~ avoided av x.
Proof.
  induction av as [|[as_ ae] av IH]; intros s e s' e' Hs He Hav; cbn [fix_all avoided].
  { intros [= <- <-]. split_and!; auto; lia. }
  inversion Hav as [|? ? [Ha1 Ha2] Hav']; subst. cbn [fst snd] in *.
  destruct (Z.eqb_spec ae 0); [lia|].
  destruct (fix_size s e as_ ae) as [[s1 e1]|] eqn:Hf; [|done]. cbn [mbind option_bind].
  intros Hall. apply fix_size_spec in Hf as (H1 & H2 & H3 & _); [|lia..].
  apply IH in Hall as (H4 & H5 & H6); [|lia..|done].
  split_and!; [lia..|]. intros x Hx [Ha|Ha]; [by apply (H3 x); [lia|]|by apply (H6 x)].
Qed.

Lemma in_ram_block (l : list (Z * Z)) a sz x : (a, sz) ∈ l -> a <= x < a + sz -> in_ram l x.
Proof.
  induction l as [|[b t] l IH]; [by intros ?%not_elem_of_nil|].
  intros [[= <- <-]|Hin]%elem_of_cons Hx; cbn; [by left|right; auto].
Qed.

(** [usable l av r size]: [size] bytes of RAM from [r] on, none of them avoided. *)
Definition usable (l av : list (Z * Z)) (r size : Z) : Prop :=
  forall x, r <= x < r + size -> in_ram l x /\ ~ avoided av x.

Lemma find_in_range_spec av l l0 rend size k r :
  ram_ok l -> (forall p, p ∈ l -> p ∈ l0) -> (forall x, in_ram l x -> x < 2 ^ 63) -> avoid_ok av ->
  0 <= k < 32 -> 0 < size -> 0 < rend ->
  find_in_range av l 0 rend size (2 ^ k) 0 0 = r -> r <> NULL_PADDR ->
  usable l0 av r size /\ 0 <= r /\ r + size <= rend /\ r mod 2 ^ k = 0.
Proof.
  intros Hok Hsub H63 Hav Hk Hsz Hre. revert r. induction l as [|[a sz] l IH]; intros r;
    cbn [find_in_range]; [by intros <-|].
  apply ram_ok_cons in Hok as ((H1 & H2 & H3) & _ & Hok). cbn [fst snd] in *.
  assert (Hsub' : forall p, p ∈ l -> p ∈ l0) by (intros; apply Hsub; by right).
  specialize (IH Hok Hsub' ltac:(intros; apply H63; by right)).
  rewrite (wrap_id 64 (a + sz)) by (unfold fits; lia).
  destruct (fix_all av a (a + sz)) as [[s e]|] eqn:Hf; [|by apply IH].
  apply fix_all_spec in Hf as (H4 & H5 & H6); [|lia..|done].
  unfold place_in. cbn [Z.eqb]. rewrite Z.land_0_r. cbn [Z.eqb].
  rewrite (proj2 (Z.eqb_neq rend 0)) by lia.
  set (e' := if rend <? e then rend else e).
  assert (He' : e' = Z.min rend e) by (unfold e'; zbool; lia).
  assert (2 ^ k < 2 ^ 32) by (apply Z.pow_lt_mono_r; lia).
  assert (s < 2 ^ 63) by (apply H63; left; lia).
  pose proof (ROUND_bounds s k ltac:(lia) ltac:(lia) ltac:(lia)) as [HR Hmod].
  destruct (Z.leb_spec e' (ROUND s (2 ^ k))) as [|Hlt]; [by apply IH|].
  rewrite (wrap_id 64) by (unfold fits; lia).
  destruct (Z.leb_spec size (e' - ROUND s (2 ^ k))) as [Hfit|]; [|by apply IH].
  intros <- _. split_and!; [|lia..|done]. intros x Hx. split; [|apply H6; lia].
  apply (in_ram_block l0 a sz); [apply Hsub; by left|lia].
Qed.

Definition ram_below (l : list (Z * Z)) : Prop := forall x, in_ram l x -> x < 2 ^ 63.

Lemma find_ram_spec s size k :
  ram_ok (ram_list s) -> ram_below (ram_list s) -> avoid_ok (avoids s) -> 0 <= k < 32 ->
  0 < size < 2 ^ 32 -> find_ram s size (2 ^ k) 0 0 <> NULL_PADDR_STARTUP ->
  let r := find_ram s size (2 ^ k) 0 0 in
  usable (ram_list s) (avoids s) r size /\ 0 <= r /\ r + size < 2 ^ 32 /\ r mod 2 ^ k = 0.
Proof.
  intros Hok Hb Hav Hk Hsz. unfold find_ram, find_ram_in_range.
  rewrite (wrap_id 32 size) by (unfold fits; lia). change (u32 (2 ^ 64 - 1)) with (2 ^ 32 - 1).
  set (r := find_in_range _ _ _ _ _ _ _ _). destruct (Z.eqb_spec r NULL_PADDR) as [|Hr]; [done|].
  intros _. destruct (find_in_range_spec (avoids s) (ram_list s) (ram_list s) (2 ^ 32 - 1) size k r)
    as (Hu & H0 & Hend & Hmod); try done; [lia|].
  rewrite (wrap_id 32 r) by (unfold fits; lia). split_and!; (done || lia).
Qed.

(** What [find_ram] returns, when it finds something, is usable: an aligned block of RAM
    below 4G that meets no avoid range. *)
Theorem find_ram_correct s size k :
  ram_ok (ram_list s) -> ram_below (ram_list s) -> avoid_ok (avoids s) -> 0 <= k < 32 ->
  0 < size < 2 ^ 32 -> find_ram s size (2 ^ k) 0 0 <> NULL_PADDR_STARTUP ->
  let r := find_ram s size (2 ^ k) 0 0 in
  usable (ram_list s) (avoids s) r size /\ 0 <= r /\ r + size < 2 ^ 32 /\ r mod 2 ^ k = 0.
Proof. apply find_ram_spec. Qed.

(** The state a caller of [alloc_ram] may be in before [add_sysram]. *)
Record ram_inv (s : ram_state) : Prop := {
  ri_ok : ram_ok (ram_list s);
  ri_below : ram_below (ram_list s);
  ri_avoid : avoid_ok (avoids s)
}.

(** C33.  [alloc_ram] of a fixed block, before [add_sysram]: it removes from the RAM list exactly
    the addresses of the block (which may cover several entries, parts of them, or the middle of
    one), keeps the list canonical and leaves everything else of the state alone. *)
Theorem alloc_ram_fixed C H s addr size align :
  ram_inv s -> zlen (ram_list s) <= RAM_LIST_MAX -> sysram_added s = false ->
  0 <= addr -> 0 < size -> addr + size < 2 ^ 64 ->
  exists l, alloc_ram C H s addr size align = Ok (with_ram s l, addr) /\ ram_ok l /\
    forall x, in_ram l x <-> in_ram (ram_list s) x /\ ~ addr <= x < addr + size.
Proof.
  intros [Hok Hb Hav] Hlen Hsys H0 Hsz H64. unfold alloc_ram, NULL_PADDR.
  rewrite (proj2 (Z.eqb_neq addr _)) by lia. unfold alloc_at.
  rewrite (wrap_id 64 (addr + size)) by (unfold fits; lia).
  destruct (carved_room addr (addr + size) (ram_list s) _ (carve_ram_spec addr (addr + size)
    (ram_list s) Hok ltac:(lia) H64) Hlen) as (l & -> & Hokl & _ & Hin).
  cbn [mbind res_bind]. rewrite Hsys. eauto.
Qed.

(** A block taken from [s]. *)
Record ram_taken (C : startup_config) (s s' : ram_state) (a size k : Z) : Prop := {
  rt_usable : usable (ram_list s) (avoids s) a size;
  rt_range : 0 <= a /\ a + size < 2 ^ 32;
  rt_align : a mod 2 ^ k = 0;
  rt_ok : ram_ok (ram_list s');
  rt_avoid : avoids s' = avoids s;
  rt_sysram : sysram_added s' = sysram_added s;
  rt_left : forall x, in_ram (ram_list s') x <-> in_ram (ram_list s) x /\ ~ a <= x < a + size;
  rt_cleared : cleared s' = if secure_system C then (a, size) :: cleared s else cleared s
}.

Lemma alloc_ram_spec C H s size k :
  ram_inv s -> sysram_added s = false -> 0 <= k < 32 -> 0 < size < 2 ^ 32 ->
  (alloc_ram C H s NULL_PADDR size (2 ^ k) = Ok (s, NULL_PADDR) /\
     find_ram s size (2 ^ k) 0 0 = NULL_PADDR_STARTUP) \/
  (alloc_ram C H s NULL_PADDR size (2 ^ k) = Err (Crash "RAM entry array overflow") /\
     RAM_LIST_MAX < zlen (ram_list s)) \/
  exists s' a, alloc_ram C H s NULL_PADDR size (2 ^ k) = Ok (s', a) /\ ram_taken C s s' a size k.
Proof.
  intros [Hok Hb Hav] Hsys Hk Hsz. unfold alloc_ram. cbn [Z.eqb].
  rewrite Z.eqb_refl, (wrap_id 32 size) by (unfold fits; lia). cbv zeta.
  destruct (Z.eqb_spec (find_ram s size (2 ^ k) 0 0) NULL_PADDR_STARTUP) as [Hn|Hn]; [by left|right].
  destruct (find_ram_spec s size k Hok Hb Hav Hk Hsz Hn) as (Hu & H0 & Hend & Hmod).
  set (a := find_ram s size (2 ^ k) 0 0) in *.
  unfold alloc_at. rewrite (wrap_id 64 (a + size)) by (unfold fits; lia).
  destruct (carve_ram_spec a (a + size) (ram_list s) Hok ltac:(lia) ltac:(lia))
    as [(l & Hc & Hokl & _ & Hin)|[Hc Hlen]]; [right|left].
  - destruct (secure_system C) eqn:Hsec; cbn [ram_list with_cleared sysram_added];
      rewrite Hc; cbn [mbind res_bind]; rewrite Hsys; eexists _, _; (split; [reflexivity|]);
      split; try done; cbn; rewrite Hsec; done.
  - split; [|done]. destruct (secure_system C); cbn [ram_list with_cleared]; by rewrite Hc.
Qed.

(** C34.  [alloc_ram] with a null address, before [add_sysram]: it reports the null address and
    changes nothing, or returns an aligned block below 4G that was RAM and not avoided, removes
    exactly this block from the RAM list and, on a secure system only, clears it. *)
Theorem alloc_ram_fresh C H s size k :
  ram_inv s -> zlen (ram_list s) <= RAM_LIST_MAX -> sysram_added s = false ->
  0 <= k < 32 -> 0 < size < 2 ^ 32 ->
  (alloc_ram C H s NULL_PADDR size (2 ^ k) = Ok (s, NULL_PADDR) /\
     find_ram s size (2 ^ k) 0 0 = NULL_PADDR_STARTUP) \/
  exists s' a, alloc_ram C H s NULL_PADDR size (2 ^ k) = Ok (s', a) /\ ram_taken C s s' a size k.
Proof.
  intros Hi Hlen Hsys Hk Hsz.
  destruct (alloc_ram_spec C H s size k Hi Hsys Hk Hsz) as [?|[[_ ?]|?]]; [by left|lia|by right].
Qed.

(** *** From the top of RAM *)

Lemma find_top_spec av l l0 size align k : forall top,
  ram_ok l -> (forall p, p ∈ l -> p ∈ l0) -> avoid_ok av ->
  (align = 0 \/ (align = 2 ^ k /\ 0 <= k < 64)) -> 0 < size < 2 ^ 64 ->
  let r := find_top av l size align top in
  top <= r /\ (r = top \/
    (usable l0 av r size /\ 0 <= r /\ r + size < 2 ^ 64 /\ (align = 0 \/ r mod align = 0))).
Proof.
  induction l as [|[a sz] l IH]; intros top Hok Hsub Hav Hal Hsz; cbn [find_top]; [split; [lia|by left]|].
  apply ram_ok_cons in Hok as ((H1 & H2 & H3) & _ & Hok). cbn [fst snd] in *.
  assert (Hsub' : forall p, p ∈ l -> p ∈ l0) by (intros; apply Hsub; by right).
  rewrite (wrap_id 64 (a + sz)) by (unfold fits; lia).
  set (top' := match fix_all av a (a + sz) with None => top | Some _ => _ end).
  assert (top <= top' /\ (top' = top \/
    (usable l0 av top' size /\ 0 <= top' /\ top' + size < 2 ^ 64 /\ (align = 0 \/ top' mod align = 0))))
    as [Hle Htop].
  { unfold top'. destruct (fix_all av a (a + sz)) as [[s e]|] eqn:Hf; [|split; [lia|by left]].
    apply fix_all_spec in Hf as (H4 & H5 & H6); [|lia..|done].
    rewrite (wrap_id 64 (e - s)) by (unfold fits; lia).
    destruct (Z.leb_spec size (e - s)) as [Hfit|]; [|split; [lia|by left]].
    set (chk := if align =? 0 then u64 (e - size) else TRUNC (e - size) align).
    assert (Hchk : chk <= e - size /\ (align = 0 \/ chk mod align = 0)).
    { unfold chk. destruct Hal as [->|[-> Hk]].
      - cbn [Z.eqb]. rewrite wrap_id by (unfold fits; lia). lia.
      - assert (0 < 2 ^ k) by (apply Z.pow_pos_nonneg; lia).
        rewrite (proj2 (Z.eqb_neq (2 ^ k) 0)) by lia. rewrite TRUNC_pow2 by (unfold fits; lia).
        pose proof (Z.mod_pos_bound (e - size) (2 ^ k) ltac:(lia)). split; [lia|right].
        rewrite Zminus_mod_idemp_r, Z.sub_diag. apply Z.mod_0_l. lia. }
    destruct (Z.leb_spec s chk); [|split; [lia|by left]].
    destruct (Z.ltb_spec top chk); [|split; [lia|by left]]. split; [lia|right].
    split_and!; [|lia|lia|apply Hchk]. intros x Hx. split; [|apply H6; lia].
    apply (in_ram_block l0 a sz); [apply Hsub; by left|lia]. }
  destruct (IH top' Hok Hsub' Hav Hal Hsz) as [Hle2 Htop2]. cbv zeta. split; [lia|].
  destruct Htop2 as [->|?]; [done|by right].
Qed.

Lemma find_top_ram_spec s size align k pagesize :
  ram_ok (ram_list s) -> avoid_ok (avoids s) ->
  (align = 0 \/ (align = 2 ^ k /\ 0 <= k < 64)) -> 0 < ROUND size pagesize < 2 ^ 64 ->
  find_top_ram_aligned s size align pagesize <> NULL_PADDR ->
  let r := find_top_ram_aligned s size align pagesize in
  usable (ram_list s) (avoids s) r (ROUND size pagesize) /\ 0 < r /\
  r + ROUND size pagesize < 2 ^ 64 /\ (align = 0 \/ r mod align = 0).
Proof.
  intros Hok Hav Hal Hsz. unfold find_top_ram_aligned.
  destruct (find_top_spec (avoids s) (ram_list s) (ram_list s) (ROUND size pagesize) align k 0)
    as [H0 Hr]; try done.
  destruct (Z.eqb_spec (find_top (avoids s) (ram_list s) (ROUND size pagesize) align 0) 0); [done|].
  intros _. cbv zeta. destruct Hr as [?|(? & ? & ? & ?)]; [done|]. split_and!; (done || lia).
Qed.

(** [find_top_ram_aligned]: what it returns, when it finds something, is a usable block of the
    size rounded up to whole pages, with the alignment asked for. *)
Theorem find_top_ram_correct s size align k pagesize :
  ram_ok (ram_list s) -> avoid_ok (avoids s) ->
  (align = 0 \/ (align = 2 ^ k /\ 0 <= k < 64)) -> 0 < ROUND size pagesize < 2 ^ 64 ->
  find_top_ram_aligned s size align pagesize <> NULL_PADDR ->
  let r := find_top_ram_aligned s size align pagesize in
  usable (ram_list s) (avoids s) r (ROUND size pagesize) /\ 0 < r /\
  r + ROUND size pagesize < 2 ^ 64 /\ (align = 0 \/ r mod align = 0).
Proof. apply find_top_ram_spec. Qed.

(** *** The workspace *)

Lemma avoided_app l k x : avoid_ok l -> avoided (l ++ k) x <-> avoided l x \/ avoided k x.
Proof.
  induction 1 as [|[s e] l [H1 H2] _ IH]; cbn [app avoided]; [tauto|]. cbn [fst snd] in *.
  destruct (Z.eqb_spec e 0); [lia|]. rewrite IH. tauto.
Qed.

Lemma avoid_add_spec l start size :
  l <> [] -> avoid_ok l -> 0 <= start -> 0 < size -> start + size < 2 ^ 32 -> zlen l <= 126 ->
  exists l', avoid_add l start size = Ok l' /\ l' <> [] /\ avoid_ok l' /\ zlen l' <= zlen l + 1 /\
    forall x, avoided l' x <-> avoided l x \/ start <= x < start + size.
Proof.
  intros Hne Hok H0 Hsz H32 Hlen. unfold avoid_add.
  destruct (last l) as [[s e]|] eqn:Hl; [|by apply last_None in Hl].
  apply last_Some in Hl as (l0 & ->). pose proof Hok as [Hok0 [[Hse He] _]%Forall_cons]%Forall_app.
  cbn [fst snd] in *. destruct (Z.eqb_spec e start) as [->|Hes].
  - rewrite removelast_last, (wrap_id 32 (start + size)) by (unfold fits; lia).
    eexists. split; [done|]. split_and!; [by destruct l0| |zlen_simpl; lia|].
    + apply Forall_app. split; [done|]. repeat constructor; cbn; lia.
    + intros x. rewrite !avoided_app by done. cbn [avoided].
      destruct (Z.eqb_spec start 0); [lia|]. destruct (Z.eqb_spec (start + size) 0); [lia|].
      pose proof (Z.lt_ge_cases x start). intuition lia.
  - rewrite (proj2 (Z.leb_le _ _)) by (unfold sizeof_avoid_entry, MAX_AVOID_LIST_SIZE, KILO; lia).
    rewrite (wrap_id 32 (start + size)) by (unfold fits; lia).
    eexists. split; [done|]. split_and!; [by destruct l0| |zlen_simpl; lia|].
    + apply Forall_app. split; [done|]. repeat constructor; cbn; lia.
    + intros x. rewrite avoided_app by done. cbn [avoided].
      destruct (Z.eqb_spec (start + size) 0); [lia|]. intuition lia.
Qed.

(** The workspace invariant: the avoid list exists, is readable to its end, and until RAM is known
    everything handed out lies below [ws_early_next]. *)
Record ws_inv (s : ram_state) : Prop := {
  wi_some : exists av, avoid_list s = Some av /\ av <> [] /\ avoid_ok av;
  wi_early : ram_list s = [] -> 0 <= ws_early_next s /\
    forall x, avoided (avoids s) x -> x < ws_early_next s
}.

Lemma ws_init_spec C s :
  0 <= shdr_ram_paddr C -> 0 < shdr_startup_size C <= shdr_ram_size C ->
  shdr_ram_paddr C + shdr_ram_size C < 2 ^ 32 - 5000 ->
  exists s', ws_init C s = Ok s' /\ ws_inv s' /\ ram_list s' = [] /\
    zlen (avoids s') <= 2 /\ (forall x, avoided (avoids s') x <->
      ROUND (shdr_ram_paddr C + shdr_ram_size C) 8 <= x < ws_early_next s' \/
      shdr_ram_paddr C <= x < shdr_ram_paddr C + shdr_startup_size C).
Proof.
  intros H0 Hs Hr. unfold ws_init. change (ROUND MAX_AVOID_LIST_SIZE 8) with 1024.
  change (u32 (ROUND MAX_RAM_LIST_SIZE 8)) with 3072.
  rewrite (wrap_id 32 (shdr_ram_paddr C + shdr_ram_size C)) by (unfold fits; lia).
  pose proof (ROUND_bounds (shdr_ram_paddr C + shdr_ram_size C) 3 ltac:(lia) ltac:(lia) ltac:(lia))
    as [Hb _]. change (2 ^ 3) with 8 in Hb.
  set (e := ROUND (shdr_ram_paddr C + shdr_ram_size C) 8) in *.
  rewrite (wrap_id 32 e) by (unfold fits; lia).
  rewrite (wrap_id 32 (e + 1024)) by (unfold fits; lia). cbv zeta.
  assert (Hav1 : avoid_add [(e, e + 1024)] (e + 1024) 3072 = Ok [(e, e + 4096)]).
  { unfold avoid_add. cbn [last]. rewrite Z.eqb_refl. cbn [removelast app].
    rewrite wrap_id by (unfold fits; lia). by rewrite <- Z.add_assoc. }
  rewrite Hav1. cbn [mbind res_bind].
  destruct (avoid_add_spec [(e, e + 4096)] (shdr_ram_paddr C) (shdr_startup_size C))
    as (av2 & -> & Hne2 & Hok2 & Hl2 & Hin2);
    [done|apply Forall_singleton; cbn; lia|lia..|by vm_compute|].
  cbn [mbind res_bind]. eexists. split; [done|].
  rewrite (wrap_id 32 (e + 1024 + 3072)) by (unfold fits; lia).
  assert (Hset : forall x, avoided av2 x <-> e <= x < e + 1024 + 3072 \/
    shdr_ram_paddr C <= x < shdr_ram_paddr C + shdr_startup_size C).
  { intros x. rewrite Hin2. cbn [avoided]. destruct (Z.eqb_spec (e + 4096) 0); [lia|].
    intuition lia. }
  split_and!; cbn; [split; cbn|done|exact Hl2|done].
  - by exists av2.
  - intros _. split; [lia|]. intros x Hx. apply Hset in Hx. lia.
Qed.

(** [ws_init] builds a valid workspace: the avoid list covers exactly the 4K work area behind
    the image and the memory of startup itself, and everything on it lies below the next address
    to hand out. *)
Theorem ws_init_correct C s :
  0 <= shdr_ram_paddr C -> 0 < shdr_startup_size C <= shdr_ram_size C ->
  shdr_ram_paddr C + shdr_ram_size C < 2 ^ 32 - 5000 ->
  exists s', ws_init C s = Ok s' /\ ws_inv s' /\ ram_list s' = [] /\
    zlen (avoids s') <= 2 /\ (forall x, avoided (avoids s') x <->
      ROUND (shdr_ram_paddr C + shdr_ram_size C) 8 <= x < ws_early_next s' \/
      shdr_ram_paddr C <= x < shdr_ram_paddr C + shdr_startup_size C).
Proof. apply ws_init_spec. Qed.

(** What a successful [ws_alloc] guarantees of the block at [p]. *)
Record ws_block (s s' : ram_state) (p size : Z) : Prop := {
  wb_inv : ws_inv s';
  wb_new : forall x, p <= x < p + size -> ~ avoided (avoids s) x;
  wb_avoid : forall x, avoided (avoids s') x <-> avoided (avoids s) x \/ p <= x < p + size;
  wb_ram : ram_list s' = ram_list s;
  wb_in : ram_list s <> [] -> forall x, p <= x < p + size -> in_ram (ram_list s) x;
  wb_len : zlen (avoids s') <= zlen (avoids s) + 1
}.

Lemma avoid_ram_spec C s start size :
  ws_inv s -> 0 <= start -> 0 < size -> start + size < 2 ^ 32 -> zlen (avoids s) <= 126 ->
  exists s' av', avoid_ram C s start size = Ok s' /\ s' = with_avoid s av' /\ av' <> [] /\
    avoid_ok av' /\ zlen av' <= zlen (avoids s) + 1 /\
    forall x, avoided av' x <-> avoided (avoids s) x \/ start <= x < start + size.
Proof.
  intros [(av & Hav & Hne & Hok) _] H0 Hsz H32 Hlen.
  assert (Has : avoids s = av) by (unfold avoids; by rewrite Hav). rewrite Has in *.
  destruct (avoid_add_spec av start size) as (av' & Ha & Hne' & Hok' & Hl' & Hin); try done.
  exists (with_avoid s av'), av'. split_and!; try done.
  unfold avoid_ram. rewrite Hav. cbn [mbind res_bind mret res_ret]. by rewrite Has, Ha.
Qed.

(** [ws_alloc] with room in the avoid array: either no RAM is usable and it returns the null
    pointer without changing anything, or it returns a block no earlier call returned and no avoid
    range meets, all of it RAM once RAM is known, and adds exactly this block to the avoid list.
    By the invariant this holds of every sequence of calls, so the blocks never overlap. *)
Theorem ws_alloc_correct C s size :
  ws_inv s -> ram_inv s -> 0 < size -> ROUND size 8 < 2 ^ 31 -> size < 2 ^ 31 -> zlen (avoids s) <= 126 ->
  (ram_list s = [] -> ws_early_next s + ROUND size 8 < 2 ^ 32) ->
  (ws_alloc C s size = Ok (s, None) /\ find_ram s (ROUND size 8) 8 0 0 = NULL_PADDR_STARTUP) \/
  exists s' p, ws_alloc C s size = Ok (s', Some p) /\ ws_block s s' p (ROUND size 8).
Proof.
  intros Hw Hr Hsz HR HRs Hlen Hearly. pose proof Hw as [(av & Hav & Hne & Hok) He].
  unfold ws_alloc. rewrite Hav. cbn [mbind res_bind mret res_ret]. cbv zeta.
  pose proof (ROUND_bounds size 3 ltac:(lia) ltac:(lia) ltac:(lia)) as [HR2 _]. change (2 ^ 3) with 8 in HR2.
  rewrite (wrap_id 32 (ROUND size 8)) by (unfold fits; lia).
  destruct (ram_list s) as [|b r] eqn:Hram.
  - right. destruct (He eq_refl) as [H0 Hbelow]. specialize (Hearly eq_refl).
    rewrite (wrap_id 32 (_ + _)) by (unfold fits; lia).
    set (s1 := with_early s (ws_early_next s + ROUND size 8)).
    assert (Hw1 : ws_inv s1).
    { split; [by exists av|]. cbn. intros _. split; [lia|]. intros x Hx. apply Hbelow in Hx. lia. }
    destruct (avoid_ram_spec C s1 (ws_early_next s) (ROUND size 8))
      as (s' & av' & -> & -> & Hne' & Hok' & Hl' & Hin); [done|lia..|done|].
    eexists _, _. split; [done|]. split; cbn.
    + split; [by exists av'|]. cbn. intros _. split; [lia|]. intros x Hx. apply Hin in Hx as [Hx|Hx]; [|lia].
      apply Hbelow in Hx. lia.
    + intros x Hx Ha. apply Hbelow in Ha. lia.
    + exact Hin.
    + done.
    + done.
    + done.
  - destruct (Z.eqb_spec (find_ram s (ROUND size 8) 8 0 0) NULL_PADDR_STARTUP) as [Hn|Hn]; [by left|right].
    destruct Hr as [Hrok Hrb Hra].
    destruct (find_ram_spec s (ROUND size 8) 3 Hrok Hrb Hra) as (Hu & H0 & Hend & _);
      [lia|lia|done|]. change (2 ^ 3) with 8 in *. set (p := find_ram s (ROUND size 8) 8 0 0) in *.
    destruct (avoid_ram_spec C s p (ROUND size 8))
      as (s' & av' & -> & -> & Hne' & Hok' & Hl' & Hin); [done|lia..|done|].
    eexists _, _. split; [done|]. split; cbn.
    + split; [by exists av'|]. cbn. by rewrite Hram.
    + intros x Hx. by apply Hu.
    + exact Hin.
    + done.
    + intros _ x Hx. by apply Hu.
    + done.
Qed.

(** [avoid_ram] does not check for the end of its array: with 127 ranges on the list that the
    new one does not extend, the code writes the terminator outside it. *)
Theorem avoid_ram_overflow C s av start size s0 e0 :
  avoid_list s = Some av -> zlen av = 127 -> last av = Some (s0, e0) -> e0 <> start ->
  avoid_ram C s start size = Err BadAccess.
Proof.
  intros Hav Hlen Hl Hne.
  assert (Has : avoids s = av) by (unfold avoids; by rewrite Hav).
  unfold avoid_ram. rewrite Hav. cbn [mbind res_bind mret res_ret]. rewrite Has.
  unfold avoid_add. rewrite Hl, Hlen, (proj2 (Z.eqb_neq e0 start)) by done. done.
Qed.

(** ** The RAM list as a page allocator *)

Section Allocator.
Context (C : startup_config) (H : as_header).

#[export] Instance ram_alloc : PageAlloc ram_state := {
  pa_calloc := calloc_ram C H;
  pa_ok := fun s => ram_inv s /\ sysram_added s = false;
  pa_free := fun s x => in_ram (ram_list s) x /\ ~ avoided (avoids s) x
}.

#[export] Instance ram_alloc_laws : PageAllocLaws ram_state.
Proof.
  split. intros s s' p size k [Hi Hsys] Hsz Hk Hc Hnn. cbn in Hc. unfold calloc_ram in Hc.
  rewrite (wrap_id 32 size) in Hc by (unfold fits; lia).
  destruct (alloc_ram_spec C H s size k Hi Hsys Hk ltac:(lia)) as [[Ha _]|[[Ha _]|(s1 & a & Ha & Ht)]];
    rewrite Ha in Hc; cbn [mbind res_bind] in Hc; [|done|].
  { change (u32 NULL_PADDR) with NULL_PADDR_STARTUP in Hc. cbn in Hc. by injection Hc as <- <-. }
  destruct Ht as [Hu [H0 Hend] Hal Hok Hav Hss Hleft _]. pose proof Hi as [_ Hb Hao].
  rewrite (wrap_id 32 a) in Hc by (unfold fits; lia).
  assert (Hs1 : ram_inv s1 /\ sysram_added s1 = false).
  { split; [split|congruence]; [done| |by rewrite Hav].
    intros x Hx%Hleft. apply Hb, Hx. }
  assert (Hblk : forall s2, ram_list s2 = ram_list s1 -> avoids s2 = avoids s1 ->
    sysram_added s2 = sysram_added s1 -> page_block s s2 a size (2 ^ k)).
  { intros s2 H1 H2 H3. destruct Hs1 as [[I1 I2 I3] Hs1]. split; cbn; try done.
    - split; [split|congruence]; [by rewrite H1| |by rewrite H2]. intros x. rewrite H1. apply I2.
    - intros x. rewrite H1, H2, Hleft, Hav. tauto. }
  destruct (_ && _); injection Hc as <- <-; by apply Hblk.
Qed.

End Allocator.
