(* ===== verification/Cmdline.v ===== *)
(** * Cmdline: editing the boot command line (startup/lib/bootstrap_cmdline.c).

    A [struct bootargs_entry] is part of the boot image: a header of eight bytes and then the
    argument strings followed by the environment strings.  The code moves the bytes behind an
    edited entry in place, so the model is the memory that holds the structure, as bytes. *)

From S2P Require Import Prelude.
From S2P Require Import Sections.
From S2P Require Import Strings.

(** ** The code *)

(** Offsets of the members of [struct bootargs_entry]. *)
Definition BA_size_lo : Z := 0.
Definition BA_size_hi : Z := 1.
Definition BA_argc : Z := 2.
Definition BA_envc : Z := 3.
Definition BA_shdr_addr : Z := 4.
Definition BA_args : Z := 8.

(** [while(start != 0) { p += strlen(p) + 1; --start; }] *)
Fixpoint skip_entries (start : nat) (m : list Z) (p : Z) : res Z :=
  match start with
  | O => mret p
  | S start =>
      n ← get_or_bad (strlen (drop (Z.to_nat p) m));
      skip_entries start m (p + (n + 1))
  end.

(** The second loop: [(true, p, sub_len)] at the entry equal to [old], [(false, p, _)] past the
    last one. *)
Fixpoint find_entry (num : nat) (m : list Z) (old : option (list Z)) (p sub_len : Z)
  : res (bool * Z * Z) :=
  match num with
  | O => mret (false, p, sub_len)
  | S num =>
      n ← get_or_bad (strlen (drop (Z.to_nat p) m));
      let sub_len := u32 (n + 1) in
      eq ← match old with
           | Some o => get_or_bad (streq o (drop (Z.to_nat p) m))
           | None => mret false
           end;
      if eq : bool then mret (true, p, sub_len)
      else find_entry num m old (p + sub_len) sub_len
  end.

(** [memmove(p, src, end - src); memcpy(p, new, add_len);]: both must stay inside the memory. *)
Definition move_entry (m : list Z) (p src end_ : Z) (new : list Z) : res (list Z) :=
  let n := end_ - src in
  if (src <? 0) || (n <? 0) || (zlen m <? end_) || (zlen m <? p + n) || (zlen m <? p + zlen new)
  then Err BadAccess
  else mret (splice (splice m p (slice m src n)) p new).

(** From the label [do_operation] on: [sub_len] bytes at [p] give way to the new entry. *)
Definition do_operation (m : list Z) (bap : Z) (old new : option (list Z)) (p sub_len : Z)
    (countp count : Z) : res (list Z * Z) :=
  let '(m, add_len, bytes) :=
    match new with
    | None => (set_byte m countp (count - 1), 0, [])
    | Some s =>
        (if bool_decide (old = None) then set_byte m countp (count + 1) else m,
         u32 (zlen s + 1), s ++ [0])
    end in
  lo ← get_or_bad (byte_at m (bap + BA_size_lo));
  hi ← get_or_bad (byte_at m (bap + BA_size_hi));
  let total_len := u32 (lo + Z.shiftl hi 8) in
  let diff := s32 (add_len - sub_len) in
  let src := p - diff in
  m ← move_entry m p src (bap + BA_args + (total_len - BA_args)) bytes;
  let total_len := u32 (total_len + diff) in
  let m := set_byte m (bap + BA_size_lo) (Z.land total_len 255) in
  let m := set_byte m (bap + BA_size_hi) (Z.shiftr total_len 8) in
  mret (m, 1).

Definition do_adjust (m : list Z) (bap : Z) (old new : option (list Z)) (start : Z) (countp : Z)
  : res (list Z * Z) :=
  count ← get_or_bad (byte_at m countp);
  let num := u32 (signed 8 count) in
  p ← skip_entries (Z.to_nat start) m (bap + BA_args);
  '(found, p, sub_len) ← find_entry (Z.to_nat num) m old p 0;
  if found : bool then do_operation m bap old new p sub_len countp count
  else if bool_decide (old = None) then do_operation m bap old new p 0 countp count
  else mret (m, 0).

Definition bootstrap_arg_adjust (m : list Z) (bap : Z) (old new : option (list Z))
  : res (list Z * Z) :=
  do_adjust m bap old new 0 (bap + BA_argc).

Definition bootstrap_env_adjust (m : list Z) (bap : Z) (old new : option (list Z))
  : res (list Z * Z) :=
  argc ← get_or_bad (byte_at m (bap + BA_argc));
  do_adjust m bap old new (u32 (signed 8 argc)) (bap + BA_envc).

(** ** The structure in memory *)

(** A boot command line: what precedes it in memory, the member the code never touches, the two
    lists of strings, the unused bytes its size includes, and what follows it. *)
Record bootargs := {
  ba_before : list Z;
  ba_shdr : list Z;
  ba_argv : list (list Z);
  ba_env : list (list Z);
  ba_pad : list Z;
  ba_after : list Z
}.

Definition ba_size (b : bootargs) : Z :=
  BA_args + zlen (flat (ba_argv b)) + zlen (flat (ba_env b)) + zlen (ba_pad b).

Definition ba_header (size argc envc : Z) : list Z := [size mod 256; size / 256; argc; envc].

Definition ba_head (b : bootargs) : list Z :=
  ba_before b ++
  ba_header (ba_size b) (zlen (ba_argv b)) (zlen (ba_env b)) ++ ba_shdr b.

Definition ba_memory (b : bootargs) : list Z :=
  ba_head b ++ flat (ba_argv b) ++ flat (ba_env b) ++ ba_pad b ++ ba_after b.

Definition ba_ok (b : bootargs) : Prop :=
  Forall cname (ba_argv b) /\ Forall cname (ba_env b) /\ zlen (ba_shdr b) = 4 /\
  zlen (ba_argv b) < 128 /\ zlen (ba_env b) < 128 /\ ba_size b < 2 ^ 16.

(** The edit the callers ask for: the first entry equal to [old] is replaced by [new], or removed;
    without [old], [new] is added at the end. *)
Fixpoint edit_first (l : list (list Z)) (old : list Z) (by_ : list (list Z))
  : option (list (list Z)) :=
  match l with
  | [] => None
  | x :: r => if decide (x = old) then Some (by_ ++ r)
              else option_map (cons x) (edit_first r old by_)
  end.

Definition edit (l : list (list Z)) (old new : option (list Z)) : option (list (list Z)) :=
  let by_ := match new with Some n => [n] | None => [] end in
  match old with
  | Some o => edit_first l o by_
  | None => Some (l ++ by_)
  end.

(** ** Moving the bytes behind an entry *)

Lemma split_at_zlen (l : list Z) k : 0 <= k <= zlen l ->
  exists u g, l = u ++ g /\ zlen u = k /\ zlen g = zlen l - k.
Proof.
  intros Hk. exists (take (Z.to_nat k) l), (drop (Z.to_nat k) l).
  rewrite take_drop. unfold zlen in *. rewrite length_take, length_drop. split_and!; [done|lia..].
Qed.

Lemma slice_zlen (u v w : list Z) k n :
  zlen u = k -> zlen v = n -> slice (u ++ v ++ w) k n = v.
Proof.
  intros <- <-. unfold slice, zlen. rewrite !Nat2Z.id, drop_app_length. apply take_app_length.
Qed.

(** The bytes [x] at [zlen a] are replaced by [new]; what was behind them keeps its order. *)
Lemma move_entry_spec a x y after new :
  let d := zlen new - zlen x in
  d <= zlen a -> d <= zlen after ->
  exists stale, zlen stale = Z.max 0 (- d) /\
    move_entry (a ++ x ++ y ++ after) (zlen a) (zlen a - d) (zlen (a ++ x ++ y)) new
      = Ok (a ++ new ++ y ++ stale ++ drop (Z.to_nat d) after).
Proof.
  intros d Ha Hafter. pose proof (zlen_nonneg a). pose proof (zlen_nonneg x).
  pose proof (zlen_nonneg y). pose proof (zlen_nonneg after). pose proof (zlen_nonneg new).
  destruct (split_at_zlen (a ++ x) (zlen a - d)) as (u & g & Hug & Hu & Hg);
    [unfold d in *; zlen_simpl; lia|].
  rewrite zlen_app in Hg.
  destruct (split_at_zlen (x ++ y ++ after) (zlen new + zlen y)) as (v & w & Hvw & Hv & Hw);
    [unfold d in *; zlen_simpl; lia|].
  assert (Hend : exists stale, zlen stale = Z.max 0 (- d) /\
    w = stale ++ drop (Z.to_nat d) after).
  { assert (Hdw : w = drop (Z.to_nat (zlen new + zlen y)) (x ++ y ++ after))
      by (rewrite Hvw, <- Hv; symmetry; apply drop_app_zlen).
    destruct (Z.le_gt_cases 0 d) as [Hd|Hd].
    - exists []. split; [rewrite zlen_nil; lia|]. rewrite Hdw, app_assoc. cbn [app].
      replace (Z.to_nat (zlen new + zlen y)) with (length (x ++ y) + Z.to_nat d)%nat
        by (rewrite length_app; unfold d, zlen in *; lia).
      apply drop_app_add.
    - exists (drop (Z.to_nat (zlen new + zlen y)) (x ++ y)). split.
      + unfold zlen. rewrite length_drop, length_app. unfold d, zlen in *. lia.
      + rewrite Hdw, app_assoc, drop_app_le by (rewrite length_app; unfold d, zlen in *; lia).
        by rewrite (Z2Nat.nonpos d), drop_0 by lia. }
  destruct Hend as (stale & Hstale & Hws). exists stale. split; [done|].
  unfold move_entry. rewrite !zlen_app. zbool; try (unfold d in *; lia). cbn [orb].
  assert (Hsl : slice (a ++ x ++ y ++ after) (zlen a - d)
                  (zlen a + (zlen x + zlen y) - (zlen a - d)) = g ++ y).
  { rewrite app_assoc, Hug, <- app_assoc, (app_assoc g). apply slice_zlen; [done|].
    zlen_simpl. unfold d. lia. }
  rewrite Hsl, Hvw, splice_at by (zlen_simpl; unfold d in *; lia).
  rewrite <- app_assoc, splice_at by (unfold d in *; lia). by rewrite Hws.
Qed.

(** ** The header *)

Lemma header_byte pre h r k b :
  0 <= k -> h !! Z.to_nat k = Some b -> byte_at (pre ++ h ++ r) (zlen pre + k) = Some b.
Proof.
  intros Hk Hb. unfold byte_at, zlen. zbool; [lia|].
  rewrite lookup_app_r by lia. rewrite lookup_app_l_Some with (x := b); [done|].
  rewrite <- Hb. f_equal. lia.
Qed.

Lemma set_header_byte pre h r k v :
  0 <= k -> (Z.to_nat k < length h)%nat ->
  set_byte (pre ++ h ++ r) (zlen pre + k) v = pre ++ <[Z.to_nat k := u8 v]> h ++ r.
Proof.
  intros Hk Hl. unfold set_byte, zlen.
  replace (Z.to_nat (Z.of_nat (length pre) + k)) with (length pre + Z.to_nat k)%nat by lia.
  rewrite insert_app_r, insert_app_l by done. done.
Qed.

Lemma total_len_header size :
  0 <= size < 2 ^ 16 -> u32 (size mod 256 + Z.shiftl (size / 256) 8) = size.
Proof.
  intros Hs. rewrite Z.shiftl_mul_pow2 by lia. change (2 ^ 8) with 256.
  rewrite wrap_id by (unfold fits; Z.to_euclidean_division_equations; lia).
  Z.to_euclidean_division_equations. lia.
Qed.

Lemma size_bytes size :
  0 <= size < 2 ^ 16 ->
  u8 (Z.land size 255) = size mod 256 /\ u8 (Z.shiftr size 8) = size / 256.
Proof.
  intros Hs. change 255 with (Z.ones 8). rewrite Z.land_ones, Z.shiftr_div_pow2 by lia.
  change (2 ^ 8) with 256. unfold wrap. change (2 ^ 8) with 256. split.
  - by rewrite Zmod_mod.
  - apply Z.mod_small. Z.to_euclidean_division_equations. lia.
Qed.

(** ** The operation *)

(** The bytes of a new entry, and what an edit adds to the count. *)
Definition entry_bytes (s : option (list Z)) : list Z :=
  match s with Some s => s ++ [0] | None => [] end.

Definition count_change (old new : option (list Z)) : Z :=
  match old, new with
  | _, None => -1
  | None, Some _ => 1
  | Some _, Some _ => 0
  end.

(** The header with the member at [k], one of the two counts, changed. *)
Definition header_with (size argc envc k v : Z) : list Z :=
  if k =? BA_argc then ba_header size v envc else ba_header size argc v.

Lemma header_with_sizes lo hi lo' hi' argc envc k v :
  k = BA_argc \/ k = BA_envc ->
  <[Z.to_nat BA_size_hi := hi']> (<[Z.to_nat BA_size_lo := lo']>
     (<[Z.to_nat k := v]> ([lo; hi; argc; envc] : list Z)))
  = if k =? BA_argc then [lo'; hi'; v; envc] else [lo'; hi'; argc; v].
Proof. by intros [-> | ->]. Qed.

(** The count is changed first. *)
Lemma count_step pre size argc envc tl old new k count :
  k = BA_argc \/ k = BA_envc -> ba_header size argc envc !! Z.to_nat k = Some count ->
  0 <= count < 2 ^ 7 -> 0 <= count + count_change old new < 2 ^ 7 ->
  zlen (entry_bytes new) < 2 ^ 31 ->
  let m := pre ++ ba_header size argc envc ++ tl in
  match new with
  | None => (set_byte m (zlen pre + k) (count - 1), 0, [])
  | Some s => (if bool_decide (old = None) then set_byte m (zlen pre + k) (count + 1) else m,
               u32 (zlen s + 1), s ++ [0])
  end = (pre ++ <[Z.to_nat k := count + count_change old new]> (ba_header size argc envc) ++ tl,
         zlen (entry_bytes new), entry_bytes new).
Proof.
  intros Hk Hcount Hc Hc' Hl m. subst m.
  assert (Hset : forall v, 0 <= v < 2 ^ 7 ->
    set_byte (pre ++ ba_header size argc envc ++ tl) (zlen pre + k) v
    = pre ++ <[Z.to_nat k := v]> (ba_header size argc envc) ++ tl).
  { intros v Hv. rewrite set_header_byte by (destruct Hk as [-> | ->]; unfold BA_argc, BA_envc; cbn [length ba_header]; lia).
    by rewrite wrap_id by (unfold fits; lia). }
  destruct new as [s|]; cbn [entry_bytes count_change] in *.
  - pose proof (zlen_nonneg s). rewrite zlen_app, zlen_cons, zlen_nil in *.
    rewrite (wrap_id 32) by (unfold fits; lia).
    destruct old as [o|]; cbn [bool_decide decide_rel] in *.
    + rewrite bool_decide_false by done. rewrite list_insert_id by (by rewrite Z.add_0_r). done.
    + rewrite bool_decide_true, Hset by done. done.
  - destruct old; cbn [count_change] in *; rewrite Hset by lia; done.
Qed.

Lemma s32_small z : - 2 ^ 31 <= z < 2 ^ 31 -> s32 z = z.
Proof.
  intros Hz. unfold signed, wrap. change (32 - 1) with 31.
  destruct (Z.le_gt_cases 0 z) as [Hp|Hn].
  - rewrite Z.mod_small by lia. zbool; lia.
  - rewrite <- (Z.mod_add z 1), Z.mod_small by lia. zbool; lia.
Qed.

Lemma do_operation_run pre size argc envc shdr a x y after old new k count :
  let d := zlen (entry_bytes new) - zlen x in
  zlen shdr = 4 -> size = BA_args + zlen (a ++ x ++ y) -> size < 2 ^ 16 -> size + d < 2 ^ 16 ->
  d <= zlen pre + BA_args + zlen a -> d <= zlen after ->
  k = BA_argc \/ k = BA_envc -> ba_header size argc envc !! Z.to_nat k = Some count ->
  0 <= count < 2 ^ 7 -> 0 <= count + count_change old new < 2 ^ 7 ->
  exists stale, zlen stale = Z.max 0 (- d) /\
    do_operation (pre ++ ba_header size argc envc ++ shdr ++ a ++ x ++ y ++ after) (zlen pre) old new
      (zlen pre + BA_args + zlen a) (zlen x) (zlen pre + k) count
    = Ok (pre ++ header_with (size + d) argc envc k (count + count_change old new) ++ shdr ++
            a ++ entry_bytes new ++ y ++ stale ++ drop (Z.to_nat d) after, 1).
Proof.
  intros d Hshdr Hsize Hs Hs' Hpre Hafter Hk Hcount Hc Hc'.
  pose proof (zlen_nonneg x). pose proof (zlen_nonneg a). pose proof (zlen_nonneg y).
  pose proof (zlen_nonneg (entry_bytes new)).
  rewrite !zlen_app in Hsize. unfold BA_args in *.
  unfold do_operation. rewrite count_step by (done || (unfold d in *; lia)).
  set (h1 := <[Z.to_nat k := _]> _).
  assert (Hlen : zlen (pre ++ h1 ++ shdr ++ a) = zlen pre + 8 + zlen a).
  { rewrite !zlen_app. assert (zlen h1 = 4) by (unfold zlen, h1; by rewrite length_insert). lia. }
  rewrite (header_byte pre h1 _ BA_size_lo (size mod 256)) by (by destruct Hk as [-> | ->]).
  rewrite (header_byte pre h1 _ BA_size_hi (size / 256)) by (by destruct Hk as [-> | ->]).
  cbn [get_or_bad mbind res_bind]. rewrite total_len_header by lia.
  rewrite s32_small by lia. fold d.
  destruct (move_entry_spec (pre ++ h1 ++ shdr ++ a) x y after (entry_bytes new))
    as (stale & Hstale & Hmove); [fold d; lia..|]. fold d in Hstale, Hmove.
  exists stale. split; [done|].
  rewrite <- !app_assoc in Hmove. rewrite Hlen in Hmove.
  unfold BA_args. replace (zlen pre + 8 + (size - 8))
    with (zlen (pre ++ h1 ++ shdr ++ a ++ x ++ y)) by (rewrite !zlen_app in *; lia).
  rewrite Hmove. cbn [mbind res_bind].
  assert (Hsd : 0 <= size + d < 2 ^ 16) by (unfold d in *; lia).
  rewrite wrap_id by (unfold fits; lia).
  destruct (size_bytes (size + d) Hsd) as [Hlo Hhi].
  assert (Hl1 : length h1 = 4%nat) by (unfold h1; by rewrite length_insert).
  rewrite set_header_byte by (rewrite ?Hl1; unfold BA_size_lo; lia).
  rewrite set_header_byte by (unfold BA_size_hi; first [lia | rewrite length_insert; lia]).
  rewrite Hlo, Hhi. unfold h1, ba_header. by rewrite header_with_sizes.
Qed.

(** ** Finding the entry *)

Lemma entry_at a n r : drop (Z.to_nat (zlen a)) (a ++ flat (n :: r)) = n ++ 0 :: flat r.
Proof. by rewrite drop_app_zlen, flat_cons. Qed.

Lemma skip_entries_run names a r :
  Forall cname names ->
  skip_entries (length names) (a ++ flat names ++ r) (zlen a) = Ok (zlen (a ++ flat names)).
Proof.
  intros Hn. revert a. induction Hn as [|n names Hc _ IH]; intros a; cbn [length skip_entries].
  - by rewrite app_nil_r.
  - rewrite flat_cons, <- app_assoc. rewrite drop_app_zlen. cbn [app].
    rewrite strlen_cname by done. cbn [get_or_bad mbind res_bind].
    replace (a ++ n ++ 0 :: flat names ++ r) with ((a ++ n ++ [0]) ++ flat names ++ r)
      by by rewrite <- !app_assoc.
    replace (zlen a + (zlen n + 1)) with (zlen (a ++ n ++ [0])) by (zlen_simpl; lia).
    rewrite IH. by rewrite <- !app_assoc.
Qed.

Lemma find_entry_skip names m a r old k sl :
  Forall cname names -> Forall cname (option_list old) ->
  (forall o, old = Some o -> o ∉ names) ->
  m = a ++ flat names ++ r -> zlen m < 2 ^ 32 ->
  exists sl', find_entry (length names + k) m old (zlen a) sl
                = find_entry k m old (zlen (a ++ flat names)) sl'.
Proof.
  intros Hn Hold Hni -> Hlen. revert a sl Hlen. induction Hn as [|n names Hc _ IH]; intros a sl Hlen.
  - exists sl. cbn [length Nat.add flat map concat app]. by rewrite app_nil_r.
  - cbn [length Nat.add find_entry]. rewrite flat_cons in *. rewrite <- app_assoc in *.
    rewrite drop_app_zlen. cbn [app] in *. rewrite strlen_cname by done.
    cbn [get_or_bad mbind res_bind].
    assert (He : (match old with Some o => get_or_bad (streq o (n ++ 0 :: flat names ++ r))
                  | None => mret false end) = Ok false).
    { destruct old as [o|]; [|done]. inversion Hold; subst.
      rewrite streq_cname, bool_decide_false; [done|set_solver|done..]. }
    rewrite He. cbn [mbind res_bind].
    rewrite !zlen_app, zlen_cons, zlen_app in Hlen.
    pose proof (zlen_nonneg a). pose proof (zlen_nonneg n). pose proof (zlen_nonneg (flat names)).
    pose proof (zlen_nonneg r).
    rewrite wrap_id by (unfold fits; lia).
    replace (a ++ n ++ 0 :: flat names ++ r) with ((a ++ n ++ [0]) ++ flat names ++ r)
      by by rewrite <- !app_assoc.
    replace (zlen a + (zlen n + 1)) with (zlen (a ++ n ++ [0])) by (zlen_simpl; lia).
    destruct (IH ltac:(set_solver) (a ++ n ++ [0]) (zlen n + 1)) as (sl' & ->).
    { rewrite !zlen_app, zlen_cons, zlen_nil. lia. }
    exists sl'. by rewrite <- !app_assoc.
Qed.

(** An edit that finds its entry splits the list. *)
Lemma edit_first_split l o by_ l' :
  edit_first l o by_ = Some l' ->
  exists l1 l2, l = l1 ++ o :: l2 /\ l' = l1 ++ by_ ++ l2 /\ o ∉ l1.
Proof.
  revert l'; induction l as [|n l IH]; intros l'; cbn [edit_first]; [done|]. case_decide as Hn.
  - intros [= <-]. subst. exists [], l. split_and!; [done..|set_solver].
  - destruct (edit_first l o by_) as [l0|]; [|done]. intros [= <-].
    destruct (IH _ eq_refl) as (l1 & l2 & -> & -> & Hni).
    exists (n :: l1), l2. split_and!; [done..|set_solver].
Qed.

Lemma edit_first_none l o by_ : edit_first l o by_ = None <-> o ∉ l.
Proof.
  induction l as [|n l IH]; cbn [edit_first]; [split; [set_solver|done]|].
  case_decide as Hn; [split; [done|set_solver]|].
  destruct (edit_first l o by_); cbn [option_map].
  - split; [done|]. intros Hni. assert (o ∉ l) as Hl by set_solver. by apply IH in Hl.
  - split; [|done]. intros _. destruct IH as [IH _]. specialize (IH eq_refl). set_solver.
Qed.

(** ** The whole edit *)

(** Memory that holds one of the two lists, [names], behind the strings [skip]. *)
Section Adjust.
Variables (pre shdr y after : list Z) (size argc envc k : Z) (skip names : list (list Z)).
Variables old new : option (list Z).
Hypotheses (Hshdr : zlen shdr = 4) (Hskip : Forall cname skip) (Hnames : Forall cname names).
Hypothesis Hold : Forall cname (option_list old).
Hypothesis Hsize : size = BA_args + zlen (flat skip ++ flat names ++ y).
Hypothesis Hsmall : size < 2 ^ 16.
Hypothesis Hmem : zlen pre + size + zlen after < 2 ^ 32.
Hypothesis Hk : k = BA_argc \/ k = BA_envc.
Hypothesis Hcount : ba_header size argc envc !! Z.to_nat k = Some (zlen names).
Hypothesis Hlen : zlen names < 128.

Let m := pre ++ ba_header size argc envc ++ shdr ++ flat skip ++ flat names ++ y ++ after.

Lemma do_adjust_start :
  do_adjust m (zlen pre) old new (zlen skip) (zlen pre + k)
  = '(found, p, sub_len) ← find_entry (length names) m old (zlen pre + BA_args + zlen (flat skip)) 0;
    if found : bool then do_operation m (zlen pre) old new p sub_len (zlen pre + k) (zlen names)
    else if bool_decide (old = None)
         then do_operation m (zlen pre) old new p 0 (zlen pre + k) (zlen names)
         else mret (m, 0).
Proof.
  unfold do_adjust, m. pose proof (zlen_nonneg names).
  rewrite (header_byte pre _ _ k (zlen names)) by (by destruct Hk as [-> | ->]).
  cbn [get_or_bad mbind res_bind]. rewrite signed_id, wrap_id by (unfold fits; lia).
  assert (Hhd : zlen (pre ++ ba_header size argc envc ++ shdr) = zlen pre + BA_args).
  { rewrite !zlen_app, Hshdr. cbn. unfold BA_args. change (zlen (ba_header size argc envc)) with 4. lia. }
  assert (Hm : pre ++ ba_header size argc envc ++ shdr ++ flat skip ++ flat names ++ y ++ after
    = (pre ++ ba_header size argc envc ++ shdr) ++ flat skip ++ flat names ++ y ++ after)
    by (by rewrite <- !app_assoc).
  rewrite Hm at 1. rewrite <- Hhd.
  replace (Z.to_nat (zlen skip)) with (length skip) by (unfold zlen; lia).
  replace (Z.to_nat (zlen names)) with (length names) by (unfold zlen; lia).
  rewrite skip_entries_run by done. cbn [mbind res_bind]. by rewrite zlen_app.
Qed.

Let hd := pre ++ ba_header size argc envc ++ shdr ++ flat skip.

Lemma adjust_head : zlen hd = zlen pre + BA_args + zlen (flat skip).
Proof.
  unfold hd. rewrite !zlen_app, Hshdr. change (zlen (ba_header size argc envc)) with 4.
  unfold BA_args. lia.
Qed.

Lemma adjust_memory : zlen m < 2 ^ 32.
Proof.
  unfold m. rewrite Hsize in Hmem. rewrite !zlen_app in *. rewrite Hshdr.
  change (zlen (ba_header size argc envc)) with 4. unfold BA_args in *. lia.
Qed.

Lemma adjust_find names1 r kk sl :
  Forall cname names1 -> (forall o, old = Some o -> o ∉ names1) -> m = hd ++ flat names1 ++ r ->
  exists sl', find_entry (length names1 + kk) m old (zlen pre + BA_args + zlen (flat skip)) sl
    = find_entry kk m old (zlen pre + BA_args + zlen (flat skip ++ flat names1)) sl'.
Proof.
  intros Hn Hni Hm.
  destruct (find_entry_skip names1 m hd r old kk sl Hn Hold Hni Hm adjust_memory) as (sl' & He).
  exists sl'. rewrite zlen_app, adjust_head in He. rewrite He. f_equal. rewrite zlen_app. lia.
Qed.

Lemma do_adjust_absent : edit names old new = None ->
  do_adjust m (zlen pre) old new (zlen skip) (zlen pre + k) = Ok (m, 0).
Proof.
  intros He. assert (Hni : old <> None /\ forall o, old = Some o -> o ∉ names).
  { revert He. clear. destruct old as [o|]; cbn [edit]; [|done].
    intros Hn%edit_first_none. split; [done|]. by intros ? [= <-]. }
  destruct Hni as [Hne Hni]. rewrite do_adjust_start.
  destruct (adjust_find names (y ++ after) 0 0) as (sl' & Hf);
    [done..|unfold m, hd; by rewrite <- !app_assoc|].
  rewrite Nat.add_0_r in Hf. rewrite Hf. cbn [find_entry mbind res_bind].
  by rewrite bool_decide_false.
Qed.

(** The edit took place: the entry [x] after the entries [l1] became [by_]. *)
Lemma do_adjust_done l1 x r0 l' :
  zlen l' = zlen names + count_change old new -> zlen l' < 128 ->
  flat names = flat l1 ++ x ++ r0 -> flat l' = flat l1 ++ entry_bytes new ++ r0 ->
  BA_args + zlen (flat skip ++ flat l' ++ y) < 2 ^ 16 ->
  zlen (flat l') - zlen (flat names) <= zlen pre + BA_args ->
  zlen (flat l') - zlen (flat names) <= zlen after ->
  exists stale, zlen stale = Z.max 0 (zlen (flat names) - zlen (flat l')) /\
    do_operation m (zlen pre) old new (zlen pre + BA_args + zlen (flat skip ++ flat l1)) (zlen x)
      (zlen pre + k) (zlen names)
    = Ok (pre ++ header_with (BA_args + zlen (flat skip ++ flat l' ++ y)) argc envc k (zlen l') ++
            shdr ++ flat skip ++ flat l' ++ y ++
            stale ++ drop (Z.to_nat (zlen (flat l') - zlen (flat names))) after, 1).
Proof.
  intros Hl' Hsm Hf Hf' Hs' Hpre Hafter.
  pose proof (zlen_nonneg names). pose proof (zlen_nonneg l'). pose proof (zlen_nonneg (flat skip)).
  pose proof (zlen_nonneg (flat l1)).
  assert (Hd : zlen (flat l') - zlen (flat names) = zlen (entry_bytes new) - zlen x)
    by (rewrite Hf, Hf', !zlen_app; lia).
  rewrite Hd in Hpre, Hafter |- *. rewrite Hf in Hsize. rewrite Hf' in Hs'.
  destruct (do_operation_run pre size argc envc shdr (flat skip ++ flat l1) x (r0 ++ y) after
    old new k (zlen names)) as (stale & Hst & Hrun); try done; try (rewrite !zlen_app in *; lia).
  exists stale. split; [rewrite Hst; lia|].
  unfold m. rewrite Hf. rewrite <- !app_assoc in *. rewrite Hrun.
  rewrite Hl', Hf', <- !app_assoc.
  replace (size + (zlen (entry_bytes new) - zlen x))
    with (BA_args + zlen (flat skip ++ flat l1 ++ entry_bytes new ++ r0 ++ y))
    by (rewrite Hsize, !zlen_app; lia).
  done.
Qed.

Lemma find_entry_here o l1 l2 kk sl :
  cname o -> old = Some o -> names = l1 ++ o :: l2 ->
  find_entry (S kk) m old (zlen pre + BA_args + zlen (flat skip ++ flat l1)) sl
    = Ok (true, zlen pre + BA_args + zlen (flat skip ++ flat l1), zlen (o ++ [0])).
Proof.
  intros Hc Ho Hn. pose proof (zlen_nonneg o).
  assert (Hml : zlen m < 2 ^ 32) by exact adjust_memory. cbn [find_entry].
  assert (Hm : m = (hd ++ flat l1) ++ o ++ 0 :: flat l2 ++ y ++ after).
  { unfold m, hd. rewrite Hn, flat_app, flat_cons. by rewrite <- !app_assoc. }
  replace (zlen pre + BA_args + zlen (flat skip ++ flat l1)) with (zlen (hd ++ flat l1))
    by (rewrite !zlen_app, adjust_head; lia).
  rewrite Hm, drop_app_zlen, strlen_cname by done. cbn [get_or_bad mbind res_bind].
  rewrite Ho, streq_cname, bool_decide_true by done. cbn [get_or_bad mbind res_bind].
  rewrite Hm in Hml. rewrite !zlen_app, zlen_cons in Hml.
  pose proof (zlen_nonneg hd). pose proof (zlen_nonneg (flat l1)).
  pose proof (zlen_nonneg (flat l2)). pose proof (zlen_nonneg y). pose proof (zlen_nonneg after).
  rewrite !zlen_app in Hml. rewrite wrap_id by (unfold fits; lia).
  by rewrite (zlen_app o), zlen_cons, zlen_nil.
Qed.

End Adjust.

(** What [do_adjust] does to the memory of the list it edits. *)
Lemma do_adjust_found pre shdr y after size argc envc k skip names old new l' :
  zlen shdr = 4 -> Forall cname skip -> Forall cname names -> Forall cname (option_list old) ->
  size = BA_args + zlen (flat skip ++ flat names ++ y) -> size < 2 ^ 16 ->
  zlen pre + size + zlen after < 2 ^ 32 -> k = BA_argc \/ k = BA_envc ->
  ba_header size argc envc !! Z.to_nat k = Some (zlen names) -> zlen names < 128 ->
  edit names old new = Some l' -> old <> None \/ new <> None -> zlen l' < 128 ->
  let size' := BA_args + zlen (flat skip ++ flat l' ++ y) in
  let d := zlen (flat l') - zlen (flat names) in
  size' < 2 ^ 16 -> d <= zlen pre + BA_args -> d <= zlen after ->
  exists stale, zlen stale = Z.max 0 (- d) /\
    do_adjust (pre ++ ba_header size argc envc ++ shdr ++ flat skip ++ flat names ++ y ++ after)
      (zlen pre) old new (zlen skip) (zlen pre + k)
    = Ok (pre ++ header_with size' argc envc k (zlen l') ++ shdr ++ flat skip ++ flat l' ++ y ++
            stale ++ drop (Z.to_nat d) after, 1).
Proof.
  intros Hshdr Hskip Hn Hold Hsize Hsm Hmem Hk Hcount Hlen Hed Hnone Hl' size' d Hs' Hpre Hafter.
  rewrite do_adjust_start by done. unfold d. rewrite Z.opp_sub_distr, Z.add_comm, Z.add_opp_r.
  destruct old as [o|]; cbn [edit] in Hed.
  - destruct (edit_first_split _ _ _ _ Hed) as (l1 & l2 & Hl & -> & Hni).
    assert (Hc : cname o) by (by inversion Hold).
    edestruct (adjust_find pre shdr y after size argc envc skip names (Some o) Hshdr Hold Hsize Hmem
      l1 (flat (o :: l2) ++ y ++ after) (S (length l2)) 0) as (sl & Hf).
    { rewrite Hl in Hn. by apply Forall_app in Hn as [? _]. }
    { by intros ? [= <-]. }
    { rewrite Hl, flat_app. by rewrite <- !app_assoc. }
    replace (length names) with (length l1 + S (length l2))%nat by (rewrite Hl, length_app; done).
    rewrite Hf. erewrite find_entry_here by done. cbn [mbind res_bind].
    apply do_adjust_done with (r0 := flat l2); try done.
    + rewrite Hl. destruct new; cbn; rewrite ?zlen_app, ?zlen_cons; lia.
    + rewrite Hl, flat_app, flat_cons, <- app_assoc. done.
    + destruct new; rewrite !flat_app; cbn [entry_bytes flat map concat]; by rewrite ?app_nil_r.
  - injection Hed as <-. destruct new as [n|]; [|by destruct Hnone].
    edestruct (adjust_find pre shdr y after size argc envc skip names None Hshdr Hold Hsize Hmem
      names (y ++ after) 0 0) as (sl & Hf); [done..|by rewrite <- !app_assoc|].
    rewrite Nat.add_0_r in Hf. rewrite Hf. cbn [find_entry mbind res_bind].
    rewrite bool_decide_true by done.
    apply do_adjust_done with (x := []) (r0 := []) ; try done.
    + by rewrite zlen_app, zlen_cons, zlen_nil.
    + by rewrite !app_nil_r.
    + rewrite flat_app. cbn [entry_bytes flat map concat]. done.
Qed.

Lemma edit_cname l old new l' :
  Forall cname l -> Forall cname (option_list new) -> edit l old new = Some l' -> Forall cname l'.
Proof.
  intros Hl Hnew He.
  assert (Hby : Forall cname (match new with Some n => [n] | None => [] end)) by (by destruct new).
  destruct old as [o|]; cbn [edit] in He.
  - apply edit_first_split in He as (l1 & l2 & -> & -> & _).
    apply Forall_app in Hl as [H1 H2]. inversion H2; subst. by rewrite !Forall_app.
  - injection He as <-. by apply Forall_app.
Qed.

(** ** The two calls *)

Definition with_argv (b : bootargs) (l : list (list Z)) (after : list Z) : bootargs :=
  {| ba_before := ba_before b; ba_shdr := ba_shdr b; ba_argv := l; ba_env := ba_env b;
     ba_pad := ba_pad b; ba_after := after |}.

Definition with_env (b : bootargs) (l : list (list Z)) (after : list Z) : bootargs :=
  {| ba_before := ba_before b; ba_shdr := ba_shdr b; ba_argv := ba_argv b; ba_env := l;
     ba_pad := ba_pad b; ba_after := after |}.

(** What an edit of the list [l] promises: nothing changes and 0 is returned when there is no entry
    to edit; otherwise, if the new command line fits its counts, its size member and the memory
    around it, the list is the edited one, the memory is as long as before, and what follows the
    structure lost the bytes it grew by or has stale bytes in front of it. *)
Definition adjust_spec (b : bootargs) (l : list (list Z))
    (set : list (list Z) -> list Z -> bootargs) (old new : option (list Z)) (r : res (list Z * Z))
    : Prop :=
  match edit l old new with
  | None => r = Ok (ba_memory b, 0)
  | Some l' =>
      let d := zlen (flat l') - zlen (flat l) in
      zlen l' < 128 -> ba_size b + d < 2 ^ 16 ->
      d <= zlen (ba_before b) + BA_args -> d <= zlen (ba_after b) ->
      exists stale, zlen stale = Z.max 0 (- d) /\
        let b' := set l' (stale ++ drop (Z.to_nat d) (ba_after b)) in
        ba_ok b' /\ zlen (ba_memory b') = zlen (ba_memory b) /\ r = Ok (ba_memory b', 1)
  end.

Lemma ba_memory_flat b :
  ba_memory b = ba_before b ++ ba_header (ba_size b) (zlen (ba_argv b)) (zlen (ba_env b)) ++
    ba_shdr b ++ flat (ba_argv b) ++ flat (ba_env b) ++ ba_pad b ++ ba_after b.
Proof. unfold ba_memory, ba_head. by rewrite <- !app_assoc. Qed.

Lemma zlen_ba_memory b :
  zlen (ba_shdr b) = 4 -> zlen (ba_memory b) = zlen (ba_before b) + ba_size b + zlen (ba_after b).
Proof.
  intros Hs. rewrite ba_memory_flat, !zlen_app, Hs. unfold ba_size, BA_args.
  change (zlen (ba_header _ _ _)) with 4. lia.
Qed.

Lemma zlen_adjusted (stale after : list Z) d :
  zlen stale = Z.max 0 (- d) -> d <= zlen after ->
  zlen (stale ++ drop (Z.to_nat d) after) = zlen after - d.
Proof. intros Hs Hd. rewrite zlen_app, Hs. unfold zlen in *. rewrite length_drop. lia. Qed.

Lemma adjust_argv b old new :
  ba_ok b -> Forall cname (option_list old) -> Forall cname (option_list new) ->
  old <> None \/ new <> None -> zlen (ba_memory b) < 2 ^ 32 ->
  adjust_spec b (ba_argv b) (with_argv b) old new
    (bootstrap_arg_adjust (ba_memory b) (zlen (ba_before b)) old new).
Proof.
  intros (Ha & He & Hs & Hla & Hle & Hsz) Hold Hnew Hnn Hmem.
  rewrite zlen_ba_memory in Hmem by done. unfold adjust_spec.
  set (y := flat (ba_env b) ++ ba_pad b).
  assert (Hrun : bootstrap_arg_adjust (ba_memory b) (zlen (ba_before b)) old new
    = do_adjust (ba_before b ++ ba_header (ba_size b) (zlen (ba_argv b)) (zlen (ba_env b)) ++
        ba_shdr b ++ flat [] ++ flat (ba_argv b) ++ y ++ ba_after b) (zlen (ba_before b)) old new
        (zlen (@nil (list Z))) (zlen (ba_before b) + BA_argc))
    by (unfold y; rewrite ba_memory_flat, <- app_assoc; done).
  assert (Hsize : ba_size b = BA_args + zlen (flat [] ++ flat (ba_argv b) ++ y))
    by (unfold y, ba_size; rewrite !zlen_app; change (zlen (flat [])) with 0; lia).
  rewrite Hrun. destruct (edit (ba_argv b) old new) as [l'|] eqn:Hed.
  - intros Hl' Hs' Hbef Haft. set (d := zlen (flat l') - zlen (flat (ba_argv b))) in *.
    assert (Hsize' : ba_size b + d = BA_args + zlen (flat [] ++ flat l' ++ y))
      by (rewrite Hsize; unfold d; rewrite !zlen_app; lia).
    destruct (do_adjust_found (ba_before b) (ba_shdr b) y (ba_after b) (ba_size b)
      (zlen (ba_argv b)) (zlen (ba_env b)) BA_argc [] (ba_argv b) old new l')
      as (stale & Hst & Hdo); try done; [by left|by rewrite <- Hsize'|].
    fold d in Hst, Hdo. exists stale. split; [done|]. rewrite <- Hsize' in Hdo.
    set (b' := with_argv b l' _).
    assert (Hb' : ba_size b' = ba_size b + d)
      by (unfold ba_size, b'; cbn [ba_argv ba_env ba_pad with_argv]; lia).
    split; [|split].
    + split_and!; try done; [by refine (edit_cname _ _ _ _ _ _ Hed)|by rewrite Hb'].
    + rewrite !zlen_ba_memory, Hb' by done. cbn [ba_before ba_after with_argv b'].
      rewrite zlen_adjusted by done. lia.
    + rewrite Hdo, ba_memory_flat, Hb'. unfold y. by rewrite <- app_assoc.
  - rewrite do_adjust_absent; try done; [|by left].
    unfold y. by rewrite ba_memory_flat, <- app_assoc.
Qed.

Lemma adjust_envv b old new :
  ba_ok b -> Forall cname (option_list old) -> Forall cname (option_list new) ->
  old <> None \/ new <> None -> zlen (ba_memory b) < 2 ^ 32 ->
  adjust_spec b (ba_env b) (with_env b) old new
    (bootstrap_env_adjust (ba_memory b) (zlen (ba_before b)) old new).
Proof.
  intros (Ha & He & Hs & Hla & Hle & Hsz) Hold Hnew Hnn Hmem.
  rewrite zlen_ba_memory in Hmem by done. unfold adjust_spec.
  assert (Hrun : bootstrap_env_adjust (ba_memory b) (zlen (ba_before b)) old new
    = do_adjust (ba_before b ++ ba_header (ba_size b) (zlen (ba_argv b)) (zlen (ba_env b)) ++
        ba_shdr b ++ flat (ba_argv b) ++ flat (ba_env b) ++ ba_pad b ++ ba_after b)
        (zlen (ba_before b)) old new (zlen (ba_argv b)) (zlen (ba_before b) + BA_envc)).
  { pose proof (zlen_nonneg (ba_argv b)). unfold bootstrap_env_adjust. rewrite ba_memory_flat.
    rewrite (header_byte _ _ _ BA_argc (zlen (ba_argv b))) by done.
    cbn [get_or_bad mbind res_bind]. by rewrite signed_id, wrap_id by (unfold fits; lia). }
  assert (Hsize : ba_size b = BA_args + zlen (flat (ba_argv b) ++ flat (ba_env b) ++ ba_pad b))
    by (unfold ba_size; rewrite !zlen_app; lia).
  rewrite Hrun. destruct (edit (ba_env b) old new) as [l'|] eqn:Hed.
  - intros Hl' Hs' Hbef Haft. set (d := zlen (flat l') - zlen (flat (ba_env b))) in *.
    assert (Hsize' : ba_size b + d = BA_args + zlen (flat (ba_argv b) ++ flat l' ++ ba_pad b))
      by (rewrite Hsize; unfold d; rewrite !zlen_app; lia).
    destruct (do_adjust_found (ba_before b) (ba_shdr b) (ba_pad b) (ba_after b) (ba_size b)
      (zlen (ba_argv b)) (zlen (ba_env b)) BA_envc (ba_argv b) (ba_env b) old new l')
      as (stale & Hst & Hdo); try done; [by right|by rewrite <- Hsize'|].
    fold d in Hst, Hdo. exists stale. split; [done|]. rewrite <- Hsize' in Hdo.
    set (b' := with_env b l' _).
    assert (Hb' : ba_size b' = ba_size b + d)
      by (unfold ba_size, b'; cbn [ba_argv ba_env ba_pad with_env]; lia).
    split; [|split].
    + split_and!; try done; [by refine (edit_cname _ _ _ _ _ _ Hed)|by rewrite Hb'].
    + rewrite !zlen_ba_memory, Hb' by done. cbn [ba_before ba_after with_env b'].
      rewrite zlen_adjusted by done. lia.
    + by rewrite Hdo, ba_memory_flat, Hb'.
  - rewrite do_adjust_absent; try done; [|by right].
    by rewrite ba_memory_flat.
Qed.

(** C39.  [bootstrap_arg_adjust] and [bootstrap_env_adjust] edit exactly their own list of the boot
    command line held in memory: the first entry equal to [old] is replaced by [new] or removed, an
    entry is appended when [old] is null, and 0 is returned with memory unchanged when the entry is
    not there.  The other list, the padding and the structure's neighbours keep their bytes, the
    counts and the 16-bit size agree with the new contents, as long as the result fits them. *)
Theorem bootstrap_adjust_correct b old new :
  ba_ok b -> Forall cname (option_list old) -> Forall cname (option_list new) ->
  old <> None \/ new <> None -> zlen (ba_memory b) < 2 ^ 32 ->
  adjust_spec b (ba_argv b) (with_argv b) old new
    (bootstrap_arg_adjust (ba_memory b) (zlen (ba_before b)) old new) /\
  adjust_spec b (ba_env b) (with_env b) old new
    (bootstrap_env_adjust (ba_memory b) (zlen (ba_before b)) old new).
Proof. intros. split; [by apply adjust_argv|by apply adjust_envv]. Qed.

(** ** A command line *)

Definition demo_bootargs : bootargs :=
  {| ba_before := zeros 16; ba_shdr := [0; 16; 0; 128];
     ba_argv := [chars "startup-imx6x"; chars "-v"]; ba_env := [chars "PATH=/proc/boot"];
     ba_pad := zeros 3; ba_after := zeros 8 |}.

(** The environment keeps its bytes when an argument grows. *)
Lemma bootstrap_adjust_witness :
  (exists after, bootstrap_arg_adjust (ba_memory demo_bootargs) 16 (Some (chars "-v"))
     (Some (chars "-vvv"))
   = Ok (ba_memory (with_argv demo_bootargs [chars "startup-imx6x"; chars "-vvv"] after), 1)) /\
  bootstrap_env_adjust (ba_memory demo_bootargs) 16 (Some (chars "-v")) (Some (chars "-vvv"))
   = Ok (ba_memory demo_bootargs, 0).
Proof.
  destruct (bootstrap_adjust_correct demo_bootargs (Some (chars "-v")) (Some (chars "-vvv")))
    as [Ha He].
  - unfold ba_ok. split_and!; try (vm_compute; done); apply (bool_decide_unpack _); vm_compute; done.
  - apply (bool_decide_unpack _); vm_compute; done.
  - apply (bool_decide_unpack _); vm_compute; done.
  - by left.
  - vm_compute; done.
  - split.
    + destruct Ha as (stale & _ & _ & _ & Hrun); [vm_compute; done..|]. by eexists.
    + exact He.
Defined.

(** With neither an old nor a new entry the count goes down although no entry is removed. *)
Example adjust_null_null :
  bootstrap_arg_adjust (ba_memory demo_bootargs) 16 None None
  = Ok (<[18%nat := 1]> (ba_memory demo_bootargs), 1).
Proof. vm_compute. reflexivity. Qed.
