(* ===== verification/Clock.v ===== *)
(** * Clock: calendar time and timer periods (startup/lib/gmtime.c, calc_time_t.c, bcd2bin.c,
    invert_timer_freq.c, timer_tick2ns.c, timer_ns2tick.c).

    Startup turns the fields of a real-time clock into seconds since 1970 and the frequency of the
    board's timer into the decimal period kept in the system page.  [unsigned] and [unsigned long]
    have 32 bits. *)

From S2P Require Import Prelude.

(** Remove the wrap-around of words that fit, innermost first. *)
Ltac wraps :=
  repeat match goal with
  | |- context [wrap ?w ?x] =>
      lazymatch x with
      | context [wrap _ _] => fail
      | _ => rewrite (wrap_id w x) by (unfold fits; lia)
      end
  end.

(** ** Calendar *)

Record tm := {
  tm_sec : Z; tm_min : Z; tm_hour : Z;
  tm_mday : Z; tm_mon : Z; tm_year : Z;
  tm_wday : Z; tm_yday : Z
}.

(** [((year + 2) % 4) == 0], with [year] counted from 1970. *)
Definition leap70 (year : Z) : bool := (year + 2) mod 4 =? 0.

Definition mdays (leap : bool) : list Z :=
  if leap then [31; 29; 31; 30; 31; 30; 31; 31; 30; 31; 30; 31]
  else [31; 28; 31; 30; 31; 30; 31; 31; 30; 31; 30; 31].

(** The year loop of [_gmtime]: the year and the days left in it. *)
Fixpoint gmtime_year (fuel : nat) (year days : Z) : res (Z * Z) :=
  match fuel with
  | O => Err NoFuel
  | S fuel =>
      let t := 365 + (if leap70 year then 1 else 0) in
      if days <? t then mret (year, days)
      else gmtime_year fuel (u32 (year + 1)) (u32 (days - t))
  end.

(** The month loop, over what is left of the table. *)
Fixpoint gmtime_month (table : list Z) (mon days : Z) : Z * Z :=
  match table with
  | [] => (mon, days)
  | t :: r => if days <? t then (mon, days) else gmtime_month r (mon + 1) (u32 (days - t))
  end.

(** No date needs more than this many years. *)
Definition gmtime_fuel : nat := 137.

Definition gmtime (timer : Z) : res tm :=
  let days := timer / (60 * 60 * 24) in
  let secs := timer mod (60 * 60 * 24) in
  '(year, yday) ← gmtime_year gmtime_fuel 0 days;
  let '(mon, days') := gmtime_month (mdays (leap70 year)) 0 yday in
  mret {| tm_sec := secs mod 60; tm_min := (secs / 60) mod 60; tm_hour := secs / 60 / 60;
          tm_mday := days' + 1; tm_mon := mon; tm_year := year + 70;
          tm_wday := (days + 4) mod 7; tm_yday := yday |}.

Definition SEC_PER_DAY : Z := 24 * (60 * 60).

Definition month_sec : list Z :=
  [0; 2678400; 5097600; 7776000; 10368000; 13046400; 15638400; 18316800; 20995200; 23587200;
   26265600; 28857600].

Definition calc_time_t (t : tm) : res Z :=
  let year := u32 (tm_year t - 70) in
  let sec := u32 (u32 (u32 (year * 365) + Z.shiftr (u32 (year + 1)) 2) * SEC_PER_DAY) in
  sec ← (if (0 <=? tm_mon t) && (tm_mon t <? zlen month_sec)
         then m ← get_or_bad (month_sec !! Z.to_nat (tm_mon t)); mret (u32 (sec + m))
         else Err (Crash "Month returned by RTC is out of bounds"));
  let year := u32 (tm_year t + 1900) in
  let sec :=
    if (2 <=? tm_mon t) && (year mod 4 =? 0) && (negb (year mod 100 =? 0) || (year mod 400 =? 0))
    then u32 (sec + SEC_PER_DAY) else sec in
  let sec := u32 (sec + u32 (u32 (tm_mday t - 1) * SEC_PER_DAY)) in
  let sec := u32 (sec + u32 (u32 (tm_hour t) * (60 * 60))) in
  let sec := u32 (sec + u32 (u32 (tm_min t) * 60)) in
  mret (u32 (sec + u32 (tm_sec t))).

Definition bcd2bin (a : Z) : Z :=
  u32 (Z.shiftr (Z.land a 61440) 12 * 1000 + Z.shiftr (Z.land a 3840) 8 * 100 +
       Z.shiftr (Z.land a 240) 4 * 10 + Z.land a 15).

(** ** Timer periods *)

Definition UINT_MAX : Z := 2 ^ 32 - 1.

(** The members of [struct qtime_entry] these routines use. *)
Record qtime := { timer_rate : Z; timer_scale : Z }.

(** The division loop of [invert_timer_freq]. *)
Fixpoint invert_loop (fuel : nat) (freq quot rate scale : Z) : res qtime :=
  match fuel with
  | O => Err NoFuel
  | S fuel =>
      let div := quot / freq in
      let rate := u32 (u32 (rate * 10) + div) in
      if UINT_MAX / 10 - 10 <=? rate then mret {| timer_rate := rate; timer_scale := scale |}
      else
        let rem := quot mod freq in
        if rem =? 0 then mret {| timer_rate := rate; timer_scale := scale |}
        else invert_loop fuel freq (u32 (rem * 10)) rate (scale - 1)
  end.

(** One pass for each decimal digit of the period. *)
Definition invert_fuel : nat := 19.

Definition invert_timer_freq (freq : Z) : res qtime :=
  if freq =? 0 then Err (Crash "Timer frequency is zero")
  else if UINT_MAX / 10 <? freq then invert_loop invert_fuel (freq / 10) 1 0 (-1)
  else invert_loop invert_fuel freq 1 0 0.

(** The first loop of [timer_tick2ns], which runs [power] times and once more; a division by zero
    has no value. *)
Fixpoint tick2ns_down (power : nat) (rate ticks ns : Z) : res Z :=
  ns ← (if ns =? 0 then
          if rate =? 0 then Err BadAccess
          else let ns := u32 (rate * ticks) in
               mret (if ns / rate =? ticks then ns else 0)
        else mret ns);
  match power with
  | O => mret ns
  | S power => tick2ns_down power (rate / 10) ticks (ns / 10)
  end.

(** The second loop. *)
Fixpoint tick2ns_up (power : nat) (ns : Z) : Z :=
  match power with O => ns | S power => tick2ns_up power (u32 (ns * 10)) end.

Definition timer_tick2ns (q : qtime) (ticks : Z) : res Z :=
  let power := -9 - timer_scale q in
  ns ← tick2ns_down (Z.to_nat power) (timer_rate q) ticks 0;
  mret (tick2ns_up (Z.to_nat (- power)) ns).

Definition timer_ns2tick (q : qtime) (ns : Z) : res Z :=
  t ← timer_tick2ns q 1;
  if t =? 0 then Err BadAccess else mret (ns / t).

(** ** The calendar the code stands for *)

(** The Gregorian rules. *)
Definition leap_year (y : Z) : bool :=
  (y mod 4 =? 0) && (negb (y mod 100 =? 0) || (y mod 400 =? 0)).

Definition month_length (y m : Z) : Z :=
  match m with
  | 1 => if leap_year y then 29 else 28
  | 3 | 5 | 8 | 10 => 30
  | _ => 31
  end.

(** Days from 1 January 1970 to 1 January of year [1970 + n], and to the month [m] of year [y]. *)
Fixpoint days_of_years (n : nat) : Z :=
  match n with
  | O => 0
  | S n => days_of_years n + (if leap_year (1970 + Z.of_nat n) then 366 else 365)
  end.

Fixpoint days_of_months (y : Z) (m : nat) : Z :=
  match m with O => 0 | S m => days_of_months y m + month_length y (Z.of_nat m) end.

(** The number of a date, and of a moment of it. *)
Definition date_number (t : tm) : Z :=
  days_of_years (Z.to_nat (tm_year t - 70)) + days_of_months (tm_year t + 1900) (Z.to_nat (tm_mon t)) +
  (tm_mday t - 1).

Definition time_number (t : tm) : Z :=
  date_number t * 86400 + tm_hour t * 3600 + tm_min t * 60 + tm_sec t.

(** A date of the calendar from 1970 on, and a time of the day. *)
Definition valid_time (t : tm) : Prop :=
  70 <= tm_year t /\ 0 <= tm_mon t < 12 /\
  1 <= tm_mday t <= month_length (tm_year t + 1900) (tm_mon t) /\
  0 <= tm_hour t < 24 /\ 0 <= tm_min t < 60 /\ 0 <= tm_sec t < 60.

(** ** Days and years *)

(** The days before year [1970 + n] when every fourth year is a leap year. *)
Definition julian (n : Z) : Z := 365 * n + (n + 1) / 4.

Lemma julian_step n : julian (n + 1) = julian n + (365 + (if leap70 n then 1 else 0)).
Proof.
  unfold julian, leap70. destruct (Z.eqb_spec ((n + 2) mod 4) 0);
    Z.to_euclidean_division_equations; lia.
Qed.

(** The Gregorian leap years up to 2100 are every fourth year. *)
Lemma leap_year_70 n : 0 <= n < 130 -> leap_year (1970 + n) = leap70 n.
Proof.
  intros Hn. unfold leap_year, leap70.
  destruct (Z.eqb_spec ((1970 + n) mod 4) 0), (Z.eqb_spec ((n + 2) mod 4) 0),
    (Z.eqb_spec ((1970 + n) mod 100) 0), (Z.eqb_spec ((1970 + n) mod 400) 0); cbn; try done;
    Z.to_euclidean_division_equations; lia.
Qed.

Lemma leap_year_after n : 130 < n < 230 -> leap_year (1970 + n) = leap70 n.
Proof.
  intros Hn. unfold leap_year, leap70.
  destruct (Z.eqb_spec ((1970 + n) mod 4) 0), (Z.eqb_spec ((n + 2) mod 4) 0),
    (Z.eqb_spec ((1970 + n) mod 100) 0), (Z.eqb_spec ((1970 + n) mod 400) 0); cbn; try done;
    Z.to_euclidean_division_equations; lia.
Qed.

Lemma days_of_years_julian n :
  (n < 230)%nat ->
  days_of_years n = julian (Z.of_nat n) - (if 130 <? Z.of_nat n then 1 else 0).
Proof.
  induction n as [|n IH]; intros Hn; [done|]. cbn [days_of_years]. rewrite IH by lia.
  replace (Z.of_nat (S n)) with (Z.of_nat n + 1) by lia. rewrite julian_step.
  destruct (Z.lt_trichotomy (Z.of_nat n) 130) as [Hl|[He|Hg]].
  - rewrite leap_year_70 by lia. zbool; destruct (leap70 _); lia.
  - rewrite He. reflexivity.
  - rewrite leap_year_after by lia. zbool; destruct (leap70 _); lia.
Qed.

(** The month tables of the two routines are the Gregorian months. *)
Lemma month_sec_days y m :
  (m < 12)%nat -> exists s, month_sec !! m = Some s /\ 0 <= s <= 28857600 /\
  s + (if (2 <=? Z.of_nat m) && leap_year y then 86400 else 0) = 86400 * days_of_months y m.
Proof.
  intros Hm. do 12 (destruct m as [|m]; [eexists; split; [reflexivity|]; split; [lia|];
    unfold days_of_months, month_length; destruct (leap_year y); reflexivity|]). lia.
Qed.

Lemma days_of_months_bound y m :
  (m < 12)%nat -> 0 <= days_of_months y m /\
  days_of_months y m + month_length y (Z.of_nat m) <= 366.
Proof.
  intros Hm. do 12 (destruct m as [|m];
    [unfold days_of_months, month_length; destruct (leap_year y); vm_compute; split; congruence|]). lia.
Qed.

Lemma gmtime_year_run fuel year days :
  0 <= year -> 0 <= days -> julian year + days < julian (year + Z.of_nat fuel) ->
  year + Z.of_nat fuel < 2 ^ 31 -> days < 2 ^ 31 ->
  exists y d, gmtime_year fuel year days = Ok (y, d) /\ year <= y < year + Z.of_nat fuel /\
    0 <= d < 365 + (if leap70 y then 1 else 0) /\ julian y + d = julian year + days.
Proof.
  revert year days. induction fuel as [|fuel IH]; intros year days Hy Hd Hj Hf Hdd.
  - rewrite Z.add_0_r in Hj. lia.
  - cbn [gmtime_year]. pose proof (julian_step year) as Hs. zbool.
    + exists year, days. split_and!; lia || done.
    + assert (0 <= (if leap70 year then 1 else 0) <= 1) by (destruct (leap70 year); lia).
      rewrite !wrap_id by (unfold fits; lia).
      destruct (IH (year + 1) (days - (365 + (if leap70 year then 1 else 0))))
        as (y & d & -> & Hyd & Hdb & Hje); try lia.
      { rewrite Hs. replace (year + 1 + Z.of_nat fuel) with (year + Z.of_nat (S fuel)) by lia. lia. }
      exists y, d. split_and!; lia || done.
Qed.

(** The month loop splits the day of the year. *)
Definition total (l : list Z) : Z := foldr Z.add 0 l.

Lemma gmtime_month_run table mon d :
  0 <= d < total table -> d < 2 ^ 31 -> Forall (fun t => 0 <= t) table ->
  exists i d' t, gmtime_month table mon d = (mon + Z.of_nat i, d') /\ table !! i = Some t /\
    0 <= d' < t /\ total (take i table) + d' = d.
Proof.
  intros Hd Hs Ht. revert mon d Hd Hs.
  induction Ht as [|t r Ht _ IH]; intros mon d Hd Hs; cbn [total foldr gmtime_month] in *; [lia|].
  zbool.
  - exists 0%nat, d, t. rewrite Z.add_0_r. cbn. split_and!; lia || done.
  - rewrite wrap_id by (unfold fits; lia).
    destruct (IH (mon + 1) (d - t)) as (i & d' & t' & -> & Hi & Hd' & Hsum); [unfold total in *; lia..|].
    exists (S i), d', t'. cbn [take total foldr]. split_and!; try done; try (unfold total in *; lia).
    f_equal. lia.
Qed.

Lemma mdays_months y i t :
  mdays (leap_year y) !! i = Some t ->
  (i < 12)%nat /\ t = month_length y (Z.of_nat i) /\
  total (take i (mdays (leap_year y))) = days_of_months y i.
Proof.
  intros Hi. assert (Hl : (i < 12)%nat).
  { apply lookup_lt_Some in Hi. unfold mdays in Hi. destruct (leap_year y); exact Hi. }
  split; [done|]. revert Hi. unfold mdays, days_of_months, month_length.
  do 12 (destruct i as [|i]; [destruct (leap_year y); intros [= <-]; done|]). lia.
Qed.

Lemma mdays_total leap : total (mdays leap) = 365 + (if leap then 1 else 0).
Proof. by destruct leap. Qed.

(** ** The two conversions *)

(** The time of the day that [_gmtime] computes. *)
Lemma split_time t :
  0 <= t -> let secs := t mod (60 * 60 * 24) in
  0 <= secs / 60 / 60 < 24 /\ 0 <= (secs / 60) mod 60 < 60 /\ 0 <= secs mod 60 < 60 /\
  t / (60 * 60 * 24) * 86400 + secs / 60 / 60 * 3600 + (secs / 60) mod 60 * 60 + secs mod 60 = t.
Proof. intros Ht secs. subst secs. Z.to_euclidean_division_equations. lia. Qed.

Lemma calc_time_t_run t :
  valid_time t -> tm_year t <= 205 ->
  calc_time_t t = Ok (time_number t + (if 200 <? tm_year t then 86400 else 0)).
Proof.
  intros (Hy & Hm & Hd & Hh & Hmin & Hs) Hy'.
  assert (Hmn : (Z.to_nat (tm_mon t) < 12)%nat) by lia.
  destruct (month_sec_days (tm_year t + 1900) _ Hmn) as (s & Hms & Hsb & Hsd).
  destruct (days_of_months_bound (tm_year t + 1900) _ Hmn) as [Hdm0 Hdm].
  rewrite Z2Nat.id in Hsd, Hdm by lia.
  assert (Hj : days_of_years (Z.to_nat (tm_year t - 70))
    = julian (tm_year t - 70) - (if 200 <? tm_year t then 1 else 0)).
  { rewrite days_of_years_julian, Z2Nat.id by lia. zbool; lia. }
  assert (Hjb : 0 <= julian (tm_year t - 70) <= 49309)
    by (unfold julian; Z.to_euclidean_division_equations; lia).
  unfold calc_time_t, time_number, date_number, SEC_PER_DAY. rewrite Hms.
  change (zlen month_sec) with 12.
  assert (Hin : (0 <=? tm_mon t) && (tm_mon t <? 12) = true) by (zbool; try lia; done).
  rewrite Hin. cbn [get_or_bad mbind res_bind].
  assert (Hjul : u32 (u32 (tm_year t - 70) * 365) + Z.shiftr (u32 (u32 (tm_year t - 70) + 1)) 2
    = julian (tm_year t - 70)).
  { wraps. rewrite Z.shiftr_div_pow2 by lia. unfold julian. change (2 ^ 2) with 4. lia. }
  rewrite Hjul. wraps. unfold mret, res_ret. cbn [mbind res_bind]. rewrite <- andb_assoc.
  fold (leap_year (tm_year t + 1900)).
  rewrite Hj. f_equal.
  revert Hsd. destruct ((2 <=? tm_mon t) && leap_year (tm_year t + 1900)); intros Hsd;
    wraps; zbool; lia.
Qed.

(** Before March 2100 the month loop follows the Gregorian months. *)
Lemma mdays_before y i t d' yd :
  leap70 y = leap_year (1970 + y) \/ y = 130 /\ yd < 59 ->
  mdays (leap70 y) !! i = Some t -> 0 <= d' < t -> total (take i (mdays (leap70 y))) + d' = yd ->
  (i < 12)%nat /\ d' < month_length (1970 + y) (Z.of_nat i) /\
  days_of_months (1970 + y) i + d' = yd.
Proof.
  intros [Hl|[-> Hyd]] Hi Hd Hsum.
  - rewrite Hl in *. destruct (mdays_months _ _ _ Hi) as (? & -> & Ht). lia.
  - destruct i as [|i].
    { injection Hi as <-. change (total _) with 0 in Hsum.
      change (month_length _ _) with 31. change (days_of_months _ _) with 0. lia. }
    destruct i as [|i].
    { injection Hi as <-. change (total _) with 31 in Hsum.
      change (month_length _ _) with 28. change (days_of_months _ _) with 31. lia. }
    assert (59 <= total (take (S (S i)) (mdays (leap70 130)))); [|lia].
    change (mdays (leap70 130)) with (31 :: 29 :: drop 2 (mdays true)). cbn [take total foldr].
    assert (0 <= total (take i (drop 2 (mdays true)))); [|unfold total in *; lia].
    apply lookup_lt_Some in Hi. change (length (mdays (leap70 130))) with 12%nat in Hi. clear -Hi.
    do 10 (destruct i as [|i]; [vm_compute; congruence|]). lia.
Qed.

(** A time in seconds has one date. *)
Lemma gmtime_run t :
  0 <= t < 2 ^ 32 ->
  exists d, gmtime t = Ok d /\ (t < 4107542400 ->
    valid_time d /\ tm_year d <= 200 /\ time_number d = t /\
    tm_wday d = (t / 86400 + 4) mod 7 /\
    tm_yday d = days_of_months (tm_year d + 1900) (Z.to_nat (tm_mon d)) + (tm_mday d - 1)).
Proof.
  intros Ht. set (days := t / (60 * 60 * 24)).
  assert (Hdays : 0 <= days <= 49710) by (unfold days; Z.to_euclidean_division_equations; lia).
  destruct (gmtime_year_run gmtime_fuel 0 days) as (y & yd & Hyear & Hy & Hyd & Hj);
    [lia|lia|unfold gmtime_fuel, julian; Z.to_euclidean_division_equations; lia|
     unfold gmtime_fuel; lia|lia|].
  change (julian 0) with 0 in Hj. unfold gmtime_fuel in Hy.
  assert (Hyd' : yd < 366) by (destruct (leap70 y); lia).
  destruct (gmtime_month_run (mdays (leap70 y)) 0 yd) as (i & d' & ml & Hmon & Hi & Hd' & Hsum);
    [rewrite mdays_total; lia|lia|by destruct (leap70 y); repeat constructor|].
  unfold gmtime. fold days. rewrite Hyear. cbn [mbind res_bind]. rewrite Hmon.
  eexists. split; [done|]. intros Hlt.
  assert (Hd : julian y + yd < 47541) by (unfold days in Hj; Z.to_euclidean_division_equations; lia).
  assert (Hy' : y <= 130) by (unfold julian in *; Z.to_euclidean_division_equations; lia).
  assert (Hleap : leap70 y = leap_year (1970 + y) \/ y = 130 /\ yd < 59).
  { destruct (decide (y = 130)) as [->|]; [right|left; symmetry; apply leap_year_70; lia].
    split; [done|]. change (julian 130) with 47482 in Hd. lia. }
  destruct (mdays_before y i ml d' yd Hleap Hi Hd' Hsum) as (Hil & Hml & Hdm).
  unfold valid_time, time_number, date_number. cbn [tm_year tm_mon tm_mday tm_hour tm_min tm_sec
    tm_wday tm_yday].
  destruct (split_time t ltac:(lia)) as (Hh & Hm & Hs & Heq). fold days in Heq.
  replace (y + 70 + 1900) with (1970 + y) by lia. replace (y + 70 - 70) with y by lia.
  rewrite Z.add_0_l, Nat2Z.id, days_of_years_julian, Z2Nat.id by lia.
  split_and!; try lia; [|done].
  zbool; lia.
Qed.

(** ** The timer's period *)

(** After [n] passes the loop has the first digits of [1 / freq]: [rate * 10] and the digit in
    [quot] make up [10 ^ n]. *)
Lemma invert_loop_run fuel n freq quot rate scale :
  1 <= freq <= UINT_MAX / 10 -> 0 <= n -> n + Z.of_nat fuel = 19 ->
  0 <= rate < UINT_MAX / 10 - 10 -> 0 <= quot < 10 * freq -> rate * 10 * freq + quot = 10 ^ n ->
  exists k, invert_loop fuel freq quot rate scale
    = Ok {| timer_rate := 10 ^ k / freq; timer_scale := scale - (k - n) |} /\
    n <= k < 19 /\ 10 ^ k / freq < 2 ^ 32 /\
    (10 ^ k mod freq = 0 \/ UINT_MAX / 10 - 10 <= 10 ^ k / freq).
Proof.
  change (UINT_MAX / 10) with 429496729. revert n quot rate scale.
  induction fuel as [|fuel IH]; intros n quot rate scale Hf Hn Hfuel Hrate Hquot Hinv.
  - exfalso. replace n with 19 in Hinv by lia. change (10 ^ 19) with 10000000000000000000 in Hinv. nia.
  - cbn [invert_loop]. change (UINT_MAX / 10 - 10) with 429496719.
    pose proof (Z.div_mod quot freq ltac:(lia)) as Hdm.
    pose proof (Z.mod_pos_bound quot freq ltac:(lia)) as Hmod.
    assert (Hdiv : 0 <= quot / freq <= 9)
      by (split; [apply Z.div_pos; lia|apply Z.lt_succ_r, Z.div_lt_upper_bound; lia]).
    rewrite !wrap_id by (unfold fits; rewrite ?wrap_id by (unfold fits; lia); lia).
    assert (Hq : 10 ^ n / freq = rate * 10 + quot / freq)
      by (symmetry; apply Z.div_unique with (r := quot mod freq); lia).
    assert (Hr : 10 ^ n mod freq = quot mod freq)
      by (symmetry; apply Z.mod_unique with (q := rate * 10 + quot / freq); lia).
    rewrite <- Hq, <- Hr.
    zbool.
    + exists n. rewrite Z.sub_diag, Z.sub_0_r. split_and!; try done; try lia; by right.
    + exists n. rewrite Z.sub_diag, Z.sub_0_r. split_and!; try done; try lia; by left.
    + destruct (IH (n + 1) (10 ^ n mod freq * 10) (10 ^ n / freq) (scale - 1))
        as (k & -> & Hk & Hlt & Hend); try lia.
      { rewrite Z.pow_add_r by lia. change (10 ^ 1) with 10. rewrite Hq, Hr. nia. }
      exists k. split_and!; try done; try lia. do 2 f_equal. lia.
Qed.

(** ** Ticks and nanoseconds *)

Lemma pow10_S p : 10 ^ Z.of_nat (S p) = 10 * 10 ^ Z.of_nat p.
Proof. rewrite Nat2Z.inj_succ, Z.pow_succ_r by lia. done. Qed.

Lemma pow10_pos p : 0 < 10 ^ Z.of_nat p.
Proof. apply Z.pow_pos_nonneg; lia. Qed.

(** A value that has enough digits is only divided. *)
Lemma tick2ns_down_kept p rate ticks ns :
  10 ^ Z.of_nat p <= ns -> tick2ns_down p rate ticks ns = Ok (ns / 10 ^ Z.of_nat p).
Proof.
  revert rate ns. induction p as [|p IH]; intros rate ns Hns; cbn [tick2ns_down].
  - change (10 ^ Z.of_nat 0) with 1 in *. rewrite (proj2 (Z.eqb_neq ns 0)) by lia.
    by rewrite Z.div_1_r.
  - pose proof (pow10_pos p). rewrite pow10_S in *. rewrite (proj2 (Z.eqb_neq ns 0)) by lia.
    cbn [mret res_ret mbind res_bind]. rewrite IH by (apply Z.div_le_lower_bound; lia).
    by rewrite Z.div_div by lia.
Qed.

(** The overflow test is exact. *)
Lemma overflow_test rate ticks :
  0 < rate < 2 ^ 32 -> 0 <= ticks ->
  (u32 (rate * ticks) / rate =? ticks) = (rate * ticks <? 2 ^ 32).
Proof.
  intros Hr Ht. destruct (Z.ltb_spec (rate * ticks) (2 ^ 32)) as [Hlt|Hge].
  - rewrite wrap_id by (unfold fits; nia). rewrite Z.mul_comm, Z.div_mul by lia. apply Z.eqb_refl.
  - apply Z.eqb_neq. intros He. unfold wrap in He.
    assert (rate * ticks mod 2 ^ 32 <= rate * ticks - 2 ^ 32).
    { rewrite Z.mod_eq by lia.
      assert (1 <= rate * ticks / 2 ^ 32) by (apply Z.div_le_lower_bound; lia). lia. }
    pose proof (Z.mul_div_le (rate * ticks mod 2 ^ 32) rate ltac:(lia)). nia.
Qed.

(** With [p] divisions to come and digits enough in the rate: the first division of the rate that
    lets the product fit is used, and the other divisions apply to the product. *)
Lemma tick2ns_down_run p rate ticks :
  10 ^ Z.of_nat p <= rate < 2 ^ 32 -> 0 < ticks ->
  (exists j, 0 <= j <= Z.of_nat p /\ rate / 10 ^ j * ticks < 2 ^ 32 /\
     (forall i, 0 <= i < j -> 2 ^ 32 <= rate / 10 ^ i * ticks) /\
     tick2ns_down p rate ticks 0 = Ok (rate / 10 ^ j * ticks / 10 ^ (Z.of_nat p - j))) \/
  (forall i, 0 <= i <= Z.of_nat p -> 2 ^ 32 <= rate / 10 ^ i * ticks) /\
     tick2ns_down p rate ticks 0 = Ok 0.
Proof.
  revert rate. induction p as [|p IH]; intros rate Hr Ht; cbn [tick2ns_down Z.eqb].
  - change (10 ^ Z.of_nat 0) with 1 in Hr. rewrite (proj2 (Z.eqb_neq rate 0)) by lia.
    cbn [mret res_ret mbind res_bind]. rewrite overflow_test by lia.
    destruct (Z.ltb_spec (rate * ticks) (2 ^ 32)) as [Hlt|Hge].
    + left. exists 0. change (Z.of_nat 0 - 0) with 0. rewrite !Z.pow_0_r, !Z.div_1_r.
      split_and!; try lia. by rewrite wrap_id by (unfold fits; lia).
    + right. split; [|done]. intros i Hi. replace i with 0 by lia. by rewrite Z.pow_0_r, Z.div_1_r.
  - pose proof (pow10_pos p). rewrite pow10_S in Hr.
    rewrite (proj2 (Z.eqb_neq rate 0)) by lia.
    cbn [mret res_ret mbind res_bind]. rewrite overflow_test by lia.
    destruct (Z.ltb_spec (rate * ticks) (2 ^ 32)) as [Hlt|Hge].
    + left. exists 0. rewrite !Z.sub_0_r, Z.pow_0_r, Z.div_1_r. split_and!; try lia.
      rewrite wrap_id by (unfold fits; nia). cbn [mret res_ret mbind res_bind].
      rewrite tick2ns_down_kept by (apply Z.div_le_lower_bound; nia).
      by rewrite Z.div_div, pow10_S by lia.
    + cbn [mret res_ret mbind res_bind]. change (0 / 10) with 0.
      assert (Hstep : forall i, 0 <= i -> rate / 10 / 10 ^ i = rate / 10 ^ (i + 1)).
      { intros i Hi. rewrite Z.div_div, Z.add_1_r, Z.pow_succ_r by (try apply Z.pow_pos_nonneg; lia).
        done. }
      assert (H0 : rate / 10 ^ 0 = rate) by (by rewrite Z.pow_0_r, Z.div_1_r).
      assert (Hall : forall j, (forall i, 0 <= i < j -> 2 ^ 32 <= rate / 10 / 10 ^ i * ticks) ->
        forall i, 0 <= i < j + 1 -> 2 ^ 32 <= rate / 10 ^ i * ticks).
      { intros j Hj i Hi. destruct (decide (i = 0)) as [->|]; [by rewrite H0|].
        replace i with (i - 1 + 1) by lia. rewrite <- Hstep by lia. apply Hj. lia. }
      destruct (IH (rate / 10)) as [(j & Hj & Hfit & Hleast & Hrun)|[Hnone Hrun]];
        [split; [apply Z.div_le_lower_bound|apply Z.div_lt_upper_bound]; lia|done| |].
      * left. exists (j + 1). rewrite <- Hstep by lia. split_and!; try lia; [by apply Hall|].
        rewrite Hrun. do 3 f_equal. lia.
      * right. split; [|done]. intros i Hi. apply (Hall (Z.of_nat p + 1)); [|lia].
        intros i' Hi'. apply Hnone. lia.
Qed.

Lemma tick2ns_up_run p ns :
  0 <= ns -> ns * 10 ^ Z.of_nat p < 2 ^ 32 -> tick2ns_up p ns = ns * 10 ^ Z.of_nat p.
Proof.
  revert ns. induction p as [|p IH]; intros ns Hns Hfit; cbn [tick2ns_up].
  - by rewrite Z.pow_0_r, Z.mul_1_r.
  - pose proof (pow10_pos p). rewrite pow10_S in *.
    rewrite wrap_id by (unfold fits; nia). rewrite IH; lia.
Qed.

(** ** The properties *)

(** Every time before March 2100 is split by [_gmtime] into its Gregorian date and time of day,
    with the week day and the day of the year, and [calc_time_t] gives the same time back; for any
    32-bit time the year loop ends. *)
Theorem calendar_round_trip t :
  0 <= t < 2 ^ 32 ->
  exists d, gmtime t = Ok d /\ (t < 4107542400 ->
    valid_time d /\ time_number d = t /\ tm_wday d = (t / 86400 + 4) mod 7 /\
    tm_yday d = days_of_months (tm_year d + 1900) (Z.to_nat (tm_mon d)) + (tm_mday d - 1) /\
    calc_time_t d = Ok t).
Proof.
  intros Ht. destruct (gmtime_run t Ht) as (d & Hg & Hd). exists d. split; [done|].
  intros Hlt. destruct (Hd Hlt) as (Hv & Hy & Hn & Hw & Hyd). split_and!; try done.
  rewrite calc_time_t_run, Hn by (done || lia). zbool; [lia|]. by rewrite Z.add_0_r.
Qed.

(** [calc_time_t] is the number of seconds since 1970 of any Gregorian date and time up to the
    year 2100; from 2101 to 2105, where the count still fits 32 bits, it is one day late because
    the code takes 2100 for a leap year. *)
Theorem calc_time_t_correct t :
  valid_time t -> tm_year t <= 205 ->
  calc_time_t t = Ok (time_number t + (if 200 <? tm_year t then 86400 else 0)).
Proof. apply calc_time_t_run. Qed.

(** [invert_timer_freq] ends for every frequency but zero, for which it stops startup.  The
    rate is the whole part of [10 ^ k / freq] with scale [-k], it fits 32 bits, and [k] is large
    enough for the division to be exact or for the rate to have nine digits; a frequency of more
    than a tenth of the 32-bit range first loses its last digit. *)
Theorem invert_timer_freq_correct freq :
  0 <= freq < 2 ^ 32 ->
  (freq = 0 -> exists msg, invert_timer_freq freq = Err (Crash msg)) /\
  (freq <> 0 ->
   let big := UINT_MAX / 10 <? freq in
   let f := if big then freq / 10 else freq in
   exists k q, invert_timer_freq freq = Ok q /\ 0 <= k < 19 /\
     timer_rate q = 10 ^ k / f /\ timer_rate q < 2 ^ 32 /\
     timer_scale q = - k - (if big then 1 else 0) /\
     (10 ^ k mod f = 0 \/ UINT_MAX / 10 - 10 <= timer_rate q)).
Proof.
  intros Hf. unfold invert_timer_freq. change (UINT_MAX / 10) with 429496729.
  split; intros H0; [subst; by eexists|]. rewrite (proj2 (Z.eqb_neq freq 0)) by done. cbn zeta.
  assert (Hrun : forall f s, 1 <= f <= 429496729 -> exists k q,
    invert_loop invert_fuel f 1 0 s = Ok q /\ 0 <= k < 19 /\ timer_rate q = 10 ^ k / f /\
    timer_rate q < 2 ^ 32 /\ timer_scale q = s - k /\
    (10 ^ k mod f = 0 \/ 429496729 - 10 <= timer_rate q)).
  { intros f s Hfb. destruct (invert_loop_run invert_fuel 0 f 1 0 s) as (k & Hr & Hk & Hlt & He);
      try (change (UINT_MAX / 10) with 429496729; lia); [done|].
    eexists k, _. split; [exact Hr|]. cbn [timer_rate timer_scale]. split_and!; lia || done. }
  destruct (Z.ltb_spec 429496729 freq) as [Hb|Hb].
  - destruct (Hrun (freq / 10) (-1)) as (k & q & ? & ? & ? & ? & ? & ?).
    { split; [apply Z.div_le_lower_bound; lia|]. apply Z.lt_succ_r, Z.div_lt_upper_bound; lia. }
    exists k, q. split_and!; try done; lia.
  - destruct (Hrun freq 0 ltac:(lia)) as (k & q & ? & ? & ? & ? & ? & ?).
    exists k, q. split_and!; try done; lia.
Qed.

(** When the rate has more digits than the decimal point moves, [timer_tick2ns] returns for any
    number of ticks: the rate gives up only the digits that keep the product from fitting 32 bits,
    no tick count is ever given too many nanoseconds, and a period longer than a nanosecond only
    appends zeros. *)
Theorem timer_tick2ns_correct q ticks :
  let power := -9 - timer_scale q in
  0 < timer_rate q < 2 ^ 32 -> 0 < ticks ->
  (0 <= power -> 10 ^ power <= timer_rate q ->
   exists ns, timer_tick2ns q ticks = Ok ns /\ 0 <= ns <= timer_rate q * ticks / 10 ^ power /\
     ((exists j, 0 <= j <= power /\ timer_rate q / 10 ^ j * ticks < 2 ^ 32 /\
        (forall i, 0 <= i < j -> 2 ^ 32 <= timer_rate q / 10 ^ i * ticks) /\
        ns = timer_rate q / 10 ^ j * ticks / 10 ^ (power - j)) \/
      2 ^ 32 <= timer_rate q / 10 ^ power * ticks /\ ns = 0)) /\
  (power < 0 -> timer_rate q * ticks * 10 ^ (- power) < 2 ^ 32 ->
   timer_tick2ns q ticks = Ok (timer_rate q * ticks * 10 ^ (- power))).
Proof.
  intros power Hr Ht. unfold timer_tick2ns. fold power. split.
  - intros Hp Hd. rewrite <- (Z2Nat.id power) in Hd by done.
    assert (Hup : Z.to_nat (- power) = 0%nat) by lia. rewrite Hup. cbn [tick2ns_up].
    destruct (tick2ns_down_run (Z.to_nat power) (timer_rate q) ticks ltac:(lia) Ht)
      as [(j & Hj & Hfit & Hleast & Hrun)|[Hnone Hrun]]; rewrite Hrun, ?Z2Nat.id in * by done;
      (eexists; split; [reflexivity|]).
    + split; [|left; by exists j]. assert (0 < 10 ^ j) by (apply Z.pow_pos_nonneg; lia).
      assert (0 < 10 ^ (power - j)) by (apply Z.pow_pos_nonneg; lia).
      assert (0 <= timer_rate q / 10 ^ j) by (apply Z.div_pos; lia).
      split; [apply Z.div_pos; nia|]. replace power with (j + (power - j)) at 2 by lia.
      rewrite Z.pow_add_r, <- Z.div_div by lia. apply Z.div_le_mono; [done|].
      apply Z.div_le_lower_bound; [done|]. pose proof (Z.mul_div_le (timer_rate q) (10 ^ j)). nia.
    + split; [split; [done|]|right; split; [apply Hnone; lia|done]].
      apply Z.div_pos; [nia|apply Z.pow_pos_nonneg; lia].
  - intros Hp Hfit. assert (0 < 10 ^ (- power)) by (apply Z.pow_pos_nonneg; lia).
    assert (Hup : Z.to_nat power = 0%nat) by lia. rewrite Hup. cbn [tick2ns_down Z.eqb].
    rewrite (proj2 (Z.eqb_neq (timer_rate q) 0)) by lia. cbn [mret res_ret mbind res_bind].
    rewrite overflow_test, (proj2 (Z.ltb_lt _ _)) by nia. cbn [mret res_ret mbind res_bind].
    rewrite wrap_id by (unfold fits; nia).
    rewrite tick2ns_up_run, Z2Nat.id; rewrite ?Z2Nat.id; [done|nia..].
Qed.

(** ** Instances *)

Lemma calendar_witness :
  exists d, gmtime 1500000000 = Ok d /\ valid_time d /\ calc_time_t d = Ok 1500000000.
Proof.
  destruct (calendar_round_trip 1500000000 ltac:(lia)) as (d & Hg & Hd).
  destruct (Hd ltac:(lia)) as (Hv & _ & _ & _ & Hc). exact (ex_intro _ d (conj Hg (conj Hv Hc))).
Defined.

(** Noon of 29 February 2000. *)
Definition leap_day : tm :=
  {| tm_sec := 0; tm_min := 0; tm_hour := 12; tm_mday := 29; tm_mon := 1; tm_year := 100;
     tm_wday := 2; tm_yday := 59 |}.

Lemma calc_time_t_witness : calc_time_t leap_day = Ok 951825600.
Proof.
  rewrite (calc_time_t_correct leap_day); [vm_compute; reflexivity| |vm_compute; congruence].
  unfold valid_time. split_and!; vm_compute; congruence.
Defined.

(** The 396 MHz timer of the i.MX6 Cortex-A9. *)
Lemma invert_timer_freq_witness :
  exists q, invert_timer_freq 396000000 = Ok q /\ timer_rate q < 2 ^ 32.
Proof.
  destruct (invert_timer_freq_correct 396000000 ltac:(lia)) as [_ H].
  destruct (H ltac:(lia)) as (k & q & Hq & _ & _ & Hr & _).
  exact (ex_intro _ q (conj Hq Hr)).
Defined.

Definition demo_qtime : qtime := {| timer_rate := 2525252525; timer_scale := -18 |}.

Lemma timer_tick2ns_witness :
  exists ns, timer_tick2ns demo_qtime 1000 = Ok ns /\ 0 <= ns <= 2525.
Proof.
  destruct (timer_tick2ns_correct demo_qtime 1000) as [H _]; [vm_compute; split; congruence|lia|].
  destruct H as (ns & Hns & Hb & _); [vm_compute; congruence..|]. exists ns. split; [exact Hns|].
  exact Hb.
Defined.

(** With a timer of 1.25 GHz a tick is less than a nanosecond: the rate has no digit left when the
    product is computed again, and the routine divides by zero. *)
Example ns2tick_divides_by_zero :
  (q ← invert_timer_freq 1250000000; timer_ns2tick q 1000) = Err BadAccess.
Proof. vm_compute. reflexivity. Qed.
