(* ===== verification/Text.v ===== *)
(** * Text: numbers and messages of startup (startup/lib/strtoul.c, getsize.c, kprintf.c and the
    frequency option of common_options.c).

    A C string in memory is the list of bytes from its pointer on, the terminating NUL and whatever
    follows included; a pointer into it is the list that remains.  Reading past the list is an
    access out of bounds. *)

From S2P Require Import Prelude.
From S2P Require Import Sections.

(** ** Reading numbers *)

(** [*p] and [p\[i\]]. *)
Definition deref (p : list Z) : res Z := get_or_bad (head p).
Definition deref_at (p : list Z) (i : Z) : res Z := get_or_bad (byte_at p i).

(** [hexstr(p)] *)
Definition hexstr (p : list Z) : res bool :=
  c0 ← deref_at p 0;
  if c0 =? 48 then c1 ← deref_at p 1; mret ((c1 =? 120) || (c1 =? 88))
  else mret false.

Definition radix_value (c : Z) : Z :=
  if (48 <=? c) && (c <=? 57) then c - 48
  else if (97 <=? c) && (c <=? 102) then c - 97 + 10
  else if (65 <=? c) && (c <=? 70) then c - 65 + 10
  else 37.

(** The digit loop of [strtopaddr]: the value and the pointer where it stops. *)
Fixpoint strtopaddr_loop (p : list Z) (base value : Z) : res (Z * list Z) :=
  match p with
  | [] => Err BadAccess
  | c :: r =>
      let digit := radix_value c in
      if base <=? digit then mret (value, p)
      else strtopaddr_loop r base (u64 (u64 (value * base) + digit))
  end.

(** The value and [*endptr]. *)
Definition strtopaddr (nptr : list Z) (base : Z) : res (Z * list Z) :=
  base ← (if base =? 0 then
            h ← hexstr nptr;
            if h : bool then mret 16
            else c ← deref nptr; mret (if c =? 48 then 8 else 10)
          else mret base);
  p ← (if base =? 16 then
         h ← hexstr nptr; mret (if h : bool then drop 2 nptr else nptr)
       else mret nptr);
  '(value, p') ← strtopaddr_loop p base 0;
  mret (value, if bool_decide (p' = p) then nptr else p').

(** [strtoul]: [unsigned long] has 32 bits. *)
Definition strtoul (nptr : list Z) (base : Z) : res (Z * list Z) :=
  '(v, e) ← strtopaddr nptr base; mret (u32 v, e).

(** [getsize]: the number in an [unsigned long], times the unit of its suffix. *)
Definition getsize (str : list Z) : res (Z * list Z) :=
  '(v, str) ← strtopaddr str 0;
  let v := u32 v in
  c ← deref str;
  let kilo (v : Z) := u32 (v * 1024) in
  if (c =? 71) || (c =? 103) then mret (kilo (kilo (kilo v)), drop 1 str)
  else if (c =? 77) || (c =? 109) then mret (kilo (kilo v), drop 1 str)
  else if (c =? 75) || (c =? 107) then mret (kilo v, drop 1 str)
  else mret (v, str).

(** [get_freq(fp)]: the new [optarg], and the frequency when there is one. *)
Definition get_freq (optarg : list Z) (fp : Z) : res (list Z * Z) :=
  '(freq, end_) ← strtoul optarg 10;
  '(optarg, fp) ←
    (if bool_decide (optarg = end_) then mret (optarg, fp)
     else
       c ← deref end_;
       if (c =? 109) || (c =? 77) then mret (drop 1 end_, u32 (u32 (freq * 1000) * 1000))
       else if (c =? 107) || (c =? 75) then mret (drop 1 end_, u32 (freq * 1000))
       else if (c =? 104) || (c =? 72) then mret (drop 1 end_, freq)
       else mret (end_, if freq <? 1000 then u32 (freq * 1000000) else freq));
  c ← deref optarg;
  mret (if c =? 44 then drop 1 optarg else optarg, fp).

(** ** Writing messages *)

(** What a message does: each character first lets the mini-driver run. *)
Inductive event : Type :=
  | MdriverCheck
  | PrintChar (c : Z).

Definition one_char (c : Z) : list event :=
  [MdriverCheck] ++ (if c =? 10 then [PrintChar 13] else []) ++ [PrintChar c].

Definition chars_out (s : list Z) : list event := concat (map one_char s).

(** The table [c]. *)
Definition digit_char (d : Z) : Z := if d <? 10 then 48 + d else 97 + (d - 10).

(** [do \{ *--vs = c\[num % radix\]; num /= radix; \} while(num);] with room for [room] digits before
    the start of [buf]. *)
Fixpoint digits_back (room : nat) (num radix : Z) (vs : list Z) : res (list Z) :=
  match room with
  | O => Err BadAccess
  | S room =>
      let vs := digit_char (num mod radix) :: vs in
      let num := num / radix in
      if num =? 0 then mret vs else digits_back room num radix vs
  end.

(** [buf] holds the terminating NUL and this many digits. *)
Definition buf_digits : nat := 63.

(** A number with at least [dig] digits. *)
Definition print_number (num radix dig : Z) : res (list Z) :=
  vs ← digits_back buf_digits num radix [];
  mret (replicate (Z.to_nat (dig - zlen vs)) 48 ++ vs).

Inductive arg : Type :=
  | ArgInt (v : Z)
  | ArgStr (s : list Z).

(** [va_arg] of an integer type of [w] bits, and of a string. *)
Definition next_int (w : Z) (args : list arg) : res (Z * list arg) :=
  match args with ArgInt v :: r => mret (wrap w v, r) | _ => Err BadAccess end.
Definition next_str (args : list arg) : res (list Z * list arg) :=
  match args with ArgStr s :: r => mret (s, r) | _ => Err BadAccess end.

(** The conversions: the width of the argument, the digits, the radix. *)
Definition conversion (c : Z) : option (Z * Z * Z) :=
  if c =? 98 then Some (32, 2, 16)            (* b *)
  else if c =? 119 then Some (32, 4, 16)      (* w *)
  else if c =? 80 then Some (64, 16, 16)      (* P *)
  else if c =? 120 then Some (32, 8, 16)      (* x *)
  else if c =? 108 then Some (32, 8, 16)      (* l *)
  else if c =? 76 then Some (64, 16, 16)      (* L *)
  else if c =? 118 then Some (32, 8, 16)      (* v *)
  else if (c =? 100) || (c =? 117) then Some (32, 0, 10)
  else None.

Fixpoint vmsg (fmt : list Z) (args : list arg) : res (list event) :=
  match fmt with
  | [] => Err BadAccess
  | f :: fmt =>
      if f =? 0 then mret []
      else if negb (f =? 37) then
        out ← vmsg fmt args; mret (one_char f ++ out)
      else
        match fmt with
        | [] => Err BadAccess
        | c :: fmt =>
            match conversion c with
            | Some (w, dig, radix) =>
                '(num, args) ← next_int w args;
                vs ← print_number num radix dig;
                out ← vmsg fmt args; mret (chars_out vs ++ out)
            | None =>
                if c =? 115 then
                  '(s, args) ← next_str args;
                  _ ← get_or_bad (strlen s);
                  out ← vmsg fmt args; mret (chars_out (cstr s) ++ out)
                else out ← vmsg fmt args; mret (one_char c ++ out)
            end
        end
  end.

Definition kprintf (fmt : list Z) (args : list arg) : res (list event) := vmsg fmt args.

(** The characters of a message, as [ksprintf]'s [string_print_char] collects them. *)
Definition printed (out : list event) : list Z :=
  omap (fun e => match e with PrintChar c => Some c | MdriverCheck => None end) out.

(** [ksprintf(buff, fmt, ...)] on the [size] bytes of [buff]. *)
Definition ksprintf (size : Z) (fmt : list Z) (args : list arg) : res (list Z) :=
  out ← vmsg fmt args;
  let s := printed out ++ [0] in
  if size <? zlen s then Err BadAccess else mret s.

Example vmsg_example :
  option_map printed (match vmsg (chars "at %P %s(%d)" ++ [0])
      [ArgInt 4096; ArgStr (chars "ram" ++ [0]); ArgInt 12] with Ok o => Some o | Err _ => None end)
  = Some (chars "at 0000000000001000 ram(12)").
Proof. vm_compute. reflexivity. Qed.

(** ** Digits and values *)

(** The value of digits after [v]. *)
Definition value_from (radix v : Z) (ds : list Z) : Z :=
  foldl (fun v c => v * radix + radix_value c) v ds.

Definition is_digit (radix c : Z) : Prop := 0 <= radix_value c < radix /\ c <> 120 /\ c <> 88.

Lemma radix_value_digit d : 0 <= d < 16 -> radix_value (digit_char d) = d.
Proof. intros Hd. unfold digit_char, radix_value. zbool; cbn; lia. Qed.

Lemma is_digit_char radix d : 0 <= d < radix -> radix <= 16 -> is_digit radix (digit_char d).
Proof.
  intros Hd Hr. unfold is_digit. rewrite radix_value_digit by lia.
  unfold digit_char. zbool; lia.
Qed.

Lemma value_from_app radix v a b :
  value_from radix v (a ++ b) = value_from radix (value_from radix v a) b.
Proof. apply foldl_app. Qed.

Lemma value_from_ge radix v ds :
  1 <= radix -> 0 <= v -> Forall (is_digit radix) ds -> v <= value_from radix v ds.
Proof.
  intros Hr Hv Hds. revert v Hv. induction Hds as [|c ds [Hc _] _ IH]; intros v Hv; [done|].
  cbn [value_from foldl]. fold (value_from radix (v * radix + radix_value c) ds).
  specialize (IH (v * radix + radix_value c)). nia.
Qed.

Lemma value_from_zeros radix n : value_from radix 0 (replicate n 48) = 0.
Proof. induction n as [|n IH]; [done|]. exact IH. Qed.

(** The digits of a number, most significant first, with no leading zero. *)
Lemma digits_back_run room num radix vs :
  2 <= radix <= 16 -> 0 <= num < radix ^ Z.of_nat (S room) ->
  exists ds, digits_back (S room) num radix vs = Ok (ds ++ vs) /\ Forall (is_digit radix) ds /\
    value_from radix 0 ds = num /\ ds <> [] /\ (head ds = Some 48 -> num = 0 /\ ds = [48]).
Proof.
  intros Hr. revert num vs.
  induction room as [|room IH]; intros num vs Hn; cbn [digits_back];
    pose proof (Z.mod_pos_bound num radix ltac:(lia)) as Hm;
    pose proof (Z.div_mod num radix ltac:(lia)) as Hdm;
    assert (Hone : num / radix = 0 -> exists ds, Ok (digit_char (num mod radix) :: vs) = Ok (ds ++ vs) /\
      Forall (is_digit radix) ds /\ value_from radix 0 ds = num /\ ds <> [] /\
      (head ds = Some 48 -> num = 0 /\ ds = [48])) by
      (intros H0; exists [digit_char (num mod radix)]; split_and!; try done;
       [constructor; [apply is_digit_char; lia|done]
       |cbn [value_from foldl]; rewrite radix_value_digit; lia
       |cbn [head]; intros [= Hc]; unfold digit_char in *; revert Hc; zbool; intros Hc;
        [split; [lia|f_equal; lia]|lia]]).
  - rewrite Z.pow_1_r in Hn. rewrite Z.div_small in * by lia. by apply Hone.
  - destruct (Z.eqb_spec (num / radix) 0) as [H0|H0]; [by apply Hone|].
    assert (0 <= num / radix) by (apply Z.div_pos; lia).
    destruct (IH (num / radix) (digit_char (num mod radix) :: vs)) as (ds & Hrun & Hds & Hv & Hne & Hh).
    { split; [done|]. apply Z.div_lt_upper_bound; [lia|].
      replace (Z.of_nat (S (S room))) with (Z.succ (Z.of_nat (S room))) in Hn by lia.
      rewrite Z.pow_succ_r in Hn; lia. }
    exists (ds ++ [digit_char (num mod radix)]). rewrite <- app_assoc. split_and!.
    + exact Hrun.
    + apply Forall_app. split; [done|]. constructor; [apply is_digit_char; lia|done].
    + rewrite value_from_app, Hv. cbn [value_from foldl]. rewrite radix_value_digit; lia.
    + by destruct ds.
    + destruct ds as [|c ds]; [done|]. cbn [head app]. intros Hc. destruct (Hh Hc) as [? _]. lia.
Qed.

Lemma room_10 : 2 ^ 64 <= 10 ^ 63.
Proof. vm_compute. congruence. Qed.

(** Printing a 64-bit number always has room. *)
Lemma print_number_run num radix dig :
  radix = 10 \/ radix = 16 -> 0 <= num < 2 ^ 64 ->
  exists ds, print_number num radix dig = Ok ds /\ Forall (is_digit radix) ds /\
    value_from radix 0 ds = num /\ dig <= zlen ds /\ ds <> [] /\
    (dig = 0 -> head ds = Some 48 -> num = 0 /\ ds = [48]).
Proof.
  intros Hr Hn.
  assert (Hroom : num < radix ^ Z.of_nat (S 62)).
  { pose proof (Z.pow_le_mono_l 10 radix 63 ltac:(lia)). pose proof room_10.
    change (Z.of_nat (S 62)) with 63. lia. }
  destruct (digits_back_run 62 num radix []) as (ds & Hrun & Hds & Hv & Hne & Hh); [lia..|].
  unfold print_number, buf_digits. rewrite Hrun, app_nil_r. cbn [mret res_ret mbind res_bind].
  eexists. split; [reflexivity|]. split_and!.
  - apply Forall_app. split; [|done]. apply Forall_replicate. destruct Hr as [-> | ->]; by split.
  - by rewrite value_from_app, value_from_zeros.
  - unfold zlen. rewrite length_app, length_replicate. lia.
  - intros Heq%app_eq_nil. tauto.
  - intros ->. pose proof (zlen_nonneg ds). rewrite Z2Nat.nonpos by lia. exact Hh.
Qed.

(** ** Reading digits back *)

Lemma strtopaddr_loop_run base v ds x r :
  1 <= base <= 16 -> 0 <= v -> Forall (is_digit base) ds -> base <= radix_value x ->
  value_from base v ds < 2 ^ 64 ->
  strtopaddr_loop (ds ++ x :: r) base v = Ok (value_from base v ds, x :: r).
Proof.
  intros Hb Hv Hds Hx. revert v Hv. induction Hds as [|c ds [Hc Hc'] Hds IH]; intros v Hv Hlt.
  - cbn [app strtopaddr_loop]. zbool; [done|lia].
  - cbn [app strtopaddr_loop]. zbool; [lia|].
    cbn [value_from foldl] in *. fold (value_from base (v * base + radix_value c) ds) in *.
    pose proof (value_from_ge base (v * base + radix_value c) ds ltac:(lia) ltac:(nia) Hds).
    rewrite (wrap_id 64 (v * base)), wrap_id by (unfold fits; nia).
    rewrite IH; [done|nia|done].
Qed.

(** No digit of a number takes part in the [0x] mark. *)
Lemma hexstr_digits base ds x r :
  Forall (is_digit base) ds -> 2 <= zlen ds \/ ds <> [] /\ x <> 120 /\ x <> 88 ->
  hexstr (ds ++ x :: r) = Ok false.
Proof.
  intros Hds Hl. unfold hexstr, deref_at.
  destruct Hds as [|c ds Hc Hds]; [destruct Hl as [Hl|[? _]]; [rewrite zlen_nil in Hl; lia|done]|].
  cbn [app byte_at get_or_bad mbind res_bind].
  change (byte_at (c :: ds ++ x :: r) 0) with (Some c). cbn [get_or_bad mbind res_bind].
  zbool; [|done].
  assert (Hd : exists d, byte_at (c :: ds ++ x :: r) 1 = Some d /\ d <> 120 /\ d <> 88).
  { destruct Hds as [|d ds (_ & ? & ?) Hds]; [|by exists d]. exists x. split; [done|].
    destruct Hl as [Hl|(_ & ? & ?)]; [rewrite zlen_cons, zlen_nil in Hl; lia|done]. }
  destruct Hd as (d & Hd & ? & ?). rewrite Hd. cbn [get_or_bad mbind res_bind].
  by rewrite !(proj2 (Z.eqb_neq _ _)) by done.
Qed.

Lemma printed_chars s : Forall (fun c => c <> 10) s -> printed (chars_out s) = s.
Proof.
  induction 1 as [|c s Hc _ IH]; [done|]. cbn [chars_out map concat]. unfold one_char at 1.
  rewrite (proj2 (Z.eqb_neq c 10)) by done. cbn. f_equal. exact IH.
Qed.

Lemma digit_not_newline radix c : radix <= 16 -> is_digit radix c -> c <> 10.
Proof. intros Hr [Hc _] ->. change (radix_value 10) with 37 in Hc. lia. Qed.

Lemma conversion_cases c w dig radix :
  conversion c = Some (w, dig, radix) ->
  (w = 32 \/ w = 64) /\ (radix = 10 /\ dig = 0 \/ radix = 16 /\ 2 <= dig).
Proof.
  unfold conversion. intros H.
  repeat match type of H with (if ?b then _ else _) = _ => destruct b; [injection H as <- <- <-; lia|] end.
  done.
Qed.

(** The loop reads a printed number and nothing of what follows. *)
Lemma strtopaddr_printed base ds x r num :
  1 <= base <= 16 -> Forall (is_digit base) ds -> ds <> [] -> base <= radix_value x ->
  value_from base 0 ds = num -> 0 <= num < 2 ^ 64 ->
  strtopaddr_loop (ds ++ x :: r) base 0 = Ok (num, x :: r) /\ x :: r <> ds ++ x :: r.
Proof.
  intros Hb Hds Hne Hx Hv Hn. split.
  - rewrite strtopaddr_loop_run; [by rewrite Hv|lia|lia|done|done|lia].
  - intros He. apply (f_equal length) in He. rewrite length_app in He. destruct ds; [done|].
    cbn in He. lia.
Qed.

(** What [kprintf] prints for a number, [strtopaddr] reads back: in the radix of the conversion,
    for a hexadecimal number also behind [0x] with the radix left open, and for a decimal number
    with the radix left open when no [x] follows; the pointer is left at what follows the digits. *)
Theorem number_round_trip c w dig radix v x rest :
  conversion c = Some (w, dig, radix) -> radix <= radix_value x ->
  exists out, vmsg [37; c; 0] [ArgInt v] = Ok out /\
    strtopaddr (printed out ++ x :: rest) radix = Ok (wrap w v, x :: rest) /\
    (radix = 16 ->
     strtopaddr ([48; 120] ++ printed out ++ x :: rest) 0 = Ok (wrap w v, x :: rest)) /\
    (radix = 10 -> x <> 120 -> x <> 88 ->
     strtopaddr (printed out ++ x :: rest) 0 = Ok (wrap w v, x :: rest)).
Proof.
  intros Hc Hx. destruct (conversion_cases _ _ _ _ Hc) as [Hw Hr].
  assert (Hn : 0 <= wrap w v < 2 ^ 64) by (pose proof (wrap_fits w v); unfold fits in *; destruct Hw as [-> | ->]; lia).
  destruct (print_number_run (wrap w v) radix dig) as (ds & Hp & Hds & Hv & Hl & Hne & Hh);
    [lia|done|].
  destruct (strtopaddr_printed radix ds x rest (wrap w v)) as [Hloop Hptr]; try done; [lia|].
  assert (Hdelim : 2 <= zlen ds \/ ds <> [] /\ x <> 120 /\ x <> 88 ->
    hexstr (ds ++ x :: rest) = Ok false) by (by apply hexstr_digits with (base := radix)).
  exists (chars_out ds). split; [|rewrite printed_chars by
    (eapply Forall_impl; [exact Hds|]; intros ? Hd; by apply digit_not_newline in Hd; lia)].
  { cbn [vmsg]. change (37 =? 0) with false. change (negb (37 =? 37)) with false. cbn iota.
    rewrite Hc. cbn [next_int mret res_ret mbind res_bind]. rewrite Hp.
    cbn [mret res_ret mbind res_bind]. change (0 =? 0) with true. cbn [mret res_ret mbind res_bind].
    by rewrite app_nil_r. }
  assert (Hend : forall b nptr p, strtopaddr_loop p b 0 = Ok (wrap w v, x :: rest) -> x :: rest <> p ->
    ('(value, p') ← strtopaddr_loop p b 0;
     mret (value, if bool_decide (p' = p) then nptr else p')) = Ok (wrap w v, x :: rest)).
  { intros b nptr p Hrun Hp'. rewrite Hrun. cbn [mbind res_bind]. by rewrite bool_decide_false. }
  unfold strtopaddr. split_and!.
  - destruct Hr as [[-> ->]|[-> Hdig]].
    + cbn [Z.eqb Pos.eqb mret res_ret mbind res_bind]. by apply Hend.
    + rewrite Hdelim by lia. cbn [Z.eqb Pos.eqb mret res_ret mbind res_bind]. by apply Hend.
  - intros ->. change (hexstr ([48; 120] ++ ds ++ x :: rest)) with (Ok true).
    cbn [Z.eqb Pos.eqb mret res_ret mbind res_bind app drop]. by apply Hend.
  - intros -> Hx1 Hx2. rewrite Hdelim by tauto. cbn [Z.eqb Pos.eqb mret res_ret mbind res_bind].
    destruct ds as [|d ds]; [done|]. change (deref ((d :: ds) ++ x :: rest)) with (Ok d).
    cbn [mret res_ret mbind res_bind]. destruct (Z.eqb_spec d 48) as [->|Hd].
    + cbn [Z.eqb Pos.eqb mret res_ret mbind res_bind]. apply Hend; [|done].
      destruct Hh as [H0 [= ->]]; [lia|done|]. rewrite H0. cbn [app strtopaddr_loop].
      change (8 <=? radix_value 48) with false. cbn iota.
      by rewrite (proj2 (Z.leb_le 8 _)) by lia.
    + cbn [Z.eqb Pos.eqb mret res_ret mbind res_bind]. by apply Hend.
Qed.

Lemma number_round_trip_witness :
  exists out, vmsg (chars "%P" ++ [0]) [ArgInt 268435456] = Ok out /\
    strtopaddr ([48; 120] ++ printed out ++ chars ",1M" ++ [0]) 0
      = Ok (268435456, chars ",1M" ++ [0]).
Proof.
  destruct (number_round_trip 80 64 16 16 268435456 44 (chars "1M" ++ [0])) as (out & Hout & _ & Hx & _).
  - reflexivity.
  - vm_compute. congruence.
  - exact (ex_intro _ out (conj Hout (Hx eq_refl))).
Defined.

(** A format that ends in a per cent sign makes the loop run over its terminating NUL. *)
Example vmsg_overrun : vmsg (chars "100%" ++ [0]) [] = Err BadAccess.
Proof. vm_compute. reflexivity. Qed.
