(* ===== verification/Getopt.v ===== *)
(** * Getopt: the option scanner of startup (startup/lib/getopt.c).

    The scanner is a state machine over [argv]: two static variables and two globals survive between
    the calls.  Its whole run is proved equal to a parse of the argument list. *)

From S2P Require Import Prelude.
From S2P Require Import Sections.

(** ** The code *)

(** [optind], [optarg] and the static variables.  An argument is the list of its characters without
    the terminating NUL; [cp] and [optarg] are what remains of one from the pointer on, and a [cp]
    moved past the NUL of an empty argument is [None]. *)
Record getopt_state := {
  optind : Z;
  optarg : option (list Z);
  last_optind : Z;
  cp : option (list Z)
}.

Definition QUESTION : Z := 63.
Definition COLON : Z := 58.
Definition DASH : Z := 45.

(** [*p] of a string without its NUL. *)
Definition char_at (p : list Z) : Z := default 0 (head p).

(** The search [for (; *opts; ++opts)]: what is left of [opts] from the match on. *)
Fixpoint find_opt (c : Z) (opts : list Z) : list Z :=
  match opts with
  | [] => []
  | o :: r => if o =? COLON then find_opt c r else if c =? o then opts else find_opt c r
  end.

Definition getopt_first : getopt_state :=
  {| optind := 0; optarg := None; last_optind := 0; cp := None |}.

(** The second half of a call, from the test for a dash at [cp] on. *)
Definition getopt_option (argv : list (list Z)) (opts : list Z) (s : getopt_state)
  : res (getopt_state * Z) :=
  p ← get_or_bad (cp s);
  let c := char_at p in
  let set i arg q :=
    {| optind := i; optarg := arg; last_optind := last_optind s; cp := Some q |} in
  if c =? DASH then mret (set (optind s + 1) (optarg s) p, -1)
  else
    let found := find_opt c opts in
    let opt := char_at found in
    let opts := drop 1 found in
    let optind1 := optind s + 1 in
    if opt =? 0 then mret (set optind1 (Some p) p, QUESTION)
    else
      let p' := drop 1 p in
      if negb (char_at p' =? 0) then
        if char_at opts =? COLON then mret (set optind1 (Some p') p', opt)
        else mret (set (optind1 - 1) (Some p) p', opt)
      else if char_at opts =? COLON then
        if optind1 <? zlen argv then
          a ← get_or_bad (argv !! Z.to_nat optind1);
          mret (set (optind1 + 1) (Some a) p', opt)
        else mret (set optind1 (Some p) p', QUESTION)
      else mret (set optind1 (Some p) p', opt).

(** The state and the result of a call. *)
Definition getopt (argv : list (list Z)) (opts : list Z) (s : getopt_state)
  : res (getopt_state * Z) :=
  let s := if optind s =? 0
           then {| optind := 1; optarg := optarg s; last_optind := 0; cp := cp s |} else s in
  if zlen argv <=? optind s then mret (s, -1)
  else if last_optind s =? optind s then getopt_option argv opts s
  else
    a ← get_or_bad (argv !! Z.to_nat (optind s));
    let set q := {| optind := optind s; optarg := optarg s; last_optind := optind s; cp := q |} in
    match a with
    | [] => mret (set None, -1)
    | c :: r =>
        if negb (c =? DASH) || bool_decide (r = []) then mret (set (Some r), -1)
        else getopt_option argv opts (set (Some r))
    end.

(** The callers' loop [while((opt = getopt(argc, argv, opts)) != -1)]: the options with their
    [optarg], and the index it leaves. *)
Fixpoint getopt_all (fuel : nat) (argv : list (list Z)) (opts : list Z) (s : getopt_state)
  : res (list (Z * list Z) * Z) :=
  match fuel with
  | O => Err NoFuel
  | S fuel =>
      '(s, opt) ← getopt argv opts s;
      if opt =? -1 then mret ([], optind s)
      else
        a ← get_or_bad (optarg s);
        '(l, i) ← getopt_all fuel argv opts s;
        mret ((opt, a) :: l, i)
  end.

(** ** The parse it stands for *)

(** Whether a character is an option of [opts], and whether it takes an argument: [opts] lists the
    options, each followed by a colon when it takes one. *)
Fixpoint takes_arg (c : Z) (opts : list Z) : option bool :=
  match opts with
  | [] => None
  | o :: r =>
      if o =? COLON then takes_arg c r
      else if c =? o then Some (bool_decide (head r = Some COLON)) else takes_arg c r
  end.

(** The options of a cluster: the letters of one argument behind its dash.  The result is the
    options, how many arguments were used, the one with the cluster included, and whether the scan
    goes on with the next argument. *)
Fixpoint parse_cluster (opts : list Z) (cluster : list Z) (rest : list (list Z))
  : list (Z * list Z) * nat * bool :=
  match cluster with
  | [] => ([], 1%nat, true)
  | c :: more =>
      if c =? DASH then ([], 1%nat, false)
      else
        match takes_arg c opts with
        | None => ([(QUESTION, cluster)], 1%nat, true)
        | Some false =>
            let '(l, n, go) := parse_cluster opts more rest in ((c, cluster) :: l, n, go)
        | Some true =>
            match more, rest with
            | _ :: _, _ => ([(c, more)], 1%nat, true)
            | [], b :: _ => ([(c, b)], 2%nat, true)
            | [], [] => ([(QUESTION, cluster)], 1%nat, true)
            end
        end
  end.

(** The whole command line, from the argument [i] on. *)
Fixpoint parse_args (fuel : nat) (opts : list Z) (args : list (list Z)) (i : Z)
  : list (Z * list Z) * Z :=
  match fuel, args with
  | S fuel, (c :: c' :: cs) :: rest =>
      if c =? DASH then
        let '(l, n, go) := parse_cluster opts (c' :: cs) rest in
        if go : bool then
          let '(l', j) := parse_args fuel opts (drop n args) (i + Z.of_nat n) in (l ++ l', j)
        else (l, i + Z.of_nat n)
      else ([], i)
  | _, _ => ([], i)
  end.

(** ** One call *)

Lemma find_opt_takes c opts :
  cname opts ->
  match takes_arg c opts with
  | None => find_opt c opts = []
  | Some b => exists r, find_opt c opts = c :: r /\ 0 < c /\ (char_at r =? COLON) = b
  end.
Proof.
  induction 1 as [|o r Ho _ IH]; cbn [takes_arg find_opt]; [done|].
  destruct (o =? COLON); [exact IH|]. destruct (Z.eqb_spec c o) as [->|]; [|exact IH].
  exists r. split; [done|]. split; [lia|]. unfold char_at.
  destruct r as [|x r]; [by rewrite bool_decide_false|].
  change (default 0 (head (x :: r))) with x.
  destruct (Z.eqb_spec x COLON) as [->|]; [by rewrite bool_decide_true|].
  rewrite bool_decide_false; [done|]. by intros [= ->].
Qed.

Section Scan.
Variables (argv : list (list Z)) (opts : list Z).
Hypothesis Hargv : Forall cname argv.
Hypothesis Hopts : cname opts.

(** The scanner stands in front of the argument [i], and inside it at [cl]. *)
Definition before (s : getopt_state) (i : Z) : Prop :=
  optind s = i /\ 1 <= i /\ last_optind s <> i.
Definition inside (s : getopt_state) (i : Z) (cl : list Z) : Prop :=
  optind s = i /\ 1 <= i < zlen argv /\ last_optind s = i /\ cp s = Some cl.

Lemma getopt_enter s i c cs :
  before s i -> argv !! Z.to_nat i = Some (DASH :: c :: cs) ->
  exists s', inside s' i (c :: cs) /\ getopt argv opts s = getopt_option argv opts s'.
Proof.
  intros (Hi & Hp & Hl) Ha.
  assert (Hlen : i < zlen argv) by (apply lookup_lt_Some in Ha; unfold zlen; lia).
  exists {| optind := i; optarg := optarg s; last_optind := i; cp := Some (c :: cs) |}.
  split; [by split_and!|]. unfold getopt.
  rewrite Hi, (proj2 (Z.eqb_neq i 0)), Hi, (proj2 (Z.leb_gt (zlen argv) i)) by lia.
  rewrite (proj2 (Z.eqb_neq (last_optind s) i)), Ha by done.
  cbn [get_or_bad mbind res_bind]. change (negb (DASH =? DASH)) with false.
  by rewrite bool_decide_false.
Qed.

Lemma getopt_continue s i cl :
  inside s i cl -> getopt argv opts s = getopt_option argv opts s.
Proof.
  intros (Hi & Hb & Hl & Hcp). unfold getopt.
  by rewrite Hi, (proj2 (Z.eqb_neq i 0)), Hi, (proj2 (Z.leb_gt (zlen argv) i)), Hl, Z.eqb_refl by lia.
Qed.

(** A call inside a cluster. *)
Lemma getopt_option_run s i c more :
  inside s i (c :: more) -> 0 < c -> cname more ->
  let rest := drop (Z.to_nat (i + 1)) argv in
  exists s', getopt_option argv opts s = Ok (s',
    if c =? DASH then -1 else
    match takes_arg c opts, more, rest with
    | None, _, _ => QUESTION
    | Some true, [], [] => QUESTION
    | _, _, _ => c
    end) /\
  (if c =? DASH then optind s' = i + 1 else
    match takes_arg c opts, more, rest with
    | None, _, _ => before s' (i + 1) /\ optarg s' = Some (c :: more)
    | Some true, _ :: _, _ => before s' (i + 1) /\ optarg s' = Some more
    | Some true, [], b :: _ => before s' (i + 2) /\ optarg s' = Some b
    | Some true, [], [] => before s' (i + 1) /\ optarg s' = Some (c :: more)
    | Some false, [], _ => before s' (i + 1) /\ optarg s' = Some (c :: more)
    | Some false, _ :: _, _ => inside s' i more /\ optarg s' = Some (c :: more)
    end).
Proof.
  intros (Hi & Hb & Hl & Hcp) Hc Hmore rest. unfold getopt_option. rewrite Hcp.
  cbn [get_or_bad mret res_ret mbind res_bind]. rewrite Hi, Hl.
  change (char_at (c :: more)) with c.
  destruct (c =? DASH); [by eexists|].
  pose proof (find_opt_takes c opts Hopts) as Hf.
  destruct (takes_arg c opts) as [b|].
  2: { rewrite Hf. cbn. eexists. split; [reflexivity|]. unfold before. cbn. split_and!; lia || done. }
  destruct Hf as (r & -> & _ & Hr). change (char_at (c :: r)) with c.
  change (drop 1 (c :: r)) with r. change (drop 1 (c :: more)) with more. rewrite Hr.
  rewrite (proj2 (Z.eqb_neq c 0)) by lia.
  destruct more as [|m more].
  - change (negb (char_at [] =? 0)) with false. cbn iota. destruct b.
    + destruct rest as [|a rest'] eqn:Hrest.
      * rewrite (proj2 (Z.ltb_ge (i + 1) (zlen argv))).
        2: { apply (f_equal length) in Hrest. unfold rest in Hrest.
             rewrite length_drop in Hrest. unfold zlen. cbn in Hrest. lia. }
        eexists. split; [reflexivity|]. unfold before. cbn. split_and!; lia || done.
      * assert (Ha : argv !! Z.to_nat (i + 1) = Some a).
        { rewrite <- (Nat.add_0_r (Z.to_nat (i + 1))), <- lookup_drop. fold rest. by rewrite Hrest. }
        assert (i + 1 < zlen argv) by (apply lookup_lt_Some in Ha; unfold zlen; lia).
        rewrite (proj2 (Z.ltb_lt (i + 1) (zlen argv))), Ha by done. cbn [get_or_bad mbind res_bind].
        eexists. split; [reflexivity|]. unfold before. cbn. split_and!; lia || done.
    + eexists. split; [reflexivity|]. unfold before. cbn. split_and!; lia || done.
  - assert (m <> 0) by (inversion Hmore; lia). change (char_at (m :: more)) with m.
    rewrite (proj2 (Z.eqb_neq m 0)) by done. cbn [negb]. destruct b.
    + eexists. split; [reflexivity|]. unfold before. cbn. split_and!; lia || done.
    + eexists. split; [reflexivity|]. unfold inside. cbn. split_and!; lia || done.
Qed.

(** ** The whole scan *)

Lemma getopt_all_step fuel s s' opt a :
  getopt argv opts s = Ok (s', opt) -> opt <> -1 -> optarg s' = Some a ->
  getopt_all (S fuel) argv opts s
    = '(l, i) ← getopt_all fuel argv opts s'; mret ((opt, a) :: l, i).
Proof.
  intros Hg Ho Ha. cbn [getopt_all]. rewrite Hg. cbn [mbind res_bind].
  by rewrite (proj2 (Z.eqb_neq opt (-1))), Ha by done.
Qed.

Lemma getopt_all_stop fuel s s' i :
  getopt argv opts s = Ok (s', -1) -> optind s' = i ->
  getopt_all (S fuel) argv opts s = Ok ([], i).
Proof. intros Hg <-. cbn [getopt_all]. by rewrite Hg. Qed.

Lemma parse_cluster_length cl rest l n go :
  parse_cluster opts cl rest = (l, n, go) -> (length l <= length cl)%nat /\
  (n = 1%nat \/ n = 2%nat /\ rest <> []).
Proof.
  revert l n go. induction cl as [|c cl IH]; intros l n go; cbn [parse_cluster].
  - intros [= <- <- <-]. split; [cbn; lia|auto].
  - destruct (c =? DASH); [intros [= <- <- <-]; split; [cbn; lia|auto]|].
    destruct (takes_arg c opts) as [[|]|]; [|..].
    + destruct cl; [destruct rest|]; intros [= <- <- <-]; (split; [cbn; lia|auto]).
    + destruct (parse_cluster opts cl rest) as [[l' n'] go']. intros [= <- <- <-].
      destruct (IH _ _ _ eq_refl). split; [cbn; lia|done].
    + intros [= <- <- <-]. split; [cbn; lia|auto].
Qed.

Lemma cluster_run cl s0 s i l n go fuel :
  getopt argv opts s0 = getopt_option argv opts s -> inside s i cl -> cname cl -> cl <> [] ->
  parse_cluster opts cl (drop (Z.to_nat (i + 1)) argv) = (l, n, go) -> (length l < fuel)%nat ->
  exists s', (go = true -> before s' (i + Z.of_nat n)) /\
    getopt_all fuel argv opts s0
    = if go then '(l', j) ← getopt_all (fuel - length l) argv opts s'; mret (l ++ l', j)
      else Ok (l, i + Z.of_nat n).
Proof.
  revert s0 s l fuel. induction cl as [|c more IH]; intros s0 s l fuel Hg Hin Hcl Hne Hp Hf; [done|].
  inversion Hcl as [|? ? Hc Hmore]; subst.
  destruct (getopt_option_run s i c more Hin ltac:(lia) Hmore) as (s' & Hrun & Hpost).
  rewrite Hrun in Hg. cbn [parse_cluster] in Hp. destruct fuel as [|fuel]; [lia|].
  assert (Hq : QUESTION <> -1) by done. assert (Hcne : c <> -1) by lia.
  assert (Hnext : forall opt a, getopt argv opts s0 = Ok (s', opt) -> opt <> -1 ->
    optarg s' = Some a -> l = [(opt, a)] -> getopt_all (S fuel) argv opts s0
      = '(l', j) ← getopt_all (S fuel - length l) argv opts s'; mret (l ++ l', j)).
  { intros opt a H1 H2 H3 ->. rewrite (getopt_all_step _ _ _ _ _ H1 H2 H3). cbn [length Nat.sub].
    by rewrite Nat.sub_0_r. }
  destruct (c =? DASH).
  { injection Hp as <- <- <-. exists s'. split; [done|]. by apply getopt_all_stop with (s' := s'). }
  destruct (takes_arg c opts) as [[|]|].
  - destruct more as [|m more]; [destruct (drop _ argv) as [|b rest]|];
      injection Hp as <- <- <-; destruct Hpost as [Hb Ha]; exists s';
      (split; [by intros _|]); by eapply Hnext.
  - destruct more as [|m more].
    + injection Hp as <- <- <-. destruct Hpost as [Hb Ha]. exists s'.
      split; [by intros _|]. by eapply Hnext.
    + destruct Hpost as [Hb Ha].
      destruct (parse_cluster opts (m :: more) _) as [[l1 n1] go1] eqn:Hp1. injection Hp as <- <- <-.
      destruct (IH s' s' l1 fuel (getopt_continue _ _ _ Hb) Hb Hmore ltac:(done) eq_refl)
        as (s2 & Hb2 & Hrun2); [cbn in Hf; lia|].
      exists s2. split; [done|]. rewrite (getopt_all_step _ _ _ _ _ Hg Hcne Ha), Hrun2.
      cbn [length Nat.sub]. destruct go1; [|done].
      by destruct (getopt_all (fuel - length l1) argv opts s2) as [[]|].
  - injection Hp as <- <- <-. destruct Hpost as [Hb Ha]. exists s'.
    split; [by intros _|]. by eapply Hnext.
Qed.

Lemma scan_run pf s i l j fuel :
  before s i -> parse_args pf opts (drop (Z.to_nat i) argv) i = (l, j) ->
  (length (drop (Z.to_nat i) argv) < pf)%nat ->
  (length (concat (drop (Z.to_nat i) argv)) < fuel)%nat ->
  getopt_all fuel argv opts s = Ok (l, j).
Proof.
  revert s i l fuel. induction pf as [|pf IH]; intros s i l fuel Hb Hp Hpf Hf; [lia|].
  destruct fuel as [|fuel]; [lia|]. cbn [parse_args] in Hp.
  pose proof Hb as (Hi & Hpos & Hl).
  destruct (drop (Z.to_nat i) argv) as [|a rest] eqn:Hrest.
  { injection Hp as <- <-. apply getopt_all_stop with (s' := s); [|done]. unfold getopt.
    apply (f_equal length) in Hrest. rewrite length_drop in Hrest. cbn in Hrest.
    rewrite Hi, (proj2 (Z.eqb_neq i 0)), Hi by lia.
    by rewrite (proj2 (Z.leb_le (zlen argv) i)) by (unfold zlen; lia). }
  assert (Ha : argv !! Z.to_nat i = Some a).
  { rewrite <- (Nat.add_0_r (Z.to_nat i)), <- lookup_drop. by rewrite Hrest. }
  assert (Hlen : i < zlen argv) by (apply lookup_lt_Some in Ha; unfold zlen; lia).
  assert (Hr : forall n, drop (Z.to_nat (i + Z.of_nat (S n))) argv = drop n rest).
  { intros n. replace (Z.to_nat (i + Z.of_nat (S n))) with (Z.to_nat i + S n)%nat by lia.
    rewrite <- drop_drop, Hrest. done. }
  assert (Hstop : forall a', a = a' -> match a' with c :: _ :: _ => c <> DASH | _ => True end ->
    exists s', getopt argv opts s = Ok (s', -1) /\ optind s' = i).
  { intros a' -> Ha'. unfold getopt.
    rewrite Hi, (proj2 (Z.eqb_neq i 0)), Hi, (proj2 (Z.leb_gt (zlen argv) i)) by lia.
    rewrite (proj2 (Z.eqb_neq (last_optind s) i)), Ha by done. cbn [get_or_bad mbind res_bind].
    destruct a' as [|c [|c' r]]; [by eexists|rewrite bool_decide_true, orb_true_r by done; by eexists|].
    rewrite (proj2 (Z.eqb_neq c DASH)) by done. by eexists. }
  destruct a as [|c [|c' cs]].
  1,2: injection Hp as <- <-; destruct (Hstop _ eq_refl I) as (s' & Hg & Hs'); by eapply getopt_all_stop.
  destruct (Z.eqb_spec c DASH) as [->|Hc].
  2: { injection Hp as <- <-. destruct (Hstop _ eq_refl Hc) as (s' & Hg & Hs').
       by eapply getopt_all_stop. }
  destruct (getopt_enter s i c' cs Hb Ha) as (s1 & Hin & Hg).
  assert (Hcl : cname (c' :: cs)).
  { pose proof (Forall_lookup_1 _ _ _ _ Hargv Ha) as Hca. by inversion Hca. }
  pose proof (Hr 0%nat) as Hr0. change (Z.of_nat 1) with 1 in Hr0. change (drop 0 rest) with rest in Hr0.
  destruct (parse_cluster opts (c' :: cs) rest) as [[l1 n1] go] eqn:Hp1.
  destruct (parse_cluster_length _ _ _ _ _ Hp1) as [Hll Hn].
  cbn [concat] in Hf. rewrite length_app in Hf. cbn [length] in Hf, Hpf, Hll.
  rewrite <- Hr0 in Hp1.
  destruct (cluster_run _ _ _ _ _ _ _ (S fuel) Hg Hin Hcl ltac:(done) Hp1) as (s2 & Hb2 & Hrun);
    [lia|].
  rewrite Hrun. destruct go; [|by injection Hp as <- <-].
  destruct n1 as [|n1]; [lia|].
  change (drop (S n1) ((DASH :: c' :: cs) :: rest)) with (drop n1 rest) in Hp.
  rewrite <- Hr in Hp.
  destruct (parse_args pf opts _ _) as [l' j'] eqn:Hp'. injection Hp as <- <-.
  rewrite (IH s2 (i + Z.of_nat (S n1)) l' (S fuel - length l1)%nat (Hb2 eq_refl) Hp');
    [done|rewrite Hr, length_drop; lia|].
  rewrite Hr. destruct Hn as [[= ->]|[[= ->] Hne]].
  - change (drop 0 rest) with rest. lia.
  - destruct rest as [|b rest]; [done|]. change (drop 1 (b :: rest)) with rest.
    cbn [concat] in Hf. rewrite length_app in Hf. lia.
Qed.

End Scan.

(** C38.  The whole scan is the parse of the command line: called until it returns -1, [getopt] ends,
    gives the options of the dashed arguments in order with their arguments (the rest of the
    cluster, or the next argument), a question mark for an option that is unknown or lacks its
    argument, and leaves [optind] at the first argument that is not an option. *)
Theorem getopt_correct argv opts :
  Forall cname argv -> cname opts ->
  getopt_all (S (length (concat argv))) argv opts getopt_first
    = Ok (parse_args (S (length argv)) opts (drop 1 argv) 1).
Proof.
  intros Hargv Hopts.
  destruct (parse_args _ opts (drop 1 argv) 1) as [l j] eqn:Hp.
  set (s1 := {| optind := 1; optarg := None; last_optind := 0; cp := None |}).
  assert (Hfirst : getopt_all (S (length (concat argv))) argv opts getopt_first
    = getopt_all (S (length (concat argv))) argv opts s1) by done.
  rewrite Hfirst. eapply (scan_run argv opts Hargv Hopts _ s1 1); [by split_and!|exact Hp| |].
  - change (Z.to_nat 1) with 1%nat. rewrite length_drop. lia.
  - change (Z.to_nat 1) with 1%nat. destruct argv as [|a argv]; [cbn; lia|].
    change (drop 1 (a :: argv)) with argv. cbn [concat]. rewrite length_app. lia.
Qed.

Lemma getopt_witness :
  getopt_all (S (length (concat (map chars ["startup"; "-vD"; "mx1"; "-P4"; "file"]%string))))
    (map chars ["startup"; "-vD"; "mx1"; "-P4"; "file"]%string) (chars "vD:P:") getopt_first
  = Ok ([(118, chars "vD"); (68, chars "mx1"); (80, chars "4")], 4).
Proof.
  rewrite getopt_correct.
  - vm_compute. reflexivity.
  - apply (bool_decide_unpack _). vm_compute. done.
  - apply (bool_decide_unpack _). vm_compute. done.
Defined.
