(* ===== verification/Fat.v ===== *)
(** * Fat: the boot loader's FAT reader (ipl/lib/fs/fat-fs.c, ipl/lib/private/fat-fs.h).

    The block device is an interface ([BlockDevice], for [sdmmc_read]).  The common buffer [blk_buf]
    is one byte list that sector 0, the BIOS parameter block, the FAT sectors and the directory
    sectors are all read into, as in the code; the file is written to memory from the caller's
    buffer on ([out]). *)

From S2P Require Import Prelude.
From S2P Require Import Sections.

(** [sdmmc_read(ext, buf, blkno, blkcnt)]: the bytes read, [None] when the driver reports an
    error.  [bd_size] is the number of sectors, [bd_max] the most that one request may ask for. *)
Class BlockDevice (D : Type) := {
  bd_read : D -> Z -> Z -> D * option (list Z);
  bd_sector : D -> Z -> list Z;
  bd_size : D -> Z;
  bd_max : Z;
  bd_good : D -> Prop
}.

(** What the reader relies on, of a device in good order: a sector has 512 bytes, sector numbers have
    32 bits, and a request inside the device reads what is stored, and leaves the device in good
    order and its contents and size as they were. *)
Class BlockDeviceLaws (D : Type) `{BlockDevice D} : Prop := {
  bd_len : forall d n, bd_good d -> zlen (bd_sector d n) = 512;
  bd_two : 2 <= bd_max;
  bd_words : forall d, bd_good d -> bd_size d < 2 ^ 32;
  bd_reads : forall d b n, bd_good d -> 0 <= b -> 0 < n <= bd_max -> b + n <= bd_size d ->
    let '(d', data) := bd_read d b n in
    bd_good d' /\ bd_sector d' = bd_sector d /\ bd_size d' = bd_size d /\
    data = Some (concat (map (fun i => bd_sector d (b + Z.of_nat i)) (seq 0 (Z.to_nat n))))
}.

Definition SECTOR_SIZE : Z := 512.
Definition ENT_UNUSED : Z := 229.
Definition ENT_END : Z := 0.
Definition TYPE_FAT12 : Z := 12.
Definition TYPE_FAT16 : Z := 16.
Definition TYPE_FAT32 : Z := 32.
Definition SIZEOF_DIR_ENTRY : Z := 32.

(** [fs_info_t]. *)
Record fs_info := mk_fs {
  fs_offset : Z;
  fat_type : Z;
  total_sectors : Z;
  root_dir_sectors : Z;
  reserved_sectors : Z;
  data_sectors : Z;
  fat_size : Z;
  number_of_fats : Z;
  cluster_size : Z;
  count_of_clusters : Z;
  fat1_start : Z;
  fat2_start : Z;
  root_dir_start : Z;
  root_entry_count : Z;
  cluster2_start : Z
}.

(** Fields of the on-disk structures: [GET_WORD] and [GET_LONG]. *)
Definition get_byte (m : list Z) (i : Z) : Z := nth (Z.to_nat i) m 0.
Definition GET_WORD (m : list Z) (i : Z) : Z := get_byte m i + Z.shiftl (get_byte m (i + 1)) 8.
Definition GET_LONG (m : list Z) (i : Z) : Z :=
  u32 (get_byte m i + Z.shiftl (get_byte m (i + 1)) 8 + Z.shiftl (get_byte m (i + 2)) 16
       + Z.shiftl (get_byte m (i + 3)) 24).

Section Code.
Context {D : Type} `{BlockDevice D}.

(** The module's variables: [fs_info], the buffer, the FAT cache's tag and flag, the device, and
    the memory from the caller's buffer on. *)
Record fat_st := mk_fat {
  fs : fs_info;
  blk : list Z;
  g_fat_sector : Z;
  cache_valid : bool;
  dev : D;
  out : list Z
}.

Definition with_blk (s : fat_st) b := mk_fat (fs s) b (g_fat_sector s) (cache_valid s) (dev s) (out s).
Definition with_dev (s : fat_st) d := mk_fat (fs s) (blk s) (g_fat_sector s) (cache_valid s) d (out s).
Definition with_fs (s : fat_st) f := mk_fat f (blk s) (g_fat_sector s) (cache_valid s) (dev s) (out s).
Definition with_tag (s : fat_st) t := mk_fat (fs s) (blk s) t (cache_valid s) (dev s) (out s).
Definition with_cache (s : fat_st) t v := mk_fat (fs s) (blk s) t v (dev s) (out s).
Definition with_out (s : fat_st) o := mk_fat (fs s) (blk s) (g_fat_sector s) (cache_valid s) (dev s) o.

(** [read_sector] into the common buffer at offset [off]. *)
Definition read_sector (s : fat_st) (blkno off cnt : Z) : fat_st * bool :=
  match bd_read (dev s) blkno cnt with
  | (d, None) => (with_dev s d, false)
  | (d, Some data) => (with_blk (with_dev s d) (splice (blk s) off data), true)
  end.

Definition read_fsector (s : fat_st) (sector off cnt : Z) : fat_st * bool :=
  read_sector s (u32 (sector + fs_offset (fs s))) off cnt.

(** [read_fsector] into the caller's memory at offset [off]. *)
Definition read_out (s : fat_st) (sector off cnt : Z) : fat_st * bool :=
  match bd_read (dev s) (u32 (sector + fs_offset (fs s))) cnt with
  | (d, None) => (with_dev s d, false)
  | (d, Some data) => (with_out (with_dev s d) (splice (out s) off data), true)
  end.

(** The subtraction loops of [fat_detect_type]: how often [d] goes into [x]. *)
Fixpoint count_sub (fuel : nat) (x d n : Z) : res Z :=
  match fuel with
  | O => Err NoFuel
  | S fuel => if d <=? x then count_sub fuel (x - d) d (n + 1) else mret n
  end.

Definition div_loop (x d : Z) : res Z := count_sub (S (Z.to_nat x)) x d 0.

(** [fat_detect_type] on the parameter block at offset [b] of the buffer. *)
Definition fat_detect_type (s : fat_st) (b : Z) : res (fat_st * option Z) :=
  let m := blk s in
  if negb (GET_WORD m (b + 510) =? 43605) then mret (s, None)
  else
    let bs := GET_WORD m (b + 11) in
    let ents := GET_WORD m (b + 17) in
    ns ← div_loop (ents * 32 + bs - 1) bs;
    let fsize := if GET_WORD m (b + 22) =? 0 then GET_LONG m (b + 36) else GET_WORD m (b + 22) in
    let total := if GET_WORD m (b + 19) =? 0 then GET_LONG m (b + 32) else GET_WORD m (b + 19) in
    let nfats := get_byte m (b + 16) in
    let rsvd := GET_WORD m (b + 14) in
    let data := u32 (total - (rsvd + nfats * fsize + ns)) in
    let cs := get_byte m (b + 13) in
    nc ← div_loop (signed 32 data) cs;
    let f1 := rsvd in
    let f2 := u32 (f1 + fsize) in
    let root := u32 (f2 + fsize) in
    let c2 := u32 (root + (ents * 32 + 511) / 512) in
    let info t r := mk_fs (fs_offset (fs s)) t total ns rsvd data fsize nfats cs nc f1 f2 r ents c2 in
    let t := fat_type (fs s) in
    if nc <? 4085 then mret (with_fs s (info t root), Some 12)
    else if nc <? 65525 then mret (with_fs s (info t root), Some 16)
    else mret (with_fs s (info t (GET_LONG m (b + 44))), Some 32).

Definition set_offset (f : fs_info) (o : Z) : fs_info :=
  mk_fs o (fat_type f) (total_sectors f) (root_dir_sectors f) (reserved_sectors f) (data_sectors f)
    (fat_size f) (number_of_fats f) (cluster_size f) (count_of_clusters f) (fat1_start f)
    (fat2_start f) (root_dir_start f) (root_entry_count f) (cluster2_start f).

Definition set_type (f : fs_info) (t : Z) : fs_info :=
  mk_fs (fs_offset f) t (total_sectors f) (root_dir_sectors f) (reserved_sectors f) (data_sectors f)
    (fat_size f) (number_of_fats f) (cluster_size f) (count_of_clusters f) (fat1_start f)
    (fat2_start f) (root_dir_start f) (root_entry_count f) (cluster2_start f).

(** [fat_detect_type] with its result stored, -1 included, and tested against -1. *)
Definition detect (s : fat_st) (b : Z) : res (fat_st * bool) :=
  '(s1, t) ← fat_detect_type s b;
  match t with
  | None => mret (with_fs s1 (set_type (fs s1) (2 ^ 32 - 1)), false)
  | Some t => mret (with_fs s1 (set_type (fs s1) t), true)
  end.

(** [fat_parse_mbr]: the master boot record is at offset 0 of the buffer, the parameter block goes
    to offset 512. *)
Definition fat_parse_mbr (s : fat_st) : res (fat_st * bool) :=
  if negb (GET_WORD (blk s) 510 =? 43605) then mret (s, false)
  else if GET_LONG (blk s) 458 =? 0 then mret (s, false)
  else
    let s1 := with_fs s (set_offset (fs s) (GET_LONG (blk s) 454)) in
    let '(s2, ok) := read_fsector s1 0 SECTOR_SIZE 1 in
    if ok then detect s2 SECTOR_SIZE else mret (s2, false).

Definition cluster2fsector (f : fs_info) (cluster : Z) : Z :=
  u32 (cluster2_start f + u32 (cluster - 2) * cluster_size f).

(** ** FAT entries *)

Definition get_fat_entry12 (s : fat_st) (cluster : Z) : fat_st * Z :=
  let pos := u32 (cluster + cluster / 2) in
  let sector := u32 (fat1_start (fs s) + pos / SECTOR_SIZE) in
  let offs := pos mod SECTOR_SIZE in
  let '(s1, ok) := read_fsector s sector 0 2 in
  if ok then
    (s1, if Z.testbit cluster 0 then Z.shiftr (GET_WORD (blk s1) offs) 4
         else Z.land (GET_WORD (blk s1) offs) 4095)
  else (s1, 0).

(** The cached lookup of [get_fat_entry16] and [get_fat_entry32]; [w] is the entry size, [rd]
    reads the entry from the buffer. *)
Definition cached_entry (s : fat_st) (cluster w : Z) (rd : list Z -> Z -> Z) : fat_st * Z :=
  let sector := u32 (fat1_start (fs s) + u32 (cluster * w) / SECTOR_SIZE) in
  let offs := u32 (cluster * w) mod SECTOR_SIZE in
  if cache_valid s && (g_fat_sector s =? sector) then (s, rd (blk s) offs)
  else
    let '(s1, ok) := read_fsector s sector 0 1 in
    if ok then (with_tag s1 sector, rd (blk s1) offs) else (s1, 0).

Definition get_fat_entry16 (s : fat_st) (cluster : Z) : fat_st * Z :=
  cached_entry s cluster 2 (fun m o => le_word (slice m o 2)).

Definition get_fat_entry32 (s : fat_st) (cluster : Z) : fat_st * Z :=
  cached_entry s cluster 4 (fun m o => Z.land (le_word (slice m o 4)) (2 ^ 28 - 1)).

Definition fat_get_fat_entry (s : fat_st) (cluster : Z) : fat_st * Z :=
  if fat_type (fs s) =? TYPE_FAT12 then get_fat_entry12 s cluster
  else if fat_type (fs s) =? TYPE_FAT16 then get_fat_entry16 s cluster
  else if fat_type (fs s) =? TYPE_FAT32 then get_fat_entry32 s cluster
  else (s, 0).

Definition end_of_file (f : fs_info) (cluster : Z) : bool :=
  if fat_type f =? TYPE_FAT12 then (cluster =? 4088) || (cluster =? 4095)
  else if fat_type f =? TYPE_FAT16 then (cluster =? 65528) || (cluster =? 65535)
  else if fat_type f =? TYPE_FAT32 then (cluster =? 268435448) || (cluster =? 268435455)
  else true.

(** ** Copying a file *)

(** The inner loop of [fat_copy_file]: extend the transfer over consecutive clusters.  Returns the
    length of the transfer and the cluster to go on with. *)
Fixpoint extend (fuel : nat) (s : fat_st) (sz txf cbytes curr : Z) : res (fat_st * Z * Z) :=
  match fuel with
  | O => Err NoFuel
  | S fuel =>
      if txf <? sz then
        let '(s1, next) := fat_get_fat_entry s curr in
        if next =? u32 (curr + 1) then extend fuel s1 sz (txf + cbytes) cbytes next
        else mret (s1, txf, next)
      else mret (s, txf, curr)
  end.

(** The outer loop; [off] is how far [buf] has advanced. *)
Fixpoint copy_loop (fuel : nat) (s : fat_st) (sz off cbytes curr : Z) : res (fat_st * bool) :=
  match fuel with
  | O => Err NoFuel
  | S fuel' =>
      if 0 <? sz then
        '(s1, txf, next) ← extend fuel s sz cbytes cbytes curr;
        let '(s2, ok) := read_out s1 (cluster2fsector (fs s) curr) off (txf / SECTOR_SIZE) in
        if ok : bool then copy_loop fuel' s2 (sz - txf) (off + txf) cbytes next
        else mret (s2, false)
      else mret (s, true)
  end.

Definition fat_copy_file (s : fat_st) (cluster size : Z) : res (fat_st * bool) :=
  let s1 := with_cache s (2 ^ 32 - 1) true in
  let sz := signed 32 size in
  copy_loop (S (S (Z.to_nat (sz / SECTOR_SIZE)))) s1 sz 0 (cluster_size (fs s) * SECTOR_SIZE) cluster.

(** ** Directories *)

Fixpoint name_match (len : nat) (name short : list Z) : bool :=
  match len with
  | O => true
  | S len =>
      match name, short with
      | c :: name, d :: short => (c =? d) && name_match len name short
      | _, _ => false
      end
  end.

Inductive scan_result :=
  | DirFound (cluster size : Z)
  | DirEnd
  | DirMore.

(** The loop over the entries of the sector in the buffer, from entry [ent], [n] of them left;
    [fat32] chooses [GET_CLUSTER] or [clust_lo]. *)
Fixpoint scan_dir (n : nat) (m name : list Z) (fat32 : bool) (ent : Z) : scan_result :=
  match n with
  | O => DirMore
  | S n =>
      let e := slice m (ent * SIZEOF_DIR_ENTRY) SIZEOF_DIR_ENTRY in
      let clust := if fat32 then Z.lor (GET_WORD e 26) (Z.shiftl (GET_WORD e 20) 16)
                   else GET_WORD e 26 in
      if get_byte e 0 =? ENT_END then DirEnd
      else if get_byte e 0 =? ENT_UNUSED then scan_dir n m name fat32 (ent + 1)
      else if negb (name_match (Nat.min (length name) 11) name e) || (clust =? 0)
      then scan_dir n m name fat32 (ent + 1)
      else DirFound clust (GET_LONG e 28)
  end.

Definition ENTS : nat := 16.

Fixpoint dir_loop16 (fuel : nat) (s : fat_st) (name : list Z) (sector : Z) : res (fat_st * bool) :=
  match fuel with
  | O => Err NoFuel
  | S fuel =>
      if sector <? u32 (root_dir_start (fs s) + root_dir_sectors (fs s)) then
        let '(s1, ok) := read_fsector s sector 0 1 in
        if ok then
          match scan_dir ENTS (blk s1) name false 0 with
          | DirFound c size => fat_copy_file s1 c size
          | DirEnd => mret (s1, false)
          | DirMore => dir_loop16 fuel s1 name (u32 (sector + 1))
          end
        else mret (s1, false)
      else mret (s, false)
  end.

Definition copy_named_file_fat16 (s : fat_st) (name : list Z) : res (fat_st * bool) :=
  dir_loop16 (S (Z.to_nat (root_dir_sectors (fs s)))) s name (root_dir_start (fs s)).

(** The sectors of one directory cluster; [None] when none of them holds the file. *)
Fixpoint sect_loop32 (n : nat) (s : fat_st) (name : list Z) (sector : Z)
    : res (fat_st * option bool) :=
  match n with
  | O => mret (s, None)
  | S n =>
      let '(s1, ok) := read_fsector s sector 0 1 in
      if ok then
        match scan_dir ENTS (blk s1) name true 0 with
        | DirFound c size => '(s2, r) ← fat_copy_file s1 c size; mret (s2, Some r)
        | DirEnd => mret (s1, None)
        | DirMore => sect_loop32 n s1 name (u32 (sector + 1))
        end
      else mret (s1, Some false)
  end.

Fixpoint dir_loop32 (fuel : nat) (s : fat_st) (name : list Z) (clust : Z) : res (fat_st * bool) :=
  match fuel with
  | O => Err NoFuel
  | S fuel =>
      if end_of_file (fs s) clust then mret (s, false)
      else
        '(s1, r) ← sect_loop32 (Z.to_nat (cluster_size (fs s))) s name (cluster2fsector (fs s) clust);
        match (r : option bool) with
        | Some b => mret (s1, b)
        | None => let '(s2, next) := fat_get_fat_entry s1 clust in dir_loop32 fuel s2 name next
        end
  end.

(** A chain of more clusters than the file system has is a cycle, which the code follows forever. *)
Definition copy_named_file_fat32 (s : fat_st) (name : list Z) : res (fat_st * bool) :=
  dir_loop32 (S (S (Z.to_nat (count_of_clusters (fs s))))) s name (root_dir_start (fs s)).

Definition _fat_copy_named_file (s : fat_st) (name : list Z) : res (fat_st * bool) :=
  let t := fat_type (fs s) in
  if (t =? TYPE_FAT12) || (t =? TYPE_FAT16) then copy_named_file_fat16 s name
  else if t =? TYPE_FAT32 then copy_named_file_fat32 s name
  else mret (s, false).

Definition fat_copy_named_file (s : fat_st) (name : list Z) : res (fat_st * bool) :=
  let '(s1, ok) := read_sector s 0 0 1 in
  if ok then
    '(s2, mbr) ← fat_parse_mbr s1;
    '(s3, done) ← (if mbr : bool then _fat_copy_named_file s2 name else mret (s2, false));
    if done : bool then mret (s3, true)
    else
      '(s4, bpb) ← detect (with_fs s3 (set_offset (fs s3) 0)) 0;
      if bpb : bool then _fat_copy_named_file s4 name else mret (s4, false)
  else mret (s1, false).

(** [fat_init]: the buffers must be large enough; [dev] is [None] for a null pointer. *)
Definition FAT_COMMON_BUF_SIZE : Z := 2 * SECTOR_SIZE.
Definition FAT_FS_INFO_BUF_SIZE : Z := 64.

Definition fat_init (d : option D) (f0 : fs_info) (buf1_len : Z) (buf2 mem : list Z) : option fat_st :=
  match d with
  | None => None
  | Some d =>
      if (buf1_len <? FAT_FS_INFO_BUF_SIZE) || (zlen buf2 <? FAT_COMMON_BUF_SIZE) then None
      else Some (mk_fat f0 buf2 (2 ^ 32 - 1) false d mem)
  end.

End Code.

Arguments fat_st D : clear implicits.
Arguments mk_fat {D} _ _ _ _ _ _.

(** ** The type of the file system *)

Lemma count_sub_spec d : 0 < d -> forall fuel x n,
  (Z.to_nat x < fuel)%nat -> count_sub fuel x d n = Ok (n + Z.max 0 (x / d)).
Proof.
  intros Hd. induction fuel as [|fuel IH]; intros x n Hf; [lia|]. cbn [count_sub].
  destruct (Z.leb_spec d x).
  - rewrite IH by lia. f_equal.
    replace (x / d) with ((x - d) / d + 1) by (Z.to_euclidean_division_equations; nia).
    assert (0 <= (x - d) / d) by (apply Z.div_pos; lia). lia.
  - unfold mret, res_ret. f_equal.
    assert (x / d < 1) by (apply Z.div_lt_upper_bound; lia). lia.
Qed.

Lemma count_sub_zero fuel x n : 0 <= x -> count_sub fuel x 0 n = Err NoFuel.
Proof.
  revert n. induction fuel as [|fuel IH]; intros n Hx; [done|]. cbn [count_sub].
  rewrite (proj2 (Z.leb_le 0 x)) by lia. rewrite Z.sub_0_r. by apply IH.
Qed.

Section Detect.
Context {D : Type} `{BlockDevice D}.

(** The number of data clusters a parameter block at offset [b] describes. *)
Definition bpb_clusters (m : list Z) (b : Z) : Z :=
  let bs := GET_WORD m (b + 11) in
  let ents := GET_WORD m (b + 17) in
  let fsize := if GET_WORD m (b + 22) =? 0 then GET_LONG m (b + 36) else GET_WORD m (b + 22) in
  let total := if GET_WORD m (b + 19) =? 0 then GET_LONG m (b + 32) else GET_WORD m (b + 19) in
  let ns := Z.max 0 ((ents * 32 + bs - 1) / bs) in
  let data := u32 (total - (GET_WORD m (b + 14) + get_byte m (b + 16) * fsize + ns)) in
  Z.max 0 (signed 32 data / get_byte m (b + 13)).

(** [fat_detect_type] on a block with the boot signature, non-zero sector size and non-zero
    cluster size: its subtraction loops end with the quotients, and the type is FAT12, FAT16 or
    FAT32 by the number of clusters, below 4085 and 65525; the recorded root directory is the one
    of the parameter block for FAT32 and the sector after the second FAT otherwise. *)
Theorem fat_detect_type_correct (s : fat_st D) b :
  GET_WORD (blk s) (b + 510) = 43605 -> 0 < GET_WORD (blk s) (b + 11) ->
  0 < get_byte (blk s) (b + 13) ->
  let nc := bpb_clusters (blk s) b in
  exists s', fat_detect_type s b =
      Ok (s', Some (if nc <? 4085 then 12 else if nc <? 65525 then 16 else 32)) /\
    count_of_clusters (fs s') = nc /\ fs_offset (fs s') = fs_offset (fs s) /\
    blk s' = blk s /\ out s' = out s /\
    root_dir_start (fs s') = (if nc <? 65525 then u32 (u32 (fat1_start (fs s') + fat_size (fs s')) + fat_size (fs s'))
                              else GET_LONG (blk s) (b + 44)).
Proof.
  intros Hsig Hbs Hcs nc. unfold fat_detect_type. rewrite Hsig. cbn [Z.eqb Pos.eqb negb].
  unfold div_loop. rewrite count_sub_spec by lia. cbn [mbind res_bind].
  rewrite count_sub_spec by lia. cbn [mbind res_bind]. rewrite !Z.add_0_l.
  match goal with |- context [?x <? 4085] => change x with nc end.
  destruct (Z.ltb_spec nc 4085) as [Hl|Hl].
  - eexists. split; [reflexivity|]. rewrite (proj2 (Z.ltb_lt nc 65525)) by lia. by split_and!.
  - destruct (Z.ltb_spec nc 65525); eexists; (split; [reflexivity|]); by split_and!.
Qed.

(** [fat_detect_type] does not return on a block that declares no sectors per cluster (and has data
    sectors): its division loop subtracts zero, however long it runs. *)
Lemma fat_detect_type_diverges fuel x n : 0 <= x -> count_sub fuel x 0 n = Err NoFuel.
Proof. apply count_sub_zero. Qed.

End Detect.

(** ** The file system on the card *)

Section Correct.
Context {D : Type} `{HD : BlockDeviceLaws D}.
Implicit Types (s : fat_st D) (f : fs_info) (d : D).

(** [n] sectors from [b] on. *)
Definition sectors d (b n : Z) : list Z :=
  concat (map (fun i => bd_sector d (b + Z.of_nat i)) (seq 0 (Z.to_nat n))).

Lemma sectors_app d b n m :
  0 <= n -> 0 <= m -> sectors d b (n + m) = sectors d b n ++ sectors d (b + n) m.
Proof.
  intros. unfold sectors. rewrite Z2Nat.inj_add, seq_app, map_app, concat_app by lia. f_equal.
  f_equal. rewrite Nat.add_0_l.
  replace (seq (Z.to_nat n) (Z.to_nat m)) with (Nat.add (Z.to_nat n) <$> seq 0 (Z.to_nat m))
    by (rewrite fmap_add_seq; f_equal; lia).
  change (@fmap list list_fmap nat nat) with (@map nat nat). rewrite map_map.
  apply map_ext. intros i. f_equal. lia.
Qed.

Lemma sectors_image d d' b n : bd_sector d' = bd_sector d -> sectors d' b n = sectors d b n.
Proof. intros Hi. unfold sectors. by rewrite Hi. Qed.

Lemma sectors_1 d b : sectors d b 1 = bd_sector d b.
Proof.
  unfold sectors. change (Z.to_nat 1) with 1%nat. cbn [seq map concat].
  rewrite app_nil_r. f_equal. lia.
Qed.

Lemma zlen_sectors d b n : bd_good d -> 0 <= n -> zlen (sectors d b n) = 512 * n.
Proof.
  intros Hg Hn. unfold sectors. replace n with (Z.of_nat (Z.to_nat n)) at 2 by lia.
  generalize 0%nat as k. induction (Z.to_nat n) as [|m IH]; intros k; [done|].
  cbn [seq map concat]. rewrite zlen_app, IH, bd_len by done. lia.
Qed.

(** The entry of cluster [c] in the first FAT. *)
Definition fat_entry d f (c : Z) : Z :=
  let pos := if fat_type f =? TYPE_FAT12 then c + c / 2
             else if fat_type f =? TYPE_FAT16 then c * 2 else c * 4 in
  let m := sectors d (fat1_start f + pos / 512 + fs_offset f) 2 in
  let o := pos mod 512 in
  if fat_type f =? TYPE_FAT12 then
    if Z.testbit c 0 then Z.shiftr (GET_WORD m o) 4 else Z.land (GET_WORD m o) 4095
  else if fat_type f =? TYPE_FAT16 then le_word (slice m o 2)
  else Z.land (le_word (slice m o 4)) (2 ^ 28 - 1).

(** The data of cluster [c]. *)
Definition cluster_data d f (c : Z) : list Z :=
  sectors d (cluster2_start f + (c - 2) * cluster_size f + fs_offset f) (cluster_size f).

(** A layout whose FAT and clusters up to number [N] are on a device of [sz] sectors. *)
Record fs_ok f (N sz : Z) : Prop := {
  fo_type : fat_type f = TYPE_FAT12 \/ fat_type f = TYPE_FAT16 \/ fat_type f = TYPE_FAT32;
  fo_off : 0 <= fs_offset f /\ 0 <= fat1_start f /\ 0 <= cluster2_start f;
  fo_size : 0 < cluster_size f < 256;
  fo_n : 2 <= N < 2 ^ 28;
  fo_fat : fat1_start f + N / 128 + 2 + fs_offset f <= sz;
  fo_data : cluster2_start f + (N - 1) * cluster_size f + fs_offset f <= sz;
  fo_words : sz < 2 ^ 32
}.

(** The buffer holds the sector the cache tag names. *)
Definition coherent s : Prop :=
  cache_valid s = true -> g_fat_sector s <> 2 ^ 32 - 1 ->
  take 512 (blk s) = bd_sector (dev s) (g_fat_sector s + fs_offset (fs s)).

Record fat_ok (N : Z) s : Prop := {
  fk_good : bd_good (dev s);
  fk_fs : fs_ok (fs s) N (bd_size (dev s));
  fk_blk : zlen (blk s) = 1024;
  fk_cache : coherent s
}.

(** What reading FAT entries leaves alone. *)
Record keeps s s' : Prop := {
  kp_fs : fs s' = fs s;
  kp_image : bd_sector (dev s') = bd_sector (dev s);
  kp_size : bd_size (dev s') = bd_size (dev s);
  kp_out : out s' = out s
}.

Lemma keeps_trans s1 s2 s3 : keeps s1 s2 -> keeps s2 s3 -> keeps s1 s3.
Proof. intros [? ? ? ?] [? ? ? ?]. split; congruence. Qed.

Lemma splice_0_full (m data : list Z) : zlen data <= zlen m -> zlen (splice m 0 data) = zlen m.
Proof. intros. apply zlen_splice; lia. Qed.

Lemma take_splice_0 (m data : list Z) n :
  length data = n -> take n (splice m 0 data) = data.
Proof.
  intros <-. unfold splice. change (Z.to_nat 0) with 0%nat. rewrite take_0. cbn [app]. apply take_app_length.
Qed.

(** A successful read into the buffer. *)
Lemma read_fsector_ok s sector n :
  bd_good (dev s) -> zlen (blk s) = 1024 -> 0 <= sector -> 0 <= fs_offset (fs s) -> 0 < n <= 2 ->
  sector + fs_offset (fs s) + n <= bd_size (dev s) ->
  exists s', read_fsector s sector 0 n = (s', true) /\ keeps s s' /\ bd_good (dev s') /\
    zlen (blk s') = 1024 /\ cache_valid s' = cache_valid s /\ g_fat_sector s' = g_fat_sector s /\
    take (Z.to_nat (512 * n)) (blk s') = sectors (dev s) (sector + fs_offset (fs s)) n.
Proof.
  intros Hg Hb Hs Ho Hn Hr. unfold read_fsector, read_sector.
  pose proof (bd_words (dev s) Hg) as Hw. rewrite wrap_id by (unfold fits; lia).
  pose proof (bd_reads (dev s) (sector + fs_offset (fs s)) n Hg ltac:(lia) ltac:(pose proof bd_two; lia) Hr) as Hd.
  destruct (bd_read (dev s) (sector + fs_offset (fs s)) n) as [d o]. destruct Hd as (Hg' & Hk & Hks & ->).
  fold (sectors (dev s) (sector + fs_offset (fs s)) n).
  pose proof (zlen_sectors (dev s) (sector + fs_offset (fs s)) n Hg ltac:(lia)) as Hz.
  eexists. split; [reflexivity|]. cbn. split_and!; try done.
  - rewrite splice_0_full; lia.
  - apply take_splice_0. unfold zlen in Hz. lia.
Qed.

Lemma slice_take (m : list Z) o k n :
  0 <= o -> 0 <= k -> o + k <= Z.of_nat n -> slice (take n m) o k = slice m o k.
Proof.
  intros. unfold slice. rewrite skipn_firstn_comm, take_take. f_equal. lia.
Qed.

Lemma get_byte_take (m : list Z) i n : 0 <= i < Z.of_nat n -> get_byte (take n m) i = get_byte m i.
Proof.
  intros. unfold get_byte. rewrite !nth_lookup. rewrite lookup_take_lt by lia. done.
Qed.

Lemma slice_sectors_2 d b o k :
  bd_good d -> 0 <= o -> 0 <= k -> o + k <= 512 -> slice (sectors d b 2) o k = slice (bd_sector d b) o k.
Proof.
  intros. change 2 with (1 + 1). rewrite sectors_app, sectors_1 by lia.
  apply slice_app_left; [done..|]. rewrite bd_len by done. lia.
Qed.

Lemma cached_entry_spec N s c w rd :
  fat_ok N s -> 0 <= c <= N -> (w = 2 \/ w = 4) ->
  (forall m o, 0 <= o -> o + w <= 512 -> rd (take 512 m) o = rd m o) ->
  exists s', cached_entry s c w rd =
      (s', rd (bd_sector (dev s) (fat1_start (fs s) + c * w / 512 + fs_offset (fs s))) (c * w mod 512)) /\
    keeps s s' /\ fat_ok N s'.
Proof.
  intros [Hg Hfs Hb Hco] Hc Hw Hrd. pose proof Hfs as [_ (Ho & Hf1 & _) _ HN Hfat _ Hwd].
  unfold cached_entry, SECTOR_SIZE. rewrite (wrap_id 32 (c * w)) by (unfold fits; lia).
  assert (Hdiv : 0 <= c * w / 512 <= N / 128)
    by (destruct Hw; subst w; Z.to_euclidean_division_equations; lia).
  assert (Hmod : 0 <= c * w mod 512 /\ c * w mod 512 + w <= 512)
    by (destruct Hw; subst w; Z.to_euclidean_division_equations; lia).
  rewrite (wrap_id 32 (fat1_start (fs s) + c * w / 512)) by (unfold fits; lia).
  destruct (cache_valid s && _) eqn:Hhit.
  - apply andb_true_iff in Hhit as [Hv Ht%Z.eqb_eq]. exists s. split; [|by split].
    f_equal. rewrite <- Ht, <- Hco, Hrd; [done|lia..|done|lia].
  - destruct (read_fsector_ok s (fat1_start (fs s) + c * w / 512) 1)
      as (s1 & -> & [Kf Ki Ks Ko] & Hg1 & Hb1 & Hv1 & Ht1 & Htk); [done|done|lia..|].
    change (Z.to_nat (512 * 1)) with 512%nat in Htk. rewrite sectors_1 in Htk.
    exists (with_tag s1 (fat1_start (fs s) + c * w / 512)).
    split; [|split; [by split|split]]; cbn; rewrite ?Kf, ?Ks; try done.
    + f_equal. rewrite <- Htk. symmetry. apply Hrd; lia.
    + intros _ _. cbn. by rewrite Htk, Ki, Kf.
Qed.

Lemma GET_WORD_take (m : list Z) o n :
  0 <= o -> o + 2 <= Z.of_nat n -> GET_WORD (take n m) o = GET_WORD m o.
Proof. intros. unfold GET_WORD. rewrite !get_byte_take by lia. done. Qed.

Lemma get_fat_entry12_spec N s c :
  fat_ok N s -> fat_type (fs s) = TYPE_FAT12 -> 0 <= c <= N ->
  exists s', get_fat_entry12 s c = (s', fat_entry (dev s) (fs s) c) /\ keeps s s' /\
    (g_fat_sector s = 2 ^ 32 - 1 -> fat_ok N s' /\ g_fat_sector s' = 2 ^ 32 - 1).
Proof.
  intros [Hg Hfs Hb Hco] Ht Hc. pose proof Hfs as [_ (Ho & Hf1 & _) _ HN Hfat _ Hwd].
  unfold get_fat_entry12, SECTOR_SIZE.
  assert (Hp : 0 <= c + c / 2 < 2 ^ 32 /\ 0 <= (c + c / 2) / 512 <= N / 128)
    by (Z.to_euclidean_division_equations; lia).
  assert (0 <= (c + c / 2) mod 512 < 512) by (apply Z.mod_pos_bound; lia).
  rewrite (wrap_id 32 (c + c / 2)) by (unfold fits; lia).
  rewrite (wrap_id 32 (fat1_start (fs s) + (c + c / 2) / 512)) by (unfold fits; lia).
  destruct (read_fsector_ok s (fat1_start (fs s) + (c + c / 2) / 512) 2)
    as (s1 & -> & [Kf Ki Ks Ko] & Hg1 & Hb1 & Hv1 & Ht1 & Htk); [done|done|lia..|].
  change (Z.to_nat (512 * 2)) with 1024%nat in Htk.
  exists s1. split; [|split; [by split|]].
  - f_equal. unfold fat_entry. rewrite Ht. cbn [Z.eqb TYPE_FAT12 Pos.eqb]. cbv zeta.
    rewrite <- Htk, GET_WORD_take by lia. done.
  - intros Hnone. split; [|congruence]. split; [done|by rewrite Kf, Ks|done|].
    intros _ Hne. congruence.
Qed.

(** [fat_get_fat_entry] reads the entry of the FAT on the card, through the cache or not; for FAT12,
    which does not use the cache but shares its buffer, the cache must be empty. *)
Lemma fat_get_fat_entry_spec N s c :
  fat_ok N s -> (fat_type (fs s) = TYPE_FAT12 -> g_fat_sector s = 2 ^ 32 - 1) -> 0 <= c <= N ->
  exists s', fat_get_fat_entry s c = (s', fat_entry (dev s) (fs s) c) /\ keeps s s' /\ fat_ok N s' /\
    (fat_type (fs s) = TYPE_FAT12 -> g_fat_sector s' = 2 ^ 32 - 1).
Proof.
  intros Hok H12 Hc. unfold fat_get_fat_entry.
  destruct (fk_fs _ _ Hok) as [[Ht|[Ht|Ht]] _ _ _ _ _ _]; rewrite Ht; cbn [TYPE_FAT12 TYPE_FAT16 TYPE_FAT32 Z.eqb Pos.eqb].
  - destruct (get_fat_entry12_spec N s c Hok Ht Hc) as (s' & -> & Hk & Hs').
    destruct (Hs' (H12 Ht)) as [? ?]. exists s'. eauto.
  - destruct (cached_entry_spec N s c 2 (fun m o => le_word (slice m o 2)) Hok Hc) as (s' & He & Hk & Hok');
      [by left|intros; by rewrite slice_take|].
    exists s'. unfold get_fat_entry16. rewrite He. split_and!; try done. f_equal.
    unfold fat_entry. rewrite Ht. cbn [TYPE_FAT12 TYPE_FAT16 TYPE_FAT32 Z.eqb Pos.eqb]. cbv zeta.
    rewrite slice_sectors_2 by (apply (fk_good _ _ Hok) || (Z.to_euclidean_division_equations; lia)). done.
  - destruct (cached_entry_spec N s c 4 (fun m o => Z.land (le_word (slice m o 4)) (2 ^ 28 - 1)) Hok Hc)
      as (s' & He & Hk & Hok'); [by right|intros; by rewrite slice_take|].
    exists s'. unfold get_fat_entry32. rewrite He. split_and!; try done. f_equal.
    unfold fat_entry. rewrite Ht. cbn [TYPE_FAT12 TYPE_FAT16 TYPE_FAT32 Z.eqb Pos.eqb]. cbv zeta.
    rewrite slice_sectors_2 by (apply (fk_good _ _ Hok) || (Z.to_euclidean_division_equations; lia)). done.
Qed.

Lemma fat_entry_image d d' f c : bd_sector d' = bd_sector d -> fat_entry d' f c = fat_entry d f c.
Proof. intros Hi. unfold fat_entry, sectors. by rewrite Hi. Qed.

Lemma cluster_data_image d d' f c :
  bd_sector d' = bd_sector d -> cluster_data d' f c = cluster_data d f c.
Proof. intros Hi. unfold cluster_data. by apply sectors_image. Qed.

(** ** Chains *)

(** The first [n] clusters of the chain that starts at [c]. *)
Fixpoint follow d f (c : Z) (n : nat) : list Z :=
  match n with
  | O => []
  | S n => c :: follow d f (fat_entry d f c) n
  end.

Lemma follow_image d d' f n : bd_sector d' = bd_sector d -> forall c, follow d' f c n = follow d f c n.
Proof.
  intros Hi. induction n as [|n IH]; intros c; cbn; [done|]. by rewrite (fat_entry_image d d'), IH.
Qed.

Definition chain_ok (N : Z) (cs : list Z) : Prop := Forall (fun c => 2 <= c <= N) cs.

(** [run c n]: [n] consecutive clusters from [c]. *)
Definition run (c : Z) (n : nat) : list Z := map (fun i => c + Z.of_nat i) (seq 0 n).

Lemma run_S c n : run c (S n) = c :: run (c + 1) n.
Proof.
  unfold run. cbn [seq map]. f_equal; [lia|]. rewrite <- seq_shift, map_map.
  apply map_ext. lia.
Qed.

Lemma length_run c n : length (run c n) = n.
Proof. unfold run. by rewrite length_map, length_seq. Qed.

(** The inner loop takes the chain's first run of consecutive clusters, [m'] of them here, unless
    the file ends earlier. *)
Lemma extend_spec N f d cb sz n : forall k fuel s m curr,
  fat_ok N s -> fs s = f -> bd_sector (dev s) = bd_sector d ->
  (fat_type f = TYPE_FAT12 -> g_fat_sector s = 2 ^ 32 - 1) ->
  0 < cb -> (Z.of_nat n - 1) * cb < sz <= Z.of_nat n * cb ->
  (m + k)%nat = n -> (0 < m)%nat -> (k < fuel)%nat -> chain_ok N (follow d f curr (S k)) ->
  exists s' m' next, extend fuel s sz (Z.of_nat m * cb) cb curr = Ok (s', Z.of_nat m' * cb, next) /\
    (m <= m' <= n)%nat /\ keeps s s' /\ fat_ok N s' /\
    (fat_type f = TYPE_FAT12 -> g_fat_sector s' = 2 ^ 32 - 1) /\
    (m' < n -> follow d f curr (S k) = run curr (S (m' - m)) ++ follow d f next (n - m'))%nat /\
    (m' = n -> follow d f curr (S k) = run curr (S k)).
Proof.
  induction k as [|k IH]; intros fuel s m curr Hok Hf Hi H12 Hcb Hsz Hmk Hm Hfuel Hc;
    (destruct fuel as [|fuel]; [lia|]); cbn [extend].
  { rewrite (proj2 (Z.ltb_ge _ _)) by nia. exists s, m, curr. split; [done|].
    split_and!; [lia|lia|by split|done|done|lia|]. intros _. cbn. unfold run. cbn.
    by rewrite Z.add_0_r. }
  rewrite (proj2 (Z.ltb_lt _ _)) by nia.
  assert (Hfo : follow d f curr (S (S k)) = curr :: follow d f (fat_entry d f curr) (S k)) by done.
  rewrite Hfo in Hc |- *. inversion Hc as [|? ? Hcurr Hc']; subst f.
  destruct (fat_get_fat_entry_spec N s curr Hok H12) as (s1 & -> & Hk & Hok1 & H12'); [lia|].
  pose proof Hk as [Kf Ki Ks Ko]. rewrite (fat_entry_image d (dev s)) by done.
  set (f := fs s) in *.
  destruct (Z.eqb_spec (fat_entry d f curr) (u32 (curr + 1))) as [Hn|Hn].
  - destruct (fk_fs _ _ Hok) as [_ _ _ HN _ _ _]. rewrite wrap_id in Hn by (unfold fits; lia).
    rewrite Hn in Hc' |- *.
    destruct (IH fuel s1 (S m) (curr + 1)) as (s' & m' & next & He & Hmm & Hk' & Hok' & H12'' & Hlt & Heq);
      try done; [by rewrite Ki|lia|lia|lia|].
    replace (Z.of_nat (S m) * cb) with (Z.of_nat m * cb + cb) in He by lia.
    exists s', m', next. rewrite He. split; [done|].
    split_and!; [lia|lia|by eapply keeps_trans|done|done| |].
    + intros Hlt'. rewrite Hlt by done. replace (m' - m)%nat with (S (m' - S m)) by lia.
      by rewrite (run_S curr).
    + intros Heq'. by rewrite Heq, (run_S curr).
  - exists s1, m, (fat_entry d f curr). split; [done|].
    split_and!; [lia|lia|done|done|done| |lia].
    intros _. rewrite Nat.sub_diag. replace (n - m)%nat with (S k) by lia.
    unfold run. cbn [seq map app]. by rewrite Z.add_0_r.
Qed.

(** A run of clusters is a run of sectors. *)
Lemma run_data d f c n :
  0 < cluster_size f -> sectors d (cluster2_start f + (c - 2) * cluster_size f + fs_offset f)
    (Z.of_nat n * cluster_size f) = concat (map (cluster_data d f) (run c n)).
Proof.
  intros Hcs. revert c. induction n as [|n IH]; intros c; [done|].
  rewrite run_S. cbn [map concat]. rewrite <- IH. unfold cluster_data at 1.
  replace (Z.of_nat (S n) * cluster_size f) with (cluster_size f + Z.of_nat n * cluster_size f) by lia.
  rewrite sectors_app by lia. do 2 f_equal. lia.
Qed.

Lemma cluster2fsector_ok f N sz c : fs_ok f N sz -> 2 <= c <= N ->
  cluster2fsector f c = cluster2_start f + (c - 2) * cluster_size f /\
  0 <= cluster2_start f + (c - 2) * cluster_size f.
Proof.
  intros [_ (? & ? & ?) Hcs HN _ Hd Hwd] Hc. unfold cluster2fsector.
  rewrite (wrap_id 32 (c - 2)) by (unfold fits; lia).
  assert (0 <= (c - 2) * cluster_size f <= (N - 1) * cluster_size f) by nia.
  rewrite wrap_id by (unfold fits; lia). lia.
Qed.

(** Reading a run of clusters into the caller's memory. *)
Lemma read_out_run s N d f c n off :
  fat_ok N s -> fs s = f -> bd_sector (dev s) = bd_sector d -> (0 < n)%nat ->
  2 <= c -> c + Z.of_nat n - 1 <= N -> Z.of_nat n * cluster_size f <= bd_max ->
  exists s', read_out s (cluster2fsector f c) off (Z.of_nat n * (cluster_size f * 512) / 512) = (s', true) /\
    fat_ok N s' /\ fs s' = f /\ bd_sector (dev s') = bd_sector d /\ g_fat_sector s' = g_fat_sector s /\
    out s' = splice (out s) off (concat (map (cluster_data d f) (run c n))).
Proof.
  intros [Hg Hfs Hb Hco] Hf Hi Hn Hc1 Hc2 Hmax. subst f. set (f := fs s) in *.
  destruct (cluster2fsector_ok f N _ c Hfs) as [-> H0]; [lia|].
  replace (Z.of_nat n * (cluster_size f * 512) / 512) with (Z.of_nat n * cluster_size f)
    by (rewrite Z.mul_assoc, Z.div_mul; lia).
  pose proof Hfs as [_ (Ho & _ & Hc2s) Hcs HN _ Hd Hwd].
  set (b := cluster2_start f + (c - 2) * cluster_size f) in *.
  assert (Hend : b + fs_offset f + Z.of_nat n * cluster_size f <= bd_size (dev s)) by (unfold b; nia).
  unfold read_out. fold f. rewrite wrap_id by (unfold fits; nia).
  pose proof (bd_reads (dev s) (b + fs_offset f) (Z.of_nat n * cluster_size f) Hg ltac:(lia) ltac:(nia) Hend) as Hdt.
  destruct (bd_read (dev s) (b + fs_offset f) (Z.of_nat n * cluster_size f)) as [d1 o].
  destruct Hdt as (Hg' & Hk & Hks & ->). fold (sectors (dev s) (b + fs_offset f) (Z.of_nat n * cluster_size f)).
  eexists. split; [done|]. cbn. split_and!; [split|..]; cbn; rewrite ?Hks; try done.
  - intros Hv Ht. cbn in *. rewrite Hk. by apply Hco.
  - by rewrite Hk.
  - rewrite <- run_data by lia. unfold b, sectors. by rewrite Hi.
Qed.

Lemma chain_run N c n : (0 < n)%nat -> chain_ok N (run c n) -> 2 <= c /\ c + Z.of_nat n - 1 <= N.
Proof.
  intros Hn Hc. unfold chain_ok in Hc. rewrite Forall_forall in Hc.
  assert (Hin : forall i, (i < n)%nat -> c + Z.of_nat i ∈ run c n).
  { intros i Hi. unfold run. apply (list_elem_of_fmap_2 (fun i => c + Z.of_nat i)).
    apply elem_of_seq. lia. }
  pose proof (Hc _ (Hin O ltac:(lia))). pose proof (Hc _ (Hin (n - 1)%nat ltac:(lia))). lia.
Qed.

Lemma extend_chain N f d cb sz n fuel s curr :
  fat_ok N s -> fs s = f -> bd_sector (dev s) = bd_sector d ->
  (fat_type f = TYPE_FAT12 -> g_fat_sector s = 2 ^ 32 - 1) ->
  0 < cb -> (Z.of_nat n - 1) * cb < sz <= Z.of_nat n * cb -> (0 < n <= fuel)%nat ->
  chain_ok N (follow d f curr n) ->
  exists s' m next, extend fuel s sz cb cb curr = Ok (s', Z.of_nat m * cb, next) /\
    (0 < m <= n)%nat /\ keeps s s' /\ fat_ok N s' /\
    (fat_type f = TYPE_FAT12 -> g_fat_sector s' = 2 ^ 32 - 1) /\
    follow d f curr n = run curr m ++ follow d f next (n - m).
Proof.
  intros Hok Hf Hi H12 Hcb Hsz Hn Hc.
  destruct (extend_spec N f d cb sz n (n - 1) fuel s 1 curr)
    as (s' & m & next & He & Hm & Hk & Hok' & H12' & Hlt & Heq); try done; [lia|lia|lia| |].
  { by replace (S (n - 1)) with n by lia. }
  rewrite Z.mul_1_l in He. exists s', m, next. split_and!; try done; try lia.
  replace (S (n - 1)) with n in * by lia. destruct (decide (m = n)) as [->|].
  - rewrite Nat.sub_diag. cbn. rewrite app_nil_r. by apply Heq.
  - replace m with (S (m - 1)) at 1 by lia. apply Hlt. lia.
Qed.

Lemma copy_loop_spec N f d cb n : forall fuel s sz off curr,
  fat_ok N s -> fs s = f -> bd_sector (dev s) = bd_sector d ->
  (fat_type f = TYPE_FAT12 -> g_fat_sector s = 2 ^ 32 - 1) ->
  cb = cluster_size f * 512 -> (Z.of_nat n - 1) * cb < sz <= Z.of_nat n * cb -> Z.of_nat n * cluster_size f <= bd_max -> (n < fuel)%nat ->
  chain_ok N (follow d f curr n) -> 0 <= off <= zlen (out s) ->
  exists s', copy_loop fuel s sz off cb curr = Ok (s', true) /\
    fat_ok N s' /\ fs s' = f /\ bd_sector (dev s') = bd_sector d /\
    out s' = splice (out s) off (concat (map (cluster_data d f) (follow d f curr n))).
Proof.
  induction n as [n IH] using lt_wf_ind.
  intros fuel s sz off curr Hok Hf Hi H12 Hcb Hsz Hmax Hfuel Hc Hoff.
  pose proof (fk_fs _ _ Hok) as [_ _ Hcs _ _ _ _]. rewrite Hf in Hcs.
  destruct fuel as [|fuel]; [lia|]. cbn [copy_loop].
  destruct (decide (n = 0%nat)) as [->|Hn0].
  { rewrite (proj2 (Z.ltb_ge 0 sz)) by lia. exists s. split_and!; try done.
    cbn. by rewrite splice_nil. }
  rewrite (proj2 (Z.ltb_lt 0 sz)) by nia.
  destruct (extend_chain N f d cb sz n (S fuel) s curr)
    as (s1 & m & next & -> & Hm & [Kf Ki Ks Ko] & Hok1 & H12' & Hch); try done; [nia|lia|].
  cbn [mbind res_bind]. rewrite Hch in Hc.
  apply Forall_app in Hc as [Hrun Hrest].
  destruct (chain_run N curr m) as [Hc1 Hc2]; [lia|done|].
  unfold SECTOR_SIZE. rewrite Hf, Hcb.
  destruct (read_out_run s1 N d f curr m off Hok1)
    as (s2 & -> & Hok2 & Hf2 & Hi2 & Ht2 & Ho2); [congruence|by rewrite Ki|lia|done|done|nia|].
  assert (Hzr : zlen (concat (map (cluster_data d f) (run curr m))) = Z.of_nat m * cb).
  { rewrite <- run_data by lia. rewrite <- (sectors_image d (dev s)) by done.
    rewrite zlen_sectors by (apply (fk_good _ _ Hok) || nia). nia. }
  assert (Hzo : zlen (splice (out s1) off (concat (map (cluster_data d f) (run curr m)))) >=
    off + Z.of_nat m * cb).
  { unfold splice. rewrite !zlen_app. unfold zlen in *. rewrite length_take, length_drop, Ko. lia. }
  rewrite <- Hcb.
  destruct (IH (n - m)%nat ltac:(lia) fuel s2 (sz - Z.of_nat m * cb) (off + Z.of_nat m * cb) next)
    as (s' & He & Hok' & Hf' & Hi' & Ho'); try done; [by intros HT; rewrite Ht2; apply H12'|nia|nia|lia| |].
  { rewrite Ho2. nia. }
  exists s'. split_and!; try done. rewrite Ho', Ho2, Hch, map_app, concat_app, <- Hzr, Ko.
  apply splice_splice. lia.
Qed.

(** The number of clusters a file of [size] bytes takes. *)
Definition clusters_of f (size : Z) : nat :=
  Z.to_nat ((size + cluster_size f * 512 - 1) / (cluster_size f * 512)).

(** A file below 2G whose clusters the device can read in one request. *)
Definition size_ok f (size : Z) : Prop :=
  0 <= size < 2 ^ 31 /\ Z.of_nat (clusters_of f size) * cluster_size f <= bd_max.

(** What copying a file and searching a directory need of the state. *)
Record fat_ready (N : Z) s : Prop := {
  fr_good : bd_good (dev s);
  fr_fs : fs_ok (fs s) N (bd_size (dev s));
  fr_blk : zlen (blk s) = 1024
}.

(** What [fat_copy_file] does with the file of [size] bytes that starts at cluster [c]. *)
Definition file_copied (N : Z) s (c size : Z) (r : res (fat_st D * bool)) : Prop :=
  exists s', r = Ok (s', true) /\ fat_ready N s' /\ fs s' = fs s /\
    bd_sector (dev s') = bd_sector (dev s) /\
    out s' = splice (out s) 0 (concat (map (cluster_data (dev s) (fs s))
               (follow (dev s) (fs s) c (clusters_of (fs s) size)))).

Lemma fat_copy_file_spec N s c size :
  fat_ready N s -> size_ok (fs s) size ->
  chain_ok N (follow (dev s) (fs s) c (clusters_of (fs s) size)) ->
  file_copied N s c size (fat_copy_file s c size).
Proof.
  intros [Hg Hfs Hb] [Hsz Hmax] Hc. unfold fat_copy_file. rewrite signed_id by lia.
  pose proof Hfs as [_ _ Hcs _ _ _ _].
  set (f := fs s) in *. unfold clusters_of in *. set (cb := cluster_size f * 512) in *.
  assert (Hq : 0 <= (size + cb - 1) / cb /\ ((size + cb - 1) / cb - 1) * cb < size <= (size + cb - 1) / cb * cb).
  { unfold cb. Z.to_euclidean_division_equations. nia. }
  assert (Hle : (size + cb - 1) / cb <= size / 512 + 1).
  { unfold cb in *. Z.to_euclidean_division_equations. nia. }
  destruct (copy_loop_spec N f (dev s) cb (Z.to_nat ((size + cb - 1) / cb))
    (S (S (Z.to_nat (size / SECTOR_SIZE)))) (with_cache s (2 ^ 32 - 1) true) size 0 c)
    as (s' & He & [Hg' Hf' Hb' _] & Hfs' & Hi' & Ho'); try done.
  - split; try done. intros _ Hn. by destruct Hn.
  - rewrite Z2Nat.id by lia. lia.
  - unfold SECTOR_SIZE. lia.
  - split; [done|apply zlen_nonneg].
  - exists s'. split_and!; try done.
Qed.

(** C3.  [fat_copy_file] on a device in good order, for FAT12, FAT16 and FAT32: it terminates and
    writes to the caller's memory exactly the data of the file's cluster chain -- the clusters the
    FAT on the card lists, in order -- whatever runs of consecutive clusters it merges into single
    transfers and whatever the FAT cache held before. *)
Theorem fat_copy_file_correct N s c size :
  fat_ready N s -> size_ok (fs s) size ->
  chain_ok N (follow (dev s) (fs s) c (clusters_of (fs s) size)) ->
  file_copied N s c size (fat_copy_file s c size).
Proof. apply fat_copy_file_spec. Qed.

(** ** Directory searches *)

(** The 32-byte entries of a sector. *)
Definition entries (m : list Z) : list (list Z) := map (fun i => slice m (Z.of_nat i * 32) 32) (seq 0 16).

Definition entry_cluster (fat32 : bool) (e : list Z) : Z :=
  if fat32 then Z.lor (GET_WORD e 26) (Z.shiftl (GET_WORD e 20) 16) else GET_WORD e 26.

(** The entry starts with the first 11 characters of the name at most, and has a cluster. *)
Definition entry_matches (fat32 : bool) (name e : list Z) : Prop :=
  get_byte e 0 <> ENT_UNUSED /\ take (Nat.min (length name) 11) e = take 11 name /\
  entry_cluster fat32 e <> 0.

#[export] Instance entry_matches_dec fat32 name e : Decision (entry_matches fat32 name e).
Proof. unfold entry_matches. apply _. Defined.

(** Search a directory: its entries up to the end mark.  [Some None] is the end mark. *)
Fixpoint dir_find (es : list (list Z)) (name : list Z) (fat32 : bool) : option (option (Z * Z)) :=
  match es with
  | [] => None
  | e :: r =>
      if decide (get_byte e 0 = ENT_END) then Some None
      else if decide (entry_matches fat32 name e)
      then Some (Some (entry_cluster fat32 e, GET_LONG e 28))
      else dir_find r name fat32
  end.

Lemma dir_find_app es es' name fat32 :
  dir_find (es ++ es') name fat32 =
    match dir_find es name fat32 with None => dir_find es' name fat32 | r => r end.
Proof. induction es as [|e es IH]; cbn; [done|]. repeat case_decide; auto. Qed.

Lemma name_match_spec len name e :
  (len <= length name)%nat -> (len <= length e)%nat ->
  name_match len name e = true <-> take len e = take len name.
Proof.
  revert name e. induction len as [|len IH]; intros [|c name] [|x e] Hn He; cbn in *; try (done || lia).
  rewrite andb_true_iff, Z.eqb_eq, IH by lia. split; [intros [-> ->]|intros [= -> ->]]; done.
Qed.

Lemma take_min_11 {A} (name : list A) : take (Nat.min (length name) 11) name = take 11 name.
Proof.
  destruct (Nat.min_spec (length name) 11) as [[? ->]|[? ->]]; [|done].
  by rewrite !take_ge by lia.
Qed.

Definition scan_of (r : option (option (Z * Z))) : scan_result :=
  match r with
  | None => DirMore
  | Some None => DirEnd
  | Some (Some (c, size)) => DirFound c size
  end.

Lemma scan_dir_spec m name fat32 n : forall ent,
  0 <= ent -> (ent + Z.of_nat n) * 32 <= zlen m ->
  scan_dir n m name fat32 ent =
    scan_of (dir_find (map (fun i => slice m ((ent + Z.of_nat i) * 32) 32) (seq 0 n)) name fat32).
Proof.
  induction n as [|n IH]; intros ent H0 Hl; [done|]. cbn [scan_dir seq map dir_find].
  rewrite Z.add_0_r. change SIZEOF_DIR_ENTRY with 32. cbv zeta.
  set (e := slice m (ent * 32) 32).
  fold (entry_cluster fat32 e).
  assert (He : length e = 32%nat).
  { unfold e, slice. rewrite length_take, length_drop. unfold zlen in Hl. lia. }
  assert (Hnext : scan_dir n m name fat32 (ent + 1) = scan_of (dir_find
    (map (fun i => slice m ((ent + Z.of_nat i) * 32) 32) (seq 1 n)) name fat32)).
  { rewrite IH by lia. rewrite <- seq_shift, map_map. do 2 f_equal. apply map_ext.
    intros i. f_equal. lia. }
  destruct (Z.eqb_spec (get_byte e 0) ENT_END) as [Hend|Hend]; [by rewrite decide_True|].
  rewrite (decide_False (P := get_byte e 0 = ENT_END)) by done.
  destruct (Z.eqb_spec (get_byte e 0) ENT_UNUSED) as [Hun|Hun].
  { rewrite decide_False; [done|]. by intros [? _]. }
  destruct (negb _ || _) eqn:Hm.
  - rewrite decide_False; [done|]. intros (_ & Hn & Hc).
    apply orb_true_iff in Hm as [Hm|Hm%Z.eqb_eq]; [|done].
    apply negb_true_iff in Hm. apply not_true_iff_false in Hm. apply Hm.
    apply name_match_spec; [lia|lia|]. by rewrite take_min_11.
  - apply orb_false_iff in Hm as [Hm%negb_false_iff Hc%Z.eqb_neq].
    rewrite decide_True; [done|]. split_and!; try done.
    apply name_match_spec in Hm; [|lia|lia]. by rewrite take_min_11 in Hm.
Qed.

Lemma scan_sector m m' name fat32 :
  zlen m = 1024 -> take 512 m = m' -> scan_dir ENTS m name fat32 0 = scan_of (dir_find (entries m') name fat32).
Proof.
  intros Hm <-. rewrite scan_dir_spec by (unfold ENTS; lia). unfold entries, ENTS. do 2 f_equal.
  apply map_ext_in. intros i Hi%in_seq. rewrite slice_take by lia. done.
Qed.

(** [read_fsector] of one sector in a directory. *)
Lemma read_dir_sector N s sector name fat32 :
  fat_ready N s -> 0 <= sector -> sector + fs_offset (fs s) + 1 <= bd_size (dev s) ->
  exists s', read_fsector s sector 0 1 = (s', true) /\ fat_ready N s' /\ keeps s s' /\
    cache_valid s' = cache_valid s /\
    scan_dir ENTS (blk s') name fat32 0 =
      scan_of (dir_find (entries (bd_sector (dev s) (sector + fs_offset (fs s)))) name fat32).
Proof.
  intros [Hg Hfs Hb] H0 Hr. pose proof (fo_off _ _ _ Hfs) as (Ho & _).
  destruct (read_fsector_ok s sector 1 Hg Hb H0 Ho ltac:(lia) Hr)
    as (s' & -> & Hk & Hg' & Hb' & Hv & _ & Htk).
  change (Z.to_nat (512 * 1)) with 512%nat in Htk. rewrite sectors_1 in Htk.
  exists s'. split_and!; try done.
  - destruct Hk as [Kf _ Ks _]. split; [done|by rewrite Kf, Ks|done].
  - by apply scan_sector.
Qed.

Lemma file_copied_keeps N s s1 c size r :
  keeps s s1 -> file_copied N s1 c size r -> file_copied N s c size r.
Proof.
  intros [Kf Ki Ks Ko] (s' & -> & Hr & Hf & Hi & Ho). exists s'. split_and!; try done; try congruence.
  rewrite Ho, Ko, Kf. f_equal. f_equal.
  rewrite (follow_image (dev s) (dev s1)) by done. apply map_ext. intros c'. by apply cluster_data_image.
Qed.

(** The entries of [n] directory sectors from sector [b] of the partition on. *)
Definition dir_entries d f (b : Z) (n : nat) : list (list Z) :=
  concat (map (fun i => entries (bd_sector d (b + Z.of_nat i + fs_offset f))) (seq 0 n)).

Lemma dir_entries_S d f b n :
  dir_entries d f b (S n) = entries (bd_sector d (b + fs_offset f)) ++ dir_entries d f (b + 1) n.
Proof.
  unfold dir_entries. cbn [seq map concat]. rewrite Z.add_0_r. f_equal.
  rewrite <- seq_shift, map_map. f_equal. apply map_ext. intros i. f_equal. f_equal. lia.
Qed.

(** What a search returns, when the directory lists [found]: the file is copied, or there is an
    error and nothing is written. *)
Definition search_result (N : Z) s (found : option (Z * Z)) (r : res (fat_st D * bool)) : Prop :=
  match found with
  | Some (c, size) => file_copied N s c size r
  | None => exists s', r = Ok (s', false) /\ out s' = out s
  end.

(** The file found is one the reader can copy. *)
Definition file_ok (N : Z) d f (found : option (Z * Z)) : Prop :=
  match found with
  | Some (c, size) => size_ok f size /\ chain_ok N (follow d f c (clusters_of f size))
  | None => True
  end.

Lemma dir_loop16_spec N f d name n : forall fuel s sector,
  fat_ready N s -> fs s = f -> bd_sector (dev s) = bd_sector d -> (n < fuel)%nat ->
  0 <= sector -> sector + Z.of_nat n = root_dir_start f + root_dir_sectors f ->
  root_dir_start f + root_dir_sectors f + fs_offset f <= bd_size (dev s) ->
  file_ok N d f (default None (dir_find (dir_entries d f sector n) name false)) ->
  search_result N s (default None (dir_find (dir_entries d f sector n) name false))
    (dir_loop16 fuel s name sector).
Proof.
  induction n as [|n IH]; intros fuel s sector Hr Hf Hi Hfuel H0 Hsec Hend;
    (destruct fuel as [|fuel]; [lia|]); cbn [dir_loop16]; rewrite Hf;
    pose proof (fo_off _ _ _ (fr_fs _ _ Hr)) as (Ho & _); rewrite Hf in Ho;
    pose proof (fo_words _ _ _ (fr_fs _ _ Hr)) as Hw;
    rewrite (wrap_id 32) by (unfold fits; lia).
  { rewrite (proj2 (Z.ltb_ge _ _)) by lia. intros _. cbn. by exists s. }
  rewrite (proj2 (Z.ltb_lt _ _)) by lia. rewrite dir_entries_S, dir_find_app.
  destruct (read_dir_sector N s sector name false Hr H0) as (s1 & -> & Hr1 & Hk & _ & ->);
    [rewrite Hf; lia|].
  pose proof Hk as [Kf Ki Ks Ko]. rewrite Hf, Hi.
  destruct (dir_find (entries (bd_sector d (sector + fs_offset f))) name false) as [[[c size]|]|];
    cbn [scan_of default id].
  - intros [Hsz Hc]. apply (file_copied_keeps N s s1); [done|]. apply fat_copy_file_spec; [done|by rewrite Kf, Hf|].
    rewrite Kf, Hf. by rewrite (follow_image d (dev s1)) by (by rewrite Ki).
  - intros _. by exists s1.
  - intros Hok. rewrite (wrap_id 32) by (unfold fits; lia).
    assert (Hres : search_result N s1 (default None (dir_find (dir_entries d f (sector + 1) n) name false))
      (dir_loop16 fuel s1 name (sector + 1))).
    { apply IH; try done; try lia; congruence. }
    unfold search_result in *. destruct (default None _) as [[c size]|].
    + by apply (file_copied_keeps N s s1).
    + destruct Hres as (s' & -> & Hs'). exists s'. split; [done|congruence].
Qed.

(** Finding a file in the fixed root directory of FAT12 and FAT16: with a device in good order
    [copy_named_file_fat16] copies the first entry before the end mark that is not deleted, starts
    with the name's first 11 characters and has a cluster; without one it reports an error, and
    has then written nothing. *)
Theorem copy_named_file_fat16_correct N s name :
  fat_ready N s -> 0 <= root_dir_start (fs s) -> 0 <= root_dir_sectors (fs s) ->
  root_dir_start (fs s) + root_dir_sectors (fs s) + fs_offset (fs s) <= bd_size (dev s) ->
  let found := default None (dir_find (dir_entries (dev s) (fs s) (root_dir_start (fs s))
                 (Z.to_nat (root_dir_sectors (fs s)))) name false) in
  file_ok N (dev s) (fs s) found ->
  search_result N s found (copy_named_file_fat16 s name).
Proof.
  intros Hr H0 Hn Hend found Hok. apply (dir_loop16_spec N (fs s) (dev s) name); try done; lia.
Qed.

(** *** FAT32 directories *)

(** Search the clusters of a directory in turn; the end mark only ends a cluster's part. *)
Fixpoint dir_find32 d f (cs : list Z) (name : list Z) : option (Z * Z) :=
  match cs with
  | [] => None
  | c :: cs =>
      match dir_find (dir_entries d f (cluster2_start f + (c - 2) * cluster_size f)
              (Z.to_nat (cluster_size f))) name true with
      | Some (Some r) => Some r
      | _ => dir_find32 d f cs name
      end
  end.

(** What a search finds depends on the card only. *)
Lemma dir_find32_image d d' f cs name :
  bd_sector d' = bd_sector d -> dir_find32 d' f cs name = dir_find32 d f cs name.
Proof.
  intros Hi. induction cs as [|c cs IH]; cbn [dir_find32]; [done|]. rewrite IH.
  unfold dir_entries. by rewrite Hi.
Qed.

Lemma sect_loop32_spec N f d name n : forall s sector,
  fat_ready N s -> fs s = f -> bd_sector (dev s) = bd_sector d -> cache_valid s = false ->
  0 <= sector -> sector + Z.of_nat n + fs_offset f <= bd_size (dev s) ->
  let r := dir_find (dir_entries d f sector n) name true in
  file_ok N d f (default None r) ->
  match default None r with
  | Some (c, size) => exists s1, sect_loop32 n s name sector = Ok (s1, Some true) /\
      file_copied N s c size (Ok (s1, true))
  | None => exists s1, sect_loop32 n s name sector = Ok (s1, None) /\ fat_ready N s1 /\
      keeps s s1 /\ cache_valid s1 = false
  end.
Proof.
  induction n as [|n IH]; intros s sector Hr Hf Hi Hv H0 Hend; cbn [sect_loop32].
  { cbn. intros _. exists s. by split_and!. }
  rewrite dir_entries_S, dir_find_app. cbv zeta.
  destruct (read_dir_sector N s sector name true Hr H0) as (s1 & -> & Hr1 & Hk & Hv1 & ->);
    [rewrite Hf; lia|].
  pose proof Hk as [Kf Ki Ks Ko]. rewrite Hf, Hi.
  destruct (dir_find (entries (bd_sector d (sector + fs_offset f))) name true) as [[[c size]|]|];
    cbn [scan_of default id].
  - intros [Hsz Hc]. destruct (fat_copy_file_spec N s1 c size Hr1 ltac:(by rewrite Kf, Hf)) as (s2 & He & Hs2).
    { rewrite Kf, Hf. by rewrite (follow_image d (dev s1)) by (by rewrite Ki). }
    rewrite He. cbn [mbind res_bind]. exists s2. split; [done|].
    apply (file_copied_keeps N s s1); [done|]. by exists s2.
  - intros _. exists s1. split_and!; try done. congruence.
  - intros Hok. pose proof (fo_off _ _ _ (fr_fs _ _ Hr)) as (Ho & _). rewrite Hf in Ho.
    pose proof (fo_words _ _ _ (fr_fs _ _ Hr)) as Hw.
    rewrite (wrap_id 32) by (unfold fits; lia).
    assert (Hres := IH s1 (sector + 1) Hr1 ltac:(congruence) ltac:(congruence) ltac:(congruence)
      ltac:(lia) ltac:(lia) Hok). cbv zeta in Hres.
    destruct (default None _) as [[c size]|].
    + destruct Hres as (s2 & -> & Hs2). exists s2. split; [done|].
      by apply (file_copied_keeps N s s1).
    + destruct Hres as (s2 & -> & Hr2 & Hk2 & Hv2). exists s2. split_and!; try done.
      by eapply keeps_trans.
Qed.

Lemma fat_get_fat_entry_cache s c : cache_valid (fst (fat_get_fat_entry s c)) = cache_valid s.
Proof.
  assert (Hrd : forall s sector n s' ok, read_fsector s sector 0 n = (s', ok) -> cache_valid s' = cache_valid s).
  { intros s0 sector n s' ok. unfold read_fsector, read_sector.
    destruct (bd_read _ _ _) as [d [data|]]; by intros [= <- <-]. }
  unfold fat_get_fat_entry, get_fat_entry12, get_fat_entry16, get_fat_entry32, cached_entry.
  split_ifs; try done; destruct (read_fsector _ _ _ _) as [s' ok] eqn:Hr; apply Hrd in Hr;
    destruct ok; cbn; done.
Qed.

Lemma search_result_keeps N s s1 found r :
  keeps s s1 -> search_result N s1 found r -> search_result N s found r.
Proof.
  intros Hk. unfold search_result. destruct found as [[c size]|].
  - by apply file_copied_keeps.
  - intros (s' & -> & Ho). exists s'. split; [done|]. by rewrite Ho, (kp_out _ _ Hk).
Qed.

Lemma dir_loop32_spec N f d name n : forall fuel s clust,
  fat_ready N s -> fs s = f -> bd_sector (dev s) = bd_sector d -> cache_valid s = false ->
  fat_type f = TYPE_FAT32 -> (n < fuel)%nat ->
  Forall (fun c => 2 <= c < N /\ end_of_file f c = false) (follow d f clust n) ->
  end_of_file f (Nat.iter n (fat_entry d f) clust) = true ->
  file_ok N d f (dir_find32 d f (follow d f clust n) name) ->
  search_result N s (dir_find32 d f (follow d f clust n) name) (dir_loop32 fuel s name clust).
Proof.
  induction n as [|n IH]; intros fuel s clust Hr Hf Hi Hv Ht Hfuel Hch Heof;
    (destruct fuel as [|fuel]; [lia|]); cbn [dir_loop32]; rewrite Hf.
  { cbn in Heof. rewrite Heof. intros _. cbn. by exists s. }
  cbn [follow] in *. inversion Hch as [|? ? [Hc1 Hc2] Hch']; subst f. set (f := fs s) in *.
  rewrite Hc2. pose proof (fr_fs _ _ Hr) as Hfs. fold f in Hfs.
  destruct (cluster2fsector_ok f N _ clust Hfs ltac:(lia)) as [-> Hs0].
  pose proof Hfs as [_ (Ho & _) Hcs HN _ Hd Hwd].
  assert (Hb : (clust - 2) * cluster_size f + cluster_size f <= (N - 1) * cluster_size f) by nia.
  fold f in Hd.
  cbn [dir_find32]. intros Hok.
  set (r := dir_find (dir_entries d f _ _) name true) in *.
  assert (Hrest : match r with Some (Some _) => True
    | _ => file_ok N d f (dir_find32 d f (follow d f (fat_entry d f clust) n) name) end)
    by (destruct r as [[|]|]; done).
  assert (Hfirst : file_ok N d f (default None r)) by (destruct r as [[|]|]; done).
  pose proof (sect_loop32_spec N f d name (Z.to_nat (cluster_size f)) s
    (cluster2_start f + (clust - 2) * cluster_size f) Hr eq_refl Hi Hv Hs0 ltac:(fold f; lia) Hfirst) as Hsl.
  fold r in Hsl. cbv zeta in Hsl.
  assert (Hcont : forall s1, fat_ready N s1 -> keeps s s1 -> cache_valid s1 = false ->
    file_ok N d f (dir_find32 d f (follow d f (fat_entry d f clust) n) name) ->
    search_result N s (dir_find32 d f (follow d f (fat_entry d f clust) n) name)
      (let '(s2, next) := fat_get_fat_entry s1 clust in dir_loop32 fuel s2 name next)).
  { intros s1 [Hg1 Hfs1 Hb1] Hk Hv1 Hok1. pose proof Hk as [Kf Ki Ks _].
    destruct (fat_get_fat_entry_spec N s1 clust) as (s2 & He & Hk2 & [Hg2 Hfs2 Hb2 _] & _);
      [split; try done; intros ?; congruence|rewrite Kf; fold f; rewrite Ht; discriminate|lia|].
    assert (Hv2 := fat_get_fat_entry_cache s1 clust). rewrite He in Hv2 |- *. cbn in Hv2.
    pose proof Hk2 as [Kf2 Ki2 Ks2 _].
    rewrite Kf, (fat_entry_image d (dev s1)) by (by rewrite Ki). fold f.
    apply (search_result_keeps N s s2); [by eapply keeps_trans|].
    apply IH; try done; try congruence; [unfold f; congruence|lia|].
    by rewrite Nat.iter_succ_r in Heof. }
  destruct r as [[[c size]|]|]; cbn [default id] in Hsl;
    destruct Hsl as (s1 & -> & Hs1); [exact Hs1|..];
    destruct Hs1 as (Hr1 & Hk1 & Hv1); by apply Hcont.
Qed.

(** Finding a file in a FAT32 root directory, before any file was copied (the cache is still
    off): with a device in good order and a directory chain that ends in an end mark the code
    knows, [copy_named_file_fat32] follows the directory's clusters through the FAT, copies the
    first matching entry, and reports an error, with nothing written, if there is none. *)
Theorem copy_named_file_fat32_correct N s name n :
  fat_ready N s -> cache_valid s = false -> fat_type (fs s) = TYPE_FAT32 ->
  (n <= S (Z.to_nat (count_of_clusters (fs s))))%nat ->
  Forall (fun c => 2 <= c < N /\ end_of_file (fs s) c = false)
    (follow (dev s) (fs s) (root_dir_start (fs s)) n) ->
  end_of_file (fs s) (Nat.iter n (fat_entry (dev s) (fs s)) (root_dir_start (fs s))) = true ->
  let found := dir_find32 (dev s) (fs s) (follow (dev s) (fs s) (root_dir_start (fs s)) n) name in
  file_ok N (dev s) (fs s) found ->
  search_result N s found (copy_named_file_fat32 s name).
Proof.
  intros Hr Hv Ht Hn Hch Heof found Hok.
  apply (dir_loop32_spec N (fs s) (dev s) name n); try done. lia.
Qed.

End Correct.
