(* ===== verification/Sdmmc.v ===== *)
(** * Sdmmc: the loader's SD/MMC card driver (ipl/lib/sdmmc/sdmmc.c, ipl/lib/private/sdmmc.h).

    The host controller is an interface ([HostController], the function pointers of [sdmmc_hc_t]);
    the driver runs in a state monad over its [sdmmc_t] and the controller.  Output on the serial
    line is left out. *)

From S2P Require Import Prelude.

(** ** Constants of sdmmc.h *)

Definition SDMMC_BLOCKSIZE : Z := 512.
Definition MMC_GO_IDLE_STATE : Z := 0.
Definition MMC_SEND_OP_COND : Z := 1.
Definition MMC_ALL_SEND_CID : Z := 2.
Definition MMC_SET_RELATIVE_ADDR : Z := 3.
Definition MMC_SWITCH : Z := 6.
Definition MMC_SWITCH_MODE_OFF : Z := 24.
Definition MMC_SWITCH_INDEX_OFF : Z := 16.
Definition MMC_SWITCH_VALUE_OFF : Z := 8.
Definition MMC_SWITCH_MODE_WRITE : Z := 0x3.
Definition MMC_SWITCH_CMDSET_DFLT : Z := 0x1.
Definition ECSD_HS_TIMING : Z := 185.
Definition ECSD_HS_TIMING_HS : Z := 0x1.
Definition ECSD_BUS_WIDTH : Z := 183.
Definition ECSD_BUS_WIDTH_8_BIT : Z := 0x2.
Definition ECSD_BUS_WIDTH_DDR_8_BIT : Z := 0x6.
Definition SD_SF_MODE_SET : Z := 0x1.
Definition SD_SF_MODE_CHECK : Z := 0x0.
Definition SD_SF_MODE_OFF : Z := 31.
Definition SD_SF_GRP_BUS_SPD : Z := 0x0.
Definition SD_SF_GRP_DFT_VALUE : Z := 0xf.
Definition SD_SF_GRP_WIDTH : Z := 0x4.
Definition SD_SF_STATUS_SIZE : Z := 64.
Definition MMC_SEL_DES_CARD : Z := 7.
Definition MMC_IF_COND : Z := 8.
Definition MMC_SEND_EXT_CSD : Z := 8.
Definition MMC_EXT_CSD_SIZE : Z := 512.
Definition MMC_SEND_CSD : Z := 9.
Definition MMC_SEND_STATUS : Z := 13.
Definition MMC_SET_BLOCKLEN : Z := 16.
Definition MMC_READ_SINGLE_BLOCK : Z := 17.
Definition MMC_READ_MULTIPLE_BLOCK : Z := 18.
Definition MMC_SEND_SCR : Z := 51.
Definition SD_SCR_SIZE : Z := 8.
Definition MMC_APP_CMD : Z := 55.
Definition SD_SET_BUS_WIDTH : Z := Z.lor (Z.shiftl 55 8) 6.
Definition SD_SEND_OP_COND : Z := Z.lor (Z.shiftl 55 8) 41.
Definition SDMMC_OK : Z := 0.
Definition SDMMC_ERROR : Z := -1.

Definition MMC_IDLE : Z := Z.shiftl 0 9.
Definition MMC_READY : Z := Z.shiftl 1 9.
Definition MMC_IDENT : Z := Z.shiftl 2 9.
Definition MMC_STANDBY : Z := Z.shiftl 3 9.
Definition MMC_TRAN : Z := Z.shiftl 4 9.
Definition MMC_PRG : Z := Z.shiftl 7 9.
Definition MMC_CURRENT_STATE : Z := Z.shiftl 0xf 9.

Definition BUS_MODE_OPEN_DRAIN : Z := 0.
Definition BUS_MODE_PUSH_PULL : Z := 1.
Definition TIMING_HS : Z := 2.
Definition TIMING_DDR50 : Z := 3.
Definition DTR_MAX_SDR25 : Z := 50000.
Definition DTR_MAX_SDR12 : Z := 25000.
Definition DTR_MAX_HS52 : Z := 52000.
Definition DTR_MAX_HS26 : Z := 26000.
Definition CSD_SPEC_VER_1 : Z := 1.
Definition CSD_SPEC_VER_4 : Z := 4.
Definition ECSD_CARD_TYPE : Z := 196.
Definition ECSD_CARD_TYPE_52MHZ : Z := 0xe.
Definition ECSD_CARD_TYPE_MSK : Z := 0x3f.
Definition ECSD_REV : Z := 192.
Definition SD_BUS_MODE_MSK : Z := 0x1f.
Definition SD_DRV_TYPE_MSK : Z := 0x0f.
Definition SD_CURR_LIMIT_MSK : Z := 0xf.
Definition OCR_HCS : Z := 2 ^ 30.
Definition OCR_PWRUP_CMP : Z := 2 ^ 31.
Definition SDMMC_CAP_DDR : Z := 2.
Definition SDMMC_CAP_UHS : Z := 6.
Definition SDMMC_CAP_SKIP_IDENT : Z := 2 ^ 31.
Definition POWER_UP_WAIT : nat := 40000.

(** ** Data *)

Inductive card_type_t := NONE | eMMC | eSDC | eSDC_V200 | eSDC_HC | eMMC_HC.

(** [sdmmc_cmd_t]; [rsp] says whether the pointer to the response buffer is given. *)
Record sdmmc_cmd_t := mk_cmd {
  cmd : Z; arg : Z; rsp : bool; bsize : Z; bcnt : Z; dbuf : Z; erintsts : Z
}.

Record card_t := mk_card {
  state : Z; type : card_type_t; blk_size : Z; blk_num : Z; speed : Z; rca : Z;
  bus_mode : Z; drv_type : Z; curr_limit : Z
}.

Record sdmmc_cid_t := mk_cid { mid : Z; oid : Z; pnm : list Z; prv : Z; psn : Z; mdt : Z }.

Record sdmmc_csd_t := mk_csd {
  csd_structure : Z; spec_vers : Z; tran_speed : Z; ccc : Z; read_bl_len : Z; c_size : Z;
  c_size_mult : Z
}.

Record sd_scr_t := mk_scr { scr_structure : Z; sd_spec : Z; sd_bus_widths : Z; sd_spec3 : Z }.
Record mmc_ecsd_t := mk_ecsd { ecsd_card_type : Z; ext_csd_rev : Z }.

(** [sdmmc_t], without the pointer to the controller and the verbosity. *)
Record sdmmc_t := mk_sdmmc {
  icr : Z; ocr : Z; caps : Z; sd_cmd : sdmmc_cmd_t; card : card_t; cid : sdmmc_cid_t;
  csd : sdmmc_csd_t; scr : sd_scr_t; mmc_ecsd : mmc_ecsd_t; timing : Z
}.

Definition with_cmd (s : sdmmc_t) c :=
  mk_sdmmc (icr s) (ocr s) (caps s) c (card s) (cid s) (csd s) (scr s) (mmc_ecsd s) (timing s).
Definition with_card (s : sdmmc_t) c :=
  mk_sdmmc (icr s) (ocr s) (caps s) (sd_cmd s) c (cid s) (csd s) (scr s) (mmc_ecsd s) (timing s).
Definition with_caps (s : sdmmc_t) c :=
  mk_sdmmc (icr s) (ocr s) c (sd_cmd s) (card s) (cid s) (csd s) (scr s) (mmc_ecsd s) (timing s).
Definition with_cid (s : sdmmc_t) c :=
  mk_sdmmc (icr s) (ocr s) (caps s) (sd_cmd s) (card s) c (csd s) (scr s) (mmc_ecsd s) (timing s).
Definition with_csd (s : sdmmc_t) c :=
  mk_sdmmc (icr s) (ocr s) (caps s) (sd_cmd s) (card s) (cid s) c (scr s) (mmc_ecsd s) (timing s).
Definition with_scr (s : sdmmc_t) c :=
  mk_sdmmc (icr s) (ocr s) (caps s) (sd_cmd s) (card s) (cid s) (csd s) c (mmc_ecsd s) (timing s).
Definition with_ecsd (s : sdmmc_t) c :=
  mk_sdmmc (icr s) (ocr s) (caps s) (sd_cmd s) (card s) (cid s) (csd s) (scr s) c (timing s).

Definition set_state (c : card_t) v :=
  mk_card v (type c) (blk_size c) (blk_num c) (speed c) (rca c) (bus_mode c) (drv_type c) (curr_limit c).
Definition set_type (c : card_t) v :=
  mk_card (state c) v (blk_size c) (blk_num c) (speed c) (rca c) (bus_mode c) (drv_type c) (curr_limit c).
Definition set_blocks (c : card_t) sz n :=
  mk_card (state c) (type c) sz n (speed c) (rca c) (bus_mode c) (drv_type c) (curr_limit c).
Definition set_speed (c : card_t) v :=
  mk_card (state c) (type c) (blk_size c) (blk_num c) v (rca c) (bus_mode c) (drv_type c) (curr_limit c).
Definition set_rca (c : card_t) v :=
  mk_card (state c) (type c) (blk_size c) (blk_num c) (speed c) (u16 v) (bus_mode c) (drv_type c) (curr_limit c).
Definition set_modes (c : card_t) b d l :=
  mk_card (state c) (type c) (blk_size c) (blk_num c) (speed c) (rca c) b d l.

Definition IS_EMMC_CARD (c : card_t) : bool :=
  match type c with eMMC | eMMC_HC => true | _ => false end.
Definition IS_SD_CARD (c : card_t) : bool :=
  match type c with eSDC | eSDC_V200 | eSDC_HC => true | _ => false end.

(** ** The driver's monad and the host controller *)

Definition M (H A : Type) : Type := sdmmc_t * H -> res (A * (sdmmc_t * H)).
#[export] Instance M_ret H : MRet (M H) := fun A a w => Ok (a, w).
#[export] Instance M_bind H : MBind (M H) :=
  fun A B k m w => match m w with Ok (a, w') => k a w' | Err e => Err e end.

(** The function pointers of [sdmmc_hc_t] the driver calls.  [hc_send_cmd] and [hc_pio_read] answer
    with the words written to the response buffer and the bytes written to the data buffer; they
    have no answer when they return [SDMMC_ERROR]. *)
Class HostController (H : Type) := {
  hc_set_clk : Z -> M H unit;
  hc_set_bus_width : Z -> M H unit;
  hc_set_bus_mode : Z -> M H unit;
  hc_set_timing : Z -> M H unit;
  hc_send_cmd : M H (option (list Z));
  hc_pio_read : Z -> M H (option (list Z));
  hc_init_hc : M H Z;
  hc_dinit_hc : M H Z;
  hc_max_blks : M H Z
}.

Section Code.
Context {H : Type} `{HostController H}.

(** The loops that poll the card have no bound in the code. *)
Variable poll_fuel : nat.

Definition get : M H sdmmc_t := fun w => Ok (fst w, w).
Definition modify (f : sdmmc_t -> sdmmc_t) : M H unit := fun w => Ok (tt, (f (fst w), snd w)).
Definition modify_card (f : card_t -> card_t) : M H unit := modify (fun s => with_card s (f (card s))).
Definition fail_with {A} (e : err) : M H A := fun _ => Err e.
Definition lift {A} (r : res A) : M H A := fun w => match r with Ok a => Ok (a, w) | Err e => Err e end.

(** [if (SDMMC_OK != f) return SDMMC_ERROR; k] *)
Definition ok_then (f : M H Z) (k : M H Z) : M H Z :=
  r ← f; if r =? SDMMC_OK then k else mret SDMMC_ERROR.

(** The same for a call that answers. *)
Definition answer_then {A} (f : M H (option A)) (k : A -> M H Z) : M H Z :=
  r ← f; match r with Some a => k a | None => mret SDMMC_ERROR end.

(** [CMD_CREATE] *)
Definition CMD_CREATE (c a : Z) (r : bool) (bs bc buf : Z) : M H unit :=
  modify (fun s => with_cmd s (mk_cmd c (u32 a) r bs bc buf 0)).

Definition RELATIVE_CARD_ADDR (s : sdmmc_t) : Z := u32 (Z.shiftl (rca (card s)) 16).

(** The response words a call wrote, over what the buffer held before. *)
Definition overwrite (old new : list Z) : list Z := new ++ drop (length new) old.

(** [resp\[i\]] *)
Definition word (l : list Z) (i : nat) : M H Z := lift (get_or_bad (l !! i)).

Definition sdmmc_get_state : M H Z :=
  s ← get;
  _ ← CMD_CREATE MMC_SEND_STATUS (RELATIVE_CARD_ADDR s) true 0 0 0;
  answer_then hc_send_cmd (fun r =>
    v ← word r 0;
    _ ← modify_card (fun c => set_state c (Z.land v MMC_CURRENT_STATE));
    mret SDMMC_OK).

(** [do sdmmc_get_state while (MMC_PRG == card.state)] *)
Fixpoint wait_prg (fuel : nat) : M H Z :=
  match fuel with
  | O => fail_with NoFuel
  | S fuel =>
      ok_then sdmmc_get_state
        (s ← get; if state (card s) =? MMC_PRG then wait_prg fuel else mret SDMMC_OK)
  end.

(** [while (card.state != MMC_TRAN) sdmmc_get_state] *)
Fixpoint wait_tran (fuel : nat) : M H Z :=
  s ← get;
  if state (card s) =? MMC_TRAN then mret SDMMC_OK
  else match fuel with
       | O => fail_with NoFuel
       | S fuel => ok_then sdmmc_get_state (wait_tran fuel)
       end.

Definition sdmmc_ts_exp : list Z := [100; 1000; 10000; 100000; 0; 0; 0; 0].
Definition sdmmc_ts_mul : list Z :=
  [0; 1000; 1200; 1300; 1500; 2000; 2500; 3000; 3500; 4000; 4500; 5000; 5500; 6000; 7000; 8000].

Definition sdmmc_tran_speed (ts : Z) : Z :=
  u32 (nth (Z.to_nat (Z.land ts 0x7)) sdmmc_ts_exp 0
       * nth (Z.to_nat (Z.shiftr (Z.land ts 0x78) 3)) sdmmc_ts_mul 0).

(** [forces the block size to 512] *)
Definition to_blocks (bsize csize csizem : Z) : Z * Z :=
  let '(bsize, csize) :=
    if (SDMMC_BLOCKSIZE <? bsize) && (bsize mod SDMMC_BLOCKSIZE =? 0)
    then (SDMMC_BLOCKSIZE, u32 (csize * (bsize / SDMMC_BLOCKSIZE))) else (bsize, csize) in
  (bsize, u32 (csize * csizem)).

Definition sd_parse_cid (r0 r1 r2 r3 : Z) (s : sdmmc_t) : sdmmc_t :=
  with_cid s
    (mk_cid (Z.land (Z.shiftr r3 24) 0xff) (Z.land (Z.shiftr r3 8) 0xffff)
       (map u8 [r3; Z.shiftr r2 24; Z.shiftr r2 16; Z.shiftr r2 8; r2; 0]
          ++ drop 6 (pnm (cid s)))
       (Z.land (Z.shiftr r1 24) 0xff) (u32 (Z.lor (u32 (Z.shiftl r1 8)) (Z.shiftr r0 24)))
       (Z.land (Z.shiftr r0 8) 0xfff)).

Definition mmc_parse_cid (r0 r1 r2 r3 : Z) (s : sdmmc_t) : sdmmc_t :=
  let pnm5 := map u8 [r3; Z.shiftr r2 24; Z.shiftr r2 16; Z.shiftr r2 8; r2; Z.shiftr r1 24] in
  let mdt := Z.land (Z.shiftr r0 8) 0xff in
  with_cid s
    (if spec_vers (csd s) <? 2 then
       mk_cid (Z.land (Z.shiftr r3 8) 0xffffff) 0 (pnm5 ++ [u8 (Z.shiftr r1 16); 0])
         (Z.land (Z.shiftr r1 8) 0xff) 0 mdt
     else
       mk_cid (Z.land (Z.shiftr r3 24) 0xff) (Z.land (Z.shiftr r3 8) 0xff)
         (pnm5 ++ [0] ++ drop 7 (pnm (cid s)))
         (Z.land (Z.shiftr r1 16) 0xff)
         (Z.lor (u32 (Z.shiftl (Z.land r1 0xffff) 16)) (Z.shiftr r0 16)) mdt).

Definition mmc_parse_ext_csd (raw : list Z) (s : sdmmc_t) : sdmmc_t :=
  let ct := Z.land (nth (Z.to_nat ECSD_CARD_TYPE) raw 0) ECSD_CARD_TYPE_MSK in
  with_card (with_ecsd s (mk_ecsd ct (nth (Z.to_nat ECSD_REV) raw 0)))
    (set_speed (card s)
       (if Z.land ct ECSD_CARD_TYPE_52MHZ =? 0 then DTR_MAX_HS26 else DTR_MAX_HS52)).

(** [csd->c_size] is an [unsigned short]. *)
Definition sd_parse_csd (r0 r1 r2 r3 : Z) (s : sdmmc_t) : sdmmc_t :=
  let structure := u8 (Z.shiftr r3 30) in
  let read_bl_len := Z.land (Z.shiftr r2 16) 0x0f in
  let v1 := structure =? 0 in
  let c_size := u16 (if v1 then Z.lor (Z.shiftl (Z.land r2 0x3ff) 2) (Z.shiftr r1 30)
                     else Z.lor (Z.shiftl (Z.land r2 0x3f) 16) (Z.shiftr r1 16)) in
  let c_size_mult := if v1 then Z.land (Z.shiftr r1 15) 0x07 else c_size_mult (csd s) in
  let '(bsize, csizem) :=
    if v1 then (Z.shiftl 1 read_bl_len, Z.shiftl 1 (c_size_mult + 2))
    else (SDMMC_BLOCKSIZE, 1024) in
  let '(bsize, n) := to_blocks bsize (c_size + 1) csizem in
  let ts := u8 r3 in
  with_card
    (with_csd s (mk_csd structure (spec_vers (csd s)) ts (Z.shiftr r2 20) read_bl_len c_size c_size_mult))
    (set_speed (set_blocks (card s) bsize n) (sdmmc_tran_speed ts / 1000)).

Definition mmc_parse_csd (r0 r1 r2 r3 : Z) (s : sdmmc_t) : sdmmc_t :=
  let read_bl_len := Z.land (Z.shiftr r2 16) 0x0f in
  let c_size := u16 (Z.lor (Z.shiftl (Z.land r2 0x3ff) 2) (Z.shiftr r1 30)) in
  let c_size_mult := Z.land (Z.shiftr r1 15) 0x07 in
  let spec_vers := Z.land (Z.shiftr r3 26) 0x0f in
  let '(bsize, n) :=
    to_blocks (Z.shiftl 1 read_bl_len) (c_size + 1) (Z.shiftl 1 (c_size_mult + 2)) in
  let s := with_csd s (mk_csd (u8 (Z.shiftr r3 30)) spec_vers (u8 r3)
                         (Z.land (Z.shiftr r2 20) 0xfff) read_bl_len c_size c_size_mult) in
  let s := if spec_vers <? CSD_SPEC_VER_4
           then with_caps s (Z.land (caps s) (bnot 32 SDMMC_CAP_UHS)) else s in
  with_card s (set_blocks (card s) bsize n).

(** A command whose response is not looked at. *)
Definition send : M H Z :=
  r ← hc_send_cmd; mret (match r with Some _ => SDMMC_OK | None => SDMMC_ERROR end).

Definition sdmmc_go_idle : M H Z :=
  _ ← CMD_CREATE MMC_GO_IDLE_STATE 0 false 0 0 0; send.

Definition sdmmc_send_if_cond : M H Z :=
  s ← get; _ ← CMD_CREATE MMC_IF_COND (icr s) false 0 0 0; send.

Definition sdmmc_check_ocr (v : Z) : M H Z :=
  s ← get; if negb (Z.land v (ocr s) =? 0) then mret SDMMC_OK else sdmmc_go_idle.

Definition OP_COND_ARG (s : sdmmc_t) : Z := Z.lor (Z.lor OCR_PWRUP_CMP OCR_HCS) (ocr s).

(** The loop of [mmc_send_op_cond]; the command was created before, and a failed voltage check
    replaces it.  The loop ends with the first response word when the card is powered up. *)
Fixpoint mmc_op_cond_loop (n : nat) (first : bool) (r : list Z) : M H (option Z) :=
  match n with
  | O => mret None
  | S n =>
      a ← hc_send_cmd;
      match a with
      | None => mret None
      | Some w =>
          let r := overwrite r w in
          v ← word r 0;
          c ← (if first then sdmmc_check_ocr v else mret SDMMC_OK);
          if negb (c =? SDMMC_OK) then mret None
          else if negb (Z.land v OCR_PWRUP_CMP =? 0) then mret (Some v)
          else mmc_op_cond_loop n false r
      end
  end.

Definition mmc_send_op_cond : M H Z :=
  s ← get;
  _ ← CMD_CREATE MMC_SEND_OP_COND (OP_COND_ARG s) true 0 0 0;
  answer_then (mmc_op_cond_loop POWER_UP_WAIT true []) (fun v =>
    _ ← (if negb (Z.land v OCR_HCS =? 0) then modify_card (fun c => set_type c eMMC_HC) else mret tt);
    mret SDMMC_OK).

Fixpoint sd_op_cond_loop (n : nat) (first : bool) (r : list Z) : M H (option Z) :=
  match n with
  | O => mret None
  | S n =>
      s ← get;
      _ ← CMD_CREATE MMC_APP_CMD (RELATIVE_CARD_ADDR s) false 0 0 0;
      a ← hc_send_cmd;
      match a with
      | None => mret None
      | Some _ =>
          _ ← CMD_CREATE SD_SEND_OP_COND (OP_COND_ARG s) true 0 0 0;
          b ← hc_send_cmd;
          match b with
          | None => mret None
          | Some w =>
              let r := overwrite r w in
              v ← word r 0;
              c ← (if first then sdmmc_check_ocr v else mret SDMMC_OK);
              if negb (c =? SDMMC_OK) then mret None
              else if negb (Z.land v OCR_PWRUP_CMP =? 0) then mret (Some v)
              else sd_op_cond_loop n false r
          end
      end
  end.

Definition sd_send_op_cond : M H Z :=
  answer_then (sd_op_cond_loop POWER_UP_WAIT true []) (fun v =>
    _ ← modify_card (fun c => set_type c (if negb (Z.land v OCR_HCS =? 0) then eSDC_HC else eSDC));
    mret SDMMC_OK).

(** [sdmmc_send_all_cid], with the four words of [cid_raw]. *)
Definition sdmmc_send_all_cid : M H (option (list Z)) :=
  _ ← CMD_CREATE MMC_ALL_SEND_CID 0 true 0 0 0; hc_send_cmd.

(** [sdmmc_parse_cid] and [sdmmc_read_parse_csd] read all four words. *)
Definition sdmmc_parse_cid (raw : list Z) : M H unit :=
  r0 ← word raw 0; r1 ← word raw 1; r2 ← word raw 2; r3 ← word raw 3;
  modify (fun s => if IS_SD_CARD (card s) then sd_parse_cid r0 r1 r2 r3 s
                   else mmc_parse_cid r0 r1 r2 r3 s).

Definition sdmmc_read_parse_csd : M H Z :=
  s ← get;
  _ ← CMD_CREATE MMC_SEND_CSD (RELATIVE_CARD_ADDR s) true 0 0 0;
  answer_then hc_send_cmd (fun r =>
    r0 ← word r 0; r1 ← word r 1; r2 ← word r 2; r3 ← word r 3;
    _ ← modify (fun s => if IS_SD_CARD (card s) then sd_parse_csd r0 r1 r2 r3 s
                         else mmc_parse_csd r0 r1 r2 r3 s);
    mret SDMMC_OK).

Definition sdmmc_set_relative_addr : M H Z :=
  _ ← modify_card (fun c => set_rca c 1);
  s ← get;
  _ ← CMD_CREATE MMC_SET_RELATIVE_ADDR (RELATIVE_CARD_ADDR s) true 0 0 0;
  answer_then hc_send_cmd (fun r =>
    s ← get;
    _ ← (if IS_SD_CARD (card s) then v ← word r 0; modify_card (fun c => set_rca c (Z.shiftr v 16))
         else mret tt);
    ok_then sdmmc_get_state (mret SDMMC_OK)).

Definition sdmmc_select_card : M H Z :=
  s ← get;
  _ ← CMD_CREATE MMC_SEL_DES_CARD (RELATIVE_CARD_ADDR s) false 0 0 0;
  ok_then send (ok_then sdmmc_get_state (mret SDMMC_OK)).

Definition mmc_switch (mode index value cmdset : Z) : M H Z :=
  _ ← CMD_CREATE MMC_SWITCH
        (Z.lor (Z.lor (Z.lor (Z.shiftl mode MMC_SWITCH_MODE_OFF) (Z.shiftl index MMC_SWITCH_INDEX_OFF))
                  (Z.shiftl value MMC_SWITCH_VALUE_OFF)) cmdset) false 0 0 0;
  ok_then send (wait_prg poll_fuel).

(** [sd_switch], with the bytes of its buffer. *)
Definition sd_switch (mode group value : Z) : M H (option (list Z)) :=
  let arg := Z.lor (u32 (Z.shiftl mode SD_SF_MODE_OFF)) 0x00ffffff in
  let arg := Z.land arg (bnot 32 (Z.shiftl SD_SF_GRP_DFT_VALUE (group * SD_SF_GRP_WIDTH))) in
  let arg := Z.lor arg (Z.shiftl value (group * SD_SF_GRP_WIDTH)) in
  _ ← CMD_CREATE MMC_SWITCH arg false 0 0 0;
  a ← hc_pio_read SD_SF_STATUS_SIZE;
  match a with
  | None => mret None
  | Some buf => r ← wait_prg poll_fuel; mret (if r =? SDMMC_OK then Some buf else None)
  end.

Definition mmc_init_hs : M H Z :=
  ok_then (mmc_switch MMC_SWITCH_MODE_WRITE ECSD_HS_TIMING ECSD_HS_TIMING_HS MMC_SWITCH_CMDSET_DFLT)
  (ok_then (mmc_switch MMC_SWITCH_MODE_WRITE ECSD_BUS_WIDTH ECSD_BUS_WIDTH_8_BIT MMC_SWITCH_CMDSET_DFLT)
  (_ ← hc_set_bus_width 8;
   _ ← hc_set_timing TIMING_HS;
   s ← get;
   _ ← hc_set_clk (speed (card s));
   mret SDMMC_OK)).

Definition mmc_init_ddr : M H Z :=
  ok_then (mmc_switch MMC_SWITCH_MODE_WRITE ECSD_BUS_WIDTH ECSD_BUS_WIDTH_DDR_8_BIT MMC_SWITCH_CMDSET_DFLT)
  (_ ← hc_set_timing TIMING_DDR50;
   s ← get;
   _ ← hc_set_clk (speed (card s));
   mret SDMMC_OK).

(** [buf\[i\]] *)
Definition byte (l : list Z) (i : Z) : M H Z := lift (get_or_bad (byte_at l i)).

Definition sd_read_parse_scr : M H Z :=
  s ← get;
  _ ← CMD_CREATE MMC_APP_CMD (RELATIVE_CARD_ADDR s) false 0 0 0;
  ok_then send
  (_ ← CMD_CREATE MMC_SEND_SCR 0 false 0 0 0;
   answer_then (hc_pio_read SD_SCR_SIZE) (fun buf =>
     b0 ← byte buf 0; b1 ← byte buf 1; b2 ← byte buf 2;
     let spec := Z.land b0 0xf in
     _ ← modify (fun s => with_scr s (mk_scr (Z.land (Z.shiftr b0 4) 0xf) spec (Z.land b1 0xf)
                                        (Z.land (Z.shiftr b2 7) 0x1)));
     _ ← (if spec <? CSD_SPEC_VER_1 then modify_card (fun c => set_speed c DTR_MAX_SDR12) else mret tt);
     mret SDMMC_OK)).

Definition sd_capabilities : M H Z :=
  ok_then sd_read_parse_scr
  (answer_then (sd_switch SD_SF_MODE_CHECK SD_SF_GRP_BUS_SPD SD_SF_GRP_DFT_VALUE) (fun buf =>
     b13 ← byte buf 13;
     _ ← modify_card (fun c => set_speed c (if negb (Z.land b13 0x2 =? 0) then DTR_MAX_SDR25
                                            else DTR_MAX_SDR12));
     s ← get;
     _ ← (if negb (sd_spec3 (scr s) =? 0) then
            b9 ← byte buf 9; b7 ← byte buf 7;
            modify_card (fun c => set_modes c (Z.land b13 SD_BUS_MODE_MSK) (Z.land b9 SD_DRV_TYPE_MSK)
                                    (Z.land b7 SD_CURR_LIMIT_MSK))
          else modify (fun s => with_caps s (Z.land (caps s) (bnot 32 SDMMC_CAP_UHS))));
     mret SDMMC_OK)).

Definition sd_init_bus : M H Z :=
  s ← get;
  _ ← CMD_CREATE MMC_APP_CMD (RELATIVE_CARD_ADDR s) false 0 0 0;
  ok_then send
  (_ ← CMD_CREATE SD_SET_BUS_WIDTH 2 false 0 0 0;
   ok_then send
   (_ ← hc_set_bus_width 4;
    let finish :=
      _ ← hc_set_timing TIMING_HS;
      s ← get;
      _ ← hc_set_clk (speed (card s));
      mret SDMMC_OK in
    s ← get;
    if speed (card s) =? DTR_MAX_SDR25
    then answer_then (sd_switch SD_SF_MODE_SET SD_SF_GRP_BUS_SPD 1) (fun _ => finish)
    else finish)).

Definition mmc_init_bus : M H Z :=
  s ← get;
  let rest :=
    ok_then mmc_init_hs
      (s ← get; if negb (Z.land (caps s) SDMMC_CAP_DDR =? 0) then mmc_init_ddr else mret SDMMC_OK) in
  if (Z.land (caps s) SDMMC_CAP_SKIP_IDENT =? 0) && negb (Z.land (caps s) SDMMC_CAP_UHS =? 0) then
    _ ← CMD_CREATE MMC_SEND_EXT_CSD 0 false 0 0 0;
    answer_then (hc_pio_read MMC_EXT_CSD_SIZE) (fun raw => _ ← modify (mmc_parse_ext_csd raw); rest)
  else rest.

Definition sdmmc_powerup_card : M H Z :=
  ok_then hc_init_hc
  (ok_then sdmmc_go_idle
  (s ← get;
   _ ← CMD_CREATE MMC_SEND_OP_COND (OP_COND_ARG s) false 0 0 0;
   send)).

(** The probing of [sdmmc_init_card]: what kind of card answers. *)
Definition sdmmc_probe : M H Z :=
  s ← get;
  if IS_EMMC_CARD (card s) then mret SDMMC_OK
  else
    r ← sdmmc_send_if_cond;
    if r =? SDMMC_OK then
      _ ← modify_card (fun c => set_type c eSDC_V200);
      (* eSDC_V200: need to send MMC_IF_COND again *)
      ok_then sdmmc_send_if_cond (mret SDMMC_OK)
    else
      _ ← CMD_CREATE MMC_APP_CMD 0 false 0 0 0;
      r ← send;
      _ ← modify_card (fun c => set_type c (if r =? SDMMC_OK then eSDC else eMMC));
      mret SDMMC_OK.

(** From the selected card on. *)
Definition sdmmc_setup_card : M H Z :=
  _ ← modify_card (fun c => set_blocks c SDMMC_BLOCKSIZE (u32 (blk_num c * (blk_size c / SDMMC_BLOCKSIZE))));
  _ ← CMD_CREATE MMC_SET_BLOCKLEN SDMMC_BLOCKSIZE false 0 0 0;
  ok_then send
  (ok_then sdmmc_get_state
  (s ← get;
   if IS_SD_CARD (card s) then ok_then sd_capabilities sd_init_bus else mmc_init_bus)).

Definition sdmmc_init_card : M H Z :=
  _ ← modify_card (fun c => set_state (set_rca c 0) MMC_IDLE);
  _ ← hc_set_bus_mode BUS_MODE_OPEN_DRAIN;
  ok_then sdmmc_go_idle
  (ok_then sdmmc_probe
  (_ ← modify_card (fun c => set_state c MMC_READY);
   s ← get;
   ok_then (if IS_EMMC_CARD (card s) then mmc_send_op_cond else sd_send_op_cond)
   (answer_then sdmmc_send_all_cid (fun cid_raw =>
     ok_then sdmmc_set_relative_addr
     (_ ← hc_set_bus_mode BUS_MODE_PUSH_PULL;
      ok_then sdmmc_read_parse_csd
      (s ← get;
       _ ← (if Z.land (caps s) SDMMC_CAP_SKIP_IDENT =? 0 then sdmmc_parse_cid cid_raw else mret tt);
       ok_then sdmmc_select_card sdmmc_setup_card)))))).

(** [sdmmc_init_sd] and [sdmmc_init_mmc]: the type and the speed the card starts with. *)
Definition sdmmc_init_as (t : card_type_t) (spd : Z) : M H Z :=
  ok_then hc_init_hc
  (_ ← modify_card (fun c => set_speed (set_type c t) spd);
   r ← sdmmc_init_card;
   if r =? SDMMC_OK then mret SDMMC_OK
   else _ ← hc_dinit_hc; mret SDMMC_ERROR).

Definition sdmmc_init_sd : M H Z := sdmmc_init_as NONE DTR_MAX_SDR25.
Definition sdmmc_init_mmc : M H Z := sdmmc_init_as eMMC DTR_MAX_HS52.

(** The loop of [_sdmmc_read_write]: each turn transfers a block at least, or ends. *)
Fixpoint read_write_loop (fuel : nat) (addr blkno blkcnt : Z) : M H Z :=
  m ← hc_max_blks;
  let cblkcnt := if u32 m <? blkcnt then u32 m else blkcnt in
  if cblkcnt =? 0 then mret SDMMC_OK
  else
    match fuel with
    | O => fail_with NoFuel
    | S fuel =>
        let c := if cblkcnt =? 1 then MMC_READ_SINGLE_BLOCK else MMC_READ_MULTIPLE_BLOCK in
        s ← get;
        let arg := match type (card s) with
                   | eMMC | eSDC => u32 (blkno * SDMMC_BLOCKSIZE)
                   | _ => blkno
                   end in
        _ ← CMD_CREATE c arg false SDMMC_BLOCKSIZE cblkcnt addr;
        ok_then send
        (ok_then (wait_tran poll_fuel)
           (read_write_loop fuel (u32 (addr + cblkcnt * SDMMC_BLOCKSIZE)) (u32 (blkno + cblkcnt))
              (blkcnt - cblkcnt)))
    end.

(** The last parameter, [read], is not looked at. *)
Definition sdmmc_read_write (buf blkno blkcnt : Z) (read : bool) : M H Z :=
  s ← get;
  if (blk_num (card s) <=? blkno) || (blk_num (card s) <? u32 (blkno + blkcnt))
     || (u32 (blkno + blkcnt) <? blkno)
  then mret SDMMC_ERROR
  else read_write_loop (Z.to_nat blkcnt) buf blkno blkcnt.

Definition sdmmc_read (buf blkno blkcnt : Z) : M H Z := sdmmc_read_write buf blkno blkcnt true.
Definition sdmmc_write (buf blkno blkcnt : Z) : M H Z := sdmmc_read_write buf blkno blkcnt false.
Definition sdmmc_fini : M H Z := hc_dinit_hc.

End Code.
