(* ===== verification/SdmmcCard.v ===== *)
(** * SdmmcCard: the card on the bus, and what the controller promises to the driver of Sdmmc.v.

    [card_cmd] follows the SD physical layer specification and the JEDEC standard for MMC: the
    states a card goes through while it is identified, and what it answers.  [HostLaws] says that a
    controller carries commands to the card, responses back and blocks to memory. *)

From S2P Require Import Prelude.
From S2P Require Import Sdmmc.

(** ** The card *)

Inductive kind := SdV1 | SdV2 | SdHC | Mmc | MmcHC.

Definition is_sd (k : kind) : bool := match k with SdV1 | SdV2 | SdHC => true | _ => false end.
(** Version 2 of the specification brought the interface condition command. *)
Definition has_if_cond (k : kind) : bool := match k with SdV2 | SdHC => true | _ => false end.
(** High-capacity cards are addressed by block. *)
Definition by_block (k : kind) : bool := match k with SdHC | MmcHC => true | _ => false end.

(** The states of a card, by their number in the status word. *)
Definition st_idle : Z := 0.
Definition st_ready : Z := 1.
Definition st_ident : Z := 2.
Definition st_stby : Z := 3.
Definition st_tran : Z := 4.
Definition st_prg : Z := 7.

(** What a card is. *)
Record card_info := {
  ci_kind : kind;
  ci_addr : Z;             (* the address an SD card proposes *)
  ci_ocr : Z;              (* its voltages *)
  ci_busy : nat;           (* status polls that show programming after a switch *)
  ci_cid : list Z;
  ci_csd : list Z;
  ci_scr : list Z;
  ci_sf : Z -> list Z;     (* the switch function status, for an argument *)
  ci_ecsd : list Z;
  ci_blocks : Z;
  ci_sector : Z -> list Z
}.

(** Where a card is: its state, whether the next command is an application command, its address,
    how long it will still be powering up, and how long programming. *)
Record bus_card := mk_bus {
  c_info : card_info; c_state : Z; c_app : bool; c_rca : Z; c_wait : nat; c_left : nat
}.

Definition c_kind (c : bus_card) : kind := ci_kind (c_info c).

(** Go to a state; any command but APP_CMD itself ends the application command. *)
Definition goto (c : bus_card) (st : Z) : bus_card :=
  mk_bus (c_info c) st false (c_rca c) (c_wait c) (c_left c).

Definition status (st : Z) : Z := Z.lor (Z.shiftl st 9) 0x100.

(** The command is for this card. *)
Definition addressed (c : bus_card) (a : Z) : bool := Z.shiftr a 16 =? c_rca c.
Definition in_state (c : bus_card) (st : Z) : bool := c_state c =? st.

Definition ignore (c : bus_card) : bus_card * option (list Z) := (goto c (c_state c), None).

(** SEND_OP_COND: the voltages, and whether the card is powered up. *)
Definition op_cond (c : bus_card) (a : Z) : bus_card * option (list Z) :=
  let i := c_info c in
  if Z.land a (ci_ocr i) =? 0 then ignore c
  else
    match c_wait c with
    | S n => (mk_bus i (c_state c) false (c_rca c) n (c_left c), Some [ci_ocr i])
    | O => (goto c st_ready,
            Some [Z.lor (Z.lor OCR_PWRUP_CMP (if by_block (ci_kind i) then Z.land a OCR_HCS else 0))
                    (ci_ocr i)])
    end.

(** A command without data, by its index on the bus: the card afterwards, and the response words, if
    it responds.  Index 6 is the bus width of an SD card after APP_CMD, and MMC's SWITCH else. *)
Definition card_cmd (c : bus_card) (index a : Z) : bus_card * option (list Z) :=
  let i := c_info c in
  let sd := is_sd (ci_kind i) in
  match index with
  | 0 => (mk_bus i st_idle false 0 (c_wait c) 0, Some [])
  | 1 => if negb sd && in_state c st_idle then op_cond c a else ignore c
  | 8 => if has_if_cond (ci_kind i) && in_state c st_idle then (goto c st_idle, Some [a]) else ignore c
  | 55 => if sd && addressed c a
          then (mk_bus i (c_state c) true (c_rca c) (c_wait c) (c_left c), Some [status (c_state c)])
          else ignore c
  | 41 => if sd && c_app c && in_state c st_idle then op_cond c a else ignore c
  | 2 => if in_state c st_ready then (goto c st_ident, Some (ci_cid i)) else ignore c
  | 3 => if in_state c st_ident
         then let addr := if sd then ci_addr i else Z.shiftr a 16 in
              (mk_bus i st_stby false addr (c_wait c) 0,
               Some [if sd then Z.lor (Z.shiftl addr 16) 0x500 else status st_ident])
         else ignore c
  | 9 => if in_state c st_stby && addressed c a then (goto c st_stby, Some (ci_csd i)) else ignore c
  | 7 => if in_state c st_stby && addressed c a then (goto c st_tran, Some [status st_stby]) else ignore c
  | 13 =>
      if negb (addressed c a) then ignore c
      else if in_state c st_stby || in_state c st_tran
      then (goto c (c_state c), Some [status (c_state c)])
      else if in_state c st_prg then
        match c_left c with
        | O => (goto c st_tran, Some [status st_tran])
        | S n => (mk_bus i st_prg false (c_rca c) (c_wait c) n, Some [status st_prg])
        end
      else ignore c
  | 16 => if in_state c st_tran && (a =? 512) then (goto c st_tran, Some [status st_tran]) else ignore c
  | 6 => if c_app c
         then if sd && in_state c st_tran && (a =? 2) then (goto c st_tran, Some [status st_tran]) else ignore c
         else if negb sd && in_state c st_tran
         then (mk_bus i st_prg false (c_rca c) (c_wait c) (ci_busy i), Some [status st_tran])
         else ignore c
  | _ => ignore c
  end.

(** The commands the driver sends without data, by its own numbers, and their index on the bus: an
    application command keeps that of its second half. *)
Definition sendable (cmd : Z) : bool :=
  existsb (Z.eqb cmd) [0; 1; 2; 3; 6; 7; 8; 9; 13; 16; 55; SD_SET_BUS_WIDTH; SD_SEND_OP_COND].
Definition cmd_index (cmd : Z) : Z := Z.land cmd 63.
Definition card_send (c : bus_card) (cmd a : Z) : bus_card * option (list Z) := card_cmd c (cmd_index cmd) a.

(** The bus command of a driver's command. *)
Ltac on_bus :=
  match goal with |- context [card_send ?c ?n ?a] =>
    unfold card_send; let b := eval vm_compute in (cmd_index n) in change (cmd_index n) with b
  end.

(** A register read through the data lines. *)
Definition card_pio (c : bus_card) (cmd a len : Z) : bus_card * option (list Z) :=
  let i := c_info c in
  let sd := is_sd (ci_kind i) in
  let reg (ok : bool) l := if ok && in_state c st_tran && (len =? zlen l)
                           then (goto c st_tran, Some l) else ignore c in
  match cmd with
  | 51 => reg (sd && c_app c) (ci_scr i)
  | 6 => reg sd (ci_sf i a)
  | 8 => reg (negb sd) (ci_ecsd i)
  | _ => ignore c
  end.

(** [n] sectors of a card from [b] on. *)
Definition card_sectors (i : card_info) (b n : Z) : list Z :=
  concat (map (fun k => ci_sector i (b + Z.of_nat k)) (seq 0 (Z.to_nat n))).

(** The first block a data command with argument [a] reads. *)
Definition first_block (i : card_info) (a : Z) : option Z :=
  if by_block (ci_kind i) then Some a
  else if a mod 512 =? 0 then Some (a / 512) else None.

(** The words of a 128-bit register, the least significant first, as the controllers answer with
    them: without its checksum. *)
Definition words_ok (l : list Z) : Prop :=
  exists a b c d, l = [a; b; c; d] /\ fits 32 a /\ fits 32 b /\ fits 32 c /\ fits 32 d /\ a mod 2 ^ 8 = 0.

(** [n] bytes. *)
Definition bytes_ok (n : Z) (l : list Z) : Prop := zlen l = n /\ Forall (fits 8) l.

(** A card whose registers and sectors have the lengths of the specification. *)
Record info_ok (i : card_info) : Prop := {
  io_addr : fits 16 (ci_addr i);
  io_ocr : fits 30 (ci_ocr i);
  io_cid : words_ok (ci_cid i);
  io_csd : words_ok (ci_csd i);
  io_scr : bytes_ok 8 (ci_scr i);
  io_sf : forall a, bytes_ok 64 (ci_sf i a);
  io_ecsd : bytes_ok 512 (ci_ecsd i);
  io_sector : forall n, zlen (ci_sector i n) = 512
}.

(** ** The controller *)

(** The card a controller works on, the memory from address 0 on, whether the controller is set up,
    its interface condition and voltages, and the most blocks a request may ask for. *)
Class HostBus (H : Type) := {
  hb_card : H -> bus_card;
  hb_mem : H -> list Z;
  hb_good : H -> Prop;
  hb_max : Z;
  hb_icr : Z;
  hb_ocr : Z
}.

(** The driver's state, but for the command it sends and the timing. *)
Definition cmd0 : sdmmc_cmd_t := mk_cmd 0 0 false 0 0 0 0.
Definition strip (s : sdmmc_t) : sdmmc_t :=
  mk_sdmmc (icr s) (ocr s) (caps s) cmd0 (card s) (cid s) (csd s) (scr s) (mmc_ecsd s) 0.

(** The same command, with what the controller noted of its errors. *)
Definition same_cmd (a b : sdmmc_cmd_t) : Prop :=
  cmd a = cmd b /\ arg a = arg b /\ rsp a = rsp b /\ bsize a = bsize b.

(** A call of the controller ends with this answer, this state of the driver, this card and this
    memory. *)
Definition ends {H A} `{HostBus H} (r : res (A * (sdmmc_t * H))) (a : A) (s : sdmmc_t) (c : bus_card)
  (m : list Z) : Prop :=
  exists s' h', r = Ok (a, (s', h')) /\ strip s' = strip s /\ same_cmd (sd_cmd s') (sd_cmd s) /\
    hb_good h' /\ hb_card h' = c /\ hb_mem h' = m.

(** A command that reads a register of [len] bytes, whole words of them. *)
Definition pio_ok (cmd len : Z) : Prop := 0 <= cmd < 64 /\ 0 < len <= 512 /\ len mod 4 = 0.

(** What the driver relies on.  Initialisation sets the controller up, whatever its state, for a
    card as the specification has it; from then on it carries commands to the card. *)
Class HostLaws (H : Type) `{HostController H, HostBus H} : Prop := {
  hl_ocr : fits 30 hb_ocr;
  hl_two : 2 <= hb_max;
  hl_init : forall s h, info_ok (c_info (hb_card h)) -> ends (hc_init_hc (s, h)) SDMMC_OK
    (mk_sdmmc hb_icr hb_ocr (caps s) (sd_cmd s) (card s) (cid s) (csd s) (scr s) (mmc_ecsd s) (timing s))
    (hb_card h) (hb_mem h);
  hl_width : forall s h n, hb_good h -> ends (hc_set_bus_width n (s, h)) tt s (hb_card h) (hb_mem h);
  hl_mode : forall s h n, hb_good h -> ends (hc_set_bus_mode n (s, h)) tt s (hb_card h) (hb_mem h);
  hl_timing : forall s h n, hb_good h -> ends (hc_set_timing n (s, h)) tt s (hb_card h) (hb_mem h);
  hl_clk : forall s h n, hb_good h -> ends (hc_set_clk n (s, h)) tt s (hb_card h) (hb_mem h);
  hl_max : forall w, exists n, hc_max_blks w = Ok (n, w) /\ 0 < u32 n;
  hl_send : forall s h, hb_good h -> bsize (sd_cmd s) = 0 ->
    sendable (cmd (sd_cmd s)) = true -> (cmd (sd_cmd s) = 0 -> rsp (sd_cmd s) = false) ->
    let '(c, r) := card_send (hb_card h) (cmd (sd_cmd s)) (arg (sd_cmd s)) in
    ends (hc_send_cmd (s, h)) (option_map (fun w => if rsp (sd_cmd s) then w else []) r) s c (hb_mem h);
  hl_pio : forall s h n, hb_good h -> bsize (sd_cmd s) = 0 -> rsp (sd_cmd s) = false ->
    pio_ok (cmd (sd_cmd s)) n ->
    let '(c, r) := card_pio (hb_card h) (cmd (sd_cmd s)) (arg (sd_cmd s)) n in
    ends (hc_pio_read n (s, h)) r s c (hb_mem h);
  hl_read : forall s h b n,
    let k := sd_cmd s in
    let c := hb_card h in
    hb_good h -> (cmd k = MMC_READ_SINGLE_BLOCK /\ n = 1 \/ cmd k = MMC_READ_MULTIPLE_BLOCK /\ 1 < n) ->
    bsize k = 512 -> bcnt k = n -> n <= hb_max -> rsp k = false ->
    c_state c = st_tran -> c_app c = false -> first_block (c_info c) (arg k) = Some b ->
    0 <= b -> b + n <= ci_blocks (c_info c) -> 0 <= dbuf k -> dbuf k + 512 * n <= zlen (hb_mem h) ->
    ends (hc_send_cmd (s, h)) (Some []) s c (splice (hb_mem h) (dbuf k) (card_sectors (c_info c) b n))
}.

(** ** Symbolic execution *)

Section Runs.
Context {H : Type} `{HL : HostLaws H}.

(** [m] ends from [w], with [P] of its answer and of the state it leaves. *)
Definition runs {A} (m : M H A) (w : sdmmc_t * H) (P : A -> sdmmc_t * H -> Prop) : Prop :=
  exists a w', m w = Ok (a, w') /\ P a w'.

(** The driver knows [k] of the card; the bus has card [c], and memory is [m]. *)
Record On (w : sdmmc_t * H) (k : card_t) (c : bus_card) (m : list Z) : Prop := {
  on_card : card (fst w) = k;
  on_ocr : ocr (fst w) = hb_ocr;
  on_bus : hb_card (snd w) = c;
  on_mem : hb_mem (snd w) = m;
  on_good : hb_good (snd w)
}.

Lemma runs_mono {A} (m : M H A) w (P Q : A -> sdmmc_t * H -> Prop) :
  runs m w P -> (forall a w', P a w' -> Q a w') -> runs m w Q.
Proof. intros (a & w' & Hm & HP) HQ. exists a, w'. auto. Qed.

Lemma runs_ret {A} (a : A) w (P : A -> sdmmc_t * H -> Prop) : P a w -> runs (mret a) w P.
Proof. intros HP. by exists a, w. Qed.

Lemma runs_bind {A B} (m : M H A) (k : A -> M H B) w P :
  runs m w (fun a w' => runs (k a) w' P) -> runs (a ← m; k a) w P.
Proof.
  intros (a & w' & Hm & b & w2 & Hk & HP). exists b, w2. split; [|done].
  unfold mbind, M_bind. by rewrite Hm.
Qed.

Lemma runs_get w P : P (fst w) w -> runs get w P.
Proof. intros HP. by exists (fst w), w. Qed.

Lemma runs_ok_then f k w P :
  runs f w (fun r w' => if r =? SDMMC_OK then runs k w' P else P SDMMC_ERROR w') ->
  runs (ok_then f k) w P.
Proof.
  intros Hf. apply runs_bind. eapply runs_mono; [exact Hf|]. intros r w' Hr.
  cbv beta in Hr. destruct (r =? SDMMC_OK); [done|]. by apply runs_ret.
Qed.

Lemma runs_answer_then {A} (f : M H (option A)) k w P :
  runs f w (fun r w' => match r with Some a => runs (k a) w' P | None => P SDMMC_ERROR w' end) ->
  runs (answer_then f k) w P.
Proof.
  intros Hf. apply runs_bind. eapply runs_mono; [exact Hf|]. intros [a|] w' Hr; [done|].
  by apply runs_ret.
Qed.

Lemma runs_word l i v w P : l !! i = Some v -> P v w -> runs (word l i) w P.
Proof. intros Hl HP. exists v, w. unfold word, lift. by rewrite Hl. Qed.

Lemma runs_byte l i v w P : byte_at l i = Some v -> P v w -> runs (byte l i) w P.
Proof. intros Hl HP. exists v, w. unfold byte, lift. by rewrite Hl. Qed.

Lemma runs_modify f w P : P tt (f (fst w), snd w) -> runs (modify f) w P.
Proof. intros HP. by exists tt, (f (fst w), snd w). Qed.

Lemma on_modify_card f w k c m : On w k c m -> On (with_card (fst w) (f (card (fst w))), snd w) (f k) c m.
Proof. intros []. split; cbn; congruence. Qed.

Lemma runs_modify_card f w k c m P :
  On w k c m -> (forall w', On w' (f k) c m -> P tt w') -> runs (modify_card f) w P.
Proof. intros Hon HP. apply runs_modify, HP. by apply on_modify_card. Qed.

(** A change of what the driver knows, the card's registers apart. *)
Lemma runs_modify_rest f w k c m P :
  On w k c m -> (forall s, card (f s) = card s /\ ocr (f s) = ocr s) ->
  (forall w', On w' k c m -> P tt w') -> runs (modify f) w P.
Proof.
  intros [] Hf HP. apply runs_modify, HP. destruct (Hf (fst w)). split; cbn; congruence.
Qed.

Lemma strip_fields s s' : strip s' = strip s -> card s' = card s /\ ocr s' = ocr s.
Proof. intros Hs. unfold strip in Hs. injection Hs. intros. split; congruence. Qed.

(** A call of the controller. *)
Lemma runs_ends {A} (f : M H A) w a c c' k m m' P :
  On w k c m -> ends (f w) a (fst w) c' m' ->
  (forall w', On w' k c' m' -> same_cmd (sd_cmd (fst w')) (sd_cmd (fst w)) -> P a w') -> runs f w P.
Proof.
  intros [] (s' & h' & Hm & [Hs1 Hs2]%strip_fields & Hcmd & Hg & Hc & Hmem) HP.
  exists a, (s', h'). split; [done|]. apply HP; [split; cbn; congruence|done].
Qed.

(** A command without data that may be sent so. *)
Definition plain (n : Z) (r : bool) : bool := sendable n && negb ((n =? 0) && r).

Lemma plain_spec n r : plain n r = true -> sendable n = true /\ (n = 0 -> r = false).
Proof.
  unfold plain. rewrite andb_true_iff, negb_true_iff. intros [Hs Hr]. split; [done|]. intros ->. by destruct r.
Qed.

(** Sending the command that was made. *)
Lemma runs_send_cmd w k c m P :
  On w k c m -> bsize (sd_cmd (fst w)) = 0 ->
  plain (cmd (sd_cmd (fst w))) (rsp (sd_cmd (fst w))) = true ->
  (let '(c', r) := card_send c (cmd (sd_cmd (fst w))) (arg (sd_cmd (fst w))) in
   forall w', On w' k c' m -> same_cmd (sd_cmd (fst w')) (sd_cmd (fst w)) ->
     P (option_map (fun v => if rsp (sd_cmd (fst w)) then v else []) r) w') ->
  runs hc_send_cmd w P.
Proof.
  intros Hon Hb Hz HP. destruct w as [s1 h1]. cbn [fst snd] in *.
  pose proof Hon as [_ _ Hc Hm Hg]. cbn [snd] in *. apply plain_spec in Hz as [Hz1 Hz2]. pose proof (hl_send s1 h1 Hg Hb Hz1 Hz2) as Hsend.
  rewrite Hc, Hm in Hsend. destruct (card_send c _ _) as [c' r].
  eapply runs_ends; [exact Hon|exact Hsend|exact HP].
Qed.

Lemma runs_create {A} n a r w k c m P (f : M H A) :
  On w k c m ->
  (forall w', On w' k c m -> cmd (sd_cmd (fst w')) = n -> arg (sd_cmd (fst w')) = u32 a ->
     rsp (sd_cmd (fst w')) = r -> bsize (sd_cmd (fst w')) = 0 -> runs f w' P) ->
  runs (_ ← CMD_CREATE n a r 0 0 0; f) w P.
Proof. intros [] Hk. apply runs_bind, runs_modify. by apply Hk. Qed.

(** A command without data, and its response. *)
Lemma runs_command n a r w k c m c' v P :
  On w k c m -> plain n r = true -> card_send c n (u32 a) = (c', v) ->
  (forall w', On w' k c' m -> P (option_map (fun l => if r : bool then l else []) v) w') ->
  runs (_ ← CMD_CREATE n a r 0 0 0; hc_send_cmd) w P.
Proof.
  intros Hon Hz Hc HP. eapply runs_create; [exact Hon|]. intros w1 Hon1 Hn Ha Hr Hb.
  eapply runs_send_cmd; [exact Hon1|exact Hb|by rewrite Hn, Hr|]. rewrite Hn, Ha, Hr, Hc. auto.
Qed.

(** A command whose response is not looked at. *)
Definition result {A} (r : option A) : Z := match r with Some _ => SDMMC_OK | None => SDMMC_ERROR end.

Lemma runs_send n a w k c m c' v P :
  On w k c m -> plain n false = true -> card_send c n (u32 a) = (c', v) -> (forall w', On w' k c' m -> P (result v) w') ->
  runs (_ ← CMD_CREATE n a false 0 0 0; send) w P.
Proof.
  intros Hon Hz Hc HP. eapply runs_create; [exact Hon|]. intros w1 Hon1 Hn Ha Hr Hb.
  unfold send. apply runs_bind. eapply runs_send_cmd; [exact Hon1|exact Hb|by rewrite Hn, Hr|].
  rewrite Hn, Ha, Hr, Hc. intros w' Hon' _. apply runs_ret. destruct v; by apply HP.
Qed.

(** The same, with the rest of the routine behind it. *)
Lemma runs_answer n a r w k c m c' v f P :
  On w k c m -> plain n r = true -> card_send c n (u32 a) = (c', Some v) ->
  (forall w', On w' k c' m -> runs (f (if r : bool then v else [])) w' P) ->
  runs (_ ← CMD_CREATE n a r 0 0 0; answer_then hc_send_cmd f) w P.
Proof.
  intros Hon Hz Hc HP. eapply runs_create; [exact Hon|]. intros w1 Hon1 Hn Ha Hr Hb.
  apply runs_answer_then. eapply runs_send_cmd; [exact Hon1|exact Hb|by rewrite Hn, Hr|].
  rewrite Hn, Ha, Hr, Hc. intros w' Hon' _. cbn [option_map]. by apply HP.
Qed.

Lemma runs_send_then n a w k c m c' v f P :
  On w k c m -> plain n false = true -> card_send c n (u32 a) = (c', Some v) -> (forall w', On w' k c' m -> runs f w' P) ->
  runs (_ ← CMD_CREATE n a false 0 0 0; ok_then send f) w P.
Proof.
  intros Hon Hz Hc HP. eapply runs_create; [exact Hon|]. intros w1 Hon1 Hn Ha Hr Hb.
  apply runs_ok_then. unfold send. apply runs_bind. eapply runs_send_cmd; [exact Hon1|exact Hb|by rewrite Hn, Hr|].
  rewrite Hn, Ha, Hr, Hc. intros w' Hon' _. apply runs_ret. by apply HP.
Qed.

(** A register read through the data lines. *)
Lemma runs_pio {A} n a len w k c m c' v P (f : option (list Z) -> M H A) :
  On w k c m -> pio_ok n len -> card_pio c n (u32 a) len = (c', v) -> (forall w', On w' k c' m -> runs (f v) w' P) ->
  runs (_ ← CMD_CREATE n a false 0 0 0; r ← hc_pio_read len; f r) w P.
Proof.
  intros Hon Hl Hc HP. eapply runs_create; [exact Hon|]. intros [s1 h1] Hon1 Hn Ha Hr Hb.
  pose proof Hon1 as [_ _ Hc1 Hm Hg]. cbn [fst snd] in *.
  rewrite <- Hn in Hl. pose proof (hl_pio s1 h1 len Hg Hb Hr Hl) as Hsend.
  rewrite Hc1, Hm, Hn, Ha, Hc in Hsend. apply runs_bind.
  eapply runs_ends; [exact Hon1|exact Hsend|auto].
Qed.
End Runs.
