(* ===== verification/SdmmcCsd.v ===== *)
(** * SdmmcCsd: the card registers the driver of Sdmmc.v parses, against their definition.

    A register is a number of 128 bits, of which the specification numbers the bits; the driver has
    its four words. *)

From S2P Require Import Prelude.
From S2P Require Import Sdmmc.

(** The register of four words, the least significant first, and its bits [hi..lo]. *)
Definition register (r0 r1 r2 r3 : Z) : Z := r0 + 2 ^ 32 * r1 + 2 ^ 64 * r2 + 2 ^ 96 * r3.
Definition field (v hi lo : Z) : Z := (v / 2 ^ lo) mod 2 ^ (hi - lo + 1).

(** The card-specific data register. *)
Definition CSD_STRUCTURE v := field v 127 126.
Definition READ_BL_LEN v := field v 83 80.
Definition C_SIZE v := field v 73 62.
Definition C_SIZE_MULT v := field v 49 47.
Definition C_SIZE_V2 v := field v 69 48.

(** The capacity in blocks of 512 bytes: the number of blocks times their length, or, for the second
    version of an SD card's register, in units of 512 KB. *)
Definition csd_capacity (sd : bool) (v : Z) : Z :=
  if sd && negb (CSD_STRUCTURE v =? 0) then (C_SIZE_V2 v + 1) * 1024
  else (C_SIZE v + 1) * 2 ^ (C_SIZE_MULT v + 2) * 2 ^ READ_BL_LEN v / 512.

(** The capacity the driver ends with, after its block size is 512. *)
Definition driver_blocks (c : card_t) : Z := u32 (blk_num c * (blk_size c / SDMMC_BLOCKSIZE)).

Section Fields.
Variables r0 r1 r2 r3 : Z.
Hypothesis (H0 : fits 32 r0) (H1 : fits 32 r1) (H2 : fits 32 r2) (H3 : fits 32 r3).

Lemma land_low x n : 0 <= n -> Z.land x (2 ^ n - 1) = x mod 2 ^ n.
Proof. intros. by rewrite <- Z.land_ones, Z.ones_equiv, <- Z.sub_1_r by done. Qed.

Lemma structure_field : CSD_STRUCTURE (register r0 r1 r2 r3) = u8 (Z.shiftr r3 30).
Proof.
  unfold CSD_STRUCTURE, field, register, wrap, fits in *. rewrite Z.shiftr_div_pow2 by lia.
  replace (127 - 126 + 1) with 2 by lia. Z.to_euclidean_division_equations; lia.
Qed.

Lemma read_bl_len_field : READ_BL_LEN (register r0 r1 r2 r3) = Z.land (Z.shiftr r2 16) 0x0f.
Proof.
  unfold READ_BL_LEN, field, register, fits in *. change 0x0f with (2 ^ 4 - 1).
  rewrite land_low, Z.shiftr_div_pow2 by lia. replace (83 - 80 + 1) with 4 by lia.
  Z.to_euclidean_division_equations; lia.
Qed.

Lemma c_size_mult_field : C_SIZE_MULT (register r0 r1 r2 r3) = Z.land (Z.shiftr r1 15) 0x07.
Proof.
  unfold C_SIZE_MULT, field, register, fits in *. change 0x07 with (2 ^ 3 - 1).
  rewrite land_low, Z.shiftr_div_pow2 by lia. replace (49 - 47 + 1) with 3 by lia.
  Z.to_euclidean_division_equations; lia.
Qed.

Lemma c_size_field :
  C_SIZE (register r0 r1 r2 r3) = Z.lor (Z.shiftl (Z.land r2 0x3ff) 2) (Z.shiftr r1 30).
Proof.
  unfold fits in *. change 0x3ff with (2 ^ 10 - 1). rewrite land_low, Z.shiftr_div_pow2 by lia.
  rewrite lor_pieces by (Z.to_euclidean_division_equations; lia).
  unfold C_SIZE, field, register. replace (73 - 62 + 1) with 12 by lia.
  Z.to_euclidean_division_equations; lia.
Qed.

Lemma c_size_v2_field :
  C_SIZE_V2 (register r0 r1 r2 r3) = Z.lor (Z.shiftl (Z.land r2 0x3f) 16) (Z.shiftr r1 16).
Proof.
  unfold fits in *. change 0x3f with (2 ^ 6 - 1). rewrite land_low, Z.shiftr_div_pow2 by lia.
  rewrite lor_pieces by (Z.to_euclidean_division_equations; lia).
  unfold C_SIZE_V2, field, register. replace (69 - 48 + 1) with 22 by lia.
  Z.to_euclidean_division_equations; lia.
Qed.
End Fields.

(** Blocks of [2^bl] bytes, counted in blocks of 512. *)
Lemma to_blocks_spec bl n mult :
  9 <= bl < 16 -> 0 < n <= 4096 -> 0 <= mult <= 7 ->
  let '(bs, num) := to_blocks (Z.shiftl 1 bl) n (Z.shiftl 1 (mult + 2)) in
  u32 (num * (bs / SDMMC_BLOCKSIZE)) = n * 2 ^ (mult + 2) * 2 ^ bl / 512 /\
  0 < n * 2 ^ (mult + 2) * 2 ^ bl / 512 < 2 ^ 28.
Proof.
  intros Hbl Hn Hm. unfold to_blocks, SDMMC_BLOCKSIZE. rewrite !Z.shiftl_1_l.
  assert (Hpow : 2 ^ bl = 512 * 2 ^ (bl - 9)).
  { change 512 with (2 ^ 9). rewrite <- Z.pow_add_r by lia. f_equal. lia. }
  assert (Hb : 0 < 2 ^ (bl - 9) <= 64).
  { split; [lia|]. change 64 with (2 ^ 6). apply Z.pow_le_mono_r; lia. }
  assert (Hm2 : 0 < 2 ^ (mult + 2) <= 512).
  { split; [lia|]. change 512 with (2 ^ 9). apply Z.pow_le_mono_r; lia. }
  rewrite Hpow. set (q := 2 ^ (bl - 9)) in *. set (p := 2 ^ (mult + 2)) in *.
  replace (n * p * (512 * q) / 512) with (n * p * q)
    by (replace (n * p * (512 * q)) with (n * p * q * 512) by ring; by rewrite Z.div_mul).
  replace (512 * q mod 512) with 0 by (symmetry; rewrite Z.mul_comm; apply Z.mod_mul; lia).
  replace (512 * q / 512) with q by (symmetry; rewrite Z.mul_comm; apply Z.div_mul; lia).
  assert (0 < n * p <= 2 ^ 21) by nia. assert (0 < n * q <= 2 ^ 18) by nia.
  assert (Hnpq : 0 < n * p * q < 2 ^ 28) by nia.
  destruct (Z.ltb_spec 512 (512 * q)); cbn [andb Z.eqb].
  - rewrite (wrap_id 32 (n * q)) by (unfold fits; lia). change (512 / 512) with 1.
    replace (n * q * p) with (n * p * q) by ring.
    rewrite Z.mul_1_r, !(wrap_id 32 (n * p * q)) by (unfold fits; lia). by split.
  - replace q with 1 in * by lia. change (512 * 1 / 512) with 1.
    rewrite !Z.mul_1_r in *. rewrite !(wrap_id 32 (n * p)) by (unfold fits; lia). by split.
Qed.

Lemma field_range v hi lo : 0 <= lo <= hi -> 0 <= field v hi lo < 2 ^ (hi - lo + 1).
Proof. intros. apply Z.mod_pos_bound. lia. Qed.

(** What the standard asks of the register: blocks of 512 bytes at least. *)
Definition csd_legal (sd : bool) (v : Z) : Prop :=
  sd && negb (CSD_STRUCTURE v =? 0) = true \/ 9 <= READ_BL_LEN v.

(** The capacity the driver keeps: it has 16 bits for a size field that has 22 in the second version of
    the register. *)
Definition csd_kept (sd : bool) (v : Z) : Z :=
  if sd && negb (CSD_STRUCTURE v =? 0) then (u16 (C_SIZE_V2 v) + 1) * 1024 else csd_capacity sd v.

(** The capacity, of both kinds of card. *)
Lemma csd_kept_spec (sd : bool) r0 r1 r2 r3 s :
  fits 32 r0 -> fits 32 r1 -> fits 32 r2 -> fits 32 r3 ->
  let v := register r0 r1 r2 r3 in
  csd_legal sd v ->
  let s' := if sd then sd_parse_csd r0 r1 r2 r3 s else mmc_parse_csd r0 r1 r2 r3 s in
  driver_blocks (card s') = csd_kept sd v /\ 0 < csd_kept sd v < 2 ^ 28.
Proof.
  intros H0 H1 H2 H3 v Hpl s'. unfold csd_legal, csd_kept, csd_capacity in *.
  assert (Hbl := read_bl_len_field r0 r1 r2 r3 H0 H1 H2 H3).
  assert (Hcm := c_size_mult_field r0 r1 r2 r3 H0 H1 H2 H3).
  assert (Hcs := c_size_field r0 r1 r2 r3 H0 H1 H2 H3).
  assert (Hc2 := c_size_v2_field r0 r1 r2 r3 H0 H1 H2 H3).
  assert (Hst := structure_field r0 r1 r2 r3 H0 H1 H2 H3).
  fold v in Hbl, Hcm, Hcs, Hc2, Hst.
  pose proof (field_range v 83 80 ltac:(lia)) as Rbl. fold (READ_BL_LEN v) in Rbl.
  pose proof (field_range v 49 47 ltac:(lia)) as Rcm. fold (C_SIZE_MULT v) in Rcm.
  pose proof (field_range v 73 62 ltac:(lia)) as Rcs. fold (C_SIZE v) in Rcs.
  pose proof (field_range v 69 48 ltac:(lia)) as Rc2. fold (C_SIZE_V2 v) in Rc2.
  assert (Hplain : 9 <= READ_BL_LEN v -> let '(bs, num) :=
    to_blocks (Z.shiftl 1 (Z.land (Z.shiftr r2 16) 15))
      (u16 (Z.lor (Z.shiftl (Z.land r2 0x3ff) 2) (Z.shiftr r1 30)) + 1)
      (Z.shiftl 1 (Z.land (Z.shiftr r1 15) 7 + 2)) in
    u32 (num * (bs / SDMMC_BLOCKSIZE)) = (C_SIZE v + 1) * 2 ^ (C_SIZE_MULT v + 2) * 2 ^ READ_BL_LEN v / 512 /\
    0 < (C_SIZE v + 1) * 2 ^ (C_SIZE_MULT v + 2) * 2 ^ READ_BL_LEN v / 512 < 2 ^ 28).
  { intros H9. rewrite <- Hbl, <- Hcm, <- Hcs, wrap_id by (unfold fits; lia).
    apply to_blocks_spec; lia. }
  unfold s'. destruct sd; cbn [andb] in *.
  - unfold sd_parse_csd. rewrite <- Hst. destruct (CSD_STRUCTURE v =? 0) eqn:Hv; cbn [negb] in *.
    + destruct Hpl as [|Hpl]; [done|]. specialize (Hplain Hpl). destruct (to_blocks _ _ _) as [bs num]. exact Hplain.
    + rewrite <- Hc2. set (n := u16 (C_SIZE_V2 v)).
      assert (Rn : 0 <= n < 2 ^ 16) by (apply Z.mod_pos_bound; lia). split; [|lia].
      transitivity (u32 (u32 ((n + 1) * 1024) * 1)); [reflexivity|].
      by rewrite Z.mul_1_r, !(wrap_id 32 ((n + 1) * 1024)) by (unfold fits; lia).
  - unfold mmc_parse_csd. destruct Hpl as [|Hpl]; [done|]. specialize (Hplain Hpl). destruct (to_blocks _ _ _) as [bs num].
    destruct (_ <? CSD_SPEC_VER_4); exact Hplain.
Qed.

(** What is kept is what is stated, unless the size does not fit; then it is less. *)
Lemma csd_kept_stated (sd : bool) r0 r1 r2 r3 :
  fits 32 r0 -> fits 32 r1 -> fits 32 r2 -> fits 32 r3 ->
  let v := register r0 r1 r2 r3 in
  if sd && negb (CSD_STRUCTURE v =? 0) && (2 ^ 16 <=? C_SIZE_V2 v)
  then csd_kept sd v < csd_capacity sd v else csd_kept sd v = csd_capacity sd v.
Proof.
  intros H0 H1 H2 H3 v. unfold csd_kept, csd_capacity.
  pose proof (field_range v 69 48 ltac:(lia)) as Rc2. fold (C_SIZE_V2 v) in Rc2.
  destruct (sd && _); cbn [andb]; [|done]. destruct (Z.leb_spec (2 ^ 16) (C_SIZE_V2 v)).
  - unfold wrap. pose proof (Z.mod_pos_bound (C_SIZE_V2 v) (2 ^ 16) ltac:(lia)). lia.
  - rewrite wrap_id by (unfold fits; lia). done.
Qed.

(** The number of blocks the driver ends with, for SD cards of both versions of the register and for
    MMC, with blocks of 512 bytes at least, as the standard asks: the capacity the card's register
    states -- unless the size field of the second version needs more than 16 bits (a card above 32G),
    where the driver drops the upper bits of the field and ends with less. *)
Theorem csd_capacity_correct (sd : bool) r0 r1 r2 r3 s :
  fits 32 r0 -> fits 32 r1 -> fits 32 r2 -> fits 32 r3 ->
  let v := register r0 r1 r2 r3 in
  csd_legal sd v ->
  let n := driver_blocks (card (if sd then sd_parse_csd r0 r1 r2 r3 s else mmc_parse_csd r0 r1 r2 r3 s)) in
  0 < n < 2 ^ 28 /\
  if sd && negb (CSD_STRUCTURE v =? 0) && (2 ^ 16 <=? C_SIZE_V2 v)
  then n = (C_SIZE_V2 v mod 2 ^ 16 + 1) * 1024 /\ n < csd_capacity sd v
  else n = csd_capacity sd v.
Proof.
  intros H0 H1 H2 H3 v Hl n. unfold n.
  destruct (csd_kept_spec sd r0 r1 r2 r3 s H0 H1 H2 H3 Hl) as [-> Hr]. split; [exact Hr|].
  pose proof (csd_kept_stated sd r0 r1 r2 r3 H0 H1 H2 H3) as Hs. cbv zeta in Hs. fold v in Hs |- *.
  unfold csd_kept in *. destruct (sd && negb _); cbn [andb] in *; [|done].
  by destruct (2 ^ 16 <=? C_SIZE_V2 v).
Qed.
