(* ===== verification/SdmmcInit.v ===== *)
(** * SdmmcInit: the driver of Sdmmc.v identifies the cards of SdmmcCard.v. *)

From S2P Require Import Prelude.
From S2P Require Import Sdmmc.
From S2P Require Import SdmmcCard.
From S2P Require Import SdmmcCsd.

(** ** Bits *)

Lemma land_lor_ne a b c : Z.land b c <> 0 -> Z.land (Z.lor a b) c <> 0.
Proof. intros Hne. rewrite Z.land_lor_distr_l. intros [_ ?]%Z.lor_eq_0_iff. done. Qed.

Lemma land_high a k n : 0 <= n <= k -> fits n a -> Z.land a (2 ^ k) = 0.
Proof.
  intros Hk Ha. apply Z.bits_inj'. intros i Hi. rewrite Z.land_spec, Z.bits_0, Z.pow2_bits_eqb by lia.
  destruct (Z.eqb_spec k i) as [<-|]; [|apply andb_false_r]. rewrite andb_true_r.
  rewrite <- (Z.mod_small a (2 ^ n)) by done. apply Z.mod_pow2_bits_high. lia.
Qed.

Lemma rca_arg r : fits 16 r -> Z.shiftr (u32 (u32 (Z.shiftl r 16))) 16 = r.
Proof.
  intros Hr. unfold fits in Hr. rewrite Z.shiftl_mul_pow2, Z.shiftr_div_pow2 by lia.
  rewrite (wrap_id 32 (r * 2 ^ 16)), wrap_id by (unfold fits; lia). by apply Z.div_mul.
Qed.

Lemma status_state st : st = st_stby \/ st = st_tran \/ st = st_prg ->
  Z.land (status st) MMC_CURRENT_STATE = Z.shiftl st 9.
Proof. by intros [-> |[-> | ->]]. Qed.

Section Init.
Context {H : Type} `{HL : HostLaws H}.
Variable poll_fuel : nat.
Implicit Types (w : sdmmc_t * H) (k : card_t) (c : bus_card) (m : list Z).

(** The driver addresses the card by its address. *)
Definition knows_rca k c : Prop := rca k = c_rca c /\ fits 16 (rca k).

Lemma addressed_rca w k c m : On w k c m -> knows_rca k c -> addressed c (u32 (RELATIVE_CARD_ADDR (fst w))) = true.
Proof.
  intros Hon [Hr Hf]. unfold addressed, RELATIVE_CARD_ADDR. rewrite (on_card _ _ _ _ Hon), rca_arg by done.
  by apply Z.eqb_eq.
Qed.

(** ** Commands *)

Definition idle c : bus_card := mk_bus (c_info c) st_idle false 0 (c_wait c) 0.

Lemma go_idle_runs w k c m P :
  On w k c m -> (forall w', On w' k (idle c) m -> P SDMMC_OK w') -> runs sdmmc_go_idle w P.
Proof.
  intros Hon HP. unfold sdmmc_go_idle. by eapply (runs_send MMC_GO_IDLE_STATE 0); [exact Hon|done|done|].
Qed.

(** A status poll of a selected, or about to be selected, card. *)
Lemma get_state_runs w k c m P :
  On w k c m -> knows_rca k c -> c_state c = st_stby \/ c_state c = st_tran ->
  (forall w', On w' (set_state k (Z.shiftl (c_state c) 9)) (goto c (c_state c)) m -> P SDMMC_OK w') ->
  runs sdmmc_get_state w P.
Proof.
  intros Hon Hr Hst HP. unfold sdmmc_get_state. apply runs_bind, runs_get.
  eapply runs_answer; [exact Hon|done| |].
  - on_bus. unfold card_cmd. rewrite (addressed_rca _ _ _ _ Hon Hr). cbn [negb].
    replace (in_state c st_stby || in_state c st_tran) with true; [reflexivity|].
    unfold in_state. by destruct Hst as [-> | ->].
  - intros w1 Hon1. apply runs_bind. eapply runs_word; [reflexivity|]. rewrite status_state by tauto.
    apply runs_bind. eapply runs_modify_card; [exact Hon1|]. intros w2 Hon2. by apply runs_ret, HP.
Qed.

(** The wait for the end of programming. *)
Lemma wait_prg_runs fuel w k c m P :
  On w k c m -> knows_rca k c -> c_state c = st_tran \/ c_state c = st_prg /\ (S (c_left c) < fuel)%nat ->
  (0 < fuel)%nat ->
  (forall w' k' c', On w' k' c' m -> k' = set_state k MMC_TRAN -> c_info c' = c_info c ->
     c_state c' = st_tran -> c_app c' = false -> c_rca c' = c_rca c -> P SDMMC_OK w') ->
  runs (wait_prg fuel) w P.
Proof.
  revert w k c. induction fuel as [|fuel IH]; intros w k c Hon Hr Hst Hf HP; [lia|]. cbn [wait_prg].
  apply runs_ok_then. destruct (decide (c_state c = st_tran)) as [Ht|Ht].
  - eapply get_state_runs; [exact Hon|exact Hr|by right|]. intros w1 Hon1. rewrite Ht in Hon1.
    apply runs_bind, runs_get. rewrite (on_card _ _ _ _ Hon1). apply runs_ret. by eapply HP.
  - destruct Hst as [|[Hst Hl]]; [done|]. unfold sdmmc_get_state. apply runs_bind, runs_get.
    destruct (c_left c) as [|l] eqn:Hleft.
    + eapply runs_answer; [exact Hon|done| |].
      * on_bus. unfold card_cmd. rewrite (addressed_rca _ _ _ _ Hon Hr).
        unfold in_state. rewrite Hst, Hleft. reflexivity.
      * intros w1 Hon1. apply runs_bind. eapply runs_word; [reflexivity|].
        rewrite status_state by tauto. apply runs_bind. eapply runs_modify_card; [exact Hon1|].
        intros w2 Hon2. apply runs_ret. change (0 =? SDMMC_OK) with true. cbn beta iota.
        apply runs_bind, runs_get. rewrite (on_card _ _ _ _ Hon2). apply runs_ret. by eapply HP.
    + eapply runs_answer; [exact Hon|done| |].
      * on_bus. unfold card_cmd. rewrite (addressed_rca _ _ _ _ Hon Hr).
        unfold in_state. rewrite Hst, Hleft. reflexivity.
      * intros w1 Hon1. apply runs_bind. eapply runs_word; [reflexivity|].
        rewrite status_state by tauto. apply runs_bind. eapply runs_modify_card; [exact Hon1|].
        intros w2 Hon2. apply runs_ret. change (0 =? SDMMC_OK) with true. cbn beta iota.
        apply runs_bind, runs_get. rewrite (on_card _ _ _ _ Hon2).
        change (_ =? MMC_PRG) with true. cbn iota.
        eapply IH; [exact Hon2|split; apply Hr|right; split; [done|cbn; lia]|lia|].
        intros w' k' c' Hon' Hk' Hi Hs Ha Hrc. by eapply HP.
Qed.

(** ** Identification *)

(** What the probing finds. *)
Definition probed (kd : kind) : card_type_t :=
  match kd with SdV1 => eSDC | SdV2 | SdHC => eSDC_V200 | Mmc | MmcHC => eMMC end.

(** A card before it has an address. *)
Definition fresh c i : Prop := c_info c = i /\ c_state c = st_idle /\ c_rca c = 0.

Lemma fresh_goto c i : fresh c i -> fresh (goto c st_idle) i.
Proof. by intros (? & ? & ?). Qed.

Lemma if_cond_runs w k c m i P :
  On w k c m -> fresh c i ->
  (forall w', On w' k (goto c st_idle) m ->
     P (if has_if_cond (ci_kind i) then SDMMC_OK else SDMMC_ERROR) w') ->
  runs sdmmc_send_if_cond w P.
Proof.
  intros Hon (Hi & Hs & _) HP. unfold sdmmc_send_if_cond. apply runs_bind, runs_get.
  eapply (runs_send _ _ _ _ _ _ _ (if has_if_cond (ci_kind i) then Some [u32 (icr (fst w))] else None));
    [exact Hon|done| |].
  - on_bus. unfold card_cmd, in_state, ignore. rewrite Hs, Hi.
    by destruct (has_if_cond (ci_kind i)).
  - intros w' Hon'. apply HP in Hon'. by destruct (has_if_cond (ci_kind i)).
Qed.

(** The application command prefix, which only SD cards know. *)
Definition prefixed c : bus_card := mk_bus (c_info c) (c_state c) true (c_rca c) (c_wait c) (c_left c).

Lemma app_cmd c a :
  is_sd (ci_kind (c_info c)) = true -> addressed c a = true ->
  card_send c MMC_APP_CMD a = (prefixed c, Some [status (c_state c)]).
Proof. intros Hsd Ha. on_bus. unfold card_cmd. by rewrite Hsd, Ha. Qed.

Lemma probe_runs w k c m i P :
  On w k c m -> fresh c i -> (IS_EMMC_CARD k = true -> type k = probed (ci_kind i)) ->
  (forall w' c', On w' (set_type k (probed (ci_kind i))) c' m -> fresh c' i -> c_wait c' = c_wait c ->
     P SDMMC_OK w') ->
  runs sdmmc_probe w P.
Proof.
  intros Hon Hfr Hty HP. unfold sdmmc_probe. apply runs_bind, runs_get.
  rewrite (on_card _ _ _ _ Hon). destruct (IS_EMMC_CARD k) eqn:He.
  { apply runs_ret. eapply HP; [|done..]. rewrite <- Hty by done.
    assert (Hk : set_type k (type k) = k) by (by destruct k). by rewrite Hk. }
  apply runs_bind. eapply if_cond_runs; [exact Hon|exact Hfr|]. intros w1 Hon1.
  apply fresh_goto in Hfr as Hfr1. destruct (has_if_cond (ci_kind i)) eqn:Hif.
  - change (SDMMC_OK =? SDMMC_OK) with true. cbn iota. apply runs_bind.
    eapply runs_modify_card; [exact Hon1|]. intros w2 Hon2. apply runs_ok_then.
    eapply if_cond_runs; [exact Hon2|exact Hfr1|]. intros w3 Hon3. rewrite Hif.
    change (SDMMC_OK =? SDMMC_OK) with true. cbn iota. apply runs_ret.
    replace eSDC_V200 with (probed (ci_kind i)) in Hon3 by (by destruct (ci_kind i)).
    eapply HP; [exact Hon3|by apply fresh_goto|done].
  - change (SDMMC_ERROR =? SDMMC_OK) with false. cbn iota. pose proof Hfr1 as (Hi & Hs & Hr).
    destruct (is_sd (ci_kind i)) eqn:Hsd.
    + eapply runs_create; [exact Hon1|]. intros w2 Hon2 Hn Ha Hrs Hb.
      apply runs_bind. unfold send. apply runs_bind. eapply runs_send_cmd; [exact Hon2|exact Hb|by rewrite Hn, Hrs|].
      rewrite Hn, Ha, app_cmd; [|by rewrite Hi|unfold addressed; by rewrite Hr].
      intros w3 Hon3 _. apply runs_ret. cbn [option_map]. change (SDMMC_OK =? SDMMC_OK) with true.
      cbn iota. apply runs_bind. eapply runs_modify_card; [exact Hon3|]. intros w4 Hon4. apply runs_ret.
      replace eSDC with (probed (ci_kind i)) in Hon4 by (by destruct (ci_kind i)).
      eapply HP; [exact Hon4|done|done].
    + eapply runs_create; [exact Hon1|]. intros w2 Hon2 Hn Ha Hrs Hb.
      apply runs_bind. unfold send. apply runs_bind. eapply runs_send_cmd; [exact Hon2|exact Hb|by rewrite Hn, Hrs|].
      rewrite Hn, Ha. on_bus. unfold card_cmd, ignore. rewrite Hi, Hsd. cbn [andb].
      intros w3 Hon3 _. apply runs_ret. cbn [option_map]. change (SDMMC_ERROR =? SDMMC_OK) with false.
      cbn iota. apply runs_bind. eapply runs_modify_card; [exact Hon3|]. intros w4 Hon4. apply runs_ret.
      replace eMMC with (probed (ci_kind i)) in Hon4 by (by destruct (ci_kind i)).
      eapply HP; [exact Hon4| |done]. split_and!; try done.
Qed.

(** ** Powering up *)

Definition compatible i : Prop := fits 30 (ci_ocr i) /\ Z.land hb_ocr (ci_ocr i) <> 0.

(** The answer of a card that is powered up. *)
Definition ocr_word i : Z :=
  Z.lor (Z.lor OCR_PWRUP_CMP (if by_block (ci_kind i) then OCR_HCS else 0)) (ci_ocr i).

Lemma op_cond_arg w k c m :
  On w k c m -> u32 (OP_COND_ARG (fst w)) = Z.lor (Z.lor OCR_PWRUP_CMP OCR_HCS) hb_ocr.
Proof.
  intros Hon. unfold OP_COND_ARG. rewrite (on_ocr _ _ _ _ Hon). apply wrap_id.
  pose proof hl_ocr as Ho. apply fits_lor; [lia|by vm_compute|]. unfold fits in *. lia.
Qed.

Lemma op_cond_answer c i :
  c_info c = i -> compatible i ->
  op_cond c (Z.lor (Z.lor OCR_PWRUP_CMP OCR_HCS) hb_ocr) =
    match c_wait c with
    | S n => (mk_bus i (c_state c) false (c_rca c) n (c_left c), Some [ci_ocr i])
    | O => (goto c st_ready, Some [ocr_word i])
    end.
Proof.
  intros Hi [Hf Hc]. unfold op_cond. rewrite Hi.
  rewrite (proj2 (Z.eqb_neq _ 0)) by (by apply land_lor_ne).
  destruct (c_wait c); [|done]. unfold ocr_word. do 4 f_equal.
  destruct (by_block (ci_kind i)); [|done].
  rewrite Z.land_lor_distr_l, (land_high hb_ocr 30 30) by (lia || apply hl_ocr). done.
Qed.

Lemma ocr_word_flags i :
  compatible i -> Z.land (ocr_word i) hb_ocr <> 0 /\ Z.land (ci_ocr i) hb_ocr <> 0 /\
    Z.land (ocr_word i) OCR_PWRUP_CMP <> 0 /\ Z.land (ci_ocr i) OCR_PWRUP_CMP = 0 /\
    (negb (Z.land (ocr_word i) OCR_HCS =? 0)) = by_block (ci_kind i).
Proof.
  intros [Hf Hc]. rewrite Z.land_comm in Hc. unfold ocr_word. split_and!.
  - by apply land_lor_ne.
  - done.
  - rewrite !Z.land_lor_distr_l. intros [[Hz _]%Z.lor_eq_0_iff _]%Z.lor_eq_0_iff. by vm_compute in Hz.
  - by apply (land_high _ 31 30).
  - assert (Hz : Z.land (ci_ocr i) OCR_HCS = 0) by (apply (land_high _ 30 30); [lia|done]).
    rewrite !Z.land_lor_distr_l, Hz. by destruct (by_block (ci_kind i)).
Qed.

(** The check of the voltages passes. *)
Lemma check_ocr_runs w k c m v (first : bool) P :
  On w k c m -> Z.land v hb_ocr <> 0 -> P SDMMC_OK w ->
  runs (if first then sdmmc_check_ocr v else mret SDMMC_OK) w P.
Proof.
  intros Hon Hv HP. destruct first; [|by apply runs_ret]. unfold sdmmc_check_ocr.
  apply runs_bind, runs_get. rewrite (on_ocr _ _ _ _ Hon), (proj2 (Z.eqb_neq _ 0)) by done.
  by apply runs_ret.
Qed.

(** A card on its way from idle to ready. *)
Definition powering w k c m i : Prop :=
  On w k c m /\ fresh c i /\ rca k = 0 /\ compatible i.

Lemma sd_op_cond_loop_runs n first r w k c m i P :
  powering w k c m i -> is_sd (ci_kind i) = true -> (c_wait c < n)%nat ->
  (forall w' c', On w' k c' m -> c_info c' = i -> c_state c' = st_ready -> P (Some (ocr_word i)) w') ->
  runs (sd_op_cond_loop n first r) w P.
Proof.
  revert first r w c. induction n as [|n IH]; intros first r w c (Hon & (Hi & Hs & Hr) & Hk & Hcm) Hsd Hn HP;
    [lia|]. cbn [sd_op_cond_loop]. apply runs_bind, runs_get.
  eapply runs_create; [exact Hon|]. intros w1 Hon1 Hn1 Ha1 Hr1 Hb1.
  apply runs_bind. eapply runs_send_cmd; [exact Hon1|exact Hb1|by rewrite Hn1, Hr1|]. rewrite Hn1, Ha1.
  rewrite app_cmd.
  2: by rewrite Hi.
  2: { eapply addressed_rca; [exact Hon|]. split; [by rewrite Hk, Hr|rewrite Hk; unfold fits; lia]. }
  intros w2 Hon2 _. cbn [option_map]. apply runs_bind, runs_modify. cbn [fst snd].
  set (w3 := (_, _)). assert (Hon3 : On w3 k (prefixed c) m) by (destruct Hon2; by split).
  apply runs_bind. eapply runs_send_cmd; [exact Hon3|done|done|].
  cbn [w3 fst sd_cmd with_cmd cmd arg rsp]. rewrite (op_cond_arg _ _ _ _ Hon).
  on_bus. unfold card_cmd. cbn [prefixed c_info c_app in_state c_state].
  rewrite Hi, Hsd. unfold in_state. cbn [prefixed c_state]. rewrite Hs. cbn [andb Z.eqb st_idle].
  rewrite (op_cond_answer (prefixed c) i Hi Hcm). cbn [prefixed c_wait c_info c_state c_rca c_left].
  destruct (ocr_word_flags i Hcm) as (Hf1 & Hf2 & Hf3 & Hf4 & Hf5).
  destruct (c_wait c) as [|wt] eqn:Hw; intros w4 Hon4 _; cbn [option_map];
    (apply runs_bind; eapply runs_word; [reflexivity|]); apply runs_bind;
    (eapply check_ocr_runs; [exact Hon4|done|]); change (SDMMC_OK =? SDMMC_OK) with true; cbn [negb].
  - rewrite (proj2 (Z.eqb_neq _ 0) Hf3). cbn [negb]. apply runs_ret. by eapply HP.
  - rewrite Hf4. change (0 =? 0) with true. cbn [negb].
    eapply IH; [split; [exact Hon4|done]|done|cbn; lia|exact HP].
Qed.

Lemma mmc_op_cond_loop_runs n first r w k c m i P :
  powering w k c m i -> is_sd (ci_kind i) = false -> (c_wait c < n)%nat ->
  bsize (sd_cmd (fst w)) = 0 -> cmd (sd_cmd (fst w)) = MMC_SEND_OP_COND -> rsp (sd_cmd (fst w)) = true ->
  arg (sd_cmd (fst w)) = Z.lor (Z.lor OCR_PWRUP_CMP OCR_HCS) hb_ocr ->
  (forall w' c', On w' k c' m -> c_info c' = i -> c_state c' = st_ready -> P (Some (ocr_word i)) w') ->
  runs (mmc_op_cond_loop n first r) w P.
Proof.
  revert first r w c. induction n as [|n IH]; intros first r w c (Hon & (Hi & Hs & Hr) & Hk & Hcm) Hsd Hn
    Hb Hcmd Hrsp Harg HP; [lia|]. cbn [mmc_op_cond_loop]. apply runs_bind.
  eapply runs_send_cmd; [exact Hon|exact Hb|by rewrite Hcmd, Hrsp|]. rewrite Hcmd, Harg, Hrsp.
  on_bus. unfold card_cmd. rewrite Hi, Hsd. unfold in_state. rewrite Hs.
  cbn [negb andb Z.eqb st_idle]. rewrite (op_cond_answer c i Hi Hcm), Hs.
  destruct (ocr_word_flags i Hcm) as (Hf1 & Hf2 & Hf3 & Hf4 & Hf5).
  destruct (c_wait c) as [|wt] eqn:Hw; intros w4 Hon4 (E1 & E2 & E3 & E4); cbn [option_map];
    (apply runs_bind; eapply runs_word; [reflexivity|]); apply runs_bind;
    (eapply check_ocr_runs; [exact Hon4|done|]); change (SDMMC_OK =? SDMMC_OK) with true; cbn [negb].
  - rewrite (proj2 (Z.eqb_neq _ 0) Hf3). cbn [negb]. apply runs_ret. by eapply HP.
  - rewrite Hf4. change (0 =? 0) with true. cbn [negb].
    eapply IH; [split; [exact Hon4|done]|done|cbn; lia|congruence..|exact HP].
Qed.

(** The type the driver ends with. *)
Definition final_type (kd : kind) : card_type_t :=
  match kd with SdV1 | SdV2 => eSDC | SdHC => eSDC_HC | Mmc => eMMC | MmcHC => eMMC_HC end.

Lemma op_cond_runs w k c m i P :
  powering w k c m i -> type k = probed (ci_kind i) -> (c_wait c < POWER_UP_WAIT)%nat ->
  (forall w' c', On w' (set_type k (final_type (ci_kind i))) c' m -> c_info c' = i ->
     c_state c' = st_ready -> P SDMMC_OK w') ->
  runs (if IS_EMMC_CARD k then mmc_send_op_cond else sd_send_op_cond) w P.
Proof.
  intros Hpw Hty Hw HP. pose proof Hpw as (Hon & _ & _ & Hcm).
  destruct (ocr_word_flags i Hcm) as (_ & _ & _ & _ & Hhcs).
  destruct (is_sd (ci_kind i)) eqn:Hsd.
  - replace (IS_EMMC_CARD k) with false
      by (unfold IS_EMMC_CARD; rewrite Hty; by destruct (ci_kind i)).
    unfold sd_send_op_cond. apply runs_answer_then. eapply sd_op_cond_loop_runs; [exact Hpw|done|done|].
    intros w1 c1 Hon1 Hi1 Hs1. apply runs_bind. eapply runs_modify_card; [exact Hon1|].
    intros w2 Hon2. apply runs_ret. rewrite Hhcs in Hon2. eapply HP; [|done|done].
    by destruct (ci_kind i).
  - replace (IS_EMMC_CARD k) with true
      by (unfold IS_EMMC_CARD; rewrite Hty; by destruct (ci_kind i)).
    unfold mmc_send_op_cond. apply runs_bind, runs_get.
    eapply runs_create; [exact Hon|]. intros w1 Hon1 Hn1 Ha1 Hr1 Hb1.
    apply runs_answer_then. eapply mmc_op_cond_loop_runs; try done.
    { split; [exact Hon1|apply Hpw]. }
    { by rewrite Ha1, (op_cond_arg _ _ _ _ Hon). }
    intros w2 c2 Hon2 Hi2 Hs2. rewrite Hhcs. apply runs_bind.
    assert (Hk : set_type k (type k) = k) by (by destruct k).
    destruct (ci_kind i) eqn:Hkd; try done; cbn [by_block].
    + apply runs_ret, runs_ret. eapply HP; [|done|done]. cbn [final_type probed] in *.
      by rewrite <- Hty, Hk.
    + eapply runs_modify_card; [exact Hon2|]. intros w3 Hon3. apply runs_ret. by eapply HP.
Qed.

(** A card that has its address. *)
Definition standby w k c m i (t : card_type_t) : Prop :=
  On w k c m /\ c_info c = i /\ c_state c = st_stby /\ knows_rca k c /\ type k = t.

Lemma all_cid_runs w k c m i P :
  On w k c m -> c_info c = i -> c_state c = st_ready ->
  (forall w', On w' k (goto c st_ident) m -> P (Some (ci_cid i)) w') -> runs sdmmc_send_all_cid w P.
Proof.
  intros Hon Hi Hs HP. unfold sdmmc_send_all_cid.
  eapply (runs_command _ _ _ _ _ _ _ (goto c st_ident) (Some (ci_cid i))); [exact Hon|done| |exact HP].
  on_bus. unfold card_cmd, in_state. by rewrite Hs, Hi.
Qed.

Lemma shift_addr a : fits 16 a -> u16 (Z.shiftr (Z.lor (Z.shiftl a 16) 0x500) 16) = a.
Proof.
  intros Ha. rewrite Z.shiftr_lor, Z.shiftr_shiftl_l by lia. change (Z.shiftr 0x500 16) with 0.
  rewrite Z.lor_0_r, Z.shiftl_0_r. by apply wrap_id.
Qed.

Lemma set_relative_addr_runs w k c m i P :
  On w k c m -> c_info c = i -> c_state c = st_ident -> fits 16 (ci_addr i) ->
  IS_SD_CARD k = is_sd (ci_kind i) ->
  (forall w' k' c', standby w' k' c' m i (type k) -> P SDMMC_OK w') ->
  runs sdmmc_set_relative_addr w P.
Proof.
  intros Hon Hi Hs Ha Hsd HP. unfold sdmmc_set_relative_addr. apply runs_bind.
  eapply runs_modify_card; [exact Hon|]. intros w1 Hon1. apply runs_bind, runs_get.
  assert (Harg : u32 (RELATIVE_CARD_ADDR (fst w1)) = 0x10000).
  { unfold RELATIVE_CARD_ADDR. by rewrite (on_card _ _ _ _ Hon1). }
  eapply runs_answer; [exact Hon1|done| |].
  { on_bus. unfold card_cmd, in_state. rewrite Hs, Harg. reflexivity. }
  intros w2 Hon2. apply runs_bind, runs_get. rewrite (on_card _ _ _ _ Hon2). rewrite Hi in *.
  change (IS_SD_CARD (set_rca k 1)) with (IS_SD_CARD k). rewrite Hsd.
  apply runs_bind. destruct (is_sd (ci_kind i)) eqn:Hk.
  - apply runs_bind. eapply runs_word; [reflexivity|]. eapply runs_modify_card; [exact Hon2|].
    intros w3 Hon3. apply runs_ok_then. eapply get_state_runs; [exact Hon3| |by left|].
    { unfold knows_rca. cbn [set_rca rca c_rca]. by rewrite shift_addr. }
    intros w4 Hon4. change (SDMMC_OK =? SDMMC_OK) with true. cbn iota. apply runs_ret.
    eapply HP. split; [exact Hon4|]. unfold knows_rca. cbn [set_rca set_state goto rca c_rca].
    by rewrite shift_addr.
  - apply runs_ret. apply runs_ok_then. eapply get_state_runs; [exact Hon2|by split|by left|].
    intros w4 Hon4. change (SDMMC_OK =? SDMMC_OK) with true. cbn iota. apply runs_ret.
    eapply HP. split; [exact Hon4|]. done.
Qed.

(** A card with a register as the standard has it, and at least the blocks the driver counts in it; a card
    addressed by byte has no more bytes than an argument can say. *)
Record csd_ok i : Prop := {
  co_words : exists r0 r1 r2 r3, ci_csd i = [r0; r1; r2; r3] /\
    fits 32 r0 /\ fits 32 r1 /\ fits 32 r2 /\ fits 32 r3 /\
    csd_legal (is_sd (ci_kind i)) (register r0 r1 r2 r3) /\
    csd_kept (is_sd (ci_kind i)) (register r0 r1 r2 r3) <= ci_blocks i /\
    (by_block (ci_kind i) = false ->
       csd_kept (is_sd (ci_kind i)) (register r0 r1 r2 r3) * 512 <= 2 ^ 32)
}.

(** The blocks the driver counts: what the register states, but for a size field of more than 16 bits. *)
Definition counted i (n : Z) : Prop :=
  exists r0 r1 r2 r3, ci_csd i = [r0; r1; r2; r3] /\
    n = csd_kept (is_sd (ci_kind i)) (register r0 r1 r2 r3) /\ 0 < n < 2 ^ 28 /\ n <= ci_blocks i /\
    (by_block (ci_kind i) = false -> n * 512 <= 2 ^ 32).

Lemma parse_keeps (sd : bool) r0 r1 r2 r3 s :
  let s' := if sd then sd_parse_csd r0 r1 r2 r3 s else mmc_parse_csd r0 r1 r2 r3 s in
  type (card s') = type (card s) /\ rca (card s') = rca (card s) /\ ocr s' = ocr s.
Proof.
  destruct sd; cbv zeta; unfold sd_parse_csd, mmc_parse_csd.
  - destruct (_ =? 0); destruct (to_blocks _ _ _); done.
  - destruct (to_blocks _ _ _). by destruct (_ <? _).
Qed.

Lemma read_parse_csd_runs w k c m i P :
  standby w k c m i (final_type (ci_kind i)) -> csd_ok i ->
  (forall w' k' c', standby w' k' c' m i (type k) -> counted i (driver_blocks k') -> P SDMMC_OK w') ->
  runs sdmmc_read_parse_csd w P.
Proof.
  intros (Hon & Hi & Hs & Hr & Ht) [(r0 & r1 & r2 & r3 & Hcsd & F0 & F1 & F2 & F3 & Hpl & Hle & Hby)] HP.
  unfold sdmmc_read_parse_csd. apply runs_bind, runs_get.
  eapply runs_answer; [exact Hon|done| |].
  { on_bus. unfold card_cmd, in_state. rewrite Hs, (addressed_rca _ _ _ _ Hon Hr). reflexivity. }
  intros w1 Hon1. rewrite Hi, Hcsd.
  do 4 (apply runs_bind; eapply runs_word; [reflexivity|]). apply runs_bind, runs_modify. cbn [fst snd].
  apply runs_ret. rewrite (on_card _ _ _ _ Hon1).
  assert (Hsd : IS_SD_CARD k = is_sd (ci_kind i))
    by (unfold IS_SD_CARD; rewrite Ht; by destruct (ci_kind i)).
  rewrite Hsd. set (s' := if is_sd (ci_kind i) then _ else _).
  pose proof (csd_kept_spec (is_sd (ci_kind i)) r0 r1 r2 r3 (fst w1) F0 F1 F2 F3 Hpl) as [Hb Hrange].
  pose proof (parse_keeps (is_sd (ci_kind i)) r0 r1 r2 r3 (fst w1)) as (Hty & Hrca & Hocr).
  fold s' in Hb, Hty, Hrca, Hocr. rewrite (on_card _ _ _ _ Hon1) in Hty, Hrca.
  eapply (HP _ (card s') (goto c st_stby)).
  - split; [destruct Hon1; split; cbn; congruence|]. split_and!; try done.
    unfold knows_rca. rewrite Hrca. apply Hr.
  - exists r0, r1, r2, r3. rewrite Hb. done.
Qed.

(** ** The selected card *)

(** The card is in the transfer state, and the driver knows its type and its size. *)
Definition selected w k c m i (n : Z) : Prop :=
  On w k c m /\ c_info c = i /\ c_state c = st_tran /\ knows_rca k c /\
  type k = final_type (ci_kind i) /\ blk_size k = 512 /\ blk_num k = n.

Definition in_tran w k c m i n : Prop := selected w k c m i n /\ c_app c = false /\ state k = MMC_TRAN.

Lemma select_card_runs w k c m i P :
  standby w k c m i (final_type (ci_kind i)) ->
  (forall w' k' c', On w' k' c' m -> c_info c' = i -> c_state c' = st_tran -> knows_rca k' c' ->
     type k' = type k -> driver_blocks k' = driver_blocks k -> P SDMMC_OK w') ->
  runs sdmmc_select_card w P.
Proof.
  intros (Hon & Hi & Hs & Hr & Ht) HP. unfold sdmmc_select_card. apply runs_bind, runs_get.
  eapply runs_send_then; [exact Hon|done| |].
  { on_bus. unfold card_cmd, in_state. rewrite Hs, (addressed_rca _ _ _ _ Hon Hr). reflexivity. }
  intros w1 Hon1. apply runs_ok_then. eapply get_state_runs; [exact Hon1|exact Hr|by right|].
  intros w2 Hon2. change (SDMMC_OK =? SDMMC_OK) with true. cbn iota. apply runs_ret. by eapply HP.
Qed.

(** A status poll and the wait for programming, in the transfer state. *)
Lemma wait_prg_selected fuel w k c m i n P :
  On w k c m -> c_info c = i -> knows_rca k c -> type k = final_type (ci_kind i) ->
  blk_size k = 512 -> blk_num k = n ->
  c_state c = st_tran \/ c_state c = st_prg /\ (S (c_left c) < fuel)%nat -> (0 < fuel)%nat ->
  (forall w' k' c', in_tran w' k' c' m i n -> speed k' = speed k -> P SDMMC_OK w') ->
  runs (wait_prg fuel) w P.
Proof.
  intros Hon Hi Hr Ht Hbs Hbn Hst Hf HP. eapply wait_prg_runs; [exact Hon|exact Hr|exact Hst|exact Hf|].
  intros w' k' c' Hon' -> Hi' Hs' Ha' Hrc'. apply (HP w' (set_state k MMC_TRAN) c'); [|done]. split; [|done].
  destruct Hr as [Hr1 Hr2]. split_and!; try done; [congruence|]. split; [cbn; congruence|done].
Qed.

Hypothesis poll_fuel_pos : (0 < poll_fuel)%nat.

Lemma sd_switch_runs mode group value w k c m i n P :
  in_tran w k c m i n -> is_sd (ci_kind i) = true -> info_ok i ->
  (forall w' k' c' buf, in_tran w' k' c' m i n -> speed k' = speed k -> zlen buf = 64 -> P (Some buf) w') ->
  runs (sd_switch poll_fuel mode group value) w P.
Proof.
  intros ((Hon & Hi & Hs & Hr & Ht & Hbs & Hbn) & Ha & Hst) Hsd Hio HP. unfold sd_switch.
  set (a := Z.lor _ _). eapply (runs_pio _ _ _ _ _ _ _ (goto c st_tran) (Some (ci_sf i (u32 a)))); [exact Hon|by vm_compute| |].
  { unfold card_pio, MMC_SWITCH, SD_SF_STATUS_SIZE, in_state. rewrite Hi, Hsd, Hs, (proj1 (io_sf _ Hio _)). done. }
  intros w1 Hon1. cbn beta iota. apply runs_bind.
  eapply wait_prg_selected; [exact Hon1|done|exact Hr|exact Ht|exact Hbs|exact Hbn|by left|done|].
  intros w2 k2 c2 Hin Hsp. change (SDMMC_OK =? SDMMC_OK) with true. cbn iota. apply runs_ret.
  eapply HP; [exact Hin|done|]. apply (proj1 (io_sf _ Hio _)).
Qed.

(** A byte of a register. *)
Lemma runs_byte_in l j w (P : Z -> sdmmc_t * H -> Prop) :
  0 <= j < zlen l -> (forall v, P v w) -> runs (byte l j) w P.
Proof.
  intros Hj HP. unfold zlen in Hj. destruct (lookup_lt_is_Some_2 l (Z.to_nat j)) as [v Hv]; [lia|].
  eapply runs_byte; [|apply HP]. unfold byte_at. by rewrite (proj2 (Z.ltb_ge _ _)) by lia.
Qed.

(** The application command prefix to the selected card. *)
Lemma app_prefix_runs w k c m i n f P :
  in_tran w k c m i n -> is_sd (ci_kind i) = true ->
  (forall w', On w' k (prefixed c) m -> runs f w' P) ->
  runs (s ← get; _ ← CMD_CREATE MMC_APP_CMD (RELATIVE_CARD_ADDR s) false 0 0 0; ok_then send f) w P.
Proof.
  intros ((Hon & Hi & Hs & Hr & _) & _) Hsd HP. apply runs_bind, runs_get.
  eapply runs_send_then; [exact Hon|done| |exact HP]. apply app_cmd; [by rewrite Hi|].
  by eapply addressed_rca.
Qed.

Lemma sd_read_parse_scr_runs w k c m i n P :
  in_tran w k c m i n -> is_sd (ci_kind i) = true -> info_ok i ->
  (forall w' k' c', in_tran w' k' c' m i n -> P SDMMC_OK w') -> runs sd_read_parse_scr w P.
Proof.
  intros Hin Hsd Hio HP. pose proof Hin as ((Hon & Hi & Hs & Hr & Ht & Hbs & Hbn) & Ha & Hst).
  unfold sd_read_parse_scr. eapply app_prefix_runs; [exact Hin|done|]. intros w1 Hon1.
  unfold answer_then. eapply (runs_pio _ _ _ _ _ _ _ (goto c st_tran) (Some (ci_scr i))); [exact Hon1|by vm_compute| |].
  { unfold card_pio, MMC_SEND_SCR, SD_SCR_SIZE, in_state. cbn [prefixed c_info c_app c_state].
    rewrite Hi, Hsd, Hs, (proj1 (io_scr _ Hio)). reflexivity. }
  intros w2 Hon2. cbn beta iota. pose proof (io_scr _ Hio) as [Hl _].
  apply runs_bind, runs_byte_in; [lia|]. intros b0. apply runs_bind, runs_byte_in; [lia|]. intros b1.
  apply runs_bind, runs_byte_in; [lia|]. intros b2. apply runs_bind.
  eapply runs_modify_rest; [exact Hon2|done|]. intros w3 Hon3. apply runs_bind.
  destruct (_ <? CSD_SPEC_VER_1).
  - eapply runs_modify_card; [exact Hon3|]. intros w4 Hon4. apply runs_ret.
    eapply (HP _ (set_speed k DTR_MAX_SDR12) (goto c st_tran)). by split_and!.
  - apply runs_ret, runs_ret. eapply (HP _ k (goto c st_tran)). by split_and!.
Qed.

Lemma sd_capabilities_runs w k c m i n P :
  in_tran w k c m i n -> is_sd (ci_kind i) = true -> info_ok i ->
  (forall w' k' c', in_tran w' k' c' m i n -> P SDMMC_OK w') -> runs (sd_capabilities poll_fuel) w P.
Proof.
  intros Hin Hsd Hio HP. unfold sd_capabilities. apply runs_ok_then.
  eapply sd_read_parse_scr_runs; [exact Hin|done|done|]. intros w1 k1 c1 Hin1.
  change (SDMMC_OK =? SDMMC_OK) with true. cbn iota. apply runs_answer_then.
  eapply sd_switch_runs; [exact Hin1|done|done|]. intros w2 k2 c2 buf Hin2 _ Hl.
  pose proof Hin2 as ((Hon2 & Hi & Hs & Hr & Ht & Hbs & Hbn) & Ha & Hst).
  apply runs_bind, runs_byte_in; [lia|]. intros b13. apply runs_bind.
  eapply runs_modify_card; [exact Hon2|]. intros w3 Hon3. apply runs_bind, runs_get. apply runs_bind.
  destruct (negb (sd_spec3 _ =? 0)).
  - apply runs_bind, runs_byte_in; [lia|]. intros b9. apply runs_bind, runs_byte_in; [lia|]. intros b7.
    eapply runs_modify_card; [exact Hon3|]. intros w4 Hon4. apply runs_ret.
    eapply HP. split; [split; [exact Hon4|by split_and!]|done].
  - eapply runs_modify_rest; [exact Hon3|done|]. intros w4 Hon4. apply runs_ret.
    eapply HP. split; [split; [exact Hon4|by split_and!]|done].
Qed.

(** What the controller's settings leave. *)
Lemma runs_setting (f : M H unit) w k c m P :
  On w k c m -> ends (f w) tt (fst w) (hb_card (snd w)) (hb_mem (snd w)) ->
  (forall w', On w' k c m -> P tt w') -> runs f w P.
Proof.
  intros Hon Hf HP. pose proof Hon as [_ _ Hc Hm _]. rewrite Hc, Hm in Hf.
  eapply runs_ends; [exact Hon|exact Hf|auto].
Qed.

Lemma finish_runs t w k c m P :
  On w k c m -> (forall w', On w' k c m -> P SDMMC_OK w') ->
  runs (_ ← hc_set_timing t; s ← get; _ ← hc_set_clk (speed (card s)); mret SDMMC_OK) w P.
Proof.
  intros Hon HP. apply runs_bind. destruct w as [s h].
  eapply runs_setting; [exact Hon|apply hl_timing, (on_good _ _ _ _ Hon)|]. intros [s1 h1] Hon1. apply runs_bind, runs_get.
  apply runs_bind. eapply runs_setting; [exact Hon1|apply hl_clk, (on_good _ _ _ _ Hon1)|]. intros w2 Hon2. by apply runs_ret, HP.
Qed.

Lemma sd_init_bus_runs w k c m i n P :
  in_tran w k c m i n -> is_sd (ci_kind i) = true -> info_ok i ->
  (forall w' k' c', in_tran w' k' c' m i n -> P SDMMC_OK w') -> runs (sd_init_bus poll_fuel) w P.
Proof.
  intros Hin Hsd Hio HP. pose proof Hin as ((Hon & Hi & Hs & Hr & Ht & Hbs & Hbn) & Ha & Hst).
  unfold sd_init_bus. eapply app_prefix_runs; [exact Hin|done|]. intros w1 Hon1.
  eapply (runs_send_then _ _ _ _ _ _ (goto c st_tran)); [exact Hon1|done| |].
  { on_bus. unfold card_cmd, in_state. cbn [prefixed c_info c_app c_state].
    rewrite Hi, Hsd, Hs. reflexivity. }
  intros [s2 h2] Hon2. apply runs_bind. eapply runs_setting; [exact Hon2|apply hl_width, (on_good _ _ _ _ Hon2)|].
  intros w3 Hon3. apply runs_bind, runs_get. rewrite (on_card _ _ _ _ Hon3).
  assert (Hin3 : in_tran w3 k (goto c st_tran) m i n) by (split; [split; [exact Hon3|by split_and!]|done]).
  destruct (speed k =? DTR_MAX_SDR25).
  - apply runs_answer_then. eapply sd_switch_runs; [exact Hin3|done|done|].
    intros w4 k4 c4 buf Hin4 _ _. pose proof Hin4 as ((Hon4 & Hrest) & Ha4 & Hst4).
    eapply finish_runs; [exact Hon4|]. intros w5 Hon5. eapply HP. split; [split; [exact Hon5|done]|done].
  - eapply finish_runs; [exact Hon3|]. intros w5 Hon5. eapply HP.
    split; [split; [exact Hon5|by split_and!]|done].
Qed.

(** ** MMC *)

Lemma mmc_switch_runs mode index value set w k c m i n P :
  in_tran w k c m i n -> is_sd (ci_kind i) = false -> (S (ci_busy i) < poll_fuel)%nat ->
  (forall w' k' c', in_tran w' k' c' m i n -> P SDMMC_OK w') ->
  runs (mmc_switch poll_fuel mode index value set) w P.
Proof.
  intros ((Hon & Hi & Hs & Hr & Ht & Hbs & Hbn) & Ha & Hst) Hsd Hf HP. unfold mmc_switch.
  eapply runs_send_then; [exact Hon|done| |].
  { on_bus. unfold card_cmd, in_state. rewrite Hi, Hsd, Hs, Ha. reflexivity. }
  intros w1 Hon1. eapply (wait_prg_selected _ _ _ _ _ i n); [exact Hon1|done|exact Hr|exact Ht|exact Hbs|exact Hbn| |lia|].
  - right. cbn. split; [done|lia].
  - intros w2 k2 c2 Hin2 _. by eapply HP.
Qed.

Lemma mmc_init_ddr_runs w k c m i n P :
  in_tran w k c m i n -> is_sd (ci_kind i) = false -> (S (ci_busy i) < poll_fuel)%nat ->
  (forall w' k' c', in_tran w' k' c' m i n -> P SDMMC_OK w') -> runs (mmc_init_ddr poll_fuel) w P.
Proof.
  intros Hin Hsd Hf HP. unfold mmc_init_ddr. apply runs_ok_then.
  eapply mmc_switch_runs; [exact Hin|done|done|]. intros w1 k1 c1 ((Hon1 & Hrest) & Ha1 & Hst1).
  eapply finish_runs; [exact Hon1|]. intros w2 Hon2. eapply HP. split; [split; [exact Hon2|done]|done].
Qed.

Lemma mmc_init_hs_runs w k c m i n P :
  in_tran w k c m i n -> is_sd (ci_kind i) = false -> (S (ci_busy i) < poll_fuel)%nat ->
  (forall w' k' c', in_tran w' k' c' m i n -> P SDMMC_OK w') -> runs (mmc_init_hs poll_fuel) w P.
Proof.
  intros Hin Hsd Hf HP. unfold mmc_init_hs. apply runs_ok_then.
  eapply mmc_switch_runs; [exact Hin|done|done|]. intros w1 k1 c1 Hin1. apply runs_ok_then.
  eapply mmc_switch_runs; [exact Hin1|done|done|]. intros [s2 h2] k2 c2 ((Hon2 & Hrest) & Ha2 & Hst2).
  apply runs_bind. eapply runs_setting; [exact Hon2|apply hl_width, (on_good _ _ _ _ Hon2)|]. intros w3 Hon3.
  eapply finish_runs; [exact Hon3|]. intros w4 Hon4. eapply HP. split; [split; [exact Hon4|done]|done].
Qed.

Lemma mmc_init_bus_runs w k c m i n P :
  in_tran w k c m i n -> is_sd (ci_kind i) = false -> info_ok i -> (S (ci_busy i) < poll_fuel)%nat ->
  (forall w' k' c', in_tran w' k' c' m i n -> P SDMMC_OK w') -> runs (mmc_init_bus poll_fuel) w P.
Proof.
  intros Hin Hsd Hio Hf HP. unfold mmc_init_bus. apply runs_bind, runs_get.
  assert (Hrest : forall w k c, in_tran w k c m i n -> runs (ok_then (mmc_init_hs poll_fuel)
    (s ← get; if negb (Z.land (caps s) SDMMC_CAP_DDR =? 0) then mmc_init_ddr poll_fuel
              else mret SDMMC_OK)) w P).
  { clear - HP Hsd Hf HL poll_fuel_pos. intros w k c Hin. apply runs_ok_then.
    eapply mmc_init_hs_runs; [exact Hin|done|done|]. intros w1 k1 c1 Hin1.
    change (SDMMC_OK =? SDMMC_OK) with true. cbn iota. apply runs_bind, runs_get.
    destruct (negb _); [by eapply mmc_init_ddr_runs|]. apply runs_ret. by eapply HP. }
  destruct (_ && _); [|by eapply Hrest].
  pose proof Hin as ((Hon & Hi & Hs & Hr & Ht & Hbs & Hbn) & Ha & Hst).
  unfold answer_then. eapply (runs_pio _ _ _ _ _ _ _ (goto c st_tran) (Some (ci_ecsd i))); [exact Hon|by vm_compute| |].
  { unfold card_pio, MMC_SEND_EXT_CSD, MMC_EXT_CSD_SIZE, in_state.
    rewrite Hi, Hsd, Hs, (proj1 (io_ecsd _ Hio)). reflexivity. }
  intros w1 Hon1. cbn beta iota. apply runs_bind, runs_modify.
  eapply Hrest. split; [split|]; [destruct Hon1; split; cbn; [reflexivity|done..]| |].
  - cbn. rewrite (on_card _ _ _ _ Hon1). done.
  - cbn. rewrite (on_card _ _ _ _ Hon1). done.
Qed.

(** ** The whole initialisation *)

Lemma setup_card_runs w k c m i n P :
  On w k c m -> c_info c = i -> c_state c = st_tran -> knows_rca k c ->
  type k = final_type (ci_kind i) -> driver_blocks k = n -> info_ok i -> (S (ci_busy i) < poll_fuel)%nat ->
  (forall w' k' c', in_tran w' k' c' m i n -> P SDMMC_OK w') -> runs (sdmmc_setup_card poll_fuel) w P.
Proof.
  intros Hon Hi Hs Hr Ht Hb Hio Hf HP. unfold sdmmc_setup_card. apply runs_bind.
  eapply runs_modify_card; [exact Hon|]. intros w1 Hon1.
  eapply runs_send_then; [exact Hon1|done| |].
  { on_bus. unfold card_cmd, in_state. rewrite Hs. reflexivity. }
  intros w2 Hon2. apply runs_ok_then. eapply get_state_runs; [exact Hon2|exact Hr|by right|].
  intros w3 Hon3. change (SDMMC_OK =? SDMMC_OK) with true. cbn iota. apply runs_bind, runs_get.
  rewrite (on_card _ _ _ _ Hon3). cbn [goto c_state] in Hon3.
  set (k3 := set_state _ _) in *. set (c3 := goto _ _) in *.
  assert (Hin : in_tran w3 k3 c3 m i n) by (split; [split; [exact Hon3|by split_and!]|done]).
  assert (Hsd : IS_SD_CARD k3 = is_sd (ci_kind i))
    by (unfold IS_SD_CARD; change (type k3) with (type k); rewrite Ht; by destruct (ci_kind i)).
  rewrite Hsd. destruct (is_sd (ci_kind i)) eqn:Hk.
  - apply runs_ok_then. eapply sd_capabilities_runs; [exact Hin|done|done|]. intros w4 k4 c4 Hin4.
    change (SDMMC_OK =? SDMMC_OK) with true. cbn iota. by eapply sd_init_bus_runs.
  - by eapply mmc_init_bus_runs.
Qed.

(** The identification of the CID changes nothing the driver works with. *)
Lemma parse_cid_runs raw w k c m P :
  On w k c m -> words_ok raw -> (forall w', On w' k c m -> P tt w') ->
  runs (sdmmc_parse_cid raw) w P.
Proof.
  intros Hon (a & b & e & d & -> & _) HP. unfold sdmmc_parse_cid.
  do 4 (apply runs_bind; eapply runs_word; [reflexivity|]).
  eapply runs_modify_rest; [exact Hon| |exact HP]. intros s. by destruct (IS_SD_CARD _).
Qed.

Definition card_ok c : Prop :=
  info_ok (c_info c) /\ csd_ok (c_info c) /\ compatible (c_info c) /\ (c_wait c < POWER_UP_WAIT)%nat /\
  (S (ci_busy (c_info c)) < poll_fuel)%nat.

(** The state initialisation ends in. *)
Definition ready w i m : Prop := exists k c n, in_tran w k c m i n /\ counted i n.

Lemma init_card_runs w k c m i P :
  On w k c m -> c_info c = i -> card_ok c ->
  (IS_EMMC_CARD k = true -> type k = probed (ci_kind i)) ->
  (forall w', ready w' i m -> P SDMMC_OK w') -> runs (sdmmc_init_card poll_fuel) w P.
Proof.
  intros Hon Hi (Hio & Hcsd & Hcm & Hw & Hf) Hty HP. rewrite Hi in *. unfold sdmmc_init_card.
  apply runs_bind. eapply runs_modify_card; [exact Hon|]. intros [s1 h1] Hon1. apply runs_bind.
  eapply runs_setting; [exact Hon1|apply hl_mode, (on_good _ _ _ _ Hon1)|]. intros w2 Hon2. apply runs_ok_then.
  eapply go_idle_runs; [exact Hon2|]. intros w3 Hon3. change (SDMMC_OK =? SDMMC_OK) with true. cbn iota.
  apply runs_ok_then. eapply (probe_runs _ _ _ _ i); [exact Hon3|by split_and!|exact Hty|].
  intros w4 c4 Hon4 Hfr4 Hw4. change (SDMMC_OK =? SDMMC_OK) with true. cbn iota. apply runs_bind.
  eapply runs_modify_card; [exact Hon4|]. intros w5 Hon5. apply runs_bind, runs_get.
  rewrite (on_card _ _ _ _ Hon5). apply runs_ok_then.
  eapply op_cond_runs; [split; [exact Hon5|by split_and!]|done|by rewrite Hw4|].
  intros w6 c6 Hon6 Hi6 Hs6. change (SDMMC_OK =? SDMMC_OK) with true. cbn iota.
  apply runs_answer_then. eapply all_cid_runs; [exact Hon6|exact Hi6|exact Hs6|]. intros w7 Hon7.
  apply runs_ok_then. set (k7 := set_type _ (final_type _)) in *.
  assert (Hsd : IS_SD_CARD k7 = is_sd (ci_kind i)) by (unfold IS_SD_CARD; cbn; by destruct (ci_kind i)).
  eapply set_relative_addr_runs; [exact Hon7|exact Hi6|done|apply Hio|exact Hsd|].
  intros [s8 h8] k8 c8 (Hon8 & Hrest8). change (SDMMC_OK =? SDMMC_OK) with true. cbn iota.
  apply runs_bind. eapply runs_setting; [exact Hon8|apply hl_mode, (on_good _ _ _ _ Hon8)|]. intros w9 Hon9.
  apply runs_ok_then. eapply read_parse_csd_runs; [split; [exact Hon9|exact Hrest8]|done|].
  intros w10 k10 c10 (Hon10 & Hrest10) Hcnt. change (SDMMC_OK =? SDMMC_OK) with true. cbn iota.
  apply runs_bind, runs_get. apply runs_bind.
  assert (Hsel : forall w, On w k10 c10 m -> runs (ok_then sdmmc_select_card (sdmmc_setup_card poll_fuel)) w P).
  { intros w' Hon'. apply runs_ok_then. destruct Hrest8 as (_ & _ & _ & Ht8).
    assert (Hst : standby w' k10 c10 m i (final_type (ci_kind i))).
    { split; [exact Hon'|]. destruct Hrest10 as (? & ? & ? & ->). done. }
    eapply select_card_runs; [exact Hst|].
    intros w11 k11 c11 Hon11 Hi11 Hs11 Hr11 Ht11 Hb11. change (SDMMC_OK =? SDMMC_OK) with true. cbn iota.
    eapply (setup_card_runs _ _ _ _ i (driver_blocks k10)); [exact Hon11|exact Hi11|exact Hs11|exact Hr11| |done|done|done|].
    - rewrite Ht11. destruct Hrest10 as (_ & _ & _ & ->). exact Ht8.
    - intros w12 k12 c12 Hin12. apply HP. by exists k12, c12, (driver_blocks k10). }
  destruct (_ =? 0).
  - eapply parse_cid_runs; [exact Hon10|apply Hio|]. exact Hsel.
  - apply runs_ret. by apply Hsel.
Qed.
End Init.
