(* ===== verification/SdmmcRead.v ===== *)
(** * SdmmcRead: what initialisation and reading promise, and the card as Fat.v's block device. *)

From S2P Require Import Prelude.
From S2P Require Import Sections.
From S2P Require Import Sdmmc.
From S2P Require Import SdmmcCard.
From S2P Require Import SdmmcCsd.
From S2P Require Import SdmmcInit.

Section Read.
Context {H : Type} `{HL : HostLaws H}.
Variable poll_fuel : nat.
Implicit Types (w : sdmmc_t * H) (k : card_t) (c : bus_card) (m : list Z).

Lemma zlen_card_sectors i b n : info_ok i -> 0 <= n -> zlen (card_sectors i b n) = 512 * n.
Proof.
  intros Hio Hn. unfold card_sectors. replace n with (Z.of_nat (Z.to_nat n)) at 2 by lia.
  generalize 0%nat as j. induction (Z.to_nat n) as [|x IH]; intros j; [done|].
  cbn [seq map concat]. rewrite zlen_app, IH, (io_sector _ Hio). lia.
Qed.

Lemma card_sectors_app i b n p :
  0 <= n -> 0 <= p -> card_sectors i b (n + p) = card_sectors i b n ++ card_sectors i (b + n) p.
Proof.
  intros. unfold card_sectors. rewrite Z2Nat.inj_add, seq_app, map_app, concat_app by lia. f_equal.
  f_equal. rewrite Nat.add_0_l. rewrite <- (Nat.add_0_r (Z.to_nat n)) at 1. rewrite <- fmap_add_seq.
  change (@fmap list list_fmap nat nat) with (@map nat nat). rewrite map_map.
  apply map_ext. intros x. f_equal. lia.
Qed.

(** One transfer of the loop: the command, and the state after it. *)
Lemma transfer_runs cmd0 arg0 addr cnt b w k c m i n f P :
  in_tran w k c m i n ->
  (cmd0 = MMC_READ_SINGLE_BLOCK /\ cnt = 1 \/ cmd0 = MMC_READ_MULTIPLE_BLOCK /\ 1 < cnt) ->
  cnt <= hb_max -> first_block i (u32 arg0) = Some b -> 0 <= b -> b + cnt <= ci_blocks i -> 0 <= addr ->
  addr + 512 * cnt <= zlen m ->
  (forall w', in_tran w' k c (splice m addr (card_sectors i b cnt)) i n -> runs f w' P) ->
  runs (_ ← CMD_CREATE cmd0 arg0 false SDMMC_BLOCKSIZE cnt addr;
        ok_then send (ok_then (wait_tran poll_fuel) f)) w P.
Proof.
  intros ((Hon & Hi & Hs & Hrest) & Ha & Hst) Hcmd Hmax Hfb Hb Hn Haddr Hmem HP.
  apply runs_bind, runs_modify. cbn [fst snd]. destruct w as [s h]. cbn [fst snd].
  set (s1 := with_cmd s _). assert (Hon1 : On (s1, h) k c m) by (destruct Hon; by split).
  pose proof Hon as [_ _ Hc Hm Hg]. cbn [snd] in Hc, Hm, Hg.
  pose proof (hl_read s1 h b cnt) as Hread. cbn [s1 sd_cmd with_cmd cmd arg rsp bsize bcnt dbuf] in Hread.
  cbv zeta in Hread. rewrite Hc, Hm, Hi in Hread.
  specialize (Hread Hg Hcmd eq_refl eq_refl Hmax eq_refl Hs Ha Hfb Hb Hn Haddr Hmem).
  apply runs_ok_then. unfold send. apply runs_bind.
  eapply runs_ends; [exact Hon1|exact Hread|]. intros w2 Hon2 _. apply runs_ret.
  change (SDMMC_OK =? SDMMC_OK) with true. cbn iota. apply runs_ok_then.
  assert (Hw : runs (wait_tran poll_fuel) w2 (fun r w' => r = SDMMC_OK /\ w' = w2)).
  { destruct poll_fuel; cbn [wait_tran]; apply runs_bind, runs_get;
      rewrite (on_card _ _ _ _ Hon2), Hst; change (MMC_TRAN =? MMC_TRAN) with true; by apply runs_ret. }
  eapply runs_mono; [exact Hw|]. intros r w' [-> ->]. change (SDMMC_OK =? SDMMC_OK) with true.
  cbn beta iota. apply HP. split; [split; [exact Hon2|done]|done].
Qed.

Lemma read_write_loop_runs fuel addr blkno cnt w k c m i n P :
  in_tran w k c m i n -> counted i n -> info_ok i -> zlen m <= 2 ^ 32 ->
  0 <= addr -> addr + 512 * cnt <= zlen m -> 0 <= blkno -> 0 <= cnt <= Z.of_nat fuel -> cnt <= hb_max -> blkno + cnt <= n ->
  (forall w', in_tran w' k c (splice m addr (card_sectors i blkno cnt)) i n -> P SDMMC_OK w') ->
  runs (read_write_loop poll_fuel fuel addr blkno cnt) w P.
Proof.
  revert addr blkno cnt w m. induction fuel as [|fuel IH];
    intros addr blkno cnt w m Hin Hcnt Hio Hm Ha0 Ha Hb Hc Hmax Hn HP; cbn [read_write_loop];
    destruct (hl_max w) as (mx & Hmx & Hpos).
  - assert (cnt = 0) by lia. subst cnt. apply runs_bind. exists mx, w. split; [done|].
    rewrite (proj2 (Z.ltb_ge _ _)) by lia. cbn [Z.eqb]. apply runs_ret, HP.
    change (card_sectors i blkno 0) with (@nil Z). by rewrite splice_nil.
  - apply runs_bind. exists mx, w. split; [done|].
    set (q := if u32 mx <? cnt then u32 mx else cnt).
    assert (Hq : 0 <= q <= cnt /\ (q = 0 -> cnt = 0)) by (unfold q; destruct (Z.ltb_spec (u32 mx) cnt); lia).
    destruct (Z.eqb_spec q 0) as [Hq0|Hq0].
    { assert (cnt = 0) by lia. subst cnt. apply runs_ret, HP.
      change (card_sectors i blkno 0) with (@nil Z). by rewrite splice_nil. }
    apply runs_bind, runs_get. pose proof Hin as ((Hon & _ & _ & _ & Ht & _ & _) & _).
    rewrite (on_card _ _ _ _ Hon), Ht. set (arg0 := match final_type _ with eMMC => _ | _ => _ end).
    destruct Hcnt as (r0 & r1 & r2 & r3 & Hcsd & Hnn & Hrange & Hle & Hby).
    assert (Hcnt' : counted i n) by (by exists r0, r1, r2, r3).
    assert (Hfb : first_block i (u32 arg0) = Some blkno).
    { unfold first_block, arg0, SDMMC_BLOCKSIZE.
      destruct (ci_kind i); cbn [by_block final_type] in *;
        try (rewrite wrap_id by (unfold fits; lia); done);
        specialize (Hby eq_refl);
        rewrite !(wrap_id 32 (blkno * 512)) by (unfold fits; lia);
        rewrite Z.mod_mul, Z.div_mul by lia; done. }
    eapply (transfer_runs _ _ _ q blkno); [exact Hin| |lia|exact Hfb|lia|lia|lia|lia|].
    { destruct (Z.eqb_spec q 1); [by left|right; split; [done|lia]]. }
    intros w1 Hin1. pose proof (zlen_card_sectors i blkno q Hio ltac:(lia)) as Hz.
    unfold SDMMC_BLOCKSIZE.
    rewrite (wrap_id 32 (blkno + q)) by (unfold fits; lia).
    destruct (decide (q = cnt)) as [->|Hne].
    + rewrite Z.sub_diag. destruct fuel; cbn [read_write_loop]; destruct (hl_max w1) as (mx1 & Hmx1 & Hpos1);
        (apply runs_bind; exists mx1, w1; split; [done|]); rewrite (proj2 (Z.ltb_ge _ 0)) by lia;
        cbn [Z.eqb]; by apply runs_ret, HP.
    + rewrite (wrap_id 32 (addr + q * 512)) by (unfold fits; lia).
      eapply IH; [exact Hin1|done|done|..]; rewrite ?zlen_splice; try lia.
      intros w2 Hin2. apply HP. replace (addr + q * 512) with (addr + zlen (card_sectors i blkno q)) in Hin2 by lia.
      rewrite splice_splice, <- card_sectors_app in Hin2 by lia.
      by replace (q + (cnt - q)) with cnt in Hin2 by lia.
Qed.

Lemma init_as_runs t spd s h i P :
  (0 < poll_fuel)%nat -> c_info (hb_card h) = i -> card_ok poll_fuel (hb_card h) ->
  t = NONE \/ t = probed (ci_kind i) ->
  (forall w', ready w' i (hb_mem h) -> P SDMMC_OK w') -> runs (sdmmc_init_as poll_fuel t spd) (s, h) P.
Proof.
  intros Hf Hi Hok Ht HP. unfold sdmmc_init_as. apply runs_ok_then.
  destruct (hl_init s h) as (s1 & h1 & Hrun & Hstrip & _ & Hg & Hc & Hm); [apply Hok|].
  exists SDMMC_OK, (s1, h1). split; [done|]. change (SDMMC_OK =? SDMMC_OK) with true. cbn iota.
  apply strip_fields in Hstrip as [Hcard Hocr].
  assert (Hon : On (s1, h1) (card s1) (hb_card h) (hb_mem h)) by (by split).
  apply runs_bind. eapply runs_modify_card; [exact Hon|]. intros w2 Hon2. apply runs_bind.
  eapply init_card_runs; [done|exact Hon2|exact Hi|exact Hok| |].
  - cbn. destruct Ht as [-> | ->]; [done|done].
  - intros w3 Hr. change (SDMMC_OK =? SDMMC_OK) with true. cbn iota. by apply runs_ret, HP.
Qed.

(** Initialisation of a slot, with probing. *)
Lemma sdmmc_init_sd_spec s h :
  (0 < poll_fuel)%nat -> card_ok poll_fuel (hb_card h) ->
  exists s' h', sdmmc_init_sd poll_fuel (s, h) = Ok (SDMMC_OK, (s', h')) /\
    ready (s', h') (c_info (hb_card h)) (hb_mem h).
Proof.
  intros Hf Hok. destruct (init_as_runs NONE DTR_MAX_SDR25 s h _ (fun r w => r = SDMMC_OK /\
    ready w (c_info (hb_card h)) (hb_mem h)) Hf eq_refl Hok) as (r & [s' h'] & Hrun & -> & Hr); auto.
  by exists s', h'.
Qed.

(** C16.  Initialising an SD slot brings any SD or MMC card that follows the specification -- of
    either version, of standard or high capacity, powering up within the code's patience -- from any
    state into the transfer state, with the driver's idea of its type and its address right, and as
    its capacity what the card-specific data register states.  (That is not the whole capacity of two
    kinds of card: of an SD card above 32G, where the driver drops the upper bits of the size, and of an
    eMMC above 2G, whose register holds the largest size it can state.) *)
Theorem sdmmc_init_sd_correct s h :
  (0 < poll_fuel)%nat -> card_ok poll_fuel (hb_card h) ->
  exists s' h', sdmmc_init_sd poll_fuel (s, h) = Ok (SDMMC_OK, (s', h')) /\
    ready (s', h') (c_info (hb_card h)) (hb_mem h).
Proof. apply sdmmc_init_sd_spec. Qed.

(** The same for an eMMC slot, where the driver does not probe. *)
Theorem sdmmc_init_mmc_correct s h :
  (0 < poll_fuel)%nat -> card_ok poll_fuel (hb_card h) -> is_sd (c_kind (hb_card h)) = false ->
  exists s' h', sdmmc_init_mmc poll_fuel (s, h) = Ok (SDMMC_OK, (s', h')) /\
    ready (s', h') (c_info (hb_card h)) (hb_mem h).
Proof.
  intros Hf Hok Hsd. destruct (init_as_runs eMMC DTR_MAX_HS52 s h _ (fun r w => r = SDMMC_OK /\
    ready w (c_info (hb_card h)) (hb_mem h)) Hf eq_refl Hok) as (r & [s' h'] & Hrun & -> & Hr); auto.
  - right. unfold c_kind in Hsd. by destruct (ci_kind _).
  - by exists s', h'.
Qed.

(** A request for blocks, inside the card and not. *)
Lemma sdmmc_read_spec w i m buf blkno cnt :
  ready w i m -> info_ok i -> zlen m <= 2 ^ 32 -> fits 32 blkno -> fits 32 cnt ->
  0 <= buf -> buf + 512 * cnt <= zlen m ->
  exists n, counted i n /\
    if (blkno <? n) && (blkno + cnt <=? n)
    then cnt <= hb_max -> exists w', sdmmc_read poll_fuel buf blkno cnt w = Ok (SDMMC_OK, w') /\
           ready w' i (splice m buf (card_sectors i blkno cnt))
    else sdmmc_read poll_fuel buf blkno cnt w = Ok (SDMMC_ERROR, w).
Proof.
  intros (k & c & n & Hin & Hcnt) Hio Hm Hb Hc Hbuf Hroom. exists n. split; [done|].
  pose proof Hin as ((Hon & _ & _ & _ & _ & _ & Hn) & _).
  assert (Hr : 0 < n < 2 ^ 28) by (by destruct Hcnt as (? & ? & ? & ? & _ & _ & ? & _)).
  unfold sdmmc_read, sdmmc_read_write, mbind, M_bind, get. rewrite (on_card _ _ _ _ Hon), Hn.
  unfold fits in *. destruct (Z.ltb_spec blkno n), (Z.leb_spec (blkno + cnt) n); cbn [andb];
    destruct (Z.leb_spec n blkno); try lia; cbn [orb]; try done.
  - intros Hmax. rewrite wrap_id by (unfold fits; lia). rewrite !(proj2 (Z.ltb_ge _ _)) by lia. cbn [orb].
    destruct (read_write_loop_runs (Z.to_nat cnt) buf blkno cnt w k c m i n
      (fun r w' => r = SDMMC_OK /\ in_tran w' k c (splice m buf (card_sectors i blkno cnt)) i n))
      as (r & w' & Hrun & -> & Hin'); try done; try lia.
    exists w'. split; [done|]. by exists k, c, n.
  - destruct (decide (blkno + cnt < 2 ^ 32)).
    + rewrite wrap_id by (unfold fits; lia). by rewrite (proj2 (Z.ltb_lt n _)) by lia.
    + assert (Hu : u32 (blkno + cnt) = blkno + cnt - 2 ^ 32).
      { unfold wrap. symmetry. apply Z.mod_unique with (q := 1); lia. }
      rewrite Hu, (proj2 (Z.ltb_lt _ blkno)) by lia. by rewrite orb_true_r.
Qed.
(** C17.  Reading blocks of an initialised card: a request inside the card, of no more blocks than the
    controller can count in one transfer ([hb_max]; 65535 on the i.MX6), writes exactly its blocks
    to the buffer and leaves the rest of memory, in as many transfers as the controller needs and
    however the card is addressed; any request that is not inside the card, also one whose end
    overflows, is refused with nothing done. *)
Theorem sdmmc_read_correct w i m buf blkno cnt :
  ready w i m -> info_ok i -> zlen m <= 2 ^ 32 -> fits 32 blkno -> fits 32 cnt ->
  0 <= buf -> buf + 512 * cnt <= zlen m ->
  exists n, counted i n /\
    if (blkno <? n) && (blkno + cnt <=? n)
    then cnt <= hb_max -> exists w', sdmmc_read poll_fuel buf blkno cnt w = Ok (SDMMC_OK, w') /\
           ready w' i (splice m buf (card_sectors i blkno cnt))
    else sdmmc_read poll_fuel buf blkno cnt w = Ok (SDMMC_ERROR, w).
Proof. apply sdmmc_read_spec. Qed.
End Read.
