(* ===== verification/SdmmcDisk.v ===== *)
(** * SdmmcDisk: an initialised SD or MMC card is the block device of the FAT reader.

    The loader initialises the slot, and the FAT reader of Fat.v then reads sectors through
    [sdmmc_read]; here the driver of Sdmmc.v implements Fat.v's interface, so that the theorems on
    files hold of the card itself. *)

From S2P Require Import Prelude.
From S2P Require Import Sections.
From S2P Require Import Fat.
From S2P Require Import Sdmmc.
From S2P Require Import SdmmcCard.
From S2P Require Import SdmmcInit.
From S2P Require Import SdmmcRead.

Section Disk.
Context {H : Type} `{HL : HostLaws H}.
Variable poll_fuel : nat.

(** Where the reader's buffer is; it may be anywhere in memory. *)
Variable buf : Z.

(** The bytes [sdmmc_read] leaves in the buffer, when it succeeds. *)
Definition disk_read (w : sdmmc_t * H) (blkno cnt : Z) : (sdmmc_t * H) * option (list Z) :=
  match sdmmc_read poll_fuel buf blkno cnt w with
  | Ok (r, w') => (w', if r =? SDMMC_OK then Some (slice (hb_mem (snd w')) buf (512 * cnt)) else None)
  | Err _ => (w, None)
  end.

Definition disk_info (w : sdmmc_t * H) : card_info := c_info (hb_card (snd w)).

(** In good order: initialised, and with room for the reader's largest request. *)
Record disk_good (w : sdmmc_t * H) : Prop := {
  dg_ready : ready w (disk_info w) (hb_mem (snd w));
  dg_info : info_ok (disk_info w);
  dg_buf : 0 <= buf;
  dg_room : buf + 512 * hb_max <= zlen (hb_mem (snd w));
  dg_mem : zlen (hb_mem (snd w)) <= 2 ^ 32
}.

Definition sd_disk : BlockDevice (sdmmc_t * H) := {|
  bd_read := disk_read;
  bd_sector := fun w => ci_sector (disk_info w);
  bd_size := fun w => blk_num (Sdmmc.card (fst w));
  bd_max := hb_max;
  bd_good := disk_good
|}.

(** What [ready] fixes. *)
Lemma ready_counted w i m : ready w i m ->
  counted i (blk_num (Sdmmc.card (fst w))) /\ hb_mem (snd w) = m /\ disk_info w = i.
Proof.
  intros (k & c & n & ((Hon & Hi & _ & _ & _ & _ & Hn) & _) & Hc). destruct Hon as [-> _ Hb Hm].
  unfold disk_info. rewrite Hn, Hb. by split_and!.
Qed.

Lemma counted_unique i n n' : counted i n -> counted i n' -> n = n'.
Proof.
  intros (r0 & r1 & r2 & r3 & Hr & -> & _) (s0 & s1 & s2 & s3 & Hs & -> & _). congruence.
Qed.

Lemma sd_disk_laws : @BlockDeviceLaws _ sd_disk.
Proof.
  split.
  - intros d n Hg. apply (dg_info _ Hg).
  - apply hl_two.
  - intros d Hg. destruct (ready_counted _ _ _ (dg_ready _ Hg)) as [(? & ? & ? & ? & _ & _ & ? & _) _].
    cbn. lia.
  - intros d b n [Hr Hio Hb Hroom Hm] Hb0 Hn Hend. cbn [bd_read bd_sector bd_size bd_max bd_good sd_disk] in *.
    destruct (ready_counted _ _ _ Hr) as (Hc & _).
    assert (Hrange : 0 < blk_num (Sdmmc.card (fst d)) < 2 ^ 28)
      by (by destruct Hc as (? & ? & ? & ? & _ & _ & ? & _)).
    destruct (sdmmc_read_spec poll_fuel d _ _ buf b n Hr Hio Hm) as (k & Hk & Hrd);
      [unfold fits; lia|unfold fits in *; lia|lia|lia|].
    rewrite (counted_unique _ _ _ Hk Hc), (proj2 (Z.ltb_lt _ _)), (proj2 (Z.leb_le _ _)) in Hrd by lia.
    destruct (Hrd ltac:(lia)) as (w' & Hrd' & Hr'). clear Hrd. rename Hrd' into Hrd. unfold disk_read. rewrite Hrd.
    change (SDMMC_OK =? SDMMC_OK) with true.
    destruct (ready_counted _ _ _ Hr') as (Hc' & Hm' & Hi').
    pose proof (zlen_card_sectors _ b n Hio ltac:(lia)) as Hz.
    split_and!.
    + split; rewrite ?Hm', ?Hi', ?zlen_splice; try done; lia.
    + by rewrite Hi'.
    + by eapply counted_unique.
    + rewrite Hm', <- Hz, slice_splice by lia. done.
Qed.

(** ** Reading a file from the card *)

#[local] Existing Instance sd_disk.
#[local] Existing Instance sd_disk_laws.

(** From a card in any state to a file in memory, with any controller that keeps its promises. *)
Lemma sd_file_spec s h f N name n mem :
  (0 < poll_fuel)%nat -> card_ok poll_fuel (hb_card h) ->
  0 <= buf -> buf + 512 * hb_max <= zlen (hb_mem h) -> zlen (hb_mem h) <= 2 ^ 32 ->
  exists w size, sdmmc_init_sd poll_fuel (s, h) = Ok (SDMMC_OK, w) /\
    disk_info w = c_info (hb_card h) /\ counted (disk_info w) size /\
    forall d0, fat_init (Some w) f 64 (zeros 1024) mem = Some d0 ->
    fs_ok f N size -> fat_type f = TYPE_FAT32 ->
    (n <= S (Z.to_nat (count_of_clusters f)))%nat ->
    Forall (fun c => 2 <= c < N /\ end_of_file f c = false) (follow w f (root_dir_start f) n) ->
    end_of_file f (Nat.iter n (fat_entry w f) (root_dir_start f)) = true ->
    let found := dir_find32 w f (follow w f (root_dir_start f) n) name in
    file_ok N w f found ->
    match found with
    | Some (c, sz) => exists d', copy_named_file_fat32 d0 name = Ok (d', true) /\
        out d' = splice mem 0 (concat (map (cluster_data w f) (follow w f c (clusters_of f sz))))
    | None => exists d', copy_named_file_fat32 d0 name = Ok (d', false) /\ out d' = mem
    end.
Proof.
  intros Hf Hok Hb Hroom Hm. pose proof Hok as [Hio _].
  destruct (sdmmc_init_sd_spec poll_fuel s h Hf Hok) as (s' & h' & Hinit & Hr).
  destruct (ready_counted _ _ _ Hr) as (Hc & Hmem & Hi).
  exists (s', h'), (blk_num (Sdmmc.card s')). split; [done|]. split; [done|]. split; [by rewrite Hi|].
  intros d0 [= <-] Hfs Ht Hn Hch Heof found Hfile.
  pose proof (dir_loop32_spec N f (s', h') name n (S (S (Z.to_nat (count_of_clusters f))))
    (mk_fat f (zeros 1024) (2 ^ 32 - 1) false (s', h') mem) (root_dir_start f)) as Hcp.
  unfold copy_named_file_fat32. cbn [fs]. fold found in Hcp.
  assert (Hres : search_result N (mk_fat f (zeros 1024) (2 ^ 32 - 1) false (s', h') mem) found
    (dir_loop32 (S (S (Z.to_nat (count_of_clusters f)))) 
      (mk_fat f (zeros 1024) (2 ^ 32 - 1) false (s', h') mem) name (root_dir_start f))).
  { apply Hcp; try done; [|lia].
    assert (Hg : disk_good (s', h')) by (split; rewrite ?Hmem, ?Hi; done).
    by split. }
  destruct found as [[c sz]|].
  - destruct Hres as (d' & He & _ & _ & _ & Ho). by exists d'.
  - destruct Hres as (d' & He & Ho). by exists d'.
Qed.
End Disk.
