(* ===== verification/MxSdhc.v ===== *)
(** * MxSdhc: the i.MX6 host controller of the SD/MMC driver (ipl/lib/arm/mx_sdmmc.c,
    ipl/lib/private/mx_sdhc.h).

    Each function of the controller over its registers, and the interface of Sdmmc.v made of them.
    The registers are an interface too ([MxDevice]): what they do is the controller's, and is stated
    in MxDevice.v.  Register numbers are offsets from the controller's base.  Output on the serial
    line is left out. *)

From S2P Require Import Prelude.
From S2P Require Import Sdmmc.

(** ** Registers and bits of mx_sdhc.h *)

Definition bit (n : Z) : Z := Z.shiftl 1 n.

Definition MX_MMCDMASYSADD : Z := 0x00.
Definition MX_MMCBLATR : Z := 0x04.
Definition MX_MMCCMDARG : Z := 0x08.
Definition MX_MMCCMDXTYPE : Z := 0x0C.
Definition MMCCMDXTYPE_DPSEL : Z := bit 21.
Definition MMCCMDXTYPE_CICEN : Z := bit 20.
Definition MMCCMDXTYPE_CCCEN : Z := bit 19.
Definition MMCCMDXTYPE_RSPTYPMASK : Z := Z.shiftl 3 16.
Definition MMCCMDXTYPE_RSPTYPL136 : Z := Z.shiftl 1 16.
Definition MMCCMDXTYPE_RSPTYPL48 : Z := Z.shiftl 2 16.
Definition MMCCMDXTYPE_RSPTYPL48B : Z := Z.shiftl 3 16.
Definition MX_MMCCMDRSP0 : Z := 0x10.
Definition MX_MMCCMDRSP1 : Z := 0x14.
Definition MX_MMCCMDRSP2 : Z := 0x18.
Definition MX_MMCCMDRSP3 : Z := 0x1C.
Definition MX_MMCDATAPORT : Z := 0x20.
Definition MX_MMCPRSNTST : Z := 0x24.
Definition MMCPRSNTST_SDSTB : Z := bit 3.
Definition MMCPRSNTST_DLA : Z := bit 2.
Definition MMCPRSNTST_CDIHB : Z := bit 1.
Definition MMCPRSNTST_CIHB : Z := bit 0.
Definition MX_MMCPROTOCTL : Z := 0x28.
Definition MMCPROTOCTL_EMODLE : Z := Z.shiftl 2 4.
Definition MMCPROTOCTL_DTW8BIT : Z := Z.shiftl 2 1.
Definition MMCPROTOCTL_DTW4BIT : Z := bit 1.
Definition MMCPROTOCTL_DTW1BIT : Z := bnot 32 (Z.shiftl 3 1).
Definition MX_MMCSYSCTL : Z := 0x2C.
Definition MMCSYSCTL_INITA : Z := bit 27.
Definition MMCSYSCTL_RSTD : Z := bit 26.
Definition MMCSYSCTL_RSTC : Z := bit 25.
Definition MMCSYSCTL_RSTA : Z := bit 24.
Definition MMCSYSCTL_DTOCVSHIFT : Z := 16.
Definition MMCSYSCTL_DTOCVMASK : Z := 0xF0000.
Definition MMCSYSCTL_SDCLKFSSHIFT : Z := 8.
Definition MMCSYSCTL_SDCLKFSMASK : Z := 0xFF00.
Definition MMCSYSCTL_DVSSHIFT : Z := 4.
Definition MMCSYSCTL_DVSMASK : Z := 0xF0.
Definition MMCSYSCTL_SDCLKEN : Z := bit 3.
Definition MX_MMCINTRST : Z := 0x30.
Definition MX_MMCINTRSTEN : Z := 0x34.
Definition MX_MMCINTRSIGEN : Z := 0x38.
Definition MMCINTR_AC12E : Z := bit 24.
Definition MMCINTR_DEBE : Z := bit 22.
Definition MMCINTR_DCE : Z := bit 21.
Definition MMCINTR_DTOE : Z := bit 20.
Definition MMCINTR_CIE : Z := bit 19.
Definition MMCINTR_CEBE : Z := bit 18.
Definition MMCINTR_CCE : Z := bit 17.
Definition MMCINTR_CTOE : Z := bit 16.
Definition MMCINTR_BRR : Z := bit 5.
Definition MMCINTR_TC : Z := bit 1.
Definition MMCINTR_CC : Z := bit 0.
Definition any_of (l : list Z) : Z := fold_right Z.lor 0 l.
Definition MMCINTR_ERRI : Z :=
  any_of [MMCINTR_AC12E; MMCINTR_DEBE; MMCINTR_DCE; MMCINTR_DTOE; MMCINTR_CIE; MMCINTR_CEBE; MMCINTR_CCE;
          MMCINTR_CTOE].
Definition MX_MMCWATML : Z := 0x44.
Definition MMCWATML_RDWMLSHIFT : Z := 0.
Definition MX_MMCMIXCTRL : Z := 0x48.
Definition MMCMIXCTRL_FBCLKSEL : Z := bit 25.
Definition MMCMIXCTRL_AUTOTUNEEN : Z := bit 24.
Definition MMCMIXCTRL_SMPCLKSEL : Z := bit 23.
Definition MMCMIXCTRL_EXETUNE : Z := bit 22.
Definition MMCMIXCTRL_MSBSEL : Z := bit 5.
Definition MMCMIXCTRL_DTDSEL : Z := bit 4.
Definition MMCMIXCTRL_DDR_EN : Z := bit 3.
Definition MMCMIXCTRL_AC12EN : Z := bit 2.
Definition MMCMIXCTRL_BCEN : Z := bit 1.
Definition MMCMIXCTRL_DMAEN : Z := bit 0.

(** ** The registers, and the functions' monad *)

(** [in32] and [out32] of the controller's registers. *)
Class MxDevice (R : Type) := {
  in32 : Z -> R -> Z * R;
  out32 : Z -> Z -> R -> R
}.

(** [mx_hc]: the reference clock, and the registers at [sdmmc_pbase]. *)
Record mx (R : Type) := mk_mx { mx_clock : Z; mx_regs : R }.
Arguments mk_mx {R} _ _.
Arguments mx_clock {R} _.
Arguments mx_regs {R} _.

(** [v & mask] as a condition. *)
Definition has (v mask : Z) : bool := negb (Z.land v mask =? 0).

(** *** The command table *)

Definition CRC : Z := Z.lor MMCCMDXTYPE_CICEN MMCCMDXTYPE_CCCEN.
Definition entry (n flags : Z) : Z := Z.lor (Z.shiftl n 24) flags.

Definition cmdtab : list (Z * Z) :=
  [(0, entry 0 0);
   (1, entry 1 MMCCMDXTYPE_RSPTYPL48);
   (2, entry 2 (Z.lor MMCCMDXTYPE_CCCEN MMCCMDXTYPE_RSPTYPL136));
   (3, entry 3 (Z.lor CRC MMCCMDXTYPE_RSPTYPL48));
   (6, entry 6 (Z.lor CRC MMCCMDXTYPE_RSPTYPL48B));
   (7, entry 7 (Z.lor CRC MMCCMDXTYPE_RSPTYPL48B));
   (8, entry 8 (Z.lor CRC MMCCMDXTYPE_RSPTYPL48));
   (9, entry 9 (Z.lor MMCCMDXTYPE_CCCEN MMCCMDXTYPE_RSPTYPL136));
   (13, entry 13 (Z.lor CRC MMCCMDXTYPE_RSPTYPL48));
   (16, entry 16 (Z.lor CRC MMCCMDXTYPE_RSPTYPL48));
   (17, entry 17 (Z.lor (Z.lor CRC MMCCMDXTYPE_RSPTYPL48) MMCCMDXTYPE_DPSEL));
   (18, entry 18 (Z.lor (Z.lor CRC MMCCMDXTYPE_RSPTYPL48) MMCCMDXTYPE_DPSEL));
   (55, entry 55 (Z.lor CRC MMCCMDXTYPE_RSPTYPL48));
   (Z.lor (Z.shiftl 55 8) 6, entry 6 (Z.lor CRC MMCCMDXTYPE_RSPTYPL48));
   (Z.lor (Z.shiftl 55 8) 41, entry 41 MMCCMDXTYPE_RSPTYPL48)].

Fixpoint get_cmd (tab : list (Z * Z)) (cmd : Z) : option Z :=
  match tab with
  | [] => None
  | (c, x) :: tab => if c =? cmd then Some x else get_cmd tab cmd
  end.

(** *** The clock *)

(** The two divisors: [pre_div] doubles, then [div] counts up. *)
Fixpoint pre_loop (fuel : nat) (clock frq pre : Z) : Z :=
  match fuel with
  | O => pre
  | S fuel => if (frq <? clock / (pre * 16)) && (pre <? 256) then pre_loop fuel clock frq (pre * 2) else pre
  end.

Fixpoint div_loop (fuel : nat) (clock frq pre div : Z) : Z :=
  match fuel with
  | O => div
  | S fuel => if (frq <? clock / (pre * div)) && (div <? 16) then div_loop fuel clock frq pre (div + 1) else div
  end.

(** The divisors for a frequency in kHz. *)
Definition divisors (ddr : bool) (clock khz : Z) : Z * Z :=
  let frq := u32 (khz * 1000) in
  let frq := if clock <? frq then clock else frq in
  let pre := pre_loop 8 clock frq (if ddr then 2 else 1) in
  (pre, div_loop 15 clock frq pre 1).

(** The fields of the system control register. *)
Definition clock_fields (ddr : bool) (pre div : Z) : Z :=
  Z.lor (Z.lor (Z.lor (Z.shiftl 0xE MMCSYSCTL_DTOCVSHIFT)
      (Z.shiftl (Z.shiftr pre (if ddr then 2 else 1)) MMCSYSCTL_SDCLKFSSHIFT))
    (Z.shiftl (div - 1) MMCSYSCTL_DVSSHIFT)) 0xF.

(** The register value [mx_set_frq] sets, for a frequency in kHz. *)
Definition sysctl_value (ddr : bool) (clock khz : Z) : Z :=
  let '(pre, div) := divisors ddr clock khz in clock_fields ddr pre div.

Section Code.
Context {R : Type} `{MxDevice R}.

(** The code polls without a bound. *)
Variable fuel : nat.

Definition rd (r : Z) : M (mx R) Z := fun '(s, h) =>
  let '(v, d) := in32 r (mx_regs h) in Ok (v, (s, mk_mx (mx_clock h) d)).
Definition wr (r v : Z) : M (mx R) unit := fun '(s, h) =>
  Ok (tt, (s, mk_mx (mx_clock h) (out32 r v (mx_regs h)))).
Definition get_clock : M (mx R) Z := fun '(s, h) => Ok (mx_clock h, (s, h)).

(** [while (c) ;] *)
Fixpoint wait_while (n : nat) (c : M (mx R) bool) : M (mx R) unit :=
  match n with
  | O => fail_with NoFuel
  | S n => b ← c; if b : bool then wait_while n c else mret tt
  end.

(** [in32(r) & mask] *)
Definition test (r mask : Z) : M (mx R) bool := v ← rd r; mret (has v mask).
Definition test_not (r mask : Z) : M (mx R) bool := v ← rd r; mret (negb (has v mask)).

(** [out32(r, f(in32(r)))] *)
Definition update (r : Z) (f : Z -> Z) : M (mx R) unit := v ← rd r; wr r (f v).

Definition mx_set_frq (khz : Z) : M (mx R) unit :=
  s ← get;
  clock ← get_clock;
  let ddr := timing s =? TIMING_DDR50 in
  let sctl := sysctl_value ddr clock khz in
  _ ← update MX_MMCSYSCTL (fun v => Z.land v (bnot 32 MMCSYSCTL_SDCLKEN));
  _ ← update MX_MMCSYSCTL (fun v => Z.land v (bnot 32 (Z.lor MMCSYSCTL_SDCLKFSMASK MMCSYSCTL_DVSMASK)));
  _ ← update MX_MMCSYSCTL (fun v => Z.lor v sctl);
  _ ← wait_while fuel (test_not MX_MMCPRSNTST MMCPRSNTST_SDSTB);
  _ ← wait_while fuel (test MX_MMCSYSCTL (Z.lor MMCSYSCTL_RSTC MMCSYSCTL_RSTD));
  update MX_MMCSYSCTL (fun v => Z.lor v MMCSYSCTL_SDCLKEN).

Definition mx_set_bus_width (width : Z) : M (mx R) unit :=
  tmp ← rd MX_MMCPROTOCTL;
  _ ← wr MX_MMCPROTOCTL (Z.land tmp MMCPROTOCTL_DTW1BIT);
  tmp ← rd MX_MMCPROTOCTL;
  wr MX_MMCPROTOCTL
    (if width =? 8 then Z.lor (Z.lor tmp MMCPROTOCTL_EMODLE) MMCPROTOCTL_DTW8BIT
     else if width =? 4 then Z.lor (Z.lor tmp MMCPROTOCTL_EMODLE) MMCPROTOCTL_DTW4BIT
     else Z.lor tmp MMCPROTOCTL_EMODLE).

Definition mx_set_bus_mode (mode : Z) : M (mx R) unit := mret tt.

Definition with_timing (s : sdmmc_t) (t : Z) : sdmmc_t :=
  mk_sdmmc (icr s) (ocr s) (caps s) (sd_cmd s) (card s) (cid s) (csd s) (scr s) (mmc_ecsd s) t.

Definition mx_set_timing (t : Z) : M (mx R) unit :=
  mix_ctrl ← rd MX_MMCMIXCTRL;
  _ ← wr MX_MMCMIXCTRL (if t =? TIMING_DDR50 then Z.lor mix_ctrl MMCMIXCTRL_DDR_EN
                        else Z.land mix_ctrl (bnot 32 MMCMIXCTRL_DDR_EN));
  modify (fun s => with_timing s t).

Definition mx_sdmmc_fini : M (mx R) Z :=
  _ ← wr MX_MMCINTRSIGEN 0;
  _ ← wr MX_MMCINTRSTEN 0;
  _ ← update MX_MMCINTRST (fun v => v);
  _ ← wr MX_MMCSYSCTL 0;
  _ ← wr MX_MMCCMDXTYPE 0;
  mret 0.

Definition mx_init_ctrl : M (mx R) Z :=
  _ ← modify (fun s => mk_sdmmc 0x000001aa 0x00300000 (caps s) (sd_cmd s) (card s) (cid s) (csd s) (scr s)
                         (mmc_ecsd s) (timing s));
  _ ← mx_sdmmc_fini;
  _ ← update MX_MMCSYSCTL (fun v => Z.lor v MMCSYSCTL_RSTA);
  _ ← wait_while fuel (test MX_MMCSYSCTL MMCSYSCTL_RSTA);
  _ ← mx_set_frq 400;
  _ ← wr MX_MMCPROTOCTL 0x00000020;
  _ ← wr MX_MMCINTRSIGEN 0x017F8033;
  _ ← wr MX_MMCINTRSTEN 0x017F8033;
  mret SDMMC_OK.

(** *** Commands *)

Definition mx6x_setup_dma_read : M (mx R) unit :=
  s ← get;
  _ ← wr MX_MMCBLATR (Z.lor (u32 (Z.shiftl (bcnt (sd_cmd s)) 16)) (bsize (sd_cmd s)));
  _ ← wr MX_MMCDMASYSADD (dbuf (sd_cmd s));
  update MX_MMCSYSCTL (fun v => Z.lor (Z.land v (bnot 32 MMCSYSCTL_DTOCVMASK)) (Z.shiftl 14 MMCSYSCTL_DTOCVSHIFT)).

(** The wait for the command and data lines. *)
Definition lines_busy : M (mx R) bool :=
  b ← test MX_MMCPRSNTST MMCPRSNTST_CDIHB;
  if b : bool then mret true else test MX_MMCPRSNTST MMCPRSNTST_CIHB.
Definition wait_ready : M (mx R) unit :=
  _ ← wait_while fuel lines_busy; wait_while fuel (test MX_MMCPRSNTST MMCPRSNTST_DLA).

(** What stays of the mixer control register. *)
Definition MIX_KEPT : Z :=
  any_of [MMCMIXCTRL_EXETUNE; MMCMIXCTRL_SMPCLKSEL; MMCMIXCTRL_AUTOTUNEEN; MMCMIXCTRL_FBCLKSEL; MMCMIXCTRL_DDR_EN].
Definition set_mix (bits : Z) : M (mx R) unit := update MX_MMCMIXCTRL (fun v => Z.lor bits (Z.land v MIX_KEPT)).

(** Reset of the command line after an error. *)
Definition reset_cmd : M (mx R) unit :=
  _ ← update MX_MMCSYSCTL (fun v => Z.lor v MMCSYSCTL_RSTC);
  wait_while fuel (test MX_MMCSYSCTL MMCSYSCTL_RSTC).

(** [cmd->erintsts = v], a [short]. *)
Definition set_erintsts (v : Z) : M (mx R) unit :=
  modify (fun s => let k := sd_cmd s in
    with_cmd s (mk_cmd (cmd k) (arg k) (rsp k) (bsize k) (bcnt k) (dbuf k) (signed 16 v))).

(** The response, put together from registers that leave out the checksum byte. *)
Definition shift_response (r0 r1 r2 r3 : Z) : list Z :=
  [u32 (Z.shiftl r0 8); Z.lor (u32 (Z.shiftl r1 8)) (Z.shiftr r0 24);
   Z.lor (u32 (Z.shiftl r2 8)) (Z.shiftr r1 24); Z.lor (u32 (Z.shiftl r3 8)) (Z.shiftr r2 24)].

Definition read_response (x : Z) : M (mx R) (list Z) :=
  s ← get;
  if rsp (sd_cmd s) then
    r0 ← rd MX_MMCCMDRSP0;
    if Z.land x MMCCMDXTYPE_RSPTYPMASK =? MMCCMDXTYPE_RSPTYPL136 then
      r1 ← rd MX_MMCCMDRSP1;
      r2 ← rd MX_MMCCMDRSP2;
      r3 ← rd MX_MMCCMDRSP3;
      mret (shift_response r0 r1 r2 r3)
    else mret [r0]
  else mret [].

(** The end of a data transfer: true if there was no error. *)
Fixpoint data_end (n : nat) : M (mx R) bool :=
  match n with
  | O => fail_with NoFuel
  | S n =>
      _ ← wait_while fuel (test_not MX_MMCINTRST (Z.lor MMCINTR_TC MMCINTR_ERRI));
      e ← test MX_MMCINTRST MMCINTR_ERRI;
      if e : bool then _ ← reset_cmd; mret false
      else
        t ← test MX_MMCINTRST MMCINTR_TC;
        if t : bool then mret true else data_end n
  end.

(** The mixer bits of a command. *)
Definition mix_of (cmd : Z) : Z :=
  if cmd =? MMC_READ_SINGLE_BLOCK then Z.lor MMCMIXCTRL_DTDSEL MMCMIXCTRL_DMAEN
  else if cmd =? MMC_READ_MULTIPLE_BLOCK
  then any_of [MMCMIXCTRL_MSBSEL; MMCMIXCTRL_BCEN; MMCMIXCTRL_AC12EN; MMCMIXCTRL_DTDSEL; MMCMIXCTRL_DMAEN]
  else 0.

(** Everything before the command's end. *)
Definition issue (cmd x : Z) : M (mx R) unit :=
  _ ← wait_ready;
  _ ← (if cmd =? 0 then
         _ ← update MX_MMCSYSCTL (fun v => Z.lor (Z.lor v MMCSYSCTL_INITA) (Z.shiftl 0x2 MMCSYSCTL_DTOCVSHIFT));
         wait_while fuel (test MX_MMCSYSCTL MMCSYSCTL_INITA)
       else mret tt);
  _ ← (if has x MMCCMDXTYPE_DPSEL then mx6x_setup_dma_read else mret tt);
  _ ← wr MX_MMCINTRST 0xffffffff;
  _ ← wr MX_MMCWATML (Z.shiftl 0x80 MMCWATML_RDWMLSHIFT);
  s ← get;
  _ ← wr MX_MMCCMDARG (arg (sd_cmd s));
  _ ← set_mix (mix_of cmd);
  wr MX_MMCCMDXTYPE x.

Definition mx_send_cmd : M (mx R) (option (list Z)) :=
  s ← get;
  match get_cmd cmdtab (cmd (sd_cmd s)) with
  | None => mret None
  | Some x =>
      _ ← issue (cmd (sd_cmd s)) x;
      _ ← wait_while fuel (test_not MX_MMCINTRST (Z.lor MMCINTR_CC MMCINTR_ERRI));
      temp ← rd MX_MMCINTRST;
      failed ← (if has temp MMCINTR_ERRI then
                  _ ← set_erintsts temp; _ ← reset_cmd; mret (negb (temp =? 2))
                else mret false);
      if failed : bool then mret None
      else
        r ← read_response x;
        if has x MMCCMDXTYPE_DPSEL then
          ok ← data_end fuel; mret (if ok : bool then Some r else None)
        else mret (Some r)
  end.

(** *** Registers read through the data port *)

(** [for (; len > 0; len -= 4) *pbuf++ = in32(DATAPORT)]; a length that is no multiple of 4 wraps. *)
Fixpoint fifo_loop (n : nat) (len : Z) : M (mx R) (list Z) :=
  if 0 <? len then
    match n with
    | O => fail_with NoFuel
    | S n =>
        v ← rd MX_MMCDATAPORT;
        r ← fifo_loop n (u32 (len - 4));
        mret (le_bytes 4 v ++ r)
    end
  else mret [].

Definition mx_pio_read (len : Z) : M (mx R) (option (list Z)) :=
  _ ← wait_ready;
  _ ← wr MX_MMCBLATR (Z.lor (Z.shiftl 1 16) len);
  _ ← wr MX_MMCINTRST 0xffffffff;
  _ ← set_mix MMCMIXCTRL_DTDSEL;
  _ ← wr MX_MMCWATML (Z.shiftl 0x80 MMCWATML_RDWMLSHIFT);
  s ← get;
  _ ← wr MX_MMCCMDARG (arg (sd_cmd s));
  _ ← wr MX_MMCCMDXTYPE
        (any_of [u32 (Z.shiftl (cmd (sd_cmd s)) 24); MMCCMDXTYPE_CICEN; MMCCMDXTYPE_CCCEN; MMCCMDXTYPE_RSPTYPL48;
                 MMCCMDXTYPE_DPSEL]);
  _ ← wait_while fuel (test_not MX_MMCINTRST (Z.lor MMCINTR_BRR MMCINTR_ERRI));
  e ← test MX_MMCINTRST MMCINTR_ERRI;
  failed ← (if e : bool then
              v ← rd MX_MMCINTRST;
              _ ← set_erintsts v;
              _ ← reset_cmd;
              s ← get; mret (negb (erintsts (sd_cmd s) =? 2))
            else mret false);
  if failed : bool then mret None
  else
    s ← get;
    _ ← (if rsp (sd_cmd s) then _ ← rd MX_MMCCMDRSP0; mret tt else mret tt);
    l ← fifo_loop (Z.to_nat (len / 4)) len;
    mret (Some l).

Definition mx_dma_mxblks : M (mx R) Z := mret (-1).

(** [mx_sdmmc_init_hc]: the function pointers. *)
Definition mx_hc : HostController (mx R) := {|
  hc_set_clk := mx_set_frq;
  hc_set_bus_width := mx_set_bus_width;
  hc_set_bus_mode := mx_set_bus_mode;
  hc_set_timing := mx_set_timing;
  hc_send_cmd := mx_send_cmd;
  hc_pio_read := mx_pio_read;
  hc_init_hc := mx_init_ctrl;
  hc_dinit_hc := mx_sdmmc_fini;
  hc_max_blks := mx_dma_mxblks
|}.
End Code.

(** ** The clock *)

Lemma pre_loop_spec clock frq n : forall j, 8 <= Z.of_nat n + j -> 0 <= j <= 8 ->
  exists i, pre_loop n clock frq (2 ^ j) = 2 ^ i /\ j <= i <= 8 /\
    (i = 8 \/ clock / (2 ^ i * 16) <= frq) /\ (i = j \/ frq < clock / (2 ^ (i - 1) * 16)).
Proof.
  induction n as [|n IH]; intros j Hn Hj; cbn [pre_loop].
  - exists j. split; [done|]. split; [lia|]. split; left; lia.
  - destruct (decide (j = 8)) as [->|Hj8].
    { change (2 ^ 8 <? 256) with false. rewrite andb_false_r. exists 8. split; [done|]. split; [lia|]. by split; left. }
    assert (H8 : (2 ^ j <? 256) = true).
    { apply Z.ltb_lt. change 256 with (2 ^ 8). apply Z.pow_lt_mono_r; lia. }
    rewrite H8, andb_true_r. destruct (Z.ltb_spec frq (clock / (2 ^ j * 16))) as [Hl|Hl].
    + replace (2 ^ j * 2) with (2 ^ (j + 1)) by (rewrite Z.pow_add_r by lia; lia).
      destruct (IH (j + 1)) as (i & -> & Hi & Hhi & Hlo); [lia|lia|].
      exists i. split; [done|]. split; [lia|]. split; [done|]. right. destruct Hlo as [->|]; [|done].
      by replace (j + 1 - 1) with j by lia.
    + exists j. split; [done|]. split; [lia|]. split; [by right|by left].
Qed.

Lemma div_loop_spec clock frq pre n : forall d, Z.of_nat n + d = 16 ->
  let d' := div_loop n clock frq pre d in
  d <= d' <= 16 /\ (d' = 16 \/ clock / (pre * d') <= frq) /\ (d' = d \/ frq < clock / (pre * (d' - 1))).
Proof.
  induction n as [|n IH]; intros d Hn; cbn [div_loop]; cbv zeta.
  - split; [lia|]. split; left; lia.
  - rewrite (proj2 (Z.ltb_lt d 16)) by lia. rewrite andb_true_r.
    destruct (Z.ltb_spec frq (clock / (pre * d))) as [Hl|Hl].
    + destruct (IH (d + 1)) as (Hd & Hhi & Hlo); [lia|]. split; [lia|]. split; [done|]. right.
      destruct Hlo as [->|]; [|done]. by replace (d + 1 - 1) with d by lia.
    + split; [lia|]. split; [by right|by left].
Qed.

(** The frequency asked for, in Hz, as far as the reference clock goes. *)
Definition frequency (clock khz : Z) : Z := Z.min clock (u32 (khz * 1000)).

(** What the divisors are: the smallest prescaler, a power of two, with which one of the 16 divisors
    reaches the frequency, and the smallest such divisor; the last of both if none does. *)
Lemma divisors_spec ddr clock khz :
  let '(pre, div) := divisors ddr clock khz in
  let frq := frequency clock khz in
  let first := if ddr then 1 else 0 in
  1 <= div <= 16 /\
  exists i, pre = 2 ^ i /\ first <= i <= 8 /\
    (clock / (pre * div) <= frq \/ i = 8 /\ div = 16) /\
    (i = first \/ frq < clock / (2 ^ (i - 1) * 16)) /\ (div = 1 \/ frq < clock / (pre * (div - 1))).
Proof.
  unfold divisors. set (frq := if clock <? _ then _ else _).
  assert (Hf : frq = frequency clock khz).
  { unfold frq, frequency. destruct (Z.ltb_spec clock (u32 (khz * 1000))); lia. }
  rewrite <- Hf. clearbody frq. clear Hf.
  assert (Hpre : exists i, pre_loop 8 clock frq (if ddr then 2 else 1) = 2 ^ i /\ (if ddr then 1 else 0) <= i <= 8 /\
    (i = 8 \/ clock / (2 ^ i * 16) <= frq) /\ (i = (if ddr then 1 else 0) \/ frq < clock / (2 ^ (i - 1) * 16))).
  { destruct ddr; [apply (pre_loop_spec clock frq 8 1)|apply (pre_loop_spec clock frq 8 0)]; lia. }
  destruct Hpre as (i & -> & Hi & Hhi & Hlo).
  destruct (div_loop_spec clock frq (2 ^ i) 15 1 ltac:(lia)) as (Hd & Hdhi & Hdlo). cbv zeta in Hd, Hdhi, Hdlo.
  set (d := div_loop 15 clock frq (2 ^ i) 1) in *. split; [lia|]. exists i. split; [done|]. split; [done|].
  split; [|split; [done|exact Hdlo]]. destruct Hdhi as [Hd16|]; [|by left]. destruct Hhi as [->|]; [by right|].
  left. by rewrite Hd16.
Qed.

(** The clock of the card by the fields of the system control register: the reference clock divided by
    the prescaler -- a power of two, twice as large in double data rate -- and the divisor. *)
Definition prescaler (ddr : bool) (v : Z) : Z :=
  let fs := Z.land (Z.shiftr v 8) 0xff in
  if fs =? 0 then (if ddr then 2 else 1) else fs * (if ddr then 4 else 2).
Definition divisor (v : Z) : Z := Z.land (Z.shiftr v 4) 0xf + 1.
Definition card_clock (ddr : bool) (clock v : Z) : Z := clock / (prescaler ddr v * divisor v).

(** The fields hold the divisors, and nothing above them. *)
Definition fields_ok (ddr : bool) (i d : Z) : bool :=
  let v := clock_fields ddr (2 ^ i) d in
  (prescaler ddr v =? 2 ^ i) && (divisor v =? d) && (0 <=? v) && (v <? 2 ^ 24).

Lemma fields_checked :
  forallb (fun ddr : bool => forallb (fun i => forallb (fields_ok ddr (Z.of_nat i + (if ddr then 1 else 0)))
     (map (fun d => Z.of_nat d + 1) (seq 0 16))) (seq 0 (if ddr then 8 else 9))) [true; false] = true.
Proof. vm_compute. reflexivity. Qed.

Lemma fields_of (ddr : bool) i d : (if ddr then 1 else 0) <= i <= 8 -> 1 <= d <= 16 -> fields_ok ddr i d = true.
Proof.
  intros Hi Hd. pose proof fields_checked as Hc. rewrite forallb_forall in Hc.
  specialize (Hc ddr ltac:(destruct ddr; cbn; auto)). rewrite forallb_forall in Hc.
  specialize (Hc (Z.to_nat (i - (if ddr then 1 else 0)))). rewrite forallb_forall in Hc.
  replace (Z.of_nat (Z.to_nat (i - (if ddr then 1 else 0))) + (if ddr then 1 else 0)) with i in Hc by (destruct ddr; lia).
  apply Hc.
  - apply in_seq. destruct ddr; lia.
  - apply in_map_iff. exists (Z.to_nat (d - 1)). split; [lia|]. apply in_seq. lia.
Qed.

Lemma sysctl_value_bound ddr clock khz : 0 <= sysctl_value ddr clock khz < 2 ^ 24.
Proof.
  unfold sysctl_value. pose proof (divisors_spec ddr clock khz) as Hs.
  destruct (divisors ddr clock khz) as [pre d]. destruct Hs as (Hd & i & -> & Hi & _).
  pose proof (fields_of ddr i d Hi Hd) as Hf. unfold fields_ok in Hf. lia.
Qed.

(** C19.  The clock [mx_set_frq] programs never exceeds the frequency asked for -- or the reference
    clock, if that is less -- unless the largest prescaler and divisor together cannot reach it; and
    no smaller divisor with the same prescaler, and no divisor with half the prescaler, would keep
    to it. *)
Theorem mx_set_frq_clock (ddr : bool) (clock khz : Z) :
  let v := sysctl_value ddr clock khz in
  let frq := frequency clock khz in
  let p := prescaler ddr v in
  (card_clock ddr clock v <= frq \/ p = 256 /\ divisor v = 16) /\
  (p = (if ddr then 2 else 1) \/ frq < clock / (p / 2 * 16)) /\
  (divisor v = 1 \/ frq < clock / (p * (divisor v - 1))).
Proof.
  cbv zeta. unfold card_clock, sysctl_value. pose proof (divisors_spec ddr clock khz) as Hs.
  destruct (divisors ddr clock khz) as [pre d]. destruct Hs as (Hd & i & -> & Hi & Hhi & Hlo & Hdlo).
  pose proof (fields_of ddr i d Hi Hd) as Hf. unfold fields_ok in Hf.
  assert (Hp : prescaler ddr (clock_fields ddr (2 ^ i) d) = 2 ^ i) by lia.
  assert (Hq : divisor (clock_fields ddr (2 ^ i) d) = d) by lia. rewrite Hp, Hq. split_and!.
  - destruct Hhi as [|[-> ->]]; [by left|by right].
  - destruct Hlo as [->|Hlo]; [left; by destruct ddr|]. destruct (decide (i = 0)) as [->|Hne].
    + left. destruct ddr; [lia|done].
    + assert (0 <= i) by (destruct ddr; lia). right. replace (2 ^ i / 2) with (2 ^ (i - 1)); [exact Hlo|].
      replace (2 ^ i) with (2 ^ (i - 1) * 2)
        by (rewrite Z.mul_comm, <- Z.pow_succ_r by lia; f_equal; lia).
      by rewrite Z.div_mul by lia.
  - done.
Qed.
