(* ===== verification/MxDevice.v ===== *)
(** * MxDevice: the i.MX6 host controller's registers, and that the functions of MxSdhc.v on them are
    what the driver of Sdmmc.v relies on.

    The reference manual of the processor says what the registers do; [MxLaws] states the part of it
    that the functions use.  The theorem is that they then keep every promise of [HostLaws], with the
    limit of 65535 blocks a transfer that the block count register has. *)

From S2P Require Import Prelude.
From S2P Require Import Sections.
From S2P Require Import Sdmmc.
From S2P Require Import SdmmcCard.
From S2P Require Import SdmmcCsd.
From S2P Require Import MxSdhc.

(** ** The controller *)

(** What a command depends on: the card in the slot and the memory the controller masters, the
    registers a command is set up with, the enabled status bits, the reset bits still shown, and
    whether the card's clock is on. *)
Record mx_setup := mk_setup {
  v_card : bus_card; v_mem : list Z;
  v_arg : Z; v_blk : Z; v_dma : Z; v_mix : Z; v_en : Z; v_rst : Z; v_clk : bool
}.

(** What a command leaves: its status, its response and the bytes that wait in the data port. *)
Record mx_outcome := mk_outcome { v_int : Z; v_rsp : list Z; v_fifo : list Z }.

Definition set_arg u v := mk_setup (v_card u) (v_mem u) v (v_blk u) (v_dma u) (v_mix u) (v_en u) (v_rst u) (v_clk u).
Definition set_blk u v := mk_setup (v_card u) (v_mem u) (v_arg u) v (v_dma u) (v_mix u) (v_en u) (v_rst u) (v_clk u).
Definition set_dma u v := mk_setup (v_card u) (v_mem u) (v_arg u) (v_blk u) v (v_mix u) (v_en u) (v_rst u) (v_clk u).
Definition set_mixr u v := mk_setup (v_card u) (v_mem u) (v_arg u) (v_blk u) (v_dma u) v (v_en u) (v_rst u) (v_clk u).
Definition set_en u v := mk_setup (v_card u) (v_mem u) (v_arg u) (v_blk u) (v_dma u) (v_mix u) v (v_rst u) (v_clk u).
Definition set_sys u rst clk :=
  mk_setup (v_card u) (v_mem u) (v_arg u) (v_blk u) (v_dma u) (v_mix u) (v_en u) rst clk.
Definition set_bus u c m := mk_setup c m (v_arg u) (v_blk u) (v_dma u) (v_mix u) (v_en u) (v_rst u) (v_clk u).

Definition RESET_BITS : Z := any_of [MMCSYSCTL_INITA; MMCSYSCTL_RSTD; MMCSYSCTL_RSTC; MMCSYSCTL_RSTA].
Definition ALL_STATUS : Z := 0x017F8033.

(** A status of success with these bits, and the status of a missing response. *)
Definition succeeded (bits v : Z) : Prop := Z.land v MMCINTR_ERRI = 0 /\ Z.land v bits = bits.
Definition unanswered (v : Z) : Prop := Z.land v MMCINTR_ERRI <> 0 /\ u16 v = 0.

(** A long response in the registers is without its checksum byte. *)
Definition on_wire (x : Z) (w : list Z) : list Z :=
  if Z.land x MMCCMDXTYPE_RSPTYPMASK =? MMCCMDXTYPE_RSPTYPL136 then
    match w with
    | [a; b; c; d] => [Z.lor (Z.shiftr a 8) (u32 (Z.shiftl b 24)); Z.lor (Z.shiftr b 8) (u32 (Z.shiftl c 24));
                       Z.lor (Z.shiftr c 8) (u32 (Z.shiftl d 24)); Z.shiftr d 8]
    | _ => w
    end
  else w.

(** The command index, and the two halves of the block register. *)
Definition index_of (x : Z) : Z := Z.land (Z.shiftr x 24) 63.
Definition blk_count (v : Z) : Z := Z.land (Z.shiftr v 16) 0xffff.
Definition blk_bytes (v : Z) : Z := Z.land v 0x1fff.

(** A controller that can carry out a command. *)
Definition powered (u : mx_setup) : Prop := v_rst u = 0 /\ v_en u = ALL_STATUS /\ v_clk u = true.

(** The mixer bits of a transfer of one block, and of several. *)
Definition MULTI : Z := any_of [MMCMIXCTRL_MSBSEL; MMCMIXCTRL_BCEN; MMCMIXCTRL_AC12EN].
Definition DMA_READ : Z := Z.lor MMCMIXCTRL_DTDSEL MMCMIXCTRL_DMAEN.

(** The manual's promises.  Every read takes time, of which a controller needs at most [mx_polls]
    units to settle; only the data port and the system control register change by being read.  Until
    the outcome of a command is settled, its status shows nothing, or only that it is complete. *)
Class MxLaws (R : Type) `{MxDevice R} := {
  mx_view : R -> mx_setup;
  mx_out : R -> mx_outcome;
  mx_busy : R -> nat;
  mx_polls : nat;

  ml_settles : forall r, (mx_busy r <= mx_polls)%nat;
  ml_read : forall g r, g <> MX_MMCSYSCTL -> g <> MX_MMCDATAPORT ->
    let r' := snd (in32 g r) in
    mx_view r' = mx_view r /\ mx_out r' = mx_out r /\ mx_busy r' = pred (mx_busy r);
  ml_lines : forall r, mx_busy r = O ->
    let v := fst (in32 MX_MMCPRSNTST r) in
    has v MMCPRSNTST_CDIHB = false /\ has v MMCPRSNTST_CIHB = false /\ has v MMCPRSNTST_DLA = false /\
    has v MMCPRSNTST_SDSTB = true;
  ml_status : forall r,
    let v := fst (in32 MX_MMCINTRST r) in
    let i := v_int (mx_out r) in
    if decide (mx_busy r = O) then v = i else v = 0 \/ v = MMCINTR_CC /\ has i MMCINTR_CC = true;
  ml_response : forall r,
    let w := v_rsp (mx_out r) in
    fst (in32 MX_MMCCMDRSP0 r) = nth 0 w 0 /\ fst (in32 MX_MMCCMDRSP1 r) = nth 1 w 0 /\
    fst (in32 MX_MMCCMDRSP2 r) = nth 2 w 0 /\ fst (in32 MX_MMCCMDRSP3 r) = nth 3 w 0;
  ml_port : forall r,
    let '(v, r') := in32 MX_MMCDATAPORT r in
    let l := v_fifo (mx_out r) in
    v = le_word (take 4 l) /\ mx_view r' = mx_view r /\
    mx_out r' = mk_outcome (v_int (mx_out r)) (v_rsp (mx_out r)) (drop 4 l);
  ml_sysctl : forall r,
    let '(v, r') := in32 MX_MMCSYSCTL r in
    let u := mx_view r in
    (mx_view r' = u \/ mx_view r' = set_sys u 0 (v_clk u)) /\ mx_out r' = mx_out r /\
    mx_busy r' = pred (mx_busy r) /\ Z.land v RESET_BITS = v_rst (mx_view r') /\
    has v MMCSYSCTL_SDCLKEN = v_clk u /\ (mx_busy r = O -> v_rst (mx_view r') = 0);

  ml_arg : forall r v, mx_view (out32 MX_MMCCMDARG v r) = set_arg (mx_view r) v;
  ml_blk : forall r v, mx_view (out32 MX_MMCBLATR v r) = set_blk (mx_view r) v;
  ml_dma : forall r v, mx_view (out32 MX_MMCDMASYSADD v r) = set_dma (mx_view r) v;
  ml_mix : forall r v, mx_view (out32 MX_MMCMIXCTRL v r) = set_mixr (mx_view r) v;
  ml_en : forall r v, mx_view (out32 MX_MMCINTRSTEN v r) = set_en (mx_view r) v;
  ml_plain : forall g r v, In g [MX_MMCINTRST; MX_MMCINTRSIGEN; MX_MMCPROTOCTL; MX_MMCWATML] ->
    mx_view (out32 g v r) = mx_view r;
  ml_control : forall r v,
    let u := mx_view r in
    let u' := mx_view (out32 MX_MMCSYSCTL v r) in
    if has v MMCSYSCTL_RSTA
    then v_card u' = v_card u /\ v_mem u' = v_mem u /\ v_rst u' = Z.land v RESET_BITS
    else u' = set_sys u (Z.land v RESET_BITS) (has v MMCSYSCTL_SDCLKEN);

  ml_off : forall r x, v_clk (mx_view r) = false -> mx_view (out32 MX_MMCCMDXTYPE x r) = mx_view r;
  ml_command : forall r x,
    let u := mx_view r in
    let r' := out32 MX_MMCCMDXTYPE x r in
    let '(c, o) := card_cmd (v_card u) (index_of x) (v_arg u) in
    powered u -> has x MMCCMDXTYPE_DPSEL = false ->
    mx_view r' = set_bus u c (v_mem u) /\
    match o with
    | Some w => succeeded MMCINTR_CC (v_int (mx_out r')) /\ v_rsp (mx_out r') = on_wire x w
    | None => unanswered (v_int (mx_out r'))
    end;
  ml_pio : forall r x,
    let u := mx_view r in
    let r' := out32 MX_MMCCMDXTYPE x r in
    let '(c, o) := card_pio (v_card u) (index_of x) (v_arg u) (blk_bytes (v_blk u)) in
    powered u -> has x MMCCMDXTYPE_DPSEL = true -> blk_count (v_blk u) = 1 ->
    Z.land (v_mix u) (Z.lor DMA_READ MULTI) = MMCMIXCTRL_DTDSEL ->
    mx_view r' = set_bus u c (v_mem u) /\
    match o with
    | Some l => succeeded (Z.lor MMCINTR_CC MMCINTR_BRR) (v_int (mx_out r')) /\ v_fifo (mx_out r') = l
    | None => unanswered (v_int (mx_out r'))
    end;
  ml_transfer : forall r x b,
    let u := mx_view r in
    let r' := out32 MX_MMCCMDXTYPE x r in
    let c := v_card u in
    let n := blk_count (v_blk u) in
    powered u -> has x MMCCMDXTYPE_DPSEL = true -> blk_bytes (v_blk u) = 512 ->
    index_of x = 17 /\ n = 1 /\ Z.land (v_mix u) (Z.lor DMA_READ MULTI) = DMA_READ \/
    index_of x = 18 /\ 1 < n /\ Z.land (v_mix u) (Z.lor DMA_READ MULTI) = Z.lor DMA_READ MULTI ->
    c_state c = st_tran -> c_app c = false -> first_block (c_info c) (v_arg u) = Some b ->
    0 <= b -> b + n <= ci_blocks (c_info c) -> 0 <= v_dma u -> v_dma u + 512 * n <= zlen (v_mem u) ->
    mx_view r' = set_bus u c (splice (v_mem u) (v_dma u) (card_sectors (c_info c) b n)) /\
    succeeded (Z.lor MMCINTR_CC MMCINTR_TC) (v_int (mx_out r'))
}.

(** ** Bits *)

Lemma land_const v m k c : Z.land m k = c -> Z.land (Z.land v m) k = Z.land v c.
Proof. intros <-. by rewrite Z.land_assoc. Qed.

(** A condition on bits of which all those of a larger mask are known. *)
Lemma has_part v big mask : Z.land big mask = mask -> has v mask = has (Z.land v big) mask.
Proof. intros Hm. unfold has. by rewrite (land_const _ _ _ _ Hm). Qed.

Lemma has_lor v a k : has (Z.lor v a) k = has v k || has a k.
Proof.
  unfold has. rewrite Z.land_lor_distr_l, <- negb_andb. f_equal.
  apply eq_bool_prop_intro. rewrite andb_True, !Is_true_true, !Z.eqb_eq. apply Z.lor_eq_0_iff.
Qed.

Lemma has_mask v m k c : Z.land m k = c -> has (Z.land v m) k = has v c.
Proof. intros Hm. unfold has. by rewrite (land_const _ _ _ _ Hm). Qed.

Lemma has_0 v : has v 0 = false.
Proof. unfold has. by rewrite Z.land_0_r. Qed.

(** ** Symbolic execution *)

Section Device.
Context {R : Type} `{ML : MxLaws R}.
Variable fuel : nat.
Hypothesis Hfuel : (mx_polls < fuel)%nat.
Implicit Types (w : sdmmc_t * mx R) (s : sdmmc_t) (k : Z) (u : mx_setup) (o : mx_outcome).

Definition regs w : R := mx_regs (snd w).

(** Where an execution is: the driver's state, the clock, the setup and the last outcome. *)
Record At w s k u o : Prop := {
  at_s : fst w = s; at_k : mx_clock (snd w) = k; at_u : mx_view (regs w) = u; at_o : mx_out (regs w) = o
}.

Lemma at_here w : At w (fst w) (mx_clock (snd w)) (mx_view (regs w)) (mx_out (regs w)).
Proof. done. Qed.

Lemma rd_runs g w s k u o P :
  g <> MX_MMCSYSCTL -> g <> MX_MMCDATAPORT -> At w s k u o ->
  (forall w', At w' s k u o -> mx_busy (regs w') = pred (mx_busy (regs w)) -> P (fst (in32 g (regs w))) w') ->
  runs (rd g) w P.
Proof.
  intros Hg1 Hg2 [Hs Hk Hu Ho] HP. destruct w as [s1 [k1 r]]. unfold regs in *. cbn in *. unfold runs, rd. cbn.
  destruct (ml_read g r Hg1 Hg2) as (Hv & Hout & Hb). destruct (in32 g r) as [v r'] eqn:He. cbn in *.
  eexists _, _. split; [done|]. apply HP; [|done]. split; cbn; congruence.
Qed.

Lemma wr_runs g v w s k u o P :
  At w s k u o ->
  (forall w' o', At w' s k (mx_view (out32 g v (regs w))) o' -> mx_out (out32 g v (regs w)) = o' -> P tt w') ->
  runs (wr g v) w P.
Proof.
  intros [Hs Hk Hu Ho] HP. destruct w as [s1 [k1 r]]. unfold regs in *. cbn in *. unfold runs, wr. cbn.
  eexists _, _. split; [done|]. eapply HP; [|done]. by split.
Qed.

(** Writing a register that a command is set up with. *)
Lemma wr_setup_runs g v f w s k u o P :
  (forall r, mx_view (out32 g v r) = f (mx_view r)) -> At w s k u o ->
  (forall w' o', At w' s k (f u) o' -> P tt w') -> runs (wr g v) w P.
Proof.
  intros Hf Hat HP. eapply wr_runs; [exact Hat|]. intros w' o' Hat' _. rewrite Hf, (at_u _ _ _ _ _ Hat) in Hat'.
  by eapply HP.
Qed.

Lemma wr_plain_runs g v w s k u o P :
  In g [MX_MMCINTRST; MX_MMCINTRSIGEN; MX_MMCPROTOCTL; MX_MMCWATML] -> At w s k u o ->
  (forall w' o', At w' s k u o' -> P tt w') -> runs (wr g v) w P.
Proof. intros Hg. apply (wr_setup_runs g v (fun u => u)). intros r. by apply ml_plain. Qed.

(** A wait that only reads: its condition becomes false once the controller has settled. *)
Lemma wait_runs (I Q : sdmmc_t * mx R -> Prop) c n w P :
  I w -> (mx_busy (regs w) < n)%nat ->
  (forall w, I w -> runs c w (fun b w' => I w' /\ (mx_busy (regs w') <= pred (mx_busy (regs w)))%nat /\
     (mx_busy (regs w) = O -> b = false) /\ (b = false -> Q w'))) ->
  (forall w', Q w' -> P tt w') -> runs (wait_while n c) w P.
Proof.
  revert w. induction n as [|n IH]; intros w HI Hn Hc HP; [lia|]. cbn [wait_while]. apply runs_bind.
  destruct (Hc w HI) as (b & w' & Hrun & HI' & Hb & H0 & HQ). exists b, w'. split; [done|].
  destruct b; [|apply runs_ret; auto]. apply IH; [done| |done|done].
  destruct (mx_busy (regs w)) eqn:Hw; [by specialize (H0 eq_refl)|lia].
Qed.

Lemma busy_fuel w : (mx_busy (regs w) < fuel)%nat.
Proof. pose proof (ml_settles (regs w)). lia. Qed.

(** The lines. *)
Lemma lines_runs mask neg w s k u o P :
  (forall r, mx_busy r = O -> xorb neg (has (fst (in32 MX_MMCPRSNTST r)) mask) = false) -> At w s k u o ->
  (forall w', At w' s k u o -> P tt w') ->
  runs (wait_while fuel (if neg then test_not MX_MMCPRSNTST mask else test MX_MMCPRSNTST mask)) w P.
Proof.
  intros Hm Hat HP. apply (wait_runs (fun w => At w s k u o) (fun w => At w s k u o)); [done|apply busy_fuel| |done].
  intros w1 Hat1. specialize (Hm (regs w1)). destruct neg; apply runs_bind;
    (eapply rd_runs; [done|done|exact Hat1|]); intros w2 Hat2 Hb; apply runs_ret; cbn [xorb] in Hm; split_and!; auto; lia.
Qed.

Lemma ready_runs w s k u o P :
  At w s k u o -> (forall w', At w' s k u o -> P tt w') -> runs (wait_ready fuel) w P.
Proof.
  intros Hat HP. unfold wait_ready. apply runs_bind.
  apply (wait_runs (fun w => At w s k u o) (fun w => At w s k u o)); [done|apply busy_fuel| |].
  - intros w1 Hat1. unfold lines_busy. apply runs_bind. unfold test. apply runs_bind.
    eapply rd_runs; [done|done|exact Hat1|]. intros w2 Hat2 Hb2. apply runs_ret.
    destruct (has (fst (in32 MX_MMCPRSNTST (regs w1))) MMCPRSNTST_CDIHB) eqn:Hc.
    + apply runs_ret. split_and!; try done; [lia|]. intros H0. apply ml_lines in H0 as (H1 & _). cbv zeta in H1. congruence.
    + apply runs_bind. eapply rd_runs; [done|done|exact Hat2|]. intros w3 Hat3 Hb3. apply runs_ret.
      split_and!; try done.
      * lia.
      * intros H0. rewrite H0 in Hb2. apply (ml_lines (regs w2) Hb2).
  - intros w1 Hat1. apply (lines_runs MMCPRSNTST_DLA false w1 s k u o); [|exact Hat1|exact (HP)]. intros r Hr. apply (ml_lines r Hr).
Qed.

(** ** The system control register *)

Lemma set_sys_id u : set_sys u (v_rst u) (v_clk u) = u.
Proof. by destruct u. Qed.

Lemma sysctl_runs w s k u o P :
  At w s k u o ->
  (forall v w' u', At w' s k u' o -> u' = u \/ u' = set_sys u 0 (v_clk u) ->
     (mx_busy (regs w') <= pred (mx_busy (regs w)))%nat -> Z.land v RESET_BITS = v_rst u' ->
     has v MMCSYSCTL_SDCLKEN = v_clk u -> (mx_busy (regs w) = O -> v_rst u' = 0) -> P v w') ->
  runs (rd MX_MMCSYSCTL) w P.
Proof.
  intros [Hs Hk Hu Ho] HP. destruct w as [s1 [k1 r]]. unfold regs in *. cbn in *. unfold runs, rd. cbn.
  pose proof (ml_sysctl r) as Hr. destruct (in32 MX_MMCSYSCTL r) as [v r'].
  destruct Hr as (Hv & Hout & Hb & Hbits & Hclk & H0). rewrite Hu in *.
  eexists _, _. split; [done|]. eapply (HP v _ (mx_view r')); try done; [by split; cbn; congruence|unfold regs; cbn; lia].
Qed.

(** Writing it, outside a reset. *)
Lemma control_runs f x c w s k u o P :
  At w s k u o -> v_rst u = 0 ->
  (forall v, Z.land v RESET_BITS = 0 -> has v MMCSYSCTL_SDCLKEN = v_clk u ->
     Z.land (f v) RESET_BITS = x /\ has x MMCSYSCTL_RSTA = false /\ has (f v) MMCSYSCTL_SDCLKEN = c) ->
  (forall w' o', At w' s k (set_sys u x c) o' -> P tt w') -> runs (update MX_MMCSYSCTL f) w P.
Proof.
  intros Hat H0 Hf HP. unfold update. apply runs_bind. eapply sysctl_runs; [exact Hat|].
  intros v w1 u1 Hat1 Hu1 _ Hbits Hclk _.
  assert (Hu : u1 = u) by (destruct Hu1 as [->| ->]; [done|rewrite <- H0; apply set_sys_id]). subst u1.
  rewrite H0 in Hbits. destruct (Hf v Hbits Hclk) as (Hx & Hrsta & Hc).
  eapply wr_runs; [exact Hat1|]. intros w2 o2 Hat2 _. pose proof (ml_control (regs w1) (f v)) as Hct.
  cbv zeta in Hct. rewrite (has_part (f v) RESET_BITS) in Hct by reflexivity.
  rewrite Hx, Hrsta, Hc, (at_u _ _ _ _ _ Hat1) in Hct. rewrite Hct in Hat2. by eapply HP.
Qed.

(** Waiting for the end of a reset. *)
Lemma reset_wait_runs mask x c w s k u o P :
  Z.land RESET_BITS mask = mask -> Z.land x mask = x -> At w s k (set_sys u x c) o ->
  (forall w', At w' s k (set_sys u 0 c) o -> P tt w') ->
  runs (wait_while fuel (test MX_MMCSYSCTL mask)) w P.
Proof.
  intros Hm Hx Hat HP.
  apply (wait_runs (fun w => At w s k (set_sys u x c) o \/ At w s k (set_sys u 0 c) o)
    (fun w => At w s k (set_sys u 0 c) o)); [by left|apply busy_fuel| |done].
  assert (Hstep : forall y w1, y = x \/ y = 0 -> At w1 s k (set_sys u y c) o -> runs (test MX_MMCSYSCTL mask) w1 (fun b w' =>
    (At w' s k (set_sys u x c) o \/ At w' s k (set_sys u 0 c) o) /\
    (mx_busy (regs w') <= pred (mx_busy (regs w1)))%nat /\ (mx_busy (regs w1) = O -> b = false) /\
    (b = false -> At w' s k (set_sys u 0 c) o))).
  { intros y w1 Hy Hat1. unfold test. apply runs_bind. eapply sysctl_runs; [exact Hat1|].
    intros v w2 u2 Hat2 Hu2 Hb Hbits _ H0. apply runs_ret. rewrite (has_part v RESET_BITS) by done. rewrite Hbits.
    assert (Hrst : v_rst u2 = x /\ u2 = set_sys u x c \/ v_rst u2 = 0 /\ u2 = set_sys u 0 c)
      by (destruct Hu2 as [-> | ->], Hy as [-> | ->]; cbn; auto).
    destruct Hrst as [[Hr ->]|[Hr ->]]; rewrite Hr in *.
    - destruct (decide (x = 0)) as [->|Hne]; [split_and!; auto|]. split_and!; auto; [intros Hz; by specialize (H0 Hz)|].
      unfold has. rewrite Hx, (proj2 (Z.eqb_neq _ _)) by done. done.
    - split_and!; auto. }
  intros w1 [Hat1|Hat1]; (eapply Hstep; [|exact Hat1]); auto.
Qed.

(** Bits that a write sets or clears. *)
Lemma reset_bits_lor v a : Z.land v RESET_BITS = 0 -> Z.land (Z.lor v a) RESET_BITS = Z.land a RESET_BITS.
Proof. intros Hv. by rewrite Z.land_lor_distr_l, Hv. Qed.

Lemma reset_bits_land v m : Z.land v RESET_BITS = 0 -> Z.land (Z.land v m) RESET_BITS = 0.
Proof. intros Hv. by rewrite <- Z.land_assoc, (Z.land_comm m), Z.land_assoc, Hv. Qed.

Lemma low_reset_bits a : 0 <= a < 2 ^ 24 -> Z.land a RESET_BITS = 0.
Proof.
  intros Ha. apply Z.bits_inj'. intros i Hi. rewrite Z.land_spec, Z.bits_0.
  destruct (Z.ltb_spec i 24).
  - replace (Z.testbit RESET_BITS i) with false; [apply andb_false_r|]. symmetry.
    assert (Hx : i = 0 \/ i = 1 \/ i = 2 \/ i = 3 \/ i = 4 \/ i = 5 \/ i = 6 \/ i = 7 \/ i = 8 \/ i = 9 \/ i = 10 \/
      i = 11 \/ i = 12 \/ i = 13 \/ i = 14 \/ i = 15 \/ i = 16 \/ i = 17 \/ i = 18 \/ i = 19 \/ i = 20 \/ i = 21 \/
      i = 22 \/ i = 23) by lia.
    repeat (destruct Hx as [->|Hx]; [reflexivity|]). by subst.
  - rewrite <- (Z.mod_small a (2 ^ 24)) by done. by rewrite Z.mod_pow2_bits_high by lia.
Qed.

(** ** The settings *)

Lemma set_frq_runs khz w s k u o P :
  At w s k u o -> v_rst u = 0 -> (forall w' o', At w' s k (set_sys u 0 true) o' -> P tt w') ->
  runs (mx_set_frq fuel khz) w P.
Proof.
  intros Hat H0 HP. unfold mx_set_frq. apply runs_bind, runs_get. rewrite (at_s _ _ _ _ _ Hat).
  apply runs_bind. exists k, w. split.
  { pose proof (at_k _ _ _ _ _ Hat) as Hk. unfold get_clock. destruct w as [s1 h]. cbn in *. by rewrite Hk. }
  set (sctl := sysctl_value _ _ _).
  pose proof (sysctl_value_bound (timing s =? TIMING_DDR50) k khz) as Hb. fold sctl in Hb.
  assert (Hclk : has sctl MMCSYSCTL_SDCLKEN = true).
  { unfold sctl, sysctl_value. destruct (divisors _ _ _). unfold clock_fields. by rewrite has_lor, orb_true_r. }
  clearbody sctl. apply runs_bind.
  apply (control_runs _ 0 false w s k u o); [exact Hat|done| |].
  { intros v Hv _. split; [by apply reset_bits_land|]. split; [done|]. by rewrite (has_mask _ _ _ 0), has_0. }
  intros w1 o1 Hat1. apply runs_bind. eapply (control_runs _ 0 false w1 s k _ o1); [exact Hat1|done| |].
  { intros v Hv Hc. split; [by apply reset_bits_land|]. split; [done|].
    by rewrite (has_mask _ _ _ MMCSYSCTL_SDCLKEN). }
  intros w2 o2 Hat2. apply runs_bind. eapply (control_runs _ 0 true w2 s k _ o2); [exact Hat2|done| |].
  { intros v Hv Hc. split; [by rewrite reset_bits_lor, low_reset_bits|]. split; [done|].
    by rewrite has_lor, Hclk, orb_true_r. }
  intros w3 o3 Hat3. apply runs_bind. eapply (lines_runs _ true); [|exact Hat3|].
  { intros r Hr. destruct (ml_lines r Hr) as (_ & _ & _ & ->). done. }
  intros w4 Hat4. apply runs_bind. apply (reset_wait_runs _ 0 true w4 s k u o3); [done|done|exact Hat4|].
  intros w5 Hat5. eapply (control_runs _ 0 true w5 s k _ o3); [exact Hat5|done| |exact HP].
  intros v Hv Hc. split; [by rewrite reset_bits_lor|]. split; [done|]. by rewrite has_lor, orb_true_r.
Qed.

Lemma set_bus_width_runs n w s k u o P :
  At w s k u o -> (forall w' o', At w' s k u o' -> P tt w') -> runs (mx_set_bus_width n) w P.
Proof.
  intros Hat HP. unfold mx_set_bus_width. apply runs_bind. eapply rd_runs; [done|done|exact Hat|].
  intros w1 Hat1 _. apply runs_bind. eapply wr_plain_runs; [cbn; tauto|exact Hat1|]. intros w2 o2 Hat2.
  apply runs_bind. eapply rd_runs; [done|done|exact Hat2|]. intros w3 Hat3 _.
  eapply wr_plain_runs; [cbn; tauto|exact Hat3|exact HP].
Qed.

Lemma set_timing_runs t w s k u o P :
  At w s k u o -> (forall w' o' v, At w' (with_timing s t) k (set_mixr u v) o' -> P tt w') ->
  runs (mx_set_timing t) w P.
Proof.
  intros Hat HP. unfold mx_set_timing. apply runs_bind. eapply rd_runs; [done|done|exact Hat|].
  intros w1 Hat1 _. apply runs_bind. eapply (wr_setup_runs _ _ (fun u => set_mixr u _)); [|exact Hat1|].
  { intros r. apply ml_mix. }
  intros w2 o2 Hat2. apply runs_modify. destruct Hat2 as [Hs Hk Hu Ho]. eapply HP. split; cbn; [by rewrite Hs|done..].
Qed.

Lemma fini_runs w s k u o P :
  At w s k u o -> (forall w' o', At w' s k (set_sys (set_en u 0) 0 false) o' -> P 0 w') ->
  runs mx_sdmmc_fini w P.
Proof.
  intros Hat HP. unfold mx_sdmmc_fini. apply runs_bind.
  eapply wr_plain_runs; [cbn; tauto|exact Hat|]. intros w1 o1 Hat1. apply runs_bind.
  eapply (wr_setup_runs _ _ (fun u => set_en u 0)); [intros r; apply ml_en|exact Hat1|]. intros w2 o2 Hat2.
  apply runs_bind. unfold update. apply runs_bind. eapply rd_runs; [done|done|exact Hat2|]. intros w3 Hat3 _.
  eapply wr_plain_runs; [cbn; tauto|exact Hat3|]. intros w4 o4 Hat4. apply runs_bind.
  eapply (wr_setup_runs _ _ (fun u => set_sys u 0 false)); [intros r; apply (ml_control r 0)|exact Hat4|].
  intros w5 o5 Hat5. apply runs_bind. eapply wr_runs; [exact Hat5|]. intros w6 o6 Hat6 _. apply runs_ret.
  rewrite ml_off in Hat6 by (by rewrite (at_u _ _ _ _ _ Hat5)). rewrite (at_u _ _ _ _ _ Hat5) in Hat6.
  by eapply HP.
Qed.

(** The state initialisation leaves the driver in. *)
Definition init_state s : sdmmc_t :=
  mk_sdmmc 0x1aa 0x00300000 (caps s) (sd_cmd s) (card s) (cid s) (csd s) (scr s) (mmc_ecsd s) (timing s).

Lemma init_runs w s k u o P :
  At w s k u o ->
  (forall w' u' o', At w' (init_state s) k u' o' -> powered u' -> v_card u' = v_card u -> v_mem u' = v_mem u ->
     P SDMMC_OK w') ->
  runs (mx_init_ctrl fuel) w P.
Proof.
  intros Hat HP. unfold mx_init_ctrl. apply runs_bind, runs_modify. destruct w as [s0 h].
  assert (Hat0 : At (init_state s, h) (init_state s) k u o) by (destruct Hat; by split).
  pose proof (at_s _ _ _ _ _ Hat) as Hs0. cbn [fst snd] in *. subst s0. apply runs_bind.
  eapply fini_runs; [exact Hat0|]. intros w1 o1 Hat1. apply runs_bind. unfold update. apply runs_bind.
  eapply sysctl_runs; [exact Hat1|]. intros v w2 u2 Hat2 Hu2 _ Hbits _ _.
  assert (Hu : u2 = set_sys (set_en u 0) 0 false) by (by destruct Hu2 as [-> | ->]). subst u2. cbn [set_sys v_rst] in Hbits.
  eapply wr_runs; [exact Hat2|]. intros w3 o3 Hat3 _.
  pose proof (ml_control (regs w2) (Z.lor v MMCSYSCTL_RSTA)) as Hct. cbv zeta in Hct.
  rewrite has_lor, orb_true_r, reset_bits_lor in Hct by done. rewrite (at_u _ _ _ _ _ Hat2) in Hct.
  set (u3 := mx_view (out32 _ _ _)) in *. destruct Hct as (Hc3 & Hm3 & Hr3). cbn [set_sys set_en v_card v_mem] in *.
  clearbody u3. apply runs_bind.
  rewrite <- (set_sys_id u3), Hr3 in Hat3.
  eapply reset_wait_runs; [| |exact Hat3|]; [done|done|]. intros w4 Hat4. apply runs_bind.
  eapply set_frq_runs; [exact Hat4|done|]. intros w5 o5 Hat5. apply runs_bind.
  eapply wr_plain_runs; [cbn; tauto|exact Hat5|]. intros w6 o6 Hat6. apply runs_bind.
  eapply wr_plain_runs; [cbn; tauto|exact Hat6|]. intros w7 o7 Hat7. apply runs_bind.
  eapply (wr_setup_runs _ _ (fun u => set_en u ALL_STATUS)); [intros r; apply ml_en|exact Hat7|].
  intros w8 o8 Hat8. apply runs_ret. eapply HP; [exact Hat8|by split|done|done].
Qed.

(** ** Commands *)

Lemma set_mix_runs bits w s k u o P :
  At w s k u o ->
  (forall w' o' v, At w' s k (set_mixr u v) o' ->
     Z.land v (Z.lor DMA_READ MULTI) = Z.land bits (Z.lor DMA_READ MULTI) -> P tt w') ->
  runs (set_mix bits) w P.
Proof.
  intros Hat HP. unfold set_mix, update. apply runs_bind. eapply rd_runs; [done|done|exact Hat|].
  intros w1 Hat1 _. eapply (wr_setup_runs _ _ (fun u => set_mixr u _)); [|exact Hat1|].
  { intros r. apply ml_mix. }
  intros w2 o2 Hat2. eapply HP; [exact Hat2|].
  rewrite Z.land_lor_distr_l. rewrite (land_const _ MIX_KEPT _ 0) by done. by rewrite Z.land_0_r, Z.lor_0_r.
Qed.

(** After an error. *)
Lemma reset_cmd_runs w s k u o P :
  At w s k u o -> v_rst u = 0 -> (forall w' o', At w' s k u o' -> P tt w') -> runs (reset_cmd fuel) w P.
Proof.
  intros Hat H0 HP. unfold reset_cmd. apply runs_bind.
  eapply (control_runs _ MMCSYSCTL_RSTC (v_clk u)); [exact Hat|done| |].
  { intros v Hv Hc. split; [by rewrite reset_bits_lor|]. split; [done|]. by rewrite has_lor, Hc, orb_false_r. }
  intros w1 o1 Hat1. eapply reset_wait_runs; [| |exact Hat1|]; [done|done|]. intros w2 Hat2.
  rewrite <- H0, set_sys_id in Hat2. by eapply HP.
Qed.

(** The setup of a command with its argument; the transfer registers for one with data. *)
Definition set_up (data : bool) s u (mix : Z) : mx_setup :=
  set_mixr (set_arg (if data
    then set_dma (set_blk u (Z.lor (u32 (Z.shiftl (bcnt (sd_cmd s)) 16)) (bsize (sd_cmd s)))) (dbuf (sd_cmd s))
    else u) (arg (sd_cmd s))) mix.

Lemma powered_set_up d s u m : powered u -> powered (set_up d s u m).
Proof. unfold set_up, powered. by destruct d. Qed.

Lemma setup_dma_runs w s k u o P :
  At w s k u o -> v_rst u = 0 ->
  (forall w' o', At w' s k (set_dma (set_blk u (Z.lor (u32 (Z.shiftl (bcnt (sd_cmd s)) 16)) (bsize (sd_cmd s))))
                   (dbuf (sd_cmd s))) o' -> P tt w') ->
  runs mx6x_setup_dma_read w P.
Proof.
  intros Hat H0 HP. unfold mx6x_setup_dma_read. apply runs_bind, runs_get. rewrite (at_s _ _ _ _ _ Hat).
  apply runs_bind. eapply (wr_setup_runs _ _ (fun u => set_blk u _)); [intros r; apply ml_blk|exact Hat|].
  intros w1 o1 Hat1. apply runs_bind.
  eapply (wr_setup_runs _ _ (fun u => set_dma u _)); [intros r; apply ml_dma|exact Hat1|]. intros w2 o2 Hat2.
  eapply (control_runs _ 0 (v_clk u)); [exact Hat2|done| |].
  { intros v Hv Hc. split; [by rewrite reset_bits_lor by (by apply reset_bits_land)|]. split; [done|].
    rewrite has_lor, (has_mask _ _ _ MMCSYSCTL_SDCLKEN) by done. by rewrite Hc, orb_false_r. }
  intros w3 o3 Hat3. eapply (HP w3 o3). destruct u. cbn in H0. subst. exact Hat3.
Qed.

(** Up to the write that sends the command. *)
Lemma issue_runs n x w s k u o P :
  At w s k u o -> v_rst u = 0 ->
  (forall w' o' m, Z.land m (Z.lor DMA_READ MULTI) = Z.land (mix_of n) (Z.lor DMA_READ MULTI) ->
     At w' s k (set_up (has x MMCCMDXTYPE_DPSEL) s u m) o' -> runs (wr MX_MMCCMDXTYPE x) w' P) ->
  runs (issue fuel n x) w P.
Proof.
  intros Hat H0 HP. unfold issue. apply runs_bind. eapply ready_runs; [exact Hat|]. intros w1 Hat1.
  apply runs_bind.
  assert (Hinit : forall P', (forall w' o', At w' s k u o' -> P' tt w') -> runs (if n =? 0 then
         _ ← update MX_MMCSYSCTL (fun v => Z.lor (Z.lor v MMCSYSCTL_INITA) (Z.shiftl 0x2 MMCSYSCTL_DTOCVSHIFT));
         wait_while fuel (test MX_MMCSYSCTL MMCSYSCTL_INITA)
       else mret tt) w1 P').
  { intros P' HP'. destruct (n =? 0); [|by apply runs_ret, (HP' _ o)]. apply runs_bind.
    eapply (control_runs _ MMCSYSCTL_INITA (v_clk u)); [exact Hat1|done| |].
    { intros v Hv Hc. rewrite <- Z.lor_assoc. split; [by rewrite reset_bits_lor|]. split; [done|].
      by rewrite has_lor, Hc, orb_false_r. }
    intros w2 o2 Hat2. eapply reset_wait_runs; [| |exact Hat2|]; [done|done|]. intros w3 Hat3.
    rewrite <- H0, set_sys_id in Hat3. by eapply HP'. }
  apply Hinit. intros w2 o2 Hat2. apply runs_bind.
  assert (Hdata : forall P', (forall w' o', At w' s k (if has x MMCCMDXTYPE_DPSEL
      then set_dma (set_blk u (Z.lor (u32 (Z.shiftl (bcnt (sd_cmd s)) 16)) (bsize (sd_cmd s)))) (dbuf (sd_cmd s))
      else u) o' -> P' tt w') -> runs (if has x MMCCMDXTYPE_DPSEL then mx6x_setup_dma_read else mret tt) w2 P').
  { intros P' HP'. destruct (has x _); [|by apply runs_ret, (HP' _ o2)].
    eapply setup_dma_runs; [exact Hat2|done|exact HP']. }
  apply Hdata. intros w3 o3 Hat3. apply runs_bind.
  eapply wr_plain_runs; [cbn; tauto|exact Hat3|]. intros w4 o4 Hat4. apply runs_bind.
  eapply wr_plain_runs; [cbn; tauto|exact Hat4|]. intros w5 o5 Hat5. apply runs_bind, runs_get.
  rewrite (at_s _ _ _ _ _ Hat5). apply runs_bind.
  eapply (wr_setup_runs _ _ (fun u => set_arg u _)); [intros r; apply ml_arg|exact Hat5|]. intros w6 o6 Hat6.
  apply runs_bind. eapply set_mix_runs; [exact Hat6|]. intros w7 o7 m Hat7 Hm.
  by eapply (HP w7 o7 m).
Qed.
(** *** The status of a command *)

(** The outcome a command can have, for the bits that tell its success. *)
Definition decided (bits i : Z) : Prop := succeeded bits i \/ unanswered i.

Lemma succeeded_has bits i b : succeeded bits i -> Z.land b bits = b -> b <> 0 -> has i b = true.
Proof.
  intros [_ Hi] Hb H0. unfold has. rewrite <- Hb, (Z.land_comm b), Z.land_assoc, Hi, Z.land_comm, Hb.
  by rewrite (proj2 (Z.eqb_neq _ _)).
Qed.

Lemma unanswered_cc i : unanswered i -> has i MMCINTR_CC = false.
Proof.
  intros [_ Hi]. unfold has. rewrite <- (Z.mod_small MMCINTR_CC (2 ^ 16)) by (split; [done|by vm_compute]).
  rewrite <- Z.land_ones, Z.land_assoc by lia. rewrite (Z.land_comm i). rewrite <- Z.land_assoc.
  rewrite Z.land_ones by lia. change (i mod 2 ^ 16) with (u16 i). by rewrite Hi.
Qed.

Lemma unanswered_err i : unanswered i -> has i MMCINTR_ERRI = true.
Proof. intros [Hi _]. unfold has. by rewrite (proj2 (Z.eqb_neq _ _)). Qed.

Lemma succeeded_err bits i : succeeded bits i -> has i MMCINTR_ERRI = false.
Proof. intros [Hi _]. unfold has. by rewrite Hi. Qed.

Definition settled w : Prop := mx_busy (regs w) = O.

(** Reading the status: the outcome once it is settled, and else nothing or that it is complete. *)
Lemma status_runs w s k u o P :
  At w s k u o ->
  (forall v w', At w' s k u o ->
     settled w /\ settled w' /\ v = v_int o \/
     ~ settled w /\ (v = 0 \/ v = MMCINTR_CC /\ has (v_int o) MMCINTR_CC = true) ->
     (mx_busy (regs w') <= pred (mx_busy (regs w)))%nat -> P v w') ->
  runs (rd MX_MMCINTRST) w P.
Proof.
  intros Hat HP. eapply rd_runs; [done|done|exact Hat|]. intros w' Hat' Hb.
  pose proof (ml_status (regs w)) as Hst. cbv zeta in Hst. rewrite (at_o _ _ _ _ _ Hat) in Hst.
  apply HP; [done| |lia]. unfold settled in *. destruct (decide _) as [H0|H0] in Hst; [left|by right].
  rewrite Hb, H0. by split_and!.
Qed.

(** Waiting for a status: in the end it is settled, or only known to be complete. *)
Lemma status_wait_runs bits w s k u o P :
  has (v_int o) (Z.lor bits MMCINTR_ERRI) = true -> At w s k u o ->
  (forall w', At w' s k u o ->
     settled w' \/ has MMCINTR_CC (Z.lor bits MMCINTR_ERRI) = true /\ has (v_int o) MMCINTR_CC = true -> P tt w') ->
  runs (wait_while fuel (test_not MX_MMCINTRST (Z.lor bits MMCINTR_ERRI))) w P.
Proof.
  intros Hi Hat HP. apply (wait_runs (fun w => At w s k u o) (fun w' => At w' s k u o /\
    (settled w' \/ has MMCINTR_CC (Z.lor bits MMCINTR_ERRI) = true /\ has (v_int o) MMCINTR_CC = true)));
    [done|apply busy_fuel| |by intros w' [? ?]; auto].
  intros w1 Hat1. unfold test_not. apply runs_bind. eapply status_runs; [exact Hat1|].
  intros v w2 Hat2 Hv Hb. apply runs_ret. split_and!; try done.
  - intros H0. destruct Hv as [(_ & _ & ->)|[Hn _]]; [by rewrite Hi|done].
  - intros Hneg. split; [done|]. destruct Hv as [(_ & Hs & _)|[_ [-> |[-> Hcc]]]]; [by left| |right].
    + unfold has in Hneg. by rewrite Z.land_0_l in Hneg.
    + split; [|done]. by destruct (has MMCINTR_CC _).
Qed.

(** The driver's note of an error. *)
Lemma set_erintsts_runs v w s k u o P :
  At w s k u o ->
  (forall w' s', At w' s' k u o -> strip s' = strip s -> same_cmd (sd_cmd s') (sd_cmd s) ->
     mx_busy (regs w') = mx_busy (regs w) -> erintsts (sd_cmd s') = signed 16 v -> P tt w') ->
  runs (set_erintsts v) w P.
Proof.
  intros [Hs Hk Hu Ho] HP. unfold set_erintsts. apply runs_modify. eapply HP; [by split|..]; by rewrite Hs.
Qed.

(** ** The command table *)

(** The entry of a command: its index, whether it has data, and whether its response is long. *)
Definition entry_ok (data : bool) (n : Z) : bool :=
  match get_cmd cmdtab n with
  | Some x => (index_of x =? cmd_index n) && eqb (has x MMCCMDXTYPE_DPSEL) data &&
              eqb (Z.land x MMCCMDXTYPE_RSPTYPMASK =? MMCCMDXTYPE_RSPTYPL136) ((n =? 2) || (n =? 9))
  | None => false
  end.

Lemma sendable_entry n : sendable n = true -> entry_ok false n = true.
Proof.
  unfold sendable. rewrite existsb_exists. intros (y & Hy & ->%Z.eqb_eq).
  repeat (destruct Hy as [<-|Hy]; [vm_compute; reflexivity|]). done.
Qed.

Lemma entry_spec data n : entry_ok data n = true ->
  exists x, get_cmd cmdtab n = Some x /\ index_of x = cmd_index n /\ has x MMCCMDXTYPE_DPSEL = data /\
    (Z.land x MMCCMDXTYPE_RSPTYPMASK =? MMCCMDXTYPE_RSPTYPL136) = (n =? 2) || (n =? 9).
Proof.
  unfold entry_ok. destruct (get_cmd cmdtab n) as [x|]; [|done].
  rewrite !andb_true_iff, !eqb_true_iff, Z.eqb_eq. intros [[? ?] ?]. by exists x.
Qed.

(** One register of a long response, and the word the driver puts together from two of them. *)
Lemma wire_word b c : fits 32 b -> fits 32 c ->
  Z.lor (Z.shiftr b 8) (u32 (Z.shiftl c 24)) = c mod 2 ^ 8 * 2 ^ 24 + b / 2 ^ 8.
Proof.
  intros Hb Hc. unfold fits in *. rewrite Z.lor_comm, Z.shiftr_div_pow2 by lia.
  replace (u32 (Z.shiftl c 24)) with (Z.shiftl (c mod 2 ^ 8) 24).
  - apply lor_pieces; [lia|]. Z.to_euclidean_division_equations; lia.
  - rewrite !Z.shiftl_mul_pow2 by lia. unfold wrap. change (2 ^ 32) with (2 ^ 8 * 2 ^ 24).
    by rewrite Z.mul_mod_distr_r by lia.
Qed.

Lemma low_word b c : fits 32 b -> fits 32 c ->
  u32 (Z.shiftl (c mod 2 ^ 8 * 2 ^ 24 + b / 2 ^ 8) 8) = Z.shiftl (b / 2 ^ 8) 8.
Proof.
  intros Hb Hc. unfold fits in *. rewrite !Z.shiftl_mul_pow2 by lia. unfold wrap.
  replace ((c mod 2 ^ 8 * 2 ^ 24 + b / 2 ^ 8) * 2 ^ 8) with (b / 2 ^ 8 * 2 ^ 8 + c mod 2 ^ 8 * 2 ^ 32) by ring.
  rewrite Z.mod_add by lia. apply Z.mod_small. Z.to_euclidean_division_equations; lia.
Qed.

Lemma word_back a b c : fits 32 a -> fits 32 b -> fits 32 c ->
  Z.lor (u32 (Z.shiftl (c mod 2 ^ 8 * 2 ^ 24 + b / 2 ^ 8) 8))
    (Z.shiftr (b mod 2 ^ 8 * 2 ^ 24 + a / 2 ^ 8) 24) = b.
Proof.
  intros Ha Hb Hc. rewrite low_word by done. unfold fits in *.
  replace (Z.shiftr (b mod 2 ^ 8 * 2 ^ 24 + a / 2 ^ 8) 24) with (b mod 2 ^ 8).
  - rewrite lor_pieces; [|lia|apply Z.mod_pos_bound; lia].
    rewrite Z.mul_comm. symmetry. apply Z.div_mod. lia.
  - rewrite Z.shiftr_div_pow2, Z.div_add_l by lia. rewrite (Z.div_small (a / 2 ^ 8)); [lia|].
    Z.to_euclidean_division_equations; lia.
Qed.

(** A long response comes back whole from the registers, but for its checksum. *)
Lemma shift_response_wire a b c d :
  fits 32 a -> fits 32 b -> fits 32 c -> fits 32 d -> a mod 2 ^ 8 = 0 ->
  shift_response (Z.lor (Z.shiftr a 8) (u32 (Z.shiftl b 24))) (Z.lor (Z.shiftr b 8) (u32 (Z.shiftl c 24)))
    (Z.lor (Z.shiftr c 8) (u32 (Z.shiftl d 24))) (Z.shiftr d 8) = [a; b; c; d].
Proof.
  intros Ha Hb Hc Hd H0. unfold shift_response. rewrite !wire_word by done.
  replace (Z.shiftr d 8) with (0 mod 2 ^ 8 * 2 ^ 24 + d / 2 ^ 8) by (rewrite Z.shiftr_div_pow2 by lia; done).
  rewrite !word_back by (done || (unfold fits; lia)). rewrite low_word by done. do 2 f_equal.
  rewrite Z.shiftl_mul_pow2 by lia. rewrite (Z.div_mod a (2 ^ 8)) at 2 by lia. lia.
Qed.
(** ** The interface *)

(** The bus behind the controller: it is good when it can carry out commands, for a card as the
    specification has it. *)
Definition host_good (h : mx R) : Prop :=
  powered (mx_view (mx_regs h)) /\ info_ok (c_info (v_card (mx_view (mx_regs h)))).

Definition mx_bus : HostBus (mx R) := {|
  hb_card := fun h => v_card (mx_view (mx_regs h));
  hb_mem := fun h => v_mem (mx_view (mx_regs h));
  hb_good := host_good;
  hb_max := 65535;
  hb_icr := 0x1aa;
  hb_ocr := 0x00300000
|}.

(** An execution that ends with answer [a], card [c] and memory [m]. *)
Definition Done {A} (a : A) s (c : bus_card) (m : list Z) : A -> sdmmc_t * mx R -> Prop := fun a' w' =>
  a' = a /\ exists s' k u o, At w' s' k u o /\ strip s' = strip s /\ same_cmd (sd_cmd s') (sd_cmd s) /\
    powered u /\ info_ok (c_info (v_card u)) /\ v_card u = c /\ v_mem u = m.

Lemma ends_of_runs {A} (f : M (mx R) A) s0 h a s c m :
  runs f (s0, h) (Done a s c m) -> ends (H0 := mx_bus) (f (s0, h)) a s c m.
Proof.
  intros (a' & [s' h'] & Hrun & -> & s1 & k & u & o & [Hs Hk Hu Ho] & Hst & Hcmd & Hp & Hi & Hc & Hm).
  unfold regs in *. cbn in *. subst. exists s1, h'. split; [done|]. by split_and!.
Qed.

Lemma same_cmd_refl (x : sdmmc_cmd_t) : same_cmd x x.
Proof. done. Qed.

Lemma has_lor_mask v a b : has v (Z.lor a b) = has v a || has v b.
Proof. unfold has. rewrite (Z.land_comm v), (Z.land_comm v a), (Z.land_comm v b). apply has_lor. Qed.

Lemma card_cmd_info c n a : c_info (fst (card_cmd c n a)) = c_info c.
Proof. unfold card_cmd, op_cond, ignore, goto. repeat case_match; done. Qed.

Lemma card_pio_info c n a len : c_info (fst (card_pio c n a len)) = c_info c.
Proof. unfold card_pio, ignore, goto. repeat case_match; done. Qed.

(** The words of a response: four for the registers, one for anything else. *)
Lemma card_cmd_words c n a c' v :
  card_cmd c n a = (c', Some v) -> info_ok (c_info c) -> n <> 0 ->
  if (n =? 2) || (n =? 9) then words_ok v else exists x, v = [x].
Proof.
  intros Hc Hi Hn. pose proof (io_cid _ Hi). pose proof (io_csd _ Hi).
  unfold card_cmd, op_cond, ignore, goto in Hc. repeat case_match; simplify_eq; cbn; eauto; done.
Qed.
(** The response, as the driver is given it. *)
Lemma read_response_runs x n v w s k u o P :
  At w s k u o -> v_rsp o = on_wire x v ->
  (Z.land x MMCCMDXTYPE_RSPTYPMASK =? MMCCMDXTYPE_RSPTYPL136) = (n =? 2) || (n =? 9) ->
  (rsp (sd_cmd s) = true -> if (n =? 2) || (n =? 9) then words_ok v else exists y, v = [y]) ->
  (forall w', At w' s k u o -> P (if rsp (sd_cmd s) then v else []) w') -> runs (read_response x) w P.
Proof.
  intros Hat Hv Ht Hw HP. unfold read_response. apply runs_bind, runs_get. rewrite (at_s _ _ _ _ _ Hat).
  destruct (rsp (sd_cmd s)); [|by apply runs_ret, HP]. specialize (Hw eq_refl). apply runs_bind.
  eapply rd_runs; [done|done|exact Hat|]. intros w1 Hat1 _. destruct (ml_response (regs w)) as (-> & _).
  rewrite (at_o _ _ _ _ _ Hat), Hv. unfold on_wire. rewrite Ht in *. destruct ((n =? 2) || (n =? 9)).
  - destruct Hw as (a & b & c & d & -> & Ha & Hb & Hc & Hd & H0). cbn [nth]. apply runs_bind.
    eapply rd_runs; [done|done|exact Hat1|]. intros w2 Hat2 _. destruct (ml_response (regs w1)) as (_ & -> & _).
    apply runs_bind. eapply rd_runs; [done|done|exact Hat2|]. intros w3 Hat3 _.
    destruct (ml_response (regs w2)) as (_ & _ & -> & _). apply runs_bind.
    eapply rd_runs; [done|done|exact Hat3|]. intros w4 Hat4 _. destruct (ml_response (regs w3)) as (_ & _ & _ & ->).
    rewrite (at_o _ _ _ _ _ Hat1), (at_o _ _ _ _ _ Hat2), (at_o _ _ _ _ _ Hat3), Hv. unfold on_wire. rewrite Ht.
    cbn [nth]. rewrite shift_response_wire by done. by apply runs_ret, HP.
  - destruct Hw as (y & ->). by apply runs_ret, HP.
Qed.

(** The end of a command: the error path when it was not answered, and else the response. *)
Lemma outcome_runs {A} bits w s k u o (f : bool -> M (mx R) (option A)) P :
  At w s k u o -> powered u -> has MMCINTR_CC (Z.lor bits MMCINTR_ERRI) = true -> Z.land bits MMCINTR_CC = MMCINTR_CC ->
  decided bits (v_int o) ->
  (forall w', succeeded bits (v_int o) -> At w' s k u o -> runs (f false) w' P) ->
  (forall w' s' o', unanswered (v_int o) -> At w' s' k u o' -> strip s' = strip s ->
     same_cmd (sd_cmd s') (sd_cmd s) -> runs (f true) w' P) ->
  runs (_ ← wait_while fuel (test_not MX_MMCINTRST (Z.lor MMCINTR_CC MMCINTR_ERRI));
        temp ← rd MX_MMCINTRST;
        failed ← (if has temp MMCINTR_ERRI then
                    _ ← set_erintsts temp; _ ← reset_cmd fuel; mret (negb (temp =? 2))
                  else mret false);
        f failed) w P.
Proof.
  intros Hat Hp _ Hbits Hdec Hok Hno. apply runs_bind. eapply status_wait_runs; [|exact Hat|].
  { rewrite has_lor_mask. destruct Hdec as [Hs|Hu].
    { by rewrite (succeeded_has bits) by (done || by rewrite Z.land_comm). }
    by rewrite unanswered_err, orb_true_r. }
  intros w1 Hat1 Hq. apply runs_bind. eapply status_runs; [exact Hat1|]. intros v w2 Hat2 Hv _. apply runs_bind.
  destruct Hdec as [Hs|Hu].
  - assert (Herr : has v MMCINTR_ERRI = false).
    { destruct Hv as [(_ & _ & ->)|[_ [-> |[-> _]]]]; [by apply (succeeded_err bits)|done|done]. }
    rewrite Herr. apply runs_ret. by apply Hok.
  - assert (Hset : v = v_int o).
    { destruct Hq as [Hq|[_ Hcc]]; [|by rewrite unanswered_cc in Hcc].
      destruct Hv as [(_ & _ & ->)|[Hn _]]; [done|contradiction]. }
    subst v. rewrite unanswered_err by done. apply runs_bind. eapply set_erintsts_runs; [exact Hat2|].
    intros w3 s3 Hat3 Hst3 Hc3 _ _. apply runs_bind. eapply reset_cmd_runs; [exact Hat3|apply Hp|].
    intros w4 o4 Hat4. apply runs_ret.
    assert (H2 : (v_int o =? 2) = false).
    { apply Z.eqb_neq. intros H2. destruct Hu as [_ Hu]. by rewrite H2 in Hu. }
    rewrite H2. by eapply Hno.
Qed.

(** A command without data. *)
Lemma send_runs w s k u o :
  At w s k u o -> powered u -> info_ok (c_info (v_card u)) -> sendable (cmd (sd_cmd s)) = true ->
  (cmd (sd_cmd s) = 0 -> rsp (sd_cmd s) = false) ->
  let '(c, r) := card_send (v_card u) (cmd (sd_cmd s)) (arg (sd_cmd s)) in
  runs (mx_send_cmd fuel) w (Done (option_map (fun v => if rsp (sd_cmd s) then v else []) r) s c (v_mem u)).
Proof.
  intros Hat Hp Hinfo Hsend H0. destruct (entry_spec false _ (sendable_entry _ Hsend)) as (x & Hx & Hidx & Hdp & Hlong).
  destruct (card_send (v_card u) (cmd (sd_cmd s)) (arg (sd_cmd s))) as [c r] eqn:Hcs. unfold card_send in Hcs.
  unfold mx_send_cmd. apply runs_bind, runs_get. rewrite (at_s _ _ _ _ _ Hat), Hx. apply runs_bind.
  eapply issue_runs; [exact Hat|apply Hp|]. intros w1 o1 m _ Hat1. rewrite Hdp in Hat1.
  eapply wr_runs; [exact Hat1|]. intros w2 o2 Hat2 Ho2.
  pose proof (ml_command (regs w1) x) as Hcmd. cbv zeta in Hcmd. rewrite (at_u _ _ _ _ _ Hat1) in Hcmd.
  cbn [set_up set_mixr set_arg v_card v_arg] in Hcmd. rewrite Hidx, Hcs in Hcmd.
  destruct (Hcmd (powered_set_up false s u m Hp) Hdp) as [Hview Hout]. rewrite Ho2 in Hout. rewrite Hview in Hat2.
  set (u2 := set_bus _ c _) in *. assert (Hp2 : powered u2) by done.
  assert (Hi2 : info_ok (c_info (v_card u2))).
  { cbn. pose proof (card_cmd_info (v_card u) (cmd_index (cmd (sd_cmd s))) (arg (sd_cmd s))) as Hci.
    rewrite Hcs in Hci. cbn in Hci. by rewrite Hci. }
  rewrite Hdp. eapply (outcome_runs MMCINTR_CC); [exact Hat2|exact Hp2|done|done| | |].
  { destruct r; [left; apply Hout|right; exact Hout]. }
  - intros w3 Hok Hat3. destruct r as [v|].
    2: { exfalso. pose proof (succeeded_err _ _ Hok) as He. by rewrite unanswered_err in He. }
    apply runs_bind. eapply (read_response_runs x (cmd (sd_cmd s)) v); [exact Hat3|apply Hout|done| |].
    { intros Hr. pose proof (card_cmd_words _ _ _ _ _ Hcs Hinfo) as Hw.
      assert (Hn0 : cmd_index (cmd (sd_cmd s)) <> 0).
      { intros Hn. unfold sendable in Hsend. rewrite existsb_exists in Hsend. destruct Hsend as (y & Hy & Heq).
        apply Z.eqb_eq in Heq. rewrite Heq in *.
        repeat (destruct Hy as [<-|Hy]; [first [by specialize (H0 eq_refl); rewrite H0 in Hr|by vm_compute in Hn]|]). done. }
      specialize (Hw Hn0). unfold sendable in Hsend. rewrite existsb_exists in Hsend.
      destruct Hsend as (y & Hy & Heq). apply Z.eqb_eq in Heq. rewrite Heq in *. clear Heq.
      repeat (destruct Hy as [<-|Hy]; [exact Hw|]). done. }
    intros w4 Hat4. apply runs_ret. split; [done|]. by exists s, k, u2, o2.
  - intros w3 s3 o3 Hun Hat3 Hst3 Hc3. destruct r as [v|].
    { exfalso. destruct Hout as [Hok _]. pose proof (succeeded_err _ _ Hok) as He. by rewrite unanswered_err in He. }
    apply runs_ret. split; [done|]. by exists s3, k, u2, o3.
Qed.
(** *** Data *)

Lemma blk_register n len : 0 < n < 2 ^ 16 -> 0 <= len < 2 ^ 13 ->
  blk_count (Z.lor (u32 (Z.shiftl n 16)) len) = n /\ blk_bytes (Z.lor (u32 (Z.shiftl n 16)) len) = len.
Proof.
  intros Hn Hl. rewrite wrap_id by (unfold fits; rewrite Z.shiftl_mul_pow2 by lia; lia).
  rewrite lor_pieces by lia. unfold blk_count, blk_bytes.
  change 0xffff with (2 ^ 16 - 1). change 0x1fff with (2 ^ 13 - 1). rewrite !land_low, Z.shiftr_div_pow2 by lia.
  split; Z.to_euclidean_division_equations; lia.
Qed.

(** The end of a transfer without an error. *)
Lemma data_end_runs n w s k u o P :
  At w s k u o -> succeeded (Z.lor MMCINTR_CC MMCINTR_TC) (v_int o) -> (0 < n)%nat ->
  (forall w', At w' s k u o -> P true w') -> runs (data_end fuel n) w P.
Proof.
  intros Hat Hok Hn HP. destruct n as [|n]; [lia|]. cbn [data_end].
  assert (Htc : has (v_int o) MMCINTR_TC = true) by (by apply (succeeded_has (Z.lor MMCINTR_CC MMCINTR_TC))).
  apply runs_bind. eapply status_wait_runs; [by rewrite has_lor_mask, Htc|exact Hat|].
  intros w1 Hat1 [Hq|[Hq _]]; [|done]. apply runs_bind. unfold test. apply runs_bind.
  eapply status_runs; [exact Hat1|]. intros v w2 Hat2 [(_ & Hq2 & ->)|[Hq2 _]] _; [|done]. apply runs_ret.
  rewrite (succeeded_err _ _ Hok). apply runs_bind. apply runs_bind.
  eapply status_runs; [exact Hat2|]. intros v w3 Hat3 [(_ & _ & ->)|[Hq3 _]] _; [|done]. apply runs_ret.
  rewrite Htc. by apply runs_ret, HP.
Qed.

(** A transfer of blocks. *)
Lemma mx_transfer_runs b n w s k u o :
  At w s k u o -> powered u -> info_ok (c_info (v_card u)) ->
  let q := sd_cmd s in
  let c := v_card u in
  (cmd q = MMC_READ_SINGLE_BLOCK /\ n = 1 \/ cmd q = MMC_READ_MULTIPLE_BLOCK /\ 1 < n) ->
  bsize q = 512 -> bcnt q = n -> n <= 65535 -> rsp q = false ->
  c_state c = st_tran -> c_app c = false -> first_block (c_info c) (arg q) = Some b ->
  0 <= b -> b + n <= ci_blocks (c_info c) -> 0 <= dbuf q -> dbuf q + 512 * n <= zlen (v_mem u) ->
  runs (mx_send_cmd fuel) w (Done (Some []) s c (splice (v_mem u) (dbuf q) (card_sectors (c_info c) b n))).
Proof.
  cbv zeta. intros Hat Hp Hinfo Hcmd Hbs Hbc Hmax Hrsp Hst Happ Hfb Hb Hbn Hd0 Hd.
  assert (He : entry_ok true (cmd (sd_cmd s)) = true) by (by destruct Hcmd as [[-> _]|[-> _]]).
  destruct (entry_spec true _ He) as (x & Hx & Hidx & Hdp & _).
  unfold mx_send_cmd. apply runs_bind, runs_get. rewrite (at_s _ _ _ _ _ Hat), Hx. apply runs_bind.
  eapply issue_runs; [exact Hat|apply Hp|]. intros w1 o1 m Hm Hat1. rewrite Hdp in Hat1.
  eapply wr_runs; [exact Hat1|]. intros w2 o2 Hat2 Ho2.
  pose proof (ml_transfer (regs w1) x b) as Htr. cbv zeta in Htr. rewrite (at_u _ _ _ _ _ Hat1) in Htr.
  cbn [set_up set_mixr set_arg set_dma set_blk v_card v_arg v_mem v_blk v_dma v_mix] in Htr.
  rewrite Hbs, Hbc in Htr. destruct (blk_register n 512) as [Hcount Hbytes]; [lia|lia|].
  rewrite Hcount, Hbytes in Htr.
  destruct Htr as [Hview Hok]; try done.
  { destruct Hcmd as [[Hc ->]|[Hc Hn]]; [left|right]; rewrite Hidx, Hc, Hm, Hc; split_and!; done. }
  rewrite Ho2 in Hok. rewrite Hview in Hat2. set (u2 := set_bus _ _ _) in *. assert (Hp2 : powered u2) by done.
  rewrite Hdp. eapply (outcome_runs (Z.lor MMCINTR_CC MMCINTR_TC)); [exact Hat2|exact Hp2|done|done|by left| |].
  - intros w3 _ Hat3. apply runs_bind. unfold read_response. apply runs_bind, runs_get.
    rewrite (at_s _ _ _ _ _ Hat3), Hrsp. apply runs_ret. apply runs_bind.
    eapply data_end_runs; [exact Hat3|exact Hok|lia|]. intros w4 Hat4. apply runs_ret. split; [done|].
    by exists s, k, u2, o2.
  - intros w3 s3 o3 Hun. exfalso. pose proof (succeeded_err _ _ Hok) as Herr. by rewrite unanswered_err in Herr.
Qed.
(** *** The data port *)

Lemma port_runs w s k u o P :
  At w s k u o ->
  (forall w', At w' s k u (mk_outcome (v_int o) (v_rsp o) (drop 4 (v_fifo o))) -> P (le_word (take 4 (v_fifo o))) w') ->
  runs (rd MX_MMCDATAPORT) w P.
Proof.
  intros [Hs Hk Hu Ho] HP. destruct w as [s1 [k1 r]]. unfold regs in *. cbn in *. unfold runs, rd. cbn.
  pose proof (ml_port r) as Hr. destruct (in32 MX_MMCDATAPORT r) as [v r']. cbv zeta in Hr. rewrite Ho in Hr.
  destruct Hr as (-> & Hv & Hout). eexists _, _. split; [done|]. apply HP. split; cbn; congruence.
Qed.

Lemma fifo_runs n : forall w s k u o P,
  At w s k u o -> length (v_fifo o) = (4 * n)%nat -> Z.of_nat n < 2 ^ 20 -> Forall (fits 8) (v_fifo o) ->
  (forall w' o', At w' s k u o' -> P (v_fifo o) w') -> runs (fifo_loop n (4 * Z.of_nat n)) w P.
Proof.
  induction n as [|n IH]; intros w s k u o P Hat Hl Hn Hb HP; cbn [fifo_loop].
  { change (0 <? 4 * Z.of_nat 0) with false. apply runs_ret. replace (@nil Z) with (v_fifo o); [by eapply HP|].
    by destruct (v_fifo o). }
  rewrite (proj2 (Z.ltb_lt _ _)) by lia. apply runs_bind. eapply port_runs; [exact Hat|]. intros w1 Hat1.
  apply runs_bind. replace (u32 (4 * Z.of_nat (S n) - 4)) with (4 * Z.of_nat n)
    by (rewrite wrap_id by (unfold fits; lia); lia).
  eapply IH; [exact Hat1|cbn; rewrite length_drop; lia|lia|by apply Forall_drop|]. cbn [v_fifo].
  intros w2 o2 Hat2. apply runs_ret. 
  assert (Hfour : le_bytes 4 (le_word (take 4 (v_fifo o))) = take 4 (v_fifo o)).
  { rewrite <- (le_bytes_word (take 4 (v_fifo o))) at 2 by (by apply Forall_take). f_equal.
    rewrite length_take. lia. }
  rewrite Hfour, take_drop. by eapply HP.
Qed.

(** What a register read answers with. *)
Lemma card_pio_bytes c n a len c' l :
  card_pio c n a len = (c', Some l) -> info_ok (c_info c) -> zlen l = len /\ Forall (fits 8) l.
Proof.
  intros Hc Hi. destruct (io_scr _ Hi) as [_ H1]. destruct (io_ecsd _ Hi) as [_ H2].
  assert (H3 : Forall (fits 8) (ci_sf (c_info c) a)) by (by destruct (io_sf _ Hi a)).
  unfold card_pio in Hc. cbv zeta in Hc.
  repeat case_match; simplify_eq; (match goal with Hb : _ && _ = true |- _ =>
    rewrite !andb_true_iff, Z.eqb_eq in Hb; destruct Hb as [_ ->] end); by split.
Qed.

(** The transfer register of a register read. *)
Definition pio_word (n : Z) : Z :=
  any_of [u32 (Z.shiftl n 24); MMCCMDXTYPE_CICEN; MMCCMDXTYPE_CCCEN; MMCCMDXTYPE_RSPTYPL48; MMCCMDXTYPE_DPSEL].

Lemma pio_word_spec n : 0 <= n < 64 -> index_of (pio_word n) = n /\ has (pio_word n) MMCCMDXTYPE_DPSEL = true.
Proof.
  intros Hn. unfold pio_word. cbn [any_of fold_right]. split.
  - unfold index_of. rewrite Z.shiftr_lor, wrap_id by (unfold fits; rewrite Z.shiftl_mul_pow2 by lia; lia).
    rewrite Z.shiftr_shiftl_l by lia. change (Z.shiftr (Z.lor MMCCMDXTYPE_CICEN _) 24) with 0.
    rewrite Z.lor_0_r, Z.shiftl_0_r. change 63 with (2 ^ 6 - 1). rewrite land_low by lia. by apply Z.mod_small.
  - by rewrite has_lor, orb_true_r.
Qed.

Lemma pio_runs len w s k u o :
  At w s k u o -> powered u -> info_ok (c_info (v_card u)) -> rsp (sd_cmd s) = false ->
  pio_ok (cmd (sd_cmd s)) len ->
  let '(c, r) := card_pio (v_card u) (cmd (sd_cmd s)) (arg (sd_cmd s)) len in
  runs (mx_pio_read fuel len) w (Done r s c (v_mem u)).
Proof.
  intros Hat Hp Hinfo Hrsp (Hn & Hl & H4). destruct (card_pio _ _ _ _) as [c r] eqn:Hcp.
  destruct (pio_word_spec _ Hn) as [Hidx Hdp]. unfold mx_pio_read.
  apply runs_bind. eapply ready_runs; [exact Hat|]. intros w1 Hat1. apply runs_bind.
  eapply (wr_setup_runs _ _ (fun u => set_blk u _)); [intros r1; apply ml_blk|exact Hat1|]. intros w2 o2 Hat2.
  apply runs_bind. eapply wr_plain_runs; [cbn; tauto|exact Hat2|]. intros w3 o3 Hat3. apply runs_bind.
  eapply set_mix_runs; [exact Hat3|]. intros w4 o4 m Hat4 Hm. apply runs_bind.
  eapply wr_plain_runs; [cbn; tauto|exact Hat4|]. intros w5 o5 Hat5. apply runs_bind, runs_get.
  rewrite (at_s _ _ _ _ _ Hat5). apply runs_bind.
  eapply (wr_setup_runs _ _ (fun u => set_arg u _)); [intros r1; apply ml_arg|exact Hat5|]. intros w6 o6 Hat6.
  apply runs_bind. eapply wr_runs; [exact Hat6|]. intros w7 o7 Hat7 Ho7. fold (pio_word (cmd (sd_cmd s))) in *.
  pose proof (ml_pio (regs w6) (pio_word (cmd (sd_cmd s)))) as Hpio. cbv zeta in Hpio.
  rewrite (at_u _ _ _ _ _ Hat6) in Hpio. cbn [set_mixr set_arg set_blk v_card v_arg v_mem v_blk v_mix] in Hpio.
  destruct (blk_register 1 len) as [Hcount Hbytes]; [lia|lia|].
  change (u32 (Z.shiftl 1 16)) with (Z.shiftl 1 16) in Hcount, Hbytes.
  rewrite Hidx, Hbytes, Hcp in Hpio. destruct Hpio as [Hview Hout]; [done|done|done|by rewrite Hm|].
  rewrite Ho7 in Hout. rewrite Hview in Hat7. set (u7 := set_bus _ _ _) in *. assert (Hp7 : powered u7) by done.
  assert (Hi7 : info_ok (c_info (v_card u7))).
  { cbn. pose proof (card_pio_info (v_card u) (cmd (sd_cmd s)) (arg (sd_cmd s)) len) as Hci.
    rewrite Hcp in Hci. cbn in Hci. by rewrite Hci. }
  apply runs_bind. eapply status_wait_runs; [|exact Hat7|].
  { rewrite has_lor_mask. destruct r as [l|].
    - by rewrite (succeeded_has (Z.lor MMCINTR_CC MMCINTR_BRR)) by (apply Hout || done).
    - by rewrite unanswered_err, orb_true_r. }
  intros w8 Hat8 [Hq|[Hq _]]; [|done]. apply runs_bind. unfold test. apply runs_bind.
  eapply status_runs; [exact Hat8|]. intros v w9 Hat9 [(_ & Hq9 & ->)|[Hq9 _]] _; [|done]. apply runs_ret.
  apply runs_bind. destruct r as [l|].
  - destruct Hout as [Hok Hfifo]. rewrite (succeeded_err _ _ Hok). apply runs_ret. apply runs_bind, runs_get.
    rewrite (at_s _ _ _ _ _ Hat9), Hrsp. apply runs_bind, runs_ret, runs_bind.
    destruct (card_pio_bytes _ _ _ _ _ _ Hcp Hinfo) as [Hlen Hbl]. unfold zlen in Hlen.
    replace len with (4 * Z.of_nat (Z.to_nat (len / 4))) at 2 by (Z.to_euclidean_division_equations; lia).
    eapply fifo_runs; [exact Hat9|rewrite Hfifo; Z.to_euclidean_division_equations; lia| |by rewrite Hfifo|].
    { Z.to_euclidean_division_equations; lia. }
    intros w10 o10 Hat10. apply runs_ret. rewrite Hfifo. split; [done|]. by exists s, k, u7, o10.
  - rewrite unanswered_err by done. apply runs_bind. eapply status_runs; [exact Hat9|].
    intros v w10 Hat10 [(_ & _ & ->)|[Hq10 _]] _; [|done]. apply runs_bind.
    eapply set_erintsts_runs; [exact Hat10|]. intros w11 s11 Hat11 Hst11 Hc11 _ Her. apply runs_bind.
    eapply reset_cmd_runs; [exact Hat11|apply Hp7|]. intros w12 o12 Hat12. apply runs_bind, runs_get. apply runs_ret.
    rewrite (at_s _ _ _ _ _ Hat12), Her.
    assert (H0 : signed 16 (v_int o7) = 0) by (unfold signed; destruct Hout as [_ ->]; done).
    rewrite H0. change (negb (0 =? 2)) with true. apply runs_ret. split; [done|]. by exists s11, k, u7, o12.
Qed.

(** ** The controller keeps the driver's promises *)

Lemma mx_laws : @HostLaws (mx R) (mx_hc fuel) mx_bus.
Proof.
  pose proof (fun s h => at_here (s, h)) as Hhere.
  split.
  - vm_compute. split; congruence.
  - vm_compute. congruence.
  - intros s h Hi. apply (ends_of_runs _ _ _ SDMMC_OK (init_state s)). eapply init_runs; [apply Hhere|].
    intros w' u' o' Hat Hp Hc Hm. split; [done|]. exists (init_state s), (mx_clock h), u', o'.
    split_and!; try done. by rewrite Hc.
  - intros s h n [Hp Hi]. apply (ends_of_runs _ _ _ tt s). eapply set_bus_width_runs; [apply Hhere|].
    intros w' o' Hat. split; [done|]. by do 4 eexists.
  - intros s h n [Hp Hi]. apply (ends_of_runs _ _ _ tt s). apply runs_ret. split; [done|].
    do 4 eexists. split; [apply Hhere|]. done.
  - intros s h n [Hp Hi]. apply (ends_of_runs _ _ _ tt s). eapply set_timing_runs; [apply Hhere|].
    intros w' o' v Hat. split; [done|]. do 4 eexists. split; [exact Hat|]. done.
  - intros s h n [Hp Hi]. apply (ends_of_runs _ _ _ tt s). eapply set_frq_runs; [apply Hhere|apply Hp|].
    intros w' o' Hat. split; [done|]. do 4 eexists. split; [exact Hat|]. split_and!; try done. split; [done|].
    split; [apply Hp|done].
  - intros w. exists (-1). split; [done|]. vm_compute. reflexivity.
  - intros s h [Hp Hi] _ Hs H0. cbn [hb_card hb_mem mx_bus].
    pose proof (send_runs (s, h) s _ _ _ (Hhere s h) Hp Hi Hs H0) as Hrun. cbn [snd] in Hrun. unfold regs in Hrun.
    cbn [snd] in Hrun. destruct (card_send _ _ _) as [c r]. by apply ends_of_runs.
  - intros s h n [Hp Hi] _ Hr Hl. cbn [hb_card hb_mem mx_bus].
    pose proof (pio_runs n (s, h) s _ _ _ (Hhere s h) Hp Hi Hr Hl) as Hrun. unfold regs in Hrun.
    cbn [snd] in Hrun. destruct (card_pio _ _ _ _) as [c r]. by apply ends_of_runs.
  - intros s h b n k c [Hp Hi] Hcmd Hbs Hbc Hmax Hr Hst Ha Hfb Hb Hbn Hd0 Hd. apply ends_of_runs.
    exact (mx_transfer_runs b n (s, h) s _ _ _ (Hhere s h) Hp Hi Hcmd Hbs Hbc Hmax Hr Hst Ha Hfb Hb Hbn Hd0 Hd).
Qed.

(** C5.  mx_sdmmc.c implements the interface the driver of sdmmc.c is written against: given a
    controller that does what its manual says, and enough patience for it, initialisation sets it up
    from any state, and from then on every call carries out its part of the bus protocol -- commands
    and their responses, the long ones put together from the registers, missing responses reported as
    errors, registers read through the data port, and transfers of up to 65535 blocks to memory. *)
Theorem mx_controller_correct : @HostLaws (mx R) (mx_hc fuel) mx_bus.
Proof. exact mx_laws. Qed.
End Device.
