(* ===== verification/MxDisk.v ===== *)
(** * MxDisk: the whole path of a file, from the card through the controller, the driver and the FAT
    reader into memory. *)

From S2P Require Import Prelude.
From S2P Require Import Sections.
From S2P Require Import Fat.
From S2P Require Import Sdmmc.
From S2P Require Import SdmmcCard.
From S2P Require Import SdmmcInit.
From S2P Require Import SdmmcDisk.
From S2P Require Import MxSdhc.
From S2P Require Import MxDevice.

Section File.
Context {R : Type} `{ML : MxLaws R}.
Variable fuel : nat.
Hypothesis Hfuel : (mx_polls < fuel)%nat.

#[local] Instance host : HostController (mx R) := mx_hc fuel.
#[local] Instance bus : HostBus (mx R) := mx_bus.
#[local] Instance disk (buf : Z) : BlockDevice (sdmmc_t * mx R) := sd_disk fuel buf.

(** C4.  The loader's way from a card in any state to a file in memory, down to the controller's
    registers: with any SD or MMC card that follows the specification, initialising the slot
    succeeds, and then, on a FAT32 file system that lies on the part of the card its register
    declares, looking a name up copies the clusters of the first matching file of the root directory
    as they are on the card, if they are fewer than 65536 blocks; and if no entry matches, it reports
    an error and writes nothing. *)
Theorem mx_file_correct buf s h f N name n mem :
  card_ok fuel (hb_card h) ->
  0 <= buf -> buf + 512 * 65535 <= zlen (hb_mem h) -> zlen (hb_mem h) <= 2 ^ 32 ->
  exists w size, sdmmc_init_sd fuel (s, h) = Ok (SDMMC_OK, w) /\
    disk_info w = c_info (hb_card h) /\ counted (disk_info w) size /\
    forall d0, fat_init (Some w) f 64 (zeros 1024) mem = Some d0 ->
    fs_ok f N size -> fat_type f = TYPE_FAT32 ->
    (n <= S (Z.to_nat (count_of_clusters f)))%nat ->
    Forall (fun c => 2 <= c < N /\ end_of_file f c = false) (follow (H := disk buf) w f (root_dir_start f) n) ->
    end_of_file f (Nat.iter n (fat_entry (H := disk buf) w f) (root_dir_start f)) = true ->
    let found := dir_find32 (H := disk buf) w f (follow (H := disk buf) w f (root_dir_start f) n) name in
    file_ok (H := disk buf) N w f found ->
    match found with
    | Some (c, sz) => exists d', copy_named_file_fat32 (H := disk buf) d0 name = Ok (d', true) /\
        out d' = splice mem 0 (concat (map (cluster_data (H := disk buf) w f)
                   (follow (H := disk buf) w f c (clusters_of f sz))))
    | None => exists d', copy_named_file_fat32 (H := disk buf) d0 name = Ok (d', false) /\ out d' = mem
    end.
Proof.
  intros Hok Hb Hroom Hm. apply (sd_file_spec (HL := mx_laws fuel Hfuel) fuel buf s h f N name n mem); try done. lia.
Qed.
End File.
