(* ===== verification/Mmu.v ===== *)
(** * Mmu: the ARMv7 page tables startup builds (startup/lib/arm/mmu_v7.c).

    Physical memory is a map from word addresses to 32-bit words; pages for tables come from the
    allocator of Pages.v.  The table geometry is the architecture's, as the code's arithmetic has
    it: 16K first-level tables (arm/vstart_v7.S), 1K second-level tables four to a page, 1M
    sections.  The attribute bits and the descriptor tests come from the SDK's <arm/mmu.h> and are
    parameters ([mmu_consts]). *)

From S2P Require Import Prelude.
From S2P Require Import Pages.

Definition PGMASK : Z := 4095.
Definition ARM_L1_SIZE : Z := 2 ^ 14.
Definition ARM_L2_SIZE : Z := 2 ^ 10.
Definition ARM_SCSIZE : Z := 2 ^ 20.
Definition ARM_SCMASK : Z := 2 ^ 20 - 1.
Definition MAX_PHDR : Z := 2.

Record mmu_consts := {
  ARM_L1_PT : Z;
  ARM_L1_VALID : Z -> bool;
  ARM_L1_SCN : Z -> bool;
  ARM_L2_nG : Z;
  ARM_L2_S : Z;
  ARM_SP_XN : Z;
  ARM_SP_ATTR_MASK : Z;
  ARM_SP_DEV : Z;
  ARM_SP_SO : Z;
  ARM_SP_NC : Z;
  ARM_SP_WA : Z;
  ARM_SP_WT : Z;
  ARM_SCN_WA : Z;
  ARM_SCN_XN : Z;
  ARM_SCN_S : Z;
  ARM_TTBR_WA : Z;
  ARM_TTBR_WT : Z;
  ARM_TTBR_S : Z;
  PROT_READ : Z;
  PROT_WRITE : Z;
  PROT_EXEC : Z;
  PROT_USER : Z;
  PROT_NOCACHE : Z;
  PROT_DEVICE : Z;
  PROT_PGTBL : Z;
  ARM_STARTUP_BASE : Z;
  ARM_KPTP_BASE : Z
}.

(** [struct v7_pte]. *)
Record v7_pte := mk_pte {
  upte_ro : Z;
  upte_rw : Z;
  kpte_ro : Z;
  kpte_rw : Z;
  kscn_ro : Z;
  kscn_rw : Z;
  kscn_cb : Z;
  pte_attr : Z;
  ttb_attr : Z
}.

(** What the code reads of its surroundings: the number of CPUs, the startup header and whether
    the multiprocessing extensions are there. *)
Record mmu_config := {
  num_cpu : Z;
  flags1_virtual : bool;
  shdr_paddr : Z;
  shdr_size : Z;
  mpidr_mp : bool
}.

(** The variables of mmu_v7.c, physical memory and the allocator. *)
Record mmu_state (A : Type) := mk_mmu {
  mm_mem : gmap Z Z;
  mm_alloc : A;
  next_addr : Z;
  L1_paddr : Z;
  L2_paddr : Z;
  v7_ttbr : Z;
  L1_vaddr : Z;
  startup_base : Z;
  startup_size : Z;
  mm_pte : v7_pte;
  arm_cpu : list Z;
  elf_segs : list (Z * Z * Z * Z);
  elf_phdr : Z
}.
Arguments mk_mmu {A}.
Arguments mm_mem {A} _.
Arguments mm_alloc {A} _.
Arguments next_addr {A} _.
Arguments L1_paddr {A} _.
Arguments L2_paddr {A} _.
Arguments v7_ttbr {A} _.
Arguments L1_vaddr {A} _.
Arguments startup_base {A} _.
Arguments startup_size {A} _.
Arguments mm_pte {A} _.
Arguments arm_cpu {A} _.
Arguments elf_segs {A} _.
Arguments elf_phdr {A} _.

(** A word of memory; cleared memory reads 0. *)
Definition rd (m : gmap Z Z) (a : Z) : Z := default 0 (m !! a).

(** [calloc_ram] clears the block it returns. *)
Definition clear_mem (p size : Z) (m : gmap Z Z) : gmap Z Z :=
  filter (fun aw => ~ (p <= aw.1 < p + size)) m.

Section Code.
Context (K : mmu_consts) (G : mmu_config).
Context {A : Type} `{PageAlloc A}.
Implicit Types (s : mmu_state A).

Definition with_mem s m := mk_mmu m (mm_alloc s) (next_addr s) (L1_paddr s) (L2_paddr s)
  (v7_ttbr s) (L1_vaddr s) (startup_base s) (startup_size s) (mm_pte s) (arm_cpu s) (elf_segs s) (elf_phdr s).
Definition with_alloc s (a : A) := mk_mmu (mm_mem s) a (next_addr s) (L1_paddr s) (L2_paddr s)
  (v7_ttbr s) (L1_vaddr s) (startup_base s) (startup_size s) (mm_pte s) (arm_cpu s) (elf_segs s) (elf_phdr s).
Definition with_next s n := mk_mmu (mm_mem s) (mm_alloc s) n (L1_paddr s) (L2_paddr s)
  (v7_ttbr s) (L1_vaddr s) (startup_base s) (startup_size s) (mm_pte s) (arm_cpu s) (elf_segs s) (elf_phdr s).
Definition with_segs s l p := mk_mmu (mm_mem s) (mm_alloc s) (next_addr s) (L1_paddr s) (L2_paddr s)
  (v7_ttbr s) (L1_vaddr s) (startup_base s) (startup_size s) (mm_pte s) (arm_cpu s) l p.

Definition write (s : mmu_state A) (a v : Z) : mmu_state A := with_mem s (<[a := v]> (mm_mem s)).

(** [calloc_ram] as the MMU code uses it: the result is not tested, so a failed allocation makes
    the code write its table at [NULL_PADDR_STARTUP]. *)
Definition calloc (s : mmu_state A) (size align : Z) : res (mmu_state A * Z) :=
  '(a, p) ← pa_calloc (mm_alloc s) size align;
  if p =? NULL_PADDR_STARTUP then Err BadAccess
  else mret (with_mem (with_alloc s a) (clear_mem p size (mm_mem s)), p).

Definition has (prot bit : Z) : bool := negb (Z.land prot bit =? 0).

Definition set_pte (t : v7_pte) (pa prot : Z) : Z :=
  let pte := Z.land (u32 pa) (bnot 32 PGMASK) in
  if has prot (PROT_PGTBL K) then Z.lor pte (pte_attr t)
  else
    let pte :=
      if has prot (PROT_USER K)
      then Z.lor pte (if has prot (PROT_WRITE K) then upte_rw t else upte_ro t)
      else Z.lor pte (if has prot (PROT_WRITE K) then kpte_rw t else kpte_ro t) in
    let pte := if Z.land prot (PROT_EXEC K) =? 0 then Z.lor pte (ARM_SP_XN K) else pte in
    let pte := Z.land pte (bnot 32 (ARM_L2_nG K)) in
    let kind := Z.land prot (Z.lor (PROT_NOCACHE K) (PROT_DEVICE K)) in
    if kind =? 0 then pte
    else
      let pte := Z.land pte (bnot 32 (ARM_SP_ATTR_MASK K)) in
      if kind =? PROT_DEVICE K then Z.lor pte (ARM_SP_DEV K)
      else if kind =? Z.lor (PROT_DEVICE K) (PROT_NOCACHE K) then Z.lor pte (ARM_SP_SO K)
      else if kind =? PROT_NOCACHE K then Z.lor pte (ARM_SP_NC K)
      else pte.

(** [CPU_L1_TABLE], [CPU_L2_TABLE], and the entries the code computes in them. *)
Definition CPU_L1_TABLE (s : mmu_state A) (cpu : Z) : Z := L1_paddr s + cpu * ARM_L1_SIZE.
Definition CPU_L2_TABLE (s : mmu_state A) (cpu : Z) : Z := L2_paddr s + cpu * PAGESIZE.
Definition l1_entry (s : mmu_state A) (cpu va : Z) : Z := CPU_L1_TABLE s cpu + 4 * Z.shiftr va 20.
Definition l1_group (s : mmu_state A) (cpu va : Z) : Z :=
  CPU_L1_TABLE s cpu + 4 * Z.land (Z.shiftr va 20) (bnot 32 3).
Definition l2_dir (s : mmu_state A) (cpu va : Z) : Z := CPU_L2_TABLE s cpu + 4 * Z.shiftr va 22.
Definition pte_index (va : Z) : Z := Z.land (Z.shiftr va 12) (ARM_L2_SIZE - 1).

Definition map_ptbl_cpu (s : mmu_state A) (cpu ptbl va : Z) : mmu_state A :=
  let s0 := write s (l2_dir s cpu va) (Z.lor ptbl (pte_attr (mm_pte s))) in
  let ptp := l1_group s cpu va in
  let entry i := Z.lor (u32 (ptbl + i * ARM_L2_SIZE)) (ARM_L1_PT K) in
  write (write (write (write s0 ptp (entry 0)) (ptp + 4) (entry 1)) (ptp + 8) (entry 2))
    (ptp + 12) (entry 3).

Fixpoint map_ptbl_from (n : nat) (s : mmu_state A) (cpu ptbl va : Z) : mmu_state A :=
  match n with
  | O => s
  | S n => map_ptbl_from n (map_ptbl_cpu s cpu ptbl va) (cpu + 1) ptbl va
  end.

Definition map_ptbl (s : mmu_state A) (ptbl va : Z) : mmu_state A :=
  map_ptbl_from (Z.to_nat (num_cpu G)) s 0 ptbl va.

(** Store [v] in the section entry of [va] on every CPU. *)
Fixpoint sc_write (n : nat) (s : mmu_state A) (cpu va v : Z) : mmu_state A :=
  match n with
  | O => s
  | S n => sc_write n (write s (l1_entry s cpu va) v) (cpu + 1) va v
  end.

Definition v7_scmap (s : mmu_state A) (va pa prot : Z) : res (mmu_state A) :=
  if negb (u32 pa =? pa) then Err (Crash "v7_scmap: paddr out of range")
  else
    let t := mm_pte s in
    let pte := Z.lor pa (if has prot (PROT_WRITE K) then kscn_rw t else kscn_ro t) in
    let pte := if Z.land prot (PROT_NOCACHE K) =? 0 then Z.lor pte (ARM_SCN_WA K) else pte in
    let pte := if Z.land prot (PROT_EXEC K) =? 0 then Z.lor pte (ARM_SCN_XN K) else pte in
    mret (sc_write (Z.to_nat (num_cpu G)) s 0 va pte).

Definition scunmap (s : mmu_state A) (va : Z) : mmu_state A :=
  sc_write (Z.to_nat (num_cpu G)) s 0 va 0.

(** The inner loop of [v7_map]: fill one page table from entry [i] on. *)
Fixpoint fill (fuel : nat) (s : mmu_state A) (pte pt va sz i : Z) : mmu_state A * Z * Z * Z :=
  match fuel with
  | O => (s, pt, va, sz)
  | S fuel =>
      if negb (sz =? 0) && (i <? ARM_L2_SIZE)
      then fill fuel (write s pte pt) (pte + 4) (u32 (pt + PAGESIZE)) (u32 (va + PAGESIZE))
             (sz - PAGESIZE) (i + 1)
      else (s, pt, va, sz)
  end.

(** The page table a first-level entry leads to, allocated if there is none. *)
Definition get_ptbl (s : mmu_state A) (ptp va : Z) (map : mmu_state A -> Z -> mmu_state A)
    : res (mmu_state A * Z) :=
  let entry := rd (mm_mem s) ptp in
  if ARM_L1_VALID K entry then mret (s, Z.land entry (bnot 32 PGMASK))
  else '(s1, pte) ← calloc s PAGESIZE PAGESIZE; mret (map s1 pte, pte).

(** The loop of [v7_map] over one CPU's tables. *)
Fixpoint map_cpu (fuel : nat) (s : mmu_state A) (ptp pt va sz : Z) : res (mmu_state A) :=
  match fuel with
  | O => Err NoFuel
  | S fuel =>
      if sz =? 0 then mret s
      else
        '(s1, tbl) ← get_ptbl s ptp va (fun s p => map_ptbl s p va);
        let '(s2, pt2, va2, sz2) :=
          fill (Z.to_nat ARM_L2_SIZE) s1 (tbl + 4 * pte_index va) pt va sz (pte_index va) in
        map_cpu fuel s2 (ptp + 16) pt2 va2 sz2
  end.

Fixpoint map_cpus (n : nat) (s : mmu_state A) (cpu pa va sz : Z) : res (mmu_state A) :=
  match n with
  | O => mret s
  | S n =>
      s1 ← map_cpu (S (Z.to_nat (sz / PAGESIZE))) s (l1_group s cpu va) pa va sz;
      map_cpus n s1 (cpu + 1) pa va sz
  end.

Definition v7_map (s : mmu_state A) (vaddr paddr size prot : Z) : res (mmu_state A * Z) :=
  if negb (u32 paddr =? paddr) then Err (Crash "v7_map: paddr out of range")
  else if negb (flags1_virtual G) then mret (s, paddr)
  else
    let off := Z.land paddr PGMASK in
    let size := u32 (ROUNDPG (u32 (size + off))) in
    let '(s1, va) := if vaddr =? 2 ^ 32 - 1
                     then (with_next s (u32 (next_addr s + size)), next_addr s)
                     else (s, vaddr) in
    s2 ← map_cpus (Z.to_nat (num_cpu G)) s1 0 (set_pte (mm_pte s) paddr prot) va size;
    mret (s2, u32 (va + off)).

Definition v7_map_cpu (s : mmu_state A) (cpu vaddr paddr prot : Z) : res (mmu_state A) :=
  if negb (u32 paddr =? paddr) then Err (Crash "v7_map_cpu: paddr out of range")
  else
    '(s1, tbl) ← get_ptbl s (l1_group s cpu vaddr) vaddr (fun s p => map_ptbl_cpu s cpu p vaddr);
    mret (write s1 (tbl + 4 * pte_index vaddr) (set_pte (mm_pte s) paddr prot)).

(** [v7_vaddr_to_paddr], for any CPU's tables; the code asks for CPU 0. *)
Definition translate (s : mmu_state A) (cpu vaddr : Z) : Z :=
  let entry := rd (mm_mem s) (l1_entry s cpu vaddr) in
  if ARM_L1_SCN K entry
  then Z.land entry (bnot 32 ARM_SCMASK) + Z.land vaddr ARM_SCMASK
  else
    let pte := rd (mm_mem s) (Z.land entry (bnot 32 PGMASK) + 4 * pte_index vaddr) in
    Z.land pte (bnot 32 PGMASK) + Z.land vaddr PGMASK.

Definition v7_vaddr_to_paddr (s : mmu_state A) (vaddr : Z) : Z := translate s 0 vaddr.

(** ** Mapping the bootstrap's segments *)

Fixpoint unmap_segs (s : mmu_state A) (l : list (Z * Z * Z * Z)) : mmu_state A :=
  match l with
  | [] => s
  | (va, _, _, _) :: l => unmap_segs (scunmap s va) l
  end.

Fixpoint remap_segs (s : mmu_state A) (l : list (Z * Z * Z * Z)) : res (mmu_state A) :=
  match l with
  | [] => mret s
  | (va, pa, sz, fl) :: l => '(s1, _) ← v7_map s va pa sz fl; remap_segs s1 l
  end.

Fixpoint scmap_range (fuel : nat) (s : mmu_state A) (va pa size : Z) : res (mmu_state A) :=
  match fuel with
  | O => Err NoFuel
  | S fuel =>
      if size =? 0 then mret s
      else
        s1 ← v7_scmap s va pa (Z.lor (PROT_READ K) (Z.lor (PROT_WRITE K) (PROT_EXEC K)));
        scmap_range fuel s1 (u32 (va + ARM_SCSIZE)) (u32 (pa + ARM_SCSIZE)) (u32 (size - ARM_SCSIZE))
  end.

(** Whether the segment at [paddr] continues the last one recorded. *)
Definition contiguous (s : mmu_state A) (paddr : Z) : bool :=
  if elf_phdr s =? 0 then true
  else if elf_phdr s =? -1 then false
  else match last (elf_segs s) with
       | Some (_, pa, sz, _) => u32 (pa + sz) =? paddr
       | None => false
       end.

Definition v7_elf_map (s : mmu_state A) (vaddr paddr size prot : Z) : res (mmu_state A) :=
  if negb (Z.land vaddr ARM_SCMASK =? Z.land paddr ARM_SCMASK) || negb (contiguous s paddr) then
    let old := if elf_phdr s =? -1 then [] else elf_segs s in
    s2 ← remap_segs (unmap_segs s old) old;
    '(s3, _) ← v7_map s2 vaddr paddr size prot;
    mret (with_segs s3 (elf_segs s3) (-1))
  else if elf_phdr s =? MAX_PHDR then Err (Crash "bootstrap has too many load segments")
  else
    let s1 := with_segs s (elf_segs s ++ [(vaddr, paddr, size, prot)]) (elf_phdr s + 1) in
    let size := Z.land (u32 (size + Z.land vaddr ARM_SCMASK + ARM_SCMASK)) (bnot 32 ARM_SCMASK) in
    scmap_range (S (Z.to_nat (size / ARM_SCSIZE))) s1 (Z.land vaddr (bnot 32 ARM_SCMASK))
      (Z.land paddr (bnot 32 ARM_SCMASK)) size.

(** ** Initialisation *)

(** The encodings chosen from the CPU's features. *)
Definition init_pte (t : v7_pte) : v7_pte :=
  let t1 :=
    if mpidr_mp G
    then mk_pte (upte_ro t) (upte_rw t) (kpte_ro t) (kpte_rw t) (kscn_ro t) (kscn_rw t) (kscn_cb t)
           (u16 (Z.lor (pte_attr t) (ARM_SP_WA K))) (u16 (Z.lor (ttb_attr t) (ARM_TTBR_WA K)))
    else mk_pte (upte_ro t) (upte_rw t) (kpte_ro t) (kpte_rw t) (kscn_ro t) (kscn_rw t) (kscn_cb t)
           (u16 (Z.lor (pte_attr t) (ARM_SP_WT K))) (u16 (Z.lor (ttb_attr t) (ARM_TTBR_WT K))) in
  if 1 <? num_cpu G
  then mk_pte (u16 (Z.lor (upte_ro t1) (ARM_L2_S K))) (u16 (Z.lor (upte_rw t1) (ARM_L2_S K)))
         (u16 (Z.lor (kpte_ro t1) (ARM_L2_S K))) (u16 (Z.lor (kpte_rw t1) (ARM_L2_S K)))
         (Z.lor (kscn_ro t1) (ARM_SCN_S K)) (Z.lor (kscn_rw t1) (ARM_SCN_S K)) (kscn_cb t1)
         (u16 (Z.lor (pte_attr t1) (ARM_L2_S K))) (u16 (Z.lor (ttb_attr t1) (ARM_TTBR_S K)))
  else t1.

Fixpoint map_dirs (n : nat) (s : mmu_state A) (cpu : Z) : mmu_state A :=
  match n with
  | O => s
  | S n => map_dirs n (map_ptbl_cpu s cpu (CPU_L2_TABLE s cpu) (ARM_KPTP_BASE K)) (cpu + 1)
  end.

(** The 1-1 section mappings of startup itself. *)
Fixpoint map_startup (fuel : nat) (s : mmu_state A) (base end_ : Z) : res (mmu_state A) :=
  match fuel with
  | O => Err NoFuel
  | S fuel =>
      if base <? end_ then
        s1 ← v7_scmap s base base (Z.lor (PROT_READ K) (PROT_EXEC K));
        map_startup fuel s1 (u32 (base + ARM_SCSIZE)) end_
      else mret s
  end.

Definition init_mmu_v7 (s : mmu_state A) : res (mmu_state A) :=
  let t := init_pte (mm_pte s) in
  let cpu := [upte_ro t; upte_rw t; kpte_ro t; kpte_rw t; ARM_SP_ATTR_MASK K; ttb_attr t; pte_attr t] in
  let L1size := u32 (num_cpu G * ARM_L1_SIZE) in
  let L2size := u32 (num_cpu G * PAGESIZE) in
  '(s1, l1) ← calloc s L1size ARM_L1_SIZE;
  '(s2, l2) ← calloc s1 L2size PAGESIZE;
  let s3 := mk_mmu (mm_mem s2) (mm_alloc s2) (next_addr s2) l1 l2 (Z.lor l1 (ttb_attr t))
              (L1_vaddr s2) (startup_base s2) (startup_size s2) t cpu (elf_segs s2) (elf_phdr s2) in
  let s4 := map_dirs (Z.to_nat (num_cpu G)) s3 0 in
  '(s5, v) ← v7_map s4 (2 ^ 32 - 1) l1 L1size (PROT_PGTBL K);
  let base := Z.land (shdr_paddr G) (bnot 32 ARM_SCMASK) in
  let s6 := mk_mmu (mm_mem s5) (mm_alloc s5) (next_addr s5) (L1_paddr s5) (L2_paddr s5)
              (v7_ttbr s5) v base (shdr_size G) (mm_pte s5) (arm_cpu s5) (elf_segs s5) (elf_phdr s5) in
  map_startup (S (S (Z.to_nat (shdr_size G / ARM_SCSIZE)))) s6 base (u32 (base + shdr_size G)).

End Code.

(** ** Addresses and words *)

Lemma rd_insert m a v b : rd (<[a := v]> m) b = if decide (a = b) then v else rd m b.
Proof.
  unfold rd. case_decide as Hab; [subst; by rewrite lookup_insert_eq|by rewrite lookup_insert_ne].
Qed.

Lemma rd_clear p size m b :
  rd (clear_mem p size m) b = if decide (p <= b < p + size) then 0 else rd m b.
Proof.
  unfold rd, clear_mem. case_decide as Hb.
  - destruct (filter _ m !! b) as [v|] eqn:Hl; [|done].
    apply map_lookup_filter_Some in Hl as [_ Hn]. cbn in Hn. lia.
  - destruct (m !! b) as [v|] eqn:Hl.
    + replace (filter _ m !! b) with (Some v); [done|]. symmetry.
      apply map_lookup_filter_Some. split; [done|]. cbn. lia.
    + replace (filter (fun aw : Z * Z => ~ (p <= aw.1 < p + size)) m !! b) with (@None Z); [done|].
      symmetry. apply map_lookup_filter_None. by left.
Qed.

Lemma pte_index_page x : 0 <= x -> pte_index (4096 * x) = x mod 1024.
Proof.
  intros. unfold pte_index. change (ARM_L2_SIZE - 1) with (Z.ones 10).
  rewrite Z.land_ones, Z.shiftr_div_pow2, Z.mul_comm by lia.
  change 4096 with (2 ^ 12). rewrite Z.div_mul by lia. done.
Qed.

Lemma l1_group_index va : fits 32 va -> 4 * Z.land (Z.shiftr va 20) (bnot 32 3) = 16 * (va / 2 ^ 22).
Proof.
  intros Hv. rewrite Z.shiftr_div_pow2 by lia. change 3 with (2 ^ 2 - 1).
  rewrite land_bnot_ones; [|lia|unfold fits in *; Z.to_euclidean_division_equations; lia].
  rewrite Z.div_div by lia. change (2 ^ 20 * 2 ^ 2) with (2 ^ 22). change (2 ^ 2) with 4. lia.
Qed.

(** ** Page-table entries *)

(** What the SDK's encodings satisfy: a page-table descriptor is recognised as valid and as no
    section, a cleared entry is invalid, and page attributes lie in an entry's low 12 bits. *)
Record consts_ok (K : mmu_consts) : Prop := {
  k_pt : 0 <= ARM_L1_PT K < 1024;
  k_valid : forall x, x mod 1024 = 0 -> fits 32 x -> ARM_L1_VALID K (Z.lor x (ARM_L1_PT K)) = true;
  k_valid0 : ARM_L1_VALID K 0 = false;
  k_scn : forall x, x mod 1024 = 0 -> fits 32 x -> ARM_L1_SCN K (Z.lor x (ARM_L1_PT K)) = false;
  k_attrs : Forall (fun a => 0 <= a < 4096)
    [ARM_L2_nG K; ARM_L2_S K; ARM_SP_XN K; ARM_SP_ATTR_MASK K; ARM_SP_DEV K; ARM_SP_SO K; ARM_SP_NC K;
     ARM_SP_WA K; ARM_SP_WT K]
}.

Definition pte_ok (t : v7_pte) : Prop :=
  Forall (fun a => 0 <= a < 4096) [upte_ro t; upte_rw t; kpte_ro t; kpte_rw t; pte_attr t].

(** [set_pte] keeps the page number, whatever the protection. *)
Lemma set_pte_page K t pa prot :
  consts_ok K -> pte_ok t -> fits 32 pa ->
  fits 32 (set_pte K t pa prot) /\ set_pte K t pa prot / 4096 = pa / 4096.
Proof.
  intros [_ _ _ _ HK] Ht Hpa. unfold pte_ok in Ht. rewrite !Forall_cons in HK. rewrite !Forall_cons in Ht.
  destruct HK as (HnG & HS & HXN & HM & HD & HSO & HNC & HWA & HWT & _).
  destruct Ht as (Huro & Hurw & Hkro & Hkrw & Hattr & _).
  set (P := fun x => fits 32 x /\ x / 2 ^ 12 = pa / 2 ^ 12).
  assert (Hor : forall x a, P x -> 0 <= a < 4096 -> P (Z.lor x a)).
  { intros x a [Hf Hd] Ha. split; [apply fits_lor; [lia|done|unfold fits; lia]|].
    by rewrite lor_low by lia. }
  assert (Hand : forall x m, P x -> 0 <= m < 4096 -> P (Z.land x (bnot 32 m))).
  { intros x m [Hf Hd] Hm. split; [apply fits_land; [lia|done|apply wrap_fits; lia]|].
    rewrite land_bnot_low; [done|lia|done|lia]. }
  change 4096 with (2 ^ 12). fold (P (set_pte K t pa prot)). unfold set_pte. cbv zeta.
  assert (H0 : P (Z.land (u32 pa) (bnot 32 PGMASK))).
  { apply Hand; [|unfold PGMASK; lia]. by rewrite wrap_id. }
  split_ifs; repeat first [apply Hor; [|assumption] | apply Hand; [|assumption]]; exact H0.
Qed.

Section Correct.
Context (K : mmu_consts) (G : mmu_config) (HK : consts_ok K) (HG : 0 < num_cpu G <= 8).
Context {A : Type} `{HA : PageAllocLaws A}.
Implicit Types (s : mmu_state A).

(** ** The invariant

    [tbl c g] is the page that holds the page tables of the [g]-th 4M of CPU [c]; [dom] says which
    4M groups are managed this way (the others may hold section mappings). *)

Definition in_tables s (x : Z) : Prop :=
  L1_paddr s <= x < L1_paddr s + num_cpu G * ARM_L1_SIZE \/
  L2_paddr s <= x < L2_paddr s + num_cpu G * PAGESIZE.

Definition slot s (c g k : Z) : Z := L1_paddr s + c * ARM_L1_SIZE + 16 * g + 4 * k.

Definition is_cpu (c : Z) : Prop := 0 <= c < num_cpu G.
Definition is_group (g : Z) : Prop := 0 <= g < 1024.

Record mmu_inv s (dom : Z -> Prop) (tbl : Z -> Z -> option Z) : Prop := {
  mi_base : 0 <= L1_paddr s /\ L1_paddr s + num_cpu G * ARM_L1_SIZE <= 2 ^ 32 /\
            0 <= L2_paddr s /\ L2_paddr s + num_cpu G * PAGESIZE <= 2 ^ 32;
  mi_sep : L1_paddr s + num_cpu G * ARM_L1_SIZE <= L2_paddr s \/
           L2_paddr s + num_cpu G * PAGESIZE <= L1_paddr s;
  mi_pte : pte_ok (mm_pte s);
  mi_page : forall c g P, tbl c g = Some P ->
    0 <= P /\ P mod 4096 = 0 /\ P + 4096 <= 2 ^ 32 /\
    forall x, P <= x < P + 4096 -> ~ in_tables s x /\ ~ pa_free (mm_alloc s) x;
  mi_some : forall c g P k, is_cpu c -> is_group g -> dom g -> tbl c g = Some P -> 0 <= k < 4 ->
    rd (mm_mem s) (slot s c g k) = Z.lor (P + 1024 * k) (ARM_L1_PT K);
  mi_none : forall c g, is_cpu c -> is_group g -> dom g -> tbl c g = None ->
    ARM_L1_VALID K (rd (mm_mem s) (slot s c g 0)) = false;
  mi_inj : forall c g c' g' P, tbl c g = Some P -> tbl c' g' = Some P -> g = g';
  mi_regs : forall x, in_tables s x -> ~ pa_free (mm_alloc s) x;
  mi_alloc : pa_ok (mm_alloc s)
}.

(** A group has tables on all CPUs or on none. *)
Definition uniform (tbl : Z -> Z -> option Z) (g : Z) : Prop :=
  (forall c, is_cpu c -> tbl c g <> None) \/ (forall c, is_cpu c -> tbl c g = None).

(** Page [x] of CPU [c] has the entry [w]. *)
Definition mapped s (tbl : Z -> Z -> option Z) (c x w : Z) : Prop :=
  exists P, tbl c (x / 1024) = Some P /\ rd (mm_mem s) (P + 4 * (x mod 1024)) = w.

(** The variables besides memory and the allocator are the same. *)
Definition same_vars s s' : Prop :=
  L1_paddr s' = L1_paddr s /\ L2_paddr s' = L2_paddr s /\ mm_pte s' = mm_pte s.

Definition extends (tbl tbl' : Z -> Z -> option Z) : Prop :=
  forall c g P, tbl c g = Some P -> tbl' c g = Some P.

Lemma slot_in_tables s c g k : is_cpu c -> is_group g -> 0 <= k < 4 -> in_tables s (slot s c g k).
Proof. unfold is_cpu, is_group, slot, in_tables, ARM_L1_SIZE. intros. left. nia. Qed.

Lemma slot_inj s c g k c' g' k' :
  is_group g -> is_group g' -> 0 <= k < 4 -> 0 <= k' < 4 -> slot s c g k = slot s c' g' k' ->
  c = c' /\ g = g' /\ k = k'.
Proof. unfold is_group, slot, ARM_L1_SIZE. intros. nia. Qed.

Lemma group_of x : 0 <= x < 2 ^ 20 -> is_group (x / 1024).
Proof. unfold is_group. intros. Z.to_euclidean_division_equations. lia. Qed.

(** Storing an entry in a page table keeps the invariant and sets one page of the CPUs that share
    the table. *)
Lemma write_pte s dom tbl c x P v :
  mmu_inv s dom tbl -> 0 <= x < 2 ^ 20 -> tbl c (x / 1024) = Some P ->
  let s' := write s (P + 4 * (x mod 1024)) v in
  mmu_inv s' dom tbl /\ same_vars s s' /\ mm_alloc s' = mm_alloc s /\ mapped s' tbl c x v /\
  forall c' y w, 0 <= y < 2 ^ 20 -> mapped s tbl c' y w -> y <> x \/ w = v -> mapped s' tbl c' y w.
Proof.
  intros Hinv Hx HP s'. pose proof (Z.mod_pos_bound x 1024 ltac:(lia)) as Hm.
  destruct (mi_page _ _ _ Hinv _ _ _ HP) as (HP0 & HPm & HPe & HPx).
  assert (Hsl : forall c' g k, is_cpu c' -> is_group g -> 0 <= k < 4 ->
    rd (mm_mem s') (slot s c' g k) = rd (mm_mem s) (slot s c' g k)).
  { intros c' g k Hc Hg Hk. cbn. rewrite rd_insert, decide_False; [done|].
    intros He. destruct (HPx (P + 4 * (x mod 1024)) ltac:(lia)) as [Hn _]. apply Hn. rewrite He.
    by apply slot_in_tables. }
  destruct Hinv as [H1 H2 H3 H4 H5 H6 H7 H8 H9]. split_and!; [split; try done| | | |].
  - intros c' g P' k Hc Hg Hd Ht Hk. change (slot s' c' g k) with (slot s c' g k).
    rewrite Hsl by done. by apply H5.
  - intros c' g Hc Hg Hd Ht. change (slot s' c' g 0) with (slot s c' g 0). rewrite Hsl by (done || lia).
    by apply H6.
  - done.
  - done.
  - exists P. split; [done|]. cbn. by rewrite rd_insert, decide_True.
  - intros c' y w Hy (Q & HQ & Hw) Hor. exists Q. split; [done|]. cbn. rewrite rd_insert.
    case_decide as He; [|done]. destruct Hor as [Hne| ->]; [|done]. exfalso. apply Hne.
    destruct (H4 _ _ _ HQ) as (HQ0 & HQm & _). pose proof (Z.mod_pos_bound y 1024 ltac:(lia)).
    assert (P = Q /\ x mod 1024 = y mod 1024) as [-> Hxy]
      by (Z.to_euclidean_division_equations; lia).
    assert (x / 1024 = y / 1024) by (by eapply H7).
    rewrite (Z.div_mod x 1024), (Z.div_mod y 1024) by lia. congruence.
Qed.

(** ** A new page table *)

Lemma l1_group_slot s c va : fits 32 va -> l1_group s c va = slot s c (va / 2 ^ 22) 0.
Proof. intros. unfold l1_group, slot, CPU_L1_TABLE. rewrite l1_group_index by done. lia. Qed.

Lemma page_group va : 0 <= va -> va / 2 ^ 22 = va / 4096 / 1024.
Proof. intros. rewrite Z.div_div by lia. done. Qed.

(** What [map_ptbl_cpu] stores: the four descriptors of the group, and one word of the page
    directory. *)
Lemma map_ptbl_cpu_mem s cpu p va :
  fits 32 va -> 0 <= p -> p + 4096 <= 2 ^ 32 ->
  let g := va / 2 ^ 22 in
  mm_mem (map_ptbl_cpu K s cpu p va) =
    <[slot s cpu g 3 := Z.lor (p + 1024 * 3) (ARM_L1_PT K)]>
   (<[slot s cpu g 2 := Z.lor (p + 1024 * 2) (ARM_L1_PT K)]>
   (<[slot s cpu g 1 := Z.lor (p + 1024 * 1) (ARM_L1_PT K)]>
   (<[slot s cpu g 0 := Z.lor (p + 1024 * 0) (ARM_L1_PT K)]>
   (<[l2_dir s cpu va := Z.lor p (pte_attr (mm_pte s))]> (mm_mem s))))).
Proof.
  intros Hva Hp0 Hp g. unfold map_ptbl_cpu. cbn [write with_mem mm_mem].
  rewrite l1_group_slot by done. fold g. change ARM_L2_SIZE with 1024.
  rewrite !wrap_id by (unfold fits; lia).
  replace (slot s cpu g 0 + 4) with (slot s cpu g 1) by (unfold slot; lia).
  replace (slot s cpu g 0 + 8) with (slot s cpu g 2) by (unfold slot; lia).
  replace (slot s cpu g 0 + 12) with (slot s cpu g 3) by (unfold slot; lia).
  by rewrite !(Z.mul_comm 1024).
Qed.

Lemma map_ptbl_cpu_slot s cpu p va k :
  fits 32 va -> 0 <= p -> p + 4096 <= 2 ^ 32 -> 0 <= k < 4 ->
  rd (mm_mem (map_ptbl_cpu K s cpu p va)) (slot s cpu (va / 2 ^ 22) k) = Z.lor (p + 1024 * k) (ARM_L1_PT K).
Proof.
  intros Hva Hp0 Hp Hk. rewrite map_ptbl_cpu_mem, !rd_insert by done.
  assert (k = 0 \/ k = 1 \/ k = 2 \/ k = 3) as [->|[->|[->| ->]]] by lia;
    unfold slot; repeat (case_decide; [f_equal; lia|]); lia.
Qed.

Lemma map_ptbl_cpu_other s cpu p va b :
  fits 32 va -> 0 <= p -> p + 4096 <= 2 ^ 32 ->
  (forall k, 0 <= k < 4 -> b <> slot s cpu (va / 2 ^ 22) k) -> b <> l2_dir s cpu va ->
  rd (mm_mem (map_ptbl_cpu K s cpu p va)) b = rd (mm_mem s) b.
Proof.
  intros Hva Hp0 Hp Hs Hd. rewrite map_ptbl_cpu_mem, !rd_insert by done.
  pose proof (Hs 0). pose proof (Hs 1). pose proof (Hs 2). pose proof (Hs 3).
  rewrite !decide_False by (intros ?; subst; lia). done.
Qed.

Lemma l2_dir_in s cpu va : is_cpu cpu -> fits 32 va ->
  L2_paddr s <= l2_dir s cpu va < L2_paddr s + num_cpu G * PAGESIZE.
Proof.
  unfold is_cpu, l2_dir, CPU_L2_TABLE, fits, PAGESIZE. intros. rewrite Z.shiftr_div_pow2 by lia.
  assert (0 <= va / 2 ^ 22 < 1024) by (Z.to_euclidean_division_equations; lia). nia.
Qed.

(** [map_ptbl] on the CPUs from [cpu] on. *)
Lemma map_ptbl_from_spec n : forall s cpu p va,
  fits 32 va -> 0 <= p -> p + 4096 <= 2 ^ 32 -> 0 <= cpu -> cpu + Z.of_nat n = num_cpu G ->
  (L1_paddr s + num_cpu G * ARM_L1_SIZE <= L2_paddr s \/ L2_paddr s + num_cpu G * PAGESIZE <= L1_paddr s) ->
  let s' := map_ptbl_from K n s cpu p va in
  same_vars s s' /\ mm_alloc s' = mm_alloc s /\
  (forall b, ~ in_tables s b -> rd (mm_mem s') b = rd (mm_mem s) b) /\
  (forall c g k, is_cpu c -> is_group g -> 0 <= k < 4 ->
     rd (mm_mem s') (slot s c g k) =
       if decide (g = va / 2 ^ 22 /\ cpu <= c) then Z.lor (p + 1024 * k) (ARM_L1_PT K)
       else rd (mm_mem s) (slot s c g k)).
Proof.
  induction n as [|n IH]; intros s cpu p va Hva Hp0 Hp Hc0 Hn Hsep; cbn [map_ptbl_from].
  { split_and!; try done. intros c g k Hc Hg Hk. rewrite decide_False; [done|].
    unfold is_cpu in Hc. lia. }
  set (s1 := map_ptbl_cpu K s cpu p va).
  assert (Hgv : is_group (va / 2 ^ 22)) by (unfold is_group, fits in *; Z.to_euclidean_division_equations; lia).
  assert (Hcpu : is_cpu cpu) by (unfold is_cpu; lia).
  pose proof (l2_dir_in s cpu va Hcpu Hva) as Hdir.
  destruct (IH s1 (cpu + 1) p va) as ((V1 & V2 & V3) & Ha & Hout & Hsl); try done; [lia|lia|].
  split_and!; [by split_and!|done| |].
  - intros b Hb. change (in_tables s1 b) with (in_tables s b) in Hout. rewrite Hout by done.
    apply map_ptbl_cpu_other; try done.
    + intros k Hk ->. apply Hb. by apply slot_in_tables.
    + intros ->. apply Hb. by right.
  - intros c g k Hc Hg Hk. change (slot s c g k) with (slot s1 c g k) at 1. rewrite Hsl by done.
    change (slot s1 c g k) with (slot s c g k).
    destruct (decide (g = va / 2 ^ 22 /\ cpu + 1 <= c)) as [[-> Hle]|Hno].
    { rewrite decide_True; [done|]. split; [done|lia]. }
    destruct (decide (g = va / 2 ^ 22 /\ cpu <= c)) as [[-> Hle]|Hno2].
    + assert (c = cpu) as -> by lia. by apply map_ptbl_cpu_slot.
    + apply map_ptbl_cpu_other; try done.
      * intros k' Hk' He. apply slot_inj in He as (-> & -> & _); try done. apply Hno2. split; [done|lia].
      * intros He. assert (Ht : L1_paddr s <= slot s c g k < L1_paddr s + num_cpu G * ARM_L1_SIZE).
        { unfold slot, is_cpu, is_group, ARM_L1_SIZE in *. nia. }
        rewrite He in Ht. lia.
Qed.

Lemma can_alloc_weaken (n : nat) (a : A) : can_alloc (S n) a -> can_alloc n a.
Proof.
  revert a. induction n as [|n IH]; intros a; [done|].
  intros (a' & p & Hc & Hp & Hn). exists a', p. split_and!; [done..|]. by apply IH.
Qed.

(** The tables after a page [P] was given to group [g] on every CPU. *)
Definition add_group (tbl : Z -> Z -> option Z) (g P c' g' : Z) : option Z :=
  if decide (g' = g /\ is_cpu c') then Some P else tbl c' g'.

#[local] Instance is_cpu_dec c : Decision (is_cpu c).
Proof. unfold is_cpu. apply _. Defined.

(** What finding or making the page table of a group guarantees. *)
Record table_found s s' (dom : Z -> Prop) (tbl tbl' : Z -> Z -> option Z) (c g P : Z) : Prop := {
  tf_inv : mmu_inv s' dom tbl';
  tf_vars : same_vars s s';
  tf_ext : extends tbl tbl';
  tf_here : tbl' c g = Some P;
  tf_uni : forall g', uniform tbl g' -> uniform tbl' g';
  tf_keep : forall c' y w, 0 <= y < 2 ^ 20 -> mapped s tbl c' y w -> mapped s' tbl' c' y w
}.

Lemma get_ptbl_old s dom tbl c g P va f :
  mmu_inv s dom tbl -> is_cpu c -> is_group g -> dom g -> tbl c g = Some P ->
  get_ptbl K s (slot s c g 0) va f = Ok (s, P) /\ table_found s s dom tbl tbl c g P.
Proof.
  intros Hinv Hc Hg Hd Ht. unfold get_ptbl.
  destruct (mi_page _ _ _ Hinv _ _ _ Ht) as (H0 & Hm & He & _).
  rewrite (mi_some _ _ _ Hinv c g P 0) by (done || lia). rewrite Z.mul_0_r, Z.add_0_r.
  rewrite (k_valid K HK) by (unfold fits; Z.to_euclidean_division_equations; lia).
  split; [|split; [done|by split_and!|by intros ?|done|done|done]]. do 2 f_equal. change PGMASK with (2 ^ 12 - 1).
  pose proof (k_pt K HK). change 4096 with (2 ^ 12) in Hm.
  rewrite land_bnot_ones, lor_low; [|lia|lia|lia|apply fits_lor; unfold fits; lia].
  change (2 ^ 12) with 4096 in *. Z.to_euclidean_division_equations. lia.
Qed.

Lemma get_ptbl_new s dom tbl c va n :
  let g := va / 2 ^ 22 in
  mmu_inv s dom tbl -> is_cpu c -> fits 32 va -> dom g -> uniform tbl g -> tbl c g = None ->
  can_alloc (S n) (mm_alloc s) ->
  exists s' P tbl', get_ptbl K s (slot s c g 0) va (fun s p => map_ptbl K G s p va) = Ok (s', P) /\
    table_found s s' dom tbl tbl' c g P /\ can_alloc n (mm_alloc s') /\ uniform tbl' g.
Proof.
  intros g Hinv Hc Hva Hd Huni Hnone (a' & P & Hca & Hnn & Hcan).
  assert (Hg : is_group g) by (unfold g, is_group, fits in *; Z.to_euclidean_division_equations; lia).
  unfold get_ptbl. rewrite (mi_none _ _ _ Hinv c g) by done. unfold calloc. rewrite Hca.
  cbn [mbind res_bind]. rewrite (proj2 (Z.eqb_neq _ _) Hnn). cbn [mbind res_bind mret res_ret].
  destruct (law_calloc (mm_alloc s) a' P PAGESIZE 12 (mi_alloc _ _ _ Hinv))
    as [Hok Hal [HP0 HP1] Hwas Hnow]; [unfold PAGESIZE; lia|lia|done|done|].
  unfold PAGESIZE in *. change (2 ^ 12) with 4096 in Hal.
  set (s1 := with_mem (with_alloc s a') (clear_mem P 4096 (mm_mem s))).
  destruct (map_ptbl_from_spec (Z.to_nat (num_cpu G)) s1 0 P va)
    as (Hv & Ha & Hout & Hsl); try done; [lia|lia|exact (mi_sep _ _ _ Hinv)|].
  fold (map_ptbl K G s1 P va) in *. set (s' := map_ptbl K G s1 P va) in *.
  change (mm_alloc s1) with a' in Ha. destruct Hv as (V1 & V2 & V3).
  change (L1_paddr s1) with (L1_paddr s) in V1. change (L2_paddr s1) with (L2_paddr s) in V2.
  change (mm_pte s1) with (mm_pte s) in V3.
  assert (Htabs : forall x, in_tables s' x <-> in_tables s x) by (intros x; unfold in_tables; by rewrite V1, V2).
  assert (Hslot : forall c' g' k, slot s' c' g' k = slot s c' g' k) by (intros; unfold slot; by rewrite V1).
  assert (Hall : forall c', is_cpu c' -> tbl c' g = None).
  { destruct Huni as [Hu|Hu]; [by destruct (Hu c Hc)|done]. }
  assert (Hnew : forall c' g' Q, tbl c' g' = Some Q -> P + 4096 <= Q \/ Q + 4096 <= P).
  { intros c' g' Q HQ. destruct (mi_page _ _ _ Hinv _ _ _ HQ) as (Q0 & Qm & Q1 & Qx).
    destruct (decide (P = Q)) as [->|]; [|Z.to_euclidean_division_equations; lia].
    destruct (Qx Q ltac:(lia)) as [_ Hnf]. destruct Hnf. apply Hwas. lia. }
  assert (Hntab : forall x, P <= x < P + 4096 -> ~ in_tables s x).
  { intros x Hx Hin. apply (mi_regs _ _ _ Hinv x Hin). by apply Hwas. }
  assert (Hrd : forall b, ~ in_tables s b -> ~ P <= b < P + 4096 -> rd (mm_mem s') b = rd (mm_mem s) b).
  { intros b Hb1 Hb2. rewrite Hout by done. cbn. by rewrite rd_clear, decide_False. }
  assert (Hsrd : forall c' g' k, is_cpu c' -> is_group g' -> 0 <= k < 4 ->
    rd (mm_mem s') (slot s c' g' k) =
      if decide (g' = g /\ 0 <= c') then Z.lor (P + 1024 * k) (ARM_L1_PT K) else rd (mm_mem s) (slot s c' g' k)).
  { intros c' g' k Hc' Hg' Hk. change (slot s c' g' k) with (slot s1 c' g' k) at 1. rewrite Hsl by done.
    change (va / 2 ^ 22) with g. case_decide; [done|]. change (slot s1 c' g' k) with (slot s c' g' k). cbn.
    rewrite rd_clear, decide_False; [done|]. intros Hx. apply (Hntab _ Hx). by apply slot_in_tables. }
  exists s', P, (add_group tbl g P). split; [done|].
  assert (Hhere : forall c', is_cpu c' -> add_group tbl g P c' g = Some P)
    by (intros c' Hc'; unfold add_group; by rewrite decide_True).
  assert (Hadd : forall c' g' Q, add_group tbl g P c' g' = Some Q ->
    (g' = g /\ Q = P) \/ tbl c' g' = Some Q).
  { intros c' g' Q. unfold add_group. case_decide as Hcd; [intros [= <-]; left; tauto|by right]. }
  split; [|split; [by rewrite Ha|left; intros c' Hc'; by rewrite Hhere]].
  split; [split|..].
  - rewrite V1, V2. apply Hinv.
  - rewrite V1, V2. apply Hinv.
  - rewrite V3. apply Hinv.
  - intros c' g' Q [[-> ->]|HQ]%Hadd.
    + split_and!; [lia|done|lia|]. intros x Hx. rewrite Htabs, Ha. split; [by apply Hntab|].
      rewrite Hnow. tauto.
    + destruct (mi_page _ _ _ Hinv _ _ _ HQ) as (Q0 & Qm & Q1 & Qx). split_and!; try done.
      intros x Hx. destruct (Qx x Hx). rewrite Htabs, Ha, Hnow. tauto.
  - intros c' g' Q k Hc' Hg' Hd' HQ Hk. rewrite Hslot, Hsrd by done.
    unfold add_group in HQ. case_decide as Hcd; case_decide as Hcd2; try (exfalso; unfold is_cpu in *; tauto || lia).
    + by injection HQ as <-.
    + by apply (mi_some _ _ _ Hinv).
  - intros c' g' Hc' Hg' Hd' HQ. rewrite Hslot, Hsrd by (done || lia).
    unfold add_group in HQ. case_decide as Hcd; [done|]. rewrite decide_False.
    + by apply (mi_none _ _ _ Hinv).
    + intros [-> _]. by apply Hcd.
  - intros c1 g1 c2 g2 Q [[-> ->]|H1]%Hadd [[-> HQ]|H2]%Hadd; try done.
    + destruct (Hnew _ _ _ H2); lia.
    + rewrite HQ in H1. destruct (Hnew _ _ _ H1); lia.
    + by eapply (mi_inj _ _ _ Hinv).
  - intros x Hx. rewrite Htabs in Hx. rewrite Ha, Hnow. intros [Hf _]. by apply (mi_regs _ _ _ Hinv x).
  - by rewrite Ha.
  - by split_and!.
  - intros c' g' Q HQ. unfold add_group. case_decide as Hcd; [|done].
    destruct Hcd as [-> Hc']. by rewrite Hall in HQ.
  - by apply Hhere.
  - intros g' Hu. destruct (decide (g' = g)) as [->|Hne].
    + left. intros c' Hc'. by rewrite Hhere.
    + destruct Hu as [Hu|Hu]; [left|right]; intros c' Hc'; unfold add_group;
        rewrite decide_False by tauto; by apply Hu.
  - intros c' y w Hy (Q & HQ & Hw). exists Q. split.
    + unfold add_group. case_decide as Hcd; [|done]. destruct Hcd as [Hgy Hc'].
      rewrite Hgy in HQ. by rewrite Hall in HQ.
    + pose proof (Z.mod_pos_bound y 1024 ltac:(lia)).
      destruct (mi_page _ _ _ Hinv _ _ _ HQ) as (Q0 & Qm & Q1 & Qx).
      rewrite Hrd; [done|apply Qx; lia|]. destruct (Hnew _ _ _ HQ); lia.
Qed.

(** ** The loops of [v7_map]

    [v y] is the entry the loops write for page [y]. *)

Record pages_done s s' (dom : Z -> Prop) (tbl tbl' : Z -> Z -> option Z) (c x k : Z) (v : Z -> Z) : Prop := {
  pd_inv : mmu_inv s' dom tbl';
  pd_vars : same_vars s s';
  pd_ext : extends tbl tbl';
  pd_uni : forall g, uniform tbl g -> uniform tbl' g;
  pd_new : forall y, x <= y < x + k -> mapped s' tbl' c y (v y);
  pd_keep : forall c' y w, 0 <= y < 2 ^ 20 -> mapped s tbl c' y w ->
    ~ (x <= y < x + k) \/ w = v y -> mapped s' tbl' c' y w
}.

Lemma pages_done_0 s dom tbl c x v : mmu_inv s dom tbl -> pages_done s s dom tbl tbl c x 0 v.
Proof. intros Hi. split; [done|by split_and!|by intros ?|done|intros; lia|done]. Qed.

Lemma same_vars_trans s1 s2 s3 : same_vars s1 s2 -> same_vars s2 s3 -> same_vars s1 s3.
Proof. unfold same_vars. intros (-> & -> & ->) (-> & -> & ->). done. Qed.

Lemma pages_done_trans s1 s2 s3 dom t1 t2 t3 c x k l v :
  pages_done s1 s2 dom t1 t2 c x k v -> pages_done s2 s3 dom t2 t3 c (x + k) l v ->
  0 <= x -> 0 <= k -> 0 <= l -> x + k + l <= 2 ^ 20 -> pages_done s1 s3 dom t1 t3 c x (k + l) v.
Proof.
  intros [I1 V1 E1 U1 N1 K1] [I2 V2 E2 U2 N2 K2] Hx Hk Hl Hend. split; try done.
  - by eapply same_vars_trans.
  - intros c' g P HP. by apply E2, E1.
  - intros g Hg. by apply U2, U1.
  - intros y Hy. destruct (decide (y < x + k)).
    + apply K2; [lia|apply N1; lia|left; lia].
    + apply N2. lia.
  - intros c' y w Hy Hm Hor. apply K2; [done|apply K1; [done..|]|].
    + destruct Hor; [left; lia|by right].
    + destruct Hor; [left; lia|by right].
Qed.

Lemma fill_spec dom tbl c g P v : forall fuel s i m,
  mmu_inv s dom tbl -> tbl c g = Some P -> is_group g ->
  (forall y, u32 (v y + 4096) = v (y + 1)) ->
  0 <= i <= 1024 -> 1024 - i <= Z.of_nat fuel -> 0 <= m -> 1024 * g + i + m <= 2 ^ 20 ->
  let x := 1024 * g + i in
  let k := Z.min m (1024 - i) in
  exists s', fill fuel s (P + 4 * i) (v x) (u32 (4096 * x)) (4096 * m) i =
      (s', v (x + k), u32 (4096 * (x + k)), 4096 * (m - k)) /\
    pages_done s s' dom tbl tbl c x k v /\ mm_alloc s' = mm_alloc s.
Proof.
  induction fuel as [|fuel IH]; intros s i m Hinv HP Hg Hv Hi Hfuel Hm Hend x k.
  { cbn [fill]. assert (k = 0) as Hk by lia. exists s. rewrite Hk, Z.add_0_r, Z.sub_0_r.
    split; [done|]. split; [by apply pages_done_0|done]. }
  cbn [fill]. destruct (negb (4096 * m =? 0) && (i <? ARM_L2_SIZE)) eqn:Hc; cycle 1.
  { assert (k = 0) as Hk.
    { apply andb_false_iff in Hc as [Hc%negb_false_iff|Hc]; [apply Z.eqb_eq in Hc; lia|].
      apply Z.ltb_ge in Hc. unfold ARM_L2_SIZE in Hc. lia. }
    exists s. rewrite Hk, Z.add_0_r, Z.sub_0_r. split; [done|]. split; [by apply pages_done_0|done]. }
  apply andb_true_iff in Hc as [Hm0%negb_true_iff Hi1%Z.ltb_lt]. apply Z.eqb_neq in Hm0.
  change ARM_L2_SIZE with 1024 in Hi1.
  assert (Hxg : x / 1024 = g /\ x mod 1024 = i) by (unfold x; Z.to_euclidean_division_equations; lia).
  destruct Hxg as [Hxg Hxi]. unfold is_group in Hg.
  destruct (write_pte s dom tbl c x P (v x) Hinv) as (Hinv1 & Hv1 & Ha1 & Hnew & Hkeep);
    [unfold x; lia|by rewrite Hxg|]. rewrite Hxi in *.
  set (s1 := write s (P + 4 * i) (v x)) in *.
  destruct (IH s1 (i + 1) (m - 1) Hinv1 HP Hg Hv) as (s' & He & Hpd & Ha); [lia..|].
  cbv zeta in He, Hpd.
  replace (1024 * g + (i + 1)) with (x + 1) in He, Hpd by (unfold x; lia).
  set (k1 := Z.min (m - 1) (1024 - (i + 1))) in *. assert (Hk : k = 1 + k1) by lia.
  exists s'. rewrite Hv. unfold PAGESIZE.
  replace (P + 4 * i + 4) with (P + 4 * (i + 1)) by lia.
  replace (4096 * m - 4096) with (4096 * (m - 1)) by lia.
  replace (u32 (u32 (4096 * x) + 4096)) with (u32 (4096 * (x + 1)))
    by (unfold wrap; rewrite Zplus_mod_idemp_l; f_equal; lia).
  rewrite He, Hk. replace (x + (1 + k1)) with (x + 1 + k1) by lia.
  replace (m - (1 + k1)) with (m - 1 - k1) by lia. split; [done|].
  split; [|by rewrite Ha].
  eapply pages_done_trans; [|exact Hpd|unfold x; lia|lia|unfold k1; lia|unfold x, k1; lia].
  split; [done|done|by intros ?|done| |].
  - intros y Hy. by replace y with x by lia.
  - intros c' y w Hy Hmp Hor. apply Hkeep; [done..|].
    destruct Hor as [?|Hw]; [left; lia|]. destruct (decide (y = x)) as [->|]; [by right|by left].
Qed.

Lemma found_done s s' dom tbl tbl' c g P x v :
  table_found s s' dom tbl tbl' c g P -> pages_done s s' dom tbl tbl' c x 0 v.
Proof. intros [? ? ? ? ? ?]. split; try done; [lia|]. intros; by auto. Qed.

(** The groups of pages [x .. x+m-1]. *)
Definition groups_of (x m g : Z) : Prop := 0 < m /\ x / 1024 <= g <= (x + m - 1) / 1024.

(** There are tables for all groups the pages need on CPU [c], or memory to make them. *)
Definition tables_or_memory s (tbl : Z -> Z -> option Z) (c x m : Z) : Prop :=
  (forall g, groups_of x m g -> tbl c g <> None) \/
  exists n, can_alloc n (mm_alloc s) /\ (x + m - 1) / 1024 - x / 1024 + 1 <= Z.of_nat n.

(** Finding the table for the first page; what is left for the others. *)
Lemma first_table s dom tbl c x m :
  mmu_inv s dom tbl -> is_cpu c -> 0 <= x -> 0 < m -> x + m <= 2 ^ 20 ->
  (forall g, groups_of x m g -> dom g /\ uniform tbl g) -> tables_or_memory s tbl c x m ->
  exists s' P tbl', get_ptbl K s (slot s c (x / 1024) 0) (4096 * x) (fun s p => map_ptbl K G s p (4096 * x))
      = Ok (s', P) /\ table_found s s' dom tbl tbl' c (x / 1024) P /\
    forall k, 0 <= k <= m -> (k = m \/ (x + k) / 1024 = x / 1024 + 1) ->
      tables_or_memory s' tbl' c (x + k) (m - k).
Proof.
  intros Hinv Hc Hx Hm Hend Hgs Htm.
  assert (Hg1 : groups_of x m (x / 1024)).
  { split; [done|]. split; [lia|]. apply Z.div_le_mono; lia. }
  assert (Hg : is_group (x / 1024)) by (apply group_of; lia).
  assert (Hgva : 4096 * x / 2 ^ 22 = x / 1024).
  { rewrite page_group by lia. rewrite Z.mul_comm, Z.div_mul by lia. done. }
  assert (Hsub : forall k g, 0 <= k <= m -> groups_of (x + k) (m - k) g -> groups_of x m g).
  { intros k g Hk [Hmk Hgk]. split; [lia|].
    assert (x / 1024 <= (x + k) / 1024) by (apply Z.div_le_mono; lia).
    replace (x + k + (m - k) - 1) with (x + m - 1) in Hgk by lia. lia. }
  destruct (Hgs _ Hg1) as [Hd Hu]. destruct (tbl c (x / 1024)) as [P|] eqn:HP.
  - destruct (get_ptbl_old s dom tbl c (x / 1024) P (4096 * x)
      (fun s p => map_ptbl K G s p (4096 * x)) Hinv Hc Hg Hd HP) as [He Hf].
    exists s, P, tbl. split; [done|]. split; [done|]. intros k Hk Hor.
    destruct Htm as [Hall|(n & Hn & Hle)]; [left|right].
    + intros g Hgk. apply Hall. by apply (Hsub k).
    + exists n. split; [done|]. replace (x + k + (m - k) - 1) with (x + m - 1) by lia.
      assert (x / 1024 <= (x + k) / 1024) by (apply Z.div_le_mono; lia). lia.
  - destruct Htm as [Hall|(n & Hn & Hle)]; [by destruct (Hall _ Hg1)|].
    assert (Hn0 : (x + m - 1) / 1024 >= x / 1024) by (apply Z.le_ge, Z.div_le_mono; lia).
    destruct n as [|n]; [lia|].
    destruct (get_ptbl_new s dom tbl c (4096 * x) n) as (s' & P & tbl' & He & Hf & Hcan & _);
      rewrite ?Hgva; try done; [unfold fits; lia|].
    rewrite Hgva in He, Hf. exists s', P, tbl'. split; [done|]. split; [done|]. intros k Hk Hor.
    destruct Hor as [->|Hor]; [left; intros g [? _]; lia|right].
    exists n. split; [done|]. replace (x + k + (m - k) - 1) with (x + m - 1) by lia. lia.
Qed.

Lemma map_cpu_spec dom c v : forall fuel s tbl x m ptp,
  mmu_inv s dom tbl -> is_cpu c -> (forall y, u32 (v y + 4096) = v (y + 1)) ->
  0 <= x -> 0 <= m -> x + m <= 2 ^ 20 -> m < Z.of_nat fuel ->
  (0 < m -> ptp = slot s c (x / 1024) 0) ->
  (forall g, groups_of x m g -> dom g /\ uniform tbl g) -> tables_or_memory s tbl c x m ->
  exists s' tbl', map_cpu K G fuel s ptp (v x) (u32 (4096 * x)) (4096 * m) = Ok s' /\
    pages_done s s' dom tbl tbl' c x m v.
Proof.
  induction fuel as [|fuel IH]; intros s tbl x m ptp Hinv Hc Hv Hx Hm Hend Hfuel Hptp Hgs Htm; [lia|].
  cbn [map_cpu]. destruct (Z.eqb_spec (4096 * m) 0) as [Hz|Hz].
  { assert (m = 0) as -> by lia. exists s, tbl. split; [done|by apply pages_done_0]. }
  rewrite Hptp by lia. rewrite (wrap_id 32 (4096 * x)) by (unfold fits; lia).
  destruct (first_table s dom tbl c x m) as (s1 & P & tbl1 & -> & Hf & Htm1); try done; [lia|].
  cbn [mbind res_bind]. rewrite pte_index_page by lia.
  pose proof (Z.mod_pos_bound x 1024 ltac:(lia)) as Hmod.
  pose proof (Z.div_mod x 1024 ltac:(lia)) as Hdm.
  set (i := x mod 1024) in *. set (g := x / 1024) in *.
  destruct (fill_spec dom tbl1 c g P v (Z.to_nat ARM_L2_SIZE) s1 i m) as (s2 & He & Hpd & Ha);
    [apply Hf|exact (tf_here _ _ _ _ _ _ _ _ Hf)|apply group_of; lia|done|lia|unfold ARM_L2_SIZE; lia|lia|lia|].
  cbv zeta in He, Hpd. replace (1024 * g + i) with x in He, Hpd by lia.
  rewrite (wrap_id 32 (4096 * x)) in He by (unfold fits; lia).
  set (k := Z.min m (1024 - i)) in *. rewrite He.
  assert (Hk : 0 < k <= m) by lia.
  assert (Hkg : k = m \/ (x + k) / 1024 = g + 1).
  { destruct (decide (k = m)); [by left|right]. assert (k = 1024 - i) by lia.
    replace (x + k) with ((g + 1) * 1024) by lia. apply Z.div_mul. lia. }
  assert (Hv1 : same_vars s s1) by apply Hf.
  pose proof (pages_done_trans _ _ _ _ _ _ _ _ _ 0 k v (found_done _ _ _ _ _ _ _ _ x v Hf)
    ltac:(by rewrite Z.add_0_r) Hx ltac:(lia) ltac:(lia) ltac:(lia)) as Hpd2.
  rewrite Z.add_0_l in Hpd2.
  destruct (IH s2 tbl1 (x + k) (m - k) (slot s c g 0 + 16)) as (s3 & tbl3 & He3 & Hpd3); try done;
    [apply Hpd|lia|lia|lia|lia| | | |].
  - intros Hmk. destruct Hkg as [?|Hkg]; [lia|]. rewrite Hkg.
    destruct (pd_vars _ _ _ _ _ _ _ _ _ Hpd2) as (V1 & _ & _). unfold slot. rewrite V1. lia.
  - intros g' [Hmk Hg']. assert (Hin : groups_of x m g').
    { split; [lia|]. fold g. assert (g <= (x + k) / 1024) by (apply Z.div_le_mono; lia).
      replace (x + k + (m - k) - 1) with (x + m - 1) in Hg' by lia. lia. }
    destruct (Hgs g' Hin). split; [done|]. by apply (tf_uni _ _ _ _ _ _ _ _ Hf).
  - destruct (Htm1 k ltac:(lia)) as [Hall|(n & Hn & Hle)]; [by destruct Hkg; [left|right]|by left|right].
    exists n. by rewrite Ha.
  - exists s3, tbl3. split; [exact He3|].
    replace m with (k + (m - k)) by lia. eapply pages_done_trans; [done|done|lia..].
Qed.

(** All CPUs from [cpu] on. *)
Lemma map_cpus_spec dom v x m : forall n s tbl cpu,
  mmu_inv s dom tbl -> (forall y, u32 (v y + 4096) = v (y + 1)) ->
  0 <= x -> 0 < m -> x + m < 2 ^ 20 -> 0 <= cpu -> cpu + Z.of_nat n = num_cpu G ->
  (forall g, groups_of x m g -> dom g /\ uniform tbl g) ->
  ((0 < n)%nat -> tables_or_memory s tbl cpu x m) ->
  exists s' tbl', map_cpus K G n s cpu (v x) (4096 * x) (4096 * m) = Ok s' /\
    mmu_inv s' dom tbl' /\ same_vars s s' /\ extends tbl tbl' /\
    (forall c y, cpu <= c < num_cpu G -> x <= y < x + m -> mapped s' tbl' c y (v y)) /\
    (forall c y w, 0 <= y < 2 ^ 20 -> mapped s tbl c y w ->
       ~ (x <= y < x + m) \/ w = v y -> mapped s' tbl' c y w).
Proof.
  induction n as [|n IH]; intros s tbl cpu Hinv Hv Hx Hm Hend Hcpu Hn Hgs Htm; cbn [map_cpus].
  { exists s, tbl. split; [done|]. split; [done|]. split; [by split_and!|]. split; [by intros ?|].
    split; [intros; lia|done]. }
  rewrite l1_group_slot by (unfold fits; lia).
  rewrite page_group, Z.mul_comm, Z.div_mul by lia. rewrite Z.mul_comm.
  change PAGESIZE with 4096. rewrite (Z.mul_comm 4096 m), Z.div_mul, (Z.mul_comm m) by lia.
  destruct (map_cpu_spec dom cpu v (S (Z.to_nat m)) s tbl x m (slot s cpu (x / 1024) 0))
    as (s1 & tbl1 & He & [I1 V1 E1 U1 N1 K1]); try done; [unfold is_cpu; lia|lia|lia|lia|apply Htm; lia|].
  rewrite (wrap_id 32 (4096 * x)) in He by (unfold fits; lia). rewrite He. cbn [mbind res_bind].
  destruct (IH s1 tbl1 (cpu + 1)) as (s2 & tbl2 & -> & I2 & V2 & E2 & N2 & K2); try done; [lia|lia| | |].
  - intros g Hg. destruct (Hgs g Hg). split; [done|by apply U1].
  - intros Hn0. left. intros g Hg. destruct (Hgs g Hg) as [Hd Hu]. pose proof Hg as [_ Hgr].
    destruct (N1 (Z.max x (1024 * g))) as (P & HP & _); [Z.to_euclidean_division_equations; lia|].
    assert (Z.max x (1024 * g) / 1024 = g) as Hyg by (Z.to_euclidean_division_equations; lia).
    rewrite Hyg in HP. destruct (U1 g Hu) as [Hall|Hnone].
    + apply Hall. unfold is_cpu. lia.
    + rewrite Hnone in HP; [done|]. unfold is_cpu. lia.
  - exists s2, tbl2. split; [done|]. split; [done|]. split; [by eapply same_vars_trans|].
    split; [intros c g P HP; by apply E2, E1|]. split.
    + intros c y Hc Hy. destruct (decide (c = cpu)) as [->|]; [|apply N2; lia].
      apply K2; [lia|by apply N1|by right].
    + intros c y w Hy Hmp Hor. apply K2; [done|by apply K1|done].
Qed.

(** ** Translation *)

Lemma translate_mapped s dom tbl c va w :
  mmu_inv s dom tbl -> is_cpu c -> fits 32 va -> dom (va / 2 ^ 22) -> mapped s tbl c (va / 4096) w ->
  translate K s c va = Z.land w (bnot 32 PGMASK) + va mod 4096.
Proof.
  intros Hinv Hc Hva Hd (P & HP & Hw). unfold fits in Hva.
  rewrite <- page_group in HP by lia.
  set (g := va / 2 ^ 22) in *. set (k := va / 2 ^ 20 mod 4).
  assert (Hg : is_group g) by (unfold g, is_group; Z.to_euclidean_division_equations; lia).
  assert (Hk : 0 <= k < 4) by (apply Z.mod_pos_bound; lia).
  assert (Hslot : l1_entry s c va = slot s c g k).
  { unfold l1_entry, slot, CPU_L1_TABLE. rewrite Z.shiftr_div_pow2 by lia.
    unfold g, k. change (2 ^ 22) with (2 ^ 20 * 4). rewrite <- Z.div_div by lia.
    pose proof (Z.div_mod (va / 2 ^ 20) 4 ltac:(lia)). lia. }
  destruct (mi_page _ _ _ Hinv _ _ _ HP) as (HP0 & HPm & HPe & _).
  unfold translate. rewrite Hslot, (mi_some _ _ _ Hinv c g P k) by done.
  pose proof (k_pt K HK). rewrite (k_scn K HK)
    by (unfold fits; Z.to_euclidean_division_equations; lia).
  assert (Hbase : Z.land (Z.lor (P + 1024 * k) (ARM_L1_PT K)) (bnot 32 PGMASK) = P).
  { change PGMASK with (2 ^ 12 - 1). rewrite land_bnot_ones by (try apply fits_lor; unfold fits; lia).
    rewrite lor_div, (Z.div_small (ARM_L1_PT K)), Z.lor_0_r by lia. change (2 ^ 12) with 4096.
    Z.to_euclidean_division_equations. lia. }
  rewrite Hbase. unfold pte_index. change (ARM_L2_SIZE - 1) with (Z.ones 10).
  rewrite Z.land_ones, Z.shiftr_div_pow2 by lia. change (2 ^ 10) with 1024. change (2 ^ 12) with 4096.
  rewrite Hw. f_equal. change PGMASK with (Z.ones 12). by rewrite Z.land_ones by lia.
Qed.

Lemma inv_next s dom tbl n : mmu_inv s dom tbl -> mmu_inv (with_next s n) dom tbl.
Proof. intros []. by split. Qed.

(** The entries [v7_map] writes: the first one and the ones 4K apart after it. *)
Definition entry_from (e x0 y : Z) : Z := u32 (e + 4096 * (y - x0)).

Lemma entry_from_step e x0 y : u32 (entry_from e x0 y + 4096) = entry_from e x0 (y + 1).
Proof. unfold entry_from, wrap. rewrite Zplus_mod_idemp_l. f_equal. lia. Qed.

Lemma entry_page e pa x0 y :
  fits 32 e -> e / 4096 = pa / 4096 -> 0 <= pa -> x0 <= y -> pa / 4096 + (y - x0) < 2 ^ 20 ->
  Z.land (entry_from e x0 y) (bnot 32 PGMASK) = 4096 * (pa / 4096 + (y - x0)).
Proof.
  intros He Hd Hpa Hy Hr. unfold entry_from, fits in *.
  assert (Hs : 0 <= e + 4096 * (y - x0) < 2 ^ 32) by (Z.to_euclidean_division_equations; lia).
  rewrite wrap_id by done. change PGMASK with (2 ^ 12 - 1). rewrite land_bnot_ones by (done || lia).
  change (2 ^ 12) with 4096. f_equal. rewrite (Z.mul_comm 4096), Z.div_add by lia. lia.
Qed.

(** C1.  [v7_map] and the page walk agree.  With page tables in order, enough memory for the missing
    ones and a range that wraps neither the virtual nor the physical address space, [v7_map]
    succeeds and keeps the tables in order; afterwards every CPU translates every address of the
    mapped pages to the physical address asked for, whatever the protection, and translates every
    page it had mapped outside the range as before. *)
Theorem v7_map_correct s dom tbl vaddr paddr size prot :
  mmu_inv s dom tbl -> flags1_virtual G = true -> fits 32 paddr -> 0 < size ->
  let off := paddr mod 4096 in
  let va := if vaddr =? 2 ^ 32 - 1 then next_addr s else vaddr in
  let sz := ROUNDPG (size + off) in
  0 <= va -> va mod 4096 = 0 -> va + sz < 2 ^ 32 -> size + off + 4095 < 2 ^ 32 ->
  paddr - off + sz <= 2 ^ 32 ->
  (forall g, groups_of (va / 4096) (sz / 4096) g -> dom g /\ uniform tbl g) ->
  tables_or_memory s tbl 0 (va / 4096) (sz / 4096) ->
  exists s' tbl', v7_map K G s vaddr paddr size prot = Ok (s', va + off) /\
    mmu_inv s' dom tbl' /\
    (forall c x, is_cpu c -> va <= x < va + sz -> translate K s' c x = paddr - off + (x - va)) /\
    (forall c x w, is_cpu c -> fits 32 x -> ~ (va <= x < va + sz) -> dom (x / 2 ^ 22) ->
       mapped s tbl c (x / 4096) w -> translate K s' c x = translate K s c x).
Proof.
  intros Hinv Hvirt Hpa Hsz0 off va sz Hva0 Hvam Hvae Hsz Hpae Hgs Htm.
  unfold v7_map. rewrite (wrap_id 32 paddr) by done. rewrite Z.eqb_refl, Hvirt. cbn [negb].
  assert (Hoff : Z.land paddr PGMASK = off).
  { change PGMASK with (Z.ones 12). by rewrite Z.land_ones by lia. }
  pose proof (Z.mod_pos_bound paddr 4096 ltac:(lia)) as Hoffb. fold off in Hoffb.
  pose proof (ROUND_bounds (size + off) 12 ltac:(lia) ltac:(lia) ltac:(lia)) as [Hrb Hrm].
  change (2 ^ 12) with 4096 in Hrb, Hrm. fold PAGESIZE in Hrb, Hrm. fold (ROUNDPG (size + off)) in Hrb, Hrm.
  fold sz in Hrb, Hrm. rewrite Hoff, (wrap_id 32 (size + off)) by (unfold fits; lia). fold sz.
  rewrite (wrap_id 32 sz) by (unfold fits; lia).
  pose proof (Z.div_mod va 4096 ltac:(lia)) as Hvad. pose proof (Z.div_mod sz 4096 ltac:(lia)) as Hszd.
  unfold PAGESIZE in Hrm. rewrite Hvam in Hvad. rewrite Hrm in Hszd.
  set (x := va / 4096) in *. set (m := sz / 4096) in *.
  assert (Hx : 0 <= x /\ 0 < m /\ x + m < 2 ^ 20) by lia.
  set (s1 := if vaddr =? 2 ^ 32 - 1 then with_next s (u32 (next_addr s + sz)) else s).
  replace (if vaddr =? 2 ^ 32 - 1 then (with_next s (u32 (next_addr s + sz)), next_addr s) else (s, vaddr))
    with (s1, va) by (unfold s1, va; by destruct (vaddr =? 2 ^ 32 - 1)).
  assert (Hinv1 : mmu_inv s1 dom tbl) by (unfold s1; destruct (_ =? _); [by apply inv_next|done]).
  assert (Hmem1 : mm_mem s1 = mm_mem s /\ mm_alloc s1 = mm_alloc s /\ mm_pte s1 = mm_pte s)
    by (unfold s1; by destruct (_ =? _)).
  destruct Hmem1 as (Hmem1 & Hal1 & Hpt1).
  destruct (set_pte_page K (mm_pte s) paddr prot HK (mi_pte _ _ _ Hinv) Hpa) as [Hpf Hpd].
  set (e := set_pte K (mm_pte s) paddr prot) in *.
  assert (He0 : entry_from e x x = e).
  { unfold entry_from. rewrite Z.sub_diag, Z.add_0_r. by apply wrap_id. }
  destruct (map_cpus_spec dom (entry_from e x) x m (Z.to_nat (num_cpu G)) s1 tbl 0)
    as (s2 & tbl2 & Hmc & I2 & V2 & E2 & N2 & K2);
    [done|apply entry_from_step|lia..|done|unfold tables_or_memory; by rewrite Hal1|].
  replace (4096 * x) with va in Hmc by lia. replace (4096 * m) with sz in Hmc by lia.
  rewrite He0 in Hmc. exists s2, tbl2. rewrite Hmc. cbn [mbind res_bind mret res_ret].
  rewrite (wrap_id 32 (va + off)) by (unfold fits; lia).
  assert (Hpoff : paddr - off = 4096 * (paddr / 4096))
    by (pose proof (Z.div_mod paddr 4096 ltac:(lia)); unfold off; lia).
  split; [done|]. split; [done|]. split.
  - intros c y Hc Hy. set (p := y / 4096).
    assert (Hp : x <= p < x + m /\ y = 4096 * p + y mod 4096)
      by (unfold p; Z.to_euclidean_division_equations; lia).
    assert (Hg : dom (y / 2 ^ 22)).
    { rewrite page_group by lia. apply Hgs. split; [lia|]. fold p.
      split; apply Z.div_le_mono; lia. }
    rewrite (translate_mapped s2 dom tbl2 c y (entry_from e x p)); [|done|done|unfold fits; lia|done|].
    + unfold fits in Hpa. rewrite (entry_page e paddr) by (done || lia). lia.
    + fold p. apply N2; [unfold is_cpu in Hc; lia|lia].
  - intros c y w Hc Hy Hout Hd Hmp. unfold fits in Hy.
    assert (Hy4 : y = 4096 * (y / 4096) + y mod 4096 /\ 0 <= y mod 4096 < 4096)
      by (pose proof (Z.div_mod y 4096 ltac:(lia)); pose proof (Z.mod_pos_bound y 4096); lia).
    rewrite (translate_mapped s dom tbl c y w), (translate_mapped s2 dom tbl2 c y w); try done.
    apply K2; [lia| |left; lia].
    destruct Hmp as (Q & HQ & Hw). exists Q. by rewrite Hmem1.
Qed.

End Correct.
