(* ===== verification/Libc.v ===== *)
(** * Libc: the C library routines the drivers use on option strings.

    Strings are lists of character codes without the terminating zero. *)

From S2P Require Import Prelude.

Definition COMMA : Z := 44.
Definition EQUALS : Z := 61.

(** The part of [s] before the first [c], and what follows that character. *)
Fixpoint break_at (c : Z) (s : list Z) : list Z * option (list Z) :=
  match s with
  | [] => ([], None)
  | x :: r =>
      if x =? c then ([], Some r)
      else let '(a, b) := break_at c r in (x :: a, b)
  end.

(** The index of [name] in a token table. *)
Fixpoint token_index (name : list Z) (tokens : list (list Z)) (i : Z) : Z :=
  match tokens with
  | [] => -1
  | t :: r => if decide (name = t) then i else token_index name r (i + 1)
  end.

(** [getsubopt(&s, tokens, &value)]: the token's index or -1, the value, the rest of the string. *)
Definition getsubopt (s : list Z) (tokens : list (list Z)) : Z * option (list Z) * list Z :=
  let '(sub, rest) := break_at COMMA s in
  let next := match rest with Some r => r | None => [] end in
  let '(name, value) := break_at EQUALS sub in
  let i := token_index name tokens 0 in
  if i =? -1 then (-1, Some sub, next) else (i, value, next).

Definition is_space (c : Z) : bool := (c =? 32) || ((9 <=? c) && (c <=? 13)).

(** The value of a digit in any base up to 36. *)
Definition digit_of (c : Z) : option Z :=
  if (48 <=? c) && (c <=? 57) then Some (c - 48)
  else if (97 <=? c) && (c <=? 122) then Some (c - 97 + 10)
  else if (65 <=? c) && (c <=? 90) then Some (c - 65 + 10)
  else None.

Fixpoint skip_space (s : list Z) : list Z :=
  match s with c :: r => if is_space c then skip_space r else s | [] => [] end.

(** The number read from the leading digits of [s]. *)
Fixpoint digits (base : Z) (s : list Z) (v : Z) : Z :=
  match s with
  | [] => v
  | c :: r =>
      match digit_of c with
      | Some d => if d <? base then digits base r (v * base + d) else v
      | None => v
      end
  end.

Definition is_hex_digit (c : Z) : bool :=
  match digit_of c with Some d => d <? 16 | None => false end.

(** The base [strtoul(s, 0, 0)] uses and the digits it reads. *)
Definition auto_base (s : list Z) : Z * list Z :=
  match s with
  | 48 :: c :: d :: r => if ((c =? 120) || (c =? 88)) && is_hex_digit d then (16, d :: r) else (8, s)
  | 48 :: _ => (8, s)
  | _ => (10, s)
  end.

(** [strtoul(s, 0, 0)] with a 32-bit [unsigned long]: saturates, and negates modulo [2^32]. *)
Definition strtoul (s : list Z) : Z :=
  let s := skip_space s in
  let '(neg, s) := match s with
                   | 45 :: r => (true, r)
                   | 43 :: r => (false, r)
                   | _ => (false, s)
                   end in
  let '(base, ds) := auto_base s in
  let v := digits base ds 0 in
  if 2 ^ 32 <=? v then 2 ^ 32 - 1 else if neg then u32 (- v) else v.

Lemma break_at_app c a b : Forall (fun x => x <> c) a -> break_at c (a ++ c :: b) = (a, Some b).
Proof.
  induction 1 as [|x a Hx _ IH]; cbn [app break_at]; [by rewrite Z.eqb_refl|].
  rewrite IH. by zbool.
Qed.

Lemma break_at_none c a : Forall (fun x => x <> c) a -> break_at c a = (a, None).
Proof.
  induction 1 as [|x a Hx _ IH]; cbn [break_at]; [done|]. rewrite IH. by zbool.
Qed.

(** Parsing always makes progress. *)
Lemma break_at_length c s a b : break_at c s = (a, Some b) -> (length b < length s)%nat.
Proof.
  revert a b; induction s as [|x s IH]; intros a b; cbn [break_at length]; [done|].
  destruct (x =? c); [intros [= _ ->]; lia|].
  destruct (break_at c s) as [a' b'] eqn:Hs. intros [= _ ->]. specialize (IH _ _ eq_refl). lia.
Qed.

Lemma getsubopt_length s tokens i v r :
  getsubopt s tokens = (i, v, r) -> s <> [] -> (length r < length s)%nat.
Proof.
  unfold getsubopt. destruct (break_at COMMA s) as [sub rest] eqn:Hs.
  destruct (break_at EQUALS sub) as [name value]. intros H Hne.
  assert (Hl : (length (match rest with Some r => r | None => [] end) < length s)%nat).
  { destruct rest as [r'|]; [by eapply break_at_length|]. destruct s; [done|cbn; lia]. }
  destruct (token_index name tokens 0 =? -1); by injection H as <- <- <-.
Qed.

(** One option, written [name=value] and followed by more options or by the end. *)
Lemma getsubopt_value name value rest tokens i :
  Forall (fun x => x <> COMMA /\ x <> EQUALS) name -> Forall (fun x => x <> COMMA) value ->
  token_index name tokens 0 = i -> i <> -1 ->
  getsubopt (name ++ EQUALS :: value ++ COMMA :: rest) tokens = (i, Some value, rest) /\
  getsubopt (name ++ EQUALS :: value) tokens = (i, Some value, []).
Proof.
  intros Hn Hv Hi Hne.
  assert (Hc : Forall (fun x => x <> COMMA) (name ++ EQUALS :: value)).
  { apply Forall_app; split; [eapply Forall_impl; [exact Hn|]; by intros ? []|]. by constructor. }
  assert (He : Forall (fun x => x <> EQUALS) name)
    by (eapply Forall_impl; [exact Hn|]; by intros ? []).
  unfold getsubopt. split.
  - replace (name ++ EQUALS :: value ++ COMMA :: rest)
      with ((name ++ EQUALS :: value) ++ COMMA :: rest) by by rewrite <- app_assoc.
    rewrite break_at_app, break_at_app, Hi by done. by destruct (Z.eqb_spec i (-1)).
  - rewrite break_at_none, break_at_app, Hi by done. by destruct (Z.eqb_spec i (-1)).
Qed.

(** A flag: a name with no value. *)
Lemma getsubopt_flag name rest tokens i :
  Forall (fun x => x <> COMMA /\ x <> EQUALS) name -> token_index name tokens 0 = i -> i <> -1 ->
  getsubopt (name ++ COMMA :: rest) tokens = (i, None, rest) /\
  getsubopt name tokens = (i, None, []).
Proof.
  intros Hn Hi Hne.
  assert (Hc : Forall (fun x => x <> COMMA) name)
    by (eapply Forall_impl; [exact Hn|]; by intros ? []).
  assert (He : Forall (fun x => x <> EQUALS) name)
    by (eapply Forall_impl; [exact Hn|]; by intros ? []).
  unfold getsubopt. split.
  - rewrite break_at_app, break_at_none, Hi by done. by destruct (Z.eqb_spec i (-1)).
  - rewrite !break_at_none, Hi by done. by destruct (Z.eqb_spec i (-1)).
Qed.

Example strtoul_hex : strtoul (chars "0x2000") = 8192.
Proof. vm_compute. reflexivity. Qed.

Example strtoul_octal : strtoul (chars "017") = 15.
Proof. vm_compute. reflexivity. Qed.
