(* ===== verification/SdmaSys.v ===== *)
(** * SdmaSys: the SDMA library's world, and its lower layers (lib/dma/sdma/sync.c, irq.c, cmd.c,
    imx6x/script.c, and the constants and structures of sdma.h).

    The library talks to three things that are not its own code: the SDMA controller's registers
    ([SdmaDevice], named by their offset from [sdma_base]), the operating system (every call is an
    event of the trace, answered by [env], which may look at the whole history), and the shared
    memory object, whose fields are part of the state.  A function of the library is a computation
    in the state monad [M]. *)

From S2P Require Import Prelude.

(** ** Constants of sdma.h *)

Create HintDb sdma.

Definition SDMA_BASE : Z := 0x53FD4000.
Definition SDMA_SIZE : Z := 0x4000.
Definition SDMA_IRQ : Z := 34.
Definition SDRAM_BASE : Z := 0x80000000.
Definition SDMA_N_CH : Z := 32.
Definition SDMA_CH_LO : Z := 1.
Definition SDMA_CH_HI : Z := 31.
Definition SDMA_CH_PRIO_LO : Z := 1.
Definition SDMA_CH_PRIO_HI : Z := 7.

Definition SDMA_CHTYPE_AP_2_AP : Z := 0.
Definition SDMA_CHTYPE_MCU_2_AP : Z := 1.
Definition SDMA_CHTYPE_AP_2_MCU : Z := 2.
Definition SDMA_CHTYPE_MCU_2_SHP : Z := 3.
Definition SDMA_CHTYPE_SHP_2_MCU : Z := 4.
Definition SDMA_CHTYPE_MCU_2_SPDIF : Z := 5.
Definition SDMA_CHTYPE_SPDIF_2_MCU : Z := 6.
Definition SDMA_CHTYPE_UARTSH_2_MCU : Z := 7.
Definition SDMA_CHTYPE_UART_2_MCU : Z := 8.
Definition SDMA_CHTYPE_MCU_2_SSISH : Z := 9.
Definition SDMA_CHTYPE_SSISH_2_MCU : Z := 10.
Definition SDMA_CHTYPE_MCU_2_SSIAPP : Z := 11.
Definition SDMA_CHTYPE_SSIAPP_2_MCU : Z := 12.
Definition SDMA_MAX_CHAN : Z := 255.

Definition SDMA_CMD_CH : Z := 0.
Definition SDMA_CMD_CH_PRIO : Z := 4.
Definition SDMA_CMD_COMPLETE_PULSE_CODE : Z := 1.
Definition SDMA_CMD_TIMOUT_NS : Z := 1000000000.

Definition SDMA_MC0PTR : Z := 0x00.
Definition SDMA_INTR : Z := 0x04.
Definition SDMA_HSTART : Z := 0x0C.
Definition SDMA_EVTOVR : Z := 0x10.
Definition SDMA_HOSTOVR : Z := 0x18.
Definition SDMA_RESET : Z := 0x24.
Definition SDMA_CONFIG : Z := 0x38.
Definition CONFIG_CSM_MSK : Z := 0x3.
Definition CONFIG_CSM_STATIC : Z := 0x0.
Definition CONFIG_CSM_DYNAMIC : Z := 0x3.
Definition SDMA_CHN0ADDR : Z := 0x5C.
Definition SDMA_CHNPRI (n : Z) : Z := 0x100 + Z.shiftl n 2.
Definition MAX_DMA_EVENT : Z := 48.
Definition SDMA_CHNENBL (n : Z) : Z := 0x200 + Z.shiftl n 2.

Definition SDMA_CMDSTAT_COUNT_MASK : Z := 0xffff.
Definition SDMA_CMDSTAT_DONE_MASK : Z := 0x10000.
Definition SDMA_CMDSTAT_WRAP_MASK : Z := 0x20000.
Definition SDMA_CMDSTAT_CONT_MASK : Z := 0x40000.
Definition SDMA_CMDSTAT_INT_MASK : Z := 0x80000.
Definition SDMA_CMDSTAT_ERROR_MASK : Z := 0x100000.
Definition SDMA_CMDSTAT_EXT_MASK : Z := 0x800000.
Definition SDMA_CMDSTAT_CMD_POS : Z := 24.
Definition SDMA_CMD_C0_SET_PM : Z := Z.shiftl 0x4 SDMA_CMDSTAT_CMD_POS.
Definition SDMA_CMD_C0_SETCTX (n : Z) : Z :=
  u32 (Z.shiftl (Z.lor (Z.shiftl n 3) 7) SDMA_CMDSTAT_CMD_POS).
Definition SDMA_CMD_XFER_SIZE (s : Z) : Z :=
  Z.shiftl (if s =? 8 then 1 else if s =? 16 then 2 else if s =? 24 then 3 else 0) 24.
Definition SDMA_CTX_WSIZE : Z := 32.

(** Structure sizes on 32-bit ARM. *)
Definition SIZEOF_BD : Z := 12.
Definition SIZEOF_CCB : Z := 16.
Definition SIZEOF_CTX : Z := 128.
Definition MAX_DESCRIPTORS : Z := 1024.

(** ** Data *)

(** [sdma_bd_t], [sdma_ccb_t] and the words of [sdma_ch_ctx_t] the library writes. *)
Record sdma_bd := mk_bd { cmd_and_status : Z; buf_paddr : Z; ext_buf_paddr : Z }.
Record sdma_ccb := mk_ccb { current_bd_paddr : Z; base_bd_paddr : Z }.
Record sdma_ch_ctx := mk_ctx { ctx_pc : Z; g_reg : list Z }.

(** [sdma_chan_t]; the descriptor table and the context image it points to are part of it, with
    their addresses. *)
Record sdma_chan := mk_chan {
  ch_num : Z;
  ch_type : Z;
  attach_flags : Z;
  watermark : Z;
  fifo_paddr : Z;
  eventnum : Z;
  is_event_driven : bool;
  regen_descr : bool;
  cont_descr_loop : bool;
  bd_ptr : Z;
  ch_bds : list sdma_bd;
  n_frags : Z;
  ctx_ptr : Z;
  ch_ctx : sdma_ch_ctx;
  ctx_paddr : Z
}.

(** Pointers to [sigevent]: none, the command channel's own, or a client's. *)
Inductive event_ptr := NoEvent | CmdEvent | UserEvent (p : Z).

(** The only interrupt callback of the library. *)
Inductive sdmairq_callback := Callback_reenable_descr.

(** Shared-memory and process mutexes. *)
Inductive mutex := ProcessInit | LibInit | Command | Register.

(** Operating-system calls. *)
Inductive oscall :=
  | Calloc (size : Z)
  | Free (p : Z)
  | Strdup (s : list Z)
  | TypedMemOpen
  | ShmOpen
  | ShmCreate
  | ShmCtl (fd size : Z)
  | MutexInit (m : mutex)
  | RsrcCreate (lo hi : Z)
  | Close (fd : Z)
  | Mmap (fd size : Z)
  | Munmap (p size : Z)
  | MmapDeviceIo (size paddr : Z)
  | MunmapDeviceIo (p size : Z)
  | MemOffset (p size : Z)
  | Memcpy (p size : Z)
  | InterruptAttach (irq : Z)
  | InterruptDetach (id : Z)
  | CacheInit
  | CacheFini
  | CacheFlush (paddr size : Z)
  | ChannelCreate
  | ChannelDestroy (chid : Z)
  | ConnectAttach (chid : Z)
  | ConnectDetach (coid : Z)
  | MutexLock (m : mutex)
  | MutexUnlock (m : mutex)
  | RsrcAttach (lo hi : Z)
  | RsrcDetach (ch : Z)
  | TimerTimeout (ns : Z)
  | MsgReceivePulse (chid : Z)
  | ThreadPriority
  | Nanospin (ns : Z)
  | ReadFreed (p : Z).

(** A call's return value and what it stores through its output argument. *)
Record answer := mk_answer { ret : Z; out : Z }.
Definition event : Type := oscall * answer.

Definition MAP_FAILED : Z := 2 ^ 32 - 1.

#[export] Instance mutex_eq_dec : EqDecision mutex.
Proof. solve_decision. Defined.

(** The controller's registers, by offset. *)
Class SdmaDevice (D : Type) := {
  in32 : D -> Z -> Z;
  out32 : D -> Z -> Z -> D
}.

(** The registers that simply hold what was last written. *)
Definition plain_reg (o : Z) : Prop :=
  o = SDMA_EVTOVR \/ o = SDMA_HOSTOVR \/ o = SDMA_CONFIG \/ o = SDMA_CHN0ADDR \/ o = SDMA_MC0PTR \/
  (exists n, 0 <= n < SDMA_N_CH /\ o = SDMA_CHNPRI n) \/
  (exists n, 0 <= n < MAX_DMA_EVENT /\ o = SDMA_CHNENBL n).

(** What the reference manual says of the registers: plain registers store, writing [INTR] clears
    the bits written as one, starting a channel changes no plain register. *)
Class SdmaDeviceLaws (D : Type) `{SdmaDevice D} : Prop := {
  law_fits : forall d o, fits 32 (in32 d o);
  law_same : forall d o v, plain_reg o -> fits 32 v -> in32 (out32 d o v) o = v;
  law_other : forall d o o' v, plain_reg o' -> o <> o' -> o <> SDMA_RESET ->
    in32 (out32 d o v) o' = in32 d o';
  law_w1c : forall d v, in32 (out32 d SDMA_INTR v) SDMA_INTR = Z.land (in32 d SDMA_INTR) (bnot 32 v)
}.

(** ** The state *)

(** irq.c's local variables. *)
Record irq_st := mk_irq {
  channel_mask : Z;
  event_array : list event_ptr;
  callback_array : list (option sdmairq_callback);
  irq_id : Z
}.

(** [sdma_shmem_t]. *)
Record sdma_shmem := mk_shmem {
  process_cnt : Z;
  ccb_paddr : Z;
  ccb_arr : list sdma_ccb;
  cmd_chn_bd : sdma_bd
}.

(** cmd.c's local variables: [scriptinfo] and the command channel's message channel. *)
Record cmd_st := mk_cmd {
  cmd_chid : Z;
  cmd_coid : Z;
  cmd_event_prio : Z;
  script_addr_arr : list Z;
  microcode_p : bool;
  microcode_addr : Z;
  microcode_size : Z
}.

(** api.c's variables. *)
Record api_st := mk_api {
  irq : Z;
  regphys : Z;
  sdma_size : Z;
  sdram_base : Z;
  sdma_base : Z;
  sync_fd : Z;
  shmem_ptr : Z;
  n_users_in_process : Z;
  chan_ptr_list : list Z
}.

Record lib (D : Type) := mk_lib {
  dev : D;
  trace : list event;
  irqs : irq_st;
  shm : sdma_shmem;
  cmd : cmd_st;
  api : api_st;
  chans : gmap Z sdma_chan
}.
Arguments mk_lib {D}.
Arguments dev {D}.
Arguments trace {D}.
Arguments irqs {D}.
Arguments shm {D}.
Arguments cmd {D}.
Arguments api {D}.
Arguments chans {D}.

(** ** The monad *)

Definition M (D A : Type) : Type := lib D -> res (A * lib D).
#[export] Instance M_ret D : MRet (M D) := fun A a s => Ok (a, s).
#[export] Instance M_bind D : MBind (M D) :=
  fun A B f m s => match m s with Ok (a, s') => f a s' | Err e => Err e end.

(** The operating system and the SDK: the answer to a call, given what was called before;
    the size and the field offsets of
    [sdma_shmem_t], which holds three SDK mutexes; the hwinfo queries of libdrvr (a device's
    offset by name, the base and size of its location tag, its first interrupt vector); and the number of
    pulses the model waits for on the command channel. *)
Class Os := {
  env : list event -> oscall -> answer;
  sizeof_shmem : Z;
  offsetof_ccb_arr : Z;
  offsetof_cmd_chn_bd : Z;
  HWI_ITEM_DEVCLASS_DMA : list Z;
  HWI_NULL_OFF : Z;
  hwi_find_device : list Z -> Z;
  hwi_tag_find_location : Z -> option (Z * Z);
  hwitag_find_ivec : Z -> Z;
  pulse_fuel : nat
}.

Section Sys.
Context {D : Type} `{SdmaDevice D} {OS : Os}.

Definition get_st : M D (lib D) := fun s => Ok (s, s).
Definition fail {A} (e : err) : M D A := fun _ => Err e.
Definition lift {A} (r : res A) : M D A := fun s => match r with Ok a => Ok (a, s) | Err e => Err e end.

Definition put_dev (d : D) : M D unit := fun s =>
  Ok (tt, mk_lib d (trace s) (irqs s) (shm s) (cmd s) (api s) (chans s)).
Definition put_irqs (i : irq_st) : M D unit := fun s =>
  Ok (tt, mk_lib (dev s) (trace s) i (shm s) (cmd s) (api s) (chans s)).
Definition put_shm (m : sdma_shmem) : M D unit := fun s =>
  Ok (tt, mk_lib (dev s) (trace s) (irqs s) m (cmd s) (api s) (chans s)).
Definition put_cmd (c : cmd_st) : M D unit := fun s =>
  Ok (tt, mk_lib (dev s) (trace s) (irqs s) (shm s) c (api s) (chans s)).
Definition put_api (a : api_st) : M D unit := fun s =>
  Ok (tt, mk_lib (dev s) (trace s) (irqs s) (shm s) (cmd s) a (chans s)).
Definition put_chans (h : gmap Z sdma_chan) : M D unit := fun s =>
  Ok (tt, mk_lib (dev s) (trace s) (irqs s) (shm s) (cmd s) (api s) h).

(** An operating-system call. *)
Definition call (c : oscall) : M D answer := fun s =>
  let a := env (trace s) c in
  Ok (a, mk_lib (dev s) ((c, a) :: trace s) (irqs s) (shm s) (cmd s) (api s) (chans s)).

Definition read_reg (o : Z) : M D Z := fun s => Ok (in32 (dev s) o, s).
Definition write_reg (o v : Z) : M D unit := fun s => put_dev (out32 (dev s) o v) s.

(** [1 << n] stored in 32 bits. *)
Definition bit (n : Z) : Z := u32 (Z.shiftl 1 n).

(** Array elements by index; outside the array there is no value. *)
Definition at_ {A} (l : list A) (i : Z) : res A :=
  if (0 <=? i) && (i <? zlen l) then get_or_bad (l !! Z.to_nat i) else Err BadAccess.
Definition set_at {A} (l : list A) (i : Z) (v : A) : res (list A) :=
  if (0 <=? i) && (i <? zlen l) then Ok (<[Z.to_nat i := v]> l) else Err BadAccess.

(** ** Channel structures *)

Definition get_chan (p : Z) : M D sdma_chan := fun s =>
  match chans s !! p with Some c => Ok (c, s) | None => Err BadAccess end.
Definition put_chan (p : Z) (c : sdma_chan) : M D unit := fun s =>
  put_chans (<[p := c]> (chans s)) s.

(** ** sync.c *)

Definition sdmasync_init : M D Z :=
  fd ← call ShmOpen;
  if ret fd =? -1 then mret (-1) else
  p ← call (Mmap (ret fd) sizeof_shmem);
  if ret p =? MAP_FAILED then
    _ ← call (Close (ret fd)); mret (-1)
  else
    s ← get_st;
    let a := api s in
    _ ← put_api (mk_api (irq a) (regphys a) (sdma_size a) (sdram_base a) (sdma_base a)
                        (ret fd) (ret p) (n_users_in_process a) (chan_ptr_list a));
    mret 0.

Definition sdmasync_fini : M D unit :=
  s ← get_st;
  _ ← call (Munmap (shmem_ptr (api s)) sizeof_shmem);
  _ ← call (Close (sync_fd (api s)));
  mret tt.

Definition sdmasync_is_first_process : M D bool :=
  s ← get_st; mret (process_cnt (shm s) =? 1).

Definition set_process_cnt (v : Z) : M D unit :=
  s ← get_st;
  let m := shm s in put_shm (mk_shmem v (ccb_paddr m) (ccb_arr m) (cmd_chn_bd m)).

Definition sdmasync_process_cnt_incr : M D unit :=
  s ← get_st; set_process_cnt (u32 (process_cnt (shm s) + 1)).

Definition sdmasync_process_cnt_decr : M D unit :=
  s ← get_st; set_process_cnt (u32 (process_cnt (shm s) - 1)).

Definition sdmasync_ccb_paddr_get : M D Z := s ← get_st; mret (ccb_paddr (shm s)).

Definition set_ccb (ch : Z) (c : sdma_ccb) : M D unit :=
  s ← get_st;
  let m := shm s in
  l ← lift (set_at (ccb_arr m) ch c);
  put_shm (mk_shmem (process_cnt m) (ccb_paddr m) l (cmd_chn_bd m)).

Definition set_cmd_bd (b : sdma_bd) : M D unit :=
  s ← get_st;
  let m := shm s in put_shm (mk_shmem (process_cnt m) (ccb_paddr m) (ccb_arr m) b).

(** ** irq.c *)

(** [callback_reenable_descr] of api.c: set [DONE] in the descriptors of the last transfer. *)
Definition or_cmd (b : sdma_bd) (m : Z) : sdma_bd :=
  mk_bd (Z.lor (cmd_and_status b) m) (buf_paddr b) (ext_buf_paddr b).

Fixpoint reenable (fuel : nat) (i n : Z) (l : list sdma_bd) : res (list sdma_bd) :=
  if i <? n then
    match fuel with
    | O => Err NoFuel
    | S f =>
        b ← at_ l i;
        l' ← set_at l i (or_cmd b SDMA_CMDSTAT_DONE_MASK);
        reenable f (i + 1) n l'
    end
  else Ok l.

Definition set_bds (c : sdma_chan) (l : list sdma_bd) : sdma_chan :=
  mk_chan (ch_num c) (ch_type c) (attach_flags c) (watermark c) (fifo_paddr c) (eventnum c)
    (is_event_driven c) (regen_descr c) (cont_descr_loop c) (bd_ptr c) l (n_frags c)
    (ctx_ptr c) (ch_ctx c) (ctx_paddr c).

Definition callback_reenable_descr (ch : Z) : M D unit :=
  s ← get_st;
  p ← lift (at_ (chan_ptr_list (api s)) ch);
  c ← get_chan p;
  l ← lift (reenable (S (length (ch_bds c))) 0 (n_frags c) (ch_bds c));
  put_chan p (set_bds c l).

(** The handler's loop: the first pending channel of this process. *)
Fixpoint irq_scan (k : nat) (i irq_status : Z) : M D event_ptr :=
  match k with
  | O => mret NoEvent
  | S k =>
      if Z.land irq_status (bit i) =? 0 then irq_scan k (i + 1) irq_status
      else
        _ ← write_reg SDMA_INTR (bit i);
        s ← get_st;
        cb ← lift (at_ (callback_array (irqs s)) i);
        _ ← match cb with
            | Some Callback_reenable_descr => callback_reenable_descr i
            | None => mret tt
            end;
        s ← get_st;
        lift (at_ (event_array (irqs s)) i)
  end.

Definition irq_handler : M D event_ptr :=
  v ← read_reg SDMA_INTR;
  s ← get_st;
  irq_scan (Z.to_nat SDMA_N_CH) 0 (Z.land v (channel_mask (irqs s))).

Definition sdmairq_init (irq : Z) : M D Z :=
  a ← call (InterruptAttach irq);
  _ ← put_irqs (mk_irq 0 (replicate (Z.to_nat SDMA_N_CH) NoEvent)
                       (replicate (Z.to_nat SDMA_N_CH) None) (ret a));
  mret 0.

Definition sdmairq_fini : M D unit :=
  s ← get_st; _ ← call (InterruptDetach (irq_id (irqs s))); mret tt.

Definition sdmairq_event_add (channel : Z) (e : event_ptr) : M D unit :=
  s ← get_st;
  let i := irqs s in
  l ← lift (set_at (event_array i) channel e);
  put_irqs (mk_irq (Z.lor (channel_mask i) (bit channel)) l (callback_array i) (irq_id i)).

Definition sdmairq_event_remove (channel : Z) : M D unit :=
  s ← get_st;
  let i := irqs s in
  l ← lift (set_at (event_array i) channel NoEvent);
  put_irqs (mk_irq (Z.land (channel_mask i) (bnot 32 (bit channel))) l (callback_array i) (irq_id i)).

Definition set_callback (channel : Z) (f : option sdmairq_callback) : M D unit :=
  s ← get_st;
  let i := irqs s in
  l ← lift (set_at (callback_array i) channel f);
  put_irqs (mk_irq (channel_mask i) (event_array i) l (irq_id i)).

Definition sdmairq_callback_add (channel : Z) (f : sdmairq_callback) : M D unit :=
  set_callback channel (Some f).

Definition sdmairq_callback_remove (channel : Z) : M D unit := set_callback channel None.

(** ** imx6x/script.c and cmd.c *)

(** The script addresses by channel type, in a table of [SDMA_MAX_CHAN] words. *)
Definition sdmascript_table : list Z :=
  [642; 747; 683; 960; 891; 1134; 1100; 1032; 6762; 6242; 6678; 6144; 6585]
    ++ replicate (Z.to_nat SDMA_MAX_CHAN - 13) 0.

Definition SDMA_RAM_CODE_START_ADDR : Z := 6144.
(** [sizeof(sdma_code)]: 829 half-words of microcode. *)
Definition SIZEOF_SDMA_CODE : Z := 1658.

Definition script_lookup : M D unit :=
  s ← get_st;
  let c := cmd s in
  put_cmd (mk_cmd (cmd_chid c) (cmd_coid c) (cmd_event_prio c) sdmascript_table true
                  SDMA_RAM_CODE_START_ADDR SIZEOF_SDMA_CODE).

(** Wait for the command's completion pulse. *)
Fixpoint wait_completion (fuel : nat) (chid : Z) : M D Z :=
  match fuel with
  | O => fail NoFuel
  | S f =>
      a ← call (MsgReceivePulse chid);
      if negb (ret a =? 0) then mret (-1)
      else if out a =? SDMA_CMD_COMPLETE_PULSE_CODE then mret 0
      else wait_completion f chid
  end.

(** Issue the command in [cmd_chn_bd] and wait: the part [sdmaram_script_load] and
    [sdmacmd_ctx_load] share. *)
Definition cmd_issue (timeout : Z) : M D Z :=
  s ← get_st;
  c0 ← lift (at_ (ccb_arr (shm s)) SDMA_CMD_CH);
  _ ← call (CacheFlush (base_bd_paddr c0) SIZEOF_BD);
  _ ← write_reg SDMA_HSTART (bit SDMA_CMD_CH);
  _ ← call (TimerTimeout timeout);
  s ← get_st;
  retval ← wait_completion pulse_fuel (cmd_chid (cmd s));
  _ ← sdmairq_event_remove SDMA_CMD_CH;
  _ ← call (MutexUnlock Command);
  mret retval.

Definition sdmaram_script_load : M D Z :=
  s ← get_st;
  let size := microcode_size (cmd s) in
  fd ← call TypedMemOpen;
  if ret fd <? 0 then mret (-1) else
  script ← call (Mmap (ret fd) size);
  if ret script =? MAP_FAILED then _ ← call (Close (ret fd)); mret (-1) else
  st ← call (MemOffset (ret script) size);
  if negb (ret st =? 0) then
    _ ← call (Munmap (ret script) size);
    _ ← call (Close (ret fd));
    mret (-1)
  else
  _ ← call (Memcpy (ret script) size);
  _ ← call (MutexLock Command);
  _ ← sdmairq_event_add SDMA_CMD_CH CmdEvent;
  _ ← set_cmd_bd (mk_bd
        (Z.lor (Z.lor (Z.lor (Z.lor (Z.lor SDMA_CMD_C0_SET_PM SDMA_CMDSTAT_WRAP_MASK)
           SDMA_CMDSTAT_DONE_MASK) SDMA_CMDSTAT_INT_MASK) SDMA_CMDSTAT_EXT_MASK) (size / 2))
        (u32 (out st)) (microcode_addr (cmd s)));
  retval ← cmd_issue (2 * SDMA_CMD_TIMOUT_NS);
  _ ← call (Close (ret fd));
  mret retval.

Definition set_cmd_chid (chid : Z) : M D unit :=
  s ← get_st;
  let c := cmd s in
  put_cmd (mk_cmd chid (cmd_coid c) (cmd_event_prio c) (script_addr_arr c) (microcode_p c)
                  (microcode_addr c) (microcode_size c)).

Definition set_cmd_coid (coid : Z) : M D unit :=
  s ← get_st;
  let c := cmd s in
  put_cmd (mk_cmd (cmd_chid c) coid (cmd_event_prio c) (script_addr_arr c) (microcode_p c)
                  (microcode_addr c) (microcode_size c)).

(** The registers of the command channel, set up by the first process. *)
Definition cmdch_setup : M D unit :=
  mc0 ← read_reg SDMA_MC0PTR;
  _ ← call (CacheFlush (u32 (mc0 + SDMA_CMD_CH * SIZEOF_CCB)) SIZEOF_CCB);
  _ ← write_reg (SDMA_CHNPRI SDMA_CMD_CH) SDMA_CMD_CH_PRIO;
  v ← read_reg SDMA_EVTOVR;
  write_reg SDMA_EVTOVR (Z.lor v (bit SDMA_CMD_CH)).

Definition sdmacmd_cmdch_create : M D Z :=
  first ← sdmasync_is_first_process;
  _ ← (if first : bool then cmdch_setup else mret tt);
  chid ← call ChannelCreate;
  _ ← set_cmd_chid (ret chid);
  if ret chid =? -1 then mret (-1) else
  coid ← call (ConnectAttach (ret chid));
  _ ← set_cmd_coid (ret coid);
  if ret coid =? -1 then _ ← call (ChannelDestroy (ret chid)); mret (-1) else
  _ ← script_lookup;
  s ← get_st;
  loaded ← (if first && microcode_p (cmd s) then sdmaram_script_load else mret 0);
  if negb (loaded =? 0) then
    _ ← call (ConnectDetach (ret coid));
    _ ← call (ChannelDestroy (ret chid));
    mret (-1)
  else mret 0.

Definition sdmacmd_cmdch_destroy : M D unit :=
  s ← get_st;
  _ ← call (ConnectDetach (cmd_coid (cmd s)));
  _ ← call (ChannelDestroy (cmd_chid (cmd s)));
  mret tt.

(** [sdmacmd_ctx_config]: the context image for the channel's type. *)
Definition ctx_config (scripts : list Z) (sdram : Z) (c : sdma_chan) : res sdma_ch_ctx :=
  if ch_type c =? SDMA_CHTYPE_AP_2_AP then
    pc ← at_ scripts SDMA_CHTYPE_AP_2_AP;
    g ← set_at (g_reg (ch_ctx c)) 7 sdram;
    mret (mk_ctx pc g)
  else
    pc ← at_ scripts (ch_type c);
    g ← (if 32 <=? eventnum c then
           g ← set_at (g_reg (ch_ctx c)) 1 0; set_at g 0 (bit (eventnum c - 32))
         else
           g ← set_at (g_reg (ch_ctx c)) 0 0; set_at g 1 (bit (eventnum c)));
    g ← set_at g 6 (fifo_paddr c);
    g ← set_at g 7 (watermark c);
    mret (mk_ctx pc g).

Definition set_ctx (c : sdma_chan) (x : sdma_ch_ctx) : sdma_chan :=
  mk_chan (ch_num c) (ch_type c) (attach_flags c) (watermark c) (fifo_paddr c) (eventnum c)
    (is_event_driven c) (regen_descr c) (cont_descr_loop c) (bd_ptr c) (ch_bds c) (n_frags c)
    (ctx_ptr c) x (ctx_paddr c).

Definition sdmacmd_ctx_config (p : Z) : M D unit :=
  s ← get_st;
  c ← get_chan p;
  x ← lift (ctx_config (script_addr_arr (cmd s)) (sdram_base (api s)) c);
  put_chan p (set_ctx c x).

(** The command word [sdmacmd_ctx_load] stores in the command descriptor. *)
Definition setctx_word (ch : Z) : Z :=
  Z.lor (Z.lor (Z.lor (Z.lor (SDMA_CMD_C0_SETCTX ch) SDMA_CMDSTAT_WRAP_MASK)
    SDMA_CMDSTAT_DONE_MASK) SDMA_CMDSTAT_INT_MASK) SDMA_CTX_WSIZE.

Definition sdmacmd_ctx_load (p : Z) : M D Z :=
  c ← get_chan p;
  _ ← call (MutexLock Command);
  prio ← call ThreadPriority;
  s ← get_st;
  let k := cmd s in
  _ ← put_cmd (mk_cmd (cmd_chid k) (cmd_coid k) (out prio) (script_addr_arr k) (microcode_p k)
                      (microcode_addr k) (microcode_size k));
  _ ← sdmairq_event_add SDMA_CMD_CH CmdEvent;
  s ← get_st;
  _ ← set_cmd_bd (mk_bd (setctx_word (ch_num c)) (ctx_paddr c) (ext_buf_paddr (cmd_chn_bd (shm s))));
  cmd_issue SDMA_CMD_TIMOUT_NS.

End Sys.

(** ** Resources the operating system hands out *)

Inductive resource :=
  | RHeap (p : Z) | RFd (fd : Z) | RMap (p : Z) | RIo (p : Z) | RIntr (id : Z) | RCache
  | RChannel (chid : Z) | RConnection (coid : Z) | RMutex (m : mutex) | RDmaChannel (n : Z).

#[export] Instance resource_eq_dec : EqDecision resource.
Proof. solve_decision. Defined.

(** Handles that stand for a failure own nothing. *)
Definition r_heap (p : Z) : option resource := if p =? 0 then None else Some (RHeap p).
Definition r_fd (fd : Z) : option resource := if fd <? 0 then None else Some (RFd fd).
Definition r_map (p : Z) : option resource := if p =? MAP_FAILED then None else Some (RMap p).
Definition r_io (p : Z) : option resource := if p =? MAP_FAILED then None else Some (RIo p).
Definition r_intr (id : Z) : option resource := if id =? -1 then None else Some (RIntr id).
Definition r_channel (c : Z) : option resource := if c =? -1 then None else Some (RChannel c).
Definition r_conn (c : Z) : option resource := if c =? -1 then None else Some (RConnection c).

Definition grabs (e : event) : option resource :=
  let v := ret e.2 in
  match e.1 with
  | Calloc _ | Strdup _ => r_heap v
  | TypedMemOpen | ShmOpen | ShmCreate => r_fd v
  | Mmap _ _ => r_map v
  | MmapDeviceIo _ _ => r_io v
  | InterruptAttach _ => r_intr v
  | CacheInit => if v =? 0 then Some RCache else None
  | ChannelCreate => r_channel v
  | ConnectAttach _ => r_conn v
  | MutexLock m => Some (RMutex m)
  | RsrcAttach _ _ => if v =? 0 then Some (RDmaChannel (u32 (out e.2))) else None
  | _ => None
  end.

Definition drops (e : event) : option resource :=
  match e.1 with
  | Free p => r_heap p
  | Close fd => r_fd fd
  | Munmap p _ => r_map p
  | MunmapDeviceIo p _ => r_io p
  | InterruptDetach id => r_intr id
  | CacheFini => Some RCache
  | ChannelDestroy c => r_channel c
  | ConnectDetach c => r_conn c
  | MutexUnlock m => Some (RMutex m)
  | RsrcDetach n => Some (RDmaChannel n)
  | _ => None
  end.

Definition one (o : option resource) (r : resource) : Z := if decide (o = Some r) then 1 else 0.

(** How many times [r] was taken and not given back in a trace. *)
Fixpoint balance (t : list event) (r : resource) : Z :=
  match t with
  | [] => 0
  | e :: t => one (grabs e) r - one (drops e) r + balance t r
  end.

Lemma one_none r : one None r = 0.
Proof. done. Qed.

(** ** Laws of the operating system *)

(** The wait on the command channel ends within [n] pulses: by the completion pulse, or by an error
    such as the time-out. *)
Fixpoint answered `{Os} (n : nat) (t : list event) (chid : Z) : Prop :=
  match n with
  | O => False
  | S n =>
      let a := env t (MsgReceivePulse chid) in
      ret a <> 0 \/ out a = SDMA_CMD_COMPLETE_PULSE_CODE \/
      answered n ((MsgReceivePulse chid, a) :: t) chid
  end.

(** A channel asked for in a range is in that range. *)
Class OsLaws `{Os} : Prop := {
  law_answered : forall t chid, answered pulse_fuel t chid;
  law_rsrc : forall t lo hi, ret (env t (RsrcAttach lo hi)) = 0 ->
    lo <= out (env t (RsrcAttach lo hi)) <= hi
}.

(** ** The state's invariant *)

Record lib_ok {D} (s : lib D) : Prop := {
  ok_events : zlen (event_array (irqs s)) = SDMA_N_CH;
  ok_callbacks : zlen (callback_array (irqs s)) = SDMA_N_CH;
  ok_list : zlen (chan_ptr_list (api s)) = SDMA_N_CH;
  ok_ccb : zlen (ccb_arr (shm s)) = SDMA_N_CH
}.

(** What a command on channel 0 leaves as it was. *)
Record same_api {D} (s s' : lib D) : Prop := {
  sa_api : api s' = api s;
  sa_chans : chans s' = chans s;
  sa_cnt : process_cnt (shm s') = process_cnt (shm s);
  sa_ccb : ccb_arr (shm s') = ccb_arr (shm s);
  sa_ok : lib_ok s -> lib_ok s'
}.

Ltac mred :=
  cbv beta iota zeta delta [mbind mret M_bind M_ret get_st fail lift put_dev put_irqs put_shm put_cmd put_api
    put_chans read_reg write_reg res_bind res_ret] in *;
  cbn [dev trace irqs shm cmd api chans fst snd channel_mask event_array callback_array irq_id
    process_cnt ccb_paddr ccb_arr cmd_chn_bd cmd_chid cmd_coid cmd_event_prio script_addr_arr
    microcode_p microcode_addr microcode_size irq regphys sdma_size sdram_base sdma_base sync_fd
    shmem_ptr n_users_in_process chan_ptr_list negb] in *.

Lemma call_log {D} `{Os} c (s : lib D) :
  exists a, a = env (trace s) c /\
    call c s = Ok (a, mk_lib (dev s) ((c, a) :: trace s) (irqs s) (shm s) (cmd s) (api s) (chans s)).
Proof. by eexists. Qed.

(** Run the monad up to the next branch; each operating-system call gets its answer's name. *)
Ltac mstep :=
  mred;
  repeat match goal with
  | |- context [call ?c ?s] =>
      let a := fresh "a" in let Ha := fresh "Henv" in
      destruct (call_log c s) as (a & Ha & ->); clear Ha; mred
  end.

(** Sum up a trace. *)
Ltac balance_simpl := mred; cbn [balance grabs drops fst snd Z.eqb]; rewrite ?one_none.

Section SysFacts.
Context {D : Type} `{SdmaDevice D} {OS : Os} {L : OsLaws}.

Lemma at_ok {A} (l : list A) i : 0 <= i < zlen l -> exists x, at_ l i = Ok x /\ l !! Z.to_nat i = Some x.
Proof.
  intros Hi. unfold at_. rewrite (proj2 (Z.leb_le 0 i)), (proj2 (Z.ltb_lt i _)) by lia. cbn.
  destruct (lookup_lt_is_Some_2 l (Z.to_nat i)) as [x Hx]; [unfold zlen in Hi; lia|].
  exists x. by rewrite Hx.
Qed.

Lemma at_outside {A} (l : list A) i : zlen l <= i -> at_ l i = Err BadAccess.
Proof. intros Hi. unfold at_. by rewrite (proj2 (Z.ltb_ge i (zlen l))), andb_false_r by lia. Qed.

Lemma at_cases {A} (l : list A) i : at_ l i = Err BadAccess \/ exists x, at_ l i = Ok x.
Proof.
  unfold at_. destruct (_ && _); [|by left]. destruct (l !! Z.to_nat i) as [x|]; [right; by exists x|by left].
Qed.

Lemma set_at_ok {A} (l : list A) i v : 0 <= i < zlen l -> set_at l i v = Ok (<[Z.to_nat i := v]> l).
Proof. intros Hi. unfold set_at. by rewrite (proj2 (Z.leb_le 0 i)), (proj2 (Z.ltb_lt i _)) by lia. Qed.

Lemma zlen_insert {A} (l : list A) n v : zlen (<[n := v]> l) = zlen l.
Proof. unfold zlen. by rewrite length_insert. Qed.

Lemma wait_completion_ok n chid (s : lib D) :
  answered n (trace s) chid ->
  exists v t, wait_completion n chid s =
      Ok (v, mk_lib (dev s) t (irqs s) (shm s) (cmd s) (api s) (chans s)) /\
    (v = 0 \/ v = -1) /\ forall r, balance t r = balance (trace s) r.
Proof.
  revert s. induction n as [|n IH]; intros s Ha; [done|].
  cbn [answered] in Ha. cbn [wait_completion]. unfold call. mred.
  set (a := env (trace s) (MsgReceivePulse chid)) in *.
  destruct (ret a =? 0) eqn:Hr; cbn [negb].
  - destruct (out a =? SDMA_CMD_COMPLETE_PULSE_CODE) eqn:Ho.
    + eexists 0, _. split; [done|]. split; [tauto|]. intros r. cbn. lia.
    + destruct Ha as [Ha|[Ha|Ha]]; [apply Z.eqb_eq in Hr; lia|apply Z.eqb_neq in Ho; lia|].
      destruct (IH (mk_lib (dev s) ((MsgReceivePulse chid, a) :: trace s) (irqs s) (shm s) (cmd s)
        (api s) (chans s)) Ha) as (v & t & Hw & Hv & Hb). exists v, t.
      split; [exact Hw|]. split; [done|]. intros r. rewrite Hb. balance_simpl. lia.
  - eexists (-1), _. split; [done|]. split; [tauto|]. intros r. cbn. lia.
Qed.

Lemma event_add_ok ch e (s : lib D) :
  lib_ok s -> 0 <= ch < SDMA_N_CH ->
  exists i, sdmairq_event_add ch e s =
      Ok (tt, mk_lib (dev s) (trace s) i (shm s) (cmd s) (api s) (chans s)) /\
    event_array i = <[Z.to_nat ch := e]> (event_array (irqs s)) /\
    callback_array i = callback_array (irqs s) /\ irq_id i = irq_id (irqs s) /\
    channel_mask i = Z.lor (channel_mask (irqs s)) (bit ch).
Proof.
  intros Hs Hch. unfold sdmairq_event_add. mred.
  rewrite set_at_ok by (rewrite ok_events by done; lia). by eexists.
Qed.

Lemma event_remove_ok ch (s : lib D) :
  lib_ok s -> 0 <= ch < SDMA_N_CH ->
  exists i, sdmairq_event_remove ch s =
      Ok (tt, mk_lib (dev s) (trace s) i (shm s) (cmd s) (api s) (chans s)) /\
    event_array i = <[Z.to_nat ch := NoEvent]> (event_array (irqs s)) /\
    callback_array i = callback_array (irqs s) /\ irq_id i = irq_id (irqs s) /\
    channel_mask i = Z.land (channel_mask (irqs s)) (bnot 32 (bit ch)).
Proof.
  intros Hs Hch. unfold sdmairq_event_remove. mred.
  rewrite set_at_ok by (rewrite ok_events by done; lia). by eexists.
Qed.

(** The command itself: it ends, gives the command mutex back, and detaches the completion event. *)
Lemma cmd_issue_ok timeout (s : lib D) :
  lib_ok s ->
  exists v s', cmd_issue timeout s = Ok (v, s') /\ (v = 0 \/ v = -1) /\ same_api s s' /\
    cmd s' = cmd s /\ irq_id (irqs s') = irq_id (irqs s) /\
    dev s' = out32 (dev s) SDMA_HSTART (bit SDMA_CMD_CH) /\
    forall r, balance (trace s') r = balance (trace s) r - one (Some (RMutex Command)) r.
Proof.
  intros Hs. unfold cmd_issue. mstep.
  destruct (at_ok (ccb_arr (shm s)) SDMA_CMD_CH) as (c & Hc & _).
  { rewrite ok_ccb by done. unfold SDMA_CMD_CH, SDMA_N_CH. lia. }
  rewrite Hc. mstep.
  match goal with |- context [wait_completion pulse_fuel ?c ?s0] =>
    destruct (wait_completion_ok pulse_fuel c s0 (law_answered _ _)) as (v & t & Hw & Hv & Hb) end.
  rewrite Hw. mred.
  match goal with |- context [sdmairq_event_remove ?c ?s0] =>
    destruct (event_remove_ok c s0) as (i & Hi & He & Hcb & Hid & _); [by destruct Hs|done|] end.
  rewrite Hi. mstep. eexists v, _. split; [done|]. split; [done|].
  split; [|split; [done|]; split; [done|]; split; [done|]].
  - split; try done. intros [? ? ? ?]; split; mred; [by rewrite He, zlen_insert|by rewrite Hcb|done..].
  - intros r. balance_simpl. rewrite Hb.
    cbn [balance grabs drops fst snd]. rewrite ?one_none. lia.
Qed.

Lemma same_api_trans (s1 s2 s3 : lib D) : same_api s1 s2 -> same_api s2 s3 -> same_api s1 s3.
Proof.
  intros [A1 B1 C1 D1 E1] [A2 B2 C2 D2 E2]. split; [congruence..|]. intros. by apply E2, E1.
Qed.

(** A state that differs only in its trace, its device and arrays of the same length. *)
Ltac same_state :=
  repeat match goal with |- _ /\ _ => split end; split; mred; try done;
  let H := fresh in intros H; destruct H; split; mred; congruence.

Lemma script_load_ok (s : lib D) :
  lib_ok s ->
  exists v s' kept, sdmaram_script_load s = Ok (v, s') /\ (v = 0 \/ v = -1) /\ same_api s s' /\
    cmd s' = cmd s /\ irq_id (irqs s') = irq_id (irqs s) /\
    (forall x, kept = Some x -> exists p, x = RMap p) /\
    forall r, balance (trace s') r = balance (trace s) r + one kept r.
Proof.
  intros Hs. unfold sdmaram_script_load. mstep.
  destruct (ret a <? 0) eqn:Hfd; mstep.
  { eexists (-1), _, None. split; [done|]. split; [tauto|]. split; [same_state|].
    do 3 (split; [done|]). intros r. balance_simpl.
    unfold r_fd. rewrite Hfd, one_none. lia. }
  destruct (ret _ =? MAP_FAILED) eqn:Hmap; mstep.
  { eexists (-1), _, None. split; [done|]. split; [tauto|]. split; [same_state|].
    do 3 (split; [done|]). intros r. balance_simpl.
    unfold r_map. rewrite Hmap, one_none. lia. }
  destruct (negb _) eqn:Hoff; mstep.
  { eexists (-1), _, None. split; [done|]. split; [tauto|]. split; [same_state|].
    do 3 (split; [done|]). intros r. balance_simpl.
    rewrite ?one_none. lia. }
  match goal with |- context [sdmairq_event_add ?c ?e ?s0] =>
    destruct (event_add_ok c e s0) as (i & Hi & He & Hcb & Hid & _); [by destruct Hs|done|] end.
  rewrite Hi. mstep.
  match goal with |- context [set_cmd_bd ?b ?s0] =>
    change (set_cmd_bd b s0) with (Ok (tt, mk_lib (dev s0) (trace s0) (irqs s0)
      (mk_shmem (process_cnt (shm s0)) (ccb_paddr (shm s0)) (ccb_arr (shm s0)) b)
      (cmd s0) (api s0) (chans s0))) end.
  mstep.
  assert (Hz : zlen (event_array i) = zlen (event_array (irqs s))) by (by rewrite He, zlen_insert).
  match goal with |- context [cmd_issue ?t ?s0] =>
    destruct (cmd_issue_ok t s0) as (v & s' & Hv & Hr & Hsame & Hcmd & Hid' & Hdev & Hb) end.
  { destruct Hs. split; mred; congruence. }
  rewrite Hv. mstep. match type of Hmap with (ret ?a =? _) = _ => eexists v, _, (r_map (ret a)) end. split; [done|]. split; [done|].
  split; [|split; [done|]].
  { destruct Hsame as [A B C E F]. mred. split; try done. intros _. mred.
    destruct F; [destruct Hs; split; mred; congruence|]. by split. }
  split; [mred; by rewrite Hid'|].
  split; [|intros r; balance_simpl; rewrite Hb;
    balance_simpl; rewrite ?one_none; lia].
  intros x. unfold r_map. destruct (_ =? _); [done|]. intros [= <-]. by eexists.
Qed.

Lemma ctx_load_ok p c (s : lib D) :
  lib_ok s -> chans s !! p = Some c ->
  exists v s', sdmacmd_ctx_load p s = Ok (v, s') /\ (v = 0 \/ v = -1) /\ same_api s s' /\
    irq_id (irqs s') = irq_id (irqs s) /\
    dev s' = out32 (dev s) SDMA_HSTART (bit SDMA_CMD_CH) /\
    forall r, balance (trace s') r = balance (trace s) r.
Proof.
  intros Hs Hp. unfold sdmacmd_ctx_load, get_chan. mred. rewrite Hp. mstep.
  match goal with |- context [sdmairq_event_add ?c ?e ?s0] =>
    destruct (event_add_ok c e s0) as (i & Hi & He & Hcb & Hid & _); [by destruct Hs|done|] end.
  rewrite Hi. mred.
  match goal with |- context [set_cmd_bd ?b ?s0] =>
    change (set_cmd_bd b s0) with (Ok (tt, mk_lib (dev s0) (trace s0) (irqs s0)
      (mk_shmem (process_cnt (shm s0)) (ccb_paddr (shm s0)) (ccb_arr (shm s0)) b)
      (cmd s0) (api s0) (chans s0))) end.
  mred.
  assert (Hz : zlen (event_array i) = zlen (event_array (irqs s))) by (by rewrite He, zlen_insert).
  assert (Hok : lib_ok s) by done. destruct Hs.
  match goal with |- context [cmd_issue ?t ?s0] =>
    destruct (cmd_issue_ok t s0) as (v & s' & Hv & Hr & Hsame & Hcmd & Hid' & Hdev & Hb) end.
  { split; mred; congruence. }
  eexists v, s'. split; [exact Hv|]. split; [done|].
  split; [|split; [by rewrite Hid'|split; [done|]]].
  { destruct Hsame as [A B C E F]. mred. split; try done. intros _.
    apply F. split; mred; congruence. }
  intros r. rewrite Hb. balance_simpl. rewrite ?one_none. lia.
Qed.

Lemma script_lookup_ok (s : lib D) :
  script_lookup s = Ok (tt, mk_lib (dev s) (trace s) (irqs s) (shm s)
    (mk_cmd (cmd_chid (cmd s)) (cmd_coid (cmd s)) (cmd_event_prio (cmd s)) sdmascript_table true
       SDMA_RAM_CODE_START_ADDR SIZEOF_SDMA_CODE) (api s) (chans s)).
Proof. done. Qed.

Lemma cmdch_setup_ok (first : bool) (s : lib D) :
  exists s1, (if first then cmdch_setup else mret tt) s = Ok (tt, s1) /\
    same_api s s1 /\ irqs s1 = irqs s /\ shm s1 = shm s /\
    forall r, balance (trace s1) r = balance (trace s) r.
Proof.
  destruct first; unfold cmdch_setup; mstep; (eexists; split; [done|]); (split; [same_state|]);
    mred; (split; [done|split; [done|]]); intros r; balance_simpl; lia.
Qed.

Lemma maybe_load_ok (first : bool) (s : lib D) :
  lib_ok s ->
  exists v s' kept, (if first then sdmaram_script_load else mret 0) s = Ok (v, s') /\
    (v = 0 \/ v = -1) /\ same_api s s' /\ cmd s' = cmd s /\ irq_id (irqs s') = irq_id (irqs s) /\
    (forall x, kept = Some x -> first = true /\ exists p, x = RMap p) /\
    forall r, balance (trace s') r = balance (trace s) r + one kept r.
Proof.
  intros Hs. destruct first.
  - destruct (script_load_ok s Hs) as (v & s' & kept & ? & ? & ? & ? & ? & Hk & ?).
    exists v, s', kept. do 5 (split; [done|]). split; [|done]. intros x Hx. split; [done|]. by apply Hk.
  - exists 0, s, None. split; [done|]. split; [tauto|]. split; [by split|]. do 3 (split; [done|]).
    intros r. rewrite ?one_none. lia.
Qed.

(** The command channel is either open, or nothing of it is left but a microcode mapping that only
    the first process makes. *)
Lemma cmdch_create_ok (s : lib D) :
  lib_ok s ->
  exists v s' kept, sdmacmd_cmdch_create s = Ok (v, s') /\ (v = 0 \/ v = -1) /\ same_api s s' /\
    irq_id (irqs s') = irq_id (irqs s) /\
    (forall x, kept = Some x -> process_cnt (shm s) = 1 /\ exists p, x = RMap p) /\
    forall r, balance (trace s') r = balance (trace s) r + one kept r +
      (if v =? 0 then one (r_channel (cmd_chid (cmd s'))) r + one (r_conn (cmd_coid (cmd s'))) r else 0).
Proof.
  intros Hs. unfold sdmacmd_cmdch_create, sdmasync_is_first_process, set_cmd_chid, set_cmd_coid.
  destruct (cmdch_setup_ok (process_cnt (shm s) =? 1) s) as (s1 & Hset & Hsame & Hi & Hshm & Hb).
  mred. rewrite Hset. mstep.
  destruct (ret a =? -1) eqn:Hch; mstep.
  { eexists (-1), _, None. split; [done|]. split; [tauto|].
    split; [eapply same_api_trans; [exact Hsame|same_state]|]. mred.
    split; [by rewrite Hi|]. split; [done|]. intros r. balance_simpl. rewrite Hb.
    unfold r_channel. rewrite Hch, one_none. cbn. lia. }
  destruct (ret a0 =? -1) eqn:Hco; mstep.
  { eexists (-1), _, None. split; [done|]. split; [tauto|].
    split; [eapply same_api_trans; [exact Hsame|same_state]|]. mred.
    split; [by rewrite Hi|]. split; [done|]. intros r. balance_simpl. rewrite Hb.
    unfold r_conn. rewrite Hco, one_none. cbn. lia. }
  rewrite script_lookup_ok. mred. rewrite andb_true_r.
  match goal with |- context [(if ?b then sdmaram_script_load else _) ?s0] =>
    destruct (maybe_load_ok b s0) as (v & s2 & kept & Hl & Hv & Hsame2 & Hcmd & Hid & Hk & Hb2) end.
  { pose proof (sa_ok _ _ Hsame Hs) as []. split; mred; congruence. }
  mred. rewrite Hl.
  assert (Hss : same_api s s2) by (eapply same_api_trans; [exact Hsame|];
    eapply same_api_trans; [|exact Hsame2]; same_state).
  assert (Hk' : forall x, kept = Some x -> process_cnt (shm s) = 1 /\ exists p, x = RMap p).
  { intros x Hx. destruct (Hk x Hx) as [Heq ?]. by apply Z.eqb_eq in Heq. }
  rewrite Hi in Hid. destruct Hv as [-> | ->]; cbn [Z.eqb negb]; mstep.
  - exists 0, s2, kept. split; [done|]. split; [tauto|]. split; [done|]. split; [done|].
    split; [done|]. intros r. rewrite Hcmd, Hb2. mred. balance_simpl. rewrite Hb. cbn. lia.
  - eexists (-1), _, kept. split; [done|]. split; [tauto|].
    split; [eapply same_api_trans; [exact Hss|same_state]|]. split; [done|].
    split; [done|]. intros r. balance_simpl. rewrite Hb2. balance_simpl. rewrite Hb. cbn. lia.
Qed.

End SysFacts.
