(* ===== verification/Sdma.v ===== *)
(** * Sdma: the i.MX SDMA library's interface (lib/dma/sdma/api.c, init.c). *)

From S2P Require Import Prelude.
From S2P Require Import Libc.
From S2P Require Import SdmaSys.

Definition DMALIB_VERSION_MAJOR : Z := 1.
Definition DMALIB_VERSION_MINOR : Z := 0.
Definition DMALIB_REVISION : Z := 0.
Definition DMA_CAP_EVENT_ON_COMPLETE : Z := 0x4.
Definition DMA_CAP_EVENT_PER_SEGMENT : Z := 0x8.
Definition DMA_CAP_MEMORY_TO_MEMORY : Z := 0x80000.
Definition DMA_CAP_MEMORY_TO_DEVICE : Z := 0x200000.
Definition DMA_CAP_DEVICE_TO_MEMORY : Z := 0x400000.
Definition DMA_ATTACH_PRIORITY_HIGHEST : Z := 0x8.
Definition DMA_ATTACH_EVENT_ON_COMPLETE : Z := 0x10.
Definition DMA_ATTACH_EVENT_PER_SEGMENT : Z := 0x20.
Definition ARM_LPAE_4G_BOUNDARY : Z := 2 ^ 32.
Definition INT64_MAX : Z := 2 ^ 63 - 1.
Definition ENOTSUP : Z := 48.

(** [dma_addr_t] and [dma_transfer_t], the fields the library reads. *)
Record dma_addr := mk_addr { paddr : Z; len : Z }.
Record dma_transfer := mk_transfer {
  src_addrs : list dma_addr;
  dst_addrs : list dma_addr;
  src_fragments : Z;
  dst_fragments : Z;
  xfer_unit_size : Z
}.

Record dma_driver_info := mk_driver_info {
  dma_version_major : Z; dma_version_minor : Z; dma_rev : Z; lib_rev : Z;
  num_channels : Z; max_priority : Z
}.

Record dma_channel_info := mk_channel_info {
  max_xfer_size : Z; max_src_fragments : Z; max_dst_fragments : Z; max_src_segments : Z;
  max_dst_segments : Z; xfer_unit_sizes : Z; caps : Z; mem_lower_limit : Z; mem_upper_limit : Z;
  mem_nocross_boundary : Z
}.

(** The entries of [dma_functions_t], in the order of the structure. *)
Inductive dma_func :=
  | F_init | F_fini | F_driver_info | F_channel_info | F_channel_attach | F_channel_release
  | F_alloc_buffer | F_free_buffer | F_setup_xfer | F_xfer_start | F_xfer_abort
  | F_xfer_complete | F_bytes_left | F_query_channel.

Definition dma_func_slot (f : dma_func) : Z :=
  match f with
  | F_init => 0 | F_fini => 1 | F_driver_info => 2 | F_channel_info => 3 | F_channel_attach => 4
  | F_channel_release => 5 | F_alloc_buffer => 6 | F_free_buffer => 7 | F_setup_xfer => 8
  | F_xfer_start => 9 | F_xfer_abort => 10 | F_xfer_complete => 11 | F_bytes_left => 12
  | F_query_channel => 13
  end.

(** [get_dmafuncs]: the entries stored in a table of [tabsize] bytes. *)
Definition get_dmafuncs (tabsize : Z) : list dma_func :=
  List.filter (fun f => 4 * dma_func_slot f + 4 <=? tabsize)
    [F_init; F_fini; F_driver_info; F_channel_info; F_channel_attach; F_channel_release;
     F_setup_xfer; F_xfer_start; F_xfer_abort; F_xfer_complete; F_bytes_left; F_query_channel].

(** ** Buffer descriptors: the body of [sdma_setup_xfer] *)

Definition set_paddr (b : sdma_bd) (v : Z) : sdma_bd :=
  mk_bd (cmd_and_status b) (u32 v) (ext_buf_paddr b).
Definition set_ext_paddr (b : sdma_bd) (v : Z) : sdma_bd :=
  mk_bd (cmd_and_status b) (buf_paddr b) (u32 v).
Definition set_cmd (b : sdma_bd) (v : Z) : sdma_bd := mk_bd v (buf_paddr b) (ext_buf_paddr b).

(** The second address of a memory-to-memory transfer. *)
Definition store_ext (ext : option (list dma_addr)) (i : Z) (b : sdma_bd) : res sdma_bd :=
  match ext with
  | Some e => x ← at_ e i; mret (set_ext_paddr b (paddr x))
  | None => mret b
  end.

(** The loop over all fragments but the last; [ext] is the second address list of
    memory-to-memory transfers. *)
Fixpoint fill_descrs (fuel : nat) (i n cs : Z) (addrs : list dma_addr) (ext : option (list dma_addr))
    (bds : list sdma_bd) : res (list sdma_bd) :=
  if i <? n then
    match fuel with
    | O => Err NoFuel
    | S f =>
        b ← at_ bds i;
        a ← at_ addrs i;
        let b := set_paddr (or_cmd (set_cmd b cs) (len a)) (paddr a) in
        b ← store_ext ext i b;
        bds ← set_at bds i (or_cmd b SDMA_CMDSTAT_DONE_MASK);
        fill_descrs f (i + 1) n cs addrs ext bds
    end
  else Ok bds.

(** The last descriptor. *)
Definition fill_last (c : sdma_chan) (i unit_size : Z) (addrs : list dma_addr)
    (ext : option (list dma_addr)) (bds : list sdma_bd) : res (list sdma_bd) :=
  b ← at_ bds i;
  a ← at_ addrs i;
  let b := set_cmd b (Z.lor (Z.lor (Z.lor SDMA_CMDSTAT_EXT_MASK (SDMA_CMD_XFER_SIZE unit_size))
                            SDMA_CMDSTAT_WRAP_MASK) (len a)) in
  let b := if cont_descr_loop c then or_cmd b SDMA_CMDSTAT_CONT_MASK else b in
  let b := if negb (Z.land (attach_flags c) DMA_ATTACH_EVENT_ON_COMPLETE =? 0) ||
              negb (Z.land (attach_flags c) DMA_ATTACH_EVENT_PER_SEGMENT =? 0)
           then or_cmd b SDMA_CMDSTAT_INT_MASK else b in
  let b := set_paddr b (paddr a) in
  b ← store_ext ext i b;
  set_at bds i (or_cmd b SDMA_CMDSTAT_DONE_MASK).

(** The three cases of the switch on the channel type: which list is walked, and whether the other
    one is stored too. *)
Definition xfer_addrs (c : sdma_chan) (t : dma_transfer) : Z * list dma_addr * option (list dma_addr) :=
  let ty := ch_type c in
  if (ty =? SDMA_CHTYPE_AP_2_MCU) || (ty =? SDMA_CHTYPE_SHP_2_MCU) || (ty =? SDMA_CHTYPE_UART_2_MCU)
     || (ty =? SDMA_CHTYPE_UARTSH_2_MCU) || (ty =? SDMA_CHTYPE_SPDIF_2_MCU)
     || (ty =? SDMA_CHTYPE_SSISH_2_MCU)
  then (dst_fragments t, dst_addrs t, None)
  else if (ty =? SDMA_CHTYPE_MCU_2_AP) || (ty =? SDMA_CHTYPE_MCU_2_SHP)
          || (ty =? SDMA_CHTYPE_MCU_2_SPDIF) || (ty =? SDMA_CHTYPE_MCU_2_SSISH)
  then (src_fragments t, src_addrs t, None)
  else (src_fragments t, src_addrs t, Some (dst_addrs t)).

Definition set_xfer (c : sdma_chan) (l : list sdma_bd) (n : Z) : sdma_chan :=
  mk_chan (ch_num c) (ch_type c) (attach_flags c) (watermark c) (fifo_paddr c) (eventnum c)
    (is_event_driven c) (regen_descr c) (cont_descr_loop c) (bd_ptr c) l n
    (ctx_ptr c) (ch_ctx c) (ctx_paddr c).

(** [cmd_and_status] of every descriptor but the last. *)
Definition xfer_cmd (c : sdma_chan) (unit_size : Z) : Z :=
  let v := Z.lor (Z.lor SDMA_CMDSTAT_EXT_MASK SDMA_CMDSTAT_CONT_MASK) (SDMA_CMD_XFER_SIZE unit_size) in
  if negb (Z.land (attach_flags c) DMA_ATTACH_EVENT_PER_SEGMENT =? 0)
  then Z.lor v SDMA_CMDSTAT_INT_MASK else v.

Definition setup_chan (c : sdma_chan) (t : dma_transfer) : res sdma_chan :=
  let '(n, addrs, ext) := xfer_addrs c t in
  let bds := ch_bds c in
  bds ← fill_descrs (S (length bds)) 0 (u32 (n - 1)) (xfer_cmd c (xfer_unit_size t)) addrs ext bds;
  bds ← fill_last c (u32 (n - 1)) (xfer_unit_size t) addrs ext bds;
  mret (set_xfer c bds n).

(** ** Options *)

Definition sdma_opts : list (list Z) := [chars "irq"; chars "regbase"].
Definition channel_create_opts : list (list Z) :=
  [chars "eventnum"; chars "watermark"; chars "fifopaddr"; chars "regen"; chars "contloop"].

(** [strtoul] of an option's value; a missing value is a null pointer. *)
Definition value_of (v : option (list Z)) : res Z := s ← get_or_bad v; mret (strtoul s).

(** The loop of [parse_channel_options]: status, channel and the string left. *)
Fixpoint parse_channel (fuel : nat) (s : list Z) (c : sdma_chan) : res (Z * sdma_chan) :=
  match s with
  | [] => Ok (0, c)
  | _ =>
    match fuel with
    | O => Err NoFuel
    | S f =>
      let '(opt, value, rest) := getsubopt s channel_create_opts in
      if opt =? -1 then Ok (-1, c) else
      if opt =? 0 then
        v ← value_of value;
        parse_channel f rest
          (mk_chan (ch_num c) (ch_type c) (attach_flags c) (watermark c) (fifo_paddr c) v
             true (regen_descr c) (cont_descr_loop c) (bd_ptr c) (ch_bds c) (n_frags c)
             (ctx_ptr c) (ch_ctx c) (ctx_paddr c))
      else if opt =? 1 then
        v ← value_of value;
        parse_channel f rest
          (mk_chan (ch_num c) (ch_type c) (attach_flags c) v (fifo_paddr c) (eventnum c)
             (is_event_driven c) (regen_descr c) (cont_descr_loop c) (bd_ptr c) (ch_bds c)
             (n_frags c) (ctx_ptr c) (ch_ctx c) (ctx_paddr c))
      else if opt =? 2 then
        v ← value_of value;
        parse_channel f rest
          (mk_chan (ch_num c) (ch_type c) (attach_flags c) (watermark c) v (eventnum c)
             (is_event_driven c) (regen_descr c) (cont_descr_loop c) (bd_ptr c) (ch_bds c)
             (n_frags c) (ctx_ptr c) (ch_ctx c) (ctx_paddr c))
      else if opt =? 3 then
        parse_channel f rest
          (mk_chan (ch_num c) (ch_type c) (attach_flags c) (watermark c) (fifo_paddr c) (eventnum c)
             (is_event_driven c) true (cont_descr_loop c) (bd_ptr c) (ch_bds c)
             (n_frags c) (ctx_ptr c) (ch_ctx c) (ctx_paddr c))
      else
        parse_channel f rest
          (mk_chan (ch_num c) (ch_type c) (attach_flags c) (watermark c) (fifo_paddr c) (eventnum c)
             (is_event_driven c) (regen_descr c) true (bd_ptr c) (ch_bds c)
             (n_frags c) (ctx_ptr c) (ch_ctx c) (ctx_paddr c))
    end
  end.

(** The loop of [parse_init_options]: status, [irq] and [regphys]. *)
Fixpoint parse_init (fuel : nat) (s : list Z) (irq regphys : Z) : res (Z * Z * Z) :=
  match s with
  | [] => Ok (0, irq, regphys)
  | _ =>
    match fuel with
    | O => Err NoFuel
    | S f =>
      let '(opt, value, rest) := getsubopt s sdma_opts in
      if opt =? -1 then Ok (-1, irq, regphys)
      else if opt =? 0 then v ← value_of value; parse_init f rest (signed 32 v) regphys
      else v ← value_of value; parse_init f rest irq v
    end
  end.

Section Api.
Context {D : Type} `{SdmaDevice D} {OS : Os}.

(** ** init.c *)

(** [shared_mem_create]: create the shared object, check where it lies, initialise it. *)
Definition shared_mem_create : M D Z :=
  fd ← call ShmCreate;
  if ret fd <? 0 then mret (out fd) else
  let fail2 (status : Z) : M D Z := _ ← call (Close (ret fd)); mret status in
  let memsize := (sizeof_shmem + PAGESIZE - 1) / PAGESIZE * PAGESIZE in
  ctl ← call (ShmCtl (ret fd) memsize);
  if negb (ret ctl =? 0) then fail2 (out ctl) else
  p ← call (Mmap (ret fd) sizeof_shmem);
  if ret p =? MAP_FAILED then fail2 (out p) else
  let fail3 (status : Z) : M D Z := _ ← call (Munmap (ret p) sizeof_shmem); fail2 status in
  st ← call (MemOffset (ret p) sizeof_shmem);
  if negb (ret st =? 0) then fail3 (ret st) else
  if (INT64_MAX - sizeof_shmem <? out st) || (ARM_LPAE_4G_BOUNDARY <=? out st + sizeof_shmem)
  then fail3 ENOTSUP else
  let paddr := u32 (out st) in
  let bd := u32 (paddr + offsetof_cmd_chn_bd) in
  _ ← call (MutexInit LibInit);
  _ ← call (MutexInit Command);
  _ ← call (MutexInit Register);
  _ ← put_shm (mk_shmem 0 (u32 (paddr + offsetof_ccb_arr))
                 (mk_ccb bd bd :: replicate (Z.to_nat SDMA_N_CH - 1) (mk_ccb 0 0)) (mk_bd 0 0 0));
  _ ← call (Munmap (ret p) sizeof_shmem);
  _ ← call (Close (ret fd));
  mret 0.

Definition ctor : M D unit :=
  st ← shared_mem_create;
  if st =? 0 then _ ← call (RsrcCreate SDMA_CH_LO SDMA_CH_HI); mret tt else mret tt.

(** ** Channel structures *)

Definition set_chan_list (ch v : Z) : M D unit :=
  s ← get_st;
  let a := api s in
  l ← lift (set_at (chan_ptr_list a) ch v);
  put_api (mk_api (irq a) (regphys a) (sdma_size a) (sdram_base a) (sdma_base a) (sync_fd a)
                  (shmem_ptr a) (n_users_in_process a) l).


Definition free_chan (p : Z) : M D unit :=
  s ← get_st;
  _ ← call (Free p);
  put_chans (delete p (chans s)).




Definition chan_destroy (p : Z) : M D unit :=
  c ← get_chan p;
  _ ← set_chan_list (ch_num c) 0;
  _ ← call (Munmap (ctx_ptr c) SIZEOF_CTX);
  _ ← call (Munmap (bd_ptr c) (SIZEOF_BD * MAX_DESCRIPTORS));
  free_chan p.

(** ** Initialisation *)






Definition set_users (n : Z) : M D unit :=
  s ← get_st;
  let a := api s in
  put_api (mk_api (irq a) (regphys a) (sdma_size a) (sdram_base a) (sdma_base a) (sync_fd a)
                  (shmem_ptr a) n (chan_ptr_list a)).










Definition sdma_fini : M D unit :=
  _ ← call (MutexLock ProcessInit);
  s ← get_st;
  _ ← set_users (n_users_in_process (api s) - 1);
  if n_users_in_process (api s) - 1 =? 0 then
    _ ← call (MutexLock LibInit);
    _ ← sdmasync_process_cnt_decr;
    _ ← sdmacmd_cmdch_destroy;
    _ ← call (MutexUnlock LibInit);
    _ ← call CacheFini;
    _ ← sdmairq_fini;
    s ← get_st;
    _ ← call (MunmapDeviceIo (sdma_base (api s)) (sdma_size (api s)));
    _ ← sdmasync_fini;
    _ ← call (MutexUnlock ProcessInit);
    mret tt
  else
    _ ← call (MutexUnlock ProcessInit);
    mret tt.

(** ** Queries *)

Definition sdma_query_channel (p : Z) : M D (Z * Z) :=
  c ← get_chan p;
  s ← get_st;
  mret (ch_num c, u32 (irq (api s))).

Definition sdma_driver_info : dma_driver_info :=
  mk_driver_info DMALIB_VERSION_MAJOR DMALIB_VERSION_MINOR DMALIB_REVISION 0 (SDMA_N_CH - 1)
    SDMA_CH_PRIO_HI.

Definition sdma_channel_info : dma_channel_info :=
  mk_channel_info 0xfffc MAX_DESCRIPTORS MAX_DESCRIPTORS MAX_DESCRIPTORS MAX_DESCRIPTORS 0x4
    (Z.lor (Z.lor (Z.lor (Z.lor DMA_CAP_EVENT_ON_COMPLETE DMA_CAP_EVENT_PER_SEGMENT)
       DMA_CAP_DEVICE_TO_MEMORY) DMA_CAP_MEMORY_TO_DEVICE) DMA_CAP_MEMORY_TO_MEMORY)
    0 0xffffffff 0.

(** ** Attaching and releasing a channel *)


Definition clamp_prio (prio flags : Z) : Z :=
  if negb (Z.land flags DMA_ATTACH_PRIORITY_HIGHEST =? 0) || (SDMA_CH_PRIO_HI <? prio)
  then SDMA_CH_PRIO_HI
  else if prio <? SDMA_CH_PRIO_LO then SDMA_CH_PRIO_LO else prio.


(** Register set-up once the context is loaded. *)
Definition attach_registers (c : sdma_chan) (n prio flags : Z) : M D unit :=
  cfg ← read_reg SDMA_CONFIG;
  _ ← (if Z.land cfg CONFIG_CSM_MSK =? CONFIG_CSM_STATIC
       then write_reg SDMA_CONFIG (Z.lor (Z.land cfg (bnot 32 CONFIG_CSM_MSK)) CONFIG_CSM_DYNAMIC)
       else mret tt);
  _ ← write_reg (SDMA_CHNPRI n) (clamp_prio prio flags);
  if is_event_driven c then
    v ← read_reg SDMA_EVTOVR;
    _ ← write_reg SDMA_EVTOVR (Z.land v (bnot 32 (bit (ch_num c))));
    v ← read_reg (SDMA_CHNENBL (eventnum c));
    write_reg (SDMA_CHNENBL (eventnum c)) (Z.lor v (bit n))
  else mret tt.




(** The last argument of [rsrcdbmgr_detach] is read from the structure after it was freed: whatever
    that memory holds then. *)
Definition sdma_channel_release (p : Z) : M D unit :=
  c ← get_chan p;
  let n := ch_num c in
  _ ← write_reg SDMA_INTR (bit n);
  _ ← call (MutexLock Register);
  v ← read_reg SDMA_EVTOVR;
  _ ← write_reg SDMA_EVTOVR (Z.lor v (bit n));
  v ← read_reg SDMA_HOSTOVR;
  _ ← write_reg SDMA_HOSTOVR (Z.land v (bnot 32 (bit n)));
  v ← read_reg (SDMA_CHNENBL (eventnum c));
  _ ← write_reg (SDMA_CHNENBL (eventnum c)) (Z.land v (bnot 32 (bit n)));
  _ ← call (MutexUnlock Register);
  _ ← (if regen_descr c then sdmairq_callback_remove (ch_num c) else mret tt);
  _ ← sdmairq_event_remove (ch_num c);
  _ ← chan_destroy p;
  freed ← call (ReadFreed p);
  _ ← call (RsrcDetach (u32 (out freed)));
  mret tt.

(** ** Transfers *)

Definition sdma_setup_xfer (p : Z) (t : dma_transfer) : M D Z :=
  c ← get_chan p;
  c' ← lift (setup_chan c t);
  _ ← put_chan p c';
  mret 0.

Definition hostovr_set (n : Z) : M D unit :=
  _ ← call (MutexLock Register);
  v ← read_reg SDMA_HOSTOVR;
  _ ← write_reg SDMA_HOSTOVR (Z.lor v (bit n));
  _ ← call (MutexUnlock Register);
  mret tt.

Definition hostovr_clear (n : Z) : M D unit :=
  _ ← call (MutexLock Register);
  v ← read_reg SDMA_HOSTOVR;
  _ ← write_reg SDMA_HOSTOVR (Z.land v (bnot 32 (bit n)));
  _ ← call (MutexUnlock Register);
  mret tt.

Definition sdma_xfer_start (p : Z) : M D Z :=
  c ← get_chan p;
  _ ← (if is_event_driven c then hostovr_set (ch_num c)
       else write_reg SDMA_HSTART (bit (ch_num c)));
  mret 0.

Definition sdma_xfer_abort (p : Z) : M D Z :=
  c ← get_chan p;
  if is_event_driven c then
    _ ← hostovr_clear (ch_num c);
    st ← (if cont_descr_loop c then sdmacmd_ctx_load p else mret 0);
    if negb (st =? 0) then mret (-1) else
    s ← get_st;
    b ← lift (at_ (ccb_arr (shm s)) (ch_num c));
    _ ← set_ccb (ch_num c) (mk_ccb (base_bd_paddr b) (base_bd_paddr b));
    mc0 ← read_reg SDMA_MC0PTR;
    _ ← call (CacheFlush (u32 (mc0 + ch_num c * SIZEOF_CCB)) SIZEOF_CCB);
    mret 0
  else mret 0.

Definition sdma_bytes_left (p : Z) : M D Z :=
  c ← get_chan p;
  b ← lift (at_ (ch_bds c) (u32 (n_frags c - 1)));
  mret (if (SDMA_CHTYPE_UARTSH_2_MCU =? ch_type c) || (SDMA_CHTYPE_UART_2_MCU =? ch_type c)
        then Z.land (cmd_and_status b) SDMA_CMDSTAT_COUNT_MASK
        else if negb (Z.land (cmd_and_status b) SDMA_CMDSTAT_DONE_MASK =? 0) then 1 else 0).

Definition sdma_xfer_complete (p : Z) : M D Z :=
  c ← get_chan p;
  _ ← (if is_event_driven c then hostovr_clear (ch_num c) else mret tt);
  b ← lift (at_ (ch_bds c) (u32 (n_frags c - 1)));
  mret (Z.shiftr (Z.land (cmd_and_status b) SDMA_CMDSTAT_ERROR_MASK) 20).

End Api.

(** ** Parsing the options ends *)

Lemma parse_init_fuel n s i r : (length s <= n)%nat -> parse_init n s i r <> Err NoFuel.
Proof.
  revert s i r. induction n as [|n IH]; intros [|x s] i r Hn; cbn [length] in Hn; cbn [parse_init];
    try done; try lia.
  destruct (getsubopt (x :: s) sdma_opts) as [[opt value] rest] eqn:Hg.
  apply getsubopt_length in Hg; [cbn [length] in Hg|done].
  destruct (opt =? -1); [done|].
  unfold value_of, get_or_bad. destruct value as [v|]; destruct (opt =? 0); cbn [mbind res_bind]; try done;
    apply IH; lia.
Qed.

Lemma parse_channel_fuel n s c : (length s <= n)%nat -> parse_channel n s c <> Err NoFuel.
Proof.
  revert s c. induction n as [|n IH]; intros [|x s] c Hn; cbn [length] in Hn; cbn [parse_channel];
    try done; try lia.
  destruct (getsubopt (x :: s) channel_create_opts) as [[opt value] rest] eqn:Hg.
  apply getsubopt_length in Hg; [cbn [length] in Hg|done].
  unfold value_of, get_or_bad.
  destruct value as [v|]; repeat case_match; cbn [mbind res_bind] in *; try done; apply IH; lia.
Qed.

(** ** What the library holds *)

(** The resources a process holds while the library is initialised. *)
Definition library_resources {D} (s : lib D) : list (option resource) :=
  [r_fd (sync_fd (api s)); r_map (shmem_ptr (api s)); r_io (sdma_base (api s));
   r_intr (irq_id (irqs s)); Some RCache; r_channel (cmd_chid (cmd s)); r_conn (cmd_coid (cmd s))].

Fixpoint total (l : list (option resource)) (r : resource) : Z :=
  match l with [] => 0 | o :: l => one o r + total l r end.



Definition with_dev {D} (s : lib D) (d : D) : lib D :=
  mk_lib d (trace s) (irqs s) (shm s) (cmd s) (api s) (chans s).

Section ApiFacts.
Context {D : Type} `{SdmaDevice D} {OS : Os} {L : OsLaws}.















(** The last user's [sdma_fini] gives back exactly what the library holds and uncounts the process;
    an earlier one only uncounts itself. *)
Theorem sdma_fini_correct (s : lib D) :
  exists s', sdma_fini s = Ok (tt, s') /\
    n_users_in_process (api s') = n_users_in_process (api s) - 1 /\
    process_cnt (shm s') = (if n_users_in_process (api s) =? 1
                            then u32 (process_cnt (shm s) - 1) else process_cnt (shm s)) /\
    forall r, balance (trace s') r = balance (trace s) r -
      (if n_users_in_process (api s) =? 1 then total (library_resources s) r else 0).
Proof.
  unfold sdma_fini, set_users, sdmasync_process_cnt_decr, set_process_cnt, sdmacmd_cmdch_destroy,
    sdmairq_fini, sdmasync_fini. mstep.
  replace (n_users_in_process (api s) - 1 =? 0) with (n_users_in_process (api s) =? 1)
    by (zbool; lia).
  destruct (n_users_in_process (api s) =? 1); mstep; (eexists; split; [done|]); (split; [done|]);
    (split; [done|]); intros r; unfold library_resources; cbn [total]; balance_simpl; lia.
Qed.

(** ** Channels *)

Lemma set_chan_list_ok n v (s : lib D) :
  lib_ok s -> 0 <= n < SDMA_N_CH ->
  exists a, set_chan_list n v s =
      Ok (tt, mk_lib (dev s) (trace s) (irqs s) (shm s) (cmd s) a (chans s)) /\
    chan_ptr_list a = <[Z.to_nat n := v]> (chan_ptr_list (api s)) /\
    n_users_in_process a = n_users_in_process (api s) /\ sdram_base a = sdram_base (api s).
Proof.
  intros Hs Hn. unfold set_chan_list. mred. rewrite set_at_ok by (rewrite ok_list by done; lia).
  by eexists.
Qed.

Lemma set_ccb_ok n c (s : lib D) :
  lib_ok s -> 0 <= n < SDMA_N_CH ->
  exists m, set_ccb n c s = Ok (tt, mk_lib (dev s) (trace s) (irqs s) m (cmd s) (api s) (chans s)) /\
    ccb_arr m = <[Z.to_nat n := c]> (ccb_arr (shm s)) /\ process_cnt m = process_cnt (shm s).
Proof.
  intros Hs Hn. unfold set_ccb. mred. rewrite set_at_ok by (rewrite ok_ccb by done; lia).
  by eexists.
Qed.


(** The memory a channel owns: its structure, its descriptor table and its context image. *)
Definition chan_memory (p : Z) (c : sdma_chan) : list (option resource) :=
  [r_heap p; r_map (bd_ptr c); r_map (ctx_ptr c)].







Lemma chan_destroy_ok p c (s : lib D) :
  lib_ok s -> chans s !! p = Some c -> 0 <= ch_num c < SDMA_N_CH ->
  exists s', chan_destroy p s = Ok (tt, s') /\ lib_ok s' /\ irqs s' = irqs s /\ cmd s' = cmd s /\
    dev s' = dev s /\ shm s' = shm s /\ chans s' = delete p (chans s) /\
    chan_ptr_list (api s') = <[Z.to_nat (ch_num c) := 0]> (chan_ptr_list (api s)) /\
    forall r, balance (trace s') r = balance (trace s) r - total (chan_memory p c) r.
Proof.
  intros Hs Hp Hn. unfold chan_destroy, get_chan, free_chan. mred. rewrite Hp. mred.
  match goal with |- context [set_chan_list ?n ?c ?s0] =>
    destruct (set_chan_list_ok n c s0 Hs Hn) as (l & Hl1 & Hl2 & _) end.
  rewrite Hl1. mstep. eexists. split; [done|]. mred.
  split; [destruct Hs; split; mred; rewrite ?Hl2, ?zlen_insert; congruence|].
  do 6 (split; [done|]). intros r. unfold chan_memory. cbn [total]. balance_simpl. lia.
Qed.


















End ApiFacts.

(** ** The registers *)

Lemma shiftl_2 n : Z.shiftl n 2 = n * 4.
Proof. by rewrite Z.shiftl_mul_pow2. Qed.

Lemma bit_testbit n i : 0 <= n < 32 -> 0 <= i -> Z.testbit (bit n) i = (i =? n).
Proof.
  intros Hn Hi. unfold bit. rewrite Z.shiftl_1_l, wrap_id.
  - rewrite Z.pow2_bits_eqb by lia. by rewrite Z.eqb_sym.
  - split; [by apply Z.pow_nonneg|]. apply Z.pow_lt_mono_r; lia.
Qed.

Lemma bit_fits n : fits 32 (bit n).
Proof. by apply wrap_fits. Qed.

(** Setting and clearing one bit of a register. *)
Lemma set_bit_testbit v n i :
  0 <= n < 32 -> 0 <= i -> Z.testbit (Z.lor v (bit n)) i = Z.testbit v i || (i =? n).
Proof. intros. by rewrite Z.lor_spec, bit_testbit. Qed.

Lemma clear_bit_testbit v n i :
  0 <= n < 32 -> 0 <= i < 32 ->
  Z.testbit (Z.land v (bnot 32 (bit n))) i = Z.testbit v i && negb (i =? n).
Proof.
  intros. rewrite Z.land_spec, testbit_bnot, bit_testbit by lia.
  by rewrite (proj2 (Z.ltb_lt i 32)) by lia.
Qed.

Lemma set_bit_fits v n : fits 32 v -> fits 32 (Z.lor v (bit n)).
Proof. intros. by apply fits_lor; [|done|apply bit_fits]. Qed.

Lemma clear_bit_fits v n : fits 32 v -> fits 32 (Z.land v (bnot 32 (bit n))).
Proof.
  intros. apply fits_land; [done..|]. pose proof (wrap_fits 32 (Z.lnot (bit n)) ltac:(lia)).
  unfold bnot, fits in *. lia.
Qed.

#[export] Hint Resolve bit_fits set_bit_fits clear_bit_fits : words.

Lemma plain_evtovr : plain_reg SDMA_EVTOVR.
Proof. by left. Qed.
Lemma plain_hostovr : plain_reg SDMA_HOSTOVR.
Proof. by right; left. Qed.
Lemma plain_config : plain_reg SDMA_CONFIG.
Proof. by right; right; left. Qed.
Lemma plain_chnpri n : 0 <= n < SDMA_N_CH -> plain_reg (SDMA_CHNPRI n).
Proof. intros. do 5 right. left. by exists n. Qed.
Lemma plain_chnenbl n : 0 <= n < MAX_DMA_EVENT -> plain_reg (SDMA_CHNENBL n).
Proof. intros. do 6 right. by exists n. Qed.

#[export] Hint Resolve plain_evtovr plain_hostovr plain_config plain_chnpri plain_chnenbl : sdma.

(** Different registers have different offsets. *)
Ltac reg_ne :=
  unfold SDMA_CHNPRI, SDMA_CHNENBL, SDMA_EVTOVR, SDMA_HOSTOVR, SDMA_CONFIG, SDMA_RESET, SDMA_INTR,
    SDMA_HSTART, SDMA_MC0PTR, SDMA_CHN0ADDR, SDMA_N_CH, MAX_DMA_EVENT in *; rewrite ?shiftl_2 in *; lia.

Section Registers.
Context {D : Type} `{SdmaDeviceLaws D} {OS : Os}.

(** [d'] is [d] with register [o] changed to [v] and, of the other plain registers, none. *)
Definition only_reg (d d' : D) (o v : Z) : Prop :=
  in32 d' o = v /\ forall o', plain_reg o' -> o' <> o -> in32 d' o' = in32 d o'.

Lemma write_only_reg d o v : plain_reg o -> o <> SDMA_RESET -> fits 32 v -> only_reg d (out32 d o v) o v.
Proof.
  intros Ho Hr Hv. split; [by apply law_same|]. intros o' Ho' Hne. by apply law_other.
Qed.

Lemma clamp_prio_range prio flags : SDMA_CH_PRIO_LO <= clamp_prio prio flags <= SDMA_CH_PRIO_HI.
Proof.
  unfold clamp_prio, SDMA_CH_PRIO_LO, SDMA_CH_PRIO_HI.
  destruct (negb _); cbn [orb]; zbool; lia.
Qed.

Lemma csm_dynamic cfg :
  Z.land (Z.lor (Z.land cfg (bnot 32 CONFIG_CSM_MSK)) CONFIG_CSM_DYNAMIC) CONFIG_CSM_MSK = CONFIG_CSM_MSK.
Proof.
  rewrite Z.land_lor_distr_l, <- Z.land_assoc.
  change (Z.land (bnot 32 CONFIG_CSM_MSK) CONFIG_CSM_MSK) with 0. by rewrite Z.land_0_r.
Qed.

Lemma csm_fits cfg :
  fits 32 cfg -> fits 32 (Z.lor (Z.land cfg (bnot 32 CONFIG_CSM_MSK)) CONFIG_CSM_DYNAMIC).
Proof. intros. apply fits_lor; [done| |done]. by apply fits_land. Qed.

Lemma prio_fits prio flags : fits 32 (clamp_prio prio flags).
Proof.
  pose proof (clamp_prio_range prio flags). unfold fits, SDMA_CH_PRIO_LO, SDMA_CH_PRIO_HI in *. lia.
Qed.

(** Read back a register after a write to it, or to another one. *)
Ltac dev_simpl :=
  repeat first [
    rewrite law_same by (auto using law_fits, set_bit_fits, clear_bit_fits, prio_fits, csm_fits with sdma)
  | rewrite law_other by first [by auto with sdma | reg_ne] ].

(** The context-switch mode, first thing [attach_registers] does. *)
Lemma attach_config (s : lib D) :
  exists d, (cfg ← read_reg SDMA_CONFIG;
     if Z.land cfg CONFIG_CSM_MSK =? CONFIG_CSM_STATIC
     then write_reg SDMA_CONFIG (Z.lor (Z.land cfg (bnot 32 CONFIG_CSM_MSK)) CONFIG_CSM_DYNAMIC)
     else mret tt) s = Ok (tt, with_dev s d) /\
    Z.land (in32 d SDMA_CONFIG) CONFIG_CSM_MSK <> CONFIG_CSM_STATIC /\
    forall o, plain_reg o -> o <> SDMA_CONFIG -> in32 d o = in32 (dev s) o.
Proof.
  mred. destruct (Z.eqb_spec (Z.land (in32 (dev s) SDMA_CONFIG) CONFIG_CSM_MSK) CONFIG_CSM_STATIC) as [He|He].
  - eexists. split; [done|]. dev_simpl. rewrite csm_dynamic. split; [done|].
    intros o Ho Hne. apply law_other; [done|congruence|done].
  - exists (dev s). split; [by destruct s|]. done.
Qed.

(** Attaching a channel programs its own registers only: its priority is brought into 1..7, the
    static context switching of the boot phase ends, an event-driven channel is taken off the event
    override and added to the enable word of its event; the bits of every other channel in those
    words, and every other register, stay as they were. *)
Theorem attach_registers_correct c n prio flags (s : lib D) :
  0 <= n < SDMA_N_CH -> ch_num c = n ->
  (is_event_driven c = true -> 0 <= eventnum c < MAX_DMA_EVENT) ->
  exists d, attach_registers c n prio flags s = Ok (tt, with_dev s d) /\
    in32 d (SDMA_CHNPRI n) = clamp_prio prio flags /\
    Z.land (in32 d SDMA_CONFIG) CONFIG_CSM_MSK <> CONFIG_CSM_STATIC /\
    (forall i, 0 <= i < 32 ->
      Z.testbit (in32 d SDMA_EVTOVR) i =
        Z.testbit (in32 (dev s) SDMA_EVTOVR) i && negb (is_event_driven c && (i =? n))) /\
    (forall e i, 0 <= e < MAX_DMA_EVENT -> 0 <= i < 32 ->
      Z.testbit (in32 d (SDMA_CHNENBL e)) i =
        Z.testbit (in32 (dev s) (SDMA_CHNENBL e)) i ||
        (is_event_driven c && (e =? eventnum c) && (i =? n))) /\
    (forall m, 0 <= m < SDMA_N_CH -> m <> n ->
      in32 d (SDMA_CHNPRI m) = in32 (dev s) (SDMA_CHNPRI m)) /\
    in32 d SDMA_HOSTOVR = in32 (dev s) SDMA_HOSTOVR.
Proof.
  intros Hn Hc He. unfold attach_registers. destruct (attach_config s) as (d0 & Hd0 & Hcsm & Hkeep).
  mred. rewrite Hd0. mred. destruct (is_event_driven c) eqn:Hev; cbn [andb].
  - specialize (He eq_refl). eexists. split; [unfold with_dev; mred; reflexivity|]. mred. rewrite Hc.
    split; [by dev_simpl|]. split; [by dev_simpl|].
    split; [|split; [|split; [intros m Hm Hne; dev_simpl; by rewrite Hkeep by (auto with sdma; reg_ne)
                             |dev_simpl; by rewrite Hkeep by (auto with sdma; reg_ne)]]].
    + intros i Hi. dev_simpl. rewrite clear_bit_testbit by (unfold SDMA_N_CH in *; lia).
      by rewrite Hkeep by (auto with sdma; reg_ne).
    + intros e i He' Hi. destruct (Z.eqb_spec e (eventnum c)) as [->|Hne]; cbn [andb].
      * dev_simpl. rewrite set_bit_testbit by (unfold SDMA_N_CH in *; lia).
        by rewrite Hkeep by (auto with sdma; reg_ne).
      * dev_simpl. rewrite Hkeep by (auto with sdma; reg_ne). by rewrite orb_false_r.
  - eexists. split; [unfold with_dev; mred; reflexivity|].
    split; [by dev_simpl|]. split; [by dev_simpl|].
    split; [intros i Hi; dev_simpl; rewrite Hkeep by (auto with sdma; reg_ne); by rewrite andb_true_r|].
    split; [intros e i He' Hi; dev_simpl; rewrite Hkeep by (auto with sdma; reg_ne); by rewrite orb_false_r|].
    split; [intros m Hm Hne; dev_simpl; by rewrite Hkeep by (auto with sdma; reg_ne)|].
    dev_simpl. by rewrite Hkeep by (auto with sdma; reg_ne).
Qed.
Context {L : OsLaws}.

(** The event override, host override and event enable bits of every channel but [n] are the same. *)
Definition others_kept (n : Z) (d d' : D) : Prop :=
  forall i, 0 <= i < 32 -> i <> n ->
    Z.testbit (in32 d' SDMA_EVTOVR) i = Z.testbit (in32 d SDMA_EVTOVR) i /\
    Z.testbit (in32 d' SDMA_HOSTOVR) i = Z.testbit (in32 d SDMA_HOSTOVR) i /\
    forall e, 0 <= e < MAX_DMA_EVENT ->
      Z.testbit (in32 d' (SDMA_CHNENBL e)) i = Z.testbit (in32 d (SDMA_CHNENBL e)) i.

(** Three read-modify-writes of [sdma_channel_release]. *)
Lemma release_registers_ok n e d :
  0 <= n < SDMA_N_CH -> 0 <= e < MAX_DMA_EVENT ->
  let d0 := out32 d SDMA_INTR (bit n) in
  let d1 := out32 d0 SDMA_EVTOVR (Z.lor (in32 d0 SDMA_EVTOVR) (bit n)) in
  let d2 := out32 d1 SDMA_HOSTOVR (Z.land (in32 d1 SDMA_HOSTOVR) (bnot 32 (bit n))) in
  let d3 := out32 d2 (SDMA_CHNENBL e) (Z.land (in32 d2 (SDMA_CHNENBL e)) (bnot 32 (bit n))) in
  others_kept n d d3 /\ Z.testbit (in32 d3 SDMA_EVTOVR) n = true /\
  Z.testbit (in32 d3 SDMA_HOSTOVR) n = false /\ Z.testbit (in32 d3 (SDMA_CHNENBL e)) n = false.
Proof.
  intros Hn He d0 d1 d2 d3. assert (Hn' : 0 <= n < 32) by done.
  assert (E1 : in32 d3 SDMA_EVTOVR = Z.lor (in32 d SDMA_EVTOVR) (bit n)) by (subst d0 d1 d2 d3; by dev_simpl).
  assert (E2 : in32 d3 SDMA_HOSTOVR = Z.land (in32 d SDMA_HOSTOVR) (bnot 32 (bit n)))
    by (subst d0 d1 d2 d3; by dev_simpl).
  assert (E3 : forall e', 0 <= e' < MAX_DMA_EVENT -> in32 d3 (SDMA_CHNENBL e') =
    if e' =? e then Z.land (in32 d (SDMA_CHNENBL e)) (bnot 32 (bit n)) else in32 d (SDMA_CHNENBL e')).
  { intros e' He'. subst d0 d1 d2 d3. destruct (Z.eqb_spec e' e) as [->|]; by dev_simpl. }
  rewrite E1, E2, (E3 e He), Z.eqb_refl, !clear_bit_testbit, set_bit_testbit, Z.eqb_refl by lia.
  rewrite orb_true_r, !andb_false_r. split; [|done]. intros i Hi Hne.
  rewrite E1, E2, clear_bit_testbit, set_bit_testbit by lia. rewrite (proj2 (Z.eqb_neq i n)) by done.
  rewrite orb_false_r, andb_true_r. do 2 (split; [done|]). intros e' He'. rewrite E3 by done.
  destruct (Z.eqb_spec e' e) as [->|]; [|done]. rewrite clear_bit_testbit by lia.
  by rewrite (proj2 (Z.eqb_neq i n)), andb_true_r by done.
Qed.

Lemma release_callback_ok c n (s : lib D) :
  lib_ok s -> 0 <= n < SDMA_N_CH ->
  exists i, (if regen_descr c then sdmairq_callback_remove n else mret tt) s =
      Ok (tt, mk_lib (dev s) (trace s) i (shm s) (cmd s) (api s) (chans s)) /\
    event_array i = event_array (irqs s) /\ channel_mask i = channel_mask (irqs s) /\
    zlen (callback_array i) = SDMA_N_CH /\
    (regen_descr c = true -> callback_array i !! Z.to_nat n = Some None).
Proof.
  intros Hs Hn. destruct (regen_descr c).
  - unfold sdmairq_callback_remove, set_callback. mred.
    rewrite set_at_ok by (rewrite ok_callbacks by done; lia). eexists. split; [done|]. mred.
    do 2 (split; [done|]). rewrite zlen_insert. split; [by apply ok_callbacks|]. intros _.
    apply list_lookup_insert_eq. pose proof (ok_callbacks s Hs). unfold zlen in *. lia.
  - exists (irqs s). mred. split; [by destruct s|]. do 2 (split; [done|]).
    split; [by apply ok_callbacks|done].
Qed.

(** [sdma_channel_release] frees what the channel owns and puts its registers back: software
    triggered, no event enabled, no event or callback on its interrupt, while every other channel's
    bits stay.  The channel number it returns to the resource manager is read from the freed
    structure: it is the channel's own if that memory still holds it, and only then is the channel given
    back. *)
Theorem sdma_channel_release_correct p c (s : lib D) :
  lib_ok s -> chans s !! p = Some c -> SDMA_CH_LO <= ch_num c <= SDMA_CH_HI ->
  0 <= eventnum c < MAX_DMA_EVENT ->
  exists s' freed, sdma_channel_release p s = Ok (tt, s') /\ lib_ok s' /\ chans s' = delete p (chans s) /\
    others_kept (ch_num c) (dev s) (dev s') /\
    Z.testbit (in32 (dev s') SDMA_EVTOVR) (ch_num c) = true /\
    Z.testbit (in32 (dev s') SDMA_HOSTOVR) (ch_num c) = false /\
    Z.testbit (in32 (dev s') (SDMA_CHNENBL (eventnum c))) (ch_num c) = false /\
    event_array (irqs s') !! Z.to_nat (ch_num c) = Some NoEvent /\
    Z.testbit (channel_mask (irqs s')) (ch_num c) = false /\
    chan_ptr_list (api s') !! Z.to_nat (ch_num c) = Some 0 /\
    (exists t, freed = u32 (out (env t (ReadFreed p)))) /\
    forall r, balance (trace s') r =
      balance (trace s) r - total (Some (RDmaChannel freed) :: chan_memory p c) r.
Proof.
  intros Hs Hp Hn He. unfold SDMA_CH_LO, SDMA_CH_HI in Hn. set (n := ch_num c) in *.
  assert (Hn32 : 0 <= n < SDMA_N_CH) by (unfold SDMA_N_CH; lia).
  unfold sdma_channel_release, get_chan. mred. rewrite Hp. fold n. mstep.
  match goal with |- context [(if regen_descr c then _ else _) ?s0] =>
    destruct (release_callback_ok c n s0) as (i & Hi & I1 & I2 & I3 & I4); [by destruct Hs|done|] end.
  mred. rewrite Hi.
  match goal with |- context [sdmairq_event_remove n ?s0] =>
    destruct (event_remove_ok n s0) as (j & Hj & J1 & J2 & J3 & J4); [|done|] end.
  { destruct Hs. split; mred; congruence. }
  rewrite Hj. mred.
  match goal with |- context [chan_destroy p ?s0] =>
    destruct (chan_destroy_ok p c s0) as (s1 & Hx & X1 & X2 & X3 & X4 & X5 & X6 & X7 & X8); [|done|done|] end.
  { destruct Hs. split; mred; rewrite ?J1, ?J2, ?zlen_insert; congruence. }
  rewrite Hx. destruct (call_log (ReadFreed p) s1) as (f & Hf & Hcall). mred. rewrite Hcall. mstep.
  eexists _, (u32 (out f)). split; [done|]. split; [by destruct X1|]. mred. split; [done|].
  rewrite X4, X2, X7. destruct (release_registers_ok n (eventnum c) (dev s) Hn32 He) as (R1 & R2 & R3 & R4).
  do 4 (split; [done|]). rewrite J1, J4, I1, I2.
  split; [apply list_lookup_insert_eq; pose proof (ok_events s Hs); unfold zlen, SDMA_N_CH in *; lia|].
  split; [by rewrite clear_bit_testbit, Z.eqb_refl, andb_false_r by done|].
  split; [apply list_lookup_insert_eq; pose proof (ok_list s Hs); unfold zlen, SDMA_N_CH in *; lia|].
  split; [by exists (trace s1); rewrite Hf|].
  intros r. balance_simpl. rewrite X8. unfold chan_memory. cbn [total]. balance_simpl. lia.
Qed.

(** Starting an event-driven channel sets its host-override bit under the register mutex, with
    every other channel's bits kept; a software-triggered one is started once. *)
Theorem sdma_xfer_start_correct p c (s : lib D) :
  chans s !! p = Some c -> 0 <= ch_num c < SDMA_N_CH ->
  exists s', sdma_xfer_start p s = Ok (0, s') /\ chans s' = chans s /\
    (forall r, balance (trace s') r = balance (trace s) r) /\
    if is_event_driven c
    then others_kept (ch_num c) (dev s) (dev s') /\
         Z.testbit (in32 (dev s') SDMA_HOSTOVR) (ch_num c) = true
    else dev s' = out32 (dev s) SDMA_HSTART (bit (ch_num c)) /\ trace s' = trace s.
Proof.
  intros Hp Hn. unfold sdma_xfer_start, get_chan, hostovr_set. mred. rewrite Hp. mred.
  destruct (is_event_driven c); mstep; (eexists; split; [done|]); (split; [done|]);
    (split; [intros r; balance_simpl; lia|]); mred; [|done].
  assert (Hn' : 0 <= ch_num c < 32) by done. split.
  - intros i Hi Hne. dev_simpl. rewrite set_bit_testbit by lia. rewrite (proj2 (Z.eqb_neq i _)) by done.
    rewrite orb_false_r. do 2 (split; [done|]). intros e He. by dev_simpl.
  - dev_simpl. by rewrite set_bit_testbit, Z.eqb_refl, orb_true_r by lia.
Qed.

Lemma hostovr_clear_dev n d (e : D) :
  0 <= n < SDMA_N_CH -> e = out32 d SDMA_HOSTOVR (Z.land (in32 d SDMA_HOSTOVR) (bnot 32 (bit n))) ->
  others_kept n d e /\ Z.testbit (in32 e SDMA_HOSTOVR) n = false.
Proof.
  intros Hn ->. assert (Hn' : 0 <= n < 32) by done. split.
  - intros i Hi Hne. dev_simpl. rewrite clear_bit_testbit by lia. rewrite (proj2 (Z.eqb_neq i _)) by done.
    rewrite andb_true_r. do 2 (split; [done|]). intros e' He. by dev_simpl.
  - dev_simpl. by rewrite clear_bit_testbit, Z.eqb_refl, andb_false_r by lia.
Qed.

Lemma hstart_kept n d e :
  others_kept n d e /\ Z.testbit (in32 e SDMA_HOSTOVR) n = false ->
  others_kept n d (out32 e SDMA_HSTART (bit SDMA_CMD_CH)) /\
  Z.testbit (in32 (out32 e SDMA_HSTART (bit SDMA_CMD_CH)) SDMA_HOSTOVR) n = false.
Proof.
  intros [Ho Hb]. split; [|by dev_simpl]. intros i Hi Hne. destruct (Ho i Hi Hne) as (H1 & H2 & H3).
  dev_simpl. do 2 (split; [done|]). intros e' He. dev_simpl. by apply H3.
Qed.

Lemma abort_reload_ok p c (s : lib D) :
  lib_ok s -> chans s !! p = Some c ->
  exists v s', (if cont_descr_loop c then sdmacmd_ctx_load p else mret 0) s = Ok (v, s') /\
    (v = 0 \/ v = -1) /\ (cont_descr_loop c = false -> v = 0) /\ same_api s s' /\
    dev s' = (if cont_descr_loop c then out32 (dev s) SDMA_HSTART (bit SDMA_CMD_CH) else dev s) /\
    forall r, balance (trace s') r = balance (trace s) r.
Proof.
  intros Hs Hp. destruct (cont_descr_loop c).
  - destruct (ctx_load_ok p c s Hs Hp) as (v & s' & ? & ? & ? & _ & ? & ?). by exists v, s'.
  - exists 0, s. mred. split; [done|]. split; [tauto|]. split; [done|]. split; [by split|]. done.
Qed.

(** Aborting an event-driven transfer clears the channel's host override and nobody else's; with a
    continuous descriptor loop the channel's context is loaded again, and if that fails the error is
    returned; otherwise the channel's control block points to its first descriptor again and the other
    control blocks are as before.  Mutexes are given back on every path. *)
Theorem sdma_xfer_abort_correct p c (s : lib D) :
  lib_ok s -> chans s !! p = Some c -> 0 <= ch_num c < SDMA_N_CH -> is_event_driven c = true ->
  exists v s', sdma_xfer_abort p s = Ok (v, s') /\ (v = 0 \/ v = -1) /\ chans s' = chans s /\
    (forall r, balance (trace s') r = balance (trace s) r) /\
    others_kept (ch_num c) (dev s) (dev s') /\
    Z.testbit (in32 (dev s') SDMA_HOSTOVR) (ch_num c) = false /\
    (cont_descr_loop c = false -> v = 0) /\
    (v = -1 -> ccb_arr (shm s') = ccb_arr (shm s)) /\
    (v = 0 -> exists b, ccb_arr (shm s) !! Z.to_nat (ch_num c) = Some b /\
      ccb_arr (shm s') = <[Z.to_nat (ch_num c) := mk_ccb (base_bd_paddr b) (base_bd_paddr b)]> (ccb_arr (shm s))).
Proof.
  intros Hs Hp Hn Hev. unfold sdma_xfer_abort, get_chan, hostovr_clear. mred. rewrite Hp, Hev. mstep.
  set (d1 := out32 (dev s) SDMA_HOSTOVR _).
  match goal with |- context [(if cont_descr_loop c then _ else _) ?s0] =>
    destruct (abort_reload_ok p c s0) as (v & s1 & Hr & Hv & Hc0 & [A B C E F] & Hd & Hb);
    [by destruct Hs|done|] end.
  mred. rewrite Hr. assert (Hs1 : lib_ok s1) by (apply F; by destruct Hs).
  assert (Hdev : others_kept (ch_num c) (dev s) (dev s1) /\
                 Z.testbit (in32 (dev s1) SDMA_HOSTOVR) (ch_num c) = false).
  { pose proof (hostovr_clear_dev _ (dev s) d1 Hn eq_refl) as Hcl. rewrite Hd.
    destruct (cont_descr_loop c); [by apply hstart_kept|done]. }
  destruct Hdev as [Ho Hh]. destruct (at_ok (ccb_arr (shm s)) (ch_num c)) as (b & Hb1 & Hb2).
  { by rewrite ok_ccb. }
  destruct Hv as [-> | ->]; cbn [Z.eqb negb]; mred.
  - rewrite E, Hb1. mred. match goal with |- context [set_ccb ?n ?x ?s0] =>
      destruct (set_ccb_ok n x s0 Hs1 Hn) as (m & Hm & M1 & _) end.
    rewrite Hm. mstep. eexists 0, _. split; [done|]. split; [tauto|]. mred. split; [done|].
    split; [intros r; balance_simpl; rewrite Hb; balance_simpl; lia|]. do 3 (split; [done|]).
    split; [lia|]. intros _. exists b. by rewrite M1, E.
  - eexists (-1), _. split; [done|]. split; [tauto|]. mred. split; [done|].
    split; [intros r; balance_simpl; rewrite Hb; balance_simpl; lia|]. do 4 (split; [done|]). lia.
Qed.
End Registers.
