(* ===== verification/SdmaXfer.v ===== *)
(** * SdmaXfer: what the descriptor tables and the interrupt handler of the SDMA library mean.

    The specification is the controller's: a descriptor is read through [view_of] (its bit fields),
    and [ring] is the list of buffers the engine goes through, from the first descriptor to the one that
    wraps. *)

From S2P Require Import Prelude.
From S2P Require Import SdmaSys.
From S2P Require Import Sdma.

(** The fields of a descriptor's command word. *)
Record bd_view := mk_view {
  v_count : Z;
  v_done : bool;
  v_wrap : bool;
  v_cont : bool;
  v_int : bool;
  v_error : bool;
  v_ext : bool;
  v_unit : Z
}.

Definition view_of (w : Z) : bd_view :=
  mk_view (Z.land w SDMA_CMDSTAT_COUNT_MASK) (Z.testbit w 16) (Z.testbit w 17) (Z.testbit w 18)
    (Z.testbit w 19) (Z.testbit w 20) (Z.testbit w 23) (Z.shiftr w SDMA_CMDSTAT_CMD_POS).

(** The buffers the engine goes through. *)
Fixpoint ring (l : list sdma_bd) : list (Z * Z) :=
  match l with
  | [] => []
  | b :: r =>
      let v := view_of (cmd_and_status b) in
      if v_done v then (buf_paddr b, v_count v) :: (if v_wrap v then [] else ring r) else []
  end.

(** The data width code of [xfer_unit_size]; 32 bits is the default. *)
Definition unit_code (s : Z) : Z :=
  if s =? 8 then 1 else if s =? 16 then 2 else if s =? 24 then 3 else 0.

Definition wants (c : sdma_chan) (flag : Z) : bool := negb (Z.land (attach_flags c) flag =? 0).

(** The command word of descriptor [k] of [n]. *)
Definition spec_view (c : sdma_chan) (n k unit len : Z) : bd_view :=
  mk_view len true (k =? n - 1) ((k <? n - 1) || cont_descr_loop c)
    (wants c DMA_ATTACH_EVENT_PER_SEGMENT || ((k =? n - 1) && wants c DMA_ATTACH_EVENT_ON_COMPLETE))
    false true (unit_code unit).

(** ** Bit fields *)

Lemma count_bits_high len i : 0 <= len < 2 ^ 16 -> 16 <= i -> Z.testbit len i = false.
Proof. intros Hl Hi. rewrite <- (Z.mod_small len (2 ^ 16)) by done. apply Z.mod_pow2_bits_high. lia. Qed.

(** A count or'ed into a word with no count. *)
Lemma view_count w len :
  0 <= len < 2 ^ 16 -> Z.land w SDMA_CMDSTAT_COUNT_MASK = 0 ->
  view_of (Z.lor w len) = mk_view len (v_done (view_of w)) (v_wrap (view_of w)) (v_cont (view_of w))
    (v_int (view_of w)) (v_error (view_of w)) (v_ext (view_of w)) (v_unit (view_of w)).
Proof.
  intros Hl Hw. unfold view_of. cbn [v_done v_wrap v_cont v_int v_error v_ext v_unit].
  rewrite !Z.lor_spec, !(count_bits_high len) by lia. rewrite !orb_false_r.
  rewrite Z.land_lor_distr_l, Hw, Z.lor_0_l, Z.shiftr_lor.
  change SDMA_CMDSTAT_COUNT_MASK with (Z.ones 16). rewrite Z.land_ones, Z.mod_small by lia.
  replace (Z.shiftr len SDMA_CMDSTAT_CMD_POS) with 0; [by rewrite Z.lor_0_r|].
  unfold SDMA_CMDSTAT_CMD_POS. rewrite Z.shiftr_div_pow2, Z.div_small by lia. done.
Qed.

Lemma lor_last a b c : Z.lor (Z.lor a b) c = Z.lor (Z.lor a c) b.
Proof. by rewrite <- !Z.lor_assoc, (Z.lor_comm b c). Qed.

Lemma unit_cases u :
  SDMA_CMD_XFER_SIZE u = Z.shiftl (unit_code u) 24 /\
  (unit_code u = 0 \/ unit_code u = 1 \/ unit_code u = 2 \/ unit_code u = 3).
Proof. split; [done|]. unfold unit_code. zbool; tauto. Qed.

(** ** The loop of [sdma_setup_xfer] *)

(** The descriptor the loop stores for fragment [a]; [x] is the other address of a memory-to-memory
    transfer. *)
Definition loop_bd (cs : Z) (a : dma_addr) (x : option dma_addr) (b : sdma_bd) : sdma_bd :=
  mk_bd (Z.lor (Z.lor cs (len a)) SDMA_CMDSTAT_DONE_MASK) (u32 (paddr a))
    (match x with Some y => u32 (paddr y) | None => ext_buf_paddr b end).

(** The second address, where there is a second list. *)
Definition ext_at (ext : option (list dma_addr)) (k : nat) : option dma_addr :=
  match ext with Some e => e !! k | None => None end.

Definition ext_long (ext : option (list dma_addr)) (n : Z) : Prop :=
  match ext with Some e => n <= zlen e | None => True end.

Lemma ext_step (ext : option (list dma_addr)) (b : sdma_bd) n i :
  0 <= i < n -> ext_long ext n ->
  store_ext ext i b =
  Ok (mk_bd (cmd_and_status b) (buf_paddr b)
        (match ext_at ext (Z.to_nat i) with Some y => u32 (paddr y) | None => ext_buf_paddr b end)).
Proof.
  intros Hi He. unfold store_ext. destruct ext as [e|]; cbn [ext_at].
  - cbn [ext_long] in He. destruct (at_ok e i) as (x & -> & ->); [lia|]. done.
  - by destruct b.
Qed.

Lemma fill_descrs_ok fuel i n cs addrs ext bds :
  0 <= i -> n <= zlen bds -> n <= zlen addrs -> ext_long ext n -> n - i < Z.of_nat fuel ->
  exists bds', fill_descrs fuel i n cs addrs ext bds = Ok bds' /\ zlen bds' = zlen bds /\
    forall k : nat,
      if decide (i <= Z.of_nat k < n)
      then exists a b, addrs !! k = Some a /\ bds !! k = Some b /\
             bds' !! k = Some (loop_bd cs a (ext_at ext k) b)
      else bds' !! k = bds !! k.
Proof.
  revert i bds. induction fuel as [|fuel IH]; intros i bds Hi Hb Ha He Hf; cbn [fill_descrs].
  - destruct (Z.ltb_spec i n); [lia|]. exists bds. split; [done|]. split; [done|].
    intros k. destruct (decide _); [lia|done].
  - destruct (Z.ltb_spec i n) as [Hlt|Hge].
    2: { exists bds. split; [done|]. split; [done|]. intros k. destruct (decide _); [lia|done]. }
    destruct (at_ok bds i) as (b & Hb1 & Hb2); [lia|]. destruct (at_ok addrs i) as (a & Ha1 & Ha2); [lia|].
    rewrite Hb1. cbn [mbind res_bind]. rewrite Ha1. cbn [mbind res_bind].
    rewrite (ext_step ext _ n) by (lia || done). cbn [mbind res_bind]. rewrite set_at_ok by lia.
    cbn [mbind res_bind]. cbn [set_paddr or_cmd set_cmd cmd_and_status buf_paddr ext_buf_paddr].
    match goal with |- context [fill_descrs fuel (i + 1) n cs addrs ext ?l] =>
      destruct (IH (i + 1) l) as (bds' & Hr & Hl & Hk); [lia|by rewrite zlen_insert|done|done|lia|] end.
    exists bds'. split; [exact Hr|]. split; [rewrite Hl; by rewrite zlen_insert|]. intros k. specialize (Hk k).
    destruct (decide (k = Z.to_nat i)) as [->|Hne].
    + rewrite decide_False in Hk by lia. rewrite decide_True by lia. exists a, b.
      split; [done|]. split; [done|]. rewrite Hk. rewrite list_lookup_insert_eq by (unfold zlen in *; lia). done.
    + rewrite list_lookup_insert_ne in Hk by done.
      destruct (decide (i + 1 <= Z.of_nat k < n)), (decide (i <= Z.of_nat k < n)); try lia; done.
Qed.

(** The descriptor stored last. *)
Definition last_bd (c : sdma_chan) (unit : Z) (a : dma_addr) (x : option dma_addr) (b : sdma_bd) : sdma_bd :=
  let w := Z.lor (Z.lor (Z.lor SDMA_CMDSTAT_EXT_MASK (SDMA_CMD_XFER_SIZE unit)) SDMA_CMDSTAT_WRAP_MASK) (len a) in
  let w := if cont_descr_loop c then Z.lor w SDMA_CMDSTAT_CONT_MASK else w in
  let w := if wants c DMA_ATTACH_EVENT_ON_COMPLETE || wants c DMA_ATTACH_EVENT_PER_SEGMENT
           then Z.lor w SDMA_CMDSTAT_INT_MASK else w in
  mk_bd (Z.lor w SDMA_CMDSTAT_DONE_MASK) (u32 (paddr a))
    (match x with Some y => u32 (paddr y) | None => ext_buf_paddr b end).

Lemma fill_last_ok c i unit addrs ext bds :
  0 <= i -> i < zlen bds -> i < zlen addrs -> ext_long ext (i + 1) ->
  exists a b, addrs !! Z.to_nat i = Some a /\ bds !! Z.to_nat i = Some b /\
    fill_last c i unit addrs ext bds =
      Ok (<[Z.to_nat i := last_bd c unit a (ext_at ext (Z.to_nat i)) b]> bds).
Proof.
  intros Hi Hb Ha He. unfold fill_last.
  destruct (at_ok bds i) as (b & Hb1 & Hb2); [lia|]. destruct (at_ok addrs i) as (a & Ha1 & Ha2); [lia|].
  exists a, b. split; [done|]. split; [done|]. rewrite Hb1. cbn [mbind res_bind]. rewrite Ha1. cbn [mbind res_bind].
  rewrite (ext_step ext _ (i + 1)) by (lia || done). cbn [mbind res_bind]. rewrite set_at_ok by lia.
  unfold last_bd, wants. by destruct (cont_descr_loop c), (negb _ || negb _).
Qed.

(** The command words, decoded. *)
Lemma loop_view c unit a :
  0 <= len a < 2 ^ 16 ->
  view_of (Z.lor (Z.lor (xfer_cmd c unit) (len a)) SDMA_CMDSTAT_DONE_MASK) =
  mk_view (len a) true false true (wants c DMA_ATTACH_EVENT_PER_SEGMENT) false true (unit_code unit).
Proof.
  intros Hl. rewrite lor_last. unfold xfer_cmd. fold (wants c DMA_ATTACH_EVENT_PER_SEGMENT).
  destruct (unit_cases unit) as [-> [-> | [-> | [-> | ->]]]];
    destruct (wants c DMA_ATTACH_EVENT_PER_SEGMENT); by rewrite view_count.
Qed.

Lemma last_view c unit a x b :
  0 <= len a < 2 ^ 16 ->
  view_of (cmd_and_status (last_bd c unit a x b)) =
  mk_view (len a) true true (cont_descr_loop c)
    (wants c DMA_ATTACH_EVENT_PER_SEGMENT || wants c DMA_ATTACH_EVENT_ON_COMPLETE) false true (unit_code unit).
Proof.
  intros Hl. cbn [last_bd cmd_and_status]. rewrite orb_comm.
  destruct (unit_cases unit) as [-> [-> | [-> | [-> | ->]]]];
    destruct (cont_descr_loop c), (wants c DMA_ATTACH_EVENT_PER_SEGMENT || wants c DMA_ATTACH_EVENT_ON_COMPLETE);
    rewrite ?(lor_last _ (len a)); by rewrite view_count.
Qed.

(** ** [sdma_setup_xfer] *)

(** A transfer the library can be given: at least one fragment, no more than there are descriptors, a
    byte count of 16 bits each, and the lists as long as they say. *)
Definition xfer_ok (c : sdma_chan) (t : dma_transfer) : Prop :=
  let '(n, addrs, ext) := xfer_addrs c t in
  1 <= n <= zlen (ch_bds c) /\ n <= zlen addrs /\ ext_long ext n /\ zlen (ch_bds c) < 2 ^ 32 /\
  Forall (fun a => 0 <= len a < 2 ^ 16) addrs.

(** Descriptor [k] after the set-up. *)
Definition bd_programmed (c : sdma_chan) (t : dma_transfer) (k : nat) (b b' : sdma_bd) : Prop :=
  let '(n, addrs, ext) := xfer_addrs c t in
  exists a, addrs !! k = Some a /\
    view_of (cmd_and_status b') = spec_view c n (Z.of_nat k) (xfer_unit_size t) (len a) /\
    buf_paddr b' = u32 (paddr a) /\
    ext_buf_paddr b' =
      match ext_at ext k with Some x => u32 (paddr x) | None => ext_buf_paddr b end.

Lemma setup_chan_ok c t :
  xfer_ok c t ->
  exists l, setup_chan c t = Ok (set_xfer c l (xfer_addrs c t).1.1) /\ zlen l = zlen (ch_bds c) /\
    forall k b, ch_bds c !! k = Some b ->
      if decide (Z.of_nat k < (xfer_addrs c t).1.1)
      then exists b', l !! k = Some b' /\ bd_programmed c t k b b'
      else l !! k = Some b.
Proof.
  unfold xfer_ok, bd_programmed, setup_chan.
  destruct (xfer_addrs c t) as [[n addrs] ext]. cbn [fst]. intros (Hn & Ha & He & Hz & Hl).
  rewrite wrap_id by (unfold fits; lia).
  destruct (fill_descrs_ok (S (length (ch_bds c))) 0 (n - 1) (xfer_cmd c (xfer_unit_size t)) addrs ext (ch_bds c))
    as (l & Hf & Hlen & Hk); [lia|lia|lia| |unfold zlen in *; lia|].
  { destruct ext; cbn [ext_long] in *; lia. }
  rewrite Hf. cbn [mbind res_bind].
  destruct (fill_last_ok c (n - 1) (xfer_unit_size t) addrs ext l) as (a & b & Ha1 & Hb1 & Hlast);
    [lia|lia|lia|by replace (n - 1 + 1) with n by lia|].
  rewrite Hlast. eexists. split; [done|]. split; [by rewrite zlen_insert|].
  assert (Hlen_a : forall k a, addrs !! k = Some a -> 0 <= len a < 2 ^ 16)
    by (intros k x Hx; by apply (Forall_lookup_1 _ _ _ _ Hl Hx)).
  intros k b0 Hb0. specialize (Hk k). destruct (decide (k = Z.to_nat (n - 1))) as [->|Hne].
  - rewrite decide_False in Hk by lia. rewrite decide_True by lia.
    rewrite Hb1, Hb0 in Hk. injection Hk as ->.
    rewrite list_lookup_insert_eq by (apply lookup_lt_Some in Hb1; done). eexists. split; [done|].
    exists a. split; [done|]. split; [|done]. rewrite last_view by (by eapply Hlen_a).
    unfold spec_view. replace (Z.of_nat (Z.to_nat (n - 1)) =? n - 1) with true by (symmetry; apply Z.eqb_eq; lia).
    rewrite (proj2 (Z.ltb_ge _ _)) by lia. done.
  - rewrite list_lookup_insert_ne by done. destruct (decide (Z.of_nat k < n)) as [Hlt|Hge].
    + rewrite decide_True in Hk by lia. destruct Hk as (x & y & Hx & Hy & Hr).
      rewrite Hb0 in Hy. injection Hy as <-. eexists. split; [done|]. exists x. split; [done|]. split; [|done].
      cbn [loop_bd cmd_and_status]. rewrite loop_view by (by eapply Hlen_a). unfold spec_view.
      replace (Z.of_nat k =? n - 1) with false by (symmetry; apply Z.eqb_neq; lia).
      rewrite (proj2 (Z.ltb_lt _ _)) by lia. by rewrite orb_false_r.
    + rewrite decide_False in Hk by lia. by rewrite Hk.
Qed.

(** The engine walks a table whose first [n] descriptors are ready and of which the [n]-th wraps. *)
Lemma ring_prefix n (l : list sdma_bd) (addrs : list dma_addr) :
  (0 < n)%nat -> (n <= length addrs)%nat ->
  (forall k a, (k < n)%nat -> addrs !! k = Some a -> exists b, l !! k = Some b /\
     buf_paddr b = u32 (paddr a) /\ v_count (view_of (cmd_and_status b)) = len a /\
     v_done (view_of (cmd_and_status b)) = true /\
     v_wrap (view_of (cmd_and_status b)) = (Z.of_nat k =? Z.of_nat n - 1)) ->
  ring l = map (fun a => (u32 (paddr a), len a)) (take n addrs).
Proof.
  revert l addrs. induction n as [|n IH]; intros l addrs Hn Hl Hk; [lia|].
  destruct addrs as [|a addrs]; [cbn in Hl; lia|]. cbn [length] in Hl.
  destruct (Hk 0%nat a) as (b & Hb & Hp & Hc & Hd & Hw); [lia|done|].
  destruct l as [|b0 l]; [done|]. injection Hb as ->. cbn [ring take map].
  rewrite Hd, Hw, Hp, Hc. f_equal. destruct n as [|n].
  - by rewrite (proj2 (Z.eqb_eq _ _)) by lia.
  - rewrite (proj2 (Z.eqb_neq _ _)) by lia. apply IH; [lia|lia|]. intros k x Hlt Hx.
    destruct (Hk (S k) x) as (y & Hy & Y1 & Y2 & Y3 & Y4); [lia|done|]. exists y.
    do 4 (split; [done|]). rewrite Y4. zbool; lia.
Qed.

(** C30.  [sdma_setup_xfer] programs exactly the fragments it is given, in their order: each descriptor
    has its fragment's address, byte count and unit size and is ready; only the last one wraps; the
    others continue, as does the last in a descriptor loop; interrupts are raised per fragment or on
    completion, as the channel was attached; no error bit is left; descriptors past the last fragment
    are not touched, nor is anything else of the channel.  The engine's walk over the table is the
    list of fragments. *)
Theorem sdma_setup_xfer_correct {D} `{SdmaDevice D} p c t (s : lib D) :
  chans s !! p = Some c -> xfer_ok c t ->
  exists l, let n := (xfer_addrs c t).1.1 in
    sdma_setup_xfer p t s = Ok (0, mk_lib (dev s) (trace s) (irqs s) (shm s) (cmd s) (api s)
                                     (<[p := set_xfer c l n]> (chans s))) /\
    zlen l = zlen (ch_bds c) /\
    (forall k b, ch_bds c !! k = Some b ->
      if decide (Z.of_nat k < n)
      then exists b', l !! k = Some b' /\ bd_programmed c t k b b'
      else l !! k = Some b) /\
    ring l = map (fun a => (u32 (paddr a), len a)) (take (Z.to_nat n) (xfer_addrs c t).1.2).
Proof.
  intros Hp Hok. destruct (setup_chan_ok c t Hok) as (l & Hs & Hl & Hk). exists l.
  unfold sdma_setup_xfer, get_chan, put_chan. mred. rewrite Hp, Hs. do 3 (split; [done|]).
  unfold xfer_ok, bd_programmed in *. destruct (xfer_addrs c t) as [[n addrs] ext]. cbn [fst snd] in *.
  destruct Hok as (Hn & Ha & He & Hz & _).
  apply ring_prefix; [lia|unfold zlen in *; lia|]. intros k a Hlt Hx.
  destruct (lookup_lt_is_Some_2 (ch_bds c) k) as [b Hb]; [unfold zlen in *; lia|].
  specialize (Hk k b Hb). rewrite decide_True in Hk by lia.
  destruct Hk as (b' & Hb' & a' & Ha' & Hv & Hp' & _). rewrite Hx in Ha'. injection Ha' as <-.
  exists b'. rewrite Hv. do 4 (split; [done|]). cbn [v_wrap spec_view]. zbool; lia.
Qed.

Lemma store_ext_cases ext i b : store_ext ext i b = Err BadAccess \/ exists b', store_ext ext i b = Ok b'.
Proof.
  unfold store_ext. destruct ext as [e|]; [|right; by exists b].
  destruct (at_cases e i) as [-> | [x ->]]; [by left|right]. by eexists.
Qed.

Lemma fill_descrs_outside fuel i n cs addrs ext bds :
  0 <= i <= zlen bds -> zlen bds < n -> zlen bds - i < Z.of_nat fuel ->
  fill_descrs fuel i n cs addrs ext bds = Err BadAccess.
Proof.
  revert i bds. induction fuel as [|fuel IH]; intros i bds Hi Hn Hf; [lia|]. cbn [fill_descrs].
  rewrite (proj2 (Z.ltb_lt i n)) by lia. destruct (decide (i = zlen bds)) as [->|Hne].
  { by rewrite (at_outside bds) by lia. }
  destruct (at_ok bds i) as (b & -> & _); [lia|]. cbn [mbind res_bind].
  destruct (at_cases addrs i) as [-> | [a ->]]; cbn [mbind res_bind]; [done|].
  match goal with |- context [store_ext ext i ?x] =>
    destruct (store_ext_cases ext i x) as [-> | [b' ->]] end; cbn [mbind res_bind]; [done|].
  rewrite set_at_ok by lia. cbn [mbind res_bind]. apply IH; rewrite ?zlen_insert; lia.
Qed.

(** A transfer of no fragments is not refused: [n_frags - 1] wraps to [2^32 - 1] and the descriptor
    loop runs out of the arrays it indexes, whatever the channel's type. *)
Theorem setup_no_fragments c t :
  (xfer_addrs c t).1.1 = 0 -> zlen (ch_bds c) < 2 ^ 32 - 1 -> setup_chan c t = Err BadAccess.
Proof.
  intros Hn Hz. unfold setup_chan. destruct (xfer_addrs c t) as [[n addrs] ext]. cbn [fst] in Hn. subst n.
  change (u32 (0 - 1)) with (2 ^ 32 - 1). pose proof (zlen_nonneg (ch_bds c)).
  rewrite fill_descrs_outside by (unfold zlen in *; lia). done.
Qed.

(** ** Interrupts *)

(** The descriptors of the last transfer made ready again. *)
Definition reenabled (c : sdma_chan) : list sdma_bd :=
  imap (fun k b => if Z.of_nat k <? n_frags c then or_cmd b SDMA_CMDSTAT_DONE_MASK else b) (ch_bds c).

Lemma reenable_ok fuel i n l :
  0 <= i -> n <= zlen l -> n - i < Z.of_nat fuel ->
  reenable fuel i n l =
    Ok (imap (fun k b => if (i <=? Z.of_nat k) && (Z.of_nat k <? n)
                         then or_cmd b SDMA_CMDSTAT_DONE_MASK else b) l).
Proof.
  revert i l. induction fuel as [|fuel IH]; intros i l Hi Hn Hf; cbn [reenable].
  - rewrite (proj2 (Z.ltb_ge i n)) by lia. f_equal. apply list_eq. intros k. rewrite list_lookup_imap.
    destruct (l !! k); [|done]. cbn. f_equal. zbool; cbn [andb]; try lia; done.
  - destruct (Z.ltb_spec i n) as [Hlt|Hge].
    + destruct (at_ok l i) as (b & -> & Hb); [lia|]. cbn [mbind res_bind]. rewrite set_at_ok by lia.
      cbn [mbind res_bind]. rewrite IH; [|lia|by rewrite zlen_insert|lia]. f_equal. apply list_eq. intros k.
      rewrite !list_lookup_imap. destruct (decide (k = Z.to_nat i)) as [->|Hne].
      * rewrite list_lookup_insert_eq by (by apply lookup_lt_Some in Hb). rewrite Hb. cbn. f_equal.
        zbool; cbn [andb]; try lia; done.
      * rewrite list_lookup_insert_ne by done. destruct (l !! k); [|done]. cbn. f_equal.
        zbool; cbn [andb]; try lia; done.
    + f_equal. apply list_eq. intros k. rewrite list_lookup_imap.
      destruct (l !! k); [|done]. cbn. f_equal. zbool; cbn [andb]; try lia; done.
Qed.

Lemma reenable_all c :
  n_frags c <= zlen (ch_bds c) ->
  reenable (S (length (ch_bds c))) 0 (n_frags c) (ch_bds c) = Ok (reenabled c).
Proof.
  intros Hn. rewrite reenable_ok by (unfold zlen in *; lia). f_equal. apply imap_ext. intros k b _.
  by rewrite (proj2 (Z.leb_le 0 (Z.of_nat k))) by lia.
Qed.

Section Irq.
Context {D : Type} `{SdmaDevice D} {OS : Os}.

Lemma callback_ok i p c (s : lib D) :
  chan_ptr_list (api s) !! Z.to_nat i = Some p -> 0 <= i -> chans s !! p = Some c ->
  n_frags c <= zlen (ch_bds c) ->
  callback_reenable_descr i s = Ok (tt, mk_lib (dev s) (trace s) (irqs s) (shm s) (cmd s) (api s)
    (<[p := set_bds c (reenabled c)]> (chans s))).
Proof.
  intros Hl Hi Hp Hn. unfold callback_reenable_descr, get_chan, put_chan. mred.
  destruct (at_ok (chan_ptr_list (api s)) i) as (x & -> & Hx).
  { apply lookup_lt_Some in Hl. unfold zlen. lia. }
  rewrite Hl in Hx. injection Hx as <-. mred. rewrite Hp.
  by rewrite reenable_all.
Qed.

(** A channel whose callback is set has a structure with as many descriptors as its last transfer
    used. *)
Definition callbacks_ok (s : lib D) : Prop :=
  forall i, callback_array (irqs s) !! i = Some (Some Callback_reenable_descr) ->
    exists p c, chan_ptr_list (api s) !! i = Some p /\ chans s !! p = Some c /\
      n_frags c <= zlen (ch_bds c).

(** What serving channel [i] does. *)
Definition served (i : Z) (e : event_ptr) (s s' : lib D) : Prop :=
  dev s' = out32 (dev s) SDMA_INTR (bit i) /\ irqs s' = irqs s /\ trace s' = trace s /\
  event_array (irqs s) !! Z.to_nat i = Some e /\
  (callback_array (irqs s) !! Z.to_nat i = Some None -> chans s' = chans s) /\
  (callback_array (irqs s) !! Z.to_nat i = Some (Some Callback_reenable_descr) ->
    exists p c, chan_ptr_list (api s) !! Z.to_nat i = Some p /\ chans s !! p = Some c /\
      chans s' = <[p := set_bds c (reenabled c)]> (chans s)).

Lemma land_bit_zero v i : 0 <= i < 32 -> (Z.land v (bit i) =? 0) = negb (Z.testbit v i).
Proof.
  intros Hi. assert (bit i = 2 ^ i) as ->.
  { unfold bit. rewrite Z.shiftl_1_l. apply wrap_id. split; [by apply Z.pow_nonneg|].
    apply Z.pow_lt_mono_r; lia. }
  pose proof (land_pow2_testbit v i ltac:(lia)) as Hl.
  destruct (Z.eqb_spec (Z.land v (2 ^ i)) 0) as [He|He], (Z.testbit v i); try done; tauto || (symmetry; tauto).
Qed.

Lemma irq_scan_ok k i st (s : lib D) :
  lib_ok s -> callbacks_ok s -> 0 <= i -> i + Z.of_nat k = 32 ->
  exists e s', irq_scan k i st s = Ok (e, s') /\
    ((e = NoEvent /\ s' = s /\ forall j, i <= j < 32 -> Z.testbit st j = false) \/
     exists j, i <= j < 32 /\ Z.testbit st j = true /\ (forall m, i <= m < j -> Z.testbit st m = false) /\
       served j e s s').
Proof.
  intros Hs Hcb. revert i. induction k as [|k IH]; intros i Hi Hk; cbn [irq_scan].
  - mred. exists NoEvent, s. split; [done|]. left. split; [done|]. split; [done|]. lia.
  - rewrite land_bit_zero by lia. destruct (Z.testbit st i) eqn:Hb; cbn [negb].
    + destruct (at_ok (callback_array (irqs s)) i) as (cb & Hc1 & Hc2);
        [rewrite ok_callbacks by done; unfold SDMA_N_CH; lia|].
      destruct (at_ok (event_array (irqs s)) i) as (e & He1 & He2);
        [rewrite ok_events by done; unfold SDMA_N_CH; lia|].
      mred. rewrite Hc1. destruct cb as [[]|]; mred.
      * destruct (Hcb _ Hc2) as (p & c & Hl & Hp & Hn).
        match goal with |- context [callback_reenable_descr i ?s0] =>
          rewrite (callback_ok i p c s0 Hl Hi Hp Hn) end.
        mred. rewrite He1. eexists e, _. split; [done|]. right. exists i.
        split; [lia|]. split; [done|]. split; [lia|]. unfold served. mred. do 4 (split; [done|]).
        rewrite Hc2. split; [done|]. intros _. by exists p, c.
      * rewrite He1. eexists e, _. split; [done|]. right. exists i.
        split; [lia|]. split; [done|]. split; [lia|]. unfold served. mred. do 4 (split; [done|]).
        rewrite Hc2. done.
    + destruct (IH (i + 1)) as (e & s' & Hr & Hcase); [lia|lia|]. exists e, s'. split; [done|].
      destruct Hcase as [(-> & -> & Hz)|(j & Hj & Ht & Hz & Hsv)].
      * left. split; [done|]. split; [done|]. intros j Hj. destruct (decide (j = i)) as [->|]; [done|].
        apply Hz. lia.
      * right. exists j. split; [lia|]. split; [done|]. split; [|done]. intros m Hm.
        destruct (decide (m = i)) as [->|]; [done|]. apply Hz. lia.
Qed.

(** The interrupt handler serves the lowest channel that is both pending and this process's:
    it acknowledges that interrupt and no other, makes the descriptors of a self-regenerating channel
    ready again, and returns the event the channel was attached with; with no such channel it does
    nothing. *)
Theorem irq_handler_correct (s : lib D) :
  lib_ok s -> callbacks_ok s ->
  let st := Z.land (in32 (dev s) SDMA_INTR) (channel_mask (irqs s)) in
  exists e s', irq_handler s = Ok (e, s') /\
    ((e = NoEvent /\ s' = s /\ forall j, 0 <= j < 32 -> Z.testbit st j = false) \/
     exists j, 0 <= j < 32 /\ Z.testbit st j = true /\ (forall m, 0 <= m < j -> Z.testbit st m = false) /\
       served j e s s').
Proof. intros Hs Hcb st. unfold irq_handler. mred. by apply irq_scan_ok. Qed.

End Irq.
