(* ===== verification/Enet.v ===== *)
(** * Enet: the transmit ring of the Ethernet driver (devnp/mx6x/transmit.c, detect.c, event.c).

    The driver loads a packet's fragments into a ring of buffer descriptors the controller reads;
    a ready bit hands a descriptor over, and [mx6q_transmit_complete] takes the sent ones back.
    The model is the build for the i.MX6, where [NUM_TX_QUEUES] is 1: the arrays indexed by the
    queue have one element and a queue's [offset] in the ring is 0. *)

From S2P Require Import Prelude.

(** ** Constants of mx6q.h *)

Definition MX6Q_MAX_FRAGS : Z := 10.
Definition TXBD_R : Z := 2 ^ 15.
Definition TXBD_W : Z := 2 ^ 13.
Definition TXBD_L : Z := 2 ^ 11.
Definition TXBD_TC : Z := 2 ^ 10.
Definition TXBD_ESTATUS_INT : Z := 2 ^ 30.
Definition TXBD_ESTATUS_TS : Z := 2 ^ 29.
Definition BD_BDU : Z := 2 ^ 31.
Definition X_DES_ACTIVE : Z := 2 ^ 24.
Definition MIN_NUM_TX_DESCRIPTORS : Z := 64.
Definition MAX_NUM_TX_DESCRIPTORS : Z := 2048.
Definition ETHER_HDR_LEN : Z := 14.
Definition EOK : Z := 0.
Definition ENOMEM : Z := 12.
Definition EINVAL : Z := 22.
Definition ENOBUFS : Z := 105.

(** ** Packets *)

(** One mbuf of a chain: the address of its data, where the controller finds it, the data, and the
    bytes in front of it.  [m_len] is the number of data bytes. *)
Record frag := { m_data : Z; m_phys : Z; m_lead : list Z; m_bytes : list Z }.
Definition m_len (f : frag) : Z := zlen (m_bytes f).

(** A packet: the chain of its mbufs, with an identity that tells packets apart. *)
Record mbuf := { m_id : Z; m_chain : list frag; m_pkthdr_len : Z }.

(** The bytes a packet stands for. *)
Definition mbuf_bytes (m : mbuf) : list Z := concat (map m_bytes (m_chain m)).

(** ** State *)

(** The descriptor fields the driver uses, [mpc_bd_t]. *)
Record bd := { bd_length : Z; bd_status : Z; bd_buffer : Z; bd_estatus : Z; bd_bdu : Z }.

Inductive event : Type :=
  | EvFlush (phys len : Z)      (* CACHE_FLUSH *)
  | EvStats                     (* mx6q_update_stats *)
  | EvTap (m : mbuf)            (* bpf_mtap, for the listeners there are *)
  | EvTimestamp (m : mbuf)      (* mx6q_ptp_add_tx_timestamp *)
  | EvSent (m : mbuf)           (* m_freem in mx6q_transmit_complete *)
  | EvFree (m : mbuf)           (* m_freem elsewhere *)
  | EvKick                      (* X_DES_ACTIVE written *)
  | EvUnlock                    (* NW_SIGUNLOCK of if_snd_ex *)
  | EvStackOutput (m : mbuf).   (* stack_output *)

(** The transmit members of [mx6q_dev_t] and of its [struct ifnet], and what the driver did. *)
Record mx6q := {
  num_tx_descriptors : Z;
  tx_bd : list bd;
  tx_pkts : list (option mbuf);
  tx_pidx : Z;
  tx_cidx : Z;
  tx_descr_inuse : Z;
  tx_full : bool;
  tx_reaped : bool;
  if_running : bool;          (* if_flags & IFF_RUNNING *)
  if_tx_running : bool;       (* if_flags_tx & IFF_RUNNING *)
  if_oactive : bool;          (* if_flags_tx & IFF_OACTIVE *)
  link_down : bool;           (* cfg.flags & NIC_FLAG_LINK_DOWN *)
  if_snd : list mbuf;
  if_opackets : Z;
  if_oerrors : Z;
  tx_failed_allocs : Z;
  internal_tx_errors : Z;
  trace : list event
}.

(** The updates of the code, one function for each group of members it assigns together. *)
Definition set_ring (s : mx6q) (bds : list bd) (pkts : list (option mbuf)) (p c u : Z) : mx6q :=
  {| num_tx_descriptors := num_tx_descriptors s; tx_bd := bds; tx_pkts := pkts; tx_pidx := p;
     tx_cidx := c; tx_descr_inuse := u; tx_full := tx_full s; tx_reaped := tx_reaped s;
     if_running := if_running s; if_tx_running := if_tx_running s; if_oactive := if_oactive s;
     link_down := link_down s; if_snd := if_snd s; if_opackets := if_opackets s;
     if_oerrors := if_oerrors s; tx_failed_allocs := tx_failed_allocs s;
     internal_tx_errors := internal_tx_errors s; trace := trace s |}.

Definition set_flags (s : mx6q) (full reaped oactive : bool) (snd : list mbuf) : mx6q :=
  {| num_tx_descriptors := num_tx_descriptors s; tx_bd := tx_bd s; tx_pkts := tx_pkts s;
     tx_pidx := tx_pidx s; tx_cidx := tx_cidx s; tx_descr_inuse := tx_descr_inuse s;
     tx_full := full; tx_reaped := reaped;
     if_running := if_running s; if_tx_running := if_tx_running s; if_oactive := oactive;
     link_down := link_down s; if_snd := snd; if_opackets := if_opackets s;
     if_oerrors := if_oerrors s; tx_failed_allocs := tx_failed_allocs s;
     internal_tx_errors := internal_tx_errors s; trace := trace s |}.

Definition add_stats (s : mx6q) (opackets oerrors failed internal : Z) : mx6q :=
  {| num_tx_descriptors := num_tx_descriptors s; tx_bd := tx_bd s; tx_pkts := tx_pkts s;
     tx_pidx := tx_pidx s; tx_cidx := tx_cidx s; tx_descr_inuse := tx_descr_inuse s;
     tx_full := tx_full s; tx_reaped := tx_reaped s;
     if_running := if_running s; if_tx_running := if_tx_running s; if_oactive := if_oactive s;
     link_down := link_down s; if_snd := if_snd s; if_opackets := if_opackets s + opackets;
     if_oerrors := if_oerrors s + oerrors; tx_failed_allocs := tx_failed_allocs s + failed;
     internal_tx_errors := internal_tx_errors s + internal; trace := trace s |}.

Definition log (s : mx6q) (evs : list event) : mx6q :=
  {| num_tx_descriptors := num_tx_descriptors s; tx_bd := tx_bd s; tx_pkts := tx_pkts s;
     tx_pidx := tx_pidx s; tx_cidx := tx_cidx s; tx_descr_inuse := tx_descr_inuse s;
     tx_full := tx_full s; tx_reaped := tx_reaped s;
     if_running := if_running s; if_tx_running := if_tx_running s; if_oactive := if_oactive s;
     link_down := link_down s; if_snd := if_snd s; if_opackets := if_opackets s;
     if_oerrors := if_oerrors s; tx_failed_allocs := tx_failed_allocs s;
     internal_tx_errors := internal_tx_errors s; trace := trace s ++ evs |}.

Definition set_bds (s : mx6q) (bds : list bd) : mx6q :=
  set_ring s bds (tx_pkts s) (tx_pidx s) (tx_cidx s) (tx_descr_inuse s).

(** [tx_bd\[i\].status |= v] *)
Definition or_status (i : Z) (v : Z) (bds : list bd) : list bd :=
  alter (fun b => {| bd_length := bd_length b; bd_status := Z.lor (bd_status b) v;
                     bd_buffer := bd_buffer b; bd_estatus := bd_estatus b; bd_bdu := bd_bdu b |})
        (Z.to_nat i) bds.

(** [NEXT_TX] *)
Definition NEXT_TX (s : mx6q) (x : Z) : Z := (x + 1) mod num_tx_descriptors s.

(** ** The code *)

(** What a call meets outside the driver: the results of io-pkt's allocators ([m_getcl] gives a
    packet of one mbuf: its identity and the mbuf), and what the register [X_DES_ACTIVE] shows on
    its reads. *)
Record env := { m_dup : mbuf -> option mbuf; m_getcl : option (Z * frag); des_active : list Z }.

Section Code.
Variable MCLBYTES : Z.
(** [mx6q_ptp_is_eventmsg] of ptp.c looks into the packet; any answer is possible here. *)
Variable ptp_is_eventmsg : list frag -> bool.

(** The number of descriptors a chain takes, the empty mbufs left out; with [align], a fragment the
    controller cannot read from its address counts as too many. *)
Fixpoint count_frags (align : bool) (c : list frag) : Z :=
  match c with
  | [] => 0
  | f :: r =>
      (if m_len f =? 0 then 0
       else if align && negb (Z.land (m_data f) 7 =? 0) then MX6Q_MAX_FRAGS + 1 else 1)
      + count_frags align r
  end.

(** [mx6q_defrag]: the packet to send instead, and whether the old one is freed (always). *)
Definition mx6q_defrag (e : env) (m : mbuf) : option mbuf * list event :=
  if MCLBYTES <? m_pkthdr_len m then
    match m_dup e m with
    | None => (None, [EvFree m])
    | Some m2 =>
        if MX6Q_MAX_FRAGS <? zlen (m_chain m2) then (None, [EvFree m; EvFree m2])
        else (Some m2, [EvFree m])
    end
  else
    match m_getcl e with
    | None => (None, [EvFree m])
    | Some (id, f) =>
        (* m_copydata(m, 0, m->m_pkthdr.len, mtod(m2, caddr_t)) and the lengths *)
        (Some {| m_id := id;
                 m_chain := [{| m_data := m_data f; m_phys := m_phys f; m_lead := m_lead f;
                                m_bytes := take (Z.to_nat (m_pkthdr_len m)) (mbuf_bytes m) |}];
                 m_pkthdr_len := m_pkthdr_len m |}, [EvFree m])
    end.

(** The loop that loads the descriptors.  [first] and [last] are [tx_bd_first] and [tx_bd]; the
    result is [None] when the descriptor is still ready. *)
Fixpoint load (c : list frag) (s : mx6q) (idx : Z) (first last : option Z) (ts : bool)
  : res (mx6q * option (Z * option Z * option Z)) :=
  match c with
  | [] => mret (s, Some (idx, first, last))
  | f :: r =>
      if m_len f =? 0 then load r s idx first last ts
      else
        b ← get_or_bad (tx_bd s !! Z.to_nat idx);
        if negb (Z.land (bd_status b) TXBD_R =? 0) then mret (s, None)
        else
          let '(ready, first, ts) :=
            match first with
            | Some i => (TXBD_R, Some i, ts)
            | None => (0, Some idx, ptp_is_eventmsg c)
            end in
          let b := {| bd_length := u16 (m_len f); bd_status := Z.lor (bd_status b) ready;
                      bd_buffer := u32 (m_phys f);
                      bd_estatus := if ts : bool then Z.lor (bd_estatus b) TXBD_ESTATUS_TS
                                    else bd_estatus b;
                      bd_bdu := bd_bdu b |} in
          let s := log (set_bds s (<[Z.to_nat idx := b]> (tx_bd s)))
                       [EvFlush (u32 (m_phys f)) (u16 (m_len f))] in
          let next := NEXT_TX s idx in
          let s := if next =? 0 then log s [EvStats] else s in
          load r s next first (Some idx) ts
  end.

(** The loop that starts the DMA: up to four reads of the register, until one shows 0. *)
Definition kick (e : env) (s : mx6q) : mx6q :=
  if if_running s && existsb (fun v => v =? 0) (take 4 (des_active e)) then log s [EvKick] else s.

(** [mx6q_tx] from the loading loop on. *)
Definition tx_packet (e : env) (s : mx6q) (m : mbuf) (num_frag : Z) : res (mx6q * Z) :=
  '(s, loaded) ← load (m_chain m) s (tx_pidx s) None None false;
  match loaded with
  | None => mret (log (add_stats s 0 1 0 1) [EvFree m; EvUnlock], EINVAL)
  | Some (idx, first, last) =>
      let s := add_stats (log s [EvTap m]) 1 0 0 0 in
      let pkts := <[Z.to_nat (tx_pidx s) := Some m]> (tx_pkts s) in
      let s := set_ring s (tx_bd s) pkts idx (tx_cidx s) (tx_descr_inuse s + num_frag) in
      match first, last with
      | Some i, Some j =>
          let s :=
            if i =? j
            then set_bds s (or_status j (Z.lor TXBD_R (Z.lor TXBD_L TXBD_TC)) (tx_bd s))
            else set_bds s (or_status i TXBD_R (or_status j (Z.lor TXBD_L TXBD_TC) (tx_bd s))) in
          mret (kick e s, EOK)
      | _, _ => Err BadAccess
      end
  end.

Definition mx6q_tx (e : env) (s : mx6q) (m : mbuf) : res (mx6q * Z) :=
  let num_frag := count_frags true (m_chain m) in
  if MX6Q_MAX_FRAGS <? num_frag then
    let '(m', evs) := mx6q_defrag e m in
    let s := log s evs in
    match m' with
    | None => mret (add_stats s 0 1 1 0, ENOMEM)
    | Some m => tx_packet e s m (count_frags false (m_chain m))
    end
  else tx_packet e s m num_frag.

(** The loop of [mx6q_transmit_complete]; each turn moves [tx_cidx] on, so [fuel] descriptors. *)
Fixpoint complete_loop (fuel : nat) (s : mx6q) : res mx6q :=
  if tx_pidx s =? tx_cidx s then mret s
  else
    match fuel with
    | O => Err NoFuel
    | S fuel =>
        let idx := tx_cidx s in
        b ← get_or_bad (tx_bd s !! Z.to_nat idx);
        if negb (Z.land (bd_status b) TXBD_R =? 0)
           || (negb (Z.land (bd_status b) TXBD_L =? 0) && (Z.land (bd_bdu b) BD_BDU =? 0))
        then mret s
        else
          p ← get_or_bad (tx_pkts s !! Z.to_nat idx);
          let s :=
            match p with
            | Some m =>
                let ts := negb (Z.land (bd_estatus b) TXBD_ESTATUS_TS =? 0)
                          && ptp_is_eventmsg (m_chain m) in
                let s := log s ((if ts then [EvTimestamp m] else []) ++ [EvSent m]) in
                set_ring s (tx_bd s) (<[Z.to_nat idx := None]> (tx_pkts s))
                  (tx_pidx s) (tx_cidx s) (tx_descr_inuse s)
            | None => s
            end in
          let b := {| bd_length := bd_length b; bd_status := Z.land (bd_status b) TXBD_W;
                      bd_buffer := bd_buffer b; bd_estatus := TXBD_ESTATUS_INT; bd_bdu := 0 |} in
          complete_loop fuel
            (set_ring s (<[Z.to_nat idx := b]> (tx_bd s)) (tx_pkts s)
               (tx_pidx s) (NEXT_TX s idx) (tx_descr_inuse s - 1))
    end.

Definition mx6q_transmit_complete (s : mx6q) : res mx6q :=
  complete_loop (Z.to_nat (num_tx_descriptors s)) (set_flags s (tx_full s) true (if_oactive s) (if_snd s)).

(** The loop of [mx6q_start], with what each packet's transmission meets. *)
Fixpoint start_loop (envs : list env) (s : mx6q) : res mx6q :=
  let finish s := log (set_flags s (tx_full s) (tx_reaped s) false (if_snd s)) [EvUnlock] in
  let full s := log (set_flags s true (tx_reaped s) (if_oactive s) (if_snd s)) [EvUnlock] in
  let dequeue s :=
    match if_snd s, envs with
    | [], _ => mret (finish s)
    | m :: rest, e :: envs =>
        let s := set_flags s (tx_full s) (tx_reaped s) (if_oactive s) rest in
        '(s, _) ← mx6q_tx e s m; start_loop envs s
    | _ :: _, [] => Err NoFuel
    end in
  if num_tx_descriptors s - tx_descr_inuse s <=? MX6Q_MAX_FRAGS then
    s ← mx6q_transmit_complete s;
    if num_tx_descriptors s - tx_descr_inuse s <=? MX6Q_MAX_FRAGS then mret (full s)
    else dequeue s
  else dequeue s.

(** [mx6q_start]: [envs] has an element for each packet of the queue. *)
Definition mx6q_start (envs : list env) (s : mx6q) : res mx6q :=
  if negb (if_tx_running s) || link_down s then
    mret (log (set_flags s (tx_full s) (tx_reaped s) (if_oactive s) [])
              (map EvFree (if_snd s) ++ [EvUnlock]))
  else start_loop envs (set_flags s (tx_full s) (tx_reaped s) true (if_snd s)).

(** [m_data -= sizeof(struct ether_header)], with the lengths. *)
Definition add_header (m : mbuf) : mbuf :=
  {| m_id := m_id m;
     m_chain :=
       match m_chain m with
       | [] => []
       | f :: r =>
           let k := (length (m_lead f) - Z.to_nat ETHER_HDR_LEN)%nat in
           {| m_data := m_data f - ETHER_HDR_LEN; m_phys := m_phys f - ETHER_HDR_LEN;
              m_lead := take k (m_lead f); m_bytes := drop k (m_lead f) ++ m_bytes f |} :: r
       end;
     m_pkthdr_len := m_pkthdr_len m + ETHER_HDR_LEN |}.

(** [mx6q_output], with the priority of the packet's tag. *)
Definition mx6q_output (e : env) (s : mx6q) (m : mbuf) (priority : Z) : res (mx6q * Z) :=
  if (priority =? 0) || (priority =? 1) then mret (log s [EvStackOutput m], EOK)
  else
    let send s :=
      '(s, error) ← mx6q_tx e s (add_header m); mret (log s [EvUnlock], error) in
    if num_tx_descriptors s - tx_descr_inuse s <=? MX6Q_MAX_FRAGS then
      s ← mx6q_transmit_complete s;
      if num_tx_descriptors s - tx_descr_inuse s <=? MX6Q_MAX_FRAGS
      then mret (log s [EvFree m; EvUnlock], ENOBUFS)
      else send s
    else send s.

(** The loop of [mx6q_stop] that clears pending buffers, from the descriptor [i] on. *)
Fixpoint stop_clear (k : nat) (i : Z) (s : mx6q) : res mx6q :=
  match k with
  | O => mret s
  | S k =>
      p ← get_or_bad (tx_pkts s !! Z.to_nat i);
      s ← match p with
          | None => mret s
          | Some m =>
              b ← get_or_bad (tx_bd s !! Z.to_nat i);
              let b := {| bd_length := bd_length b; bd_status := Z.land (bd_status b) TXBD_W;
                          bd_buffer := bd_buffer b; bd_estatus := bd_estatus b;
                          bd_bdu := bd_bdu b |} in
              mret (log (set_ring s (<[Z.to_nat i := b]> (tx_bd s)) (<[Z.to_nat i := None]> (tx_pkts s))
                           (tx_pidx s) (tx_cidx s) (tx_descr_inuse s)) [EvFree m])
          end;
      stop_clear k (i + 1) s
  end.

(** The transmit part of [mx6q_stop], after the controller was stopped. *)
Definition mx6q_stop_tx (s : mx6q) : res mx6q :=
  s ← mx6q_transmit_complete s;
  s ← stop_clear (Z.to_nat (num_tx_descriptors s)) 0 s;
  mret (set_ring s (tx_bd s) (tx_pkts s) (tx_cidx s) (tx_cidx s) 0).

(** One turn of the loop of [mx6q_process_interrupt]. *)
Definition process_interrupt_turn (envs : list env) (s : mx6q) : res mx6q :=
  if tx_full s then mx6q_start envs (set_flags s false (tx_reaped s) (if_oactive s) (if_snd s))
  else mret s.

(** [mx6q_last_bd_active] *)
Definition mx6q_last_bd_active (s : mx6q) : res bool :=
  let idx := if negb (tx_pidx s =? 0) then tx_pidx s - 1 else num_tx_descriptors s - 1 in
  b ← get_or_bad (tx_bd s !! Z.to_nat idx);
  mret (negb (Z.land (bd_status b) TXBD_R =? 0)).

End Code.

(** The number of descriptors the options ask for, brought into range. *)
Definition clamp_descriptors (n : Z) : Z :=
  let n := Z.land n (Z.lnot 3) in
  let n := if n <? MIN_NUM_TX_DESCRIPTORS then MIN_NUM_TX_DESCRIPTORS else n in
  if MAX_NUM_TX_DESCRIPTORS <? n then MAX_NUM_TX_DESCRIPTORS else n.

(** The ring as the driver sets it up: cleared memory, and the wrap bit in the last descriptor. *)
Definition init_bds (n : Z) : list bd :=
  map (fun i => {| bd_length := 0; bd_status := if Z.of_nat i =? n - 1 then TXBD_W else 0;
                   bd_buffer := 0; bd_estatus := TXBD_ESTATUS_INT; bd_bdu := 0 |})
      (seq 0 (Z.to_nat n)).

Definition init_tx (n : Z) : mx6q :=
  let n := clamp_descriptors n in
  {| num_tx_descriptors := n; tx_bd := init_bds n; tx_pkts := replicate (Z.to_nat n) None;
     tx_pidx := 0; tx_cidx := 0; tx_descr_inuse := 0; tx_full := false; tx_reaped := false;
     if_running := true; if_tx_running := true; if_oactive := false; link_down := false;
     if_snd := []; if_opackets := 0; if_oerrors := 0; tx_failed_allocs := 0;
     internal_tx_errors := 0; trace := [] |}.
