(* ===== verification/EnetRing.v ===== *)
(** * EnetRing: what the transmit ring of Enet.v means, and that the driver keeps it.

    The controller is the environment: it takes ready descriptors in ring order and hands them back.
    The ring between its two indices is read as a queue of fragments, and the queue as packets. *)

From S2P Require Import Prelude.
From S2P Require Import Enet.

(** ** The controller *)

(** Where the controller stands in the ring, the fragments of the frame it is fetching (bus address
    and length), and the frames it has sent. *)
Record nic := { hw_idx : Z; hw_cur : list (Z * Z); hw_sent : list (list (Z * Z)) }.

(** A step of the controller, as its reference manual describes it: it takes the descriptor it
    stands at when that is ready, gives it back with the ready bit cleared and the update bit set,
    ends the frame at a last descriptor, and goes on at the next one, or at the first one after the
    descriptor with the wrap bit. *)
Definition nic_step (s : mx6q) (c : nic) : option (mx6q * nic) :=
  b ← tx_bd s !! Z.to_nat (hw_idx c);
  if Z.land (bd_status b) TXBD_R =? 0 then None
  else
    let b' := {| bd_length := bd_length b; bd_status := Z.land (bd_status b) (bnot 16 TXBD_R);
                 bd_buffer := bd_buffer b; bd_estatus := bd_estatus b;
                 bd_bdu := Z.lor (bd_bdu b) BD_BDU |} in
    let cur := hw_cur c ++ [(bd_buffer b, bd_length b)] in
    let last := negb (Z.land (bd_status b) TXBD_L =? 0) in
    Some (set_bds s (<[Z.to_nat (hw_idx c) := b']> (tx_bd s)),
          {| hw_idx := if negb (Z.land (bd_status b) TXBD_W =? 0) then 0 else hw_idx c + 1;
             hw_cur := if last then [] else cur;
             hw_sent := if last then hw_sent c ++ [cur] else hw_sent c |}).

(** ** The queue in the ring *)

(** A descriptor in use. *)
Record slot := { sl_phys : Z; sl_len : Z; sl_mbuf : option mbuf; sl_last : bool }.

(** The fragments of a packet that take a descriptor, and the frame they make. *)
Definition frags (m : mbuf) : list frag := filter (fun f => m_len f <> 0) (m_chain m).
Definition frame_of (m : mbuf) : list (Z * Z) := map (fun f => (m_phys f, m_len f)) (frags m).

(** The descriptors of a packet: the first one keeps the packet, the last one ends the frame. *)
Fixpoint slots_from (first : option mbuf) (fs : list frag) : list slot :=
  match fs with
  | [] => []
  | f :: r => {| sl_phys := m_phys f; sl_len := m_len f; sl_mbuf := first;
                 sl_last := bool_decide (r = []) |} :: slots_from None r
  end.
Definition slots_of (m : mbuf) : list slot := slots_from (Some m) (frags m).

(** The frames of a list of descriptors, behind the fragments [cur] of an unfinished one; the rest
    is what no last descriptor has ended yet. *)
Fixpoint frames_from (cur : list (Z * Z)) (sl : list slot) : list (list (Z * Z)) * list (Z * Z) :=
  match sl with
  | [] => ([], cur)
  | x :: r =>
      let cur := cur ++ [(sl_phys x, sl_len x)] in
      if sl_last x then let '(fs, rest) := frames_from [] r in (cur :: fs, rest)
      else frames_from cur r
  end.

(** The packets a trace shows as accepted, and as given back after they were sent. *)
Definition accepted (t : list event) : list mbuf :=
  omap (fun e => match e with EvTap m => Some m | _ => None end) t.
Definition reaped (t : list event) : list mbuf :=
  omap (fun e => match e with EvSent m => Some m | _ => None end) t.

(** The status of a descriptor: wrap, last, ready. *)
Definition status (w l r : bool) : Z :=
  Z.lor (if w then TXBD_W else 0) (Z.lor (if l then Z.lor TXBD_L TXBD_TC else 0)
    (if r then TXBD_R else 0)).

(** The place of the [j]-th descriptor from [c] on, in a ring of [n]. *)
Definition place (n c j : Z) : Z := (c + j) mod n.

Record used_ok (n i : Z) (x : slot) (todo : bool) (b : bd) : Prop := {
  uo_status : bd_status b = status (i =? n - 1) (sl_last x) todo;
  uo_buffer : bd_buffer b = sl_phys x;
  uo_length : bd_length b = sl_len x;
  uo_bdu : todo = false -> Z.land (bd_bdu b) BD_BDU <> 0
}.

(** The ring holds the descriptors [sl], of which the controller has given back the first [h]. *)
Record ring_inv (s : mx6q) (c : nic) (h : nat) (sl : list slot) : Prop := {
  ri_n : 64 <= num_tx_descriptors s;
  ri_bds : zlen (tx_bd s) = num_tx_descriptors s;
  ri_pkts : zlen (tx_pkts s) = num_tx_descriptors s;
  ri_cidx : 0 <= tx_cidx s < num_tx_descriptors s;
  ri_pidx : tx_pidx s = place (num_tx_descriptors s) (tx_cidx s) (zlen sl);
  ri_inuse : tx_descr_inuse s = zlen sl;
  ri_room : zlen sl < num_tx_descriptors s;
  ri_h : (h <= length sl)%nat;
  ri_hw : hw_idx c = place (num_tx_descriptors s) (tx_cidx s) (Z.of_nat h);
  ri_used : forall j x, sl !! j = Some x ->
    let i := place (num_tx_descriptors s) (tx_cidx s) (Z.of_nat j) in
    tx_pkts s !! Z.to_nat i = Some (sl_mbuf x) /\
    exists b, tx_bd s !! Z.to_nat i = Some b /\
      used_ok (num_tx_descriptors s) i x (bool_decide (h <= j)%nat) b;
  ri_free : forall j, zlen sl <= j < num_tx_descriptors s ->
    let i := place (num_tx_descriptors s) (tx_cidx s) j in
    tx_pkts s !! Z.to_nat i = Some None /\
    exists b, tx_bd s !! Z.to_nat i = Some b /\
      bd_status b = status (i =? num_tx_descriptors s - 1) false false;
  ri_accepted : accepted (trace s) = reaped (trace s) ++ omap sl_mbuf sl;
  ri_frames : exists fs, frames_from (hw_cur c) (drop h sl) = (fs, []) /\
    hw_sent c ++ fs = map frame_of (accepted (trace s));
  ri_errors : internal_tx_errors s = 0
}.

(** ** Places *)

Lemma zlen_pos {A} (l : list A) : l <> [] -> 1 <= zlen l.
Proof. intros Hl. destruct l; [done|]. rewrite zlen_cons. pose proof (zlen_nonneg l). lia. Qed.

Lemma place_bounds n c j : 0 < n -> 0 <= place n c j < n.
Proof. intros. apply Z.mod_pos_bound. done. Qed.

Lemma place_inj n c j k :
  0 < n -> 0 <= j < n -> 0 <= k < n -> place n c j = place n c k -> j = k.
Proof.
  unfold place. intros Hn Hj Hk He.
  assert (Hd : (j - k) mod n = 0).
  { replace (j - k) with ((c + j) - (c + k)) by lia. rewrite Zminus_mod, He, Z.sub_diag. done. }
  apply Z.mod_divide in Hd as [q Hq]; [|lia]. assert (q = 0) by nia. lia.
Qed.

Lemma place_next n c j : 0 < n -> (place n c j + 1) mod n = place n c (j + 1).
Proof. intros. unfold place. rewrite Zplus_mod_idemp_l. f_equal. lia. Qed.

Lemma place_shift n c j : 0 < n -> place n (place n c 1) j = place n c (j + 1).
Proof. intros. unfold place. rewrite Zplus_mod_idemp_l. f_equal. lia. Qed.

Lemma place_round n c : 0 <= c < n -> place n c n = place n c 0 /\ place n c 0 = c.
Proof.
  intros. unfold place. split.
  - rewrite Z.add_0_r. replace (c + n) with (c + 1 * n) by lia. apply Z_mod_plus_full.
  - rewrite Z.add_0_r. apply Z.mod_small. lia.
Qed.

Lemma place_wrap n c j : 0 < n -> place n c (j + n) = place n c j.
Proof.
  intros. unfold place. replace (c + (j + n)) with (c + j + 1 * n) by lia. apply Z_mod_plus_full.
Qed.

(** Writing one place of the ring leaves the others. *)
Lemma lookup_place {A} (l : list A) n c j k (x : A) :
  zlen l = n -> 0 <= j < n -> 0 <= k < n ->
  <[Z.to_nat (place n c j) := x]> l !! Z.to_nat (place n c k)
    = if decide (j = k) then Some x else l !! Z.to_nat (place n c k).
Proof.
  intros Hl Hj Hk. pose proof (place_bounds n c j ltac:(lia)). pose proof (place_bounds n c k ltac:(lia)).
  destruct (decide (j = k)) as [->|Hne].
  - apply list_lookup_insert_eq. unfold zlen in Hl. lia.
  - apply list_lookup_insert_ne. intros He. apply Hne, (place_inj n c); lia.
Qed.

(** The flags of a status. *)
Lemma status_R w l r : (Z.land (status w l r) TXBD_R =? 0) = negb r.
Proof. by destruct w, l, r. Qed.
Lemma status_L w l r : (Z.land (status w l r) TXBD_L =? 0) = negb l.
Proof. by destruct w, l, r. Qed.
Lemma status_W w l r : (Z.land (status w l r) TXBD_W =? 0) = negb w.
Proof. by destruct w, l, r. Qed.
Lemma status_done w l : Z.land (status w l true) (bnot 16 TXBD_R) = status w l false.
Proof. by destruct w, l. Qed.
Lemma status_keep_W w l : Z.land (status w l false) TXBD_W = status w false false.
Proof. by destruct w, l. Qed.
Lemma status_ready w l : Z.lor (status w l false) TXBD_R = status w l true.
Proof. by destruct w, l. Qed.
Lemma status_zero w l r : Z.lor (status w l r) 0 = status w l r.
Proof. by destruct w, l, r. Qed.
Lemma status_end w r : Z.lor (status w false r) (Z.lor TXBD_L TXBD_TC) = status w true r.
Proof. by destruct w, r. Qed.
Lemma status_single w :
  Z.lor (status w false false) (Z.lor TXBD_R (Z.lor TXBD_L TXBD_TC)) = status w true true.
Proof. by destruct w. Qed.

(** The controller's next descriptor. *)
Lemma wrap_next n i :
  0 <= i < n -> (if negb (negb (i =? n - 1)) then 0 else i + 1) = (i + 1) mod n.
Proof.
  intros Hi. rewrite negb_involutive. destruct (Z.eqb_spec i (n - 1)) as [->|].
  - replace (n - 1 + 1) with n by lia. by rewrite Z_mod_same_full.
  - by rewrite Z.mod_small by lia.
Qed.

(** ** The controller keeps the ring *)

Lemma drop_cons {A} (l : list A) h x : l !! h = Some x -> drop h l = x :: drop (S h) l.
Proof. intros Hx. by rewrite (drop_S _ _ _ Hx). Qed.

Lemma nic_step_run s c h sl :
  ring_inv s c h sl ->
  match sl !! h with
  | Some _ => exists s' c', nic_step s c = Some (s', c') /\ ring_inv s' c' (S h) sl /\
                trace s' = trace s
  | None => nic_step s c = None
  end.
Proof.
  intros Hri. pose proof Hri as [Hn Hb Hp Hc Hpi Hu Hroom Hh Hhw Hused Hfree Hacc Hfr Herr].
  set (n := num_tx_descriptors s) in *. set (i := place n (tx_cidx s) (Z.of_nat h)) in *.
  pose proof (place_bounds n (tx_cidx s) (Z.of_nat h) ltac:(lia)) as Hi. fold i in Hi.
  unfold nic_step. rewrite Hhw. destruct (sl !! h) as [x|] eqn:Hx.
  - assert (Hlt : (h < length sl)%nat) by (by eapply lookup_lt_Some).
    destruct (Hused h x Hx) as (Hpkt & b & Hbd & [Hst Hbuf Hln Hbdu]).
    rewrite bool_decide_true in Hst by lia. fold i in Hbd, Hst. rewrite Hbd.
    cbn [mbind option_bind]. rewrite Hst, status_R, status_L, status_W. cbn [negb].
    rewrite wrap_next, status_done, negb_involutive by done.
    set (b' := {| bd_length := _ |}). do 2 eexists. split; [reflexivity|]. split; [|done].
    destruct Hfr as (fs & Hfs & Hsent). rewrite (drop_cons _ _ _ Hx) in Hfs. cbn [frames_from] in Hfs.
    constructor; cbn [set_bds set_ring num_tx_descriptors tx_bd tx_pkts tx_cidx tx_pidx tx_descr_inuse
      trace internal_tx_errors hw_idx hw_cur hw_sent]; fold n; try done.
    + unfold zlen in *. by rewrite length_insert.
    + unfold i. rewrite place_next by lia. f_equal. lia.
    + intros j y Hy. destruct (Hused j y Hy) as (Hpkt' & b2 & Hbd2 & Huo). split; [done|].
      assert (Hj : (j < length sl)%nat) by (by eapply lookup_lt_Some).
      unfold i. rewrite lookup_place by (unfold zlen in *; lia).
      destruct (decide (Z.of_nat h = Z.of_nat j)) as [He|He].
      * assert (j = h) by lia. subst j. rewrite Hx in Hy. injection Hy as <-.
        exists b'. split; [done|]. rewrite bool_decide_false by lia. constructor; try done.
        intros _. unfold b'. cbn [bd_bdu]. intros Hz.
        apply (f_equal (fun z => Z.testbit z 31)) in Hz. unfold BD_BDU in Hz.
        by rewrite Z.land_spec, Z.lor_spec, Z.pow2_bits_true, orb_true_r, Z.bits_0 in Hz.
      * exists b2. split; [done|].
        replace (bool_decide (S h <= j)%nat) with (bool_decide (h <= j)%nat); [done|].
        apply bool_decide_ext. lia.
    + intros j Hj. destruct (Hfree j Hj) as (Hpkt' & b2 & Hbd2 & Hs2). split; [done|].
      unfold i. rewrite lookup_place by (unfold zlen in *; lia). rewrite decide_False.
      * by exists b2.
      * unfold zlen in *. lia.
    + rewrite Hbuf, Hln. destruct (sl_last x).
      * destruct (frames_from [] (drop (S h) sl)) as [fs' rest]. injection Hfs as <- ->.
        exists fs'. split; [done|]. by rewrite <- app_assoc.
      * by exists fs.
  - apply lookup_ge_None in Hx.
    destruct (Hfree (Z.of_nat h)) as (_ & b & Hbd & Hst); [unfold zlen in *; lia|].
    fold i in Hbd, Hst. rewrite Hbd. cbn [mbind option_bind]. by rewrite Hst, status_R.
Qed.

(** ** Reaping *)

(** A call that only works on the ring. *)
Definition ring_only (s s' : mx6q) : Prop :=
  exists bds pkts p c u evs, s' = log (set_ring s bds pkts p c u) evs.

Lemma ring_only_refl s : ring_only s s.
Proof.
  exists (tx_bd s), (tx_pkts s), (tx_pidx s), (tx_cidx s), (tx_descr_inuse s), [].
  unfold log, set_ring. destruct s. cbn. by rewrite app_nil_r.
Qed.

Lemma ring_only_trans s1 s2 s3 : ring_only s1 s2 -> ring_only s2 s3 -> ring_only s1 s3.
Proof.
  intros (? & ? & ? & ? & ? & evs & ->) (b & p & pi & c & u & evs' & ->).
  exists b, p, pi, c, u, (evs ++ evs'). unfold log, set_ring. cbn. by rewrite app_assoc.
Qed.

Lemma log_log s a b : log (log s a) b = log s (a ++ b).
Proof. unfold log. cbn. by rewrite <- app_assoc. Qed.

Lemma accepted_app a b : accepted (a ++ b) = accepted a ++ accepted b.
Proof. apply omap_app. Qed.
Lemma reaped_app a b : reaped (a ++ b) = reaped a ++ reaped b.
Proof. apply omap_app. Qed.

Section Ops.
Variable MCLBYTES : Z.
Variable ptp : list frag -> bool.

(** The state after the first descriptor, done by the controller, is taken back. *)
Definition reap_first (s : mx6q) (b : bd) (p : option mbuf) : mx6q :=
  let idx := tx_cidx s in
  let s :=
    match p with
    | Some m =>
        let ts := negb (Z.land (bd_estatus b) TXBD_ESTATUS_TS =? 0) && ptp (m_chain m) in
        let s := log s ((if ts then [EvTimestamp m] else []) ++ [EvSent m]) in
        set_ring s (tx_bd s) (<[Z.to_nat idx := None]> (tx_pkts s))
          (tx_pidx s) (tx_cidx s) (tx_descr_inuse s)
    | None => s
    end in
  let b := {| bd_length := bd_length b; bd_status := Z.land (bd_status b) TXBD_W;
              bd_buffer := bd_buffer b; bd_estatus := TXBD_ESTATUS_INT; bd_bdu := 0 |} in
  set_ring s (<[Z.to_nat idx := b]> (tx_bd s)) (tx_pkts s)
    (tx_pidx s) (NEXT_TX s idx) (tx_descr_inuse s - 1).

Lemma reap_first_eq s b p :
  let pkts := match p with Some _ => <[Z.to_nat (tx_cidx s) := None]> (tx_pkts s) | None => tx_pkts s end in
  let evs := match p with
    | Some m => (if negb (Z.land (bd_estatus b) TXBD_ESTATUS_TS =? 0) && ptp (m_chain m)
                 then [EvTimestamp m] else []) ++ [EvSent m]
    | None => [] end in
  reap_first s b p =
    log (set_ring s (<[Z.to_nat (tx_cidx s) :=
           {| bd_length := bd_length b; bd_status := Z.land (bd_status b) TXBD_W;
              bd_buffer := bd_buffer b; bd_estatus := TXBD_ESTATUS_INT; bd_bdu := 0 |}]> (tx_bd s))
           pkts (tx_pidx s) (NEXT_TX s (tx_cidx s)) (tx_descr_inuse s - 1)) evs.
Proof.
  unfold reap_first. destruct p; [done|]. unfold log, set_ring. cbn. by rewrite app_nil_r.
Qed.

Lemma reap_first_inv s c h x sl b :
  ring_inv s c (S h) (x :: sl) -> tx_bd s !! Z.to_nat (tx_cidx s) = Some b ->
  bd_status b = status (tx_cidx s =? num_tx_descriptors s - 1) (sl_last x) false ->
  let s' := reap_first s b (sl_mbuf x) in
  ring_inv s' c h sl /\ ring_only s s' /\ accepted (trace s') = accepted (trace s).
Proof.
  intros [Hn Hb Hp Hc Hpi Hu Hroom Hh Hhw Hused Hfree Hacc Hfr Herr] Hbd Hst s'.
  set (n := num_tx_descriptors s) in *. rewrite zlen_cons in *. pose proof (zlen_nonneg sl).
  destruct (place_round n (tx_cidx s) Hc) as [Hround Hzero].
  assert (Hz : Z.to_nat (tx_cidx s) = Z.to_nat (place n (tx_cidx s) 0)) by (by rewrite Hzero).
  set (evs := match sl_mbuf x with
    | Some m => (if negb (Z.land (bd_estatus b) TXBD_ESTATUS_TS =? 0) && ptp (m_chain m)
                 then [EvTimestamp m] else []) ++ [EvSent m]
    | None => [] end).
  assert (Hacc0 : accepted evs = [] /\ reaped evs = omap sl_mbuf [x]).
  { unfold evs. destruct x as [? ? [m|] ?]; cbn; [|done]. by destruct (_ && _). }
  destruct Hacc0 as [Hacc1 Hacc2].
  unfold s'. rewrite reap_first_eq. fold evs. set (b1 := {| bd_length := _ |}).
  set (pkts := match sl_mbuf x with Some _ => _ | None => _ end).
  assert (Hpkts : zlen pkts = n /\ forall k, 0 <= k < n ->
    pkts !! Z.to_nat (place n (tx_cidx s) k)
    = if decide (0 = k) then Some None else tx_pkts s !! Z.to_nat (place n (tx_cidx s) k)).
  { destruct (Hused 0%nat x eq_refl) as [Hx0 _]. change (Z.of_nat 0) with 0 in Hx0.
    unfold pkts. destruct (sl_mbuf x) as [m|].
    - split; [unfold zlen in *; by rewrite length_insert|]. intros k Hk.
      rewrite Hz, lookup_place by (unfold zlen in *; lia). done.
    - split; [done|]. intros k Hk. case_decide; [subst; done|done]. }
  destruct Hpkts as [Hpl Hpk].
  assert (Hbk : forall k, 0 <= k < n ->
    <[Z.to_nat (tx_cidx s) := b1]> (tx_bd s) !! Z.to_nat (place n (tx_cidx s) k)
    = if decide (0 = k) then Some b1 else tx_bd s !! Z.to_nat (place n (tx_cidx s) k)).
  { intros k Hk. by rewrite Hz, lookup_place by (unfold zlen in *; lia). }
  assert (Hnext : NEXT_TX s (tx_cidx s) = place n (tx_cidx s) 1) by done.
  split; [|split; [by do 6 eexists|cbn [log set_ring trace]; by rewrite accepted_app, Hacc1, app_nil_r]].
  constructor; cbn [log set_ring num_tx_descriptors tx_bd tx_pkts tx_cidx tx_pidx tx_descr_inuse
      trace internal_tx_errors]; fold n; rewrite ?Hnext; try done; try lia.
  - unfold zlen in *. by rewrite length_insert.
  - apply place_bounds. lia.
  - rewrite Hpi, place_shift by lia. done.
  - cbn in Hh. lia.
  - rewrite Hhw, place_shift by lia. f_equal. lia.
  - intros j y Hy. rewrite place_shift by lia.
    assert (Hj : (j < length sl)%nat) by (by eapply lookup_lt_Some).
    destruct (Hused (S j) y Hy) as (Hpkt & b2 & Hbd2 & Huo).
    replace (Z.of_nat (S j)) with (Z.of_nat j + 1) in * by lia.
    rewrite Hpk, Hbk, !decide_False by (unfold zlen in *; lia). split; [done|]. exists b2.
    split; [done|]. replace (bool_decide (h <= j)%nat) with (bool_decide (S h <= S j)%nat); [done|].
    apply bool_decide_ext. lia.
  - intros j Hj. rewrite place_shift by lia. destruct (decide (j = n - 1)) as [->|].
    + replace (n - 1 + 1) with n by lia. rewrite Hround, Hpk, Hbk, !decide_True by lia.
      split; [done|]. exists b1. split; [done|]. unfold b1. cbn [bd_status].
      rewrite Hst, Hzero. by rewrite status_keep_W.
    + rewrite Hpk, Hbk, !decide_False by lia. apply Hfree. lia.
  - rewrite accepted_app, Hacc1, app_nil_r, reaped_app, Hacc2, Hacc, <- app_assoc. f_equal.
    by destruct x as [? ? [m|] ?].
  - destruct Hfr as (fs & Hfs & Hsent). exists fs. split; [done|].
    by rewrite accepted_app, Hacc1, app_nil_r.
Qed.

Lemma pidx_cidx s c h x sl : ring_inv s c h (x :: sl) -> (tx_pidx s =? tx_cidx s) = false.
Proof.
  intros [Hn _ _ Hc Hpi _ Hroom _ _ _ _ _ _ _]. apply Z.eqb_neq. rewrite Hpi. intros He.
  destruct (place_round _ (tx_cidx s) Hc) as [_ Hzero].
  assert (Hp : place (num_tx_descriptors s) (tx_cidx s) (zlen (x :: sl))
    = place (num_tx_descriptors s) (tx_cidx s) 0) by congruence.
  rewrite zlen_cons in *. pose proof (zlen_nonneg sl). apply place_inj in Hp; lia.
Qed.

Lemma complete_loop_run fuel s c h sl :
  ring_inv s c h sl -> (h < fuel)%nat ->
  exists s', complete_loop ptp fuel s = Ok s' /\ ring_inv s' c 0 (drop h sl) /\ ring_only s s' /\
    accepted (trace s') = accepted (trace s).
Proof.
  revert s sl fuel. induction h as [|h IH]; intros s sl fuel Hri Hf;
    pose proof Hri as [Hn Hb Hp Hc Hpi Hu Hroom Hh Hhw Hused Hfree _ _ _];
    destruct fuel as [|fuel]; try lia; cbn [complete_loop];
    destruct (place_round _ (tx_cidx s) Hc) as [_ Hzero].
  - change (drop 0 sl) with sl. destruct sl as [|x sl].
    + rewrite Hpi, zlen_nil, Hzero, Z.eqb_refl. exists s. split_and!; try done. apply ring_only_refl.
    + destruct (Hused 0%nat x eq_refl) as (_ & b & Hbd & Huo). change (Z.of_nat 0) with 0 in *.
      rewrite Hzero in Hbd, Huo. rewrite (pidx_cidx _ _ _ _ _ Hri), Hbd.
      cbn [get_or_bad mbind res_bind]. rewrite (uo_status _ _ _ _ _ Huo), status_R.
      rewrite bool_decide_true by lia. cbn [negb orb]. exists s. split_and!; try done.
      apply ring_only_refl.
  - destruct sl as [|x sl]; [cbn in Hh; lia|].
    destruct (Hused 0%nat x eq_refl) as (Hpkt & b & Hbd & Huo). change (Z.of_nat 0) with 0 in *.
    rewrite Hzero in Hbd, Huo, Hpkt. rewrite (pidx_cidx _ _ _ _ _ Hri), Hbd.
    rewrite bool_decide_false in Huo by lia. destruct Huo as [Hst _ _ Hbdu].
    cbn [get_or_bad mbind res_bind]. rewrite Hst, status_R.
    rewrite (proj2 (Z.eqb_neq _ 0) (Hbdu eq_refl)), andb_false_r. cbn [negb orb].
    rewrite Hpkt. cbn [get_or_bad mbind res_bind].
    destruct (reap_first_inv s c h x sl b Hri Hbd Hst) as (Hri' & Honly & Hacc).
    destruct (IH _ _ fuel Hri' ltac:(lia)) as (s' & Hrun & Hri2 & Honly2 & Hacc2).
    exists s'. rewrite <- Hst. split; [exact Hrun|]. split_and!; [done| |congruence].
    by eapply ring_only_trans.
Qed.
(** ** Loading a packet *)

Definition nonempty (c : list frag) : list frag := filter (fun f => m_len f <> 0) c.

Lemma set_bds_log s bds evs bds' evs' :
  log (set_bds (log (set_bds s bds) evs) bds') evs' = log (set_bds s bds') (evs ++ evs').
Proof. unfold set_bds, set_ring, log. cbn. by rewrite app_assoc. Qed.

(** What loading did to the descriptors of the fragments [fs] from [idx] on; [started] when the
    packet's first descriptor was loaded before. *)
Record loaded (n idx : Z) (started : bool) (fs : list frag) (old new : list bd) : Prop := {
  ld_len : zlen new = n;
  ld_rest : forall k, zlen fs <= k < n ->
    new !! Z.to_nat (place n idx k) = old !! Z.to_nat (place n idx k);
  ld_done : forall j f, fs !! j = Some f -> exists b0 b,
    old !! Z.to_nat (place n idx (Z.of_nat j)) = Some b0 /\
    new !! Z.to_nat (place n idx (Z.of_nat j)) = Some b /\
    bd_status b = Z.lor (bd_status b0) (if started || (0 <? Z.of_nat j) then TXBD_R else 0) /\
    bd_length b = u16 (m_len f) /\ bd_buffer b = u32 (m_phys f)
}.

Lemma loaded_cons n idx started f fs old b0 b new :
  0 <= idx < n -> zlen fs < n -> zlen old = n -> old !! Z.to_nat idx = Some b0 ->
  bd_status b = Z.lor (bd_status b0) (if started : bool then TXBD_R else 0) ->
  bd_length b = u16 (m_len f) -> bd_buffer b = u32 (m_phys f) ->
  loaded n (place n idx 1) true fs (<[Z.to_nat idx := b]> old) new ->
  loaded n idx started (f :: fs) old new.
Proof.
  intros Hi Hlen Hold Hb0 Hst Hl Hbuf [H1 H2 H3]. pose proof (zlen_nonneg fs).
  destruct (place_round n idx Hi) as [Hround Hzero].
  assert (Hz : Z.to_nat idx = Z.to_nat (place n idx 0)) by (by rewrite Hzero).
  constructor; [done| |].
  - intros k Hk. rewrite zlen_cons in Hk.
    assert (Hk' : zlen fs <= k - 1 < n) by lia. specialize (H2 (k - 1) Hk').
    rewrite place_shift in H2 by lia. replace (k - 1 + 1) with k in H2 by lia. rewrite H2.
    rewrite Hz, lookup_place, decide_False by lia. done.
  - intros [|j] g Hg.
    + injection Hg as <-. exists b0, b. change (Z.of_nat 0) with 0. rewrite Hzero.
      split; [done|]. rewrite orb_false_r. split_and!; try done.
      assert (Hk' : zlen fs <= n - 1 < n) by lia. specialize (H2 (n - 1) Hk').
      rewrite place_shift in H2 by lia. replace (n - 1 + 1) with n in H2 by lia.
      rewrite Hround, Hzero in H2. rewrite H2. apply list_lookup_insert_eq. unfold zlen in *. lia.
    + assert (Hj : (j < length fs)%nat) by (by eapply lookup_lt_Some).
      destruct (H3 j g Hg) as (b1 & b2 & Hb1 & Hb2 & Hs & Hl2 & Hbuf2).
      rewrite place_shift in Hb1, Hb2 by lia.
      replace (Z.of_nat (S j)) with (Z.of_nat j + 1) by lia. exists b1, b2.
      rewrite Hz, lookup_place, decide_False in Hb1 by (unfold zlen in *; lia).
      split_and!; try done. rewrite Hs. cbn [orb].
      by rewrite (proj2 (Z.ltb_lt 0 _)), orb_true_r by lia.
Qed.

Lemma load_run c s idx first last ts :
  let n := num_tx_descriptors s in
  0 <= idx < n -> zlen (tx_bd s) = n -> zlen (nonempty c) < n ->
  (forall j, 0 <= j < zlen (nonempty c) -> exists b,
     tx_bd s !! Z.to_nat (place n idx j) = Some b /\ Z.land (bd_status b) TXBD_R = 0) ->
  exists bds evs,
    load ptp c s idx first last ts = Ok (log (set_bds s bds) evs,
      Some (place n idx (zlen (nonempty c)),
            match first with Some i => Some i
            | None => match nonempty c with [] => None | _ => Some idx end end,
            match nonempty c with [] => last
            | _ => Some (place n idx (zlen (nonempty c) - 1)) end)) /\
    accepted evs = [] /\ reaped evs = [] /\
    loaded n idx (bool_decide (first <> None)) (nonempty c) (tx_bd s) bds.
Proof.
  revert s idx first last ts. induction c as [|f c IH]; intros s idx first last ts n Hi Hb Hl Hfree;
    cbn [load].
  - destruct (place_round n idx Hi) as [_ Hzero]. exists (tx_bd s), [].
    change (zlen (nonempty [])) with 0. rewrite Hzero. split_and!; try done.
    unfold log, set_bds, set_ring. destruct s, first; cbn; by rewrite app_nil_r.
  - unfold nonempty in *. rewrite filter_cons in *. destruct (Z.eqb_spec (m_len f) 0) as [He|He].
    { rewrite decide_False in * by (intros Hne; by apply Hne). by apply IH. }
    rewrite decide_True in * by done. fold (nonempty c) in *. rewrite zlen_cons in *.
    pose proof (zlen_nonneg (nonempty c)).
    destruct (place_round n idx Hi) as [_ Hzero].
    destruct (Hfree 0 ltac:(lia)) as (b & Hbd & HR). rewrite Hzero in Hbd. rewrite Hbd.
    cbn [get_or_bad mbind res_bind]. rewrite (proj2 (Z.eqb_eq _ 0) HR). cbn [negb].
    set (triple := match first with Some i => _ | None => _ end).
    assert (Htr : exists ts', triple = (if bool_decide (first <> None) then TXBD_R else 0,
      Some (default idx first), ts')).
    { unfold triple. destruct first as [i|]; [rewrite bool_decide_true by done|
        rewrite bool_decide_false by (by intros [])]; by eexists. }
    destruct Htr as (ts' & ->). set (b' := {| bd_length := _ |}).
    set (s1 := log (set_bds s (<[Z.to_nat idx := b']> (tx_bd s))) _).
    set (s2 := if NEXT_TX s1 idx =? 0 then log s1 [EvStats] else s1).
    assert (Hs2 : exists evs, s2 = log (set_bds s (<[Z.to_nat idx := b']> (tx_bd s))) evs /\
      accepted evs = [] /\ reaped evs = []).
    { unfold s2, s1. destruct (NEXT_TX _ _ =? 0); [|by eexists].
      exists [EvFlush (u32 (m_phys f)) (u16 (m_len f)); EvStats]. split; [|done].
      unfold log. cbn. by rewrite <- app_assoc. }
    destruct Hs2 as (evs1 & Hs2 & Ha1 & Hr1). change (NEXT_TX s1 idx) with (place n idx 1).
    assert (Hbds2 : tx_bd s2 = <[Z.to_nat idx := b']> (tx_bd s)) by (by rewrite Hs2).
    assert (Hn2 : num_tx_descriptors s2 = n) by (by rewrite Hs2).
    assert (Hz : Z.to_nat idx = Z.to_nat (place n idx 0)) by (by rewrite Hzero).
    destruct (IH s2 (place n idx 1) (Some (default idx first)) (Some idx) ts')
      as (bds & evs & Hload & Ha & Hr & Hld); rewrite ?Hn2, ?Hbds2.
    + apply place_bounds. lia.
    + unfold zlen in *. by rewrite length_insert.
    + lia.
    + intros j Hj. rewrite place_shift by lia.
      rewrite Hz, lookup_place, decide_False by (unfold zlen in *; lia). apply Hfree. lia.
    + rewrite Hn2, Hbds2 in *. rewrite bool_decide_true in Hld by done.
      exists bds, (evs1 ++ evs). rewrite Hload. split_and!.
      * rewrite Hs2, set_bds_log. apply (f_equal Ok), pair_eq. split; [done|].
        apply (f_equal Some). rewrite !pair_eq. split_and!.
        -- rewrite place_shift by lia. by f_equal.
        -- by destruct first.
        -- destruct (nonempty c) as [|g r]; [change (zlen [] + 1 - 1) with 0; by rewrite Hzero|].
           rewrite zlen_cons, place_shift by lia. do 2 f_equal. lia.
      * by rewrite accepted_app, Ha1, Ha.
      * by rewrite reaped_app, Hr1, Hr.
      * apply (loaded_cons n idx _ f (nonempty c) (tx_bd s) b b' bds); try done; lia.
Qed.
(** ** Handing a packet over *)

Lemma place_place n c a j : 0 < n -> place n (place n c a) j = place n c (a + j).
Proof. intros. unfold place. rewrite Zplus_mod_idemp_l. f_equal. lia. Qed.

Lemma slots_from_lookup first fs j f :
  fs !! j = Some f ->
  slots_from first fs !! j = Some {| sl_phys := m_phys f; sl_len := m_len f;
    sl_mbuf := match j with O => first | _ => None end; sl_last := bool_decide (S j = length fs) |}.
Proof.
  revert first j. induction fs as [|g fs IH]; intros first j Hj; [done|]. cbn [slots_from].
  destruct j as [|j].
  - injection Hj as ->. cbn. do 2 f_equal. apply bool_decide_ext. destruct fs; cbn; split; lia || done.
  - change ((g :: fs) !! S j) with (fs !! j) in Hj.
    change (slots_from None fs !! j = Some {| sl_phys := m_phys f; sl_len := m_len f; sl_mbuf := None;
      sl_last := bool_decide (S (S j) = length (g :: fs)) |}).
    rewrite (IH None j Hj). f_equal. f_equal; [by destruct j|].
    apply bool_decide_ext. cbn [length]. lia.
Qed.

Lemma length_slots_from first fs : length (slots_from first fs) = length fs.
Proof. revert first. induction fs as [|f fs IH]; intros first; [done|]. cbn. by rewrite IH. Qed.

Lemma frames_from_app cur xs ys fs :
  frames_from cur xs = (fs, []) ->
  frames_from cur (xs ++ ys) = let '(fs', r) := frames_from [] ys in (fs ++ fs', r).
Proof.
  revert cur fs. induction xs as [|x xs IH]; intros cur fs; cbn [frames_from app].
  - intros [= <- ->]. by destruct (frames_from [] ys).
  - destruct (sl_last x).
    + destruct (frames_from [] xs) as [fs1 r1] eqn:H1. intros [= <- ->].
      rewrite (IH _ _ H1). by destruct (frames_from [] ys).
    + apply IH.
Qed.

Lemma frames_of_slots cur first fs :
  fs <> [] ->
  frames_from cur (slots_from first fs) = ([cur ++ map (fun f => (m_phys f, m_len f)) fs], []).
Proof.
  revert cur first. induction fs as [|f fs IH]; intros cur first Hne; [done|].
  cbn [slots_from frames_from sl_last sl_phys sl_len]. destruct fs as [|g fs].
  - rewrite bool_decide_true by done. done.
  - rewrite bool_decide_false by done. rewrite IH by done. by rewrite <- app_assoc.
Qed.

Lemma mbufs_of_slots first fs : fs <> [] -> omap sl_mbuf (slots_from first fs) = option_list first.
Proof.
  intros Hne. destruct fs as [|f fs]; [done|]. cbn.
  assert (Hr : forall l, omap sl_mbuf (slots_from None l) = []) by (induction l; done).
  rewrite Hr. by destruct first.
Qed.

Lemma lookup_or_status n c j k v bds :
  zlen bds = n -> 0 <= j < n -> 0 <= k < n ->
  or_status (place n c j) v bds !! Z.to_nat (place n c k)
  = if decide (j = k)
    then option_map (fun b => {| bd_length := bd_length b; bd_status := Z.lor (bd_status b) v;
      bd_buffer := bd_buffer b; bd_estatus := bd_estatus b; bd_bdu := bd_bdu b |})
      (bds !! Z.to_nat (place n c k))
    else bds !! Z.to_nat (place n c k).
Proof.
  intros Hl Hj Hk. unfold or_status. destruct (decide (j = k)) as [->|Hne].
  - by rewrite list_lookup_alter_eq.
  - apply list_lookup_alter_ne. pose proof (place_bounds n c j). pose proof (place_bounds n c k).
    intros He. apply Hne, (place_inj n c); lia.
Qed.

(** The packets of the ring: what the stack hands down. *)
Definition packet_ok (m : mbuf) : Prop :=
  Forall (fun f => m_len f < 2 ^ 16 /\ 0 <= m_phys f < 2 ^ 32) (m_chain m) /\
  frags m <> [] /\ m_pkthdr_len m = zlen (mbuf_bytes m).
(** The descriptors after the last flags were set. *)
Definition finish_bds (i j : Z) (bds : list bd) : list bd :=
  if i =? j then or_status j (Z.lor TXBD_R (Z.lor TXBD_L TXBD_TC)) bds
  else or_status i TXBD_R (or_status j (Z.lor TXBD_L TXBD_TC) bds).

Lemma finish_bds_spec n c a fs old bds :
  0 < n -> 0 <= a -> fs <> [] -> a + zlen fs < n -> zlen old = n ->
  loaded n (place n c a) false fs old bds ->
  (forall j, 0 <= j < zlen fs -> exists b, old !! Z.to_nat (place n c (a + j)) = Some b /\
     bd_status b = status (place n c (a + j) =? n - 1) false false) ->
  let new := finish_bds (place n c a) (place n (place n c a) (zlen fs - 1)) bds in
  zlen new = n /\
  (forall t, 0 <= t < n -> t < a \/ a + zlen fs <= t ->
     new !! Z.to_nat (place n c t) = old !! Z.to_nat (place n c t)) /\
  (forall j f, fs !! j = Some f -> exists b,
     new !! Z.to_nat (place n c (a + Z.of_nat j)) = Some b /\
     bd_status b = status (place n c (a + Z.of_nat j) =? n - 1) (bool_decide (S j = length fs)) true /\
     bd_length b = u16 (m_len f) /\ bd_buffer b = u32 (m_phys f)).
Proof.
  intros Hn Ha Hne Hroom Hold [Hlen Hrest Hdone] Hfree new.
  pose proof (zlen_pos _ Hne) as Hk.
  unfold new, finish_bds. rewrite place_place by lia.
  assert (Hlook : forall t, 0 <= t < n ->
    (if place n c a =? place n c (a + (zlen fs - 1))
     then or_status (place n c (a + (zlen fs - 1))) (Z.lor TXBD_R (Z.lor TXBD_L TXBD_TC)) bds
     else or_status (place n c a) TXBD_R
            (or_status (place n c (a + (zlen fs - 1))) (Z.lor TXBD_L TXBD_TC) bds))
      !! Z.to_nat (place n c t)
    = option_map (fun b => {| bd_length := bd_length b;
        bd_status := Z.lor (bd_status b)
          (Z.lor (if t =? a + (zlen fs - 1) then Z.lor TXBD_L TXBD_TC else 0)
                 (if t =? a then TXBD_R else 0));
        bd_buffer := bd_buffer b; bd_estatus := bd_estatus b; bd_bdu := bd_bdu b |})
        (bds !! Z.to_nat (place n c t))).
  { intros t Ht. assert (Hor : forall i v, zlen (or_status i v bds) = n)
      by (intros; unfold zlen, or_status in *; by rewrite length_alter).
    destruct (Z.eqb_spec (place n c a) (place n c (a + (zlen fs - 1)))) as [He|He].
    - apply place_inj in He; [|lia..]. rewrite lookup_or_status by (lia || done).
      rewrite <- He. case_decide as Hd.
      + rewrite (proj2 (Z.eqb_eq t a)) by lia. destruct (bds !! _); cbn; [|done].
        by rewrite (Z.lor_comm TXBD_R).
      + rewrite (proj2 (Z.eqb_neq t a)) by lia. cbn [Z.lor]. destruct (bds !! _) as [[]|]; cbn; [|done].
        by rewrite Z.lor_0_r.
    - assert (zlen fs <> 1) by (intros H1; rewrite H1 in He; by rewrite Z.add_0_r in He).
      rewrite !lookup_or_status by (lia || done).
      destruct (decide (a = t)), (decide (a + (zlen fs - 1) = t)), (Z.eqb_spec t a),
        (Z.eqb_spec t (a + (zlen fs - 1))); try lia;
        destruct (bds !! _) as [[]|]; cbn; try done; by rewrite ?Z.lor_0_r. }
  split_and!.
  - destruct (_ =? _); unfold zlen, or_status in *; by rewrite ?length_alter.
  - intros t Ht Hout. rewrite Hlook by done.
    rewrite (proj2 (Z.eqb_neq t a)), (proj2 (Z.eqb_neq t _)) by lia. cbn [Z.lor].
    assert (Hr : bds !! Z.to_nat (place n c t) = old !! Z.to_nat (place n c t)).
    { destruct Hout as [Hlt|Hge].
      - assert (Hb : zlen fs <= n + t - a < n) by lia. specialize (Hrest _ Hb).
        rewrite place_place in Hrest by lia. replace (a + (n + t - a)) with (t + n) in Hrest by lia.
        replace (place n c (t + n)) with (place n c t) in Hrest; [done|].
        unfold place. replace (c + (t + n)) with (c + t + 1 * n) by lia.
        symmetry. apply Z_mod_plus_full.
      - assert (Hb : zlen fs <= t - a < n) by lia. specialize (Hrest _ Hb).
        rewrite place_place in Hrest by lia. by replace (a + (t - a)) with t in Hrest by lia. }
    rewrite Hr. destruct (old !! _) as [[]|]; cbn; [|done]. by rewrite Z.lor_0_r.
  - intros j f Hj. assert (Hjl : (j < length fs)%nat) by (by eapply lookup_lt_Some).
    destruct (Hdone j f Hj) as (b0 & b & Hb0 & Hb & Hst & Hln & Hbuf).
    rewrite place_place in Hb0, Hb by lia.
    destruct (Hfree (Z.of_nat j)) as (b0' & Hb0' & Hst0); [unfold zlen; lia|].
    rewrite Hb0 in Hb0'. injection Hb0' as <-.
    rewrite Hlook, Hb by (unfold zlen in *; lia). eexists. split; [reflexivity|].
    cbn [bd_status bd_length bd_buffer]. split_and!; try done. rewrite Hst, Hst0.
    replace (a + Z.of_nat j =? a + (zlen fs - 1)) with (bool_decide (S j = length fs)).
    2: { destruct (Z.eqb_spec (a + Z.of_nat j) (a + (zlen fs - 1))) as [He|He];
           [apply bool_decide_eq_true|apply bool_decide_eq_false]; unfold zlen in *; lia. }
    replace (a + Z.of_nat j =? a) with (negb (0 <? Z.of_nat j))
      by (destruct (Z.ltb_spec 0 (Z.of_nat j)), (Z.eqb_spec (a + Z.of_nat j) a); cbn; lia || done).
    by destruct (place n c (a + Z.of_nat j) =? n - 1), (bool_decide (S j = length fs)),
      (0 <? Z.of_nat j).
Qed.
(** What a transmission leaves alone. *)
Definition same_control (s s' : mx6q) : Prop :=
  num_tx_descriptors s' = num_tx_descriptors s /\ if_snd s' = if_snd s /\
  tx_full s' = tx_full s /\ if_oactive s' = if_oactive s /\
  if_tx_running s' = if_tx_running s /\ link_down s' = link_down s.

Lemma kick_eq e s : exists evs, kick e s = log s evs /\ accepted evs = [] /\ reaped evs = [].
Proof.
  unfold kick. destruct (_ && _); [by exists [EvKick]|]. exists []. split; [|done].
  unfold log. destruct s. cbn. by rewrite app_nil_r.
Qed.

(** The state of a packet on its way, all at once. *)
Definition sent_state (s : mx6q) (bds : list bd) (m : mbuf) (k : Z) (evs : list event) : mx6q :=
  log (set_ring (add_stats s 1 0 0 0) bds (<[Z.to_nat (tx_pidx s) := Some m]> (tx_pkts s))
         (place (num_tx_descriptors s) (tx_pidx s) k) (tx_cidx s) (tx_descr_inuse s + k)) evs.

Lemma sent_state_inv s c h sl m bds evs :
  ring_inv s c h sl -> packet_ok m ->
  let n := num_tx_descriptors s in
  let k := zlen (frags m) in
  zlen sl + k < n -> zlen bds = n ->
  (forall t, 0 <= t < n -> t < zlen sl \/ zlen sl + k <= t ->
     bds !! Z.to_nat (place n (tx_cidx s) t) = tx_bd s !! Z.to_nat (place n (tx_cidx s) t)) ->
  (forall j f, frags m !! j = Some f -> exists b,
     bds !! Z.to_nat (place n (tx_cidx s) (zlen sl + Z.of_nat j)) = Some b /\
     bd_status b = status (place n (tx_cidx s) (zlen sl + Z.of_nat j) =? n - 1)
                     (bool_decide (S j = length (frags m))) true /\
     bd_length b = u16 (m_len f) /\ bd_buffer b = u32 (m_phys f)) ->
  accepted evs = [m] -> reaped evs = [] ->
  ring_inv (sent_state s bds m k evs) c h (sl ++ slots_of m).
Proof.
  intros [Hn Hb Hp Hc Hpi Hu Hroom Hh Hhw Hused Hfree Hacc Hfr Herr] (Hsz & Hne & _) n k Hk Hbl
    Hsame Hnew Ha Hr. fold n in Hn, Hb, Hp, Hc, Hpi, Hroom, Hhw, Hused, Hfree.
  pose proof (zlen_pos _ Hne) as Hk1. fold k in Hk1.
  pose proof (zlen_nonneg sl).
  assert (Hls : zlen (slots_of m) = k)
    by (unfold zlen, slots_of, k; by rewrite length_slots_from).
  constructor; cbn [sent_state log set_ring add_stats num_tx_descriptors tx_bd tx_pkts tx_cidx tx_pidx
    tx_descr_inuse trace internal_tx_errors]; fold n; try done.
  - unfold zlen in *. by rewrite length_insert.
  - by rewrite Hpi, place_place, zlen_app, Hls by lia.
  - rewrite zlen_app, Hls. lia.
  - rewrite zlen_app, Hls. lia.
  - rewrite length_app. lia.
  - intros j x Hx. rewrite Hpi. apply lookup_app_Some in Hx as [Hx|[Hj Hx]].
    + assert (Hj : (j < length sl)%nat) by (by eapply lookup_lt_Some).
      destruct (Hused j x Hx) as (Hpk & b & Hbd & Huo).
      rewrite lookup_place, decide_False, Hsame by (unfold zlen in *; lia).
      split; [done|]. by exists b.
    + unfold slots_of in Hx.
      assert (Hjl : (j - length sl < length (frags m))%nat)
        by (apply lookup_lt_Some in Hx; by rewrite length_slots_from in Hx).
      destruct (lookup_lt_is_Some_2 (frags m) _ Hjl) as [f Hf].
      rewrite (slots_from_lookup _ _ _ f Hf) in Hx. injection Hx as <-.
      destruct (Hnew _ f Hf) as (b & Hbd & Hst & Hln & Hbuf).
      replace (zlen sl + Z.of_nat (j - length sl)) with (Z.of_nat j) in * by (unfold zlen in *; lia).
      rewrite lookup_place by (unfold zlen in *; lia). cbn [sl_mbuf]. split.
      * destruct (decide (zlen sl = Z.of_nat j)) as [Hd|Hd].
        -- by replace (j - length sl)%nat with 0%nat by (unfold zlen in *; lia).
        -- destruct (Hfree (Z.of_nat j)) as [Hpk _]; [unfold zlen in *; lia|]. rewrite Hpk.
           by destruct (j - length sl)%nat eqn:Hj0; [unfold zlen in *; lia|].
      * exists b. split; [done|]. assert (Hin : f ∈ m_chain m).
        { apply list_elem_of_lookup_2 in Hf. unfold frags in Hf.
          by apply list_elem_of_filter in Hf as [_ ?]. }
        rewrite Forall_forall in Hsz. destruct (Hsz f Hin) as [Hfl Hfp].
        pose proof (zlen_nonneg (m_bytes f)).
        constructor; cbn [sl_last sl_phys sl_len].
        -- by rewrite Hst, (bool_decide_true (h <= j)%nat) by lia.
        -- rewrite Hbuf. apply wrap_id. done.
        -- rewrite Hln. apply wrap_id. unfold m_len, fits in *. lia.
        -- rewrite bool_decide_true by lia. done.
  - intros j Hj. rewrite zlen_app, Hls in Hj. rewrite Hpi.
    rewrite lookup_place, decide_False, Hsame by lia. apply Hfree. lia.
  - rewrite accepted_app, reaped_app, Ha, Hr, Hacc, omap_app, app_nil_r, <- app_assoc. do 2 f_equal.
    unfold slots_of. by rewrite mbufs_of_slots.
  - destruct Hfr as (fs & Hfs & Hsent). rewrite drop_app_le by done.
    exists (fs ++ [frame_of m]). split.
    + rewrite (frames_from_app _ _ _ _ Hfs). unfold slots_of. by rewrite frames_of_slots.
    + by rewrite accepted_app, Ha, map_app, app_assoc, Hsent.
  - lia.
Qed.

(** A packet whose descriptors could be loaded is on its way. *)
Lemma tx_packet_eq e s m bds evs i j k :
  load ptp (m_chain m) s (tx_pidx s) None None false
    = Ok (log (set_bds s bds) evs,
          Some (place (num_tx_descriptors s) (tx_pidx s) k, Some i, Some j)) ->
  exists evs2, tx_packet ptp e s m k
      = Ok (sent_state s (finish_bds i j bds) m k ((evs ++ [EvTap m]) ++ evs2), EOK) /\
    accepted evs2 = [] /\ reaped evs2 = [].
Proof.
  intros Hload. unfold tx_packet. rewrite Hload. cbn [mbind res_bind].
  set (s1 := if i =? j then _ else _).
  assert (Hs1 : s1 = sent_state s (finish_bds i j bds) m k (evs ++ [EvTap m])).
  { unfold s1, finish_bds, sent_state.
    destruct (i =? j); cbv [log set_bds set_ring add_stats num_tx_descriptors tx_bd tx_pkts tx_pidx
      tx_cidx tx_descr_inuse tx_full tx_reaped if_running if_tx_running if_oactive link_down if_snd
      if_opackets if_oerrors tx_failed_allocs internal_tx_errors trace]; rewrite <- app_assoc;
      reflexivity. }
  clearbody s1. subst s1. destruct (kick_eq e (sent_state s (finish_bds i j bds) m k (evs ++ [EvTap m])))
    as (evs2 & Hkick & Ha2 & Hr2).
  exists evs2. rewrite Hkick. unfold sent_state. rewrite log_log. done.
Qed.

Lemma tx_packet_run e s c h sl m :
  ring_inv s c h sl -> packet_ok m -> zlen sl + zlen (frags m) < num_tx_descriptors s ->
  exists s', tx_packet ptp e s m (zlen (frags m)) = Ok (s', EOK) /\
    ring_inv s' c h (sl ++ slots_of m) /\ same_control s s' /\
    accepted (trace s') = accepted (trace s) ++ [m] /\
    if_opackets s' = if_opackets s + 1 /\ if_oerrors s' = if_oerrors s.
Proof.
  intros Hri Hpk Hroom. pose proof Hri as [Hn Hb Hp Hc Hpi Hu _ Hh Hhw Hused Hfree Hacc _ Herr].
  set (n := num_tx_descriptors s) in *. set (k := zlen (frags m)) in *.
  pose proof Hpk as (_ & Hne & _). pose proof (zlen_nonneg sl). pose proof (zlen_nonneg (frags m)).
  assert (Hfree' : forall j, 0 <= j < k -> exists b,
    tx_bd s !! Z.to_nat (place n (tx_cidx s) (zlen sl + j)) = Some b /\
    bd_status b = status (place n (tx_cidx s) (zlen sl + j) =? n - 1) false false).
  { intros j Hj. apply Hfree. lia. }
  destruct (load_run (m_chain m) s (tx_pidx s) None None false) as (bds & evs & Hload & Ha & Hr & Hld).
  { rewrite Hpi. apply place_bounds. lia. }
  { done. }
  { change (nonempty (m_chain m)) with (frags m). fold k n. lia. }
  { change (nonempty (m_chain m)) with (frags m). fold k n. intros j Hj. rewrite Hpi, place_place by lia.
    destruct (Hfree' j Hj) as (b & Hbd & Hst). exists b. split; [done|].
    apply Z.eqb_eq. by rewrite Hst, status_R. }
  change (nonempty (m_chain m)) with (frags m) in *.
  fold k in Hload. fold n in Hload, Hld. rewrite bool_decide_false in Hld by (intros []; done).
  assert (Hm : match frags m with [] => None | _ => Some (tx_pidx s) end = Some (tx_pidx s) /\
    match frags m with [] => None | _ => Some (place n (tx_pidx s) (k - 1)) end
    = Some (place n (tx_pidx s) (k - 1))) by (by destruct (frags m)).
  destruct Hm as [Hm1 Hm2]. rewrite Hm1, Hm2 in Hload. rewrite Hpi in Hld.
  destruct (finish_bds_spec n (tx_cidx s) (zlen sl) (frags m) (tx_bd s) bds ltac:(lia) ltac:(lia) Hne
    Hroom Hb Hld Hfree') as (Hbl & Hsame & Hnew). fold k in Hbl, Hsame, Hnew.
  rewrite <- Hpi in Hbl, Hsame, Hnew.
  destruct (tx_packet_eq e s m bds evs _ _ k Hload) as (evs2 & Htx & Ha2 & Hr2).
  eexists. split; [exact Htx|].
  assert (Hae : accepted ((evs ++ [EvTap m]) ++ evs2) = [m])
    by (by rewrite !accepted_app, Ha, Ha2).
  split_and!; [|done|..].
  - apply sent_state_inv; try done. by rewrite !reaped_app, Hr, Hr2.
  - unfold sent_state. cbn [log trace]. by rewrite accepted_app, Hae.
  - done.
  - cbn. lia.
Qed.
End Ops.
