(* ===== verification/EnetOps.v ===== *)
(** * EnetOps: the driver's transmit calls on the ring of EnetRing.v.

    Each call is shown to return and to keep the ring; the calls and the controller's steps together
    make the step relation of a running interface, with what holds in all its states. *)

From S2P Require Import Prelude.
From S2P Require Import Enet.
From S2P Require Import EnetRing.

(** ** What does not touch the ring *)

Record same_ring (s s' : mx6q) : Prop := {
  sr_n : num_tx_descriptors s' = num_tx_descriptors s;
  sr_bd : tx_bd s' = tx_bd s;
  sr_pkts : tx_pkts s' = tx_pkts s;
  sr_pidx : tx_pidx s' = tx_pidx s;
  sr_cidx : tx_cidx s' = tx_cidx s;
  sr_inuse : tx_descr_inuse s' = tx_descr_inuse s;
  sr_internal : internal_tx_errors s' = internal_tx_errors s;
  sr_accepted : accepted (trace s') = accepted (trace s);
  sr_reaped : reaped (trace s') = reaped (trace s)
}.

Lemma ring_inv_same s s' c h sl : same_ring s s' -> ring_inv s c h sl -> ring_inv s' c h sl.
Proof.
  intros [Hn Hb Hp Hpi Hci Hu Hi Ha Hr] [].
  constructor; rewrite ?Hn, ?Hb, ?Hp, ?Hpi, ?Hci, ?Hu, ?Hi, ?Ha, ?Hr; done.
Qed.

Lemma same_ring_refl s : same_ring s s.
Proof. by constructor. Qed.

Lemma same_ring_trans s1 s2 s3 : same_ring s1 s2 -> same_ring s2 s3 -> same_ring s1 s3.
Proof. intros [] []. constructor; congruence. Qed.

Lemma same_ring_log s evs : accepted evs = [] -> reaped evs = [] -> same_ring s (log s evs).
Proof.
  intros Ha Hr. constructor; try done; cbn [log trace].
  - by rewrite accepted_app, Ha, app_nil_r.
  - by rewrite reaped_app, Hr, app_nil_r.
Qed.

Lemma same_ring_flags s full reaped oactive snd : same_ring s (set_flags s full reaped oactive snd).
Proof. by constructor. Qed.

Lemma same_ring_stats s a b c : same_ring s (add_stats s a b c 0).
Proof. constructor; try done. cbn. lia. Qed.

#[export] Hint Resolve same_ring_refl same_ring_log same_ring_flags same_ring_stats : enet.

(** ** Packets and their descriptors *)

Lemma count_frags_false c : count_frags false c = zlen (nonempty c).
Proof.
  induction c as [|f c IH]; [done|]. cbn [count_frags andb]. unfold nonempty in *.
  rewrite filter_cons, IH. destruct (Z.eqb_spec (m_len f) 0) as [He|He].
  - by rewrite decide_False by (intros Hne; by apply Hne).
  - rewrite decide_True, zlen_cons by done. lia.
Qed.

Lemma count_frags_align c :
  count_frags true c = zlen (nonempty c) \/ MX6Q_MAX_FRAGS < count_frags true c.
Proof.
  assert (Hge : forall c, zlen (nonempty c) <= count_frags true c).
  { clear. intros c. rewrite <- count_frags_false. induction c as [|f c IH]; [done|].
    cbn [count_frags andb]. unfold MX6Q_MAX_FRAGS.
    destruct (_ =? 0); [lia|]. destruct (negb _); lia. }
  induction c as [|f c IH]; [by left|]. cbn [count_frags andb]. unfold nonempty in *.
  rewrite filter_cons. destruct (Z.eqb_spec (m_len f) 0) as [He|He].
  - by rewrite decide_False by (intros Hne; by apply Hne).
  - rewrite decide_True, zlen_cons by done. specialize (Hge c). unfold nonempty in Hge.
    pose proof (zlen_nonneg (filter (fun f => m_len f <> 0) c)).
    unfold MX6Q_MAX_FRAGS in *. destruct (negb _); lia.
Qed.

Lemma frags_bytes m : frags m <> [] <-> mbuf_bytes m <> [].
Proof.
  unfold frags, mbuf_bytes. induction (m_chain m) as [|f c IH]; [done|].
  rewrite filter_cons. cbn [map concat]. unfold m_len in *. destruct (m_bytes f) as [|b bs] eqn:Hb.
  - by rewrite decide_False by (intros Hne; by apply Hne).
  - rewrite decide_True; [done|]. rewrite zlen_cons. pose proof (zlen_nonneg bs). lia.
Qed.

(** What io-pkt's allocators promise: a copy has the same bytes in mbufs the controller can reach,
    and a cluster has an address of 32 bits. *)
Record env_ok (e : env) : Prop := {
  eo_dup : forall m m2, m_dup e m = Some m2 -> packet_ok m ->
    packet_ok m2 /\ mbuf_bytes m2 = mbuf_bytes m;
  eo_getcl : forall id f, m_getcl e = Some (id, f) -> fits 32 (m_phys f)
}.

Section Ops.
Variable MCLBYTES : Z.
Variable ptp : list frag -> bool.
Hypothesis MCLBYTES_range : 0 < MCLBYTES < 2 ^ 16.

Lemma mx6q_defrag_run e m :
  packet_ok m -> env_ok e ->
  match mx6q_defrag MCLBYTES e m with
  | (Some m2, evs) => packet_ok m2 /\ mbuf_bytes m2 = mbuf_bytes m /\
      zlen (frags m2) <= MX6Q_MAX_FRAGS /\ accepted evs = [] /\ reaped evs = []
  | (None, evs) => accepted evs = [] /\ reaped evs = []
  end.
Proof.
  intros Hpk [Hdup Hcl]. unfold mx6q_defrag. destruct (Z.ltb_spec MCLBYTES (m_pkthdr_len m)).
  - destruct (m_dup e m) as [m2|] eqn:Hm; [|done]. destruct (Hdup _ _ Hm Hpk) as [Hpk2 Hb2].
    destruct (Z.ltb_spec MX6Q_MAX_FRAGS (zlen (m_chain m2))) as [|Hle]; [done|].
    split_and!; try done. etrans; [|exact Hle]. unfold zlen, frags.
    pose proof (length_filter (fun f => m_len f <> 0) (m_chain m2)). lia.
  - destruct (m_getcl e) as [[id f]|] eqn:Hm; [|done]. pose proof (Hcl _ _ eq_refl) as Hf.
    destruct Hpk as (_ & Hne & Hlen). set (m2 := {| m_id := id; m_chain := _; m_pkthdr_len := _ |}).
    assert (Hb2 : mbuf_bytes m2 = mbuf_bytes m).
    { unfold m2, mbuf_bytes. cbn [m_chain map concat m_bytes]. rewrite app_nil_r, Hlen. unfold zlen.
      rewrite Nat2Z.id. apply take_ge. done. }
    assert (Hne2 : frags m2 <> []) by (apply frags_bytes; rewrite Hb2; by apply frags_bytes).
    split_and!; try done.
    + split_and!; [|done|by rewrite Hb2]. apply Forall_singleton. split; [|done].
      unfold m_len. cbn [m_bytes]. unfold zlen in *. rewrite length_take. lia.
    + unfold zlen, frags. pose proof (length_filter (fun f => m_len f <> 0) (m_chain m2)).
      cbn in *. unfold MX6Q_MAX_FRAGS. lia.
Qed.

(** A call leaves the counters alone but for packets sent and packets lost. *)
Definition counted (s s' : mx6q) (sent lost : Z) : Prop :=
  if_opackets s' = if_opackets s + sent /\ if_oerrors s' = if_oerrors s + lost.

Ltac counts := split; cbn [if_opackets if_oerrors log set_flags set_ring add_stats];
  rewrite ?zlen_nil, ?zlen_cons; lia.

(** A packet given to [mx6q_tx] when there is room goes out, itself or a copy of its bytes, or is
    counted as lost. *)
Definition tx_result (s s' : mx6q) (c : nic) h sl (m : mbuf) (err : Z) : Prop :=
  (err = EOK /\ exists m', packet_ok m' /\ mbuf_bytes m' = mbuf_bytes m /\
     ring_inv s' c h (sl ++ slots_of m') /\ accepted (trace s') = accepted (trace s) ++ [m'] /\
     counted s s' 1 0) \/
  (err = ENOMEM /\ ring_inv s' c h sl /\ accepted (trace s') = accepted (trace s) /\
     counted s s' 0 1).


Lemma mx6q_tx_run e s c h sl m :
  ring_inv s c h sl -> packet_ok m -> env_ok e ->
  MX6Q_MAX_FRAGS < num_tx_descriptors s - tx_descr_inuse s ->
  exists s' err, mx6q_tx MCLBYTES ptp e s m = Ok (s', err) /\ same_control s s' /\
    tx_result s s' c h sl m err.
Proof.
  intros Hri Hpk He Hroom.
  assert (Hdirect : forall s1 m', same_ring s s1 -> same_control s s1 -> counted s s1 0 0 ->
    packet_ok m' -> mbuf_bytes m' = mbuf_bytes m -> zlen (frags m') <= MX6Q_MAX_FRAGS ->
    exists s' err, tx_packet ptp e s1 m' (zlen (frags m')) = Ok (s', err) /\ same_control s s' /\
      tx_result s s' c h sl m err).
  { intros s1 m' Hsr Hsc [Hc1 Hc2] Hpk' Hbytes Hle.
    pose proof (ri_inuse _ _ _ _ Hri) as Hu. pose proof (sr_n _ _ Hsr) as Hn.
    destruct (tx_packet_run ptp e s1 c h sl m') as (s' & Htx & Hri' & Hsc' & Ha & Hop & Hoe);
      [by eapply ring_inv_same|done|rewrite Hn; lia|].
    exists s', EOK. split; [done|]. split.
    - destruct Hsc as (?&?&?&?&?&?), Hsc' as (?&?&?&?&?&?). split_and!; congruence.
    - left. split; [done|]. exists m'. split_and!; try done.
      + by rewrite Ha, (sr_accepted _ _ Hsr).
      + split; lia. }
  unfold mx6q_tx. destruct (Z.ltb_spec MX6Q_MAX_FRAGS (count_frags true (m_chain m))) as [Hbig|Hle].
  - pose proof (mx6q_defrag_run e m Hpk He) as Hdef.
    destruct (mx6q_defrag MCLBYTES e m) as [[m2|] evs].
    + destruct Hdef as (Hpk2 & Hb2 & Hle2 & Ha & Hr). rewrite count_frags_false.
      apply Hdirect; try done; [by apply same_ring_log|]. counts.
    + destruct Hdef as (Ha & Hr). do 2 eexists. split; [reflexivity|]. split; [done|]. right.
      split; [done|]. split; [|split].
      * eapply ring_inv_same; [|exact Hri]. eapply same_ring_trans; [by apply same_ring_log|].
        apply same_ring_stats.
      * cbn. by rewrite accepted_app, Ha, app_nil_r.
      * counts.
  - destruct (count_frags_align (m_chain m)) as [Heq|]; [|lia]. rewrite Heq in Hle |- *.
    apply Hdirect; try done. split; lia.
Qed.

(** [mx6q_transmit_complete] takes back what the controller is done with. *)
Lemma mx6q_transmit_complete_run s c h sl :
  ring_inv s c h sl ->
  exists s', mx6q_transmit_complete ptp s = Ok s' /\ ring_inv s' c 0 (drop h sl) /\
    same_control s s' /\ counted s s' 0 0 /\ accepted (trace s') = accepted (trace s).
Proof.
  intros Hri. unfold mx6q_transmit_complete.
  set (s1 := set_flags s (tx_full s) true (if_oactive s) (if_snd s)).
  assert (Hri1 : ring_inv s1 c h sl) by (eapply ring_inv_same; [|done]; apply same_ring_flags).
  pose proof (ri_h _ _ _ _ Hri) as Hh. pose proof (ri_room _ _ _ _ Hri) as Hroom.
  destruct (complete_loop_run ptp (Z.to_nat (num_tx_descriptors s)) s1 c h sl Hri1)
    as (s' & Hrun & Hri' & (bds & pkts & p & ci & u & evs & ->) & Ha); [unfold zlen in *; lia|].
  eexists. split; [exact Hrun|]. split_and!; try done; unfold s1; counts.
Qed.

(** ** Starting a queue *)

(** What became of the packets taken from the queue: sent, themselves or as copies, or lost. *)
Inductive handled : list mbuf -> list mbuf -> Z -> Prop :=
  | handled_nil : handled [] [] 0
  | handled_sent m m' ms ms' k : packet_ok m' -> mbuf_bytes m' = mbuf_bytes m ->
      handled ms ms' k -> handled (m :: ms) (m' :: ms') k
  | handled_lost m ms ms' k : handled ms ms' k -> handled (m :: ms) ms' (k + 1).

(** The state [mx6q_start] leaves: the queue is empty, or the ring has no room for a packet and the
    interrupt is told to go on. *)
Definition start_result (s s' : mx6q) (c : nic) : Prop :=
  exists h sl ms ms' k, ring_inv s' c h sl /\ if_snd s = ms ++ if_snd s' /\ handled ms ms' k /\
    accepted (trace s') = accepted (trace s) ++ ms' /\ counted s s' (zlen ms') k /\
    ((if_snd s' = [] /\ if_oactive s' = false /\ tx_full s' = tx_full s) \/
     (tx_full s' = true /\ h = 0%nat /\
      num_tx_descriptors s' - tx_descr_inuse s' <= MX6Q_MAX_FRAGS)).

(** A turn of the loop once there is room. *)
Definition dequeue (envs : list env) (s : mx6q) : res mx6q :=
  match if_snd s, envs with
  | [], _ => mret (log (set_flags s (tx_full s) (tx_reaped s) false (if_snd s)) [EvUnlock])
  | m :: rest, e :: envs =>
      '(s, _) ← mx6q_tx MCLBYTES ptp e
                  (set_flags s (tx_full s) (tx_reaped s) (if_oactive s) rest) m;
      start_loop MCLBYTES ptp envs s
  | _ :: _, [] => Err NoFuel
  end.

Lemma start_loop_eq envs s :
  start_loop MCLBYTES ptp envs s =
    if num_tx_descriptors s - tx_descr_inuse s <=? MX6Q_MAX_FRAGS then
      s ← mx6q_transmit_complete ptp s;
      if num_tx_descriptors s - tx_descr_inuse s <=? MX6Q_MAX_FRAGS
      then mret (log (set_flags s true (tx_reaped s) (if_oactive s) (if_snd s)) [EvUnlock])
      else dequeue envs s
    else dequeue envs s.
Proof. by destruct envs. Qed.

(** Calls that transmit nothing before a start, or one packet of the queue. *)
Lemma start_result_pre s s1 s' c :
  same_control s s1 -> counted s s1 0 0 -> accepted (trace s1) = accepted (trace s) ->
  start_result s1 s' c -> start_result s s' c.
Proof.
  intros (_ & Hq & Hfull & _) [Hc1 Hc2] Ha (h & sl & ms & ms' & k & Hri & Hsnd & Hh & Hacc & [Ho1 Ho2] & Hend).
  exists h, sl, ms, ms', k. rewrite Hq in Hsnd. rewrite Ha in Hacc. rewrite Hfull in Hend.
  split_and!; try done. split; lia.
Qed.

Lemma start_result_cons s s1 s' c h sl m rest err :
  tx_result s s1 c h sl m err -> if_snd s = m :: rest -> if_snd s1 = rest -> tx_full s1 = tx_full s ->
  start_result s1 s' c -> start_result s s' c.
Proof.
  intros Htx Hq Hq1 Hfull (h' & sl' & ms & ms' & k & Hri & Hsnd & Hh & Hacc & [Ho1 Ho2] & Hend).
  rewrite Hfull in Hend. rewrite Hq1 in Hsnd.
  destruct Htx as [(_ & m' & Hpk & Hb & _ & Ha & [Hc1 Hc2])|(_ & _ & Ha & [Hc1 Hc2])].
  - exists h', sl', (m :: ms), (m' :: ms'), k. split_and!; try done.
    + by rewrite Hq, Hsnd.
    + by constructor.
    + by rewrite Hacc, Ha, <- app_assoc.
    + counts.
  - exists h', sl', (m :: ms), ms', (k + 1). split_and!; try done.
    + by rewrite Hq, Hsnd.
    + by constructor.
    + by rewrite Hacc, Ha.
    + split; lia.
Qed.

(** What the loop needs: the ring, packets to send, and what each of them meets. *)
Definition startable (envs : list env) (s : mx6q) (c : nic) : Prop :=
  (exists h sl, ring_inv s c h sl) /\ Forall packet_ok (if_snd s) /\ Forall env_ok envs /\
  (length (if_snd s) <= length envs)%nat.

Lemma dequeue_run envs s c :
  (forall e rest s, envs = e :: rest -> startable rest s c ->
     exists s', start_loop MCLBYTES ptp rest s = Ok s' /\ start_result s s' c) ->
  startable envs s c -> MX6Q_MAX_FRAGS < num_tx_descriptors s - tx_descr_inuse s ->
  exists s', dequeue envs s = Ok s' /\ start_result s s' c.
Proof.
  intros IH ((h & sl & Hri) & Hq & He & Hlen) Hroom. unfold dequeue.
  destruct (if_snd s) as [|m rest] eqn:Hs.
  - eexists. split; [reflexivity|]. exists h, sl, [], [], 0. split_and!; try done.
    + eapply ring_inv_same; [|exact Hri]. eapply same_ring_trans; [apply same_ring_flags|].
      by apply same_ring_log.
    + constructor.
    + cbn [log trace set_flags]. by rewrite accepted_app.
    + counts.
    + by left.
  - destruct envs as [|e envs]; [cbn in Hlen; lia|].
    apply Forall_cons in Hq as [Hm Hq], He as [He Hes].
    set (s1 := set_flags s (tx_full s) (tx_reaped s) (if_oactive s) rest).
    destruct (mx6q_tx_run e s1 c h sl m) as (s2 & err & Htx & Hsc & Hres); try done.
    { eapply ring_inv_same; [apply same_ring_flags|done]. }
    rewrite Htx. cbn [mbind res_bind]. destruct Hsc as (_ & Hq2 & Hfull & _).
    destruct (IH e envs s2 eq_refl) as (s' & Hrun & Hst).
    { split_and!; try done.
      - destruct Hres as [(_ & m' & _ & _ & Hri' & _)|(_ & Hri' & _)]; by do 2 eexists.
      - by rewrite Hq2.
      - rewrite Hq2. cbn in *. lia. }
    exists s'. split; [done|]. by eapply (start_result_cons s s2).
Qed.

(** The test for room, with the rest of the loop behind it. *)
Lemma start_room envs s c :
  (forall e rest s, envs = e :: rest -> startable rest s c ->
     exists s', start_loop MCLBYTES ptp rest s = Ok s' /\ start_result s s' c) ->
  startable envs s c -> exists s', start_loop MCLBYTES ptp envs s = Ok s' /\ start_result s s' c.
Proof.
  intros IH Hst. pose proof Hst as ((h & sl & Hri) & Hq & He & Hlen). rewrite start_loop_eq.
  destruct (Z.leb_spec (num_tx_descriptors s - tx_descr_inuse s) MX6Q_MAX_FRAGS) as [Hfull|Hroom];
    [|by apply dequeue_run].
  destruct (mx6q_transmit_complete_run s c h sl Hri) as (s1 & Hrun & Hri1 & Hsc & Hc & Ha).
  rewrite Hrun. cbn [mbind res_bind]. pose proof Hsc as (_ & Hq1 & _).
  destruct (Z.leb_spec (num_tx_descriptors s1 - tx_descr_inuse s1) MX6Q_MAX_FRAGS) as [Hf1|Hroom1].
  - eexists. split; [reflexivity|]. apply (start_result_pre s s1); try done.
    exists 0%nat, (drop h sl), [], [], 0. split_and!; try done.
    + eapply ring_inv_same; [|exact Hri1]. eapply same_ring_trans; [apply same_ring_flags|].
      by apply same_ring_log.
    + constructor.
    + cbn [log trace set_flags]. by rewrite accepted_app.
    + counts.
    + by right.
  - destruct (dequeue_run envs s1 c IH) as (s' & Hd & Hres); [|done|].
    + split_and!; rewrite ?Hq1; try done. by do 2 eexists.
    + exists s'. split; [done|]. by apply (start_result_pre s s1).
Qed.

Lemma start_loop_run envs s c :
  startable envs s c -> exists s', start_loop MCLBYTES ptp envs s = Ok s' /\ start_result s s' c.
Proof.
  revert s. induction envs as [|e envs IH]; intros s Hst; apply start_room; try done.
  intros e' rest s1 [= <- <-]. apply IH.
Qed.

Lemma mx6q_start_run envs s c :
  startable envs s c ->
  exists s', mx6q_start MCLBYTES ptp envs s = Ok s' /\
    if negb (if_tx_running s) || link_down s
    then same_ring s s' /\ if_snd s' = [] /\ trace s' = trace s ++ map EvFree (if_snd s) ++ [EvUnlock]
    else start_result s s' c.
Proof.
  intros Hst. pose proof Hst as ((h & sl & Hri) & Hq & He & Hlen). unfold mx6q_start.
  destruct (negb (if_tx_running s) || link_down s).
  - eexists. split; [reflexivity|]. split_and!; try done.
    eapply same_ring_trans; [apply same_ring_flags|].
    assert (Hf : forall l, accepted (map EvFree l) = [] /\ reaped (map EvFree l) = [])
      by (induction l; done).
    apply same_ring_log; rewrite ?accepted_app, ?reaped_app; by rewrite ?(proj1 (Hf _)), ?(proj2 (Hf _)).
  - destruct (start_loop_run envs (set_flags s (tx_full s) (tx_reaped s) true (if_snd s)) c)
      as (s' & Hrun & Hres).
    + split_and!; try done. exists h, sl. eapply ring_inv_same; [apply same_ring_flags|done].
    + exists s'. split; [done|]. done.
Qed.

(** A packet that goes around the stack. *)
Lemma mx6q_output_run e s c h sl m priority :
  ring_inv s c h sl -> packet_ok (add_header m) -> env_ok e ->
  priority <> 0 -> priority <> 1 ->
  exists s' err h' sl', mx6q_output MCLBYTES ptp e s m priority = Ok (s', err) /\
    if_snd s' = if_snd s /\ (h' = h /\ sl' = sl \/ h' = 0%nat /\ sl' = drop h sl) /\
    (tx_result s s' c h' sl' (add_header m) err \/
     (err = ENOBUFS /\ ring_inv s' c h' sl' /\ h' = 0%nat /\
      accepted (trace s') = accepted (trace s) /\ counted s s' 0 0 /\
      num_tx_descriptors s' - tx_descr_inuse s' <= MX6Q_MAX_FRAGS)).
Proof.
  intros Hri Hpk He Hp0 Hp1. unfold mx6q_output.
  rewrite (proj2 (Z.eqb_neq _ 0)), (proj2 (Z.eqb_neq _ 1)) by done. cbn [orb].
  assert (Hsend : forall s1 h1 sl1, ring_inv s1 c h1 sl1 -> if_snd s1 = if_snd s ->
    counted s s1 0 0 -> accepted (trace s1) = accepted (trace s) ->
    MX6Q_MAX_FRAGS < num_tx_descriptors s1 - tx_descr_inuse s1 ->
    exists s' err, ('(s, error) ← mx6q_tx MCLBYTES ptp e s1 (add_header m);
                    mret (log s [EvUnlock], error)) = Ok (s', err) /\
      if_snd s' = if_snd s /\ tx_result s s' c h1 sl1 (add_header m) err).
  { intros s1 h1 sl1 Hri1 Hq1 [Hc1 Hc2] Ha Hroom.
    destruct (mx6q_tx_run e s1 c h1 sl1 (add_header m)) as (s2 & err & Htx & (_ & Hq2 & _) & Hres);
      try done.
    rewrite Htx. do 2 eexists. split; [reflexivity|]. split; [cbn; congruence|].
    assert (Hsame : same_ring s2 (log s2 [EvUnlock])) by (by apply same_ring_log).
    destruct Hres as [(-> & m' & Hpk' & Hb & Hri2 & Ha2 & [Ho1 Ho2])|(-> & Hri2 & Ha2 & [Ho1 Ho2])].
    - left. split; [done|]. exists m'. split_and!; try done.
      + by eapply ring_inv_same.
      + rewrite (sr_accepted _ _ Hsame). congruence.
      + counts.
    - right. split_and!; try done.
      + by eapply ring_inv_same.
      + rewrite (sr_accepted _ _ Hsame). congruence.
      + counts. }
  destruct (Z.leb_spec (num_tx_descriptors s - tx_descr_inuse s) MX6Q_MAX_FRAGS) as [Hf|Hroom].
  - destruct (mx6q_transmit_complete_run s c h sl Hri) as (s1 & Hrun & Hri1 & Hsc & Hc & Ha).
    rewrite Hrun. cbn [mbind res_bind]. pose proof Hsc as (_ & Hq1 & _).
    destruct (Z.leb_spec (num_tx_descriptors s1 - tx_descr_inuse s1) MX6Q_MAX_FRAGS) as [Hf1|Hroom1].
    + do 2 eexists. exists 0%nat, (drop h sl). split; [reflexivity|]. split; [done|].
      split; [by right|]. right. split_and!; try done.
      * eapply ring_inv_same; [|exact Hri1]. by apply same_ring_log.
      * cbn [log trace]. rewrite accepted_app, Ha. apply app_nil_r.
    + destruct (Hsend s1 0%nat (drop h sl)) as (s' & err & Htx & Hq' & Hres); try done.
      exists s', err, 0%nat, (drop h sl). split_and!; try done; [by right|by left].
  - destruct (Hsend s h sl) as (s' & err & Htx & Hq' & Hres); try done; [split; lia|].
    exists s', err, h, sl. split_and!; try done; [by left|by left].
Qed.

(** Stopping when the controller has sent everything: there is nothing to clear, and the ring is
    empty. *)
Lemma stop_clear_empty k i s :
  0 <= i -> (forall j, i <= j < i + Z.of_nat k -> tx_pkts s !! Z.to_nat j = Some None) ->
  stop_clear k i s = Ok s.
Proof.
  revert i. induction k as [|k IH]; intros i Hi Hnone; cbn [stop_clear]; [done|].
  rewrite (Hnone i) by lia. cbn [get_or_bad mbind res_bind]. apply IH; [lia|]. intros j Hj.
  apply Hnone. lia.
Qed.

Lemma mx6q_stop_tx_idle s c h sl :
  ring_inv s c h sl -> nic_step s c = None ->
  exists s', mx6q_stop_tx ptp s = Ok s' /\ ring_inv s' c 0 [] /\ if_snd s' = if_snd s /\
    accepted (trace s') = accepted (trace s).
Proof.
  intros Hri Hidle. pose proof (nic_step_run _ _ _ _ Hri) as Hstep.
  destruct (sl !! h) eqn:Hh; [destruct Hstep as (? & ? & ? & _); congruence|].
  apply lookup_ge_None in Hh. unfold mx6q_stop_tx.
  destruct (mx6q_transmit_complete_run s c h sl Hri) as (s1 & Hrun & Hri1 & (Hn & Hq & _) & _ & Ha).
  rewrite drop_ge in Hri1 by done. rewrite Hrun. cbn [mbind res_bind].
  pose proof Hri1 as [Hn1 _ _ Hci Hpi Hu _ _ _ _ Hfree _ _ _].
  rewrite zlen_nil in Hpi, Hu. rewrite (proj2 (place_round _ _ Hci)) in Hpi.
  rewrite stop_clear_empty; [|lia|].
  - cbn [mbind res_bind]. eexists. split; [reflexivity|]. split_and!; try done.
    eapply ring_inv_same; [|exact Hri1]. by constructor.
  - intros x Hx. destruct (Hfree ((x - tx_cidx s1) mod num_tx_descriptors s1)) as [Hp _].
    + rewrite zlen_nil. apply Z.mod_pos_bound. lia.
    + unfold place in Hp. rewrite Zplus_mod_idemp_r in Hp.
      replace (tx_cidx s1 + (x - tx_cidx s1)) with x in Hp by lia. by rewrite Z.mod_small in Hp by lia.
Qed.
End Ops.
