(* ===== verification/EnetRun.v ===== *)
(** * EnetRun: a running interface: the transmit calls and the controller, step by step.

    The calls of the driver, the steps of the controller and what the stack and the link do in
    between form a step relation; the theorems hold in every state it reaches.  A call is one step;
    [controller_during_load] justifies that for the one place where the two work at the same time. *)

From stdpp Require Import relations.
From S2P Require Import Prelude.
From S2P Require Import Enet.
From S2P Require Import EnetRing.
From S2P Require Import EnetOps.

(** The link and the interface go up and down. *)
Definition set_link (s : mx6q) (running tx_running down : bool) : mx6q :=
  {| num_tx_descriptors := num_tx_descriptors s; tx_bd := tx_bd s; tx_pkts := tx_pkts s;
     tx_pidx := tx_pidx s; tx_cidx := tx_cidx s; tx_descr_inuse := tx_descr_inuse s;
     tx_full := tx_full s; tx_reaped := tx_reaped s;
     if_running := running; if_tx_running := tx_running; if_oactive := if_oactive s;
     link_down := down; if_snd := if_snd s; if_opackets := if_opackets s;
     if_oerrors := if_oerrors s; tx_failed_allocs := tx_failed_allocs s;
     internal_tx_errors := internal_tx_errors s; trace := trace s |}.

(** The stack puts a packet on the queue. *)
Definition enqueue (s : mx6q) (m : mbuf) : mx6q :=
  set_flags s (tx_full s) (tx_reaped s) (if_oactive s) (if_snd s ++ [m]).

(** The controller before its first frame. *)
Definition nic_reset : nic := {| hw_idx := 0; hw_cur := []; hw_sent := [] |}.

(** The controller, as long as it finds ready descriptors. *)
Fixpoint nic_run (fuel : nat) (s : mx6q) (c : nic) : mx6q * nic :=
  match fuel with
  | O => (s, c)
  | S fuel => match nic_step s c with
              | Some (s', c') => nic_run fuel s' c'
              | None => (s, c)
              end
  end.

(** The packets in the ring, oldest first. *)
Definition held (s : mx6q) : list mbuf :=
  omap (fun j => mjoin (tx_pkts s !! Z.to_nat (place (num_tx_descriptors s) (tx_cidx s) (Z.of_nat j))))
       (seq 0 (Z.to_nat (tx_descr_inuse s))).

Section Run.
Variable MCLBYTES : Z.
Variable ptp : list frag -> bool.

(** The steps; with [graceful], [mx6q_stop] is called only when the controller has sent all it was given,
    without, at any time. *)
Inductive step (graceful : bool) : mx6q * nic -> mx6q * nic -> Prop :=
  | step_nic s c s' c' : nic_step s c = Some (s', c') -> step graceful (s, c) (s', c')
  | step_enqueue s c m : packet_ok m -> step graceful (s, c) (enqueue s m, c)
  | step_link s c running tx_running down : step graceful (s, c) (set_link s running tx_running down, c)
  | step_start envs s c s' :
      Forall env_ok envs -> (length (if_snd s) <= length envs)%nat ->
      mx6q_start MCLBYTES ptp envs s = Ok s' -> step graceful (s, c) (s', c)
  | step_interrupt envs s c s' :
      Forall env_ok envs -> (length (if_snd s) <= length envs)%nat ->
      process_interrupt_turn MCLBYTES ptp envs s = Ok s' -> step graceful (s, c) (s', c)
  | step_output e m priority s c s' err :
      env_ok e -> packet_ok (add_header m) ->
      mx6q_output MCLBYTES ptp e s m priority = Ok (s', err) -> step graceful (s, c) (s', c)
  | step_stop s c s' :
      (graceful = true -> nic_step s c = None) -> mx6q_stop_tx ptp s = Ok s' -> step graceful (s, c) (s', c)
  | step_complete s c s' : mx6q_transmit_complete ptp s = Ok s' -> step graceful (s, c) (s', c).

(** The states of an interface that was brought up with [n] transmit descriptors asked for and is only
    stopped when the controller is done; and those of any interface. *)
Definition reachable (n : Z) (x : mx6q * nic) : Prop := rtc (step true) (init_tx n, nic_reset) x.
Definition reachable_any (n : Z) (x : mx6q * nic) : Prop := rtc (step false) (init_tx n, nic_reset) x.

(** What every state has: a ring, and packets on the queue. *)
Definition run_ok (x : mx6q * nic) : Prop :=
  (exists h sl, ring_inv (fst x) (snd x) h sl) /\ Forall packet_ok (if_snd (fst x)).

Lemma clamp_descriptors_range n : 64 <= clamp_descriptors n <= 2048.
Proof.
  unfold clamp_descriptors, MIN_NUM_TX_DESCRIPTORS, MAX_NUM_TX_DESCRIPTORS.
  repeat match goal with |- context [?a <? ?b] => destruct (Z.ltb_spec a b) end; lia.
Qed.

Lemma init_bds_lookup n i :
  0 <= i < n -> exists b, init_bds n !! Z.to_nat i = Some b /\
    bd_status b = status (i =? n - 1) false false.
Proof.
  intros Hi. unfold init_bds. rewrite list_lookup_fmap, lookup_seq_lt by lia. cbn.
  eexists. split; [done|]. cbn [bd_status]. rewrite Z2Nat.id by lia. by destruct (i =? n - 1).
Qed.

Lemma init_ring n : ring_inv (init_tx n) nic_reset 0 [].
Proof.
  pose proof (clamp_descriptors_range n) as Hn.
  unfold init_tx. set (k := clamp_descriptors n) in *.
  constructor; cbn [num_tx_descriptors tx_bd tx_pkts tx_cidx tx_pidx tx_descr_inuse trace
    internal_tx_errors hw_idx hw_cur hw_sent nic_reset]; try done; rewrite ?zlen_nil; try lia.
  - unfold zlen, init_bds. rewrite length_map, length_seq. lia.
  - unfold zlen. rewrite length_replicate. lia.
  - intros j Hj. pose proof (place_bounds k 0 j ltac:(lia)). split.
    + apply lookup_replicate_2. lia.
    + by apply init_bds_lookup.
  - by exists [].
Qed.

Hypothesis MCLBYTES_range : 0 < MCLBYTES < 2 ^ 16.

Lemma run_startable envs s c :
  run_ok (s, c) -> Forall env_ok envs -> (length (if_snd s) <= length envs)%nat -> startable envs s c.
Proof. intros [Hri Hq] He Hl. split_and!; done. Qed.

Lemma start_run_ok envs s c s' :
  startable envs s c -> mx6q_start MCLBYTES ptp envs s = Ok s' -> run_ok (s', c).
Proof.
  intros Hst Hrun. destruct (mx6q_start_run MCLBYTES ptp MCLBYTES_range envs s c Hst)
    as (s2 & Hrun2 & Hres). rewrite Hrun in Hrun2. injection Hrun2 as <-.
  destruct Hst as ((h & sl & Hri) & Hq & _). destruct (_ || _).
  - destruct Hres as (Hsame & Hsnd & _). split; cbn [fst snd].
    + exists h, sl. by eapply ring_inv_same.
    + by rewrite Hsnd.
  - destruct Hres as (h' & sl' & ms & ms' & k & Hri' & Hsnd & _). split; cbn [fst snd].
    + by do 2 eexists.
    + rewrite Hsnd in Hq. by apply Forall_app in Hq as [_ ?].
Qed.

Lemma step_run_ok x y : step true x y -> run_ok x -> run_ok y.
Proof.
  intros Hstep Hok. pose proof Hok as [(h & sl & Hri) Hq].
  destruct Hstep as [s c s' c' Hn|s c m Hm|s c running tx_running down|envs s c s' He Hl Hrun
    |envs s c s' He Hl Hrun|e m priority s c s' err He Hm Hrun|s c s' Hidle Hrun|s c s' Hrun]; cbn [fst snd] in *.
  - pose proof (nic_step_run _ _ _ _ Hri) as Hstep. destruct (sl !! h); [|congruence].
    destruct Hstep as (s2 & c2 & Hn2 & Hri2 & _). rewrite Hn in Hn2. injection Hn2 as <- <-.
    split; cbn [fst snd]; [by do 2 eexists|]. unfold nic_step in Hn.
    destruct (tx_bd s !! _); [|done]. cbn [mbind option_bind] in Hn.
    destruct (_ =? 0); [done|]. by injection Hn as <- _.
  - split; cbn [fst snd enqueue set_flags if_snd].
    + exists h, sl. eapply ring_inv_same; [apply same_ring_flags|done].
    + by apply Forall_app_2, Forall_singleton.
  - split; [|done]. exists h, sl. cbn [fst snd]. eapply ring_inv_same; [|done]. by constructor.
  - eapply start_run_ok; [by apply run_startable|done].
  - unfold process_interrupt_turn in Hrun. destruct (tx_full s).
    + eapply start_run_ok; [|exact Hrun]. apply run_startable; [|done..].
      split; [|done]. exists h, sl. eapply ring_inv_same; [apply same_ring_flags|done].
    + by injection Hrun as <-.
  - unfold mx6q_output in Hrun. destruct (Z.eqb_spec priority 0) as [|Hp0]; cbn [orb] in Hrun.
    1: injection Hrun as <- _; split; [|done]; exists h, sl; cbn [fst snd];
       eapply ring_inv_same; [|done]; by apply same_ring_log.
    destruct (Z.eqb_spec priority 1) as [|Hp1].
    1: injection Hrun as <- _; split; [|done]; exists h, sl; cbn [fst snd];
       eapply ring_inv_same; [|done]; by apply same_ring_log.
    destruct (mx6q_output_run MCLBYTES ptp MCLBYTES_range e s c h sl m priority Hri Hm He Hp0 Hp1)
      as (s2 & err2 & h' & sl' & Hrun2 & Hq2 & _ & Hres).
    unfold mx6q_output in Hrun2.
    rewrite (proj2 (Z.eqb_neq priority 0)), (proj2 (Z.eqb_neq priority 1)) in Hrun2 by done.
    cbn [orb] in Hrun2. rewrite Hrun in Hrun2. injection Hrun2 as <- <-.
    split; cbn [fst snd]; [|by rewrite Hq2].
    destruct Hres as [[(_ & m' & _ & _ & Hri2 & _)|(_ & Hri2 & _)]|(_ & Hri2 & _)]; by do 2 eexists.
  - destruct (mx6q_stop_tx_idle ptp s c h sl Hri (Hidle eq_refl)) as (s2 & Hrun2 & Hri2 & Hq2 & _).
    rewrite Hrun in Hrun2. injection Hrun2 as <-. split; cbn [fst snd]; [by do 2 eexists|by rewrite Hq2].
  - destruct (mx6q_transmit_complete_run ptp s c h sl Hri) as (s2 & Hrun2 & Hri2 & (_ & Hq2 & _) & _).
    rewrite Hrun in Hrun2. injection Hrun2 as <-. split; cbn [fst snd]; [by do 2 eexists|by rewrite Hq2].
Qed.

Lemma reachable_run_ok n x : reachable n x -> run_ok x.
Proof.
  intros Hr. assert (H0 : run_ok (init_tx n, nic_reset)).
  { split; [|done]. exists 0%nat, []. apply init_ring. }
  revert H0. unfold reachable in Hr. induction Hr as [|x y z Hxy _ IH]; [done|].
  intros Hx. apply IH. by eapply step_run_ok.
Qed.

(** ** What holds in every state *)

Lemma omap_cons {A B} (f : A -> option B) x l :
  omap f (x :: l) = match f x with Some y => y :: omap f l | None => omap f l end.
Proof. done. Qed.

Lemma held_slots s c h sl : ring_inv s c h sl -> held s = omap sl_mbuf sl.
Proof.
  intros [_ _ _ _ _ Hu _ _ _ Hused _ _ _ _]. unfold held. rewrite Hu. unfold zlen. rewrite Nat2Z.id.
  set (f := fun j => mjoin (tx_pkts s !! _)).
  assert (Hgen : forall l k, (forall j x, l !! j = Some x -> sl !! (k + j)%nat = Some x) ->
    omap f (seq k (length l)) = omap sl_mbuf l).
  { induction l as [|x l IH]; intros k Hl; [done|]. cbn [length seq]. rewrite !omap_cons, (IH (S k)).
    - destruct (Hused k x) as [Hpk _]; [rewrite <- (Nat.add_0_r k); by apply Hl|].
      unfold f at 1. by rewrite Hpk.
    - intros j y Hy. replace (S k + j)%nat with (k + S j)%nat by lia. by apply Hl. }
  by apply (Hgen sl 0%nat).
Qed.

(** C20.  as long as [mx6q_stop] is only called when the controller has sent all it was given: no state a
    running interface reaches has met a ready descriptor where a free one was due (the error the code
    says should never happen); the frames the controller has sent are the first
    of the packets accepted, in their order, each once; every packet accepted is given back once, in
    order, or is still in the ring.  (A stop with frames pending leaves ready descriptors behind, and
    the error does happen: [DemoEnet.stop_leaves_ready].) *)
Theorem transmit_ring_safe n s c :
  reachable n (s, c) ->
  internal_tx_errors s = 0 /\
  0 <= tx_descr_inuse s < num_tx_descriptors s /\
  (exists later, map frame_of (accepted (trace s)) = hw_sent c ++ later) /\
  accepted (trace s) = reaped (trace s) ++ held s.
Proof.
  intros [(h & sl & Hri) _]%reachable_run_ok. cbn [fst snd] in Hri.
  rewrite (held_slots _ _ _ _ Hri). destruct Hri as [_ _ _ _ _ Hu Hroom _ _ _ _ Hacc (fs & _ & Hfr) Herr].
  rewrite Hu. pose proof (zlen_nonneg sl). split_and!; try done. by exists fs.
Qed.

Lemma nic_run_idle s c h sl :
  ring_inv s c h sl ->
  let '(s', c') := nic_run (length sl - h) s c in
  ring_inv s' c' (length sl) sl /\ trace s' = trace s /\ num_tx_descriptors s' = num_tx_descriptors s.
Proof.
  intros Hri. pose proof (ri_h _ _ _ _ Hri) as Hh.
  remember (length sl - h)%nat as k eqn:Hk. revert s c h Hri Hh Hk.
  induction k as [|k IH]; intros s c h Hri Hh Hk; cbn [nic_run].
  - by replace (length sl) with h by lia.
  - pose proof (nic_step_run _ _ _ _ Hri) as Hstep.
    destruct (lookup_lt_is_Some_2 sl h) as [x Hx]; [lia|]. rewrite Hx in Hstep.
    destruct Hstep as (s1 & c1 & Hs & Hri1 & Ht). rewrite Hs.
    assert (Hn : num_tx_descriptors s1 = num_tx_descriptors s).
    { unfold nic_step in Hs. destruct (tx_bd s !! _); [|done]. cbn [mbind option_bind] in Hs.
      destruct (_ =? 0); [done|]. by injection Hs as <- _. }
    specialize (IH s1 c1 (S h) Hri1 ltac:(lia) ltac:(lia)).
    destruct (nic_run k s1 c1) as [s' c']. destruct IH as (? & ? & ?). split_and!; congruence.
Qed.

(** C21.  as long as [mx6q_stop] is only called when the controller has sent all it was given (else the
    packets in the ring are freed unsent), what was accepted is sent: from every state of a running
    interface, the controller is idle after as many steps as there are descriptors in use; it has then
    sent the frames of all packets accepted, and the next reaping gives every packet back and leaves
    the ring empty. *)
Theorem everything_is_sent n s c :
  reachable n (s, c) ->
  let '(s1, c1) := nic_run (Z.to_nat (tx_descr_inuse s)) s c in
  nic_step s1 c1 = None /\ hw_cur c1 = [] /\ hw_sent c1 = map frame_of (accepted (trace s)) /\
  exists s2, mx6q_transmit_complete ptp s1 = Ok s2 /\ tx_descr_inuse s2 = 0 /\ held s2 = [] /\
    tx_pidx s2 = tx_cidx s2 /\ reaped (trace s2) = accepted (trace s).
Proof.
  intros [(h & sl & Hri) _]%reachable_run_ok. cbn [fst snd] in Hri.
  assert (Hmore : forall k s c, nic_step s c = None -> nic_run k s c = (s, c)).
  { clear. intros [|k] s c Hn; [done|]. cbn. by rewrite Hn. }
  assert (Hadd : forall a b s c, nic_run (a + b) s c = let '(s', c') := nic_run a s c in nic_run b s' c').
  { clear - Hmore. induction a as [|a IH]; intros b s c; [done|]. cbn [nic_run Nat.add].
    destruct (nic_step s c) as [[s' c']|] eqn:Hn; [apply IH|]. by rewrite Hmore. }
  pose proof (ri_inuse _ _ _ _ Hri) as Hu. pose proof (ri_h _ _ _ _ Hri) as Hh.
  replace (Z.to_nat (tx_descr_inuse s)) with ((length sl - h) + h)%nat by (unfold zlen in *; lia).
  rewrite Hadd. pose proof (nic_run_idle _ _ _ _ Hri) as Hrun.
  destruct (nic_run (length sl - h) s c) as [s1 c1]. destruct Hrun as (Hri1 & Ht & _).
  pose proof (nic_step_run _ _ _ _ Hri1) as Hidle. rewrite lookup_ge_None_2 in Hidle by lia.
  rewrite Hmore by done. split; [done|].
  destruct (ri_frames _ _ _ _ Hri1) as (fs & Hfs & Hsent).
  rewrite drop_all in Hfs. cbn in Hfs. injection Hfs as <- Hcur. rewrite app_nil_r in Hsent.
  split; [done|]. split; [congruence|].
  destruct (mx6q_transmit_complete_run ptp s1 c1 _ _ Hri1) as (s2 & Hc & Hri2 & _ & _ & Ha).
  rewrite drop_all in Hri2. exists s2. split; [done|].
  pose proof (held_slots _ _ _ _ Hri2) as Hheld.
  destruct Hri2 as [_ _ _ Hci Hpi Hu2 _ _ _ _ _ Hacc _ _].
  split_and!; [done|done| |].
  - rewrite Hpi, zlen_nil. by apply place_round.
  - cbn in Hacc. rewrite app_nil_r in Hacc. congruence.
Qed.

(** [mx6q_last_bd_active] says whether the controller still has a descriptor to send. *)
Theorem last_bd_active_correct n s c :
  reachable n (s, c) ->
  mx6q_last_bd_active s = Ok (match nic_step s c with Some _ => true | None => false end).
Proof.
  intros [(h & sl & Hri) _]%reachable_run_ok. cbn [fst snd] in Hri.
  pose proof (nic_step_run _ _ _ _ Hri) as Hstep.
  destruct Hri as [Hn Hb _ Hci Hpi _ Hroom Hh _ Hused Hfree _ _ _].
  unfold mx6q_last_bd_active. set (k := num_tx_descriptors s) in *.
  assert (Hidx : (if negb (tx_pidx s =? 0) then tx_pidx s - 1 else k - 1)
    = place k (tx_cidx s) (zlen sl - 1)).
  { rewrite Hpi. unfold place. replace (tx_cidx s + (zlen sl - 1)) with (tx_cidx s + zlen sl - 1) by lia.
    set (x := tx_cidx s + zlen sl).
    assert (Hx : x = k * (x / k) + x mod k) by (apply Z.div_mod; lia).
    pose proof (Z.mod_pos_bound x k ltac:(lia)). destruct (Z.eqb_spec (x mod k) 0) as [He|He]; cbn [negb].
    - apply Z.mod_unique with (q := x / k - 1); lia.
    - apply Z.mod_unique with (q := x / k); lia. }
  rewrite Hidx. destruct (decide (sl = [])) as [->|Hne].
  - destruct (Hfree (k - 1)) as (_ & b & Hbd & Hst); [rewrite zlen_nil; lia|].
    replace (place k (tx_cidx s) (zlen [] - 1)) with (place k (tx_cidx s) (k - 1)).
    2: { unfold place. rewrite zlen_nil. replace (tx_cidx s + (k - 1)) with (tx_cidx s + (0 - 1) + 1 * k) by lia.
         apply Z_mod_plus_full. }
    rewrite Hbd. cbn [get_or_bad mbind res_bind]. rewrite Hst, status_R. cbn in Hh.
    rewrite lookup_nil in Hstep. by rewrite Hstep.
  - assert (Hp : (0 < length sl)%nat) by (destruct sl; [done|cbn; lia]).
    destruct (lookup_lt_is_Some_2 sl (length sl - 1)) as [x Hx]; [lia|].
    destruct (Hused _ x Hx) as (_ & b & Hbd & Huo).
    replace (Z.of_nat (length sl - 1)) with (zlen sl - 1) in * by (unfold zlen; lia).
    rewrite Hbd. cbn [get_or_bad mbind res_bind]. rewrite (uo_status _ _ _ _ _ Huo), status_R, negb_involutive.
    destruct (sl !! h) as [y|] eqn:Hy.
    + destruct Hstep as (s' & c' & -> & _). apply lookup_lt_Some in Hy. by rewrite bool_decide_true by lia.
    + rewrite Hstep. apply lookup_ge_None in Hy. by rewrite bool_decide_false by lia.
Qed.

(** ** The controller at work while a packet is loaded *)

(** Loading does not look at the descriptors of the packets before. *)
Lemma load_frame c s idx first last ts i b :
  let n := num_tx_descriptors s in
  0 <= idx < n -> 0 <= i -> zlen (tx_bd s) = n ->
  (forall j, 0 <= j < zlen (nonempty c) -> place n idx j <> i) ->
  load ptp c (set_bds s (<[Z.to_nat i := b]> (tx_bd s))) idx first last ts =
    '(s', r) ← load ptp c s idx first last ts;
    mret (set_bds s' (<[Z.to_nat i := b]> (tx_bd s')), r).
Proof.
  revert s idx first last ts. induction c as [|f c IH]; intros s idx first last ts n Hidx Hi Hb Hj;
    cbn [load]; [done|].
  unfold nonempty in Hj. rewrite filter_cons in Hj. fold (nonempty c) in Hj.
  destruct (Z.eqb_spec (m_len f) 0) as [He|He].
  { rewrite decide_False in Hj by (intros Hne; by apply Hne). by apply IH. }
  rewrite decide_True, zlen_cons in Hj by done. pose proof (zlen_nonneg (nonempty c)).
  destruct (place_round n idx Hidx) as [_ Hzero].
  assert (Hne : idx <> i) by (rewrite <- Hzero; apply Hj; lia).
  cbn [tx_bd set_bds set_ring]. rewrite list_lookup_insert_ne by lia.
  destruct (tx_bd s !! Z.to_nat idx) as [b0|] eqn:Hb0; cbn [get_or_bad mbind res_bind]; [|done].
  destruct (negb _); [done|].
  set (triple := match first with Some i => _ | None => _ end). destruct triple as [[ready first'] ts'].
  set (b' := {| bd_length := _ |}). unfold NEXT_TX. cbn [num_tx_descriptors log set_bds set_ring].
  fold n. set (evs := [EvFlush _ _]). change ((idx + 1) mod n) with (place n idx 1).
  set (s1 := if place n idx 1 =? 0 then log (log (set_bds s (<[Z.to_nat idx:=b']> (tx_bd s))) evs) [EvStats]
             else log (set_bds s (<[Z.to_nat idx:=b']> (tx_bd s))) evs).
  assert (Hs1 : num_tx_descriptors s1 = n /\ tx_bd s1 = <[Z.to_nat idx:=b']> (tx_bd s))
    by (unfold s1; by destruct (_ =? 0)).
  destruct Hs1 as [Hn1 Hb1].
  rewrite <- (IH s1).
  - f_equal. rewrite Hb1, list_insert_insert_ne by lia. unfold s1. by destruct (place n idx 1 =? 0).
  - rewrite Hn1. apply place_bounds. lia.
  - done.
  - rewrite Hn1, Hb1. unfold zlen in *. by rewrite length_insert.
  - rewrite Hn1. intros j Hj'. rewrite place_shift by lia. apply Hj. lia.
Qed.

(** the controller may work while fragments of the next packet are loaded: a step it takes then
    is the step it could have taken before, with the same effect, and it never takes one of the
    packet's descriptors, because the first is made ready last.  So a call of the driver counts as
    one step. *)
Theorem controller_during_load n s c fs :
  reachable n (s, c) -> tx_descr_inuse s + zlen (nonempty fs) < num_tx_descriptors s ->
  exists sm r, load ptp fs s (tx_pidx s) None None false = Ok (sm, Some r) /\
    match nic_step s c with
    | None => nic_step sm c = None
    | Some (s', c') => exists sm', nic_step sm c = Some (sm', c') /\
        load ptp fs s' (tx_pidx s') None None false = Ok (sm', Some r)
    end.
Proof.
  intros [(h & sl & Hri) _]%reachable_run_ok Hroom. cbn [fst snd] in Hri.
  destruct Hri as [Hn Hb _ Hci Hpi Hu _ Hh Hhw Hused Hfree _ _ _]. rewrite Hu in Hroom.
  set (k := num_tx_descriptors s) in *. pose proof (zlen_nonneg (nonempty fs)).
  pose proof (zlen_nonneg sl). pose proof (place_bounds k (tx_cidx s) (zlen sl) ltac:(lia)) as Hpb.
  destruct (load_run ptp fs s (tx_pidx s) None None false) as (bds & evs & Hload & _ & _ & [_ Hrest Hdone]);
    try (rewrite ?Hpi; fold k; lia).
  { fold k. intros j Hj. rewrite Hpi, place_place by lia.
    destruct (Hfree (zlen sl + j)) as (_ & b & Hbd & Hst); [lia|]. exists b. split; [done|].
    apply Z.eqb_eq. by rewrite Hst, status_R. }
  fold k in Hload, Hrest, Hdone. do 2 eexists. split; [exact Hload|].
  set (sm := log (set_bds s bds) evs) in *.
  pose proof (place_bounds k (tx_cidx s) (Z.of_nat h) ltac:(lia)) as Hhb.
  destruct (decide (h = length sl)) as [->|Hlt].
  - (* the controller waits for the packet *)
    destruct (Hfree (zlen sl) ltac:(lia)) as (_ & b0 & Hb0 & Hst).
    assert (Hsm : exists b, tx_bd sm !! Z.to_nat (hw_idx c) = Some b /\ Z.land (bd_status b) TXBD_R = 0).
    { rewrite Hhw. fold (zlen sl). change (tx_bd sm) with bds.
      replace (place k (tx_cidx s) (zlen sl)) with (place k (tx_pidx s) 0) in *
        by (rewrite Hpi, place_place by lia; f_equal; lia).
      destruct (nonempty fs) as [|f r] eqn:Hfs.
      - exists b0. rewrite Hrest by (rewrite zlen_nil; lia). split; [done|].
        apply Z.eqb_eq. by rewrite Hst, status_R.
      - destruct (Hdone 0%nat f eq_refl) as (b1 & b & Hb1 & Hbd & Hst1 & _).
        change (Z.of_nat 0) with 0 in *. exists b. split; [done|]. rewrite Hb0 in Hb1. injection Hb1 as <-.
        rewrite Hst1, Hst. apply Z.eqb_eq. rewrite bool_decide_false by (intros []; done).
        cbn [orb Z.ltb]. by rewrite status_zero, status_R. }
    destruct Hsm as (b & Hbd & HR). unfold nic_step. rewrite Hbd, Hhw. fold (zlen sl). rewrite Hb0.
    cbn [mbind option_bind]. by rewrite HR, Hst, status_R.
  - assert (Hhl : Z.of_nat h < zlen sl) by (unfold zlen; lia).
    assert (Hsame : tx_bd sm !! Z.to_nat (hw_idx c) = tx_bd s !! Z.to_nat (hw_idx c)).
    { rewrite Hhw. change (tx_bd sm) with bds.
      specialize (Hrest (k + Z.of_nat h - zlen sl)). rewrite Hpi, place_place in Hrest by lia.
      replace (zlen sl + (k + Z.of_nat h - zlen sl)) with (Z.of_nat h + k) in Hrest by lia.
      rewrite place_wrap in Hrest by lia. apply Hrest. lia. }
    unfold nic_step. rewrite Hsame. destruct (tx_bd s !! Z.to_nat (hw_idx c)) as [b|]; [|done].
    cbn [mbind option_bind]. destruct (_ =? 0); [done|]. eexists. split; [reflexivity|].
    change (tx_pidx (set_bds s _)) with (tx_pidx s). rewrite load_frame, Hload; fold k; try done; try lia.
    intros j Hj. rewrite Hpi, place_place, Hhw by lia. intros He. apply place_inj in He; lia.
Qed.

(** ** The calls, from every state *)

(** C37.  In every such state [mx6q_start] returns.  With the interface or the link down it frees the
    queue and sends nothing; otherwise every packet it takes from the queue is sent, in order, as itself
    or as a copy of its bytes, or is counted as lost; and it stops because the queue is empty, or because
    the ring has no room for another packet and the completion interrupt is told to go on. *)
Theorem mx6q_start_correct n envs s c :
  reachable n (s, c) -> Forall env_ok envs -> (length (if_snd s) <= length envs)%nat ->
  exists s', mx6q_start MCLBYTES ptp envs s = Ok s' /\ reachable n (s', c) /\
    if negb (if_tx_running s) || link_down s
    then if_snd s' = [] /\ trace s' = trace s ++ map EvFree (if_snd s) ++ [EvUnlock]
    else exists ms sent lost, if_snd s = ms ++ if_snd s' /\ handled ms sent lost /\
      accepted (trace s') = accepted (trace s) ++ sent /\ counted s s' (zlen sent) lost /\
      ((if_snd s' = [] /\ if_oactive s' = false) \/
       (tx_full s' = true /\ num_tx_descriptors s' - tx_descr_inuse s' <= MX6Q_MAX_FRAGS)).
Proof.
  intros Hr He Hl. pose proof (reachable_run_ok n _ Hr) as Hok.
  destruct (mx6q_start_run MCLBYTES ptp MCLBYTES_range envs s c) as (s' & Hrun & Hres);
    [by apply run_startable|].
  exists s'. split; [done|]. split; [eapply rtc_r; [exact Hr|]; by eapply step_start|].
  destruct (_ || _); [by destruct Hres as (_ & ? & ?)|].
  destruct Hres as (h & sl & ms & ms' & k & _ & Hsnd & Hh & Ha & Hc & Hend).
  exists ms, ms', k. split_and!; try done. destruct Hend as [(? & ? & _)|(? & _ & ?)]; auto.
Qed.

(** [mx6q_output] returns.  A packet of priority 0 or 1 goes to the stack; any other gets its
    header back and is sent at once (itself, or a copy of its bytes) or counted as lost, or is
    refused with ENOBUFS when even reaping leaves no room. *)
Theorem mx6q_output_correct n e s c m priority :
  reachable n (s, c) -> env_ok e -> packet_ok (add_header m) ->
  exists s' err, mx6q_output MCLBYTES ptp e s m priority = Ok (s', err) /\ reachable n (s', c) /\
    if (priority =? 0) || (priority =? 1) then s' = log s [EvStackOutput m] /\ err = EOK
    else (err = EOK /\ exists m', mbuf_bytes m' = mbuf_bytes (add_header m) /\
            accepted (trace s') = accepted (trace s) ++ [m'] /\ counted s s' 1 0) \/
         (err = ENOMEM /\ accepted (trace s') = accepted (trace s) /\ counted s s' 0 1) \/
         (err = ENOBUFS /\ accepted (trace s') = accepted (trace s) /\ counted s s' 0 0 /\
          num_tx_descriptors s' - tx_descr_inuse s' <= MX6Q_MAX_FRAGS).
Proof.
  intros Hr He Hm. pose proof (reachable_run_ok n _ Hr) as [(h & sl & Hri) _]. cbn [fst snd] in Hri.
  assert (Hstep : forall s' err, mx6q_output MCLBYTES ptp e s m priority = Ok (s', err) ->
    reachable n (s', c)).
  { intros s' err Hrun. eapply rtc_r; [exact Hr|]. by eapply step_output. }
  destruct ((priority =? 0) || (priority =? 1)) eqn:Hp.
  - exists (log s [EvStackOutput m]), EOK.
    assert (Hrun : mx6q_output MCLBYTES ptp e s m priority = Ok (log s [EvStackOutput m], EOK))
      by (unfold mx6q_output; by rewrite Hp).
    split_and!; try done. by eapply Hstep.
  - apply orb_false_iff in Hp as [Hp0%Z.eqb_neq Hp1%Z.eqb_neq].
    destruct (mx6q_output_run MCLBYTES ptp MCLBYTES_range e s c h sl m priority Hri Hm He Hp0 Hp1)
      as (s' & err & h' & sl' & Hrun & _ & _ & Hres).
    exists s', err. split; [done|]. split; [by eapply Hstep|].
    destruct Hres as [[(-> & m' & _ & Hb & _ & Ha & Hc)|(-> & _ & Ha & Hc)]|(-> & _ & _ & Ha & Hc & Hf)].
    + left. split; [done|]. by exists m'.
    + right. by left.
    + right. by right.
Qed.
End Run.
