(* ===== verification/EnetPtp.v ===== *)
(** * EnetPtp: the IEEE 1588 clock of the Ethernet driver (devnp/mx6x/ptp.c, the timer part of event.c).

    The controller counts nanoseconds and the driver seconds: an interrupt at each second moves
    [rtc] on, one at each half second sets [rtc_half].  Time stamps of frames are kept in two rings
    until they are asked for.  The layouts and numbers of the system's headers are the class
    [NetHeaders]. *)

From S2P Require Import Prelude.
From S2P Require Import Sections.

(** What <net/if_ether.h>, <netinet/in.h> and <netdrvr/ptp.h> declare: protocol numbers, the members
    of [ptpv2hdr_t].  The seconds of a time stamp are a 32-bit number, as [rtc] is. *)
Class NetHeaders := {
  ETHERTYPE_IP : Z;
  ETHERTYPE_PTP : Z;
  IPPROTO_UDP : Z;
  PTP_UDP_PORT : Z;
  SIZEOF_PTPV2HDR : Z;
  off_messageId : Z;
  off_version : Z;
  off_sequenceId : Z;
  off_clockIdentity : Z;
  SIZEOF_CLOCK_IDENTITY : Z;
  off_sportId : Z
}.

(** ** Constants of mx6q.h *)

Definition MX6Q_TIMER_CTRL_CAPTURE : Z := 2 ^ 11.
Definition MX6Q_TIMER_CTRL_RESTART : Z := 2 ^ 9.
Definition MX6Q_TIMER_CTRL_PEREN : Z := 2 ^ 4.
Definition MX6Q_TIMER_CTRL_EN : Z := 2 ^ 0.
Definition MX6Q_TIMER_INCR_CORR_OFF : Z := 8.
Definition MX6Q_TIMER_PER1SEC : Z := 1000000000.
Definition MX6Q_TIMER_PER05SEC : Z := 500000000.
Definition MX6Q_TCSR_MODE_SHIFT : Z := 2.
Definition MX6Q_TCSR_MODE_OUT_SW : Z := 4.
Definition MX6Q_TCSR_TIE : Z := 2 ^ 6.
Definition MX6Q_TCSR_TF : Z := 2 ^ 7.
Definition MX6Q_TX_TIMESTAMP_BUF_SZ : Z := 16.
Definition MX6Q_RX_TIMESTAMP_BUF_SZ : Z := 64.
Definition IEVENT_TS_TIMER : Z := 2 ^ 15.
Definition ENOTTY : Z := 25.
Definition ENOENT : Z := 2.
Definition EINVAL : Z := 22.

(** The registers the clock code writes. *)
Inductive treg : Type :=
  | TIMER_CTRLR | TIMER_VALUER | TIMER_PERR | TIMER_CORR | TIMER_INCR | TCSR0 | TCCR0 | IEVENT.

(** ** State *)

(** A time stamp, [ptp_extts_t]. *)
Record extts := {
  msg_type : Z; sequence_id : Z; clock_identity : list Z; sport_id : Z; ts_nsec : Z; ts_sec : Z
}.

(** The seconds and the half flag of [mx6q_dev_t], and the rings of ptp.c. *)
Record ptp := {
  rtc : Z; rtc_half : bool; rx_ts : list extts; rx_ts_cnt : Z; tx_ts : list extts; tx_ts_cnt : Z
}.

Definition set_rtc (p : ptp) (sec : Z) (half : bool) : ptp :=
  {| rtc := sec; rtc_half := half; rx_ts := rx_ts p; rx_ts_cnt := rx_ts_cnt p; tx_ts := tx_ts p;
     tx_ts_cnt := tx_ts_cnt p |}.
Definition set_rx_ts (p : ptp) (l : list extts) (n : Z) : ptp :=
  {| rtc := rtc p; rtc_half := rtc_half p; rx_ts := l; rx_ts_cnt := n; tx_ts := tx_ts p;
     tx_ts_cnt := tx_ts_cnt p |}.
Definition set_tx_ts (p : ptp) (l : list extts) (n : Z) : ptp :=
  {| rtc := rtc p; rtc_half := rtc_half p; rx_ts := rx_ts p; rx_ts_cnt := rx_ts_cnt p; tx_ts := l;
     tx_ts_cnt := n |}.

(** ** Interrupts *)

(** The part of [mx6q_isr] for TS_TIMER: the counter passed a second. *)
Definition ts_timer_isr (ievent : Z) (p : ptp) : ptp * list (treg * Z) :=
  if negb (Z.land ievent IEVENT_TS_TIMER =? 0)
  then (set_rtc p (u32 (rtc p + 1)) false, [(IEVENT, IEVENT_TS_TIMER)])
  else (p, []).

(** [mx6q_1588_isr]: the counter passed the half of a second. *)
Definition mx6q_1588_isr (p : ptp) : ptp * list (treg * Z) :=
  (set_rtc p (rtc p) true,
   [(TCSR0, Z.lor (Z.lor (Z.shiftl MX6Q_TCSR_MODE_OUT_SW MX6Q_TCSR_MODE_SHIFT) MX6Q_TCSR_TIE)
              MX6Q_TCSR_TF);
    (TCCR0, MX6Q_TIMER_PER05SEC)]).

(** ** Packets *)

(** A received packet as the code reads it: of each mbuf, [m_len] and the bytes from [m_data] to the
    end of its cluster. *)
Abbreviation view := (list (Z * list Z)).

Definition rd (d : list Z) (o : Z) : res Z := get_or_bad (byte_at d o).

(** [ntohs] of the two bytes at [o]. *)
Definition rd16 (d : list Z) (o : Z) : res Z :=
  a ← rd d o; b ← rd d (o + 1); mret (a * 256 + b).

(** [while (remain >= m->m_len)] *)
Fixpoint skip (remain : Z) (c : view) : res (Z * view) :=
  match c with
  | [] => Err BadAccess
  | (len, d) :: r => if len <=? remain then skip (remain - len) r else mret (remain, c)
  end.

Definition head_mbuf (c : view) : res (Z * list Z) := get_or_bad (head c).

(** sizeof(struct ether_header), sizeof(struct udphdr) *)
Definition SIZEOF_ETHER_HEADER : Z := 14.
Definition SIZEOF_UDPHDR : Z := 8.

Section Code.
Context `{NetHeaders}.

(** The end of both branches: the header lies in one mbuf, and its bytes. *)
Definition take_header (remain : Z) (c : view) : res (option (list Z)) :=
  '(len, d) ← head_mbuf c;
  if u32 (len - remain) <? SIZEOF_PTPV2HDR then mret None
  else mret (Some (drop (Z.to_nat remain) d)).

(** [mx6q_ptp_is_eventmsg]: the bytes at the header it finds; [None] for 0. *)
Definition mx6q_ptp_is_eventmsg (pktlen : Z) (c : view) : res (option (list Z)) :=
  if u32 pktlen <? SIZEOF_ETHER_HEADER + SIZEOF_PTPV2HDR then mret None
  else
    '(_, d) ← head_mbuf c;
    ether_type ← rd16 d 12;
    if ether_type =? ETHERTYPE_PTP then
      '(remain, c) ← skip SIZEOF_ETHER_HEADER c;
      take_header remain c
    else if ether_type =? ETHERTYPE_IP then
      '(remain, c) ← skip SIZEOF_ETHER_HEADER c;
      '(_, d) ← head_mbuf c;
      ip_p ← rd d (remain + 9);
      if negb (ip_p =? IPPROTO_UDP) then mret None
      else
        vhl ← rd d remain;
        let ip_hl := Z.land vhl 15 in
        if u32 pktlen <? SIZEOF_ETHER_HEADER + Z.shiftl ip_hl 2 + SIZEOF_UDPHDR + SIZEOF_PTPV2HDR
        then mret None
        else
          '(remain, c) ← skip (remain + Z.shiftl ip_hl 2) c;
          '(_, d) ← head_mbuf c;
          uh_dport ← rd16 d (remain + 2);
          if negb (uh_dport =? PTP_UDP_PORT) then mret None
          else
            '(remain, c) ← skip (remain + SIZEOF_UDPHDR) c;
            take_header remain c
    else mret None.

(** ** Time stamps *)

(** The seconds for a nanosecond value captured by the hardware, as rtc and rtc_half are now. *)
Definition seconds_of (p : ptp) (nsec : Z) : Z :=
  if (750000000 <? nsec) && negb (rtc_half p) then u32 (rtc p - 1)
  else if (nsec <? 250000000) && rtc_half p then u32 (rtc p + 1)
  else rtc p.

(** The entry for a message; [None] when it is not of version 2. *)
Definition entry_of (p : ptp) (ph : list Z) (timestamp : Z) : res (option extts) :=
  version ← rd ph off_version;
  if negb (Z.land version 15 =? 2) then mret None
  else
    messageId ← rd ph off_messageId;
    sequenceId ← rd16 ph off_sequenceId;
    sportId ← rd16 ph off_sportId;
    mret (Some {| msg_type := Z.land messageId 15; sequence_id := sequenceId;
                  clock_identity := slice ph off_clockIdentity SIZEOF_CLOCK_IDENTITY;
                  sport_id := sportId; ts_nsec := timestamp; ts_sec := seconds_of p timestamp |}).

(** [mx6q_ptp_add_rx_timestamp], with the time stamp of the descriptor. *)
Definition mx6q_ptp_add_rx_timestamp (p : ptp) (ph : option (list Z)) (timestamp : Z) : res ptp :=
  match ph with
  | None => mret p
  | Some ph =>
      e ← entry_of p ph timestamp;
      match e with
      | None => mret p
      | Some e =>
          mret (set_rx_ts p (<[Z.to_nat (rx_ts_cnt p) := e]> (rx_ts p))
                  ((rx_ts_cnt p + 1) mod MX6Q_RX_TIMESTAMP_BUF_SZ))
      end
  end.

(** [mx6q_ptp_add_tx_timestamp] *)
Definition mx6q_ptp_add_tx_timestamp (p : ptp) (ph : option (list Z)) (timestamp : Z) : res ptp :=
  match ph with
  | None => mret p
  | Some ph =>
      e ← entry_of p ph timestamp;
      match e with
      | None => mret p
      | Some e =>
          mret (set_tx_ts p (<[Z.to_nat (tx_ts_cnt p) := e]> (tx_ts p))
                  ((tx_ts_cnt p + 1) mod MX6Q_TX_TIMESTAMP_BUF_SZ))
      end
  end.

Definition same_message (a b : extts) : bool :=
  (msg_type a =? msg_type b) && (sequence_id a =? sequence_id b) && (sport_id a =? sport_id b)
  && bool_decide (clock_identity a = clock_identity b).

(** The loop over a ring; the time of the first entry for the message. *)
Definition search_ts (l : list extts) (ts : extts) : option (Z * Z) :=
  match list_find (fun e => same_message ts e = true) l with
  | Some (_, e) => Some (ts_sec e, ts_nsec e)
  | None => None
  end.

Definition mx6q_ptp_get_rx_timestamp (p : ptp) (ts : extts) : option (Z * Z) := search_ts (rx_ts p) ts.

(** [mx6q_ptp_get_tx_timestamp], after the descriptors were reaped. *)
Definition mx6q_ptp_get_tx_timestamp (reap : ptp -> res ptp) (p : ptp) (ts : extts)
  : res (ptp * option (Z * Z)) :=
  p ← reap p; mret (p, search_ts (tx_ts p) ts).

(** ** The clock *)

(** [mx6q_ptp_get_cnt], with what the control register shows on its reads (the first is that of the
    read-modify-write) and the counter after them: the time, the writes, and whether it logged that
    the capture failed. *)
Definition mx6q_ptp_get_cnt (p : ptp) (ctrlr : list Z) (valuer : Z)
  : res ((Z * Z) * list (treg * Z) * bool) :=
  tmp ← get_or_bad (ctrlr !! 0%nat);
  let polls := take 10 (drop 1 ctrlr) in
  let failed := forallb (fun v => negb (Z.land v MX6Q_TIMER_CTRL_CAPTURE =? 0)) polls in
  mret ((seconds_of p valuer, valuer),
        [(TIMER_CTRLR, Z.lor tmp MX6Q_TIMER_CTRL_CAPTURE)], failed).

(** [mx6q_ptp_set_cnt] *)
Definition mx6q_ptp_set_cnt (p : ptp) (sec nsec : Z) : ptp * list (treg * Z) :=
  (set_rtc p sec (rtc_half p),
   [(TIMER_VALUER, 0); (IEVENT, IEVENT_TS_TIMER); (TIMER_VALUER, nsec)]).

(** An unsigned division of the code: by zero there is no value. *)
Definition udiv (a b : Z) : res Z := if b =? 0 then Err (Crash "division by zero") else mret (a / b).

(** The loop that looks for the best correction, from [i] on, for [k] more turns. *)
Fixpoint best_correction (k : nat) (i freq rem_offset comp inc_cor cor_period min_err : Z)
  : res (Z * Z) :=
  match k with
  | O => mret (inc_cor, cor_period)
  | S k =>
      test_period ← udiv (u32 (freq * i)) rem_offset;
      test_offset ← udiv (u32 (freq * i)) test_period;
      let err := u32 (test_offset - comp) in
      if err =? 0 then mret (i, test_period)
      else if err <? min_err
           then best_correction k (i + 1) freq rem_offset comp i test_period err
           else best_correction k (i + 1) freq rem_offset comp inc_cor cor_period min_err
  end.

(** [mx6q_ptp_set_compensation]: the registers it writes. *)
Definition mx6q_ptp_set_compensation (clock_period clock_freq comp : Z) (positive : bool)
  : res (list (treg * Z)) :=
  if comp =? 0 then mret [(TIMER_CORR, 0); (TIMER_INCR, clock_period)]
  else
    q ← udiv comp clock_freq;
    if clock_freq / 2 <? q then mret []
    else
      (* if (ptc.comp) *)
      let inc := if clock_freq <=? comp
                 then (if negb (comp =? 0) then u32 (clock_period + q) else u32 (clock_period - q))
                 else clock_period in
      let rem_offset := u32 (comp - q) in
      '(inc_cor, cor_period) ←
        best_correction (Z.to_nat inc) 1 clock_freq rem_offset comp inc 0 (2 ^ 32 - 1);
      let inc_cor := if positive then u32 (inc + inc_cor) else u32 (inc - inc_cor) in
      let inc := Z.lor inc (u32 (Z.shiftl inc_cor MX6Q_TIMER_INCR_CORR_OFF)) in
      mret [(TIMER_INCR, inc); (TIMER_CORR, cor_period)].

(** The end of [mx6q_ptp_cal]: period and frequency, from the counted ticks and the two readings of the
    monotonic clock. *)
Definition mx6q_ptp_cal (start_sec start_nsec end_sec end_nsec count : Z) : res (Z * Z) :=
  let diff := u32 (end_nsec - start_nsec) in
  let diff := if start_sec <? end_sec then u32 (diff + 1000 * 1000 * 1000) else diff in
  period ← (if (0 <? diff) && (0 <? count) then
              period ← udiv (u32 (diff + count / 2)) count;
              (* the argument of the message *)
              _ ← udiv 1000 period;
              mret period
            else mret 8);
  freq ← udiv (1000 * 1000 * 1000) period;
  mret (period, freq).

(** [mx6q_ptp_start]: the clock's period, and the registers it writes after the calibration. *)
Definition mx6q_ptp_start (clock_freq_set : bool) (clock_freq : Z) (cal : res (Z * Z)) (ctrlr : Z)
  : res (Z * Z * list (treg * Z)) :=
  '(period, freq) ← (if clock_freq_set then
                       period ← udiv (1000 * 1000 * 1000) clock_freq; mret (period, clock_freq)
                     else cal);
  mret (period, freq,
        [(TIMER_CTRLR, MX6Q_TIMER_CTRL_RESTART); (TIMER_INCR, period);
         (TIMER_PERR, MX6Q_TIMER_PER1SEC); (TIMER_CTRLR, MX6Q_TIMER_CTRL_PEREN);
         (TIMER_CTRLR, Z.lor ctrlr MX6Q_TIMER_CTRL_EN); (TCCR0, MX6Q_TIMER_PER05SEC);
         (TCSR0, Z.lor (Z.shiftl MX6Q_TCSR_MODE_OUT_SW MX6Q_TCSR_MODE_SHIFT) MX6Q_TCSR_TIE);
         (TCCR0, MX6Q_TIMER_PER05SEC)]).

(** ** The control interface *)

(** A request as [mx6q_ptp_ioctl] gets it: the length in it, whether the copies to and from the
    caller succeed (with the error of [copyout]), and what the bytes after it say. *)
Record ifdrv := {
  ifd_len : Z; copyin_fails : bool; copyout_error : Z;
  payload_ts : extts; payload_time : Z * Z; payload_comp : Z * bool
}.

Inductive ptp_cmd : Type :=
  | PTP_GET_RX_TIMESTAMP | PTP_GET_TX_TIMESTAMP | PTP_GET_TIME | PTP_SET_TIME
  | PTP_SET_COMPENSATION | PTP_GET_COMPENSATION | PTP_OTHER.

(** What goes back to the caller. *)
Inductive answer : Type := ANone | ATime (sec nsec : Z).

Definition zero_ts : extts :=
  {| msg_type := 0; sequence_id := 0; clock_identity := zeros SIZEOF_CLOCK_IDENTITY; sport_id := 0;
     ts_nsec := 0; ts_sec := 0 |}.

(** The sizes of [ptp_extts_t], [ptp_time_t] and [ptp_comp_t] *)
Record ptp_sizes := { sizeof_extts : Z; sizeof_time : Z; sizeof_comp : Z }.

(** [mx6q_ptp_ioctl] with the registers it meets; [stack] is ISSTACK. *)
Definition mx6q_ptp_ioctl (sz : ptp_sizes) (stack : bool) (reap : ptp -> res ptp)
    (clock_period clock_freq : Z) (ctrlr : list Z) (valuer : Z)
    (p : ptp) (cmd : ptp_cmd) (ifd : ifdrv) : res (ptp * list (treg * Z) * answer * Z) :=
  let copyin_bad := stack && copyin_fails ifd in
  let out := if stack then copyout_error ifd else 0 in
  let found p t :=
    match t with
    | Some (sec, nsec) => mret (p, [], ATime sec nsec, out)
    | None => mret (p, [], ANone, ENOENT)
    end in
  match cmd with
  | PTP_GET_RX_TIMESTAMP =>
      if negb (ifd_len ifd =? sizeof_extts sz) || copyin_bad then mret (p, [], ANone, EINVAL)
      else found p (mx6q_ptp_get_rx_timestamp p (payload_ts ifd))
  | PTP_GET_TX_TIMESTAMP =>
      if negb (ifd_len ifd =? sizeof_extts sz) || copyin_bad then mret (p, [], ANone, EINVAL)
      else '(p, t) ← mx6q_ptp_get_tx_timestamp reap p (payload_ts ifd); found p t
  | PTP_GET_TIME =>
      if negb (ifd_len ifd =? sizeof_time sz) then mret (p, [], ANone, EINVAL)
      else '(t, ws, _) ← mx6q_ptp_get_cnt p ctrlr valuer; mret (p, ws, ATime t.1 t.2, out)
  | PTP_SET_TIME =>
      if negb (ifd_len ifd =? sizeof_time sz) || copyin_bad then mret (p, [], ANone, EINVAL)
      else
        let '(p, ws) := mx6q_ptp_set_cnt p (payload_time ifd).1 (payload_time ifd).2 in
        let p := set_tx_ts p (replicate (Z.to_nat MX6Q_TX_TIMESTAMP_BUF_SZ) zero_ts) (tx_ts_cnt p) in
        let p := set_rx_ts p (replicate (Z.to_nat MX6Q_RX_TIMESTAMP_BUF_SZ) zero_ts) (rx_ts_cnt p) in
        mret (p, ws, ANone, 0)
  | PTP_SET_COMPENSATION =>
      if negb (ifd_len ifd =? sizeof_comp sz) || copyin_bad then mret (p, [], ANone, EINVAL)
      else
        ws ← mx6q_ptp_set_compensation clock_period clock_freq (payload_comp ifd).1
               (payload_comp ifd).2;
        mret (p, ws, ANone, 0)
  | PTP_GET_COMPENSATION => mret (p, [], ANone, ENOTTY)
  | PTP_OTHER => mret (p, [], ANone, ENOTTY)
  end.

End Code.
