(* ===== verification/EnetClock.v ===== *)
(** * EnetClock: the time stamps of the 1588 clock are right, and are found again.

    The hardware counter shows [now] modulo a second.  The two interrupts are raised when it passes a
    second and a half second, and are handled some time later, less than [LATENCY]: then every time
    stamp taken less than [LATENCY] ago gets its own second, whatever the order of the interrupts,
    the second's turn and the reading.  The clock may be set while it runs; the driver does not bring
    the flag of the half second up to date then, so the theorem is about settings with which the flag
    agrees. *)

From stdpp Require Import relations.
From S2P Require Import Prelude.
From S2P Require Import Sections.
From S2P Require Import EnetPtp.

(** ** Running time *)

Definition SECOND : Z := 1000000000.
Definition HALF : Z := 500000000.
Definition LATENCY : Z := 250000000.

(** The clock in time: the second it was last set to, the nanoseconds that have been counted from there
    on, and when the pending interrupts were raised. *)
Record world := { epoch : Z; now : Z; clk : ptp; second_at : option Z; half_at : option Z }.

(** A raised interrupt has not waited too long at [t]. *)
Definition in_time (raised : option Z) (t : Z) : Prop :=
  match raised with None => True | Some r => t - r < LATENCY end.

Definition raise_at (point t : Z) (raised : option Z) : option Z :=
  if t mod SECOND =? point then Some t else raised.

Section Time.
Context `{NetHeaders}.

(** With [agrees], the clock is only set when the flag of the half second, which [mx6q_ptp_set_cnt]
    leaves as it is, is that of the new nanoseconds and its interrupt is not pending. *)
Inductive wstep (agrees : bool) : world -> world -> Prop :=
  | step_tick w :
      in_time (second_at w) (now w + 1) -> in_time (half_at w) (now w + 1) ->
      wstep agrees w {| epoch := epoch w; now := now w + 1; clk := clk w;
                 second_at := raise_at 0 (now w + 1) (second_at w);
                 half_at := raise_at HALF (now w + 1) (half_at w) |}
  | step_second w r :
      second_at w = Some r ->
      wstep agrees w {| epoch := epoch w; now := now w; clk := (ts_timer_isr IEVENT_TS_TIMER (clk w)).1;
                 second_at := None; half_at := half_at w |}
  | step_half w r :
      half_at w = Some r ->
      wstep agrees w {| epoch := epoch w; now := now w; clk := (mx6q_1588_isr (clk w)).1;
                 second_at := second_at w; half_at := None |}
  | step_stamp w ph ts p :
      mx6q_ptp_add_rx_timestamp (clk w) ph ts = Ok p ->
      wstep agrees w {| epoch := epoch w; now := now w; clk := p; second_at := second_at w;
                        half_at := half_at w |}
  | step_set w sec nsec :
      fits 32 sec -> 0 <= nsec < SECOND ->
      (agrees = true -> half_at w = None /\ rtc_half (clk w) = (HALF <=? nsec)) ->
      wstep agrees w {| epoch := sec; now := nsec; clk := (mx6q_ptp_set_cnt (clk w) sec nsec).1;
                        second_at := None; half_at := half_at w |}.

(** The clock as it starts, with the seconds it was set to. *)
Definition started (p : ptp) : world :=
  {| epoch := rtc p; now := 0; clk := set_rtc p (rtc p) false; second_at := None; half_at := None |}.

Definition clock_run (agrees : bool) (p : ptp) (w : world) : Prop := relations.rtc (wstep agrees) (started p) w.

(** ** What holds at all times *)

(** In the second [S] at [x] nanoseconds: the seconds are those of [S], or the interrupt of this second
    is still pending and the half flag set; the half flag is that of [x], or its interrupt pending. *)
Definition clock_inv (w : world) : Prop :=
  let r0 := epoch w in
  let S := now w / SECOND in
  let x := now w mod SECOND in
  0 <= now w /\
  match second_at w with
  | Some r => r = SECOND * S /\ x < LATENCY /\ EnetPtp.rtc (clk w) = u32 (r0 + S - 1)
              /\ rtc_half (clk w) = true /\ half_at w = None
  | None =>
      EnetPtp.rtc (clk w) = u32 (r0 + S) /\
      match half_at w with
      | Some r => r = SECOND * S + HALF /\ HALF <= x < HALF + LATENCY /\ rtc_half (clk w) = false
      | None => rtc_half (clk w) = (HALF <=? x)
      end
  end.

Lemma second_split t : 0 <= t -> t = SECOND * (t / SECOND) + t mod SECOND /\ 0 <= t mod SECOND < SECOND.
Proof.
  intros. split; [apply Z.div_mod; unfold SECOND; lia|]. apply Z.mod_pos_bound. unfold SECOND. lia.
Qed.

Lemma second_next t :
  0 <= t ->
  (t mod SECOND < SECOND - 1 /\ (t + 1) / SECOND = t / SECOND /\ (t + 1) mod SECOND = t mod SECOND + 1)
  \/ (t mod SECOND = SECOND - 1 /\ (t + 1) / SECOND = t / SECOND + 1 /\ (t + 1) mod SECOND = 0).
Proof.
  intros Ht. destruct (second_split t Ht) as [E B].
  destruct (decide (t mod SECOND = SECOND - 1)) as [D|D].
  - right. split; [done|].
    rewrite <- (Z.div_unique (t + 1) SECOND (t / SECOND + 1) 0) by (unfold SECOND in *; lia).
    by rewrite <- (Z.mod_unique (t + 1) SECOND (t / SECOND + 1) 0) by (unfold SECOND in *; lia).
  - left. split; [lia|].
    rewrite <- (Z.div_unique (t + 1) SECOND (t / SECOND) (t mod SECOND + 1)) by (unfold SECOND in *; lia).
    by rewrite <- (Z.mod_unique (t + 1) SECOND (t / SECOND) (t mod SECOND + 1))
      by (unfold SECOND in *; lia).
Qed.

Lemma u32_succ z : u32 (u32 (z - 1) + 1) = u32 z.
Proof. unfold wrap. rewrite Zplus_mod_idemp_l. f_equal. lia. Qed.

Lemma u32_pred z : u32 (u32 z - 1) = u32 (z - 1).
Proof. unfold wrap. by rewrite Zminus_mod_idemp_l. Qed.

Lemma stamp_keeps p ph ts p' :
  mx6q_ptp_add_rx_timestamp p ph ts = Ok p' ->
  EnetPtp.rtc p' = EnetPtp.rtc p /\ rtc_half p' = rtc_half p.
Proof.
  unfold mx6q_ptp_add_rx_timestamp. destruct ph as [ph|]; [|by intros [= <-]].
  destruct (entry_of p ph ts) as [[e|]|e] eqn:E; cbn; by intros [= <-].
Qed.

Lemma clock_inv_tick w :
  clock_inv w -> in_time (second_at w) (now w + 1) -> in_time (half_at w) (now w + 1) ->
  clock_inv {| epoch := epoch w; now := now w + 1; clk := clk w;
               second_at := raise_at 0 (now w + 1) (second_at w);
               half_at := raise_at HALF (now w + 1) (half_at w) |}.
Proof.
  intros [Hn Hi] Hs Hh. destruct (second_split _ Hn) as [E B].
  unfold clock_inv, raise_at. cbn [epoch now clk second_at half_at]. split; [lia|].
  destruct (second_next (now w) Hn) as [(D & -> & ->)|(D & -> & ->)].
  - rewrite (proj2 (Z.eqb_neq (now w mod SECOND + 1) 0)) by lia.
    destruct (second_at w) as [r|].
    + destruct Hi as (-> & Hx & Hr & Hf & Ho). cbn in Hs. rewrite (proj2 (Z.eqb_neq _ HALF))
        by (unfold HALF, LATENCY in *; lia). unfold LATENCY in *. repeat split; [lia|done..].
    + destruct Hi as [Hr Hi]. split; [done|]. destruct (Z.eqb_spec (now w mod SECOND + 1) HALF) as [D2|D2].
      * destruct (half_at w) as [r|]; [lia|]. rewrite Hi. unfold HALF, LATENCY in *.
        split; [lia|]. split; [lia|]. apply Z.leb_gt. lia.
      * destruct (half_at w) as [r|].
        -- destruct Hi as (-> & Hx & Hf). cbn in Hh. repeat split; [lia|lia|done].
        -- rewrite Hi. unfold HALF in *. destruct (Z.leb_spec 500000000 (now w mod SECOND)).
           ++ symmetry. apply Z.leb_le. lia.
           ++ symmetry. apply Z.leb_gt. lia.
  - rewrite (proj2 (Z.eqb_eq 0 0) eq_refl).
    rewrite (proj2 (Z.eqb_neq 0 HALF)) by (unfold HALF; lia).
    destruct (second_at w) as [r|].
    { destruct Hi as (_ & Hx & _). unfold LATENCY, SECOND in *. lia. }
    destruct Hi as [Hr Hi]. destruct (half_at w) as [r|].
    { destruct Hi as (_ & Hx & _). unfold LATENCY, HALF, SECOND in *. lia. }
    unfold LATENCY, SECOND, HALF in *. split; [lia|]. split; [lia|]. split; [rewrite Hr; f_equal; lia|].
    split; [rewrite Hi; apply Z.leb_le; lia|done].
Qed.

Lemma clock_inv_step w w' : clock_inv w -> wstep true w w' -> clock_inv w'.
Proof.
  intros Hi Hs. destruct Hs as [w Ht1 Ht2|w r Hr|w r Hr|w ph ts p Hp|w sec nsec Hsec Hnsec Hset].
  - by apply clock_inv_tick.
  - destruct Hi as [Hn Hi]. split; [done|]. cbn [epoch now clk second_at half_at]. rewrite Hr in Hi.
    destruct Hi as (-> & Hx & Hc & Hf & ->).
    assert (Ei : ts_timer_isr IEVENT_TS_TIMER (clk w)
                 = (set_rtc (clk w) (u32 (EnetPtp.rtc (clk w) + 1)) false,
                    [(IEVENT, IEVENT_TS_TIMER)])) by reflexivity.
    rewrite Ei. cbn [fst set_rtc EnetPtp.rtc rtc_half]. split.
    + by rewrite Hc, u32_succ.
    + symmetry. apply Z.leb_gt. unfold LATENCY, HALF in *. lia.
  - destruct Hi as [Hn Hi]. split; [done|]. cbn [epoch now clk second_at half_at].
    destruct (second_at w) as [r'|]; [by destruct Hi as (_ & _ & _ & _ & ?); congruence|].
    rewrite Hr in Hi. destruct Hi as (Hc & -> & Hx & Hf). split; [done|].
    cbn. symmetry. apply Z.leb_le. lia.
  - destruct (stamp_keeps _ _ _ _ Hp) as [E1 E2]. unfold clock_inv in *.
    cbn [epoch now clk second_at half_at]. by rewrite E1, E2.
  - destruct (Hset eq_refl) as [Hh Hf]. split; [cbn; lia|]. cbn [epoch now clk second_at half_at].
    rewrite Z.div_small, Z.mod_small by lia. cbn [mx6q_ptp_set_cnt fst set_rtc EnetPtp.rtc rtc_half].
    rewrite Hh, Hf. split; [|done]. by rewrite Z.add_0_r, wrap_id.
Qed.

Lemma clock_run_inv p w : fits 32 (EnetPtp.rtc p) -> clock_run true p w -> clock_inv w.
Proof.
  intros Hp Hr. unfold clock_run in Hr.
  assert (H0 : clock_inv (started p)).
  { split; [done|]. cbn. rewrite Z.add_0_r. by rewrite wrap_id. }
  revert H0. induction Hr as [w|w1 w2 w3 Hs Hr IH]; [done|]. intros H1. by eapply IH, clock_inv_step.
Qed.

(** The seconds given to a time captured less than [LATENCY] ago. *)
Lemma seconds_of_exact p w t :
  fits 32 (EnetPtp.rtc p) -> clock_run true p w -> 0 <= t <= now w -> now w - t < LATENCY ->
  seconds_of (clk w) (t mod SECOND) = u32 (epoch w + t / SECOND).
Proof.
  intros Hp Hr Ht Hl. destruct (clock_run_inv _ _ Hp Hr) as [Hn Hi].
  destruct (second_split t ltac:(lia)) as [Et Bt], (second_split (now w) Hn) as [En Bn].
  assert (HS : now w / SECOND = t / SECOND \/ now w / SECOND = t / SECOND + 1)
    by (unfold SECOND, LATENCY in *; lia).
  unfold seconds_of. destruct (second_at w) as [r|].
  - destruct Hi as (_ & Hx & Hc & Hf & _). rewrite Hf, Hc, andb_false_r, andb_true_r.
    unfold LATENCY, SECOND in *. destruct HS as [HS|HS]; rewrite HS in *.
    + rewrite (proj2 (Z.ltb_lt _ _)) by lia. apply u32_succ.
    + rewrite (proj2 (Z.ltb_ge _ _)) by lia. f_equal. lia.
  - destruct Hi as [Hc Hi]. rewrite Hc. destruct (half_at w) as [r|].
    + destruct Hi as (_ & Hx & Hf). rewrite Hf, andb_true_r, andb_false_r.
      unfold LATENCY, HALF, SECOND in *. destruct HS as [HS|HS]; rewrite HS in *; [|lia].
      by rewrite (proj2 (Z.ltb_ge _ _)) by lia.
    + rewrite Hi. unfold LATENCY, HALF, SECOND in *. destruct HS as [HS|HS]; rewrite HS in *.
      * destruct (Z.leb_spec 500000000 (now w mod 1000000000)); cbn [negb].
        -- rewrite andb_false_r, andb_true_r. by rewrite (proj2 (Z.ltb_ge _ _)) by lia.
        -- rewrite andb_false_r, andb_true_r. by rewrite (proj2 (Z.ltb_ge _ _)) by lia.
      * rewrite (proj2 (Z.leb_gt _ _)) by lia. cbn [negb]. rewrite andb_true_r.
        rewrite (proj2 (Z.ltb_lt _ _)) by lia. rewrite u32_pred. f_equal. lia.
Qed.

(** ** The ring of time stamps *)

(** Stamping several messages: the header of each, with the time of its descriptor. *)
Fixpoint stamp_all (p : ptp) (l : list (option (list Z) * Z)) : res ptp :=
  match l with
  | [] => mret p
  | (ph, ts) :: l => p ← mx6q_ptp_add_rx_timestamp p ph ts; stamp_all p l
  end.

(** Messages other than the one [ts] asks for: what they say does not match. *)
Definition other_message (ts : extts) (x : option (list Z) * Z) : Prop :=
  forall p ph e, x.1 = Some ph -> entry_of p ph x.2 = Ok (Some e) -> same_message ts e = false.

Definition ring_ok (p : ptp) : Prop :=
  length (rx_ts p) = Z.to_nat MX6Q_RX_TIMESTAMP_BUF_SZ /\ 0 <= rx_ts_cnt p < MX6Q_RX_TIMESTAMP_BUF_SZ.

(** [e] is in slot [i], and is all the ring has for the message of [ts]; the next [n] slots to be
    written do not come to [i]. *)
Definition holds (ts e : extts) (i : Z) (n : nat) (p : ptp) : Prop :=
  ring_ok p /\ rx_ts p !! Z.to_nat i = Some e /\ 0 <= i < MX6Q_RX_TIMESTAMP_BUF_SZ /\
  (i - rx_ts_cnt p) mod MX6Q_RX_TIMESTAMP_BUF_SZ >= Z.of_nat n /\
  forall j x, rx_ts p !! j = Some x -> same_message ts x = true -> x = e.

Lemma ring_distance i c :
  0 <= i < MX6Q_RX_TIMESTAMP_BUF_SZ -> 0 <= c < MX6Q_RX_TIMESTAMP_BUF_SZ ->
  (i - c) mod MX6Q_RX_TIMESTAMP_BUF_SZ = if c <=? i then i - c else i - c + MX6Q_RX_TIMESTAMP_BUF_SZ.
Proof.
  unfold MX6Q_RX_TIMESTAMP_BUF_SZ. intros. zbool.
  - apply Z.mod_small. lia.
  - symmetry. apply (Z.mod_unique _ _ (-1)); lia.
Qed.

Lemma ring_next c :
  0 <= c < MX6Q_RX_TIMESTAMP_BUF_SZ ->
  (c + 1) mod MX6Q_RX_TIMESTAMP_BUF_SZ = if c =? MX6Q_RX_TIMESTAMP_BUF_SZ - 1 then 0 else c + 1.
Proof.
  unfold MX6Q_RX_TIMESTAMP_BUF_SZ. intros. zbool.
  - by subst.
  - apply Z.mod_small. lia.
Qed.

Lemma stamp_ring p ph ts p' :
  ring_ok p -> mx6q_ptp_add_rx_timestamp p ph ts = Ok p' ->
  ring_ok p' /\
  (p' = p \/
   exists h e, ph = Some h /\ entry_of p h ts = Ok (Some e) /\
     rx_ts p' = <[Z.to_nat (rx_ts_cnt p) := e]> (rx_ts p) /\
     rx_ts_cnt p' = (rx_ts_cnt p + 1) mod MX6Q_RX_TIMESTAMP_BUF_SZ).
Proof.
  intros [Hl Hc] Hp. unfold mx6q_ptp_add_rx_timestamp in Hp. destruct ph as [h|].
  2:{ injection Hp as <-. split; [by split|by left]. }
  destruct (entry_of p h ts) as [[e|]|e] eqn:E; cbn in Hp; [..|done]; injection Hp as <-.
  - split; [|right; by exists h, e]. split; cbn [rx_ts rx_ts_cnt set_rx_ts].
    + by rewrite length_insert.
    + apply Z.mod_pos_bound. reflexivity.
  - split; [by split|by left].
Qed.

Lemma holds_stamp ts e i n p x p' :
  holds ts e i (S n) p -> other_message ts x -> mx6q_ptp_add_rx_timestamp p x.1 x.2 = Ok p' ->
  holds ts e i n p'.
Proof.
  intros (Hr & Hi & Bi & Hd & Hu) Ho Hp. destruct (stamp_ring _ _ _ _ Hr Hp) as [Hr' [->|Hn]].
  { repeat split; try done; try apply Bi; try apply Hr'. lia. }
  destruct Hn as (h & e2 & Eh & Ee & Er & Ec). destruct Hr as [Hl Hc].
  rewrite ring_distance in Hd by done.
  assert (rx_ts_cnt p <> i) by (intros <-; revert Hd; zbool; lia).
  split; [done|]. rewrite Er. split; [|split; [done|split]].
  - rewrite list_lookup_insert_ne; [done|]. lia.
  - rewrite Ec, ring_next by done. revert Hd. unfold MX6Q_RX_TIMESTAMP_BUF_SZ in *.
    destruct (Z.eqb_spec (rx_ts_cnt p) (64 - 1)).
    + rewrite (Z.mod_small (i - 0)) by lia. zbool; lia.
    + pose proof (ring_distance i (rx_ts_cnt p + 1)) as E. unfold MX6Q_RX_TIMESTAMP_BUF_SZ in E.
      rewrite E by lia. zbool; lia.
  - intros j y Hj Hs. apply list_lookup_insert_Some in Hj as [(_ & <- & _)|[_ Hj]].
    + by rewrite (Ho p h e2 Eh Ee) in Hs.
    + by eapply Hu.
Qed.

Lemma holds_stamp_all ts e i l n p p' :
  holds ts e i (length l + n) p -> Forall (other_message ts) l -> stamp_all p l = Ok p' ->
  holds ts e i n p'.
Proof.
  revert p. induction l as [|[ph t] l IH]; intros p Hh Ho Hp; cbn [stamp_all] in Hp.
  { by injection Hp as <-. }
  destruct (mx6q_ptp_add_rx_timestamp p ph t) as [p1|] eqn:E; [|done].
  apply Forall_cons_1 in Ho as [Ho1 Ho]. apply (IH p1); [|done..].
  by eapply (holds_stamp _ _ _ _ p (ph, t)).
Qed.

Lemma holds_found ts e i n p :
  same_message ts e = true -> holds ts e i n p ->
  mx6q_ptp_get_rx_timestamp p ts = Some (ts_sec e, ts_nsec e).
Proof.
  intros Hs (_ & Hi & _ & _ & Hu). unfold mx6q_ptp_get_rx_timestamp, search_ts.
  destruct (list_find _ (rx_ts p)) as [[j x]|] eqn:E.
  - apply list_find_Some in E as (Hj & Hx & _). by rewrite (Hu j x Hj Hx).
  - apply list_find_None in E. rewrite Forall_forall in E. exfalso. apply (E e); [|done].
    by eapply list_elem_of_lookup_2.
Qed.

Lemma entry_times p ph t e :
  entry_of p ph t = Ok (Some e) -> ts_sec e = seconds_of p t /\ ts_nsec e = t.
Proof.
  unfold entry_of. destruct (rd ph off_version); cbn; [|done].
  destruct (negb _); [done|]. destruct (rd ph off_messageId); cbn; [|done].
  destruct (rd16 ph off_sequenceId); cbn; [|done]. destruct (rd16 ph off_sportId); cbn; [|done].
  by intros [= <-].
Qed.

Lemma same_message_refl e : same_message e e = true.
Proof. unfold same_message. by rewrite !Z.eqb_refl, bool_decide_true. Qed.

(** C22.  An event message is received at time [t], as the clock counts since it was last set, and its stamp
    [t mod SECOND], the one of its own frame, is noted less than a quarter of a second later, while
    each interrupt of the clock waits less than that too.  No older entry of the ring is for the same
    message, and its time stamp is asked for at most 63 stamps of other messages later.  Then the time
    found is exactly [t], the seconds counted from the value the clock was set to -- provided that
    whenever the clock was set while it ran, the flag of the half second was the one of the new
    nanoseconds (else the seconds can be off by one: [DemoEnetRx.set_then_get]). *)
Theorem time_stamp_exact p0 w t ph e p1 l p2 :
  fits 32 (EnetPtp.rtc p0) -> clock_run true p0 w -> 0 <= t <= now w -> now w - t < LATENCY ->
  ring_ok (clk w) ->
  entry_of (clk w) ph (t mod SECOND) = Ok (Some e) ->
  Forall (fun x => same_message e x = false) (rx_ts (clk w)) ->
  mx6q_ptp_add_rx_timestamp (clk w) (Some ph) (t mod SECOND) = Ok p1 ->
  Forall (other_message e) l -> (length l < 64)%nat -> stamp_all p1 l = Ok p2 ->
  mx6q_ptp_get_rx_timestamp p2 e = Some (u32 (epoch w + t / SECOND), t mod SECOND).
Proof.
  intros Hp Hr Ht Hlat [Hl Hc] He Hn Ha Ho Hlen Hs.
  pose proof (seconds_of_exact _ _ _ Hp Hr Ht Hlat) as Hsec.
  destruct (entry_times _ _ _ _ He) as [E1 E2]. rewrite <- Hsec, <- E1. replace (t mod SECOND) with (ts_nsec e).
  eapply (holds_found _ _ (rx_ts_cnt (clk w)) 0); [apply same_message_refl|].
  apply (holds_stamp_all _ _ _ l 0 p1); [|done..].
  assert (Hr0 : ring_ok (clk w)) by done.
  destruct (stamp_ring _ _ _ _ Hr0 Ha) as [Hr1 _]. split; [done|].
  unfold mx6q_ptp_add_rx_timestamp in Ha. rewrite He in Ha. injection Ha as <-.
  cbn [rx_ts rx_ts_cnt set_rx_ts].
  assert (Z.to_nat (rx_ts_cnt (clk w)) < length (rx_ts (clk w)))%nat
    by (rewrite Hl; unfold MX6Q_RX_TIMESTAMP_BUF_SZ in *; lia).
  split; [by rewrite list_lookup_insert_eq|]. split; [done|]. split.
  - rewrite ring_next by done. unfold MX6Q_RX_TIMESTAMP_BUF_SZ in *.
    destruct (Z.eqb_spec (rx_ts_cnt (clk w)) (64 - 1)) as [->|].
    + rewrite Z.mod_small by lia. lia.
    + rewrite <- (Z.mod_unique (rx_ts_cnt (clk w) - (rx_ts_cnt (clk w) + 1)) 64 (-1) 63) by lia. lia.
  - intros j x Hj Hm. apply list_lookup_insert_Some in Hj as [(_ & <- & _)|[_ Hj]]; [done|].
    rewrite Forall_lookup in Hn. by rewrite (Hn _ _ Hj) in Hm.
Qed.

End Time.

(** ** The rate of the clock *)

(** One correction of [i] nanoseconds every [test_period i] ticks; what it adds to a second of [freq]
    ticks, and by how much that is more than was asked for. *)
Section Compensation.
Variables (freq comp inc : Z).

Definition test_period (i : Z) : Z := freq * i / comp.
Definition test_offset (i : Z) : Z := freq * i / test_period i.
Definition excess (i : Z) : Z := test_offset i - comp.

Hypothesis Hcomp : 0 < comp < freq.
Hypothesis Hinc : 0 < inc.
Hypothesis Hfit : freq * inc < 2 ^ 32.

Lemma test_period_pos i : 1 <= i -> 0 < test_period i.
Proof. intros. apply Z.div_str_pos. nia. Qed.

Lemma excess_range i : 1 <= i <= inc -> 0 <= excess i < 2 ^ 32 - 1.
Proof.
  intros Hi. pose proof (test_period_pos i ltac:(lia)) as Hp.
  unfold excess, test_offset. split.
  - assert (comp <= freq * i / test_period i); [|lia].
    apply Z.div_le_lower_bound; [done|]. unfold test_period.
    rewrite Z.mul_comm. apply Z.mul_div_le. lia.
  - assert (freq * i <= freq * inc) by nia.
    assert (freq * i / test_period i <= freq * i); [|lia].
    assert (0 <= freq * i) by nia. apply Z.div_le_upper_bound; [done|]. nia.
Qed.

(** [i] is the best correction of those below [n]. *)
Definition best_below (n i : Z) : Prop := 1 <= i < n /\ forall j, 1 <= j < n -> excess i <= excess j.

Lemma best_correction_loop k i ic cp me :
  Z.of_nat k = inc + 1 - i -> 1 <= i <= inc + 1 ->
  (i = 1 /\ me = 2 ^ 32 - 1) \/ (best_below i ic /\ cp = test_period ic /\ me = excess ic) ->
  i = 1 /\ k = O \/
  exists b, best_below (inc + 1) b /\
    best_correction k i freq comp comp ic cp me = Ok (b, test_period b).
Proof.
  revert i ic cp me. induction k as [|k IH]; intros i ic cp me Hk Hi Hb.
  { destruct Hb as [[-> _]|(Hb & -> & ->)]; [lia|]. right. exists ic.
    replace (inc + 1) with i by lia. by split. }
  right. pose proof (test_period_pos i ltac:(lia)) as Hp.
  assert (0 <= freq * i <= freq * inc) by nia.
  pose proof (excess_range i ltac:(lia)) as He.
  assert (Hu : u32 (freq * i) = freq * i) by (apply wrap_id; unfold fits; lia).
  assert (Hx : u32 (test_offset i - comp) = excess i)
    by (apply wrap_id; unfold fits, excess in *; lia).
  cbn [best_correction]. rewrite !Hu. unfold udiv. rewrite (proj2 (Z.eqb_neq comp 0)) by lia.
  cbn [mbind res_bind mret res_ret]. fold (test_period i).
  rewrite (proj2 (Z.eqb_neq (test_period i) 0)) by lia. cbn [mbind res_bind mret res_ret].
  fold (test_offset i). rewrite Hx.
  destruct (Z.eqb_spec (excess i) 0) as [E0|E0].
  { exists i. split; [|done]. split; [lia|]. intros j Hj. rewrite E0. by apply excess_range; lia. }
  destruct (Z.ltb_spec (excess i) me) as [Hlt|Hge].
  - assert (Hb' : best_below (i + 1) i).
    { split; [lia|]. intros j Hj. destruct (decide (j = i)) as [->|]; [lia|].
      destruct Hb as [[-> _]|([_ Hb] & _ & ->)]; [lia|]. specialize (Hb j ltac:(lia)). lia. }
    destruct (IH (i + 1) i (test_period i) (excess i) ltac:(lia) ltac:(lia)) as [[??]|?]; [|lia|done].
    right. by split.
  - destruct Hb as [[-> ->]|([Hic Hb] & -> & ->)]; [lia|].
    destruct (IH (i + 1) ic (test_period ic) (excess ic) ltac:(lia) ltac:(lia)) as [[??]|?]; [|lia|done].
    right. split; [|done]. split; [lia|]. intros j Hj.
    destruct (decide (j = i)) as [->|]; [lia|]. apply Hb. lia.
Qed.

Lemma best_correction_best :
  exists b, best_below (inc + 1) b /\
    best_correction (Z.to_nat inc) 1 freq comp comp inc 0 (2 ^ 32 - 1) = Ok (b, test_period b).
Proof.
  destruct (best_correction_loop (Z.to_nat inc) 1 inc 0 (2 ^ 32 - 1)) as [[_ ?]|?]; [lia|lia|by left|lia|].
  done.
Qed.

End Compensation.

(** C24.  For a correction above 0 and below the clock's frequency, and a period of less than 128
    nanoseconds, the clock is told to add (with [positive]) or leave out a number of nanoseconds every so
    many ticks: the choice that exceeds what was asked for by the least, and never falls short of it.
    (Corrections from the frequency on are computed wrongly: [DemoEnetRx.compensation_crash] and
    [compensation_sign].) *)
Theorem compensation_best clock_period clock_freq comp positive :
  0 < comp < clock_freq -> 0 < clock_period < 128 -> clock_freq * clock_period < 2 ^ 32 ->
  exists i,
    1 <= i <= clock_period /\
    (forall j, 1 <= j <= clock_period ->
       0 <= excess clock_freq comp i <= excess clock_freq comp j) /\
    let step := if positive : bool then clock_period + i else clock_period - i in
    mx6q_ptp_set_compensation clock_period clock_freq comp positive
    = Ok [(TIMER_INCR, clock_period + 256 * step);
          (TIMER_CORR, test_period clock_freq comp i)].
Proof.
  intros Hc Hp Hf.
  destruct (best_correction_best clock_freq comp clock_period Hc ltac:(lia) Hf) as (b & [Hb Hm] & E).
  exists b. split; [lia|]. split.
  { intros j Hj. split; [|apply Hm; lia]. eapply (excess_range clock_freq comp clock_period); lia. }
  cbn zeta. unfold mx6q_ptp_set_compensation. rewrite (proj2 (Z.eqb_neq comp 0)) by lia.
  unfold udiv. rewrite (proj2 (Z.eqb_neq clock_freq 0)) by lia.
  cbn [mbind res_bind mret res_ret]. rewrite (Z.div_small comp) by lia.
  rewrite (proj2 (Z.ltb_ge (clock_freq / 2) 0)) by (apply Z.div_pos; lia).
  rewrite (proj2 (Z.leb_gt clock_freq comp)) by lia. rewrite Z.sub_0_r.
  rewrite (wrap_id 32 comp) by (unfold fits; nia). rewrite E. cbn [mbind res_bind].
  do 4 f_equal.
  set (st := if positive then clock_period + b else clock_period - b).
  assert (Hst : 0 <= st < 256) by (unfold st; destruct positive; lia).
  assert ((if positive then u32 (clock_period + b) else u32 (clock_period - b)) = st) as ->.
  { unfold st. destruct positive; apply wrap_id; unfold fits; lia. }
  unfold MX6Q_TIMER_INCR_CORR_OFF. rewrite (wrap_id 32 (Z.shiftl _ _)).
  - rewrite Z.lor_comm, lor_pieces by lia. lia.
  - rewrite Z.shiftl_mul_pow2 by lia. unfold fits. lia.
Qed.

(** ** Looking for the PTP header *)

(** The members of [ptpv2hdr_t] lie inside it. *)
Class NetHeaderLaws `{NetHeaders} := {
  hdr_size : 0 < SIZEOF_PTPV2HDR;
  hdr_version : 0 <= off_version < SIZEOF_PTPV2HDR;
  hdr_messageId : 0 <= off_messageId < SIZEOF_PTPV2HDR;
  hdr_sequenceId : 0 <= off_sequenceId < SIZEOF_PTPV2HDR - 1;
  hdr_sportId : 0 <= off_sportId < SIZEOF_PTPV2HDR - 1
}.

Lemma rd_ok d o : 0 <= o < zlen d -> exists v, rd d o = Ok v.
Proof.
  intros Ho. unfold rd, byte_at. rewrite (proj2 (Z.ltb_ge o 0)) by lia.
  destruct (d !! Z.to_nat o) as [v|] eqn:E; [by exists v|].
  apply lookup_ge_None in E. unfold zlen in Ho. lia.
Qed.

Lemma rd16_ok d o : 0 <= o < zlen d - 1 -> exists v, rd16 d o = Ok v.
Proof.
  intros Ho. unfold rd16. destruct (rd_ok d o) as [a ->]; [lia|].
  destruct (rd_ok d (o + 1)) as [b ->]; [lia|]. by eexists.
Qed.

(** The lengths of a packet's mbufs; each lies in its cluster with some bytes after it. *)
Definition view_len (c : view) : Z := foldr (fun x n => x.1 + n) 0 c.
Definition view_fits (c : view) : Prop := Forall (fun x => 0 <= x.1 /\ x.1 + 16 <= zlen x.2) c.

Lemma skip_ok c remain :
  view_fits c -> 0 <= remain < view_len c ->
  exists r len d c', skip remain c = Ok (r, (len, d) :: c') /\ 0 <= r < len /\ r <= remain /\ len + 16 <= zlen d /\
    view_fits ((len, d) :: c') /\ view_len ((len, d) :: c') - r = view_len c - remain.
Proof.
  revert remain. induction c as [|[len d] c IH]; intros remain Hf Hr; [cbn in Hr; lia|].
  pose proof Hf as [Hl Hf']%Forall_cons_1. cbn [skip view_len foldr fst snd] in *.
  fold (view_len c) in *. destruct (Z.leb_spec len remain).
  - destruct (IH (remain - len) Hf' ltac:(lia)) as (r & l & d' & c' & E & Hx & Hm & Hy & Hz & Hw).
    exists r, l, d', c'. repeat split; try done; lia.
  - exists remain, len, d, c. repeat split; try done; lia.
Qed.

Section Safe.
Context `{NetHeaderLaws}.

Lemma take_header_ok remain len d c :
  0 <= remain < len -> len < 2 ^ 31 -> len + 16 <= zlen d ->
  exists r, take_header remain ((len, d) :: c) = Ok r /\
    forall ph, r = Some ph -> SIZEOF_PTPV2HDR <= zlen ph.
Proof.
  intros Hr Hl Hd. unfold take_header. cbn. rewrite wrap_id by (unfold fits; lia).
  destruct (Z.ltb_spec (len - remain) SIZEOF_PTPV2HDR); (eexists; split; [done|]); [done|].
  intros ph [= <-]. unfold zlen in *. rewrite length_drop. lia.
Qed.

(** The search for the header never leaves the packet, and what it finds is a whole header. *)
Lemma is_eventmsg_ok pktlen c :
  view_fits c -> view_len c = pktlen -> pktlen < 2 ^ 31 -> 18 <= match c with x :: _ => zlen x.2 | [] => 18 end ->
  exists r, mx6q_ptp_is_eventmsg pktlen c = Ok r /\
    forall ph, r = Some ph -> SIZEOF_PTPV2HDR <= zlen ph.
Proof.
  intros Hf Hv Hb Hh. unfold mx6q_ptp_is_eventmsg, SIZEOF_ETHER_HEADER, SIZEOF_UDPHDR.
  pose proof hdr_size as Hs.
  assert (Hpos : forall c, view_fits c -> 0 <= view_len c).
  { intros c'. induction 1 as [|x l Hx Hl IH]; [done|]. cbn. unfold view_len in IH. lia. }
  rewrite wrap_id by (unfold fits; pose proof (Hpos c Hf); lia).
  destruct (Z.ltb_spec pktlen (14 + SIZEOF_PTPV2HDR)); [by eexists|].
  destruct c as [|[len d] c]; [cbn in Hv; lia|]. cbn [head_mbuf head get_or_bad mbind res_bind].
  cbn [snd] in Hh.
  destruct (rd16_ok d 12) as [ty ->]; [lia|]. cbn [mbind res_bind].
  assert (Hlen : forall l d' c', view_fits ((l, d') :: c') -> view_len ((l, d') :: c') < 2 ^ 31 -> l < 2 ^ 31).
  { intros l d' c' Hx Hy. apply Forall_cons_1 in Hx as [_ Hx]. pose proof (Hpos _ Hx). cbn in Hy.
    unfold view_len in *. lia. }
  destruct (skip_ok ((len, d) :: c) 14 Hf ltac:(lia)) as (r & l & d1 & c1 & Es & Hr & Hm1 & Hd1 & Hf1 & Hv1).
  destruct (ty =? ETHERTYPE_PTP).
  { rewrite Es. cbn [mbind res_bind]. apply take_header_ok; [done| |done]. eapply Hlen; [done|lia]. }
  destruct (ty =? ETHERTYPE_IP); [|by eexists].
  rewrite Es. cbn [mbind res_bind head_mbuf head get_or_bad].
  destruct (rd_ok d1 (r + 9)) as [ip ->]; [lia|]. cbn [mbind res_bind].
  destruct (negb _); [by eexists|]. destruct (rd_ok d1 r) as [vhl ->]; [lia|]. cbn [mbind res_bind].
  set (hl := Z.shiftl (Z.land vhl 15) 2).
  assert (0 <= hl) by (unfold hl; apply Z.shiftl_nonneg, Z.land_nonneg; by right).
  destruct (Z.ltb_spec pktlen (14 + hl + 8 + SIZEOF_PTPV2HDR)); [by eexists|].
  destruct (skip_ok ((l, d1) :: c1) (r + hl) Hf1 ltac:(lia)) as (r2 & l2 & d2 & c2 & -> & Hr2 & Hm2 & Hd2 & Hf2 & Hv2).
  cbn [mbind res_bind head_mbuf head get_or_bad].
  destruct (rd16_ok d2 (r2 + 2)) as [port ->]; [lia|]. cbn [mbind res_bind].
  destruct (negb _); [by eexists|].
  destruct (skip_ok ((l2, d2) :: c2) (r2 + 8) Hf2 ltac:(lia)) as (r3 & l3 & d3 & c3 & -> & Hr3 & Hm3 & Hd3 & Hf3 & Hv3).
  cbn [mbind res_bind]. apply take_header_ok; [done| |done]. eapply Hlen; [done|lia].
Qed.

Lemma add_rx_timestamp_ok p ph t :
  (forall h, ph = Some h -> SIZEOF_PTPV2HDR <= zlen h) ->
  exists p', mx6q_ptp_add_rx_timestamp p ph t = Ok p'.
Proof.
  intros Hh. unfold mx6q_ptp_add_rx_timestamp. destruct ph as [h|]; [|by eexists].
  specialize (Hh h eq_refl). unfold entry_of.
  pose proof hdr_version; pose proof hdr_messageId; pose proof hdr_sequenceId; pose proof hdr_sportId.
  destruct (rd_ok h off_version) as [v ->]; [lia|]. cbn [mbind res_bind].
  destruct (negb _); [by eexists|].
  destruct (rd_ok h off_messageId) as [mi ->]; [lia|].
  destruct (rd16_ok h off_sequenceId) as [sq ->]; [lia|].
  destruct (rd16_ok h off_sportId) as [sp ->]; [lia|]. cbn. by eexists.
Qed.

End Safe.
