(* ===== verification/EnetRx.v ===== *)
(** * EnetRx: the receive ring of the Ethernet driver (devnp/mx6x/receive.c, event.c, detect.c).

    Each descriptor of the ring holds an mbuf the controller fills; [mx6q_receive] takes the filled
    ones, puts the pieces of a frame together by their [m_next] pointers, gives the descriptor a new
    mbuf, and passes frames up, directly or through a queue another thread empties.  The model is
    the build for the i.MX6, where [NUM_RX_QUEUES] is 1: the queue's [offset] in the ring is 0. *)

From S2P Require Import Prelude.
From S2P Require Import EnetPtp.

(** What <net/if_ether.h>, <net/if_vlanvar.h>, <netdrvr/avb.h> and <net/if.h> declare. *)
Class RxHeaders := { ETHERTYPE_VLAN : Z; ETHERTYPE_1722 : Z; IFQ_MAXLEN : Z }.

(** ** Constants of mx6q.h *)

Definition RXBD_E : Z := 2 ^ 15.
Definition RXBD_W : Z := 2 ^ 13.
Definition RXBD_L : Z := 2 ^ 11.
Definition RXBD_LG : Z := 2 ^ 5.
Definition RXBD_NO : Z := 2 ^ 4.
Definition RXBD_SH : Z := 2 ^ 3.
Definition RXBD_CR : Z := 2 ^ 2.
Definition RXBD_OV : Z := 2 ^ 1.
Definition RXBD_TR : Z := 2 ^ 0.
Definition RXBD_ERR : Z :=
  Z.lor RXBD_TR (Z.lor RXBD_OV (Z.lor RXBD_CR (Z.lor RXBD_SH (Z.lor RXBD_NO RXBD_LG)))).
Definition IMASK_RFIEN : Z := 2 ^ 25.
Definition IEVENT_RFINT : Z := 2 ^ 25.
Definition IEVENT_TFINT : Z := 2 ^ 27.
Definition MX6_FLOW_BOTH : Z := 1.
Definition MX6_FLOW_TX : Z := 2.
Definition MX6_FLOW_RX : Z := 3.
Definition MIN_NUM_RX_DESCRIPTORS : Z := 16.
Definition MAX_NUM_RX_DESCRIPTORS : Z := 2048.
Definition MX6Q_MAX_RBUFF_SIZE : Z := 1984.
Definition ENOMEM : Z := 12.

(** ** State *)

(** The members of [struct mbuf] the driver uses: where the controller finds its cluster, the size of
    the cluster, the next mbuf of the packet, and the lengths. *)
Record mbuf := {
  m_phys : Z; m_ext_size : Z; m_next : option Z; m_len : Z; m_pkthdr_len : Z; m_rcvif : bool;
  m_hasfcs : bool
}.

(** The members of [mpc_bd_t] the receive side uses. *)
Record rbd := { rb_length : Z; rb_status : Z; rb_buffer : Z; rb_timestamp : Z }.

(** A packet as the stack gets it. *)
Record packet := { pk_bytes : list Z; pk_len : Z; pk_rcvif : bool; pk_hasfcs : bool }.

Inductive rxev : Type :=
  | RxFlush (phys len : Z)          (* CACHE_FLUSH *)
  | RxInval (phys len : Z)          (* CACHE_INVAL *)
  | RxStats                         (* mx6q_update_stats *)
  | RxFree (m : Z)                  (* m_freem *)
  | RxTap (m : Z)                   (* bpf_mtap *)
  | RxInput (m : Z) (p : packet)    (* if_input *)
  | RxSchedule                      (* interrupt_queue and its pulse *)
  | RxActivate                      (* R_DES_ACTIVE written *)
  | RxBadPulse.                     (* the log of an unknown pulse *)

Record ring := { rx_bd : list rbd; rx_pkts : list (option Z); rx_cidx : Z }.
(** The frame that is only partly received: its first and last mbuf and its length so far. *)
Record partial := { rpkt : option Z; rpkt_tail : option Z; length_ : Z }.
Record upqueue := { rx_queue : list Z; rx_running : bool; rx_full : Z }.
Record counters := {
  if_ierrors : Z; if_ipackets : Z; rx_failed_allocs : Z; octets_rxed_ok : Z; rxed_ok : Z;
  rxed_broadcast : Z; rxed_multicast : Z
}.

(** The mbufs by their addresses, and the clusters as the controller sees them, by physical address. *)
Record store := { mbufs : gmap Z mbuf; dma : gmap Z (list Z) }.

(** The receive members of [mx6q_dev_t], the registers of its interrupts, and what the driver did. *)
Record rx := {
  num_rx_descriptors : Z;
  flow_status : Z;
  if_running : bool;
  rng : ring;
  part : partial;
  upq : upqueue;
  cnt : counters;
  sto : store;
  imask : Z;
  ievent : Z;
  clk : ptp;
  trace : list rxev
}.

Definition set_rng (s : rx) (r : ring) : rx :=
  {| num_rx_descriptors := num_rx_descriptors s; flow_status := flow_status s;
     if_running := if_running s; rng := r; part := part s; upq := upq s; cnt := cnt s; sto := sto s;
     imask := imask s; ievent := ievent s; clk := clk s; trace := trace s |}.
Definition set_part (s : rx) (p : partial) : rx :=
  {| num_rx_descriptors := num_rx_descriptors s; flow_status := flow_status s;
     if_running := if_running s; rng := rng s; part := p; upq := upq s; cnt := cnt s; sto := sto s;
     imask := imask s; ievent := ievent s; clk := clk s; trace := trace s |}.
Definition set_upq (s : rx) (q : upqueue) : rx :=
  {| num_rx_descriptors := num_rx_descriptors s; flow_status := flow_status s;
     if_running := if_running s; rng := rng s; part := part s; upq := q; cnt := cnt s; sto := sto s;
     imask := imask s; ievent := ievent s; clk := clk s; trace := trace s |}.
Definition set_cnt (s : rx) (c : counters) : rx :=
  {| num_rx_descriptors := num_rx_descriptors s; flow_status := flow_status s;
     if_running := if_running s; rng := rng s; part := part s; upq := upq s; cnt := c; sto := sto s;
     imask := imask s; ievent := ievent s; clk := clk s; trace := trace s |}.
Definition set_mbufs (s : rx) (h : gmap Z mbuf) : rx :=
  {| num_rx_descriptors := num_rx_descriptors s; flow_status := flow_status s;
     if_running := if_running s; rng := rng s; part := part s; upq := upq s; cnt := cnt s;
     sto := {| mbufs := h; dma := dma (sto s) |};
     imask := imask s; ievent := ievent s; clk := clk s; trace := trace s |}.
Definition set_dma (s : rx) (d : gmap Z (list Z)) : rx :=
  {| num_rx_descriptors := num_rx_descriptors s; flow_status := flow_status s;
     if_running := if_running s; rng := rng s; part := part s; upq := upq s; cnt := cnt s;
     sto := {| mbufs := mbufs (sto s); dma := d |};
     imask := imask s; ievent := ievent s; clk := clk s; trace := trace s |}.
Definition set_regs (s : rx) (mask event : Z) : rx :=
  {| num_rx_descriptors := num_rx_descriptors s; flow_status := flow_status s;
     if_running := if_running s; rng := rng s; part := part s; upq := upq s; cnt := cnt s; sto := sto s;
     imask := mask; ievent := event; clk := clk s; trace := trace s |}.
Definition set_clk (s : rx) (p : ptp) : rx :=
  {| num_rx_descriptors := num_rx_descriptors s; flow_status := flow_status s;
     if_running := if_running s; rng := rng s; part := part s; upq := upq s; cnt := cnt s; sto := sto s;
     imask := imask s; ievent := ievent s; clk := p; trace := trace s |}.
Definition log (s : rx) (evs : list rxev) : rx :=
  {| num_rx_descriptors := num_rx_descriptors s; flow_status := flow_status s;
     if_running := if_running s; rng := rng s; part := part s; upq := upq s; cnt := cnt s; sto := sto s;
     imask := imask s; ievent := ievent s; clk := clk s; trace := trace s ++ evs |}.

Definition add_errors (s : rx) (ierrors failed : Z) : rx :=
  let c := cnt s in
  set_cnt s {| if_ierrors := if_ierrors c + ierrors; if_ipackets := if_ipackets c;
               rx_failed_allocs := rx_failed_allocs c + failed; octets_rxed_ok := octets_rxed_ok c;
               rxed_ok := rxed_ok c; rxed_broadcast := rxed_broadcast c;
               rxed_multicast := rxed_multicast c |}.

Definition no_partial : partial := {| rpkt := None; rpkt_tail := None; length_ := 0 |}.

(** [NEXT_RX] *)
Definition NEXT_RX (s : rx) (x : Z) : Z := (x + 1) mod num_rx_descriptors s.

(** ** Packets in the store *)

(** The bytes of a cluster; a cluster nobody wrote has none. *)
Definition cluster (st : store) (m : mbuf) : list Z := default [] (dma st !! m_phys m).

(** The mbufs of a packet from [p] on, as the code walks them: [m_len] and the cluster of each.  A
    chain has at most as many mbufs as there are. *)
Fixpoint walk (fuel : nat) (st : store) (p : option Z) : view :=
  match p, fuel with
  | Some i, S fuel =>
      match mbufs st !! i with
      | Some m => (m_len m, cluster st m) :: walk fuel st (m_next m)
      | None => []
      end
  | _, _ => []
  end.

Definition packet_view (st : store) (p : Z) : view := walk (size (mbufs st)) st (Some p).

Definition view_bytes (v : view) : list Z := concat (map (fun x => take (Z.to_nat x.1) x.2) v).

(** What [if_input] is given. *)
Definition packet_at (st : store) (p : Z) : res packet :=
  m ← get_or_bad (mbufs st !! p);
  mret {| pk_bytes := view_bytes (packet_view st p); pk_len := m_pkthdr_len m; pk_rcvif := m_rcvif m;
          pk_hasfcs := m_hasfcs m |}.

Definition if_input (s : rx) (p : Z) : res rx :=
  k ← packet_at (sto s) p; mret (log s [RxInput p k]).

(** ** The code *)

Section Code.
Context `{NetHeaders} `{RxHeaders}.

(** [mx6q_add_pkt] *)
Definition mx6q_add_pkt (s : rx) (new idx : Z) : res rx :=
  m ← get_or_bad (mbufs (sto s) !! new);
  b ← get_or_bad (rx_bd (rng s) !! Z.to_nat idx);
  let phys := m_phys m in
  let status := if idx mod num_rx_descriptors s =? num_rx_descriptors s - 1
                then Z.lor RXBD_E RXBD_W else RXBD_E in
  let b := {| rb_length := 0; rb_status := status; rb_buffer := u32 phys;
              rb_timestamp := rb_timestamp b |} in
  mret (log (set_rng s {| rx_bd := <[Z.to_nat idx := b]> (rx_bd (rng s));
                          rx_pkts := <[Z.to_nat idx := Some new]> (rx_pkts (rng s));
                          rx_cidx := rx_cidx (rng s) |})
            [RxFlush phys (m_ext_size m)]).

(** "Half way through a packet, discard it all" *)
Definition discard (s : rx) : rx :=
  match rpkt (part s) with
  | None => s
  | Some p => set_part (log s [RxFree p]) no_partial
  end.

(** The mbuf of a descriptor; a null pointer there is read through. *)
Definition pkt_of (s : rx) (idx : Z) : res Z :=
  p ← get_or_bad (rx_pkts (rng s) !! Z.to_nat idx); get_or_bad p.

(** Give the old mbuf back to the controller and count an error. *)
Definition give_back (s : rx) (idx failed : Z) : res rx :=
  old ← pkt_of s idx;
  s ← mx6q_add_pkt s old idx;
  mret (discard (add_errors s 1 failed)).

Definition upd_mbuf (s : rx) (i : Z) (f : mbuf -> mbuf) : res rx :=
  m ← get_or_bad (mbufs (sto s) !! i); mret (set_mbufs s (<[i := f m]> (mbufs (sto s)))).

Definition with_next (n : option Z) (m : mbuf) : mbuf :=
  {| m_phys := m_phys m; m_ext_size := m_ext_size m; m_next := n; m_len := m_len m;
     m_pkthdr_len := m_pkthdr_len m; m_rcvif := m_rcvif m; m_hasfcs := m_hasfcs m |}.
Definition with_len (l : Z) (m : mbuf) : mbuf :=
  {| m_phys := m_phys m; m_ext_size := m_ext_size m; m_next := m_next m; m_len := l;
     m_pkthdr_len := m_pkthdr_len m; m_rcvif := m_rcvif m; m_hasfcs := m_hasfcs m |}.
Definition with_hdr (l : Z) (m : mbuf) : mbuf :=
  {| m_phys := m_phys m; m_ext_size := m_ext_size m; m_next := m_next m; m_len := m_len m;
     m_pkthdr_len := l; m_rcvif := true; m_hasfcs := true |}.

(** "pull rxd packet out of corresponding queue": the mbuf becomes the last of the frame. *)
Definition append_pkt (s : rx) (idx len : Z) : res rx :=
  old ← pkt_of s idx;
  m ← get_or_bad (mbufs (sto s) !! old);
  b ← get_or_bad (rx_bd (rng s) !! Z.to_nat idx);
  let s := log s [RxInval (rb_buffer b) (m_ext_size m)] in
  s ← (match rpkt (part s) with
       | None => mret (set_part s {| rpkt := Some old; rpkt_tail := Some old;
                                     length_ := length_ (part s) |})
       | Some p =>
           tail ← get_or_bad (rpkt_tail (part s));
           s ← upd_mbuf s tail (with_next (Some old));
           mret (set_part s {| rpkt := Some p; rpkt_tail := Some old; length_ := length_ (part s) |})
       end);
  let s := set_rng s {| rx_bd := rx_bd (rng s); rx_pkts := <[Z.to_nat idx := None]> (rx_pkts (rng s));
                        rx_cidx := rx_cidx (rng s) |} in
  upd_mbuf s old (with_len len).

(** The counters of a received packet, by its destination address. *)
Definition count_packet (s : rx) (len : Z) (dst : list Z) : rx :=
  let c := cnt s in
  let multicast := match dst with b :: _ => negb (Z.land b 1 =? 0) | [] => false end in
  let broadcast := bool_decide (take 6 dst = replicate 6 255) in
  set_cnt s {| if_ierrors := if_ierrors c; if_ipackets := if_ipackets c + 1;
               rx_failed_allocs := rx_failed_allocs c;
               octets_rxed_ok := octets_rxed_ok c + len; rxed_ok := rxed_ok c + 1;
               rxed_broadcast := rxed_broadcast c + (if multicast && broadcast then 1 else 0);
               rxed_multicast := rxed_multicast c + (if multicast && negb broadcast then 1 else 0) |}.

(** A 1722 packet, by the two type fields of its first cluster. *)
Definition is_avb (d : list Z) : res bool :=
  encap ← rd16 d 12;
  if encap =? ETHERTYPE_VLAN then proto ← rd16 d 16; mret (proto =? ETHERTYPE_1722) else mret false.

(** The packet [p] is for the stack: up at once, or into the queue; the result is [Some 0] when
    receiving stops for flow control. *)
Definition pass_up (s : rx) (p : Z) (avb : bool) : res (rx * option Z) :=
  if avb then s ← if_input s p; mret (set_part s no_partial, None)
  else
    let q := upq s in
    let s :=
      if IFQ_MAXLEN <=? zlen (rx_queue q) then add_errors (log s [RxFree p]) 1 1
      else
        let s := set_upq s {| rx_queue := rx_queue q ++ [p]; rx_running := true; rx_full := rx_full q |} in
        if negb (rx_running q) then log s [RxSchedule] else s in
    let s := set_part s no_partial in
    if negb (Z.land (flow_status s) (Z.lor MX6_FLOW_TX MX6_FLOW_BOTH) =? 0)
       && (IFQ_MAXLEN - 1 <=? zlen (rx_queue (upq s)))
    then mret (set_upq s {| rx_queue := rx_queue (upq s); rx_running := rx_running (upq s);
                            rx_full := Z.lor (rx_full (upq s)) 1 |}, Some 0)
    else mret (s, None).

(** The last descriptor of a frame: the lengths are put right, and the packet is passed up. *)
Definition finish_frame (s : rx) (timestamp : Z) : res (rx * option Z) :=
  p ← get_or_bad (rpkt (part s));
  tail ← get_or_bad (rpkt_tail (part s));
  mt ← get_or_bad (mbufs (sto s) !! tail);
  s ← upd_mbuf s p (with_hdr (m_len mt));
  s ← upd_mbuf s tail (fun m => with_len (s32 (m_len m - length_ (part s))) m);
  let s := log s [RxTap p] in
  m ← get_or_bad (mbufs (sto s) !! p);
  ph ← mx6q_ptp_is_eventmsg (m_pkthdr_len m) (packet_view (sto s) p);
  c ← mx6q_ptp_add_rx_timestamp (clk s) ph timestamp;
  let s := set_clk s c in
  let d := cluster (sto s) m in
  let s := count_packet s (m_pkthdr_len m) (take 6 d) in
  avb ← is_avb d;
  pass_up s p avb.

(** One turn of the loop of [mx6q_receive], with what [m_getcl_wtp] gives it: the new mbuf, its
    address, and what is in its cluster.  The result is what the function returns, if it does.  The
    time stamp is read from the descriptor after it has been given back; within a turn the controller
    writes nothing here. *)
Definition receive_turn (alloc : option (Z * mbuf * list Z)) (s : rx) : res (rx * option Z) :=
  let this_idx := rx_cidx (rng s) in
  b ← get_or_bad (rx_bd (rng s) !! Z.to_nat this_idx);
  let status := rb_status b in
  if negb (Z.land status RXBD_E =? 0) then
    mret (if if_running s then log s [RxActivate] else s, Some 1)
  else
    let next := NEXT_RX s this_idx in
    let s := set_rng s {| rx_bd := rx_bd (rng s); rx_pkts := rx_pkts (rng s); rx_cidx := next |} in
    let s := if next =? 0 then log s [RxStats] else s in
    if negb (Z.land status RXBD_ERR =? 0) then s ← give_back s this_idx 0; mret (s, None)
    else
      match alloc with
      | None => s ← give_back s this_idx 1; mret (s, None)
      | Some (new, m, bytes) =>
          let s := set_mbufs s (<[new := m]> (mbufs (sto s))) in
          let s := set_dma s (<[m_phys m := bytes]> (dma (sto s))) in
          s ← append_pkt s this_idx (rb_length b);
          s ← mx6q_add_pkt s new this_idx;
          if negb (Z.land status RXBD_L =? 0) then
            b ← get_or_bad (rx_bd (rng s) !! Z.to_nat this_idx);
            finish_frame s (rb_timestamp b)
          else
            tail ← get_or_bad (rpkt_tail (part s));
            mt ← get_or_bad (mbufs (sto s) !! tail);
            mret (set_part s {| rpkt := rpkt (part s); rpkt_tail := rpkt_tail (part s);
                                length_ := u32 (length_ (part s) + m_len mt) |}, None)
      end.

(** [mx6q_receive]: an element of [allocs] for each turn. *)
Fixpoint mx6q_receive (allocs : list (option (Z * mbuf * list Z))) (s : rx) : res (rx * Z) :=
  match allocs with
  | [] => Err NoFuel
  | a :: allocs =>
      '(s, r) ← receive_turn a s;
      match r with Some r => mret (s, r) | None => mx6q_receive allocs s end
  end.

(** ** Interrupts and threads *)

(** The start and the end of the handling of MX6Q_RX_PULSE in [mx6q_rx_thread]; a written event bit
    is cleared. *)
Definition rx_pulse_begin (s : rx) : rx := set_regs s (imask s) (Z.land (ievent s) (bnot 32 IEVENT_RFINT)).
Definition rx_pulse_end (s : rx) (r : Z) : rx :=
  if negb (r =? 0) then set_regs s (Z.lor (imask s) IMASK_RFIEN) (ievent s) else s.

(** The pulses of the thread: a receive pulse with its queue, or another one. *)
Inductive rxpulse : Type := PULSE_RX (queue : Z) | PULSE_QUIESCE | PULSE_OTHER.

Definition mx6q_rx_pulse (allocs : list (option (Z * mbuf * list Z))) (p : rxpulse) (s : rx) : res rx :=
  match p with
  | PULSE_RX queue =>
      if queue =? 0 then
        '(s, r) ← mx6q_receive allocs (rx_pulse_begin s); mret (rx_pulse_end s r)
      else mret s
  | PULSE_QUIESCE => mret s
  | PULSE_OTHER => mret (log s [RxBadPulse])
  end.

(** What [mx6q_isr] returns: the pulse for the receive thread, the event of [interrupt_queue], or
    nothing. *)
Inductive isr_event : Type := IsrRx | IsrQueue | IsrNone.

(** [mx6q_isr], with [x_des] the reading of X_DES_ACTIVE, whether the last transmit descriptor is
    active, and [tx_full]; the flag of the result says whether X_DES_ACTIVE is written. *)
Definition mx6q_isr (x_des : Z) (last_bd_active tx_full : bool) (s : rx) : rx * bool * isr_event :=
  let event := ievent s in
  let mask := imask s in
  if negb (Z.land mask IMASK_RFIEN =? 0) && negb (Z.land event IEVENT_RFINT =? 0) then
    (set_regs s (Z.land mask (bnot 32 IMASK_RFIEN)) event, false, IsrRx)
  else
    let '(c, ws) := ts_timer_isr event (clk s) in
    let s := set_clk s c in
    let s := set_regs s mask (foldr (fun w e => Z.land e (bnot 32 w.2)) event ws) in
    if negb (Z.land event IEVENT_TFINT =? 0) then
      (set_regs s mask (Z.land (ievent s) (bnot 32 IEVENT_TFINT)), (x_des =? 0) && last_bd_active,
       if tx_full then IsrQueue else IsrNone)
    else (s, false, IsrNone).

(** One turn of the loop of [mx6q_process_queue]: whether it took a packet; if not, the mutex stays
    locked. *)
Definition process_turn (s : rx) : res (rx * bool) :=
  match rx_queue (upq s) with
  | [] => mret (s, false)
  | p :: q =>
      s ← if_input (set_upq s {| rx_queue := q; rx_running := rx_running (upq s);
                                 rx_full := rx_full (upq s) |}) p;
      mret (s, true)
  end.

(** [mx6q_enable_queue], which unlocks the mutex. *)
Definition mx6q_enable_queue (s : rx) : rx :=
  let s :=
    if if_running s && negb (Z.land (rx_full (upq s)) 1 =? 0)
    then log (set_regs s (Z.lor (imask s) IMASK_RFIEN) (ievent s)) [RxActivate] else s in
  set_upq s {| rx_queue := rx_queue (upq s); rx_running := false; rx_full := 0 |}.

(** ** Setting up and taking down *)

(** The number of descriptors the options ask for, brought into range. *)
Definition clamp_rx_descriptors (n : Z) : Z :=
  let n := Z.land n (Z.lnot 3) in
  let n := if n <? MIN_NUM_RX_DESCRIPTORS then MIN_NUM_RX_DESCRIPTORS else n in
  if MAX_NUM_RX_DESCRIPTORS <? n then MAX_NUM_RX_DESCRIPTORS else n.

(** The loop of [mx6q_attach] over the descriptors from [i] on, with what [m_getcl] gives: the
    descriptors and mbufs set up, and whether all were. *)
Fixpoint init_ring (n : Z) (i : Z) (k : nat) (allocs : list (option (Z * mbuf * list Z))) (st : store)
  : list rbd * list (option Z) * store * bool :=
  match k, allocs with
  | O, _ => ([], [], st, true)
  | S k, Some (id, m, bytes) :: allocs =>
      let st := {| mbufs := <[id := m]> (mbufs st); dma := <[m_phys m := bytes]> (dma st) |} in
      let '(bds, ps, st, ok) := init_ring n (i + 1) k allocs st in
      ({| rb_length := 0; rb_status := if i =? n - 1 then Z.lor RXBD_E RXBD_W else RXBD_E;
          rb_buffer := u32 (m_phys m); rb_timestamp := 0 |} :: bds, Some id :: ps, st, ok)
  | S k, _ => ([], replicate (S k) None, st, false)
  end.

(** The receive side of a new interface, once it is up. *)
Definition init_rx (n flow : Z) (allocs : list (option (Z * mbuf * list Z))) (st : store) (p : ptp)
  : option rx :=
  let n := clamp_rx_descriptors n in
  let '(bds, ps, st, ok) := init_ring n 0 (Z.to_nat n) allocs st in
  if ok then
    Some {| num_rx_descriptors := n; flow_status := flow; if_running := true;
            rng := {| rx_bd := bds; rx_pkts := ps; rx_cidx := 0 |}; part := no_partial;
            upq := {| rx_queue := []; rx_running := false; rx_full := 0 |};
            cnt := {| if_ierrors := 0; if_ipackets := 0; rx_failed_allocs := 0; octets_rxed_ok := 0;
                      rxed_ok := 0; rxed_broadcast := 0; rxed_multicast := 0 |};
            sto := st; imask := Z.lor IMASK_RFIEN (Z.lor IEVENT_TS_TIMER IEVENT_TFINT); ievent := 0;
            clk := p; trace := [] |}
  else None.

(** The receive part of [mx6q_destroy]: the queue is purged and the mbufs of the ring freed. *)
Definition mx6q_destroy_rx (s : rx) : rx :=
  set_rng
    (set_upq (log s (map RxFree (rx_queue (upq s)) ++ map RxFree (omap id (rx_pkts (rng s)))))
       {| rx_queue := []; rx_running := rx_running (upq s); rx_full := rx_full (upq s) |})
    {| rx_bd := []; rx_pkts := []; rx_cidx := rx_cidx (rng s) |}.

End Code.
