(* ===== verification/EnetRxRing.v ===== *)
(** * EnetRxRing: the receive ring read as a queue of frames.

    The controller writes each frame in pieces into the descriptors, in order; the driver takes the
    pieces from the other end.  This file has the controller, and the invariant that says which frames
    are in the ring, in the chain of the unfinished frame and in the queue to the stack, with every
    mbuf at one of these places. *)

From S2P Require Import Prelude.
From S2P Require Import Sections.
From S2P Require Import EnetPtp.
From S2P Require Import EnetRx.

(** ** Frames and pieces *)

(** A frame on the wire as the controller stores it: in pieces, each but the last the size of a
    buffer; and the status bits it gets. *)
Record frame := { fr_pieces : list (list Z); fr_flags : Z }.

Definition frame_bytes (f : frame) : list Z := concat (fr_pieces f).
Definition bad_frame (f : frame) : bool := negb (Z.land (fr_flags f) RXBD_ERR =? 0).

(** What a descriptor gets: bytes, and with the last piece the length of the frame and its flags. *)
Record chunk := { ck_bytes : list Z; ck_last : option (Z * Z) }.

Fixpoint chunks_from (total flags : Z) (ps : list (list Z)) : list chunk :=
  match ps with
  | [] => []
  | [p] => [{| ck_bytes := p; ck_last := Some (total, flags) |}]
  | p :: ps => {| ck_bytes := p; ck_last := None |} :: chunks_from total flags ps
  end.

Definition chunks (f : frame) : list chunk :=
  chunks_from (zlen (frame_bytes f)) (fr_flags f) (fr_pieces f).

Definition middle (p : list Z) : chunk := {| ck_bytes := p; ck_last := None |}.

Lemma chunks_from_snoc t fl l p :
  chunks_from t fl (l ++ [p]) = map middle l ++ [{| ck_bytes := p; ck_last := Some (t, fl) |}].
Proof.
  induction l as [|q l IH]; [done|]. cbn [app chunks_from map]. rewrite IH.
  destruct l; reflexivity.
Qed.

(** A last piece ends the first frame that is not done. *)
Lemma first_frame acc p t fl pend todo pre :
  map middle acc ++ {| ck_bytes := p; ck_last := Some (t, fl) |} :: pend
  = concat (map chunks todo) ++ map middle pre ->
  Forall (fun f => fr_pieces f <> []) todo ->
  exists f todo', todo = f :: todo' /\ fr_pieces f = acc ++ [p] /\
    t = zlen (frame_bytes f) /\ fl = fr_flags f /\ pend = concat (map chunks todo') ++ map middle pre.
Proof.
  intros He Hn. destruct todo as [|f todo].
  { exfalso. cbn in He. revert pre He. induction acc as [|a acc IH]; intros [|b pre] He; try done.
    injection He as _ He. by eapply IH. }
  exists f, todo. apply Forall_cons_1 in Hn as [Hf _].
  destruct (exists_last Hf) as (l & q & El). cbn [map concat] in He.
  unfold chunks in He at 1. rewrite El, chunks_from_snoc in He.
  assert (Ha : acc = l).
  { revert He. rewrite <- !app_assoc. generalize l. induction acc as [|a acc IH]; intros [|b l'] He.
    - done.
    - discriminate He.
    - discriminate He.
    - injection He as -> He. f_equal. by apply IH. }
  subst l. rewrite <- !app_assoc in He. apply app_inv_head in He. cbn in He.
  injection He as -> -> -> ->. by rewrite El.
Qed.

(** ** The controller *)

(** Where it is in the ring, the pieces of the frame it is writing, and the frames it has written. *)
Record nic := { hw_idx : Z; hw_pre : list (list Z); wire : list frame }.

(** The descriptor [i] after a piece was put into it. *)
Definition fill_bd (c : chunk) (ts : Z) (b : rbd) : rbd :=
  {| rb_length := match ck_last c with None => zlen (ck_bytes c) | Some (t, _) => t end;
     rb_status := Z.lor (Z.land (rb_status b) RXBD_W)
                    (match ck_last c with None => 0 | Some (_, fl) => Z.lor RXBD_L fl end);
     rb_buffer := rb_buffer b; rb_timestamp := ts |}.

(** With the last piece of a frame the controller raises its interrupt. *)
Definition hw_done (c : chunk) (s : rx) : rx :=
  match ck_last c with
  | None => s
  | Some _ => set_regs s (imask s) (Z.lor (ievent s) IEVENT_RFINT)
  end.

Definition hw_put (c : chunk) (ts i : Z) (b : rbd) (d : list Z) (s : rx) : rx :=
  set_rng (set_dma s (<[rb_buffer b := splice d 0 (ck_bytes c)]> (dma (sto s))))
    {| rx_bd := <[Z.to_nat i := fill_bd c ts b]> (rx_bd (rng s)); rx_pkts := rx_pkts (rng s);
       rx_cidx := rx_cidx (rng s) |}.

(** The controller writes a piece: into the next descriptor if it is empty. *)
Definition hw_fill (c : chunk) (ts i : Z) (s : rx) : option rx :=
  b ← rx_bd (rng s) !! Z.to_nat i;
  if Z.land (rb_status b) RXBD_E =? 0 then None
  else
    d ← dma (sto s) !! rb_buffer b;
    Some (hw_done c (hw_put c ts i b d s)).

(** ** Chains *)

(** The mbufs [ids], linked from [p] on by [m_next], hold [ps]: [m_len] and the bytes of each. *)
Fixpoint chained (st : store) (p : option Z) (ids : list Z) (ps : list (Z * list Z)) : Prop :=
  match ids, ps with
  | [], [] => p = None
  | i :: ids, (len, b) :: ps =>
      p = Some i /\ exists m, mbufs st !! i = Some m /\ m_len m = len /\
        take (length b) (cluster st m) = b /\ chained st (m_next m) ids ps
  | _, _ => False
  end.

Definition whole (b : list Z) : Z * list Z := (zlen b, b).

(** Two stores have the same mbufs and clusters at [ids]. *)
Definition agree (st st' : store) (ids : list Z) : Prop :=
  forall i, i ∈ ids -> mbufs st' !! i = mbufs st !! i /\
    forall m, mbufs st !! i = Some m -> cluster st' m = cluster st m.

Lemma chained_agree st st' p ids ps :
  agree st st' ids -> chained st p ids ps -> chained st' p ids ps.
Proof.
  revert p ps. induction ids as [|i ids IH]; intros p [|[len b] ps] Ha Hc; try done.
  destruct Hc as (-> & m & Hm & Hl & Hb & Hc). split; [done|]. exists m.
  destruct (Ha i ltac:(set_solver)) as [Em Ec]. rewrite Em, (Ec m Hm). repeat split; try done.
  apply IH; [|done]. intros j Hj. apply Ha. set_solver.
Qed.

Lemma agree_incl st st' l k : k ⊆ l -> agree st st' l -> agree st st' k.
Proof. intros Hs Ha i Hi. apply Ha. by apply Hs. Qed.

Lemma chained_length st p ids ps : chained st p ids ps -> length ids = length ps.
Proof.
  revert p ps. induction ids as [|i ids IH]; intros p [|[len b] ps] Hc; try done.
  destruct Hc as (_ & m & _ & _ & _ & Hc). cbn. f_equal. by eapply IH.
Qed.

Lemma chained_head st p ids ps : chained st p ids ps -> p = head ids.
Proof. destruct ids, ps as [|[]]; cbn; try done. by intros [-> _]. Qed.

Lemma chained_elem st p ids ps i : chained st p ids ps -> i ∈ ids -> is_Some (mbufs st !! i).
Proof.
  revert p ps. induction ids as [|j ids IH]; intros p [|[len b] ps] Hc Hi; try done.
  { by apply not_elem_of_nil in Hi. }
  destruct Hc as (_ & m & Hm & _ & _ & Hc). apply elem_of_cons in Hi as [->|Hi]; [by eexists|].
  by eapply IH.
Qed.

(** Updating one mbuf of a store. *)
Definition upd_st (st : store) (i : Z) (f : mbuf -> mbuf) : store :=
  {| mbufs := alter f i (mbufs st); dma := dma st |}.

Lemma cluster_phys st st' m m' : dma st' = dma st -> m_phys m' = m_phys m -> cluster st' m' = cluster st m.
Proof. unfold cluster. by intros -> ->. Qed.

Lemma agree_upd st i f ids : i ∉ ids -> agree st (upd_st st i f) ids.
Proof.
  intros Hi j Hj. split; [|by intros; apply cluster_phys].
  cbn. apply lookup_alter_ne. set_solver.
Qed.

(** A link is added at the end. *)
Lemma chained_snoc st p l t ps x old m b :
  NoDup (l ++ [t; old]) -> length ps = length l ->
  chained st p (l ++ [t]) (ps ++ [x]) ->
  mbufs st !! old = Some m -> m_next m = None -> take (length b) (cluster st m) = b ->
  chained (upd_st st t (with_next (Some old))) p (l ++ [t; old]) (ps ++ [x; (m_len m, b)]).
Proof.
  intros Hnd Hl Hc Hm Hn Hb. revert p ps Hl Hc. induction l as [|i l IH]; intros p [|[len c] ps] Hl Hc; try done.
  - destruct x as [len c]. cbn in Hc |- *. destruct Hc as (-> & mt & Ht & Hlt & Hct & Hnt).
    split; [done|]. exists (with_next (Some old) mt). cbn. rewrite lookup_alter_eq, Ht.
    split; [done|]. split; [done|]. split; [done|]. split; [done|]. exists m.
    rewrite lookup_alter_ne; [by repeat split|]. apply NoDup_cons in Hnd as [Hnd _]. set_solver.
  - cbn in Hc |- *. destruct Hc as (-> & mi & Hi & Hli & Hci & Hci').
    apply NoDup_cons in Hnd as [Hni Hnd]. split; [done|]. exists mi.
    rewrite lookup_alter_ne by set_solver. repeat split; try done.
    apply IH; [done|by injection Hl|done].
Qed.

(** A change of an mbuf that keeps the link, the length and the cluster. *)
Lemma chained_upd st p ids ps i f :
  (forall m, m_next (f m) = m_next m /\ m_len (f m) = m_len m /\ m_phys (f m) = m_phys m) ->
  chained st p ids ps -> chained (upd_st st i f) p ids ps.
Proof.
  intros Hf. revert p ps. induction ids as [|j ids IH]; intros p [|[len b] ps] Hc; try done.
  destruct Hc as (-> & m & Hm & Hl & Hb & Hc). split; [done|].
  destruct (decide (i = j)) as [->|Hne].
  - destruct (Hf m) as (Fn & Fl & Fp). exists (f m). cbn. rewrite lookup_alter_eq, Hm.
    rewrite Fn, Fl. repeat split; try done; [|by apply IH].
    erewrite (cluster_phys st); [done|done|done].
  - exists m. cbn. rewrite lookup_alter_ne by done. repeat split; try done. by apply IH.
Qed.

(** The length of the last mbuf is changed. *)
Lemma chained_set_len st p l t ps len b len' g :
  NoDup (l ++ [t]) -> length ps = length l -> chained st p (l ++ [t]) (ps ++ [(len, b)]) ->
  (forall m, m_len m = len -> g m = with_len len' m) ->
  chained (upd_st st t g) p (l ++ [t]) (ps ++ [(len', b)]).
Proof.
  intros Hnd Hl Hc Hg. revert p ps Hl Hc.
  induction l as [|i l IH]; intros p [|[li c] ps] Hl Hc; try done.
  - cbn in Hc |- *. destruct Hc as (-> & mt & Ht & Hlt & Hct & Hnt). split; [done|].
    exists (with_len len' mt). rewrite lookup_alter_eq, Ht. cbn. rewrite Hg by done. by repeat split.
  - cbn in Hc |- *. destruct Hc as (-> & mi & Hi & Hli & Hci & Hci').
    apply NoDup_cons in Hnd as [Hni Hnd]. split; [done|]. exists mi.
    rewrite lookup_alter_ne by set_solver. repeat split; try done.
    apply IH; [done|by injection Hl|done].
Qed.

(** ** One place for every mbuf *)

Definition phys_of (st : store) (i : Z) : option Z := m_phys <$> mbufs st !! i.

(** The mbufs [l] are different, and so are their clusters. *)
Definition sep (st : store) (l : list Z) : Prop := NoDup (map (phys_of st) l).

Lemma sep_NoDup st l : sep st l -> NoDup l.
Proof. apply NoDup_fmap_1. Qed.

Lemma sep_perm st l k : l ≡ₚ k -> sep st l -> sep st k.
Proof. unfold sep. intros Hp Hs. by rewrite <- Hp. Qed.

Lemma sep_phys st st' l : (forall i, i ∈ l -> phys_of st' i = phys_of st i) -> sep st l -> sep st' l.
Proof.
  unfold sep. intros He Hs. rewrite (map_ext_in (phys_of st') (phys_of st)); [done|].
  intros i Hi. apply He. by apply list_elem_of_In.
Qed.

Lemma agree_phys st st' l i : agree st st' l -> i ∈ l -> phys_of st' i = phys_of st i.
Proof. intros Ha Hi. unfold phys_of. by rewrite (proj1 (Ha i Hi)). Qed.

(** Writing a cluster leaves the others alone. *)
Lemma agree_dma st r m d l :
  sep st (r :: l) -> mbufs st !! r = Some m ->
  agree st {| mbufs := mbufs st; dma := <[m_phys m := d]> (dma st) |} l.
Proof.
  intros Hs Hm i Hi. split; [done|]. intros mi Hmi. unfold cluster. cbn.
  rewrite lookup_insert_ne; [done|]. intros E.
  apply NoDup_cons in Hs as [Hs _]. apply Hs. apply list_elem_of_In, in_map_iff. exists i.
  split; [|by apply list_elem_of_In]. unfold phys_of. rewrite Hm, Hmi. cbn. by rewrite E.
Qed.

(** So does a new mbuf with a cluster of its own. *)
Lemma agree_alloc st new m d l :
  new ∉ l -> Some (m_phys m) ∉ map (phys_of st) l ->
  agree st {| mbufs := <[new := m]> (mbufs st); dma := <[m_phys m := d]> (dma st) |} l.
Proof.
  intros Hn Hp i Hi. cbn. split; [apply lookup_insert_ne; set_solver|].
  intros mi Hmi. unfold cluster. cbn. rewrite lookup_insert_ne; [done|]. intros E. apply Hp.
  apply list_elem_of_In, in_map_iff. exists i. split; [|by apply list_elem_of_In].
  unfold phys_of. by rewrite Hmi, E.
Qed.

Section Ring.
(** The size of a receive buffer. *)
Variable B : Z.

(** A cluster has room for a buffer and some bytes after it, and an address the descriptor can hold. *)
Definition buf_ok (st : store) (i : Z) : Prop :=
  exists m d, mbufs st !! i = Some m /\ dma st !! m_phys m = Some d /\ fits 32 (m_phys m) /\
    B + 32 <= zlen d.

Lemma buf_ok_cluster st i m : buf_ok st i -> mbufs st !! i = Some m -> B + 32 <= zlen (cluster st m).
Proof. intros (m' & d & Hm & Hd & _ & Hl) Hm'. unfold cluster. simplify_eq. by rewrite Hd. Qed.

Definition wrap_bit (n i : Z) : Z := if i =? n - 1 then RXBD_W else 0.

Definition ck_len (c : chunk) : Z := match ck_last c with None => zlen (ck_bytes c) | Some (t, _) => t end.
Definition ck_flags (c : chunk) : Z := match ck_last c with None => 0 | Some (_, fl) => Z.lor RXBD_L fl end.

Definition chunk_ok (c : chunk) : Prop :=
  0 < zlen (ck_bytes c) <= B /\ match ck_last c with None => True | Some (t, fl) => 0 <= fl < 512 end.

(** The descriptor [i] with its mbuf: empty, or holding a piece. *)
Definition desc_ok (n : Z) (st : store) (i : Z) (id : Z) (b : rbd) (c : option chunk) : Prop :=
  exists m, mbufs st !! id = Some m /\ rb_buffer b = m_phys m /\ m_next m = None /\
    match c with
    | None => rb_status b = Z.lor RXBD_E (wrap_bit n i)
    | Some c => rb_status b = Z.lor (wrap_bit n i) (ck_flags c) /\ rb_length b = ck_len c /\
                take (length (ck_bytes c)) (cluster st m) = ck_bytes c
    end.

Definition dist (n c i : Z) : nat := Z.to_nat ((i - c) mod n).

(** The ring: an mbuf in every descriptor, and the filled ones, from the driver's index on, hold the
    pieces [pend]. *)
Record ring_inv (n : Z) (r : ring) (st : store) (ids : list Z) (pend : list chunk) : Prop := {
  ri_bds : length (rx_bd r) = Z.to_nat n;
  ri_ids : length ids = Z.to_nat n;
  ri_pkts : rx_pkts r = map Some ids;
  ri_cidx : 0 <= rx_cidx r < n;
  ri_pend : zlen pend <= n;
  ri_chunks : Forall chunk_ok pend;
  ri_desc : forall i id b, 0 <= i < n -> ids !! Z.to_nat i = Some id -> rx_bd r !! Z.to_nat i = Some b ->
    desc_ok n st i id b (pend !! dist n (rx_cidx r) i)
}.

Lemma desc_agree n st st' i id b c :
  agree st st' [id] -> desc_ok n st i id b c -> desc_ok n st' i id b c.
Proof.
  intros Ha (m & Hm & Hb & Hn & Hc). destruct (Ha id ltac:(set_solver)) as [Em Ec].
  exists m. rewrite Em, (Ec m Hm). done.
Qed.

Lemma ring_agree n r st st' ids pend : agree st st' ids -> ring_inv n r st ids pend -> ring_inv n r st' ids pend.
Proof.
  intros Ha [H1 H2 H3 H4 H5 H6 H7]. split; try done. intros i id b Hi Hid Hb.
  eapply desc_agree; [|by apply H7]. eapply agree_incl; [|exact Ha].
  intros x ->%list_elem_of_singleton. by eapply list_elem_of_lookup_2.
Qed.

Lemma ring_lookup n r st ids pend i :
  ring_inv n r st ids pend -> 0 <= i < n ->
  exists id b, ids !! Z.to_nat i = Some id /\ rx_bd r !! Z.to_nat i = Some b /\
    rx_pkts r !! Z.to_nat i = Some (Some id) /\ desc_ok n st i id b (pend !! dist n (rx_cidx r) i).
Proof.
  intros Hr Hi. destruct (lookup_lt_is_Some_2 ids (Z.to_nat i)) as [id Hid].
  { rewrite (ri_ids _ _ _ _ _ Hr). lia. }
  destruct (lookup_lt_is_Some_2 (rx_bd r) (Z.to_nat i)) as [b Hb].
  { rewrite (ri_bds _ _ _ _ _ Hr). lia. }
  exists id, b. split; [done|]. split; [done|]. split.
  - rewrite (ri_pkts _ _ _ _ _ Hr), list_lookup_fmap, Hid. done.
  - by eapply ri_desc.
Qed.

Lemma dist_eq n c i : 0 <= c < n -> 0 <= i < n -> dist n c i = Z.to_nat (if c <=? i then i - c else i - c + n).
Proof.
  intros Hc Hi. unfold dist. f_equal. zbool.
  - apply Z.mod_small. lia.
  - symmetry. apply (Z.mod_unique _ _ (-1)); lia.
Qed.

Lemma next_eq n c : 0 <= c < n -> (c + 1) mod n = if c =? n - 1 then 0 else c + 1.
Proof.
  intros Hc. zbool; [|apply Z.mod_small; lia].
  replace (c + 1) with n by lia. apply Z.mod_same. lia.
Qed.

Lemma dist_next n c i :
  0 <= c < n -> 0 <= i < n -> i <> c -> dist n c i = S (dist n ((c + 1) mod n) i).
Proof.
  intros Hc Hi Hne. rewrite next_eq by done.
  destruct (Z.eqb_spec c (n - 1)); rewrite !dist_eq by lia; zbool; lia.
Qed.

(** The descriptor at the driver's index is taken and given a new mbuf. *)
Lemma ring_turn n r st st' ids c pend new m b0 pkts :
  ring_inv n r st ids (c :: pend) ->
  agree st st' (delete (Z.to_nat (rx_cidx r)) ids) -> NoDup ids ->
  mbufs st' !! new = Some m -> m_next m = None -> fits 32 (m_phys m) ->
  rb_buffer b0 = u32 (m_phys m) -> rb_status b0 = Z.lor RXBD_E (wrap_bit n (rx_cidx r)) ->
  <[Z.to_nat (rx_cidx r) := Some new]> pkts = <[Z.to_nat (rx_cidx r) := Some new]> (rx_pkts r) ->
  ring_inv n {| rx_bd := <[Z.to_nat (rx_cidx r) := b0]> (rx_bd r);
                rx_pkts := <[Z.to_nat (rx_cidx r) := Some new]> pkts;
                rx_cidx := (rx_cidx r + 1) mod n |} st'
    (<[Z.to_nat (rx_cidx r) := new]> ids) pend.
Proof.
  intros [H1 H2 H3 H4 H5 H6 H7] Ha Hnd Hm Hn Hf Hb Hs ->. split; cbn [rx_bd rx_pkts rx_cidx].
  - by rewrite length_insert.
  - by rewrite length_insert.
  - rewrite H3. symmetry. apply (list_fmap_insert Some).
  - apply Z.mod_pos_bound. lia.
  - rewrite zlen_cons in H5. lia.
  - by apply Forall_cons_1 in H6 as [_ H6].
  - intros i id b Hi Hid Hb'. destruct (decide (i = rx_cidx r)) as [->|Hne].
    + rewrite list_lookup_insert_eq in Hid by lia. rewrite list_lookup_insert_eq in Hb' by lia. injection Hid as <-. injection Hb' as <-.
      rewrite (proj2 (lookup_ge_None _ _)).
      * exists m. rewrite Hb, wrap_id by done. by repeat split.
      * rewrite zlen_cons in H5. unfold zlen in H5.
        assert (E : dist n ((rx_cidx r + 1) mod n) (rx_cidx r) = Z.to_nat (n - 1)).
        { rewrite next_eq by done. destruct (Z.eqb_spec (rx_cidx r) (n - 1)); rewrite dist_eq by lia;
            zbool; f_equal; lia. }
        rewrite E. lia.
    + rewrite list_lookup_insert_ne in Hid by lia. rewrite list_lookup_insert_ne in Hb' by lia.
      pose proof (H7 i id b Hi Hid Hb') as Hd. rewrite dist_next in Hd by done. cbn in Hd.
      eapply desc_agree; [|exact Hd]. eapply agree_incl; [|exact Ha].
      intros x ->%list_elem_of_singleton. apply list_elem_of_lookup.
      destruct (decide (Z.to_nat i < Z.to_nat (rx_cidx r))%nat).
      * exists (Z.to_nat i). by rewrite list_lookup_delete_lt.
      * exists (Nat.pred (Z.to_nat i)). rewrite list_lookup_delete_ge by lia.
        replace (S (Nat.pred (Z.to_nat i))) with (Z.to_nat i) by lia. done.
Qed.

(** Nothing filled: the descriptor at the index is empty; otherwise it is not. *)
Lemma empty_bit n i : Z.land (Z.lor RXBD_E (wrap_bit n i)) RXBD_E <> 0.
Proof. unfold wrap_bit. by destruct (i =? n - 1). Qed.

Lemma small_bits fl k : 0 <= fl < 512 -> 9 <= k -> Z.land fl (2 ^ k) = 0.
Proof.
  intros Hf Hk. apply land_pow2_testbit; [lia|]. rewrite <- (Z.mod_small fl (2 ^ 9)) by done.
  apply Z.mod_pow2_bits_high. lia.
Qed.

Lemma filled_bits n i c :
  chunk_ok c ->
  let s := Z.lor (wrap_bit n i) (ck_flags c) in
  Z.land s RXBD_E = 0 /\
  Z.land s RXBD_ERR = (match ck_last c with None => 0 | Some (_, fl) => Z.land fl RXBD_ERR end) /\
  Z.land s RXBD_L = (match ck_last c with None => 0 | Some _ => RXBD_L end) /\
  Z.land s RXBD_W = wrap_bit n i.
Proof.
  intros [_ Hc]. cbn zeta. unfold ck_flags. rewrite !Z.land_lor_distr_l.
  destruct (ck_last c) as [[t fl]|]; unfold wrap_bit.
  - rewrite !Z.land_lor_distr_l. unfold RXBD_E, RXBD_W, RXBD_L.
    rewrite !(small_bits fl) by lia. destruct (i =? n - 1); cbn; rewrite ?Z.lor_0_r; done.
  - destruct (i =? n - 1); done.
Qed.

(** The controller's next descriptor is the first empty one. *)
Lemma dist_filled n c k : 0 <= c < n -> 0 <= k < n -> dist n c ((c + k) mod n) = Z.to_nat k.
Proof.
  intros Hc Hk. unfold dist. rewrite Zminus_mod_idemp_l. f_equal.
  replace (c + k - c) with k by lia. by apply Z.mod_small.
Qed.

Lemma dist_inj n c i j : 0 <= c < n -> 0 <= i < n -> 0 <= j < n -> dist n c i = dist n c j -> i = j.
Proof. intros Hc Hi Hj. rewrite !dist_eq by done. zbool; lia. Qed.

Lemma elem_delete_ne {A} (l : list A) i j x : l !! j = Some x -> i <> j -> x ∈ delete i l.
Proof.
  intros Hj Hne. apply list_elem_of_lookup. destruct (decide (j < i)%nat).
  - exists j. by rewrite list_lookup_delete_lt.
  - exists (Nat.pred j). rewrite list_lookup_delete_ge by lia.
    by replace (S (Nat.pred j)) with j by lia.
Qed.

Lemma take_out {A} (l k : list A) i x : l !! i = Some x -> l ++ k ≡ₚ x :: (delete i l ++ k).
Proof. intros Hx. apply (Permutation_app_tail k (delete_Permutation l i x Hx)). Qed.

(** Writing a piece into the first empty descriptor. *)
Lemma ring_write n r st ids pend c ts i id b m d :
  ring_inv n r st ids pend -> zlen pend < n -> chunk_ok c ->
  i = (rx_cidx r + zlen pend) mod n ->
  ids !! Z.to_nat i = Some id -> rx_bd r !! Z.to_nat i = Some b -> mbufs st !! id = Some m ->
  rb_buffer b = m_phys m -> m_next m = None -> rb_status b = Z.lor RXBD_E (wrap_bit n i) ->
  let st' := {| mbufs := mbufs st; dma := <[m_phys m := splice d 0 (ck_bytes c)]> (dma st) |} in
  agree st st' (delete (Z.to_nat i) ids) ->
  ring_inv n {| rx_bd := <[Z.to_nat i := fill_bd c ts b]> (rx_bd r); rx_pkts := rx_pkts r;
                rx_cidx := rx_cidx r |} st' ids (pend ++ [c]).
Proof.
  intros [H1 H2 H3 H4 H5 H6 H7] Hlt Hc Ei Hid Hbd Hm Hbuf Hn Hst st' Hag.
  pose proof (zlen_nonneg pend) as Hz.
  assert (Hi : 0 <= i < n) by (rewrite Ei; apply Z.mod_pos_bound; lia).
  assert (Hdl : dist n (rx_cidx r) i = length pend)
    by (rewrite Ei, dist_filled by lia; unfold zlen; lia).
  split; cbn [rx_bd rx_pkts rx_cidx]; try done.
  - by rewrite length_insert.
  - rewrite zlen_app, zlen_cons, zlen_nil. lia.
  - apply Forall_app_2; [done|]. by apply Forall_singleton.
  - intros j jd jb Hj Hjd Hjb. destruct (decide (j = i)) as [->|Hne].
    + rewrite list_lookup_insert_eq in Hjb by lia. injection Hjb as <-.
      rewrite Hdl, lookup_app_r, Nat.sub_diag by done. cbn [lookup list_lookup]. simplify_eq.
      exists m. cbn [mbufs rb_buffer rb_status rb_length fill_bd]. split; [done|].
      split; [done|]. split; [done|]. split.
      { rewrite Hst, Z.land_lor_distr_l. change (Z.land RXBD_E RXBD_W) with 0. rewrite Z.lor_0_l.
        unfold ck_flags, wrap_bit. by destruct (_ =? n - 1). }
      split; [done|]. unfold cluster, st'. cbn [dma]. rewrite lookup_insert_eq.
      change (default [] (Some ?x)) with x. unfold splice. change (Z.to_nat 0) with 0%nat.
      by rewrite take_0, app_nil_l, take_app_length.
    + rewrite list_lookup_insert_ne in Hjb by lia.
      assert (Hdj : dist n (rx_cidx r) j <> length pend).
      { rewrite <- Hdl. intros E. by apply dist_inj in E. }
      assert (E : (pend ++ [c]) !! dist n (rx_cidx r) j = pend !! dist n (rx_cidx r) j).
      { destruct (decide (dist n (rx_cidx r) j < length pend)%nat); [by apply lookup_app_l|].
        rewrite lookup_app_r by lia. rewrite (proj2 (lookup_ge_None pend _)) by lia.
        apply lookup_ge_None. cbn. lia. }
      rewrite E. eapply desc_agree; [|by apply H7]. eapply agree_incl; [|exact Hag].
      intros x ->%list_elem_of_singleton. eapply elem_delete_ne; [done|]. lia.
Qed.

Lemma buf_ok_dma st i p d : buf_ok st i -> B + 32 <= zlen d ->
  buf_ok {| mbufs := mbufs st; dma := <[p := d]> (dma st) |} i.
Proof.
  intros (m & d0 & Hm & Hd & Hf & Hl) Hz. destruct (decide (p = m_phys m)) as [->|Hne].
  - exists m, d. cbn. by rewrite lookup_insert_eq.
  - exists m, d0. cbn. by rewrite lookup_insert_ne.
Qed.

(** What a write of the controller does: it finds room unless the ring is full. *)
Lemma ring_fill n s ids pend c ts rest :
  ring_inv n (rng s) (sto s) ids pend -> sep (sto s) (ids ++ rest) -> Forall (buf_ok (sto s)) ids ->
  zlen pend < n -> chunk_ok c ->
  let i := (rx_cidx (rng s) + zlen pend) mod n in
  exists b d,
    hw_fill c ts i s = Some (hw_done c (hw_put c ts i b d s)) /\
    let s' := hw_put c ts i b d s in
    ring_inv n (rng s') (sto s') ids (pend ++ [c]) /\ agree (sto s) (sto s') rest /\
    (forall x, phys_of (sto s') x = phys_of (sto s) x) /\
    (forall x, buf_ok (sto s) x -> buf_ok (sto s') x).
Proof.
  intros Hr Hs Hb Hlt Hc i. pose proof (zlen_nonneg pend) as Hz. pose proof (ri_cidx _ _ _ _ _ Hr) as H4.
  assert (Hi : 0 <= i < n) by (apply Z.mod_pos_bound; lia).
  destruct (ring_lookup _ _ _ _ _ i Hr Hi) as (id & b & Hid & Hbd & _ & Hd).
  rewrite (proj2 (lookup_ge_None pend _)) in Hd
    by (unfold i; rewrite dist_filled by lia; unfold zlen; lia).
  destruct Hd as (m & Hm & Hbuf & Hn & Hst).
  pose proof (Forall_lookup_1 _ _ _ _ Hb Hid) as (m' & d & Hm' & Hdm & Hf & Hl). simplify_eq.
  exists b, d. split.
  { unfold hw_fill. rewrite Hbd. cbn [mbind option_bind]. rewrite Hst.
    rewrite (proj2 (Z.eqb_neq _ 0)) by apply empty_bit. by rewrite Hbuf, Hdm. }
  assert (Hd' : B + 32 <= zlen (splice d 0 (ck_bytes c))).
  { rewrite zlen_splice; [done|lia|]. destruct Hc as [Hc _]. lia. }
  assert (Hag : agree (sto s) {| mbufs := mbufs (sto s);
                                 dma := <[m_phys m := splice d 0 (ck_bytes c)]> (dma (sto s)) |}
                  (delete (Z.to_nat i) ids ++ rest)).
  { eapply agree_dma; [|exact Hm]. eapply sep_perm; [|exact Hs].
    by apply take_out. }
  cbn zeta. unfold hw_put. cbn [rng sto set_rng set_dma]. rewrite Hbuf. split; [|split; [|split]].
  - eapply ring_write; try done. eapply agree_incl; [|exact Hag]. set_solver.
  - eapply agree_incl; [|exact Hag]. set_solver.
  - done.
  - intros x Hx. by apply buf_ok_dma.
Qed.

End Ring.
