(* ===== verification/EnetRxOps.v ===== *)
(** * EnetRxOps: every turn of the receive loop keeps the ring, the chain and the queue. *)

From S2P Require Import Prelude.
From S2P Require Import Sections.
From S2P Require Import EnetPtp.
From S2P Require Import EnetClock.
From S2P Require Import EnetRx.
From S2P Require Import EnetRxRing.

(** The packet the stack is given for a frame. *)
Definition packet_of (f : frame) : packet :=
  {| pk_bytes := frame_bytes f; pk_len := zlen (frame_bytes f); pk_rcvif := true; pk_hasfcs := true |}.

(** A packet in the queue: its mbufs hold the frame, and its header says so. *)
Definition queued (st : store) (p : Z) (x : list Z * frame) : Prop :=
  chained st (Some p) x.1 (map whole (fr_pieces x.2)) /\
  exists m, mbufs st !! p = Some m /\ m_pkthdr_len m = zlen (frame_bytes x.2) /\
    m_rcvif m = true /\ m_hasfcs m = true.

Definition inputs (t : list rxev) : list packet :=
  omap (fun e => match e with RxInput _ k => Some k | _ => None end) t.

Lemma inputs_app t u : inputs (t ++ u) = inputs t ++ inputs u.
Proof. apply omap_app. Qed.

(** What a new mbuf must be: not one the driver has, and with a cluster of its own. *)
Fixpoint chain_ids (fuel : nat) (st : store) (p : option Z) : list Z :=
  match p, fuel with
  | Some i, S fuel =>
      i :: match mbufs st !! i with Some m => chain_ids fuel st (m_next m) | None => [] end
  | _, _ => []
  end.

Definition held (s : rx) : list Z :=
  omap id (rx_pkts (rng s)) ++ chain_ids (size (mbufs (sto s))) (sto s) (rpkt (part s)) ++
  concat (map (fun p => chain_ids (size (mbufs (sto s))) (sto s) (Some p)) (rx_queue (upq s))).

Section Ops.
Context `{NetHeaderLaws} `{RxHeaders}.
Variable B : Z.

Definition fresh (s : rx) (a : Z * mbuf * list Z) : Prop :=
  let '(new, m, bytes) := a in
  new ∉ held s /\ Some (m_phys m) ∉ map (phys_of (sto s)) (held s) /\
  m_next m = None /\ fits 32 (m_phys m) /\ B + 32 <= zlen bytes.

(** ** The invariant of the memory *)

(** [ids] are the mbufs of the ring, [aids] those of the unfinished frame with their contents [cps],
    [q] the packets in the queue with theirs. *)
Record core (n : Z) (s : rx) (pend : list chunk) (ids aids : list Z) (cps : list (Z * list Z))
    (q : list (list Z * frame)) : Prop := {
  co_num : num_rx_descriptors s = n;
  co_ring : ring_inv B n (rng s) (sto s) ids pend;
  co_chain : chained (sto s) (rpkt (part s)) aids cps;
  co_tail : rpkt_tail (part s) = last aids;
  co_pieces : Forall (fun x => 0 < zlen x.2 <= B) cps;
  co_queue : Forall2 (queued (sto s)) (rx_queue (upq s)) q;
  co_sep : sep (sto s) (ids ++ aids ++ concat (map fst q));
  co_bufs : Forall (buf_ok B (sto s)) (ids ++ aids ++ concat (map fst q))
}.

(** What no turn changes but for the ring, the chain and the counters. *)
Definition quiet (s s' : rx) : Prop :=
  num_rx_descriptors s' = num_rx_descriptors s /\ flow_status s' = flow_status s /\
  if_running s' = if_running s /\ imask s' = imask s /\ ievent s' = ievent s /\
  upq s' = upq s /\ inputs (trace s') = inputs (trace s).

Lemma quiet_trans s1 s2 s3 : quiet s1 s2 -> quiet s2 s3 -> quiet s1 s3.
Proof. unfold quiet. intuition congruence. Qed.

Lemma queued_agree st st' p x : agree st st' x.1 -> p ∈ x.1 -> queued st p x -> queued st' p x.
Proof.
  intros Ha Hp (Hc & m & Hm & Hr). split; [by eapply chained_agree|]. exists m.
  by rewrite (proj1 (Ha p Hp)).
Qed.

Lemma queued_first st p x : queued st p x -> p ∈ x.1.
Proof. intros [Hc _]. apply chained_head in Hc. destruct x.1; [done|]. injection Hc as ->. set_solver. Qed.

Lemma queue_agree st st' l q :
  agree st st' (concat (map fst q)) -> Forall2 (queued st) l q -> Forall2 (queued st') l q.
Proof.
  intros Ha Hq. induction Hq as [|p x l q Hx Hq IH]; [constructor|]. cbn in Ha. constructor.
  - eapply queued_agree; [|by eapply queued_first|done]. eapply agree_incl; [|done]. set_solver.
  - apply IH. eapply agree_incl; [|done]. set_solver.
Qed.

Lemma bufs_agree st st' l :
  (forall i m, i ∈ l -> mbufs st !! i = Some m -> mbufs st' !! i = Some m /\ dma st' !! m_phys m = dma st !! m_phys m) ->
  Forall (buf_ok B st) l -> Forall (buf_ok B st') l.
Proof.
  intros Ha. rewrite !Forall_forall. intros Hb i Hi. destruct (Hb i Hi) as (m & d & Hm & Hd & Hr).
  exists m, d. destruct (Ha i m Hi Hm) as [-> ->]. done.
Qed.

(** The mbufs of a chain, by walking. *)
Lemma chain_ids_chained fuel st p ids ps : chained st p ids ps -> (length ids <= fuel)%nat -> chain_ids fuel st p = ids.
Proof.
  revert fuel p ps. induction ids as [|i ids IH]; intros fuel p [|[len b] ps] Hc Hf; try done.
  - cbn in Hc. subst p. by destruct fuel.
  - destruct Hc as (-> & m & Hm & _ & _ & Hc). destruct fuel as [|fuel]; [cbn in Hf; lia|].
    cbn. rewrite Hm. f_equal. eapply IH; [done|]. cbn in Hf. lia.
Qed.

(** A chain of different mbufs is not longer than the store. *)
Lemma ids_size (st : store) (ids : list Z) :
  NoDup ids -> (forall i, i ∈ ids -> is_Some (mbufs st !! i)) -> (length ids <= size (mbufs st))%nat.
Proof.
  intros Hn Hs. rewrite <- size_dom, <- (size_list_to_set (C := gset Z)) by done.
  apply subseteq_size. intros i Hi%elem_of_list_to_set. apply elem_of_dom. by apply Hs.
Qed.

Lemma core_sub n s pend ids aids cps q l :
  core n s pend ids aids cps q -> sublist l (ids ++ aids ++ concat (map fst q)) -> NoDup l.
Proof. intros Hc Hl. eapply sublist_NoDup; [|exact Hl]. eapply sep_NoDup, Hc. Qed.

Lemma queue_ids st l q fuel :
  Forall2 (queued st) l q -> (forall x, x ∈ q -> (length x.1 <= fuel)%nat) ->
  concat (map (fun p => chain_ids fuel st (Some p)) l) = concat (map fst q).
Proof.
  intros Hq Hf. induction Hq as [|p x l q Hx Hq IH]; [done|]. cbn. f_equal.
  - eapply chain_ids_chained; [apply Hx|]. apply Hf. set_solver.
  - apply IH. intros y Hy. apply Hf. set_solver.
Qed.

Lemma buf_ok_some st i : buf_ok B st i -> is_Some (mbufs st !! i).
Proof. intros (m & d & Hm & _). by eexists. Qed.

Lemma core_held n s pend ids aids cps q :
  core n s pend ids aids cps q -> held s = ids ++ aids ++ concat (map fst q).
Proof.
  intros Hc. pose proof Hc as [? Hr Hch ? ? Hq Hs Hb]. unfold held. f_equal; [|f_equal].
  - rewrite (ri_pkts _ _ _ _ _ _ Hr). clear. induction ids as [|i l IH]; [done|]. cbn. by f_equal.
  - eapply chain_ids_chained; [done|]. apply ids_size.
    + eapply core_sub; [done|]. apply sublist_inserts_l, sublist_inserts_r. done.
    + intros i Hi. eapply buf_ok_some. rewrite Forall_forall in Hb. apply Hb. set_solver.
  - apply queue_ids; [done|]. intros x Hx. apply list_elem_of_split in Hx as (q1 & q2 & ->).
    apply ids_size.
    + eapply core_sub; [done|]. apply sublist_inserts_l, sublist_inserts_l.
      rewrite map_app, concat_app. apply sublist_inserts_l. cbn. by apply sublist_inserts_r.
    + intros i Hi. eapply buf_ok_some. rewrite Forall_forall in Hb. apply Hb.
      rewrite map_app, concat_app. cbn. set_solver.
Qed.

(** ** A descriptor given back *)

(** The state after the driver's index moved on. *)
Definition advance (s : rx) : rx :=
  let next := NEXT_RX s (rx_cidx (rng s)) in
  let s := set_rng s {| rx_bd := rx_bd (rng s); rx_pkts := rx_pkts (rng s); rx_cidx := next |} in
  if next =? 0 then log s [RxStats] else s.

Lemma advance_eq s :
  let next := NEXT_RX s (rx_cidx (rng s)) in
  exists evs, inputs evs = [] /\
    advance s = log (set_rng s {| rx_bd := rx_bd (rng s); rx_pkts := rx_pkts (rng s); rx_cidx := next |}) evs.
Proof.
  cbn zeta. unfold advance. destruct (_ =? 0); [by exists [RxStats]|]. exists []. split; [done|].
  unfold log. cbn. by rewrite app_nil_r.
Qed.

(** The first filled descriptor, with its mbuf. *)
Lemma core_first n s c pend ids aids cps q :
  core n s (c :: pend) ids aids cps q ->
  let idx := rx_cidx (rng s) in
  0 <= idx < n /\ chunk_ok B c /\
  exists id b m,
    ids !! Z.to_nat idx = Some id /\ rx_bd (rng s) !! Z.to_nat idx = Some b /\
    rx_pkts (rng s) !! Z.to_nat idx = Some (Some id) /\ mbufs (sto s) !! id = Some m /\
    m_next m = None /\ fits 32 (m_phys m) /\ rb_buffer b = m_phys m /\
    rb_status b = Z.lor (wrap_bit n idx) (ck_flags c) /\ rb_length b = ck_len c /\
    take (length (ck_bytes c)) (cluster (sto s) m) = ck_bytes c.
Proof.
  intros Hc idx. pose proof (co_ring _ _ _ _ _ _ _ Hc) as Hr. pose proof (ri_cidx _ _ _ _ _ _ Hr) as Hi.
  split; [done|]. split; [by pose proof (ri_chunks _ _ _ _ _ _ Hr) as [? _]%Forall_cons_1|].
  destruct (ring_lookup _ _ _ _ _ _ idx Hr Hi) as (id & b & Hid & Hb & Hp & m & Hm & Hbuf & Hn & Hd).
  unfold idx in Hd. rewrite dist_eq, Z.leb_refl, Z.sub_diag in Hd by done. cbn in Hd.
  destruct Hd as (Hst & Hl & Hby). exists id, b, m. repeat split; try done.
  pose proof (co_bufs _ _ _ _ _ _ _ Hc) as Hbs. apply Forall_app in Hbs as [Hbs _].
  pose proof (Forall_lookup_1 _ _ _ _ Hbs Hid) as (m' & d & Hm' & _ & Hf & _). simplify_eq. apply Hf.
  pose proof (co_bufs _ _ _ _ _ _ _ Hc) as Hbs. apply Forall_app in Hbs as [Hbs _].
  pose proof (Forall_lookup_1 _ _ _ _ Hbs Hid) as (m' & d & Hm' & _ & Hf & _). simplify_eq. apply Hf.
Qed.

Lemma agree_refl st l : agree st st l.
Proof. by intros i Hi. Qed.

(** [mx6q_add_pkt] in the state after the index moved on. *)
Lemma add_pkt_ok n s new m idx b :
  num_rx_descriptors s = n -> mbufs (sto s) !! new = Some m -> 0 <= idx < n ->
  rx_bd (rng s) !! Z.to_nat idx = Some b ->
  exists b0, rb_buffer b0 = u32 (m_phys m) /\ rb_status b0 = Z.lor RXBD_E (wrap_bit n idx) /\
    mx6q_add_pkt s new idx
    = Ok (log (set_rng s {| rx_bd := <[Z.to_nat idx := b0]> (rx_bd (rng s));
                            rx_pkts := <[Z.to_nat idx := Some new]> (rx_pkts (rng s));
                            rx_cidx := rx_cidx (rng s) |})
              [RxFlush (m_phys m) (m_ext_size m)]).
Proof.
  intros Hn Hm Hi Hb. unfold mx6q_add_pkt. rewrite Hm, Hb. cbn [get_or_bad mbind res_bind].
  eexists. split; [|split; [|reflexivity]]; [done|]. cbn [rb_status]. rewrite Hn.
  rewrite (Z.mod_small idx) by done. unfold wrap_bit. by destruct (idx =? n - 1).
Qed.

Lemma give_back_ok n s c pend ids aids cps q failed :
  core n s (c :: pend) ids aids cps q -> length_ (part s) = foldr (fun x k => zlen x.2 + k) 0 cps ->
  exists s', give_back (advance s) (rx_cidx (rng s)) failed = Ok s' /\
    core n s' pend ids [] [] q /\ part s' = no_partial /\ quiet s s' /\
    rx_cidx (rng s') = (rx_cidx (rng s) + 1) mod n /\ cnt s' = cnt (add_errors s 1 failed).
Proof.
  intros Hc Hlen. destruct (core_first _ _ _ _ _ _ _ _ Hc) as (Hi & Hck & id & b & m & Hid & Hb & Hp & Hm & Hn & Hf & Hbuf & _).
  destruct (advance_eq s) as (evs & Hev & ->). pose proof Hc as [Hnum Hr Hch Ht Hps Hq Hs Hbs].
  unfold give_back, pkt_of. cbn [log set_rng rng rx_pkts]. rewrite Hp. cbn [get_or_bad mbind res_bind].
  match goal with |- context [mx6q_add_pkt ?s1 id _] => set (s1' := s1) end.
  destruct (add_pkt_ok n s1' id m (rx_cidx (rng s)) b Hnum Hm Hi Hb) as (b0 & Hb0 & Hs0 & ->).
  cbn [mbind res_bind]. eexists. split; [reflexivity|].
  assert (Hring : ring_inv B n {| rx_bd := <[Z.to_nat (rx_cidx (rng s)) := b0]> (rx_bd (rng s));
      rx_pkts := <[Z.to_nat (rx_cidx (rng s)) := Some id]> (rx_pkts (rng s));
      rx_cidx := (rx_cidx (rng s) + 1) mod n |} (sto s) ids pend).
  { rewrite <- (list_insert_id ids _ _ Hid) at 1.
    eapply ring_turn; try done.
    eapply core_sub; [done|]. by apply sublist_inserts_r. }
  unfold s1', discard. cbn [part add_errors set_cnt log set_rng].
  assert (Hcore : forall s2, num_rx_descriptors s2 = n -> sto s2 = sto s -> part s2 = no_partial ->
    upq s2 = upq s -> rng s2 = {| rx_bd := <[Z.to_nat (rx_cidx (rng s)) := b0]> (rx_bd (rng s));
      rx_pkts := <[Z.to_nat (rx_cidx (rng s)) := Some id]> (rx_pkts (rng s));
      rx_cidx := (rx_cidx (rng s) + 1) mod n |} -> core n s2 pend ids [] [] q).
  { intros s2 E1 E2 E3 E4 E5. split; rewrite ?E2, ?E3, ?E4, ?E5; try done.
    - unfold sep in *. eapply sublist_NoDup; [exact Hs|]. apply fmap_sublist. cbn.
      apply sublist_app; [done|]. by apply sublist_inserts_l.
    - apply Forall_app in Hbs as [Hb1 Hb2]. apply Forall_app in Hb2 as [_ Hb3]. by apply Forall_app. }
  destruct (rpkt (part s)) as [p|] eqn:Ep.
  - split; [|split; [done|split; [|split; [|done]]]].
    + apply Hcore; try done. cbn. unfold NEXT_RX. by rewrite Hnum.
    + repeat split. cbn. rewrite !inputs_app, Hev. cbn. by rewrite !app_nil_r.
    + cbn. unfold NEXT_RX. by rewrite Hnum.
  - assert (aids = [] /\ cps = []) as [-> ->].
    { destruct aids, cps as [|[]]; cbn in Hch; try done. by destruct Hch. }
    assert (Hpart : part s = no_partial).
    { destruct (part s) as [x y z]. cbn in *. by subst. }
    split; [|split; [done|split; [|split; [|done]]]].
    + apply Hcore; try done. cbn. unfold NEXT_RX. by rewrite Hnum.
    + repeat split. cbn. rewrite !inputs_app, Hev. cbn. by rewrite !app_nil_r.
    + cbn. unfold NEXT_RX. by rewrite Hnum.
Qed.

(** ** A piece taken *)

Lemma agree_trans st1 st2 st3 l : agree st1 st2 l -> agree st2 st3 l -> agree st1 st3 l.
Proof.
  intros Ha Hb i Hi. destruct (Ha i Hi) as [E1 C1], (Hb i Hi) as [E2 C2].
  split; [congruence|]. intros m Hm. rewrite C2, C1; [done|done|congruence].
Qed.

Definition keeps_phys (f : mbuf -> mbuf) : Prop := forall m, m_phys (f m) = m_phys m.

Lemma phys_of_upd st i f j : keeps_phys f -> phys_of (upd_st st i f) j = phys_of st j.
Proof.
  intros Hf. unfold phys_of. cbn. destruct (decide (i = j)) as [->|].
  - rewrite lookup_alter_eq. destruct (mbufs st !! j); cbn; [by rewrite Hf|done].
  - by rewrite lookup_alter_ne.
Qed.

Lemma buf_ok_upd st i f j : keeps_phys f -> buf_ok B st j -> buf_ok B (upd_st st i f) j.
Proof.
  intros Hf (m & d & Hm & Hd & Hr). destruct (decide (i = j)) as [->|].
  - exists (f m), d. cbn. by rewrite lookup_alter_eq, Hm, Hf.
  - exists m, d. cbn. by rewrite lookup_alter_ne.
Qed.

Lemma upd_mbuf_eq s i f m :
  mbufs (sto s) !! i = Some m ->
  upd_mbuf s i f = Ok (set_mbufs s (mbufs (upd_st (sto s) i f))).
Proof.
  intros Hm. unfold upd_mbuf. rewrite Hm. cbn. do 2 f_equal. symmetry. apply map_eq. intros j.
  destruct (decide (i = j)) as [->|].
  - by rewrite lookup_alter_eq, lookup_insert_eq, Hm.
  - by rewrite lookup_alter_ne, lookup_insert_ne.
Qed.

(** The new mbuf in the store. *)
Definition alloc_st (st : store) (new : Z) (m : mbuf) (bytes : list Z) : store :=
  {| mbufs := <[new := m]> (mbufs st); dma := <[m_phys m := bytes]> (dma st) |}.

Lemma alloc_ok st new m bytes l :
  sep st l -> Forall (buf_ok B st) l -> new ∉ l -> Some (m_phys m) ∉ map (phys_of st) l ->
  fits 32 (m_phys m) -> B + 32 <= zlen bytes ->
  let st' := alloc_st st new m bytes in
  agree st st' l /\ sep st' (new :: l) /\ Forall (buf_ok B st') (new :: l).
Proof.
  intros Hs Hb Hn Hp Hf Hl st'. assert (Ha : agree st st' l) by (by apply agree_alloc).
  split; [done|]. split.
  - unfold sep. cbn [map]. apply NoDup_cons.
    assert (Hm : map (phys_of st') l = map (phys_of st) l).
    { apply map_ext_in. intros i Hi. eapply agree_phys; [done|]. by apply list_elem_of_In. }
    rewrite Hm. split; [|done]. unfold phys_of, st', alloc_st. cbn. by rewrite lookup_insert_eq.
  - apply Forall_cons. split.
    + exists m, bytes. unfold st', alloc_st. cbn. by rewrite !lookup_insert_eq.
    + eapply bufs_agree; [|exact Hb]. intros i mi Hi Hmi. unfold st', alloc_st. cbn.
      rewrite lookup_insert_ne by set_solver. split; [done|]. apply lookup_insert_ne.
      intros E. apply Hp. apply list_elem_of_In, in_map_iff. exists i.
      split; [|by apply list_elem_of_In]. unfold phys_of. by rewrite Hmi, E.
Qed.

Lemma insert_perm {A} (l : list A) i x y : l !! i = Some x -> x :: <[i := y]> l ≡ₚ y :: l.
Proof.
  revert i. induction l as [|z l IH]; intros [|i] Hx; try done.
  - injection Hx as ->. apply perm_swap.
  - change (<[S i := y]> (z :: l)) with (z :: <[i := y]> l). rewrite perm_swap, (IH i Hx). apply perm_swap.
Qed.

(** What the two updates of the chain do to the store. *)
Definition link_st (st : store) (tail : option Z) (old len : Z) : store :=
  let st := match tail with None => st | Some t => upd_st st t (with_next (Some old)) end in
  upd_st st old (with_len len).

Lemma link_phys st tail old len i : phys_of (link_st st tail old len) i = phys_of st i.
Proof. unfold link_st. rewrite phys_of_upd by done. destruct tail; [by apply phys_of_upd|done]. Qed.

Lemma link_buf_ok st tail old len i : buf_ok B st i -> buf_ok B (link_st st tail old len) i.
Proof. intros. unfold link_st. apply buf_ok_upd; [done|]. destruct tail; [by apply buf_ok_upd|done]. Qed.

Lemma link_agree st tail old len l :
  (forall t, tail = Some t -> t ∉ l) -> old ∉ l -> agree st (link_st st tail old len) l.
Proof.
  intros Ht Ho. unfold link_st. eapply agree_trans; [|by apply agree_upd].
  destruct tail as [t|]; [apply agree_upd; by apply Ht|apply agree_refl].
Qed.

Lemma link_chained st p aids cps old m len b :
  NoDup (aids ++ [old]) -> chained st p aids cps -> mbufs st !! old = Some m -> m_next m = None ->
  take (length b) (cluster st m) = b ->
  chained (link_st st (last aids) old len) (if decide (aids = []) then Some old else p)
    (aids ++ [old]) (cps ++ [(len, b)]).
Proof.
  intros Hnd Hc Hm Hn Hb. unfold link_st. pose proof (chained_length _ _ _ _ Hc) as Hl.
  destruct aids as [|i l _] using rev_ind.
  - destruct cps; [|done]. cbn. split; [done|]. exists (with_len len m). rewrite lookup_alter_eq, Hm.
    cbn. by repeat split.
  - destruct cps as [|x ps _] using rev_ind; [rewrite length_app in Hl; cbn in Hl; lia|].
    rewrite !length_app in Hl. cbn in Hl. rewrite last_snoc.
    rewrite (decide_False (P := l ++ [i] = [])) by (by destruct l).
    rewrite <- !app_assoc in *. cbn [app] in *.
    pose proof (chained_snoc st p l i ps x old m b Hnd ltac:(lia) Hc Hm Hn Hb) as Hc'.
    change [i; old] with ([i] ++ [old]). change [x; (len, b)] with ([x] ++ [(len, b)]).
    rewrite !app_assoc. eapply (chained_set_len _ _ _ _ _ (m_len m)); [|by rewrite !length_app; cbn; lia| |].
    + by rewrite <- app_assoc.
    + by rewrite <- !app_assoc.
    + done.
Qed.

Definition with_alloc (s : rx) (new : Z) (m : mbuf) (bytes : list Z) : rx :=
  let s := set_mbufs s (<[new := m]> (mbufs (sto s))) in
  set_dma s (<[m_phys m := bytes]> (dma (sto s))).

(** [append_pkt], whatever else the state is. *)
Lemma append_pkt_eq s idx len old m b aids cps :
  rx_pkts (rng s) !! Z.to_nat idx = Some (Some old) -> mbufs (sto s) !! old = Some m ->
  rx_bd (rng s) !! Z.to_nat idx = Some b ->
  chained (sto s) (rpkt (part s)) aids cps -> rpkt_tail (part s) = last aids -> old ∉ aids ->
  exists s', append_pkt s idx len = Ok s' /\
    sto s' = link_st (sto s) (last aids) old len /\
    part s' = {| rpkt := if decide (aids = []) then Some old else rpkt (part s);
                 rpkt_tail := Some old; length_ := length_ (part s) |} /\
    rng s' = {| rx_bd := rx_bd (rng s); rx_pkts := <[Z.to_nat idx := None]> (rx_pkts (rng s));
                rx_cidx := rx_cidx (rng s) |} /\
    quiet s s' /\ clk s' = clk s /\ cnt s' = cnt s.
Proof.
  intros Hp Hm Hb Hc Ht Ho. unfold append_pkt, pkt_of. rewrite Hp. cbn [get_or_bad mbind res_bind].
  rewrite Hm, Hb. cbn [get_or_bad mbind res_bind log part].
  pose proof (chained_head _ _ _ _ Hc) as Hh.
  destruct aids as [|i aids].
  - cbn in Hh. rewrite Hh. rewrite (decide_True (P := [] = [])) by done. cbn [mret res_ret mbind res_bind].
    erewrite upd_mbuf_eq by exact Hm. eexists. split; [reflexivity|].
    repeat split. cbn. rewrite inputs_app. cbn. by rewrite app_nil_r.
  - cbn in Hh. rewrite Hh, Ht. rewrite (decide_False (P := i :: aids = [])) by done.
    destruct (last (i :: aids)) as [t|] eqn:El; [|by apply last_None in El].
    assert (Hti : t ∈ i :: aids) by (by apply last_Some_elem_of).
    destruct (chained_elem _ _ _ _ _ Hc Hti) as [mt Hmt]. cbn [get_or_bad mbind res_bind].
    erewrite upd_mbuf_eq by exact Hmt. cbn [mbind res_bind mret res_ret].
    erewrite upd_mbuf_eq.
    2:{ cbn. rewrite lookup_alter_ne; [exact Hm|]. intros ->. done. }
    eexists. split; [reflexivity|]. repeat split. cbn. rewrite inputs_app. cbn. by rewrite app_nil_r.
Qed.

(** The mbuf of a descriptor is nowhere else. *)
Lemma owned_once (ids aids qs : list Z) i old :
  NoDup (ids ++ aids ++ qs) -> ids !! i = Some old -> old ∉ aids /\ old ∉ qs /\ old ∉ delete i ids.
Proof.
  intros Hnd Hid. assert (Hn : NoDup (old :: (delete i ids ++ (aids ++ qs)))).
  { eapply NoDup_Permutation_proper; [|exact Hnd]. symmetry. by apply take_out. }
  apply NoDup_cons in Hn as [Hn _]. rewrite !elem_of_app in Hn. tauto.
Qed.

Lemma owned_perm (ids aids qs : list Z) i old new :
  ids !! i = Some old -> <[i := new]> ids ++ (aids ++ [old]) ++ qs ≡ₚ new :: (ids ++ aids ++ qs).
Proof.
  intros Hid. rewrite <- (app_assoc aids), (app_assoc _ aids). cbn [app].
  rewrite <- Permutation_middle, <- app_assoc.
  apply (Permutation_app_tail (aids ++ qs) (insert_perm ids _ _ new Hid)).
Qed.

(** Taking it changes no other mbuf of the ring and none of the queue. *)
Lemma taken_agree st st1 (ids aids qs : list Z) i old len :
  NoDup (ids ++ aids ++ qs) -> ids !! i = Some old -> agree st st1 (ids ++ aids ++ qs) ->
  agree st (link_st st1 (last aids) old len) (delete i ids ++ qs).
Proof.
  intros Hnd Hid Ha. destruct (owned_once _ _ _ _ _ Hnd Hid) as (Hoa & Hoq & Hod).
  assert (Hdel : forall x, x ∈ delete i ids -> x ∈ ids).
  { intros x Hx. eapply elem_of_submseteq; [exact Hx|by apply submseteq_delete]. }
  eapply agree_trans.
  - eapply agree_incl; [|exact Ha]. intros x [Hx|Hx]%elem_of_app; [|set_solver].
    apply elem_of_app. left. by apply Hdel.
  - apply link_agree; [|rewrite elem_of_app; tauto]. intros t Htl. apply last_Some_elem_of in Htl.
    apply NoDup_app in Hnd as (_ & Hd1 & Hnd). apply NoDup_app in Hnd as (_ & Hd2 & _).
    intros [Hx|Hx]%elem_of_app; [|by eapply Hd2].
    eapply Hd1; [by apply Hdel|]. apply elem_of_app. by left.
Qed.

(** A piece is taken into the chain and the descriptor gets a new mbuf. *)
Lemma take_ok n s c pend ids aids cps q new mn bytes :
  core n s (c :: pend) ids aids cps q -> fresh s (new, mn, bytes) ->
  let idx := rx_cidx (rng s) in
  exists old s2 s',
    append_pkt (with_alloc (advance s) new mn bytes) idx (ck_len c) = Ok s2 /\
    mx6q_add_pkt s2 new idx = Ok s' /\
    core n s' pend (<[Z.to_nat idx := new]> ids) (aids ++ [old]) (cps ++ [(ck_len c, ck_bytes c)]) q /\
    length_ (part s') = length_ (part s) /\ quiet s s' /\ rx_cidx (rng s') = (idx + 1) mod n /\
    cnt s' = cnt s.
Proof.
  intros Hc Hfr idx. destruct (core_first _ _ _ _ _ _ _ _ Hc) as (Hi & Hck & old & b & m & Hid & Hb & Hp & Hm & Hn & Hf & Hbuf & Hst & Hbl & Hby).
  fold idx in Hi, Hid, Hb, Hp. unfold fresh in Hfr. rewrite (core_held _ _ _ _ _ _ _ Hc) in Hfr.
  destruct Hfr as (Hnew & Hphys & Hnn & Hnf & Hnb).
  pose proof Hc as [Hnum Hr Hch Ht Hps Hq Hs Hbs]. set (own := ids ++ aids ++ concat (map fst q)) in *.
  destruct (alloc_ok (sto s) new mn bytes own Hs Hbs Hnew Hphys Hnf Hnb) as (Ha & Hs1 & Hb1).
  set (st1 := alloc_st (sto s) new mn bytes) in *.
  destruct (advance_eq s) as (evs & Hev & Ead).
  assert (Hold : old ∈ ids) by (by eapply list_elem_of_lookup_2).
  assert (Hnd : NoDup own) by (by eapply core_sub).
  destruct (owned_once _ _ _ _ _ Hnd Hid) as (Hoa & Hoq & Hod).
  assert (Hch1 : chained st1 (rpkt (part s)) aids cps).
  { eapply chained_agree; [|exact Hch]. eapply agree_incl; [|exact Ha]. unfold own. set_solver. }
  assert (Hm1 : mbufs st1 !! old = Some m /\ cluster st1 m = cluster (sto s) m).
  { destruct (Ha old) as [E C]; [unfold own; set_solver|]. by rewrite E, (C m Hm). }
  destruct Hm1 as [Hm1 Hcl].
  destruct (append_pkt_eq (with_alloc (advance s) new mn bytes) idx (ck_len c) old m b aids cps)
    as (s2 & E2 & Hsto & Hpart & Hrng & Hqt & Hck2 & Hcn2).
  { by rewrite Ead. } { by rewrite Ead. } { by rewrite Ead. } { by rewrite Ead. } { by rewrite Ead. }
  { done. }
  assert (Esto : sto s2 = link_st st1 (last aids) old (ck_len c)) by (rewrite Hsto, Ead; done).
  assert (Hst2 : mbufs (sto s2) !! new = Some mn).
  { assert (mbufs st1 !! new = Some mn) as E by (unfold st1, alloc_st; cbn; apply lookup_insert_eq).
    destruct (link_agree st1 (last aids) old (ck_len c) [new]) with (i := new) as [E' _]; [| |set_solver|].
    - intros t Htl. apply last_Some_elem_of in Htl. unfold own in Hnew. set_solver.
    - unfold own in Hnew. set_solver.
    - by rewrite Esto, E'. }
  assert (Hnum2 : num_rx_descriptors s2 = n) by (destruct Hqt as [-> _]; rewrite Ead; done).
  assert (Hb2 : rx_bd (rng s2) !! Z.to_nat idx = Some b) by (rewrite Hrng, Ead; done).
  destruct (add_pkt_ok n s2 new mn idx b Hnum2 Hst2 Hi Hb2) as (b0 & Hb0 & Hs0 & E3).
  exists old, s2. eexists. split; [exact E2|]. split; [exact E3|].
  assert (Hag : agree (sto s) (sto s2) (delete (Z.to_nat idx) ids ++ concat (map fst q))).
  { rewrite Esto. by apply taken_agree. }
  assert (Hpq : part s2 = {| rpkt := if decide (aids = []) then Some old else rpkt (part s);
                             rpkt_tail := Some old; length_ := length_ (part s) |})
    by (rewrite Hpart, Ead; done).
  assert (Hrq : rng s2 = {| rx_bd := rx_bd (rng s); rx_pkts := <[Z.to_nat idx := None]> (rx_pkts (rng s));
                            rx_cidx := (idx + 1) mod n |})
    by (rewrite Hrng, Ead; cbn; unfold NEXT_RX; by rewrite Hnum).
  assert (Hup : upq s2 = upq s) by (destruct Hqt as (_ & _ & _ & _ & _ & -> & _); rewrite Ead; done).
  split; [split|split; [cbn [log set_rng part]; by rewrite Hpq|split; [|split]]].
  - done.
  - cbn [log set_rng rng sto]. rewrite Hrq. cbn [rx_bd rx_pkts rx_cidx].
    eapply (ring_turn B n (rng s) (sto s) (sto s2)); try done.
    + eapply agree_incl; [|exact Hag]. set_solver.
    + eapply core_sub; [exact Hc|]. by apply sublist_inserts_r.
    + fold idx. by rewrite list_insert_insert_eq.
  - cbn [log set_rng sto part]. rewrite Hpq, Esto. cbn [rpkt].
    eapply link_chained; try done; [|by rewrite Hcl].
    apply NoDup_app. split; [|split; [set_solver|apply NoDup_singleton]].
    eapply core_sub; [exact Hc|]. apply sublist_inserts_l. by apply sublist_inserts_r.
  - cbn [log set_rng part]. by rewrite Hpq, last_snoc.
  - apply Forall_app_2; [done|]. apply Forall_singleton. apply Hck.
  - cbn [log set_rng sto upq]. rewrite Hup. eapply queue_agree; [|exact Hq].
    eapply agree_incl; [|exact Hag]. set_solver.
  - cbn [log set_rng sto]. eapply sep_perm; [symmetry; by apply owned_perm|]. rewrite Esto.
    eapply sep_phys; [|exact Hs1]. intros i _. apply link_phys.
  - cbn [log set_rng sto]. rewrite (owned_perm _ _ _ _ _ new Hid), Esto. eapply Forall_impl; [exact Hb1|].
    intros i. apply link_buf_ok.
  - apply (quiet_trans _ s2); [|repeat split; cbn; rewrite inputs_app; cbn; by rewrite app_nil_r].
    eapply quiet_trans; [|exact Hqt]. rewrite Ead. repeat split. cbn. by rewrite inputs_app, Hev, app_nil_r.
  - cbn [log set_rng rng rx_cidx]. by rewrite Hrq.
  - cbn [log set_rng cnt]. by rewrite Hcn2, Ead.
Qed.

(** ** Reading a packet *)

Lemma walk_chained fuel st p ids ps :
  chained st p ids ps -> (length ids <= fuel)%nat -> Forall (buf_ok B st) ids ->
  Forall2 (fun v x => v.1 = x.1 /\ take (length x.2) v.2 = x.2 /\ B + 32 <= zlen v.2) (walk fuel st p) ps.
Proof.
  revert fuel p ps. induction ids as [|i ids IH]; intros fuel p [|[len b] ps] Hc Hf Hb; try done.
  - cbn in Hc. subst p. destruct fuel; constructor.
  - destruct Hc as (-> & m & Hm & Hl & Ht & Hc). destruct fuel as [|fuel]; [cbn in Hf; lia|].
    cbn. rewrite Hm. apply Forall_cons_1 in Hb as [Hbi Hb]. constructor.
    + split; [done|]. split; [done|]. by eapply buf_ok_cluster.
    + apply IH; [done| |done]. cbn in Hf. lia.
Qed.

Lemma packet_view_chained st p ids ps :
  chained st (Some p) ids ps -> NoDup ids -> Forall (buf_ok B st) ids ->
  Forall2 (fun v x => v.1 = x.1 /\ take (length x.2) v.2 = x.2 /\ B + 32 <= zlen v.2)
    (packet_view st p) ps.
Proof.
  intros Hc Hn Hb. eapply walk_chained; try done. apply ids_size; [done|].
  intros i Hi. rewrite Forall_forall in Hb. by eapply buf_ok_some, Hb.
Qed.

Lemma view_bytes_whole v l :
  Forall2 (fun v x => v.1 = x.1 /\ take (length x.2) v.2 = x.2 /\ B + 32 <= zlen v.2) v (map whole l) ->
  view_bytes v = concat l.
Proof.
  revert v. induction l as [|b l IH]; intros v Hv; inversion Hv as [|x y v' l' (E1 & E2 & E3) Hv']; [done|].
  subst. cbn. unfold view_bytes in IH. cbn in IH. rewrite (IH v') by done. f_equal.
  rewrite E1. cbn [whole fst snd] in *. unfold zlen. by rewrite Nat2Z.id.
Qed.

Lemma queued_packet st p x :
  queued st p x -> NoDup x.1 -> Forall (buf_ok B st) x.1 -> packet_at st p = Ok (packet_of x.2).
Proof.
  intros (Hc & m & Hm & Hl & Hr & Hh) Hn Hb. unfold packet_at. rewrite Hm. cbn. unfold packet_of.
  rewrite Hl, Hr, Hh. do 2 f_equal. apply view_bytes_whole. by apply packet_view_chained with x.1.
Qed.

(** ** The end of a frame *)

Lemma keep_hdr t : forall m, m_next (with_hdr t m) = m_next m /\ m_len (with_hdr t m) = m_len m /\
  m_phys (with_hdr t m) = m_phys m.
Proof. done. Qed.

Lemma rd_take d k o : 0 <= o < Z.of_nat k -> rd (take k d) o = rd d o.
Proof.
  intros Ho. unfold rd, byte_at. rewrite (proj2 (Z.ltb_ge o 0)) by lia.
  by rewrite lookup_take_lt by lia.
Qed.

Lemma rd16_take d k o : 0 <= o < Z.of_nat k - 1 -> rd16 (take k d) o = rd16 d o.
Proof. intros Ho. unfold rd16. by rewrite !rd_take by lia. Qed.

Lemma is_avb_take d k : 18 <= Z.of_nat k -> is_avb (take k d) = is_avb d.
Proof. intros Hk. unfold is_avb. by rewrite !rd16_take by lia. Qed.

Definition avb_bytes (b : list Z) : bool := match is_avb b with Ok a => a | Err _ => false end.

Lemma is_avb_ok d : 18 <= zlen d -> is_avb d = Ok (avb_bytes d).
Proof.
  intros Hd. unfold avb_bytes, is_avb. destruct (rd16_ok d 12) as [x ->]; [lia|]. cbn.
  destruct (x =? _); [|done]. destruct (rd16_ok d 16) as [y ->]; [lia|]. done.
Qed.

(** A frame the stack can look at: its pieces fit the buffers, the first has the headers. *)
Definition pieces_ok (ps : list (list Z)) : Prop :=
  Forall (fun p => 0 < zlen p <= B) ps /\ 18 <= zlen (default [] (head ps)) /\ zlen (concat ps) < 2 ^ 31.

Lemma head_prefix (ps : list (list Z)) k :
  (k <= length (default [] (head ps)))%nat -> take k (concat ps) = take k (default [] (head ps)).
Proof. destruct ps as [|p ps]; [done|]. cbn. intros Hk. by rewrite take_app_le. Qed.

(** The lengths are put right. *)
Lemma fix_lengths st p aids old acc piece total :
  NoDup (aids ++ [old]) -> chained st (Some p) (aids ++ [old]) (map whole acc ++ [(total, piece)]) ->
  total = zlen (concat (acc ++ [piece])) -> total < 2 ^ 31 ->
  let st1 := upd_st st p (with_hdr total) in
  let st2 := upd_st st1 old (fun m => with_len (s32 (m_len m - zlen (concat acc))) m) in
  chained st2 (Some p) (aids ++ [old]) (map whole (acc ++ [piece])) /\
  exists m, mbufs st2 !! p = Some m /\ m_pkthdr_len m = total /\ m_rcvif m = true /\ m_hasfcs m = true.
Proof.
  intros Hnd Hc Ht Hb st1 st2.
  assert (Hc1 : chained st1 (Some p) (aids ++ [old]) (map whole acc ++ [(total, piece)])).
  { apply chained_upd; [apply keep_hdr|done]. }
  pose proof (chained_length _ _ _ _ Hc) as Hl. rewrite !length_app in Hl. cbn in Hl.
  split.
  - rewrite map_app. eapply chained_set_len; [done|lia|exact Hc1|]. intros m ->. f_equal.
    rewrite Ht, concat_app, zlen_app. cbn. rewrite app_nil_r.
    pose proof (zlen_nonneg piece). pose proof (zlen_nonneg (concat acc)).
    rewrite concat_app, zlen_app in Ht. cbn in Ht. rewrite app_nil_r in Ht.
    replace (zlen (concat acc) + zlen piece - zlen (concat acc)) with (zlen piece) by lia.
    apply signed_id; [lia|]. change (2 ^ (32 - 1)) with (2 ^ 31). lia.
  - assert (Hp : p ∈ aids ++ [old]).
    { pose proof (chained_head _ _ _ _ Hc) as Hh. destruct (aids ++ [old]); [done|].
      injection Hh as ->. set_solver. }
    destruct (chained_elem _ _ _ _ _ Hc Hp) as [m Hm].
    unfold st2, st1. cbn. destruct (decide (old = p)) as [->|Hne].
    + rewrite lookup_alter_eq, lookup_alter_eq, Hm. by eexists.
    + rewrite lookup_alter_ne, lookup_alter_eq, Hm by done. by eexists.
Qed.

Lemma chained_last st p l t ps len b :
  length ps = length l -> chained st p (l ++ [t]) (ps ++ [(len, b)]) ->
  exists m, mbufs st !! t = Some m /\ m_len m = len.
Proof.
  revert p ps. induction l as [|i l IH]; intros p [|[li c] ps] Hl Hc; try done.
  - destruct Hc as (_ & m & Hm & Hlm & _). by exists m.
  - destruct Hc as (_ & m & _ & _ & _ & Hc). eapply IH; [|exact Hc]. by injection Hl.
Qed.

Lemma view_whole v ps :
  Forall (fun p => 0 < zlen p <= B) ps ->
  Forall2 (fun v x => v.1 = x.1 /\ take (length x.2) v.2 = x.2 /\ B + 32 <= zlen v.2) v (map whole ps) ->
  view_fits v /\ view_len v = zlen (concat ps).
Proof.
  revert v. induction ps as [|p ps IH]; intros v Hp Hv; inversion Hv as [|x y v' l' (E1 & E2 & E3) Hv']; subst.
  { split; [apply Forall_nil_2|done]. }
  apply Forall_cons_1 in Hp as [Hp0 Hp]. destruct (IH v' Hp Hv') as [IH1 IH2]. split.
  - apply Forall_cons. split; [|done]. cbn [whole fst snd] in E1. lia.
  - cbn [view_len foldr concat]. rewrite zlen_app. fold (view_len v'). cbn in E1. lia.
Qed.

Lemma cluster_head st p ids ps m :
  chained st (Some p) ids (map whole ps) -> mbufs st !! p = Some m ->
  take (length (default [] (head ps))) (cluster st m) = default [] (head ps).
Proof.
  destruct ids as [|i ids], ps as [|b ps]; try done. cbn. intros ([= ->] & m' & Hm & _ & Ht & _) Hm'.
  by simplify_eq.
Qed.

(** What the end of [mx6q_receive] looks at is the frame. *)
Lemma read_frame st p ids ps m :
  chained st (Some p) ids (map whole ps) -> NoDup ids -> Forall (buf_ok B st) ids -> pieces_ok ps ->
  mbufs st !! p = Some m ->
  (exists ph, mx6q_ptp_is_eventmsg (zlen (concat ps)) (packet_view st p) = Ok ph /\
     forall h, ph = Some h -> SIZEOF_PTPV2HDR <= zlen h) /\
  is_avb (cluster st m) = Ok (avb_bytes (concat ps)) /\
  take 6 (cluster st m) = take 6 (concat ps).
Proof.
  intros Hch Hn Hb (Hp1 & Hp2 & Hp3) Hm.
  pose proof (packet_view_chained _ _ _ _ Hch Hn Hb) as Hv.
  destruct (view_whole _ _ Hp1 Hv) as [Hvf Hvl].
  pose proof (cluster_head _ _ _ _ _ Hch Hm) as Hcl.
  assert (Hlong : (18 <= length (default [] (head ps)))%nat) by (unfold zlen in Hp2; lia).
  assert (Htk : forall k, (k <= 18)%nat -> take k (cluster st m) = take k (concat ps)).
  { intros k Hk. rewrite head_prefix by lia. rewrite <- Hcl, take_take. f_equal. lia. }
  split; [|split].
  - apply is_eventmsg_ok; [done|done|done|].
    inversion Hv as [|x y v' l' (_ & _ & E) _ E1 E2]; [lia|]. destruct ps as [|q ps]; [done|].
    apply Forall_cons_1 in Hp1 as [Hp1 _]. lia.
  - rewrite <- (is_avb_take _ 18), Htk, is_avb_take by lia. apply is_avb_ok.
    destruct ps; [done|]. cbn in *. rewrite zlen_app. pose proof (zlen_nonneg (concat ps)). lia.
  - apply Htk; lia.
Qed.

(** With the last piece taken, the frame is complete: its mbufs hold it and say so. *)
Lemma finish_ok n s pend ids aids old acc piece q f ts :
  core n s pend ids (aids ++ [old]) (map whole acc ++ [(zlen (frame_bytes f), piece)]) q ->
  length_ (part s) = zlen (concat acc) -> fr_pieces f = acc ++ [piece] -> pieces_ok (fr_pieces f) ->
  exists s1 p,
    finish_frame s ts = pass_up s1 p (avb_bytes (frame_bytes f)) /\
    core n s1 pend ids (aids ++ [old]) (map whole (fr_pieces f)) q /\
    queued (sto s1) p (aids ++ [old], f) /\ rng s1 = rng s /\
    quiet s s1 /\ cnt s1 = cnt (count_packet s (zlen (frame_bytes f)) (take 6 (frame_bytes f))).
Proof.
  intros Hc Hlen Hf (Hp1 & Hp2 & Hp3). pose proof Hc as [Hnum Hr Hch Ht Hps Hq Hs Hbs].
  set (total := zlen (frame_bytes f)) in *.
  assert (Etot : total = zlen (concat (acc ++ [piece]))) by (unfold total, frame_bytes; by rewrite Hf).
  assert (Ht31 : total < 2 ^ 31) by exact Hp3.
  pose proof (chained_head _ _ _ _ Hch) as Hh.
  destruct (rpkt (part s)) as [p|] eqn:Ep; [|by destruct aids].
  pose proof (chained_length _ _ _ _ Hch) as Hl. rewrite !length_app in Hl. cbn in Hl.
  destruct (chained_last (sto s) (Some p) aids old (map whole acc) total piece ltac:(lia) Hch) as (mt & Hmt & Hlt).
  assert (Hown : NoDup (aids ++ [old])).
  { eapply core_sub; [exact Hc|]. apply sublist_inserts_l. by apply sublist_inserts_r. }
  assert (Hbch : Forall (buf_ok B (sto s)) (aids ++ [old]))
    by (apply Forall_app in Hbs as [_ Hbs]; by apply Forall_app in Hbs as [Hbs _]).
  assert (Hpin : p ∈ aids ++ [old]).
  { destruct (aids ++ [old]); [done|]. injection Hh as ->. set_solver. }
  destruct (chained_elem _ _ _ _ _ Hch Hpin) as [mp Hmp].
  destruct (fix_lengths _ _ _ _ _ _ _ Hown Hch Etot Ht31) as (Hch2 & m2 & Hm2 & Hl2 & Hr2 & Hh2).
  set (st2 := upd_st _ old _) in Hch2, Hm2.
  assert (Hag : agree (sto s) st2 (ids ++ concat (map fst q))).
  { apply sep_NoDup in Hs. apply NoDup_app in Hs as (_ & Hd1 & Hs). apply NoDup_app in Hs as (_ & Hd2 & _).
    assert (Hx : forall x, x ∈ aids ++ [old] -> x ∉ ids ++ concat (map fst q)).
    { intros x Hx [Hy|Hy]%elem_of_app; [eapply Hd1; [exact Hy|]; apply elem_of_app; by left|by eapply Hd2]. }
    eapply agree_trans; apply agree_upd; apply Hx; [done|]. apply elem_of_app. right. set_solver. }
  assert (Hphys : forall x, phys_of st2 x = phys_of (sto s) x) by (intros; unfold st2; by rewrite !phys_of_upd).
  assert (Hbuf : forall x, buf_ok B (sto s) x -> buf_ok B st2 x)
    by (intros; unfold st2; by apply buf_ok_upd, buf_ok_upd).
  rewrite <- Hf in Hch2.
  destruct (read_frame st2 p _ _ m2 Hch2 Hown (Forall_impl _ _ _ Hbch Hbuf) (conj Hp1 (conj Hp2 Hp3)) Hm2)
    as ((ph & Eph & Hph) & Havb & Hdst).
  destruct (add_rx_timestamp_ok (clk s) ph ts Hph) as [c' Ec'].
  set (s1 := set_clk (log (set_mbufs (set_mbufs s (mbufs (upd_st (sto s) p (with_hdr total)))) (mbufs st2)) [RxTap p]) c').
  assert (Es1 : sto s1 = st2) by done.
  exists (count_packet s1 total (take 6 (frame_bytes f))), p. split.
  { unfold finish_frame. rewrite Ep, Ht, last_snoc. cbn [get_or_bad mbind res_bind]. rewrite Hmt. cbn [get_or_bad mbind res_bind].
    erewrite upd_mbuf_eq by exact Hmp. cbn [mbind res_bind]. rewrite Hlt.
    destruct (chained_elem st2 _ _ _ old Hch2) as [mo Hmo]; [set_solver|].
    assert (Hmo1 : is_Some (mbufs (upd_st (sto s) p (with_hdr total)) !! old)).
    { cbn. destruct (decide (p = old)) as [->|]; [rewrite lookup_alter_eq, Hmp; by eexists|].
      rewrite lookup_alter_ne, Hmt by done. by eexists. }
    destruct Hmo1 as [mo1 Hmo1]. erewrite upd_mbuf_eq by exact Hmo1. cbn [mbind res_bind].
    change (length_ (part (set_mbufs s _))) with (length_ (part s)). rewrite Hlen.
    change (upd_st (sto (set_mbufs s _)) old _) with st2.
    set (sl := log _ [RxTap p]). change (sto sl) with st2. rewrite Hm2.
    cbn [get_or_bad mbind res_bind]. rewrite Hl2.
    change (zlen (concat (fr_pieces f))) with total in Eph. rewrite Eph. cbn [mbind res_bind].
    change (clk sl) with (clk s). rewrite Ec'. cbn [mbind res_bind].
    change (sto (set_clk sl c')) with st2. rewrite Hdst, Havb. reflexivity. }
  split.
  { split; cbn [count_packet set_cnt num_rx_descriptors rng sto part upq]; rewrite ?Es1; try done.
    - eapply ring_agree; [|exact Hr]. eapply agree_incl; [|exact Hag]. set_solver.
    - change (rpkt (part s1)) with (rpkt (part s)). by rewrite Ep.
    - rewrite Hf, map_app. apply Forall_app in Hps as [Hps1 Hps2]. apply Forall_app. split; [done|].
      apply Forall_cons_1 in Hps2 as [Hps2 _]. by apply Forall_cons_2.
    - eapply queue_agree; [|exact Hq]. eapply agree_incl; [|exact Hag]. set_solver.
    - eapply sep_phys; [|exact Hs]. done.
    - by eapply Forall_impl. }
  split; [split; [done|by exists m2]|]. split; [done|]. split; [|done].
  repeat split. cbn. rewrite inputs_app. cbn. by rewrite app_nil_r.
Qed.

(** ** Passing a packet up *)

Inductive why : Type := BadFrame | NoMbuf | QueueFull.
Inductive fate : Type := Direct | Queued | Dropped (w : why).

(** What became of the frame [f], with its mbufs [aids], in a step from [s] to [s']. *)
Definition became (s s' : rx) (q q' : list (list Z * frame)) (aids : list Z) (f : frame) (x : fate) : Prop :=
  match x with
  | Direct =>
      q' = q /\ rx_queue (upq s') = rx_queue (upq s) /\ rx_running (upq s') = rx_running (upq s) /\
      inputs (trace s') = inputs (trace s) ++ [packet_of f]
  | Queued =>
      q' = q ++ [(aids, f)] /\ (exists p, rx_queue (upq s') = rx_queue (upq s) ++ [p]) /\
      rx_running (upq s') = true /\ inputs (trace s') = inputs (trace s)
  | Dropped _ =>
      q' = q /\ rx_queue (upq s') = rx_queue (upq s) /\ rx_running (upq s') = rx_running (upq s) /\
      inputs (trace s') = inputs (trace s)
  end.

(** The counters, by what became of a frame. *)
Definition counted (c c' : counters) (f : frame) (x : fate) : Prop :=
  let seen := match x with Dropped BadFrame | Dropped NoMbuf => 0 | _ => 1 end in
  if_ierrors c' = if_ierrors c + match x with Dropped _ => 1 | _ => 0 end /\
  rx_failed_allocs c' = rx_failed_allocs c + match x with Dropped NoMbuf | Dropped QueueFull => 1 | _ => 0 end /\
  if_ipackets c' = if_ipackets c + seen /\ rxed_ok c' = rxed_ok c + seen /\
  octets_rxed_ok c' = octets_rxed_ok c + seen * zlen (frame_bytes f).

(** The members no step of the receive loop changes. *)
Definition same_regs (s s' : rx) : Prop :=
  num_rx_descriptors s' = num_rx_descriptors s /\ flow_status s' = flow_status s /\
  if_running s' = if_running s /\ imask s' = imask s /\ ievent s' = ievent s.

Definition flow_control (s : rx) : bool :=
  negb (Z.land (flow_status s) (Z.lor MX6_FLOW_TX MX6_FLOW_BOTH) =? 0).

(** Receiving goes on, or stops because of flow control. *)
Definition goes_on (s s' : rx) (r : option Z) : Prop :=
  match r with
  | None => rx_full (upq s') = rx_full (upq s)
  | Some v => v = 0 /\ rx_full (upq s') = Z.lor (rx_full (upq s)) 1 /\ flow_control s = true /\
              IFQ_MAXLEN - 1 <= zlen (rx_queue (upq s'))
  end.

(** The chain of the frame leaves the driver's hands, or joins the queue. *)
Lemma core_released n s s' pend ids aids cps q :
  core n s pend ids aids cps q ->
  num_rx_descriptors s' = n -> rng s' = rng s -> sto s' = sto s -> part s' = no_partial ->
  rx_queue (upq s') = rx_queue (upq s) ->
  core n s' pend ids [] [] q.
Proof.
  intros [Hnum Hr Hch Ht Hps Hq Hs Hbs] E1 E2 E3 E4 E5.
  split; rewrite ?E2, ?E3, ?E4, ?E5; try done.
  - unfold sep in *. eapply sublist_NoDup; [exact Hs|]. apply fmap_sublist. cbn.
    apply sublist_app; [done|]. by apply sublist_inserts_l.
  - apply Forall_app in Hbs as [Hb1 Hb2]. apply Forall_app in Hb2 as [_ Hb3]. by apply Forall_app.
Qed.

Lemma core_queued n s s' pend ids aids f q p :
  core n s pend ids aids (map whole (fr_pieces f)) q -> queued (sto s) p (aids, f) ->
  num_rx_descriptors s' = n -> rng s' = rng s -> sto s' = sto s -> part s' = no_partial ->
  rx_queue (upq s') = rx_queue (upq s) ++ [p] ->
  core n s' pend ids [] [] (q ++ [(aids, f)]).
Proof.
  intros [Hnum Hr Hch Ht Hps Hq Hs Hbs] Hp E1 E2 E3 E4 E5.
  assert (Hperm : ids ++ aids ++ concat (map fst q) ≡ₚ ids ++ [] ++ concat (map fst (q ++ [(aids, f)]))).
  { apply Permutation_app_head. rewrite map_app, concat_app. cbn. rewrite app_nil_r. apply Permutation_app_comm. }
  split; rewrite ?E2, ?E3, ?E4, ?E5; try done.
  - apply Forall2_app; [done|]. by apply Forall2_cons.
  - by eapply sep_perm.
  - by rewrite <- Hperm.
Qed.

Lemma pass_up_ok n s pend ids aids f p q avb :
  core n s pend ids aids (map whole (fr_pieces f)) q -> queued (sto s) p (aids, f) ->
  exists s' r q' x,
    pass_up s p avb = Ok (s', r) /\ core n s' pend ids [] [] q' /\ (part s' = no_partial /\ rng s' = rng s) /\
    same_regs s s' /\ became s s' q q' aids f x /\ goes_on s s' r /\ (avb = true <-> x = Direct) /\
    x <> Dropped BadFrame /\ x <> Dropped NoMbuf /\
    cnt s' = cnt (match x with Dropped _ => add_errors s 1 1 | _ => s end).
Proof.
  intros Hc Hq. pose proof (co_num _ _ _ _ _ _ _ Hc) as Hnum.
  assert (Hown : NoDup aids /\ Forall (buf_ok B (sto s)) aids).
  { split.
    - eapply core_sub; [exact Hc|]. apply sublist_inserts_l. by apply sublist_inserts_r.
    - pose proof (co_bufs _ _ _ _ _ _ _ Hc) as Hbs. apply Forall_app in Hbs as [_ Hbs].
      by apply Forall_app in Hbs as [Hbs _]. }
  unfold pass_up. destruct avb.
  { unfold if_input. erewrite queued_packet by (try exact Hq; apply Hown). cbn [mbind res_bind mret res_ret].
    eexists _, None, q, Direct. split; [reflexivity|].
    split; [by eapply core_released|]. split; [done|]. split; [done|]. split; [|done].
    repeat split. cbn. by rewrite inputs_app. }
  set (s1 := if IFQ_MAXLEN <=? zlen (rx_queue (upq s)) then _ else _).
  assert (Hrng1 : rng s1 = rng s) by (unfold s1; destruct (_ <=? _); [done|]; by destruct (negb _)).
  assert (Hs1 : exists q' x, core n (set_part s1 no_partial) pend ids [] [] q' /\ same_regs s s1 /\
    became s s1 q q' aids f x /\ rx_full (upq s1) = rx_full (upq s) /\ x <> Direct /\
    x <> Dropped BadFrame /\ x <> Dropped NoMbuf /\
    cnt s1 = cnt (match x with Dropped _ => add_errors s 1 1 | _ => s end)).
  { unfold s1. destruct (Z.leb_spec IFQ_MAXLEN (zlen (rx_queue (upq s)))).
    - exists q, (Dropped QueueFull). split; [by eapply core_released|]. split; [done|]. split; [|done].
      repeat split. cbn. rewrite inputs_app. cbn. by rewrite app_nil_r.
    - exists (q ++ [(aids, f)]), Queued. split; [|split].
      + eapply core_queued; [exact Hc|exact Hq|..]; by destruct (negb _).
      + by destruct (negb _).
      + destruct (negb _); repeat split; try (by eexists); cbn; rewrite ?inputs_app; cbn; by rewrite ?app_nil_r. }
  destruct Hs1 as (q' & x & Hcore & Hreg & Hbec & Hfull & Hx1 & Hx2 & Hx3 & Hcnt).
  assert (Hiff : false = true <-> x = Direct) by (split; [done|by intros ->]).
  set (stop := negb _ && _). destruct stop eqn:Es;
    eexists _, _, q', x; (split; [reflexivity|]).
  - apply andb_prop in Es as [Es1 Es2].
    split; [eapply core_released; [exact Hcore|apply (co_num _ _ _ _ _ _ _ Hcore)|done..]|]. split; [done|].
    split; [exact Hreg|]. split; [by destruct x|]. split; [|by repeat split].
    split; [done|]. cbn [set_upq set_part upq rx_full rx_queue] in *. split; [by rewrite Hfull|]. split.
    + unfold flow_control. destruct Hreg as (_ & Ef & _). by rewrite <- Ef.
    + by apply Z.leb_le.
  - split; [done|]. split; [done|]. split; [exact Hreg|]. split; [by destruct x|]. split; [done|by repeat split].
Qed.

(** ** A turn *)

(** The unfinished frame: its mbufs hold [acc]. *)
Definition unfinished (n : Z) (s : rx) (pend : list chunk) (ids aids : list Z) (acc : list (list Z))
    (q : list (list Z * frame)) : Prop :=
  core n s pend ids aids (map whole acc) q /\ length_ (part s) = zlen (concat acc).

Lemma whole_total acc : foldr (fun x k => zlen x.2 + k) 0 (map whole acc) = zlen (concat acc).
Proof. induction acc as [|b acc IH]; [done|]. cbn. rewrite zlen_app. f_equal. exact IH. Qed.

(** Nothing in the ring: the function returns, and the controller is told to go on. *)
Lemma turn_empty n s ids aids acc q a :
  unfinished n s [] ids aids acc q ->
  receive_turn a s = Ok (if if_running s then log s [RxActivate] else s, Some 1).
Proof.
  intros [Hc _]. pose proof (co_ring _ _ _ _ _ _ _ Hc) as Hr. pose proof (ri_cidx _ _ _ _ _ _ Hr) as Hi.
  destruct (ring_lookup _ _ _ _ _ _ _ Hr Hi) as (id & b & _ & Hb & _ & m & _ & _ & _ & Hst).
  unfold receive_turn. rewrite Hb. cbn [get_or_bad mbind res_bind].
  cbn in Hst. rewrite Hst. by rewrite (proj2 (Z.eqb_neq _ 0)) by apply empty_bit.
Qed.

(** What the status of a filled descriptor makes of the turn. *)
Lemma turn_filled n s c pend ids aids cps q a :
  core n s (c :: pend) ids aids cps q ->
  receive_turn a s =
    if negb (match ck_last c with None => 0 | Some (_, fl) => Z.land fl RXBD_ERR end =? 0)
    then s' ← give_back (advance s) (rx_cidx (rng s)) 0; mret (s', None)
    else match a with
         | None => s' ← give_back (advance s) (rx_cidx (rng s)) 1; mret (s', None)
         | Some (new, m, bytes) =>
             s' ← append_pkt (with_alloc (advance s) new m bytes) (rx_cidx (rng s)) (ck_len c);
             s' ← mx6q_add_pkt s' new (rx_cidx (rng s));
             match ck_last c with
             | Some _ =>
                 b ← get_or_bad (rx_bd (rng s') !! Z.to_nat (rx_cidx (rng s)));
                 finish_frame s' (rb_timestamp b)
             | None =>
                 tail ← get_or_bad (rpkt_tail (part s'));
                 mt ← get_or_bad (mbufs (sto s') !! tail);
                 mret (set_part s' {| rpkt := rpkt (part s'); rpkt_tail := rpkt_tail (part s');
                                      length_ := u32 (length_ (part s') + m_len mt) |}, None)
             end
         end.
Proof.
  intros Hc. destruct (core_first _ _ _ _ _ _ _ _ Hc) as (Hi & Hck & id & b & m & _ & Hb & _ & _ & _ & _ & _ & Hst & Hbl & _).
  destruct (filled_bits B n (rx_cidx (rng s)) c Hck) as (B1 & B2 & B3 & _).
  unfold receive_turn. rewrite Hb. cbn [get_or_bad mbind res_bind]. rewrite Hst, B1, B2, B3, Hbl.
  change (negb (0 =? 0)) with false. cbn iota. fold (advance s).
  destruct (negb _); [done|]. destruct a as [[[new mn] bytes]|]; [|done].
  fold (with_alloc (advance s) new mn bytes).
  destruct (append_pkt _ _ _) as [s2|]; [|done]. cbn [mbind res_bind].
  destruct (mx6q_add_pkt _ _ _) as [s3|]; [|done]. cbn [mbind res_bind].
  by destruct (ck_last c) as [[t fl]|].
Qed.

Lemma turn_middle n s b pend ids aids acc q a :
  unfinished n s (middle b :: pend) ids aids acc q -> fresh s a -> zlen (concat acc) + zlen b < 2 ^ 32 ->
  exists s' ids' aids',
    receive_turn (Some a) s = Ok (s', None) /\ unfinished n s' pend ids' aids' (acc ++ [b]) q /\
    quiet s s' /\ rx_cidx (rng s') = (rx_cidx (rng s) + 1) mod n /\ cnt s' = cnt s.
Proof.
  intros [Hc Hl] Hf Hlt. destruct a as [[new m] bytes].
  destruct (take_ok _ _ _ _ _ _ _ _ _ _ _ Hc Hf) as (old & s2 & s3 & E2 & E3 & Hc3 & Hl3 & Hq3 & Hi3 & Hn3).
  rewrite (turn_filled _ _ _ _ _ _ _ _ _ Hc). cbn [middle ck_last ck_len ck_bytes] in *.
  change (negb (0 =? 0)) with false. cbn iota. rewrite E2. cbn [mbind res_bind]. rewrite E3. cbn [mbind res_bind].
  pose proof Hc3 as [Hnum Hr Hch Ht Hps Hq Hs Hbs].
  pose proof (chained_length _ _ _ _ Hch) as Hll. rewrite !length_app in Hll. cbn in Hll.
  destruct (chained_last (sto s3) (rpkt (part s3)) aids old (map whole acc) (zlen b) b ltac:(lia) Hch) as (mt & Hmt & Hlt').
  rewrite Ht, last_snoc. cbn [get_or_bad mbind res_bind]. rewrite Hmt. cbn [get_or_bad mbind res_bind mret res_ret].
  eexists _, _, (aids ++ [old]). split; [reflexivity|]. split; [|by repeat split; try apply Hq3].
  split.
  - rewrite map_app. split; try done. cbn. by rewrite last_snoc.
  - cbn. rewrite Hlt', Hl3, Hl, concat_app, zlen_app. cbn. rewrite app_nil_r.
    apply wrap_id. unfold fits. pose proof (zlen_nonneg (concat acc)). pose proof (zlen_nonneg b). lia.
Qed.

Lemma unfinished_none n s pend ids q : core n s pend ids [] [] q -> part s = no_partial -> unfinished n s pend ids [] [] q.
Proof. intros Hc Hp. split; [done|]. by rewrite Hp. Qed.

(** The last piece: the frame is passed up, queued or dropped. *)
Lemma turn_last n s piece pend ids aids acc q f a :
  let c := {| ck_bytes := piece; ck_last := Some (zlen (frame_bytes f), fr_flags f) |} in
  unfinished n s (c :: pend) ids aids acc q ->
  fr_pieces f = acc ++ [piece] -> (bad_frame f = false -> pieces_ok (fr_pieces f)) ->
  match a with Some a => fresh s a | None => True end ->
  exists s' r ids' q' x,
    receive_turn a s = Ok (s', r) /\ unfinished n s' pend ids' [] [] q' /\ same_regs s s' /\
    (exists aids', became s s' q q' aids' f x) /\ goes_on s s' r /\
    counted (cnt s) (cnt s') f x /\ rx_cidx (rng s') = (rx_cidx (rng s) + 1) mod n /\
    (x = Dropped BadFrame <-> bad_frame f = true) /\ (x = Dropped NoMbuf -> a = None) /\
    (x = Direct -> avb_bytes (frame_bytes f) = true) /\ (x = Queued -> avb_bytes (frame_bytes f) = false).
Proof.
  intros c [Hc Hl] Hf Hok Ha.
  assert (Hgive : forall failed w, w = (if failed =? 0 then BadFrame else NoMbuf) -> (failed = 0 \/ failed = 1) ->
    exists s', give_back (advance s) (rx_cidx (rng s)) failed = Ok s' /\
      unfinished n s' pend ids [] [] q /\ same_regs s s' /\ became s s' q q [] f (Dropped w) /\
      goes_on s s' None /\ counted (cnt s) (cnt s') f (Dropped w) /\
      rx_cidx (rng s') = (rx_cidx (rng s) + 1) mod n).
  { intros failed w -> Hfl. rewrite <- whole_total in Hl.
    destruct (give_back_ok _ _ _ _ _ _ _ _ failed Hc Hl) as (s' & E & Hc' & Hp & Hq & Hci & Hn).
    exists s'. split; [done|]. split; [by apply unfinished_none|].
    destruct Hq as (Q1 & Q2 & Q3 & Q4 & Q5 & Q6 & Q7).
    split; [done|]. split; [repeat split; by rewrite ?Q6, ?Q7|]. split; [cbn; by rewrite Q6|].
    split; [|done]. rewrite Hn. destruct Hfl as [-> | ->]; repeat split; cbn; lia. }
  rewrite (turn_filled _ _ _ _ _ _ _ _ _ Hc). cbn [c ck_last]. fold (bad_frame f).
  destruct (bad_frame f) eqn:Eb.
  { destruct (Hgive 0 BadFrame eq_refl ltac:(by left)) as (s' & -> & K2 & K3 & K4 & K5 & K6 & K7).
    exists s', None, ids, q, (Dropped BadFrame). repeat (split; [by eauto|]). done. }
  destruct a as [[[new m] bytes]|].
  2:{ destruct (Hgive 1 NoMbuf eq_refl ltac:(by right)) as (s' & -> & K2 & K3 & K4 & K5 & K6 & K7).
      exists s', None, ids, q, (Dropped NoMbuf). repeat (split; [by eauto|]). done. }
  destruct (take_ok _ _ _ _ _ _ _ _ _ _ _ Hc Ha) as (old & s2 & s3 & E2 & E3 & Hc3 & Hl3 & Hq3 & Hi3 & Hn3).
  rewrite E2. cbn [mbind res_bind]. rewrite E3. cbn [mbind res_bind].
  cbn [c ck_len ck_bytes ck_last] in Hc3. rewrite <- Hl3 in Hl.
  destruct (ring_lookup _ _ _ _ _ _ _ (co_ring _ _ _ _ _ _ _ Hc3) (proj1 (core_first _ _ _ _ _ _ _ _ Hc)))
    as (id3 & b3 & _ & -> & _).
  cbn [get_or_bad mbind res_bind]. set (ts := rb_timestamp b3).
  destruct (finish_ok _ _ _ _ _ _ _ _ _ _ ts Hc3 Hl Hf (Hok eq_refl)) as (s4 & p & -> & Hc4 & Hqd & Hr4 & Hq4 & Hn4).
  destruct (pass_up_ok _ _ _ _ _ _ _ _ (avb_bytes (frame_bytes f)) Hc4 Hqd)
    as (s5 & r & q' & x & -> & Hc5 & [Hp5 Hr5] & Hreg & Hbec & Hgo & Havb & Hx1 & Hx2 & Hn5).
  pose proof (quiet_trans _ _ _ Hq3 Hq4) as (Q1 & Q2 & Q3 & Q4 & Q5 & Q6 & Q7).
  eexists s5, r, _, q', x. split; [reflexivity|]. split; [by apply unfinished_none|].
  split; [unfold same_regs in *; intuition congruence|].
  split; [exists (aids ++ [old]); unfold became in *; by rewrite <- Q6, <- Q7|].
  split; [unfold goes_on, flow_control in *; by rewrite <- Q6, <- Q2|].
  split.
  { rewrite Hn5. unfold counted. destruct x as [| |[]]; try done; cbn; rewrite ?Hn4; cbn; rewrite ?Hn3;
      repeat split; lia. }
  split; [by rewrite Hr5, Hr4|].
  split; [split; [by intros ->|done]|]. split; [by intros ->|].
  split; [intros Hx; by apply Havb|]. intros ->. destruct (avb_bytes (frame_bytes f)); [|done].
  pose proof (proj1 Havb eq_refl). discriminate.
Qed.

End Ops.
