(* ===== verification/EnetRxRun.v ===== *)
(** * EnetRxRun: a running interface that receives: the controller, the interrupt handler, the receive
    thread and the stack's thread, and what holds in all states they can get into. *)

From stdpp Require Import relations.
From S2P Require Import Prelude.
From S2P Require Import Sections.
From S2P Require Import EnetPtp.
From S2P Require Import EnetClock.
From S2P Require Import EnetRx.
From S2P Require Import EnetRxRing.
From S2P Require Import EnetRxOps.

#[export] Instance why_eq_dec : EqDecision why.
Proof. solve_decision. Defined.
#[export] Instance fate_eq_dec : EqDecision fate.
Proof. solve_decision. Defined.

(** ** The system *)

(** The device with the driver's state, the controller, whether the receive thread is in
    [mx6q_receive], and the pulses on their way to it. *)
Record sys := { dev : rx; hw : nic; in_rx : bool; pulses : nat }.

Section Run.
Context `{NetHeaderLaws} `{RxHeaders}.
Variable B : Z.

(** What the controller may put on the ring: pieces that fit the buffers; a frame without an error
    has at least the headers the driver looks at. *)
Definition frame_ok (f : frame) : Prop :=
  fr_pieces f <> [] /\ Forall (fun p => 0 < zlen p <= B) (fr_pieces f) /\ 0 <= fr_flags f < 512 /\
  zlen (frame_bytes f) < 2 ^ 16 /\ (bad_frame f = false -> 18 <= zlen (default [] (head (fr_pieces f)))).

(** A mbuf the allocator may give.  It may fail; [midfail] says whether also when the piece at hand is
    not the last of its frame. *)
Definition last_piece (s : rx) : Prop :=
  forall b, rx_bd (rng s) !! Z.to_nat (rx_cidx (rng s)) = Some b ->
    Z.land (rb_status b) RXBD_E = 0 -> Z.land (rb_status b) RXBD_L <> 0.

Definition alloc_may (midfail : bool) (s : rx) (a : option (Z * mbuf * list Z)) : Prop :=
  match a with Some a => fresh B s a | None => midfail = true \/ last_piece s end.

Definition set_running (s : rx) (b : bool) : rx :=
  {| num_rx_descriptors := num_rx_descriptors s; flow_status := flow_status s; if_running := b;
     rng := rng s; part := part s; upq := upq s; cnt := cnt s; sto := sto s; imask := imask s;
     ievent := ievent s; clk := clk s; trace := trace s |}.

(** The steps; [midfail] says whether the allocation of an mbuf may fail in the middle of a frame,
    [updown] whether the interface may be taken down and up. *)
Inductive step (midfail updown : bool) : sys -> sys -> Prop :=
  | step_piece x p ts s' :
      0 < zlen p <= B -> zlen (concat (hw_pre (hw x) ++ [p])) < 2 ^ 16 ->
      hw_fill (middle p) ts (hw_idx (hw x)) (dev x) = Some s' ->
      step midfail updown x
        {| dev := s';
           hw := {| hw_idx := (hw_idx (hw x) + 1) mod num_rx_descriptors (dev x);
                    hw_pre := hw_pre (hw x) ++ [p]; wire := wire (hw x) |};
           in_rx := in_rx x; pulses := pulses x |}
  | step_last x p f ts s' :
      frame_ok f -> fr_pieces f = hw_pre (hw x) ++ [p] ->
      hw_fill {| ck_bytes := p; ck_last := Some (zlen (frame_bytes f), fr_flags f) |} ts
        (hw_idx (hw x)) (dev x) = Some s' ->
      step midfail updown x
        {| dev := s';
           hw := {| hw_idx := (hw_idx (hw x) + 1) mod num_rx_descriptors (dev x);
                    hw_pre := []; wire := wire (hw x) ++ [f] |};
           in_rx := in_rx x; pulses := pulses x |}
  | step_event x e :
      0 <= e ->
      step midfail updown x {| dev := set_regs (dev x) (imask (dev x)) (Z.lor (ievent (dev x)) e); hw := hw x;
                       in_rx := in_rx x; pulses := pulses x |}
  | step_isr x x_des active full s' kick r :
      mx6q_isr x_des active full (dev x) = (s', kick, r) ->
      step midfail updown x {| dev := s'; hw := hw x; in_rx := in_rx x;
                       pulses := match r with IsrRx => S (pulses x) | _ => pulses x end |}
  | step_pulse x k :
      in_rx x = false -> pulses x = S k ->
      step midfail updown x {| dev := rx_pulse_begin (dev x); hw := hw x; in_rx := true; pulses := k |}
  | step_turn x a s' r :
      in_rx x = true -> alloc_may midfail (dev x) a -> receive_turn a (dev x) = Ok (s', r) ->
      step midfail updown x
        {| dev := match r with Some v => rx_pulse_end s' v | None => s' end; hw := hw x;
           in_rx := match r with Some _ => false | None => true end; pulses := pulses x |}
  | step_drain x s' :
      rx_running (upq (dev x)) = true -> process_turn (dev x) = Ok (s', true) ->
      step midfail updown x {| dev := s'; hw := hw x; in_rx := in_rx x; pulses := pulses x |}
  | step_drained x s' :
      rx_running (upq (dev x)) = true -> process_turn (dev x) = Ok (s', false) ->
      step midfail updown x {| dev := mx6q_enable_queue s'; hw := hw x; in_rx := in_rx x; pulses := pulses x |}
  | step_updown x b :
      updown = true ->
      step midfail updown x {| dev := set_running (dev x) b; hw := hw x; in_rx := in_rx x; pulses := pulses x |}.

(** The mbufs an interface is set up with: different ones, with clusters of their own. *)
Definition good_mbuf (a : option (Z * mbuf * list Z)) : Prop :=
  match a with
  | Some (_, m, bytes) => m_next m = None /\ fits 32 (m_phys m) /\ B + 32 <= zlen bytes
  | None => True
  end.

Definition alloc_id (a : option (Z * mbuf * list Z)) : option Z :=
  match a with Some (id, _, _) => Some id | None => None end.
Definition alloc_phys (a : option (Z * mbuf * list Z)) : option Z :=
  match a with Some (_, m, _) => Some (m_phys m) | None => None end.

Definition good_allocs (l : list (option (Z * mbuf * list Z))) : Prop :=
  Forall good_mbuf l /\ NoDup (omap alloc_id l) /\ NoDup (omap alloc_phys l).

Definition starts (x : sys) : Prop :=
  exists n flow allocs st p, good_allocs allocs /\ init_rx n flow allocs st p = Some (dev x) /\
    hw x = {| hw_idx := 0; hw_pre := []; wire := [] |} /\ in_rx x = false /\ pulses x = 0%nat.

Definition reachable (midfail updown : bool) (x : sys) : Prop :=
  exists x0, starts x0 /\ relations.rtc (step midfail updown) x0 x.

(** ** The invariant of the data *)

Definition with_fate (x : fate) (l : list (frame * fate)) : list frame :=
  map fst (filter (fun p => p.2 = x) l).
Definition is_dropped (x : fate) : bool := match x with Dropped _ => true | _ => false end.
Definition dropped (l : list (frame * fate)) : list (frame * fate) :=
  filter (fun p => is_dropped p.2 = true) l.

Definition is_avb_packet (k : packet) : bool := avb_bytes (pk_bytes k).

(** The frame [f] fared as it may: only bad ones are dropped as bad, and the 1722 frames are those
    passed up at once. *)
Definition fair (p : frame * fate) : Prop :=
  (p.2 = Dropped BadFrame <-> bad_frame p.1 = true) /\
  (p.2 = Direct -> avb_bytes (frame_bytes p.1) = true) /\
  (p.2 = Queued -> avb_bytes (frame_bytes p.1) = false).

(** [done] are the frames the driver is done with, [todo] those it is not. *)
Record accounts (s : rx) (q : list (list Z * frame)) (done : list (frame * fate)) : Prop := {
  ac_direct : filter (fun k => is_avb_packet k = true) (inputs (trace s))
              = map packet_of (with_fate Direct done);
  ac_queued : filter (fun k => is_avb_packet k = false) (inputs (trace s)) ++ map packet_of (map snd q)
              = map packet_of (with_fate Queued done);
  ac_fair : Forall fair done;
  ac_errors : if_ierrors (cnt s) = zlen (dropped done);
  ac_packets : if_ipackets (cnt s) = zlen (with_fate Direct done) + zlen (with_fate Queued done)
                                     + zlen (with_fate (Dropped QueueFull) done);
  ac_queue : Forall (fun x => avb_bytes (frame_bytes x.2) = false) q
}.

Record inv (x : sys) (pend : list chunk) (ids aids : list Z) (acc : list (list Z))
    (q : list (list Z * frame)) (done : list (frame * fate)) (todo : list frame) : Prop := {
  iv_memory : unfinished B (num_rx_descriptors (dev x)) (dev x) pend ids aids acc q;
  iv_stream : map middle acc ++ pend = concat (map chunks todo) ++ map middle (hw_pre (hw x));
  iv_idx : hw_idx (hw x) = (rx_cidx (rng (dev x)) + zlen pend) mod num_rx_descriptors (dev x);
  iv_wire : wire (hw x) = map fst done ++ todo;
  iv_todo : Forall frame_ok todo;
  iv_pre : Forall (fun p => 0 < zlen p <= B) (hw_pre (hw x)) /\ zlen (concat (hw_pre (hw x))) < 2 ^ 16;
  iv_accounts : accounts (dev x) q done
}.

Definition has_inv (x : sys) : Prop := exists pend ids aids acc q done todo, inv x pend ids aids acc q done todo.

(** ** The steps keep it *)

(** What the invariant of the memory is about. *)
Lemma unfinished_same n s s' pend ids aids acc q :
  num_rx_descriptors s' = num_rx_descriptors s -> rng s' = rng s -> sto s' = sto s ->
  part s' = part s -> rx_queue (upq s') = rx_queue (upq s) ->
  unfinished B n s pend ids aids acc q -> unfinished B n s' pend ids aids acc q.
Proof.
  intros E1 E2 E3 E4 E5 [[Hnum Hr Hch Ht Hps Hq Hs Hbs] Hl]. split; [|by rewrite E4].
  split; rewrite ?E1, ?E2, ?E3, ?E4, ?E5; done.
Qed.

Lemma accounts_same s s' q done :
  inputs (trace s') = inputs (trace s) -> cnt s' = cnt s -> accounts s q done -> accounts s' q done.
Proof. intros E1 E2 [A1 A2 A3 A4 A5 A6]. split; rewrite ?E1, ?E2; done. Qed.

Lemma with_fate_snoc x l f y :
  with_fate x (l ++ [(f, y)]) = with_fate x l ++ (if decide (y = x) then [f] else []).
Proof. unfold with_fate. rewrite filter_app, map_app. f_equal. cbn. by destruct (decide (y = x)). Qed.

Lemma dropped_snoc l f y :
  dropped (l ++ [(f, y)]) = dropped l ++ (if is_dropped y then [(f, y)] else []).
Proof. unfold dropped. rewrite filter_app. f_equal. cbn. by destruct y. Qed.

Lemma is_avb_packet_of f : is_avb_packet (packet_of f) = avb_bytes (frame_bytes f).
Proof. done. Qed.

Lemma accounts_frame s s' q q' aids f x done :
  accounts s q done -> became s s' q q' aids f x -> counted (cnt s) (cnt s') f x -> fair (f, x) ->
  accounts s' q' (done ++ [(f, x)]).
Proof.
  intros [A1 A2 A3 A4 A5 A6] Hb (C1 & C2 & C3 & _) Hf. pose proof Hf as (_ & F2 & F3). cbn in F2, F3.
  split.
  - rewrite with_fate_snoc, map_app, <- A1. destruct x as [| |w]; cbn in Hb |- *.
    + destruct Hb as (_ & _ & _ & ->). rewrite filter_app. f_equal.
      rewrite filter_cons_True; [done|]. rewrite is_avb_packet_of. by apply F2.
    + destruct Hb as (_ & _ & _ & ->). by rewrite app_nil_r.
    + destruct Hb as (_ & _ & _ & ->). by rewrite app_nil_r.
  - rewrite with_fate_snoc, map_app, <- A2. destruct x as [| |w]; cbn in Hb |- *.
    + destruct Hb as (-> & _ & _ & ->). rewrite filter_app, app_nil_r. f_equal.
      rewrite filter_cons_False; [by rewrite app_nil_r|]. rewrite is_avb_packet_of, F2 by done. done.
    + destruct Hb as (-> & _ & _ & ->). by rewrite !map_app, app_assoc.
    + destruct Hb as (-> & _ & _ & ->). by rewrite app_nil_r.
  - apply Forall_app_2; [done|]. by apply Forall_singleton.
  - rewrite C1, A4, dropped_snoc, zlen_app. by destruct x.
  - rewrite C3, A5, !with_fate_snoc, !zlen_app. destruct x as [| |[]]; cbn;
      repeat case_decide; try congruence; rewrite ?zlen_cons, ?(@zlen_nil frame); lia.
  - destruct x as [| |w]; cbn in Hb; destruct Hb as (-> & _); try done.
    apply Forall_app_2; [done|]. apply Forall_singleton. by apply F3.
Qed.

(** The controller writes only into an empty descriptor. *)
Lemma hw_fill_room n s ids pend c ts s' :
  ring_inv B n (rng s) (sto s) ids pend ->
  hw_fill c ts ((rx_cidx (rng s) + zlen pend) mod n) s = Some s' -> zlen pend < n.
Proof.
  intros Hr Hf. pose proof (ri_pend _ _ _ _ _ _ Hr) as Hp. destruct (Z.eq_dec (zlen pend) n) as [E|]; [|lia].
  pose proof (ri_cidx _ _ _ _ _ _ Hr) as Hi. exfalso.
  rewrite E in Hf. replace (rx_cidx (rng s) + n) with (rx_cidx (rng s) + 1 * n) in Hf by lia.
  rewrite Z.mod_add, Z.mod_small in Hf by lia.
  destruct (ring_lookup _ _ _ _ _ _ _ Hr Hi) as (id & b & _ & Hb & _ & m & _ & _ & _ & Hst).
  rewrite dist_eq, Z.leb_refl, Z.sub_diag in Hst by done.
  destruct pend as [|c0 pend]; [rewrite zlen_nil in E; lia|]. cbn in Hst. destruct Hst as [Hst _].
  pose proof (ri_chunks _ _ _ _ _ _ Hr) as [Hc0 _]%Forall_cons_1.
  destruct (filled_bits B n (rx_cidx (rng s)) c0 Hc0) as (B1 & _).
  unfold hw_fill in Hf. rewrite Hb in Hf. cbn [mbind option_bind] in Hf. by rewrite Hst, B1 in Hf.
Qed.

Lemma fill_ok n s s' pend ids aids acc q c ts :
  unfinished B n s pend ids aids acc q -> chunk_ok B c ->
  hw_fill c ts ((rx_cidx (rng s) + zlen pend) mod n) s = Some s' ->
  unfinished B n s' (pend ++ [c]) ids aids acc q /\ rx_cidx (rng s') = rx_cidx (rng s) /\
  num_rx_descriptors s' = num_rx_descriptors s /\ flow_status s' = flow_status s /\
  if_running s' = if_running s /\ upq s' = upq s /\ trace s' = trace s /\ cnt s' = cnt s /\
  imask s' = imask s /\
  ievent s' = (match ck_last c with None => ievent s | Some _ => Z.lor (ievent s) IEVENT_RFINT end).
Proof.
  intros [Hc Hl] Hck Hf. pose proof Hc as [Hnum Hr Hch Ht Hps Hq Hs Hbs].
  pose proof (hw_fill_room _ _ _ _ _ _ _ Hr Hf) as Hlt.
  assert (Hb1 : Forall (buf_ok B (sto s)) ids) by (by apply Forall_app in Hbs as [? _]).
  destruct (ring_fill B n s ids pend c ts _ Hr Hs Hb1 Hlt Hck) as (b & d & E & Hr' & Hag & Hph & Hbuf).
  rewrite E in Hf. injection Hf as <-. set (i := (rx_cidx (rng s) + zlen pend) mod n) in *.
  assert (Hun : unfinished B n (hw_put c ts i b d s) (pend ++ [c]) ids aids acc q).
  { split; [|done]. split; try done.
    - eapply chained_agree; [|exact Hch]. eapply agree_incl; [|exact Hag]. set_solver.
    - eapply queue_agree; [|exact Hq]. eapply agree_incl; [|exact Hag]. set_solver.
    - by eapply Forall_impl. }
  unfold hw_done. destruct (ck_last c); (split; [|done]); [|done].
  by eapply (unfinished_same _ (hw_put c ts i b d s)).
Qed.

(** The next piece belongs to the first frame that is not done, or to the one being written. *)
Lemma first_piece acc b pend todo pre :
  map middle acc ++ middle b :: pend = concat (map chunks todo) ++ map middle pre ->
  Forall (fun f => fr_pieces f <> []) todo ->
  (exists rest, pre = acc ++ b :: rest) \/
  (exists f todo' rest, todo = f :: todo' /\ fr_pieces f = acc ++ b :: rest).
Proof.
  intros He Hn. destruct todo as [|f todo].
  - left. cbn in He. revert pre He. induction acc as [|a acc IH]; intros [|x pre] He; try done.
    + injection He as -> He. by exists pre.
    + injection He as -> He. destruct (IH _ He) as [rest ->]. by exists rest.
  - right. apply Forall_cons_1 in Hn as [Hf _]. exists f, todo.
    destruct (exists_last Hf) as (l & y & El). cbn [map concat] in He.
    unfold chunks in He at 1. rewrite El, chunks_from_snoc, <- !app_assoc in He.
    assert (Hp : exists rest, l = acc ++ b :: rest).
    { clear El. revert l He. induction acc as [|a acc IH]; intros [|x l] He.
      - discriminate He.
      - injection He as -> He. by exists l.
      - discriminate He.
      - injection He as -> He. destruct (IH l He) as [rest ->]. by exists rest. }
    destruct Hp as [rest ->]. exists (rest ++ [y]). split; [done|]. by rewrite El, <- app_assoc.
Qed.

(** ** Who will receive next *)

(** The interrupt is enabled; a frame is announced. *)
Definition rfi (s : rx) : bool := Z.testbit (imask s) 25.
Definition rfint (s : rx) : bool := Z.testbit (ievent s) 25.

Lemma bit_test v k : 0 <= k -> negb (Z.land v (2 ^ k) =? 0) = Z.testbit v k.
Proof.
  intros Hk. pose proof (land_pow2_testbit v k Hk) as [E1 E2].
  destruct (Z.eqb_spec (Z.land v (2 ^ k)) 0) as [E|E]; cbn; [by rewrite E1|].
  destruct (Z.testbit v k); [done|]. by destruct E; apply E2.
Qed.

Lemma bit_set v k : 0 <= k -> Z.testbit (Z.lor v (2 ^ k)) k = true.
Proof. intros. by rewrite Z.lor_spec, Z.pow2_bits_true, orb_true_r. Qed.

Lemma bit_clear v k j : 0 <= k < 32 -> 0 <= j < 32 ->
  Z.testbit (Z.land v (bnot 32 (2 ^ j))) k = Z.testbit v k && negb (k =? j).
Proof.
  intros Hk Hj. rewrite Z.land_spec, testbit_bnot by lia. rewrite (proj2 (Z.ltb_lt k 32)) by lia.
  cbn [andb]. do 2 f_equal. destruct (Z.eqb_spec k j) as [->|Hne].
  - apply Z.pow2_bits_true. lia.
  - apply Z.pow2_bits_false. lia.
Qed.

(** Exactly one of these is there: the enabled interrupt, a pulse for the thread, the thread in
    [mx6q_receive], or the queue that stopped it; and while a whole frame waits in the ring and nobody
    is receiving, its interrupt is raised, unless flow control stopped the thread before. *)
Record wake (x : sys) (pend : list chunk) : Prop := {
  wk_token : (if rfi (dev x) then 1 else 0) + Z.of_nat (pulses x) + (if in_rx x then 1 else 0)
             + rx_full (upq (dev x)) = 1;
  wk_full : 0 <= rx_full (upq (dev x)) <= 1;
  wk_queue : rx_queue (upq (dev x)) <> [] -> rx_running (upq (dev x)) = true;
  wk_stopped : rx_full (upq (dev x)) <> 0 -> rx_running (upq (dev x)) = true;
  wk_up : if_running (dev x) = true;
  wk_flow : rx_full (upq (dev x)) <> 0 -> flow_control (dev x) = true;
  wk_event : flow_control (dev x) = false -> in_rx x = false ->
             (exists c, c ∈ pend /\ ck_last c <> None) -> rfint (dev x) = true
}.

Definition good (updown : bool) (x : sys) : Prop :=
  exists pend ids aids acc q done todo,
    inv x pend ids aids acc q done todo /\ (updown = false -> wake x pend).

(** A step that leaves the ring, the chains and the queue alone. *)
Lemma inv_same x pend ids aids acc q done todo s' rx' pl' :
  inv x pend ids aids acc q done todo ->
  num_rx_descriptors s' = num_rx_descriptors (dev x) -> rng s' = rng (dev x) -> sto s' = sto (dev x) ->
  part s' = part (dev x) -> rx_queue (upq s') = rx_queue (upq (dev x)) ->
  inputs (trace s') = inputs (trace (dev x)) -> cnt s' = cnt (dev x) ->
  inv {| dev := s'; hw := hw x; in_rx := rx'; pulses := pl' |} pend ids aids acc q done todo.
Proof.
  intros [I1 I2 I3 I4 I5 I6 I7] E1 E2 E3 E4 E5 E6 E7. split; cbn [dev hw]; rewrite ?E1, ?E2; try done.
  - by eapply unfinished_same.
  - by eapply accounts_same.
Qed.

Lemma frame_nonempty l : Forall frame_ok l -> Forall (fun f => fr_pieces f <> []) l.
Proof. intros Hl. eapply Forall_impl; [exact Hl|]. by intros f [Hf _]. Qed.

Lemma next_index n c k : 0 < n -> ((c + k) mod n + 1) mod n = (c + (k + 1)) mod n.
Proof. intros. rewrite Zplus_mod_idemp_l. f_equal. lia. Qed.

(** What a write of the controller means for [wake]. *)
Lemma wake_fill x s' h c pend :
  wake x pend -> flow_status s' = flow_status (dev x) -> if_running s' = if_running (dev x) ->
  upq s' = upq (dev x) -> imask s' = imask (dev x) ->
  ievent s' = (match ck_last c with None => ievent (dev x) | Some _ => Z.lor (ievent (dev x)) IEVENT_RFINT end) ->
  wake {| dev := s'; hw := h; in_rx := in_rx x; pulses := pulses x |} (pend ++ [c]).
Proof.
  intros [W1 W2 W3 W4 W5 W7 W6] Ef Eu Eq Em Ee.
  split; cbn [dev in_rx pulses]; unfold rfi, rfint, flow_control in *; rewrite ?Ef, ?Eu, ?Eq, ?Em, ?Ee; try done.
  intros Hf Hi (c' & Hc' & Hl). apply elem_of_app in Hc' as [Hc'|Hc'].
  - specialize (W6 Hf Hi (ex_intro _ c' (conj Hc' Hl))).
    destruct (ck_last c); [by rewrite Z.lor_spec, W6|done].
  - apply list_elem_of_singleton in Hc' as ->. destruct (ck_last c); [by apply (bit_set _ 25)|done].
Qed.

Lemma good_piece u x p ts s' :
  good u x -> 0 < zlen p <= B -> zlen (concat (hw_pre (hw x) ++ [p])) < 2 ^ 16 ->
  hw_fill (middle p) ts (hw_idx (hw x)) (dev x) = Some s' ->
  good u {| dev := s';
            hw := {| hw_idx := (hw_idx (hw x) + 1) mod num_rx_descriptors (dev x);
                     hw_pre := hw_pre (hw x) ++ [p]; wire := wire (hw x) |};
            in_rx := in_rx x; pulses := pulses x |}.
Proof.
  intros (pend & ids & aids & acc & q & done & todo & Hi & Hw) Hp Hlt Hf.
  pose proof Hi as [I1 I2 I3 I4 I5 I6 I7]. rewrite I3 in Hf.
  assert (Hck : chunk_ok B (middle p)) by done.
  destruct (fill_ok _ _ _ _ _ _ _ _ _ _ I1 Hck Hf) as (Hu & Ec & En & Efl & Eup & Eq & Et & Ecn & Em & Ee).
  assert (0 < num_rx_descriptors (dev x)).
  { destruct I1 as [Hc _]. pose proof (ri_cidx _ _ _ _ _ _ (co_ring _ _ _ _ _ _ _ _ Hc)). lia. }
  exists (pend ++ [middle p]), ids, aids, acc, q, done, todo. split.
  - split; cbn [dev hw hw_pre hw_idx wire]; rewrite ?En, ?Ec; try done.
    + by rewrite map_app, !app_assoc, I2.
    + rewrite I3, zlen_app, zlen_cons, zlen_nil. by apply next_index.
    + split; [|done]. apply Forall_app_2; [apply I6|]. by apply Forall_singleton.
    + eapply accounts_same; [by rewrite Et|done|done].
  - intros Hu0. eapply wake_fill; try done. by apply Hw.
Qed.

Lemma good_last u x p f ts s' :
  good u x -> frame_ok f -> fr_pieces f = hw_pre (hw x) ++ [p] ->
  hw_fill {| ck_bytes := p; ck_last := Some (zlen (frame_bytes f), fr_flags f) |} ts
    (hw_idx (hw x)) (dev x) = Some s' ->
  good u {| dev := s';
            hw := {| hw_idx := (hw_idx (hw x) + 1) mod num_rx_descriptors (dev x);
                     hw_pre := []; wire := wire (hw x) ++ [f] |};
            in_rx := in_rx x; pulses := pulses x |}.
Proof.
  intros (pend & ids & aids & acc & q & done & todo & Hi & Hw) Hok Hpc Hf.
  pose proof Hi as [I1 I2 I3 I4 I5 I6 I7]. rewrite I3 in Hf.
  set (c := {| ck_bytes := p; ck_last := Some (zlen (frame_bytes f), fr_flags f) |}) in *.
  pose proof Hok as (F1 & F2 & F3 & F4 & F5).
  assert (Hck : chunk_ok B c).
  { split; [|exact F3]. rewrite Hpc in F2. apply Forall_app in F2 as [_ F2].
    by apply Forall_cons_1 in F2 as [F2 _]. }
  destruct (fill_ok _ _ _ _ _ _ _ _ _ _ I1 Hck Hf) as (Hu & Ec & En & Efl & Eup & Eq & Et & Ecn & Em & Ee).
  assert (0 < num_rx_descriptors (dev x)).
  { destruct I1 as [Hc _]. pose proof (ri_cidx _ _ _ _ _ _ (co_ring _ _ _ _ _ _ _ _ Hc)). lia. }
  exists (pend ++ [c]), ids, aids, acc, q, done, (todo ++ [f]). split.
  - split; cbn [dev hw hw_pre hw_idx wire]; rewrite ?En, ?Ec; try done.
    + rewrite app_assoc, I2, map_app, concat_app. cbn [map concat]. rewrite !app_nil_r, <- app_assoc. f_equal.
      unfold chunks. by rewrite Hpc, chunks_from_snoc.
    + rewrite I3, zlen_app, zlen_cons, zlen_nil. by apply next_index.
    + by rewrite I4, app_assoc.
    + apply Forall_app_2; [done|]. by apply Forall_singleton.
    + eapply accounts_same; [by rewrite Et|done|done].
  - intros Hu0. eapply wake_fill; try done. by apply Hw.
Qed.

Lemma good_event u x e :
  good u x -> 0 <= e ->
  good u {| dev := set_regs (dev x) (imask (dev x)) (Z.lor (ievent (dev x)) e); hw := hw x;
            in_rx := in_rx x; pulses := pulses x |}.
Proof.
  intros (pend & ids & aids & acc & q & done & todo & Hi & Hw) He.
  exists pend, ids, aids, acc, q, done, todo. split; [by eapply inv_same|].
  intros Hu. destruct (Hw Hu) as [W1 W2 W3 W4 W5 W7 W6]. split; try done.
  intros Hf Hin Hc. unfold rfint. cbn [dev ievent set_regs]. rewrite Z.lor_spec.
  specialize (W6 Hf Hin Hc). unfold rfint in W6. by rewrite W6.
Qed.

(** What the interrupt handler does to the state. *)
Lemma isr_cases x_des active full s s' kick r :
  mx6q_isr x_des active full s = (s', kick, r) ->
  num_rx_descriptors s' = num_rx_descriptors s /\ rng s' = rng s /\ sto s' = sto s /\ part s' = part s /\
  upq s' = upq s /\ trace s' = trace s /\ cnt s' = cnt s /\ if_running s' = if_running s /\
  flow_status s' = flow_status s /\ rfint s' = rfint s /\
  (r = IsrRx /\ rfi s = true /\ rfint s = true /\ rfi s' = false \/ r <> IsrRx /\ rfi s' = rfi s).
Proof.
  unfold mx6q_isr. unfold IMASK_RFIEN, IEVENT_RFINT. rewrite !bit_test by lia.
  fold (rfi s) (rfint s). destruct (rfi s && rfint s) eqn:E.
  - intros [= <- _ <-]. apply andb_prop in E as [E1 E2]. repeat (split; [done|]). left.
    repeat (split; [done|]). unfold rfi. cbn [imask set_regs]. by rewrite bit_clear, andb_false_r by lia.
  - destruct (ts_timer_isr (ievent s) (clk s)) as [c ws] eqn:Et.
    assert (Hws : Z.testbit (foldr (fun w e => Z.land e (bnot 32 w.2)) (ievent s) ws) 25 = rfint s).
    { unfold ts_timer_isr in Et. destruct (negb _); injection Et as _ <-; [|done]. cbn [foldr snd].
      unfold IEVENT_TS_TIMER. by rewrite bit_clear, andb_true_r by lia. }
    destruct (negb _); intros [= <- _ <-].
    + repeat (split; [done|]). split; [|right; split; [by destruct full|done]].
      unfold rfint at 1. cbn [ievent set_regs]. unfold IEVENT_TFINT. rewrite bit_clear by lia.
      cbn [ievent set_regs set_clk]. by rewrite Hws, andb_true_r.
    + repeat (split; [done|]). by right.
Qed.

Lemma good_isr u x x_des active full s' kick r :
  good u x -> mx6q_isr x_des active full (dev x) = (s', kick, r) ->
  good u {| dev := s'; hw := hw x; in_rx := in_rx x;
            pulses := match r with IsrRx => S (pulses x) | _ => pulses x end |}.
Proof.
  intros (pend & ids & aids & acc & q & done & todo & Hi & Hw) E.
  destruct (isr_cases _ _ _ _ _ _ _ E) as (E1 & E2 & E3 & E4 & E5 & E6 & E7 & E8 & E9 & E10 & Hr).
  exists pend, ids, aids, acc, q, done, todo. split; [eapply inv_same; by rewrite ?E5, ?E6|].
  intros Hu. destruct (Hw Hu) as [W1 W2 W3 W4 W5 W7 W6].
  split; cbn [dev in_rx pulses]; unfold flow_control in *; rewrite ?E5, ?E8, ?E9, ?E10; try done.
  destruct Hr as [(-> & R1 & _ & ->)|[Hr ->]]; [rewrite R1 in W1; lia|by destruct r].
Qed.

Lemma good_pulse u x k :
  good u x -> in_rx x = false -> pulses x = S k ->
  good u {| dev := rx_pulse_begin (dev x); hw := hw x; in_rx := true; pulses := k |}.
Proof.
  intros (pend & ids & aids & acc & q & done & todo & Hi & Hw) Hin Hp.
  exists pend, ids, aids, acc, q, done, todo. split; [by eapply inv_same|].
  intros Hu. destruct (Hw Hu) as [W1 W2 W3 W4 W5 W7 W6]. split; cbn [dev in_rx pulses]; try done.
  rewrite Hin, Hp in W1. change (rfi (rx_pulse_begin (dev x))) with (rfi (dev x)).
  cbn [upq rx_pulse_begin set_regs]. lia.
Qed.

Lemma good_updown u x b :
  good u x -> u = true ->
  good u {| dev := set_running (dev x) b; hw := hw x; in_rx := in_rx x; pulses := pulses x |}.
Proof.
  intros (pend & ids & aids & acc & q & done & todo & Hi & _) ->.
  exists pend, ids, aids, acc, q, done, todo. split; [by eapply inv_same|done].
Qed.

(** Emptying the queue. *)
Lemma good_drain u x s' :
  good u x -> process_turn (dev x) = Ok (s', true) ->
  rx_running (upq (dev x)) = true ->
  good u {| dev := s'; hw := hw x; in_rx := in_rx x; pulses := pulses x |}.
Proof.
  intros (pend & ids & aids & acc & q & done & todo & Hi & Hw) E Hrun.
  pose proof Hi as [[Hc Hl] I2 I3 I4 I5 I6 [A1 A2 A3 A4 A5 A6]]. pose proof Hc as [Hnum Hr Hch Ht Hps Hq Hs Hbs].
  unfold process_turn in E. destruct (rx_queue (upq (dev x))) as [|p ps] eqn:Eq; [done|].
  destruct q as [|y q]; inversion Hq as [|? ? ? ? Hy Hq']; subst.
  assert (Hown : NoDup y.1 /\ Forall (buf_ok B (sto (dev x))) y.1).
  { split.
    - eapply core_sub; [exact Hc|]. apply sublist_inserts_l, sublist_inserts_l. cbn. by apply sublist_inserts_r.
    - apply Forall_app in Hbs as [_ Hbs]. apply Forall_app in Hbs as [_ Hbs]. cbn in Hbs.
      by apply Forall_app in Hbs as [Hbs _]. }
  unfold if_input in E. cbn [set_upq sto] in E.
  rewrite (queued_packet B _ _ _ Hy) in E by apply Hown. cbn in E. injection E as <-.
  apply Forall_cons_1 in A6 as [Ay A6].
  exists pend, ids, aids, acc, q, done, todo. split.
  - split; cbn [dev hw log set_upq num_rx_descriptors rng]; try done.
    + split; [|done]. split; cbn [log set_upq num_rx_descriptors rng sto part upq rx_queue]; try done.
      * unfold sep in *. eapply sublist_NoDup; [exact Hs|]. apply fmap_sublist. cbn.
        apply sublist_app; [done|]. apply sublist_app; [done|]. by apply sublist_inserts_l.
      * apply Forall_app in Hbs as [B1 Hbs]. apply Forall_app in Hbs as [B2 Hbs]. cbn in Hbs.
        apply Forall_app in Hbs as [_ B3]. apply Forall_app_2; [done|]. by apply Forall_app_2.
    + split; cbn [log set_upq trace cnt]; try done.
      * rewrite inputs_app, filter_app, <- A1. cbn [inputs omap list_omap].
        rewrite filter_cons_False; [by rewrite app_nil_r|]. rewrite is_avb_packet_of. by rewrite Ay.
      * rewrite inputs_app, filter_app, <- A2. cbn [inputs omap list_omap].
        rewrite filter_cons_True by (by rewrite is_avb_packet_of). by rewrite <- app_assoc.
  - intros Hu. destruct (Hw Hu) as [W1 W2 W3 W4 W5 W7 W6]. split; cbn [dev in_rx pulses log set_upq upq rx_full rx_running]; done.
Qed.

Lemma good_drained u x s' :
  good u x -> process_turn (dev x) = Ok (s', false) ->
  good u {| dev := mx6q_enable_queue s'; hw := hw x; in_rx := in_rx x; pulses := pulses x |}.
Proof.
  intros (pend & ids & aids & acc & q & done & todo & Hi & Hw) E.
  unfold process_turn in E. destruct (rx_queue (upq (dev x))) as [|p ps] eqn:Eq.
  2:{ destruct (if_input _ _); [|done]. by injection E. }
  injection E as <-. exists pend, ids, aids, acc, q, done, todo.
  unfold mx6q_enable_queue.
  set (on := if_running (dev x) && negb (Z.land (rx_full (upq (dev x))) 1 =? 0)).
  split.
  - eapply inv_same; [exact Hi|..]; destruct on; try done. cbn. rewrite inputs_app. cbn. by rewrite app_nil_r.
  - intros Hu. destruct (Hw Hu) as [W1 W2 W3 W4 W5 W7 W6].
    assert (Hon : on = negb (rx_full (upq (dev x)) =? 0)).
    { unfold on. rewrite W5. cbn [andb]. assert (rx_full (upq (dev x)) = 0 \/ rx_full (upq (dev x)) = 1) as [-> | ->] by lia; done. }
    split; cbn [dev in_rx pulses set_upq upq rx_full rx_queue rx_running].
    + destruct on; cbn [negb].
      * unfold rfi. cbn [imask set_regs set_upq log]. rewrite (bit_set _ 25) by lia.
        assert (rx_full (upq (dev x)) = 1) as Hf by (destruct (Z.eqb_spec (rx_full (upq (dev x))) 0); [done|lia]).
        rewrite Hf in W1. destruct (rfi (dev x)), (in_rx x); lia.
      * change (rfi _) with (rfi (dev x)).
        destruct (Z.eqb_spec (rx_full (upq (dev x))) 0) as [Hz|]; [by rewrite Hz in W1|done].
    + lia.
    + destruct on; cbn; by rewrite Eq.
    + done.
    + by destruct on.
    + done.
    + intros Hf Hin Hc. assert (rfint (dev x) = true) as Hr by (apply W6; [|done..]; by destruct on).
      by destruct on.
Qed.

(** ** A turn of the receive loop *)

(** The stack's queue length is at least two. *)
Hypothesis ifq_maxlen : 2 <= IFQ_MAXLEN.

Lemma alloc_middle n s b pend ids aids cps q :
  core B n s (middle b :: pend) ids aids cps q -> ~ last_piece s.
Proof.
  intros Hc Hl. destruct (core_first _ _ _ _ _ _ _ _ _ Hc) as (Hi & Hck & id & bd & m & _ & Hb & _ & _ & _ & _ & _ & Hst & _).
  destruct (filled_bits B n (rx_cidx (rng s)) _ Hck) as (B1 & _ & B3 & _). rewrite <- Hst in B1, B3.
  by apply (Hl bd Hb B1).
Qed.

(** The piece at the driver's index, by what it is: a middle one, which fits the frame so far, or the
    last of the first frame that is not done. *)
Lemma inv_middle x b pend ids aids acc q done todo :
  inv x (middle b :: pend) ids aids acc q done todo -> zlen (concat acc) + zlen b < 2 ^ 32.
Proof.
  intros [I1 I2 I3 I4 I5 I6 I7].
  assert (Hx : forall rest, zlen (concat (acc ++ b :: rest)) < 2 ^ 16 -> zlen (concat acc) + zlen b < 2 ^ 32).
  { intros rest. rewrite concat_app, zlen_app. cbn. rewrite zlen_app. pose proof (zlen_nonneg (concat rest)). lia. }
  destruct (first_piece _ _ _ _ _ I2 (frame_nonempty _ I5)) as [[rest Er]|(f & todo' & rest & -> & Er)].
  - apply (Hx rest). rewrite <- Er. apply I6.
  - apply Forall_cons_1 in I5 as [(_ & _ & _ & F4 & _) _]. apply (Hx rest). by rewrite <- Er.
Qed.

Lemma inv_last x b t fl pend ids aids acc q done todo :
  inv x ({| ck_bytes := b; ck_last := Some (t, fl) |} :: pend) ids aids acc q done todo ->
  exists f todo', todo = f :: todo' /\ fr_pieces f = acc ++ [b] /\ t = zlen (frame_bytes f) /\
    fl = fr_flags f /\ pend = concat (map chunks todo') ++ map middle (hw_pre (hw x)) /\
    (bad_frame f = false -> pieces_ok B (fr_pieces f)).
Proof.
  intros [I1 I2 I3 I4 I5 I6 I7].
  destruct (first_frame _ _ _ _ _ _ _ I2 (frame_nonempty _ I5)) as (f & todo' & -> & Hf & -> & -> & I2').
  exists f, todo'. repeat (split; [done|]). apply Forall_cons_1 in I5 as [(F1 & F2 & F3 & F4 & F5) _].
  intros Hb. split; [done|]. split; [by apply F5|]. unfold frame_bytes in F4. lia.
Qed.

Definition after_turn (x : sys) (s' : rx) (r : option Z) : sys :=
  {| dev := match r with Some v => rx_pulse_end s' v | None => s' end; hw := hw x;
     in_rx := match r with Some _ => false | None => true end; pulses := pulses x |}.

Lemma became_running s s' q q' aids f y :
  became s s' q q' aids f y ->
  (rx_queue (upq s) <> [] -> rx_running (upq s) = true) ->
  (rx_queue (upq s') <> [] -> rx_running (upq s') = true) /\
  (rx_running (upq s) = true -> rx_running (upq s') = true).
Proof.
  unfold became. intros Hb Hq. destruct y as [| |w].
  - by destruct Hb as (_ & -> & -> & _).
  - by destruct Hb as (_ & _ & -> & _).
  - by destruct Hb as (_ & -> & -> & _).
Qed.

(** The turn that finds the ring empty. *)
Lemma inv_turn_empty x ids aids acc q done todo :
  inv x [] ids aids acc q done todo ->
  let s' := if if_running (dev x) then log (dev x) [RxActivate] else dev x in
  inv (after_turn x s' (Some 1)) [] ids aids acc q done todo /\
  (in_rx x = true -> wake x [] -> wake (after_turn x s' (Some 1)) []).
Proof.
  intros Hi s'. unfold after_turn, rx_pulse_end. change (negb (1 =? 0)) with true. cbn iota. split.
  - eapply inv_same; [exact Hi|..]; unfold s'; destruct (if_running (dev x)); try done.
    cbn. rewrite inputs_app. cbn. by rewrite app_nil_r.
  - intros Hin [W1 W2 W3 W4 W5 W7 W6]. unfold s'. rewrite W5. rewrite Hin in W1.
    split; cbn [dev in_rx pulses set_regs upq log]; try done.
    + unfold rfi at 1. cbn [imask set_regs log]. rewrite (bit_set _ 25) by lia. destruct (rfi (dev x)); lia.
    + intros _ _ (c & Hc & _). by apply not_elem_of_nil in Hc.
Qed.

(** The turn that ends a frame. *)
Lemma inv_turn_last x a b t fl pend ids aids acc q done todo :
  inv x ({| ck_bytes := b; ck_last := Some (t, fl) |} :: pend) ids aids acc q done todo ->
  alloc_may false (dev x) a ->
  exists s' r ids' q' done' todo',
    receive_turn a (dev x) = Ok (s', r) /\
    inv (after_turn x s' r) pend ids' [] [] q' done' todo' /\
    (in_rx x = true -> wake x ({| ck_bytes := b; ck_last := Some (t, fl) |} :: pend) -> wake (after_turn x s' r) pend) /\
    (r = None \/ r = Some 0 /\ flow_control (dev x) = true) /\ flow_status s' = flow_status (dev x).
Proof.
  intros Hi Ha. pose proof Hi as [I1 I2 I3 I4 I5 I6 I7].
  destruct (inv_last _ _ _ _ _ _ _ _ _ _ _ Hi) as (f & todo' & -> & Hf & -> & -> & I2' & Hok).
  apply Forall_cons_1 in I5 as [_ I5].
  assert (Ha' : match a with Some a => fresh B (dev x) a | None => True end) by (by destruct a).
  destruct (turn_last _ _ _ _ _ _ _ _ _ _ _ I1 Hf Hok Ha')
    as (s' & r & ids' & q' & y & E & Hu2 & (R1 & R2 & R3 & R4 & R5) & (aids' & Hbec) & Hgo & Hcnt & Hci & Hx1 & _ & Hx3 & Hx4).
  exists s', r, ids', q', (done ++ [(f, y)]), todo'. split; [done|].
  assert (Hdev : match r with Some v => rx_pulse_end s' v | None => s' end = s').
  { destruct r as [v|]; [|done]. destruct Hgo as (-> & _). done. }
  unfold after_turn. rewrite Hdev. split; [|split].
  - split; cbn [dev hw]; rewrite ?R1; try done.
    + rewrite I3, Hci, zlen_cons, Zplus_mod_idemp_l. f_equal. lia.
    + rewrite I4, map_app. cbn. by rewrite <- app_assoc.
    + eapply accounts_frame; [exact I7|exact Hbec|exact Hcnt|]. split; [exact Hx1|]. by split.
  - intros Hin [W1 W2 W3 W4 W5 W7 W6]. rewrite Hin in W1.
    assert (Hrf : rfi s' = rfi (dev x)) by (unfold rfi; by rewrite R4).
    destruct (became_running _ _ _ _ _ _ _ Hbec W3) as [Hq3 Hq4].
    destruct r as [v|]; cbn in Hgo.
    + destruct Hgo as (-> & Hfull & Hfc & Hmax).
      assert (rx_full (upq (dev x)) = 0) as Hz by (destruct (rfi (dev x)); lia).
      rewrite Hz in Hfull, W1. change (Z.lor 0 1) with 1 in Hfull.
      split; cbn [dev in_rx pulses]; rewrite ?Hrf, ?R3, ?Hfull; try done; try lia.
      * intros _. apply Hq3. intros E0. rewrite E0, zlen_nil in Hmax. lia.
      * unfold flow_control in *. by rewrite R2.
      * unfold flow_control in *. rewrite R2. congruence.
    + split; cbn [dev in_rx pulses]; rewrite ?Hrf, ?R3, ?Hgo; try done; [by auto|].
      unfold flow_control in *. by rewrite R2.
  - split; [|done]. destruct r as [v|]; [|by left]. right. by destruct Hgo as (-> & _ & ? & _).
Qed.

(** The turn that takes a middle piece. *)
Lemma inv_turn_middle x a b pend ids aids acc q done todo :
  inv x (middle b :: pend) ids aids acc q done todo -> alloc_may false (dev x) a ->
  exists s' ids' aids',
    receive_turn a (dev x) = Ok (s', None) /\
    inv (after_turn x s' None) pend ids' aids' (acc ++ [b]) q done todo /\
    (in_rx x = true -> wake x (middle b :: pend) -> wake (after_turn x s' None) pend) /\
    flow_status s' = flow_status (dev x).
Proof.
  intros Hi Ha. pose proof Hi as [I1 I2 I3 I4 I5 I6 I7].
  destruct a as [a|]; [|destruct Ha as [|Ha]; [done|]; by destruct (alloc_middle _ _ _ _ _ _ _ _ (proj1 I1))].
  destruct (turn_middle _ _ _ _ _ _ _ _ _ _ I1 Ha (inv_middle _ _ _ _ _ _ _ _ _ Hi))
    as (s' & ids' & aids' & E2 & Hu2 & Hqt & Hci & Hcnt).
  destruct Hqt as (R1 & R2 & R3 & R4 & R5 & R6 & R7).
  exists s', ids', aids'. split; [done|]. split; [|split; [|done]].
  - split; cbn [after_turn dev hw]; rewrite ?R1; try done.
    + rewrite map_app, <- app_assoc. exact I2.
    + rewrite I3, Hci, zlen_cons, Zplus_mod_idemp_l. f_equal. lia.
    + by eapply accounts_same.
  - intros Hin [W1 W2 W3 W4 W5 W7 W6]. rewrite Hin in W1.
    split; cbn [after_turn dev in_rx pulses]; unfold rfi, flow_control in *; rewrite ?R2, ?R3, ?R4, ?R6; done.
Qed.

(** Every turn: it does not fail, and takes one piece, unless there is none. *)
Lemma inv_turn x a pend ids aids acc q done todo :
  inv x pend ids aids acc q done todo -> alloc_may false (dev x) a ->
  exists s' r pend' ids' aids' acc' q' done' todo',
    receive_turn a (dev x) = Ok (s', r) /\
    inv (after_turn x s' r) pend' ids' aids' acc' q' done' todo' /\
    (in_rx x = true -> wake x pend -> wake (after_turn x s' r) pend') /\
    match pend with
    | [] => r = Some 1 /\ pend' = []
    | _ :: p => pend' = p /\ (r = None \/ r = Some 0 /\ flow_control (dev x) = true)
    end /\ flow_status s' = flow_status (dev x).
Proof.
  intros Hi Ha. destruct pend as [|[b [[t fl]|]] pend].
  - destruct (inv_turn_empty _ _ _ _ _ _ _ Hi) as [Hi' Hw].
    eexists _, _, [], ids, aids, acc, q, done, todo. split; [eapply turn_empty, Hi|].
    repeat (split; [by try apply Hi'|]). by destruct (if_running (dev x)).
  - destruct (inv_turn_last _ _ _ _ _ _ _ _ _ _ _ _ Hi Ha) as (s' & r & ids' & q' & done' & todo' & E & Hi' & Hw & Hr & Hf).
    exists s', r, pend, ids', [], [], q', done', todo'. by repeat (split; [done|]).
  - destruct (inv_turn_middle _ _ _ _ _ _ _ _ _ _ Hi Ha) as (s' & ids' & aids' & E & Hi' & Hw & Hf).
    exists s', None, pend, ids', aids', (acc ++ [b]), q, done, todo. repeat (split; [done|]).
    split; [|done]. split; [done|by left].
Qed.

Lemma good_turn u x a s' r :
  good u x -> in_rx x = true -> alloc_may false (dev x) a -> receive_turn a (dev x) = Ok (s', r) ->
  good u (after_turn x s' r).
Proof.
  intros (pend & ids & aids & acc & q & done & todo & Hi & Hw) Hin Ha E.
  destruct (inv_turn _ a _ _ _ _ _ _ _ Hi Ha) as (s2 & r2 & pend' & ids' & aids' & acc' & q' & done' & todo' & E2 & Hi' & Hw' & _).
  rewrite E in E2. injection E2 as <- <-. exists pend', ids', aids', acc', q', done', todo'.
  split; [done|]. auto.
Qed.

(** ** The beginning *)

Definition a_id (a : Z * mbuf * list Z) : Z := a.1.1.
Definition a_mbuf (a : Z * mbuf * list Z) : mbuf := a.1.2.
Definition a_phys (a : Z * mbuf * list Z) : Z := m_phys (a_mbuf a).

Definition alloc_all (st : store) (l : list (Z * mbuf * list Z)) : store :=
  foldl (fun st a => alloc_st st (a_id a) (a_mbuf a) a.2) st l.

Lemma alloc_all_outside st l :
  (forall i, i ∉ map a_id l -> mbufs (alloc_all st l) !! i = mbufs st !! i) /\
  (forall p, p ∉ map a_phys l -> dma (alloc_all st l) !! p = dma st !! p).
Proof.
  revert st. induction l as [|a l IH]; intros st; [done|]. cbn [map alloc_all foldl].
  destruct (IH (alloc_st st (a_id a) (a_mbuf a) a.2)) as [IH1 IH2]. fold (alloc_all (alloc_st st (a_id a) (a_mbuf a) a.2) l).
  split.
  - intros i Hi. rewrite not_elem_of_cons in Hi. rewrite IH1 by tauto. cbn. apply lookup_insert_ne. intros E. apply (proj1 Hi). by symmetry.
  - intros p Hp. rewrite not_elem_of_cons in Hp. rewrite IH2 by tauto. cbn. apply lookup_insert_ne.
    intros E. apply (proj1 Hp). by symmetry.
Qed.

Lemma alloc_all_inside st l :
  NoDup (map a_id l) -> NoDup (map a_phys l) ->
  Forall (fun a => mbufs (alloc_all st l) !! a_id a = Some (a_mbuf a) /\
                   dma (alloc_all st l) !! a_phys a = Some a.2) l.
Proof.
  revert st. induction l as [|a l IH]; intros st Hi Hp; [constructor|].
  apply NoDup_cons in Hi as [Hi1 Hi], Hp as [Hp1 Hp]. apply Forall_cons. split.
  - cbn [alloc_all foldl]. fold (alloc_all (alloc_st st (a_id a) (a_mbuf a) a.2) l).
    destruct (alloc_all_outside (alloc_st st (a_id a) (a_mbuf a) a.2) l) as [-> ->]; try done.
    unfold a_phys. cbn. by rewrite !lookup_insert_eq.
  - by apply (IH (alloc_st st (a_id a) (a_mbuf a) a.2)).
Qed.

Lemma init_ring_ok n i k allocs st bds ps st' :
  init_ring n i k allocs st = (bds, ps, st', true) ->
  exists used rest,
    allocs = map Some used ++ rest /\ length used = k /\ ps = map Some (map a_id used) /\
    st' = alloc_all st used /\
    bds = imap (fun j a => {| rb_length := 0; rb_status := Z.lor RXBD_E (wrap_bit n (i + Z.of_nat j));
                              rb_buffer := u32 (a_phys a); rb_timestamp := 0 |}) used.
Proof.
  revert i allocs st bds ps. induction k as [|k IH]; intros i allocs st bds ps E.
  { injection E as <- <- <-. by exists [], allocs. }
  destruct allocs as [|[[[id m] bytes]|] allocs]; try discriminate E. cbn [init_ring] in E.
  fold (alloc_st st id m bytes) in E.
  destruct (init_ring n (i + 1) k allocs (alloc_st st id m bytes)) as [[[bds0 ps0] st0] ok] eqn:E0.
  injection E as <- <- <- ->.
  destruct (IH _ _ _ _ _ E0) as (used & rest & -> & Hl & -> & -> & ->).
  exists ((id, m, bytes) :: used), rest. split; [done|]. split; [cbn; by rewrite Hl|]. split; [done|].
  split; [done|]. rewrite imap_cons. f_equal.
  - unfold a_phys, a_mbuf. cbn. f_equal. rewrite Z.add_0_r. unfold wrap_bit. by destruct (i =? n - 1).
  - apply imap_ext. intros j a _. unfold compose. do 3 f_equal. lia.
Qed.

Lemma clamp_pos n : 0 < clamp_rx_descriptors n.
Proof. unfold clamp_rx_descriptors, MIN_NUM_RX_DESCRIPTORS, MAX_NUM_RX_DESCRIPTORS. zbool; lia. Qed.

Lemma good_allocs_used used rest :
  good_allocs (map Some used ++ rest) ->
  Forall (fun a => m_next (a_mbuf a) = None /\ fits 32 (a_phys a) /\ B + 32 <= zlen a.2) used /\
  NoDup (map a_id used) /\ NoDup (map a_phys used).
Proof.
  intros (G1 & G2 & G3). apply Forall_app in G1 as [G1 _].
  rewrite !omap_app in *. apply NoDup_app in G2 as [G2 _]. apply NoDup_app in G3 as [G3 _].
  assert (E2 : omap alloc_id (map Some used) = map a_id used).
  { clear. induction used as [|[[i m] b] l IH]; [done|]. cbn. by f_equal. }
  assert (E3 : omap alloc_phys (map Some used) = map a_phys used).
  { clear. induction used as [|[[i m] b] l IH]; [done|]. cbn. by f_equal. }
  rewrite E2 in G2. rewrite E3 in G3. split; [|done].
  apply (proj1 (Forall_fmap Some good_mbuf used)) in G1. eapply Forall_impl; [exact G1|]. by intros [[i m] b].
Qed.

Lemma starts_good u x : starts x -> good u x.
Proof.
  intros (n0 & flow & allocs & st & p & Hg & Hi & Hh & Hin & Hpl).
  unfold init_rx in Hi. set (n := clamp_rx_descriptors n0) in *.
  pose proof (clamp_pos n0) as Hn. fold n in Hn.
  destruct (init_ring n 0 (Z.to_nat n) allocs st) as [[[bds ps] st'] ok] eqn:E. destruct ok; [|done].
  injection Hi as Hd.
  destruct (init_ring_ok _ _ _ _ _ _ _ _ E) as (used & rest & -> & Hlen & -> & -> & ->).
  destruct (good_allocs_used _ _ Hg) as (Gm & Gi & Gp).
  pose proof (alloc_all_inside st used Gi Gp) as Hin'.
  exists [], (map a_id used), [], [], [], [], []. split.
  - split; rewrite <- ?Hd, ?Hh; cbn [hw_pre hw_idx wire num_rx_descriptors rng rx_cidx]; try done.
    + split; [|done]. split; cbn [num_rx_descriptors rng sto part upq rx_queue rpkt rpkt_tail no_partial]; try done.
      * split; cbn [rx_bd rx_pkts rx_cidx]; try done.
        -- by rewrite length_imap.
        -- by rewrite length_map.
        -- rewrite zlen_nil. lia.
        -- intros i id b Hi Hid Hb. apply list_lookup_fmap_Some in Hid as (a & -> & Ha).
           rewrite list_lookup_imap, Ha in Hb. injection Hb as <-.
           pose proof (Forall_lookup_1 _ _ _ _ Hin' Ha) as [M1 M2].
           pose proof (Forall_lookup_1 _ _ _ _ Gm Ha) as (N1 & N2 & _).
           exists (a_mbuf a). cbn [rb_buffer rb_status]. rewrite wrap_id by done.
           repeat split; try done. by rewrite Z2Nat.id, Z.add_0_l by lia.
      * unfold sep. cbn [app concat map]. rewrite app_nil_r, map_map.
        assert (E1 : map (fun a => phys_of (alloc_all st used) (a_id a)) used = map Some (map a_phys used)).
        { rewrite map_map. apply map_ext_in. intros a Ha. apply list_elem_of_In in Ha.
          rewrite Forall_forall in Hin'. destruct (Hin' a Ha) as [M1 _]. unfold phys_of. by rewrite M1. }
        rewrite E1. apply NoDup_fmap_2; [|done]. by intros ? ? [= ->].
      * cbn [app concat map]. rewrite app_nil_r. apply (Forall_fmap a_id (buf_ok B (alloc_all st used)) used).
        rewrite Forall_forall in Hin', Gm |- *. intros a Ha. destruct (Hin' a Ha) as [M1 M2], (Gm a Ha) as (_ & N2 & N3).
        exists (a_mbuf a), a.2. done.
  - intros _. split; rewrite <- ?Hd, ?Hin, ?Hpl; cbn; try done.
    intros _ _ (c & Hc & _). by apply not_elem_of_nil in Hc.
Qed.

Lemma reachable_good u x : reachable false u x -> good u x.
Proof.
  intros (x0 & H0' & Hr). apply (starts_good u) in H0'. induction Hr as [x|x y z Hs Hr IH]; [done|].
  apply IH. destruct Hs.
  - by apply good_piece with ts.
  - by eapply good_last.
  - by apply good_event.
  - by eapply good_isr.
  - by eapply good_pulse.
  - by eapply good_turn.
  - by eapply good_drain.
  - by eapply good_drained.
  - by apply good_updown.
Qed.

(** ** The theorems *)

Lemma good_turn_returns u x a :
  good u x -> alloc_may false (dev x) a -> exists r, receive_turn a (dev x) = Ok r.
Proof.
  intros (pend & ids & aids & acc & q & done & todo & Hi & _) Ha.
  destruct (inv_turn _ a _ _ _ _ _ _ _ Hi Ha) as (s2 & r2 & ? & ? & ? & ? & ? & ? & ? & E2 & _). by eexists.
Qed.

Lemma queue_packets st l q :
  Forall2 (queued st) l q -> (forall y, y ∈ q -> NoDup y.1 /\ Forall (buf_ok B st) y.1) ->
  Forall2 (fun p f => packet_at st p = Ok (packet_of f)) l (map snd q).
Proof.
  intros Hq Hy. induction Hq as [|p y l q Hp Hq IH]; [constructor|]. cbn. constructor.
  - destruct (Hy y) as [Hn Hb]; [set_solver|]. by eapply queued_packet.
  - apply IH. intros z Hz. apply Hy. set_solver.
Qed.

Lemma core_packets n s pend ids aids cps q :
  core B n s pend ids aids cps q ->
  Forall2 (fun p f => packet_at (sto s) p = Ok (packet_of f)) (rx_queue (upq s)) (map snd q).
Proof.
  intros Hc. pose proof Hc as [Hnum Hr Hch Ht Hps Hq Hs Hbs]. apply queue_packets; [done|].
  intros y Hy. apply list_elem_of_split in Hy as (q1 & q2 & ->). split.
  - eapply core_sub; [exact Hc|]. apply sublist_inserts_l, sublist_inserts_l. rewrite map_app, concat_app.
    apply sublist_inserts_l. cbn. by apply sublist_inserts_r.
  - apply Forall_app in Hbs as [_ Hbs]. apply Forall_app in Hbs as [_ Hbs].
    rewrite map_app, concat_app in Hbs. apply Forall_app in Hbs as [_ Hbs]. cbn in Hbs.
    by apply Forall_app in Hbs as [Hbs _].
Qed.

(** C9.  As long as no allocation of an mbuf fails in the middle of a frame: the frames the controller has
    written are, in order, those the driver is done with and those it is not.  Each that is done was passed up at once, or queued, or dropped -- as bad exactly if its flags
    say so.  What the stack has got, and what waits in the queue, are the bytes of those frames, in
    order and once each; the error counter is the number of dropped frames; and the next turn of the
    driver, and the next turn of the stack's thread, do not fail.  The interface may be taken down and
    up.  (An allocation that fails in mid-frame makes the driver pass up a wrong packet:
    [DemoEnetRx.lost_piece].) *)
Theorem receive_exact updown x :
  reachable false updown x ->
  exists done todo waiting,
    wire (hw x) = map fst done ++ todo /\ Forall fair done /\
    filter (fun k => is_avb_packet k = true) (inputs (trace (dev x)))
      = map packet_of (with_fate Direct done) /\
    filter (fun k => is_avb_packet k = false) (inputs (trace (dev x))) ++ map packet_of waiting
      = map packet_of (with_fate Queued done) /\
    Forall2 (fun p f => packet_at (sto (dev x)) p = Ok (packet_of f)) (rx_queue (upq (dev x))) waiting /\
    if_ierrors (cnt (dev x)) = zlen (dropped done) /\
    (forall a, alloc_may false (dev x) a -> exists r, receive_turn a (dev x) = Ok r) /\
    (exists r, process_turn (dev x) = Ok r).
Proof.
  intros Hr. apply reachable_good in Hr. pose proof (fun a => good_turn_returns _ _ a Hr) as Hret.
  destruct Hr as (pend & ids & aids & acc & q & done & todo & Hi & _).
  pose proof Hi as [[Hc Hl] I2 I3 I4 I5 I6 [A1 A2 A3 A4 A5 A6]].
  pose proof (core_packets _ _ _ _ _ _ _ Hc) as Hq.
  exists done, todo, (map snd q). repeat (split; [done|]).
  unfold process_turn. destruct (rx_queue (upq (dev x))) as [|p ps] eqn:E; [by eexists|].
  inversion Hq as [|? ? ? ? Hp _]; subst. unfold if_input. cbn [set_upq sto]. rewrite Hp. by eexists.
Qed.

(** C10.  While the interface stays up, and no allocation of an mbuf fails in the middle of a frame,
    receiving never dies: the interrupt is enabled, or a pulse is on its way to the receive thread, or
    the thread is in [mx6q_receive], or the stack's thread will enable the interrupt when the queue is
    empty.  And when flow control is off, a whole frame in the ring is never left there: if the thread
    is not about to look, the interrupt is raised and enabled.  (Taking the interface down and up can
    leave the interrupt disabled for good: [DemoEnetRx.down_forgets_interrupt].) *)
Theorem no_lost_wakeup x :
  reachable false false x ->
  (rfi (dev x) = true \/ pulses x <> O \/ in_rx x = true \/
   rx_full (upq (dev x)) = 1 /\ rx_running (upq (dev x)) = true) /\
  (flow_control (dev x) = false ->
   forall i b, 0 <= i < num_rx_descriptors (dev x) -> rx_bd (rng (dev x)) !! Z.to_nat i = Some b ->
     Z.land (rb_status b) RXBD_E = 0 -> Z.land (rb_status b) RXBD_L <> 0 ->
     pulses x <> O \/ in_rx x = true \/ rfi (dev x) = true /\ rfint (dev x) = true).
Proof.
  intros Hr. apply reachable_good in Hr as (pend & ids & aids & acc & q & done & todo & Hi & Hw).
  destruct (Hw eq_refl) as [W1 W2 W3 W4 W5 W7 W6]. pose proof Hi as [[Hc Hl] I2 I3 I4 I5 I6 I7].
  split.
  - destruct (rfi (dev x)); [by left|]. destruct (pulses x); [|by right; left].
    destruct (in_rx x); [by right; right; left|]. right. right. right. split; [lia|]. apply W4. lia.
  - intros Hf i b Hb1 Hb HE HL. destruct (pulses x); [|by left]. destruct (in_rx x); [by right; left|].
    right. right.
    assert (Hz : rx_full (upq (dev x)) = 0).
    { destruct (Z.eq_dec (rx_full (upq (dev x))) 0) as [|Hn]; [done|]. rewrite (W7 Hn) in Hf. done. }
    split; [destruct (rfi (dev x)); [done|lia]|]. apply W6; [done..|].
    pose proof (co_ring _ _ _ _ _ _ _ _ Hc) as Hring.
    destruct (ring_lookup _ _ _ _ _ _ _ Hring Hb1) as (id & b' & Hid & Hb' & _ & m & _ & _ & _ & Hst).
    rewrite Hb in Hb'. injection Hb' as <-.
    destruct (pend !! _) as [c|] eqn:Ep.
    + exists c. split; [by eapply list_elem_of_lookup_2|].
      pose proof (Forall_lookup_1 _ _ _ _ (ri_chunks _ _ _ _ _ _ Hring) Ep) as Hck.
      destruct (filled_bits B (num_rx_descriptors (dev x)) i c Hck) as (_ & _ & B3 & _).
      destruct Hst as [Hst _]. rewrite Hst, B3 in HL. intros Hn. by rewrite Hn in HL.
    + rewrite Hst in HE. by apply empty_bit in HE.
Qed.

(** ** The whole call *)

(** What each turn of a call meets. *)
Fixpoint allocs_may (l : list (option (Z * mbuf * list Z))) (s : rx) : Prop :=
  match l with
  | [] => True
  | a :: l => alloc_may false s a /\ forall s', receive_turn a s = Ok (s', None) -> allocs_may l s'
  end.

Lemma receive_loop x pend ids aids acc q done todo allocs :
  inv x pend ids aids acc q done todo -> allocs_may allocs (dev x) -> zlen pend < zlen allocs ->
  exists s' r, mx6q_receive allocs (dev x) = Ok (s', r) /\
    (r = 1 /\ (forall i b, 0 <= i < num_rx_descriptors s' -> rx_bd (rng s') !! Z.to_nat i = Some b ->
                  Z.land (rb_status b) RXBD_E <> 0)
     \/ r = 0 /\ flow_control s' = true).
Proof.
  revert x pend ids aids acc q done todo.
  induction allocs as [|a allocs IH]; intros x pend ids aids acc q done todo Hi Hm Hl.
  { rewrite zlen_nil in Hl. pose proof (zlen_nonneg pend). lia. }
  destruct Hm as [Ha Hm].
  destruct (inv_turn _ a _ _ _ _ _ _ _ Hi Ha) as (s2 & r & pend' & ids' & aids' & acc' & q' & done' & todo' & E & Hi' & _ & Hp).
  cbn [mx6q_receive]. rewrite E. cbn [mbind res_bind].
  destruct pend as [|c pend].
  - destruct Hp as [[-> ->] Hf]. cbn. eexists _, _. split; [reflexivity|]. left. split; [done|].
    intros i b Hi0 Hb. pose proof (iv_memory _ _ _ _ _ _ _ _ Hi') as [Hc _].
    pose proof (co_ring _ _ _ _ _ _ _ _ Hc) as Hring. cbn [after_turn dev] in Hring.
    destruct (ring_lookup _ _ _ _ _ _ i Hring Hi0) as (id & b' & _ & Hb' & _ & m & _ & _ & _ & Hst).
    cbn in Hb'. rewrite Hb in Hb'. injection Hb' as <-. cbn in Hst. rewrite Hst. apply empty_bit.
  - destruct Hp as [[-> [->|[-> Hfc]]] Hf].
    + cbn [mret res_ret]. rewrite zlen_cons in Hl. rewrite zlen_cons in Hl.
      apply (IH (after_turn x s2 None) pend ids' aids' acc' q' done' todo' Hi' (Hm s2 E)). lia.
    + eexists _, _. split; [reflexivity|]. right. split; [done|]. unfold flow_control in *. by rewrite Hf.
Qed.

(** C23.  A call of [mx6q_receive], if nothing comes in meanwhile and no allocation of an mbuf fails in the
    middle of a frame, ends within one turn more than there are descriptors: with every descriptor empty
    again, or, with flow control, with the queue to the stack nearly full.  (While the controller keeps
    filling the ring, the loop of the source goes on.) *)
Theorem receive_returns updown x allocs :
  reachable false updown x -> allocs_may allocs (dev x) -> num_rx_descriptors (dev x) < zlen allocs ->
  exists s' r, mx6q_receive allocs (dev x) = Ok (s', r) /\
    (r = 1 /\ (forall i b, 0 <= i < num_rx_descriptors s' -> rx_bd (rng s') !! Z.to_nat i = Some b ->
                  Z.land (rb_status b) RXBD_E <> 0)
     \/ r = 0 /\ flow_control s' = true).
Proof.
  intros Hr Hm Hl. apply reachable_good in Hr as (pend & ids & aids & acc & q & done & todo & Hi & _).
  eapply receive_loop; [exact Hi|done|].
  pose proof (iv_memory _ _ _ _ _ _ _ _ Hi) as [Hc _].
  pose proof (ri_pend _ _ _ _ _ _ (co_ring _ _ _ _ _ _ _ _ Hc)). lia.
Qed.

End Run.
