(* ===== verification/Nor.v ===== *)
(** * Nor: the serial NOR flash driver (flash/boards/norspi/f3s_spi_*.c, spi_cmds.c, spi_cmds.h and
    the board's variant.h).

    The callouts the flash file system makes, and the chip commands under them, over the bus functions
    of the board ([SpiPort]), which Ecspi.v models.  The driver has one device, so its handle is left
    out of the calls.  Output on the console is left out, and so is the variant for SST chips, which
    no board of this package builds. *)

From S2P Require Import Prelude.

(** ** Constants *)

Definition PAGE_SIZE : Z := 256.
Definition SECTOR_SIZE : Z := 256.
Definition TOTAL_SIZE : Z := 64.
Definition ADDR_LEN : Z := 3.
Definition CMD_LEN : Z := 1.
Definition TOTAL_SIZE_BYTES : Z := TOTAL_SIZE * SECTOR_SIZE * PAGE_SIZE.
Definition MAX_BURST : Z := 0x100.
Definition MAN_ID : Z := 0x20.
Definition DEVICE_ID : Z := 0xba.
Definition NUM_ERASE_UNITS : Z := TOTAL_SIZE.
Definition PWR2_SIZE_UNIT : Z := 16.
Definition SPI_DEV : Z := 0.

Definition CMD_WREN : Z := 0x06.
Definition CMD_RDID : Z := 0x9F.
Definition CMD_RDSR : Z := 0x05.
Definition CMD_READ : Z := 0x03.
Definition CMD_PP : Z := 0x02.
Definition CMD_SE : Z := 0xD8.
Definition CMD_RES : Z := 0xAB.
Definition DEVICE_SR_WIP : Z := Z.shiftl 1 0.

(** The flags and error numbers of the system's headers. *)
Class F3sHeader := {
  F3S_LIST_ALL : Z; F3S_VERIFY_WRITE : Z;
  EIO : Z; ERANGE : Z; EBUSY : Z; EAGAIN : Z; ENOENT : Z
}.
Definition EOK : Z := 0.

(** ** The bus *)

(** The functions of the board's SPI code.  A read gives the bytes received, or none when it returns
    -1; the others give what they return. *)
Class SpiPort (P : Type) := {
  spi_open : P -> res (Z * P);
  spi_setcfg : Z -> P -> res (Z * P);
  spi_close : P -> res (Z * P);
  spi_cmd_read : list Z -> Z -> P -> res (option (list Z) * P);
  spi_cmd_write : list Z -> list Z -> Z -> P -> res (Z * P);
  spi_word_exchange : Z -> P -> res (option Z * P);
  spi_write_1byte : Z -> P -> res (Z * P)
}.

(** ** The state, and the functions' monad *)

(** [f3s_socket_t]: the size of the array, the window on it, and the unit. *)
Record socket := mk_socket {
  window_size : Z; array_size : Z; window_offset : Z; unit_size : Z
}.

(** What the driver fills in of [f3s_dbase_t]. *)
Record f3s_dbase := mk_dbase {
  jedec_hi : Z; jedec_lo : Z; write_time : Z; erase_time : Z; unit_num : Z; unit_pow2 : Z
}.

(** [errno], the socket, the static [fd] of f3s_spi_open and [probe] of f3s_spi_ident, and the bus. *)
Record nor (P : Type) := mk_nor { errno : Z; sock : socket; static_fd : Z; probe : nat; port : P }.
Arguments mk_nor {P} _ _ _ _ _.
Arguments errno {P} _.
Arguments sock {P} _.
Arguments static_fd {P} _.
Arguments probe {P} _.
Arguments port {P} _.

Definition io (P A : Type) : Type := nor P -> res (A * nor P).

#[export] Instance io_ret {P} : MRet (io P) := fun A a s => Ok (a, s).
#[export] Instance io_bind {P} : MBind (io P) :=
  fun A B f m s => match m s with Ok (a, s') => f a s' | Err e => Err e end.

Section Code.
Context {P : Type} `{SpiPort P} {F : F3sHeader}.

Definition current : io P (nor P) := fun s => Ok (s, s).
Definition set_errno (e : Z) : io P unit :=
  fun s => Ok (tt, mk_nor e (sock s) (static_fd s) (probe s) (port s)).
Definition set_sock (k : socket) : io P unit :=
  fun s => Ok (tt, mk_nor (errno s) k (static_fd s) (probe s) (port s)).
Definition set_fd (fd : Z) : io P unit :=
  fun s => Ok (tt, mk_nor (errno s) (sock s) fd (probe s) (port s)).
Definition set_probe (n : nat) : io P unit :=
  fun s => Ok (tt, mk_nor (errno s) (sock s) (static_fd s) n (port s)).

(** A call into the bus. *)
Definition bus {A} (f : P -> res (A * P)) : io P A :=
  fun s => '(a, p) ← f (port s); Ok (a, mk_nor (errno s) (sock s) (static_fd s) (probe s) p).

(** An element of an array. *)
Definition element (l : list Z) (i : nat) : io P Z :=
  fun s => v ← get_or_bad (l !! i); Ok (v, s).

(** Return -1 with [errno] set. *)
Definition failed {A} (e : Z) (a : A) : io P A := _ ← set_errno e; mret a.

(** ** spi_cmds.c *)

Definition set_address (addr : Z) : list Z :=
  [Z.shiftr (Z.land addr 0xff0000) 16; Z.shiftr (Z.land addr 0x00ff00) 8; Z.land addr 0x0000ff].

Definition write_enable : io P Z :=
  rc ← bus (spi_write_1byte CMD_WREN);
  if rc =? -1 then mret rc else mret EOK.

Definition iswriting : io P Z :=
  r ← bus (spi_cmd_read [CMD_RDSR; 0; 0; 0] 4);
  match r with
  | None => failed EIO (-1)
  | Some status =>
      v ← element status 3;
      mret (Z.land v DEVICE_SR_WIP)
  end.

(** [do { ... } while (rc && --count)], with [count] rounds left. *)
Fixpoint completion_loop (count : nat) : io P Z :=
  match count with
  | O => failed EIO (-1)
  | S count =>
      rc ← iswriting;
      if rc =? -1 then mret (-1) else if rc =? 0 then mret EOK else completion_loop count
  end.
Definition POLL_COUNT : nat := Z.to_nat 2500.
Definition wait_for_completion : io P Z := completion_loop POLL_COUNT.

(** The identification comes back in the word that carried the command, lowest byte last. *)
Definition read_ident : io P (option (Z * Z * Z)) :=
  r ← bus (spi_word_exchange (le_word [0; 0; 0; CMD_RDID]));
  match r with
  | None => mret None
  | Some w =>
      let ident := le_bytes 4 w in
      mret (Some (nth 2 ident 0, nth 1 ident 0, u32 (Z.shiftl 1 (nth 0 ident 0))))
  end.

Definition pd_release : io P Z :=
  r ← bus (spi_cmd_read [CMD_RES; 0; 0; 0] 1);
  match r with None => mret (-1) | Some _ => mret EOK end.

Definition sector_erase (offset : Z) : io P Z :=
  rc ← write_enable;
  if negb (rc =? 0) then mret (-1)
  else
    rc ← bus (spi_cmd_write (CMD_SE :: set_address offset) [] 0);
    if rc =? -1 then mret rc else mret EOK.

(** How many bytes one [page_program] takes: at most a burst, and none beyond the page. *)
Definition program_len (offset len : Z) : Z :=
  let nbytes := Z.min len (MAX_BURST - (CMD_LEN + ADDR_LEN)) in
  Z.min nbytes (Z.land offset (Z.lnot (PAGE_SIZE - 1)) + PAGE_SIZE - offset).

(** The command, and the wait for its end even when it could not be sent. *)
Definition send_page (offset nbytes : Z) (data : list Z) : io P Z :=
  rc ← bus (spi_cmd_write (CMD_PP :: set_address offset) data nbytes);
  w ← wait_for_completion;
  if negb (w =? 0) then mret (-1) else if rc =? -1 then mret (-1) else mret nbytes.

Definition page_program (offset len : Z) (data : list Z) : io P Z :=
  let nbytes := program_len offset len in
  rc ← write_enable;
  if negb (rc =? 0) then mret (-1) else send_page offset nbytes data.

(** The bytes read; none when it returns -1. *)
Definition read_from (offset len : Z) : io P (option (list Z)) :=
  if len =? 0 then mret (Some [])
  else
    let len := Z.min len (MAX_BURST - (CMD_LEN + ADDR_LEN)) in
    bus (spi_cmd_read (CMD_READ :: set_address offset) len).

(** ** The callouts *)

Definition f3s_spi_open : io P Z :=
  s ← current;
  if negb (static_fd s =? 0) then mret EOK
  else
    fd ← bus spi_open;
    _ ← set_fd fd;
    _ ← bus (spi_setcfg SPI_DEV);
    s ← current;
    _ ← set_sock (mk_socket TOTAL_SIZE_BYTES TOTAL_SIZE_BYTES (window_offset (sock s))
                            (unit_size (sock s)));
    mret EOK.

Definition f3s_spi_close : io P unit := _ ← bus spi_close; mret tt.

Definition f3s_spi_status : io P Z := mret EOK.

(** Whether the pointer returned is not null, and [*size]. *)
Definition f3s_spi_page (offset : Z) (size : option Z) : io P (bool * option Z) :=
  s ← current;
  let k := sock s in
  if window_size k <=? offset then failed ERANGE (false, size)
  else
    _ ← set_sock (mk_socket (window_size k) (array_size k) 0 (unit_size k));
    mret (true, option_map (fun n => Z.min n (window_size k - offset)) size).

Definition virtual : f3s_dbase :=
  mk_dbase MAN_ID DEVICE_ID 640000 600000000 NUM_ERASE_UNITS PWR2_SIZE_UNIT.
Definition set_jedec_lo (d : f3s_dbase) (v : Z) : f3s_dbase :=
  mk_dbase (jedec_hi d) v (write_time d) (erase_time d) (unit_num d) (unit_pow2 d).

(** [garbage] is what [mid], [did] and [size] hold when [read_ident] does not set them. *)
Definition f3s_spi_ident (garbage : Z * Z * Z) (flags : Z) (dbase : f3s_dbase) : io P (Z * f3s_dbase) :=
  s ← current;
  if negb (Z.land flags F3S_LIST_ALL =? 0) then
    match probe s with
    | O => _ ← set_probe 1; mret (EOK, virtual)
    | S _ => mret (ENOENT, dbase)
    end
  else
    _ ← pd_release;
    r ← read_ident;
    let '(mid, did, size) := default garbage r in
    let u_size := u32 (Z.shiftl 1 (unit_pow2 virtual)) in
    let dbase := if did =? 0xbb then set_jedec_lo virtual 0xbb else virtual in
    if negb (mid =? jedec_hi dbase) || negb (did =? jedec_lo dbase)
       || negb (u32 (u_size * unit_num dbase) =? size)
    then mret (ENOENT, dbase)
    else
      s ← current;
      let k := sock s in
      _ ← set_sock (mk_socket (window_size k) (array_size k) (window_offset k) u_size);
      mret (EOK, dbase).

Definition f3s_spi_read (text_offset buffer_size : Z) : io P (option (list Z)) :=
  s ← current;
  if window_size (sock s) <=? text_offset then failed ERANGE None
  else
    rc ← read_from text_offset (Z.min buffer_size (window_size (sock s) - text_offset));
    match rc with None => failed EIO None | Some bytes => mret (Some bytes) end.

Definition f3s_spi_erase (offset : Z) : io P Z :=
  r ← f3s_spi_page offset None;
  if negb (fst r) then mret ERANGE
  else
    rc ← iswriting;
    if rc =? -1 then mret EIO
    else if rc =? 1 then mret EBUSY
    else
      rc ← sector_erase offset;
      if negb (rc =? 0) then mret EIO else mret EOK.

Definition f3s_spi_sync (text_offset : Z) : io P Z :=
  r ← f3s_spi_page text_offset None;
  if negb (fst r) then mret ERANGE
  else
    rc ← iswriting;
    if rc =? -1 then mret EIO else if rc =? 1 then mret EAGAIN else mret EOK.

(** [while (xfer) ...]: read back and compare, at most a page at a time. *)
Fixpoint verify_loop (fuel : nat) (offset xfer : Z) (buffer : list Z) : io P Z :=
  if xfer =? 0 then mret EOK
  else match fuel with
  | O => fun _ => Err NoFuel
  | S fuel =>
      rc ← read_from offset (Z.min PAGE_SIZE xfer);
      match rc with
      | None => failed EIO (-1)
      | Some verify =>
          let n := zlen verify in
          if bool_decide (verify = slice buffer 0 n)
          then verify_loop fuel (offset + n) (xfer - n) (drop (Z.to_nat n) buffer)
          else failed EIO (-1)
      end
  end.

Definition f3s_spi_write (flags offset size : Z) (buffer : list Z) : io P Z :=
  r ← f3s_spi_page offset (Some size);
  if negb (fst r) then mret (-1)
  else
    rc ← page_program offset (default size (snd r)) buffer;
    if rc =? -1 then failed EIO (-1)
    else if Z.land flags F3S_VERIFY_WRITE =? 0 then mret rc
    else
      v ← verify_loop (Z.to_nat rc) offset rc buffer;
      if v =? 0 then mret rc else mret (-1).
End Code.
