(* ===== verification/NorChip.v ===== *)
(** * NorChip: a serial NOR flash chip on the bus, and the commands of Nor.v.

    What the data sheet of the chip says of its commands ([NorChipLaws]), what the driver relies on of
    the bus ([SpiLaws]), and from both what each function of spi_cmds.c does to the array. *)

From S2P Require Import Prelude.
From S2P Require Import Sections.
From S2P Require Import Nor.

(** ** The chip *)

(** Between select and release the chip takes the bytes of a command and answers as many.  Its array
    is shown as it will be when the operation under way is over; [work] counts the status reads that
    may still report one. *)
Class NorChip (C : Type) := {
  transact : list Z -> C -> list Z * C;
  contents : C -> list Z;
  enabled : C -> bool;
  work : C -> nat
}.

Definition bytes (l : list Z) : Prop := Forall (fits 8) l.

(** The address a command carries. *)
Definition address (l : list Z) : Z :=
  match l with [a2; a1; a0] => a2 * 65536 + a1 * 256 + a0 | _ => 0 end.

Definition SECTOR_BYTES : Z := SECTOR_SIZE * PAGE_SIZE.

(** Programming clears bits; erasing sets all the bits of a sector. *)
Definition programmed (m : list Z) (a : Z) (data : list Z) : list Z :=
  splice m a (zip_with Z.land (slice m a (zlen data)) data).
Definition erased (m : list Z) (a : Z) : list Z :=
  splice m (a / SECTOR_BYTES * SECTOR_BYTES) (replicate (Z.to_nat SECTOR_BYTES) 255).

Class NorChipLaws (C : Type) `{NorChip C} := {
  chip_id : Z * Z * Z;
  nl_size : forall c, zlen (contents c) = TOTAL_SIZE_BYTES;
  nl_bytes : forall c, bytes (contents c);
  nl_answer : forall bs c, bytes bs -> let a := fst (transact bs c) in zlen a = zlen bs /\ bytes a;
  nl_busy : forall bs c, (0 < work c)%nat -> let c' := snd (transact bs c) in
    contents c' = contents c /\ (work c' <= work c)%nat /\ (work c' = O -> enabled c' = false);
  nl_status : forall bs c, let '(a, c') := transact (CMD_RDSR :: bs) c in
    contents c' = contents c /\ (work c' <= pred (work c))%nat /\
    forall j v, a !! S j = Some v ->
      (Z.land v DEVICE_SR_WIP = 0 /\ work c' = O) \/ (Z.land v DEVICE_SR_WIP = 1 /\ (0 < work c)%nat);
  nl_wren : forall c, work c = O -> let c' := snd (transact [CMD_WREN] c) in
    contents c' = contents c /\ enabled c' = true /\ work c' = O;
  nl_disabled : forall cmd bs c, work c = O -> enabled c = false -> In cmd [CMD_PP; CMD_SE] ->
    let c' := snd (transact (cmd :: bs) c) in contents c' = contents c /\ work c' = O;
  nl_program : forall a data c, work c = O -> enabled c = true -> bytes a -> bytes data ->
    length a = 3%nat -> data <> [] -> address a < TOTAL_SIZE_BYTES ->
    address a mod PAGE_SIZE + zlen data <= PAGE_SIZE ->
    let c' := snd (transact (CMD_PP :: a ++ data) c) in
    contents c' = programmed (contents c) (address a) data /\ (work c' < POLL_COUNT)%nat;
  nl_erase : forall a c, work c = O -> enabled c = true -> bytes a -> length a = 3%nat ->
    address a < TOTAL_SIZE_BYTES ->
    contents (snd (transact (CMD_SE :: a) c)) = erased (contents c) (address a);
  nl_read : forall a zs c, work c = O -> bytes a -> length a = 3%nat ->
    address a + zlen zs <= TOTAL_SIZE_BYTES ->
    let '(r, c') := transact (CMD_READ :: a ++ zs) c in
    drop 4 r = slice (contents c) (address a) (zlen zs) /\ contents c' = contents c /\ work c' = O;
  nl_ident : forall zs c, work c = O -> length zs = 3%nat ->
    let '(r, c') := transact (CMD_RDID :: zs) c in
    let '(man, dev, size) := chip_id in
    drop 1 r = [man; dev; size] /\ contents c' = contents c /\ work c' = O;
  nl_release : forall zs c, work c = O -> let c' := snd (transact (CMD_RES :: zs) c) in
    contents c' = contents c /\ work c' = O
}.

(** ** The bus *)

(** What is known of a bus: it is open; it is in order for an exchange; its exchanges do not fail; the
    chip on it. *)
Class SpiBus (P C : Type) := {
  spi_up : P -> Prop;
  spi_good : P -> Prop;
  spi_steady : P -> Prop;
  spi_chip : P -> C
}.

(** [bs] went to the chip. *)
Definition exchange {P C} `{SpiBus P C} `{NorChip C} (bs : list Z) (p p' : P) : Prop :=
  spi_good p' /\ spi_chip p' = snd (transact bs (spi_chip p)) /\ (spi_steady p -> spi_steady p').
Definition reply {P C} `{SpiBus P C} `{NorChip C} (bs : list Z) (p : P) : list Z :=
  fst (transact bs (spi_chip p)).

Definition be_bytes (n : nat) (w : Z) : list Z := rev (le_bytes n w).
Definition be_word (l : list Z) : Z := le_word (rev l).

(** Every call returns while the bus is open.  On a bus in order it is one transaction with the chip,
    or has failed, after which nothing is known of the bus. *)
Class SpiLaws (P C : Type) `{SpiPort P} `{SpiBus P C} `{NorChip C} := {
  sl_read : forall cmd len p, spi_up p -> zlen cmd = 4 -> 0 <= len <= 252 ->
    exists r p', spi_cmd_read cmd len p = Ok (r, p') /\ spi_up p' /\
      (forall bs, r = Some bs -> zlen bs = len) /\
      (spi_good p -> bytes cmd -> match r with
       | Some bs => bs = drop 4 (reply (cmd ++ zeros len) p) /\ exchange (cmd ++ zeros len) p p'
       | None => ~ spi_steady p end);
  sl_write : forall cmd data len p, spi_up p -> zlen cmd = 4 -> 0 <= len <= 252 -> len <= zlen data ->
    exists rc p', spi_cmd_write cmd data len p = Ok (rc, p') /\ spi_up p' /\ (rc = 0 \/ rc = -1) /\
      (spi_good p -> bytes cmd -> bytes data ->
       if rc =? 0 then exchange (cmd ++ slice data 0 len) p p' else ~ spi_steady p);
  sl_word : forall w p, spi_up p -> 0 <= w < 2 ^ 32 ->
    exists r p', spi_word_exchange w p = Ok (r, p') /\ spi_up p' /\
      (spi_good p -> match r with
       | Some v => v = be_word (reply (be_bytes 4 w) p) /\ exchange (be_bytes 4 w) p p'
       | None => ~ spi_steady p end);
  sl_byte : forall b p, spi_up p -> fits 8 b ->
    exists rc p', spi_write_1byte b p = Ok (rc, p') /\ spi_up p' /\ (rc = 0 \/ rc = -1) /\
      (spi_good p -> if rc =? 0 then exchange [b] p p' else ~ spi_steady p)
}.

(** ** Addresses *)

Lemma set_address_ok a : 0 <= a < TOTAL_SIZE_BYTES ->
  address (set_address a) = a /\ bytes (set_address a) /\ length (set_address a) = 3%nat.
Proof.
  intros Ha. unfold TOTAL_SIZE_BYTES, TOTAL_SIZE, SECTOR_SIZE, PAGE_SIZE in Ha.
  assert (E : set_address a = [a / 65536; a / 256 mod 256; a mod 256]).
  { unfold set_address. f_equal; [|f_equal; [|f_equal]].
    - rewrite Z.shiftr_land. change (Z.shiftr 0xff0000 16) with (Z.ones 8).
      rewrite Z.land_ones, Z.shiftr_div_pow2 by lia. apply Z.mod_small.
      change (2 ^ 16) with 65536. change (2 ^ 8) with 256. split; [apply Z.div_pos; lia|].
      apply Z.div_lt_upper_bound; lia.
    - rewrite Z.shiftr_land. change (Z.shiftr 0x00ff00 8) with (Z.ones 8).
      rewrite Z.land_ones, Z.shiftr_div_pow2 by lia. done.
    - change 0xff with (Z.ones 8). by rewrite Z.land_ones by lia. }
  rewrite E. split_and!; [| |done].
  - cbn [address]. pose proof (Z.div_mod a 256 ltac:(lia)).
    pose proof (Z.div_mod (a / 256) 256 ltac:(lia)). rewrite Z.div_div in * by lia.
    change (256 * 256) with 65536 in *. lia.
  - unfold bytes, fits. change (2 ^ 8) with 256.
    repeat constructor; try (apply Z.mod_pos_bound; lia); [apply Z.div_pos; lia|].
    apply Z.div_lt_upper_bound; lia.
Qed.

Lemma program_len_ok offset len : 0 <= offset -> 1 <= len ->
  1 <= program_len offset len <= Z.min len 252 /\
  offset mod PAGE_SIZE + program_len offset len <= PAGE_SIZE.
Proof.
  intros Ho Hl. unfold program_len, MAX_BURST, CMD_LEN, ADDR_LEN, PAGE_SIZE.
  change (256 - 1) with (Z.ones 8).
  replace (Z.land offset (Z.lnot (Z.ones 8))) with (Z.ldiff offset (Z.ones 8)) by apply Z.ldiff_land.
  rewrite Z.ldiff_ones_r, Z.shiftr_div_pow2, Z.shiftl_mul_pow2 by lia. change (2 ^ 8) with 256.
  pose proof (Z.div_mod offset 256 ltac:(lia)). pose proof (Z.mod_pos_bound offset 256 ltac:(lia)). lia.
Qed.

(** ** The commands *)

Section Commands.
Context {P C : Type} `{SL : SpiLaws P C} {NL : NorChipLaws C} {F : F3sHeader}.

Definition chip (s : nor P) : C := spi_chip (port s).
Definition steady (s : nor P) : Prop := spi_steady (port s).

(** The calls into the bus leave the rest of the state. *)
Record kept (s s' : nor P) : Prop := {
  k_up : spi_up (port s'); k_sock : sock s' = sock s;
  k_fd : static_fd s' = static_fd s; k_probe : probe s' = probe s
}.

(** The bus is still in order and the array as it was. *)
Record unharmed (s s' : nor P) : Prop := {
  u_good : spi_good (port s'); u_steady : steady s -> steady s';
  u_contents : contents (chip s') = contents (chip s)
}.

Definition on_port (s : nor P) (p : P) : nor P := mk_nor (errno s) (sock s) (static_fd s) (probe s) p.

Lemma on_port_run {A} (f : P -> res (A * P)) (s : nor P) (r : A) p :
  f (port s) = Ok (r, p) -> bus f s = Ok (r, on_port s p).
Proof. intros E. unfold bus. by rewrite E. Qed.

Lemma kept_refl s : spi_up (port s) -> kept s s.
Proof. by split. Qed.
Lemma kept_trans s1 s2 s3 : kept s1 s2 -> kept s2 s3 -> kept s1 s3.
Proof. intros [] []. split; congruence || done. Qed.
Lemma kept_on_port s p : spi_up p -> kept s (on_port s p).
Proof. by split. Qed.
Lemma unharmed_refl s : spi_good (port s) -> unharmed s s.
Proof. by split. Qed.
Lemma unharmed_trans s1 s2 s3 : unharmed s1 s2 -> unharmed s2 s3 -> unharmed s1 s3.
Proof. intros [] []. split; [done|auto|congruence]. Qed.
Hint Resolve kept_refl kept_trans kept_on_port unharmed_refl unharmed_trans k_up : core.

(** [errno] is the only thing a failure sets. *)
Lemma failed_run {A} e (a : A) s :
  exists s' : nor P, failed e a s = Ok (a, s') /\ port s' = port s /\ sock s' = sock s /\
    static_fd s' = static_fd s /\ probe s' = probe s /\ errno s' = e.
Proof. by eexists. Qed.

Lemma exchange_unharmed bs s p :
  exchange bs (port s) p -> contents (snd (transact bs (chip s))) = contents (chip s) ->
  unharmed s (on_port s p).
Proof. intros (Hg & Hc & Hs) Hm. split; [done|done|]. unfold chip, on_port in *. cbn. by rewrite Hc. Qed.

(** *** Status *)

Lemma iswriting_run s : spi_up (port s) ->
  exists rc s', iswriting s = Ok (rc, s') /\ kept s s' /\ (rc = -1 \/ rc = 0 \/ rc = 1) /\
    (spi_good (port s) -> if rc =? -1 then ~ steady s else
       unharmed s s' /\ (work (chip s') <= pred (work (chip s)))%nat /\
       (rc = 0 -> work (chip s') = O) /\ (rc = 1 -> (0 < work (chip s))%nat)).
Proof.
  intros Hup. destruct (sl_read [CMD_RDSR; 0; 0; 0] 4 _ Hup eq_refl ltac:(lia))
    as (r & p & E & Hp & Hlen & Hgood).
  assert (Hb : bytes [CMD_RDSR; 0; 0; 0]) by (repeat constructor; unfold fits, CMD_RDSR; lia).
  unfold iswriting, mbind, io_bind. rewrite (on_port_run _ _ _ _ E). destruct r as [st|].
  - specialize (Hlen st eq_refl). destruct st as [|b0 [|b1 [|b2 [|v [|]]]]]; try (unfold zlen in Hlen; cbn in Hlen; lia).
    set (rc := Z.land v DEVICE_SR_WIP).
    assert (Hrc : rc = 0 \/ rc = 1).
    { subst rc. unfold DEVICE_SR_WIP. change (Z.shiftl 1 0) with (Z.ones 1). rewrite Z.land_ones by lia.
      pose proof (Z.mod_pos_bound v (2 ^ 1)). lia. }
    exists rc, (on_port s p). split; [done|]. split; [auto|]. split; [lia|]. intros Hg.
    destruct (Hgood Hg Hb) as [Ea He]. destruct (Z.eqb_spec rc (-1)); [lia|].
    pose proof (nl_status ([0; 0; 0] ++ zeros 4) (chip s)) as Hst.
    unfold reply in Ea. pose proof (proj1 (proj2 He)) as Hc.
    change (spi_chip (port s)) with (chip s) in Ea, Hc.
    change ([CMD_RDSR; 0; 0; 0] ++ zeros 4) with (CMD_RDSR :: [0; 0; 0] ++ zeros 4) in Ea, Hc, He.
    destruct (transact (CMD_RDSR :: [0; 0; 0] ++ zeros 4) (chip s)) as [a c'] eqn:Et.
    destruct Hst as (Hm & Hw & Hv). cbn [fst snd] in *.
    assert (Hx : a !! 7%nat = Some v).
    { transitivity (drop 4 a !! 3%nat); [by rewrite lookup_drop|]. by rewrite <- Ea. }
    specialize (Hv 6%nat v Hx). change (chip (on_port s p)) with (spi_chip p). rewrite Hc.
    split; [apply (exchange_unharmed _ _ _ He); by rewrite Et|]. fold rc in Hv.
    split; [done|]. split; intros; destruct Hv as [[]|[]]; done || lia.
  - destruct (failed_run EIO (-1) (on_port s p)) as (s' & E' & Hport & Hk & Hf & Hq & _).
    exists (-1), s'. rewrite E'. split; [done|]. split; [by split; [rewrite Hport| | |]|].
    split; [lia|]. intros Hg. exact (Hgood Hg Hb).
Qed.

(** The wait ends: the chip is done, or the bus has failed, or [count] polls were not enough. *)
Lemma completion_loop_run count s : spi_up (port s) ->
  exists rc s', completion_loop count s = Ok (rc, s') /\ kept s s' /\ (rc = -1 \/ rc = 0) /\
    (spi_good (port s) ->
       if rc =? 0 then unharmed s s' /\ work (chip s') = O
       else ~ steady s \/ unharmed s s' /\ (count <= work (chip s))%nat).
Proof.
  revert s; induction count as [|count IH]; intros s Hup; cbn [completion_loop].
  - destruct (failed_run EIO (-1) s) as (s' & E & Hport & Hk & Hf & Hq & _).
    exists (-1), s'. rewrite E. split; [done|]. split; [by split; [rewrite Hport| | |]|].
    split; [lia|]. intros Hg. right. split; [|lia].
    by split; unfold steady, chip; rewrite Hport.
  - destruct (iswriting_run s Hup) as (rc & s1 & E & Hk & Hrc & Hgood).
    unfold mbind, io_bind. rewrite E. destruct Hrc as [->|[->| ->]]; cbn [Z.eqb Pos.eqb].
    + exists (-1), s1. split; [done|]. split; [done|]. split; [lia|]. intros Hg. left. exact (Hgood Hg).
    + exists 0, s1. split; [done|]. split; [done|]. split; [lia|]. intros Hg.
      destruct (Hgood Hg) as (Hu & _ & Hz & _). exact (conj Hu (Hz eq_refl)).
    + destruct (IH s1 (k_up _ _ Hk)) as (rc & s2 & E2 & Hk2 & Hrc & Hg2).
      exists rc, s2. split; [done|]. split; [eauto|]. split; [done|]. intros Hg.
      destruct (Hgood Hg) as (Hu & Hw & _ & Hb). specialize (Hg2 (u_good _ _ Hu)). specialize (Hb eq_refl).
      destruct (rc =? 0); [destruct Hg2; split; eauto|].
      destruct Hg2 as [Hn|[Hu2 Hc]]; [left; intros Hs; exact (Hn (u_steady _ _ Hu Hs))|].
      right. split; [eauto|]. lia.
Qed.

(** *** Commands that change the array *)

(** What [write_enable] leaves: a chip that was ready takes the next command; a busy one does not. *)
Lemma write_enable_run s : spi_up (port s) ->
  exists rc s', write_enable s = Ok (rc, s') /\ kept s s' /\ (rc = -1 \/ rc = 0) /\
    (spi_good (port s) -> if rc =? 0 then unharmed s s' /\
       (if decide (work (chip s) = O) then enabled (chip s') = true /\ work (chip s') = O
        else work (chip s') = O -> enabled (chip s') = false)
     else ~ steady s).
Proof.
  intros Hup. destruct (sl_byte CMD_WREN _ Hup ltac:(unfold fits, CMD_WREN; lia))
    as (rc & p & E & Hp & Hrc & Hgood).
  unfold write_enable, mbind, io_bind. rewrite (on_port_run _ _ _ _ E).
  destruct Hrc as [->| ->]; cbn [Z.eqb Pos.eqb].
  - eexists 0, (on_port s p). split; [done|]. split; [auto|]. split; [lia|]. intros Hg.
    pose proof (Hgood Hg) as He. cbn [Z.eqb] in *. change (chip (on_port s p)) with (spi_chip p).
    rewrite (proj1 (proj2 He)). change (spi_chip (port s)) with (chip s).
    destruct (decide (work (chip s) = O)) as [Hw|Hw].
    + destruct (nl_wren _ Hw) as (Hm & Hen & Hw'). split; [|done]. by apply (exchange_unharmed _ _ _ He).
    + destruct (nl_busy [CMD_WREN] (chip s) ltac:(lia)) as (Hm & _ & Hen). split; [|done].
      by apply (exchange_unharmed _ _ _ He).
  - eexists (-1), (on_port s p). split; [done|]. split; [auto|]. split; [lia|]. exact Hgood.
Qed.

(** The command that follows it. *)
Lemma command_sent cmd a data n s : spi_up (port s) -> In cmd [CMD_PP; CMD_SE] ->
  bytes a -> length a = 3%nat -> bytes data -> 0 <= n <= 252 -> n <= zlen data ->
  exists rc s', bus (spi_cmd_write (cmd :: a) data n) s = Ok (rc, s') /\ kept s s' /\
    (rc = -1 \/ rc = 0) /\
    (spi_good (port s) -> if rc =? 0 then
       spi_good (port s') /\ (steady s -> steady s') /\
       chip s' = snd (transact (cmd :: a ++ slice data 0 n) (chip s))
     else ~ steady s).
Proof.
  intros Hup Hcmd Ha Hl Hd Hn Hz.
  assert (Hlen : zlen (cmd :: a) = 4) by (unfold zlen; cbn [length]; lia).
  destruct (sl_write (cmd :: a) data n _ Hup Hlen Hn Hz) as (rc & p & E & Hp & Hrc & Hgood).
  exists rc, (on_port s p). split; [exact (on_port_run _ _ _ _ E)|]. split; [auto|]. split; [tauto|].
  intros Hg. assert (Hb : bytes (cmd :: a)).
  { constructor; [|done]. destruct Hcmd as [<-|[<-|[]]]; unfold fits, CMD_PP, CMD_SE; lia. }
  specialize (Hgood Hg Hb Hd). destruct (rc =? 0); [|done]. destruct Hgood as (Hg' & Hc & Hs). done.
Qed.

(** On a chip that was not enabled it changes nothing. *)
Lemma command_ignored cmd bs s : In cmd [CMD_PP; CMD_SE] ->
  (work (chip s) = O -> enabled (chip s) = false) ->
  contents (snd (transact (cmd :: bs) (chip s))) = contents (chip s).
Proof.
  intros Hcmd Hen. destruct (decide (work (chip s) = O)) as [Hw|Hw].
  - by apply nl_disabled; auto.
  - by apply nl_busy; lia.
Qed.

Lemma slice_0_length (l : list Z) n : 0 <= n <= zlen l -> zlen (slice l 0 n) = n.
Proof. intros Hn. unfold slice, zlen in *. change (Z.to_nat 0) with O. rewrite drop_0, length_take. lia. Qed.

Lemma bytes_slice l a n : bytes l -> bytes (slice l a n).
Proof. intros Hl. unfold slice. by apply Forall_take, Forall_drop. Qed.

Lemma sector_erase_run offset s : spi_up (port s) -> 0 <= offset < TOTAL_SIZE_BYTES ->
  exists rc s', sector_erase offset s = Ok (rc, s') /\ kept s s' /\ (rc = -1 \/ rc = 0) /\
    (spi_good (port s) -> work (chip s) = O -> if rc =? 0 then
       spi_good (port s') /\ (steady s -> steady s') /\
       contents (chip s') = erased (contents (chip s)) offset
     else ~ steady s).
Proof.
  intros Hup Ho. destruct (write_enable_run s Hup) as (rc & s1 & E & Hk & Hrc & Hgood).
  unfold sector_erase, mbind, io_bind. rewrite E. destruct Hrc as [->| ->]; cbn [Z.eqb negb].
  - exists (-1), s1. split; [done|]. split; [done|]. split; [lia|]. intros Hg _. exact (Hgood Hg).
  - destruct (set_address_ok offset Ho) as (Ha & Hb & Hl).
    destruct (command_sent CMD_SE (set_address offset) [] 0 s1 (k_up _ _ Hk) ltac:(cbn; tauto) Hb Hl
                ltac:(constructor) ltac:(lia) ltac:(done)) as (rc & s2 & E2 & Hk2 & Hrc & Hg2).
    rewrite E2. destruct Hrc as [->| ->]; cbn [Z.eqb Pos.eqb].
    + exists (-1), s2. split; [done|]. split; [eauto|]. split; [lia|]. intros Hg Hw.
      destruct (Hgood Hg) as [Hu _]. intros Hs. exact (Hg2 (u_good _ _ Hu) (u_steady _ _ Hu Hs)).
    + exists 0, s2. split; [done|]. split; [eauto|]. split; [lia|]. intros Hg Hw.
      destruct (Hgood Hg) as [Hu Hen]. destruct (decide (work (chip s) = O)); [|done].
      destruct Hen as [Hen Hw1]. destruct (Hg2 (u_good _ _ Hu)) as (Hg' & Hs & Hc).
      split; [done|]. split; [intros; by apply Hs, (u_steady _ _ Hu)|].
      rewrite Hc. change (slice [] 0 0) with (@nil Z). rewrite app_nil_r.
      rewrite nl_erase; rewrite ?Ha; auto; [|lia]. by rewrite (u_contents _ _ Hu).
Qed.

(** The array after a program command was sent to a chip in the state [write_enable] leaves. *)
Lemma program_sent s s1 c offset data n :
  unharmed s s1 -> (if decide (work (chip s) = O) then enabled (chip s1) = true /\ work (chip s1) = O
                    else work (chip s1) = O -> enabled (chip s1) = false) ->
  0 <= offset < TOTAL_SIZE_BYTES -> bytes data -> 1 <= n <= zlen data ->
  offset mod PAGE_SIZE + n <= PAGE_SIZE ->
  c = snd (transact (CMD_PP :: set_address offset ++ slice data 0 n) (chip s1)) ->
  contents c = (if decide (work (chip s) = O)
                then programmed (contents (chip s)) offset (slice data 0 n) else contents (chip s)) /\
  (work (chip s) = O -> (work c < POLL_COUNT)%nat).
Proof.
  intros Hu Hen Ho Hd Hn Hp ->. destruct (set_address_ok offset Ho) as (Ha & Hb & Hl).
  destruct (decide (work (chip s) = O)) as [Hw|Hw].
  - destruct Hen as [Hen Hw1].
    destruct (nl_program (set_address offset) (slice data 0 n) (chip s1) Hw1 Hen Hb) as [Hm Hk];
      rewrite ?Ha, ?slice_0_length by lia; auto using bytes_slice; try lia.
    { intros Hnil. apply (f_equal zlen) in Hnil. rewrite slice_0_length in Hnil by lia. rewrite zlen_nil in Hnil. lia. }
    rewrite Ha, (u_contents _ _ Hu) in Hm. auto.
  - split; [|done]. rewrite command_ignored; [apply (u_contents _ _ Hu)|cbn; tauto|done].
Qed.

Lemma page_program_run offset len data s : spi_up (port s) -> 0 <= offset < TOTAL_SIZE_BYTES ->
  1 <= len <= zlen data -> bytes data -> let n := program_len offset len in
  exists rc s', page_program offset len data s = Ok (rc, s') /\ kept s s' /\ (rc = -1 \/ rc = n) /\
    (spi_good (port s) -> rc = -1 /\ ~ steady s \/
      spi_good (port s') /\ (steady s -> steady s') /\
      contents (chip s') = (if decide (work (chip s) = O)
        then programmed (contents (chip s)) offset (slice data 0 n) else contents (chip s)) /\
      (work (chip s) = O -> rc = n) /\ (rc = n -> work (chip s') = O)).
Proof.
  intros Hup Ho Hl Hd n. destruct (program_len_ok offset len ltac:(lia) ltac:(lia)) as [Hn Hp].
  fold n in Hn, Hp. destruct (write_enable_run s Hup) as (rc & s1 & E & Hk & Hrc & Hgood).
  destruct (set_address_ok offset Ho) as (_ & Hb & Hl3).
  destruct (command_sent CMD_PP _ data n s1 (k_up _ _ Hk) ltac:(cbn; tauto) Hb Hl3 Hd ltac:(lia)
              ltac:(lia)) as (rc2 & s2 & E2 & Hk2 & Hrc2 & Hg2).
  destruct (completion_loop_run POLL_COUNT s2 (k_up _ _ Hk2)) as (w & s3 & E3 & Hk3 & Hw & Hg3).
  unfold page_program, send_page, mbind, io_bind. fold n. rewrite E. destruct Hrc as [->| ->]; cbn [Z.eqb negb].
  { exists (-1), s1. split; [done|]. split; [done|]. split; [lia|]. intros Hg. left. exact (conj eq_refl (Hgood Hg)). }
  rewrite E2. unfold wait_for_completion. rewrite E3.
  exists (if negb (w =? 0) then -1 else if rc2 =? -1 then -1 else n), s3.
  split; [destruct (negb (w =? 0)); [|destruct (rc2 =? -1)]; done|]. split; [eauto|].
  split; [destruct (negb (w =? 0)); [|destruct (rc2 =? -1)]; lia|]. intros Hg.
  destruct (Hgood Hg) as [Hu Hen]. specialize (Hg2 (u_good _ _ Hu)).
  destruct Hrc2 as [->| ->]; cbn [Z.eqb Pos.eqb] in *.
  { left. split; [by destruct (negb (w =? 0))|]. intros Hs. exact (Hg2 (u_steady _ _ Hu Hs)). }
  destruct Hg2 as (Hg2 & Hs2 & Hc). specialize (Hg3 Hg2).
  destruct (program_sent s s1 (chip s2) offset data n Hu Hen Ho Hd ltac:(lia) Hp Hc) as [Hm Hlt].
  destruct Hw as [->| ->]; cbn [Z.eqb negb] in *.
  - destruct Hg3 as [Hno|[Hu3 Hcnt]].
    + left. split; [done|]. intros Hs. exact (Hno (Hs2 (u_steady _ _ Hu Hs))).
    + right. split; [apply Hu3|]. split; [intros Hs; exact (u_steady _ _ Hu3 (Hs2 (u_steady _ _ Hu Hs)))|].
      split; [by rewrite (u_contents _ _ Hu3)|]. split; [intros H0'; specialize (Hlt H0'); lia|lia].
  - destruct Hg3 as [Hu3 Hw0]. right. split; [apply Hu3|].
    split; [intros Hs; exact (u_steady _ _ Hu3 (Hs2 (u_steady _ _ Hu Hs)))|].
    split; [by rewrite (u_contents _ _ Hu3)|]. done.
Qed.

(** *** Reading *)

Lemma read_from_run offset len s : spi_up (port s) -> 0 <= offset -> 0 <= len ->
  offset + len <= TOTAL_SIZE_BYTES -> let n := Z.min len 252 in
  exists r s', read_from offset len s = Ok (r, s') /\ kept s s' /\
    (forall bs, r = Some bs -> zlen bs = n) /\
    (spi_good (port s) -> if r then unharmed s s' /\ (work (chip s') <= work (chip s))%nat /\
       (work (chip s) = O -> r = Some (slice (contents (chip s)) offset n))
     else ~ steady s).
Proof.
  intros Hup Ho Hl Hsz n. unfold read_from. destruct (Z.eqb_spec len 0) as [->|Hne].
  { exists (Some []), s. split; [done|]. split; [auto|]. split; [by intros bs [= <-]|]. intros Hg.
    split; [auto|]. split; [lia|]. done. }
  destruct (set_address_ok offset ltac:(lia)) as (Ha & Hb & Hl3).
  assert (Hlen : zlen (CMD_READ :: set_address offset) = 4) by (unfold zlen; cbn [length]; lia).
  change (MAX_BURST - (CMD_LEN + ADDR_LEN)) with 252. fold n.
  destruct (sl_read _ n _ Hup Hlen ltac:(lia)) as (r & p & E & Hp & Hz & Hgood).
  exists r, (on_port s p). split; [exact (on_port_run _ _ _ _ E)|]. split; [auto|]. split; [done|]. intros Hg.
  assert (Hb4 : bytes (CMD_READ :: set_address offset)).
  { constructor; [unfold fits, CMD_READ; lia|done]. }
  specialize (Hgood Hg Hb4). destruct r as [bs|]; [|done]. destruct Hgood as [Ebs He].
  unfold reply in Ebs. change (spi_chip (port s)) with (chip s) in Ebs.
  change (chip (on_port s p)) with (spi_chip p). rewrite (proj1 (proj2 He)).
  change (spi_chip (port s)) with (chip s). cbn [app] in *.
  destruct (decide (work (chip s) = O)) as [Hw|Hw].
  - pose proof (nl_read (set_address offset) (zeros n) (chip s) Hw Hb Hl3) as Hr.
    rewrite Ha, zlen_zeros in Hr by lia. specialize (Hr ltac:(lia)).
    destruct (transact _ (chip s)) as [a c'] eqn:Et. cbn [fst snd] in *. destruct Hr as (Hr & Hm & Hw').
    split; [apply (exchange_unharmed _ _ _ He); by rewrite Et|]. split; [lia|]. intros _. congruence.
  - destruct (nl_busy (CMD_READ :: set_address offset ++ zeros n) (chip s) ltac:(lia)) as (Hm & Hle & _).
    split; [by apply (exchange_unharmed _ _ _ He)|]. done.
Qed.

(** *** Identification *)

Lemma pd_release_run s : spi_up (port s) -> spi_good (port s) -> steady s -> work (chip s) = O ->
  exists rc s', pd_release s = Ok (rc, s') /\ kept s s' /\ unharmed s s' /\ work (chip s') = O.
Proof.
  intros Hup Hg Hs Hw. destruct (sl_read [CMD_RES; 0; 0; 0] 1 _ Hup eq_refl ltac:(lia)) as (r & p & E & Hp & _ & Hgood).
  assert (Hb : bytes [CMD_RES; 0; 0; 0]) by (repeat constructor; unfold fits, CMD_RES; lia).
  specialize (Hgood Hg Hb). destruct r as [bs|]; [|done]. destruct Hgood as [_ He].
  destruct (nl_release ([0; 0; 0] ++ zeros 1) (chip s) Hw) as [Hm Hw'].
  exists EOK, (on_port s p). unfold pd_release, mbind, io_bind. rewrite (on_port_run _ _ _ _ E).
  split; [done|]. split; [auto|]. split; [by apply (exchange_unharmed _ _ _ He)|].
  change (chip (on_port s p)) with (spi_chip p). rewrite (proj1 (proj2 He)). exact Hw'.
Qed.

(** The bytes of the word that came back are those of the chip, the last first. *)
Lemma read_ident_run s : spi_up (port s) -> spi_good (port s) -> steady s -> work (chip s) = O ->
  exists s', read_ident s = Ok (Some (chip_id.1.1, chip_id.1.2, u32 (Z.shiftl 1 chip_id.2)), s') /\
    kept s s' /\ unharmed s s' /\ work (chip s') = O.
Proof.
  intros Hup Hg Hs Hw. set (w := le_word [0; 0; 0; CMD_RDID]).
  destruct (sl_word w _ Hup ltac:(split; [discriminate|reflexivity])) as (r & p & E & Hp & Hgood). specialize (Hgood Hg).
  destruct r as [v|]; [|done]. destruct Hgood as [Hv He].
  change (be_bytes 4 w) with (CMD_RDID :: [0; 0; 0]) in Hv, He.
  pose proof (nl_ident [0; 0; 0] (chip s) Hw eq_refl) as Hi. unfold reply in Hv.
  change (spi_chip (port s)) with (chip s) in Hv.
  assert (Hb : bytes [CMD_RDID; 0; 0; 0]) by (repeat constructor; unfold fits, CMD_RDID; lia).
  destruct (nl_answer [CMD_RDID; 0; 0; 0] (chip s) Hb) as [Hz Hba].
  pose proof (proj1 (proj2 He)) as Hc. change (spi_chip (port s)) with (chip s) in Hc.
  destruct (transact [CMD_RDID; 0; 0; 0] (chip s)) as [a c'] eqn:Et. cbn [fst snd] in *.
  destruct chip_id as [[man dev] size]. destruct Hi as (Ha & Hm & Hw').
  destruct a as [|x a]; [discriminate Ha|]. cbn [skipn] in Ha. rewrite drop_0 in Ha. subst a.
  exists (on_port s p). split; [|split; [auto|split; [apply (exchange_unharmed _ _ _ He); by rewrite Et|]]].
  - unfold read_ident, mbind, io_bind. fold w. rewrite (on_port_run _ _ _ _ E). subst v.
    replace (le_bytes 4 (be_word [x; man; dev; size])) with [size; dev; man; x]; [done|].
    unfold be_word. symmetry. apply (le_bytes_word [size; dev; man; x]). by apply Forall_rev in Hba.
  - change (chip (on_port s p)) with (spi_chip p). by rewrite Hc.
Qed.
End Commands.
