(* ===== verification/NorFlash.v ===== *)
(** * NorFlash: the callouts of Nor.v as operations on an array of flash cells.

    [flash_step] is what the flash file system may rely on; [norspi_correct] shows that every callout
    is such a step, and [flash_round_trip] what a client of the steps gets: data written to an erased
    sector is read back. *)

From S2P Require Import Prelude.
From S2P Require Import Sections.
From S2P Require Import Nor.
From S2P Require Import NorChip.

(** ** The cells *)

(** The array, and whether an erase is under way. *)
Record flash := mk_flash { cells : list Z; busy : bool }.

Inductive call :=
  | Read (offset size : Z)
  | Write (flags offset size : Z) (buffer : list Z)
  | Erase (offset : Z)
  | Sync (offset : Z).

Inductive answer := Bytes (r : option (list Z)) | Code (rc : Z).

(** How much one call reads or writes. *)
Definition read_len (offset size : Z) : Z := Z.min (Z.min size (TOTAL_SIZE_BYTES - offset)) 252.
Definition write_len (offset size : Z) : Z := program_len offset (Z.min size (TOTAL_SIZE_BYTES - offset)).

Definition call_ok (c : call) : Prop :=
  match c with
  | Read offset size => 0 <= offset /\ 0 <= size
  | Write _ offset size buffer => 0 <= offset /\ 1 <= size <= zlen buffer /\ bytes buffer
  | Erase offset | Sync offset => 0 <= offset
  end.

Definition call_offset (c : call) : Z :=
  match c with Read offset _ | Write _ offset _ _ | Erase offset | Sync offset => offset end.

Section Spec.
Context {F : F3sHeader}.

Definition verified (flags : Z) : bool := negb (Z.land flags F3S_VERIFY_WRITE =? 0).

(** The answer to an offset beyond the array, and to a bus that fails. *)
Definition out_of_range (c : call) : answer :=
  match c with Read _ _ => Bytes None | Write _ _ _ _ => Code (-1) | _ => Code ERANGE end.
Definition fault (c : call) : answer :=
  match c with Read _ _ => Bytes None | Write _ _ _ _ => Code (-1) | _ => Code EIO end.

(** One callout.  A write programs at most to the end of its page and gives the number of bytes; with
    verification it fails when the cells do not hold the data.  While an erase is under way a write
    changes nothing, and a read gives no particular bytes. *)
Inductive flash_step : flash -> call -> answer -> flash -> Prop :=
  | step_range f c : TOTAL_SIZE_BYTES <= call_offset c -> flash_step f c (out_of_range c) f
  | step_read m o n : o < TOTAL_SIZE_BYTES ->
      flash_step (mk_flash m false) (Read o n) (Bytes (Some (slice m o (read_len o n)))) (mk_flash m false)
  | step_read_busy m o n bs b : o < TOTAL_SIZE_BYTES -> zlen bs = read_len o n ->
      flash_step (mk_flash m true) (Read o n) (Bytes (Some bs)) (mk_flash m b)
  | step_write m fl o n buf m' : o < TOTAL_SIZE_BYTES ->
      m' = programmed m o (slice buf 0 (write_len o n)) ->
      (verified fl = true -> slice m' o (write_len o n) = slice buf 0 (write_len o n)) ->
      flash_step (mk_flash m false) (Write fl o n buf) (Code (write_len o n)) (mk_flash m' false)
  | step_write_bad m fl o n buf m' : o < TOTAL_SIZE_BYTES ->
      m' = programmed m o (slice buf 0 (write_len o n)) -> verified fl = true ->
      slice m' o (write_len o n) <> slice buf 0 (write_len o n) ->
      flash_step (mk_flash m false) (Write fl o n buf) (Code (-1)) (mk_flash m' false)
  | step_write_busy m fl o n buf rc b : o < TOTAL_SIZE_BYTES ->
      rc = -1 \/ rc = write_len o n /\
        (verified fl = true -> slice m o (write_len o n) = slice buf 0 (write_len o n)) ->
      flash_step (mk_flash m true) (Write fl o n buf) (Code rc) (mk_flash m b)
  | step_erase m o b b' : o < TOTAL_SIZE_BYTES ->
      flash_step (mk_flash m b) (Erase o) (Code EOK) (mk_flash (erased m o) b')
  | step_erase_busy m o b : o < TOTAL_SIZE_BYTES ->
      flash_step (mk_flash m true) (Erase o) (Code EBUSY) (mk_flash m b)
  | step_sync m o b : o < TOTAL_SIZE_BYTES ->
      flash_step (mk_flash m b) (Sync o) (Code EOK) (mk_flash m false)
  | step_sync_busy m o b : o < TOTAL_SIZE_BYTES ->
      flash_step (mk_flash m true) (Sync o) (Code EAGAIN) (mk_flash m b).
End Spec.

(** ** The callouts *)

Section Callouts.
Context {P C : Type} `{SL : SpiLaws P C} {NL : NorChipLaws C} {F : F3sHeader}.

Definition perform (c : call) : io P answer :=
  match c with
  | Read offset size => r ← f3s_spi_read offset size; mret (Bytes r)
  | Write flags offset size buffer => rc ← f3s_spi_write flags offset size buffer; mret (Code rc)
  | Erase offset => rc ← f3s_spi_erase offset; mret (Code rc)
  | Sync offset => rc ← f3s_spi_sync offset; mret (Code rc)
  end.

(** The driver as [f3s_spi_open] leaves it, over a bus in order. *)
Record ready (s : nor P) : Prop := {
  r_up : spi_up (port s); r_good : spi_good (port s); r_window : window_size (sock s) = TOTAL_SIZE_BYTES
}.

Definition view (s : nor P) : flash :=
  mk_flash (contents (chip s)) (negb (bool_decide (work (chip s) = O))).

(** The outcome of a call. *)
Definition outcome (c : call) (s : nor P) (a : answer) (s' : nor P) : Prop :=
  ready s' /\ (steady s -> steady s') /\ flash_step (view s) c a (view s') \/ ~ steady s /\ a = fault c.

Lemma view_idle s : work (chip s) = O -> view s = mk_flash (contents (chip s)) false.
Proof. intros Hw. unfold view. by rewrite bool_decide_eq_true_2. Qed.
Lemma view_busy s : work (chip s) <> O -> view s = mk_flash (contents (chip s)) true.
Proof. intros Hw. unfold view. by rewrite bool_decide_eq_false_2. Qed.

Lemma view_same s s' : port s' = port s -> view s' = view s.
Proof. intros E. unfold view, chip. by rewrite E. Qed.

Lemma ready_kept s s' : ready s -> kept s s' -> spi_good (port s') -> ready s'.
Proof. intros [] [] ?. split; [done|done|congruence]. Qed.

(** [f3s_spi_page] accepts the offsets of the window. *)
Lemma f3s_spi_page_run offset size s : ready s -> exists s',
  f3s_spi_page offset size s =
    Ok (if TOTAL_SIZE_BYTES <=? offset then (false, size)
        else (true, option_map (fun n => Z.min n (TOTAL_SIZE_BYTES - offset)) size), s') /\
  port s' = port s /\ ready s'.
Proof.
  intros [Hup Hg Hw]. unfold f3s_spi_page, mbind, io_bind, current. rewrite Hw.
  destruct (TOTAL_SIZE_BYTES <=? offset); eexists; (split; [reflexivity|]); by split.
Qed.

(** A call on a bus that did not change. *)
Lemma outcome_page c s s1 a s' : port s1 = port s -> outcome c s1 a s' -> outcome c s a s'.
Proof. intros E. unfold outcome, steady. by rewrite (view_same _ _ E), E. Qed.

Lemma outcome_range c s a s' : port s' = port s -> ready s' -> TOTAL_SIZE_BYTES <= call_offset c ->
  a = out_of_range c -> outcome c s a s'.
Proof.
  intros E Hr Ho ->. left. rewrite (view_same _ _ E). split; [done|]. unfold steady. rewrite E.
  split; [done|]. by constructor.
Qed.

Lemma f3s_spi_read_run o n s : ready s -> 0 <= o -> 0 <= n ->
  exists a s', perform (Read o n) s = Ok (a, s') /\ outcome (Read o n) s a s'.
Proof.
  intros Hr Ho Hn. cbn [perform]. unfold f3s_spi_read, mbind, io_bind, current. rewrite (r_window _ Hr).
  destruct (Z.leb_spec TOTAL_SIZE_BYTES o).
  { destruct (failed_run ERANGE (@None (list Z)) s) as (s' & E & Hp & Hk & _).
    exists (Bytes None), s'. rewrite E. split; [done|]. apply outcome_range; [done| |done|done].
    destruct Hr. split; congruence. }
  destruct (read_from_run o (Z.min n (TOTAL_SIZE_BYTES - o)) s (r_up _ Hr) ltac:(lia) ltac:(lia) ltac:(lia))
    as (r & s1 & E & Hk & Hz & Hgood). specialize (Hgood (r_good _ Hr)). rewrite E.
  fold (read_len o n) in Hz, Hgood. destruct r as [bs|].
  - exists (Bytes (Some bs)), s1. split; [done|]. destruct Hgood as (Hu & Hle & Hx).
    left. split; [apply (ready_kept _ _ Hr Hk (u_good _ _ Hu))|]. split; [apply Hu|].
    destruct (decide (work (chip s) = O)) as [Hw|Hw].
    + rewrite !view_idle by lia. specialize (Hx Hw). injection Hx as ->.
      rewrite (u_contents _ _ Hu). by constructor.
    + rewrite (view_busy s) by done. unfold view. rewrite (u_contents _ _ Hu). constructor; [done|auto].
  - destruct (failed_run EIO (@None (list Z)) s1) as (s' & E' & _). exists (Bytes None), s'. rewrite E'.
    split; [done|]. by right.
Qed.

(** Erasing and its progress. *)
Lemma f3s_spi_erase_run o s : ready s -> 0 <= o ->
  exists a s', perform (Erase o) s = Ok (a, s') /\ outcome (Erase o) s a s'.
Proof.
  intros Hr Ho. destruct (f3s_spi_page_run o None s Hr) as (s0 & E0 & Hp0 & Hr0).
  cbn [perform]. unfold f3s_spi_erase, mbind, io_bind. rewrite E0.
  destruct (Z.leb_spec TOTAL_SIZE_BYTES o); cbn [fst negb].
  { exists (Code ERANGE), s0. split; [done|]. by apply outcome_range. }
  destruct (iswriting_run s0 (r_up _ Hr0)) as (rc & s1 & E1 & Hk & Hrc & Hgood).
  specialize (Hgood (r_good _ Hr0)). rewrite E1.
  destruct Hrc as [->|[->| ->]]; cbn [Z.eqb Pos.eqb] in *.
  - exists (Code EIO), s1. split; [done|]. apply (outcome_page _ _ _ _ _ Hp0). by right.
  - destruct Hgood as (Hu & _ & Hw & _). specialize (Hw eq_refl).
    destruct (sector_erase_run o s1 (k_up _ _ Hk) ltac:(lia)) as (rc & s2 & E2 & Hk2 & Hrc & Hg2).
    specialize (Hg2 (u_good _ _ Hu) Hw). rewrite E2.
    destruct Hrc as [->| ->]; cbn [Z.eqb negb] in *.
    + exists (Code EIO), s2. split; [done|]. apply (outcome_page _ _ _ _ _ Hp0). right.
      split; [|done]. intros Hs. exact (Hg2 (u_steady _ _ Hu Hs)).
    + exists (Code EOK), s2. split; [done|]. apply (outcome_page _ _ _ _ _ Hp0). left.
      destruct Hg2 as (Hg2 & Hs & Hm).
      split; [exact (ready_kept _ _ Hr0 (kept_trans _ _ _ Hk Hk2) Hg2)|].
      split; [intros Hst; exact (Hs (u_steady _ _ Hu Hst))|].
      unfold view at 2. rewrite Hm, (u_contents _ _ Hu). by constructor.
  - destruct Hgood as (Hu & _ & _ & Hw). specialize (Hw eq_refl).
    exists (Code EBUSY), s1. split; [done|]. apply (outcome_page _ _ _ _ _ Hp0). left.
    split; [exact (ready_kept _ _ Hr0 Hk (u_good _ _ Hu))|]. split; [apply Hu|].
    rewrite (view_busy s0) by lia. unfold view. rewrite (u_contents _ _ Hu). by constructor.
Qed.

Lemma f3s_spi_sync_polls o s : ready s -> 0 <= o < TOTAL_SIZE_BYTES ->
  exists rc s', f3s_spi_sync o s = Ok (rc, s') /\
    (rc = EIO /\ ~ steady s \/
     unharmed s s' /\ ready s' /\
       (rc = EOK /\ work (chip s') = O \/ rc = EAGAIN /\ (work (chip s') < work (chip s))%nat)).
Proof.
  intros Hr Ho. destruct (f3s_spi_page_run o None s Hr) as (s0 & E0 & Hp0 & Hr0).
  destruct (iswriting_run s0 (r_up _ Hr0)) as (rc & s1 & E1 & Hk & Hrc & Hgood).
  specialize (Hgood (r_good _ Hr0)). unfold f3s_spi_sync, mbind, io_bind. rewrite E0.
  destruct (Z.leb_spec TOTAL_SIZE_BYTES o); [lia|]. cbn [fst negb]. rewrite E1.
  assert (Hs : forall s', unharmed s0 s' -> unharmed s s').
  { intros s' []. unfold steady, chip in *. rewrite Hp0 in *. by split. }
  unfold steady at 1, chip at 3. rewrite <- Hp0.
  destruct Hrc as [->|[->| ->]]; cbn [Z.eqb Pos.eqb] in *; eexists _, s1; (split; [reflexivity|]).
  - by left.
  - right. destruct Hgood as (Hu & Hle & Hw & _). split; [auto|].
    split; [exact (ready_kept _ _ Hr0 Hk (u_good _ _ Hu))|]. left. auto.
  - right. destruct Hgood as (Hu & Hle & _ & Hw). specialize (Hw eq_refl). split; [auto|].
    split; [exact (ready_kept _ _ Hr0 Hk (u_good _ _ Hu))|]. right. unfold chip in *. lia.
Qed.

Lemma f3s_spi_sync_run o s : ready s -> 0 <= o ->
  exists a s', perform (Sync o) s = Ok (a, s') /\ outcome (Sync o) s a s'.
Proof.
  intros Hr Ho. cbn [perform]. destruct (Z.leb_spec TOTAL_SIZE_BYTES o).
  { destruct (f3s_spi_page_run o None s Hr) as (s0 & E0 & Hp0 & Hr0). exists (Code ERANGE), s0.
    unfold f3s_spi_sync, mbind, io_bind. rewrite E0, (proj2 (Z.leb_le _ _)) by done.
    split; [done|]. by apply outcome_range. }
  destruct (f3s_spi_sync_polls o s Hr ltac:(lia)) as (rc & s1 & E & Hout).
  unfold mbind, io_bind. rewrite E. exists (Code rc), s1. split; [done|].
  destruct Hout as [[-> Hns]|(Hu & Hr1 & Hw)]; [by right|]. left. split; [done|]. split; [apply Hu|].
  destruct Hw as [[-> Hw]|[-> Hw]].
  - rewrite (view_idle s1), (u_contents _ _ Hu) by done. by constructor.
  - rewrite (view_busy s) by lia. unfold view. rewrite (u_contents _ _ Hu). by constructor.
Qed.

(** Reading back what was programmed, in one burst. *)
Lemma verify_loop_run o n buf s : ready s -> work (chip s) = O -> 0 <= o -> 1 <= n <= 252 ->
  o + n <= TOTAL_SIZE_BYTES -> n <= zlen buf ->
  exists rc s', verify_loop (Z.to_nat n) o n buf s = Ok (rc, s') /\
    (unharmed s s' /\ ready s' /\ work (chip s') = O /\
       rc = (if bool_decide (slice (contents (chip s)) o n = slice buf 0 n) then 0 else -1) \/
     ~ steady s /\ rc = -1).
Proof.
  intros Hr Hw Ho Hn Hsz Hb. destruct (Z.to_nat n) as [|fuel] eqn:Ef; [lia|]. cbn [verify_loop].
  destruct (Z.eqb_spec n 0); [lia|]. rewrite Z.min_r by (unfold PAGE_SIZE; lia).
  destruct (read_from_run o n s (r_up _ Hr) Ho ltac:(lia) Hsz) as (r & s1 & E & Hk & Hz & Hgood).
  unfold mbind, io_bind. rewrite E. specialize (Hgood (r_good _ Hr)). rewrite Z.min_l in * by lia.
  destruct r as [bs|].
  - specialize (Hz bs eq_refl). rewrite Hz. destruct Hgood as (Hu & Hle & Hx). specialize (Hx Hw).
    injection Hx as ->. pose proof (ready_kept _ _ Hr Hk (u_good _ _ Hu)) as Hr1.
    case_bool_decide as Hcmp.
    + exists 0, s1. split; [destruct fuel; cbn [verify_loop]; by rewrite Z.sub_diag|].
      left. split; [done|]. split; [done|]. split; [lia|done].
    + destruct (failed_run EIO (-1) s1) as (s' & E' & Hp & Hk' & _). exists (-1), s'. rewrite E'.
      split; [done|]. left. split; [|split; [destruct Hr1; split; congruence|]].
      * destruct Hu. unfold steady, chip in *. split; unfold steady, chip; by rewrite Hp.
      * unfold chip in *. rewrite Hp. split; [lia|done].
  - destruct (failed_run EIO (-1) s1) as (s' & E' & _). exists (-1), s'. rewrite E'. split; [done|]. by right.
Qed.

Lemma write_len_ok o n : 0 <= o < TOTAL_SIZE_BYTES -> 1 <= n ->
  1 <= write_len o n <= 252 /\ write_len o n <= n /\ o + write_len o n <= TOTAL_SIZE_BYTES /\
  o mod PAGE_SIZE + write_len o n <= PAGE_SIZE.
Proof.
  intros Ho Hn. unfold write_len.
  destruct (program_len_ok o (Z.min n (TOTAL_SIZE_BYTES - o)) ltac:(lia) ltac:(lia)). lia.
Qed.

(** The end of a write that was sent: without verification, or with it. *)
Definition write_tail (flags o n : Z) (buf : list Z) : io P Z :=
  if Z.land flags F3S_VERIFY_WRITE =? 0 then mret n
  else v ← verify_loop (Z.to_nat n) o n buf; if v =? 0 then mret n else mret (-1).

Lemma write_tail_run fl o n buf s : ready s -> work (chip s) = O -> 0 <= o -> 1 <= n <= 252 ->
  o + n <= TOTAL_SIZE_BYTES -> n <= zlen buf ->
  exists rc s', write_tail fl o n buf s = Ok (rc, s') /\
    (unharmed s s' /\ ready s' /\ work (chip s') = O /\
       rc = (if verified fl && negb (bool_decide (slice (contents (chip s)) o n = slice buf 0 n))
             then -1 else n) \/
     ~ steady s /\ rc = -1).
Proof.
  intros Hr Hw Ho Hn Hsz Hb. unfold write_tail, verified.
  destruct (Z.land fl F3S_VERIFY_WRITE =? 0); cbn [negb andb].
  { exists n, s. split; [done|]. left. split; [apply unharmed_refl, Hr|]. done. }
  destruct (verify_loop_run o n buf s Hr Hw Ho Hn Hsz Hb) as (rc & s1 & E & H4).
  unfold mbind, io_bind. rewrite E. destruct H4 as [(Hu & Hr1 & Hw1 & ->)|[Hns ->]].
  - case_bool_decide; cbn [Z.eqb negb]; eexists _, s1; (split; [reflexivity|]); by left.
  - exists (-1), s1. split; [done|]. by right.
Qed.

(** The step a write makes, from what its program command and its verification did. *)
Lemma write_step fl o n buf s s2 s3 rc : o < TOTAL_SIZE_BYTES -> let k := write_len o n in
  contents (chip s2) = (if decide (work (chip s) = O)
    then programmed (contents (chip s)) o (slice buf 0 k) else contents (chip s)) ->
  contents (chip s3) = contents (chip s2) -> work (chip s3) = O ->
  rc = (if verified fl && negb (bool_decide (slice (contents (chip s2)) o k = slice buf 0 k))
        then -1 else k) ->
  flash_step (view s) (Write fl o n buf) (Code rc) (view s3).
Proof.
  intros Ho k Hm Hm3 Hw3 ->. rewrite (view_idle s3) by done. rewrite Hm3.
  destruct (decide (work (chip s) = O)) as [Hw|Hw].
  - rewrite (view_idle s) by done. rewrite Hm.
    case_bool_decide as Hcmp; cbn [negb]; [rewrite andb_false_r; by constructor|].
    destruct (verified fl) eqn:Ev; cbn [andb]; [by eapply step_write_bad|].
    constructor; [done|done|congruence].
  - rewrite (view_busy s) by done. rewrite Hm. constructor; [done|].
    case_bool_decide as Hcmp; cbn [negb]; [rewrite andb_false_r; by right|].
    destruct (verified fl); cbn [andb]; [by left|]. by right.
Qed.

Lemma f3s_spi_write_eq fl o n buf s s0 rc s1 : o < TOTAL_SIZE_BYTES ->
  f3s_spi_page o (Some n) s = Ok (true, Some (Z.min n (TOTAL_SIZE_BYTES - o)), s0) ->
  page_program o (Z.min n (TOTAL_SIZE_BYTES - o)) buf s0 = Ok (rc, s1) ->
  f3s_spi_write fl o n buf s = (if rc =? -1 then failed EIO (-1) s1 else write_tail fl o rc buf s1).
Proof.
  intros Ho E0 E1. unfold f3s_spi_write, mbind, io_bind. rewrite E0. cbn [fst snd negb default].
  unfold id. rewrite E1. by destruct (rc =? -1).
Qed.

Lemma f3s_spi_write_run fl o n buf s : ready s -> 0 <= o -> 1 <= n <= zlen buf -> bytes buf ->
  exists a s', perform (Write fl o n buf) s = Ok (a, s') /\ outcome (Write fl o n buf) s a s'.
Proof.
  intros Hr Ho Hn Hb. destruct (f3s_spi_page_run o (Some n) s Hr) as (s0 & E0 & Hp0 & Hr0).
  cbn [perform]. unfold mbind, io_bind.
  destruct (Z.leb_spec TOTAL_SIZE_BYTES o) as [Hout|Hin].
  { exists (Code (-1)), s0. unfold f3s_spi_write, mbind, io_bind. rewrite E0. cbn [fst negb].
    split; [done|]. by apply outcome_range. }
  destruct (write_len_ok o n ltac:(lia) ltac:(lia)) as (Hk & Hkn & Hsz & _).
  destruct (page_program_run o (Z.min n (TOTAL_SIZE_BYTES - o)) buf s0 (r_up _ Hr0) ltac:(lia) ltac:(lia) Hb)
    as (rc & s1 & E1 & Hkept & Hrc & Hgood). specialize (Hgood (r_good _ Hr0)).
  rewrite (f3s_spi_write_eq fl o n buf s s0 rc s1 Hin E0 E1). fold (write_len o n) in Hrc, Hgood.
  set (k := write_len o n) in *. destruct (failed_run EIO (-1) s1) as (sf & Ef & Hpf & Hkf & _).
  destruct (Z.eqb_spec rc (-1)) as [->|Hne].
  - rewrite Ef. exists (Code (-1)), sf. split; [done|]. apply (outcome_page _ _ _ _ _ Hp0).
    destruct Hgood as [[_ Hns]|(Hg & Hs & Hm & Hrk & _)]; [by right|]. left.
    destruct (decide (work (chip s0) = O)) as [Hw|Hw]; [specialize (Hrk Hw); lia|].
    pose proof (ready_kept _ _ Hr0 Hkept Hg) as Hr1.
    split; [destruct Hr1; split; congruence|]. unfold steady in *. rewrite Hpf. split; [done|].
    rewrite (view_same _ _ Hpf), (view_busy s0) by done. unfold view. rewrite Hm. constructor; [done|by left].
  - destruct Hrc as [->| ->]; [done|]. destruct Hgood as [[? _]|(Hg & Hs & Hm & _ & Hw1)]; [done|].
    pose proof (ready_kept _ _ Hr0 Hkept Hg) as Hr1. specialize (Hw1 eq_refl).
    destruct (write_tail_run fl o k buf s1 Hr1 Hw1 ltac:(lia) ltac:(lia) ltac:(lia) ltac:(lia))
      as (rc & s2 & E2 & Hout). rewrite E2. exists (Code rc), s2. split; [done|].
    apply (outcome_page _ _ _ _ _ Hp0). destruct Hout as [(Hu & Hr2 & Hw2 & Erc)|[Hns ->]].
    + left. split; [done|]. split; [intros Hst; exact (u_steady _ _ Hu (Hs Hst))|].
      exact (write_step fl o n buf s0 s1 s2 rc Hin Hm (u_contents _ _ Hu) Hw2 Erc).
    + right. split; [auto|done].
Qed.

(** Every callout returns.  On a bus in order it is a step of the flash cells, or it reports the fault
    of a bus that may fail. *)
Lemma perform_run c s : ready s -> call_ok c ->
  exists a s', perform c s = Ok (a, s') /\ outcome c s a s'.
Proof.
  intros Hr Hc. destruct c; cbn [call_ok] in Hc.
  - destruct Hc. by apply f3s_spi_read_run.
  - destruct Hc as (? & ? & ?). by apply f3s_spi_write_run.
  - by apply f3s_spi_erase_run.
  - by apply f3s_spi_sync_run.
Qed.

(** *** Sequences of calls *)

Fixpoint perform_all (cs : list call) : io P (list answer) :=
  match cs with
  | [] => mret []
  | c :: cs => a ← perform c; l ← perform_all cs; mret (a :: l)
  end.

Inductive flash_run : flash -> list call -> list answer -> flash -> Prop :=
  | run_nil f : flash_run f [] [] f
  | run_cons f c a f' cs l f'' :
      flash_step f c a f' -> flash_run f' cs l f'' -> flash_run f (c :: cs) (a :: l) f''.

(** C7.  The callouts, in any order, are steps of the flash cells: on a bus in order that does not fail every
    sequence of calls returns, and the answers and the array are those of a run of the cells; a single
    call on a bus that may fail is a step too, or reports the fault and nothing else is said.  Every
    write stays in its page, no call but a write or an erase changes the array, and no call changes it
    while an erase is under way. *)
Theorem norspi_correct cs s : ready s -> Forall call_ok cs ->
  (forall c, In c cs -> exists a s', perform c s = Ok (a, s') /\ outcome c s a s') /\
  (steady s -> exists l s', perform_all cs s = Ok (l, s') /\ ready s' /\ steady s' /\
     flash_run (view s) cs l (view s')).
Proof.
  intros Hr Hcs. split.
  { intros c Hin. apply perform_run; [done|]. rewrite List.Forall_forall in Hcs. auto. }
  intros Hs. revert s Hr Hs. induction Hcs as [|c cs Hc _ IH]; intros s Hr Hs; cbn [perform_all].
  - exists [], s. split; [done|]. split; [done|]. split; [done|constructor].
  - destruct (perform_run c s Hr Hc) as (a & s1 & E & [(Hr1 & Hs1 & Hstep)|[Hn _]]); [|done].
    destruct (IH s1 Hr1 (Hs1 Hs)) as (l & s2 & E2 & Hr2 & Hs2 & Hrun).
    exists (a :: l), s2. unfold mbind, io_bind. rewrite E, E2. split; [done|].
    split; [done|]. split; [done|]. by econstructor.
Qed.

(** ** A client: data in an erased sector *)

(** A file is written and read by calling until everything is done. *)
Fixpoint write_all (fuel : nat) (fl o : Z) (buf : list Z) : io P bool :=
  if zlen buf =? 0 then mret true
  else match fuel with
  | O => fun _ => Err NoFuel
  | S fuel =>
      rc ← f3s_spi_write fl o (zlen buf) buf;
      if rc =? -1 then mret false else write_all fuel fl (o + rc) (drop (Z.to_nat rc) buf)
  end.

Fixpoint read_all (fuel : nat) (o n : Z) : io P (option (list Z)) :=
  if n =? 0 then mret (Some [])
  else match fuel with
  | O => fun _ => Err NoFuel
  | S fuel =>
      r ← f3s_spi_read o n;
      match r with
      | None => mret None
      | Some bs =>
          l ← read_all fuel (o + zlen bs) (n - zlen bs);
          mret (option_map (app bs) l)
      end
  end.

(** Poll until the erase is over. *)
Fixpoint wait_erased (fuel : nat) (o : Z) : io P Z :=
  match fuel with
  | O => fun _ => Err NoFuel
  | S fuel => rc ← f3s_spi_sync o; if rc =? EAGAIN then wait_erased fuel o else mret rc
  end.

Lemma land_255 (data : list Z) n : bytes data -> length data = n ->
  zip_with Z.land (replicate n 255) data = data.
Proof.
  intros Hb. revert n; induction Hb as [|b l Hb _ IH]; intros n <-; [done|].
  cbn [length replicate zip_with]. rewrite IH by done. f_equal.
  rewrite Z.land_comm. change 255 with (Z.ones 8). rewrite Z.land_ones by lia. by apply Z.mod_small.
Qed.

(** [blank m o n]: the [n] cells at [o] are erased. *)
Definition blank (m : list Z) (o n : Z) : Prop := slice m o n = replicate (Z.to_nat n) 255.

Lemma blank_cells m o n : 0 <= o -> 0 <= n -> o + n <= zlen m ->
  blank m o n <-> forall i, o <= i < o + n -> m !! Z.to_nat i = Some 255.
Proof.
  intros Ho Hn Hm. unfold blank, zlen in *. split.
  - intros E i Hi. replace (Z.to_nat i) with (Z.to_nat o + Z.to_nat (i - o))%nat by lia.
    rewrite <- (slice_lookup m o n) by lia. rewrite E. apply lookup_replicate. split; [done|lia].
  - intros Hc. apply list_eq. intros i. destruct (decide (i < Z.to_nat n)%nat).
    + rewrite slice_lookup by lia. replace (Z.to_nat o + i)%nat with (Z.to_nat (o + Z.of_nat i)) by lia.
      rewrite Hc by lia. symmetry. apply lookup_replicate. split; [done|lia].
    + rewrite !lookup_ge_None_2; [done|rewrite length_replicate; lia|].
      unfold slice. rewrite length_take. lia.
Qed.

Lemma blank_sub m o n a k : blank m o n -> 0 <= o -> o <= a -> 0 <= k -> a + k <= o + n ->
  o + n <= zlen m -> blank m a k.
Proof.
  intros Hbl Ho Ha Hk Hle Hm. apply blank_cells; [lia|done|lia|]. intros i Hi.
  apply (proj1 (blank_cells m o n Ho ltac:(lia) Hm) Hbl). lia.
Qed.

Lemma programmed_blank m o data : 0 <= o -> o + zlen data <= zlen m -> bytes data ->
  blank m o (zlen data) -> programmed m o data = splice m o data.
Proof.
  intros Ho Hl Hb Hbl. unfold programmed. rewrite Hbl, land_255; [done|done|unfold zlen; lia].
Qed.

Lemma sector_bounds o : 0 <= o < TOTAL_SIZE_BYTES ->
  0 <= o / SECTOR_BYTES * SECTOR_BYTES <= o /\ o < o / SECTOR_BYTES * SECTOR_BYTES + SECTOR_BYTES /\
  o / SECTOR_BYTES * SECTOR_BYTES + SECTOR_BYTES <= TOTAL_SIZE_BYTES.
Proof.
  intros Ho. change TOTAL_SIZE_BYTES with (64 * 65536) in *. change SECTOR_BYTES with 65536.
  pose proof (Z.div_mod o 65536 ltac:(lia)). pose proof (Z.mod_pos_bound o 65536 ltac:(lia)). lia.
Qed.

Lemma erased_blank m o a n : zlen m = TOTAL_SIZE_BYTES -> 0 <= a -> 0 <= n -> a + n <= TOTAL_SIZE_BYTES ->
  (forall i, a <= i < a + n -> i / SECTOR_BYTES = o / SECTOR_BYTES) -> 0 <= o < TOTAL_SIZE_BYTES ->
  zlen (erased m o) = TOTAL_SIZE_BYTES /\ blank (erased m o) a n.
Proof.
  intros Hm Ha Hn Hl Hs Ho. destruct (sector_bounds o Ho) as (Hb1 & Hb2 & Hb3).
  assert (Hff : zlen (replicate (Z.to_nat SECTOR_BYTES) 255) = SECTOR_BYTES).
  { unfold zlen. by rewrite length_replicate, Z2Nat.id by done. }
  unfold erased. rewrite <- Hm in *. split; [apply zlen_splice; lia|].
  apply blank_cells; [done|done|rewrite zlen_splice; lia|].
  intros i Hi. rewrite lookup_splice by lia. specialize (Hs i Hi).
  destruct (sector_bounds i ltac:(lia)) as (_ & Hi2 & _). pose proof (sector_bounds i ltac:(lia)) as Hi3.
  rewrite Hs in Hi2, Hi3. rewrite decide_True by (unfold zlen in Hff; lia).
  apply lookup_replicate. split; [done|lia].
Qed.

(** No operation under way, on a bus that does not fail. *)
Record idle (s : nor P) : Prop := {
  i_ready : ready s; i_steady : steady s; i_work : work (chip s) = O
}.

Lemma view_false s m : view s = mk_flash m false -> contents (chip s) = m /\ work (chip s) = O.
Proof. intros [= <- Hw]. split; [done|]. by case_bool_decide. Qed.

Lemma idle_step c s a s' : idle s -> outcome c s a s' -> ready s' /\ steady s' /\
  flash_step (mk_flash (contents (chip s)) false) c a (view s').
Proof.
  intros [Hr Hs Hw] [(Hr' & Hs' & Hst)|[Hn _]]; [|done]. rewrite (view_idle _ Hw) in Hst. auto.
Qed.

(** The steps of a write and of a read with no erase under way. *)
Lemma write_step_inv m fl o n buf rc f' : o < TOTAL_SIZE_BYTES ->
  flash_step (mk_flash m false) (Write fl o n buf) (Code rc) f' ->
  let m' := programmed m o (slice buf 0 (write_len o n)) in f' = mk_flash m' false /\
  (rc = write_len o n \/ slice m' o (write_len o n) <> slice buf 0 (write_len o n)).
Proof.
  intros Ho Hs. inversion Hs; subst; cbn [call_offset] in *; try lia; split; auto.
Qed.

Lemma erase_step_inv m o rc f' : o < TOTAL_SIZE_BYTES ->
  flash_step (mk_flash m false) (Erase o) (Code rc) f' -> rc = EOK /\ cells f' = erased m o.
Proof. intros Ho Hs. inversion Hs; subst; cbn [call_offset] in *; try lia; auto. Qed.

Lemma read_step_inv m o n r f' : o < TOTAL_SIZE_BYTES ->
  flash_step (mk_flash m false) (Read o n) (Bytes r) f' ->
  r = Some (slice m o (read_len o n)) /\ f' = mk_flash m false.
Proof. intros Ho Hs. inversion Hs; subst; cbn [call_offset] in *; try lia; auto. Qed.

Lemma write_blank fl o buf s : idle s -> 0 <= o -> 1 <= zlen buf -> o + zlen buf <= TOTAL_SIZE_BYTES ->
  bytes buf -> blank (contents (chip s)) o (zlen buf) -> let k := write_len o (zlen buf) in
  exists s', f3s_spi_write fl o (zlen buf) buf s = Ok (k, s') /\ idle s' /\ 1 <= k <= zlen buf /\
    contents (chip s') = splice (contents (chip s)) o (slice buf 0 k).
Proof.
  intros Hi Ho Hn Hsz Hb Hbl k. destruct (write_len_ok o (zlen buf) ltac:(lia) Hn) as (Hk & Hkn & Hks & _).
  fold k in Hk, Hkn, Hks. pose proof (nl_size (chip s)) as Hm.
  assert (Hz : zlen (slice buf 0 k) = k) by (apply slice_0_length; lia).
  assert (Hp : programmed (contents (chip s)) o (slice buf 0 k) = splice (contents (chip s)) o (slice buf 0 k)).
  { apply programmed_blank; rewrite ?Hz; [done|lia|by apply bytes_slice|].
    apply (blank_sub _ o (zlen buf)); (done || lia). }
  destruct (f3s_spi_write_run fl o (zlen buf) buf s (i_ready _ Hi) Ho ltac:(lia) Hb) as (a & s' & E & Hout).
  cbn [perform] in E. unfold mbind, io_bind in E.
  destruct (f3s_spi_write fl o (zlen buf) buf s) as [[rc s1]|] eqn:Ew; [|done]. injection E as <- <-.
  destruct (idle_step _ _ _ _ Hi Hout) as (Hr' & Hs' & Hstep).
  destruct (write_step_inv _ _ o _ _ _ _ ltac:(lia) Hstep) as [Ev Hrc]. fold k in Ev, Hrc.
  rewrite Hp in Ev, Hrc. destruct (view_false _ _ Ev) as [Hc Hw]. exists s1.
  destruct Hrc as [->|Hne]; [|destruct Hne; rewrite <- Hz at 2; apply slice_splice; rewrite ?Hz; lia].
  split; [done|]. split; [done|]. split; [lia|done].
Qed.

Lemma write_all_run fl fuel : forall o buf s, idle s -> (length buf <= fuel)%nat -> 0 <= o ->
  o + zlen buf <= TOTAL_SIZE_BYTES -> bytes buf -> blank (contents (chip s)) o (zlen buf) ->
  exists s', write_all fuel fl o buf s = Ok (true, s') /\ idle s' /\
    contents (chip s') = splice (contents (chip s)) o buf.
Proof.
  induction fuel as [|fuel IH]; intros o buf s Hi Hf Ho Hsz Hb Hbl; cbn [write_all].
  - destruct buf; [|cbn [length] in Hf; lia]. exists s. rewrite splice_nil. done.
  - destruct (Z.eqb_spec (zlen buf) 0) as [Hz|Hz].
    { destruct buf; [|unfold zlen in Hz; cbn [length] in Hz; lia]. exists s. by rewrite splice_nil. }
    pose proof (zlen_nonneg buf).
    destruct (write_blank fl o buf s Hi Ho ltac:(lia) Hsz Hb Hbl) as (s1 & E & Hi1 & Hk & Hc).
    set (k := write_len o (zlen buf)) in *. unfold mbind, io_bind. rewrite E.
    destruct (Z.eqb_spec k (-1)); [lia|]. pose proof (nl_size (chip s)) as Hm.
    set (a := slice buf 0 k) in *. set (b := drop (Z.to_nat k) buf).
    assert (Hza : zlen a = k) by (apply slice_0_length; lia).
    assert (Hzb : zlen b = zlen buf - k) by (unfold zlen, b in *; rewrite length_drop; lia).
    destruct (IH (o + k) b s1 Hi1 ltac:(unfold b, zlen in *; rewrite length_drop; lia) ltac:(lia) ltac:(lia))
      as (s2 & E2 & Hi2 & Hc2).
    { by apply Forall_drop. }
    { rewrite Hc. apply blank_cells; [lia|lia|rewrite zlen_splice; lia|]. intros i Hrg.
      rewrite lookup_splice by lia. rewrite decide_False by (unfold zlen in Hza; lia).
      apply blank_cells with (i := i) in Hbl; [done|lia..]. }
    exists s2. split; [done|]. split; [done|]. rewrite Hc2, Hc. rewrite <- Hza at 1.
    rewrite splice_splice by lia. f_equal. unfold a, b, slice. apply take_drop.
Qed.

Lemma read_idle o n s : idle s -> 0 <= o < TOTAL_SIZE_BYTES -> 0 <= n ->
  exists s', f3s_spi_read o n s = Ok (Some (slice (contents (chip s)) o (read_len o n)), s') /\ idle s' /\
    contents (chip s') = contents (chip s).
Proof.
  intros Hi Ho Hn. destruct (f3s_spi_read_run o n s (i_ready _ Hi) ltac:(lia) Hn) as (a & s' & E & Hout).
  cbn [perform] in E. unfold mbind, io_bind in E.
  destruct (f3s_spi_read o n s) as [[r s1]|] eqn:Er; [|done]. injection E as <- <-.
  destruct (idle_step _ _ _ _ Hi Hout) as (Hr' & Hs' & Hstep).
  destruct (read_step_inv _ o _ _ _ ltac:(lia) Hstep) as [-> Ev]. destruct (view_false _ _ Ev) as [Hc Hw].
  by exists s1.
Qed.

Lemma read_all_run fuel : forall o n s, idle s -> (Z.to_nat n <= fuel)%nat -> 0 <= o -> 0 <= n ->
  o + n <= TOTAL_SIZE_BYTES ->
  exists s', read_all fuel o n s = Ok (Some (slice (contents (chip s)) o n), s') /\ idle s' /\
    contents (chip s') = contents (chip s).
Proof.
  induction fuel as [|fuel IH]; intros o n s Hi Hf Ho Hn Hsz; cbn [read_all].
  - destruct (Z.eqb_spec n 0) as [->|]; [by exists s|lia].
  - destruct (Z.eqb_spec n 0) as [->|Hne]; [by exists s|]. pose proof (nl_size (chip s)) as Hm.
    destruct (read_idle o n s Hi ltac:(lia) Hn) as (s1 & E & Hi1 & Hc1).
    set (k := read_len o n) in *.
    assert (Hk : 1 <= k <= n) by (subst k; unfold read_len; lia).
    assert (Hz : zlen (slice (contents (chip s)) o k) = k).
    { unfold slice, zlen in *. rewrite length_take, length_drop. lia. }
    unfold mbind, io_bind. rewrite E, Hz.
    destruct (IH (o + k) (n - k) s1 Hi1 ltac:(lia) ltac:(lia) ltac:(lia) ltac:(lia)) as (s2 & E2 & Hi2 & Hc2).
    rewrite E2. exists s2. split; [|split; [done|congruence]]. cbn [option_map]. unfold mret, io_ret.
    do 3 f_equal. rewrite Hc1. unfold slice.
    replace (Z.to_nat n) with (Z.to_nat k + Z.to_nat (n - k))%nat by lia.
    rewrite <- (take_take_drop _ (Z.to_nat k)). f_equal. rewrite drop_drop. f_equal. f_equal. lia.
Qed.

Lemma wait_erased_run o n : EAGAIN <> EOK -> 0 <= o < TOTAL_SIZE_BYTES -> forall s, ready s -> steady s ->
  (work (chip s) <= n)%nat ->
  exists s', wait_erased (S n) o s = Ok (EOK, s') /\ idle s' /\ contents (chip s') = contents (chip s).
Proof.
  intros Hne Ho. induction n as [|n IH]; intros s Hr Hs Hw;
    destruct (f3s_spi_sync_polls o s Hr Ho) as (rc & s1 & E & Hout);
    remember (S _) as fuel eqn:Ef; destruct fuel as [|fuel]; try discriminate Ef; injection Ef as ->;
    cbn [wait_erased]; unfold mbind, io_bind; rewrite E;
    (destruct Hout as [[_ Hn]|(Hu & Hr1 & [[-> Hw1]|[-> Hw1]])]; [done| |lia || idtac]);
    try (destruct (Z.eqb_spec EOK EAGAIN); [congruence|]; exists s1; split; [done|];
         split; [by split; [|apply (u_steady _ _ Hu)|]|apply Hu]).
  rewrite Z.eqb_refl. destruct (IH s1 Hr1 (u_steady _ _ Hu Hs) ltac:(lia)) as (s2 & E2 & Hi & Hc). exists s2.
  split; [done|]. split; [done|]. by rewrite Hc, (u_contents _ _ Hu).
Qed.

Lemma erase_idle o s : idle s -> 0 <= o < TOTAL_SIZE_BYTES ->
  exists s', f3s_spi_erase o s = Ok (EOK, s') /\ ready s' /\ steady s' /\
    contents (chip s') = erased (contents (chip s)) o.
Proof.
  intros Hi Ho. destruct (f3s_spi_erase_run o s (i_ready _ Hi) ltac:(lia)) as (a & s' & E & Hout).
  cbn [perform] in E. unfold mbind, io_bind in E.
  destruct (f3s_spi_erase o s) as [[r s1]|] eqn:Er; [|done]. injection E as <- <-.
  destruct (idle_step _ _ _ _ Hi Hout) as (Hr' & Hs' & Hstep). exists s1.
  destruct (erase_step_inv _ o _ _ ltac:(lia) Hstep) as [-> Hx]. done.
Qed.

(** Data is read back as it was written: after [f3s_spi_erase] has begun to erase the sector and
    [f3s_spi_sync] reports its end, which takes finitely many calls, a client that calls
    [f3s_spi_write] until all its data is written and [f3s_spi_read] until all is read gets the data
    back; the rest of the sector is blank and every other cell is as it was. *)
Theorem flash_round_trip fl o data s : idle s -> EAGAIN <> EOK -> 0 <= o -> data <> [] ->
  o + zlen data <= TOTAL_SIZE_BYTES -> bytes data ->
  (forall i, o <= i < o + zlen data -> i / SECTOR_BYTES = o / SECTOR_BYTES) ->
  exists s1 n s2 s3 s4, f3s_spi_erase o s = Ok (EOK, s1) /\ wait_erased n o s1 = Ok (EOK, s2) /\
    write_all (length data) fl o data s2 = Ok (true, s3) /\
    read_all (length data) o (zlen data) s3 = Ok (Some data, s4) /\ idle s4 /\
    contents (chip s4) = splice (erased (contents (chip s)) o) o data.
Proof.
  intros Hi Hne Ho Hd Hsz Hb Hsec. pose proof (nl_size (chip s)) as Hm.
  assert (Hl : 0 < zlen data) by (destruct data; [done|unfold zlen; cbn [length]; lia]).
  destruct (erase_idle o s Hi ltac:(lia)) as (s1 & E1 & Hr1 & Hs1 & Hc1).
  destruct (wait_erased_run o (work (chip s1)) Hne ltac:(lia) s1 Hr1 Hs1 (le_n _)) as (s2 & E2 & Hi2 & Hc2).
  destruct (erased_blank (contents (chip s)) o o (zlen data) Hm Ho ltac:(lia) Hsz Hsec ltac:(lia)) as [He Hbl].
  rewrite <- Hc1, <- Hc2 in Hbl, He.
  destruct (write_all_run fl (length data) o data s2 Hi2 ltac:(lia) Ho Hsz Hb Hbl) as (s3 & E3 & Hi3 & Hc3).
  destruct (read_all_run (length data) o (zlen data) s3 Hi3 ltac:(unfold zlen; lia) Ho ltac:(lia) Hsz)
    as (s4 & E4 & Hi4 & Hc4).
  rewrite Hc3, slice_splice in E4 by lia. rewrite Hc3, Hc2, Hc1 in Hc4.
  exists s1, (S (work (chip s1))), s2, s3, s4. done.
Qed.

(** [f3s_spi_ident] accepts exactly the chips of its database: the maker's number, one of two device
    numbers, and the size; the array is left alone and the socket learns the size of a unit. *)
Lemma f3s_spi_ident_run garbage flags dbase s : idle s -> Z.land flags F3S_LIST_ALL = 0 ->
  exists d s', f3s_spi_ident garbage flags dbase s =
    Ok (if bool_decide (chip_id.1.1 = MAN_ID /\ In chip_id.1.2 [DEVICE_ID; 0xbb] /\
                        u32 (Z.shiftl 1 chip_id.2) = TOTAL_SIZE_BYTES)
        then (EOK, d, s') else (ENOENT, d, s')) /\
    idle s' /\ contents (chip s') = contents (chip s).
Proof.
  intros [Hr Hs Hw] Hfl.
  destruct (pd_release_run s (r_up _ Hr) (r_good _ Hr) Hs Hw) as (rc & s1 & E1 & Hk1 & Hu1 & Hw1).
  destruct (read_ident_run s1 (k_up _ _ Hk1) (u_good _ _ Hu1) (u_steady _ _ Hu1 Hs) Hw1) as (s2 & E2 & Hk2 & Hu2 & Hw2).
  pose proof (ready_kept _ _ Hr (kept_trans _ _ _ Hk1 Hk2) (u_good _ _ Hu2)) as Hr2.
  assert (Hid : idle s2) by (split; [done|exact (u_steady _ _ Hu2 (u_steady _ _ Hu1 Hs))|done]).
  assert (Hc : contents (chip s2) = contents (chip s)) by by rewrite (u_contents _ _ Hu2), (u_contents _ _ Hu1).
  unfold f3s_spi_ident, mbind, io_bind, current. rewrite Hfl. cbn [Z.eqb negb]. rewrite E1, E2.
  destruct chip_id as [[man dev] size]. cbn [fst snd from_option].
  set (sz := u32 (Z.shiftl 1 size)). set (db := if dev =? 0xbb then set_jedec_lo virtual 0xbb else virtual).
  assert (Hdb : jedec_hi db = MAN_ID /\ unit_num db = NUM_ERASE_UNITS /\
                (dev = jedec_lo db <-> In dev [DEVICE_ID; 0xbb])).
  { subst db. destruct (Z.eqb_spec dev 0xbb) as [->|Hne]; cbn; split_and!; try done; [tauto|].
    split; [by left|]. intros [?|[?|[]]]; congruence. }
  destruct Hdb as (Hhi & Hun & Hlo).
  assert (Hsz : u32 (u32 (Z.shiftl 1 (unit_pow2 virtual)) * unit_num db) = TOTAL_SIZE_BYTES) by by rewrite Hun.
  unfold id. fold db. rewrite Hsz, Hhi.
  assert (Hb : negb (man =? MAN_ID) || negb (dev =? jedec_lo db) || negb (TOTAL_SIZE_BYTES =? sz) =
    negb (bool_decide (man = MAN_ID /\ In dev [DEVICE_ID; 0xbb] /\ sz = TOTAL_SIZE_BYTES))).
  { rewrite <- !negb_andb. f_equal. symmetry.
    destruct (Z.eqb_spec man MAN_ID), (Z.eqb_spec dev (jedec_lo db)), (Z.eqb_spec TOTAL_SIZE_BYTES sz); cbn [andb];
      first [apply bool_decide_eq_true_2|apply bool_decide_eq_false_2]; intuition congruence. }
  rewrite Hb. case_bool_decide; cbn [negb]; eexists _, _; (split; [reflexivity|]); [|done].
  split; [|exact Hc]. destruct Hid as [[] ? ?]. by split; [split| |].
Qed.
End Callouts.
