(* ===== verification/Ecspi.v ===== *)
(** * Ecspi: the SPI controller under the serial NOR flash driver
    (flash/boards/norspi/ecspi/arm/mxecspi.c, mxecspi.h and the board's variant.h).

    The bus functions over the controller's registers, its interrupt and the system calls that set it
    up, all of which are interfaces ([EcspiDevice]); EcspiPort.v says what the registers do.  Messages
    on the console are left out. *)

From S2P Require Import Prelude.
From S2P Require Import Nor.

(** ** Registers and bits *)

Definition MX_ECSPI_EVENT : Z := 1.
Definition MX_ECSPI_RXDATA : Z := 0x00.
Definition MX_ECSPI_TXDATA : Z := 0x04.
Definition MX_ECSPI_CONTROLREG : Z := 0x08.
Definition MX_ECSPI_INTREG : Z := 0x10.
Definition MX_ECSPI_PERIODREG : Z := 0x1C.

Definition ECSPI_CONTROLREG_ENABLE : Z := 0x1.
Definition ECSPI_CONTROLREG_XCH : Z := 0x4.
Definition ECSPI_CONTROLREG_MASTERMODE (i : Z) : Z := Z.shiftl (Z.shiftl 1 i) 4.
Definition ECSPI_CONTROLREG_CSEL_POS : Z := 18.
Definition ECSPI_CONTROLREG_BCNT_POS : Z := 20.
Definition ECSPI_CONREG_PREDIVIDR_MASK : Z := 0x0000F000.
Definition ECSPI_CONREG_PREDIVIDR_POS : Z := 12.
Definition ECSPI_CONREG_POSTDIVIDR_MASK : Z := 0x00000F00.
Definition ECSPI_INTREG_TCEN : Z := 0x80.

Definition CLOCK_RATE : Z := 60000000.
Definition SCLK_FREQ : Z := 20000000.
Definition MX_ECSPI_BURST_MAX : Z := 0x100.

(** ** The controller and the system *)

(** The calls of [spi_open] and [spi_close]; the numbers are the descriptors they are about. *)
Inductive syscall :=
  | ThreadCtl | Calloc | MmapDeviceIo | ChannelCreate | ConnectAttach (chid : Z) | InterruptAttach
  | InterruptDetach (iid : Z) | ConnectDetach (coid : Z) | ChannelDestroy (chid : Z)
  | MunmapDeviceIo (vbase : Z) | Free (p : Z).

(** The registers; the pulses that arrive on the channel (none when the wait fails) and the time-out
    armed for the next wait; what the system answers a call after the calls before it.
    [ecspi_fuel] bounds the pulses a wait takes. *)
Class EcspiDevice (R : Type) := {
  in32 : Z -> R -> Z * R;
  out32 : Z -> Z -> R -> R;
  MsgReceivePulse : R -> option Z * R;
  TimerTimeout : Z -> R -> R;
  sys : list (syscall * Z) -> syscall -> Z;
  MAP_FAILED : Z;
  ecspi_fuel : nat
}.

(** [mx_ecspi_t]; the controller's address and interrupt number are constants of the board. *)
Record mx_ecspi := mk_mx_ecspi {
  handle : Z; vbase : Z; e_iid : Z; e_chid : Z; e_coid : Z; e_ctrl : Z; e_clock : Z; dlen : Z; dtime : Z
}.

(** The structure [spi_open] allocated, while it has not been freed; the registers; the calls made. *)
Record ecspi (R : Type) := mk_ecspi {
  e_dev : option mx_ecspi; e_regs : R; e_trace : list (syscall * Z)
}.
Arguments mk_ecspi {R} _ _ _.
Arguments e_dev {R} _.
Arguments e_regs {R} _.
Arguments e_trace {R} _.

Definition eio (R A : Type) : Type := ecspi R -> res (A * ecspi R).

#[export] Instance eio_ret {R} : MRet (eio R) := fun A a s => Ok (a, s).
#[export] Instance eio_bind {R} : MBind (eio R) :=
  fun A B f m s => match m s with Ok (a, s') => f a s' | Err e => Err e end.

Section Code.
Context {R : Type} `{EcspiDevice R}.

Definition read_reg (r : Z) : eio R Z :=
  fun s => let '(v, g) := in32 r (e_regs s) in Ok (v, mk_ecspi (e_dev s) g (e_trace s)).
Definition write_reg (r v : Z) : eio R unit :=
  fun s => Ok (tt, mk_ecspi (e_dev s) (out32 r (u32 v) (e_regs s)) (e_trace s)).
Definition receive_pulse : eio R (option Z) :=
  fun s => let '(p, g) := MsgReceivePulse (e_regs s) in Ok (p, mk_ecspi (e_dev s) g (e_trace s)).
Definition timer_timeout (to : Z) : eio R unit :=
  fun s => Ok (tt, mk_ecspi (e_dev s) (TimerTimeout to (e_regs s)) (e_trace s)).
Definition system (c : syscall) : eio R Z :=
  fun s => let a := sys (e_trace s) c in Ok (a, mk_ecspi (e_dev s) (e_regs s) ((c, a) :: e_trace s)).

(** [dev->...] *)
Definition the_dev : eio R mx_ecspi := fun s => d ← get_or_bad (e_dev s); Ok (d, s).
Definition put_dev (d : option mx_ecspi) : eio R unit :=
  fun s => Ok (tt, mk_ecspi d (e_regs s) (e_trace s)).

Definition assert (b : bool) : eio R unit :=
  fun s => if b then Ok (tt, s) else Err (Crash "assert").
Definition buf_at (l : list Z) (i : Z) : eio R Z := fun s => v ← get_or_bad (byte_at l i); Ok (v, s).

(** ** The exchange *)

(** The interrupt handler. *)
Definition spi_intr (g : R) : R := out32 MX_ECSPI_INTREG 0 g.

Fixpoint spi_wait_loop (fuel : nat) (len : Z) : eio R Z :=
  match fuel with
  | O => fun _ => Err NoFuel
  | S fuel =>
      dev ← the_dev;
      _ ← (if len =? 0 then mret tt else timer_timeout (u64 (dtime dev * (len * 1000 * 50))));
      p ← receive_pulse;
      match p with
      | None => mret (-1)
      | Some code => if code =? MX_ECSPI_EVENT then mret 0 else spi_wait_loop fuel len
      end
  end.
Definition spi_wait (len : Z) : eio R Z := spi_wait_loop ecspi_fuel len.

Definition spi_setup_exchange (len : Z) : eio R Z :=
  _ ← assert (len <=? MX_ECSPI_BURST_MAX);
  dev ← the_dev;
  let ctrl := Z.lor (e_ctrl dev) ECSPI_CONTROLREG_ENABLE in
  let ctrl := Z.lor ctrl (ECSPI_CONTROLREG_MASTERMODE SPI_DEV) in
  let ctrl := Z.lor ctrl (Z.shiftl (Z.shiftl len 3 - 1) ECSPI_CONTROLREG_BCNT_POS) in
  _ ← write_reg MX_ECSPI_CONTROLREG ctrl;
  _ ← write_reg MX_ECSPI_INTREG ECSPI_INTREG_TCEN;
  mret ctrl.

Definition spi_start_exchange (ctrl : Z) : eio R unit :=
  write_reg MX_ECSPI_CONTROLREG (Z.lor ctrl ECSPI_CONTROLREG_XCH).
Definition spi_end_exchange (ctrl : Z) : eio R unit :=
  write_reg MX_ECSPI_CONTROLREG (Z.land ctrl (bnot 32 ECSPI_CONTROLREG_ENABLE)).

(** [(a << 24) | (b << 16) | (c << 8) | d], and the shorter ones. *)
Definition word4 (a b c d : Z) : Z :=
  Z.lor (Z.lor (Z.lor (Z.shiftl a 24) (Z.shiftl b 16)) (Z.shiftl c 8)) d.
Definition word3 (a b c : Z) : Z := Z.lor (Z.lor (Z.shiftl a 16) (Z.shiftl b 8)) c.
Definition word2 (a b : Z) : Z := Z.lor (Z.shiftl a 8) b.

Definition tx (w : Z) : eio R unit := write_reg MX_ECSPI_TXDATA w.
Definition rx : eio R Z := read_reg MX_ECSPI_RXDATA.

(** [i = len >> 2; while (i--)] over words to send or to receive. *)
Fixpoint tx_zeros (i : nat) : eio R unit :=
  match i with O => mret tt | S i => _ ← tx 0; tx_zeros i end.
Fixpoint tx_words (i : nat) (buf : list Z) (k : Z) : eio R unit :=
  match i with
  | O => mret tt
  | S i =>
      b0 ← buf_at buf k; b1 ← buf_at buf (k + 1); b2 ← buf_at buf (k + 2); b3 ← buf_at buf (k + 3);
      _ ← tx (word4 b0 b1 b2 b3);
      tx_words i buf (k + 4)
  end.
Fixpoint rx_words (i : nat) : eio R (list Z) :=
  match i with
  | O => mret []
  | S i =>
      data ← rx;
      l ← rx_words i;
      mret ([u8 (Z.shiftr data 24); u8 (Z.shiftr data 16); u8 (Z.shiftr data 8); u8 data] ++ l)
  end.

(** The first words of a command; [buf] gives the bytes that fill the second one. *)
Definition tx_head (cmd buf : list Z) (remainder : Z) : eio R unit :=
  c0 ← buf_at cmd 0; c1 ← buf_at cmd 1; c2 ← buf_at cmd 2; c3 ← buf_at cmd 3;
  if remainder =? 0 then tx (word4 c0 c1 c2 c3)
  else if remainder =? 1 then
    _ ← tx c0;
    b0 ← buf_at buf 0;
    tx (word4 c1 c2 c3 b0)
  else if remainder =? 2 then
    _ ← tx (word2 c0 c1);
    b0 ← buf_at buf 0; b1 ← buf_at buf 1;
    tx (word4 c2 c3 b0 b1)
  else
    _ ← tx (word3 c0 c1 c2);
    b0 ← buf_at buf 0; b1 ← buf_at buf 1; b2 ← buf_at buf 2;
    tx (word4 c3 b0 b1 b2).

(** The bytes that came with the second word. *)
Definition rx_head (remainder : Z) : eio R (list Z) :=
  if remainder =? 0 then mret []
  else
    data ← rx;
    if remainder =? 1 then mret [u8 data]
    else if remainder =? 2 then mret [u8 (Z.shiftr data 8); u8 data]
    else mret [u8 (Z.shiftr data 16); u8 (Z.shiftr data 8); u8 data].

(** [sizeof cmd] is the size of a pointer. *)
Definition SIZEOF_CMD : Z := 4.

Definition cmd_read (cmd : list Z) (len : Z) : eio R (option (list Z)) :=
  let total := SIZEOF_CMD + len in
  _ ← assert (total <=? MX_ECSPI_BURST_MAX);
  ctrl ← spi_setup_exchange total;
  let remainder := Z.land len 3 in
  _ ← tx_head cmd [0; 0; 0] remainder;
  _ ← tx_zeros (Z.to_nat (Z.shiftr len 2));
  _ ← spi_start_exchange ctrl;
  w ← spi_wait total;
  if negb (w =? 0) then mret None
  else
    _ ← rx;
    l ← rx_head remainder;
    k ← rx_words (Z.to_nat (Z.shiftr len 2));
    _ ← spi_end_exchange ctrl;
    mret (Some (l ++ k)).

Definition cmd_write (cmd buf : list Z) (len : Z) : eio R Z :=
  let total := SIZEOF_CMD + len in
  _ ← assert (total <=? MX_ECSPI_BURST_MAX);
  ctrl ← spi_setup_exchange total;
  let remainder := Z.land len 3 in
  _ ← tx_head cmd buf remainder;
  _ ← tx_words (Z.to_nat (Z.shiftr len 2)) buf remainder;
  _ ← spi_start_exchange ctrl;
  w ← spi_wait total;
  if negb (w =? 0) then mret (-1)
  else
    _ ← spi_end_exchange ctrl;
    mret EOK.

(** Used by the variant for SST chips only; it sends [len >> 2] words after those of the remainder,
    and clears the control register to [len]. *)
Definition spi_nor_flash_write (buf : list Z) (len : Z) : eio R Z :=
  _ ← assert (len <=? MX_ECSPI_BURST_MAX);
  ctrl ← spi_setup_exchange len;
  let remainder := Z.land len 3 in
  _ ← tx_head buf (drop 4 buf) remainder;
  _ ← tx_words (Z.to_nat (Z.shiftr len 2)) buf (remainder + 4);
  _ ← spi_start_exchange ctrl;
  w ← spi_wait len;
  if negb (w =? 0) then mret (-1)
  else
    _ ← spi_end_exchange len;
    mret EOK.

Definition word_exchange (buf : Z) : eio R (option Z) :=
  ctrl ← spi_setup_exchange 4;
  _ ← tx buf;
  _ ← spi_start_exchange ctrl;
  w ← spi_wait 4;
  if negb (w =? 0) then mret None
  else
    data ← rx;
    _ ← spi_end_exchange ctrl;
    mret (Some data).

Definition write_1byte (cmd : Z) : eio R Z :=
  ctrl ← spi_setup_exchange 1;
  _ ← tx cmd;
  _ ← spi_start_exchange ctrl;
  w ← spi_wait 1;
  if negb (w =? 0) then mret (-1)
  else
    _ ← spi_end_exchange ctrl;
    mret EOK.

(** ** Setting up *)

(** The structure's fields as C assigns them. *)
Definition set_ctrl (d : mx_ecspi) (ctrl dtime : Z) : mx_ecspi :=
  mk_mx_ecspi (handle d) (vbase d) (e_iid d) (e_chid d) (e_coid d) ctrl (e_clock d) (dlen d) dtime.

(** [cfg] is not looked at. *)
Definition setcfg (device : Z) : eio R Z :=
  dev ← the_dev;
  if 3 <? device then mret (-1)
  else
    let ctrl := Z.shiftl device ECSPI_CONTROLREG_CSEL_POS in
    let drate := SCLK_FREQ in
    let div := e_clock dev / drate in
    if (div =? 0) || (16 <? div) then mret (-1)
    else
      let div := div - 1 in
      let ctrl := Z.land ctrl (bnot 32 (Z.lor ECSPI_CONREG_PREDIVIDR_MASK ECSPI_CONREG_POSTDIVIDR_MASK)) in
      let ctrl := Z.lor ctrl (Z.shiftl div ECSPI_CONREG_PREDIVIDR_POS) in
      let time := dlen dev * 8 * 1000 * 1000 / drate in
      _ ← put_dev (Some (set_ctrl dev ctrl (if time =? 0 then 1 else time)));
      mret EOK.

(** The labels [fail0] to [fail3] of [spi_open]. *)
Definition fail0 (p : Z) : eio R Z := _ ← system (Free p); _ ← put_dev None; mret (-1).
Definition fail1 (p v : Z) : eio R Z := _ ← system (MunmapDeviceIo v); fail0 p.
Definition fail2 (p v chid : Z) : eio R Z := _ ← system (ChannelDestroy chid); fail1 p v.
Definition fail3 (p v chid coid : Z) : eio R Z := _ ← system (ConnectDetach coid); fail2 p v chid.

Definition open_ : eio R Z :=
  r ← system ThreadCtl;
  if r =? -1 then mret (-1)
  else
  p ← system Calloc;
  if p =? 0 then mret (-1)
  else
  v ← system MmapDeviceIo;
  if v =? MAP_FAILED then fail0 p
  else
  _ ← write_reg MX_ECSPI_CONTROLREG 0;
  _ ← write_reg MX_ECSPI_CONTROLREG (Z.lor (ECSPI_CONTROLREG_MASTERMODE SPI_DEV) ECSPI_CONTROLREG_ENABLE);
  _ ← write_reg MX_ECSPI_PERIODREG 0;
  _ ← write_reg MX_ECSPI_INTREG 0;
  chid ← system ChannelCreate;
  if chid =? -1 then fail1 p v
  else
  coid ← system (ConnectAttach chid);
  if coid =? -1 then fail2 p v chid
  else
  iid ← system InterruptAttach;
  if iid =? -1 then fail3 p v chid coid
  else
  _ ← put_dev (Some (mk_mx_ecspi p v iid chid coid 0 CLOCK_RATE 0 0));
  mret p.

Definition close_ : eio R Z :=
  dev ← the_dev;
  _ ← write_reg MX_ECSPI_CONTROLREG 0;
  _ ← system (InterruptDetach (e_iid dev));
  _ ← system (ConnectDetach (e_coid dev));
  _ ← system (ChannelDestroy (e_chid dev));
  _ ← system (MunmapDeviceIo (vbase dev));
  _ ← system (Free (handle dev));
  _ ← put_dev None;
  mret EOK.

#[export] Instance ecspi_port : SpiPort (ecspi R) := {|
  spi_open := open_;
  spi_setcfg := setcfg;
  spi_close := close_;
  spi_cmd_read := cmd_read;
  spi_cmd_write := cmd_write;
  spi_word_exchange := word_exchange;
  spi_write_1byte := write_1byte
|}.
End Code.
