(* ===== verification/EcspiPort.v ===== *)
(** * EcspiPort: the functions of Ecspi.v keep the interface the flash driver is written against.

    [EcspiLaws] is what the reference manual says of the controller: two queues of words, a burst of a
    given number of bytes that takes the words of one and fills the other, an interrupt at its end.
    From it every bus function is one transaction with the chip. *)

From S2P Require Import Prelude.
From S2P Require Import Sections.
From S2P Require Import Nor.
From S2P Require Import NorChip.
From S2P Require Import NorFlash.
From S2P Require Import Ecspi.

(** ** Bursts *)

(** A burst sends the low bytes of the first word when its length is not a multiple of four. *)
Definition first_len (n : Z) : nat := if n mod 4 =? 0 then 4%nat else Z.to_nat (n mod 4).

Definition burst (n : Z) (ws : list Z) : list Z :=
  match ws with [] => [] | w :: ws => be_bytes (first_len n) w ++ concat (map (be_bytes 4) ws) end.

(** The words that hold the bytes received, the first as short as the first sent. *)
Fixpoint words4 (k : nat) (l : list Z) : list Z :=
  match k with O => [] | S k => be_word (take 4 l) :: words4 k (drop 4 l) end.
Definition received (n : Z) (l : list Z) : list Z :=
  be_word (take (first_len n) l) :: words4 (Z.to_nat ((n - Z.of_nat (first_len n)) / 4)) (drop (first_len n) l).

(** ** The controller *)

(** Whether it is enabled, the length of its bursts in bits less one, the interrupts enabled, the two
    queues, the chip, and the exchange under way: what the queue and the chip will be at its end. *)
Record ecspi_view (C : Type) := mk_view {
  v_on : bool; v_bcnt : Z; v_int : Z; v_tx : list Z; v_rx : list Z; v_run : option (list Z * C); v_chip : C
}.
Arguments mk_view {C} _ _ _ _ _ _ _.
Arguments v_on {C} _.
Arguments v_bcnt {C} _.
Arguments v_int {C} _.
Arguments v_tx {C} _.
Arguments v_rx {C} _.
Arguments v_run {C} _.
Arguments v_chip {C} _.

(** A wait is answered: an event of the controller or a failure comes within [n] pulses. *)
Fixpoint answered `{EcspiDevice R} (n : nat) (to : Z) (g : R) : Prop :=
  match n with
  | O => False
  | S n => match MsgReceivePulse (TimerTimeout to g) with
           | (None, _) => True
           | (Some code, g') => code = MX_ECSPI_EVENT \/ answered n to g'
           end
  end.

Class EcspiLaws (R C : Type) `{EcspiDevice R} `{NorChip C} := {
  ec_view : R -> ecspi_view C;
  ec_steady : R -> Prop;

  el_answered : forall to g, answered ecspi_fuel to g;
  el_timer : forall to g, ec_view (TimerTimeout to g) = ec_view g /\ (ec_steady g -> ec_steady (TimerTimeout to g));
  el_steady_out : forall r v g, ec_steady g -> ec_steady (out32 r v g);
  el_steady_in : forall r g, ec_steady g -> ec_steady (snd (in32 r g));
  el_steady_pulse : forall g, ec_steady g -> v_run (ec_view g) <> None -> v_int (ec_view g) = ECSPI_INTREG_TCEN ->
    fst (MsgReceivePulse g) <> None /\ ec_steady (snd (MsgReceivePulse g));

  (** Writing the control register sets the length of the bursts; a block that is not enabled has
      empty queues. *)
  el_enable : forall v g, v_run (ec_view g) = None -> Z.testbit v 0 = true -> Z.testbit v 2 = false ->
    let u := ec_view g in
    ec_view (out32 MX_ECSPI_CONTROLREG v g) =
      mk_view true (Z.shiftr v ECSPI_CONTROLREG_BCNT_POS) (v_int u) (if v_on u then v_tx u else [])
              (if v_on u then v_rx u else []) None (v_chip u);
  el_disable : forall v g, v_run (ec_view g) = None -> Z.testbit v 0 = false ->
    let u := ec_view g in
    ec_view (out32 MX_ECSPI_CONTROLREG v g) = mk_view false (v_bcnt u) (v_int u) [] [] None (v_chip u);
  el_int : forall v g, let u := ec_view g in
    ec_view (out32 MX_ECSPI_INTREG v g) =
      mk_view (v_on u) (v_bcnt u) v (v_tx u) (v_rx u) (v_run u) (v_chip u);
  el_period : forall v g, ec_view (out32 MX_ECSPI_PERIODREG v g) = ec_view g;
  el_tx : forall w g, let u := ec_view g in v_on u = true -> v_run u = None -> zlen (v_tx u) < 64 ->
    ec_view (out32 MX_ECSPI_TXDATA w g) =
      mk_view true (v_bcnt u) (v_int u) (v_tx u ++ [w]) (v_rx u) None (v_chip u);
  el_rx : forall w l g, let u := ec_view g in v_on u = true -> v_run u = None -> v_rx u = w :: l ->
    fst (in32 MX_ECSPI_RXDATA g) = w /\
    ec_view (snd (in32 MX_ECSPI_RXDATA g)) = mk_view true (v_bcnt u) (v_int u) (v_tx u) l None (v_chip u);

  (** The exchange of [n] bytes. *)
  el_start : forall v n g, let u := ec_view g in v_on u = true -> v_run u = None -> 1 <= n <= 256 ->
    v_bcnt u = 8 * n - 1 -> Z.shiftr v ECSPI_CONTROLREG_BCNT_POS = v_bcnt u ->
    Z.testbit v 0 = true -> Z.testbit v 2 = true -> zlen (v_tx u) = (n + 3) / 4 -> v_rx u = [] ->
    let '(a, c) := transact (burst n (v_tx u)) (v_chip u) in
    ec_view (out32 MX_ECSPI_CONTROLREG v g) =
      mk_view true (v_bcnt u) (v_int u) [] [] (Some (received n a, c)) (v_chip u);
  (** Its end raises the interrupt, whose handler has run when the pulse arrives. *)
  el_pulse : forall l c g, let u := ec_view g in v_run u = Some (l, c) -> v_int u = ECSPI_INTREG_TCEN ->
    match MsgReceivePulse g with
    | (None, _) => True
    | (Some code, g') =>
        if code =? MX_ECSPI_EVENT
        then exists d, g' = spi_intr d /\ ec_view d = mk_view (v_on u) (v_bcnt u) (v_int u) (v_tx u) l None c
        else ec_view g' = u
    end
}.

(** ** Words and bytes *)

(** The bytes of a list that is written out are bytes. *)
Ltac bytes_here :=
  unfold bytes; repeat match goal with
  | |- Forall _ (_ :: _) => apply Forall_cons; split
  | |- Forall _ [] => constructor
  | |- _ => assumption
  end.

Lemma fits8_lor_shift a b : fits 8 b -> Z.lor (Z.shiftl a 8) b = a * 256 + b.
Proof.
  intros Hb. by apply lor_pieces.
Qed.

Lemma word2_be a b : fits 8 a -> fits 8 b -> word2 a b = be_word [a; b].
Proof. intros Ha Hb. unfold word2. rewrite fits8_lor_shift by done. unfold be_word. cbn [rev app le_word]. lia. Qed.

Lemma word3_be a b c : fits 8 a -> fits 8 b -> fits 8 c -> word3 a b c = be_word [a; b; c].
Proof.
  intros Ha Hb Hc. unfold word3. change 16 with (8 + 8) at 1. rewrite <- Z.shiftl_shiftl, <- Z.shiftl_lor by lia.
  rewrite !fits8_lor_shift by done. unfold be_word. cbn [rev app le_word]. lia.
Qed.

Lemma word4_be a b c d : fits 8 a -> fits 8 b -> fits 8 c -> fits 8 d -> word4 a b c d = be_word [a; b; c; d].
Proof.
  intros Ha Hb Hc Hd. unfold word4. change 24 with (16 + 8) at 1. rewrite <- (Z.shiftl_shiftl a) by lia.
  change 16 with (8 + 8) at 2. rewrite <- (Z.shiftl_shiftl b), <- Z.shiftl_lor by lia.
  rewrite <- Z.shiftl_lor. change 16 with (8 + 8). rewrite <- Z.shiftl_shiftl, <- Z.shiftl_lor by lia.
  rewrite !fits8_lor_shift by done. unfold be_word. cbn [rev app le_word]. lia.
Qed.

Lemma be_bytes_word l : bytes l -> be_bytes (length l) (be_word l) = l.
Proof.
  intros Hl. unfold be_bytes, be_word. rewrite <- (length_rev l), le_bytes_word; [apply rev_involutive|].
  by apply Forall_rev.
Qed.

Lemma be_word_fits l : bytes l -> 0 <= be_word l < 256 ^ zlen l.
Proof.
  unfold be_word, zlen. rewrite <- (length_rev l). intros Hl%Forall_rev. revert Hl.
  generalize (rev l) as k. clear l.
  induction 1 as [|b k Hb Hk IH]; cbn [le_word length]; [done|].
  rewrite Nat2Z.inj_succ, Z.pow_succ_r by lia. unfold fits in Hb. change (2 ^ 8) with 256 in Hb. lia.
Qed.

Lemma concat_words4 k l : bytes l -> (4 * k <= length l)%nat ->
  concat (map (be_bytes 4) (words4 k l)) = take (4 * k) l.
Proof.
  revert l; induction k as [|k IH]; intros l Hl Hk; [done|]. cbn [words4 map concat].
  rewrite IH by (try (by apply Forall_drop); rewrite length_drop; lia).
  assert (H4 : length (take 4 l) = 4%nat) by (rewrite length_take; lia).
  rewrite <- H4 at 1. rewrite be_bytes_word by (by apply Forall_take).
  replace (4 * S k)%nat with (4 + 4 * k)%nat by lia. by rewrite take_take_drop.
Qed.

Lemma concat_zero_words k : concat (map (be_bytes 4) (replicate k 0)) = replicate (4 * k) 0.
Proof.
  induction k as [|k IH]; [done|]. cbn [replicate map concat]. rewrite IH.
  replace (4 * S k)%nat with (4 + 4 * k)%nat by lia. by rewrite replicate_add.
Qed.

(** *** The two words a command starts with *)

Definition head_words (cmd buf : list Z) (r : nat) : list Z :=
  match r with
  | O => [be_word cmd]
  | _ => [be_word (take r cmd); be_word (drop r cmd ++ take r buf)]
  end.

Lemma first_len_cmd len : 0 <= len -> let r := Z.to_nat (len mod 4) in
  first_len (4 + len) = match r with O => 4%nat | _ => r end.
Proof.
  intros Hl r. unfold first_len. replace ((4 + len) mod 4) with (len mod 4)
    by (rewrite Z.add_mod, Z.add_0_l, Z.mod_mod by lia; done).
  pose proof (Z.mod_pos_bound len 4). subst r.
  destruct (Z.eqb_spec (len mod 4) 0) as [->|]; [done|]. by destruct (Z.to_nat (len mod 4)) eqn:?; [lia|].
Qed.

Lemma burst_head cmd buf ws len : bytes cmd -> length cmd = 4%nat -> bytes buf -> 0 <= len ->
  let r := Z.to_nat (len mod 4) in (r <= length buf)%nat ->
  burst (4 + len) (head_words cmd buf r ++ ws) = cmd ++ take r buf ++ concat (map (be_bytes 4) ws).
Proof.
  intros Hc H4 Hb Hl r Hr. pose proof (Z.mod_pos_bound len 4 ltac:(lia)). unfold head_words, burst.
  pose proof (first_len_cmd len Hl) as Hf. fold r in Hf.
  destruct r as [|r'] eqn:Er; cbn [app map concat take].
  - rewrite Hf, <- H4, be_bytes_word by done. by rewrite H4.
  - rewrite Hf. set (n := S r') in *.
    assert (Hn : length (take n cmd) = n) by (rewrite length_take; lia).
    assert (Hd : length (drop n cmd ++ take n buf) = 4%nat)
      by (rewrite length_app, length_drop, length_take; lia).
    rewrite <- Hn at 1. rewrite be_bytes_word by (by apply Forall_take).
    rewrite <- Hd at 1. rewrite be_bytes_word by (apply Forall_app; split; [by apply Forall_drop|by apply Forall_take]).
    rewrite <- (app_assoc (drop n cmd)), (app_assoc (take n cmd)), take_drop. done.
Qed.

(** What is received: a word that came with the command, the word with the odd bytes, the others. *)
Definition rx_queue (len : Z) (a : list Z) : list Z :=
  let r := Z.to_nat (len mod 4) in
  match r with O => [] | _ => [be_word (take 4 (drop r a))] end
  ++ words4 (Z.to_nat (len / 4)) (drop (4 + r) a).

Lemma received_head len a : 0 <= len -> exists w, received (4 + len) a = w :: rx_queue len a.
Proof.
  intros Hl. pose proof (Z.mod_pos_bound len 4 ltac:(lia)) as Hm. pose proof (Z.div_mod len 4 ltac:(lia)) as Hd.
  unfold received, rx_queue. rewrite (first_len_cmd len Hl). eexists. f_equal.
  destruct (Z.to_nat (len mod 4)) as [|r] eqn:Er; cbn [app].
  - replace ((4 + len - Z.of_nat 4) / 4) with (len / 4) by (f_equal; lia). done.
  - replace ((4 + len - Z.of_nat (S r)) / 4) with (1 + len / 4).
    2: { replace (4 + len - Z.of_nat (S r)) with (4 * (1 + len / 4)) by lia.
         by rewrite Z.mul_comm, Z.div_mul by lia. }
    pose proof (Z.div_pos len 4 Hl ltac:(lia)). rewrite Z2Nat.inj_add by lia. cbn [Z.to_nat Pos.to_nat Pos.iter_op].
    change (Z.to_nat 1 + Z.to_nat (len / 4))%nat with (S (Z.to_nat (len / 4))). cbn [words4].
    rewrite drop_drop. do 3 f_equal. lia.
Qed.

(** *** The control register *)

Definition ctrl_ok (c : Z) : Prop := 0 <= c < 2 ^ 20 /\ Z.testbit c 2 = false.

Definition setup_ctrl (c n : Z) : Z :=
  Z.lor (Z.lor (Z.lor c ECSPI_CONTROLREG_ENABLE) (ECSPI_CONTROLREG_MASTERMODE SPI_DEV))
        (Z.shiftl (Z.shiftl n 3 - 1) ECSPI_CONTROLREG_BCNT_POS).

Lemma fits_shiftr c k n : 0 <= c < 2 ^ k -> 0 <= k <= n -> Z.testbit c n = false.
Proof.
  intros Hc Hk. rewrite <- (Z.mod_small c (2 ^ k)) by done. apply Z.mod_pow2_bits_high. lia.
Qed.

Lemma setup_ctrl_ok c n : ctrl_ok c -> 1 <= n <= 256 -> let v := setup_ctrl c n in
  fits 32 v /\ Z.testbit v 0 = true /\ Z.testbit v 2 = false /\ Z.shiftr v 20 = 8 * n - 1.
Proof.
  intros [Hc H2] Hn v. unfold v, setup_ctrl, ECSPI_CONTROLREG_ENABLE, ECSPI_CONTROLREG_BCNT_POS.
  change (ECSPI_CONTROLREG_MASTERMODE SPI_DEV) with 16.
  rewrite (Z.shiftl_mul_pow2 n 3) by lia. change (2 ^ 3) with 8. split_and!.
  - assert (Hf : forall x, 0 <= x < 2 ^ 20 -> fits 32 x) by (unfold fits; change (2 ^ 20) with 1048576; change (2 ^ 32) with 4294967296; intros; lia).
    apply fits_lor; [lia| |].
    + apply fits_lor; [lia| |by apply Hf]. apply fits_lor; [lia|by apply Hf|by apply Hf].
    + unfold fits. rewrite Z.shiftl_mul_pow2 by lia. change (2 ^ 20) with 1048576.
      change (2 ^ 32) with 4294967296. lia.
  - rewrite !Z.lor_spec. change (Z.testbit 1 0) with true. by rewrite orb_true_r.
  - rewrite !Z.lor_spec, H2. rewrite Z.shiftl_spec_low by lia. done.
  - rewrite !Z.shiftr_lor. rewrite (Z.shiftr_div_pow2 c), Z.div_small by lia.
    change (Z.shiftr 1 20) with 0. change (Z.shiftr 16 20) with 0.
    rewrite Z.shiftr_shiftl_l, Z.sub_diag, Z.shiftl_0_r by lia. rewrite !Z.lor_0_l. lia.
Qed.

Lemma start_ctrl_ok v : fits 32 v -> Z.testbit v 0 = true ->
  let w := Z.lor v ECSPI_CONTROLREG_XCH in
  fits 32 w /\ Z.testbit w 0 = true /\ Z.testbit w 2 = true /\ Z.shiftr w 20 = Z.shiftr v 20.
Proof.
  intros Hf H0 w. unfold w, ECSPI_CONTROLREG_XCH. split_and!.
  - apply fits_lor; [lia|done|unfold fits; lia].
  - rewrite Z.lor_spec, H0. done.
  - rewrite Z.lor_spec. apply orb_true_r.
  - rewrite Z.shiftr_lor. change (Z.shiftr 4 20) with 0. apply Z.lor_0_r.
Qed.

Lemma end_ctrl_ok v : fits 32 v -> let w := Z.land v (bnot 32 ECSPI_CONTROLREG_ENABLE) in
  fits 32 w /\ Z.testbit w 0 = false.
Proof.
  intros Hf w. unfold w, ECSPI_CONTROLREG_ENABLE. split.
  - apply fits_land; [lia|done|]. apply Z.mod_pos_bound. lia.
  - rewrite Z.land_spec. change (Z.testbit (bnot 32 1) 0) with false. apply andb_false_r.
Qed.

(** ** The functions, step by step *)

Section Port.
Context {R C : Type} `{EL : EcspiLaws R C} {NL : NorChipLaws C}.

(** The state has the structure [d], the controller shows [u], and if [Z0] then no wait fails. *)
Record At (d : mx_ecspi) (u : ecspi_view C) (Z0 : Prop) (s : ecspi R) : Prop := {
  at_dev : e_dev s = Some d; at_view : ec_view (e_regs s) = u; at_steady : Z0 -> ec_steady (e_regs s)
}.

(** An enabled controller between bursts. *)
Definition open_view (i b : Z) (q l : list Z) (c : C) : ecspi_view C := mk_view true b i q l None c.

Lemma write_reg_run d u u' Z0 r v s : At d u Z0 s -> fits 32 v -> ec_view (out32 r v (e_regs s)) = u' ->
  exists s', write_reg r v s = Ok (tt, s') /\ At d u' Z0 s'.
Proof.
  intros [Hd Hu Hs] Hv E. eexists. split; [reflexivity|]. rewrite (wrap_id 32 v Hv).
  split; [done|done|]. intros Hz. by apply el_steady_out, Hs.
Qed.

Lemma read_rx_run d j b q w l c Z0 s : At d (open_view j b q (w :: l) c) Z0 s ->
  exists s', rx s = Ok (w, s') /\ At d (open_view j b q l c) Z0 s'.
Proof.
  intros [Hd Hu Hs]. unfold rx, read_reg.
  destruct (el_rx w l (e_regs s)) as [Hv Hg]; rewrite ?Hu; try done.
  destruct (in32 MX_ECSPI_RXDATA (e_regs s)) as [v g] eqn:E. cbn [fst snd] in *. subst v.
  eexists. split; [reflexivity|]. split; [done|cbn [e_regs]; by rewrite Hg, Hu|]. intros Hz.
  pose proof (el_steady_in MX_ECSPI_RXDATA (e_regs s) (Hs Hz)) as Hst. by rewrite E in Hst.
Qed.

(** Queues empty, nothing under way. *)
Record at_rest (u : ecspi_view C) : Prop := { ar_run : v_run u = None; ar_tx : v_tx u = []; ar_rx : v_rx u = [] }.

Lemma setup_run d u Z0 s n : At d u Z0 s -> at_rest u -> ctrl_ok (e_ctrl d) -> 1 <= n <= 256 ->
  exists s', spi_setup_exchange n s = Ok (setup_ctrl (e_ctrl d) n, s') /\
    At d (open_view ECSPI_INTREG_TCEN (8 * n - 1) [] [] (v_chip u)) Z0 s'.
Proof.
  intros Ha [Hr Ht Hx] Hc Hn. destruct (setup_ctrl_ok _ n Hc Hn) as (Hf & H0' & H2 & Hb).
  set (v := setup_ctrl (e_ctrl d) n) in *.
  destruct (write_reg_run d u (mk_view true (8 * n - 1) (v_int u) [] [] None (v_chip u)) Z0 MX_ECSPI_CONTROLREG v s Ha Hf)
    as (s1 & E1 & Ha1).
  { rewrite el_enable by (rewrite ?(at_view _ _ _ _ Ha); done). rewrite (at_view _ _ _ _ Ha), Ht, Hx.
    unfold ECSPI_CONTROLREG_BCNT_POS. rewrite Hb. by destruct (v_on u). }
  destruct (write_reg_run d _ (open_view ECSPI_INTREG_TCEN (8 * n - 1) [] [] (v_chip u)) Z0 MX_ECSPI_INTREG ECSPI_INTREG_TCEN s1 Ha1)
    as (s2 & E2 & Ha2); [unfold fits, ECSPI_INTREG_TCEN; lia|by rewrite el_int, (at_view _ _ _ _ Ha1)|].
  exists s2. split; [|done]. unfold spi_setup_exchange, mbind, eio_bind, assert, the_dev.
  rewrite (proj2 (Z.leb_le n MX_ECSPI_BURST_MAX)) by (unfold MX_ECSPI_BURST_MAX; lia).
  rewrite (at_dev _ _ _ _ Ha). cbn [get_or_bad mbind res_bind]. fold (setup_ctrl (e_ctrl d) n). fold v.
  by rewrite E1, E2.
Qed.

Lemma tx_run d j b q c Z0 s w : At d (open_view j b q [] c) Z0 s -> zlen q < 64 -> fits 32 w ->
  exists s', tx w s = Ok (tt, s') /\ At d (open_view j b (q ++ [w]) [] c) Z0 s'.
Proof.
  intros Ha Hq Hw. apply (write_reg_run d _ _ Z0 MX_ECSPI_TXDATA w s Ha Hw).
  rewrite el_tx; rewrite (at_view _ _ _ _ Ha); done.
Qed.

Lemma byte_at_lookup l (i : nat) v : l !! i = Some v -> byte_at l (Z.of_nat i) = Some v.
Proof. intros E. unfold byte_at. rewrite (proj2 (Z.ltb_ge _ _)), Nat2Z.id by lia. done. Qed.

Lemma buf_at_run l (i : nat) v (s : ecspi R) : l !! i = Some v -> buf_at l (Z.of_nat i) s = Ok (v, s).
Proof. intros E. unfold buf_at. by rewrite (byte_at_lookup _ _ _ E). Qed.

Lemma fits_8_32 b : fits 8 b -> fits 32 b.
Proof. unfold fits. change (2 ^ 8) with 256. change (2 ^ 32) with 4294967296. lia. Qed.

Lemma be_word_32 l : bytes l -> (length l <= 4)%nat -> fits 32 (be_word l).
Proof.
  intros Hb Hl. destruct (be_word_fits l Hb) as [H0' H1']. split; [done|].
  apply Z.lt_le_trans with (256 ^ zlen l); [done|]. change (2 ^ 32) with (256 ^ 4).
  apply Z.pow_le_mono_r; unfold zlen; lia.
Qed.

(** The words of a command and the bytes after it. *)
Lemma tx_head_run d j b q c Z0 s cmd buf r : At d (open_view j b q [] c) Z0 s -> zlen q < 63 ->
  bytes cmd -> length cmd = 4%nat -> bytes buf -> (r < 4)%nat -> (r <= length buf)%nat ->
  exists s', tx_head cmd buf (Z.of_nat r) s = Ok (tt, s') /\
    At d (open_view j b (q ++ head_words cmd buf r) [] c) Z0 s'.
Proof.
  intros Ha Hq Hc Hl Hb Hr Hrl. destruct cmd as [|c0 [|c1 [|c2 [|c3 [|]]]]]; try done. clear Hl.
  pose proof Hc as Hc'. apply Forall_cons in Hc' as [H0' Hc']. apply Forall_cons in Hc' as [H1' Hc'].
  apply Forall_cons in Hc' as [H2' Hc']. apply Forall_cons in Hc' as [H3' _].
  assert (Hgo : forall w1 w2, fits 32 w1 -> fits 32 w2 -> exists s', (_ ← tx w1; tx w2) s = Ok (tt, s') /\
    At d (open_view j b (q ++ [w1; w2]) [] c) Z0 s').
  { intros w1 w2 Hw1 Hw2. destruct (tx_run d j b q c Z0 s w1 Ha ltac:(lia) Hw1) as (s1 & E1 & Ha1).
    destruct (tx_run d j b _ c Z0 s1 w2 Ha1) as (s2 & E2 & Ha2); [zlen_simpl; lia|done|].
    rewrite <- app_assoc in Ha2. exists s2. unfold mbind, eio_bind. by rewrite E1, E2. }
  destruct r as [|[|[|[|]]]]; [| | | |lia];
    [|destruct buf as [|b0 buf]; [cbn in Hrl; lia|]; apply Forall_cons in Hb as [Hb0 Hb]
     |destruct buf as [|b0 [|b1 buf]]; [cbn in Hrl; lia..|]; apply Forall_cons in Hb as [Hb0 Hb];
      apply Forall_cons in Hb as [Hb1 Hb]
     |destruct buf as [|b0 [|b1 [|b2 buf]]]; [cbn in Hrl; lia..|]; apply Forall_cons in Hb as [Hb0 Hb];
      apply Forall_cons in Hb as [Hb1 Hb]; apply Forall_cons in Hb as [Hb2 Hb]].
  - change (tx_head [c0; c1; c2; c3] buf (Z.of_nat 0) s) with (tx (word4 c0 c1 c2 c3) s).
    rewrite word4_be by done. apply (tx_run d j b q c Z0 s _ Ha); [lia|]. by apply be_word_32.
  - change (tx_head [c0; c1; c2; c3] (b0 :: buf) (Z.of_nat 1) s)
      with ((_ ← tx c0; tx (word4 c1 c2 c3 b0)) s).
    rewrite word4_be by done. change (head_words [c0; c1; c2; c3] (b0 :: buf) 1) with [be_word [c0]; be_word [c1; c2; c3; b0]].
    replace (be_word [c0]) with c0 by (unfold be_word; cbn [rev app le_word]; lia).
    apply Hgo; [by apply fits_8_32|]. apply be_word_32; [bytes_here|done].
  - change (tx_head [c0; c1; c2; c3] (b0 :: b1 :: buf) (Z.of_nat 2) s)
      with ((_ ← tx (word2 c0 c1); tx (word4 c2 c3 b0 b1)) s).
    rewrite word4_be, word2_be by done. apply Hgo; (apply be_word_32; [bytes_here|cbn; lia]).
  - change (tx_head [c0; c1; c2; c3] (b0 :: b1 :: b2 :: buf) (Z.of_nat 3) s)
      with ((_ ← tx (word3 c0 c1 c2); tx (word4 c3 b0 b1 b2)) s).
    rewrite word4_be, word3_be by done. apply Hgo; (apply be_word_32; [bytes_here|cbn; lia]).
Qed.

Lemma tx_words_run i d j b buf : forall q c Z0 s (k : nat), At d (open_view j b q [] c) Z0 s ->
  zlen q + Z.of_nat i <= 64 -> bytes buf -> (k + 4 * i <= length buf)%nat ->
  exists s', tx_words i buf (Z.of_nat k) s = Ok (tt, s') /\
    At d (open_view j b (q ++ words4 i (drop k buf)) [] c) Z0 s'.
Proof.
  induction i as [|i IH]; intros q c Z0 s k Ha Hq Hb Hk; cbn [tx_words words4].
  { exists s. by rewrite app_nil_r. }
  assert (Hx : forall x, (x < 4)%nat -> exists v, buf !! (k + x)%nat = Some v /\ fits 8 v).
  { intros x Hj. destruct (lookup_lt_is_Some_2 buf (k + x)) as [v Hv]; [lia|]. exists v. split; [done|].
    by apply (Forall_lookup_1 _ _ _ _ Hb Hv). }
  destruct (Hx 0%nat ltac:(lia)) as (b0 & L0 & F0). destruct (Hx 1%nat ltac:(lia)) as (b1 & L1 & F1).
  destruct (Hx 2%nat ltac:(lia)) as (b2 & L2 & F2). destruct (Hx 3%nat ltac:(lia)) as (b3 & L3 & F3).
  rewrite Nat.add_0_r in L0. assert (E4 : take 4 (drop k buf) = [b0; b1; b2; b3]).
  { apply list_eq. intros x. destruct (decide (x < 4)%nat) as [Hj|Hj].
    - rewrite lookup_take, decide_True, lookup_drop by done.
      destruct x as [|[|[|[|]]]]; [by rewrite Nat.add_0_r|done|done|done|lia].
    - rewrite !lookup_ge_None_2; [done|cbn; lia|rewrite length_take; lia]. }
  unfold mbind, eio_bind. rewrite (buf_at_run _ _ _ _ L0).
  replace (Z.of_nat k + 1) with (Z.of_nat (k + 1)) by lia. rewrite (buf_at_run _ _ _ _ L1).
  replace (Z.of_nat k + 2) with (Z.of_nat (k + 2)) by lia. rewrite (buf_at_run _ _ _ _ L2).
  replace (Z.of_nat k + 3) with (Z.of_nat (k + 3)) by lia. rewrite (buf_at_run _ _ _ _ L3).
  rewrite word4_be by done.
  destruct (tx_run d j b q c Z0 s (be_word [b0; b1; b2; b3]) Ha ltac:(lia)) as (s1 & E1 & Ha1).
  { apply be_word_32; [bytes_here|done]. }
  rewrite E1. replace (Z.of_nat k + 4) with (Z.of_nat (k + 4)) by lia.
  destruct (IH _ c Z0 s1 (k + 4)%nat Ha1) as (s2 & E2 & Ha2); [zlen_simpl; lia|done|lia|].
  exists s2. split; [done|]. rewrite <- app_assoc in Ha2. rewrite E4, drop_drop. done.
Qed.

Lemma tx_zeros_run i d j b : forall q c Z0 s, At d (open_view j b q [] c) Z0 s -> zlen q + Z.of_nat i <= 64 ->
  exists s', tx_zeros i s = Ok (tt, s') /\ At d (open_view j b (q ++ replicate i 0) [] c) Z0 s'.
Proof.
  induction i as [|i IH]; intros q c Z0 s Ha Hq; cbn [tx_zeros replicate].
  { exists s. by rewrite app_nil_r. }
  destruct (tx_run d j b q c Z0 s 0 Ha ltac:(lia) ltac:(done)) as (s1 & E1 & Ha1).
  destruct (IH _ c Z0 s1 Ha1) as (s2 & E2 & Ha2); [zlen_simpl; lia|]. exists s2. unfold mbind, eio_bind.
  rewrite E1, E2. by rewrite <- app_assoc in Ha2.
Qed.

(** The exchange: the bytes of the queue go to the chip. *)
Lemma start_run d c0 q c Z0 s n : At d (open_view ECSPI_INTREG_TCEN (8 * n - 1) q [] c) Z0 s ->
  ctrl_ok c0 -> 1 <= n <= 256 -> zlen q = (n + 3) / 4 ->
  let '(a, c') := transact (burst n q) c in
  exists s', spi_start_exchange (setup_ctrl c0 n) s = Ok (tt, s') /\
    At d (mk_view true (8 * n - 1) ECSPI_INTREG_TCEN [] [] (Some (received n a, c')) c) Z0 s'.
Proof.
  intros Ha Hc Hn Hq. destruct (setup_ctrl_ok c0 n Hc Hn) as (Hf & Hb0 & Hb2 & Hsh).
  destruct (start_ctrl_ok _ Hf Hb0) as (Hf' & Hb0' & Hb2' & Hsh').
  pose proof (el_start (Z.lor (setup_ctrl c0 n) ECSPI_CONTROLREG_XCH) n (e_regs s)) as El. cbn zeta in El.
  rewrite (at_view _ _ _ _ Ha) in El. cbn [open_view v_tx v_chip v_bcnt v_int v_on v_run v_rx] in El.
  specialize (El eq_refl eq_refl Hn eq_refl). unfold ECSPI_CONTROLREG_BCNT_POS in El.
  rewrite Hsh', Hsh in El. specialize (El eq_refl Hb0' Hb2' Hq eq_refl).
  destruct (transact (burst n q) c) as [a c'].
  exact (write_reg_run d _ _ Z0 MX_ECSPI_CONTROLREG _ s Ha Hf' El).
Qed.

Lemma At_timer d u Z0 s to : At d u Z0 s ->
  At d u Z0 (mk_ecspi (e_dev s) (TimerTimeout to (e_regs s)) (e_trace s)).
Proof.
  intros [Hd Hu Hs]. destruct (el_timer to (e_regs s)) as [Hv Ht].
  split; [done|by cbn [e_regs]; rewrite Hv|]. intros Hz. by apply Ht, Hs.
Qed.

(** The wait ends with the exchange, or fails. *)
Lemma wait_loop_run fuel n to d b l c c' Z0 : n <> 0 -> u64 (dtime d * (n * 1000 * 50)) = to -> forall s,
  answered fuel to (e_regs s) ->
  At d (mk_view true b ECSPI_INTREG_TCEN [] [] (Some (l, c')) c) Z0 s ->
  exists w s', spi_wait_loop fuel n s = Ok (w, s') /\
    (w = 0 /\ At d (open_view 0 b [] l c') Z0 s' \/ w = -1 /\ e_dev s' = Some d /\ ~ Z0).
Proof.
  intros Hn Hto. induction fuel as [|fuel IH]; intros s Hans Ha; [destruct Hans|].
  cbn [spi_wait_loop answered] in *. unfold mbind, eio_bind, the_dev.
  rewrite (at_dev _ _ _ _ Ha). cbn [get_or_bad mbind res_bind]. destruct (Z.eqb_spec n 0); [done|].
  cbn [timer_timeout]. unfold timer_timeout, receive_pulse. rewrite Hto.
  pose proof (At_timer _ _ _ _ to Ha) as [Hd Hu Hs]. cbn [e_dev e_regs] in *.
  set (g := TimerTimeout to (e_regs s)) in *.
  pose proof (el_pulse l c' g) as Hp. rewrite Hu in Hp. specialize (Hp eq_refl eq_refl).
  pose proof (el_steady_pulse g) as Hst. rewrite Hu in Hst. cbn [v_run v_int] in Hst.
  specialize (fun Hg => Hst Hg ltac:(done) eq_refl). destruct (MsgReceivePulse g) as [[code|] g'] eqn:Eg; cbn [fst snd] in *.
  - destruct (Z.eqb_spec code MX_ECSPI_EVENT) as [->|Hne].
    + destruct Hp as (gd & -> & Hv). eexists 0, _. split; [reflexivity|]. left. split; [done|].
      split; [done| |intros Hz; by apply Hst, Hs]. cbn [e_regs]. unfold spi_intr. rewrite el_int, Hv. done.
    + destruct Hans as [?|Hans]; [done|]. apply IH; [done|]. split; [done|done|intros Hz; by apply Hst, Hs].
  - eexists (-1), _. split; [reflexivity|]. right. split; [done|]. split; [done|].
    intros Hz. by destruct (Hst (Hs Hz)).
Qed.

Lemma wait_run n d b l c c' Z0 s : n <> 0 ->
  At d (mk_view true b ECSPI_INTREG_TCEN [] [] (Some (l, c')) c) Z0 s ->
  exists w s', spi_wait n s = Ok (w, s') /\
    (w = 0 /\ At d (open_view 0 b [] l c') Z0 s' \/ w = -1 /\ e_dev s' = Some d /\ ~ Z0).
Proof. intros Hn Ha. by apply (wait_loop_run ecspi_fuel n _ d b l c c' Z0 Hn eq_refl s (el_answered _ _)). Qed.

Lemma end_run d j b q l c Z0 s v : At d (open_view j b q l c) Z0 s -> fits 32 v ->
  exists s', spi_end_exchange v s = Ok (tt, s') /\ At d (mk_view false b j [] [] None c) Z0 s'.
Proof.
  intros Ha Hv. destruct (end_ctrl_ok v Hv) as [Hf Hb].
  apply (write_reg_run d _ _ Z0 MX_ECSPI_CONTROLREG _ s Ha Hf).
  rewrite el_disable; rewrite ?(at_view _ _ _ _ Ha); done.
Qed.

(** *** Receiving *)

Lemma u8_be_bytes data : [u8 (Z.shiftr data 24); u8 (Z.shiftr data 16); u8 (Z.shiftr data 8); u8 data] = be_bytes 4 data.
Proof.
  unfold be_bytes. cbn [le_bytes rev app]. rewrite !Z.shiftr_div_pow2, !Z.div_div by lia. done.
Qed.

Lemma rx_words_run i d j b : forall l k c Z0 s, At d (open_view j b [] (words4 i l ++ k) c) Z0 s ->
  bytes l -> (4 * i <= length l)%nat ->
  exists s', rx_words i s = Ok (take (4 * i) l, s') /\ At d (open_view j b [] k c) Z0 s'.
Proof.
  induction i as [|i IH]; intros l k c Z0 s Ha Hl Hi; cbn [rx_words words4] in *.
  { by exists s. }
  destruct (read_rx_run d j b [] _ _ c Z0 s Ha) as (s1 & E1 & Ha1).
  destruct (IH (drop 4 l) k c Z0 s1 Ha1) as (s2 & E2 & Ha2); [by apply Forall_drop|rewrite length_drop; lia|].
  exists s2. unfold mbind, eio_bind. rewrite E1, E2. split; [|done]. rewrite u8_be_bytes.
  assert (H4 : length (take 4 l) = 4%nat) by (rewrite length_take; lia).
  rewrite <- H4 at 1. rewrite be_bytes_word by (by apply Forall_take).
  replace (4 * S i)%nat with (4 + 4 * i)%nat by lia. rewrite <- take_take_drop. done.
Qed.

(** The low bytes of the word with the odd bytes. *)
Lemma rx_head_run d j b x k c Z0 s r :
  At d (open_view j b [] (match r with O => [] | _ => [be_word x] end ++ k) c) Z0 s ->
  length x = 4%nat -> bytes x -> (r < 4)%nat ->
  exists s', rx_head (Z.of_nat r) s = Ok (drop (4 - r) x, s') /\ At d (open_view j b [] k c) Z0 s'.
Proof.
  intros Ha Hx Hb Hr. pose proof (be_bytes_word x Hb) as Ex. rewrite Hx, <- u8_be_bytes in Ex.
  unfold rx_head. destruct r as [|r].
  { exists s. split; [|done]. cbn [Z.of_nat Z.eqb Nat.sub]. rewrite drop_ge by lia. done. }
  cbn [app] in Ha. destruct (read_rx_run d j b [] _ _ c Z0 s Ha) as (s1 & E1 & Ha1). exists s1.
  split; [|done]. unfold mbind, eio_bind. rewrite <- Ex.
  destruct r as [|[|[|]]]; [| | |lia];
    [change (Z.of_nat 1) with 1|change (Z.of_nat 2) with 2|change (Z.of_nat 3) with 3];
    cbn [Z.eqb Pos.eqb]; by rewrite E1.
Qed.

(** *** Every call returns *)

Definition total {A} (m : eio R A) (Q : A -> Prop) : Prop :=
  forall s, e_dev s <> None -> exists a s', m s = Ok (a, s') /\ e_dev s' <> None /\ Q a.

Lemma total_ret {A} (a : A) (Q : A -> Prop) : Q a -> total (mret a) Q.
Proof. intros Hq s Hs. by exists a, s. Qed.

Lemma total_bind {A B} (m : eio R A) (f : A -> eio R B) Q1 Q :
  total m Q1 -> (forall a, Q1 a -> total (f a) Q) -> total (m ≫= f) Q.
Proof.
  intros Hm Hf s Hs. destruct (Hm s Hs) as (a & s1 & E & H1' & Hq).
  destruct (Hf a Hq s1 H1') as (b & s2 & E2 & Hr). exists b, s2.
  unfold mbind, eio_bind. rewrite E. done.
Qed.

Lemma total_write r v : total (write_reg r v) (fun _ => True).
Proof. intros s Hs. eexists _, _. split; [reflexivity|exact (conj Hs I)]. Qed.
Lemma total_rx : total rx (fun _ => True).
Proof.
  intros s Hs. unfold rx, read_reg. destruct (in32 _ _). eexists _, _. split; [reflexivity|exact (conj Hs I)].
Qed.
Lemma total_buf_at l i : 0 <= i < zlen l -> total (buf_at l i) (fun _ => True).
Proof.
  intros Hi s Hs. destruct (lookup_lt_is_Some_2 l (Z.to_nat i)) as [v Hv]; [unfold zlen in Hi; lia|].
  exists v, s. rewrite <- (Z2Nat.id i) by lia. by rewrite (buf_at_run _ _ _ _ Hv).
Qed.

Lemma total_assert b : b = true -> total (assert b) (fun _ => True).
Proof. intros -> s Hs. exists tt, s. exact (conj eq_refl (conj Hs I)). Qed.

Lemma total_setup n : n <= 256 -> total (spi_setup_exchange n) (fun _ => True).
Proof.
  intros Hn s Hs. unfold spi_setup_exchange, mbind, eio_bind, assert, the_dev, MX_ECSPI_BURST_MAX.
  rewrite (proj2 (Z.leb_le n 0x100)) by lia. destruct (e_dev s) as [d|] eqn:E; [|done].
  eexists _, _. split; [reflexivity|]. cbn [e_dev]. rewrite E. done.
Qed.

Lemma total_wait n : n <> 0 -> total (spi_wait n) (fun w => w = 0 \/ w = -1).
Proof.
  intros Hn s Hs. destruct (e_dev s) as [d|] eqn:E; [|done].
  set (to := u64 (dtime d * (n * 1000 * 50))). unfold spi_wait.
  pose proof (el_answered to (e_regs s)) as Hans. revert s E Hs Hans.
  induction ecspi_fuel as [|fuel IH]; intros s E Hs Hans; [done|].
  cbn [spi_wait_loop answered] in *. unfold mbind, eio_bind, the_dev. rewrite E.
  cbn [get_or_bad mbind res_bind]. destruct (Z.eqb_spec n 0); [done|].
  unfold timer_timeout, receive_pulse. cbn [e_regs e_dev]. fold to.
  destruct (MsgReceivePulse (TimerTimeout to (e_regs s))) as [[code|] g'].
  - destruct (Z.eqb_spec code MX_ECSPI_EVENT) as [|Hne].
    + eexists 0, _. split; [reflexivity|]. split; [cbn [e_dev]; congruence|by left].
    + destruct Hans as [?|Hans]; [done|]. apply IH; done.
  - eexists (-1), _. split; [reflexivity|]. split; [cbn [e_dev]; congruence|by right].
Qed.

Lemma total_head cmd buf r : length cmd = 4%nat -> (r < 4)%nat -> (r <= length buf)%nat ->
  total (tx_head cmd buf (Z.of_nat r)) (fun _ => True).
Proof.
  intros Hl Hr Hb. unfold tx_head.
  do 4 (eapply total_bind; [apply total_buf_at; unfold zlen; lia|intros ? _]).
  destruct (Z.eqb_spec (Z.of_nat r) 0); [apply total_write|].
  destruct (Z.eqb_spec (Z.of_nat r) 1); [|destruct (Z.eqb_spec (Z.of_nat r) 2)];
    (eapply total_bind; [apply total_write|intros _ _]);
    repeat (eapply total_bind; [apply total_buf_at; unfold zlen; lia|intros ? _]); apply total_write.
Qed.

Lemma total_tx_words i buf : forall k, 0 <= k -> k + 4 * Z.of_nat i <= zlen buf ->
  total (tx_words i buf k) (fun _ => True).
Proof.
  induction i as [|i IH]; intros k H0' Hk; cbn [tx_words]; [by apply total_ret|].
  do 4 (eapply total_bind; [apply total_buf_at; lia|intros ? _]).
  eapply total_bind; [apply total_write|intros _ _]. apply IH; lia.
Qed.

Lemma total_zeros i : total (tx_zeros i) (fun _ => True).
Proof.
  induction i as [|i IH]; cbn [tx_zeros]; [by apply total_ret|]. eapply total_bind; [apply total_write|done].
Qed.

Lemma total_rx_head r : (r < 4)%nat -> total (rx_head (Z.of_nat r)) (fun l => length l = r).
Proof.
  intros Hr. unfold rx_head. destruct (Z.eqb_spec (Z.of_nat r) 0); [apply total_ret; cbn; lia|].
  eapply total_bind; [apply total_rx|intros data _].
  destruct (Z.eqb_spec (Z.of_nat r) 1); [apply total_ret; cbn; lia|].
  destruct (Z.eqb_spec (Z.of_nat r) 2); apply total_ret; cbn; lia.
Qed.

Lemma total_rx_words i : total (rx_words i) (fun l => length l = (4 * i)%nat).
Proof.
  induction i as [|i IH]; cbn [rx_words]; [by apply total_ret|].
  eapply total_bind; [apply total_rx|intros data _]. eapply total_bind; [exact IH|intros l Hl].
  apply total_ret. rewrite length_app, Hl. cbn [length]. lia.
Qed.

(** The remainder and the number of whole words. *)
Lemma split_len len : 0 <= len -> Z.land len 3 = Z.of_nat (Z.to_nat (len mod 4)) /\
  Z.to_nat (Z.shiftr len 2) = Z.to_nat (len / 4) /\ (Z.to_nat (len mod 4) < 4)%nat /\
  len = Z.of_nat (Z.to_nat (len mod 4) + 4 * Z.to_nat (len / 4)).
Proof.
  intros Hl. change 3 with (Z.ones 2) at 1. rewrite Z.land_ones, Z.shiftr_div_pow2 by lia.
  change (2 ^ 2) with 4. pose proof (Z.mod_pos_bound len 4 ltac:(lia)).
  pose proof (Z.div_mod len 4 ltac:(lia)). pose proof (Z.div_pos len 4 Hl ltac:(lia)). lia.
Qed.

Lemma total_cmd_read cmd len : zlen cmd = 4 -> 0 <= len <= 252 ->
  total (cmd_read cmd len) (fun r => forall bs, r = Some bs -> zlen bs = len).
Proof.
  intros Hc Hl. destruct (split_len len ltac:(lia)) as (E1 & E2 & Hr & Hlen). unfold cmd_read.
  rewrite E1, E2. unfold SIZEOF_CMD, MX_ECSPI_BURST_MAX.
  eapply total_bind; [apply total_assert, Z.leb_le; lia|intros _ _].
  eapply total_bind; [apply total_setup; lia|intros ctrl _].
  eapply total_bind; [apply total_head; unfold zlen in Hc; cbn; lia|intros _ _].
  eapply total_bind; [apply total_zeros|intros _ _]. eapply total_bind; [apply total_write|intros _ _].
  eapply total_bind; [apply total_wait; lia|intros w _]. destruct (negb (w =? 0)); [by apply total_ret|].
  eapply total_bind; [apply total_rx|intros _ _]. eapply total_bind; [by apply total_rx_head|intros l Hl1].
  eapply total_bind; [apply total_rx_words|intros k Hk]. eapply total_bind; [apply total_write|intros _ _].
  apply total_ret. intros bs [= <-]. unfold zlen. rewrite length_app. cbn beta in *. lia.
Qed.

Lemma total_cmd_write cmd data len : zlen cmd = 4 -> 0 <= len <= 252 -> len <= zlen data ->
  total (cmd_write cmd data len) (fun rc => rc = 0 \/ rc = -1).
Proof.
  intros Hc Hl Hd. destruct (split_len len ltac:(lia)) as (E1 & E2 & Hr & Hlen). unfold cmd_write.
  rewrite E1, E2. unfold SIZEOF_CMD, MX_ECSPI_BURST_MAX.
  eapply total_bind; [apply total_assert, Z.leb_le; lia|intros _ _].
  eapply total_bind; [apply total_setup; lia|intros ctrl _]. unfold zlen in *.
  eapply total_bind; [apply total_head; unfold zlen in *; lia|intros _ _].
  eapply total_bind; [apply total_tx_words; unfold zlen; lia|intros _ _]. eapply total_bind; [apply total_write|intros _ _].
  eapply total_bind; [apply total_wait; lia|intros w _].
  destruct (negb (w =? 0)); [apply total_ret; by right|].
  eapply total_bind; [apply total_write|intros _ _]. apply total_ret. by left.
Qed.

Lemma total_word w : total (word_exchange w) (fun _ => True).
Proof.
  unfold word_exchange. eapply total_bind; [by apply total_setup|intros ctrl _].
  eapply total_bind; [apply total_write|intros _ _]. eapply total_bind; [apply total_write|intros _ _].
  eapply total_bind; [by apply total_wait|intros x _]. destruct (negb (x =? 0)); [by apply total_ret|].
  eapply total_bind; [apply total_rx|intros data _]. eapply total_bind; [apply total_write|intros _ _].
  by apply total_ret.
Qed.

Lemma total_byte c : total (write_1byte c) (fun rc => rc = 0 \/ rc = -1).
Proof.
  unfold write_1byte. eapply total_bind; [by apply total_setup|intros ctrl _].
  eapply total_bind; [apply total_write|intros _ _]. eapply total_bind; [apply total_write|intros _ _].
  eapply total_bind; [by apply total_wait|intros x _]. destruct (negb (x =? 0)); [apply total_ret; by right|].
  eapply total_bind; [apply total_write|intros _ _]. apply total_ret. by left.
Qed.

(** *** In order, every call is one transaction *)

(** The outcome of an exchange of [bs] from a controller at rest: the transaction was made and the
    controller is at rest again, or the wait failed, which it does not do on a steady bus. *)
Definition exchanged (d : mx_ecspi) (c : C) (bs : list Z) (Z0 done failed : Prop) (s' : ecspi R) : Prop :=
  done /\ (exists u, At d u Z0 s' /\ at_rest u /\ v_chip u = snd (transact bs c)) \/ failed /\ ~ Z0.

Lemma at_rest_closed b j c : at_rest (mk_view false b j [] [] (@None (list Z * C)) c).
Proof. by split. Qed.

Lemma at_rest_start q n c0 d c Z0 s : At d (open_view ECSPI_INTREG_TCEN (8 * n - 1) q [] c) Z0 s ->
  ctrl_ok c0 -> 1 <= n <= 256 -> zlen q = (n + 3) / 4 -> exists s1 w s2,
  spi_start_exchange (setup_ctrl c0 n) s = Ok (tt, s1) /\ spi_wait n s1 = Ok (w, s2) /\
    (w = 0 /\ At d (open_view 0 (8 * n - 1) [] (received n (fst (transact (burst n q) c)))
                      (snd (transact (burst n q) c))) Z0 s2 \/ w = -1 /\ ~ Z0).
Proof.
  intros Ha Hc Hn Hq. pose proof (start_run d c0 q c Z0 s n Ha Hc Hn Hq) as Hs.
  destruct (transact (burst n q) c) as [a c'] eqn:Et. destruct Hs as (s1 & E1 & Ha1).
  destruct (wait_run n d _ _ _ _ Z0 s1 ltac:(lia) Ha1) as (w & s2 & E2 & Hw). exists s1, w, s2.
  split; [done|]. split; [done|]. destruct Hw as [[-> Ha2]|(-> & _ & Hz)]; [by left|by right].
Qed.

Lemma write_1byte_run d u Z0 s b : At d u Z0 s -> at_rest u -> ctrl_ok (e_ctrl d) -> fits 8 b ->
  exists rc s', write_1byte b s = Ok (rc, s') /\ exchanged d (v_chip u) [b] Z0 (rc = 0) (rc = -1) s'.
Proof.
  intros Ha Hr Hc Hb. destruct (setup_run d u Z0 s 1 Ha Hr Hc ltac:(lia)) as (s1 & E1 & Ha1).
  destruct (tx_run d _ _ _ _ _ _ b Ha1 eq_refl (fits_8_32 b Hb)) as (s2 & E2 & Ha2). cbn [app] in Ha2.
  destruct (at_rest_start [b] 1 (e_ctrl d) d _ Z0 s2 Ha2 Hc ltac:(lia) ltac:(done)) as (s3 & w & s4 & E3 & E4 & Hw).
  assert (Eb : burst 1 [b] = [b]).
  { unfold burst, first_len. cbn [concat map]. change (1 mod 4) with 1. cbn [Z.eqb Z.to_nat]. rewrite app_nil_r.
    pose proof (be_bytes_word [b] ltac:(bytes_here)) as Ew. unfold be_word in Ew. cbn [rev app le_word length] in Ew.
    by replace (b + 256 * 0) with b in Ew by lia. }
  rewrite Eb in Hw. unfold write_1byte, mbind, eio_bind. rewrite E1, E2, E3, E4.
  destruct Hw as [[-> Ha4]|[-> Hz]]; cbn [Z.eqb negb].
  - destruct (end_run d _ _ _ _ _ Z0 s4 (setup_ctrl (e_ctrl d) 1) Ha4) as (s5 & E5 & Ha5).
    { by apply setup_ctrl_ok. }
    rewrite E5. exists EOK, s5. split; [done|]. left. split; [done|]. eexists. split; [exact Ha5|]. by split.
  - exists (-1), s4. split; [done|]. by right.
Qed.

Lemma word_exchange_run d u Z0 s w0 : At d u Z0 s -> at_rest u -> ctrl_ok (e_ctrl d) -> fits 32 w0 ->
  exists r s', word_exchange w0 s = Ok (r, s') /\
    exchanged d (v_chip u) (be_bytes 4 w0) Z0 (r = Some (be_word (take 4 (fst (transact (be_bytes 4 w0) (v_chip u))))))
      (r = None) s'.
Proof.
  intros Ha Hr Hc Hb. destruct (setup_run d u Z0 s 4 Ha Hr Hc ltac:(lia)) as (s1 & E1 & Ha1).
  destruct (tx_run d _ _ _ _ _ _ w0 Ha1 eq_refl Hb) as (s2 & E2 & Ha2). cbn [app] in Ha2.
  destruct (at_rest_start [w0] 4 (e_ctrl d) d _ Z0 s2 Ha2 Hc ltac:(lia) ltac:(done)) as (s3 & w & s4 & E3 & E4 & Hw).
  assert (Eb : burst 4 [w0] = be_bytes 4 w0) by (unfold burst; cbn [concat map]; by rewrite app_nil_r).
  rewrite Eb in Hw. unfold word_exchange, mbind, eio_bind. rewrite E1, E2, E3, E4.
  destruct Hw as [[-> Ha4]|[-> Hz]]; cbn [Z.eqb negb].
  - change (received 4 (fst (transact (be_bytes 4 w0) (v_chip u))))
      with [be_word (take 4 (fst (transact (be_bytes 4 w0) (v_chip u))))] in Ha4.
    destruct (read_rx_run d _ _ _ _ _ _ Z0 s4 Ha4) as (s5 & E5 & Ha5). rewrite E5.
    destruct (end_run d _ _ _ _ _ Z0 s5 (setup_ctrl (e_ctrl d) 4) Ha5) as (s6 & E6 & Ha6).
    { by apply setup_ctrl_ok. }
    rewrite E6. eexists _, s6. split; [reflexivity|]. left. split; [done|]. eexists. split; [exact Ha6|]. by split.
  - exists None, s4. split; [done|]. by right.
Qed.

Lemma zlen_words4 k l : zlen (words4 k l) = Z.of_nat k.
Proof.
  unfold zlen. f_equal. revert l; induction k as [|k IH]; intros l; [done|]. cbn [words4 length]. by rewrite IH.
Qed.

(** The words of a command with [len] more bytes fill the queue as its burst asks for. *)
Lemma command_words cmd buf len (ws : list Z) : 0 <= len -> zlen ws = Z.of_nat (Z.to_nat (len / 4)) ->
  zlen (head_words cmd buf (Z.to_nat (len mod 4)) ++ ws) = (4 + len + 3) / 4.
Proof.
  intros Hl Hw. rewrite zlen_app, Hw. pose proof (Z.mod_pos_bound len 4 ltac:(lia)).
  pose proof (Z.div_mod len 4 ltac:(lia)) as Hd. pose proof (Z.div_pos len 4 Hl ltac:(lia)).
  replace (4 + len + 3) with (len mod 4 + 7 + len / 4 * 4) by lia. rewrite Z.div_add, Z2Nat.id by lia.
  destruct (Z.to_nat (len mod 4)) as [|r] eqn:Er; cbn [head_words]; zlen_simpl.
  - by replace (len mod 4) with 0 by lia.
  - replace ((len mod 4 + 7) / 4) with 2; [lia|]. apply Z.div_unique with (len mod 4 - 1); lia.
Qed.

Lemma queue_bound len : 0 <= len <= 252 -> (4 + len + 3) / 4 <= 64.
Proof. intros Hl. change 64 with (259 / 4). apply Z.div_le_mono; lia. Qed.

Lemma cmd_write_run d u Z0 s cmd data len : At d u Z0 s -> at_rest u -> ctrl_ok (e_ctrl d) ->
  bytes cmd -> zlen cmd = 4 -> bytes data -> 0 <= len <= 252 -> len <= zlen data ->
  exists rc s', cmd_write cmd data len s = Ok (rc, s') /\
    exchanged d (v_chip u) (cmd ++ slice data 0 len) Z0 (rc = 0) (rc = -1) s'.
Proof.
  intros Ha Hr Hc Hb H4 Hdb Hl Hd. destruct (split_len len ltac:(lia)) as (El & Es & Hr4 & Hlen).
  destruct (setup_run d u Z0 s (4 + len) Ha Hr Hc ltac:(lia)) as (s1 & E1 & Ha1).
  set (r := Z.to_nat (len mod 4)) in *. set (k := Z.to_nat (len / 4)) in *.
  destruct (tx_head_run d _ _ _ _ _ _ cmd data r Ha1 eq_refl Hb ltac:(unfold zlen in H4; lia) Hdb Hr4
              ltac:(unfold zlen in *; lia)) as (s2 & E2 & Ha2). cbn [app] in Ha2.
  pose proof (command_words cmd data len (words4 k (drop r data)) ltac:(lia) (zlen_words4 _ _)) as Hz.
  fold r in Hz.
  assert (Hq : zlen (head_words cmd data r) + Z.of_nat k <= 64).
  { rewrite zlen_app, zlen_words4 in Hz. rewrite Hz. by apply queue_bound. }
  destruct (tx_words_run k d _ _ data _ _ _ s2 r Ha2) as (s3 & E3 & Ha3); [done|done|unfold zlen in *; lia|].
  destruct (at_rest_start _ (4 + len) (e_ctrl d) d _ Z0 s3 Ha3 Hc ltac:(lia) Hz) as (s4 & w & s5 & E4 & E5 & Hw).
  rewrite burst_head in Hw by (done || lia || unfold zlen in *; fold r; lia). fold r in Hw.
  rewrite concat_words4 in Hw by (try (by apply Forall_drop); rewrite length_drop; unfold zlen in *; lia).
  rewrite take_take_drop in Hw.
  assert (Esl : take (r + 4 * k) data = slice data 0 len).
  { unfold slice. change (Z.to_nat 0) with O. rewrite drop_0. f_equal. lia. }
  rewrite Esl in Hw. unfold cmd_write, assert, SIZEOF_CMD, MX_ECSPI_BURST_MAX. rewrite El, Es.
  rewrite (proj2 (Z.leb_le _ _)) by lia. unfold mbind, eio_bind. rewrite E1, E2, E3, E4, E5.
  destruct Hw as [[-> Ha5]|[-> Hz0]]; cbn [Z.eqb negb].
  - destruct (end_run d _ _ _ _ _ Z0 s5 (setup_ctrl (e_ctrl d) (4 + len)) Ha5) as (s6 & E6 & Ha6).
    { apply setup_ctrl_ok; [done|lia]. }
    rewrite E6. exists EOK, s6. split; [done|]. left. split; [done|]. eexists. split; [exact Ha6|]. by split.
  - exists (-1), s5. split; [done|]. by right.
Qed.

(** The bytes the driver keeps are those after the command. *)
Lemma kept_bytes (a : list Z) r k : (length a = 4 + (r + 4 * k))%nat -> (r < 4)%nat ->
  drop (4 - r) (take 4 (drop r a)) ++ take (4 * k) (drop (4 + r) a) = drop 4 a.
Proof.
  intros Hl Hr. rewrite skipn_firstn_comm, drop_drop.
  replace (4 - (4 - r))%nat with r by lia. replace (r + (4 - r))%nat with 4%nat by lia.
  rewrite <- (drop_drop a r 4), take_take_drop. apply take_ge. rewrite length_drop. lia.
Qed.

Lemma cmd_read_run d u Z0 s cmd len : At d u Z0 s -> at_rest u -> ctrl_ok (e_ctrl d) ->
  bytes cmd -> zlen cmd = 4 -> 0 <= len <= 252 -> let bs := cmd ++ zeros len in
  exists r s', cmd_read cmd len s = Ok (r, s') /\
    exchanged d (v_chip u) bs Z0 (r = Some (drop 4 (fst (transact bs (v_chip u))))) (r = None) s'.
Proof.
  intros Ha Hr Hc Hb H4 Hl bs. destruct (split_len len ltac:(lia)) as (El & Es & Hr4 & Hlen).
  destruct (setup_run d u Z0 s (4 + len) Ha Hr Hc ltac:(lia)) as (s1 & E1 & Ha1).
  set (r := Z.to_nat (len mod 4)) in *. set (k := Z.to_nat (len / 4)) in *.
  assert (H000 : bytes [0; 0; 0]) by (unfold bytes, fits; repeat constructor; lia).
  destruct (tx_head_run d _ _ _ _ _ _ cmd [0; 0; 0] r Ha1 eq_refl Hb ltac:(unfold zlen in H4; lia) H000 Hr4
              ltac:(cbn; lia)) as (s2 & E2 & Ha2). cbn [app] in Ha2.
  assert (Hrep : zlen (replicate k 0) = Z.of_nat k) by (unfold zlen; by rewrite length_replicate).
  pose proof (command_words cmd [0; 0; 0] len (replicate k 0) ltac:(lia) Hrep) as Hz. fold r in Hz.
  assert (Hq : zlen (head_words cmd [0; 0; 0] r) + Z.of_nat k <= 64).
  { rewrite zlen_app, Hrep in Hz. rewrite Hz. by apply queue_bound. }
  destruct (tx_zeros_run k d _ _ _ _ _ s2 Ha2) as (s3 & E3 & Ha3); [done|].
  destruct (at_rest_start _ (4 + len) (e_ctrl d) d _ Z0 s3 Ha3 Hc ltac:(lia) Hz) as (s4 & w & s5 & E4 & E5 & Hw).
  assert (Ebs : burst (4 + len) (head_words cmd [0; 0; 0] r ++ replicate k 0) = bs).
  { unfold r. rewrite burst_head by (done || lia || (unfold zlen in *; fold r; cbn; lia)). fold r.
    rewrite concat_zero_words. unfold bs, zeros. f_equal. replace (take r [0; 0; 0]) with (replicate r 0).
    - rewrite <- replicate_add. f_equal. lia.
    - destruct r as [|[|[|[|]]]]; (done || lia). }
  rewrite Ebs in Hw. assert (Hbs : bytes bs).
  { apply Forall_app. split; [done|]. by apply Forall_replicate. }
  destruct (nl_answer bs (v_chip u) Hbs) as [Hlen_a Hba]. set (a := fst (transact bs (v_chip u))) in *.
  assert (Hla : length a = (4 + (r + 4 * k))%nat).
  { unfold bs in Hlen_a. rewrite zlen_app, zlen_zeros in Hlen_a by lia. unfold zlen in *. lia. }
  unfold cmd_read, assert, SIZEOF_CMD, MX_ECSPI_BURST_MAX. rewrite El, Es.
  rewrite (proj2 (Z.leb_le _ _)) by lia. unfold mbind, eio_bind. rewrite E1, E2, E3, E4, E5.
  destruct Hw as [[-> Ha5]|[-> Hz0]]; cbn [Z.eqb negb].
  - destruct (received_head len a ltac:(lia)) as [w0 Ew]. rewrite Ew in Ha5.
    destruct (read_rx_run d _ _ _ _ _ _ Z0 s5 Ha5) as (s6 & E6 & Ha6). rewrite E6.
    unfold rx_queue in Ha6. fold r k in Ha6.
    destruct (rx_head_run d _ _ (take 4 (drop r a)) _ _ Z0 s6 r Ha6) as (s7 & E7 & Ha7);
      [rewrite length_take, length_drop; lia|by apply Forall_take, Forall_drop|done|].
    rewrite E7. rewrite <- (app_nil_r (words4 _ _)) in Ha7.
    destruct (rx_words_run k d _ _ _ _ _ Z0 s7 Ha7) as (s8 & E8 & Ha8);
      [by apply Forall_drop|rewrite length_drop; lia|]. rewrite E8.
    destruct (end_run d _ _ _ _ _ Z0 s8 (setup_ctrl (e_ctrl d) (4 + len)) Ha8) as (s9 & E9 & Ha9).
    { apply setup_ctrl_ok; [done|lia]. }
    rewrite E9. eexists _, s9. split; [reflexivity|]. left. split; [by rewrite kept_bytes|].
    eexists. split; [exact Ha9|]. by split.
  - exists None, s5. split; [done|]. by right.
Qed.

(** ** The interface of the flash driver *)

#[export] Instance ecspi_bus : SpiBus (ecspi R) C := {|
  spi_up := fun p => e_dev p <> None;
  spi_good := fun p => exists d, e_dev p = Some d /\ ctrl_ok (e_ctrl d) /\ at_rest (ec_view (e_regs p));
  spi_steady := fun p => ec_steady (e_regs p);
  spi_chip := fun p => v_chip (ec_view (e_regs p))
|}.

Lemma At_now p d : e_dev p = Some d -> At d (ec_view (e_regs p)) (ec_steady (e_regs p)) p.
Proof. by split. Qed.

Lemma exchanged_exchange p p' d bs (done failed : Prop) : ctrl_ok (e_ctrl d) ->
  exchanged d (v_chip (ec_view (e_regs p))) bs (ec_steady (e_regs p)) done failed p' ->
  done /\ exchange bs p p' \/ failed /\ ~ spi_steady p.
Proof.
  intros Hc [[Hdn (u & Ha & Hr & Hch)]|?]; [left|by right]. split; [done|]. destruct Ha as [Hd Hu Hs]. subst u.
  split; [by exists d|]. split; [exact Hch|exact Hs].
Qed.

(** A call that returns, and what it does on a bus in order. *)
Lemma port_call {A} (m : eio R A) Q (ok bad : A -> Prop) (B : Prop) bs p : total m Q -> spi_up p ->
  (forall d, B -> e_dev p = Some d -> ctrl_ok (e_ctrl d) -> at_rest (ec_view (e_regs p)) ->
     exists r p', m p = Ok (r, p') /\
       exchanged d (v_chip (ec_view (e_regs p))) bs (ec_steady (e_regs p)) (ok r) (bad r) p') ->
  exists r p', m p = Ok (r, p') /\ spi_up p' /\ Q r /\
    (spi_good p -> B -> ok r /\ exchange bs p p' \/ bad r /\ ~ spi_steady p).
Proof.
  intros Ht Hup Hr. destruct (Ht p Hup) as (r & p' & E & Hup' & Hq). exists r, p'.
  split; [done|]. split; [done|]. split; [done|]. intros (d & Hd & Hc & Har) HB.
  destruct (Hr d HB Hd Hc Har) as (r2 & p2 & E2 & Hx). rewrite E2 in E. injection E as -> ->.
  by apply (exchanged_exchange p p' d).
Qed.

Lemma ecspi_laws : SpiLaws (ecspi R) C.
Proof.
  split.
  - intros cmd len p Hup H4 Hl. set (bs := cmd ++ zeros len).
    destruct (port_call (cmd_read cmd len) _ (fun r => r = Some (drop 4 (reply bs p))) (fun r => r = None)
      (bytes cmd) bs p (total_cmd_read cmd len H4 Hl) Hup) as (r & p' & E & Hup' & Hq & Hg).
    { intros d Hb Hd Hc Hr. exact (cmd_read_run d _ _ p cmd len (At_now p d Hd) Hr Hc Hb H4 Hl). }
    exists r, p'. split; [done|]. split; [done|]. split; [done|]. intros Hgood Hb.
    by destruct (Hg Hgood Hb) as [[-> He]|[-> Hs]].
  - intros cmd data len p Hup H4 Hl Hd. set (bs := cmd ++ slice data 0 len).
    destruct (port_call (cmd_write cmd data len) _ (fun rc => rc = 0) (fun rc => rc = -1)
      (bytes cmd /\ bytes data) bs p (total_cmd_write cmd data len H4 Hl Hd) Hup) as (rc & p' & E & Hup' & Hq & Hg).
    { intros d [Hb Hdb] Hdev Hc Hr. exact (cmd_write_run d _ _ p cmd data len (At_now p d Hdev) Hr Hc Hb H4 Hdb Hl Hd). }
    exists rc, p'. split; [done|]. split; [done|]. split; [done|]. intros Hgood Hb Hdb.
    by destruct (Hg Hgood (conj Hb Hdb)) as [[-> He]|[-> Hs]].
  - intros w p Hup Hw. set (bs := be_bytes 4 w).
    destruct (port_call (word_exchange w) _ (fun r => r = Some (be_word (take 4 (reply bs p)))) (fun r => r = None)
      True bs p (total_word w) Hup) as (r & p' & E & Hup' & _ & Hg).
    { intros d _ Hd Hc Hr. exact (word_exchange_run d _ _ p w (At_now p d Hd) Hr Hc Hw). }
    exists r, p'. split; [done|]. split; [done|]. intros Hgood.
    destruct (Hg Hgood I) as [[-> He]|[-> Hs]]; [|done]. split; [|done]. f_equal. apply take_ge.
    assert (Hbs : bytes bs).
    { unfold bs, be_bytes. apply Forall_rev. cbn [le_bytes]. unfold bytes, fits. change (2 ^ 8) with 256.
      repeat constructor; apply Z.mod_pos_bound; lia. }
    destruct (nl_answer bs (spi_chip p) Hbs) as [Hz _]. unfold zlen, reply in *.
    unfold bs, be_bytes in Hz. rewrite length_rev, length_le_bytes in Hz. fold (be_bytes 4 w) bs in Hz. lia.
  - intros b p Hup Hb.
    destruct (port_call (write_1byte b) _ (fun rc => rc = 0) (fun rc => rc = -1) True [b] p (total_byte b) Hup)
      as (rc & p' & E & Hup' & Hq & Hg).
    { intros d _ Hd Hc Hr. exact (write_1byte_run d _ _ p b (At_now p d Hd) Hr Hc Hb). }
    exists rc, p'. split; [done|]. split; [done|]. split; [done|]. intros Hgood.
    by destruct (Hg Hgood I) as [[-> He]|[-> Hs]].
Qed.

(** *** Opening the driver *)

(** What a call takes, and what it gives back. *)
Inductive resource := Heap (p : Z) | Io (v : Z) | Channel (c : Z) | Connection (c : Z) | Interrupt (i : Z).
#[export] Instance resource_eq_dec : EqDecision resource.
Proof. solve_decision. Defined.

Definition taken (e : syscall * Z) : option resource :=
  let '(c, a) := e in
  match c with
  | Calloc => if a =? 0 then None else Some (Heap a)
  | MmapDeviceIo => if a =? MAP_FAILED then None else Some (Io a)
  | ChannelCreate => if a =? -1 then None else Some (Channel a)
  | ConnectAttach _ => if a =? -1 then None else Some (Connection a)
  | InterruptAttach => if a =? -1 then None else Some (Interrupt a)
  | _ => None
  end.
Definition returned (e : syscall * Z) : option resource :=
  match fst e with
  | Free p => Some (Heap p) | MunmapDeviceIo v => Some (Io v) | ChannelDestroy c => Some (Channel c)
  | ConnectDetach c => Some (Connection c) | InterruptDetach i => Some (Interrupt i) | _ => None
  end.
Definition one_if (o : option resource) (r : resource) : Z := if decide (o = Some r) then 1 else 0.
Lemma one_if_none r : one_if None r = 0.
Proof. done. Qed.
Fixpoint held (t : list (syscall * Z)) (r : resource) : Z :=
  match t with [] => 0 | e :: t => one_if (taken e) r - one_if (returned e) r + held t r end.

(** The resources of an open device. *)
Definition device_holds (d : mx_ecspi) (r : resource) : Z :=
  one_if (Some (Heap (handle d))) r + one_if (Some (Io (vbase d))) r + one_if (Some (Channel (e_chid d))) r
  + one_if (Some (Connection (e_coid d))) r + one_if (Some (Interrupt (e_iid d))) r.

(** [spi_open] gives back what it took when it fails; when it succeeds it holds one of each. *)
Lemma open_balanced s : exists rc s', open_ s = Ok (rc, s') /\
  (rc = -1 /\ (forall r, held (e_trace s') r = held (e_trace s) r) \/
   exists d, e_dev s' = Some d /\ rc = handle d /\
     forall r, held (e_trace s') r = held (e_trace s) r + device_holds d r).
Proof.
  unfold open_, fail3, fail2, fail1, fail0, mbind, eio_bind, system, write_reg, put_dev, mret, eio_ret.
  cbn [e_trace e_dev e_regs].
  repeat (first
    [match goal with |- context [sys ?t ?c] => generalize (sys t c); intros ? end
    |match goal with |- context [if ?b then _ else _] =>
       lazymatch b with context [decide] => fail | _ => destruct b eqn:? end end];
    cbn [e_trace e_dev e_regs]).
  all: eexists _, _; (split; [reflexivity|]).
  all: first [left; split; [reflexivity|]; intros r|right; eexists; split; [reflexivity|]; split; [reflexivity|]; intros r].
  all: unfold device_holds; cbn [e_trace held taken returned fst handle vbase e_chid e_coid e_iid].
  all: repeat match goal with E : (_ =? _) = _ |- _ => rewrite ?E; clear E end.
  all: rewrite ?one_if_none; lia.
Qed.

(** [spi_close] gives them back. *)
Lemma close_balanced s d : e_dev s = Some d -> exists s', close_ s = Ok (EOK, s') /\ e_dev s' = None /\
  forall r, held (e_trace s') r = held (e_trace s) r - device_holds d r.
Proof.
  intros E. unfold close_, mbind, eio_bind, the_dev, system, write_reg, put_dev. rewrite E.
  cbn [get_or_bad mbind res_bind e_dev e_trace e_regs]. eexists. split; [reflexivity|]. split; [done|]. intros r.
  unfold device_holds. cbn [e_trace held taken returned fst]. rewrite ?one_if_none. lia.
Qed.

(** No system call of [spi_open] fails. *)
Definition sys_works : Prop := forall t,
  sys t ThreadCtl <> -1 /\ sys t Calloc <> 0 /\ sys t MmapDeviceIo <> MAP_FAILED /\
  sys t ChannelCreate <> -1 /\ (forall c, sys t (ConnectAttach c) <> -1) /\ sys t InterruptAttach <> -1.

(** The controller [spi_open] leaves, when nothing was under way before. *)
Definition opened (g : R) : R :=
  out32 MX_ECSPI_INTREG 0 (out32 MX_ECSPI_PERIODREG 0
    (out32 MX_ECSPI_CONTROLREG (Z.lor (ECSPI_CONTROLREG_MASTERMODE SPI_DEV) ECSPI_CONTROLREG_ENABLE)
      (out32 MX_ECSPI_CONTROLREG 0 g))).

Lemma opened_view g : v_run (ec_view g) = None ->
  ec_view (opened g) = mk_view true 0 0 [] [] None (v_chip (ec_view g)) /\ (ec_steady g -> ec_steady (opened g)).
Proof.
  intros Hr. unfold opened. split.
  - rewrite el_int, el_period, el_enable; rewrite ?el_disable by done; done.
  - intros Hs. by repeat apply el_steady_out.
Qed.

Lemma open_works s : sys_works -> exists p v iid chid coid s',
  open_ s = Ok (p, s') /\ p <> 0 /\ e_dev s' = Some (mk_mx_ecspi p v iid chid coid 0 CLOCK_RATE 0 0) /\
  e_regs s' = opened (e_regs s).
Proof.
  intros Hw. unfold open_, mbind, eio_bind, system, write_reg, put_dev, mret, eio_ret.
  cbn [e_trace e_dev e_regs].
  rewrite (proj2 (Z.eqb_neq _ _)) by apply (Hw _). cbn [e_trace e_dev e_regs].
  do 2 (rewrite (proj2 (Z.eqb_neq _ _)) by apply (Hw _); cbn [e_trace e_dev e_regs]).
  do 3 (rewrite (proj2 (Z.eqb_neq _ _)) by apply (Hw _); cbn [e_trace e_dev e_regs]).
  eexists _, _, _, _, _, _. split; [reflexivity|]. split; [apply (Hw _)|]. done.
Qed.

(** [f3s_spi_open] brings the driver into the state its callouts start from. *)
Lemma f3s_spi_open_run `{F3sHeader} (s : nor (ecspi R)) : sys_works -> static_fd s = 0 ->
  v_run (ec_view (e_regs (port s))) = None -> steady s -> work (chip s) = O ->
  exists s', f3s_spi_open s = Ok (EOK, s') /\ idle s' /\ contents (chip s') = contents (chip s).
Proof.
  intros Hw Hfd Hrun Hst Hwk. destruct (open_works (port s) Hw) as (p & v & iid & chid & coid & e1 & E1 & Hp & Hd & Hg).
  destruct (opened_view (e_regs (port s)) Hrun) as [Hv Hs].
  unfold f3s_spi_open, mbind, io_bind, current. rewrite Hfd. cbn [Z.eqb negb spi_open ecspi_port].
  rewrite (on_port_run _ _ _ _ E1). unfold set_fd, bus. cbn [port on_port]. unfold spi_setcfg, ecspi_port.
  unfold setcfg, mbind, eio_bind, the_dev, put_dev. rewrite Hd. cbn [get_or_bad mbind res_bind].
  eexists. split; [reflexivity|]. unfold chip, steady. cbn [port e_regs]. split; [split|].
  - split; [cbn; done| |done]. eexists. split; [reflexivity|]. split; [by split|].
    change (at_rest (ec_view (e_regs e1))). rewrite Hg, Hv. by split.
  - change (ec_steady (e_regs e1)). rewrite Hg. by apply Hs.
  - change (work (v_chip (ec_view (e_regs e1))) = O). rewrite Hg, Hv. exact Hwk.
  - change (contents (v_chip (ec_view (e_regs e1))) = contents (chip s)). by rewrite Hg, Hv.
Qed.

(** C8.  mxecspi.c is the bus the flash driver is written against: whatever the state of the controller, a
    call returns while the driver is open; from a controller at rest it is exactly one transaction with
    the chip -- the command and the data packed into words, the odd bytes first, and the answer
    unpacked again -- and leaves the controller at rest, or it reports that the wait failed. *)
Theorem ecspi_port_correct : SpiLaws (ecspi R) C.
Proof. exact ecspi_laws. Qed.

(** C6.  The whole driver, from the callouts of the flash file system down to the registers of the SPI
    controller: once [f3s_spi_open] has opened it, a sector is erased, its end is seen after finitely
    many polls, data is written page by page with as many calls as it takes, verified or not, and is
    read back as it was; no cell outside the sector changes. *)
Theorem norspi_round_trip `{F3sHeader} fl o data (s : nor (ecspi R)) : sys_works -> static_fd s = 0 ->
  v_run (ec_view (e_regs (port s))) = None -> steady s -> work (chip s) = O ->
  EAGAIN <> EOK -> 0 <= o -> data <> [] -> o + zlen data <= TOTAL_SIZE_BYTES -> bytes data ->
  (forall i, o <= i < o + zlen data -> i / SECTOR_BYTES = o / SECTOR_BYTES) ->
  exists s0 s1 n s2 s3 s4, f3s_spi_open s = Ok (EOK, s0) /\ f3s_spi_erase o s0 = Ok (EOK, s1) /\
    wait_erased n o s1 = Ok (EOK, s2) /\ write_all (length data) fl o data s2 = Ok (true, s3) /\
    read_all (length data) o (zlen data) s3 = Ok (Some data, s4) /\
    contents (chip s4) = splice (erased (contents (chip s)) o) o data.
Proof.
  intros Hw Hfd Hrun Hst Hwk Hne Ho Hd Hsz Hb Hsec.
  destruct (f3s_spi_open_run s Hw Hfd Hrun Hst Hwk) as (s0 & E0 & Hi & Hc0).
  destruct (flash_round_trip (SL := ecspi_laws) fl o data s0 Hi Hne Ho Hd Hsz Hb Hsec)
    as (s1 & n & s2 & s3 & s4 & E1 & E2 & E3 & E4 & _ & Hc4).
  exists s0, s1, n, s2, s3, s4. by rewrite <- Hc0.
Qed.
End Port.
