(* ===== verification/SdioConst.v ===== *)
(** * SdioConst: the numbers of the SD/MMC bus layer (devb/sdmmc/sdiodi: internal.h, include/sdiodi.h,
    include/mmc.h, include/sd.h), and of <errno.h>. *)

From S2P Require Import Prelude.

(** Errors *)

Definition EOK : Z := 0.
Definition EIO : Z := 5.
Definition ENXIO : Z := 6.
Definition ENOMEM : Z := 12.
Definition EACCES : Z := 13.
Definition EBUSY : Z := 16.
Definition ENODEV : Z := 19.
Definition EINVAL : Z := 22.
Definition ETIMEDOUT : Z := 260.

(** Commands and responses *)

Definition SCF_CTYPE_BC : Z := 2 ^ 0.
Definition SCF_CTYPE_BCR : Z := 2 ^ 1.
Definition SCF_CTYPE_AC : Z := 2 ^ 2.
Definition SCF_CTYPE_ADTC : Z := 2 ^ 3.
Definition SCF_RSP_PRESENT : Z := 2 ^ 4.
Definition SCF_RSP_136 : Z := 2 ^ 5.
Definition SCF_RSP_CRC : Z := 2 ^ 6.
Definition SCF_RSP_BUSY : Z := 2 ^ 7.
Definition SCF_RSP_OPCODE : Z := 2 ^ 8.
Definition SCF_RSP_NONE : Z := 0.
Definition SCF_RSP_R1 : Z := Z.lor SCF_RSP_PRESENT (Z.lor SCF_RSP_CRC SCF_RSP_OPCODE).
Definition SCF_RSP_R1B : Z := Z.lor SCF_RSP_PRESENT (Z.lor SCF_RSP_CRC (Z.lor SCF_RSP_OPCODE SCF_RSP_BUSY)).
Definition SCF_RSP_R2 : Z := Z.lor SCF_RSP_PRESENT (Z.lor SCF_RSP_136 SCF_RSP_CRC).
Definition SCF_RSP_R3 : Z := SCF_RSP_PRESENT.
Definition SCF_RSP_R6 : Z := Z.lor SCF_RSP_PRESENT (Z.lor SCF_RSP_CRC SCF_RSP_OPCODE).
Definition SCF_RSP_R7 : Z := Z.lor SCF_RSP_PRESENT (Z.lor SCF_RSP_CRC SCF_RSP_OPCODE).
Definition SCF_DIR_IN : Z := 2 ^ 9.
Definition SCF_DIR_OUT : Z := 2 ^ 10.
Definition SCF_APP_CMD : Z := 2 ^ 11.
Definition SCF_SBC : Z := 2 ^ 12.
Definition SCF_WAIT_DRDY : Z := 2 ^ 13.
Definition CS_CMD_INPROG : Z := 0x00.
Definition CS_CMD_CMP : Z := 0x01.
Definition CS_CMD_TO_ERR : Z := 0x05.
Definition CS_CARD_REMOVED : Z := 0x0b.

(** Times, retries, sizes *)

Definition SDIO_TIME_DEFAULT : Z := 1000.
Definition SDIO_CMD_RETRIES : nat := 3.
Definition SDIO_RESET_RETRIES : nat := 3.
Definition SDIO_MAX_BUS_ERRS : Z := 2.
Definition SDIO_DFLT_BLKSZ : Z := 512.
Definition SDIO_BLKSZ_512 : Z := 512.
Definition SDIO_BLKSZ_4K : Z := 4096.
Definition SDIO_CLK_INIT : Z := 400000.
Definition DTR_MAX_SDR104 : Z := 208000000.
Definition DTR_MAX_SDR50 : Z := 100000000.
Definition DTR_MAX_DDR50 : Z := 50000000.
Definition DTR_MAX_SDR25 : Z := 50000000.
Definition DTR_MAX_SDR12 : Z := 25000000.
Definition DTR_MAX_HS400 : Z := 200000000.
Definition DTR_MAX_HS200 : Z := 200000000.
Definition DTR_MAX_HS52 : Z := 52000000.
Definition DTR_MAX_HS26 : Z := 26000000.
Definition DTR_MIN_LS : Z := 100000.
Definition DTR_HS_DEC : Z := 5000000.
Definition DTR_LS_DEC : Z := 50000.

(** The host controller *)

Definition PM_IDLE : Z := 0.
Definition PM_ACTIVE : Z := 1.
Definition PM_SLEEP : Z := 2.
Definition HC_EV_CD : Z := 1.
Definition HC_EV_TUNE : Z := 2.
Definition CD_INS : Z := 0x01.
Definition BUS_MODE_OPEN_DRAIN : Z := 0.
Definition BUS_MODE_PUSH_PULL : Z := 1.
Definition BUS_WIDTH_1 : Z := 1.
Definition BUS_WIDTH_4 : Z := 4.
Definition BUS_WIDTH_8 : Z := 8.
Definition TIMING_HS400 : Z := 9.
Definition TIMING_HS200 : Z := 8.
Definition TIMING_SDR104 : Z := 7.
Definition TIMING_SDR50 : Z := 6.
Definition TIMING_SDR25 : Z := 5.
Definition TIMING_SDR12 : Z := 4.
Definition TIMING_DDR50 : Z := 3.
Definition TIMING_HS : Z := 2.
Definition TIMING_LS : Z := 1.
Definition SIGNAL_VOLTAGE_3_3 : Z := 1.
Definition SIGNAL_VOLTAGE_1_8 : Z := 3.
Definition SIGNAL_VOLTAGE_1_2 : Z := 4.
Definition HC_FLAG_RST : Z := 2 ^ 2.
Definition HC_FLAG_TUNE : Z := 2 ^ 3.
Definition HC_FLAG_DEV_SD : Z := 2 ^ 4.
Definition HC_FLAG_DEV_MMC : Z := 2 ^ 5.
Definition HC_FLAG_DEV_SDIO : Z := 2 ^ 6.
Definition HC_FLAG_DEV_TYPE : Z := Z.lor HC_FLAG_DEV_SD (Z.lor HC_FLAG_DEV_MMC HC_FLAG_DEV_SDIO).
Definition HC_FLAG_SKIP_PWRUP : Z := 2 ^ 7.
Definition HC_CAP_BW4 : Z := 2 ^ 4.
Definition HC_CAP_BW8 : Z := 2 ^ 5.
Definition HC_CAP_ACMD12 : Z := 2 ^ 6.
Definition HC_CAP_ACMD23 : Z := 2 ^ 7.
Definition HC_CAP_SLEEP : Z := 2 ^ 8.
Definition HC_CAP_HS : Z := 2 ^ 9.
Definition HC_CAP_SDR50 : Z := 2 ^ 12.
Definition HC_CAP_DDR50 : Z := 2 ^ 14.
Definition HC_CAP_HS200 : Z := 2 ^ 15.
Definition HC_CAP_HS400 : Z := 2 ^ 16.
Definition HC_CAP_XPC_1_8V : Z := 2 ^ 19.
Definition HC_CAP_800MA : Z := 2 ^ 23.
Definition HC_CAP_SV_1_2V : Z := 2 ^ 28.
Definition HC_CAP_SV_1_8V : Z := 2 ^ 29.
Definition HC_CAP_SV_3_0V : Z := 2 ^ 30.
Definition HC_CAP_BSY : Z := 2 ^ 33.

(** The device *)

Definition DEV_TYPE_MMC : Z := 1.
Definition DEV_TYPE_SD : Z := 2.
Definition DEV_FLAG_PRESENT : Z := 0x001.
Definition DEV_FLAG_LOCKED : Z := 0x002.
Definition DEV_FLAG_INVALID_CARD : Z := 0x004.
Definition DEV_FLAG_MEDIA_CHANGE : Z := 0x008.
Definition DEV_FLAG_HS : Z := 0x080.
Definition DEV_FLAG_HS200 : Z := 0x100.
Definition DEV_FLAG_HS400 : Z := 0x200.
Definition DEV_FLAG_DDR : Z := 0x400.
Definition DEV_FLAG_UHS : Z := 0x800.
Definition DEV_FLAG_BKOPS : Z := 0x1000.
Definition DEV_FLAG_SIG_ERR : Z := 0x2000.
Definition DEV_FLAG_WRITE_PROTECT : Z := 0x4000.
Definition DEV_FLAG_WCE : Z := 0x8000.
Definition DEV_FLAG_RMV_PENDING : Z := 0x01.
Definition DEV_CAP_HC : Z := 2 ^ 0.
Definition DEV_CAP_HS : Z := 2 ^ 1.
Definition DEV_CAP_HS200 : Z := 2 ^ 2.
Definition DEV_CAP_DDR50 : Z := 2 ^ 3.
Definition DEV_CAP_UHS : Z := 2 ^ 4.
Definition DEV_CAP_TRIM : Z := 2 ^ 5.
Definition DEV_CAP_SECURE : Z := 2 ^ 6.
Definition DEV_CAP_SANITIZE : Z := 2 ^ 7.
Definition DEV_CAP_BKOPS : Z := 2 ^ 8.
Definition DEV_CAP_CMD23 : Z := 2 ^ 9.
Definition DEV_CAP_SLEEP : Z := 2 ^ 10.
Definition DEV_CAP_ASSD : Z := 2 ^ 11.
Definition DEV_CAP_DISCARD : Z := 2 ^ 14.
Definition DEV_CAP_CACHE : Z := 2 ^ 15.
Definition DEV_CAP_HS400 : Z := 2 ^ 16.
Definition DEV_CAP_PWROFF_NOTIFY : Z := 2 ^ 17.
Definition DEV_ERRATA_ACMD12 : Z := 0x01.
Definition DEV_ERRATA_DISCARD_SUP : Z := 0x02.
Definition CSD_STRUCT_VER_10 : Z := 0.
Definition CSD_STRUCT_VER_20 : Z := 1.
Definition CSD_STRUCT_VER_11 : Z := 1.
Definition CSD_SPEC_VER_1 : Z := 1.
Definition CSD_SPEC_VER_4 : Z := 4.
Definition CCC_APP_SPEC : Z := 2 ^ 8.
Definition CCC_SWITCH : Z := 2 ^ 10.
Definition SDIO_CACHE_DISABLE : Z := 0.
Definition SDIO_CACHE_ENABLE : Z := 1.
Definition SDIO_CACHE_FLUSH : Z := 2.

(** Commands of both kinds of card *)

Definition MMC_GO_IDLE_STATE : Z := 0.
Definition MMC_SEND_OP_COND : Z := 1.
Definition OCR_S18R : Z := 0x01000000.
Definition OCR_S18A : Z := 0x01000000.
Definition OCR_XPC : Z := 0x10000000.
Definition OCR_HCS : Z := 0x40000000.
Definition OCR_PWRUP_CMP : Z := 0x80000000.
Definition OCR_BUSY_RETRIES : Z := 500.
Definition MMC_ALL_SEND_CID : Z := 2.
Definition MDT_YEAR_1997 : Z := 1997.
Definition MDT_YEAR_2010 : Z := 2010.
Definition MDT_YEAR_2013 : Z := 2013.
Definition MMC_SET_RELATIVE_ADDR : Z := 3.
Definition MMC_SLEEP_AWAKE : Z := 5.
Definition MMC_SA_SLEEP : Z := 2 ^ 15.
Definition MMC_SWITCH : Z := 6.
Definition MMC_SWITCH_MODE_WRITE : Z := 0x3.
Definition MMC_SWITCH_CMDSET_DFLT : Z := 0x1.
Definition MMC_SEL_DES_CARD : Z := 7.
Definition MMC_SEND_EXT_CSD : Z := 8.
Definition MMC_SEND_CSD : Z := 9.
Definition MMC_STOP_TRANSMISSION : Z := 12.
Definition MMC_STOP_TRANSMISSION_HPI : Z := 2 ^ 0.
Definition MMC_SEND_STATUS : Z := 13.
Definition MMC_SEND_STATUS_HPI : Z := 2 ^ 0.
Definition MMC_BUSTEST_R : Z := 14.
Definition MMC_SET_BLOCKLEN : Z := 16.
Definition MMC_BUSTEST_W : Z := 19.
Definition MMC_SEND_TUNING_BLOCK : Z := 21.
Definition MMC_SET_BLOCK_COUNT : Z := 23.
Definition MMC_TAG_ERASE_GROUP_START : Z := 35.
Definition MMC_TAG_ERASE_GROUP_END : Z := 36.
Definition MMC_ERASE : Z := 38.
Definition MMC_ERASE_SECURE_TRIM_PURGE : Z := 0x80008000.
Definition MMC_ERASE_SECURE_TRIM : Z := 0x80000001.
Definition MMC_ERASE_SECURE : Z := 0x80000000.
Definition MMC_ERASE_DISCARD : Z := 0x00000003.
Definition MMC_ERASE_TRIM : Z := 0x00000001.
Definition MMC_ERASE_NORM : Z := 0x00000000.
Definition MMC_LOCK_UNLOCK : Z := 42.
Definition MMC_ERASE_TIMEOUT : Z := 300.
Definition MMC_ERASE_TIMEOUT_MIN : Z := 2000.
Definition MMC_ERASE_GRP_512K : Z := 0x80000.
Definition CDS_CARD_IS_LOCKED : Z := 2 ^ 25.
Definition CDS_ILLEGAL_COMMAND : Z := 2 ^ 22.
Definition CDS_CUR_STATE_MSK : Z := 15 * 2 ^ 9.
Definition CDS_CUR_STATE_TRAN : Z := 4 * 2 ^ 9.
Definition CDS_READY_FOR_DATA : Z := 2 ^ 8.
Definition CDS_ERROR_MSK : Z :=
  foldr Z.lor 0 (map (Z.pow 2) [31; 30; 29; 28; 27; 26; 25; 24; 23; 22; 21; 20; 19; 7; 16]).

(** The extended register of an MMC card *)

Definition MMC_EXT_CSD_SIZE : Z := 512.
Definition ECSD_FLUSH_CACHE : Z := 32.
Definition ECSD_FLUSH_TRIGGER : Z := 0x01.
Definition ECSD_CACHE_CTRL : Z := 33.
Definition ECSD_CACHE_CTRL_EN : Z := 0x01.
Definition ECSD_CACHE_CTRL_DIS : Z := 0x00.
Definition ECSD_USE_NATIVE_SECTOR : Z := 62.
Definition ECSD_USE_NATIVE_SECTOR_EN : Z := 0x01.
Definition ECSD_NATIVE_SECTOR_SIZE : Z := 63.
Definition ECSD_NATIVE_SECTOR_512 : Z := 0x00.
Definition ECSD_NATIVE_SECTOR_4K : Z := 0x01.
Definition ECSD_NATIVE_SECTOR_MSK : Z := 0x01.
Definition ECSD_BKOPS_EN : Z := 163.
Definition ECSD_BKOPS_ENABLE : Z := 1.
Definition ECSD_USER_WP : Z := 171.
Definition ECSD_ERASE_GRP_DEF : Z := 175.
Definition ECSD_EGD_EN : Z := 0x01.
Definition ECSD_PART_CONFIG : Z := 179.
Definition ECSD_PC_ACCESS_MSK : Z := 0x7.
Definition ECSD_BUS_WIDTH : Z := 183.
Definition ECSD_BUS_WIDTH_8 : Z := 2.
Definition ECSD_BUS_WIDTH_DDR : Z := 4.
Definition ECSD_HS_TIMING : Z := 185.
Definition ECSD_HS_TIMING_HS400 : Z := 0x3.
Definition ECSD_HS_TIMING_HS200 : Z := 0x2.
Definition ECSD_HS_TIMING_HS : Z := 0x1.
Definition ECSD_DRIVER_STRENGTH : Z := 197.
Definition ECSD_CARD_TYPE : Z := 196.
Definition ECSD_CARD_TYPE_HS400_1_2V : Z := 2 ^ 7.
Definition ECSD_CARD_TYPE_HS400_1_8V : Z := 2 ^ 6.
Definition ECSD_CARD_TYPE_HS200_1_2V : Z := 2 ^ 5.
Definition ECSD_CARD_TYPE_HS200_1_8V : Z := 2 ^ 4.
Definition ECSD_CARD_TYPE_DDR_1_2V : Z := 2 ^ 3.
Definition ECSD_CARD_TYPE_DDR_1_8V : Z := 2 ^ 2.
Definition ECSD_CARD_TYPE_52 : Z := 2 ^ 1.
Definition ECSD_CARD_TYPE_DDR : Z := Z.lor ECSD_CARD_TYPE_DDR_1_8V ECSD_CARD_TYPE_DDR_1_2V.
Definition ECSD_CARD_TYPE_HS400 : Z := Z.lor ECSD_CARD_TYPE_HS400_1_8V ECSD_CARD_TYPE_HS400_1_2V.
Definition ECSD_CARD_TYPE_HS200 : Z := Z.lor ECSD_CARD_TYPE_HS200_1_8V ECSD_CARD_TYPE_HS200_1_2V.
Definition ECSD_CARD_TYPE_52MHZ : Z := Z.lor ECSD_CARD_TYPE_DDR_1_8V (Z.lor ECSD_CARD_TYPE_DDR_1_2V ECSD_CARD_TYPE_52).
Definition ECSD_CARD_TYPE_MSK : Z := 0xff.
Definition ECSD_REV : Z := 192.
Definition ECSD_REV_V4_5 : Z := 6.
Definition ECSD_REV_V4_41 : Z := 5.
Definition ECSD_REV_V4_4 : Z := 4.
Definition ECSD_REV_V4_3 : Z := 3.
Definition ECSD_REV_V4_2 : Z := 2.
Definition ECSD_SEC_CNT : Z := 212.
Definition ECSD_SEC_CNT_2GB : Z := 0x400000.
Definition ECSD_S_A_TIMEOUT : Z := 217.
Definition ECSD_HC_WP_GRP_SIZE : Z := 221.
Definition ECSD_ERASE_MULT : Z := 223.
Definition ECSD_ACC_SIZE : Z := 225.
Definition ECSD_ERASE_GRP_SIZE : Z := 224.
Definition ECSD_SEC_TRIM_MULT : Z := 229.
Definition ECSD_SEC_ERASE_MULT : Z := 230.
Definition ECSD_SEC_FEATURE_SUPPORT : Z := 231.
Definition ECSD_SEC_SANITIZE : Z := 0x40.
Definition ECSD_SEC_GB_CL_EN : Z := 0x10.
Definition ECSD_SEC_ER_EN : Z := 0x01.
Definition ECSD_TRIM_MULT : Z := 232.
Definition ECSD_CACHE_SIZE : Z := 249.
Definition ECSD_BKOPS_SUPPORTED : Z := 502.
Definition ECSD_BKOPS_SUP : Z := 1.

(** Commands and registers of an SD card *)

Definition SD_ERASE_TIMEOUT : Z := 250.
Definition SD_SEND_RELATIVE_ADDR : Z := 3.
Definition SD_SEND_RELATIVE_ADDR_RETRIES : Z := 255.
Definition SD_SWITCH_FUNC : Z := 6.
Definition SD_SF_MODE_SET : Z := 0x1.
Definition SD_SF_MODE_CHECK : Z := 0x0.
Definition SD_SF_GRP_BUS_SPD : Z := 0x0.
Definition SD_SF_GRP_CMD_EXT : Z := 0x1.
Definition SD_SF_GRP_DRV_STR : Z := 0x2.
Definition SD_SF_GRP_CUR_LMT : Z := 0x3.
Definition SD_SF_CUR_FCN : Z := 0xf.
Definition SD_SF_STATUS_SIZE : Z := 64.
Definition SD_SEND_IF_COND : Z := 8.
Definition SD_SIC_VHS_27_36V : Z := 1.
Definition SD_SIC_TEST_PATTERN : Z := 0xaa.
Definition SD_VOLTAGE_SWITCH : Z := 11.
Definition SD_SEND_TUNING_BLOCK : Z := 19.
Definition SD_ERASE_WR_BLK_START : Z := 32.
Definition SD_ERASE_WR_BLK_END : Z := 33.
Definition SD_ERASE : Z := 38.
Definition SD_ERASE_NORM : Z := 0x00000000.
Definition SD_LU_ERASE : Z := 0x08.
Definition SD_LU_UNLOCK : Z := 0x00.
Definition SD_APP_CMD : Z := 55.
Definition SD_AC_SET_BUS_WIDTH : Z := 6.
Definition SD_BUS_WIDTH_1 : Z := 0.
Definition SD_BUS_WIDTH_4 : Z := 2.
Definition SD_AC_SD_STATUS : Z := 13.
Definition SD_STATUS_SIZE : Z := 64.
Definition SD_AC_SEND_OP_COND : Z := 41.
Definition SD_AC_SEND_SCR : Z := 51.
Definition SD_SCR_SIZE : Z := 8.
Definition SCR_BUS_WIDTH_4 : Z := 2 ^ 2.
Definition SCR_CMD23_SUP : Z := 2 ^ 1.
Definition SD_BUS_MODE_SDR12 : Z := 2 ^ 0.
Definition SD_BUS_MODE_SDR25 : Z := 2 ^ 1.
Definition SD_BUS_MODE_SDR50 : Z := 2 ^ 2.
Definition SD_BUS_MODE_SDR104 : Z := 2 ^ 3.
Definition SD_BUS_MODE_DDR50 : Z := 2 ^ 4.
Definition SD_BUS_MODE_UHS : Z := Z.lor SD_BUS_MODE_SDR50 (Z.lor SD_BUS_MODE_SDR104 SD_BUS_MODE_DDR50).
Definition SD_BUS_MODE_MSK : Z := 0x1f.
Definition SD_CMD_SYS_EC : Z := 2 ^ 1.
Definition SD_CMD_SYS_ASSD : Z := 2 ^ 4.
Definition SD_DRV_TYPE_B : Z := 0x01.
Definition SD_DRV_TYPE_MSK : Z := 0x0f.
Definition SD_CURR_LIMIT_MSK : Z := 0xf.
