(* ===== verification/Sdio.v ===== *)
(** * Sdio: the SD/MMC bus layer of the block driver, its data and the commands both kinds of card have
    (devb/sdmmc/sdiodi: base.c, the command functions of card.c, internal.h).

    A host controller is an interface, [HostEntry]: the function pointers of [sdio_hc_entry_t] and the
    machine around them, over a state of their own, [Bus].  The layer runs in a state monad over its
    [sdio_hc_t], the device in it, the list of free commands, and the bus; a history of the calls of
    the controller goes with it, which the code does not have.  A function that sends commands takes
    the function that does, [send]: [SdioBase] closes the recursion, since sending a command may wake
    the card, which sends commands.  Log messages are left out. *)

From coqutil Require Import Datatypes.RecordSetters.
From S2P Require Import Prelude.
From S2P Require Import SdioConst.
Export TriangleBracketNotations.

(** ** Commands *)

(** Four words: a response, a register of 128 bits. *)
Record words4 := W4 { w0 : Z; w1 : Z; w2 : Z; w3 : Z }.
#[export] Instance words4_eq_dec : EqDecision words4.
Proof. solve_decision. Defined.
Definition words (r : words4) : list Z := [w0 r; w1 r; w2 r; w3 r].
Definition words0 : words4 := W4 0 0 0 0.

(** The members of [struct sdio_cmd] the layer uses; [data] is the buffer that the scatter/gather list
    of the command names. *)
Record sdio_cmd := {
  opcode : Z; arg : Z; flags : Z; status : Z; rsp : words4; blks : Z; blksz : Z; data : list Z
}.

(** A cleared command. *)
Definition cmd0 : sdio_cmd :=
  {| opcode := 0; arg := 0; flags := 0; status := 0; rsp := words0; blks := 0; blksz := 0; data := [] |}.

Definition sdio_setup_cmd (c : sdio_cmd) (flgs op a : Z) : sdio_cmd :=
  c <| opcode := u32 op |> <| arg := u32 a |> <| flags := u32 flgs |>.

Definition sdio_setup_cmd_io (c : sdio_cmd) (flgs blks' blksz' : Z) (buf : list Z) : sdio_cmd :=
  c <| flags := Z.lor (flags c) flgs |> <| blks := u32 blks' |> <| blksz := u32 blksz' |> <| data := buf |>.

(** [n] bytes of a buffer of [n] bytes. *)
Definition bytes_of (n : Z) (buf : list Z) : list Z := take (Z.to_nat n) (buf ++ zeros n).

(** A bit of a mask is set. *)
Definition has (x m : Z) : bool := negb (Z.land x m =? 0).

(** ** The device *)

(** [sdio_cid_t]; the product name is a list of characters. *)
Record sdio_cid := {
  mid : Z; oid : Z; pnm : list Z; prv : Z; psn : Z; month : Z; year : Z
}.
Definition cid0 : sdio_cid := {| mid := 0; oid := 0; pnm := []; prv := 0; psn := 0; month := 0; year := 0 |}.

(** [sdio_csd_t]: the members that are used, the others of the register left out. *)
Record sdio_csd := {
  csd_structure : Z; spec_vers : Z; taac : Z; nsac : Z; tran_speed : Z; ccc : Z; read_bl_len : Z;
  read_bl_partial : Z; write_blk_misalign : Z; read_blk_misalign : Z; dsr_imp : Z; c_size : Z;
  c_size_mult : Z; erase_blk_en : Z; erase_grp_size_ : Z; erase_grp_mult : Z; sector_size : Z;
  wp_grp_size_ : Z; wp_grp_enable : Z; r2w_factor : Z; write_bl_len : Z; write_bl_partial : Z;
  write_protect : Z; dtr_max : Z; csd_blksz : Z; csd_sectors : Z
}.
Definition csd0 : sdio_csd :=
  {| csd_structure := 0; spec_vers := 0; taac := 0; nsac := 0; tran_speed := 0; ccc := 0;
     read_bl_len := 0; read_bl_partial := 0; write_blk_misalign := 0; read_blk_misalign := 0;
     dsr_imp := 0; c_size := 0; c_size_mult := 0; erase_blk_en := 0; erase_grp_size_ := 0;
     erase_grp_mult := 0; sector_size := 0; wp_grp_size_ := 0; wp_grp_enable := 0; r2w_factor := 0;
     write_bl_len := 0; write_bl_partial := 0; write_protect := 0; dtr_max := 0; csd_blksz := 0;
     csd_sectors := 0 |}.

(** [sdio_ecsd_t] *)
Record sdio_ecsd := {
  ecsd_blksz : Z; ecsd_sectors : Z; acc_size : Z; ecsd_dtr_max_hs : Z; s_a_timeout : Z;
  ext_csd_rev : Z; card_type : Z; driver_strength_ : Z; erase_grp_def : Z; hc_erase_group_size : Z;
  hc_wp_grp_size : Z; user_wp : Z; part_config : Z
}.
Definition ecsd0 : sdio_ecsd :=
  {| ecsd_blksz := 0; ecsd_sectors := 0; acc_size := 0; ecsd_dtr_max_hs := 0; s_a_timeout := 0;
     ext_csd_rev := 0; card_type := 0; driver_strength_ := 0; erase_grp_def := 0;
     hc_erase_group_size := 0; hc_wp_grp_size := 0; user_wp := 0; part_config := 0 |}.

(** [sd_scr_t], [sd_sds_t], [sd_switch_cap_t] *)
Record sd_scr := {
  scr_structure : Z; sd_spec : Z; data_stat_after_erase : Z; sd_security : Z; sd_bus_widths : Z;
  sd_spec3 : Z; ex_security : Z; cmd_support : Z
}.
Definition scr0 : sd_scr :=
  {| scr_structure := 0; sd_spec := 0; data_stat_after_erase := 0; sd_security := 0;
     sd_bus_widths := 0; sd_spec3 := 0; ex_security := 0; cmd_support := 0 |}.
Record sd_sds := {
  speed_class : Z; uhs_speed_grade : Z; au_size : Z; erase_timeout : Z; erase_offset : Z
}.
Definition sds0 : sd_sds :=
  {| speed_class := 0; uhs_speed_grade := 0; au_size := 0; erase_timeout := 0; erase_offset := 0 |}.
Record sd_switch_cap := {
  sw_dtr_max_hs : Z; sw_bus_mode : Z; cmd_sys : Z; sw_drv_type : Z; curr_limit : Z
}.
Definition swcaps0 : sd_switch_cap :=
  {| sw_dtr_max_hs := 0; sw_bus_mode := 0; cmd_sys := 0; sw_drv_type := 0; curr_limit := 0 |}.

(** [sdio_dev_t]; [pwd] is as long as [pwd_len] says. *)
Record sdio_dev := {
  dtype : Z; dev_flags : Z; rsettle : Z; dev_caps : Z; dev_ocr : Z; pwd : list Z; pactive : Z;
  rca : Z; cid : sdio_cid; csd : sdio_csd; ecsd : sdio_ecsd; scr : sd_scr; sds : sd_sds;
  swcaps : sd_switch_cap; block_length : Z; wp_size : Z; erase_size : Z; raw_cid : words4;
  raw_csd : words4; raw_scr : list Z; raw_ecsd : list Z
}.
Definition dev0 : sdio_dev :=
  {| dtype := 0; dev_flags := 0; rsettle := 0; dev_caps := 0; dev_ocr := 0; pwd := []; pactive := 0;
     rca := 0; cid := cid0; csd := csd0; ecsd := ecsd0; scr := scr0; sds := sds0; swcaps := swcaps0;
     block_length := 0; wp_size := 0; erase_size := 0; raw_cid := words0; raw_csd := words0;
     raw_scr := zeros 2; raw_ecsd := zeros MMC_EXT_CSD_SIZE |}.

(** ** The controller *)

(** What the functions of a controller record in its structure: the settings in force. *)
Record hc_settings := {
  clk : Z; vdd : Z; timing : Z; drv_type : Z; bus_mode : Z; bus_width : Z; signal_voltage : Z
}.

(** [sdio_hc_t]: the members of the layer; [active] says whether [wspc.cmd] is set. *)
Record sdio_hc := {
  hc_flags : Z; hc_caps : Z; pm_state : Z; tuning_count : Z; active : bool; clk_min : Z; clk_max : Z;
  clk_init : Z; hc_ocr : Z; settings : hc_settings; bus_errs : Z
}.

(** The function pointers with one argument. *)
Inductive knob :=
  | Pm | Pwr | Clk | BusMode | BusWidth | Timing | SignalVoltage | DrvType | Tune | Preset.
#[export] Instance knob_eq_dec : EqDecision knob.
Proof. solve_decision. Defined.

(** What happened while the layer waited for a command: the status given to [sdio_cmd_cmplt], if that
    was called in time; the response and the buffer as they are then; the events that were reported
    ([sdio_hc_event]). *)
Record waited Bus := {
  w_done : option Z; w_rsp : words4; w_data : list Z; w_events : list Z; w_bus : Bus
}.
Arguments w_done {Bus} _.
Arguments w_rsp {Bus} _.
Arguments w_data {Bus} _.
Arguments w_events {Bus} _.
Arguments w_bus {Bus} _.

(** [sdio_hc_entry_t], over the state of the controller, the card, and the rest of the machine.
    [e_has] says which of the optional functions there are, [e_set] are the functions; [e_wait] is
    what happens until the command that was started is done, or a number of milliseconds has passed;
    [e_calloc] says whether there is memory. *)
Class HostEntry (Bus : Type) := {
  e_has : knob -> bool;
  e_set : knob -> Z -> sdio_hc -> Bus -> Z * hc_settings * Bus;
  e_driver_strength : option (Z -> Z -> sdio_hc -> Bus -> Z * Bus);
  e_cmd : sdio_cmd -> sdio_hc -> Bus -> Z * Bus;
  e_wait : sdio_cmd -> Z -> sdio_hc -> Bus -> waited Bus;
  e_abort : sdio_cmd -> sdio_hc -> Bus -> Bus;
  e_cd : sdio_hc -> Bus -> Z * Bus;
  e_delay : Z -> Bus -> Bus;
  e_calloc : Bus -> bool * Bus
}.

(** ** State *)

(** The commands on the free list, and those that were taken and not given back. *)
Record cmd_pool := { free_cmds : nat; lent_cmds : nat }.

(** A call of the controller and its outcome: a function with its argument, or a command as it was when
    [sdio_issue_cmd] returned. *)
Inductive call :=
  | CallSet (k : knob) (v r : Z)
  | CallCmd (c : sdio_cmd) (r : Z).

(** [cd_pulses] counts the pulses sent to the thread that detects cards; [calls] is the history, the
    last call first. *)
Record sdio (Bus : Type) := {
  hc : sdio_hc; dev : sdio_dev; pool : cmd_pool; cd_pulses : nat; calls : list call; bus : Bus
}.
Arguments hc {Bus} _.
Arguments dev {Bus} _.
Arguments pool {Bus} _.
Arguments cd_pulses {Bus} _.
Arguments calls {Bus} _.
Arguments bus {Bus} _.

Definition M (Bus A : Type) : Type := sdio Bus -> res (A * sdio Bus).

#[export] Instance M_ret Bus : MRet (M Bus) := fun A a s => Ok (a, s).
#[export] Instance M_bind Bus : MBind (M Bus) :=
  fun A B f m s => match m s with Ok (a, s) => f a s | Err e => Err e end.

Declare Scope sdio_scope.
Open Scope sdio_scope.

(** [if( ( status = f ) != EOK ) return( status )] *)
Definition ok_then {Bus} (f k : M Bus Z) : M Bus Z := r ← f; if r =? EOK then k else mret r.
Notation "'ok!' f ; k" := (ok_then f k) (at level 20, f at level 100, k at level 200, right associativity)
  : sdio_scope.

Section Code.
Context {Bus : Type} `{HostEntry Bus}.

Definition get_dev : M Bus sdio_dev := fun s => Ok (dev s, s).
Definition get_hc : M Bus sdio_hc := fun s => Ok (hc s, s).
Definition upd_dev (f : sdio_dev -> sdio_dev) : M Bus unit :=
  fun s => Ok (tt, {| hc := hc s; dev := f (dev s); pool := pool s; cd_pulses := cd_pulses s;
                      calls := calls s; bus := bus s |}).
Definition upd_hc (f : sdio_hc -> sdio_hc) : M Bus unit :=
  fun s => Ok (tt, {| hc := f (hc s); dev := dev s; pool := pool s; cd_pulses := cd_pulses s;
                      calls := calls s; bus := bus s |}).
Definition get_pool : M Bus cmd_pool := fun s => Ok (pool s, s).
Definition set_pool (p : cmd_pool) : M Bus unit :=
  fun s => Ok (tt, {| hc := hc s; dev := dev s; pool := p; cd_pulses := cd_pulses s;
                      calls := calls s; bus := bus s |}).
(** A step of the machine. *)
Definition on_bus {A} (f : sdio_hc -> Bus -> A * Bus) : M Bus A :=
  fun s => let '(a, b) := f (hc s) (bus s) in
           Ok (a, {| hc := hc s; dev := dev s; pool := pool s; cd_pulses := cd_pulses s;
                     calls := calls s; bus := b |}).
Definition log (x : call) : M Bus unit :=
  fun s => Ok (tt, {| hc := hc s; dev := dev s; pool := pool s; cd_pulses := cd_pulses s;
                      calls := x :: calls s; bus := bus s |}).
Definition cd_pulse : M Bus unit :=
  fun s => Ok (tt, {| hc := hc s; dev := dev s; pool := pool s; cd_pulses := S (cd_pulses s);
                      calls := calls s; bus := bus s |}).
Definition lift {A} (r : res A) : M Bus A :=
  fun s => match r with Ok a => Ok (a, s) | Err e => Err e end.
Definition when (b : bool) (m : M Bus unit) : M Bus unit := if b then m else mret tt.

(** A call of a function of the controller. *)
Definition entry (k : knob) (v : Z) : M Bus Z :=
  '(r, st) ← on_bus (e_set k v);
  _ ← upd_hc (fun h => h <| settings := st |>);
  _ ← log (CallSet k v r);
  mret r.
(** A call of a function that may be missing. *)
Definition entry_opt (k : knob) (v : Z) : M Bus Z := if e_has k then entry k v else mret EOK.
(** A call that takes the function to be there. *)
Definition entry_raw (k : knob) (v : Z) : M Bus Z :=
  if e_has k then entry k v else lift (Err (Crash "no such function")).

Definition delay (ms : Z) : M Bus unit := on_bus (fun _ b => (tt, e_delay ms b)).
Definition have_memory : M Bus bool := on_bus (fun _ b => e_calloc b).

Definition set_flag (f : Z) : M Bus unit := upd_dev (fun d => d <| dev_flags := Z.lor (dev_flags d) f |>).
Definition clr_flag (f : Z) : M Bus unit :=
  upd_dev (fun d => d <| dev_flags := Z.land (dev_flags d) (bnot 32 f) |>).
Definition set_cap (c : Z) : M Bus unit := upd_dev (fun d => d <| dev_caps := Z.lor (dev_caps d) c |>).

(** ** Commands from the free list *)

Definition sdio_alloc_cmd : M Bus (option sdio_cmd) :=
  p ← get_pool;
  match free_cmds p with
  | S n => _ ← set_pool {| free_cmds := n; lent_cmds := S (lent_cmds p) |}; mret (Some cmd0)
  | O =>
      ok ← have_memory;
      if ok : bool then _ ← set_pool {| free_cmds := O; lent_cmds := S (lent_cmds p) |}; mret (Some cmd0)
      else mret None
  end.

Definition sdio_free_cmd : M Bus unit :=
  p ← get_pool; set_pool {| free_cmds := S (free_cmds p); lent_cmds := Nat.pred (lent_cmds p) |}.

(** ** Bits *)

(** [sdio_extract_bits]: [size] bits of a register from bit [start] on; its words in [data] are the
    most significant first. *)
Definition sdio_extract_bits (data : list Z) (bits start size : Z) : res Z :=
  let idx := bits / 32 - start / 32 - 1 in
  let shift := Z.land start 31 in
  w ← get_or_bad (byte_at data idx);
  value ← (if 32 <? size + shift then
             w2 ← get_or_bad (byte_at data (idx - 1));
             mret (Z.lor (Z.shiftr w shift) (u32 (Z.shiftl w2 (32 - shift))))
           else mret (Z.shiftr w shift));
  mret (u32 (Z.land value (2 ^ size - 1))).

(** [fls]: the position of the highest bit set, from 1 on. *)
Fixpoint fls_loop (k : nat) (idx val : Z) : Z :=
  match k with
  | O => 0
  | S k => if val =? 0 then 0
           else if has val (2 ^ 31) then idx else fls_loop k (idx - 1) (u32 (2 * val))
  end.
Definition fls (val : Z) : Z := fls_loop 33 32 (u32 val).

(** [ffs] of the C library: the position of the lowest bit set. *)
Definition ffs (val : Z) : Z := if val =? 0 then 0 else Z.log2 (Z.land val (- val)) + 1.

(** [1 << n] *)
Definition bit_at (n : Z) : res Z := if (0 <=? n) && (n <? 32) then Ok (2 ^ n) else Err (Crash "shift").

(** ** The controller's operations *)

Definition sdio_pwr (v : Z) : M Bus Z := entry Pwr v.
Definition sdio_drv_type (t : Z) : M Bus Z := entry DrvType t.
Definition sdio_bus_mode (m : Z) : M Bus Z := entry BusMode m.
Definition sdio_bus_width (w : Z) : M Bus Z := entry BusWidth w.
Definition sdio_timing (t : Z) : M Bus Z := entry Timing t.
Definition sdio_signal_voltage (v : Z) : M Bus Z := entry SignalVoltage v.

Definition sdio_clock (c : Z) : M Bus Z :=
  h ← get_hc;
  if c <? clk_min h then mret EINVAL else entry Clk (if clk_max h <? c then clk_max h else c).

Definition sdio_tune (op : Z) : M Bus Z := entry_opt Tune op.
Definition sdio_preset (state : Z) : M Bus Z := entry_opt Preset state.

(** [sdio_power] *)
Definition sdio_power_off : M Bus unit := _ ← sdio_pwr 0; mret tt.
Definition sdio_power_on : M Bus unit :=
  h ← get_hc;
  v ← lift (bit_at (fls (hc_ocr h) - 1));
  _ ← sdio_pwr v; _ ← sdio_clock (clk_init h); _ ← sdio_bus_width BUS_WIDTH_1; _ ← sdio_preset 0;
  _ ← sdio_timing TIMING_LS; _ ← sdio_bus_mode BUS_MODE_OPEN_DRAIN;
  _ ← sdio_signal_voltage SIGNAL_VOLTAGE_3_3;
  delay 10.

Definition sdio_select_voltage (ocr : Z) : M Bus Z :=
  h ← get_hc;
  let ocr := Z.land ocr (hc_ocr h) in
  let bpos := ffs ocr in
  if bpos =? 0 then _ ← upd_dev (fun d => d <| dev_ocr := 0 |>); mret EINVAL
  else
    v ← lift (bit_at (bpos - 1));
    r ← sdio_pwr v;
    _ ← upd_dev (fun d => d <| dev_ocr := v |>);
    mret r.

Definition sdio_hc_event (ev : Z) : M Bus unit :=
  if ev =? HC_EV_CD then _ ← set_flag DEV_FLAG_MEDIA_CHANGE; cd_pulse
  else if ev =? HC_EV_TUNE then upd_hc (fun h => h <| hc_flags := Z.lor (hc_flags h) HC_FLAG_TUNE |>)
  else mret tt.

(** ** How long an erase takes, in milliseconds *)

Definition sd_erase_timeout (d : sdio_dev) (nlba : Z) : Z :=
  if negb (erase_timeout (sds d) =? 0) then u32 (u32 (erase_timeout (sds d) * nlba) + erase_offset (sds d))
  else u32 (SD_ERASE_TIMEOUT * nlba).

Definition mmc_wp_grp_size (d : sdio_dev) : Z :=
  if negb (erase_grp_def (ecsd d) =? 0) then
    u64 (hc_wp_grp_size (ecsd d) * hc_erase_group_size (ecsd d) * MMC_ERASE_GRP_512K)
  else (erase_grp_size_ (csd d) + 1) * (erase_grp_mult (csd d) + 1) * (wp_grp_size_ (csd d) + 1) * 512.

Definition mmc_erase_grp_size (d : sdio_dev) : Z :=
  if negb (erase_grp_def (ecsd d) =? 0) then u64 (hc_erase_group_size (ecsd d) * MMC_ERASE_GRP_512K)
  else (erase_grp_size_ (csd d) + 1) * (erase_grp_mult (csd d) + 1) * 512.

(** A byte of the extended register. *)
Definition ecsd_at (raw : list Z) (i : Z) : Z := default 0 (byte_at raw i).

Definition mmc_erase_timeout (d : sdio_dev) (etype nlba : Z) : res Z :=
  let raw := ecsd_at (raw_ecsd d) in
  let size := mmc_erase_grp_size d / 512 in
  let tmult :=
    if negb (erase_grp_def (ecsd d) =? 0) then
      if etype =? MMC_ERASE_NORM then MMC_ERASE_TIMEOUT * raw ECSD_ERASE_MULT
      else if (etype =? MMC_ERASE_TRIM) || (etype =? MMC_ERASE_DISCARD) then
        MMC_ERASE_TIMEOUT * raw ECSD_TRIM_MULT
      else if etype =? MMC_ERASE_SECURE then
        MMC_ERASE_TIMEOUT * raw ECSD_ERASE_MULT * raw ECSD_SEC_ERASE_MULT
      else if (etype =? MMC_ERASE_SECURE_TRIM) || (etype =? MMC_ERASE_SECURE_TRIM_PURGE) then
        MMC_ERASE_TIMEOUT * raw ECSD_ERASE_MULT * raw ECSD_SEC_TRIM_MULT
      else MMC_ERASE_TIMEOUT * raw ECSD_ERASE_MULT
    else MMC_ERASE_TIMEOUT in
  if size =? 0 then Err (Crash "division by zero")
  else Ok (Z.max (u64 (tmult * (nlba / size + 2))) MMC_ERASE_TIMEOUT_MIN).

Definition sdio_erase_timeout (d : sdio_dev) (etype nlba : Z) : res Z :=
  t ← (if dtype d =? DEV_TYPE_MMC then mmc_erase_timeout d etype nlba
       else mret (sd_erase_timeout d nlba));
  mret (Z.max t 1000).

(** ** Issuing a command *)

(** [sdio_retune], but for its timer. *)
Definition sdio_retune : M Bus unit :=
  _ ← upd_hc (fun h => h <| hc_flags := Z.land (hc_flags h) (bnot 32 HC_FLAG_TUNE) |>);
  d ← get_dev;
  _ ← sdio_tune (if dtype d =? DEV_TYPE_MMC then MMC_SEND_TUNING_BLOCK else SD_SEND_TUNING_BLOCK);
  mret tt.

(** [sdio_cmd_cmplt]: the command is no longer active, and has its status. *)
Definition sdio_cmd_cmplt (c : sdio_cmd) (st : Z) : M Bus sdio_cmd :=
  _ ← upd_hc (fun h => h <| active := false |>); mret (c <| status := st |>).

(** [sdio_wait_cmd]: the events and the completion come from the controller's thread.  A completion with
    the status "in progress" is none. *)
Definition sdio_wait_cmd (c : sdio_cmd) (tms : Z) : M Bus (Z * sdio_cmd) :=
  w ← on_bus (fun h b => let w := e_wait c tms h b in (w, w_bus w));
  _ ← foldr (fun ev (m : M Bus unit) => _ ← sdio_hc_event ev; m) (mret tt) (w_events w);
  let c := c <| rsp := w_rsp w |> in
  let c := if has (flags c) SCF_DIR_IN then c <| data := w_data w |> else c in
  match w_done w with
  | Some st => c ← sdio_cmd_cmplt c st; mret (if st =? CS_CMD_INPROG then ETIMEDOUT else EOK, c)
  | None => mret (ETIMEDOUT, c)
  end.

Definition sdio_issue_cmd (c : sdio_cmd) (tms : Z) : M Bus (Z * sdio_cmd) :=
  h ← get_hc;
  _ ← when (has (hc_flags h) HC_FLAG_TUNE) sdio_retune;
  _ ← upd_hc (fun h => h <| active := true |>);
  r ← on_bus (e_cmd c);
  '(r, c) ← (if r =? EOK then sdio_wait_cmd c tms else mret (r, c));
  c ← (if r =? EOK then mret c
       else
         _ ← on_bus (fun h b => (tt, e_abort c h b));
         _ ← upd_hc (fun h => h <| active := false |>);
         mret (c <| status := r |>));
  _ ← log (CallCmd c r);
  mret (r, c).

(** ** Commands of both kinds of card *)

(** How commands are sent: [_sdio_send_cmd], with the timeout and the retries. *)
Variable send : sdio_cmd -> Z -> nat -> M Bus (Z * sdio_cmd).

(** A command of which only the status matters. *)
Definition send_ (c : sdio_cmd) (timeout : Z) (retries : nat) : M Bus Z :=
  '(r, _) ← send c timeout retries; mret r.

(** [_sdio_send_status]: the status, and the response; it is cleared if there is none. *)
Definition _sdio_send_status (hpi : bool) : M Bus (Z * words4) :=
  c ← sdio_alloc_cmd;
  match c with
  | None => mret (ENOMEM, words0)
  | Some c =>
      r ← (
        d ← get_dev;
        let a := Z.lor (u32 (Z.shiftl (rca d) 16)) (if hpi then MMC_SEND_STATUS_HPI else 0) in
        '(r, c) ← send (sdio_setup_cmd c (Z.lor SCF_CTYPE_AC SCF_RSP_R1) MMC_SEND_STATUS a)
                    SDIO_TIME_DEFAULT SDIO_CMD_RETRIES;
        mret (r, if r =? EOK then rsp c else words0));
      _ ← sdio_free_cmd;
      mret r
  end.

Definition sdio_send_csd : M Bus Z :=
  c ← sdio_alloc_cmd;
  match c with
  | None => mret ENOMEM
  | Some c =>
      r ← (
        d ← get_dev;
        '(r, c) ← send (sdio_setup_cmd c (Z.lor SCF_CTYPE_AC SCF_RSP_R2) MMC_SEND_CSD (Z.shiftl (rca d) 16))
                    SDIO_TIME_DEFAULT SDIO_CMD_RETRIES;
        _ ← when (r =? EOK) (upd_dev (fun d => d <| raw_csd := rsp c |>));
        mret r);
      _ ← sdio_free_cmd;
      mret r
  end.

Definition sdio_select_card (addr : Z) : M Bus Z :=
  c ← sdio_alloc_cmd;
  match c with
  | None => mret ENOMEM
  | Some c =>
      r ← (
        '(r, c) ← send (sdio_setup_cmd c (Z.lor SCF_CTYPE_AC (if addr =? 0 then SCF_RSP_NONE else SCF_RSP_R1))
                          MMC_SEL_DES_CARD (Z.shiftl addr 16)) SDIO_TIME_DEFAULT SDIO_CMD_RETRIES;
        _ ← when (has (w0 (rsp c)) CDS_CARD_IS_LOCKED) (set_flag DEV_FLAG_LOCKED);
        mret r);
      _ ← sdio_free_cmd;
      mret r
  end.

Definition _sdio_stop_transmission (hpi : bool) : M Bus Z :=
  c ← sdio_alloc_cmd;
  match c with
  | None => mret ENOMEM
  | Some c =>
      r ← (
        d ← get_dev;
        let a := if hpi then Z.lor (u32 (Z.shiftl (rca d) 16)) MMC_STOP_TRANSMISSION_HPI else 0 in
        send_ (sdio_setup_cmd c (Z.lor SCF_CTYPE_AC SCF_RSP_R1B) MMC_STOP_TRANSMISSION a) SDIO_TIME_DEFAULT 0);
      _ ← sdio_free_cmd;
      mret r
  end.

Definition _sdio_set_block_length (blklen : Z) : M Bus Z :=
  d ← get_dev;
  if has (dev_flags d) (Z.lor DEV_FLAG_DDR DEV_FLAG_HS400) && has (dev_caps d) DEV_CAP_HC then mret EOK
  else if block_length d =? blklen then mret EOK
  else
    c ← sdio_alloc_cmd;
    match c with
    | None => mret ENOMEM
    | Some c =>
        r ← (
          r ← send_ (sdio_setup_cmd c (Z.lor SCF_CTYPE_AC SCF_RSP_R1) MMC_SET_BLOCKLEN blklen)
                SDIO_TIME_DEFAULT SDIO_CMD_RETRIES;
          _ ← when (r =? EOK) (upd_dev (fun d => d <| block_length := blklen |>));
          mret r);
        _ ← sdio_free_cmd;
        mret r
    end.

Definition _sdio_set_block_count (blkcnt : Z) : M Bus Z :=
  c ← sdio_alloc_cmd;
  match c with
  | None => mret ENOMEM
  | Some c =>
      r ← (
        send_ (sdio_setup_cmd c (Z.lor SCF_CTYPE_AC SCF_RSP_R1) MMC_SET_BLOCK_COUNT blkcnt) SDIO_TIME_DEFAULT 0);
      _ ← sdio_free_cmd;
      mret r
  end.

(** The loop of [_sdio_wait_card_status]; [k] is [msec], [resp] the last response. *)
Fixpoint wait_loop (k : nat) (mask val : Z) (resp : words4) : M Bus (Z * words4) :=
  match k with
  | O => mret (ETIMEDOUT, resp)
  | S k =>
      '(r, resp) ← _sdio_send_status false;
      if negb (r =? EOK) then mret (r, resp)
      else if has (w0 resp) CDS_ERROR_MSK then mret (EIO, resp)
      else if Z.land (w0 resp) mask =? val then mret (EOK, resp)
      else _ ← delay 1; wait_loop k mask val resp
  end.
Definition _sdio_wait_card_status (mask val msec : Z) : M Bus (Z * words4) :=
  wait_loop (Z.to_nat (Z.max (u32 msec) 1)) mask val words0.
(** With no interest in the response. *)
Definition wait_card_status (mask val msec : Z) : M Bus Z :=
  '(r, _) ← _sdio_wait_card_status mask val msec; mret r.

Definition sdio_go_idle : M Bus Z :=
  c ← sdio_alloc_cmd;
  match c with
  | None => mret ENOMEM
  | Some c =>
      r ← (
        send_ (sdio_setup_cmd c (Z.lor SCF_CTYPE_BC SCF_RSP_NONE) MMC_GO_IDLE_STATE 0) SDIO_TIME_DEFAULT 0);
      _ ← sdio_free_cmd;
      mret r
  end.

(** [sdio_all_send_cid]: the status, and the register if it came. *)
Definition sdio_all_send_cid : M Bus (Z * words4) :=
  c ← sdio_alloc_cmd;
  match c with
  | None => mret (ENOMEM, words0)
  | Some c =>
      r ← (
        '(r, c) ← send (sdio_setup_cmd c (Z.lor SCF_CTYPE_BCR SCF_RSP_R2) MMC_ALL_SEND_CID 0)
                    SDIO_TIME_DEFAULT SDIO_CMD_RETRIES;
        mret (r, rsp c));
      _ ← sdio_free_cmd;
      mret r
  end.

Definition _sdio_lock_unlock (op : Z) (pw : list Z) : M Bus Z :=
  let len := zlen pw + 2 in
  let len := if has len 1 then len + 1 else len in
  d ← get_dev;
  timeout ← (if has op SD_LU_ERASE then lift (sdio_erase_timeout d SD_ERASE_NORM (csd_sectors (csd d)))
             else mret SDIO_TIME_DEFAULT);
  c ← sdio_alloc_cmd;
  match c with
  | None => mret ENOMEM
  | Some c =>
      ok ← have_memory;
      if negb ok then _ ← sdio_free_cmd; mret ENOMEM
      else
        r ← (
          let ld := [u8 op; u8 (zlen pw)] ++ pw ++ zeros (len - 2 - zlen pw) in
          r ← _sdio_set_block_length len;
          r ← (if r =? EOK then
                 let c := sdio_setup_cmd c (Z.lor SCF_CTYPE_ADTC SCF_RSP_R1) MMC_LOCK_UNLOCK 0 in
                 let c := sdio_setup_cmd_io c SCF_DIR_OUT 1 len ld in
                 _ ← send c (u32 timeout) SDIO_CMD_RETRIES;
                 _sdio_set_block_length SDIO_DFLT_BLKSZ
               else mret r);
          if r =? EOK then
            '(r, resp) ← _sdio_send_status false;
            if r =? EOK then
              _ ← (if has (w0 resp) CDS_CARD_IS_LOCKED then set_flag DEV_FLAG_LOCKED else clr_flag DEV_FLAG_LOCKED);
              mret r
            else mret r
          else mret r);
        _ ← sdio_free_cmd;
        mret r
  end.

(** ** Errata *)

(** [sdio_device_errata_t], with [~0] as the wildcard of a member. *)
Record sdio_errata := {
  er_pnm : list Z; er_mid : Z; er_oid : Z; er_prv_s : Z; er_prv_e : Z; er_erev : Z; er_errata : Z;
  er_rsettle : Z
}.
Definition WILDCARD : Z := 2 ^ 32 - 1.

(** The C string in the product name. *)
Fixpoint name_of (l : list Z) : list Z :=
  match l with
  | [] => []
  | c :: l => if c =? 0 then [] else c :: name_of l
  end.

Definition errata_match (d : sdio_dev) (e : sdio_errata) : bool :=
  bool_decide (take (length (er_pnm e)) (name_of (pnm (cid d))) = er_pnm e)
  && ((mid (cid d) =? er_mid e) || (er_mid e =? WILDCARD))
  && ((oid (cid d) =? er_oid e) || (er_oid e =? WILDCARD))
  && ((ext_csd_rev (ecsd d) =? er_erev e) || (er_erev e =? WILDCARD))
  && (er_prv_s e <=? prv (cid d)) && (prv (cid d) <=? er_prv_e e).

Definition sdio_device_errata (d : sdio_dev) (l : list sdio_errata) : option sdio_errata :=
  head (List.filter (errata_match d) l).

Definition sdio_reconcile_errata (e : sdio_errata) : M Bus unit :=
  when (has (er_errata e) DEV_ERRATA_ACMD12)
    (upd_hc (fun h => h <| hc_caps := Z.land (hc_caps h) (bnot 64 HC_CAP_ACMD12) |>)).

End Code.
