(* ===== verification/SdioSd.v ===== *)
(** * SdioSd: SD cards (devb/sdmmc/sdiodi/sd.c).

    The registers of a card, its commands, its identification and the choice of its bus mode.  Every
    function that sends commands takes [send], as in [Sdio]. *)

From coqutil Require Import Datatypes.RecordSetters.
From S2P Require Import Prelude.
From S2P Require Import SdioConst.
From S2P Require Import Sdio.

(** ** Masks of the controller's capabilities (internal.h) *)

Definition HC_CAP_UHS (caps : Z) : Z := Z.land (Z.shiftr caps 9) 0x1f.
Definition HC_CAP_XPC (caps : Z) : Z := Z.land (Z.shiftr caps 16) 0x07.
Definition HC_CAP_CURRENT (caps : Z) : Z := Z.land (Z.shiftr caps 19) 0x0f.
Definition HC_CAP_DRV_TYPES (caps : Z) : Z := Z.land (Z.shiftr caps 24) 0x0f.

(** ** Tables *)

Definition sd_tran_speed_fu : list Z := [10000; 100000; 1000000; 10000000; 0; 0; 0; 0].
Definition sd_tran_speed_mf : list Z := [0; 10; 12; 13; 15; 20; 25; 30; 35; 40; 45; 50; 55; 60; 70; 80].
Definition sd_errata : list sdio_errata :=
  [{| er_pnm := chars "SD0"; er_mid := 0x27; er_oid := WILDCARD; er_prv_s := 0; er_prv_e := WILDCARD;
      er_erev := WILDCARD; er_errata := 0; er_rsettle := 50 |}].
(** The timing and the clock of a bus speed mode. *)
Definition sd_timings : list Z := [TIMING_SDR12; TIMING_SDR25; TIMING_SDR50; TIMING_SDR104; TIMING_DDR50].
Definition sd_dtrs : list Z :=
  [DTR_MAX_SDR12; DTR_MAX_SDR25; DTR_MAX_SDR50; DTR_MAX_SDR104; DTR_MAX_DDR50].

(** ** Registers *)

(** The product name: [n] characters, from bit 96 down. *)
Fixpoint parse_pnm (raw : list Z) (n : nat) (pos : Z) : res (list Z) :=
  match n with
  | O => mret []
  | S n => c ← sdio_extract_bits raw 128 pos 8; l ← parse_pnm raw n (pos - 8); mret (c :: l)
  end.

Definition sd_parse_cid (r : words4) : res sdio_cid :=
  let bits := sdio_extract_bits (words r) 128 in
  mid ← bits 120 8;
  oid ← bits 104 16;
  pnm ← parse_pnm (words r) 5 96;
  psn ← bits 24 32;
  prv ← bits 40 8;
  month ← bits 8 4;
  year ← bits 12 8;
  mret {| mid := mid; oid := oid; pnm := pnm; prv := prv; psn := psn; month := month;
          year := year + 2000 |}.

(** [tran_speed] as a rate. *)
Definition sd_dtr (speed : Z) : res Z :=
  fu ← get_or_bad (byte_at sd_tran_speed_fu (Z.land speed 7));
  mf ← get_or_bad (byte_at sd_tran_speed_mf (Z.land (Z.shiftr speed 3) 0xf));
  mret (u32 (fu * mf)).

(** "force to 512 byte block", and the numbers of sectors: [blksz], [csize], [csizem] to the block size
    and the sectors. *)
Definition force_512 (blksz csize csizem : Z) : Z * Z :=
  let '(blksz, csize) :=
    if (SDIO_DFLT_BLKSZ <? blksz) && (blksz mod SDIO_DFLT_BLKSZ =? 0) then
      (SDIO_DFLT_BLKSZ, u32 (csize * (blksz / SDIO_DFLT_BLKSZ)))
    else (blksz, csize) in
  (blksz, u32 (csize * csizem)).

(** [sd_parse_csd]: the status, the register, and whether the card has a high capacity. *)
Definition sd_parse_csd (r : words4) : res (Z * sdio_csd * bool) :=
  let bits := sdio_extract_bits (words r) 128 in
  structure ← bits 126 2; taac' ← bits 112 8; nsac' ← bits 104 8; speed ← bits 96 8; ccc' ← bits 84 12;
  rbl ← bits 80 4; rbp ← bits 79 1; wbm ← bits 78 1; rbm ← bits 77 1; dsr ← bits 76 1;
  let csd :=
    csd0 <| csd_structure := structure |> <| taac := taac' |> <| nsac := nsac' |>
         <| tran_speed := speed |> <| ccc := ccc' |> <| read_bl_len := rbl |> <| read_bl_partial := rbp |>
         <| write_blk_misalign := wbm |> <| read_blk_misalign := rbm |> <| dsr_imp := dsr |> in
  if negb ((structure =? CSD_STRUCT_VER_10) || (structure =? CSD_STRUCT_VER_20)) then
    mret (EINVAL, csd, false)
  else
    let high := structure =? CSD_STRUCT_VER_20 in
    size ← (if high then bits 48 22 else bits 62 12);
    mult ← (if high then mret 0 else bits 47 3);
    let '(blksz, sectors) :=
      if high then force_512 SDIO_DFLT_BLKSZ (size + 1) 1024
      else force_512 (2 ^ rbl) (size + 1) (2 ^ (mult + 2)) in
    ebe ← bits 46 1; ss ← bits 39 7; wgs ← bits 32 7; wge ← bits 31 1; r2w ← bits 26 3; wbl ← bits 22 4;
    wbp ← bits 21 1; wp ← bits 12 2;
    dtr ← sd_dtr speed;
    mret (EOK,
      csd <| c_size := size |> <| c_size_mult := mult |> <| erase_blk_en := ebe |> <| sector_size := ss |>
          <| wp_grp_size_ := wgs |> <| wp_grp_enable := wge |> <| r2w_factor := r2w |>
          <| write_bl_len := wbl |> <| write_bl_partial := wbp |> <| write_protect := wp |>
          <| csd_blksz := blksz |> <| csd_sectors := sectors |> <| dtr_max := dtr |>, high).

(** [n] words of a buffer, as the processor reads them, and their bytes swapped ([ENDIAN_BE32]). *)
Fixpoint words_of (n : nat) (buf : list Z) : list Z :=
  match n with
  | O => []
  | S n => le_word (bytes_of 4 buf) :: words_of n (drop 4 buf)
  end.
Definition ENDIAN_BE32 (w : Z) : Z := le_word (rev (le_bytes 4 w)).

(** [sd_parse_scr] of the swapped words: the register, and whether the card has CMD23. *)
Definition sd_parse_scr (raw : list Z) : res (sd_scr * bool) :=
  let bits := sdio_extract_bits raw 64 in
  structure ← bits 60 4; spec ← bits 56 4; dse ← bits 55 1; sec ← bits 52 3; widths ← bits 48 4;
  spec3 ← bits 47 1; exs ← bits 43 4; cmds ← bits 32 2;
  mret ({| scr_structure := structure; sd_spec := spec; data_stat_after_erase := dse;
           sd_security := sec; sd_bus_widths := widths; sd_spec3 := spec3; ex_security := exs;
           cmd_support := cmds |}, has cmds SCR_CMD23_SUP).

(** The part of [sd_read_status] that reads the register, [raw], whose words are swapped. *)
Definition sd_parse_status (old : sd_sds) (raw : list Z) : res sd_sds :=
  let bits := sdio_extract_bits raw 512 in
  au ← bits 428 4;
  e_size ← bits 408 16; e_offset ← bits 400 2; e_timeout ← bits 402 6;
  speed ← bits 440 8; grade ← bits 396 4;
  let s :=
    if negb (au =? 0) then
      let s := old <| au_size := 2 ^ (au + 4) |> in
      if negb (e_size =? 0) && negb (e_timeout =? 0) then
        s <| erase_offset := e_offset * 1000 |> <| erase_timeout := e_timeout * 1000 / e_size |>
      else s
    else old in
  mret (s <| speed_class := speed |> <| uhs_speed_grade := grade |>).

Definition sd_erase_grp_size (d : sdio_dev) : Z :=
  if negb (erase_blk_en (csd d) =? 0) then 512 else (sector_size (csd d) + 1) * 2 ^ write_bl_len (csd d).

(** ** Commands *)

Section Code.
Context {Bus : Type} `{HostEntry Bus}.
Variable send : sdio_cmd -> Z -> nat -> M Bus (Z * sdio_cmd).

(** The loop of [sdio_send_relative_addr]; [k] is [retries], plus one. *)
Fixpoint relative_addr_loop (k : nat) (c : sdio_cmd) : M Bus (Z * Z) :=
  '(r, c) ← send (sdio_setup_cmd c (Z.lor SCF_CTYPE_BCR SCF_RSP_R6) SD_SEND_RELATIVE_ADDR 0)
              SDIO_TIME_DEFAULT SDIO_CMD_RETRIES;
  if negb (r =? EOK) then mret (r, 0)
  else
    let addr := Z.shiftr (w0 (rsp c)) 16 in
    match k with
    | S (S _ as k') => if negb (addr =? 0) then mret (r, addr) else relative_addr_loop k' c
    | _ => mret (r, addr)
    end.
Definition sdio_send_relative_addr : M Bus Z :=
  c ← sdio_alloc_cmd;
  match c with
  | None => mret ENOMEM
  | Some c =>
      r ← (
        '(r, addr) ← relative_addr_loop (S (Z.to_nat SD_SEND_RELATIVE_ADDR_RETRIES)) c;
        _ ← upd_dev (fun d => d <| rca := addr |>);
        mret (if addr =? 0 then EIO else r));
      _ ← sdio_free_cmd;
      mret r
  end.

Definition sd_voltage_switch : M Bus Z :=
  c ← sdio_alloc_cmd;
  match c with
  | None => mret ENOMEM
  | Some c =>
      r ← (
        send_ send (sdio_setup_cmd c (Z.lor SCF_CTYPE_AC SCF_RSP_R1) SD_VOLTAGE_SWITCH 0) SDIO_TIME_DEFAULT 0);
      _ ← sdio_free_cmd;
      mret r
  end.

(** The argument of [sd_switch]. *)
Definition switch_arg (mode grp val : Z) : Z :=
  let arg := Z.lor (u32 (Z.shiftl mode 31)) 0x00ffffff in
  let arg := Z.land arg (bnot 32 (Z.shiftl 0xf (grp * 4))) in
  u32 (Z.lor arg (Z.shiftl val (grp * 4))).

(** [sd_switch]: the status, and the status of the card's functions. *)
Definition sd_switch (mode grp val : Z) : M Bus (Z * list Z) :=
  c ← sdio_alloc_cmd;
  match c with
  | None => mret (ENOMEM, zeros SD_SF_STATUS_SIZE)
  | Some c =>
      ok ← have_memory;
      if negb ok then _ ← sdio_free_cmd; mret (ENOMEM, zeros SD_SF_STATUS_SIZE)
      else
        r ← (
          let c := sdio_setup_cmd c (Z.lor SCF_CTYPE_ADTC SCF_RSP_R1) SD_SWITCH_FUNC (switch_arg mode grp val) in
          let c := sdio_setup_cmd_io c SCF_DIR_IN 1 SD_SF_STATUS_SIZE (zeros SD_SF_STATUS_SIZE) in
          '(r, c) ← send c SDIO_TIME_DEFAULT 0;
          if r =? EOK then
            let ss := bytes_of SD_SF_STATUS_SIZE (data c) in
            if mode =? SD_SF_MODE_SET then
              let busy := Z.lor (default 0 (byte_at ss (29 - grp * 2)))
                                (Z.shiftl (default 0 (byte_at ss (28 - grp * 2))) 8) in
              b ← lift (bit_at val);
              mret (if has busy b then EBUSY else EOK, ss)
            else mret (EOK, ss)
          else mret (r, zeros SD_SF_STATUS_SIZE));
        _ ← sdio_free_cmd;
        mret r
  end.

Definition sd_app_cmd : M Bus Z :=
  c ← sdio_alloc_cmd;
  match c with
  | None => mret ENOMEM
  | Some c =>
      r ← (
        d ← get_dev;
        let ctype := if rca d =? 0 then SCF_CTYPE_BC else SCF_CTYPE_BCR in
        send_ send (sdio_setup_cmd c (Z.lor ctype SCF_RSP_R1) SD_APP_CMD (Z.shiftl (rca d) 16))
          SDIO_TIME_DEFAULT 0);
      _ ← sdio_free_cmd;
      mret r
  end.

(** A register of [size] bytes, by an application command. *)
Definition app_register (op size : Z) : M Bus (Z * list Z) :=
  c ← sdio_alloc_cmd;
  match c with
  | None => mret (ENOMEM, [])
  | Some c =>
      ok ← have_memory;
      if negb ok then _ ← sdio_free_cmd; mret (ENOMEM, [])
      else
        r ← (
          let c := sdio_setup_cmd c (Z.lor SCF_CTYPE_ADTC (Z.lor SCF_RSP_R1 SCF_APP_CMD)) op 0 in
          let c := sdio_setup_cmd_io c SCF_DIR_IN 1 size (zeros size) in
          '(r, c) ← send c SDIO_TIME_DEFAULT 0;
          mret (r, bytes_of size (data c)));
        _ ← sdio_free_cmd;
        mret r
  end.
Definition sd_app_send_scr : M Bus Z :=
  '(r, buf) ← app_register SD_AC_SEND_SCR SD_SCR_SIZE;
  _ ← when (r =? EOK) (upd_dev (fun d => d <| raw_scr := words_of 2 buf |>));
  mret r.
Definition sd_app_sd_status : M Bus (Z * list Z) :=
  '(r, buf) ← app_register SD_AC_SD_STATUS SD_STATUS_SIZE;
  mret (r, words_of 16 buf).

Definition sd_erase (flgs lba nlba : Z) : M Bus Z :=
  c ← sdio_alloc_cmd;
  match c with
  | None => mret ENOMEM
  | Some c =>
      r ← (
        if nlba =? 0 then mret EOK
        else
          d ← get_dev;
          let addr (d : sdio_dev) lba :=
            if has (dev_caps d) DEV_CAP_HC then lba else u64 (lba * csd_blksz (csd d)) in
          '(r, c) ← send (sdio_setup_cmd c (Z.lor SCF_CTYPE_AC SCF_RSP_R1) SD_ERASE_WR_BLK_START (addr d lba))
                      SDIO_TIME_DEFAULT 0;
          if negb (r =? EOK) then mret r
          else
            d ← get_dev;
            let timeout := sd_erase_timeout d nlba in
            let lba := u64 (lba + nlba - 1) in
            '(r, c) ← send (sdio_setup_cmd c (Z.lor SCF_CTYPE_AC SCF_RSP_R1) SD_ERASE_WR_BLK_END (addr d lba))
                        SDIO_TIME_DEFAULT 0;
            if negb (r =? EOK) then mret r
            else
              send_ send (sdio_setup_cmd c (Z.lor SCF_CTYPE_AC (Z.lor SCF_RSP_R1B SCF_WAIT_DRDY)) SD_ERASE flgs)
                timeout 0);
      _ ← sdio_free_cmd;
      mret r
  end.

Definition sd_send_if_cond (vhs : Z) : M Bus Z :=
  c ← sdio_alloc_cmd;
  match c with
  | None => mret ENOMEM
  | Some c =>
      r ← (
        '(r, c) ← send (sdio_setup_cmd c (Z.lor SCF_CTYPE_BCR SCF_RSP_R7) SD_SEND_IF_COND
                          (Z.lor (Z.shiftl vhs 8) SD_SIC_TEST_PATTERN)) SDIO_TIME_DEFAULT 0;
        mret (if r =? EOK then
                if Z.land (w0 (rsp c)) 0xff =? SD_SIC_TEST_PATTERN then EOK else EIO
              else if status c =? CS_CMD_TO_ERR then ETIMEDOUT else EIO));
      _ ← sdio_free_cmd;
      mret r
  end.

(** The loop of [sd_app_send_op_cond]; [k] is [retry]. *)
Fixpoint op_cond_loop (k : nat) (c : sdio_cmd) (ocr : Z) : M Bus (Z * sdio_cmd) :=
  match k with
  | O => mret (ETIMEDOUT, c)
  | S k =>
      '(r, c) ← send c SDIO_TIME_DEFAULT SDIO_CMD_RETRIES;
      if negb (r =? EOK) then mret (r, c)
      else if (ocr =? 0) || has (w0 (rsp c)) OCR_PWRUP_CMP then mret (r, c)
      else _ ← delay 10; op_cond_loop k c ocr
  end.
Definition sd_app_send_op_cond (ocr : Z) : M Bus (Z * Z) :=
  c ← sdio_alloc_cmd;
  match c with
  | None => mret (ENOMEM, 0)
  | Some c =>
      r ← (
        let c := sdio_setup_cmd c (Z.lor SCF_CTYPE_BCR (Z.lor SCF_RSP_R3 SCF_APP_CMD)) SD_AC_SEND_OP_COND ocr in
        '(r, c) ← op_cond_loop (Z.to_nat OCR_BUSY_RETRIES) c ocr;
        mret (r, w0 (rsp c)));
      _ ← sdio_free_cmd;
      mret r
  end.

(** ** What the card can do *)

Definition upd_swcaps (f : sd_switch_cap -> sd_switch_cap) : M Bus unit :=
  upd_dev (fun d => d <| swcaps := f (swcaps d) |>).

Definition sd_read_switch : M Bus Z :=
  d ← get_dev;
  if negb (has (ccc (csd d)) CCC_SWITCH) then mret EOK
  else
    '(r, ss) ← sd_switch SD_SF_MODE_CHECK SD_SF_GRP_BUS_SPD SD_SF_CUR_FCN;
    if negb (r =? EOK) then mret r
    else
      let at_ i := default 0 (byte_at ss i) in
      h ← get_hc;
      _ ← when (has (at_ 13) 2)
            (_ ← upd_swcaps (fun w => w <| sw_dtr_max_hs := 50000000 |>);
             when (has (hc_caps h) HC_CAP_HS) (set_cap DEV_CAP_HS));
      _ ← when (negb (sd_spec3 (scr d) =? 0))
            (_ ← upd_swcaps (fun w => w <| sw_bus_mode := Z.land (at_ 13) SD_BUS_MODE_MSK |>
                                        <| sw_drv_type := Z.land (at_ 9) SD_DRV_TYPE_MSK |>
                                        <| curr_limit := Z.land (at_ 7) SD_CURR_LIMIT_MSK |>);
             when (has (Z.land (at_ 13) SD_BUS_MODE_MSK) SD_BUS_MODE_UHS) (set_cap DEV_CAP_UHS));
      _ ← upd_swcaps (fun w => w <| cmd_sys := at_ 11 |>);
      _ ← when (has (at_ 11) SD_CMD_SYS_EC || has (at_ 11) SD_CMD_SYS_ASSD) (set_cap DEV_CAP_ASSD);
      mret r.

Definition sd_read_status : M Bus Z :=
  d ← get_dev;
  if negb (has (ccc (csd d)) CCC_APP_SPEC) then mret EOK
  else
    '(r, raw) ← sd_app_sd_status;
    if negb (r =? EOK) then mret r
    else
      s ← lift (sd_parse_status (sds d) (map ENDIAN_BE32 raw));
      _ ← upd_dev (fun d => d <| sds := s |>);
      mret r.

(** ** Modes *)

(** A byte of the status of [sd_switch] was as it should be. *)
Definition switch_and_check (grp val : Z) (ok : list Z -> bool) (k : M Bus unit) : M Bus Z :=
  '(r, ss) ← sd_switch SD_SF_MODE_SET grp val;
  if r =? EOK then if ok ss then _ ← k; mret EOK else mret EIO
  else mret r.
Definition low_nibble (ss : list Z) (i : Z) : Z := Z.land (default 0 (byte_at ss i)) 0xf.
Definition high_nibble (ss : list Z) (i : Z) : Z := Z.land (Z.shiftr (default 0 (byte_at ss i)) 4) 0xf.

Definition sd_switch_hs : M Bus Z :=
  switch_and_check SD_SF_GRP_BUS_SPD 1 (fun ss => low_nibble ss 16 =? 1) (mret tt).

Definition sd_app_set_bus_width (width : Z) : M Bus Z :=
  c ← sdio_alloc_cmd;
  match c with
  | None => mret ENOMEM
  | Some c =>
      r ← (
        send_ send (sdio_setup_cmd c (Z.lor SCF_CTYPE_AC (Z.lor SCF_APP_CMD SCF_RSP_R1)) SD_AC_SET_BUS_WIDTH width)
          SDIO_TIME_DEFAULT SDIO_CMD_RETRIES);
      _ ← sdio_free_cmd;
      mret r
  end.

Definition sd_set_bus_width (width : Z) : M Bus Z :=
  h ← get_hc;
  d ← get_dev;
  let bus_width :=
    if width =? BUS_WIDTH_1 then Some SD_BUS_WIDTH_1
    else if width =? BUS_WIDTH_4 then
      if has (hc_caps h) HC_CAP_BW4 && has (sd_bus_widths (scr d)) SCR_BUS_WIDTH_4 then Some SD_BUS_WIDTH_4
      else None
    else None in
  match bus_width with
  | None => mret EINVAL
  | Some w => ok! sd_app_set_bus_width w; _ ← sdio_bus_width BUS_WIDTH_4; mret EOK
  end.

Definition sd_set_drv_type (bus_spd drv_type : Z) : M Bus Z :=
  h ← get_hc;
  match e_driver_strength with
  | Some strength =>
      if HC_CAP_DRV_TYPES (hc_caps h) =? 0 then mret EOK
      else
        let idx := if bus_spd =? 0 then 0 else fls bus_spd - 1 in
        match sd_timings !! Z.to_nat idx with
        | None => mret EINVAL
        | Some t =>
            drv_type ← on_bus (strength t (Z.lor drv_type SD_DRV_TYPE_B));
            let strength := fls drv_type - 1 in
            switch_and_check SD_SF_GRP_DRV_STR (u8 strength) (fun ss => low_nibble ss 15 =? strength)
              (_ ← sdio_drv_type drv_type; mret tt)
        end
  | None => mret EOK
  end.

Definition sd_set_bus_speed_mode (bus_spd : Z) : M Bus Z :=
  if bus_spd =? 0 then mret EOK
  else
    let idx := fls bus_spd - 1 in
    match sd_timings !! Z.to_nat idx, sd_dtrs !! Z.to_nat idx with
    | Some t, Some dtr =>
        switch_and_check SD_SF_GRP_BUS_SPD (u8 idx) (fun ss => low_nibble ss 16 =? idx)
          (_ ← sdio_timing t; _ ← sdio_clock dtr; mret tt)
    | _, _ => mret EINVAL
    end.

Definition sd_set_current_limit (bus_spd limit : Z) : M Bus Z :=
  h ← get_hc;
  let limit := Z.land (HC_CAP_CURRENT (hc_caps h)) limit in
  let idx :=
    if negb (limit =? 0) && has bus_spd SD_BUS_MODE_UHS then fls limit - 1 else 0 in
  switch_and_check SD_SF_GRP_CUR_LMT (u8 idx) (fun ss => high_nibble ss 15 =? idx) (mret tt).

Definition sd_init_assd : M Bus Z :=
  d ← get_dev;
  let idx := ffs (Z.land (cmd_sys (swcaps d)) (Z.lor SD_CMD_SYS_EC SD_CMD_SYS_ASSD)) - 1 in
  switch_and_check SD_SF_GRP_CMD_EXT (u8 idx) (fun ss => high_nibble ss 16 =? idx)
    (when (negb (rsettle d =? 0)) (delay (rsettle d))).

(** [sd_select_bus_mode], of the controller's capabilities. *)
Definition sd_select_bus_mode (caps bus_mode : Z) : Z :=
  let m := Z.land (HC_CAP_UHS caps) bus_mode in
  if has m SD_BUS_MODE_SDR104 then SD_BUS_MODE_SDR104
  else if has m SD_BUS_MODE_DDR50 then SD_BUS_MODE_DDR50
  else if has m SD_BUS_MODE_SDR50 then SD_BUS_MODE_SDR50
  else if has m SD_BUS_MODE_SDR25 then SD_BUS_MODE_SDR25
  else SD_BUS_MODE_SDR12.

Definition sd_init_uhs : M Bus Z :=
  ok! sd_set_bus_width BUS_WIDTH_4;
  h ← get_hc;
  d ← get_dev;
  let mode := sd_select_bus_mode (hc_caps h) (sw_bus_mode (swcaps d)) in
  ok! sd_set_drv_type mode (sw_drv_type (swcaps d));
  d ← get_dev;
  ok! sd_set_current_limit mode (curr_limit (swcaps d));
  ok! sd_set_bus_speed_mode mode;
  _ ← sdio_preset 1;
  _ ← sdio_tune SD_SEND_TUNING_BLOCK;
  _ ← set_flag DEV_FLAG_UHS;
  mret EOK.

(** The middle part of [sd_init_bus], for a card without UHS. *)
Definition sd_init_hs : M Bus Z :=
  d ← get_dev;
  let low := (TIMING_LS, dtr_max (csd d)) in
  ok! (if has (dev_caps d) DEV_CAP_HS then ok! sd_switch_hs; _ ← set_flag DEV_FLAG_HS; mret EOK
       else mret EOK);
  h ← get_hc;
  d' ← get_dev;
  let '(timing, dtr) :=
    if has (dev_caps d) DEV_CAP_HS then (TIMING_HS, sw_dtr_max_hs (swcaps d')) else low in
  ok! (if has (hc_caps h) HC_CAP_BW4 && has (sd_bus_widths (scr d')) SCR_BUS_WIDTH_4 then
         sd_set_bus_width BUS_WIDTH_4
       else mret EOK);
  _ ← sdio_timing timing;
  _ ← sdio_clock dtr;
  _sdio_set_block_length send SDIO_DFLT_BLKSZ.

Definition sd_init_bus : M Bus Z :=
  h ← get_hc;
  ok! (if signal_voltage (settings h) =? SIGNAL_VOLTAGE_1_8 then sd_init_uhs else sd_init_hs);
  d ← get_dev;
  if has (dev_caps d) DEV_CAP_ASSD then sd_init_assd else mret EOK.

Definition sd_capabilities : M Bus Z :=
  ok! sd_app_send_scr;
  _ ← upd_dev (fun d => d <| raw_scr := map ENDIAN_BE32 (raw_scr d) |>);
  d ← get_dev;
  '(s, cmd23) ← lift (sd_parse_scr (raw_scr d));
  _ ← upd_dev (fun d => d <| scr := s |>);
  _ ← when cmd23 (set_cap DEV_CAP_CMD23);
  ok! sd_read_status;
  ok! sd_read_switch;
  _ ← upd_dev (fun d => d <| erase_size := u32 (sd_erase_grp_size d) |>);
  mret EOK.

Definition sd_lock_unlock (action : Z) (pw : list Z) : M Bus Z :=
  old ← get_dev;
  _ ← when (negb (zlen pw =? 0)) (upd_dev (fun d => d <| pwd := pw |>));
  r ← _sdio_lock_unlock send action pw;
  d ← get_dev;
  if has (dev_flags d) DEV_FLAG_LOCKED then mret (if action =? SD_LU_UNLOCK then EACCES else r)
  else if has (dev_flags old) DEV_FLAG_LOCKED then ok! sd_capabilities; ok! sd_init_bus; mret EOK
  else mret r.

Definition sd_unlock : M Bus Z :=
  d ← get_dev;
  if has (dev_flags d) DEV_FLAG_LOCKED && negb (zlen (pwd d) =? 0) then
    _sdio_lock_unlock send SD_LU_UNLOCK (pwd d)
  else mret EOK.

(** ** Identification *)

(** The loop of [sd_init_device] that switches the card to 1.8 V; it has no bound of its own.  The status,
    and whether the function goes on. *)
Fixpoint op_cond_switch (fuel : nat) (ocr : Z) : M Bus Z :=
  match fuel with
  | O => lift (Err NoFuel)
  | S fuel =>
      '(r, rocr) ← sd_app_send_op_cond ocr;
      if negb (r =? EOK) then mret r
      else if Z.land rocr (Z.lor OCR_HCS OCR_S18A) =? Z.lor OCR_HCS OCR_S18A then
        r ← sd_voltage_switch;
        if negb (r =? EOK) then op_cond_switch fuel (Z.land ocr (bnot 32 OCR_S18R))
        else
          r ← sdio_signal_voltage SIGNAL_VOLTAGE_1_8;
          if negb (r =? EOK) then _ ← set_flag DEV_FLAG_SIG_ERR; mret r else mret EOK
      else mret EOK
  end.

(** The OCR that [sd_init_device] asks the card for, [v2] for a card of version 2. *)
Definition sd_init_ocr (h : sdio_hc) (d : sdio_dev) (again v2 : bool) (ocr : Z) : Z :=
  let ocr := if v2 then Z.lor ocr OCR_HCS else ocr in
  let ocr :=
    if negb (has (dev_flags d) DEV_FLAG_SIG_ERR) && negb (HC_CAP_UHS (hc_caps h) =? 0)
       && has (hc_caps h) HC_CAP_SV_1_8V then
      if negb again || negb (sw_bus_mode (swcaps d) =? 0) then Z.lor ocr OCR_S18R else ocr
    else ocr in
  if negb (HC_CAP_XPC (hc_caps h) =? 0) then Z.lor ocr OCR_XPC else ocr.

(** The registers of a card that is not known yet. *)
Definition sd_new_card : M Bus Z :=
  d ← get_dev;
  c ← lift (sd_parse_cid (raw_cid d));
  _ ← upd_dev (fun d => d <| cid := c |>);
  ok! sdio_send_csd send;
  d ← get_dev;
  '(r, c, high) ← lift (sd_parse_csd (raw_csd d));
  _ ← upd_dev (fun d => d <| csd := c |>);
  _ ← when high (set_cap DEV_CAP_HC);
  if negb (r =? EOK) then mret r
  else
    d ← get_dev;
    match sdio_device_errata d sd_errata with
    | Some e =>
        _ ← sdio_reconcile_errata e;
        _ ← upd_dev (fun d => d <| rsettle := er_rsettle e |>);
        mret EOK
    | None => mret EOK
    end.

(** [sd_init_device]; [again] is [flgs], for a card that was there before. *)
Definition sd_init_device (fuel : nat) (ocr : Z) (again : bool) : M Bus Z :=
  _ ← upd_dev (fun d => d <| rca := 0 |>);
  _ ← sd_send_if_cond SD_SIC_VHS_27_36V;
  _ ← sdio_go_idle send;
  r ← sd_send_if_cond SD_SIC_VHS_27_36V;
  if negb (r =? EOK) && negb (r =? ETIMEDOUT) then mret EIO
  else
    h ← get_hc;
    d ← get_dev;
    ok! op_cond_switch fuel (sd_init_ocr h d again (r =? EOK) ocr);
    '(r, c) ← sdio_all_send_cid send;
    d ← get_dev;
    if negb (r =? EOK) then mret r
    else if again && negb (bool_decide (raw_cid d = c)) then mret ENXIO
    else
      _ ← upd_dev (fun d => d <| raw_cid := c |>);
      ok! sdio_send_relative_addr;
      _ ← sdio_bus_mode BUS_MODE_PUSH_PULL;
      ok! (if again then mret EOK else sd_new_card);
      d ← get_dev;
      ok! sdio_select_card send (rca d);
      ok! sd_unlock;
      d ← get_dev;
      if has (dev_flags d) DEV_FLAG_LOCKED then mret EOK
      else
        ok! (if again then mret EOK else sd_capabilities);
        sd_init_bus.

(** What [sd_bus_error] lowers. *)
Definition sd_lower (h : sdio_hc) (d : sdio_dev) : sdio_dev :=
  if has (dev_flags d) DEV_FLAG_UHS then
    let w := swcaps d in
    let m := sw_bus_mode w in
    let w := w <| sw_bus_mode := Z.land m (bnot 32 (sd_select_bus_mode (hc_caps h) m)) |> in
    d <| dev_flags := Z.land (dev_flags d) (bnot 32 DEV_FLAG_UHS) |> <| swcaps := w |>
  else if has (dev_flags d) DEV_FLAG_HS then
    let w := swcaps d in
    let w := w <| sw_dtr_max_hs := Z.max DTR_MAX_HS26 (u32 (sw_dtr_max_hs w - DTR_HS_DEC)) |> in
    d <| dev_flags := Z.land (dev_flags d) (bnot 32 DEV_FLAG_HS) |> <| swcaps := w |>
  else
    let c := csd d in
    let c := c <| dtr_max := Z.max DTR_MIN_LS (u32 (dtr_max c - u32 (dtr_max c + 9) / 10)) |> in
    d <| csd := c |>.

Definition sd_bus_error : M Bus Z := h ← get_hc; _ ← upd_dev (sd_lower h); sd_init_bus.

Definition sd_ident (fuel : nat) : M Bus Z :=
  _ ← upd_dev (fun d => d <| rca := 0 |>);
  _ ← sdio_go_idle send;
  _ ← sd_send_if_cond SD_SIC_VHS_27_36V;
  '(r, ocr) ← sd_app_send_op_cond 0;
  if negb (r =? EOK) then mret r
  else
    ok! sdio_select_voltage ocr;
    d ← get_dev;
    sd_init_device fuel (dev_ocr d) false.

End Code.
