(* ===== verification/SdioMmc.v ===== *)
(** * SdioMmc: MMC cards (devb/sdmmc/sdiodi/mmc.c).

    The registers of a card, its commands, its identification and the choice of its bus mode.  Every
    function that sends commands takes [send], as in [Sdio]. *)

From coqutil Require Import Datatypes.RecordSetters.
From S2P Require Import Prelude.
From S2P Require Import SdioConst.
From S2P Require Import Sdio.
From S2P Require Import SdioSd.

(** ** Tables *)

Definition mmc_tran_speed_fu : list Z := [10000; 100000; 1000000; 10000000; 0; 0; 0; 0].
Definition mmc_tran_speed_mf : list Z := [0; 10; 12; 13; 15; 20; 25; 30; 35; 40; 45; 50; 55; 60; 70; 80].

(** An entry of [mmc_errata]: the name, the manufacturer, the last revision, the revision of the
    extended register, and the errata. *)
Definition mmc_erratum (name : string) (mid last rev what : Z) : sdio_errata :=
  {| er_pnm := chars name; er_mid := mid; er_oid := 0; er_prv_s := 0; er_prv_e := last; er_erev := rev;
     er_errata := what; er_rsettle := 0 |}.
Definition mmc_errata : list sdio_errata :=
  let both := Z.lor DEV_ERRATA_ACMD12 DEV_ERRATA_DISCARD_SUP in
  [mmc_erratum "MAG2GA" 0x15 6 ECSD_REV_V4_41 both;
   mmc_erratum "MAG2GA" 0x15 WILDCARD ECSD_REV_V4_41 DEV_ERRATA_DISCARD_SUP;
   mmc_erratum "MBG4GA" 0x15 6 ECSD_REV_V4_41 both;
   mmc_erratum "MBG4GA" 0x15 WILDCARD ECSD_REV_V4_41 DEV_ERRATA_DISCARD_SUP;
   mmc_erratum "MCG8GA" 0x15 WILDCARD ECSD_REV_V4_41 DEV_ERRATA_DISCARD_SUP;
   mmc_erratum "SEM08G" 0x45 WILDCARD WILDCARD DEV_ERRATA_DISCARD_SUP].

(** ** Registers *)

(** [mmc_parse_cid], of the version in the CSD: the status and the register. *)
Definition mmc_parse_cid (vers : Z) (r : words4) : res (Z * sdio_cid) :=
  let bits := sdio_extract_bits (words r) 128 in
  if vers <=? CSD_SPEC_VER_1 then
    mid ← bits 104 24; pnm ← parse_pnm (words r) 7 96; prv ← bits 40 8; month ← bits 12 4; year ← bits 8 4;
    mret (EOK, {| mid := mid; oid := 0; pnm := pnm; prv := prv; psn := 0; month := month;
                  year := year + 1997 |})
  else if vers <=? CSD_SPEC_VER_4 then
    mid ← bits 120 8; oid ← bits 104 8; pnm ← parse_pnm (words r) 6 96; prv ← bits 48 8; psn ← bits 16 32;
    month ← bits 12 4; year ← bits 8 4;
    mret (EOK, {| mid := mid; oid := oid; pnm := pnm; prv := prv; psn := psn; month := month;
                  year := year + 1997 |})
  else mret (EINVAL, cid0).

(** [tran_speed] as a rate. *)
Definition mmc_dtr (speed : Z) : res Z :=
  fu ← get_or_bad (byte_at mmc_tran_speed_fu (Z.land speed 7));
  mf ← get_or_bad (byte_at mmc_tran_speed_mf (Z.land (Z.shiftr speed 3) 0xf));
  mret (u32 (fu * mf)).

Definition mmc_parse_csd (r : words4) : res sdio_csd :=
  let bits := sdio_extract_bits (words r) 128 in
  structure ← bits 126 2; vers ← bits 122 4; taac' ← bits 112 8; nsac' ← bits 104 8; speed ← bits 96 8;
  ccc' ← bits 84 12; rbl ← bits 80 4; rbp ← bits 79 1; wbm ← bits 78 1; rbm ← bits 77 1; dsr ← bits 76 1;
  size ← bits 62 12; mult ← bits 47 3;
  b37 ← bits 37 5; b42 ← bits 42 5;
  let '(egm, ss, egs) :=
    if (structure =? CSD_STRUCT_VER_10) || (structure =? CSD_STRUCT_VER_11) then (1, b42, b37)
    else (b37, 0, b42) in
  wgs ← bits 32 7; wge ← bits 31 1; r2w ← bits 26 3; wbl ← bits 22 4; wbp ← bits 21 1; wp ← bits 12 2;
  let '(blksz, sectors) := force_512 (2 ^ rbl) (size + 1) (2 ^ (mult + 2)) in
  dtr ← mmc_dtr speed;
  mret (csd0 <| csd_structure := structure |> <| spec_vers := vers |> <| taac := taac' |>
             <| nsac := nsac' |> <| tran_speed := speed |> <| ccc := ccc' |> <| read_bl_len := rbl |>
             <| read_bl_partial := rbp |> <| write_blk_misalign := wbm |> <| read_blk_misalign := rbm |>
             <| dsr_imp := dsr |> <| c_size := size |> <| c_size_mult := mult |>
             <| erase_grp_mult := egm |> <| sector_size := ss |> <| erase_grp_size_ := egs |>
             <| wp_grp_size_ := wgs |> <| wp_grp_enable := wge |> <| r2w_factor := r2w |>
             <| write_bl_len := wbl |> <| write_bl_partial := wbp |> <| write_protect := wp |>
             <| csd_blksz := blksz |> <| csd_sectors := sectors |> <| dtr_max := dtr |>).

(** The extended register, in the steps of [mmc_parse_ext_csd]; each changes the device. *)
Section ExtCsd.
Variable raw : list Z.
Variable caps : Z.
Let at_ (i : Z) : Z := ecsd_at raw i.
Definition upd_ecsd (f : sdio_ecsd -> sdio_ecsd) (d : sdio_dev) : sdio_dev :=
  let e := f (ecsd d) in d <| ecsd := e |>.
Definition add_cap (b : bool) (c : Z) (d : sdio_dev) : sdio_dev :=
  if b then d <| dev_caps := Z.lor (dev_caps d) c |> else d.

(** From version 4.2 on: the sectors. *)
Definition ext_v42 (d : sdio_dev) : sdio_dev :=
  let n := u32 (Z.lor (at_ ECSD_SEC_CNT)
             (Z.lor (Z.shiftl (at_ (ECSD_SEC_CNT + 1)) 8)
                (Z.lor (Z.shiftl (at_ (ECSD_SEC_CNT + 2)) 16) (Z.shiftl (at_ (ECSD_SEC_CNT + 3)) 24)))) in
  add_cap (ECSD_SEC_CNT_2GB <? n) DEV_CAP_HC (upd_ecsd (fun e => e <| ecsd_sectors := n |>) d).

(** From version 4.3 on: partitions, the access size, sleeping. *)
Definition ext_v43 (d : sdio_dev) : res sdio_dev :=
  let part := Z.land (at_ ECSD_PART_CONFIG) ECSD_PC_ACCESS_MSK in
  let d := upd_ecsd (fun e => e <| part_config := part |>) d <| pactive := part |> in
  acc ← (if at_ ECSD_ACC_SIZE =? 0 then mret (acc_size (ecsd d))
         else b ← bit_at (at_ ECSD_ACC_SIZE - 1); mret (u32 (512 * b)));
  let d := add_cap true DEV_CAP_SLEEP (upd_ecsd (fun e => e <| acc_size := acc |>) d) in
  let t := at_ ECSD_S_A_TIMEOUT in
  mret (if negb (t =? 0) && (t <=? 0x17) then upd_ecsd (fun e => e <| s_a_timeout := 2 ^ t |>) d else d).

(** From version 4.4 on: trimming and secure erasing. *)
Definition ext_v44 (d : sdio_dev) : sdio_dev :=
  let f := at_ ECSD_SEC_FEATURE_SUPPORT in
  add_cap (has f ECSD_SEC_ER_EN) DEV_CAP_SECURE (add_cap (has f ECSD_SEC_GB_CL_EN) DEV_CAP_TRIM d).

(** From version 4.41 on: background operations, the year. *)
Definition ext_v441 (d : sdio_dev) : sdio_dev :=
  let d :=
    if has (at_ ECSD_BKOPS_SUPPORTED) ECSD_BKOPS_SUP then
      let d := add_cap true DEV_CAP_BKOPS d in
      if has (at_ ECSD_BKOPS_EN) ECSD_BKOPS_ENABLE then
        d <| dev_flags := Z.lor (dev_flags d) DEV_FLAG_BKOPS |>
      else d
    else d in
  if year (cid d) <? MDT_YEAR_2010 then
    let c := cid d in
    let c := c <| year := year c + (MDT_YEAR_2013 - MDT_YEAR_1997) |> in d <| cid := c |>
  else d.

(** From version 4.5 on: the native block size, the cache, sanitizing; [None] for a bad block size. *)
Definition ext_v45 (d : sdio_dev) : option sdio_dev :=
  let native := Z.land (at_ ECSD_NATIVE_SECTOR_SIZE) ECSD_NATIVE_SECTOR_MSK in
  d ← (if has (at_ ECSD_USE_NATIVE_SECTOR) ECSD_USE_NATIVE_SECTOR_EN then
         if native =? ECSD_NATIVE_SECTOR_512 then
           Some (upd_ecsd (fun e => e <| ecsd_blksz := SDIO_BLKSZ_512 |>) d)
         else if native =? ECSD_NATIVE_SECTOR_4K then
           Some (upd_ecsd (fun e => e <| ecsd_blksz := SDIO_BLKSZ_4K |>) d)
         else None
       else Some d);
  let cache := existsb (fun i => negb (at_ (ECSD_CACHE_SIZE + i) =? 0)) [0; 1; 2; 3] in
  let d := add_cap cache DEV_CAP_CACHE d in
  let d := upd_ecsd (fun e => e <| driver_strength_ := at_ ECSD_DRIVER_STRENGTH |>) d in
  let d := add_cap (has (at_ ECSD_SEC_FEATURE_SUPPORT) ECSD_SEC_SANITIZE) DEV_CAP_SANITIZE d in
  Some (add_cap true DEV_CAP_PWROFF_NOTIFY (add_cap true DEV_CAP_DISCARD d)).

(** A mode of the controller and the card, at 1.8 V or at 1.2 V. *)
Definition both_can (hc_cap any at18 at12 v18 : Z) (type : Z) : bool :=
  has caps hc_cap && has type any
  && ((has caps v18 && has type at18) || (has caps HC_CAP_SV_1_2V && has type at12)).

(** The modes. *)
Definition ext_modes (d : sdio_dev) : sdio_dev :=
  let type := Z.land (at_ ECSD_CARD_TYPE) ECSD_CARD_TYPE_MSK in
  let d := upd_ecsd (fun e => e <| card_type := type |>) d in
  let d :=
    if both_can HC_CAP_HS400 ECSD_CARD_TYPE_HS400 ECSD_CARD_TYPE_HS400_1_8V ECSD_CARD_TYPE_HS400_1_2V
         HC_CAP_SV_1_8V type then
      upd_ecsd (fun e => e <| ecsd_dtr_max_hs := DTR_MAX_HS400 |>)
        (add_cap true (Z.lor DEV_CAP_HS400 DEV_CAP_HS) d)
    else d in
  let d :=
    if both_can HC_CAP_HS200 ECSD_CARD_TYPE_HS200 ECSD_CARD_TYPE_HS200_1_8V ECSD_CARD_TYPE_HS200_1_2V
         HC_CAP_SV_1_8V type then
      upd_ecsd (fun e => e <| ecsd_dtr_max_hs := DTR_MAX_HS200 |>)
        (add_cap true (Z.lor DEV_CAP_HS200 DEV_CAP_HS) d)
    else d in
  let d :=
    if negb (has (dev_caps d) DEV_CAP_HS) && has caps HC_CAP_HS && has type ECSD_CARD_TYPE_52MHZ then
      upd_ecsd (fun e => e <| ecsd_dtr_max_hs := DTR_MAX_HS52 |>) (add_cap true DEV_CAP_HS d)
    else d in
  let d :=
    if negb (has (dev_caps d) DEV_CAP_HS) then
      upd_ecsd (fun e => e <| ecsd_dtr_max_hs := DTR_MAX_HS26 |>) d
    else d in
  let d :=
    add_cap (both_can HC_CAP_DDR50 ECSD_CARD_TYPE_DDR ECSD_CARD_TYPE_DDR_1_8V ECSD_CARD_TYPE_DDR_1_2V
               (Z.lor HC_CAP_SV_3_0V HC_CAP_SV_1_8V) type) DEV_CAP_DDR50 d in
  upd_ecsd (fun e =>
    e <| erase_grp_def := at_ ECSD_ERASE_GRP_DEF |> <| hc_erase_group_size := at_ ECSD_ERASE_GRP_SIZE |>
      <| hc_wp_grp_size := at_ ECSD_HC_WP_GRP_SIZE |> <| user_wp := at_ ECSD_USER_WP |>) d.

(** [mmc_parse_ext_csd]: the status and the device. *)
Definition mmc_parse_ext_csd (d : sdio_dev) : res (Z * sdio_dev) :=
  let rev := at_ ECSD_REV in
  let from v (f : sdio_dev -> sdio_dev) (d : sdio_dev) := if v <=? rev then f d else d in
  let d := d <| ecsd := ecsd0 <| ext_csd_rev := rev |> <| ecsd_blksz := SDIO_DFLT_BLKSZ |> |>
             <| pactive := 0 |> in
  let d := from ECSD_REV_V4_2 ext_v42 (add_cap true DEV_CAP_CMD23 d) in
  d ← (if ECSD_REV_V4_3 <=? rev then ext_v43 d else mret d);
  let d := from ECSD_REV_V4_41 ext_v441 (from ECSD_REV_V4_4 ext_v44 d) in
  match (if ECSD_REV_V4_5 <=? rev then ext_v45 d else Some d) with
  | None => mret (EINVAL, d)
  | Some d => mret (EOK, ext_modes d)
  end.
End ExtCsd.

(** ** Commands *)

Section Code.
Context {Bus : Type} `{HostEntry Bus}.
Variable send : sdio_cmd -> Z -> nat -> M Bus (Z * sdio_cmd).

Definition mmc_switch (cmdset mode index value timeout : Z) : M Bus Z :=
  c ← sdio_alloc_cmd;
  match c with
  | None => mret ENOMEM
  | Some c =>
      r ← (
        let a := Z.lor (u32 (Z.shiftl mode 24))
                   (Z.lor (u32 (Z.shiftl index 16)) (Z.lor (u32 (Z.shiftl value 8)) cmdset)) in
        ok! send_ send (sdio_setup_cmd c (Z.lor SCF_CTYPE_AC SCF_RSP_R1B) MMC_SWITCH a)
              SDIO_TIME_DEFAULT SDIO_CMD_RETRIES;
        _ ← delay 1;
        wait_card_status send CDS_READY_FOR_DATA CDS_READY_FOR_DATA timeout);
      _ ← sdio_free_cmd;
      mret r
  end.

(** A byte of the extended register is written. *)
Definition write_ecsd (index value timeout : Z) : M Bus Z :=
  mmc_switch MMC_SWITCH_CMDSET_DFLT MMC_SWITCH_MODE_WRITE index value timeout.

Definition mmc_set_partition (partition : Z) : M Bus Z :=
  d ← get_dev;
  if pactive d =? partition then mret EOK
  else
    ok! write_ecsd ECSD_PART_CONFIG partition SDIO_TIME_DEFAULT;
    _ ← upd_dev (fun d => d <| pactive := partition |>);
    mret EOK.

Definition mmc_sleep_awake (sleep : bool) : M Bus Z :=
  c ← sdio_alloc_cmd;
  match c with
  | None => mret ENOMEM
  | Some c =>
      r ← (
        d ← get_dev;
        let a := u32 (Z.shiftl (rca d) 16) in
        let a := if sleep then Z.lor a MMC_SA_SLEEP else a in
        ok! send_ send (sdio_setup_cmd c (Z.lor SCF_CTYPE_AC SCF_RSP_R1B) MMC_SLEEP_AWAKE a) SDIO_TIME_DEFAULT 0;
        h ← get_hc;
        d ← get_dev;
        _ ← when (negb (has (hc_caps h) HC_CAP_BSY)) (delay (u32 (s_a_timeout (ecsd d) + 10000 - 1) / 10000));
        mret EOK);
      _ ← sdio_free_cmd;
      mret r
  end.

Definition mmc_cache (op timeout : Z) : M Bus Z :=
  if op =? SDIO_CACHE_DISABLE then
    ok! write_ecsd ECSD_CACHE_CTRL ECSD_CACHE_CTRL_DIS timeout; _ ← clr_flag DEV_FLAG_WCE; mret EOK
  else if op =? SDIO_CACHE_ENABLE then
    ok! write_ecsd ECSD_CACHE_CTRL ECSD_CACHE_CTRL_EN timeout; _ ← set_flag DEV_FLAG_WCE; mret EOK
  else if op =? SDIO_CACHE_FLUSH then
    d ← get_dev;
    if has (dev_flags d) DEV_FLAG_WCE then write_ecsd ECSD_FLUSH_CACHE ECSD_FLUSH_TRIGGER timeout
    else mret EOK
  else mret EINVAL.

Definition mmc_erase (partition flgs lba nlba : Z) : M Bus Z :=
  ok! mmc_set_partition partition;
  c ← sdio_alloc_cmd;
  match c with
  | None => mret ENOMEM
  | Some c =>
      r ← (
        if nlba =? 0 then mret EOK
        else
          d ← get_dev;
          let addr (d : sdio_dev) lba :=
            if has (dev_caps d) DEV_CAP_HC then lba else u64 (lba * csd_blksz (csd d)) in
          '(r, c) ← send (sdio_setup_cmd c (Z.lor SCF_CTYPE_AC SCF_RSP_R1) MMC_TAG_ERASE_GROUP_START (addr d lba))
                      SDIO_TIME_DEFAULT 0;
          if negb (r =? EOK) then mret r
          else
            d ← get_dev;
            timeout ← lift (mmc_erase_timeout d (u32 flgs) nlba);
            let timeout := u32 timeout in
            let lba := u64 (lba + nlba - 1) in
            '(r, c) ← send (sdio_setup_cmd c (Z.lor SCF_CTYPE_AC SCF_RSP_R1) MMC_TAG_ERASE_GROUP_END (addr d lba))
                        SDIO_TIME_DEFAULT 0;
            if negb (r =? EOK) then mret r
            else
              ok! send_ send (sdio_setup_cmd c (Z.lor SCF_CTYPE_AC (Z.lor SCF_RSP_R1B SCF_WAIT_DRDY)) MMC_ERASE flgs)
                    timeout 0;
              wait_card_status send (Z.lor CDS_READY_FOR_DATA CDS_CUR_STATE_MSK)
                (Z.lor CDS_READY_FOR_DATA CDS_CUR_STATE_TRAN) timeout);
      _ ← sdio_free_cmd;
      mret r
  end.

(** [mmc_send_ext_csd]: the status and the register. *)
Definition mmc_send_ext_csd : M Bus (Z * list Z) :=
  c ← sdio_alloc_cmd;
  match c with
  | None => mret (ENOMEM, [])
  | Some c =>
      ok ← have_memory;
      if negb ok then _ ← sdio_free_cmd; mret (ENOMEM, [])
      else
        r ← (
          let c := sdio_setup_cmd c (Z.lor SCF_CTYPE_ADTC SCF_RSP_R1) MMC_SEND_EXT_CSD 0 in
          let c := sdio_setup_cmd_io c SCF_DIR_IN 1 MMC_EXT_CSD_SIZE (zeros MMC_EXT_CSD_SIZE) in
          '(r, c) ← send c SDIO_TIME_DEFAULT 0;
          mret (r, bytes_of MMC_EXT_CSD_SIZE (data c)));
        _ ← sdio_free_cmd;
        mret r
  end.

Definition mmc_set_relative_addr (addr : Z) : M Bus Z :=
  c ← sdio_alloc_cmd;
  match c with
  | None => mret ENOMEM
  | Some c =>
      r ← (
        send_ send (sdio_setup_cmd c (Z.lor SCF_CTYPE_AC SCF_RSP_R1) MMC_SET_RELATIVE_ADDR (Z.shiftl addr 16))
          SDIO_TIME_DEFAULT SDIO_CMD_RETRIES);
      _ ← sdio_free_cmd;
      mret r
  end.

(** The loop of [mmc_send_op_cond]; [k] is [retry]. *)
Fixpoint mmc_op_cond_loop (k : nat) (c : sdio_cmd) (ocr : Z) : M Bus (Z * sdio_cmd) :=
  match k with
  | O => mret (ETIMEDOUT, c)
  | S k =>
      '(r, c) ← send c SDIO_TIME_DEFAULT 0;
      if negb (r =? EOK) then mret (r, c)
      else if (ocr =? 0) || has (w0 (rsp c)) OCR_PWRUP_CMP then mret (r, c)
      else _ ← delay 10; mmc_op_cond_loop k c ocr
  end.
Definition mmc_send_op_cond (ocr : Z) : M Bus (Z * Z) :=
  c ← sdio_alloc_cmd;
  match c with
  | None => mret (ENOMEM, 0)
  | Some c =>
      r ← (
        '(r, c) ← mmc_op_cond_loop 100 (sdio_setup_cmd c (Z.lor SCF_CTYPE_BCR SCF_RSP_R3) MMC_SEND_OP_COND ocr) ocr;
        mret (r, w0 (rsp c)));
      _ ← sdio_free_cmd;
      mret r
  end.

(** The pattern on the lines, and the check that the card gave its complement. *)
Definition bus_pattern (width : Z) : list Z :=
  if width =? 8 then [0x55; 0xaa; 0; 0; 0; 0; 0; 0] else [0x5a; 0; 0; 0].
Definition complemented (width : Z) (buf : list Z) : bool :=
  forallb (fun p => Z.lxor (fst p) (snd p) =? 0xff)
    (take (Z.to_nat (width / 4)) (combine (bus_pattern width) buf)).

Definition mmc_bus_test (width : Z) : M Bus Z :=
  c ← sdio_alloc_cmd;
  match c with
  | None => mret ENOMEM
  | Some c =>
      ok ← have_memory;
      if negb ok then _ ← sdio_free_cmd; mret ENOMEM
      else
        r ← (
          let c := sdio_setup_cmd c (Z.lor SCF_CTYPE_ADTC SCF_RSP_R1) MMC_BUSTEST_W 0 in
          '(_, c) ← send (sdio_setup_cmd_io c SCF_DIR_OUT 1 width (bus_pattern width)) SDIO_TIME_DEFAULT 0;
          let c := sdio_setup_cmd c (Z.lor SCF_CTYPE_ADTC SCF_RSP_R1) MMC_BUSTEST_R 0 in
          '(r, c) ← send (sdio_setup_cmd_io c SCF_DIR_IN 1 width (data c)) SDIO_TIME_DEFAULT 0;
          mret (if r =? EOK then if complemented width (bytes_of width (data c)) then EOK else EIO else r));
        _ ← sdio_free_cmd;
        mret r
  end.

(** ** Modes *)

(** The widths [mmc_bus_width] tries, from [width] down. *)
Fixpoint try_widths (k : nat) (width : Z) : M Bus Z :=
  match k with
  | O => mret BUS_WIDTH_1
  | S k =>
      if width <? 4 then mret BUS_WIDTH_1
      else
        r ← write_ecsd ECSD_BUS_WIDTH (width / 4) SDIO_TIME_DEFAULT;
        if negb (r =? EOK) then try_widths k (Z.shiftr width 1)
        else
          _ ← sdio_bus_width width;
          r ← mmc_bus_test width;
          if r =? EOK then mret width else try_widths k (Z.shiftr width 1)
  end.
Definition mmc_bus_width (flg : bool) : M Bus Z :=
  h ← get_hc;
  if has (hc_caps h) HC_CAP_BW8 then if flg then try_widths 2 BUS_WIDTH_8 else mret BUS_WIDTH_8
  else if has (hc_caps h) HC_CAP_BW4 then if flg then try_widths 2 BUS_WIDTH_4 else mret BUS_WIDTH_4
  else mret BUS_WIDTH_1.

Definition mmc_init_hs : M Bus Z :=
  _ ← upd_dev (upd_ecsd (fun e =>
        if DTR_MAX_HS52 <? ecsd_dtr_max_hs e then e <| ecsd_dtr_max_hs := DTR_MAX_HS52 |> else e));
  ok! write_ecsd ECSD_HS_TIMING ECSD_HS_TIMING_HS SDIO_TIME_DEFAULT;
  ok! sdio_timing TIMING_HS;
  d ← get_dev;
  _ ← sdio_clock (ecsd_dtr_max_hs (ecsd d));
  _ ← set_flag DEV_FLAG_HS;
  mret EOK.

Definition _mmc_init_hs200 (bus_width : Z) : M Bus Z :=
  ok! write_ecsd ECSD_BUS_WIDTH (bus_width / 4) SDIO_TIME_DEFAULT;
  _ ← sdio_bus_width bus_width;
  ok! write_ecsd ECSD_HS_TIMING ECSD_HS_TIMING_HS200 SDIO_TIME_DEFAULT;
  ok! sdio_timing TIMING_HS200;
  d ← get_dev;
  _ ← sdio_clock (ecsd_dtr_max_hs (ecsd d));
  entry_raw Tune MMC_SEND_TUNING_BLOCK.

(** The voltage for a mode the card has at 1.2 V or at 1.8 V. *)
Definition mode_voltage (at12 at18 : Z) : M Bus Z :=
  h ← get_hc;
  d ← get_dev;
  r ← (if has (card_type (ecsd d)) at12 && has (hc_caps h) HC_CAP_SV_1_2V then
         sdio_signal_voltage SIGNAL_VOLTAGE_1_2
       else mret EINVAL);
  if negb (r =? EOK) && has (card_type (ecsd d)) at18 && has (hc_caps h) HC_CAP_SV_1_8V then
    sdio_signal_voltage SIGNAL_VOLTAGE_1_8
  else mret r.

Definition mmc_init_hs200 (bus_width : Z) : M Bus Z :=
  ok! mode_voltage ECSD_CARD_TYPE_HS200_1_2V ECSD_CARD_TYPE_HS200_1_8V;
  ok! _mmc_init_hs200 bus_width;
  _ ← set_flag DEV_FLAG_HS200;
  mret EOK.

Definition mmc_init_hs400 (bus_width : Z) : M Bus Z :=
  ok! mode_voltage ECSD_CARD_TYPE_HS400_1_2V ECSD_CARD_TYPE_HS400_1_8V;
  ok! _mmc_init_hs200 bus_width;
  _ ← sdio_timing TIMING_LS;
  d ← get_dev;
  _ ← sdio_clock (dtr_max (csd d));
  _ ← wait_card_status send CDS_READY_FOR_DATA CDS_READY_FOR_DATA SDIO_TIME_DEFAULT;
  ok! write_ecsd ECSD_HS_TIMING ECSD_HS_TIMING_HS SDIO_TIME_DEFAULT;
  ok! write_ecsd ECSD_BUS_WIDTH (Z.lor ECSD_BUS_WIDTH_8 ECSD_BUS_WIDTH_DDR) SDIO_TIME_DEFAULT;
  ok! write_ecsd ECSD_HS_TIMING ECSD_HS_TIMING_HS400 SDIO_TIME_DEFAULT;
  d ← get_dev;
  _ ← sdio_clock (ecsd_dtr_max_hs (ecsd d));
  ok! sdio_timing TIMING_HS400;
  _ ← set_flag DEV_FLAG_HS400;
  mret EOK.

Definition mmc_init_ddr (bus_width : Z) : M Bus Z :=
  h ← get_hc;
  d ← get_dev;
  ok! (if has (card_type (ecsd d)) ECSD_CARD_TYPE_DDR_1_2V && has (hc_caps h) HC_CAP_SV_1_2V then
         sdio_signal_voltage SIGNAL_VOLTAGE_1_2
       else mret EOK);
  ok! write_ecsd ECSD_BUS_WIDTH (Z.lor (bus_width / 4) ECSD_BUS_WIDTH_DDR) SDIO_TIME_DEFAULT;
  _ ← sdio_bus_width bus_width;
  _ ← sdio_timing TIMING_DDR50;
  _ ← set_flag DEV_FLAG_DDR;
  mret EOK.

(** Whether the device has one of some flags. *)
Definition flagged (f : Z) : M Bus bool := d ← get_dev; mret (has (dev_flags d) f).
Definition try_mode (b : bool) (m : M Bus Z) : M Bus unit := when b (_ ← m; mret tt).

Definition mmc_init_bus : M Bus Z :=
  bus_width ← mmc_bus_width false;
  d ← get_dev;
  _ ← try_mode (has (dev_caps d) DEV_CAP_HS400 && (DTR_MAX_HS52 <? ecsd_dtr_max_hs (ecsd d))
                && (BUS_WIDTH_8 <=? bus_width)) (mmc_init_hs400 bus_width);
  d ← get_dev;
  _ ← try_mode (negb (has (dev_flags d) DEV_FLAG_HS400) && has (dev_caps d) DEV_CAP_HS200
                && (DTR_MAX_HS52 <? ecsd_dtr_max_hs (ecsd d)) && (BUS_WIDTH_4 <=? bus_width))
        (mmc_init_hs200 bus_width);
  d ← get_dev;
  _ ← try_mode (negb (has (dev_flags d) (Z.lor DEV_FLAG_HS200 DEV_FLAG_HS400)) && has (dev_caps d) DEV_CAP_HS)
        mmc_init_hs;
  hs ← flagged DEV_FLAG_HS;
  d ← get_dev;
  _ ← when (hs && (BUS_WIDTH_4 <=? bus_width))
        (_ ← try_mode (has (dev_caps d) DEV_CAP_DDR50) (mmc_init_ddr bus_width);
         ddr ← flagged DEV_FLAG_DDR;
         try_mode (negb ddr)
           (ok! write_ecsd ECSD_BUS_WIDTH (bus_width / 4) SDIO_TIME_DEFAULT; sdio_bus_width bus_width));
  fast ← flagged (Z.lor DEV_FLAG_HS400 (Z.lor DEV_FLAG_HS200 DEV_FLAG_HS));
  d ← get_dev;
  _ ← when (negb fast) (_ ← sdio_timing TIMING_LS; _ ← sdio_clock (dtr_max (csd d)); mret tt);
  _sdio_set_block_length send SDIO_DFLT_BLKSZ.

(** ** Identification *)

(** The registers of a card that is not known yet. *)
Definition mmc_new_card : M Bus Z :=
  ok! sdio_send_csd send;
  d ← get_dev;
  c ← lift (mmc_parse_csd (raw_csd d));
  _ ← upd_dev (fun d => d <| csd := c |>);
  '(r, c) ← lift (mmc_parse_cid (spec_vers c) (raw_cid d));
  _ ← upd_dev (fun d => d <| cid := c |>);
  mret r.

Definition mmc_new_ext : M Bus Z :=
  '(r, raw) ← mmc_send_ext_csd;
  if negb (r =? EOK) then mret r
  else
    _ ← upd_dev (fun d => d <| raw_ecsd := raw |>);
    h ← get_hc;
    d ← get_dev;
    '(r, d) ← lift (mmc_parse_ext_csd raw (hc_caps h) d);
    _ ← upd_dev (fun _ => d);
    mret r.

(** The part of [mmc_init_device] for a card of version 4, of the OCR it gave. *)
Definition mmc_version_4 (again : bool) (rocr : Z) : M Bus Z :=
  ok! (if again then mret EOK else mmc_new_ext);
  d ← get_dev;
  ok! (if negb (ecsd_at (raw_ecsd d) ECSD_ERASE_GRP_SIZE =? 0)
          && negb (ecsd_at (raw_ecsd d) ECSD_ERASE_MULT =? 0) then
         ok! write_ecsd ECSD_ERASE_GRP_DEF ECSD_EGD_EN SDIO_TIME_DEFAULT;
         _ ← upd_dev (upd_ecsd (fun e => e <| erase_grp_def := 1 |>));
         mret EOK
       else mret EOK);
  _ ← when (has rocr OCR_HCS) (set_cap DEV_CAP_HC);
  mret EOK.

Definition mmc_find_errata : M Bus unit :=
  d ← get_dev;
  match sdio_device_errata d mmc_errata with
  | Some e =>
      _ ← sdio_reconcile_errata e;
      when (has (er_errata e) DEV_ERRATA_DISCARD_SUP) (set_cap DEV_CAP_DISCARD)
  | None => mret tt
  end.

(** [mmc_init_device]; [again] is [flgs], for a card that was there before. *)
Definition mmc_init_device (ocr : Z) (again : bool) : M Bus Z :=
  h ← get_hc;
  ok! (if has (hc_flags h) HC_FLAG_SKIP_PWRUP then mret EOK else sdio_go_idle send);
  '(r, rocr) ← mmc_send_op_cond (Z.lor ocr OCR_HCS);
  if negb (r =? EOK) then mret r
  else
    '(r, c) ← sdio_all_send_cid send;
    d ← get_dev;
    if negb (r =? EOK) then mret r
    else if again && negb (bool_decide (raw_cid d = c)) then mret ENXIO
    else
      _ ← upd_dev (fun d => d <| raw_cid := c |> <| rca := 1 |>);
      ok! mmc_set_relative_addr 1;
      _ ← sdio_bus_mode BUS_MODE_PUSH_PULL;
      ok! (if again then mret EOK else mmc_new_card);
      d ← get_dev;
      ok! sdio_select_card send (rca d);
      d ← get_dev;
      if has (dev_flags d) DEV_FLAG_LOCKED then mret EOK
      else
        ok! (if CSD_SPEC_VER_4 <=? spec_vers (csd d) then mmc_version_4 again rocr else mret EOK);
        _ ← when (negb again) mmc_find_errata;
        _ ← upd_dev (fun d => d <| wp_size := u32 (mmc_wp_grp_size d) |>
                                <| erase_size := u32 (mmc_erase_grp_size d) |>);
        mmc_init_bus.

(** What [mmc_bus_error] lowers. *)
Definition mmc_lower (d : sdio_dev) : sdio_dev :=
  let clear_flag f (d : sdio_dev) := d <| dev_flags := Z.land (dev_flags d) (bnot 32 f) |> in
  let clear_cap c (d : sdio_dev) := d <| dev_caps := Z.land (dev_caps d) (bnot 64 c) |> in
  if has (dev_flags d) DEV_FLAG_HS400 then clear_flag DEV_FLAG_HS400 (clear_cap DEV_CAP_HS400 d)
  else if has (dev_flags d) DEV_FLAG_HS200 then
    upd_ecsd (fun e => e <| ecsd_dtr_max_hs := DTR_MAX_HS52 |>)
      (clear_flag DEV_FLAG_HS200 (clear_cap DEV_CAP_HS200 d))
  else if has (dev_flags d) DEV_FLAG_DDR then clear_flag DEV_FLAG_DDR (clear_cap DEV_CAP_DDR50 d)
  else if has (dev_flags d) DEV_FLAG_HS then
    let d := clear_flag DEV_FLAG_HS d in
    if ecsd_dtr_max_hs (ecsd d) =? DTR_MAX_HS26 then d
    else upd_ecsd (fun e =>
           e <| ecsd_dtr_max_hs := Z.max DTR_MAX_HS26 (u32 (ecsd_dtr_max_hs e - DTR_HS_DEC)) |>) d
  else
    let c := csd d in
    let c := c <| dtr_max := Z.max DTR_MIN_LS (u32 (dtr_max c - DTR_LS_DEC)) |> in d <| csd := c |>.

Definition mmc_bus_error : M Bus Z := _ ← upd_dev mmc_lower; mmc_init_bus.

Definition mmc_ident : M Bus Z :=
  h ← get_hc;
  d ← get_dev;
  r ← (if has (hc_flags h) HC_FLAG_SKIP_PWRUP then mmc_init_device (dev_ocr d) false else mret EINVAL);
  if r =? EOK then mret EOK
  else
    ok! sdio_go_idle send;
    '(r, ocr) ← mmc_send_op_cond 0;
    if negb (r =? EOK) then mret r
    else
      ok! sdio_select_voltage ocr;
      d ← get_dev;
      mmc_init_device (dev_ocr d) false.

End Code.
