(* ===== verification/SdioBase.v ===== *)
(** * SdioBase: sending a command, power management, reset, attaching a card (devb/sdmmc/sdiodi/base.c).

    Sending a command wakes the card first, and waking may reset the card; both send commands.  The
    functions are written over [send]; [_sdio_send_cmd] closes the recursion, to a depth: [depth] is at
    least how often the function is entered within itself, and [SdioFacts] proves that three is enough. *)

From coqutil Require Import Datatypes.RecordSetters.
From S2P Require Import Prelude.
From S2P Require Import SdioConst.
From S2P Require Import Sdio.
From S2P Require Import SdioSd.
From S2P Require Import SdioMmc.

Section Code.
Context {Bus : Type} `{HostEntry Bus}.

(** The bound of the loop of [sd_init_device]. *)
Variable fuel : nat.

Section Open.
Variable send : sdio_cmd -> Z -> nat -> M Bus (Z * sdio_cmd).

(** ** Reset *)

(** The loop of [_sdio_reset]; [k] is [retry]. *)
Fixpoint reset_loop (k : nat) : M Bus Z :=
  match k with
  | O => mret EOK
  | S k =>
      _ ← sdio_power_off;
      _ ← sdio_power_on;
      d ← get_dev;
      r ← (if dtype d =? DEV_TYPE_MMC then mmc_init_device send (dev_ocr d) true
           else if dtype d =? DEV_TYPE_SD then sd_init_device send fuel (dev_ocr d) true
           else mret ENXIO);
      if r =? ENXIO then _ ← sdio_hc_event HC_EV_CD; mret r
      else if (r =? EOK) || bool_decide (k = O) then mret r
      else reset_loop k
  end.

Definition _sdio_reset : M Bus Z :=
  h ← get_hc;
  if has (hc_flags h) HC_FLAG_RST then mret EBUSY
  else
    _ ← upd_hc (fun h =>
          h <| hc_flags := Z.land (Z.lor (hc_flags h) HC_FLAG_RST) (bnot 32 HC_FLAG_SKIP_PWRUP) |>);
    _ ← upd_dev (fun d =>
          d <| rca := 0 |> <| pactive := 0 |> <| dev_flags := Z.land (dev_flags d) (bnot 32 DEV_FLAG_WCE) |>);
    r ← reset_loop SDIO_RESET_RETRIES;
    _ ← upd_hc (fun h => h <| hc_flags := Z.land (hc_flags h) (bnot 32 HC_FLAG_RST) |>);
    mret r.

(** ** Power management *)

Definition set_pm (pm : Z) : M Bus unit := upd_hc (fun h => h <| pm_state := pm |>).

(** The case of [PM_ACTIVE]: a card that slept is woken, or reset. *)
Definition pm_wake : M Bus Z :=
  _ ← entry Pm PM_ACTIVE;
  h ← get_hc;
  if (pm_state h =? PM_SLEEP) && has (hc_caps h) HC_CAP_SLEEP then
    _ ← set_pm PM_ACTIVE;
    d ← get_dev;
    if has (dev_caps d) DEV_CAP_SLEEP then
      r ← (ok! mmc_sleep_awake send false; d ← get_dev; sdio_select_card send (rca d));
      if r =? EOK then mret EOK else _sdio_reset
    else if has (dev_flags d) DEV_FLAG_PRESENT then _sdio_reset else mret EOK
  else mret EOK.

(** The case of [PM_SLEEP]: the status, and the state it comes to. *)
Definition pm_sleep : M Bus (Z * Z) :=
  h ← get_hc;
  _ ← when (pm_state h =? PM_IDLE) (_ ← entry Pm PM_ACTIVE; mret tt);
  if has (hc_caps h) HC_CAP_SLEEP then
    d ← get_dev;
    r ← (if has (dev_caps d) DEV_CAP_SLEEP then
           ok! (if has (dev_flags d) DEV_FLAG_WCE then
                  mmc_cache send SDIO_CACHE_FLUSH (SDIO_TIME_DEFAULT * 5)
                else mret EOK);
           r ← (ok! sdio_select_card send 0; mmc_sleep_awake send true);
           _ ← when (negb (r =? EOK)) (_ ← _sdio_reset; mret tt);
           mret r
         else mret EOK);
    let pm := if r =? EOK then PM_SLEEP else PM_IDLE in
    _ ← entry Pm pm;
    mret (r, pm)
  else mret (EOK, PM_SLEEP).

Definition _sdio_pwrmgnt (pm : Z) : M Bus Z :=
  h ← get_hc;
  if negb (e_has Pm) || (pm =? pm_state h) || active h then mret EOK
  else if pm =? PM_IDLE then
    if pm_state h =? PM_ACTIVE then _ ← entry Pm pm; _ ← set_pm pm; mret EOK else mret EOK
  else if pm =? PM_ACTIVE then r ← pm_wake; _ ← set_pm pm; mret r
  else if pm =? PM_SLEEP then '(r, pm) ← pm_sleep; _ ← set_pm pm; mret r
  else _ ← set_pm pm; mret EOK.

(** ** Sending a command *)

(** What comes before a command: the application prefix, the number of blocks. *)
Definition send_prefix (c : sdio_cmd) : M Bus Z :=
  ok! (if has (flags c) SCF_APP_CMD then sd_app_cmd send else mret EOK);
  h ← get_hc;
  if has (flags c) SCF_SBC && negb (has (hc_caps h) HC_CAP_ACMD23) then _sdio_set_block_count send (blks c)
  else mret EOK.

(** The wait for a card that is busy after a command. *)
Definition send_suffix (c : sdio_cmd) (timeout : Z) : M Bus Z :=
  h ← get_hc;
  if has (flags c) SCF_WAIT_DRDY && negb (has (hc_caps h) HC_CAP_BSY) then
    wait_card_status send (Z.lor CDS_READY_FOR_DATA CDS_CUR_STATE_MSK)
      (Z.lor CDS_READY_FOR_DATA CDS_CUR_STATE_TRAN) timeout
  else mret EOK.

(** The loop of [_sdio_send_cmd]; [retries] is the variable of the code. *)
Fixpoint send_loop (retries : nat) (c : sdio_cmd) (timeout : Z) : M Bus (Z * sdio_cmd) :=
  let c := c <| status := CS_CMD_INPROG |> in
  r ← send_prefix c;
  if negb (r =? EOK) then mret (r, c)
  else
    '(r, c) ← sdio_issue_cmd c timeout;
    if negb (r =? EOK) then mret (r, c)
    else if status c =? CS_CARD_REMOVED then mret (ENXIO, c)
    else if status c =? CS_CMD_CMP then r ← send_suffix c timeout; mret (r, c)
    else if has (w0 (rsp c)) CDS_ILLEGAL_COMMAND then mret (EIO, c)
    else
      match retries with
      | O => mret (EIO, c)
      | S retries => send_loop retries c timeout
      end.

Definition send_body (c : sdio_cmd) (timeout : Z) (retries : nat) : M Bus (Z * sdio_cmd) :=
  r ← _sdio_pwrmgnt PM_ACTIVE;
  if negb (r =? EOK) then mret (r, c) else send_loop retries c timeout.
End Open.

Fixpoint _sdio_send_cmd (depth : nat) (c : sdio_cmd) (timeout : Z) (retries : nat)
    : M Bus (Z * sdio_cmd) :=
  match depth with
  | O => lift (Err NoFuel)
  | S depth => send_body (_sdio_send_cmd depth) c timeout retries
  end.

(** The depth the functions below are given. *)
Definition send : sdio_cmd -> Z -> nat -> M Bus (Z * sdio_cmd) := _sdio_send_cmd 3.

(** ** Cards *)

Definition _sdio_bus_error : M Bus Z :=
  _ ← upd_hc (fun h => h <| bus_errs := u32 (bus_errs h + 1) |>);
  h ← get_hc;
  if SDIO_MAX_BUS_ERRS <? bus_errs h then
    d ← get_dev;
    r ← (if dtype d =? DEV_TYPE_MMC then mmc_bus_error send
         else if dtype d =? DEV_TYPE_SD then sd_bus_error send
         else mret ENODEV);
    _ ← upd_hc (fun h => h <| bus_errs := 0 |>);
    mret r
  else mret EOK.

(** A card was found. *)
Definition attached (type : Z) : M Bus Z :=
  _ ← _sdio_pwrmgnt send PM_IDLE;
  _ ← set_flag DEV_FLAG_PRESENT;
  _ ← upd_dev (fun d => d <| dtype := type |>);
  mret EOK.

(** The loop of [_sdio_attach] over the clock; [r] is [status]. *)
Fixpoint attach_loop (k : nat) (clk type r : Z) : M Bus Z :=
  match k with
  | O => mret r
  | S k =>
      if clk =? 0 then mret r
      else
        _ ← upd_hc (fun h => h <| clk_init := Z.max clk (clk_min h) |>);
        h ← get_hc;
        _ ← when (negb (has (hc_flags h) HC_FLAG_SKIP_PWRUP)) sdio_power_on;
        let sd := (type =? 0) || has type HC_FLAG_DEV_SD in
        let mmc := (type =? 0) || has type HC_FLAG_DEV_MMC in
        r ← (if sd then sd_ident send fuel else mret r);
        if sd && (r =? EOK) then attached DEV_TYPE_SD
        else
          r ← (if mmc then mmc_ident send else mret r);
          if mmc && (r =? EOK) then attached DEV_TYPE_MMC
          else
            _ ← upd_hc (fun h => h <| hc_flags := Z.land (hc_flags h) (bnot 32 HC_FLAG_SKIP_PWRUP) |>);
            _ ← sdio_power_off;
            attach_loop k (clk - 100000) type r
  end.

Definition _sdio_attach : M Bus Z :=
  _ ← upd_dev (fun _ => dev0);
  _ ← upd_hc (fun h => h <| bus_errs := 0 |>);
  h ← get_hc;
  _ ← when (negb (has (hc_flags h) HC_FLAG_SKIP_PWRUP)) sdio_power_off;
  attach_loop 5 SDIO_CLK_INIT (Z.land (hc_flags h) HC_FLAG_DEV_TYPE) ENODEV.

End Code.
