(* ===== verification/SdioFacts.v ===== *)
(** * SdioFacts: what every function of the SD/MMC bus layer keeps.

    A frame is a relation between the states before and after that the primitive steps respect; then all
    functions of the layer respect it, provided [send] does.  The frames used: the commands taken from
    the free list are given back, on every path; the controller stays awake and no bound is reached; the
    commands with an application number come right after their prefix. *)

From coqutil Require Import Datatypes.RecordSetters.
From S2P Require Import Prelude.
From S2P Require Import SdioConst.
From S2P Require Import Sdio.
From S2P Require Import SdioSd.
From S2P Require Import SdioMmc.
From S2P Require Import SdioBase.

(** ** Command functions *)

(** How most functions are written: take a command, or fail; use it; give it back, whatever came of it. *)
Definition with_cmd {Bus} `{HostEntry Bus} {A} (none : A) (body : sdio_cmd -> M Bus A) : M Bus A :=
  c ← sdio_alloc_cmd;
  match c with
  | None => mret none
  | Some c => r ← body c; _ ← sdio_free_cmd; mret r
  end.

(** Those that need a buffer as well give the command back when there is no memory for that. *)
Definition with_buf {Bus} `{HostEntry Bus} {A} (none : A) (body : sdio_cmd -> M Bus A) : M Bus A :=
  c ← sdio_alloc_cmd;
  match c with
  | None => mret none
  | Some c =>
      ok ← have_memory;
      if negb ok then _ ← sdio_free_cmd; mret none
      else r ← body c; _ ← sdio_free_cmd; mret r
  end.

(** ** Frames *)

Section Keeps.
Context {Bus : Type}.

(** What the code does that C does not define, and no more: a shift by a count out of range, a division by
    zero, a call of a function that the controller does not have.  No word of a register, byte of a
    buffer or entry of a table is read out of its bounds, and no bound of a loop is reached. *)
Definition fault (e : err) : Prop :=
  e = Crash "shift" \/ e = Crash "division by zero" \/ e = Crash "no such function".

(** Whatever [m] gives, the states are related by [R]; if it stops, the state and the error by [E]. *)
Definition keeps (R : sdio Bus -> sdio Bus -> Prop) (E : sdio Bus -> err -> Prop) {A} (m : M Bus A) : Prop :=
  forall s, match m s with Ok (_, s') => R s s' | Err e => E s e end.

(** A change of the controller's structure that touches neither the command in progress nor the state of
    the power management. *)
Definition stays (f : sdio_hc -> sdio_hc) : Prop :=
  forall h, active (f h) = active h /\ pm_state (f h) = pm_state h.

Class Frame `{HostEntry Bus} (R : sdio Bus -> sdio Bus -> Prop) (E : sdio Bus -> err -> Prop) := {
  frame_pre : PreOrder R;
  frame_back : forall s s' e, R s s' -> E s' e -> E s e;
  frame_dev : forall f, keeps R E (upd_dev f);
  frame_hc : forall f, stays f -> keeps R E (upd_hc f);
  frame_bus : forall A (f : sdio_hc -> Bus -> A * Bus), keeps R E (on_bus f);
  frame_log : forall k v r, keeps R E (log (CallSet k v r));
  frame_pulse : keeps R E cd_pulse;
  frame_cmd : forall A (none : A) body, (forall c, keeps R E (body c)) -> keeps R E (with_cmd none body);
  frame_err : forall s e, fault e -> E s e
}.
End Keeps.

Create HintDb frame discriminated.
#[export] Hint Constants Opaque : frame.

(** A computation that stops only at a fault. *)
Definition plain {A} (r : res A) : Prop := forall e, r = Err e -> fault e.

Lemma plain_ok {A} (a : A) : plain (Ok a).
Proof. by intros e [=]. Qed.
Lemma plain_ret {A} (a : A) : plain (mret a).
Proof. apply plain_ok. Qed.
Lemma plain_crash {A} s : fault (Crash s) -> plain (Err (Crash s) : res A).
Proof. by intros Hf e [= <-]. Qed.
Lemma plain_bind {A B} (m : res A) (f : A -> res B) : plain m -> (forall a, plain (f a)) -> plain (m ≫= f).
Proof. destruct m as [a|e]; cbn; intros Hm Hf; [apply Hf|]. intros e' [= <-]. by apply Hm. Qed.
Lemma plain_bit_at n : plain (bit_at n).
Proof. unfold bit_at. destruct (_ && _); [apply plain_ok|]. apply plain_crash. by left. Qed.

(** An entry of a list that is there. *)
Lemma plain_at l i : (0 <=? i) && (i <? zlen l) = true -> plain (get_or_bad (byte_at l i)).
Proof.
  rewrite andb_true_iff, Z.leb_le, Z.ltb_lt. intros [H1 H2]. unfold byte_at.
  rewrite (proj2 (Z.ltb_ge i 0)) by done.
  destruct (lookup_lt_is_Some_2 l (Z.to_nat i)) as [x ->]; [unfold zlen in H2; lia|]. apply plain_ok.
Qed.
(** An entry of a table of a power of two, with the index masked. *)
Lemma plain_mask l k i : 0 <= k -> zlen l = 2 ^ k -> plain (get_or_bad (byte_at l (Z.land i (Z.ones k)))).
Proof.
  intros Hk Hl. apply plain_at. rewrite Hl, Z.land_ones by done.
  pose proof (Z.mod_pos_bound i (2 ^ k) ltac:(lia)). zbool; done || lia.
Qed.
#[export] Hint Resolve plain_ret plain_ok plain_bit_at : frame.

Ltac plain :=
  repeat match goal with
  | |- forall _, _ => intro
  | |- plain (_ ≫= _) => apply plain_bind
  | |- plain (let '(_, _) := ?x in _) => destruct x
  | |- plain (if ?b then _ else _) => destruct b
  | |- plain (match ?x with _ => _ end) => destruct x
  | |- plain (Err (Crash _)) => apply plain_crash; unfold fault; tauto
  | |- plain _ => solve [auto with frame | cbv zeta; auto with frame]
  end.

(** Bits within the register. *)
Lemma plain_extract data bits start size :
  bits = 32 * zlen data -> (0 <=? start) && (1 <=? size) && (size <=? 32) && (start + size <=? bits) = true ->
  plain (sdio_extract_bits data bits start size).
Proof.
  rewrite !andb_true_iff, !Z.leb_le. intros -> (((H1 & H2) & H3) & H4). unfold sdio_extract_bits.
  replace (32 * zlen data / 32) with (zlen data) by (rewrite Z.mul_comm, Z.div_mul; lia).
  change 31 with (Z.ones 5). rewrite Z.land_ones by lia. change (2 ^ 5) with 32.
  pose proof (Z.div_mod start 32 ltac:(lia)). pose proof (Z.mod_pos_bound start 32 ltac:(lia)).
  assert (0 <= start / 32) by (apply Z.div_pos; lia).
  apply plain_bind; [apply plain_at; zbool; done || lia|]. intro w. apply plain_bind; [|intro; apply plain_ret].
  destruct (Z.ltb_spec 32 (size + start mod 32)); [|apply plain_ret].
  apply plain_bind; [apply plain_at; zbool; done || lia|]. intro. apply plain_ret.
Qed.

(** The registers of four words, of two and of sixteen. *)
Ltac bits_of Hn := intros; plain; (apply plain_extract; [by rewrite Hn|reflexivity]).
Lemma plain_pnm raw n pos :
  zlen raw = 4 -> 8 * (Z.of_nat n - 1) <= pos -> pos + 8 <= 128 -> plain (parse_pnm raw n pos).
Proof.
  intro Hn. revert pos. induction n as [|n IH]; intros pos H1 H2; cbn [parse_pnm]; [apply plain_ret|].
  apply plain_bind; [|intro; apply plain_bind; [apply IH; lia|intro; apply plain_ret]].
  apply plain_extract; [by rewrite Hn|]. zbool; done || lia.
Qed.
Lemma plain_sd_dtr x : plain (sd_dtr x).
Proof. unfold sd_dtr. plain; [by apply (plain_mask _ 3)|by apply (plain_mask _ 4)]. Qed.
Lemma plain_mmc_dtr x : plain (mmc_dtr x).
Proof. unfold mmc_dtr. plain; [by apply (plain_mask _ 3)|by apply (plain_mask _ 4)]. Qed.
#[export] Hint Resolve plain_sd_dtr plain_mmc_dtr : frame.
#[export] Hint Extern 1 (plain (sdio_extract_bits (words _) _ _ _)) =>
  apply plain_extract; [done|reflexivity] : frame.
#[export] Hint Extern 1 (plain (parse_pnm (words _) _ _)) => apply plain_pnm; [done|lia|lia] : frame.
Lemma plain_sd_cid r : plain (sd_parse_cid r).
Proof. unfold sd_parse_cid. cbv zeta. plain. Qed.
Lemma plain_sd_csd r : plain (sd_parse_csd r).
Proof. unfold sd_parse_csd. cbv zeta. plain. Qed.
Lemma plain_scr r : zlen r = 2 -> plain (sd_parse_scr r).
Proof. intro Hr. unfold sd_parse_scr. cbv zeta. bits_of Hr. Qed.
Lemma plain_status old r : zlen r = 16 -> plain (sd_parse_status old r).
Proof. intro Hr. unfold sd_parse_status. cbv zeta. bits_of Hr. Qed.
Lemma plain_mmc_cid v r : plain (mmc_parse_cid v r).
Proof. unfold mmc_parse_cid. cbv zeta. plain. Qed.
Lemma plain_mmc_csd r : plain (mmc_parse_csd r).
Proof. unfold mmc_parse_csd. cbv zeta. plain. Qed.
Lemma plain_ext_csd raw caps d : plain (mmc_parse_ext_csd raw caps d).
Proof. unfold mmc_parse_ext_csd, ext_v43. cbv zeta. plain. Qed.
Lemma plain_mmc_erase d t n : plain (mmc_erase_timeout d t n).
Proof. unfold mmc_erase_timeout. cbv zeta. plain. Qed.
#[export] Hint Resolve plain_sd_cid plain_sd_csd plain_mmc_cid plain_mmc_csd plain_ext_csd
  plain_mmc_erase : frame.
Lemma plain_erase d t n : plain (sdio_erase_timeout d t n).
Proof. unfold sdio_erase_timeout. plain. Qed.
#[export] Hint Resolve plain_erase : frame.

(** What [words_of] gives. *)
Lemma words_of_len n buf : length (words_of n buf) = n.
Proof. revert buf; induction n; intro buf; cbn; [done|]. by f_equal. Qed.

Lemma has_either x a b : has x (Z.lor a b) = has x a || has x b.
Proof.
  unfold has. rewrite Z.land_lor_distr_r.
  destruct (Z.eqb_spec (Z.land x a) 0) as [->|Ha]; cbn [negb orb]; [by rewrite Z.lor_0_l|].
  destruct (Z.eqb_spec (Z.lor (Z.land x a) (Z.land x b)) 0) as [E|]; [|done].
  apply Z.lor_eq_0_iff in E. by destruct E.
Qed.

(** A command that is sent with no other: no prefix, no count of blocks, no wait. *)
Definition leaf (c : sdio_cmd) : Prop :=
  has (flags c) (Z.lor SCF_APP_CMD (Z.lor SCF_SBC SCF_WAIT_DRDY)) = false.

(** ** The functions keep every frame *)

Section Frames.
Context {Bus : Type} `{HostEntry Bus}.
Context (R : sdio Bus -> sdio Bus -> Prop) (E : sdio Bus -> err -> Prop) `{!Frame R E}.
Notation keep m := (keeps R E m).

Lemma keeps_ret {A} (a : A) : keep (mret a : M Bus A).
Proof. intro s. apply frame_pre. Qed.
Lemma keeps_bind {A B} (m : M Bus A) (f : A -> M Bus B) :
  keep m -> (forall a, keep (f a)) -> keep (m ≫= f).
Proof.
  intros Hm Hf s. specialize (Hm s). revert Hm. unfold mbind, M_bind.
  destruct (m s) as [[a s1]|e]; [|done]. intro Hm. specialize (Hf a s1). revert Hf.
  destruct (f a s1) as [[b s2]|e]; [|by apply frame_back]. assert (PreOrder R) by apply frame_pre.
  by transitivity s1.
Qed.
Lemma keeps_gives {A B} (T : A -> Prop) (m : M Bus A) (f : A -> M Bus B) :
  keep m -> (forall s, match m s with Ok (a, _) => T a | Err _ => True end) ->
  (forall a, T a -> keep (f a)) -> keep (m ≫= f).
Proof.
  intros Hm HT Hf s. specialize (Hm s). specialize (HT s). revert Hm HT. unfold mbind, M_bind.
  destruct (m s) as [[a s1]|e]; [|done]. intros Hm HT. specialize (Hf a HT s1). revert Hf.
  destruct (f a s1) as [[b s2]|e]; [|by apply frame_back]. assert (PreOrder R) by apply frame_pre.
  by transitivity s1.
Qed.
Lemma keeps_get_dev : keep (get_dev : M Bus _).
Proof. intro s. apply frame_pre. Qed.
Lemma keeps_get_hc : keep (get_hc : M Bus _).
Proof. intro s. apply frame_pre. Qed.
Lemma keeps_lift {A} (r : res A) : plain r -> keep (lift r).
Proof. intros Hp s. destruct r as [a|e]; cbn; [apply frame_pre|]. by apply frame_err, Hp. Qed.
Lemma keeps_if {A} (b : bool) (m1 m2 : M Bus A) : keep m1 -> keep m2 -> keep (if b then m1 else m2).
Proof. by destruct b. Qed.
Lemma keeps_when b (m : M Bus unit) : keep m -> keep (when b m).
Proof. intro Hm. destruct b; [done|apply keeps_ret]. Qed.
Lemma keeps_ok (f k : M Bus Z) : keep f -> keep k -> keep (ok! f; k).
Proof. intros Hf Hk. apply keeps_bind; [done|]. intro r. apply keeps_if; [done|apply keeps_ret]. Qed.
Lemma keeps_buf {A} (none : A) body : (forall c, keep (body c)) -> keep (with_buf none body).
Proof.
  intro Hb. assert (Hc : keep (with_cmd none (fun c => ok ← have_memory; if negb ok then mret none else body c))).
  { apply frame_cmd. intro c. apply keeps_bind; [apply frame_bus|]. intros []; [apply Hb|apply keeps_ret]. }
  intro s. specialize (Hc s). revert Hc. unfold with_buf, with_cmd, mbind, M_bind.
  destruct (sdio_alloc_cmd s) as [[[c|] s1]|]; [|done..]. by destruct (have_memory s1) as [[[] s2]|].
Qed.

Hint Resolve keeps_ret keeps_get_dev keeps_get_hc : frame.

(** One step along a function. *)
Ltac keep_step :=
  match goal with
  | |- forall _, _ => intro
  | |- keeps _ _ (mbind _ sdio_alloc_cmd) => first [apply frame_cmd | apply keeps_buf]
  | |- keeps _ _ (_ ≫= _) => apply keeps_bind
  | |- keeps _ _ (ok_then _ _) => apply keeps_ok
  | |- keeps _ _ (when _ _) => apply keeps_when
  | |- keeps _ _ (try_mode _ _) => apply keeps_when
  | |- keeps _ _ (lift _) => apply keeps_lift
  | |- keeps _ _ (upd_dev _) => apply frame_dev
  | |- keeps _ _ (upd_hc _) => apply frame_hc; done
  | |- keeps _ _ (on_bus _) => apply frame_bus
  | |- keeps _ _ (log _) => apply frame_log
  | |- keeps _ _ cd_pulse => apply frame_pulse
  | |- keeps _ _ (let '(_, _) := ?x in _) => destruct x
  | |- keeps _ _ (if _ then _ else _) => apply keeps_if
  | |- keeps _ _ (match ?x with _ => _ end) => destruct x
  end.
Ltac keep := repeat (keep_step || solve [auto with frame] || (progress cbv beta zeta)).

Lemma keeps_flag f : keep (set_flag f : M Bus unit).
Proof. apply frame_dev. Qed.
Lemma keeps_clr f : keep (clr_flag f : M Bus unit).
Proof. apply frame_dev. Qed.
Lemma keeps_cap c : keep (set_cap c : M Bus unit).
Proof. apply frame_dev. Qed.
Lemma keeps_settings st : keep (upd_hc (fun h => h <| settings := st |>) : M Bus unit).
Proof. by apply frame_hc. Qed.
Lemma keeps_delay ms : keep (delay ms : M Bus unit).
Proof. apply frame_bus. Qed.
Lemma keeps_calloc : keep (have_memory : M Bus bool).
Proof. apply frame_bus. Qed.
Hint Resolve keeps_flag keeps_clr keeps_cap keeps_settings keeps_delay keeps_calloc : frame.

Lemma keeps_entry k v : keep (entry k v : M Bus Z).
Proof. unfold entry. keep. Qed.
Hint Resolve keeps_entry : frame.
Lemma keeps_entry_opt k v : keep (entry_opt k v : M Bus Z).
Proof. unfold entry_opt. keep. Qed.
Lemma keeps_entry_raw k v : keep (entry_raw k v : M Bus Z).
Proof. unfold entry_raw. keep. apply plain_crash. by right; right. Qed.
Hint Resolve keeps_entry_opt keeps_entry_raw : frame.
Lemma keeps_pwr v : keep (sdio_pwr v : M Bus Z).
Proof. apply keeps_entry. Qed.
Lemma keeps_clock v : keep (sdio_clock v : M Bus Z).
Proof. unfold sdio_clock. keep. Qed.
Lemma keeps_timing v : keep (sdio_timing v : M Bus Z).
Proof. apply keeps_entry. Qed.
Lemma keeps_width v : keep (sdio_bus_width v : M Bus Z).
Proof. apply keeps_entry. Qed.
Lemma keeps_mode v : keep (sdio_bus_mode v : M Bus Z).
Proof. apply keeps_entry. Qed.
Lemma keeps_drv v : keep (sdio_drv_type v : M Bus Z).
Proof. apply keeps_entry. Qed.
Lemma keeps_voltage v : keep (sdio_signal_voltage v : M Bus Z).
Proof. apply keeps_entry. Qed.
Lemma keeps_tune v : keep (sdio_tune v : M Bus Z).
Proof. apply keeps_entry_opt. Qed.
Lemma keeps_preset v : keep (sdio_preset v : M Bus Z).
Proof. apply keeps_entry_opt. Qed.
Hint Resolve keeps_pwr keeps_clock keeps_timing keeps_width keeps_mode keeps_drv keeps_voltage keeps_tune
  keeps_preset : frame.

Lemma keeps_power_off : keep (sdio_power_off : M Bus unit).
Proof. unfold sdio_power_off. keep. Qed.
Lemma keeps_power_on : keep (sdio_power_on : M Bus unit).
Proof. unfold sdio_power_on. keep. Qed.
Lemma keeps_select_voltage ocr : keep (sdio_select_voltage ocr : M Bus Z).
Proof. unfold sdio_select_voltage. keep. Qed.
Lemma keeps_event ev : keep (sdio_hc_event ev : M Bus unit).
Proof. unfold sdio_hc_event. keep. Qed.
Lemma keeps_events l :
  keep (foldr (fun ev (m : M Bus unit) => _ ← sdio_hc_event ev; m) (mret tt) l).
Proof. induction l; cbn [foldr]; keep. apply keeps_event. Qed.
Lemma keeps_retune : keep (sdio_retune : M Bus unit).
Proof. unfold sdio_retune. keep. Qed.
Lemma keeps_errata e : keep (sdio_reconcile_errata e : M Bus unit).
Proof. unfold sdio_reconcile_errata. keep. Qed.
Hint Resolve keeps_power_off keeps_power_on keeps_select_voltage keeps_event keeps_events keeps_retune
  keeps_errata : frame.

(** With a [send] of which only the commands are known to keep the frame that need no other command: what
    [_sdio_send_cmd] itself sends. *)
Section Leaf.
Variable send : sdio_cmd -> Z -> nat -> M Bus (Z * sdio_cmd).
Hypothesis leaf_send : forall c t r, leaf c -> keep (send c t r).
Hint Resolve leaf_send : frame.

Lemma leaf_setup c f op a :
  has (u32 f) (Z.lor SCF_APP_CMD (Z.lor SCF_SBC SCF_WAIT_DRDY)) = false -> leaf (sdio_setup_cmd c f op a).
Proof. done. Qed.
Lemma leaf_app_cmd : keep (sd_app_cmd send).
Proof. unfold sd_app_cmd, send_. keep. apply leaf_send, leaf_setup. by destruct (_ =? _). Qed.
Lemma leaf_block_count n : keep (_sdio_set_block_count send n).
Proof. unfold _sdio_set_block_count, send_. keep. by apply leaf_send, leaf_setup. Qed.
Lemma leaf_send_status : keep (_sdio_send_status send false).
Proof. unfold _sdio_send_status. keep. by apply leaf_send, leaf_setup. Qed.
Hint Resolve leaf_app_cmd leaf_block_count leaf_send_status : frame.
Lemma leaf_wait_loop k mask val resp : keep (wait_loop send k mask val resp).
Proof. revert resp; induction k; intro resp; cbn [wait_loop]; keep. Qed.
Hint Resolve leaf_wait_loop : frame.
Lemma leaf_prefix c : keep (send_prefix send c).
Proof. unfold send_prefix. keep. Qed.
Lemma leaf_suffix c t : keep (send_suffix send c t).
Proof. unfold send_suffix, wait_card_status, _sdio_wait_card_status. keep. Qed.
End Leaf.

Section Send.
Variable send : sdio_cmd -> Z -> nat -> M Bus (Z * sdio_cmd).
Hypothesis keeps_send : forall c t r, keep (send c t r).
Hint Resolve keeps_send : frame.

Lemma keeps_send_ c t r : keep (send_ send c t r).
Proof. unfold send_. keep. Qed.
Hint Resolve keeps_send_ : frame.
Lemma keeps_send_status hpi : keep (_sdio_send_status send hpi).
Proof. unfold _sdio_send_status. keep. Qed.
Hint Resolve keeps_send_status : frame.
Lemma keeps_wait_loop k mask val resp : keep (wait_loop send k mask val resp).
Proof. revert resp; induction k; intro resp; cbn [wait_loop]; keep. Qed.
Hint Resolve keeps_wait_loop : frame.
Lemma keeps_wait mask val ms : keep (wait_card_status send mask val ms).
Proof. unfold wait_card_status, _sdio_wait_card_status. keep. Qed.
Lemma keeps_csd : keep (sdio_send_csd send).
Proof. unfold sdio_send_csd. keep. Qed.
Lemma keeps_select a : keep (sdio_select_card send a).
Proof. unfold sdio_select_card. keep. Qed.
Lemma keeps_block_length n : keep (_sdio_set_block_length send n).
Proof. unfold _sdio_set_block_length. keep. Qed.
Lemma keeps_block_count n : keep (_sdio_set_block_count send n).
Proof. unfold _sdio_set_block_count. keep. Qed.
Lemma keeps_stop hpi : keep (_sdio_stop_transmission send hpi).
Proof. unfold _sdio_stop_transmission. keep. Qed.
Lemma keeps_go_idle : keep (sdio_go_idle send).
Proof. unfold sdio_go_idle. keep. Qed.
Lemma keeps_all_cid : keep (sdio_all_send_cid send).
Proof. unfold sdio_all_send_cid. keep. Qed.
Hint Resolve keeps_wait keeps_csd keeps_select keeps_block_length keeps_block_count keeps_go_idle
  keeps_all_cid : frame.
Lemma keeps_lock op pw : keep (_sdio_lock_unlock send op pw).
Proof. unfold _sdio_lock_unlock. keep. Qed.
Hint Resolve keeps_lock : frame.

(** *** SD cards *)

Lemma keeps_rca_loop k c : keep (relative_addr_loop send k c).
Proof. revert c; induction k; intro c; cbn [relative_addr_loop]; keep. Qed.
Hint Resolve keeps_rca_loop : frame.
Lemma keeps_rca : keep (sdio_send_relative_addr send).
Proof. unfold sdio_send_relative_addr. keep. Qed.
Lemma keeps_vswitch : keep (sd_voltage_switch send).
Proof. unfold sd_voltage_switch. keep. Qed.
Lemma keeps_switch m g v : keep (sd_switch send m g v).
Proof. unfold sd_switch. keep. Qed.
Lemma keeps_app_cmd : keep (sd_app_cmd send).
Proof. unfold sd_app_cmd. keep. Qed.
Lemma keeps_register op n : keep (app_register send op n).
Proof. unfold app_register. keep. Qed.
Hint Resolve keeps_rca keeps_vswitch keeps_switch keeps_app_cmd keeps_register : frame.
Lemma keeps_scr : keep (sd_app_send_scr send).
Proof. unfold sd_app_send_scr. keep. Qed.
Lemma keeps_sds : keep (sd_app_sd_status send).
Proof. unfold sd_app_sd_status. keep. Qed.
Lemma keeps_sd_erase f l n : keep (sd_erase send f l n).
Proof. unfold sd_erase. keep. Qed.
Lemma keeps_if_cond v : keep (sd_send_if_cond send v).
Proof. unfold sd_send_if_cond. keep. Qed.
Lemma keeps_op_loop k c ocr : keep (op_cond_loop send k c ocr).
Proof. revert c; induction k; intro c; cbn [op_cond_loop]; keep. Qed.
Hint Resolve keeps_scr keeps_sds keeps_if_cond keeps_op_loop : frame.
Lemma keeps_op_cond ocr : keep (sd_app_send_op_cond send ocr).
Proof. unfold sd_app_send_op_cond. keep. Qed.
Lemma keeps_swcaps f : keep (upd_swcaps f : M Bus unit).
Proof. apply frame_dev. Qed.
Hint Resolve keeps_op_cond keeps_swcaps : frame.
Lemma keeps_read_switch : keep (sd_read_switch send).
Proof. unfold sd_read_switch. keep. Qed.
Lemma keeps_read_status : keep (sd_read_status send).
Proof.
  unfold sd_read_status. apply keeps_bind; [apply keeps_get_dev|]. intro d. apply keeps_if; [apply keeps_ret|].
  apply (keeps_gives (fun x => zlen x.2 = 16)); [keep| |].
  - intro s. unfold sd_app_sd_status, mbind, M_bind, mret, M_ret.
    destruct (app_register _ _ _ s) as [[[r buf] s']|]; [|done]. cbn [snd]. unfold zlen. by rewrite words_of_len.
  - intros [r raw] Hr. keep. apply plain_status. unfold zlen in *. by rewrite length_map.
Qed.
Lemma keeps_check g v ok k : keep k -> keep (switch_and_check send g v ok k).
Proof. intro Hk. unfold switch_and_check. keep. Qed.
Hint Resolve keeps_read_switch keeps_read_status keeps_check : frame.
(** After the register was read and swapped it has its two words. *)
Lemma keeps_scr_then (k : sdio_dev -> M Bus Z) m :
  (forall d, zlen (raw_scr d) = 2 -> keep (k d)) ->
  m = (ok! sd_app_send_scr send;
       _ ← upd_dev (fun d => d <| raw_scr := map ENDIAN_BE32 (raw_scr d) |>); d ← get_dev; k d) -> keep m.
Proof.
  intros Hk ->. unfold sd_app_send_scr. intro s.
  pose proof (keeps_register SD_AC_SEND_SCR SD_SCR_SIZE s) as Hreg. revert Hreg.
  unfold ok_then, mbind, M_bind. destruct (app_register _ _ _ s) as [[[r buf] s1]|]; [|done].
  unfold when. destruct (r =? EOK) eqn:Er; unfold mret, M_ret; [|by rewrite Er]. intro H1.
  unfold upd_dev at 1. rewrite Er.
  pose proof (frame_dev (fun d => d <| raw_scr := words_of 2 buf |>) s1) as H2. unfold upd_dev in H2 at 1.
  set (s2 := {| hc := hc s1 |}) in *.
  pose proof (frame_dev (fun d => d <| raw_scr := map ENDIAN_BE32 (raw_scr d) |>) s2) as H3. revert H3.
  unfold upd_dev, get_dev. intro H3. set (s3 := {| hc := hc s2 |}) in *.
  assert (Hlen : zlen (raw_scr (dev s3)) = 2) by (unfold zlen; cbn; done).
  specialize (Hk (dev s3) Hlen s3). revert Hk. assert (PreOrder R) by apply frame_pre.
  assert (R s s3) by (transitivity s1; [|transitivity s2]; done).
  destruct (k (dev s3) s3) as [[a s4]|e]; [by transitivity s3|by apply frame_back].
Qed.
Lemma keeps_switch_hs : keep (sd_switch_hs send).
Proof. unfold sd_switch_hs. keep. Qed.
Lemma keeps_app_width w : keep (sd_app_set_bus_width send w).
Proof. unfold sd_app_set_bus_width. keep. Qed.
Hint Resolve keeps_switch_hs keeps_app_width : frame.
Lemma keeps_sd_width w : keep (sd_set_bus_width send w).
Proof. unfold sd_set_bus_width. keep. Qed.
Lemma keeps_sd_drv b d : keep (sd_set_drv_type send b d).
Proof. unfold sd_set_drv_type. keep. apply keeps_check. keep. Qed.
Lemma keeps_speed b : keep (sd_set_bus_speed_mode send b).
Proof. unfold sd_set_bus_speed_mode. keep. all: apply keeps_check; keep. Qed.
Lemma keeps_current b l : keep (sd_set_current_limit send b l).
Proof. unfold sd_set_current_limit. keep. Qed.
Lemma keeps_assd : keep (sd_init_assd send).
Proof. unfold sd_init_assd. keep. apply keeps_check; keep. Qed.
Hint Resolve keeps_sd_width keeps_sd_drv keeps_speed keeps_current keeps_assd : frame.
Lemma keeps_uhs : keep (sd_init_uhs send).
Proof. unfold sd_init_uhs. keep. Qed.
Lemma keeps_sd_hs : keep (sd_init_hs send).
Proof. unfold sd_init_hs. keep. Qed.
Hint Resolve keeps_uhs keeps_sd_hs : frame.
Lemma keeps_sd_bus : keep (sd_init_bus send).
Proof. unfold sd_init_bus. keep. Qed.
Lemma keeps_capabilities : keep (sd_capabilities send).
Proof.
  unfold sd_capabilities. eapply keeps_scr_then; [|reflexivity]. intros d Hd. keep. by apply plain_scr.
Qed.
Hint Resolve keeps_sd_bus keeps_capabilities : frame.
Lemma keeps_sd_lock a pw : keep (sd_lock_unlock send a pw).
Proof. unfold sd_lock_unlock. keep. Qed.
Lemma keeps_unlock : keep (sd_unlock send).
Proof. unfold sd_unlock. keep. Qed.
Lemma keeps_sd_card : keep (sd_new_card send).
Proof. unfold sd_new_card. keep. Qed.
Lemma keeps_sd_error : keep (sd_bus_error send).
Proof. unfold sd_bus_error. keep. Qed.
Hint Resolve keeps_unlock keeps_sd_card keeps_sd_error : frame.

(** *** MMC cards *)

Lemma keeps_mmc_switch a b c d e : keep (mmc_switch send a b c d e).
Proof. unfold mmc_switch. keep. Qed.
Lemma keeps_write i v t : keep (write_ecsd send i v t).
Proof. apply keeps_mmc_switch. Qed.
Hint Resolve keeps_write : frame.
Lemma keeps_partition p : keep (mmc_set_partition send p).
Proof. unfold mmc_set_partition. keep. Qed.
Lemma keeps_sleep b : keep (mmc_sleep_awake send b).
Proof. unfold mmc_sleep_awake. keep. Qed.
Lemma keeps_cache op t : keep (mmc_cache send op t).
Proof. unfold mmc_cache. keep. Qed.
Hint Resolve keeps_partition keeps_sleep keeps_cache : frame.
Lemma keeps_mmc_erase p f l n : keep (mmc_erase send p f l n).
Proof. unfold mmc_erase. keep. Qed.
Lemma keeps_ext : keep (mmc_send_ext_csd send).
Proof. unfold mmc_send_ext_csd. keep. Qed.
Lemma keeps_set_rca a : keep (mmc_set_relative_addr send a).
Proof. unfold mmc_set_relative_addr. keep. Qed.
Lemma keeps_mmc_loop k c ocr : keep (mmc_op_cond_loop send k c ocr).
Proof. revert c; induction k; intro c; cbn [mmc_op_cond_loop]; keep. Qed.
Hint Resolve keeps_ext keeps_set_rca keeps_mmc_loop : frame.
Lemma keeps_mmc_cond ocr : keep (mmc_send_op_cond send ocr).
Proof. unfold mmc_send_op_cond. keep. Qed.
Lemma keeps_bus_test w : keep (mmc_bus_test send w).
Proof. unfold mmc_bus_test. keep. Qed.
Hint Resolve keeps_mmc_cond keeps_bus_test : frame.
Lemma keeps_widths k w : keep (try_widths send k w).
Proof. revert w; induction k; intro w; cbn [try_widths]; keep. Qed.
Hint Resolve keeps_widths : frame.
Lemma keeps_mmc_width b : keep (mmc_bus_width send b).
Proof. unfold mmc_bus_width. keep. Qed.
Lemma keeps_mmc_hs : keep (mmc_init_hs send).
Proof. unfold mmc_init_hs. keep. Qed.
Lemma keeps_hs200_ w : keep (_mmc_init_hs200 send w).
Proof. unfold _mmc_init_hs200. keep. Qed.
Lemma keeps_mode_voltage a b : keep (mode_voltage a b : M Bus Z).
Proof. unfold mode_voltage. keep. Qed.
Hint Resolve keeps_mmc_width keeps_mmc_hs keeps_hs200_ keeps_mode_voltage : frame.
Lemma keeps_hs200 w : keep (mmc_init_hs200 send w).
Proof. unfold mmc_init_hs200. keep. Qed.
Lemma keeps_hs400 w : keep (mmc_init_hs400 send w).
Proof. unfold mmc_init_hs400. keep. Qed.
Lemma keeps_ddr w : keep (mmc_init_ddr send w).
Proof. unfold mmc_init_ddr. keep. Qed.
Lemma keeps_flagged f : keep (flagged f : M Bus bool).
Proof. unfold flagged. keep. Qed.
Hint Resolve keeps_hs200 keeps_hs400 keeps_ddr keeps_flagged : frame.
Lemma keeps_mmc_bus : keep (mmc_init_bus send).
Proof. unfold mmc_init_bus. keep. Qed.
Lemma keeps_mmc_card : keep (mmc_new_card send).
Proof. unfold mmc_new_card. keep. Qed.
Lemma keeps_new_ext : keep (mmc_new_ext send).
Proof. unfold mmc_new_ext. keep. Qed.
Hint Resolve keeps_mmc_bus keeps_mmc_card keeps_new_ext : frame.
Lemma keeps_version_4 b r : keep (mmc_version_4 send b r).
Proof. unfold mmc_version_4. keep. Qed.
Lemma keeps_find_errata : keep (mmc_find_errata : M Bus unit).
Proof. unfold mmc_find_errata. keep. Qed.
Hint Resolve keeps_version_4 keeps_find_errata : frame.
Lemma keeps_mmc_init ocr b : keep (mmc_init_device send ocr b).
Proof. unfold mmc_init_device. keep. Qed.
Lemma keeps_mmc_error : keep (mmc_bus_error send).
Proof. unfold mmc_bus_error. keep. Qed.
Hint Resolve keeps_mmc_init keeps_mmc_error : frame.
Lemma keeps_mmc_ident : keep (mmc_ident send).
Proof. unfold mmc_ident. keep. Qed.
Hint Resolve keeps_mmc_ident : frame.

(** *** Identification of SD cards, reset, power management *)

Variable fuel : nat.
Hypothesis keeps_cond_switch : forall ocr, keep (op_cond_switch send fuel ocr).
Hint Resolve keeps_cond_switch : frame.

Lemma keeps_sd_init ocr b : keep (sd_init_device send fuel ocr b).
Proof. unfold sd_init_device. keep. Qed.
Hint Resolve keeps_sd_init : frame.
Lemma keeps_sd_ident : keep (sd_ident send fuel).
Proof. unfold sd_ident. keep. Qed.
Hint Resolve keeps_sd_ident : frame.
Lemma keeps_reset_loop k : keep (reset_loop fuel send k).
Proof. induction k; cbn [reset_loop]; keep. Qed.
Hint Resolve keeps_reset_loop : frame.
Lemma keeps_reset : keep (_sdio_reset fuel send).
Proof. unfold _sdio_reset. keep. Qed.
Lemma keeps_bus_error_with : keep (
  d ← get_dev;
  (if dtype d =? DEV_TYPE_MMC then mmc_bus_error send
   else if dtype d =? DEV_TYPE_SD then sd_bus_error send else mret ENODEV)).
Proof. keep. Qed.
Lemma keeps_prefix c : keep (send_prefix send c).
Proof. unfold send_prefix. keep. Qed.
Lemma keeps_suffix c t : keep (send_suffix send c t).
Proof. unfold send_suffix. keep. Qed.
Hint Resolve keeps_reset keeps_prefix keeps_suffix : frame.

End Send.
End Frames.

(** Along a function whose parts are known to keep a frame that is in the context. *)
Ltac keeps_go :=
  repeat first
    [ done
    | match goal with
      | |- forall _, _ => intro
      | |- keeps _ _ (_ ≫= _) => apply keeps_bind; [done| |]
      | |- keeps _ _ (ok_then _ _) => apply keeps_ok; [done| |]
      | |- keeps _ _ (upd_hc _) => apply frame_hc; done
      | |- keeps _ _ (upd_dev _) => apply frame_dev
      | |- keeps _ _ (if _ then _ else _) => apply keeps_if
      | |- keeps _ _ (let '(_, _) := ?x in _) => destruct x
      end
    | progress cbv beta zeta ].

(** Power management keeps a frame in which the power state may change. *)
Lemma keeps_pwrmgnt {Bus} `{HostEntry Bus} R E `{!Frame R E} fuel send pm :
  (forall c t r, keeps R E (send c t r)) ->
  (forall ocr, keeps R E (op_cond_switch send fuel ocr)) ->
  (forall pm, keeps R E (set_pm pm)) -> keeps R E (_sdio_pwrmgnt fuel send pm).
Proof.
  intros Hsend Hsw Hpm.
  assert (Hret : forall A (x : A), keeps R E (mret x)) by (intros; by apply keeps_ret).
  assert (Hreset : keeps R E (_sdio_reset fuel send)) by by apply keeps_reset.
  assert (Hent : forall k v, keeps R E (entry k v)) by (intros; by apply keeps_entry).
  assert (Hhc : keeps R E get_hc) by by apply keeps_get_hc.
  assert (Hdev : keeps R E get_dev) by by apply keeps_get_dev.
  assert (Hsel : forall a, keeps R E (sdio_select_card send a)) by (intros; by apply keeps_select).
  assert (Hawake : forall b, keeps R E (mmc_sleep_awake send b)) by (intros; by apply keeps_sleep).
  assert (Hcache : forall a t, keeps R E (mmc_cache send a t)) by (intros; by apply keeps_cache).
  unfold _sdio_pwrmgnt, pm_wake, pm_sleep, when. keeps_go.
Qed.

(** ** Waking up: the recursion is three deep *)

Section Depth.
Context {Bus : Type} `{HostEntry Bus}.
Notation State := (sdio Bus).

(** Neither the command in progress nor the power state changes. *)
Definition same (s s' : State) : Prop :=
  active (hc s') = active (hc s) /\ pm_state (hc s') = pm_state (hc s).
Definition at_fault (_ : State) (e : err) : Prop := fault e.

(** A frame of an invariant [I] of the controller's structure that [stays] functions keep. *)
Definition inv_R (I : sdio_hc -> Prop) (s s' : State) : Prop := I (hc s) -> I (hc s').
Definition inv_E (I : sdio_hc -> Prop) (s : State) (e : err) : Prop := I (hc s) -> fault e.

(** A state with other free commands and another bus. *)
Definition on_pool (s : State) (p : cmd_pool) (b : Bus) : State :=
  {| hc := hc s; dev := dev s; pool := p; cd_pulses := cd_pulses s; calls := calls s; bus := b |}.

(** A command function finds no memory, or runs with a command that it gives back. *)
Lemma with_cmd_cases {A} (none : A) body (s : State) :
  (exists b, with_cmd none body s = Ok (none, on_pool s (pool s) b)) \/
  (exists p b,
     with_cmd none body s =
     match body cmd0 (on_pool s p b) with
     | Ok (r, s') =>
         Ok (r, on_pool s' {| free_cmds := S (free_cmds (pool s'));
                              lent_cmds := Nat.pred (lent_cmds (pool s')) |} (bus s'))
     | Err e => Err e
     end /\ lent_cmds p = S (lent_cmds (pool s))).
Proof.
  unfold with_cmd, sdio_alloc_cmd, sdio_free_cmd, get_pool, set_pool, have_memory, on_bus, mbind, M_bind, mret, M_ret.
  destruct (free_cmds (pool s)) as [|n].
  - destruct (e_calloc (bus s)) as [[] b]; [right|left; by exists b].
    exists {| free_cmds := 0; lent_cmds := S (lent_cmds (pool s)) |}, b. unfold on_pool.
    split; [|done]. cbn. by destruct (body _ _) as [[r s2]|e].
  - right. exists {| free_cmds := n; lent_cmds := S (lent_cmds (pool s)) |}, (bus s). unfold on_pool.
    split; [|done]. cbn. by destruct (body _ _) as [[r s2]|e].
Qed.

Lemma same_frame : Frame same at_fault.
Proof.
  split.
  - split; [by intro s|]. intros s1 s2 s3 [H1 H2] [H3 H4]. split; congruence.
  - by intros s s' e _.
  - by intros f s.
  - intros f Hf s. apply Hf.
  - intros A f s. unfold on_bus. destruct (f (hc s) (bus s)) as [a b]. done.
  - by intros k v r s.
  - by intro s.
  - intros A none body Hb s. destruct (with_cmd_cases none body s) as [[b ->]|(p & b & -> & _)]; [done|].
    specialize (Hb cmd0 (on_pool s p b)). revert Hb. by destruct (body _ _) as [[r s2]|e].
  - by intros s e He.
Qed.

Section Inv.
Variable I : sdio_hc -> Prop.
Hypothesis I_stays : forall f h, stays f -> I h -> I (f h).

Lemma inv_frame : Frame (inv_R I) (inv_E I).
Proof.
  split.
  - split; [by intros s Hs|]. intros s1 s2 s3 H1 H2 Hs. by apply H2, H1.
  - intros s s' e HR HE Hs. by apply HE, HR.
  - intros f s Hs. exact Hs.
  - intros f Hf s. cbn. intro Hs. by apply I_stays.
  - intros A f s. unfold on_bus. destruct (f (hc s) (bus s)) as [a b]. intro Hs. exact Hs.
  - intros k v r s Hs. exact Hs.
  - intros s Hs. exact Hs.
  - intros A none body Hb s. destruct (with_cmd_cases none body s) as [[b ->]|(p & b & -> & _)]; [intro Hs; exact Hs|].
    specialize (Hb cmd0 (on_pool s p b)). revert Hb. destruct (body _ _) as [[r s2]|e]; exact id.
  - intros s e He _. exact He.
Qed.
End Inv.

(** What holds before and after; the bounds are not reached. *)
Definition triple {A} (P : State -> Prop) (m : M Bus A) (Q : A -> State -> Prop) : Prop :=
  forall s, P s -> match m s with Ok (a, s') => Q a s' | Err e => fault e end.

Lemma triple_ret {A} (a : A) (P : State -> Prop) (Q : A -> State -> Prop) :
  (forall s, P s -> Q a s) -> triple P (mret a) Q.
Proof. intros HQ s Hs. by apply HQ. Qed.
Lemma triple_bind {A B} P (m : M Bus A) Q (f : A -> M Bus B) T :
  triple P m Q -> (forall a, triple (Q a) (f a) T) -> triple P (m ≫= f) T.
Proof.
  intros Hm Hf s Hs. specialize (Hm s Hs). revert Hm. unfold mbind, M_bind.
  destruct (m s) as [[a s']|e]; [|done]. exact (Hf a s').
Qed.
Lemma triple_weaken {A} (P P' : State -> Prop) (m : M Bus A) (Q Q' : A -> State -> Prop) :
  triple P' m Q' -> (forall s, P s -> P' s) -> (forall a s, Q' a s -> Q a s) -> triple P m Q.
Proof.
  intros Hm HP HQ s Hs. specialize (Hm s (HP s Hs)). revert Hm.
  destruct (m s) as [[a s']|e]; [apply HQ|done].
Qed.
Lemma triple_if {A} (b : bool) P (m1 m2 : M Bus A) Q :
  triple P m1 Q -> triple P m2 Q -> triple P (if b then m1 else m2) Q.
Proof. by destruct b. Qed.

(** The command in progress and the power state are these. *)
Definition power (a : bool) (p : Z) (s : State) : Prop := active (hc s) = a /\ pm_state (hc s) = p.

Lemma triple_same {A} (m : M Bus A) a p :
  keeps same at_fault m -> triple (power a p) m (fun _ => power a p).
Proof.
  intros Hm s [Ha Hp]. specialize (Hm s). revert Hm. destruct (m s) as [[x s']|e]; [|done].
  intros [H1 H2]. split; congruence.
Qed.
(** A command leaves no command in progress. *)
Definition powered (p : Z) (s : State) : Prop := pm_state (hc s) = p.
Lemma triple_powered {A} (m : M Bus A) p :
  keeps same at_fault m -> triple (powered p) m (fun _ => powered p).
Proof.
  intros Hm s Hp. specialize (Hm s). revert Hm. destruct (m s) as [[x s']|e]; [|done].
  intros [_ H2]. unfold powered in *. congruence.
Qed.
Lemma triple_active a p :
  triple (powered p) (upd_hc (fun h => h <| active := a |>)) (fun _ => power a p).
Proof. intros s Hs. split; [done|exact Hs]. Qed.

Lemma wait_power c tms p :
  triple (powered p) (sdio_wait_cmd c tms)
    (fun x s => powered p s /\ (fst x = EOK -> active (hc s) = false)).
Proof.
  pose proof same_frame as F. unfold sdio_wait_cmd.
  eapply triple_bind; [apply triple_powered, F|]. intro w.
  eapply triple_bind; [apply triple_powered, keeps_events; exact F|]. intros ?. cbv zeta.
  destruct (w_done w) as [st|]; [|apply triple_ret; intros s Hs; by split].
  unfold sdio_cmd_cmplt. eapply triple_bind with (Q := fun _ => power false p).
  - eapply triple_bind; [apply triple_active|]. intros ?. by apply triple_ret.
  - intro c'. apply triple_ret. intros s [Ha Hp]. by split.
Qed.

Lemma issue_power c tms p : triple (powered p) (sdio_issue_cmd c tms) (fun _ => power false p).
Proof.
  pose proof same_frame as F. unfold sdio_issue_cmd.
  eapply triple_bind; [apply triple_powered, keeps_get_hc; exact F|]. intro h.
  eapply triple_bind; [apply triple_powered, keeps_when; [exact F|apply keeps_retune; exact F]|]. intros ?.
  eapply triple_bind; [eapply triple_weaken; [apply triple_active|done|]; intros ? s [_ Hp]; exact Hp|].
  intros ?. eapply triple_bind; [apply triple_powered, F|]. intro r.
  eapply triple_bind with (Q := fun x s => powered p s /\ (fst x = EOK -> active (hc s) = false)).
  { destruct (Z.eqb_spec r EOK); [apply wait_power|]. apply triple_ret. intros s Hs. by split. }
  intros [r' c']. eapply triple_bind with (Q := fun _ => power false p).
  - destruct (Z.eqb_spec r' EOK) as [->|].
    + apply triple_ret. intros s [Hp Ha]. split; [by apply Ha|done].
    + eapply triple_bind.
      { eapply triple_weaken; [apply triple_powered, F|intros s [Hp _]; exact Hp|done]. }
      intros ?. eapply triple_bind; [apply triple_active|]. intros ?. by apply triple_ret.
  - intro c2. eapply triple_bind with (Q := fun _ => power false p); [by intros s Hs|].
    intros ?. by apply triple_ret.
Qed.

(** *** What a command gives *)

(** The result of [m], if there is one. *)
Definition gives {A} (Q : A -> Prop) (m : M Bus A) : Prop :=
  forall s, match m s with Ok (a, _) => Q a | Err _ => True end.
Lemma gives_ret {A} (Q : A -> Prop) a : Q a -> gives Q (mret a).
Proof. by intros HQ s. Qed.
Lemma gives_bind {A B} (T : A -> Prop) (Q : B -> Prop) m f :
  gives T m -> (forall a, T a -> gives Q (f a)) -> gives Q (m ≫= f).
Proof.
  intros Hm Hf s. specialize (Hm s). revert Hm. unfold mbind, M_bind.
  destruct (m s) as [[a s']|e]; [|done]. intro Ha. exact (Hf a Ha s').
Qed.
Lemma gives_any {A B} (Q : B -> Prop) (m : M Bus A) f : (forall a, gives Q (f a)) -> gives Q (m ≫= f).
Proof. intro Hf. apply (gives_bind (fun _ => True)); [intro s; by destruct (m s) as [[]|]|]. intros a _. apply Hf. Qed.
Lemma gives_if {A} (b : bool) (Q : A -> Prop) m1 m2 :
  gives Q m1 -> gives Q m2 -> gives Q (if b then m1 else m2).
Proof. by destruct b. Qed.
Lemma gives_cmd {A} (Q : A -> Prop) none body :
  Q none -> (forall c, gives Q (body c)) -> gives Q (with_cmd none body).
Proof.
  intros Hn Hb s. destruct (with_cmd_cases none body s) as [[b ->]|(p & b & -> & _)]; [done|].
  specialize (Hb cmd0 (on_pool s p b)). revert Hb. by destruct (body _ _) as [[r s2]|e].
Qed.

(** The command is the one that was sent, but for its status, its response and its buffer. *)
Definition as_sent (c c' : sdio_cmd) : Prop :=
  opcode c' = opcode c /\ arg c' = arg c /\ flags c' = flags c.
(** The response is one the machine gave to such a command. *)
Definition answer (c : sdio_cmd) (r : words4) : Prop :=
  exists c' tms h b, as_sent c c' /\ r = w_rsp (e_wait c' tms h b).
Definition answered (c : sdio_cmd) (x : Z * sdio_cmd) : Prop :=
  as_sent c (snd x) /\ (fst x = EOK -> answer c (rsp (snd x))).

Lemma as_sent_trans c1 c2 c3 : as_sent c1 c2 -> as_sent c2 c3 -> as_sent c1 c3.
Proof. intros (A & B & C) (D & E & F). repeat split; congruence. Qed.
Lemma answer_trans c1 c2 r : as_sent c1 c2 -> answer c2 r -> answer c1 r.
Proof. intros Hc (c' & t & h & b & Hs & ->). exists c', t, h, b. split; [by eapply as_sent_trans|done]. Qed.

Lemma wait_answered c tms : gives (answered c) (sdio_wait_cmd c tms).
Proof.
  unfold sdio_wait_cmd. eapply (gives_bind (fun w => exists h b, w = e_wait c tms h b)).
  { intros s. cbn. by eexists _, _. }
  intros w (h & b & ->). apply gives_any. intros ?. cbv zeta.
  assert (Ha : forall st, answered c (st,
     if has (flags (c <| rsp := w_rsp (e_wait c tms h b) |>)) SCF_DIR_IN
     then c <| rsp := w_rsp (e_wait c tms h b) |> <| data := w_data (e_wait c tms h b) |>
     else c <| rsp := w_rsp (e_wait c tms h b) |>)).
  { intro st. split; [by destruct (has _ _)|]. intros _. exists c, tms, h, b. split; [done|].
    by destruct (has _ _). }
  destruct (w_done _) as [st|]; [|by apply gives_ret].
  unfold sdio_cmd_cmplt. apply (gives_bind (fun c' => answered c (EOK, c'))).
  - apply gives_any. intros ?. apply gives_ret. specialize (Ha EOK). destruct Ha as [A B]. by split.
  - intros c' [A B]. apply gives_ret. split; [done|]. intros _. by apply B.
Qed.

Lemma issue_answered c tms : gives (answered c) (sdio_issue_cmd c tms).
Proof.
  unfold sdio_issue_cmd. do 3 (apply gives_any; intros ?). apply gives_any. intro r.
  apply (gives_bind (answered c)).
  { destruct (Z.eqb_spec r EOK); [apply wait_answered|]. apply gives_ret. by split. }
  intros [r' c'] Ha.
  apply (gives_bind (fun c2 => answered c (r', c2))).
  - destruct (Z.eqb_spec r' EOK); [by apply gives_ret|].
    do 2 (apply gives_any; intros ?). apply gives_ret. split; [apply Ha|done].
  - intros c2 H2. apply gives_any. intros ?. by apply gives_ret.
Qed.

Lemma loop_answered send retries c timeout : gives (answered c) (send_loop send retries c timeout).
Proof.
  revert c. induction retries as [|n IH]; intro c; cbn [send_loop]; cbv zeta; apply gives_any; intro r.
  all: destruct (Z.eqb_spec r EOK); cbn [negb]; [|by apply gives_ret].
  all: eapply gives_bind; [apply issue_answered|]; intros [r' c'] Ha.
  all: assert (Hc : forall r2, (r2 = EOK -> r' = EOK) -> answered c (r2, c'))
         by (intros r2 H2; split; [apply Ha|intro; by apply Ha, H2]).
  all: destruct (Z.eqb_spec r' EOK) as [->|]; cbn [negb]; [|apply gives_ret, Hc; done].
  all: destruct (status c' =? CS_CARD_REMOVED); [apply gives_ret, Hc; done|].
  all: destruct (status c' =? CS_CMD_CMP); [apply gives_any; intro; apply gives_ret, Hc; done|].
  all: destruct (has _ CDS_ILLEGAL_COMMAND); [apply gives_ret, Hc; done|].
  - apply gives_ret, Hc. done.
  - intro s. specialize (IH c' s). revert IH. destruct (send_loop _ _ _ _ _) as [[[r2 c2] s2]|]; [|done].
    intros [A B]. split; [by eapply as_sent_trans; [apply Ha|]|].
    intro Hr. eapply answer_trans; [apply Ha|by apply B].
Qed.

Lemma send_answered fuel d c t r : gives (answered c) (_sdio_send_cmd fuel d c t r).
Proof.
  destruct d as [|d]; cbn [_sdio_send_cmd]; [by intro|]. unfold send_body. apply gives_any. intro r'.
  destruct (Z.eqb_spec r' EOK); cbn [negb]; [apply loop_answered|by apply gives_ret].
Qed.

(** *** The bounds are enough *)

Variable fuel : nat.

(** At rest: no command is in progress.  Awake: and waking up has nothing to do. *)
Definition idle (h : sdio_hc) : Prop := active h = false.
Definition awake (h : sdio_hc) : Prop := idle h /\ (e_has Pm = false \/ pm_state h <> PM_SLEEP).

Lemma idle_stays f h : stays f -> idle h -> idle (f h).
Proof. intros Hf Hh. unfold idle. destruct (Hf h) as [-> _]. exact Hh. Qed.
Lemma awake_stays f h : stays f -> awake h -> awake (f h).
Proof. intros Hf [Hi Hh]. split; [by apply idle_stays|]. destruct (Hf h) as [_ ->]. exact Hh. Qed.

Notation kept I m := (keeps (inv_R I) (inv_E I) m).

Lemma triple_kept {A} I (m : M Bus A) :
  (forall p, triple (power false p) m (fun _ => power false p)) ->
  (forall h h', I h -> active h = false /\ (active h' = false -> pm_state h' = pm_state h -> I h')) ->
  kept I m.
Proof.
  intros Hm HI s. specialize (Hm (pm_state (hc s)) s). revert Hm.
  destruct (m s) as [[a s']|e]; intros Hm Hs.
  - destruct (HI _ (hc s') Hs) as [Ha Hb]. destruct Hm as [H1 H2]; [done|]. by apply Hb.
  - destruct (HI _ (hc s) Hs) as [Ha _]. by apply Hm.
Qed.
Lemma idle_kept {A} (m : M Bus A) :
  (forall p, triple (power false p) m (fun _ => power false p)) -> kept idle m.
Proof. intro Hm. by apply triple_kept. Qed.
Lemma awake_kept {A} (m : M Bus A) :
  (forall p, triple (power false p) m (fun _ => power false p)) -> kept awake m.
Proof.
  intro Hm. apply triple_kept; [done|]. intros h h' [Hi Hp]. split; [done|]. intros Ha Hq. split; [done|].
  by rewrite Hq.
Qed.

Lemma issue_kept c tms p : triple (power false p) (sdio_issue_cmd c tms) (fun _ => power false p).
Proof. eapply triple_weaken; [apply (issue_power c tms p)|by intros s []|done]. Qed.

(** The loop of a command keeps a frame that its prefix and its suffix keep, for the commands it may send. *)
Lemma loop_kept I send (ok : sdio_cmd -> Prop) retries c timeout :
  (forall f h, stays f -> I h -> I (f h)) ->
  (forall c c', as_sent c c' -> ok c -> ok c') ->
  (forall c t, kept I (sdio_issue_cmd c t)) ->
  (forall c, ok c -> kept I (send_prefix send c)) ->
  (forall c t, ok c -> kept I (send_suffix send c t)) ->
  ok c -> kept I (send_loop send retries c timeout).
Proof.
  intros HI Hok Hissue Hpre Hsuf. pose proof (inv_frame I HI) as F. revert c.
  assert (Hret : forall A (x : A), kept I (mret x)) by (intros; by apply keeps_ret).
  induction retries as [|n IH]; intros c Hc; cbn [send_loop]; cbv zeta.
  all: apply keeps_bind; [done|by apply Hpre, (Hok c)|]; intro r; apply keeps_if; [done|].
  all: eapply keeps_gives; [done|apply Hissue|apply issue_answered|].
  all: intros [r' c'] [Ha _]; assert (Hc' : ok c') by (eapply Hok; [exact Ha|by apply (Hok c)]).
  all: repeat apply keeps_if; try done.
  all: try (apply keeps_bind; [done|by apply Hsuf|done]).
  by apply IH.
Qed.

Lemma kept_triple {A} (I : sdio_hc -> Prop) (m : M Bus A) :
  kept I m <-> triple (fun s => I (hc s)) m (fun _ s => I (hc s)).
Proof.
  split; intros Hm s; specialize (Hm s); revert Hm; destruct (m s) as [[a s']|e]; intros Hm Hs; by apply Hm.
Qed.
Lemma triple_get_hc {A} P (f : sdio_hc -> M Bus A) T :
  (forall h, triple (fun s => P s /\ hc s = h) (f h) T) -> triple P (get_hc ≫= f) T.
Proof. intros Hf s Hs. by apply (Hf (hc s)). Qed.
Lemma triple_pm (pm : Z) P :
  triple (fun s => P ((hc s) <| pm_state := pm |>)) (set_pm pm) (fun _ s => P (hc s)).
Proof. intros s Hs. exact Hs. Qed.

(** Waking up has nothing to do. *)
Lemma pwrmgnt_awake send : kept awake (_sdio_pwrmgnt fuel send PM_ACTIVE).
Proof.
  pose proof (inv_frame awake awake_stays) as F. apply kept_triple. unfold _sdio_pwrmgnt.
  apply triple_get_hc. intro h. destruct (e_has Pm) eqn:EPm; cbn [negb orb].
  2: apply triple_ret; by intros s [].
  change (PM_ACTIVE =? PM_IDLE) with false. change (PM_ACTIVE =? PM_ACTIVE) with true. cbv iota.
  apply triple_if; [apply triple_ret; by intros s []|].
  apply triple_weaken with (P' := fun s => awake (hc s)) (Q' := fun _ s => awake (hc s));
    [|by intros s []|done].
  apply triple_bind with (Q := fun _ s => awake (hc s)).
  - unfold pm_wake. eapply triple_bind; [apply kept_triple, keeps_entry, F|]. intros ?.
    apply triple_get_hc. intro h'. intros s [[Hi Hp] <-]. destruct Hp as [Hp|Hp]; [congruence|].
    destruct (Z.eqb_spec (pm_state (hc s)) PM_SLEEP); [done|]. cbn. split; [done|by right].
  - intro r. eapply triple_bind with (Q := fun _ s => awake (hc s)); [|intros ?; by apply triple_ret].
    eapply triple_weaken; [apply (triple_pm PM_ACTIVE awake)| |done].
    intros s [Hi _]. split; [exact Hi|by right].
Qed.

Lemma leaf_flags c :
  leaf c -> has (flags c) SCF_APP_CMD = false /\ has (flags c) SCF_SBC = false /\
            has (flags c) SCF_WAIT_DRDY = false.
Proof. unfold leaf. rewrite !has_either, !orb_false_iff. tauto. Qed.
Lemma no_prefix send c s : leaf c -> send_prefix send c s = Ok (EOK, s).
Proof. intros (HA & HS & _)%leaf_flags. unfold send_prefix. by rewrite HA, HS. Qed.
Lemma no_suffix send c t s : leaf c -> send_suffix send c t s = Ok (EOK, s).
Proof. intros (_ & _ & HW)%leaf_flags. unfold send_suffix. by rewrite HW. Qed.

(** A leaf command needs no other command. *)
Lemma leaf_kept send c t r : leaf c -> kept awake (send_body fuel send c t r).
Proof.
  pose proof (inv_frame awake awake_stays) as F. intro Hc. unfold send_body.
  apply keeps_bind; [done|apply pwrmgnt_awake|]. intro r'. apply keeps_if; [by apply keeps_ret|].
  apply (loop_kept awake send leaf); [apply awake_stays| | | | |done].
  - intros c1 c2 (_ & _ & Hf) H1. unfold leaf. by rewrite Hf.
  - intros. apply awake_kept, issue_kept.
  - intros c1 H1 s. rewrite no_prefix by done. exact id.
  - intros c1 t1 H1 s. rewrite no_suffix by done. exact id.
Qed.
(** In a controller that is awake, a command needs two levels; the switch to 1.8 V takes two rounds, of a
    card that offers it only if it was asked for. *)
Lemma awake_kept_send d c t r : kept awake (_sdio_send_cmd fuel (S (S d)) c t r).
Proof.
  pose proof (inv_frame awake awake_stays) as F.
  assert (Hleaf : forall c t r, leaf c -> kept awake (_sdio_send_cmd fuel (S d) c t r)).
  { intros. by apply leaf_kept. }
  cbn [_sdio_send_cmd]. unfold send_body.
  apply keeps_bind; [done|apply pwrmgnt_awake|]. intro r'. apply keeps_if; [by apply keeps_ret|].
  apply (loop_kept awake _ (fun _ => True)); [apply awake_stays|done| | | |done].
  - intros. apply awake_kept, issue_kept.
  - intros. by apply leaf_prefix.
  - intros. by apply leaf_suffix.
Qed.

(** What an SD card must not do: offer to switch to 1.8 V when the controller did not ask. *)
Definition offers_if_asked : Prop :=
  forall c tms h b, opcode c = SD_AC_SEND_OP_COND -> has (arg c) OCR_S18R = false ->
  has (w0 (w_rsp (e_wait c tms h b))) OCR_S18A = false.

Lemma op_loop_answered d k c ocr : gives (answered c) (op_cond_loop (_sdio_send_cmd fuel d) k c ocr).
Proof.
  revert c. induction k as [|k IH]; intro c; cbn [op_cond_loop]; [by apply gives_ret|].
  eapply gives_bind; [apply send_answered|]. intros [r c'] [Hs Ha]. cbn [fst snd] in *.
  destruct (Z.eqb_spec r EOK) as [->|]; cbn [negb]; [|by apply gives_ret].
  apply gives_if; [by apply gives_ret|]. apply gives_any. intros ? s.
  specialize (IH c' s). revert IH. destruct (op_cond_loop _ _ _ _ _) as [[[r2 c2] s2]|]; [|done].
  intros [A B]. split; [by eapply as_sent_trans|]. intro Hr. eapply answer_trans; [exact Hs|by apply B].
Qed.

Lemma op_cond_answered d ocr :
  offers_if_asked -> has (u32 ocr) OCR_S18R = false ->
  gives (fun x => fst x = EOK -> has (snd x) OCR_S18A = false)
    (sd_app_send_op_cond (_sdio_send_cmd fuel d) ocr).
Proof.
  intros Hlaw Hocr. unfold sd_app_send_op_cond. apply gives_cmd; [done|]. intro c. cbv zeta.
  eapply gives_bind; [apply op_loop_answered|]. intros [r c'] [_ Ha]. apply gives_ret. cbn [fst snd] in *.
  intro Hr. destruct (Ha Hr) as (c2 & tms & h & b & (Hop & Harg & _) & ->).
  apply Hlaw; [by rewrite Hop|by rewrite Harg].
Qed.

Lemma without_s18r ocr : has (u32 (Z.land ocr (bnot 32 OCR_S18R))) OCR_S18R = false.
Proof.
  unfold has. rewrite negb_false_iff, Z.eqb_eq. apply (land_pow2_testbit _ 24); [lia|].
  unfold u32, wrap. rewrite Z.mod_pow2_bits_low, Z.land_spec by lia.
  change (Z.testbit (bnot 32 OCR_S18R) 24) with false. apply andb_false_r.
Qed.
Lemma not_offered rocr :
  has rocr OCR_S18A = false -> Z.land rocr (Z.lor OCR_HCS OCR_S18A) =? Z.lor OCR_HCS OCR_S18A = false.
Proof.
  unfold has. rewrite negb_false_iff, Z.eqb_eq, Z.eqb_neq. intros H0 H1.
  apply (f_equal (fun x => Z.land x OCR_S18A)) in H1. rewrite <- Z.land_assoc in H1.
  change (Z.land (Z.lor OCR_HCS OCR_S18A) OCR_S18A) with OCR_S18A in H1. rewrite H0 in H1. discriminate.
Qed.

Lemma cond_switch_kept I d ocr k :
  (forall f h, stays f -> I h -> I (f h)) -> offers_if_asked ->
  (forall c t r, kept I (_sdio_send_cmd fuel d c t r)) ->
  kept I (op_cond_switch (_sdio_send_cmd fuel d) (S (S k)) ocr).
Proof.
  intros HI Hlaw Hsend. pose proof (inv_frame I HI) as F.
  assert (Hcond : forall ocr, kept I (sd_app_send_op_cond (_sdio_send_cmd fuel d) ocr))
    by (intro; by apply keeps_op_cond).
  assert (Hret : forall A (x : A), kept I (mret x)) by (intros; by apply keeps_ret).
  assert (Hvolt : kept I (r ← sdio_signal_voltage SIGNAL_VOLTAGE_1_8;
            if negb (r =? EOK) then _ ← set_flag DEV_FLAG_SIG_ERR; mret r else mret EOK)).
  { apply keeps_bind; [done|by apply keeps_voltage|]. intro. apply keeps_if; [|done].
    apply keeps_bind; [done|by apply keeps_flag|done]. }
  cbn [op_cond_switch].
  apply keeps_bind; [done|done|]. intros [r rocr]. do 2 (apply keeps_if; try done).
  apply keeps_bind; [done|by apply keeps_vswitch|]. intro r2. apply keeps_if; [|done].
  eapply keeps_gives; [done|done|apply op_cond_answered; [done|apply without_s18r]|].
  intros [r3 rocr3] H3. cbn [fst snd] in H3. destruct (Z.eqb_spec r3 EOK) as [->|]; cbn [negb]; [|done].
  rewrite not_offered by by apply H3. done.
Qed.

Section Bound.
Hypothesis asked : offers_if_asked.
Hypothesis two_rounds : (2 <= fuel)%nat.

Lemma switch_kept I d ocr :
  (forall f h, stays f -> I h -> I (f h)) ->
  (forall c t r, kept I (_sdio_send_cmd fuel d c t r)) ->
  kept I (op_cond_switch (_sdio_send_cmd fuel d) fuel ocr).
Proof.
  intros HI Hsend. pose proof (cond_switch_kept I d ocr (fuel - 2) HI asked Hsend) as Hk.
  replace (S (S (fuel - 2))) with fuel in Hk by lia. exact Hk.
Qed.

Lemma reset_kept I d :
  (forall f h, stays f -> I h -> I (f h)) ->
  (forall c t r, kept I (_sdio_send_cmd fuel d c t r)) ->
  kept I (_sdio_reset fuel (_sdio_send_cmd fuel d)).
Proof.
  intros HI Hsend. pose proof (inv_frame I HI) as F. apply keeps_reset; [done..|].
  intro. by apply switch_kept.
Qed.

(** A controller at rest is awake after it was woken. *)
Lemma pwrmgnt_wakes d :
  triple (fun s => idle (hc s)) (_sdio_pwrmgnt fuel (_sdio_send_cmd fuel (S (S d))) PM_ACTIVE)
    (fun _ s => awake (hc s)).
Proof.
  pose proof (inv_frame awake awake_stays) as Fa. pose proof (inv_frame idle idle_stays) as Fi.
  set (send := _sdio_send_cmd fuel (S (S d))).
  assert (Hsend : forall c t r, kept awake (send c t r)) by (intros; apply awake_kept_send).
  unfold _sdio_pwrmgnt. apply triple_get_hc. intro h.
  destruct (e_has Pm) eqn:EPm; cbn [negb orb].
  2: apply triple_ret; intros s [Hs _]; split; [exact Hs|by left].
  destruct (Z.eqb_spec PM_ACTIVE (pm_state h)) as [E|]; cbn [orb].
  { apply triple_ret. intros s [Hs <-]. split; [exact Hs|]. right. by rewrite <- E. }
  change (PM_ACTIVE =? PM_IDLE) with false. change (PM_ACTIVE =? PM_ACTIVE) with true. cbv iota.
  destruct (active h) eqn:Eact; [intros s [Hs <-]; unfold idle in Hs; congruence|].
  apply triple_weaken with (P' := fun s => idle (hc s)) (Q' := fun _ s => awake (hc s));
    [|by intros s []|done].
  apply triple_bind with (Q := fun _ s => idle (hc s)).
  2:{ intro r. eapply triple_bind with (Q := fun _ s => awake (hc s)); [|intros ?; by apply triple_ret].
      intros s Hs. split; [exact Hs|by right]. }
  unfold pm_wake. eapply triple_bind; [apply kept_triple, keeps_entry, Fi|]. intros ?.
  apply triple_get_hc. intro h'. apply triple_if; [|apply triple_ret; by intros s []].
  eapply triple_bind with (Q := fun _ s => awake (hc s)); [intros s [Hs _]; split; [exact Hs|by right]|].
  intros ?. apply triple_weaken with (P' := fun s => awake (hc s)) (Q' := fun _ s => awake (hc s));
    [apply kept_triple|done|by intros ? s []].
  assert (Hreset : kept awake (_sdio_reset fuel send)) by (apply reset_kept; [apply awake_stays|done]).
  apply keeps_bind; [done|by apply keeps_get_dev|]. intro dv.
  assert (Hret : forall A (x : A), kept awake (mret x)) by (intros; by apply keeps_ret).
  do 2 (try apply keeps_if; try done).
  apply keeps_bind; [done| |intro r; by apply keeps_if].
  apply keeps_ok; [done|by apply keeps_sleep|]. apply keeps_bind; [done|by apply keeps_get_dev|].
  intro. by apply keeps_select.
Qed.

(** Three levels are enough for a controller at rest. *)
Lemma idle_kept_send d c t r : kept idle (_sdio_send_cmd fuel (S (S (S d))) c t r).
Proof.
  pose proof (inv_frame awake awake_stays) as Fa.
  assert (Hsend : forall c t r, kept awake (_sdio_send_cmd fuel (S (S d)) c t r))
    by (intros; apply awake_kept_send).
  apply kept_triple. change (_sdio_send_cmd fuel (S (S (S d))) c t r)
    with (send_body fuel (_sdio_send_cmd fuel (S (S d))) c t r).
  unfold send_body. eapply triple_bind; [apply pwrmgnt_wakes|]. intro r'.
  apply triple_if; [apply triple_ret; by intros s []|].
  apply triple_weaken with (P' := fun s => awake (hc s)) (Q' := fun _ s => awake (hc s));
    [|done|intros ? s [Hs _]; exact Hs].
  apply kept_triple, (loop_kept awake _ (fun _ => True)); [apply awake_stays|done| | | |done].
  - intros. apply awake_kept, issue_kept.
  - intros. by apply keeps_prefix.
  - intros. by apply keeps_suffix.
Qed.

Lemma pwrmgnt_kept pm : kept idle (_sdio_pwrmgnt fuel (send fuel) pm).
Proof.
  pose proof (inv_frame idle idle_stays) as F.
  assert (Hsend : forall c t r, kept idle (send fuel c t r)) by (intros; apply idle_kept_send).
  apply keeps_pwrmgnt; [done|done| |intros p s Hs; exact Hs].
  intro. apply switch_kept; [apply idle_stays|done].
Qed.
End Bound.
End Depth.
