(* ===== verification/SdioRun.v ===== *)
(** * SdioRun: the SD/MMC bus layer always returns, and prefixes its application commands. *)

From coqutil Require Import Datatypes.RecordSetters.
From S2P Require Import Prelude.
From S2P Require Import SdioConst.
From S2P Require Import Sdio.
From S2P Require Import SdioSd.
From S2P Require Import SdioMmc.
From S2P Require Import SdioBase.
From S2P Require Import SdioFacts.

Section Run.
Context {Bus : Type} `{HostEntry Bus}.
Variable fuel : nat.
Notation kept I m := (keeps (inv_R I) (inv_E I) m).

(** ** Every operation returns *)

Section Attach.
Context (R : sdio Bus -> sdio Bus -> Prop) (E : sdio Bus -> err -> Prop) `{!Frame R E}.
Notation keep m := (keeps R E m).
Hypothesis keeps_send : forall c t r, keep (send fuel c t r).
Hypothesis keeps_switch : forall ocr, keep (op_cond_switch (send fuel) fuel ocr).
Hypothesis keeps_pm : keep (_sdio_pwrmgnt fuel (send fuel) PM_IDLE).

Lemma keeps_attached type : keep (attached fuel type).
Proof.
  assert (forall A (x : A), keep (mret x)) by (intros; by apply keeps_ret).
  assert (forall f, keep (set_flag f)) by (intros; by apply keeps_flag).
  assert (forall f, keep (upd_dev f)) by apply frame_dev.
  unfold attached. keeps_go.
Qed.

Lemma keeps_attach : keep (_sdio_attach fuel).
Proof.
  assert (forall A (x : A), keep (mret x)) by (intros; by apply keeps_ret).
  assert (forall f, keep (upd_dev f)) by apply frame_dev.
  assert (forall f, stays f -> keep (upd_hc f)) by apply frame_hc.
  assert (keep get_hc) by by apply keeps_get_hc.
  assert (keep sdio_power_on /\ keep sdio_power_off) as [Hon Hoff]
    by (split; [by apply keeps_power_on|by apply keeps_power_off]).
  assert (keep (sd_ident (send fuel) fuel)) by by apply keeps_sd_ident.
  assert (keep (mmc_ident (send fuel))) by by apply keeps_mmc_ident.
  pose proof keeps_attached.
  assert (Hloop : forall k clk type r, keep (attach_loop fuel k clk type r)).
  { induction k; intros clk type r; cbn [attach_loop]; unfold when; keeps_go; auto. }
  unfold _sdio_attach, when. keeps_go; auto.
Qed.

End Attach.



Section Idle.
Hypothesis Hasked : offers_if_asked.
Hypothesis Hfuel : (2 <= fuel)%nat.

End Idle.


(** ** Application commands are prefixed *)

(** A command that is an application command; one that also asks for a count of blocks is sent with the
    count in between. *)
Definition is_app (c : sdio_cmd) : bool := has (flags c) SCF_APP_CMD && negb (has (flags c) SCF_SBC).
(** A prefix that the card took. *)
Definition is_prefix (x : call) : Prop :=
  match x with
  | CallCmd c r => opcode c = SD_APP_CMD /\ r = EOK /\ status c = CS_CMD_CMP
  | CallSet _ _ _ => False
  end.
(** The last call was a prefix, but for a tuning of the controller. *)
Definition after_prefix (l : list call) : Prop :=
  match l with
  | CallSet Tune _ _ :: x :: _ => is_prefix x
  | x :: _ => is_prefix x
  | [] => False
  end.
(** In a history every application command comes after its prefix. *)
Fixpoint prefixed (l : list call) : Prop :=
  match l with
  | [] => True
  | CallCmd c _ :: l => (is_app c = true -> after_prefix l) /\ prefixed l
  | CallSet _ _ _ :: l => prefixed l
  end.

Lemma after_prefix_app l k : after_prefix l -> after_prefix (l ++ k).
Proof. destruct l as [|[[] ? ?|? ?] [|? ?]]; cbn; done. Qed.
Lemma prefixed_app l k : prefixed l -> prefixed k -> prefixed (l ++ k).
Proof.
  intros Hl Hk. induction l as [|[] l IH]; cbn in *; [done|auto|]. destruct Hl as [H1 H2]. split; [|auto].
  intro Hc. by apply after_prefix_app, H1.
Qed.

(** The history grows by a prefixed piece. *)
Definition grows (s s' : sdio Bus) : Prop := exists l, calls s' = l ++ calls s /\ prefixed l.
Definition any (_ : sdio Bus) (_ : err) : Prop := True.

Lemma grows_same s s' : calls s' = calls s -> grows s s'.
Proof. intro E. by exists []. Qed.
Lemma grows_trans s1 s2 s3 : grows s1 s2 -> grows s2 s3 -> grows s1 s3.
Proof.
  intros (l & E1 & H1) (k & E2 & H2). exists (k ++ l). rewrite E2, E1, app_assoc.
  split; [done|by apply prefixed_app].
Qed.

Lemma grows_frame : Frame grows any.
Proof.
  split; [|done|..].
  - split; [intro s; by apply grows_same|intros s1 s2 s3; apply grows_trans].
  - intros f s. by apply grows_same.
  - intros f _ s. by apply grows_same.
  - intros A f s. unfold on_bus. destruct (f (hc s) (bus s)) as [a b]. by apply grows_same.
  - intros k v r s. by exists [CallSet k v r].
  - intro s. by apply grows_same.
  - intros A none body Hb s. destruct (with_cmd_cases none body s) as [[b ->]|(p & b & -> & _)];
      [by apply grows_same|].
    specialize (Hb cmd0 (on_pool s p b)). revert Hb. by destruct (body _ _) as [[r s2]|e].
  - done.
Qed.

(** Issuing a command adds it to the history, after a tuning that was due. *)
Definition tuning (l : list call) : Prop := l = [] \/ exists v r, l = [CallSet Tune v r].

Definition quiet (s s' : sdio Bus) : Prop := calls s' = calls s.
Lemma quiet_bind {A B} (m : M Bus A) (f : A -> M Bus B) :
  keeps quiet any m -> (forall a, keeps quiet any (f a)) -> keeps quiet any (m ≫= f).
Proof.
  intros Hm Hf s. specialize (Hm s). revert Hm. unfold mbind, M_bind.
  destruct (m s) as [[a s1]|e]; [|done]. intro Hm. specialize (Hf a s1). revert Hf.
  destruct (f a s1) as [[b s2]|e]; [|done]. unfold quiet in *. congruence.
Qed.
Lemma quiet_inv {A B} (m : M Bus A) (k : A -> M Bus B) st x :
  (m ≫= k) st = Ok x -> keeps quiet any m -> exists a st', calls st' = calls st /\ k a st' = Ok x.
Proof.
  intros Hx Hm. specialize (Hm st). revert Hx Hm. unfold mbind, M_bind.
  destruct (m st) as [[a st']|]; [|discriminate]. intros Hk Hq. by exists a, st'.
Qed.
Lemma event_quiet ev : keeps quiet any (sdio_hc_event ev : M Bus unit).
Proof. intro s. unfold sdio_hc_event. by repeat destruct (ev =? _). Qed.
Lemma wait_quiet c tms : keeps quiet any (sdio_wait_cmd c tms).
Proof.
  unfold sdio_wait_cmd. apply quiet_bind; [by intro s|]. intro w. apply quiet_bind.
  - induction (w_events w) as [|ev l IH]; cbn [foldr]; [by intro s|]. apply quiet_bind; [apply event_quiet|done].
  - intros _ s. by destruct (w_done w).
Qed.
Lemma retune_calls b (s : sdio Bus) s' u :
  when b sdio_retune s = Ok (u, s') -> exists l, tuning l /\ calls s' = l ++ calls s.
Proof.
  destruct b; cbn; [|intros [= _ <-]; exists []; by split; [left|]].
  unfold sdio_retune, mbind, M_bind, upd_hc, get_dev, mret, M_ret. cbn.
  unfold sdio_tune, entry_opt. destruct (e_has Tune); cbn.
  - unfold entry, on_bus, mbind, M_bind. cbn. destruct (e_set _ _ _ _) as [[r st] bus'] eqn:Es.
    cbn. intros [= _ <-]. cbn. eexists [CallSet Tune _ r]. split; [right; by eexists _, _|done].
  - intros [= _ <-]. exists []. by split; [left|].
Qed.

Lemma issue_calls c tms s r c' s' :
  sdio_issue_cmd c tms s = Ok ((r, c'), s') ->
  exists l, tuning l /\ calls s' = CallCmd c' r :: l ++ calls s.
Proof.
  unfold sdio_issue_cmd. unfold mbind at 1, M_bind, get_hc. unfold mbind at 1, M_bind.
  destruct (when _ _ s) as [[u s1]|] eqn:Et; [|discriminate].
  apply retune_calls in Et as (l & Hl & E1). intro Hi. exists l. split; [done|].
  apply quiet_inv in Hi as (? & s2 & E2 & Hi); [|by intros st].
  apply quiet_inv in Hi as (r0 & s3 & E3 & Hi); [|by intros st; unfold on_bus; destruct (e_cmd _ _ _)].
  apply quiet_inv in Hi as ([r1 c1] & s4 & E4 & Hi); [|destruct (r0 =? EOK); [apply wait_quiet|by intros st]].
  apply quiet_inv in Hi as (c2 & s5 & E5 & Hi); [|by destruct (r1 =? EOK); intros st].
  unfold mbind, M_bind, log, mret, M_ret in Hi. injection Hi as <- <- <-. cbn. congruence.
Qed.

Lemma ret_ok {A} (a b : A) (s s' : sdio Bus) : (mret a : M Bus A) s = Ok (b, s') -> a = b /\ s = s'.
Proof. by intros [= -> ->]. Qed.

(** A leaf command that was taken is the last call. *)
Lemma leaf_last send c t (s : sdio Bus) c' s' :
  leaf c -> (forall pm, keeps grows any (_sdio_pwrmgnt fuel send pm)) ->
  send_body fuel send c t 0 s = Ok ((EOK, c'), s') ->
  exists l, calls s' = CallCmd c' EOK :: l ++ calls s /\ prefixed l /\ status c' = CS_CMD_CMP /\
            as_sent c c'.
Proof.
  intros Hc Hpm. unfold send_body, mbind at 1, M_bind. specialize (Hpm PM_ACTIVE s). revert Hpm.
  destruct (_sdio_pwrmgnt _ _ _ s) as [[r s1]|]; [|discriminate]. intros (k & E1 & Hk).
  destruct (Z.eqb_spec r EOK) as [->|Hr]; cbn [negb]; [|intros [[= ? ?] ?]%ret_ok; done].
  cbn [send_loop]. cbv zeta. set (c1 := c <| status := CS_CMD_INPROG |>).
  assert (Hc1 : leaf c1) by exact Hc. unfold mbind at 1, M_bind. rewrite no_prefix by done.
  change (EOK =? EOK) with true. cbn [negb]. unfold mbind at 1, M_bind.
  pose proof (issue_answered c1 t s1) as Ha.
  destruct (sdio_issue_cmd c1 t s1) as [[[r c2] s2]|] eqn:Ei; [|discriminate].
  apply issue_calls in Ei as (l & Hl & E2). destruct Ha as [Ha _]. cbn [snd] in Ha.
  assert (Hc2 : leaf c2) by (unfold leaf; destruct Ha as (_ & _ & ->); exact Hc).
  destruct (Z.eqb_spec r EOK) as [->|]; cbn [negb]; [|intros [[= ? ?] ?]%ret_ok; done].
  destruct (status c2 =? CS_CARD_REMOVED); [intros [[= ? ?] ?]%ret_ok; done|].
  destruct (Z.eqb_spec (status c2) CS_CMD_CMP) as [Hst|];
    [|by destruct (has _ CDS_ILLEGAL_COMMAND); intros [= ? _ _]].
  unfold mbind, M_bind. rewrite no_suffix by done. intros [= <- <-].
  exists (l ++ k). rewrite E2, E1, app_assoc. split; [done|]. split; [|done].
  apply prefixed_app; [|done]. by destruct Hl as [->|(? & ? & ->)].
Qed.

Lemma app_cmd_last d (s : sdio Bus) r s' :
  (forall d' pm, (d' < d)%nat -> keeps grows any (_sdio_pwrmgnt fuel (_sdio_send_cmd fuel d') pm)) ->
  sd_app_cmd (_sdio_send_cmd fuel d) s = Ok (r, s') -> r = EOK ->
  exists x l, calls s' = x :: l ++ calls s /\ prefixed (x :: l) /\ is_prefix x.
Proof.
  intros Hpm Hs ->. revert Hs. change (sd_app_cmd (_sdio_send_cmd fuel d)) with
    (with_cmd ENOMEM (fun c : sdio_cmd => d0 ← get_dev;
       send_ (_sdio_send_cmd fuel d)
         (sdio_setup_cmd c (Z.lor (if rca d0 =? 0 then SCF_CTYPE_BC else SCF_CTYPE_BCR) SCF_RSP_R1) SD_APP_CMD
            (Z.shiftl (rca d0) 16)) SDIO_TIME_DEFAULT 0)).
  match goal with |- with_cmd _ ?b s = _ -> _ =>
    destruct (with_cmd_cases ENOMEM b s) as [[bb ->]|(p & bb & -> & _)]; [discriminate|] end.
  unfold mbind at 1, M_bind, get_dev, send_, mbind, M_bind, mret, M_ret.
  destruct d as [|d]; [discriminate|]. specialize (Hpm d). cbn [_sdio_send_cmd].
  set (s0 := on_pool s p bb). set (c := sdio_setup_cmd _ _ _ _).
  destruct (send_body _ _ _ _ _ _) as [[[r c'] s1]|] eqn:Eb; [|discriminate]. intros [= -> <-].
  assert (Hc : leaf c) by (apply leaf_setup; by destruct (_ =? _)).
  destruct (leaf_last _ _ _ _ _ _ Hc (fun pm => Hpm pm (Nat.lt_succ_diag_r d)) Eb) as (l & El & Hl & Hst & Hsent).
  exists (CallCmd c' EOK), l. cbn [on_pool calls]. rewrite El. split; [done|].
  assert (Happ : is_app c' = false).
  { unfold is_app. destruct Hsent as (_ & _ & ->). by rewrite (proj1 (leaf_flags _ Hc)). }
  split; [|split; [by rewrite (proj1 Hsent)|done]]. split; [by rewrite Happ|done].
Qed.
Lemma switch_grows send k ocr :
  (forall c t r, keeps grows any (send c t r)) -> keeps grows any (op_cond_switch send k ocr).
Proof.
  intro Hsend. pose proof grows_frame as F. revert ocr. induction k as [|k IH]; intro ocr; cbn [op_cond_switch].
  { by intro s. }
  assert (Hret : forall A (x : A), keeps grows any (mret x)) by (intros; by apply keeps_ret).
  assert (forall ocr, keeps grows any (sd_app_send_op_cond send ocr)) by (intro; by apply keeps_op_cond).
  assert (keeps grows any (sd_voltage_switch send)) by by apply keeps_vswitch.
  assert (forall v, keeps grows any (sdio_signal_voltage v)) by (intro; by apply keeps_voltage).
  assert (forall f, keeps grows any (set_flag f)) by (intro; by apply keeps_flag).
  keeps_go.
Qed.

Lemma pwrmgnt_grows send pm :
  (forall c t r, keeps grows any (send c t r)) -> keeps grows any (_sdio_pwrmgnt fuel send pm).
Proof.
  intro Hsend. pose proof grows_frame as F. apply keeps_pwrmgnt; [done|done|intro; by apply switch_grows|].
  intros p s. by apply grows_same.
Qed.

(** One round of the loop: the prefix and the command. *)
Lemma round_grows d c t (s s1 s2 : sdio Bus) x :
  (forall d' c t r, (d' <= d)%nat -> keeps grows any (_sdio_send_cmd fuel d' c t r)) ->
  send_prefix (_sdio_send_cmd fuel d) c s = Ok (EOK, s1) -> sdio_issue_cmd c t s1 = Ok (x, s2) ->
  grows s s2.
Proof.
  intros Hsend Hp Hi. pose proof grows_frame as F. destruct x as [r c'].
  pose proof (issue_answered c t s1) as Ha. rewrite Hi in Ha. destruct Ha as [Ha _]. cbn [snd] in Ha.
  apply issue_calls in Hi as (l & Hl & E2).
  assert (Happ : is_app c' = is_app c) by (unfold is_app; by destruct Ha as (_ & _ & ->)).
  destruct (is_app c) eqn:Ec.
  - apply andb_true_iff in Ec as [HA HS]. apply negb_true_iff in HS.
    unfold send_prefix, ok_then in Hp. rewrite HA, HS in Hp. unfold mbind, M_bind in Hp.
    destruct (sd_app_cmd _ s) as [[r1 s3]|] eqn:Eapp; [|discriminate].
    destruct (Z.eqb_spec r1 EOK) as [->|Hr1]; [|by apply ret_ok in Hp as [-> _]].
    apply ret_ok in Hp as [_ <-].
    apply app_cmd_last in Eapp as (y & k & Ek & Hk & Hafter);
      [|intros d' pm Hd; apply pwrmgnt_grows; intros; apply Hsend; lia|done].
    exists (CallCmd c' r :: l ++ y :: k). rewrite E2, Ek. split; [cbn; by rewrite <- app_assoc|]. cbn [prefixed].
    split.
    + intros _. destruct Hl as [->|(v & q & ->)]; cbn; [|done]. by destruct y.
    + apply prefixed_app; [|done]. by destruct Hl as [->|(v & q & ->)].
  - assert (Hpre : keeps grows any (send_prefix (_sdio_send_cmd fuel d) c))
      by (apply keeps_prefix; [done|]; intros; by apply Hsend).
    specialize (Hpre s). rewrite Hp in Hpre. eapply grows_trans; [exact Hpre|].
    exists (CallCmd c' r :: l). rewrite E2. split; [done|]. cbn [prefixed]. rewrite Happ.
    split; [done|]. by destruct Hl as [->|(v & q & ->)].
Qed.

Lemma loop_grows d retries c t :
  (forall d' c t r, (d' <= d)%nat -> keeps grows any (_sdio_send_cmd fuel d' c t r)) ->
  keeps grows any (send_loop (_sdio_send_cmd fuel d) retries c t).
Proof.
  intro Hsend. pose proof grows_frame as F. revert c. induction retries as [|n IH]; intro c.
  all: intro s; cbn [send_loop]; cbv zeta; set (c1 := c <| status := CS_CMD_INPROG |>).
  all: unfold mbind at 1, M_bind.
  all: pose proof (keeps_prefix _ _ _ (fun c t r => Hsend d c t r (le_n d)) c1 s) as Hpre; revert Hpre.
  all: destruct (send_prefix _ c1 s) as [[r s1]|] eqn:Ep; [|done]; intro Hpre.
  all: destruct (Z.eqb_spec r EOK) as [->|]; cbn [negb]; [|exact Hpre].
  all: unfold mbind at 1, M_bind.
  all: destruct (sdio_issue_cmd c1 t s1) as [[[r c2] s2]|] eqn:Ei; [|done].
  all: pose proof (round_grows _ _ _ _ _ _ _ Hsend Ep Ei) as Hg.
  all: destruct (r =? EOK); cbn [negb]; [|exact Hg].
  all: destruct (status c2 =? CS_CARD_REMOVED); [exact Hg|].
  all: destruct (status c2 =? CS_CMD_CMP).
  1, 3: unfold mbind, M_bind;
    pose proof (keeps_suffix _ _ _ (fun c t r => Hsend d c t r (le_n d)) c2 t s2) as Hsuf; revert Hsuf;
    destruct (send_suffix _ c2 t s2) as [[r2 s3]|]; [|done]; apply grows_trans; exact Hg.
  all: destruct (has _ CDS_ILLEGAL_COMMAND); [exact Hg|].
  - exact Hg.
  - specialize (IH c2 s2). revert IH. destruct (send_loop _ _ _ _ _) as [[? s3]|]; [|done].
    by apply grows_trans.
Qed.

Lemma send_grows d c t r : keeps grows any (_sdio_send_cmd fuel d c t r).
Proof.
  pose proof grows_frame as F. revert c t r. induction d as [d IH] using lt_wf_ind; intros c t r.
  destruct d as [|d]; cbn [_sdio_send_cmd]; [by intro s|]. unfold send_body.
  apply keeps_bind; [done| |].
  - apply pwrmgnt_grows. intros. apply IH. lia.
  - intro. apply keeps_if; [by apply keeps_ret|]. apply loop_grows. intros. apply IH. lia.
Qed.

(** A function after which the history is prefixed if it was before. *)
Definition stays_prefixed {A} (m : M Bus A) : Prop :=
  forall s a s', m s = Ok (a, s') -> prefixed (calls s) -> prefixed (calls s').
Lemma grows_prefixed {A} (m : M Bus A) : keeps grows any m -> stays_prefixed m.
Proof.
  intros Hm s a s' Hs Hp. specialize (Hm s). rewrite Hs in Hm. destruct Hm as (l & -> & Hl).
  by apply prefixed_app.
Qed.

(** C13.  Whatever the card answers, whatever fails, and however often commands are repeated: in the history
    of calls of the controller every application command comes right after a prefix the card took, but for
    a tuning in between. *)
Theorem app_commands_prefixed c timeout retries :
  stays_prefixed (send fuel c timeout retries) /\ stays_prefixed (_sdio_attach fuel) /\
  stays_prefixed (_sdio_reset fuel (send fuel)).
Proof.
  pose proof grows_frame as F.
  assert (Hsend : forall c t r, keeps grows any (send fuel c t r)) by (intros; apply send_grows).
  assert (Hsw : forall ocr, keeps grows any (op_cond_switch (send fuel) fuel ocr))
    by (intro; by apply switch_grows).
  repeat split; apply grows_prefixed; [done| |by apply keeps_reset].
  apply keeps_attach; [done..|]. by apply pwrmgnt_grows.
Qed.
End Run.
