(* ===== verification/SdioCard.v ===== *)
(** * SdioCard: devices of the clients and the removal of a card (devb/sdmmc/sdiodi: card.c, [sdio_cd] of
    base.c).

    Every operation a client may ask for counts itself in and out of its device; the thread that detects
    cards waits until the count is zero before it tells the client that the card is gone.  The first
    part has the operations, the second the interleavings of clients and that thread as a step relation,
    in which what a mutex makes atomic is one step. *)

From coqutil Require Import Datatypes.RecordSetters.
From S2P Require Import Prelude.
From S2P Require Import SdioConst.
From S2P Require Import Sdio.
From S2P Require Import SdioSd.
From S2P Require Import SdioMmc.
From S2P Require Import SdioBase.

(** ** Devices *)

(** [struct sdio_device]: its flags, and the operations under way. *)
Record sdio_device := { d_flags : Z; usage : Z }.

(** [_sdio_synchronize], of the flags of the [sdio_dev_t]: the status, the device, and whether the thread
    that detects cards is signalled. *)
Definition _sdio_synchronize (dev_flags : Z) (io : bool) (ncmds : Z) (d : sdio_device)
    : Z * sdio_device * bool :=
  if negb io then
    let d := d <| d_flags := Z.lor (d_flags d) DEV_FLAG_RMV_PENDING |> in
    (if usage d =? 0 then EOK else EBUSY, d, false)
  else if 0 <=? ncmds then
    if has (d_flags d) DEV_FLAG_RMV_PENDING || has dev_flags DEV_FLAG_MEDIA_CHANGE then (ENXIO, d, false)
    else (EOK, d <| usage := u32 (usage d + ncmds) |>, false)
  else
    let d := d <| usage := u32 (usage d + ncmds) |> in
    (EOK, d, (usage d =? 0) && has (d_flags d) DEV_FLAG_RMV_PENDING).

(** ** The operations of a client *)

Section Code.
Context {Bus : Type} `{HostEntry Bus}.
Variable fuel : nat.
Notation send := (send fuel).

(** An operation on a device: the status of what was done, with what it gave, the device, the rest. *)
Definition on_device {A} (none : A) (m : M Bus (Z * A)) (d : sdio_device) : M Bus (Z * A * sdio_device) :=
  f ← get_dev;
  match _sdio_synchronize (dev_flags f) true 1 d with
  | (EOK_, d, _) =>
      if negb (EOK_ =? EOK) then mret (EOK_, none, d)
      else
        '(r, a) ← m;
        f ← get_dev;
        let '(_, d, _) := _sdio_synchronize (dev_flags f) true (-1) d in
        mret (r, a, d)
  end.
(** The same for an operation that gives only a status. *)
Definition on_device_ (m : M Bus Z) : sdio_device -> M Bus (Z * unit * sdio_device) :=
  on_device tt (r ← m; mret (r, tt)).

Definition sdio_send_cmd (c : sdio_cmd) (timeout : Z) (retries : nat) :=
  on_device c (send c timeout retries).
Definition sdio_stop_transmission (hpi : bool) := on_device_ (_sdio_stop_transmission send hpi).
Definition sdio_set_partition (partition : Z) :=
  on_device_ (d ← get_dev;
              if dtype d =? DEV_TYPE_MMC then mmc_set_partition send partition else mret EOK).
Definition sdio_set_block_count (blkcnt : Z) := on_device_ (_sdio_set_block_count send blkcnt).
Definition sdio_set_block_length (blklen : Z) := on_device_ (_sdio_set_block_length send blklen).
Definition sdio_sd_switch (mode grp val : Z) := on_device [] (sd_switch send mode grp val).
Definition sdio_mmc_switch (cmdset mode index value timeout : Z) :=
  on_device_ (mmc_switch send cmdset mode index value timeout).
Definition sdio_send_ext_csd := on_device [] (mmc_send_ext_csd send).
Definition sdio_wait_card_status (mask val msec : Z) :=
  on_device words0 (_sdio_wait_card_status send mask val msec).
Definition sdio_send_status (hpi : bool) := on_device words0 (_sdio_send_status send hpi).
Definition sdio_cache (op timeout : Z) :=
  on_device_ (d ← get_dev;
              if dtype d =? DEV_TYPE_MMC then mmc_cache send op timeout else mret EINVAL).
Definition sdio_erase (partition flgs lba nlba : Z) :=
  on_device_ (d ← get_dev;
              if dtype d =? DEV_TYPE_MMC then mmc_erase send partition flgs lba nlba
              else sd_erase send flgs lba nlba).
Definition sdio_lock_unlock (action : Z) (pw : list Z) :=
  on_device_ (d ← get_dev;
              if dtype d =? DEV_TYPE_MMC then mret EINVAL else sd_lock_unlock send action pw).
(** These two give the status of [_sdio_synchronize], not of what they did. *)
Definition sdio_bus_error := on_device_ (_ ← _sdio_bus_error fuel; mret EOK).
Definition sdio_reset := on_device_ (_ ← _sdio_reset fuel send; mret EOK).
Definition sdio_idle := on_device_ (mret EOK : M Bus Z).
Definition sdio_pwrmgnt (action : Z) := on_device_ (_sdio_pwrmgnt fuel send action).

(** *** What a client is told *)

(** The members of [sdio_dev_info_t] that are computed. *)
Record dev_info := {
  di_flags : Z; di_sector_size : Z; di_sectors : Z; di_super_page : Z; di_vers : Z; di_rev : Z;
  di_security : Z; di_speed_class : Z
}.
Definition CCC_BLOCK_WRITE : Z := 2 ^ 4.
Definition sdio_dev_info (d : sdio_dev) : dev_info :=
  let wp := negb (write_protect (csd d) =? 0) || negb (has (ccc (csd d)) CCC_BLOCK_WRITE)
            || has (dev_flags d) DEV_FLAG_WRITE_PROTECT in
  let flags := Z.lor (if wp then 1 else 0) (if has (dev_flags d) DEV_FLAG_LOCKED then 2 else 0) in
  if dtype d =? DEV_TYPE_MMC then
    let ext := (CSD_SPEC_VER_4 <=? spec_vers (csd d)) && negb (ecsd_sectors (ecsd d) =? 0) in
    {| di_flags := flags;
       di_sector_size := if ext then ecsd_blksz (ecsd d) else csd_blksz (csd d);
       di_sectors := if ext then ecsd_sectors (ecsd d) else csd_sectors (csd d);
       di_super_page := if ext then acc_size (ecsd d) else SDIO_BLKSZ_4K;
       di_vers := spec_vers (csd d); di_rev := ext_csd_rev (ecsd d); di_security := 0;
       di_speed_class := 0 |}
  else
    {| di_flags := flags; di_sector_size := csd_blksz (csd d); di_sectors := csd_sectors (csd d);
       di_super_page := SDIO_BLKSZ_4K; di_vers := sd_spec (scr d); di_rev := 0;
       di_security := sd_security (scr d); di_speed_class := speed_class (sds d) |}.
End Code.

(** ** The removal of a card *)

(** Where the thread that detects cards is in [sdio_cd]: outside; with the flags of the card cleared but
    not the mutex; asleep on [cd_cond]; to look at the count; in the client's [removal]. *)
Inductive cd_pc := CdOut | CdCleared | CdAsleep | CdLooking | CdRemoval.

(** The flags of the [sdio_dev_t], the client's device (none after [sdio_detach]), the detecting thread, and
    for each thread of the client whether it is within an operation. *)
Record cdstate := { hflags : Z; handle : option sdio_device; cd : cd_pc; inside : list bool }.

(** The client's threads within an operation. *)
Definition within (l : list bool) : Z := Z.of_nat (length (List.filter id l)).

(** The mutex is taken, and the device marked: the thread goes on, or sleeps. *)
Definition cd_mark (d : sdio_device) : sdio_device * cd_pc :=
  let d := d <| d_flags := Z.lor (d_flags d) DEV_FLAG_RMV_PENDING |> in
  (d, if usage d =? 0 then CdRemoval else CdAsleep).

Definition CD_CLEARED : Z :=
  Z.lor DEV_FLAG_MEDIA_CHANGE (Z.lor DEV_FLAG_INVALID_CARD DEV_FLAG_WRITE_PROTECT).

Inductive cd_step : cdstate -> cdstate -> Prop :=
  (** A client starts an operation: [_sdio_synchronize( device, !0, 1 )]. *)
  | step_enter s i d d' g :
      inside s !! i = Some false -> handle s = Some d ->
      _sdio_synchronize (hflags s) true 1 d = (EOK, d', g) ->
      cd_step s (s <| handle := Some d' |> <| inside := <[i := true]> (inside s) |>)
  (** It ends one: [_sdio_synchronize( device, !0, -1 )], which may signal. *)
  | step_leave s i d st d' g :
      inside s !! i = Some true -> handle s = Some d ->
      _sdio_synchronize (hflags s) true (-1) d = (st, d', g) ->
      cd_step s (s <| handle := Some d' |> <| inside := <[i := false]> (inside s) |>
                   <| cd := match cd s with CdAsleep => if g then CdLooking else CdAsleep | pc => pc end |>)
  (** The controller reports a change: [sdio_hc_event]. *)
  | step_event s :
      cd_step s (s <| hflags := Z.lor (hflags s) DEV_FLAG_MEDIA_CHANGE |>)
  (** [sdio_cd] finds that the card was changed or taken out, [ins] says that a card is in. *)
  | step_detect s (ins : bool) :
      cd s = CdOut -> has (hflags s) DEV_FLAG_MEDIA_CHANGE || negb ins = true ->
      cd_step s
        (let f := Z.land (hflags s) (bnot 32 CD_CLEARED) in
         if has f DEV_FLAG_PRESENT then
           s <| hflags := Z.land f (bnot 32 DEV_FLAG_PRESENT) |> <| cd := CdCleared |>
         else s <| hflags := f |>)
  (** It takes the mutex; without a device there is nothing to wait for. *)
  | step_mark s :
      cd s = CdCleared ->
      cd_step s
        match handle s with
        | Some d => let '(d, pc) := cd_mark d in s <| handle := Some d |> <| cd := pc |>
        | None => s <| cd := CdOut |>
        end
  (** A wake-up without a signal. *)
  | step_spurious s : cd s = CdAsleep -> cd_step s (s <| cd := CdLooking |>)
  (** The condition of its loop. *)
  | step_look s d :
      cd s = CdLooking -> handle s = Some d ->
      cd_step s (s <| cd := if usage d =? 0 then CdRemoval else CdAsleep |>)
  (** The client's [removal] gives the device back: [sdio_detach]. *)
  | step_removed s :
      cd s = CdRemoval -> cd_step s (s <| handle := None |> <| cd := CdOut |>)
  (** A card is found, and the client takes it: [_sdio_attach], [sdio_attach]. *)
  | step_insert s :
      cd s = CdOut -> handle s = None ->
      cd_step s (s <| hflags := DEV_FLAG_PRESENT |> <| handle := Some {| d_flags := 0; usage := 0 |} |>).

(** A controller without a card, and the threads of a client, fewer than the count can count. *)
Definition cd_start (s : cdstate) : Prop :=
  handle s = None /\ cd s = CdOut /\ hflags s = 0 /\ within (inside s) = 0 /\ zlen (inside s) < 2 ^ 32.

Definition reachable (s : cdstate) : Prop := exists s0, cd_start s0 /\ rtc cd_step s0 s.

(** *** The invariant *)

Lemma within_insert (l : list bool) (i : nat) (b b' : bool) :
  l !! i = Some b -> within (<[i := b']> l) = within l - (if b then 1 else 0) + (if b' then 1 else 0).
Proof.
  intro Hi. rewrite <- (take_drop_middle l i b Hi) at 2.
  rewrite insert_take_drop by (apply lookup_lt_Some in Hi; lia).
  unfold within. rewrite !List.filter_app, !length_app. destruct b, b'; cbn [List.filter id length]; lia.
Qed.
Lemma within_le (l : list bool) : 0 <= within l <= zlen l.
Proof.
  unfold within, zlen. split; [lia|]. apply inj_le.
  induction l as [|[] l IH]; cbn; lia.
Qed.
Lemma within_pos (l : list bool) (i : nat) : l !! i = Some true -> 0 < within l.
Proof.
  intro Hi. pose proof (within_insert l i true false Hi) as E. cbv iota in E.
  pose proof (within_le (<[i:=false]> l)). lia.
Qed.
Lemma within_some (l : list bool) : 0 < within l -> exists i : nat, l !! i = Some true.
Proof.
  induction l as [|[] l IH]; cbn; [unfold within; cbn; lia|by exists 0%nat|].
  intro Hl. destruct IH as [i Hi]; [exact Hl|by exists (S i)].
Qed.

Definition pending (d : sdio_device) : Prop := has (d_flags d) DEV_FLAG_RMV_PENDING = true.

(** What holds in every state: the count is the number of threads within, and there is a device as long as
    there is one; the detecting thread sleeps only while a thread is within, and is in the client's
    [removal] only when none is. *)
Record cd_inv (s : cdstate) : Prop := {
  inv_few : zlen (inside s) < 2 ^ 32;
  inv_count : match handle s with Some d => usage d = within (inside s) | None => within (inside s) = 0 end;
  inv_cd :
    match cd s with
    | CdOut | CdCleared => True
    | CdAsleep => exists d, handle s = Some d /\ pending d /\ 0 < usage d
    | CdLooking => exists d, handle s = Some d /\ pending d
    | CdRemoval => exists d, handle s = Some d /\ pending d /\ usage d = 0
    end
}.

Lemma has_set x m : has m m = true -> has (Z.lor x m) m = true.
Proof.
  unfold has. rewrite !negb_true_iff, !Z.eqb_neq, Z.land_lor_distr_l. intros Hm E.
  apply Z.lor_eq_0_iff in E as [_ E]. done.
Qed.

(** *** Removing a card is safe *)

Lemma enter_inv s (i : nat) d d' g :
  cd_inv s -> inside s !! i = Some false -> handle s = Some d ->
  _sdio_synchronize (hflags s) true 1 d = (EOK, d', g) ->
  cd_inv (s <| handle := Some d' |> <| inside := <[i := true]> (inside s) |>).
Proof.
  destruct s as [hf hd pc l]. intros [Hfew Hcount Hcd] Hi Hd. cbn [hflags handle cd inside] in *. subst hd.
  unfold _sdio_synchronize. cbn [negb]. change (0 <=? 1) with true. cbv iota.
  destruct (has (d_flags d) DEV_FLAG_RMV_PENDING) eqn:Ep; cbn [orb]; [by intros [= ]|].
  destruct (has hf DEV_FLAG_MEDIA_CHANGE); [by intros [= ]|]. intros [= <- <-].
  pose proof (within_insert _ i false true Hi) as Ew. cbv iota in Ew.
  pose proof (within_le (<[i := true]> l)) as Hle.
  assert (El : zlen (<[i := true]> l) = zlen l) by (unfold zlen; by rewrite length_insert).
  split.
  - change (zlen (<[i := true]> l) < 2 ^ 32). lia.
  - change (u32 (usage d + 1) = within (<[i := true]> l)). rewrite wrap_id; [lia|]. unfold fits. lia.
  - unfold pending in *. cbn in *. destruct pc; try done.
    all: destruct Hcd as (d1 & [= <-] & Hp); rewrite Ep in Hp;
      first [discriminate Hp|by destruct Hp as [? _]].
Qed.

Lemma leave_inv s (i : nat) d st d' g :
  cd_inv s -> inside s !! i = Some true -> handle s = Some d ->
  _sdio_synchronize (hflags s) true (-1) d = (st, d', g) ->
  cd_inv (s <| handle := Some d' |> <| inside := <[i := false]> (inside s) |>
            <| cd := match cd s with CdAsleep => if g then CdLooking else CdAsleep | pc => pc end |>).
Proof.
  destruct s as [hf hd pc l], d as [df du]. intros [Hfew Hcount Hcd] Hi Hd. cbn [hflags handle cd inside] in *. subst hd.
  cbn [usage d_flags] in *.
  unfold _sdio_synchronize. cbn [negb]. change (0 <=? -1) with false. cbv iota zeta. intros [= _ <- <-].
  pose proof (within_insert _ i true false Hi) as Ew. cbv iota in Ew.
  pose proof (within_pos _ i Hi) as Hpos. pose proof (within_le l) as Hle.
  assert (El : zlen (<[i := false]> l) = zlen l) by (unfold zlen; by rewrite length_insert).
  assert (Eu : u32 (du + -1) = du - 1) by (rewrite wrap_id; [lia|unfold fits; lia]).
  split.
  - change (zlen (<[i := false]> l) < 2 ^ 32). lia.
  - change (u32 (du + -1) = within (<[i := false]> l)). lia.
  - destruct pc; try done; destruct Hcd as (d1 & [= <-] & Hp).
    + destruct Hp as [Hp Hu].
      match goal with |- context [if ?b then CdLooking else _] => destruct b eqn:Eb end;
        cbn; eexists; (split; [done|]); [done|]. split; [exact Hp|].
      change ((u32 (du + -1) =? 0) && has df DEV_FLAG_RMV_PENDING = false) in Eb.
      unfold pending in Hp. cbn [d_flags] in Hp. rewrite Hp, andb_true_r, Eu in Eb. apply Z.eqb_neq in Eb.
      cbn [usage] in Hu. change (0 < u32 (du + -1)). lia.
    + cbn. eexists. split; [done|]. exact Hp.
    + destruct Hp as [_ Hu]. cbn [usage] in Hu. lia.
Qed.

Lemma mark_inv s :
  cd_inv s -> cd s = CdCleared ->
  cd_inv match handle s with
         | Some d => let '(d, pc) := cd_mark d in s <| handle := Some d |> <| cd := pc |>
         | None => s <| cd := CdOut |>
         end.
Proof.
  destruct s as [hf hd pc l]. intros [Hfew Hcount _] _. cbn [hflags handle cd inside] in *.
  pose proof (within_le l) as Hle. destruct hd as [[df du]|]; [|by split].
  set (df' := Z.lor df DEV_FLAG_RMV_PENDING).
  change (cd_mark _) with ({| d_flags := df'; usage := du |}, if du =? 0 then CdRemoval else CdAsleep).
  assert (Hp : has df' DEV_FLAG_RMV_PENDING = true) by by apply has_set.
  cbn [usage] in Hcount. split; [exact Hfew|exact Hcount|].
  destruct (Z.eqb_spec du 0); eexists; (split; [done|]); (split; [exact Hp|]); cbn; lia.
Qed.

Lemma step_inv s s' : cd_step s s' -> cd_inv s -> cd_inv s'.
Proof.
  intros Hs Hi. destruct Hs.
  - by eapply enter_inv.
  - by eapply leave_inv.
  - destruct s, Hi. by split.
  - destruct s as [hf hd pc l], Hi as [H1 H2 H3]. cbn [hflags handle cd inside] in *. cbv zeta.
    destruct (has _ DEV_FLAG_PRESENT); by split.
  - by apply mark_inv.
  - destruct s as [hf hd pc l], Hi as [? ? Hcd]. cbn in *. subst. split; [done|done|]. cbn.
    destruct Hcd as (d & -> & Hp & _). by eexists.
  - destruct s as [hf hd pc l], Hi as [? Hcount Hcd]. cbn in *. subst. split; [done|done|]. cbn.
    destruct Hcd as (d1 & [= <-] & Hp). destruct (Z.eqb_spec (usage d) 0).
    + by eexists.
    + exists d. pose proof (within_le l). split; [done|]. split; [done|lia].
  - destruct s as [hf hd pc l], Hi as [? Hcount Hcd]. cbn in *. subst. split; [done| |done].
    destruct Hcd as (d1 & -> & Hp & Hu). cbn. lia.
  - destruct s as [hf hd pc l], Hi as [? Hcount Hcd]. cbn in *. subst. by split.
Qed.

Lemma reachable_inv s : reachable s -> cd_inv s.
Proof.
  intros (s0 & (Hh & Hc & _ & Hw & Hl) & Hs).
  assert (Hi : cd_inv s0) by (split; [done|by rewrite Hh|by rewrite Hc]).
  clear Hh Hc Hw Hl. induction Hs as [s|s s1 s2 H1 _ IH]; [done|]. by eapply IH, step_inv.
Qed.

(** A thread leaves while the detecting thread sleeps: it wakes it if it was the last. *)
Lemma leave_wakes s :
  cd_inv s -> cd s = CdAsleep ->
  exists s', cd_step s s' /\ within (inside s') = within (inside s) - 1 /\
             cd s' = if within (inside s) =? 1 then CdLooking else CdAsleep.
Proof.
  destruct s as [hf hd pc l]. intros [Hfew Hcount Hcd] Hc. cbn [hflags handle cd inside] in *. subst pc.
  destruct Hcd as ([df du] & -> & Hp & Hu). unfold pending in Hp. cbn [usage d_flags] in *.
  destruct (within_some l) as [i Hin]; [lia|].
  pose proof (within_insert _ i true false Hin) as Ew. cbv iota in Ew. pose proof (within_le l) as Hle.
  assert (Eu : u32 (du + -1) = du - 1) by (rewrite wrap_id; [lia|unfold fits; lia]).
  assert (Es : _sdio_synchronize hf true (-1) {| d_flags := df; usage := du |} =
               (EOK, {| d_flags := df; usage := du - 1 |}, du - 1 =? 0)).
  { change (_sdio_synchronize hf true (-1) _) with
      (EOK, {| d_flags := df; usage := u32 (du + -1) |},
       (u32 (du + -1) =? 0) && has df DEV_FLAG_RMV_PENDING). by rewrite Eu, Hp, andb_true_r. }
  eexists. split; [eapply (step_leave {| hflags := hf; handle := Some _; cd := CdAsleep; inside := l |});
    [exact Hin|done|exact Es]|].
  split; [change (within (<[i := false]> l) = within l - 1); lia|].
  change ((if du - 1 =? 0 then CdLooking else CdAsleep) = if within l =? 1 then CdLooking else CdAsleep).
  destruct (Z.eqb_spec (du - 1) 0), (Z.eqb_spec (within l) 1); (done || lia).
Qed.

Lemma look_goes_on s :
  cd_inv s -> cd s = CdLooking -> within (inside s) = 0 -> exists s', cd_step s s' /\ cd s' = CdRemoval.
Proof.
  destruct s as [hf hd pc l]. intros [Hfew Hcount Hcd] Hc. cbn [hflags handle cd inside] in *. subst pc.
  destruct Hcd as (d & -> & _). intro Hw. eexists. split; [by eapply step_look|].
  cbn. by rewrite Hcount, Hw.
Qed.

(** A thread that sleeps for the count is not left asleep: when the threads within have left, it goes on. *)
Lemma asleep_goes_on s n :
  cd_inv s -> cd s = CdAsleep -> within (inside s) = Z.of_nat (S n) ->
  exists s', rtc cd_step s s' /\ cd s' = CdRemoval.
Proof.
  revert s. induction n as [|n IH]; intros s Hi Hc Hn;
    destruct (leave_wakes s Hi Hc) as (s1 & Hstep & Hw & Hpc); rewrite Hn in Hw, Hpc;
    pose proof (step_inv _ _ Hstep Hi) as Hi1.
  - destruct (look_goes_on s1 Hi1 Hpc) as (s2 & H2 & Hc2); [lia|].
    exists s2. split; [|done]. by eapply rtc_l, rtc_once.
  - destruct (Z.eqb_spec (Z.of_nat (S (S n))) 1); [lia|].
    destruct (IH s1 Hi1 Hpc) as (s2 & H2 & Hc2); [lia|]. exists s2. split; [|done]. by eapply rtc_l.
Qed.

Lemma pending_refuses hf d d' g :
  pending d -> _sdio_synchronize hf true 1 d <> (EOK, d', g).
Proof.
  unfold pending, _sdio_synchronize. intros ->. change (0 <=? 1) with true. cbn. discriminate.
Qed.

Lemma removal_alone s s' :
  cd_inv s -> cd s = CdRemoval -> cd_step s s' -> within (inside s') = 0.
Proof.
  intros [_ Hcount Hcd] Hc Hs. rewrite Hc in Hcd. destruct Hcd as (d & Hd & Hp & Hu).
  rewrite Hd in Hcount. destruct Hs; try (destruct s; cbn in *; congruence || lia).
  - rewrite Hd in H0. injection H0 as <-. by eapply pending_refuses in H1.
  - apply within_pos in H. lia.
Qed.

Lemma looking_goes_on s :
  cd_inv s -> cd s = CdLooking -> exists s', rtc cd_step s s' /\ cd s' = CdRemoval.
Proof.
  intros Hi Hc. pose proof Hi as [Hfew Hcount Hcd]. rewrite Hc in Hcd. destruct Hcd as (d & Hd & Hp).
  rewrite Hd in Hcount. pose proof (within_le (inside s)).
  destruct (Z.eq_dec (within (inside s)) 0) as [Hw|Hw].
  { destruct (look_goes_on s Hi Hc Hw) as (s1 & H1 & H2). exists s1. split; [by apply rtc_once|done]. }
  pose proof (step_look s d Hc Hd) as Hstep. pose proof (step_inv _ _ Hstep Hi) as Hi1.
  assert (Hu : usage d =? 0 = false) by (apply Z.eqb_neq; lia). rewrite Hu in Hstep, Hi1.
  destruct (asleep_goes_on _ (Z.to_nat (within (inside s) - 1)) Hi1) as (s2 & H2 & Hc2).
  - by destruct s.
  - destruct s; cbn in *. lia.
  - exists s2. split; [by eapply rtc_l|done].
Qed.

(** C11.  The removal of a card, in every interleaving of the client's threads, the controller's reports and the
    thread that detects cards.  While the client's [removal] runs, no thread is within an operation, and
    none gets in.  A thread within an operation has a device.  The detecting thread sleeps only while
    a thread is within; and from wherever it has marked the device it gets to [removal] once those threads
    leave. *)
Theorem removal_correct s :
  reachable s ->
  (cd s = CdRemoval ->
     within (inside s) = 0 /\ (forall s', cd_step s s' -> within (inside s') = 0)) /\
  (0 < within (inside s) -> handle s <> None) /\
  (cd s = CdAsleep -> exists i : nat, inside s !! i = Some true) /\
  (cd s = CdAsleep \/ cd s = CdLooking -> exists s', rtc cd_step s s' /\ cd s' = CdRemoval).
Proof.
  intros Hr. pose proof (reachable_inv s Hr) as Hi. pose proof Hi as [Hfew Hcount Hcd].
  split; [intro Hc; split|split; [|split]].
  - rewrite Hc in Hcd. destruct Hcd as (d & Hd & _ & Hu). rewrite Hd in Hcount. lia.
  - intros s' Hs. by eapply removal_alone.
  - intros Hw Hd. rewrite Hd in Hcount. lia.
  - intro Hc. apply within_some. rewrite Hc in Hcd. destruct Hcd as (d & Hd & _ & Hu).
    rewrite Hd in Hcount. lia.
  - intros [Hc|Hc]; [|by apply looking_goes_on]. rewrite Hc in Hcd. destruct Hcd as (d & Hd & _ & Hu).
    rewrite Hd in Hcount. apply (asleep_goes_on s (Z.to_nat (within (inside s) - 1))); [done..|lia].
Qed.
