(* ===== verification/SdioBits.v ===== *)
(** * SdioBits: the registers of the cards and their numbers (devb/sdmmc/sdiodi: [sdio_extract_bits], [fls],
    the parsers of the CSD). *)

From coqutil Require Import Datatypes.RecordSetters.
From S2P Require Import Prelude.
From S2P Require Import SdioConst.
From S2P Require Import Sdio.
From S2P Require Import SdioSd.
From S2P Require Import SdioMmc.

(** ** A register is a number *)

(** The number whose words are [l], the most significant first. *)
Fixpoint reg_num (l : list Z) : Z :=
  match l with
  | [] => 0
  | w :: l => w * 2 ^ (32 * zlen l) + reg_num l
  end.

(** A field of a number. *)
Definition field (n start size : Z) : Z := n / 2 ^ start mod 2 ^ size.

Definition words_fit (l : list Z) : Prop := Forall (fits 32) l.

Lemma reg_num_range l : words_fit l -> 0 <= reg_num l < 2 ^ (32 * zlen l).
Proof.
  induction 1 as [|w l [H1 H2] _ IH]; [by cbn|]. cbn [reg_num]. rewrite zlen_cons.
  replace (32 * (zlen l + 1)) with (32 * zlen l + 32) by lia.
  pose proof (zlen_nonneg l). rewrite Z.pow_add_r by lia.
  assert (0 < 2 ^ (32 * zlen l)) by (apply Z.pow_pos_nonneg; lia). nia.
Qed.

Lemma reg_num_app l k : reg_num (l ++ k) = reg_num l * 2 ^ (32 * zlen k) + reg_num k.
Proof.
  induction l as [|w l IH]; cbn [app reg_num]; [lia|]. rewrite IH, zlen_app.
  pose proof (zlen_nonneg l). pose proof (zlen_nonneg k).
  replace (32 * (zlen l + zlen k)) with (32 * zlen l + 32 * zlen k) by lia. rewrite Z.pow_add_r by lia. ring.
Qed.

(** The word at index [i] is a field. *)
Lemma reg_num_word l i :
  words_fit l -> 0 <= i < zlen l ->
  byte_at l i = Some (field (reg_num l) (32 * (zlen l - 1 - i)) 32).
Proof.
  intros Hl Hi. unfold byte_at. destruct (Z.ltb_spec i 0); [lia|].
  destruct (lookup_lt_is_Some_2 l (Z.to_nat i)) as [w Hw]; [unfold zlen in Hi; lia|]. rewrite Hw. f_equal.
  pose proof (take_drop_middle l _ w Hw) as El. pose proof (length_take_le l (Z.to_nat i)) as Ht.
  set (l1 := take (Z.to_nat i) l) in *. set (l2 := drop (S (Z.to_nat i)) l) in *.
  assert (Hn : zlen l1 = i) by (unfold zlen in *; lia).
  rewrite <- El in Hl |- *. rewrite zlen_app, zlen_cons, Hn.
  replace (32 * (i + (zlen l2 + 1) - 1 - i)) with (32 * zlen l2) by lia.
  apply Forall_app in Hl as [_ Hl]. apply Forall_cons in Hl as [[Hw1 Hw2] Hl].
  pose proof (reg_num_range l2 Hl) as [B1 B2]. pose proof (zlen_nonneg l2).
  rewrite reg_num_app. cbn [reg_num]. rewrite zlen_cons. unfold field.
  replace (32 * (zlen l2 + 1)) with (32 * zlen l2 + 32) by lia. rewrite Z.pow_add_r by lia.
  set (P := 2 ^ (32 * zlen l2)) in *. assert (0 < P) by (apply Z.pow_pos_nonneg; lia).
  replace (reg_num l1 * (P * 2 ^ 32) + (w * P + reg_num l2)) with
    (reg_num l2 + (w + reg_num l1 * 2 ^ 32) * P) by ring.
  rewrite Z.div_add, (Z.div_small (reg_num l2)) by lia. rewrite Z.add_0_l, Z.mod_add by lia.
  by rewrite Z.mod_small.
Qed.

(** Bits of a field. *)
Lemma field_bits n start size i :
  0 <= start -> 0 <= size -> 0 <= i ->
  Z.testbit (field n start size) i = (i <? size) && Z.testbit n (start + i).
Proof.
  intros Hs Hp Hi. unfold field. destruct (Z.ltb_spec i size) as [Hlt|Hge]; cbn [andb].
  - rewrite Z.mod_pow2_bits_low, <- Z.shiftr_div_pow2, Z.shiftr_spec by lia. f_equal. lia.
  - by rewrite Z.mod_pow2_bits_high by lia.
Qed.

Lemma ones_bits size i : 0 <= size -> 0 <= i -> Z.testbit (2 ^ size - 1) i = (i <? size).
Proof. intros Hs Hi. rewrite Z.sub_1_r, <- Z.ones_equiv. by apply Z.testbit_ones_nonneg. Qed.

(** A field within one word, and one that goes on in the next. *)
Lemma field_low n q s size :
  0 <= q -> 0 <= s -> 0 <= size -> s + size <= 32 ->
  Z.land (Z.shiftr (field n (32 * q) 32) s) (2 ^ size - 1) = field n (32 * q + s) size.
Proof.
  intros. apply Z.bits_inj'. intros i Hi.
  rewrite Z.land_spec, Z.shiftr_spec, ones_bits, !field_bits by lia.
  destruct (Z.ltb_spec i size); [|by rewrite andb_false_r].
  destruct (Z.ltb_spec (i + s) 32); [|lia]. rewrite andb_true_r. cbn [andb]. f_equal. lia.
Qed.
Lemma field_high n q s size :
  0 <= q -> 0 <= s < 32 -> 0 <= size <= 32 ->
  Z.land (Z.lor (Z.shiftr (field n (32 * q) 32) s) (u32 (Z.shiftl (field n (32 * (q + 1)) 32) (32 - s))))
    (2 ^ size - 1) = field n (32 * q + s) size.
Proof.
  intros. apply Z.bits_inj'. intros i Hi.
  rewrite Z.land_spec, Z.lor_spec, Z.shiftr_spec, ones_bits, !field_bits by lia.
  destruct (Z.ltb_spec i size); [|by rewrite andb_false_r].
  rewrite andb_true_r. cbn [andb]. unfold wrap. rewrite Z.mod_pow2_bits_low, Z.shiftl_spec by lia.
  destruct (Z.ltb_spec (i + s) 32); cbn [andb].
  - rewrite (Z.testbit_neg_r _ (i - (32 - s))) by lia. rewrite orb_false_r. f_equal. lia.
  - rewrite field_bits by lia. destruct (Z.ltb_spec (i - (32 - s)) 32); [|lia]. cbn [andb orb]. f_equal. lia.
Qed.

(** [sdio_extract_bits] gives [size] bits of the register, as a number, from bit [start] on, wherever
    the words of the register break. *)
Theorem extract_bits_correct data bits start size :
  words_fit data -> bits = 32 * zlen data -> 0 <= start -> 1 <= size <= 32 -> start + size <= bits ->
  sdio_extract_bits data bits start size = Ok (field (reg_num data) start size).
Proof.
  intros Hw -> Hs Hsize Hend. unfold sdio_extract_bits.
  replace (32 * zlen data / 32) with (zlen data) by (rewrite Z.mul_comm, Z.div_mul; lia).
  change 31 with (Z.ones 5). rewrite Z.land_ones by lia. change (2 ^ 5) with 32.
  pose proof (Z.div_mod start 32 ltac:(lia)) as Hdm. pose proof (Z.mod_pos_bound start 32 ltac:(lia)).
  set (q := start / 32) in *. set (s := start mod 32) in *.
  assert (0 <= q) by (apply Z.div_pos; lia). clearbody q s.
  assert (Hfit : u32 (field (reg_num data) start size) = field (reg_num data) start size).
  { apply wrap_id. pose proof (Z.mod_pos_bound (reg_num data / 2 ^ start) (2 ^ size)) as Hb. unfold field, fits.
    pose proof (Z.pow_le_mono_r 2 size 32 ltac:(lia) ltac:(lia)). pose proof (Z.pow_pos_nonneg 2 size). lia. }
  rewrite (reg_num_word data (zlen data - q - 1)) by (done || lia).
  replace (zlen data - 1 - (zlen data - q - 1)) with q by lia. cbn [get_or_bad]. unfold mbind, res_bind.
  destruct (Z.ltb_spec 32 (size + s)).
  - rewrite (reg_num_word data) by (done || lia).
    replace (zlen data - 1 - (zlen data - q - 1 - 1)) with (q + 1) by lia. cbn [get_or_bad mret res_ret].
    rewrite field_high, <- Hdm by lia. unfold mret, res_ret. by rewrite Hfit.
  - unfold mret, res_ret. rewrite field_low, <- Hdm by lia. by rewrite Hfit.
Qed.

(** ** The highest bit *)

Lemma has_pow2 x k : 0 <= k -> has x (2 ^ k) = Z.testbit x k.
Proof.
  intro Hk. unfold has. destruct (Z.testbit x k) eqn:E.
  - destruct (Z.eqb_spec (Z.land x (2 ^ k)) 0) as [E0|]; [|done].
    apply land_pow2_testbit in E0; [congruence|done].
  - by rewrite (proj2 (land_pow2_testbit x k Hk) E).
Qed.

Lemma fls_loop_log2 k idx val :
  0 < val < 2 ^ 32 -> 32 - Z.log2 val <= Z.of_nat k -> fls_loop k idx val = idx - (31 - Z.log2 val).
Proof.
  revert idx val. induction k as [|k IH]; intros idx val Hv Hk.
  - pose proof (Z.log2_lt_pow2 val 32). lia.
  - cbn [fls_loop]. destruct (Z.eqb_spec val 0); [lia|]. rewrite has_pow2 by lia.
    destruct (Z.lt_ge_cases val (2 ^ 31)) as [Hlt|Hge].
    + rewrite Z.bits_above_log2 by (try apply Z.log2_lt_pow2; lia).
      rewrite wrap_id by (unfold fits; lia). rewrite IH, Z.log2_double by (rewrite ?Z.log2_double; lia). lia.
    + assert (E : Z.log2 val = 31) by (apply Z.log2_unique; lia). rewrite <- E at 1.
      rewrite Z.bit_log2 by lia. lia.
Qed.
Lemma fls_log2 val : 0 < val < 2 ^ 32 -> fls val = Z.log2 val + 1.
Proof.
  intro Hv. unfold fls. rewrite wrap_id by (unfold fits; lia).
  pose proof (Z.log2_nonneg val). rewrite fls_loop_log2; lia.
Qed.

(** ** The capacity of a card *)

Lemma bits_128 r start size :
  words_fit (words r) -> 0 <= start -> 1 <= size <= 32 -> start + size <= 128 ->
  sdio_extract_bits (words r) 128 start size = Ok (field (reg_num (words r)) start size).
Proof. intros. by apply extract_bits_correct. Qed.

Lemma reg_field_range n start size : 0 <= size -> 0 <= field n start size < 2 ^ size.
Proof. intro. apply Z.mod_pos_bound. by apply Z.pow_pos_nonneg. Qed.

Lemma sd_dtr_ok speed : exists d, sd_dtr speed = Ok d.
Proof.
  assert (Hlk : forall l i, 0 <= i < zlen l -> exists x, byte_at l i = Some x).
  { intros l i Hi. unfold byte_at. destruct (Z.ltb_spec i 0); [lia|]. apply lookup_lt_is_Some_2. unfold zlen in Hi. lia. }
  unfold sd_dtr. change 7 with (Z.ones 3). change 0xf with (Z.ones 4). rewrite !Z.land_ones by lia.
  destruct (Hlk sd_tran_speed_fu (speed mod 2 ^ 3)) as [fu ->]; [by apply Z.mod_pos_bound|].
  destruct (Hlk sd_tran_speed_mf (Z.shiftr speed 3 mod 2 ^ 4)) as [mf ->]; [by apply Z.mod_pos_bound|].
  by eexists.
Qed.

(** Blocks of 512 bytes or more become blocks of 512 bytes, and the product stays. *)
Lemma force_512_correct rbl csize csizem :
  9 <= rbl <= 11 -> 0 <= csize <= 4096 -> 0 <= csizem <= 2 ^ 9 ->
  let '(blksz, sectors) := force_512 (2 ^ rbl) csize csizem in
  blksz = 512 /\ sectors * 512 = csize * csizem * 2 ^ rbl.
Proof.
  intros Hr Hc Hm. change (2 ^ 9) with 512 in Hm. assert (Hp : 0 <= csize * csizem <= 4096 * 512) by nia.
  assert (Er : rbl = 9 \/ rbl = 10 \/ rbl = 11) by lia.
  unfold force_512. change SDIO_DFLT_BLKSZ with 512.
  destruct Er as [-> | [-> | ->]]; cbn -[Z.mul wrap]; split; try done;
    change (2 ^ 10) with (2 * 512); change (2 ^ 11) with (4 * 512); change (2 ^ 9) with 512;
    rewrite ?Z.mul_assoc, ?Z.div_mul by done; rewrite ?(wrap_id 32 (csize * 2)), ?(wrap_id 32 (csize * 4))
      by (unfold fits; lia); rewrite wrap_id by (unfold fits; lia); lia.
Qed.

Lemma force_512_high csize : 
  let '(blksz, sectors) := force_512 SDIO_DFLT_BLKSZ csize 1024 in
  blksz = 512 /\ sectors = u32 (csize * 1024).
Proof. done. Qed.

(** C15.  The CSD of an SD card gives its capacity in blocks of 512 bytes: of a card of standard capacity
    [(C_SIZE + 1) * 2^(C_SIZE_MULT + 2)] blocks of [2^READ_BL_LEN] bytes, of one of high capacity
    [C_SIZE + 1] times 1024, but for the largest [C_SIZE], whose number of sectors does not fit 32 bits. *)
Theorem sd_capacity_correct r :
  words_fit (words r) ->
  let n := reg_num (words r) in
  exists st c high, sd_parse_csd r = Ok (st, c, high) /\
  match field n 126 2 with
  | 0 => st = EOK /\ high = false /\
         (9 <= field n 80 4 <= 11 ->
          csd_blksz c = 512 /\
          csd_sectors c * 512 = (field n 62 12 + 1) * 2 ^ (field n 47 3 + 2) * 2 ^ field n 80 4)
  | 1 => st = EOK /\ high = true /\ csd_blksz c = 512 /\
         csd_sectors c = (if field n 48 22 =? 2 ^ 22 - 1 then 0 else (field n 48 22 + 1) * 1024)
  | _ => st = EINVAL
  end.
Proof.
  intros Hw n. unfold sd_parse_csd. cbv zeta.
  repeat (rewrite bits_128 by (done || lia); unfold mbind at 1, res_bind).
  destruct (sd_dtr_ok (field n 96 8)) as [d Ed]. fold n. rewrite Ed.
  change CSD_STRUCT_VER_10 with 0. change CSD_STRUCT_VER_20 with 1.
  pose proof (reg_field_range n 126 2 ltac:(lia)) as Hst.
  assert (Est : field n 126 2 = 0 \/ field n 126 2 = 1 \/ field n 126 2 = 2 \/ field n 126 2 = 3) by lia.
  destruct Est as [-> | [-> | [-> | ->]]]; cbn [Z.eqb Pos.eqb negb orb]; try by do 3 eexists.
  - unfold mret, res_ret. pose proof (reg_field_range n 62 12 ltac:(lia)). pose proof (reg_field_range n 47 3 ltac:(lia)).
    pose proof (Z.pow_le_mono_r 2 (field n 47 3 + 2) 9 ltac:(lia) ltac:(lia)).
    pose proof (force_512_correct (field n 80 4) (field n 62 12 + 1) (2 ^ (field n 47 3 + 2))) as Hf. revert Hf.
    destruct (force_512 _ _ _) as [blksz sectors]. intro Hf. do 3 eexists. do 3 (split; [done|]).
    intro Hr. destruct Hf as [Hb Hn]; [lia..|]. by split.
  - unfold mret, res_ret. pose proof (reg_field_range n 48 22 ltac:(lia)) as Hc.
    pose proof (force_512_high (field n 48 22 + 1)) as Hf. revert Hf.
    destruct (force_512 _ _ _) as [blksz sectors]. intros [-> ->]. do 3 eexists. do 4 (split; [done|]).
    change (u32 ((field n 48 22 + 1) * 1024) = if field n 48 22 =? 2 ^ 22 - 1 then 0 else (field n 48 22 + 1) * 1024).
    destruct (Z.eqb_spec (field n 48 22) (2 ^ 22 - 1)) as [->|]; [done|]. apply wrap_id. unfold fits. lia.
Qed.
