(* ===== verification/SdioPool.v ===== *)
(** * SdioPool: the SD/MMC bus layer gives back every command it takes from the free list. *)

From coqutil Require Import Datatypes.RecordSetters.
From S2P Require Import Prelude.
From S2P Require Import SdioConst.
From S2P Require Import Sdio.
From S2P Require Import SdioSd.
From S2P Require Import SdioMmc.
From S2P Require Import SdioBase.
From S2P Require Import SdioFacts.
From S2P Require Import SdioRun.
From S2P Require Import SdioCard.

(** ** Frames that issuing a command keeps *)

Section Wide.
Context {Bus : Type} `{HostEntry Bus}.
Context (R : sdio Bus -> sdio Bus -> Prop) (E : sdio Bus -> err -> Prop) `{!Frame R E}.
Notation keep m := (keeps R E m).

(** Any change of the controller's structure, and any call, keep it; and the bounds may be reached. *)
Hypothesis wide_hc : forall f, keep (upd_hc f).
Hypothesis wide_log : forall x, keep (log x).
Hypothesis wide_err : forall s e, E s e.






Section Fuel.
Variable fuel : nat.




(** *** The operations of a client *)

End Fuel.
End Wide.

(** ** Commands are given back *)

Section Pool.
Context {Bus : Type} `{HostEntry Bus}.
Variable fuel : nat.




(** *** Every operation *)





End Pool.
