(* ===== verification/I2c.v ===== *)
(** * I2c: the I2C bus driver (i2c/imx).

    The library that the resource manager for I2C loads: sending and receiving, the interrupt handler
    that does the work of both, the speed of the bus, start and end.  The controller's registers, its
    interrupts and the system are an interface ([I2cDevice]); I2cBus.v says what the controller does.
    The mutex is left out: one thread at a time is within [imx_i2c_send] or [imx_i2c_recv].
    Of the messages of the log there are only the reads of registers for them. *)

From Stdlib Require Import Ascii.
From coqutil Require Import Datatypes.RecordSetters.
From S2P Require Import Prelude.
Export TriangleBracketNotations.

(** ** Registers and bits *)

Definition IMX_I2C_ADRREG_OFF : Z := 0x00.
Definition IMX_I2C_FRQREG_OFF : Z := 0x04.
Definition IMX_I2C_CTRREG_OFF : Z := 0x08.
Definition CTRREG_IEN : Z := 2 ^ 7.
Definition CTRREG_IIEN : Z := 2 ^ 6.
Definition CTRREG_MSTA : Z := 2 ^ 5.
Definition CTRREG_MTX : Z := 2 ^ 4.
Definition CTRREG_TXAK : Z := 2 ^ 3.
Definition CTRREG_RSTA : Z := 2 ^ 2.
Definition IMX_I2C_STSREG_OFF : Z := 0x0C.
Definition STSREG_IBB : Z := 2 ^ 5.
Definition STSREG_IAL : Z := 2 ^ 4.
Definition STSREG_RXAK : Z := 2 ^ 0.
Definition IMX_I2C_DATREG_OFF : Z := 0x10.

Definition IMX_I2C_ADDR_RD : Z := 1.
Definition IMX_I2C_XADDR1 (addr : Z) : Z := Z.lor 0xf0 (Z.land (Z.shiftr addr 7) 0x6).
Definition IMX_I2C_XADDR2 (addr : Z) : Z := Z.land addr 0xff.

(** A bit of a register is set. *)
Definition has_bit (x m : Z) : bool := negb (Z.land x m =? 0).

(** ** Data *)

Inductive i2c_transaction_e := MASTER_SEND | MASTER_RECEIVE | SLAVE_SEND | SLAVE_RECEIVE.
Inductive i2c_state_e :=
  | STOPPED | WAIT_RESTART | TX_ADDR_7BIT | TX_ADDR_10BIT_MSB | TX_ADDR_10BIT_LSB | TX_DATA | RX_DATA.
Inductive i2c_trans_status_e :=
  | I2C_TRANSACTION_IN_PROGRESS | I2C_TRANSACTION_COMPLETE | I2C_TRANSACTION_FAILED.
#[export] Instance transaction_eq_dec : EqDecision i2c_transaction_e.
Proof. solve_decision. Defined.
#[export] Instance bus_state_eq_dec : EqDecision i2c_state_e.
Proof. solve_decision. Defined.
#[export] Instance status_eq_dec : EqDecision i2c_trans_status_e.
Proof. solve_decision. Defined.

(** [i2c_status_t] of the SDK, whose numbers are not in the repository; [Raw] is a number the driver
    puts in its place. *)
Inductive i2c_status_t :=
  | I2C_STATUS_DONE | I2C_STATUS_ERROR | I2C_STATUS_NACK | I2C_STATUS_ARBL | I2C_STATUS_BUSY | Raw (n : Z).
#[export] Instance i2c_status_eq_dec : EqDecision i2c_status_t.
Proof. solve_decision. Defined.
(** [i2c_addrfmt_t] of the SDK. *)
Inductive i2c_addrfmt_t := I2C_ADDRFMT_7BIT | I2C_ADDRFMT_10BIT | OtherFmt.
#[export] Instance i2c_addrfmt_eq_dec : EqDecision i2c_addrfmt_t.
Proof. solve_decision. Defined.

(** [imx_dev_t].  A buffer is the caller's, as it is now. *)
Record imx_dev := {
  unit_ : Z; reglen : Z; regbase : Z; physbase : Z; own_addr : Z; options : Z; input_clk : Z; speed : Z;
  slave_resp_timeout_slack : Z; slave_timeout_multiplier : Z; i2c_freq_val : Z; intr : Z;
  intr_priority : Z; intr_count : Z; iid : Z; chid : Z; coid : Z; bus_busy_timeout : Z; slave_addr : Z;
  slave_addr_fmt : i2c_addrfmt_t; stop_req : Z; tx_buf : list Z; tx_buf_len : Z; tx_buf_idx : Z;
  rx_buf : list Z; rx_buf_len : Z; rx_buf_idx : Z; transaction : i2c_transaction_e;
  transaction_status : i2c_trans_status_e; transaction_error : i2c_status_t; bus_state : i2c_state_e
}.

(** After [memset]. *)
Definition imx_dev0 : imx_dev := {|
  unit_ := 0; reglen := 0; regbase := 0; physbase := 0; own_addr := 0; options := 0; input_clk := 0; speed := 0;
  slave_resp_timeout_slack := 0; slave_timeout_multiplier := 0; i2c_freq_val := 0; intr := 0;
  intr_priority := 0; intr_count := 0; iid := 0; chid := 0; coid := 0; bus_busy_timeout := 0; slave_addr := 0;
  slave_addr_fmt := I2C_ADDRFMT_7BIT; stop_req := 0; tx_buf := []; tx_buf_len := 0; tx_buf_idx := 0;
  rx_buf := []; rx_buf_len := 0; rx_buf_idx := 0; transaction := MASTER_SEND;
  transaction_status := I2C_TRANSACTION_IN_PROGRESS; transaction_error := Raw 0; bus_state := STOPPED
|}.

(** ** The machine *)

(** The calls of [imx_i2c_init] and [imx_i2c_fini]. *)
Inductive syscall :=
  | ThreadCtl | Malloc | MmapDeviceIo (len base : Z) | ChannelCreate | ConnectAttach (ch : Z)
  | InterruptAttach (irq : Z) | ConnectDetach (co : Z) | ChannelDestroy (ch : Z)
  | MunmapDeviceIo (base len : Z) | Free.

(** Reading and writing registers; the time-out armed for the next wait; what happens until the
    controller's next interrupt, if one comes before that; what the system answers a call after the
    calls before it; a bus of the hardware-information section: its location tag with the interrupt, if there is one. *)
Class I2cDevice (R : Type) := {
  in16 : Z -> R -> Z * R;
  out16 : Z -> Z -> R -> R;
  TimerTimeout : Z -> R -> R;
  next_irq : R -> bool * R;
  i2c_sys : list (syscall * Z) -> syscall -> Z;
  MAP_FAILED : Z;
  hwi_find_bus : Z -> option (option (Z * Z))
}.

(** The driver: its structure, the pulses on its channel that nobody has received, the calls made, the
    machine. *)
Record i2c (R : Type) := { idev : imx_dev; pulses : nat; trace : list (syscall * Z); regs : R }.
Arguments idev {R} _.
Arguments pulses {R} _.
Arguments trace {R} _.
Arguments regs {R} _.

Definition M (R A : Type) : Type := i2c R -> res (A * i2c R).
#[export] Instance M_ret {R} : MRet (M R) := fun A a s => Ok (a, s).
#[export] Instance M_bind {R} : MBind (M R) :=
  fun A B f m s => match m s with Ok (a, s) => f a s | Err e => Err e end.

Section Code.
Context {R : Type} `{I2cDevice R}.

Definition on_regs {A} (f : R -> A * R) : M R A :=
  fun s => let '(a, g) := f (regs s) in
           Ok (a, {| idev := idev s; pulses := pulses s; trace := trace s; regs := g |}).
Definition in_ (r : Z) : M R Z := on_regs (in16 r).
Definition out (r v : Z) : M R unit := on_regs (fun g => (tt, out16 r (u16 v) g)).
Definition get : M R imx_dev := fun s => Ok (idev s, s).
Definition modify (f : imx_dev -> imx_dev) : M R unit :=
  fun s => Ok (tt, {| idev := f (idev s); pulses := pulses s; trace := trace s; regs := regs s |}).
Definition lift {A} (r : res A) : M R A := fun s => match r with Ok a => Ok (a, s) | Err e => Err e end.
(** The event of the interrupt handler, [dev->intrevent], becomes a pulse. *)
Definition deliver (event : bool) : M R unit :=
  fun s => Ok (tt, {| idev := idev s; pulses := if event then S (pulses s) else pulses s; trace := trace s;
                      regs := regs s |}).

Definition set_state (b : i2c_state_e) : M R unit := modify (fun d => d <| bus_state := b |>).
Definition complete (st : i2c_trans_status_e) : M R unit := modify (fun d => d <| transaction_status := st |>).
Definition fail_with (e : i2c_status_t) : M R unit :=
  modify (fun d => d <| transaction_status := I2C_TRANSACTION_FAILED |> <| transaction_error := e |>).

(** [CTRREG_IEN | CTRREG_IIEN | v] *)
Definition ctl (v : Z) : M R unit := out IMX_I2C_CTRREG_OFF (Z.lor (Z.lor CTRREG_IEN CTRREG_IIEN) v).
(** [out16( CTR, in16( CTR ) | v )] *)
Definition ctl_or (v : Z) : M R unit :=
  c ← in_ IMX_I2C_CTRREG_OFF; out IMX_I2C_CTRREG_OFF (Z.lor c v).

(** ** The interrupt handler *)

(** The states that the test for a missing acknowledge names, one of them twice. *)
Definition checks_ack (b : i2c_state_e) : bool :=
  bool_decide (b = TX_ADDR_7BIT) || bool_decide (b = TX_ADDR_10BIT_MSB)
  || bool_decide (b = TX_ADDR_10BIT_MSB) || bool_decide (b = TX_DATA).

(** "Transmit data phase" *)
Definition intr_tx : M R bool :=
  d ← get;
  if tx_buf_idx d <? tx_buf_len d then
    b ← lift (get_or_bad (byte_at (tx_buf d) (tx_buf_idx d)));
    _ ← out IMX_I2C_DATREG_OFF b;
    _ ← modify (fun d => d <| tx_buf_idx := u32 (tx_buf_idx d + 1) |>);
    mret false
  else
    _ ← (if negb (stop_req d =? 0) then _ ← ctl 0; set_state STOPPED else set_state WAIT_RESTART);
    _ ← complete I2C_TRANSACTION_COMPLETE;
    mret true.

(** [dev->rx_buf[i] = v] *)
Definition store_rx (i v : Z) : M R unit :=
  d ← get;
  _ ← lift (get_or_bad (byte_at (rx_buf d) i));
  modify (fun d => d <| rx_buf := <[Z.to_nat i := v]> (rx_buf d) |>).

(** "Receive data phase" *)
Definition intr_rx : M R bool :=
  d ← get;
  _ ← (if rx_buf_idx d =? u32 (rx_buf_len d - 1) then
         _ ← (if negb (stop_req d =? 0) then
                _ ← ctl (Z.lor CTRREG_MTX CTRREG_TXAK); set_state STOPPED
              else
                _ ← ctl (Z.lor (Z.lor CTRREG_MTX CTRREG_TXAK) CTRREG_MSTA); set_state WAIT_RESTART);
         complete I2C_TRANSACTION_COMPLETE
       else if rx_buf_idx d =? u32 (rx_buf_len d - 2) then ctl (Z.lor CTRREG_MSTA CTRREG_TXAK)
       else mret tt);
  b ← in_ IMX_I2C_DATREG_OFF;
  _ ← store_rx (rx_buf_idx d) (Z.land b 0xff);
  _ ← modify (fun d => d <| rx_buf_idx := u32 (rx_buf_idx d + 1) |>);
  d ← get;
  mret (rx_buf_idx d =? rx_buf_len d).

(** [imx_i2c_intr]: whether it gives its event. *)
Definition imx_i2c_intr : M R bool :=
  _ ← modify (fun d => d <| intr_count := s32 (intr_count d + 1) |>);
  i2sr ← in_ IMX_I2C_STSREG_OFF;
  _ ← out IMX_I2C_STSREG_OFF 0;
  d ← get;
  if has_bit i2sr STSREG_IAL then
    _ ← fail_with I2C_STATUS_ARBL; _ ← ctl 0; mret true
  else if checks_ack (bus_state d) && has_bit i2sr STSREG_RXAK then
    _ ← fail_with I2C_STATUS_NACK; _ ← ctl 0; mret true
  else if bool_decide (bus_state d = TX_ADDR_10BIT_MSB) then
    _ ← out IMX_I2C_DATREG_OFF (IMX_I2C_XADDR2 (slave_addr d));
    _ ← set_state TX_ADDR_10BIT_LSB;
    mret false
  else
    let addressed := bool_decide (bus_state d = TX_ADDR_10BIT_LSB) || bool_decide (bus_state d = TX_ADDR_7BIT) in
    if addressed && bool_decide (transaction d = MASTER_RECEIVE) then
      _ ← set_state RX_DATA;
      _ ← ctl (Z.lor CTRREG_MSTA (if rx_buf_len d =? 1 then CTRREG_TXAK else 0));
      _ ← in_ IMX_I2C_DATREG_OFF;
      mret false
    else
      _ ← (if addressed && bool_decide (transaction d = MASTER_SEND) then set_state TX_DATA else mret tt);
      d ← get;
      if bool_decide (bus_state d = TX_DATA) then intr_tx
      else if bool_decide (bus_state d = RX_DATA) then intr_rx
      else _ ← modify (fun d => d <| transaction_error := Raw 0xDEAD |>); mret true.

(** An interrupt that comes while no call is under way. *)
Definition interrupt : M R unit := e ← imx_i2c_intr; deliver e.

(** ** Sending and receiving *)

Definition imx_i2c_reset : M R unit :=
  _ ← out IMX_I2C_CTRREG_OFF 0;
  _ ← out IMX_I2C_STSREG_OFF 0;
  _ ← out IMX_I2C_CTRREG_OFF CTRREG_IEN;
  _ ← out IMX_I2C_STSREG_OFF 0;
  _ ← out IMX_I2C_CTRREG_OFF (Z.lor CTRREG_IEN CTRREG_IIEN);
  d ← get;
  _ ← out IMX_I2C_FRQREG_OFF (i2c_freq_val d);
  set_state STOPPED.

(** The registers that go into a message of the log, [I2C_ERROR_SLOG]. *)
Definition log_regs : M R unit := _ ← in_ IMX_I2C_CTRREG_OFF; _ ← in_ IMX_I2C_STSREG_OFF; mret tt.

(** [IMX_I2C_BUS_BUSY] *)
Definition bus_busy : M R bool := s ← in_ IMX_I2C_STSREG_OFF; mret (has_bit s STSREG_IBB).

(** The loop of [imx_wait_bus_idle]: [timeout--] twice in each round. *)
Fixpoint idle_loop (k : nat) (timeout : Z) : M R Z :=
  if timeout <? 100 then _ ← log_regs; mret (-1)
  else
    match k with
    | O => lift (Err NoFuel)
    | S k =>
        busy ← bus_busy;
        if negb busy then mret 0 else idle_loop k (u64 (timeout - 1 - 1))
    end.
Definition imx_wait_bus_idle : M R Z :=
  d ← get;
  let timeout := u64 (bus_busy_timeout d * 100) in
  idle_loop (Z.to_nat (timeout / 2)) timeout.

(** The start of both functions: whether the bus is there to be used. *)
Definition claim_bus : M R bool :=
  d ← get;
  busy ← (if bool_decide (bus_state d = STOPPED) then bus_busy else mret false);
  if negb busy then mret true
  else
    r ← imx_wait_bus_idle;
    if negb (r =? -1) then mret true
    else
      _ ← imx_i2c_reset;
      r ← imx_wait_bus_idle;
      if r =? -1 then _ ← log_regs; mret false else mret true.

(** The start condition of [imx_sendaddr7] and [imx_sendaddr10]. *)
Definition start_cond : M R unit :=
  _ ← ctl_or CTRREG_MTX;
  d ← get;
  if bool_decide (bus_state d = STOPPED) then ctl_or CTRREG_MSTA
  else if bool_decide (bus_state d = WAIT_RESTART) then ctl_or CTRREG_RSTA
  else mret tt.

(** The address byte, with the direction. *)
Definition with_direction (d : imx_dev) (b : Z) : Z :=
  u8 (if bool_decide (transaction d = MASTER_RECEIVE) then Z.lor (u8 b) IMX_I2C_ADDR_RD else b).

Definition imx_sendaddr7 : M R unit :=
  _ ← start_cond;
  d ← get;
  _ ← out IMX_I2C_DATREG_OFF (with_direction d (Z.shiftl (slave_addr d) 1));
  set_state TX_ADDR_7BIT.
Definition imx_sendaddr10 : M R unit :=
  _ ← start_cond;
  d ← get;
  _ ← out IMX_I2C_DATREG_OFF (with_direction d (IMX_I2C_XADDR1 (slave_addr d)));
  set_state TX_ADDR_10BIT_MSB.

Definition send_address : M R unit :=
  d ← get; if bool_decide (slave_addr_fmt d = I2C_ADDRFMT_7BIT) then imx_sendaddr7 else imx_sendaddr10.

(** [MsgReceivePulse], of which the driver uses neither the result nor the pulse: one that is there is taken;
    otherwise interrupts are served until their handler gives its event, or the time is up. *)
Fixpoint MsgReceivePulse (k : nat) : M R unit :=
  fun s =>
    match pulses s with
    | S n => Ok (tt, {| idev := idev s; pulses := n; trace := trace s; regs := regs s |})
    | O =>
        match k with
        | O => Err NoFuel
        | S k => (irq ← on_regs next_irq; if irq : bool then _ ← interrupt; MsgReceivePulse k else mret tt) s
        end
    end.

(** "Block the caller until the transaction completes or a timeout occurs"; the interrupts of a transaction of [len]
    bytes are two for the address, one for each byte, and one at the end. *)
Definition block (len : Z) : M R unit :=
  d ← get;
  _ ← on_regs (fun g => (tt, TimerTimeout (u64 (slave_timeout_multiplier d * u32 (len + 1))) g));
  MsgReceivePulse (Z.to_nat len + 4).

Definition imx_i2c_send (buf : list Z) (stop : Z) : M R i2c_status_t :=
  let len := zlen buf in
  if len =? 0 then mret I2C_STATUS_DONE
  else
    ok ← claim_bus;
    if negb ok then mret I2C_STATUS_BUSY
    else
      _ ← modify (fun d =>
            d <| transaction := MASTER_SEND |> <| transaction_status := I2C_TRANSACTION_IN_PROGRESS |>
              <| transaction_error := Raw 0 |> <| tx_buf := buf |> <| tx_buf_len := len |> <| tx_buf_idx := 0 |>
              <| stop_req := stop |>);
      _ ← send_address;
      _ ← block len;
      d ← get;
      match transaction_status d with
      | I2C_TRANSACTION_IN_PROGRESS => _ ← log_regs; mret I2C_STATUS_BUSY
      | I2C_TRANSACTION_FAILED => _ ← log_regs; _ ← imx_i2c_reset; mret (transaction_error d)
      | I2C_TRANSACTION_COMPLETE => mret I2C_STATUS_DONE
      end.

(** [imx_i2c_recv]: the status, and what is in the buffer afterwards. *)
Definition imx_i2c_recv (buf : list Z) (stop : Z) : M R (i2c_status_t * list Z) :=
  let len := zlen buf in
  if len =? 0 then mret (I2C_STATUS_DONE, buf)
  else
    ok ← claim_bus;
    if negb ok then mret (I2C_STATUS_BUSY, buf)
    else
      _ ← modify (fun d =>
            d <| transaction := MASTER_RECEIVE |> <| transaction_status := I2C_TRANSACTION_IN_PROGRESS |>
              <| transaction_error := Raw 0 |> <| rx_buf := buf |> <| rx_buf_idx := 0 |> <| rx_buf_len := len |>
              <| stop_req := stop |>);
      _ ← ctl_or CTRREG_IIEN;
      _ ← send_address;
      _ ← block len;
      d ← get;
      match transaction_status d with
      | I2C_TRANSACTION_IN_PROGRESS =>
          _ ← log_regs; _ ← ctl 0; _ ← set_state STOPPED; mret (I2C_STATUS_ERROR, rx_buf d)
      | I2C_TRANSACTION_FAILED => _ ← log_regs; _ ← imx_i2c_reset; mret (transaction_error d, rx_buf d)
      | I2C_TRANSACTION_COMPLETE => mret (I2C_STATUS_DONE, rx_buf d)
      end.

Definition imx_i2c_set_slave_addr (addr : Z) (fmt : i2c_addrfmt_t) : M R Z :=
  if bool_decide (fmt = OtherFmt) then mret (-1)
  else _ ← modify (fun d => d <| slave_addr := u32 addr |> <| slave_addr_fmt := fmt |>); mret 0.

(** ** The speed of the bus *)

Definition I2C_Divs : list Z :=
  [30; 32; 36; 42; 48; 52; 60; 72; 80; 88; 104; 128; 144; 160; 192; 240;
   288; 320; 384; 480; 576; 640; 768; 960; 1152; 1280; 1536; 1920; 2304; 2560; 3072; 3840;
   22; 24; 26; 28; 32; 36; 40; 44; 48; 56; 64; 72; 80; 96; 112; 128;
   160; 192; 224; 256; 320; 384; 448; 512; 640; 768; 896; 1024; 1280; 1536; 1792; 2048].
Definition IMX_DEFAULT_IC : Z := 22.

(** The loop of [find_best_ic] over the table, from [ic] on; [best] is the best index with its divider, if there
    is one. *)
Fixpoint best_loop (divs : list Z) (ic : Z) (i2c_div : Z) (best : option (Z * Z)) : option (Z * Z) :=
  match divs with
  | [] => best
  | v :: divs =>
      let best :=
        if i2c_div <=? v then
          match best with
          | None => Some (ic, v)
          | Some (_, w) => if v <? w then Some (ic, v) else best
          end
        else best in
      best_loop divs (ic + 1) i2c_div best
  end.
Definition find_best_ic (i2c_div : Z) : Z :=
  match best_loop I2C_Divs 0 i2c_div None with Some (ic, _) => ic | None => IMX_DEFAULT_IC end.

(** [imx_i2c_set_bus_speed]: the result, and [*ospeed]. *)
Definition imx_i2c_set_bus_speed (speed' : Z) : M R (Z * Z) :=
  if 400000 <? speed' then mret (-1, 0)
  else
    d ← get;
    _ ← (if negb (speed' =? speed d) then
           if speed' =? 0 then lift (Err (Crash "division by zero"))
           else
             let val := find_best_ic (input_clk d / speed') in
             _ ← out IMX_I2C_FRQREG_OFF val;
             modify (fun d =>
               d <| speed := speed' |> <| i2c_freq_val := val |>
                 <| slave_timeout_multiplier := u64 (1000000000 / speed' * u32 (10 * slave_resp_timeout_slack d)) |>)
         else mret tt);
    d ← get;
    div ← lift (get_or_bad (byte_at I2C_Divs (i2c_freq_val d)));
    mret (0, input_clk d / div).

(** ** Options *)

Definition IMX_OPT_VERBOSE : Z := 2.
Definition IMX_I2C_RESP_TIMEOUT_SLACK : Z := 20.
Definition IMX_I2C_BUSY_TIMEOUT : Z := 500000.
Definition IMX_I2C_INPUT_CLOCK : Z := 60000000.
Definition IMX_I2C1_BASE_ADDR : Z := 0x43F80000.
Definition IMX_I2C2_BASE_ADDR : Z := 0x43F98000.
Definition IMX_I2C3_BASE_ADDR : Z := 0x43F84000.
Definition IMX_I2C1_IRQ : Z := 10.
Definition IMX_I2C2_IRQ : Z := 4.
Definition IMX_I2C3_IRQ : Z := 3.
Definition IMX_I2C_DEF_INTR_PRIORITY : Z := 21.
Definition IMX_I2C_REGLEN : Z := 0x18.
Definition IMX_I2C_OWN_ADDR : Z := 0x00.

Definition query_hwi_device (unit : Z) : M R Z :=
  match hwi_find_bus unit with
  | None => mret 0
  | Some None => mret 1
  | Some (Some (base, ivec)) => _ ← modify (fun d => d <| physbase := u32 base |> <| intr := ivec |>); mret 1
  end.

(** What [getopt] of the C library gives on one call: an option with the number [strtoul] reads in its
    argument; an unknown option, [dashes] if it is a dash; its end, after ["--"], at an argument that is no option,
    which the driver skips, or at the end of the arguments; anything else. *)
Inductive opt :=
  | Opt (c : Ascii.ascii) (arg : Z) | Unknown (dash : bool) | DashDash | Operand | NoMore | BadOption.

(** One option: the structure, or none if it is refused. *)
Definition set_option (c : Ascii.ascii) (v : Z) (d : imx_dev) : option imx_dev :=
  let u := u32 v in
  match c with
  | "I"%char =>
      Some (if v =? 2 then d <| intr := IMX_I2C2_IRQ |> <| physbase := IMX_I2C2_BASE_ADDR |>
            else if v =? 3 then d <| intr := IMX_I2C3_IRQ |> <| physbase := IMX_I2C3_BASE_ADDR |>
            else d <| intr := IMX_I2C1_IRQ |> <| physbase := IMX_I2C1_BASE_ADDR |>)
  | "a"%char => Some (d <| own_addr := u |>)
  | "s"%char => Some (d <| slave_addr := u |>)
  | "v"%char => Some (d <| options := Z.lor (options d) IMX_OPT_VERBOSE |>)
  | "c"%char => Some (d <| input_clk := u |>)
  | "p"%char => Some (d <| physbase := u |>)
  | "i"%char => Some (d <| intr := s32 v |>)
  | "t"%char => Some (d <| slave_resp_timeout_slack := u |>)
  | "y"%char => Some (d <| bus_busy_timeout := v |>)
  | "h"%char => Some (d <| intr_priority := s32 v |>)
  | _ => None
  end.

(** The loop over the calls of [getopt]. *)
Fixpoint options_loop (l : list opt) : M R Z :=
  match l with
  | [] => lift (Err NoFuel)
  | Opt c v :: l =>
      d ← get;
      match set_option c v d with
      | Some d => _ ← modify (fun _ => d); options_loop l
      | None => mret (-1)
      end
  | Unknown true :: l | Operand :: l => options_loop l
  | NoMore :: _ => mret 0
  | Unknown false :: _ | DashDash :: _ | BadOption :: _ => mret (-1)
  end.

Definition imx_i2c_options (l : list opt) : M R Z :=
  _ ← modify (fun d =>
        d <| intr := IMX_I2C1_IRQ |> <| iid := -1 |> <| physbase := IMX_I2C1_BASE_ADDR |> <| reglen := IMX_I2C_REGLEN |>
          <| own_addr := IMX_I2C_OWN_ADDR |> <| slave_addr := 0 |> <| options := 0 |>
          <| input_clk := IMX_I2C_INPUT_CLOCK |> <| slave_resp_timeout_slack := IMX_I2C_RESP_TIMEOUT_SLACK |>
          <| bus_busy_timeout := IMX_I2C_BUSY_TIMEOUT |> <| intr_priority := IMX_I2C_DEF_INTR_PRIORITY |>);
  d ← get;
  _ ← (if unit_ d =? -1 then mret 0 else query_hwi_device (unit_ d));
  options_loop l.

(** ** Start and end *)

Definition system (c : syscall) : M R Z :=
  fun s => let a := i2c_sys (trace s) c in
           Ok (a, {| idev := idev s; pulses := pulses s; trace := (c, a) :: trace s; regs := regs s |}).

(** The labels of [imx_i2c_init]; the result is the address of the structure. *)
Definition fail : M R Z := _ ← system Free; mret 0.
Definition fail_chnl_dstr : M R Z := d ← get; _ ← system (ChannelDestroy (chid d)); fail.
Definition fail_con_dtch : M R Z := d ← get; _ ← system (ConnectDetach (coid d)); fail_chnl_dstr.

(** [imx_i2c_init] of the calls of [getopt] and the controller's number, -1 if there is none. *)
Definition imx_i2c_init (unit : Z) (l : list opt) : M R Z :=
  r ← system ThreadCtl;
  if r =? -1 then mret 0
  else
  p ← system Malloc;
  if p =? 0 then mret 0
  else
  _ ← modify (fun _ => imx_dev0 <| unit_ := unit |>);
  r ← imx_i2c_options l;
  if r =? -1 then fail
  else
  d ← get;
  if (physbase d =? 0) || (intr d =? 0) then fail
  else
  v ← system (MmapDeviceIo (reglen d) (physbase d));
  _ ← modify (fun d => d <| regbase := v |>);
  if v =? MAP_FAILED then fail
  else
  ch ← system ChannelCreate;
  _ ← modify (fun d => d <| chid := ch |>);
  if ch =? -1 then fail
  else
  co ← system (ConnectAttach ch);
  _ ← modify (fun d => d <| coid := co |>);
  if co =? -1 then fail_chnl_dstr
  else
  id ← system (InterruptAttach (intr d));
  _ ← modify (fun d => d <| iid := id |>);
  if id =? -1 then fail_con_dtch
  else
  _ ← imx_i2c_set_bus_speed 100000;
  d ← get;
  _ ← out IMX_I2C_ADRREG_OFF (Z.shiftl (own_addr d) 1);
  _ ← imx_i2c_reset;
  mret p.

Definition imx_i2c_fini : M R unit :=
  _ ← out IMX_I2C_CTRREG_OFF 0;
  _ ← out IMX_I2C_STSREG_OFF 0;
  d ← get;
  _ ← system (MunmapDeviceIo (physbase d) (reglen d));
  _ ← system Free;
  mret tt.
End Code.
