(* ===== verification/I2cBus.v ===== *)
(** * I2cBus: the functions of the I2C driver return (i2c/imx).

    How a function of the driver runs ([does]), and what holds on any machine: an interrupt takes a
    transaction nearer to its end or ends it ([intr_sending], [intr_receiving]), so that a call waits
    for no more interrupts than it has fuel for, and comes back with one of the results the resource
    manager knows, in a state from which the next transaction starts. *)

From coqutil Require Import Datatypes.RecordSetters.
From S2P Require Import Prelude.
From S2P Require Import I2c.

(** ** What a function does *)

(** It returns, and what it gives satisfies [Q]. *)
Definition does {R A} (m : M R A) (s : i2c R) (Q : A -> i2c R -> Prop) : Prop :=
  match m s with Ok (a, s') => Q a s' | Err _ => False end.

Section Does.
Context {R : Type} `{I2cDevice R}.
Implicit Types s : i2c R.

Lemma does_ret {A} (a : A) s (Q : A -> i2c R -> Prop) : Q a s -> does (mret a) s Q.
Proof. done. Qed.
Lemma does_bind {A B} (m : M R A) (f : A -> M R B) s Q :
  does m s (fun a s' => does (f a) s' Q) -> does (m ≫= f) s Q.
Proof. unfold does, mbind, M_bind. by destruct (m s) as [[a s']|]. Qed.
Lemma does_weaken {A} (m : M R A) s (P Q : A -> i2c R -> Prop) :
  does m s P -> (forall a s', P a s' -> Q a s') -> does m s Q.
Proof. unfold does. destruct (m s) as [[a s']|]; [|done]. auto. Qed.
Lemma does_if {A} (b : bool) (m1 m2 : M R A) s Q :
  (b = true -> does m1 s Q) -> (b = false -> does m2 s Q) -> does (if b then m1 else m2) s Q.
Proof. destruct b; auto. Qed.
Lemma does_run {A} (m : M R A) s Q : does m s Q -> exists a s', m s = Ok (a, s') /\ Q a s'.
Proof. unfold does. destruct (m s) as [[a s']|]; [by exists a, s'|done]. Qed.

(** The structure of the driver and the pulses are these. *)
Definition Dev (d : imx_dev) (n : nat) s : Prop := idev s = d /\ pulses s = n.

Lemma does_in r d n s Q : Dev d n s -> (forall v s', Dev d n s' -> Q v s') -> does (in_ r) s Q.
Proof. intros Hs HQ. unfold does, in_, on_regs. destruct (in16 r (regs s)) as [v g]. by apply HQ. Qed.
Lemma does_out r v d n s Q : Dev d n s -> (forall s', Dev d n s' -> Q tt s') -> does (out r v) s Q.
Proof. intros Hs HQ. by apply HQ. Qed.
Lemma does_get d n s Q : Dev d n s -> Q d s -> does get s Q.
Proof. by intros [<- _]. Qed.
Lemma does_modify f d n s Q : Dev d n s -> (forall s', Dev (f d) n s' -> Q tt s') -> does (modify f) s Q.
Proof. intros [<- <-] HQ. by apply HQ. Qed.
Lemma does_lift {A} (a : A) s (Q : A -> i2c R -> Prop) : Q a s -> does (lift (Ok a)) s Q.
Proof. done. Qed.
End Does.

Ltac dev_step :=
  lazymatch goal with
  | |- does (mbind _ _) _ _ => apply does_bind
  | |- does (mret _) _ _ => apply does_ret
  | |- does get _ _ => eapply does_get; [eassumption|]
  | |- does (in_ _) _ _ => eapply does_in; [eassumption|intros ? ? ?]
  | |- does (out _ _) _ _ => eapply does_out; [eassumption|intros ? ?]
  | |- does (ctl _) _ _ => unfold ctl; dev_step
  | |- does (modify _) _ _ => eapply does_modify; [eassumption|intros ? ?]
  | |- does (set_state _) _ _ => unfold set_state; dev_step
  | |- does (complete _) _ _ => unfold complete; dev_step
  | |- does (fail_with _) _ _ => unfold fail_with; dev_step
  end; cbv beta zeta.

(** Read fields of updated structures. *)
Ltac dev_cbn :=
  cbn [transaction transaction_status transaction_error bus_state tx_buf tx_buf_len tx_buf_idx rx_buf rx_buf_len
       rx_buf_idx stop_req slave_addr slave_addr_fmt speed i2c_freq_val input_clk apply_update];
  unfold constant;
  repeat match goal with d : imx_dev |- _ =>
    progress fold (transaction d) (transaction_status d) (transaction_error d) (bus_state d) (tx_buf d) (tx_buf_len d)
      (tx_buf_idx d) (rx_buf d) (rx_buf_len d) (rx_buf_idx d) (stop_req d) (slave_addr d) (slave_addr_fmt d) end.
Ltac decide_bools :=
  repeat match goal with
  | |- context [bool_decide (?a = ?b)] =>
      first [ rewrite (bool_decide_eq_true_2 (a = b)) by reflexivity
            | rewrite (bool_decide_eq_false_2 (a = b)) by discriminate ]
  end.

Lemma byte_at_in l i : 0 <= i < zlen l -> exists b, byte_at l i = Some b /\ l !! Z.to_nat i = Some b.
Proof.
  intros [Hi Hl]. unfold byte_at, zlen in *. rewrite (proj2 (Z.ltb_ge i 0)) by done.
  destruct (lookup_lt_is_Some_2 l (Z.to_nat i)) as [b ->]; [lia|by exists b].
Qed.

(** ** Every function returns, whatever the machine does *)

Section Total.
Context {R : Type} `{I2cDevice R}.
Implicit Types s : i2c R.

Lemma does_ctl v d n s Q : Dev d n s -> (forall s', Dev d n s' -> Q tt s') -> does (ctl v) s Q.
Proof. apply does_out. Qed.
Lemma does_ctl_or v d n s Q : Dev d n s -> (forall s', Dev d n s' -> Q tt s') -> does (ctl_or v) s Q.
Proof. intros Hs HQ. unfold ctl_or. dev_step. eapply does_in; [done|]. intros c s' Hs'. by eapply does_out. Qed.

Lemma does_reset d n s Q :
  Dev d n s -> (forall s', Dev (d <| bus_state := STOPPED |>) n s' -> Q tt s') -> does imx_i2c_reset s Q.
Proof. intros Hs HQ. unfold imx_i2c_reset, set_state. repeat dev_step. by apply HQ. Qed.

Lemma does_log d n s (Q : unit -> i2c R -> Prop) :
  Dev d n s -> (forall s', Dev d n s' -> Q tt s') -> does log_regs s Q.
Proof. intros Hs HQ. unfold log_regs. repeat dev_step. by apply HQ. Qed.

Lemma does_idle_loop k t d n s Q :
  fits 64 t -> t / 2 <= Z.of_nat k -> Dev d n s ->
  (forall r s', Dev d n s' -> Q r s') -> does (idle_loop k t) s Q.
Proof.
  revert t s. induction k as [|k IH]; intros t s Ht Hk Hs HQ; cbn [idle_loop].
  - destruct (Z.ltb_spec t 100); [dev_step; eapply does_log; [done|intros ? ?]; by apply HQ|]. pose proof (Z.div_mod t 2). pose proof (Z.mod_pos_bound t 2). lia.
  - destruct (Z.ltb_spec t 100); [dev_step; eapply does_log; [done|intros ? ?]; by apply HQ|]. unfold fits in Ht.
    unfold bus_busy. dev_step. dev_step. eapply does_in; [done|]. intros v s' Hs'. dev_step.
    apply does_if; [by intros _; apply HQ|]. intros _.
    rewrite wrap_id by (unfold fits; lia). apply IH; [unfold fits; lia| |done|done].
    replace (t - 1 - 1) with (t + (-1) * 2) by lia. rewrite Z.div_add by lia. lia.
Qed.

Lemma does_wait_idle d n s Q : Dev d n s -> (forall r s', Dev d n s' -> Q r s') -> does imx_wait_bus_idle s Q.
Proof.
  intros Hs HQ. unfold imx_wait_bus_idle. repeat dev_step. cbv zeta.
  set (t := u64 _). assert (Ht : fits 64 t) by (apply wrap_fits; lia). clearbody t.
  eapply does_idle_loop; [done| |done|done].
  pose proof (Z.div_pos t 2). unfold fits in Ht. lia.
Qed.

Lemma does_claim d n s Q :
  Dev d n s ->
  (forall s', Dev d n s' -> Q true s') -> (forall r s', Dev (d <| bus_state := STOPPED |>) n s' -> Q r s') ->
  does claim_bus s Q.
Proof.
  intros Hs HT HR. unfold claim_bus. dev_step. dev_step. dev_step.
  assert (forall b s', Dev d n s' -> does (if negb b then mret true
    else r ← imx_wait_bus_idle; if negb (r =? -1) then mret true
         else _ ← imx_i2c_reset; r ← imx_wait_bus_idle;
              if r =? -1 then _ ← log_regs; mret false else mret true) s' Q) as Hrest.
  { intros b s' Hs'. apply does_if; [by intros _; apply HT|]. intros _. dev_step.
    eapply does_wait_idle; [done|]. intros r s1 H1. apply does_if; [by intros _; apply HT|]. intros _. dev_step.
    eapply does_reset; [done|]. intros s2 H2. dev_step. eapply does_wait_idle; [done|]. intros r' s3 H3.
    apply does_if; intros _; [|by apply HR]. dev_step. eapply does_log; [done|]. intros s4 H4. by apply HR. }
  apply does_if; intros _; [|by apply Hrest].
  unfold bus_busy. dev_step. eapply does_in; [done|]. intros v s' Hs'. dev_step. by apply Hrest.
Qed.

(** A transaction is under way, with [m] interrupts to go at most. *)
Definition addressing (b : i2c_state_e) (len m : Z) : Prop :=
  match b with
  | TX_ADDR_10BIT_MSB => m = len + 3
  | TX_ADDR_10BIT_LSB | TX_ADDR_7BIT => m = len + 2
  | _ => False
  end.
Record Sending (d : imx_dev) (m : Z) : Prop := {
  snd_trans : transaction d = MASTER_SEND;
  snd_status : transaction_status d = I2C_TRANSACTION_IN_PROGRESS;
  snd_len : tx_buf_len d = zlen (tx_buf d) /\ 0 < tx_buf_len d < 2 ^ 32;
  snd_state : 0 <= tx_buf_idx d <= tx_buf_len d /\
              (addressing (bus_state d) (tx_buf_len d) m /\ tx_buf_idx d = 0 \/
               bus_state d = TX_DATA /\ m = tx_buf_len d - tx_buf_idx d + 1)
}.
Record Receiving (d : imx_dev) (m : Z) : Prop := {
  rcv_trans : transaction d = MASTER_RECEIVE;
  rcv_status : transaction_status d = I2C_TRANSACTION_IN_PROGRESS;
  rcv_len : rx_buf_len d = zlen (rx_buf d) /\ 0 < rx_buf_len d < 2 ^ 32;
  rcv_state : 0 <= rx_buf_idx d < rx_buf_len d /\
              (addressing (bus_state d) (rx_buf_len d) m /\ rx_buf_idx d = 0 \/
               bus_state d = RX_DATA /\ m = rx_buf_len d - rx_buf_idx d)
}.

(** The state of the bus between transactions. *)
Definition after_transaction (stop : Z) : i2c_state_e := if negb (stop =? 0) then STOPPED else WAIT_RESTART.

(** It has ended. *)
Definition ended (d : imx_dev) : Prop :=
  match transaction_status d with
  | I2C_TRANSACTION_IN_PROGRESS => False
  | I2C_TRANSACTION_COMPLETE => bus_state d = after_transaction (stop_req d)
  | I2C_TRANSACTION_FAILED => transaction_error d = I2C_STATUS_NACK \/ transaction_error d = I2C_STATUS_ARBL
  end.

(** What an interrupt does to a transaction with the invariant [P], of a [key] that stays. *)
Definition send_key (d : imx_dev) : Z * Z := (tx_buf_len d, stop_req d).
Definition recv_key (d : imx_dev) : Z * Z := (zlen (rx_buf d), stop_req d).
Definition progress (P : imx_dev -> Z -> Prop) (key : imx_dev -> Z * Z) (d0 : imx_dev) (m : Z) (n : nat)
    (e : bool) s' : Prop :=
  exists d', Dev d' n s' /\ key d' = key d0 /\
    if e then ended d' else exists m', m' < m /\ P d' m'.

Lemma progress_ends P (key : imx_dev -> Z * Z) d n s m d0 :
  Dev d n s -> key d = key d0 -> ended d -> progress P key d0 m n true s.
Proof. intros. by exists d. Qed.
Lemma progress_goes_on (P : imx_dev -> Z -> Prop) key d n s m m' d0 :
  Dev d n s -> key d = key d0 -> m' < m -> P d m' -> progress P key d0 m n false s.
Proof. intros. exists d. split_and!; [done..|]. by exists m'. Qed.

Lemma progress_le P (key : imx_dev -> Z * Z) d0 d1 m m1 n e s :
  key d0 = key d1 -> m1 <= m -> progress P key d0 m1 n e s -> progress P key d1 m n e s.
Proof.
  intros Hl Hm (d & Hd & Hlen & He). exists d. split_and!; [done|congruence|].
  destruct e; [done|]. destruct He as (m' & Hm' & HP). exists m'. split; [lia|done].
Qed.

Lemma intr_tx_sending d n s :
  transaction d = MASTER_SEND -> transaction_status d = I2C_TRANSACTION_IN_PROGRESS ->
  tx_buf_len d = zlen (tx_buf d) /\ 0 < tx_buf_len d < 2 ^ 32 ->
  0 <= tx_buf_idx d <= tx_buf_len d -> bus_state d = TX_DATA -> Dev d n s ->
  does intr_tx s (progress Sending send_key d (tx_buf_len d - tx_buf_idx d + 1) n).
Proof.
  intros Ht Hst [Hl Hl0] Hi Hb Hs. unfold intr_tx. repeat dev_step. apply does_if; intros Hlt.
  - apply Z.ltb_lt in Hlt. destruct (byte_at_in (tx_buf d) (tx_buf_idx d)) as (b & -> & _); [lia|].
    dev_step. apply does_lift. repeat dev_step. eapply progress_goes_on; [eassumption|done| |].
    2: { split; dev_cbn; [done..|]. rewrite wrap_id by (unfold fits; lia). split; [lia|]. by right. }
    lia.
  - dev_step. apply does_if; intros Hstop; repeat dev_step;
      (eapply progress_ends; [eassumption|done|]; unfold ended, after_transaction; dev_cbn; by rewrite Hstop).
Qed.

(** The interrupt handler after it has counted the interrupt. *)
Lemma intr_sending d m n s :
  Sending d m -> Dev d n s -> does imx_i2c_intr s (progress Sending send_key d m n).
Proof.
  intros Hd Hs. unfold imx_i2c_intr. do 2 dev_step.
  match goal with H : Dev ?d' n _ |- _ => assert (Hd' : Sending d' m) by (by destruct Hd; split);
    set (d1 := d') in * end. 
  change (progress Sending send_key d m n) with (progress Sending send_key d1 m n).
  clearbody d1. clear d Hd Hs s. destruct Hd' as [Ht Hst [Hl Hl0] [Hi Hb]].
  repeat dev_step. apply does_if; intros _.
  { repeat dev_step. eapply progress_ends; [eassumption|done|by right]. }
  apply does_if; intros _.
  { repeat dev_step. eapply progress_ends; [eassumption|done|by left]. }
  destruct (bus_state d1) eqn:Hbs; cbn in Hb; destruct Hb as [[Hb Hi0]|[Hb Hm]]; try done;
    rewrite ?Ht; decide_bools; cbn [andb orb]; repeat dev_step; rewrite ?Hbs; decide_bools.
  2: { eapply progress_goes_on with (m' := tx_buf_len d1 + 2); [eassumption|done|lia|].
       split; dev_cbn; [done..|]. split; [done|]. by left. }
  all: eapply does_weaken; [eapply intr_tx_sending; [..|eassumption]; done|].
  all: intros e s''; apply progress_le; [done|]; dev_cbn; lia.
Qed.
Lemma does_store i v d n s Q :
  0 <= i < zlen (rx_buf d) -> Dev d n s ->
  (forall s', Dev (d <| rx_buf := <[Z.to_nat i := v]> (rx_buf d) |>) n s' -> Q tt s') -> does (store_rx i v) s Q.
Proof.
  intros Hi Hs HQ. unfold store_rx. destruct (byte_at_in _ _ Hi) as (b & Hb & _).
  repeat dev_step. rewrite Hb. apply does_lift. repeat dev_step. by apply HQ.
Qed.

Ltac key_kept := unfold recv_key, zlen; dev_cbn; by rewrite length_insert.

Lemma intr_rx_receiving d n s :
  Receiving d (rx_buf_len d - rx_buf_idx d) -> bus_state d = RX_DATA -> Dev d n s ->
  does intr_rx s (progress Receiving recv_key d (rx_buf_len d - rx_buf_idx d) n).
Proof.
  intros [Ht Hst [Hl Hl0] [Hi _]] Hb Hs. unfold intr_rx. repeat dev_step.
  rewrite wrap_id by (unfold fits; lia). destruct (Z.eqb_spec (rx_buf_idx d) (rx_buf_len d - 1)) as [He|Hne].
  - dev_step. apply does_if; intros Hstop; repeat dev_step.
    all: eapply does_store; [|eassumption|intros ? ?]; [dev_cbn; lia|]; repeat dev_step.
    all: dev_cbn; rewrite wrap_id by (unfold fits; lia); rewrite (proj2 (Z.eqb_eq _ _)) by lia.
    all: eapply progress_ends; [eassumption|key_kept|].
    all: unfold ended, after_transaction; dev_cbn; by rewrite Hstop.
  - eapply does_weaken with (P := fun _ s' => Dev d n s').
    { apply does_if; intros _; repeat dev_step; done. }
    intros [] s1 H1. repeat dev_step. eapply does_store; [|eassumption|intros ? ?]; [lia|]. repeat dev_step.
    dev_cbn. rewrite wrap_id by (unfold fits; lia). rewrite (proj2 (Z.eqb_neq _ _)) by lia.
    eapply progress_goes_on; [eassumption|key_kept| |].
    2: { split; dev_cbn; [done..| |].
         - unfold zlen in *. by rewrite length_insert.
         - rewrite wrap_id by (unfold fits; lia). split; [lia|]. by right. }
    lia.
Qed.

Lemma intr_receiving d m n s :
  Receiving d m -> Dev d n s -> does imx_i2c_intr s (progress Receiving recv_key d m n).
Proof.
  intros Hd Hs. unfold imx_i2c_intr. do 2 dev_step.
  match goal with H : Dev ?d' n _ |- _ => assert (Hd' : Receiving d' m) by (by destruct Hd; split);
    set (d1 := d') in * end.
  change (progress Receiving recv_key d m n) with (progress Receiving recv_key d1 m n).
  clearbody d1. clear d Hd Hs s. pose proof Hd' as [Ht Hst [Hl Hl0] [Hi Hb]].
  repeat dev_step. apply does_if; intros _.
  { repeat dev_step. eapply progress_ends; [eassumption|done|by right]. }
  apply does_if; intros _.
  { repeat dev_step. eapply progress_ends; [eassumption|done|by left]. }
  destruct (bus_state d1) eqn:Hbs; cbn in Hb; destruct Hb as [[Hb Hi0]|[Hb Hm]]; try done;
    rewrite ?Ht; decide_bools; cbn [andb orb]; repeat dev_step; rewrite ?Hbs; decide_bools.
  4: { subst m. by apply intr_rx_receiving. }
  2: { eapply progress_goes_on with (m' := rx_buf_len d1 + 2); [eassumption|done|lia|].
       split; dev_cbn; [done..|]. split; [done|]. by left. }
  all: eapply progress_goes_on with (m' := rx_buf_len d1 - rx_buf_idx d1); [eassumption|done|lia|].
  all: split; dev_cbn; [done..|]; split; [done|]; by right.
Qed.
(** [start_cond] and the address: the structure knows which byte of it is on its way. *)
Definition address_state (fmt : i2c_addrfmt_t) : i2c_state_e :=
  if bool_decide (fmt = I2C_ADDRFMT_7BIT) then TX_ADDR_7BIT else TX_ADDR_10BIT_MSB.

Lemma does_start_cond d n s (Q : unit -> i2c R -> Prop) :
  Dev d n s -> (forall s', Dev d n s' -> Q tt s') -> does start_cond s Q.
Proof.
  intros Hs HQ. unfold start_cond. dev_step. eapply does_ctl_or; [eassumption|intros s1 H1]. repeat dev_step.
  apply does_if; intros _; [by eapply does_ctl_or|].
  apply does_if; intros _; [by eapply does_ctl_or|]. dev_step. by apply HQ.
Qed.

Lemma does_send_address d n s (Q : unit -> i2c R -> Prop) :
  Dev d n s -> (forall s', Dev (d <| bus_state := address_state (slave_addr_fmt d) |>) n s' -> Q tt s') ->
  does send_address s Q.
Proof.
  intros Hs HQ. unfold send_address, address_state in *. repeat dev_step.
  apply does_if; intros Hf; rewrite Hf in HQ; unfold imx_sendaddr7, imx_sendaddr10; dev_step;
    (eapply does_start_cond; [eassumption|intros s1 H1]); repeat dev_step; by apply HQ.
Qed.

(** Waiting for the end of a transaction with the invariant [P]. *)
Definition waited (P : imx_dev -> Z -> Prop) (key : imx_dev -> Z * Z) d n s' : Prop :=
  exists d', Dev d' n s' /\ key d' = key d /\ (ended d' \/ exists m, P d' m).

Lemma does_MsgReceivePulse (P : imx_dev -> Z -> Prop) (key : imx_dev -> Z * Z) k d m n s :
  (forall d m n s, P d m -> Dev d n s -> does imx_i2c_intr s (progress P key d m n)) ->
  (forall d m, P d m -> 0 < m) -> P d m -> m <= Z.of_nat k -> Dev d n s ->
  does (MsgReceivePulse k) s (fun _ => waited P key d (pred n)).
Proof.
  intros Hintr Hpos. revert d m n s. induction k as [|k IH]; intros d m n s HP Hm Hs.
  { specialize (Hpos _ _ HP). lia. }
  unfold does in *. cbn [MsgReceivePulse]. destruct Hs as [Hd Hn]. rewrite Hn. destruct n as [|n].
  2: { unfold waited. exists d. split_and!; [done..|]. right. by exists m. }
  unfold on_regs, mbind, M_bind. destruct (next_irq (regs s)) as [[] g]; cbn [Nat.pred].
  2: { unfold waited. exists d. split_and!; [done..|]. right. by exists m. }
  set (s1 := Build_i2c _ _ _ _ _). assert (Hs1 : Dev d 0 s1) by done.
  specialize (Hintr d m 0%nat s1 HP Hs1). unfold interrupt, deliver, mbind, M_bind.
  destruct (imx_i2c_intr s1) as [[e s2]|]; [|done]. destruct Hintr as (d' & [Hd' Hn'] & Hk & He).
  destruct e.
  - destruct k; cbn [MsgReceivePulse pulses]; rewrite Hn'; (exists d'; split_and!; [by split|done|by left]).
  - destruct He as (m' & Hm' & HP'). rewrite Hn'.
    specialize (IH d' m' 0%nat {| idev := idev s2; pulses := 0; trace := trace s2; regs := regs s2 |}).
    destruct (MsgReceivePulse k _) as [[[] s3]|]; [|apply IH; [done|lia|done]].
    destruct IH as (d3 & H3 & Hk3 & Hr); [done|lia|done|]. exists d3. split_and!; [done|congruence|done].
Qed.
Lemma Sending_pos d m : Sending d m -> 0 < m.
Proof. intros [_ _ [_ Hl] [Hi Hb]]. unfold addressing in Hb. destruct (bus_state d); lia. Qed.
Lemma Receiving_pos d m : Receiving d m -> 0 < m.
Proof. intros [_ _ [_ Hl] [Hi Hb]]. unfold addressing in Hb. destruct (bus_state d); lia. Qed.

(** The transaction that has been set up, from its address on. *)
Lemma does_transaction (P : imx_dev -> Z -> Prop) (key : imx_dev -> Z * Z) len d n s :
  (forall d m n s, P d m -> Dev d n s -> does imx_i2c_intr s (progress P key d m n)) ->
  (forall d m, P d m -> 0 < m) -> 0 <= len -> Dev d n s ->
  (forall b, key (d <| bus_state := b |>) = key d) ->
  (forall m b, addressing b len m -> P (d <| bus_state := b |>) m) ->
  does send_address s (fun _ s1 => does (block len) s1 (fun _ => waited P key d (pred n))).
Proof.
  intros Hintr Hpos Hlen Hs Hkey HP. eapply does_send_address; [eassumption|intros s1 H1].
  unfold block. repeat dev_step. unfold does. cbn.
  set (s2 := Build_i2c _ _ _ _ _). assert (H2 : Dev (d <| bus_state := address_state (slave_addr_fmt d) |>) n s2) by done.
  assert (exists m, addressing (address_state (slave_addr_fmt d)) len m /\ m <= len + 4) as (m & Hm & Hle).
  { unfold address_state. destruct (bool_decide _); cbn; eexists; (split; [reflexivity|lia]). }
  pose proof (does_MsgReceivePulse P key (Z.to_nat len + 4) _ m n s2 Hintr Hpos (HP _ _ Hm) ltac:(lia) H2) as Hr.
  unfold does in Hr. destruct (MsgReceivePulse _ s2) as [[[] s3]|]; [|done].
  destruct Hr as (d' & ? & Hk & ?). exists d'. by rewrite Hkey in Hk.
Qed.

(** What a call that has returned says of the state of the bus. *)
Definition left_as (stop : Z) (st : i2c_status_t) (b : i2c_state_e) : Prop :=
  match st with
  | I2C_STATUS_DONE => b = after_transaction stop
  | I2C_STATUS_NACK | I2C_STATUS_ARBL | I2C_STATUS_ERROR => b = STOPPED
  | I2C_STATUS_BUSY => True
  | Raw _ => False
  end.

Lemma send_total buf stop s :
  0 < zlen buf < 2 ^ 32 ->
  does (imx_i2c_send buf stop) s (fun st s' =>
    st <> I2C_STATUS_ERROR /\ left_as stop st (bus_state (idev s')) /\ (pulses s' <= pulses s)%nat).
Proof.
  intros Hlen. unfold imx_i2c_send. rewrite (proj2 (Z.eqb_neq (zlen buf) 0)) by lia. dev_step.
  eapply does_weaken with (P := fun _ s' => pulses s' = pulses s).
  { eapply does_claim; [by split|by intros ? []|by intros ? ? []]. }
  intros ok s1 Hp. destruct ok; cbn [negb]; [|by apply does_ret; rewrite Hp].
  assert (Hs1 : Dev (idev s1) (pulses s) s1) by done. do 3 dev_step.
  eapply does_weaken; [eapply does_transaction with (P := Sending) (key := send_key);
    [apply intr_sending|apply Sending_pos|apply (zlen_nonneg buf)|eassumption|done|]|].
  { intros m b Hb. split; dev_cbn; [done..|]. split; [lia|]. by left. }
  cbv beta. intros _ s3 Hw. dev_step. eapply does_weaken; [exact Hw|].
  intros _ s4 (d & Hs4 & Hk & Hend). do 2 dev_step. injection Hk as _ Hst. unfold constant in Hst.
  destruct Hend as [Hend|(m & Hend)].
  2: { rewrite (snd_status _ _ Hend). dev_step. eapply does_log; [eassumption|intros s5 [_ Hp5]]. dev_step.
       rewrite Hp5. split_and!; [done..|lia]. }
  unfold ended in Hend. rewrite Hst in Hend. destruct (transaction_status d); [done| |].
  - dev_step. destruct Hs4 as [-> ->]. split_and!; [done..|lia].
  - dev_step. eapply does_log; [eassumption|intros s6 H6]. dev_step.
    eapply does_reset; [eassumption|intros s5 [Hd5 Hp5]]. dev_step.
    rewrite Hd5, Hp5. split_and!; [|by destruct Hend as [->| ->]|lia]. by destruct Hend as [->| ->].
Qed.
Lemma recv_total buf stop s :
  0 < zlen buf < 2 ^ 32 ->
  does (imx_i2c_recv buf stop) s (fun r s' =>
    zlen r.2 = zlen buf /\ left_as stop r.1 (bus_state (idev s')) /\ (pulses s' <= pulses s)%nat).
Proof.
  intros Hlen. unfold imx_i2c_recv. rewrite (proj2 (Z.eqb_neq (zlen buf) 0)) by lia. dev_step.
  eapply does_weaken with (P := fun _ s' => pulses s' = pulses s).
  { eapply does_claim; [by split|by intros ? []|by intros ? ? []]. }
  intros ok s1 Hp. destruct ok; cbn [negb]; [|by apply does_ret; rewrite Hp].
  assert (Hs1 : Dev (idev s1) (pulses s) s1) by done. do 3 dev_step.
  eapply does_ctl_or; [eassumption|intros s2 H2]. dev_step.
  eapply does_weaken; [eapply does_transaction with (P := Receiving) (key := recv_key);
    [apply intr_receiving|apply Receiving_pos|apply (zlen_nonneg buf)|eassumption|done|]|].
  { intros m b Hb. split; dev_cbn; [done..|]. split; [lia|]. by left. }
  cbv beta. intros _ s3 Hw. dev_step. eapply does_weaken; [exact Hw|].
  intros _ s4 (d & Hs4 & Hk & Hend). do 2 dev_step. injection Hk as Hz Hst. unfold constant in Hz. unfold constant in Hst.
  destruct Hend as [Hend|(m & Hend)].
  2: { rewrite (rcv_status _ _ Hend). dev_step. eapply does_log; [eassumption|intros s5 H5]. repeat dev_step.
       match goal with H : Dev _ _ ?s1 |- context [pulses ?s1] => destruct H as [-> ->] end. split_and!; [done..|lia]. }
  unfold ended in Hend. rewrite Hst in Hend. destruct (transaction_status d); [done| |].
  - dev_step. destruct Hs4 as [-> ->]. split_and!; [done..|lia].
  - dev_step. eapply does_log; [eassumption|intros s6 H6]. dev_step.
    eapply does_reset; [eassumption|intros s5 [Hd5 Hp5]]. dev_step.
    rewrite Hd5, Hp5. split_and!; [|by destruct Hend as [->| ->]|lia]. by destruct Hend as [->| ->].
Qed.
(** C40.  CX.  With any controller, any interrupts while it waits and whatever the structure and the channel hold before, a
    call of sending or receiving returns, for any buffer of less than 4G: no access leaves a buffer, no more
    interrupts are served than the fuel of the wait, and no more pulses are on the channel than before. The status is done, no
    acknowledge, arbitration lost, busy or, of receiving, error. After success the state of the bus is the one that was asked
    for, after an error it is stopped; after busy, which is also what a call reports that has given up waiting for its own
    transfer, nothing is known of it. *)
Theorem i2c_returns buf stop s :
  zlen buf < 2 ^ 32 ->
  (exists st s', imx_i2c_send buf stop s = Ok (st, s') /\ st <> I2C_STATUS_ERROR /\
     (pulses s' <= pulses s)%nat /\ (buf <> [] -> left_as stop st (bus_state (idev s')))) /\
  (exists st buf' s', imx_i2c_recv buf stop s = Ok ((st, buf'), s') /\ zlen buf' = zlen buf /\
     (pulses s' <= pulses s)%nat /\ (buf <> [] -> left_as stop st (bus_state (idev s')))).
Proof.
  intros Hlen. destruct buf as [|b buf].
  { split; [eexists _, s|eexists _, _, s]; (split; [reflexivity|]); by split_and!. }
  assert (0 < zlen (b :: buf) < 2 ^ 32) as Hl by (rewrite zlen_cons in *; pose proof (zlen_nonneg buf); lia).
  split.
  - destruct (does_run _ _ _ (send_total _ stop s Hl)) as (st & s' & -> & ? & ? & ?). by exists st, s'.
  - destruct (does_run _ _ _ (recv_total _ stop s Hl)) as ([st l] & s' & -> & ? & ? & ?). by exists st, l, s'.
Qed.
End Total.
