(* ===== verification/I2cXfer.v ===== *)
(** * I2cXfer: the I2C driver on a bus (i2c/imx).

    [I2cSlaves] is the bus as the other side of it: what start and stop conditions do, whether a byte
    sent is acknowledged, which byte is received.  [I2cLaws] is what the reference manual says of the
    controller that connects the driver with it: a byte written is sent, reading the data register
    starts the next one, an interrupt comes at the end of each, and the bus stays busy for some reads
    of the status after a stop.  From it sending and receiving are the transfers of the specification
    ([send_spec], [recv_spec]), for slaves with 7-bit addresses. *)

From coqutil Require Import Datatypes.RecordSetters.
From S2P Require Import Prelude.
From S2P Require Import I2c.
From S2P Require Import I2cBus.

(** ** The bus *)

Class I2cSlaves (B : Type) := {
  b_start : B -> B;
  b_stop : B -> B;
  b_send : Z -> B -> bool * B;
  b_recv : bool -> B -> Z * B
}.

Section Spec.
Context {B : Type} `{I2cSlaves B}.

(** Bytes are sent until one is not acknowledged; all bytes received but the last are acknowledged. *)
Fixpoint write_all (bs : list Z) (bus : B) : bool * B :=
  match bs with
  | [] => (true, bus)
  | b :: bs => let '(ack, bus) := b_send b bus in if ack then write_all bs bus else (false, bus)
  end.
Fixpoint read_n (n : nat) (bus : B) : list Z * B :=
  match n with
  | O => ([], bus)
  | S n =>
      let '(v, bus) := b_recv (negb (n =? 0)%nat) bus in
      let '(l, bus) := read_n n bus in (Z.land v 0xff :: l, bus)
  end.

(** A transfer: the slave's address, then the bytes; a stop condition if it is asked for, and after an address or
    byte that is not acknowledged. *)
Definition end_of (stop : Z) (bus : B) : B := if negb (stop =? 0) then b_stop bus else bus.
Definition send_spec (addr : Z) (buf : list Z) (stop : Z) (bus : B) : i2c_status_t * B :=
  let '(ack, bus) := write_all (2 * addr :: buf) (b_start bus) in
  if ack then (I2C_STATUS_DONE, end_of stop bus) else (I2C_STATUS_NACK, b_stop bus).
Definition recv_spec (addr : Z) (buf : list Z) (stop : Z) (bus : B) : i2c_status_t * list Z * B :=
  let '(ack, bus) := b_send (2 * addr + 1) (b_start bus) in
  if ack then let '(l, bus) := read_n (length buf) bus in (I2C_STATUS_DONE, l, end_of stop bus)
  else (I2C_STATUS_NACK, buf, b_stop bus).

(** ** The controller *)

(** The control register; the byte that is being sent or received; whether the last byte sent was not acknowledged; the
    last one received; the reads of the status for which the bus is still busy after a stop; the time left of the wait
    that is armed; the bus. *)
Record view := View {
  v_ctl : Z; v_run : option (option Z); v_nak : bool; v_data : Z; v_busy : nat; v_left : Z; v_bus : B
}.

Definition master (c : Z) : bool := has_bit c CTRREG_MSTA.

(** The control register is written: becoming master is a start condition, as is the repeat bit, which reads as zero;
    becoming slave is a stop condition, after which the bus is busy for [k] reads. *)
Definition ctl_ok (c : Z) (v : view) : bool :=
  (0 <=? c) && (c <? 256) && match v_run v with None => true | Some _ => false end
  && (if negb (master (v_ctl v)) && master c then (v_busy v =? 0)%nat else true).
Definition ctl_out (c : Z) (k : nat) (v : view) : view :=
  let was := master (v_ctl v) in
  {| v_ctl := Z.ldiff c CTRREG_RSTA; v_run := v_run v; v_nak := v_nak v; v_data := v_data v; v_left := v_left v;
     v_busy := if was && negb (master c) then k else v_busy v;
     v_bus := if was then
                if negb (master c) then b_stop (v_bus v)
                else if has_bit c CTRREG_RSTA then b_start (v_bus v) else v_bus v
              else if master c then b_start (v_bus v) else v_bus v |}.

(** The data register is written, or read. *)
Definition data_ok (b : Z) (v : view) : bool :=
  (0 <=? b) && (b <? 256) && master (v_ctl v) && has_bit (v_ctl v) CTRREG_MTX
  && match v_run v with None => true | Some _ => false end.
Definition with_run (x : option (option Z)) (v : view) : view :=
  {| v_ctl := v_ctl v; v_run := x; v_nak := v_nak v; v_data := v_data v; v_busy := v_busy v; v_left := v_left v;
     v_bus := v_bus v |}.
Definition data_in (v : view) : view :=
  if master (v_ctl v) && negb (has_bit (v_ctl v) CTRREG_MTX) then with_run (Some None) v else v.

(** A read of the status register. *)
Definition polled (v : view) : view :=
  {| v_ctl := v_ctl v; v_run := v_run v; v_nak := v_nak v; v_data := v_data v; v_busy := pred (v_busy v);
     v_left := v_left v; v_bus := v_bus v |}.
Definition status_ok (s : Z) (v : view) : Prop :=
  has_bit s STSREG_IAL = false /\ has_bit s STSREG_RXAK = v_nak v /\
  has_bit s STSREG_IBB = master (v_ctl v) || negb (v_busy v =? 0)%nat.

Definition with_left (t : Z) (v : view) : view :=
  {| v_ctl := v_ctl v; v_run := v_run v; v_nak := v_nak v; v_data := v_data v; v_busy := v_busy v; v_left := t;
     v_bus := v_bus v |}.

(** The byte under way is done. *)
Definition byte_done (x : option Z) (v : view) : view :=
  match x with
  | Some b =>
      let '(ack, bus) := b_send b (v_bus v) in
      {| v_ctl := v_ctl v; v_run := None; v_nak := negb ack; v_data := v_data v; v_busy := v_busy v;
         v_left := v_left v; v_bus := bus |}
  | None =>
      let '(b, bus) := b_recv (negb (has_bit (v_ctl v) CTRREG_TXAK)) (v_bus v) in
      {| v_ctl := v_ctl v; v_run := None; v_nak := v_nak v; v_data := b; v_busy := v_busy v; v_left := v_left v;
         v_bus := bus |}
  end.
End Spec.
Arguments view B : clear implicits.

(** What the controller is documented to do while its driver is the only master: a byte takes no longer than [byte_ns],
    the end of a stop condition no more than [stop_polls] reads of the status. *)
Class I2cLaws (R B : Type) `{I2cDevice R, I2cSlaves B} := {
  i2c_view : R -> view B;
  byte_ns : Z;
  stop_polls : nat;
  byte_ns_pos : 0 < byte_ns;
  law_ctl_in g : (in16 IMX_I2C_CTRREG_OFF g).1 = v_ctl (i2c_view g) /\
                 i2c_view (in16 IMX_I2C_CTRREG_OFF g).2 = i2c_view g;
  law_ctl_out c g : ctl_ok c (i2c_view g) = true ->
    exists k, (k <= stop_polls)%nat /\ i2c_view (out16 IMX_I2C_CTRREG_OFF c g) = ctl_out c k (i2c_view g);
  law_status_in g : status_ok (in16 IMX_I2C_STSREG_OFF g).1 (i2c_view g) /\
                    i2c_view (in16 IMX_I2C_STSREG_OFF g).2 = polled (i2c_view g);
  law_status_out g : i2c_view (out16 IMX_I2C_STSREG_OFF 0 g) = i2c_view g;
  law_freq_out c g : i2c_view (out16 IMX_I2C_FRQREG_OFF c g) = i2c_view g;
  law_data_out b g : data_ok b (i2c_view g) = true ->
    i2c_view (out16 IMX_I2C_DATREG_OFF b g) = with_run (Some (Some b)) (i2c_view g);
  law_data_in g : v_run (i2c_view g) = None ->
    (in16 IMX_I2C_DATREG_OFF g).1 = v_data (i2c_view g) /\
    i2c_view (in16 IMX_I2C_DATREG_OFF g).2 = data_in (i2c_view g);
  law_timer t g : i2c_view (TimerTimeout t g) = with_left t (i2c_view g);
  law_irq x g : v_run (i2c_view g) = Some x -> byte_ns <= v_left (i2c_view g) ->
    exists t, v_left (i2c_view g) - byte_ns <= t /\ (next_irq g).1 = true /\
      i2c_view (next_irq g).2 = with_left t (byte_done x (i2c_view g))
}.

(** ** The steps of the driver, with the controller *)

Section Steps.
Context {R B : Type} `{I2cLaws R B}.
Implicit Types (s : i2c R) (v : view B).

(** The driver's structure, no pulse waiting, the controller. *)
Definition At (d : imx_dev) v s : Prop := idev s = d /\ pulses s = 0%nat /\ i2c_view (regs s) = v.

Lemma at_get d v s (Q : imx_dev -> i2c R -> Prop) : At d v s -> Q d s -> does get s Q.
Proof. by intros [<- _]. Qed.
Lemma at_modify f d v s (Q : unit -> i2c R -> Prop) :
  At d v s -> (forall s', At (f d) v s' -> Q tt s') -> does (modify f) s Q.
Proof. intros (<- & ? & ?) HQ. by apply HQ. Qed.

Lemma at_in r d v v' s (Q : Z -> i2c R -> Prop) :
  At d v s -> i2c_view (in16 r (regs s)).2 = v' ->
  (forall s', At d v' s' -> Q (in16 r (regs s)).1 s') -> does (in_ r) s Q.
Proof.
  intros (<- & ? & ?) Hv HQ. unfold does, in_, on_regs. destruct (in16 r (regs s)) as [x g]. by apply HQ.
Qed.
Lemma at_out r x d v v' s (Q : unit -> i2c R -> Prop) :
  At d v s -> i2c_view (out16 r (u16 x) (regs s)) = v' ->
  (forall s', At d v' s' -> Q tt s') -> does (out r x) s Q.
Proof. intros (<- & ? & ?) Hv HQ. by apply HQ. Qed.

Lemma at_ctl_in d v s (Q : Z -> i2c R -> Prop) :
  At d v s -> (forall s', At d v s' -> Q (v_ctl v) s') -> does (in_ IMX_I2C_CTRREG_OFF) s Q.
Proof.
  intros Hs HQ. destruct (law_ctl_in (regs s)) as [Hx Hv]. pose proof Hs as (_ & _ & E). rewrite E in Hx, Hv.
  eapply at_in; [done..|]. intros s' Hs'. rewrite Hx. auto.
Qed.
Lemma at_ctl_out x d v s (Q : unit -> i2c R -> Prop) :
  At d v s -> ctl_ok (u16 x) v = true ->
  (forall k s', (k <= stop_polls)%nat -> At d (ctl_out (u16 x) k v) s' -> Q tt s') ->
  does (out IMX_I2C_CTRREG_OFF x) s Q.
Proof.
  intros Hs Hok HQ. pose proof Hs as (_ & _ & E). rewrite <- E in Hok.
  destruct (law_ctl_out _ _ Hok) as (k & Hk & Hv). rewrite E in Hv. eapply at_out; [done..|]. intros s'. by apply HQ.
Qed.
Lemma at_status_in d v s (Q : Z -> i2c R -> Prop) :
  At d v s -> (forall x s', status_ok x v -> At d (polled v) s' -> Q x s') -> does (in_ IMX_I2C_STSREG_OFF) s Q.
Proof.
  intros Hs HQ. destruct (law_status_in (regs s)) as [Hx Hv]. pose proof Hs as (_ & _ & E). rewrite E in Hx, Hv.
  eapply at_in; [done..|]. intros s'. by apply HQ.
Qed.
Lemma at_status_out d v s (Q : unit -> i2c R -> Prop) :
  At d v s -> (forall s', At d v s' -> Q tt s') -> does (out IMX_I2C_STSREG_OFF 0) s Q.
Proof. intros Hs HQ. pose proof Hs as (_ & _ & E). eapply at_out; [done|by rewrite law_status_out|done]. Qed.
Lemma at_freq_out x d v s (Q : unit -> i2c R -> Prop) :
  At d v s -> (forall s', At d v s' -> Q tt s') -> does (out IMX_I2C_FRQREG_OFF x) s Q.
Proof. intros Hs HQ. pose proof Hs as (_ & _ & E). eapply at_out; [done|by rewrite law_freq_out|done]. Qed.
Lemma at_data_out x d v s (Q : unit -> i2c R -> Prop) :
  At d v s -> data_ok (u16 x) v = true ->
  (forall s', At d (with_run (Some (Some (u16 x))) v) s' -> Q tt s') -> does (out IMX_I2C_DATREG_OFF x) s Q.
Proof.
  intros Hs Hok HQ. pose proof Hs as (_ & _ & E). rewrite <- E in Hok.
  eapply at_out; [done|by rewrite law_data_out, E|done].
Qed.
Lemma at_data_in d v s (Q : Z -> i2c R -> Prop) :
  At d v s -> v_run v = None -> (forall s', At d (data_in v) s' -> Q (v_data v) s') ->
  does (in_ IMX_I2C_DATREG_OFF) s Q.
Proof.
  intros Hs Hr HQ. pose proof Hs as (_ & _ & E). rewrite <- E in Hr.
  destruct (law_data_in _ Hr) as [Hx Hv]. rewrite E in Hx, Hv. eapply at_in; [done..|]. intros s' Hs'. rewrite Hx. auto.
Qed.

(** An interrupt is waited for: the handler gives its event and the wait ends, or it goes on. *)
Lemma at_wait k d v x s (Q : unit -> i2c R -> Prop) :
  At d v s -> v_run v = Some x -> byte_ns <= v_left v ->
  (forall t s', v_left v - byte_ns <= t -> At d (with_left t (byte_done x v)) s' ->
     does imx_i2c_intr s' (fun e s'' => pulses s'' = 0%nat /\
       if e then Q tt s'' else does (MsgReceivePulse k) s'' Q)) ->
  does (MsgReceivePulse (S k)) s Q.
Proof.
  intros (Hd & Hn & E) Hr Hl HQ. rewrite <- E in Hr, Hl. destruct (law_irq x _ Hr Hl) as (t & Ht & Hi & Hv).
  rewrite E in Hv, Ht. unfold does. cbn [MsgReceivePulse]. rewrite Hn. unfold on_regs, mbind, M_bind.
  destruct (next_irq (regs s)) as [irq g]. cbn in Hi, Hv. subst irq.
  specialize (HQ t {| idev := idev s; pulses := 0; trace := trace s; regs := g |} Ht ltac:(done)).
  unfold does in HQ. unfold interrupt, deliver, mbind, M_bind. rewrite Hn.
  destruct (imx_i2c_intr _) as [[[] s2]|]; [| |done]; destruct HQ as [Hz HQ].
  - destruct s2 as [? n2 ? ?]. cbn in Hz. subst n2. by destruct k.
  - by destruct s2.
Qed.
End Steps.

(** Compute the view of the controller in the hypotheses. *)
Ltac view_cbn :=
  repeat match goal with
  | H : At ?d ?v ?s |- _ =>
      let v' :=
        lazymatch v with
        | View _ _ _ _ _ _ _ => fail
        | ctl_out _ _ _ => eval cbv -[b_start b_stop b_send b_recv] in v
        | data_in _ => eval cbv -[b_start b_stop b_send b_recv] in v
        | _ => let v' := eval cbv beta delta [polled with_run with_left byte_done] in v in eval cbn in v'
        end in
      progress change (At d v' s) in H
  end; cbn [v_ctl v_run v_nak v_data v_busy v_left v_bus] in *.
Ltac at_step :=
  lazymatch goal with
  | |- does (mbind _ _) _ _ => apply does_bind
  | |- does (mret _) _ _ => apply does_ret
  | |- does get _ _ => eapply at_get; [eassumption|]
  | |- does (in_ IMX_I2C_CTRREG_OFF) _ _ => eapply at_ctl_in; [eassumption|intros ? ?]
  | |- does (in_ IMX_I2C_STSREG_OFF) _ _ => eapply at_status_in; [eassumption|intros ? ? (? & ? & ?) ?]
  | |- does (in_ IMX_I2C_DATREG_OFF) _ _ => eapply at_data_in; [eassumption|reflexivity|intros ? ?]
  | |- does (out IMX_I2C_CTRREG_OFF _) _ _ => eapply at_ctl_out; [eassumption|reflexivity|intros ? ? ? ?]
  | |- does (out IMX_I2C_STSREG_OFF _) _ _ => eapply at_status_out; [eassumption|intros ? ?]
  | |- does (out IMX_I2C_FRQREG_OFF _) _ _ => eapply at_freq_out; [eassumption|intros ? ?]
  | |- does (out IMX_I2C_DATREG_OFF _) _ _ => eapply at_data_out; [eassumption| |intros ? ?]
  | |- does (ctl _) _ _ => unfold ctl; at_step
  | |- does (modify _) _ _ => eapply at_modify; [eassumption|intros ? ?]
  | |- does (set_state _) _ _ => unfold set_state; at_step
  | |- does (complete _) _ _ => unfold complete; at_step
  | |- does (fail_with _) _ _ => unfold fail_with; at_step
  end; cbv beta zeta; view_cbn.

(** The structure at the end. *)
Ltac at_end :=
  match goal with H : At ?d _ ?s |- context [?s] => exists d end.

(** ** The interrupts of a transaction *)

Section Interrupts.
Context {R B : Type} `{I2cLaws R B}.
Implicit Types (s : i2c R) (bus : B).

(** What a transaction does not change of the structure. *)
Definition same_setup (d d' : imx_dev) : Prop :=
  slave_addr d' = slave_addr d /\ slave_addr_fmt d' = slave_addr_fmt d /\ stop_req d' = stop_req d /\
  slave_timeout_multiplier d' = slave_timeout_multiplier d /\ bus_busy_timeout d' = bus_busy_timeout d.

(** Values of the control register: master, and sending or between transactions; not master. *)
Definition held (c : Z) : Prop := c = 0xF0 \/ c = 0xF8.
Definition idle (c : Z) : Prop := c = 0xC0 \/ c = 0xD8.

(** The transaction that sends is before the bytes [todo]. *)
Record SendAt (d : imx_dev) (todo : list Z) : Prop := {
  sa_trans : transaction d = MASTER_SEND;
  sa_len : tx_buf_len d = zlen (tx_buf d) /\ tx_buf_len d < 2 ^ 32 /\ Forall (fun b => 0 <= b < 256) (tx_buf d);
  sa_state : bus_state d = TX_ADDR_7BIT \/ bus_state d = TX_DATA;
  sa_todo : 0 <= tx_buf_idx d <= tx_buf_len d /\ drop (Z.to_nat (tx_buf_idx d)) (tx_buf d) = todo
}.

(** It has failed, or it is complete. *)
Definition refused (d : imx_dev) : Prop :=
  transaction_status d = I2C_TRANSACTION_FAILED /\ transaction_error d = I2C_STATUS_NACK.
Definition completed (d : imx_dev) : Prop :=
  transaction_status d = I2C_TRANSACTION_COMPLETE /\ bus_state d = after_transaction (stop_req d).

(** The controller between transactions: no byte is under way. *)
Definition Between (P : Z -> nat -> Prop) (bus : B) (d : imx_dev) s : Prop :=
  exists c nak data k left, P c k /\ At d (View c None nak data k left bus) s.
Definition stopped_ctl (c : Z) (k : nat) : Prop := idle c /\ (k <= stop_polls)%nat.
Definition held_ctl (c : Z) (k : nat) : Prop := held c /\ k = 0%nat.
Definition off_ctl (c : Z) (k : nat) : Prop := c = 0xC0 /\ (k <= stop_polls)%nat.
Definition ctl_after (stop : Z) : Z -> nat -> Prop := if negb (stop =? 0) then stopped_ctl else held_ctl.

Definition after_send_intr (d : imx_dev) (todo : list Z) (c : Z) (nak : bool) data left bus (e : bool) s : Prop :=
  exists d', same_setup d d' /\
    if nak then e = true /\ refused d' /\ Between off_ctl (b_stop bus) d' s
    else
      match todo with
      | [] => e = true /\ completed d' /\ Between (ctl_after (stop_req d)) (end_of (stop_req d) bus) d' s
      | b :: todo => e = false /\ SendAt d' todo /\ At d' (View c (Some (Some b)) nak data 0 left bus) s
      end.

Lemma drop_cons_inv {A} (l : list A) n x l' : drop n l = x :: l' -> l !! n = Some x /\ drop (S n) l = l'.
Proof.
  intros E. assert (l !! n = Some x) as Hx by (rewrite <- (Nat.add_0_r n), <- lookup_drop, E; done).
  split; [done|]. apply drop_S in Hx. congruence.
Qed.

Lemma between_intro (P : Z -> nat -> Prop) bus d s c nak data k left :
  At d (View c None nak data k left bus) s -> P c k -> Between P bus d s.
Proof. intros. by exists c, nak, data, k, left. Qed.

Lemma intr_tx_at d todo c data left bus s :
  SendAt d todo -> bus_state d = TX_DATA -> held c -> At d (View c None false data 0 left bus) s ->
  does intr_tx s (after_send_intr d todo c false data left bus).
Proof.
  intros [Ht (Hl & Hl0 & Hb) _ [Hi Htodo]] Hst Hc Hs. unfold intr_tx. repeat at_step.
  destruct todo as [|b todo].
  - apply (f_equal length) in Htodo. rewrite length_drop in Htodo. cbn in Htodo. unfold zlen in Hl.
    rewrite (proj2 (Z.ltb_ge _ _)) by lia. unfold after_send_intr, completed, ctl_after, end_of, after_transaction.
    at_step. apply does_if; intros Hstop; rewrite Hstop.
    + destruct Hc as [-> | ->]; repeat at_step; at_end; (split; [done|]); (split; [done|]);
        rewrite ?Hstop; (split; [split; dev_cbn; [done|by rewrite Hstop]|]); 
        (eapply between_intro; [eassumption|by split; [left|]]).
    + repeat at_step. at_end. split; [done|]. split; [done|]. rewrite ?Hstop. split; [split; dev_cbn; [done|by rewrite Hstop]|].
      by eapply between_intro.
  - apply drop_cons_inv in Htodo as [Hbi Htodo]. pose proof (lookup_lt_Some _ _ _ Hbi) as Hlt.
    pose proof (proj1 (Forall_lookup _ _) Hb _ _ Hbi) as Hbr. cbv beta in Hbr. unfold zlen in Hl.
    rewrite (proj2 (Z.ltb_lt _ _)) by lia. unfold byte_at. rewrite (proj2 (Z.ltb_ge _ _)) by lia. rewrite Hbi.
    at_step. apply does_lift.
    assert (u16 b = b) as Eb by (apply wrap_id; unfold fits; lia).
    at_step. at_step.
    { rewrite Eb. destruct Hc as [-> | ->]; unfold data_ok; cbn.
      all: by rewrite (proj2 (Z.leb_le _ _)), (proj2 (Z.ltb_lt _ _)) by lia. }
    repeat at_step. at_end. split; [done|]. split; [done|]. split; [|rewrite <- Eb at 1; eassumption].
    split; dev_cbn; [done..|by right|]. rewrite wrap_id by (unfold fits; lia). split; [lia|].
    by replace (Z.to_nat (tx_buf_idx d + 1)) with (S (Z.to_nat (tx_buf_idx d))) by lia.
Qed.

Lemma intr_send d todo c nak data left bus s :
  SendAt d todo -> held c -> At d (View c None nak data 0 left bus) s ->
  does imx_i2c_intr s (after_send_intr d todo c nak data left bus).
Proof.
  intros Hd Hc Hs. unfold imx_i2c_intr. do 2 at_step.
  match goal with H : At ?d' _ _ |- _ => assert (Hd' : SendAt d' todo) by (by destruct Hd; split);
    set (d1 := d') in * end.
  change (after_send_intr d) with (after_send_intr d1). clearbody d1. clear d Hd Hs s.
  pose proof Hd' as [Ht _ Hst _]. at_step.
  eapply at_status_in; [eassumption|intros x s1 (Hal & Hak & _) Hs1]. view_cbn. repeat at_step. rewrite Hal, Hak.
  destruct nak.
  { assert (checks_ack (bus_state d1) = true) as -> by (by destruct Hst as [-> | ->]).
    destruct Hc as [-> | ->]; cbn [andb]; repeat at_step; at_end; (split; [done|]); (split; [done|]);
      (split; [done|]); by eapply between_intro. }
  rewrite andb_false_r. destruct Hst as [Hst|Hst]; rewrite ?Ht, Hst; decide_bools; cbn [andb orb]; repeat at_step;
    rewrite ?Hst; decide_bools.
  - match goal with H : At ?d' _ _ |- does _ ?s _ => change (after_send_intr d1) with (after_send_intr d') end.
    apply intr_tx_at; [|done..]. destruct Hd'. split; dev_cbn; auto.
  - by apply intr_tx_at.
Qed.
(** The transaction that receives has its address on the bus, or [n] bytes to come. *)
Record RecvAt (d : imx_dev) (b : i2c_state_e) (n : nat) : Prop := {
  ra_trans : transaction d = MASTER_RECEIVE;
  ra_len : rx_buf_len d = zlen (rx_buf d) /\ rx_buf_len d < 2 ^ 32;
  ra_state : bus_state d = b;
  ra_left : 0 <= rx_buf_idx d /\ rx_buf_len d = rx_buf_idx d + Z.of_nat n
}.
Definition recv_ctl (n : nat) : Z := if (n =? 1)%nat then 0xE8 else 0xE0.

Definition after_address_intr (d : imx_dev) (n : nat) (nak : bool) data left bus (e : bool) s : Prop :=
  exists d', same_setup d d' /\ rx_buf d' = rx_buf d /\ rx_buf_idx d' = rx_buf_idx d /\
    if nak then e = true /\ refused d' /\ Between off_ctl (b_stop bus) d' s
    else e = false /\ RecvAt d' RX_DATA n /\ At d' (View (recv_ctl n) (Some None) nak data 0 left bus) s.

Lemma intr_address d n c nak data left bus s :
  RecvAt d TX_ADDR_7BIT n -> rx_buf_idx d = 0 -> held c -> At d (View c None nak data 0 left bus) s ->
  does imx_i2c_intr s (after_address_intr d n nak data left bus).
Proof.
  intros Hd Hi Hc Hs. unfold imx_i2c_intr. do 2 at_step.
  match goal with H : At ?d' _ _ |- _ => assert (Hd' : RecvAt d' TX_ADDR_7BIT n) by (by destruct Hd; split);
    assert (Hi' : rx_buf_idx d' = 0) by done; set (d1 := d') in * end.
  change (after_address_intr d) with (after_address_intr d1). clearbody d1. clear d Hd Hi Hs s.
  destruct Hd' as [Ht [Hl Hl0] Hst [_ Hn]]. at_step.
  eapply at_status_in; [eassumption|intros x s1 (Hal & Hak & _) Hs1]. view_cbn. repeat at_step. rewrite Hal, Hak, Hst.
  destruct nak.
  { change (checks_ack TX_ADDR_7BIT) with true. destruct Hc as [-> | ->]; cbn [andb]; repeat at_step; at_end;
      (split; [done|]); (split; [done|]); (split; [done|]); (split; [done|]); (split; [done|]); by eapply between_intro. }
  rewrite andb_false_r, Ht. decide_bools. cbn [andb orb]. rewrite Hi' in Hn. unfold after_address_intr, recv_ctl.
  destruct (Z.eqb_spec (rx_buf_len d1) 1) as [E|E].
  1: rewrite (proj2 (Nat.eqb_eq n 1)) by lia. 2: rewrite (proj2 (Nat.eqb_neq n 1)) by lia.
  all: destruct Hc as [-> | ->]; repeat at_step; at_end; split_and!; try done; split; dev_cbn; done || lia.
Qed.

(** A byte has come. *)
Definition after_byte_intr (d : imx_dev) (n : nat) nak v left bus (e : bool) s : Prop :=
  exists d', same_setup d d' /\ rx_buf d' = <[Z.to_nat (rx_buf_idx d) := Z.land v 0xff]> (rx_buf d) /\
    match n with
    | O => e = true /\ completed d' /\ Between (ctl_after (stop_req d)) (end_of (stop_req d) bus) d' s
    | S _ => e = false /\ rx_buf_idx d' = rx_buf_idx d + 1 /\ RecvAt d' RX_DATA n /\
             At d' (View (recv_ctl n) (Some None) nak v 0 left bus) s
    end.

Lemma at_store i x d v s (Q : unit -> i2c R -> Prop) :
  0 <= i < zlen (rx_buf d) -> At d v s ->
  (forall s', At (d <| rx_buf := <[Z.to_nat i := x]> (rx_buf d) |>) v s' -> Q tt s') -> does (store_rx i x) s Q.
Proof.
  intros Hi Hs HQ. unfold store_rx. destruct (byte_at_in _ _ Hi) as (b & Hb & _).
  at_step. at_step. at_step. rewrite Hb. apply does_lift. eapply at_modify; [done|]. done.
Qed.

Ltac at_store_step :=
  repeat at_step; eapply at_store; [|eassumption|intros ? ?]; [dev_cbn; lia|]; repeat at_step; at_end;
  split; [done|]; split; [done|].
Ltac wrap_lia := dev_cbn; rewrite ?wrap_id by (unfold fits; lia); rewrite ?Z.eqb_eq, ?Z.eqb_neq; done || lia.

Lemma intr_rx_at d n nak v left bus s :
  RecvAt d RX_DATA (S n) -> At d (View (recv_ctl (S n)) None nak v 0 left bus) s ->
  does intr_rx s (after_byte_intr d n nak v left bus).
Proof.
  intros [Ht [Hl Hl0] Hst [Hi Hn]] Hs. unfold intr_rx. repeat at_step.
  rewrite (wrap_id 32 (rx_buf_len d - 1)) by (unfold fits; lia). destruct n as [|n].
  - rewrite (proj2 (Z.eqb_eq _ _)) by lia. at_step. unfold after_byte_intr, completed, ctl_after, end_of, after_transaction.
    change (recv_ctl 1) with 0xE8 in Hs.
    apply does_if; intros Hstop; rewrite Hstop; at_store_step; (split; [wrap_lia|]);
      (split; [split; dev_cbn; [done|by rewrite Hstop]|]); (eapply between_intro; [eassumption|by split; [right|]]).
  - rewrite (proj2 (Z.eqb_neq _ _)) by lia. rewrite (wrap_id 32 (rx_buf_len d - 2)) by (unfold fits; lia).
    change (recv_ctl (S (S n))) with 0xE0 in Hs. unfold after_byte_intr, recv_ctl.
    destruct (Z.eqb_spec (rx_buf_idx d) (rx_buf_len d - 2)) as [E|E].
    1: rewrite (proj2 (Nat.eqb_eq (S n) 1)) by lia. 2: rewrite (proj2 (Nat.eqb_neq (S n) 1)) by lia.
    all: at_store_step; (split; [wrap_lia|]); (split; [wrap_lia|]); (split; [|eassumption]).
    all: split; [done| |done|]; [dev_cbn; unfold zlen in *; by rewrite length_insert|]; split; wrap_lia.
Qed.

Lemma intr_byte d n nak v left bus s :
  RecvAt d RX_DATA (S n) -> At d (View (recv_ctl (S n)) None nak v 0 left bus) s ->
  does imx_i2c_intr s (after_byte_intr d n nak v left bus).
Proof.
  intros Hd Hs. unfold imx_i2c_intr. do 2 at_step.
  match goal with H : At ?d' _ _ |- _ => assert (Hd' : RecvAt d' RX_DATA (S n)) by (by destruct Hd; split);
    set (d1 := d') in * end.
  change (after_byte_intr d) with (after_byte_intr d1). clearbody d1. clear d Hd Hs s.
  pose proof Hd' as [Ht _ Hst _]. at_step.
  eapply at_status_in; [eassumption|intros x s1 (Hal & Hak & _) Hs1]. view_cbn. repeat at_step. rewrite Hal, Hst.
  change (checks_ack RX_DATA) with false. decide_bools. cbn [andb orb]. repeat at_step. rewrite Hst. decide_bools.
  by apply intr_rx_at.
Qed.
End Interrupts.

(** ** A transaction from its address on *)

Section Waits.
Context {R B : Type} `{I2cLaws R B}.
Implicit Types (s : i2c R) (bus : B).

Lemma same_setup_trans d1 d2 d3 : same_setup d1 d2 -> same_setup d2 d3 -> same_setup d1 d3.
Proof. unfold same_setup. intuition congruence. Qed.

(** How the wait for a transaction ends that was acknowledged or not. *)
Definition waited_for (d : imx_dev) (ack : bool) bus s : Prop :=
  exists d', same_setup d d' /\
    if ack then completed d' /\ Between (ctl_after (stop_req d)) (end_of (stop_req d) bus) d' s
    else refused d' /\ Between off_ctl (b_stop bus) d' s.

Lemma waited_for_trans d d' ack bus s : same_setup d d' -> waited_for d' ack bus s -> waited_for d ack bus s.
Proof.
  intros Hset (d2 & Hset2 & Hr). exists d2. split; [by eapply same_setup_trans|].
  destruct Hset as (_ & _ & Hstop & _). by rewrite Hstop in Hr.
Qed.

Lemma wait_send k todo d b c nak data left bus s :
  SendAt d todo -> held c -> (length todo < k)%nat -> byte_ns * (zlen todo + 1) <= left ->
  At d (View c (Some (Some b)) nak data 0 left bus) s ->
  does (MsgReceivePulse k) s (fun _ s' =>
    let '(ack, bus') := write_all (b :: todo) bus in waited_for d ack bus' s').
Proof.
  pose proof byte_ns_pos as Hpos. pose proof (zlen_nonneg todo) as H0t.
  revert todo d b nak data left bus s H0t. induction k as [|k IH]; intros todo d b nak data left bus s H0t Hd Hc Hk Hl Hs;
    [lia|].
  eapply at_wait; [exact Hs|done|cbn; nia|]. cbn [v_left]. intros t s1 Ht Hs1. cbn [write_all].
  cbn in Hs1. destruct (b_send b bus) as [ack bus1]. cbn in Hs1.
  eapply does_weaken; [by eapply intr_send|]. intros e s2 (d' & Hset & He). destruct ack; cbn [negb] in He.
  2: { destruct He as (-> & Href & Hb). split; [by destruct Hb as (?&?&?&?&?&_&_&?&_)|]. by exists d'. }
  destruct todo as [|b' todo].
  { destruct He as (-> & Hc' & Hb). split; [by destruct Hb as (?&?&?&?&?&_&_&?&_)|]. by exists d'. }
  destruct He as (-> & Hd' & Hs2). split; [by destruct Hs2 as (_&?&_)|]. rewrite zlen_cons in *. cbn [length] in Hk.
  eapply does_weaken; [eapply (IH todo d' b'); [apply zlen_nonneg|done|done|lia| |exact Hs2]; nia|].
  intros ? s3. cbv beta. cbn [write_all v_bus]. destruct (b_send b' bus1) as [[] bus2]; [destruct (write_all todo bus2)|];
    by apply waited_for_trans.
Qed.
Lemma take_S_insert (l : list Z) i x :
  (i < length l)%nat -> take (S i) (<[i := x]> l) = take i l ++ [x].
Proof. intros Hi. rewrite (take_S_r _ _ x) by (by rewrite list_lookup_insert_eq). by rewrite take_insert_ge by lia. Qed.

(** The wait for a transaction that receives: the bytes are after those that are there. *)
Definition received (d : imx_dev) (l : list Z) bus s : Prop :=
  exists d', same_setup d d' /\ rx_buf d' = take (Z.to_nat (rx_buf_idx d)) (rx_buf d) ++ l /\ completed d' /\
    Between (ctl_after (stop_req d)) (end_of (stop_req d) bus) d' s.

Lemma wait_recv k n d nak data left bus s :
  RecvAt d RX_DATA (S n) -> (n < k)%nat -> byte_ns * (Z.of_nat n + 1) <= left ->
  At d (View (recv_ctl (S n)) (Some None) nak data 0 left bus) s ->
  does (MsgReceivePulse k) s (fun _ s' => let '(l, bus') := read_n (S n) bus in received d l bus' s').
Proof.
  pose proof byte_ns_pos as Hpos.
  revert n d data left bus s. induction k as [|k IH]; intros n d data left bus s Hd Hk Hl Hs; [lia|].
  eapply at_wait; [exact Hs|done|cbn; nia|]. cbn [v_left]. intros t s1 Ht Hs1.
  assert (negb (has_bit (recv_ctl (S n)) CTRREG_TXAK) = negb (n =? 0)%nat) as Eack by (by destruct n).
  cbn [byte_done v_ctl v_bus v_busy v_nak v_data v_left] in Hs1. rewrite Eack in Hs1. cbn [read_n].
  destruct (b_recv (negb (n =? 0)%nat) bus) as [v bus1]. cbn [with_left v_ctl v_run v_nak v_data v_busy v_left v_bus] in Hs1.
  destruct Hd as [Htr [Hlen Hlen'] Hst [Hi Hn]].
  eapply does_weaken; [by eapply intr_byte|]. intros e s2 (d' & Hset & Hbuf & He).
  cbn [v_data v_bus] in *. assert (Z.to_nat (rx_buf_idx d) < length (rx_buf d))%nat as Hlt by (unfold zlen in *; lia).
  pose proof (take_S_insert _ _ (Z.land v 255) Hlt) as Htake. rewrite <- Hbuf in Htake.
  destruct n as [|n].
  { destruct He as (-> & Hc' & Hb). split; [by destruct Hb as (?&?&?&?&?&_&_&?&_)|]. cbn [read_n].
    exists d'. split_and!; [done| |done|done]. rewrite <- Htake. symmetry. apply take_ge.
    rewrite Hbuf, length_insert. unfold zlen in *. lia. }
  destruct He as (-> & Hi' & Hd' & Hs2). split; [by destruct Hs2 as (_&?&_)|].
  eapply does_weaken; [eapply (IH n d'); [done|lia| |exact Hs2]; nia|].
  intros ? s3. cbv beta. destruct (read_n (S n) bus1) as [l bus2]. intros (d2 & Hset2 & Hbuf2 & Hc2 & Hb2).
  exists d2. rewrite (proj1 (proj2 (proj2 Hset))) in Hb2. split_and!; [by eapply same_setup_trans| |done..].
  rewrite Hbuf2, Hi'. replace (Z.to_nat (rx_buf_idx d + 1)) with (S (Z.to_nat (rx_buf_idx d))) by lia.
  by rewrite Htake, <- app_assoc.
Qed.

Lemma wait_address k n d b c nak data left bus s :
  RecvAt d TX_ADDR_7BIT (S n) -> rx_buf_idx d = 0 -> held c -> (S n < k)%nat -> byte_ns * (Z.of_nat n + 2) <= left ->
  At d (View c (Some (Some b)) nak data 0 left bus) s ->
  does (MsgReceivePulse k) s (fun _ s' =>
    let '(ack, bus') := b_send b bus in
    if ack then let '(l, bus') := read_n (S n) bus' in received d l bus' s'
    else exists d', same_setup d d' /\ rx_buf d' = rx_buf d /\ refused d' /\
           Between off_ctl (b_stop bus') d' s').
Proof.
  pose proof byte_ns_pos as Hpos. intros Hd Hi Hc Hk Hl Hs. destruct k as [|k]; [lia|].
  eapply at_wait; [exact Hs|done|cbn; nia|]. cbn [v_left]. intros t s1 Ht Hs1.
  cbn in Hs1. destruct (b_send b bus) as [ack bus1]. cbn in Hs1.
  eapply does_weaken; [by eapply intr_address|]. intros e s2 (d' & Hset & Hbuf & Hi' & He). cbn [v_bus v_data] in *.
  destruct ack; cbn [negb] in He.
  2: { destruct He as (-> & Href & Hb). split; [by destruct Hb as (?&?&?&?&?&_&_&?&_)|]. by exists d'. }
  destruct He as (-> & Hd' & Hs2). split; [by destruct Hs2 as (_&?&_)|].
  eapply does_weaken; [eapply (wait_recv k n d'); [done|lia| |exact Hs2]; nia|].
  intros ? s3. cbv beta. destruct (read_n (S n) bus1) as [l bus2]. intros (d2 & Hset2 & Hbuf2 & Hc2 & Hb2).
  exists d2. rewrite (proj1 (proj2 (proj2 Hset))) in Hb2. rewrite Hi', Hbuf in Hbuf2.
  split_and!; [by eapply same_setup_trans|done..].
Qed.
End Waits.

(** ** Sending and receiving *)

Section Transfers.
Context {R B : Type} `{I2cLaws R B}.
Implicit Types (s : i2c R) (bus : B).

(** Between transactions: the controller is as the state of the bus says. *)
Definition ready_ctl (b : i2c_state_e) (c : Z) (k : nat) : Prop :=
  match b with STOPPED => stopped_ctl c k | WAIT_RESTART => held_ctl c k | _ => False end.
Definition Ready bus s : Prop := Between (ready_ctl (bus_state (idev s))) bus (idev s) s.

(** The limits of the driver are long enough: a byte takes no longer than the time for it, a stop condition no longer
    than the wait for it. *)
Record Patient (d : imx_dev) (len : Z) : Prop := {
  pt_byte : byte_ns <= slave_timeout_multiplier d /\ slave_timeout_multiplier d * (len + 1) < 2 ^ 64;
  pt_stop : 100 + 2 * Z.of_nat stop_polls <= bus_busy_timeout d * 100 < 2 ^ 64
}.

Lemma at_idle_loop K t d c nak data k left bus s :
  idle c -> 100 + 2 * Z.of_nat k <= t < 2 ^ 64 -> t / 2 <= Z.of_nat K ->
  At d (View c None nak data k left bus) s ->
  does (idle_loop K t) s (fun r s' => r = 0 /\ At d (View c None nak data 0 left bus) s').
Proof.
  intros Hc. revert t k s. induction K as [|K IH]; intros t k s Ht HK Hs; cbn [idle_loop].
  { pose proof (Z.div_mod t 2). pose proof (Z.mod_pos_bound t 2). lia. }
  rewrite (proj2 (Z.ltb_ge _ _)) by lia. at_step. unfold bus_busy. at_step.
  eapply at_status_in; [eassumption|intros x s1 (_ & _ & Hbb) Hs1]. view_cbn. at_step. rewrite Hbb.
  replace (master c) with false by (by destruct Hc as [-> | ->]). destruct k as [|k]; cbn.
  { split; [done|]. exact Hs1. }
  rewrite wrap_id by (unfold fits; lia). eapply IH; [|pose proof (Z.div_mod t 2); pose proof (Z.mod_pos_bound t 2);
    pose proof (Z.div_mod (t - 1 - 1) 2); pose proof (Z.mod_pos_bound (t - 1 - 1) 2); lia|exact Hs1]. lia.
Qed.

Definition claimed_ctl (b : i2c_state_e) (c : Z) (k : nat) : Prop :=
  k = 0%nat /\ match b with STOPPED => idle c | WAIT_RESTART => held c | _ => False end.

Lemma at_claim len bus s :
  Ready bus s -> Patient (idev s) len ->
  does claim_bus s (fun ok s' => ok = true /\ Between (claimed_ctl (bus_state (idev s))) bus (idev s) s').
Proof.
  intros (c & nak & data & k & left & Hc & Hs) [_ Hp]. unfold claim_bus. repeat at_step.
  set (d := idev s) in *. clearbody d. destruct (bus_state d) eqn:Eb; cbn in Hc; try done; decide_bools.
  2: { destruct Hc as [Hc ->]. at_step. cbn [negb]. at_step. split; [done|]. by exists c, nak, data, 0%nat, left. }
  destruct Hc as [Hc Hk]. unfold bus_busy. at_step.
  eapply at_status_in; [eassumption|intros x s1 (_ & _ & Hbb) Hs1]. view_cbn. at_step. rewrite Hbb.
  replace (master c) with false by (by destruct Hc as [-> | ->]). destruct k as [|k]; cbn [Nat.eqb negb orb].
  { at_step. split; [done|]. by exists c, nak, data, 0%nat, left. }
  unfold imx_wait_bus_idle. repeat at_step. rewrite wrap_id by (unfold fits; lia).
  pose proof (Z.div_pos (bus_busy_timeout d * 100) 2).
  eapply does_weaken; [eapply (at_idle_loop _ _ _ _ _ _ k); [exact Hc|lia|lia|exact Hs1]|].
  intros r s2 [-> Hs2]. cbn. split; [done|]. by exists c, nak, data, 0%nat, left.
Qed.
Lemma at_start_cond d c nak data left bus s :
  claimed_ctl (bus_state d) c 0 -> At d (View c None nak data 0 left bus) s ->
  does start_cond s (fun _ s' => exists c', held c' /\ At d (View c' None nak data 0 left (b_start bus)) s').
Proof.
  intros [_ Hc] Hs. unfold start_cond, ctl_or.
  destruct (bus_state d) eqn:Eb; try done; destruct Hc as [-> | ->]; repeat at_step; rewrite Eb; decide_bools;
    repeat at_step; eexists; (split; [|eassumption]); (by left) || by right.
Qed.

(** The byte of the address on the bus. *)
Definition address_byte (t : i2c_transaction_e) (addr : Z) : Z :=
  2 * addr + (if bool_decide (t = MASTER_RECEIVE) then 1 else 0).

Lemma with_direction_7bit d :
  0 <= slave_addr d < 128 ->
  with_direction d (Z.shiftl (slave_addr d) 1) = address_byte (transaction d) (slave_addr d).
Proof.
  intros Ha. unfold with_direction, address_byte. pose proof (lor_pieces (slave_addr d) 1 1).
  assert (Z.shiftl (slave_addr d) 1 = 2 * slave_addr d) as E by (rewrite Z.shiftl_mul_pow2 by lia; lia).
  destruct (bool_decide _); rewrite E in *; rewrite ?(wrap_id 8 (2 * slave_addr d)) by (unfold fits; lia); [|lia].
  change IMX_I2C_ADDR_RD with 1. rewrite wrap_id; [lia|]. unfold fits. lia.
Qed.

Lemma at_address d c nak data left bus s :
  slave_addr_fmt d = I2C_ADDRFMT_7BIT -> 0 <= slave_addr d < 128 -> claimed_ctl (bus_state d) c 0 ->
  At d (View c None nak data 0 left bus) s ->
  does send_address s (fun _ s' => exists c', held c' /\
    At (d <| bus_state := TX_ADDR_7BIT |>)
      (View c' (Some (Some (address_byte (transaction d) (slave_addr d)))) nak data 0 left (b_start bus)) s').
Proof.
  intros Hf Ha Hc Hs. unfold send_address. repeat at_step. rewrite Hf. decide_bools. unfold imx_sendaddr7. at_step.
  eapply does_weaken; [by eapply at_start_cond|]. intros _ s1 (c' & Hc' & Hs1). at_step. at_step. at_step.
  rewrite with_direction_7bit by done.
  assert (0 <= address_byte (transaction d) (slave_addr d) < 256) as Hb
    by (unfold address_byte; destruct (bool_decide _); lia).
  set (b := address_byte _ _) in *. clearbody b.
  assert (u16 b = b) as Eb by (apply wrap_id; unfold fits; lia).
  at_step.
  { rewrite Eb. destruct Hc' as [-> | ->]; unfold data_ok; cbn.
    all: by rewrite (proj2 (Z.leb_le _ _)), (proj2 (Z.ltb_lt _ _)) by lia. }
  rewrite Eb in *. repeat at_step. eexists. split; [exact Hc'|]. eassumption.
Qed.

(** After a transaction that was refused. *)
Lemma at_log bus d s :
  Between off_ctl bus d s -> does log_regs s (fun _ s' => Between off_ctl bus d s').
Proof.
  intros (c & nak & data & k & left & [-> Hk] & Hs). unfold log_regs. repeat at_step.
  eapply between_intro; [eassumption|]. split; [done|lia].
Qed.
Lemma at_reset bus d s :
  Between off_ctl bus d s ->
  does imx_i2c_reset s (fun _ s' => exists d', d' = d <| bus_state := STOPPED |> /\ Between off_ctl bus d' s').
Proof.
  intros (c & nak & data & k & left & [-> Hk] & Hs). unfold imx_i2c_reset. repeat at_step.
  eexists. split; [reflexivity|]. by eapply between_intro.
Qed.
(** What transfers leave of the structure. *)
Definition settings (d : imx_dev) := (slave_addr d, slave_addr_fmt d, slave_timeout_multiplier d, bus_busy_timeout d).
Lemma same_setup_settings d d' : same_setup d d' -> settings d' = settings d.
Proof. unfold same_setup, settings. intuition congruence. Qed.

(** [s] is ready for a transfer of [len] bytes with a slave that has a 7-bit address. *)
Record CanTransfer (len : Z) bus s : Prop := {
  ct_ready : Ready bus s;
  ct_patient : Patient (idev s) len;
  ct_addr : slave_addr_fmt (idev s) = I2C_ADDRFMT_7BIT /\ 0 <= slave_addr (idev s) < 128;
  ct_len : 0 < len < 2 ^ 32 - 1
}.

(** The result of a transfer: the bus, the same settings, the state of the bus as the status says. *)
Definition transferred (stop : Z) (st : i2c_status_t) bus s s' : Prop :=
  Ready bus s' /\ settings (idev s') = settings (idev s) /\
  bus_state (idev s') = (if bool_decide (st = I2C_STATUS_DONE) then after_transaction stop else STOPPED).

Lemma transferred_done stop d bus d0 s s' :
  same_setup d0 d -> settings d0 = settings (idev s) -> stop_req d0 = stop -> completed d ->
  Between (ctl_after stop) bus d s' -> transferred stop I2C_STATUS_DONE bus s s'.
Proof.
  intros Hset Hs0 Hstop [_ Hbs] Hb. pose proof Hset as (_ & _ & Hstop' & _).
  pose proof Hb as (?&?&?&?&?&_&(<-&_&_)). rewrite Hstop', Hstop in Hbs.
  split_and!; [|by rewrite (same_setup_settings _ _ Hset)|done].
  unfold Ready. rewrite Hbs. unfold ctl_after, after_transaction in *. by destruct (negb (stop =? 0)).
Qed.

Lemma transferred_refused stop d bus d0 s s' :
  same_setup d0 d -> settings d0 = settings (idev s) ->
  Between off_ctl bus d s' ->
  does log_regs s' (fun _ s1 => does imx_i2c_reset s1 (fun _ s2 => transferred stop I2C_STATUS_NACK bus s s2)).
Proof.
  intros Hset Hs0 Hb0. eapply does_weaken; [by eapply at_log|]. intros ? s1 Hb. cbv beta in Hb.
  eapply does_weaken; [by eapply at_reset|]. intros _ s2 (d' & -> & Hb').
  pose proof Hb' as (c&?&?&?&?&[Hc ?]&(Hd'&_&_)). unfold transferred. rewrite Hd'. split_and!; [| |done].
  - unfold Ready. rewrite Hd'. destruct Hb' as (c2 & nak & data & k & left & [-> Hk] & Hs2).
    eapply between_intro; [exact Hs2|]. split; [by left|done].
  - rewrite <- Hs0. by apply same_setup_settings in Hset.
Qed.

(** From the address of a transaction to the end of the wait for it. *)
Lemma at_transaction len d c nak data left bus s (Q : unit -> i2c R -> Prop) :
  slave_addr_fmt d = I2C_ADDRFMT_7BIT /\ 0 <= slave_addr d < 128 -> Patient d len -> 0 < len < 2 ^ 32 - 1 ->
  claimed_ctl (bus_state d) c 0 -> At d (View c None nak data 0 left bus) s ->
  (forall c t s', held c -> byte_ns * (len + 1) <= t ->
     At (d <| bus_state := TX_ADDR_7BIT |>)
       (View c (Some (Some (address_byte (transaction d) (slave_addr d)))) nak data 0 t (b_start bus)) s' ->
     does (MsgReceivePulse (Z.to_nat len + 4)) s' Q) ->
  does send_address s (fun _ s1 => does (block len) s1 Q).
Proof.
  intros [Hf Ha] [[Hb Hm] _] Hlen Hc Hs HQ. pose proof byte_ns_pos as Hpos.
  eapply does_weaken; [by eapply at_address|]. intros _ s1 (c' & Hc' & Hs1). unfold block. at_step. at_step.
  apply does_bind. rewrite (wrap_id 32) by (unfold fits; lia).
  change (slave_timeout_multiplier d<|bus_state := TX_ADDR_7BIT|>) with (slave_timeout_multiplier d).
  rewrite wrap_id by (unfold fits; nia).
  destruct Hs1 as (Hd1 & Hn1 & Hv1). unfold does at 1. cbn. eapply HQ; [exact Hc'| |].
  2: { split_and!; [done|done|]. cbn. by rewrite law_timer, Hv1. }
  nia.
Qed.
Definition byte_list (l : list Z) : Prop := Forall (fun b => 0 <= b < 256) l.

Lemma i2c_send_runs buf stop bus s :
  CanTransfer (zlen buf) bus s -> byte_list buf ->
  does (imx_i2c_send buf stop) s (fun st s' =>
    exists bus', send_spec (slave_addr (idev s)) buf stop bus = (st, bus') /\ transferred stop st bus' s s').
Proof.
  intros [Hr Hp Ha Hlen] Hbuf. unfold imx_i2c_send. rewrite (proj2 (Z.eqb_neq (zlen buf) 0)) by lia. at_step.
  eapply does_weaken; [by eapply at_claim|]. intros ok s1 [-> (c & nak & data & k & left & Hc & Hs1)]. cbn [negb].
  assert (k = 0%nat) as -> by apply Hc. do 2 at_step. at_step.
  eapply does_weaken with (P := fun _ s2 => does (block (zlen buf)) s2 _); [|intros ? ? Hx; cbv beta; at_step; exact Hx].
  eapply at_transaction with (len := zlen buf); [| | | |eassumption|]; [exact Ha|by destruct Hp; split|done|exact Hc|].
  intros c' t s3 Hc' Ht Hs3. eapply does_weaken.
  { eapply wait_send with (todo := buf); [|exact Hc'|unfold zlen; lia|exact Ht|exact Hs3].
    split; dev_cbn; [done|split_and!; [done|lia|done]|by left|split; [lia|done]]. }
  intros ? s4. cbv beta. unfold send_spec.
  match goal with |- context [address_byte ?t ?a] =>
    change (address_byte t a) with (2 * slave_addr (idev s) + 0); rewrite Z.add_0_r end.
  destruct (write_all _ _) as [[] bus1]; intros (d' & Hset & Hd' & Hb); pose proof Hb as (?&?&?&?&?&_&Hs4); do 2 at_step.
  - rewrite (proj1 Hd'). at_step. eexists. split; [reflexivity|]. eapply transferred_done; [exact Hset|done|done|done|exact Hb].
  - destruct Hd' as [Est He]. rewrite Est. at_step. eapply does_weaken; [by eapply transferred_refused|].
    intros ? s6. cbv beta. intros Ht6. at_step. eapply does_weaken; [exact Ht6|].
    intros ? s5. cbv beta. intros Ht5. at_step. rewrite He. eexists. split; [reflexivity|]. exact Ht5.
Qed.

Lemma at_irq_on b d c nak data left bus s :
  claimed_ctl b c 0 -> At d (View c None nak data 0 left bus) s ->
  does (ctl_or CTRREG_IIEN) s (fun _ s' => At d (View c None nak data 0 left bus) s').
Proof.
  intros [_ Hc] Hs. unfold ctl_or. destruct b; try done; destruct Hc as [-> | ->]; repeat at_step; eassumption.
Qed.

Lemma i2c_recv_runs buf stop bus s :
  CanTransfer (zlen buf) bus s ->
  does (imx_i2c_recv buf stop) s (fun r s' =>
    exists bus', recv_spec (slave_addr (idev s)) buf stop bus = (r, bus') /\ transferred stop r.1 bus' s s').
Proof.
  intros [Hr Hp Ha Hlen]. unfold imx_i2c_recv. rewrite (proj2 (Z.eqb_neq (zlen buf) 0)) by lia. at_step.
  eapply does_weaken; [by eapply at_claim|]. intros ok s1 [-> (c & nak & data & k & left & Hc & Hs1)]. cbn [negb].
  assert (k = 0%nat) as -> by apply Hc. do 2 at_step. at_step.
  eapply does_weaken; [eapply at_irq_on; [exact Hc|eassumption]|]. intros ? s2. cbv beta. intros Hs2. at_step.
  eapply does_weaken with (P := fun _ s2 => does (block (zlen buf)) s2 _); [|intros ? ? Hx; cbv beta; at_step; exact Hx].
  eapply at_transaction with (len := zlen buf); [| | | |exact Hs2|]; [exact Ha|by destruct Hp; split|done|exact Hc|].
  intros c' t s3 Hc' Ht Hs3. destruct (length buf) as [|n] eqn:En; [unfold zlen in Hlen; lia|].
  eapply does_weaken.
  { eapply wait_address with (n := n);
      [| | | | |exact Hs3]; [|done|exact Hc'|unfold zlen; lia|unfold zlen in Ht; rewrite En in Ht; lia].
    split; dev_cbn; [done|split; [done|lia]|done|]. unfold zlen. lia. }
  intros ? s4. cbv beta. unfold recv_spec. rewrite En.
  match goal with |- context [address_byte ?t ?a] =>
    change (address_byte t a) with (2 * slave_addr (idev s) + 1) end.
  destruct (b_send _ _) as [[] bus1]; [destruct (read_n (S n) bus1) as [l bus2]|].
  - intros (d' & Hset & Hl & Hd' & Hb). pose proof Hb as (?&?&?&?&?&_&Hs4). do 2 at_step. rewrite (proj1 Hd').
    at_step. eexists. split; [by rewrite Hl|]. eapply transferred_done; [exact Hset|done|done|exact Hd'|exact Hb].
  - intros (d' & Hset & Hl & Hd' & Hb). pose proof Hb as (?&?&?&?&?&_&Hs4). do 2 at_step.
    destruct Hd' as [Est He]. rewrite Est. at_step. eapply does_weaken; [by eapply transferred_refused|].
    intros ? s6. cbv beta. intros Ht6. at_step. eapply does_weaken; [exact Ht6|].
    intros ? s5. cbv beta. intros Ht5. at_step. rewrite He, Hl. eexists. split; [reflexivity|]. exact Ht5.
Qed.

(** Reading the registers of a chip: the register's number is sent without a stop condition, and the transfer
    that receives follows with a repeated start. The bytes are those the chip gives, in one transaction on the bus that
    ends with the only stop condition. *)
Theorem register_read_correct reg buf bus s bus1 bus2 l bus3 :
  CanTransfer (zlen reg) bus s -> byte_list reg -> Patient (idev s) (zlen buf) -> 0 < zlen buf < 2 ^ 32 - 1 ->
  write_all (2 * slave_addr (idev s) :: reg) (b_start bus) = (true, bus1) ->
  b_send (2 * slave_addr (idev s) + 1) (b_start bus1) = (true, bus2) -> read_n (length buf) bus2 = (l, bus3) ->
  exists s1 s2, imx_i2c_send reg 0 s = Ok (I2C_STATUS_DONE, s1) /\
    imx_i2c_recv buf 1 s1 = Ok ((I2C_STATUS_DONE, l), s2) /\ transferred 1 I2C_STATUS_DONE (b_stop bus3) s s2.
Proof.
  intros Hc Hreg Hp Hlen Hw Ha Hr.
  destruct (does_run _ _ _ (i2c_send_runs _ 0 _ _ Hc Hreg)) as (st & s1 & Es & bus' & Hspec & Hready & Hset & Hbs).
  unfold send_spec in Hspec. rewrite Hw in Hspec. cbn in Hspec. injection Hspec as <- <-.
  exists s1. assert (CanTransfer (zlen buf) bus1 s1) as Hc1.
  { unfold settings in Hset. injection Hset as E1 E2 E3 E4. destruct Hc as [_ _ Haddr _].
    split; [done| |by rewrite E1, E2|done]. destruct Hp. split; [by rewrite E3|by rewrite E4]. }
  assert (slave_addr (idev s1) = slave_addr (idev s)) as Eaddr by (by injection Hset).
  destruct (does_run _ _ _ (i2c_recv_runs _ 1 _ _ Hc1)) as ([st l'] & s2 & Er & bus'' & Hspec & Hready2 & Hset2 & Hbs2).
  unfold recv_spec in Hspec. rewrite Eaddr, Ha, Hr in Hspec. cbn in Hspec. injection Hspec as <- <- <-.
  exists s2. do 3 (split; [done|]). split; [by rewrite Hset2|done].
Qed.
End Transfers.
