(* ===== verification/I2cSpeed.v ===== *)
(** * I2cSpeed: the speed of the I2C bus (i2c/imx/bus_speed.c).

    The divider [find_best_ic] picks, and the speed of the bus it gives. *)

From coqutil Require Import Datatypes.RecordSetters.
From S2P Require Import Prelude.
From S2P Require Import I2c.
From S2P Require Import I2cBus.

(** The best divider so far of those in [pre]: the least that is not below [q]. *)
Definition best_ok (pre : list Z) (q : Z) (best : option (Z * Z)) : Prop :=
  match best with
  | None => Forall (fun w => w < q) pre
  | Some (j, v) => byte_at pre j = Some v /\ q <= v /\ Forall (fun w => q <= w -> v <= w) pre
  end.

Lemma byte_at_app_left l k j v : byte_at l j = Some v -> byte_at (l ++ k) j = Some v.
Proof. unfold byte_at. destruct (j <? 0); [done|]. apply lookup_app_l_Some. Qed.
Lemma byte_at_end l v : byte_at (l ++ [v]) (zlen l) = Some v.
Proof.
  unfold byte_at, zlen. rewrite (proj2 (Z.ltb_ge _ _)) by lia. rewrite Nat2Z.id. by rewrite list_lookup_middle.
Qed.

Lemma best_loop_ok divs : forall pre q best,
  best_ok pre q best -> best_ok (pre ++ divs) q (best_loop divs (zlen pre) q best).
Proof.
  induction divs as [|v divs IH]; intros pre q best Hb; cbn [best_loop]; [by rewrite app_nil_r|].
  replace (pre ++ v :: divs) with ((pre ++ [v]) ++ divs) by (by rewrite <- app_assoc).
  replace (zlen pre + 1) with (zlen (pre ++ [v])) by (rewrite zlen_app, zlen_cons, zlen_nil; lia). apply IH.
  pose proof (byte_at_end pre v) as Hend.
  destruct (Z.leb_spec q v) as [Hq|Hq]; destruct best as [[j w]|]; cbn [best_ok] in *.
  - destruct Hb as (Hj & Hw & Hall). destruct (Z.ltb_spec v w) as [Hv|Hv]; cbn [best_ok].
    + split_and!; [done..|]. apply Forall_app; split; [|by repeat constructor].
      eapply Forall_impl; [exact Hall|]. cbv beta. intros x Hx ?. specialize (Hx ltac:(done)). lia.
    + split_and!; [by apply byte_at_app_left|done|]. apply Forall_app; split; [done|]. by repeat constructor.
  - split_and!; [done..|]. apply Forall_app; split; [|by repeat constructor].
    eapply Forall_impl; [exact Hb|]. cbv beta. lia.
  - destruct Hb as (Hj & Hw & Hall). split_and!; [by apply byte_at_app_left|done|].
    apply Forall_app; split; [done|]. constructor; [lia|constructor].
  - apply Forall_app; split; [done|]. by repeat constructor.
Qed.

(** The largest divider of the table, and the one that is used when there is none large enough. *)
Definition DIV_MAX : Z := 3840.
Definition DIV_DEFAULT : Z := 768.

Lemma find_best_ic_ok q :
  exists div, byte_at I2C_Divs (find_best_ic q) = Some div /\ 0 < div <= DIV_MAX /\
    if q <=? DIV_MAX then q <= div /\ Forall (fun w => q <= w -> div <= w) I2C_Divs else div = DIV_DEFAULT.
Proof.
  pose proof (best_loop_ok I2C_Divs [] q None (Forall_nil_2 _)) as Hb. cbn [app] in Hb.
  change (zlen (@nil Z)) with 0 in Hb.
  assert (forall j v, byte_at I2C_Divs j = Some v -> 0 < v <= DIV_MAX) as Hrange.
  { intros j v Hj. assert (forallb (fun w => (0 <? w) && (w <=? DIV_MAX)) I2C_Divs = true) as Hall by reflexivity.
    rewrite forallb_forall in Hall. unfold byte_at in Hj. destruct (j <? 0); [discriminate|].
    apply list_elem_of_lookup_2, list_elem_of_In in Hj. apply Hall, andb_true_iff in Hj.
    rewrite Z.ltb_lt, Z.leb_le in Hj. exact Hj. }
  unfold find_best_ic. destruct (best_loop I2C_Divs 0 q None) as [[j v]|]; cbn in Hb.
  - destruct Hb as (Hj & Hq & Hall). exists v. pose proof (Hrange _ _ Hj).
    split_and!; [done|lia|lia|]. by rewrite (proj2 (Z.leb_le _ _)) by lia.
  - exists DIV_DEFAULT. split; [reflexivity|]. split; [by split|]. rewrite (proj2 (Z.leb_gt _ _)); [done|].
    eapply (Forall_lookup_1 _ _ 31%nat) in Hb; [|reflexivity]. exact Hb.
Qed.

Lemma byte_at_range l i v : byte_at l i = Some v -> 0 <= i < zlen l.
Proof.
  unfold byte_at, zlen. destruct (Z.ltb_spec i 0); [done|]. intros Hi%lookup_lt_Some. lia.
Qed.

#[local] Opaque I2C_Divs.

Section Speed.
Context {R : Type} `{I2cDevice R}.

(** Setting the speed of the bus: one above 400 kHz is refused with nothing done; for any other the controller gets
    the smallest divider of its table that is not below the quotient of its clock and the speed, and the bus is faster
    than was asked for by less than that divider's next would make it; a quotient above the table gives divider 768.
    The speed reported is that of the divider. *)
Theorem bus_speed_correct sp s :
  0 < sp -> sp <> speed (idev s) -> 0 < input_clk (idev s) ->
  if 400000 <? sp then imx_i2c_set_bus_speed sp s = Ok ((-1, 0), s)
  else exists div s', imx_i2c_set_bus_speed sp s = Ok ((0, input_clk (idev s) / div), s') /\
    byte_at I2C_Divs (i2c_freq_val (idev s')) = Some div /\ speed (idev s') = sp /\
    regs s' = out16 IMX_I2C_FRQREG_OFF (i2c_freq_val (idev s')) (regs s) /\
    let q := input_clk (idev s) / sp in
    if q <=? DIV_MAX then
      q <= div /\ Forall (fun w => q <= w -> div <= w) I2C_Divs /\ input_clk (idev s) < (div + 1) * sp
    else div = DIV_DEFAULT.
Proof.
  intros Hsp Hne Hclk. unfold imx_i2c_set_bus_speed. destruct (400000 <? sp); [done|].
  unfold get, lift, modify, out, on_regs, mbind, M_bind. rewrite (proj2 (Z.eqb_neq _ _)) by done. cbn [negb].
  rewrite (proj2 (Z.eqb_neq _ _)) by lia.
  destruct (find_best_ic_ok (input_clk (idev s) / sp)) as (div & Hdiv & Hr & Hq).
  set (ic := find_best_ic _) in *. clearbody ic. pose proof (byte_at_range _ _ _ Hdiv) as Hic.
  change (zlen I2C_Divs) with 64 in Hic. rewrite (wrap_id 16 ic) by (unfold fits; lia).
  cbn -[byte_at Z.div Z.mul wrap]. unfold constant. rewrite Hdiv.
  exists div. eexists. split; [reflexivity|]. cbn [i2c_freq_val speed regs idev]. unfold constant.
  split_and!; [done..|]. destruct (_ <=? _); [|done]. destruct Hq as [Hq Hall]. split_and!; [done..|].
  pose proof (Z.div_mod (input_clk (idev s)) sp). pose proof (Z.mod_pos_bound (input_clk (idev s)) sp). nia.
Qed.
End Speed.
