(* ===== verification/I2cInit.v ===== *)
(** * I2cInit: what the start and the end of the I2C driver take and give back (i2c/imx).

    The resources a history of system calls leaves with the driver ([owned]), and which they are after
    [imx_i2c_init], whether it succeeds or not, and after [imx_i2c_fini]. *)

From coqutil Require Import Datatypes.RecordSetters.
From S2P Require Import Prelude.
From S2P Require Import I2c.
From S2P Require Import I2cBus.
From S2P Require Import I2cSpeed.

(** The structure; the mapping of the registers, at an address; the channel, the connection to it and the interrupt. *)
Inductive resource := RMem | RMap (v : Z) | RChan | RConn | RIrq.
#[export] Instance resource_eq_dec : EqDecision resource.
Proof. solve_decision. Defined.

Section Init.
Context {R : Type} `{I2cDevice R}.
Implicit Types s : i2c R.

Definition without (r : resource) (l : list resource) : list resource := filter (fun x => x <> r) l.

(** After the calls of [tr], the latest first, with their answers. *)
Fixpoint owned (tr : list (syscall * Z)) : list resource :=
  match tr with
  | [] => []
  | (c, a) :: tr =>
      let l := owned tr in
      match c with
      | ThreadCtl => l
      | Malloc => if a =? 0 then l else RMem :: l
      | MmapDeviceIo _ _ => if a =? MAP_FAILED then l else RMap a :: l
      | ChannelCreate => if a =? -1 then l else RChan :: l
      | ConnectAttach _ => if a =? -1 then l else RConn :: l
      | InterruptAttach _ => if a =? -1 then l else RIrq :: l
      | ConnectDetach _ => without RConn l
      | ChannelDestroy _ => without RChan l
      | MunmapDeviceIo base _ => without (RMap base) l
      | Free => without RMem l
      end
  end.

(** ** The steps, with the history of calls *)

Definition Tr (d : imx_dev) (tr : list (syscall * Z)) s : Prop := idev s = d /\ trace s = tr.

Lemma tr_get d tr s (Q : imx_dev -> i2c R -> Prop) : Tr d tr s -> Q d s -> does get s Q.
Proof. by intros [<- _]. Qed.
Lemma tr_modify f d tr s (Q : unit -> i2c R -> Prop) :
  Tr d tr s -> (forall s', Tr (f d) tr s' -> Q tt s') -> does (modify f) s Q.
Proof. intros [<- ?] HQ. by apply HQ. Qed.
Lemma tr_out r v d tr s (Q : unit -> i2c R -> Prop) :
  Tr d tr s -> (forall s', Tr d tr s' -> Q tt s') -> does (out r v) s Q.
Proof. intros [<- ?] HQ. by apply HQ. Qed.
Lemma tr_system c d tr s (Q : Z -> i2c R -> Prop) :
  Tr d tr s -> (forall a s', Tr d ((c, a) :: tr) s' -> Q a s') -> does (system c) s Q.
Proof. intros [<- <-] HQ. by apply HQ. Qed.

Ltac tr_step :=
  lazymatch goal with
  | |- does (mbind _ _) _ _ => apply does_bind
  | |- does (mret _) _ _ => apply does_ret
  | |- does get _ _ => eapply tr_get; [eassumption|]
  | |- does (out _ _) _ _ => eapply tr_out; [eassumption|intros ? ?]
  | |- does (modify _) _ _ => eapply tr_modify; [eassumption|intros ? ?]
  | |- does (set_state _) _ _ => unfold set_state; tr_step
  | |- does (system _) _ _ => eapply tr_system; [eassumption|intros ? ? ?]
  | |- does fail _ _ => unfold fail; tr_step
  | |- does fail_chnl_dstr _ _ => unfold fail_chnl_dstr; tr_step
  | |- does fail_con_dtch _ _ => unfold fail_con_dtch; tr_step
  end; cbv beta zeta.

Lemma set_option_speed c v d d' : set_option c v d = Some d' -> speed d' = speed d.
Proof.
  unfold set_option. intros E.
  repeat match type of E with context [match ?x with _ => _ end] => destruct x; try discriminate E end;
    by injection E as <-.
Qed.

Lemma tr_options_loop l d tr s (Q : Z -> i2c R -> Prop) :
  NoMore ∈ l -> Tr d tr s ->
  (forall r d' s', speed d' = speed d -> Tr d' tr s' -> Q r s') -> does (options_loop l) s Q.
Proof.
  revert d s. induction l as [|o l IH]; intros d s Hl Hs HQ; [by apply elem_of_nil in Hl|].
  apply elem_of_cons in Hl. cbn [options_loop]. destruct o as [c v|[]| | | |].
  - destruct Hl as [Hl|Hl]; [discriminate|]. tr_step. tr_step. destruct (set_option c v d) as [d'|] eqn:E.
    + tr_step. tr_step. eapply IH; [done|eassumption|]. intros r d2 s2 E2 H2. eapply HQ; [|exact H2].
      rewrite E2. by eapply set_option_speed.
    + tr_step. by eapply HQ.
  - destruct Hl as [Hl|Hl]; [discriminate|]. by eapply IH.
  - tr_step. by eapply HQ.
  - tr_step. by eapply HQ.
  - destruct Hl as [Hl|Hl]; [discriminate|]. by eapply IH.
  - tr_step. by eapply HQ.
  - tr_step. by eapply HQ.
Qed.

Lemma tr_options l d tr s (Q : Z -> i2c R -> Prop) :
  NoMore ∈ l -> Tr d tr s ->
  (forall r d' s', speed d' = speed d -> Tr d' tr s' -> Q r s') -> does (imx_i2c_options l) s Q.
Proof.
  intros Hl Hs HQ. unfold imx_i2c_options. repeat tr_step.
  eapply does_weaken with (P := fun _ s' => exists d', speed d' = speed d /\ Tr d' tr s').
  - apply does_if; intros _; [tr_step; eexists; (split; [|eassumption]); done|]. unfold query_hwi_device.
    destruct (hwi_find_bus _) as [[[base ivec]|]|]; repeat tr_step; eexists; (split; [|eassumption]); done.
  - intros r s1 (d1 & E1 & H1). eapply tr_options_loop; [done|exact H1|]. intros r2 d2 s2 E2 H2.
    eapply HQ; [|exact H2]. congruence.
Qed.

Lemma tr_speed d tr s (Q : Z * Z -> i2c R -> Prop) :
  speed d = 0 -> Tr d tr s -> (forall r d' s', Tr d' tr s' -> Q r s') -> does (imx_i2c_set_bus_speed 100000) s Q.
Proof.
  intros Hd Hs HQ. unfold imx_i2c_set_bus_speed. change (400000 <? 100000) with false. cbn match. tr_step. tr_step.
  rewrite Hd. change (100000 =? 0) with false. cbn [negb]. repeat tr_step.
  destruct (find_best_ic_ok (input_clk d / 100000)) as (div & Hdiv & _).
  match goal with |- context [byte_at I2C_Divs ?i] => change i with (find_best_ic (input_clk d / 100000)) end.
  rewrite Hdiv. apply does_lift. tr_step. by eapply HQ.
Qed.
Lemma tr_reset d tr s (Q : unit -> i2c R -> Prop) :
  Tr d tr s -> (forall s', Tr (d <| bus_state := STOPPED |>) tr s' -> Q tt s') -> does imx_i2c_reset s Q.
Proof. intros Hs HQ. unfold imx_i2c_reset. repeat tr_step. by apply HQ. Qed.

(** What is left of the resources [l] when [imx_i2c_init] returns [p]. *)
Definition init_leaves (l : list resource) (p : Z) : Prop :=
  if p =? 0 then l = [] \/ exists v, l = [RMap v]
  else exists v, l = [RIrq; RConn; RChan; RMap v; RMem].

Ltac tr_end :=
  match goal with H : Tr _ _ ?s |- init_leaves (owned (trace ?s)) _ => destruct H as [_ ->] end;
  unfold init_leaves; cbn [owned];
  repeat match goal with E : (_ =? _) = _ |- _ => rewrite E; clear E end; cbn.

(** Starting the driver returns, whatever the system answers and the options are: on success with all five
    resources; on every failure the structure, the channel and the connection are given back, and only the mapping of
    the registers may stay. Ending it gives back the structure, and the mapping if it is at its physical
    address; the interrupt, the connection and the channel stay. *)
Theorem i2c_init_resources unit l s :
  trace s = [] -> NoMore ∈ l ->
  exists p s', imx_i2c_init unit l s = Ok (p, s') /\ init_leaves (owned (trace s')) p /\
    (p <> 0 -> exists s'', imx_i2c_fini s' = Ok (tt, s'') /\
       exists v, RMap v ∈ owned (trace s') /\
         owned (trace s'') = [RIrq; RConn; RChan] ++ (if v =? physbase (idev s') then [] else [RMap v])).
Proof.
  intros Htr Hl.
  assert (does (imx_i2c_init unit l) s (fun p s' => init_leaves (owned (trace s')) p)) as Hi.
  { assert (Hs : Tr (idev s) [] s) by done. unfold imx_i2c_init. do 2 tr_step.
    apply does_if; intros E1; [tr_step; tr_end; by left|]. do 2 tr_step.
    apply does_if; intros E2; [tr_step; tr_end; by left|]. do 3 tr_step.
    eapply tr_options; [done|eassumption|]. intros r d1 s1 Espeed Hs1.
    apply does_if; intros E3; [repeat tr_step; tr_end; by left|]. do 2 tr_step.
    apply does_if; intros E4; [repeat tr_step; tr_end; by left|]. do 4 tr_step.
    apply does_if; intros E5; [repeat tr_step; tr_end; by left|]. do 4 tr_step.
    apply does_if; intros E6; [repeat tr_step; tr_end; right; by eexists|]. do 4 tr_step.
    apply does_if; intros E7; [repeat tr_step; tr_end; right; by eexists|]. do 4 tr_step.
    apply does_if; intros E8; [repeat tr_step; tr_end; right; by eexists|]. tr_step.
    eapply tr_speed; [|eassumption|]; [done|]. intros r2 d2 s2 Hs2. repeat tr_step.
    eapply tr_reset; [eassumption|]. intros s3 Hs3. tr_step. tr_end. by eexists. }
  destruct (does_run _ _ _ Hi) as (p & s' & -> & Hp). exists p, s'. split_and!; [done..|]. intros Hp0.
  unfold init_leaves in Hp. rewrite (proj2 (Z.eqb_neq _ _)) in Hp by done. destruct Hp as [v Hv].
  eexists. split; [reflexivity|]. exists v. rewrite Hv. split; [set_solver|]. cbn [trace owned]. rewrite Hv.
  cbn [idev physbase].
  destruct (Z.eqb_spec v (physbase (idev s'))) as [Ev|Ev]; unfold without; rewrite !filter_cons; repeat case_decide;
    try done; try congruence; by destruct_and?; simplify_eq.
Qed.
End Init.
