(* ===== verification/DemoMem.v ===== *)
(** * DemoMem: the theorems on the system page, memory and page tables at concrete inputs. *)

From S2P Require Import Prelude.
From S2P Require Import Sections.
From S2P Require Import Syspage.
From S2P Require Import Strings.
From S2P Require Import Asinfo.
From S2P Require Import Pages.
From S2P Require Import Ram.
From S2P Require Import Mmu.

(** A system page as [init_syspage_memory] builds it at address 4096, with 32K of room; the same with
    a callout owner registered in the string section. *)
Definition demo_sizes : struct_sizes :=
  {| sz_syspage_entry := 240; sz_callout_entry := 96; sz_callin_entry := 16; sz_hwi_prefix := 4 |}.

Definition or_else {A} (r : res A) (d : A) : A := match r with Ok a => a | Err _ => d end.

Definition demo_page : syspage :=
  or_else (init_syspage_memory demo_sizes 4096 32768) (mk_syspage 0 [] 0 0 0 [] []).

Definition demo_patched : syspage :=
  mk_syspage (sy_base demo_page) (sy_mem demo_page) (sy_total demo_page) (sy_max demo_page)
    (sy_fixed demo_page) (sy_lsp demo_page) [4460].

Lemma demo_page_ok : sy_wf demo_page /\ fixed_split demo_page.
Proof.
  destruct (init_syspage_memory_spec demo_sizes 4096 32768) as (s & Hs & Hwf & Hsp & _);
    [vm_compute; split; congruence..|vm_compute; congruence|vm_compute; congruence|vm_compute; congruence|].
  unfold demo_page. rewrite Hs. cbn [or_else]. split; assumption.
Qed.

Lemma demo_patched_wf : sy_wf demo_patched.
Proof. destruct demo_page_ok as [[? ? ? ? ? ?] _]. split; assumption. Qed.

Lemma grow_syspage_section_witness :
  exists s', grow_syspage_section demo_page SEC_strings 20 = Ok s' /\
    sec_bytes s' SEC_strings = sec_bytes demo_page SEC_strings ++ zeros 24.
Proof.
  destruct (grow_syspage_section_correct demo_page SEC_strings 20 (mk_sect 4456 8)) as (s' & Hs & _ & _ & Hb & _).
  - apply demo_page_ok.
  - vm_compute. reflexivity.
  - lia.
  - vm_compute. congruence.
  - exists s'. split; [exact Hs|]. exact Hb.
Defined.

Lemma grow_callout_owners_witness :
  exists s' a', grow_syspage_section demo_patched SEC_typed_strings 16 = Ok s' /\
    sy_patch s' !! 0%nat = Some a' /\ points_to s' a' SEC_strings 4.
Proof.
  apply (grow_callout_owners_follow demo_patched SEC_typed_strings 16 (mk_sect 4448 8) 0 4460 SEC_strings 4).
  - apply demo_patched_wf.
  - vm_compute. reflexivity.
  - lia.
  - vm_compute. congruence.
  - reflexivity.
  - exists (mk_sect 4456 8). split; [vm_compute; reflexivity|]. cbn. lia.
Defined.

Lemma grow_syspage_section_crash_witness :
  grow_syspage_section demo_page SEC_strings 40000 = Err (Crash too_big) <->
  sy_max demo_page < sy_total demo_page + ROUND 40000 8.
Proof.
  apply grow_syspage_section_crash.
  - apply demo_page_ok.
  - lia.
  - vm_compute. congruence.
  - vm_compute. by eexists.
Defined.

Lemma reloc_syspage_memory_witness :
  let s' := reloc_syspage_memory demo_patched 1048576 65536 in
  sy_wf s' /\ sy_base s' = 1048576 /\ (forall j, sec_bytes s' j = sec_bytes demo_patched j) /\
  (forall n a j off, sy_patch demo_patched !! n = Some a -> points_to demo_patched a j off ->
     exists a', sy_patch s' !! n = Some a' /\ points_to s' a' j off).
Proof.
  apply reloc_syspage_memory_correct; [apply demo_patched_wf|lia|vm_compute; congruence|lia].
Defined.

Lemma set_syspage_section_witness :
  exists s', set_syspage_section demo_page SEC_asinfo 96 = Ok s' /\ sec_bytes s' SEC_asinfo = zeros 96.
Proof.
  destruct (set_syspage_section_correct demo_page SEC_asinfo (mk_sect 4472 0) 96)
    as (s' & Hs & _ & _ & _ & _ & _ & Hb & _).
  - apply demo_page_ok.
  - apply demo_page_ok.
  - vm_compute. reflexivity.
  - reflexivity.
  - lia.
  - vm_compute. congruence.
  - exists s'. split; [exact Hs|exact Hb].
Defined.

Lemma init_syspage_memory_witness :
  exists s, init_syspage_memory demo_sizes 4096 32768 = Ok s /\ sy_wf s /\ fixed_split s /\
    sy_total s = 376 /\ sec_bytes s SEC_typed_strings = zeros 8 /\ sec_bytes s SEC_strings = zeros 8.
Proof.
  apply (init_syspage_memory_correct demo_sizes 4096 32768); vm_compute; (split; congruence) || congruence.
Defined.

(** ** Strings *)

Ltac name_ok := refine (bool_decide_eq_true_1 (cname _) _); vm_compute; reflexivity.

Definition mem_name : list Z := chars "memory".
Definition ram_name : list Z := chars "ram".

Lemma demo_strings : strtab (st_bytes demo_page SEC_strings) [].
Proof. split; [constructor|]. exists 8. split; [lia|]. vm_compute. reflexivity. Qed.

Lemma demo_typed : typed_tab (st_bytes demo_page SEC_typed_strings) [].
Proof. split; [constructor|]. exists 8. split; [lia|]. vm_compute. reflexivity. Qed.

Lemma demo_has i : (i < NSECT)%nat -> st_has demo_page i.
Proof. intros Hi. apply lookup_lt_is_Some_2. exact Hi. Qed.

Lemma add_string_witness :
  exists s' off, add_string demo_page mem_name = Ok (s', off) /\
    add_string_post demo_page s' [] mem_name off.
Proof.
  apply add_string_correct.
  - apply demo_page_ok.
  - apply demo_has. vm_compute. lia.
  - apply demo_strings.
  - name_ok.
  - discriminate.
  - vm_compute. reflexivity.
  - vm_compute. congruence.
Defined.

Lemma del_typed_string_witness :
  exists s', del_typed_string demo_page 2 = Ok (s', 0) /\ typed_tab (st_bytes s' SEC_typed_strings) [].
Proof.
  destruct (del_typed_string_correct demo_page [] 2) as (s' & bs & Hd & Hu & Ht & _).
  - apply demo_page_ok.
  - apply demo_has. vm_compute. lia.
  - apply demo_typed.
  - vm_compute. congruence.
  - vm_compute. reflexivity.
  - exists s'. split; [exact Hd|]. rewrite (up_bytes _ _ _ _ _ Hu). exact Ht.
Defined.

Lemma add_typed_string_witness :
  exists s' off, add_typed_string demo_page 2 mem_name = Ok (s', off) /\ find_typed_string s' 2 = Ok off.
Proof.
  destruct (add_typed_string_correct demo_page [] 2 mem_name) as (s' & off & es & Ha & _ & _ & _ & Hf & _).
  - apply demo_page_ok.
  - apply demo_has. vm_compute. lia.
  - apply demo_typed.
  - constructor.
  - vm_compute. congruence.
  - name_ok.
  - vm_compute. reflexivity.
  - vm_compute. reflexivity.
  - vm_compute. congruence.
  - exists s', off. split; [exact Ha|exact Hf].
Defined.

(** ** Address spaces *)

Definition demo_hdr : as_header := {|
  asz := 32; AS_NULL_OFF := 65535; AS_ATTR_KIDS := 16; AS_ATTR_CONTINUED := 32; AS_ATTR_RAM := 3;
  AS_PRIORITY_DEFAULT := 100
|}.

Lemma demo_hdr_ok : header_ok demo_hdr.
Proof.
  split; [cbn; lia|vm_compute; reflexivity|cbn; lia|]. exists 5. split; [lia|reflexivity].
Qed.

(** The table with one entry, "ram" from 256M to 512M. *)
Definition demo_as0 : as_state syspage := mk_ast demo_page [].
Definition demo_as : as_state syspage :=
  fst (or_else (as_add_one demo_hdr demo_as0 0x10000000 0x1fffffff 0 ram_name 65535) (demo_as0, 0)).

Lemma demo_as0_inv : as_inv demo_hdr demo_as0 [].
Proof.
  split; try (intros i e He; discriminate).
  - apply demo_page_ok.
  - split; apply demo_has; vm_compute; lia.
  - apply demo_strings.
  - vm_compute. congruence.
Qed.

Lemma demo_as_inv :
  exists names, as_inv demo_hdr demo_as names /\ length (as_tab demo_as) = 1%nat /\
    st_room (as_sys demo_as) = 32360.
Proof.
  destruct (as_add_one_correct demo_hdr demo_hdr_ok demo_as0 [] 0x10000000 0x1fffffff 0 ram_name 65535)
    as (s' & names' & e & Ha & [Hinv _ _ _ _ _] & _).
  - exact demo_as0_inv.
  - left. reflexivity.
  - name_ok.
  - discriminate.
  - vm_compute. reflexivity.
  - lia.
  - lia.
  - vm_compute. congruence.
  - vm_compute. congruence.
  - exists names'. unfold demo_as. rewrite Ha. cbn [or_else fst]. split; [exact Hinv|].
    assert (s' = demo_as) as -> by (unfold demo_as; rewrite Ha; reflexivity).
    split; vm_compute; reflexivity.
Qed.

Lemma as_find_containing_witness :
  exists r, as_find_containing demo_hdr demo_as 65535 0x10000000 0x10000fff ram_name = Ok r.
Proof.
  destruct demo_as_inv as (names & Hinv & Hlen & _).
  destruct (as_find_containing_correct demo_hdr demo_hdr_ok demo_as names 65535 0x10000000 0x10000fff ram_name)
    as (r & Hr & _).
  - exact Hinv.
  - rewrite Hlen. vm_compute. lia.
  - exists r. exact Hr.
Defined.

Lemma as_add_containing_witness :
  exists s' off, as_add_containing demo_hdr demo_as 0x10000000 0x10ffffff 0 mem_name ram_name = Ok (s', off).
Proof.
  destruct demo_as_inv as (names & Hinv & Hlen & Hroom).
  destruct (as_add_containing_correct demo_hdr demo_hdr_ok demo_as names 0x10000000 0x10ffffff 0 mem_name ram_name)
    as (s' & names' & old & es & Ha & _).
  - exact Hinv.
  - name_ok.
  - discriminate.
  - vm_compute. reflexivity.
  - lia.
  - lia.
  - reflexivity.
  - rewrite Hlen. vm_compute. congruence.
  - rewrite Hlen, Hroom. unfold name_room. case_decide; vm_compute; congruence.
  - eexists s', _. exact Ha.
Defined.

(** ** Memory *)

Definition demo_conf : startup_config :=
  {| shdr_ram_paddr := 0x10800000; shdr_ram_size := 0x800000; shdr_startup_size := 0x40000;
     secure_system := false |}.

(** 256M of RAM at 256M, a block above it, and one avoid range. *)
Definition demo_list : list (Z * Z) := [(0x10000000, 0x10000000); (0x30000000, 0x100000)].
Definition demo_ram : ram_state :=
  mk_rs demo_list (Some [(0x10800000, 0x10840000)]) 0 NULL_PADDR_STARTUP false [] [] [] demo_as0.

Lemma demo_list_ok : ram_ok demo_list.
Proof.
  split.
  - repeat (apply Forall_cons; split); try apply Forall_nil; vm_compute; repeat split; congruence.
  - repeat (constructor; repeat (apply Forall_cons; split); try apply Forall_nil); vm_compute; congruence.
Qed.

Lemma demo_ram_inv : ram_inv demo_ram.
Proof.
  split.
  - exact demo_list_ok.
  - intros x. cbn. lia.
  - apply Forall_singleton. cbn. lia.
Qed.

Lemma add_mem_witness :
  exists l', add_mem demo_list 0x20000000 0x1000000 = Ok l' /\ ram_ok l' /\ (length l' <= 3)%nat /\
    forall x, in_ram l' x <-> in_ram demo_list x \/ 0x20000000 <= x < 0x20000000 + 0x1000000.
Proof.
  apply add_mem_correct; [exact demo_list_ok|lia|lia|lia|vm_compute; congruence].
Defined.

Lemma add_mem_overflow_witness :
  add_mem (replicate 191 (0, 1)) 4096 4096 = Err (Crash "RAM entry array overflow") <->
  RAM_LIST_MAX < zlen (replicate 191 (0, 1)).
Proof. apply add_mem_overflow. lia. Defined.

Lemma fix_size_witness :
  match fix_size 0x10000000 0x20000000 0x10800000 0x10840000 with
  | None => forall x, 0x10000000 <= x < 0x20000000 -> 0x10800000 <= x < 0x10840000
  | Some (s', e') => 0x10000000 <= s' < e' /\ e' <= 0x20000000 /\
      (forall x, s' <= x < e' -> ~ 0x10800000 <= x < 0x10840000) /\
      ((s' = 0x10000000 /\ e' = 0x20000000) \/
       e' - s' = Z.max (0x10800000 - 0x10000000) (0x20000000 - 0x10840000))
  end.
Proof. apply fix_size_correct; lia. Defined.

Lemma find_ram_witness :
  let r := find_ram demo_ram 65536 (2 ^ 16) 0 0 in
  usable (ram_list demo_ram) (avoids demo_ram) r 65536 /\ 0 <= r /\ r + 65536 < 2 ^ 32 /\ r mod 2 ^ 16 = 0.
Proof.
  apply find_ram_correct;
    [apply demo_ram_inv|apply demo_ram_inv|apply demo_ram_inv|lia|lia|vm_compute; congruence].
Defined.

Lemma alloc_ram_fixed_witness :
  exists l, alloc_ram demo_conf demo_hdr demo_ram 0x10100000 0x2000 1 = Ok (with_ram demo_ram l, 0x10100000) /\
    ram_ok l /\ forall x, in_ram l x <-> in_ram (ram_list demo_ram) x /\ ~ 0x10100000 <= x < 0x10100000 + 0x2000.
Proof.
  apply alloc_ram_fixed; [exact demo_ram_inv|vm_compute; congruence|reflexivity|lia|lia|lia].
Defined.

Lemma alloc_ram_fresh_witness :
  (alloc_ram demo_conf demo_hdr demo_ram NULL_PADDR 8192 (2 ^ 12) = Ok (demo_ram, NULL_PADDR) /\
     find_ram demo_ram 8192 (2 ^ 12) 0 0 = NULL_PADDR_STARTUP) \/
  exists s' a, alloc_ram demo_conf demo_hdr demo_ram NULL_PADDR 8192 (2 ^ 12) = Ok (s', a) /\
    ram_taken demo_conf demo_ram s' a 8192 12.
Proof.
  apply alloc_ram_fresh; [exact demo_ram_inv|vm_compute; congruence|reflexivity|lia|lia].
Defined.

Lemma find_top_ram_witness :
  let r := find_top_ram_aligned demo_ram 10000 (2 ^ 16) 4096 in
  usable (ram_list demo_ram) (avoids demo_ram) r (ROUND 10000 4096) /\ 0 < r /\
  r + ROUND 10000 4096 < 2 ^ 64 /\ (2 ^ 16 = 0 \/ r mod 2 ^ 16 = 0).
Proof.
  apply (find_top_ram_correct demo_ram 10000 (2 ^ 16) 16 4096).
  - apply demo_ram_inv.
  - apply demo_ram_inv.
  - right. split; [reflexivity|lia].
  - vm_compute. split; reflexivity.
  - vm_compute. congruence.
Defined.

Lemma ws_init_witness :
  exists s', ws_init demo_conf (initial_ram demo_as0) = Ok s' /\ ws_inv s' /\ ram_list s' = [] /\
    zlen (avoids s') <= 2 /\ (forall x, avoided (avoids s') x <->
      ROUND (shdr_ram_paddr demo_conf + shdr_ram_size demo_conf) 8 <= x < ws_early_next s' \/
      shdr_ram_paddr demo_conf <= x < shdr_ram_paddr demo_conf + shdr_startup_size demo_conf).
Proof. apply ws_init_correct; cbn; lia. Defined.

Lemma ws_alloc_witness :
  (ws_alloc demo_conf demo_ram 100 = Ok (demo_ram, None) /\
     find_ram demo_ram (ROUND 100 8) 8 0 0 = NULL_PADDR_STARTUP) \/
  exists s' p, ws_alloc demo_conf demo_ram 100 = Ok (s', Some p) /\ ws_block demo_ram s' p (ROUND 100 8).
Proof.
  apply ws_alloc_correct.
  - split; [|discriminate]. exists [(0x10800000, 0x10840000)]. split; [reflexivity|].
    split; [discriminate|apply demo_ram_inv].
  - exact demo_ram_inv.
  - lia.
  - vm_compute. reflexivity.
  - lia.
  - vm_compute. congruence.
  - discriminate.
Defined.

Lemma avoid_ram_overflow_witness :
  avoid_ram demo_conf (with_avoid demo_ram (replicate 127 (0x1000, 0x2000))) 0x40000000 4096 = Err BadAccess.
Proof.
  apply (avoid_ram_overflow demo_conf _ (replicate 127 (0x1000, 0x2000)) 0x40000000 4096 0x1000 0x2000);
    [reflexivity|reflexivity|reflexivity|lia].
Defined.

(** ** Page tables *)

(** The short descriptor format: bit 0 alone is a page table, bit 1 a section. *)
Definition demo_consts : mmu_consts := {|
  ARM_L1_PT := 1;
  ARM_L1_VALID := fun x => Z.testbit x 0 || Z.testbit x 1;
  ARM_L1_SCN := fun x => Z.testbit x 1;
  ARM_L2_nG := 2048; ARM_L2_S := 1024; ARM_SP_XN := 1; ARM_SP_ATTR_MASK := 460;
  ARM_SP_DEV := 4; ARM_SP_SO := 0; ARM_SP_NC := 64; ARM_SP_WA := 76; ARM_SP_WT := 8;
  ARM_SCN_WA := 4108; ARM_SCN_XN := 16; ARM_SCN_S := 65536;
  ARM_TTBR_WA := 72; ARM_TTBR_WT := 144; ARM_TTBR_S := 2;
  PROT_READ := 256; PROT_WRITE := 512; PROT_EXEC := 1024; PROT_USER := 4096;
  PROT_NOCACHE := 2048; PROT_DEVICE := 8192; PROT_PGTBL := 16384;
  ARM_STARTUP_BASE := 0xff800000; ARM_KPTP_BASE := 0xffc00000
|}.

Definition demo_glob : mmu_config :=
  {| num_cpu := 1; flags1_virtual := true; shdr_paddr := 0x10800000; shdr_size := 0x40000; mpidr_mp := false |}.

(** A megabyte of free memory for page tables; the first-level table is elsewhere. *)
Definition demo_pool : ram_state :=
  mk_rs [(0x30000000, 0x100000)] None 0 NULL_PADDR_STARTUP false [] [] [] demo_as0.

#[local] Instance demo_pages : PageAlloc ram_state := ram_alloc demo_conf demo_hdr.
#[local] Instance demo_pages_laws : PageAllocLaws ram_state := ram_alloc_laws demo_conf demo_hdr.

Definition demo_mmu : mmu_state ram_state :=
  mk_mmu ∅ demo_pool 0xfc404000 0x10004000 0x10010000 0 0 0 0 (mk_pte 560 48 528 16 0 0 0 0 0) [0] [] 0.

Lemma testbit_low x i k : 0 <= i < k -> x mod 2 ^ k = 0 -> Z.testbit x i = false.
Proof. intros Hi Hx. rewrite <- (Z.mod_pow2_bits_low x k i), Hx by lia. apply Z.bits_0. Qed.

Lemma demo_consts_ok : consts_ok demo_consts.
Proof.
  split.
  - cbn. lia.
  - intros x Hx _. cbn [ARM_L1_VALID ARM_L1_PT demo_consts]. by rewrite !Z.lor_spec, orb_true_r.
  - reflexivity.
  - intros x Hx _. cbn [ARM_L1_SCN ARM_L1_PT demo_consts]. rewrite Z.lor_spec.
    by rewrite (testbit_low x 1 10).
  - repeat (apply Forall_cons; split); try apply Forall_nil; cbn; lia.
Qed.

Lemma demo_pool_free x : pa_free demo_pool x <-> 0x30000000 <= x < 0x30100000.
Proof. cbn. lia. Qed.

Lemma demo_mmu_inv :
  mmu_inv demo_consts demo_glob demo_mmu (fun _ => True) (fun _ _ => None).
Proof.
  split; try discriminate.
  - cbn. unfold ARM_L1_SIZE, PAGESIZE. lia.
  - cbn. unfold ARM_L1_SIZE, PAGESIZE. lia.
  - repeat (apply Forall_cons; split); try apply Forall_nil; cbn; lia.
  - intros c g Hc Hg _ _. unfold rd, demo_mmu. cbn [mm_mem]. by rewrite lookup_empty.
  - intros x Hx. cbn [mm_alloc demo_mmu]. rewrite demo_pool_free. revert Hx. unfold in_tables. cbn.
    unfold ARM_L1_SIZE, PAGESIZE. lia.
  - split; [|reflexivity]. split.
    + split; repeat (constructor; repeat (apply Forall_cons; split); try apply Forall_nil);
        vm_compute; repeat split; congruence.
    + intros x. cbn. lia.
    + apply Forall_nil. done.
Qed.

Lemma v7_map_witness :
  exists s' tbl', v7_map demo_consts demo_glob demo_mmu 0x80000000 0x20000000 0x2000 768
      = Ok (s', 0x80000000) /\
    mmu_inv demo_consts demo_glob s' (fun _ => True) tbl' /\
    (forall c x, is_cpu demo_glob c -> 0x80000000 <= x < 0x80002000 ->
       translate demo_consts s' c x = 0x20000000 + (x - 0x80000000)).
Proof.
  destruct (v7_map_correct demo_consts demo_glob demo_consts_ok ltac:(cbn; lia) demo_mmu (fun _ => True)
    (fun _ _ => None) 0x80000000 0x20000000 0x2000 768) as (s' & tbl' & Hr & Hinv & Hmap & _).
  - exact demo_mmu_inv.
  - reflexivity.
  - unfold fits. lia.
  - lia.
  - vm_compute. congruence.
  - reflexivity.
  - vm_compute. reflexivity.
  - vm_compute. reflexivity.
  - vm_compute. congruence.
  - intros g _. split; [exact I|]. right. intros. reflexivity.
  - right. exists 1%nat. split; [|vm_compute; congruence]. cbn [can_alloc].
    eexists _, _. split; [vm_compute; reflexivity|]. split; [discriminate|exact I].
  - exists s', tbl'. split; [exact Hr|]. split; [exact Hinv|exact Hmap].
Defined.
