(* ===== verification/DemoHwinfo.v ===== *)
(** * DemoHwinfo: the hardware-information section on a concrete page.

    The structures as the SDK lays them out, the searches by the reader of HwinfoWalk.v, and the page
    of DemoMem.v. *)

From S2P Require Import Prelude.
From S2P Require Import Sections.
From S2P Require Import Syspage.
From S2P Require Import Strings.
From S2P Require Import Hwinfo.
From S2P Require Import HwinfoTags.
From S2P Require Import HwinfoItems.
From S2P Require Import HwinfoOps.
From S2P Require Import HwinfoSet.
From S2P Require Import HwinfoWalk.
From S2P Require Import DemoMem.

#[export] Instance demo_header : HwiHeader := {|
  prefix_size := mk_fd 0 2; prefix_name := mk_fd 2 2;
  item_itemsize := mk_fd 4 2; item_itemname := mk_fd 6 2; item_owner := mk_fd 8 2; item_kids := mk_fd 10 2;
  t_pad := mk_ti (chars "pad") 4 4; t_group := mk_ti (chars "Group") 12 4; t_bus := mk_ti (chars "Bus") 12 4;
  t_device := mk_ti (chars "Device") 16 4; t_synonym := mk_ti (chars "Synonym") 16 4;
  t_location := mk_ti (chars "location") 24 8; t_irq := mk_ti (chars "irq") 8 4;
  t_irqrange := mk_ti (chars "irqrange") 12 4; t_inputclk := mk_ti (chars "inputclk") 12 4;
  t_nicphyaddr := mk_ti (chars "nicphyaddr") 8 4; t_regname := mk_ti (chars "regname") 8 4;
  t_busattr := mk_ti (chars "busattr") 16 4; t_errata := mk_ti (chars "errata") 8 4;
  t_dma := mk_ti (chars "dma") 8 4; t_dll := mk_ti (chars "dll") 8 4; t_optstr := mk_ti (chars "optstr") 8 4;
  t_nanospin := mk_ti (chars "nanospin") 12 4;
  TAG_NAME_nicaddr := chars "nicaddr"; TAG_ALIGN_nicaddr := 4;
  device_pnpid := mk_fd 12 4; synonym_real := mk_fd 12 2;
  location_base := mk_fd 8 8; location_len := mk_fd 16 8; location_regshift := mk_fd 4 2;
  location_addrspace := mk_fd 6 2;
  irq_vector := mk_fd 4 4; irqrange_irq := mk_fd 4 4; irqrange_num := mk_fd 8 4;
  inputclk_clk := mk_fd 4 4; inputclk_div := mk_fd 8 4;
  nicaddr_len := mk_fd 4 4; nicaddr_addr := 8; nicphyaddr_addr := mk_fd 4 4;
  regname_regname := mk_fd 4 2; regname_offset := mk_fd 6 2;
  busattr_speed := mk_fd 4 4; busattr_width := mk_fd 14 1; busattr_addr := mk_fd 12 2; busattr_flags := mk_fd 8 4;
  errata_num := mk_fd 4 4; dma_chnl := mk_fd 4 4; dll_name := mk_fd 4 2; optstr_string := mk_fd 4 2;
  nanospin_hundred_loop_time := mk_fd 4 4; nanospin_overhead := mk_fd 8 4;
  HWI_NULL_OFF := 65535; HWI_ILLEGAL_VECTOR := 2 ^ 32 - 1;
  ITEM_ROOT_HW := chars "hw"; ITEM_BUS_UNKNOWN := chars "unknown"; ITEM_DEVCLASS_RTC := chars "rtc";
  ITEM_DEVCLASS_MISC := chars "misc"; ITEM_BUS_CAN := chars "can"; ITEM_BUS_I2C := chars "i2c";
  ITEM_BUS_PCI := chars "pci"; ITEM_BUS_SDIO := chars "sdio"; ITEM_BUS_SPI := chars "spi";
  ITEM_BUS_USB := chars "usb"
|}.

Ltac is_name := split_and!; [name_ok|vm_compute; congruence|vm_compute; congruence].
Ltac placed := unfold fd_ok, mem_ok, mem_in, mem_apart, fd_in; vm_compute; intuition congruence.
Ltac info_ok := split; cbn [ti_name ti_align ti_size];
  [is_name|tauto|vm_compute; intuition congruence|reflexivity|placed|placed].

Lemma demo_header_ok : header_ok.
Proof.
  split.
  - split_and!; [info_ok|done|done].
  - by repeat constructor.
  - unfold hdr_fields. repeat (constructor; [repeat (constructor; [placed|]); constructor|]). constructor.
  - done.
Qed.

Lemma demo_tags_ok : tags_ok.
Proof.
  assert (Htag : forall ti, ti_ok ti -> ti_name ti <> ti_name t_pad -> tag_ti ti) by (by split).
  split.
  - unfold tag_fields. repeat (constructor; [split; [apply Htag; [info_ok|vm_compute; congruence]|
      repeat (constructor; [placed|]); constructor]|]). constructor.
  - repeat (constructor; [split; [apply Htag; [info_ok|vm_compute; congruence]|
      unfold hdr_fields; repeat (constructor; [placed|]); constructor]|]). constructor.
  - split; [placed|]. unfold hdr_fields. repeat (constructor; [placed|]). constructor.
  - split_and!; [apply Htag; [info_ok|vm_compute; congruence]|placed|placed].
  - repeat (constructor; [is_name|]). constructor.
Qed.

Lemma demo_irq_alone : irq_alone.
Proof.
  split.
  - cbn. repeat (constructor; [vm_compute; congruence|]). constructor.
  - split; vm_compute; congruence.
Qed.

#[export] Instance demo_laws : HwiLibcLaws := walk_laws demo_header_ok.

(** The empty section of a fresh page, and with the first two items. *)
Definition demo_hw0 : hwi_state syspage := mk_hw demo_page 0 0.

Lemma demo_hw0_rep : hw_rep demo_hw0 [] [].
Proof.
  split.
  - apply demo_page_ok.
  - apply (demo_has SEC_hwinfo). vm_compute. lia.
  - apply (demo_has SEC_strings). vm_compute. lia.
  - exact demo_strings.
  - constructor.
  - constructor.
  - intros j i Hi. discriminate Hi.
  - exact I.
  - exists (zlen (hw_bytes demo_hw0)). split; [apply zlen_nonneg|]. vm_compute. reflexivity.
  - reflexivity.
  - reflexivity.
Qed.

Lemma demo_credit : credit 60 demo_hw0 [] [].
Proof. unfold credit. vm_compute. intuition congruence. Qed.

Definition demo_items (pads : list tag) : list item :=
  [mk_item t_group ITEM_ROOT_HW HWI_NULL_OFF 1 [] pads; fresh_item t_bus ITEM_BUS_UNKNOWN 0].

Lemma demo_section : exists s names pads,
  hw_rep s names (demo_items pads) /\ credit 54 s names (demo_items pads).
Proof.
  destruct (hwi_default_run demo_header_ok demo_tags_ok demo_hw0 54 [] demo_hw0_rep demo_credit) as
    (s & names & pads & _ & _ & [R C _ _]).
  by exists s, names, pads.
Qed.

Definition demo_enet : enet_attr :=
  mk_enet (mk_common 0x02188000 0x4000 0 0 None (Some (chars "verbose")) 1 0 0) [2; 0; 0; 0; 0; 1] 1 2.

Lemma demo_enet_ok : enet_ok demo_enet.
Proof. split; [split; [done|is_name]|done]. Qed.

Lemma hwi_alloc_item_witness : exists s names pads s' off,
  hw_rep s names (demo_items pads) /\ hwi_alloc_item t_bus (chars "internal") 0 s = Ok (off, s').
Proof.
  destruct demo_section as (s & names & pads & Hrep & Hcr). exists s, names, pads.
  destruct (hwi_alloc_item_correct demo_header_ok s 51 names (demo_items pads) t_bus (chars "internal") (Some 0%nat))
    as (s' & _ & its1 & Hrun & _); [exact Hrep|exact Hcr|apply (item_tis demo_tags_ok); set_solver|is_name|cbn; lia|].
  exists s', (its_size its1). split; [exact Hrep|exact Hrun].
Defined.

Lemma hwidev_add_enet_witness : exists s names pads s' off,
  hw_rep s names (demo_items pads) /\
  hwidev_add_enet (chars "fec") (Some demo_enet) (item_at (demo_items pads) 1) s = Ok (off, s').
Proof.
  destruct demo_section as (s & names & pads & Hrep & Hcr). exists s, names, pads.
  destruct (hwidev_add_enet_correct demo_header_ok demo_tags_ok s 20 names (demo_items pads) 1 (chars "fec") demo_enet)
    as (s' & _ & its1 & _ & Hrun & _); [exact Hrep|cbn; lia| |is_name|exact demo_enet_ok|].
  - unfold credit in *. cbn in Hcr |- *. lia.
  - exists s', (its_size its1). split; [exact Hrep|exact Hrun].
Defined.

Lemma enet_with_vector_witness : exists s names pads s',
  hw_rep s names (demo_items pads) /\
  (off ← hwidev_add_enet (chars "fec") (Some demo_enet) (item_at (demo_items pads) 1);
   hwitag_set_avail_ivec off (-1) 150) s = Ok (0, s').
Proof.
  destruct demo_section as (s & names & pads & Hrep & Hcr). exists s, names, pads.
  destruct (enet_with_vector_correct demo_header_ok demo_tags_ok demo_irq_alone s 20 names (demo_items pads) 1
    (chars "fec") demo_enet 150) as (s' & _ & _ & _ & Hrun & _);
    [exact Hrep|cbn; lia| |is_name|exact demo_enet_ok|done|].
  - unfold credit in *. cbn in Hcr |- *. lia.
  - exists s'. split; [exact Hrep|exact Hrun].
Defined.

Lemma hwitag_set_avail_ivec_witness : exists s names pads,
  hw_rep s names (demo_items pads) /\ hwitag_set_avail_ivec (item_at (demo_items pads) 1) 0 150 s = Ok (-1, s).
Proof.
  destruct demo_section as (s & names & pads & Hrep & Hcr). exists s, names, pads. split; [exact Hrep|].
  destruct (hwitag_set_avail_ivec_correct demo_header_ok demo_tags_ok demo_irq_alone s names (demo_items pads) 54 1
    (fresh_item t_bus ITEM_BUS_UNKNOWN 0) 0 150) as [(k & a & b & _ & _ & Habs & _)|[_ Hrun]];
    [exact Hrep|exact Hcr|reflexivity|constructor|vm_compute; congruence|by destruct a|exact Hrun].
Defined.

(** [hwi_grow_tag] does not advance the static offset its parameter hides: a tag that has grown to 16
    bytes is followed, 8 bytes after its start, by the next one. *)
Example grow_tag_overlaps :
  exists s, (_ ← hwi_default; t ← hwi_alloc_tag t_irq; _ ← hwi_grow_tag t 8; n ← member t prefix_size;
             u ← hwi_alloc_tag t_irq; mret (4 * n, u - t)) demo_hw0 = Ok (16, 8, s).
Proof. eexists. vm_compute. reflexivity. Qed.

(** Run as the board code runs it, with the C library's searches by the reader. *)
Example demo_board :
  exists s, (_ ← hwi_default; bus ← hwibus_add (chars "internal") HWI_NULL_OFF;
             off ← hwidev_add_enet (chars "fec") (Some demo_enet) HWI_NULL_OFF;
             r ← hwitag_set_avail_ivec off (-1) 150;
             r2 ← hwitag_set_avail_ivec off (-1) 151;
             u ← hwi_add_synonym off (chars "eth");
             mret (bus, r, r2)) demo_hw0 = Ok (24, 0, -1, s).
Proof. eexists. vm_compute. reflexivity. Qed.
