(* ===== verification/DemoFat.v ===== *)
(** * DemoFat: the theorems on the FAT reader at a small card. *)

From S2P Require Import Prelude.
From S2P Require Import Sections.
From S2P Require Import Fat.

Definition patch (off : Z) (bs m : list Z) : list Z := splice m off bs.

Definition file_name : list Z := chars "KERNEL  IFS".

(** A FAT16 volume: FAT in sector 1, root directory in sector 3, cluster 2 in sector 4, with a file of
    600 bytes in clusters 2 and 3; and a FAT32 volume: FAT in sector 8, cluster 2 -- its root
    directory -- in sector 10, with a file of 100 bytes in cluster 3. *)
Definition demo_sector (n : Z) : list Z :=
  if n =? 1 then patch 4 [3; 0; 255; 255] (zeros 512)
  else if n =? 3 then patch 0 file_name (patch 26 [2; 0; 88; 2; 0; 0] (zeros 512))
  else if n =? 4 then patch 0 [1; 2; 3] (zeros 512)
  else if n =? 8 then patch 8 [255; 255; 255; 15; 255; 255; 255; 15] (zeros 512)
  else if n =? 10 then patch 0 file_name (patch 26 [3; 0; 100; 0; 0; 0] (zeros 512))
  else zeros 512.

#[local] Instance demo_card : BlockDevice unit := {
  bd_read := fun d b n => (d, Some (concat (map (fun i => demo_sector (b + Z.of_nat i)) (seq 0 (Z.to_nat n)))));
  bd_sector := fun _ n => demo_sector n;
  bd_size := fun _ => 2 ^ 16;
  bd_max := 2 ^ 16;
  bd_good := fun _ => True
}.

#[local] Instance demo_card_laws : BlockDeviceLaws unit.
Proof.
  split; [|done|done|done]. intros d n _. cbn [bd_sector demo_card]. unfold demo_sector.
  repeat case_match; vm_compute; reflexivity.
Qed.

Definition demo_fs16 : fs_info := mk_fs 0 TYPE_FAT16 0 1 0 0 1 2 1 5000 1 2 3 16 4.
Definition demo_fs32 : fs_info := mk_fs 0 TYPE_FAT32 0 0 0 0 1 2 1 70000 8 9 2 0 10.

Definition demo_fat (f : fs_info) : fat_st unit := mk_fat f (zeros 1024) (2 ^ 32 - 1) false tt [].

Lemma demo_ready f : fs_ok f 20 (2 ^ 16) -> fat_ready 20 (demo_fat f).
Proof. intros Hf. split; [exact I|exact Hf|vm_compute; reflexivity]. Qed.

Ltac demo_size := split; [lia|vm_compute; congruence].

(** Both lie on a device of 2048 sectors. *)
Ltac solve_fs_ok :=
  split; cbn; unfold TYPE_FAT16, TYPE_FAT32 in *; try change (20 / 128) with 0; try tauto; lia.

Lemma demo_fs16_ok sz : 2048 <= sz < 2 ^ 32 -> fs_ok demo_fs16 20 sz.
Proof. intros. solve_fs_ok. Qed.

Lemma demo_fs32_ok sz : 2048 <= sz < 2 ^ 32 -> fs_ok demo_fs32 20 sz.
Proof. intros. solve_fs_ok. Qed.

(** A boot sector of 8 sectors per cluster and 70000 sectors: FAT16. *)
Definition demo_boot : list Z :=
  patch 11 [0; 2; 8; 1; 0; 2; 0; 2; 0; 0; 248; 40; 0] (patch 32 [112; 17; 1; 0] (patch 510 [85; 170] (zeros 1024))).

Lemma fat_detect_type_witness :
  exists s', fat_detect_type (mk_fat demo_fs16 demo_boot 0 false tt []) 0 = Ok (s', Some 16).
Proof.
  destruct (fat_detect_type_correct (mk_fat demo_fs16 demo_boot 0 false tt []) 0) as (s' & Hr & _).
  - vm_compute. reflexivity.
  - vm_compute. reflexivity.
  - vm_compute. reflexivity.
  - exists s'. exact Hr.
Defined.

Lemma fat_copy_file_witness :
  file_copied 20 (demo_fat demo_fs16) 2 600 (fat_copy_file (demo_fat demo_fs16) 2 600).
Proof.
  apply fat_copy_file_correct.
  - apply demo_ready, demo_fs16_ok; lia.
  - demo_size.
  - change (chain_ok 20 [2; 3]). repeat (apply Forall_cons; split); try apply Forall_nil; lia.
Defined.

Lemma demo_found16 :
  default None (dir_find (dir_entries tt demo_fs16 3 1) file_name false) = Some (2, 600).
Proof. vm_compute. reflexivity. Qed.

Lemma demo_found32 : dir_find32 tt demo_fs32 [2] file_name = Some (3, 100).
Proof. vm_compute. reflexivity. Qed.

Lemma copy_named_file_fat16_witness :
  search_result 20 (demo_fat demo_fs16) (Some (2, 600)) (copy_named_file_fat16 (demo_fat demo_fs16) file_name).
Proof.
  pose proof (copy_named_file_fat16_correct 20 (demo_fat demo_fs16) file_name) as Hf.
  cbn [dev fs demo_fat root_dir_start root_dir_sectors demo_fs16 Z.to_nat] in Hf.
  change (Z.to_nat 1) with 1%nat in Hf. fold demo_fs16 in Hf. cbv zeta in Hf. rewrite demo_found16 in Hf.
  apply Hf.
  - apply demo_ready, demo_fs16_ok; lia.
  - cbn. lia.
  - cbn. lia.
  - cbn. lia.
  - split; [demo_size|]. change (chain_ok 20 [2; 3]).
    repeat (apply Forall_cons; split); try apply Forall_nil; lia.
Defined.

Lemma copy_named_file_fat32_witness :
  search_result 20 (demo_fat demo_fs32) (Some (3, 100)) (copy_named_file_fat32 (demo_fat demo_fs32) file_name).
Proof.
  pose proof (copy_named_file_fat32_correct 20 (demo_fat demo_fs32) file_name 1) as Hf. cbv zeta in Hf.
  change (follow (dev (demo_fat demo_fs32)) (fs (demo_fat demo_fs32))
    (root_dir_start (fs (demo_fat demo_fs32))) 1) with [2] in Hf.
  change (dir_find32 (dev (demo_fat demo_fs32)) (fs (demo_fat demo_fs32)) [2] file_name)
    with (dir_find32 tt demo_fs32 [2] file_name) in Hf.
  rewrite demo_found32 in Hf. apply Hf.
  - apply demo_ready, demo_fs32_ok; lia.
  - reflexivity.
  - reflexivity.
  - cbn. lia.
  - apply Forall_singleton. split; [cbn; lia|vm_compute; reflexivity].
  - vm_compute. reflexivity.
  - split; [demo_size|]. change (chain_ok 20 [3]). apply Forall_singleton. lia.
Defined.
