(* ===== verification/DemoSdmmc.v ===== *)
(** * DemoSdmmc: a simulated host controller, and the theorems on the SD/MMC driver at small cards. *)

From S2P Require Import Prelude.
From S2P Require Import Sections.
From S2P Require Import Sdmmc.
From S2P Require Import SdmmcCard.
From S2P Require Import SdmmcCsd.
From S2P Require Import SdmmcInit.
From S2P Require Import SdmmcRead.
From S2P Require Import DemoFat.

(** ** A controller that carries out what it is asked, four blocks at most at a time *)

Definition sim : Type := bus_card * list Z.

Definition sim_send : M sim (option (list Z)) := fun '(s, (c, m)) =>
  let k := sd_cmd s in
  if bsize k =? 0 then
    let '(c', r) := card_send c (Sdmmc.cmd k) (Sdmmc.arg k) in
    Ok (option_map (fun v => if rsp k then v else []) r, (s, (c', m)))
  else
    match first_block (c_info c) (Sdmmc.arg k) with
    | Some b => Ok (Some [], (s, (c, splice m (dbuf k) (card_sectors (c_info c) b (bcnt k)))))
    | None => Ok (None, (s, (c, m)))
    end.

Definition sim_pio (n : Z) : M sim (option (list Z)) := fun '(s, (c, m)) =>
  let '(c', r) := card_pio c (Sdmmc.cmd (sd_cmd s)) (Sdmmc.arg (sd_cmd s)) n in Ok (r, (s, (c', m))).

#[local] Instance sim_bus : HostBus sim := {
  hb_card := fst; hb_mem := snd; hb_good := fun _ => True; hb_max := 2 ^ 16; hb_icr := 0x00ff8000; hb_ocr := 0x00ff8000
}.

#[local] Instance sim_host : HostController sim := {
  hc_set_clk := fun _ w => Ok (tt, w);
  hc_set_bus_width := fun _ w => Ok (tt, w);
  hc_set_bus_mode := fun _ w => Ok (tt, w);
  hc_set_timing := fun _ w => Ok (tt, w);
  hc_send_cmd := sim_send;
  hc_pio_read := sim_pio;
  hc_init_hc := fun '(s, h) => Ok (SDMMC_OK, (mk_sdmmc hb_icr hb_ocr (caps s) (sd_cmd s) (Sdmmc.card s) (cid s) (csd s)
    (scr s) (mmc_ecsd s) (timing s), h));
  hc_dinit_hc := fun w => Ok (SDMMC_OK, w);
  hc_max_blks := fun w => Ok (4, w)
}.

Lemma sim_ends {A} (a : A) s (h : sim) : ends (Ok (a, (s, h))) a s (fst h) (snd h).
Proof. by exists s, h. Qed.

#[local] Instance sim_laws : HostLaws sim.
Proof.
  split; try (intros; apply sim_ends).
  - vm_compute. split; congruence.
  - vm_compute. congruence.
  - intros w. exists 4. split; [done|]. vm_compute. reflexivity.
  - intros s [c m] _ Hb _ _. cbn [hb_card hb_mem sim_bus fst snd hc_send_cmd sim_host]. unfold sim_send. rewrite Hb.
    change (0 =? 0) with true. cbn iota. destruct (card_send _ _ _) as [c' r]. apply (sim_ends _ s (c', m)).
  - intros s [c m] n _ _ _ _. cbn [hb_card hb_mem sim_bus fst snd hc_pio_read sim_host]. unfold sim_pio.
    destruct (card_pio _ _ _ _) as [c' r]. apply (sim_ends _ s (c', m)).
  - intros s [c m] b n k c0 _ _ Hb Hn _ _ _ _ Hfb _ _ _ _. cbn [hc_send_cmd sim_host]. unfold sim_send.
    fold k. rewrite Hb. change (512 =? 0) with false. cbn iota. unfold c0 in Hfb. cbn [hb_card sim_bus fst] in Hfb.
    rewrite Hfb, Hn. apply (sim_ends _ s (c, _)).
Qed.

(** ** Cards *)

(** A high-capacity SD card of 2048 blocks with the volumes of DemoFat.v, and an MMC card of the same
    size; the MMC card shows programming for one poll after a switch. *)
Definition demo_info (kd : kind) : card_info := {|
  ci_kind := kd; ci_addr := 0x1234; ci_ocr := 0x00300000; ci_busy := 1;
  ci_cid := [256; 2; 3; 4];
  ci_csd := if is_sd kd then [0; 0x00010000; 0x00090000; 0x40000000] else [0; 0xc0038000; 0x0009007f; 0x10000000];
  ci_scr := zeros 8; ci_sf := fun _ => zeros 64; ci_ecsd := zeros 512;
  ci_blocks := 2 ^ 18; ci_sector := demo_sector
|}.

Definition demo_card_on (kd : kind) : bus_card := mk_bus (demo_info kd) 5 true 77 3 2.

(** The bus with such a card, and [n] bytes of memory. *)
Definition demo_bus (kd : kind) (n : Z) : sim := (demo_card_on kd, zeros n).

Definition demo_sdmmc : sdmmc_t :=
  mk_sdmmc 0 0 0 cmd0 (mk_card 0 NONE 0 0 0 0 0 0 0) (mk_cid 0 0 [] 0 0 0) (mk_csd 0 0 0 0 0 0 0)
    (mk_scr 0 0 0 0) (mk_ecsd 0 0) 0.

(** The driver at work: the state of the card, its type and its blocks, after initialisation. *)
Definition demo_run (kd : kind) : option (Z * card_type_t * Z * Z) :=
  match sdmmc_init_sd 10 (demo_sdmmc, demo_bus kd 16) with
  | Ok (0, (s, (c, _))) => Some (c_state c, type (Sdmmc.card s), blk_num (Sdmmc.card s), rca (Sdmmc.card s))
  | _ => None
  end.

Example demo_run_sdhc : demo_run SdHC = Some (4, eSDC_HC, 2048, 0x1234).
Proof. vm_compute. reflexivity. Qed.

Example demo_run_mmc : demo_run Mmc = Some (4, eMMC, 262144, 1).
Proof. vm_compute. reflexivity. Qed.

Lemma zeros_ok n : 0 <= n -> bytes_ok n (zeros n).
Proof. intros. split; [by apply zlen_zeros|]. apply Forall_replicate. unfold fits. lia. Qed.

Lemma demo_info_ok kd : info_ok (demo_info kd).
Proof.
  split; [vm_compute; split; congruence|vm_compute; split; congruence| | |
    apply zeros_ok; lia|intros ?; apply zeros_ok; lia|apply zeros_ok; lia|].
  - exists 256, 2, 3, 4. split_and!; first [unfold fits; lia|vm_compute; reflexivity].
  - destruct kd; do 4 eexists; (split; [reflexivity|]); split_and!; first [unfold fits; lia|vm_compute; reflexivity].
  - intros n. cbn [ci_sector demo_info]. unfold demo_sector. repeat case_match; vm_compute; reflexivity.
Qed.

Lemma demo_csd_ok kd : csd_ok (demo_info kd).
Proof.
  split. cbn [ci_csd ci_kind ci_blocks demo_info].
  destruct kd; cbn [is_sd by_block]; do 4 eexists; (split; [reflexivity|]);
    split_and!; first [by left|right; vm_compute; congruence|vm_compute;
      first [reflexivity|split; congruence|congruence|intros _; congruence]].
Qed.

Lemma demo_card_ok kd : card_ok 10 (demo_card_on kd).
Proof.
  split_and!; [apply demo_info_ok|apply demo_csd_ok| |apply Nat.ltb_lt; vm_compute; reflexivity|cbn; lia].
  split; vm_compute; [split; congruence|congruence].
Qed.

Definition demo_csd : Z := register 0 0xc0038000 0x0009007f 0x10000000.

Example demo_capacity : csd_capacity false demo_csd = 262144.
Proof. vm_compute. reflexivity. Qed.

Lemma csd_capacity_witness :
  let n := driver_blocks (Sdmmc.card (mmc_parse_csd 0 0xc0038000 0x0009007f 0x10000000 demo_sdmmc)) in
  0 < n < 2 ^ 28 /\ n = csd_capacity false demo_csd.
Proof.
  apply (csd_capacity_correct false 0 0xc0038000 0x0009007f 0x10000000 demo_sdmmc); [unfold fits; lia..|].
  right. vm_compute. congruence.
Defined.

(** A card of 64G is taken for one of 32G. *)
Example large_card :
  let r := (0, 0xffff0000, 0x00090001, 0x40000000) in
  let '(r0, r1, r2, r3) := r in
  csd_capacity true (register r0 r1 r2 r3) = 2 ^ 27 /\
  driver_blocks (Sdmmc.card (sd_parse_csd r0 r1 r2 r3 demo_sdmmc)) = 2 ^ 26.
Proof. by vm_compute. Qed.

Lemma sdmmc_init_sd_witness :
  exists s' h', sdmmc_init_sd 10 (demo_sdmmc, demo_bus SdHC 16) = Ok (SDMMC_OK, (s', h')) /\
    ready (s', h') (demo_info SdHC) (zeros 16).
Proof. refine (sdmmc_init_sd_correct 10 demo_sdmmc (demo_bus SdHC 16) _ _); [lia|apply demo_card_ok]. Defined.

Lemma sdmmc_init_mmc_witness :
  exists s' h', sdmmc_init_mmc 10 (demo_sdmmc, demo_bus Mmc 16) = Ok (SDMMC_OK, (s', h')) /\
    ready (s', h') (demo_info Mmc) (zeros 16).
Proof.
  refine (sdmmc_init_mmc_correct 10 demo_sdmmc (demo_bus Mmc 16) _ _ _); [lia|apply demo_card_ok|reflexivity].
Defined.

Lemma demo_counted n : counted (demo_info SdHC) n -> n = 2048.
Proof. intros (r0 & r1 & r2 & r3 & [= <- <- <- <-] & -> & _). vm_compute. reflexivity. Qed.

(** Six blocks, in two transfers. *)
Lemma sdmmc_read_witness :
  exists w w', sdmmc_read 10 100 2 6 w = Ok (SDMMC_OK, w') /\
    ready w' (demo_info SdHC) (splice (zeros 4096) 100 (card_sectors (demo_info SdHC) 2 6)).
Proof.
  destruct (sdmmc_init_sd_spec 10 demo_sdmmc (demo_bus SdHC 4096)) as (s' & h' & _ & Hr);
    [lia|apply demo_card_ok|].
  exists (s', h').
  destruct (sdmmc_read_correct 10 (s', h') (demo_info SdHC) (zeros 4096) 100 2 6) as (n & Hn & Hrd);
    [exact Hr|apply demo_info_ok|vm_compute; congruence|unfold fits; lia|unfold fits; lia|lia|vm_compute; congruence|].
  rewrite (demo_counted _ Hn) in Hrd. apply Hrd. unfold hb_max; cbn; lia.
Defined.
