(* ===== verification/DemoMx.v ===== *)
(** * DemoMx: a concrete i.MX6 host controller with an SD card in its slot, and the theorems on the
    whole path of a file at it. *)

From S2P Require Import Prelude.
From S2P Require Import Sections.
From S2P Require Import Fat.
From S2P Require Import Sdmmc.
From S2P Require Import SdmmcCard.
From S2P Require Import SdmmcInit.
From S2P Require Import SdmmcDisk.
From S2P Require Import MxSdhc.
From S2P Require Import MxDevice.
From S2P Require Import MxDisk.
From S2P Require Import DemoFat.
From S2P Require Import DemoSdmmc.

(** The controller takes two reads to settle after every write. *)
Record demo_dev := mk_dev { d_setup : mx_setup; d_out : mx_outcome; d_busy : nat }.

Definition dev_view (r : demo_dev) : mx_setup :=
  set_sys (d_setup r) (Z.land (v_rst (d_setup r)) RESET_BITS) (v_clk (d_setup r)).
Definition dev_busy (r : demo_dev) : nat := Nat.min (d_busy r) 2.

Definition dev_in (g : Z) (r : demo_dev) : Z * demo_dev :=
  let u := dev_view r in
  let o := d_out r in
  let idle := Nat.eqb (dev_busy r) 0 in
  let tick := mk_dev u o (pred (dev_busy r)) in
  if g =? MX_MMCSYSCTL then
    let u' := if idle then set_sys u 0 (v_clk u) else u in
    (Z.lor (v_rst u') (if v_clk u then MMCSYSCTL_SDCLKEN else 0), mk_dev u' o (pred (dev_busy r)))
  else if g =? MX_MMCDATAPORT then
    (le_word (take 4 (v_fifo o)), mk_dev u (mk_outcome (v_int o) (v_rsp o) (drop 4 (v_fifo o))) (d_busy r))
  else if g =? MX_MMCPRSNTST then (if idle then MMCPRSNTST_SDSTB else 7, tick)
  else if g =? MX_MMCINTRST then (if idle then v_int o else 0, tick)
  else if g =? MX_MMCCMDRSP0 then (nth 0 (v_rsp o) 0, tick)
  else if g =? MX_MMCCMDRSP1 then (nth 1 (v_rsp o) 0, tick)
  else if g =? MX_MMCCMDRSP2 then (nth 2 (v_rsp o) 0, tick)
  else if g =? MX_MMCCMDRSP3 then (nth 3 (v_rsp o) 0, tick)
  else (0, tick).

Definition dev_powered (u : mx_setup) : bool := (v_rst u =? 0) && (v_en u =? ALL_STATUS) && v_clk u.
Definition no_answer : mx_outcome := mk_outcome MMCINTR_CTOE [] [].

(** A command. *)
Definition dev_command (u : mx_setup) (o : mx_outcome) (x : Z) : mx_setup * mx_outcome :=
  if negb (dev_powered u) then (u, o)
  else if negb (has x MMCCMDXTYPE_DPSEL) then
    let '(c, w) := card_cmd (v_card u) (index_of x) (v_arg u) in
    (set_bus u c (v_mem u), match w with Some w => mk_outcome MMCINTR_CC (on_wire x w) [] | None => no_answer end)
  else if Z.land (v_mix u) (Z.lor DMA_READ MULTI) =? MMCMIXCTRL_DTDSEL then
    let '(c, l) := card_pio (v_card u) (index_of x) (v_arg u) (blk_bytes (v_blk u)) in
    (set_bus u c (v_mem u),
     match l with Some l => mk_outcome (Z.lor MMCINTR_CC MMCINTR_BRR) [] l | None => no_answer end)
  else
    match first_block (c_info (v_card u)) (v_arg u) with
    | Some b => (set_bus u (v_card u) (splice (v_mem u) (v_dma u)
                  (card_sectors (c_info (v_card u)) b (blk_count (v_blk u)))),
                 mk_outcome (Z.lor MMCINTR_CC MMCINTR_TC) [] [])
    | None => (u, no_answer)
    end.

Definition dev_out (g v : Z) (r : demo_dev) : demo_dev :=
  let u := dev_view r in
  let put u := mk_dev u (d_out r) 2 in
  if g =? MX_MMCSYSCTL then put (set_sys u (Z.land v RESET_BITS) (has v MMCSYSCTL_SDCLKEN))
  else if g =? MX_MMCCMDARG then put (set_arg u v)
  else if g =? MX_MMCBLATR then put (set_blk u v)
  else if g =? MX_MMCDMASYSADD then put (set_dma u v)
  else if g =? MX_MMCMIXCTRL then put (set_mixr u v)
  else if g =? MX_MMCINTRSTEN then put (set_en u v)
  else if g =? MX_MMCCMDXTYPE then let '(u', o') := dev_command u (d_out r) v in mk_dev u' o' 2
  else put u.

#[local] Instance demo_regs : MxDevice demo_dev := { in32 := dev_in; out32 := dev_out }.

Lemma rst_idem x : Z.land (Z.land x RESET_BITS) RESET_BITS = Z.land x RESET_BITS.
Proof. by rewrite <- Z.land_assoc. Qed.

Lemma view_idem r o n : dev_view (mk_dev (dev_view r) o n) = dev_view r.
Proof. unfold dev_view. cbn [d_setup set_sys v_rst v_clk]. rewrite rst_idem. done. Qed.

Lemma dev_powered_spec u : powered u -> dev_powered u = true.
Proof. intros (H1 & H2 & H3). unfold dev_powered. by rewrite H1, H2, H3. Qed.

(** A command, on a controller that is ready for it. *)
Lemma command_view u : v_rst u = Z.land (v_rst u) RESET_BITS -> forall o n, dev_view (mk_dev u o n) = u.
Proof. intros Hr o n. unfold dev_view. cbn [d_setup]. rewrite <- Hr. apply set_sys_id. Qed.

Lemma view_rst r : v_rst (dev_view r) = Z.land (v_rst (dev_view r)) RESET_BITS.
Proof. cbn [dev_view set_sys v_rst]. by rewrite rst_idem. Qed.

#[local] Instance demo_regs_laws : MxLaws demo_dev.
Proof.
  refine {| mx_view := dev_view; mx_out := d_out; mx_busy := dev_busy; mx_polls := 2 |}; cbn [in32 out32 demo_regs].
  - intros r. unfold dev_busy. lia.
  - intros g r H1 H2. cbv zeta. unfold dev_in. rewrite (proj2 (Z.eqb_neq g _) H1), (proj2 (Z.eqb_neq g _) H2).
    repeat case_match; cbn [snd d_out d_busy]; rewrite view_idem; unfold dev_busy; cbn [d_busy]; split_and!; try done; lia.
  - intros r Hr. cbv zeta. cbn. rewrite Hr. cbn. done.
  - intros r. cbv zeta. cbn -[Z.land]. destruct (decide _) as [Hr|Hr]; [by rewrite Hr|].
    destruct (dev_busy r); [done|]. by left.
  - intros r. done.
  - intros r. cbv zeta. cbn -[le_word dev_view]. split; [done|]. split; [by rewrite view_idem|done].
  - intros r. change (dev_in MX_MMCSYSCTL r) with
      (let u := dev_view r in let u' := if Nat.eqb (dev_busy r) 0 then set_sys u 0 (v_clk u) else u in
       (Z.lor (v_rst u') (if v_clk u then MMCSYSCTL_SDCLKEN else 0), mk_dev u' (d_out r) (pred (dev_busy r)))).
    cbv zeta. set (u := dev_view r). assert (Hu := view_rst r). fold u in Hu.
    assert (Hclk : forall x, Z.land x RESET_BITS = x -> has x MMCSYSCTL_SDCLKEN = false).
    { intros x <-. unfold has. rewrite <- Z.land_assoc. change (Z.land RESET_BITS MMCSYSCTL_SDCLKEN) with 0.
      by rewrite Z.land_0_r. }
    destruct (Nat.eqb_spec (dev_busy r) 0) as [H0|H0].
    + rewrite (command_view (set_sys u 0 (v_clk u))) by done. split_and!; try done; [by right|..].
      * unfold dev_busy. cbn. unfold dev_busy in H0. lia.
      * cbn [set_sys v_rst]. by destruct (v_clk u).
      * cbn [set_sys v_rst]. by destruct (v_clk u).
    + rewrite (command_view u) by done. split_and!; try done; [by left|..].
      * unfold dev_busy. cbn. lia.
      * rewrite Z.land_lor_distr_l, <- Hu. destruct (v_clk u);
          [change (Z.land MMCSYSCTL_SDCLKEN RESET_BITS) with 0|rewrite Z.land_0_l]; apply Z.lor_0_r.
      * rewrite has_lor, (Hclk (v_rst u)) by done. by destruct (v_clk u).
  - intros r v. apply (command_view (set_arg (dev_view r) v)), view_rst.
  - intros r v. apply (command_view (set_blk (dev_view r) v)), view_rst.
  - intros r v. apply (command_view (set_dma (dev_view r) v)), view_rst.
  - intros r v. apply (command_view (set_mixr (dev_view r) v)), view_rst.
  - intros r v. apply (command_view (set_en (dev_view r) v)), view_rst.
  - intros g r v Hg. repeat (destruct Hg as [<-|Hg]; [apply command_view, view_rst|]). done.
  - intros r v. cbv zeta. change (dev_out MX_MMCSYSCTL v r) with
      (mk_dev (set_sys (dev_view r) (Z.land v RESET_BITS) (has v MMCSYSCTL_SDCLKEN)) (d_out r) 2).
    rewrite command_view by (cbn [set_sys v_rst]; by rewrite rst_idem). by destruct (has v MMCSYSCTL_RSTA).
  - intros r x Hc. change (dev_out MX_MMCCMDXTYPE x r) with
      (let '(u', o') := dev_command (dev_view r) (d_out r) x in mk_dev u' o' 2).
    unfold dev_command, dev_powered. rewrite Hc, andb_false_r. cbn [negb]. apply command_view, view_rst.
  - intros r x. cbv zeta. change (dev_out MX_MMCCMDXTYPE x r) with
      (let '(u', o') := dev_command (dev_view r) (d_out r) x in mk_dev u' o' 2).
    destruct (card_cmd _ _ _) as [c w] eqn:Hc. intros Hp Hx. unfold dev_command.
    rewrite dev_powered_spec, Hx, Hc by done. cbn [negb]. split; [apply command_view, view_rst|].
    destruct w; cbn [d_out v_int v_rsp]; [split; [by split|done]|]. split; [done|by vm_compute].
  - intros r x. cbv zeta. change (dev_out MX_MMCCMDXTYPE x r) with
      (let '(u', o') := dev_command (dev_view r) (d_out r) x in mk_dev u' o' 2).
    destruct (card_pio _ _ _ _) as [c l] eqn:Hc. intros Hp Hx _ Hm. unfold dev_command.
    rewrite dev_powered_spec, Hx, Hc, Hm by done. cbn [negb]. rewrite Z.eqb_refl.
    split; [apply command_view, view_rst|].
    destruct l; cbn [d_out v_int v_fifo]; [split; [by split|done]|]. split; [done|by vm_compute].
  - intros r x b. cbv zeta. change (dev_out MX_MMCCMDXTYPE x r) with
      (let '(u', o') := dev_command (dev_view r) (d_out r) x in mk_dev u' o' 2).
    intros Hp Hx _ Hm _ _ Hfb _ _ _ _. unfold dev_command. rewrite dev_powered_spec, Hx, Hfb by done. cbn [negb].
    assert (Hm' : (Z.land (v_mix (dev_view r)) (Z.lor DMA_READ MULTI) =? MMCMIXCTRL_DTDSEL) = false)
      by (destruct Hm as [(_ & _ & ->)|(_ & _ & ->)]; done).
    rewrite Hm'. split; [apply command_view, view_rst|]. by split.
Defined.

(** ** The driver at work on it *)

#[local] Instance demo_host : HostController (mx demo_dev) := mx_hc 5.
#[local] Instance demo_mx_bus : HostBus (mx demo_dev) := mx_bus.

(** A controller in no particular state, with a card and [n] bytes of memory. *)
Definition demo_mx (kd : kind) (n : Z) : mx demo_dev :=
  mk_mx 198000000 (mk_dev (mk_setup (demo_card_on kd) (zeros n) 1 2 3 4 5 6 true) (mk_outcome 7 [] []) 9).

Definition mx_run (kd : kind) : option (Z * card_type_t * Z * Z) :=
  match sdmmc_init_sd 10 (demo_sdmmc, demo_mx kd 16) with
  | Ok (0, (s, h)) => Some (c_state (hb_card h), type (Sdmmc.card s), blk_num (Sdmmc.card s), rca (Sdmmc.card s))
  | _ => None
  end.

Example mx_run_sdhc : mx_run SdHC = Some (4, eSDC_HC, 2048, 0x1234).
Proof. vm_compute. reflexivity. Qed.

Example mx_run_mmc : mx_run MmcHC = Some (4, eMMC_HC, 262144, 1).
Proof. vm_compute. reflexivity. Qed.

(** The block count register holds 16 bits: a request for 65536 blocks sets it to none. *)
Example block_count_wraps :
  match mx6x_setup_dma_read (with_cmd demo_sdmmc (mk_cmd MMC_READ_MULTIPLE_BLOCK 0 false 512 65536 0 0), demo_mx SdHC 0) with
  | Ok (_, (_, h)) => blk_count (v_blk (mx_view (mx_regs h))) = 0
  | Err _ => False
  end.
Proof. vm_compute. reflexivity. Qed.

Lemma demo_patience : (mx_polls (R := demo_dev) < 5)%nat.
Proof. cbn. lia. Qed.

Lemma mx_controller_witness : @HostLaws (mx demo_dev) (mx_hc 5) mx_bus.
Proof. apply (mx_controller_correct 5 demo_patience). Defined.

(** ** The file of DemoFat.v's second volume, 100 bytes in cluster 3 *)

#[local] Instance demo_blocks : BlockDevice (sdmmc_t * mx demo_dev) := sd_disk 5 0.

(** A device with the card's contents. *)
Definition demo_disk : sdmmc_t * mx demo_dev := (demo_sdmmc, demo_mx SdHC 0).

Lemma demo_found_sd : dir_find32 demo_disk demo_fs32 [2] file_name = Some (3, 100).
Proof. vm_compute. reflexivity. Qed.

Lemma demo_mx_ok n : card_ok 5 (hb_card (demo_mx SdHC n)).
Proof.
  change (hb_card (demo_mx SdHC n)) with (demo_card_on SdHC).
  split_and!; [apply demo_info_ok|apply demo_csd_ok| |apply Nat.ltb_lt; vm_compute; reflexivity|cbn; lia].
  split; vm_compute; [split; congruence|congruence].
Qed.

Lemma mx_file_witness :
  exists w d', sdmmc_init_sd 5 (demo_sdmmc, demo_mx SdHC (512 * 65535)) = Ok (SDMMC_OK, w) /\
    copy_named_file_fat32 (mk_fat demo_fs32 (zeros 1024) (2 ^ 32 - 1) false w []) file_name = Ok (d', true) /\
    out d' = demo_sector 11.
Proof.
  destruct (mx_file_correct 5 demo_patience 0 demo_sdmmc (demo_mx SdHC (512 * 65535)) demo_fs32 20 file_name 1 [])
    as (w & size & Hi & Hinfo & Hc & Hfile).
  - apply demo_mx_ok.
  - lia.
  - change (hb_mem (demo_mx SdHC (512 * 65535))) with (zeros (512 * 65535)). rewrite zlen_zeros by lia. lia.
  - change (hb_mem (demo_mx SdHC (512 * 65535))) with (zeros (512 * 65535)). rewrite zlen_zeros by lia. lia.
  - change (c_info (hb_card (demo_mx SdHC (512 * 65535)))) with (demo_info SdHC) in Hinfo.
    rewrite Hinfo in Hc. rewrite (demo_counted _ Hc) in Hfile. exists w.
    assert (Hsec : bd_sector w = bd_sector demo_disk) by exact (f_equal ci_sector Hinfo).
    pose proof (fun f c n => follow_image demo_disk w f n Hsec c) as Hfo.
    pose proof (fun f c => fat_entry_image demo_disk w f c Hsec) as Hfe.
    specialize (Hfile _ eq_refl). cbv zeta in Hfile. change (disk 5 0) with demo_blocks in Hfile.
    rewrite Hfo, (dir_find32_image demo_disk w _ _ _ Hsec) in Hfile.
    change (dir_find32 _ demo_fs32 _ file_name) with (dir_find32 demo_disk demo_fs32 [2] file_name) in Hfile.
    rewrite demo_found_sd in Hfile. unfold file_ok in Hfile. rewrite Hfo in Hfile.
    destruct Hfile as (d' & Hrun & Hout).
    + apply demo_fs32_ok. lia.
    + reflexivity.
    + cbn. lia.
    + change (Forall (fun c => 2 <= c < 20 /\ end_of_file demo_fs32 c = false) [2]).
      apply Forall_singleton. split; [lia|vm_compute; reflexivity].
    + cbn [Nat.iter nat_rect]. rewrite Hfe. vm_compute. reflexivity.
    + split; [demo_size|]. change (chain_ok 20 [3]). apply Forall_singleton. lia.
    + exists d'. split; [exact Hi|]. split; [exact Hrun|]. rewrite Hout, ?Hfo.
      change (follow demo_disk demo_fs32 3 (clusters_of demo_fs32 100)) with [3]. cbn [map concat].
      rewrite (cluster_data_image demo_disk w) by exact Hsec. vm_compute. reflexivity.
Defined.
