(* ===== verification/DemoSdma.v ===== *)
(** * DemoSdma: the theorems on the SDMA library at concrete inputs. *)

From S2P Require Import Prelude.
From S2P Require Import Libc.
From S2P Require Import SdmaSys.
From S2P Require Import Sdma.
From S2P Require Import SdmaXfer.

(** Registers that store, with a write-one-to-clear interrupt register and a start register that
    keeps nothing. *)
#[local] Instance demo_dev : SdmaDevice (Z -> Z) := {
  in32 := fun d o => u32 (d o);
  out32 := fun d o v =>
    if o =? SDMA_HSTART then d
    else fun o' => if o' =? o then (if o =? SDMA_INTR then Z.land (u32 (d o)) (bnot 32 v) else v) else d o'
}.

Lemma plain_not o : plain_reg o -> o <> SDMA_HSTART /\ o <> SDMA_INTR.
Proof.
  unfold plain_reg. intros [-> |[-> |[-> |[-> |[-> |[(n & Hn & ->)|(n & Hn & ->)]]]]]]; split; reg_ne.
Qed.

#[local] Instance demo_dev_laws : SdmaDeviceLaws (Z -> Z).
Proof.
  split; cbn [in32 out32 demo_dev].
  - intros d o. by apply wrap_fits.
  - intros d o v Ho Hv. destruct (plain_not o Ho) as [H1 H2].
    rewrite (proj2 (Z.eqb_neq o _) H1), Z.eqb_refl, (proj2 (Z.eqb_neq o _) H2). by apply wrap_id.
  - intros d o o' v Ho Hne _. destruct (o =? SDMA_HSTART); [done|].
    by rewrite (proj2 (Z.eqb_neq o' o)) by done.
  - intros d v. cbn. apply wrap_id. apply fits_land; [done|by apply wrap_fits|].
    pose proof (wrap_fits 32 (Z.lnot v) ltac:(lia)). unfold bnot, fits in *. lia.
Qed.

(** A system in which every call succeeds. *)
#[local] Instance demo_os : Os := {
  env := fun _ c =>
    match c with
    | Calloc _ => mk_answer 4096 0
    | Strdup _ => mk_answer 8192 0
    | TypedMemOpen | ShmOpen | ShmCreate => mk_answer 3 0
    | Mmap _ _ => mk_answer 65536 0
    | MmapDeviceIo _ _ => mk_answer 131072 0
    | InterruptAttach _ => mk_answer 5 0
    | ChannelCreate => mk_answer 1 0
    | ConnectAttach _ => mk_answer 2 0
    | RsrcAttach lo hi => if lo <=? hi then mk_answer 0 lo else mk_answer 1 0
    | MsgReceivePulse _ => mk_answer 0 1
    | ReadFreed _ => mk_answer 0 1
    | _ => mk_answer 0 0
    end;
  sizeof_shmem := 1024;
  offsetof_ccb_arr := 64;
  offsetof_cmd_chn_bd := 600;
  HWI_ITEM_DEVCLASS_DMA := chars "dma";
  HWI_NULL_OFF := 65535;
  hwi_find_device := fun _ => 65535;
  hwi_tag_find_location := fun _ => None;
  hwitag_find_ivec := fun _ => 0;
  pulse_fuel := 4
}.

#[local] Instance demo_os_laws : OsLaws.
Proof.
  split.
  - intros t chid. cbn. by right; left.
  - intros t lo hi. cbn. zbool; cbn; lia.
Qed.

(** Channel 1 attached and in use, channel structure at 4096. *)
Definition demo_chan : sdma_chan :=
  mk_chan 1 SDMA_CHTYPE_AP_2_MCU DMA_ATTACH_EVENT_ON_COMPLETE 8 0x2020000 23 true true false 65536
    (replicate 4 (mk_bd 0 0 0)) 2 131072 (mk_ctx 0 (replicate 8 0)) 0x30000000.

Definition demo_lib (users : Z) : lib (Z -> Z) :=
  mk_lib (fun o => if o =? SDMA_INTR then 6 else 0) []
    (mk_irq 2 (replicate 32 (UserEvent 77)) (<[1%nat := Some Callback_reenable_descr]> (replicate 32 None)) 5)
    (mk_shmem 3 64 (replicate 32 (mk_ccb 1 2)) (mk_bd 0 0 0))
    (mk_cmd 1 2 10 sdmascript_table true SDMA_RAM_CODE_START_ADDR SIZEOF_SDMA_CODE)
    (mk_api 34 SDMA_BASE SDMA_SIZE SDRAM_BASE 131072 3 65536 users (<[1%nat := 4096]> (replicate 32 0)))
    {[ 4096 := demo_chan ]}.

Lemma demo_lib_ok users : lib_ok (demo_lib users).
Proof. split; vm_compute; reflexivity. Qed.

Lemma demo_chan_at users : chans (demo_lib users) !! 4096 = Some demo_chan.
Proof. reflexivity. Qed.





Lemma attach_registers_witness :
  exists d, attach_registers demo_chan 1 9 0 (demo_lib 1) = Ok (tt, with_dev (demo_lib 1) d) /\
    in32 d (SDMA_CHNPRI 1) = 7.
Proof.
  destruct (attach_registers_correct demo_chan 1 9 0 (demo_lib 1)) as (d & Hr & Hp & _).
  - vm_compute. split; congruence.
  - reflexivity.
  - intros _. vm_compute. split; congruence.
  - exists d. split; [exact Hr|exact Hp].
Defined.

Lemma sdma_channel_release_witness :
  exists s', sdma_channel_release 4096 (demo_lib 1) = Ok (tt, s') /\ chans s' = delete 4096 (chans (demo_lib 1)).
Proof.
  destruct (sdma_channel_release_correct 4096 demo_chan (demo_lib 1)) as (s' & freed & Hr & _ & Hc & _).
  - apply demo_lib_ok.
  - apply demo_chan_at.
  - vm_compute. split; congruence.
  - vm_compute. split; congruence.
  - exists s'. split; [exact Hr|exact Hc].
Defined.

Lemma sdma_xfer_start_witness :
  exists s', sdma_xfer_start 4096 (demo_lib 1) = Ok (0, s') /\
    Z.testbit (in32 (dev s') SDMA_HOSTOVR) 1 = true.
Proof.
  destruct (sdma_xfer_start_correct 4096 demo_chan (demo_lib 1)) as (s' & Hr & _ & _ & _ & Hb).
  - apply demo_chan_at.
  - vm_compute. split; congruence.
  - exists s'. split; [exact Hr|exact Hb].
Defined.

Lemma sdma_xfer_abort_witness :
  exists s', sdma_xfer_abort 4096 (demo_lib 1) = Ok (0, s') /\
    Z.testbit (in32 (dev s') SDMA_HOSTOVR) 1 = false.
Proof.
  destruct (sdma_xfer_abort_correct 4096 demo_chan (demo_lib 1))
    as (v & s' & Hr & _ & _ & _ & _ & Hb & Hv & _).
  - apply demo_lib_ok.
  - apply demo_chan_at.
  - vm_compute. split; congruence.
  - reflexivity.
  - exists s'. split; [|exact Hb]. rewrite <- (Hv eq_refl). exact Hr.
Defined.

Definition demo_transfer : dma_transfer :=
  mk_transfer [] [mk_addr 0x30001000 4096; mk_addr 0x30008000 512] 0 2 32.

Lemma sdma_setup_xfer_witness :
  exists l s', sdma_setup_xfer 4096 demo_transfer (demo_lib 1) = Ok (0, s') /\
    ring l = [(0x30001000, 4096); (0x30008000, 512)].
Proof.
  destruct (sdma_setup_xfer_correct 4096 demo_chan demo_transfer (demo_lib 1)) as (l & Hr & _ & _ & Hl).
  - apply demo_chan_at.
  - split; [vm_compute; split; congruence|]. split; [vm_compute; congruence|]. split; [exact I|].
    split; [vm_compute; reflexivity|].
    apply Forall_cons; split; [cbn; lia|]. apply Forall_cons; split; [cbn; lia|apply Forall_nil; exact I].
  - eexists l, _. split; [exact Hr|exact Hl].
Defined.

Lemma setup_no_fragments_witness :
  setup_chan demo_chan (mk_transfer [] [] 0 0 32) = Err BadAccess.
Proof. apply setup_no_fragments; [reflexivity|vm_compute; reflexivity]. Defined.

Lemma irq_handler_witness :
  exists e s', irq_handler (demo_lib 1) = Ok (e, s').
Proof.
  destruct (irq_handler_correct (demo_lib 1)) as (e & s' & Hr & _).
  - apply demo_lib_ok.
  - intros i Hi. cbn [irqs demo_lib callback_array] in Hi.
    apply list_lookup_insert_Some in Hi as [(<- & _ & _)|[_ Hi]].
    + exists 4096, demo_chan. split; [reflexivity|]. split; [reflexivity|]. vm_compute. congruence.
    + apply lookup_replicate in Hi as [Hi _]. discriminate.
  - exists e, s'. exact Hr.
Defined.
