(* ===== verification/DemoEnet.v ===== *)
(** * DemoEnet: an interface with three packets, for the theorems of EnetRun.v, and the cases the
    transmit ring does not handle. *)

From stdpp Require Import relations.
From S2P Require Import Prelude.
From S2P Require Import Enet.
From S2P Require Import EnetRing.
From S2P Require Import EnetOps.
From S2P Require Import EnetRun.

Definition never : list frag -> bool := fun _ => false.

(** A copy keeps the packet; clusters are at 0x2000; the DMA is idle. *)
Definition env1 : env :=
  {| m_dup := Some;
     m_getcl := Some (9, {| m_data := 0x8000; m_phys := 0x2000; m_lead := []; m_bytes := [] |});
     des_active := [0] |}.

(** Two fragments; one fragment the controller cannot read in place; a header held back. *)
Definition pkt1 : mbuf :=
  {| m_id := 1; m_chain := [{| m_data := 0; m_phys := 0x100; m_lead := []; m_bytes := [1; 2] |};
                            {| m_data := 8; m_phys := 0x200; m_lead := []; m_bytes := [] |};
                            {| m_data := 8; m_phys := 0x208; m_lead := []; m_bytes := [3] |}];
     m_pkthdr_len := 3 |}.
Definition pkt2 : mbuf :=
  {| m_id := 2; m_chain := [{| m_data := 2; m_phys := 0x302; m_lead := []; m_bytes := [4; 5] |}];
     m_pkthdr_len := 2 |}.
Definition pkt3 : mbuf :=
  {| m_id := 3; m_chain := [{| m_data := 22; m_phys := 0x416; m_lead := repeat 7 22; m_bytes := [6] |}];
     m_pkthdr_len := 1 |}.

Definition sys : Type := (mx6q * nic)%type.
Definition after {A} (r : res A) (d : A) : A := match r with Ok x => x | Err _ => d end.

Definition s0 : mx6q := init_tx 64.
Definition s_queued : mx6q := enqueue (enqueue s0 pkt1) pkt2.
Definition s_started : mx6q := after (mx6q_start 2048 never [env1; env1] s_queued) s0.

Lemma env1_ok : env_ok env1.
Proof.
  split; [by intros m m2 [= ->]|]. intros id f [= _ <-]. unfold fits. cbn. lia.
Qed.

Ltac pkt_ok :=
  split; [apply (bool_decide_unpack _); vm_compute; exact I|split; [done|reflexivity]].
Lemma pkt1_ok : packet_ok pkt1. Proof. pkt_ok. Qed.
Lemma pkt2_ok : packet_ok pkt2. Proof. pkt_ok. Qed.
Lemma pkt3_ok : packet_ok (add_header pkt3). Proof. pkt_ok. Qed.

Lemma queued_reachable : reachable 2048 never 64 (s_queued, nic_reset).
Proof.
  eapply rtc_l; [by apply step_enqueue, pkt1_ok|]. eapply rtc_l; [by apply step_enqueue, pkt2_ok|].
  apply rtc_refl.
Qed.

Lemma envs_ok : Forall env_ok [env1; env1].
Proof. apply Forall_cons_2; [apply env1_ok|]. apply Forall_cons_2; [apply env1_ok|]. apply Forall_nil_2. Qed.

Lemma started_reachable : reachable 2048 never 64 (s_started, nic_reset).
Proof.
  eapply rtc_r; [apply queued_reachable|]. eapply (step_start _ _ _ [env1; env1]).
  - apply envs_ok.
  - cbn. lia.
  - vm_compute. reflexivity.
Qed.

(** Two packets were accepted, the second as a copy in a cluster. *)
Example started_packets :
  map m_id (accepted (trace s_started)) = [1; 9] /\ map m_id (held s_started) = [1; 9] /\
  tx_descr_inuse s_started = 3.
Proof. vm_compute. done. Qed.

Lemma transmit_ring_safe_witness :
  internal_tx_errors s_started = 0 /\ accepted (trace s_started) = reaped (trace s_started) ++ held s_started.
Proof.
  destruct (transmit_ring_safe 2048 never ltac:(lia) 64 s_started nic_reset started_reachable)
    as (? & _ & _ & ?). by split.
Defined.

Lemma everything_is_sent_witness :
  hw_sent (snd (nic_run (Z.to_nat (tx_descr_inuse s_started)) s_started nic_reset))
  = map frame_of (accepted (trace s_started)).
Proof.
  pose proof (everything_is_sent 2048 never ltac:(lia) 64 s_started nic_reset started_reachable) as H.
  destruct (nic_run _ _ _) as [s1 c1]. by destruct H as (_ & _ & H & _).
Defined.

Lemma last_bd_active_witness : mx6q_last_bd_active s_started = Ok true.
Proof.
  rewrite (last_bd_active_correct 2048 never ltac:(lia) 64 s_started nic_reset started_reachable).
  vm_compute. reflexivity.
Defined.

Lemma controller_during_load_witness :
  exists sm r, load never (m_chain pkt1) s_started (tx_pidx s_started) None None false = Ok (sm, Some r).
Proof.
  destruct (controller_during_load 2048 never ltac:(lia) 64 s_started nic_reset (m_chain pkt1)
    started_reachable) as (sm & r & Hl & _);
    [vm_compute; reflexivity|]. exists sm, r. exact Hl.
Defined.

Lemma mx6q_start_correct_witness :
  exists s', mx6q_start 2048 never [env1; env1] s_queued = Ok s' /\ reachable 2048 never 64 (s', nic_reset).
Proof.
  destruct (mx6q_start_correct 2048 never ltac:(lia) 64 [env1; env1] s_queued nic_reset
    queued_reachable envs_ok ltac:(cbn; lia)) as (s' & Hrun & Hr & _). exists s'. split; assumption.
Defined.

Lemma mx6q_output_correct_witness :
  exists s' err, mx6q_output 2048 never env1 s_started pkt3 6 = Ok (s', err) /\
    reachable 2048 never 64 (s', nic_reset).
Proof.
  destruct (mx6q_output_correct 2048 never ltac:(lia) 64 env1 s_started nic_reset pkt3 6
    started_reachable env1_ok pkt3_ok) as (s' & err & Hrun & Hr & _). exists s', err. split; assumption.
Defined.

(** ** What goes wrong *)

(** A packet is given back when its first descriptor is done: here while the controller has not yet
    fetched its second fragment. *)
Definition s_first_done : sys := nic_run 1 s_started nic_reset.
Example freed_before_sent :
  let s := after (mx6q_transmit_complete never (fst s_first_done)) s0 in
  map m_id (reaped (trace s)) = [1] /\ hw_sent (snd s_first_done) = [] /\
  (exists x, nic_step s (snd s_first_done) = Some x).
Proof. vm_compute. split_and!; try done. by eexists. Qed.

(** Stopping the interface before the controller was done takes the ready bit only from the first
    descriptor of a packet.  The next packet meets the ready bit of an old second descriptor: the
    error that should never happen. *)
Example stop_leaves_ready :
  let s := after (mx6q_stop_tx never s_started) s0 in
  tx_descr_inuse s = 0 /\
  option_map (fun b => Z.land (bd_status b) TXBD_R) (tx_bd s !! 1%nat) = Some TXBD_R /\
  option_map snd (match mx6q_tx 2048 never env1 s pkt1 with Ok x => Some x | Err _ => None end)
    = Some EINVAL.
Proof. vm_compute. done. Qed.

(** So what [transmit_ring_safe] says fails in the states of an interface that is stopped at any time. *)
Example stop_not_graceful :
  exists s, reachable_any 2048 never 64 (s, nic_reset) /\ internal_tx_errors s <> 0.
Proof.
  set (s1 := after (mx6q_stop_tx never s_started) s0).
  exists (after (mx6q_start 2048 never [env1] (enqueue s1 pkt1)) s0). split.
  - eapply rtc_l; [by apply step_enqueue, pkt1_ok|]. eapply rtc_l; [by apply step_enqueue, pkt2_ok|].
    eapply rtc_l; [eapply (step_start _ _ _ [env1; env1] _ _ s_started)|].
    { apply envs_ok. }
    { cbn. lia. }
    { vm_compute. reflexivity. }
    eapply rtc_l; [apply (step_stop _ _ _ _ _ s1); [done|vm_compute; reflexivity]|].
    eapply rtc_l; [by apply step_enqueue, pkt1_ok|].
    apply rtc_once, (step_start _ _ _ [env1]).
    { apply Forall_cons_2; [apply env1_ok|]. apply Forall_nil_2. }
    { vm_compute. lia. }
    vm_compute. reflexivity.
  - vm_compute. done.
Qed.

(** That error path gives up the lock of the queue, which the caller gives up again. *)
Definition pkt4 : mbuf :=
  {| m_id := 4; m_chain := [{| m_data := 30; m_phys := 0x51e; m_lead := repeat 7 14; m_bytes := [6] |};
                            {| m_data := 8; m_phys := 0x608; m_lead := []; m_bytes := [7] |}];
     m_pkthdr_len := 2 |}.
Example unlocked_twice :
  let s := after (mx6q_stop_tx never s_started) s0 in
  match mx6q_output 2048 never env1 s pkt4 6 with
  | Ok (s', err) => err = EINVAL /\
      drop (length (trace s)) (trace s') =
        [EvFlush 0x510 15; EvFree (add_header pkt4); EvUnlock; EvUnlock]
  | Err _ => False
  end.
Proof. vm_compute. done. Qed.

(** A packet of empty mbufs only: the code goes through a null [tx_bd]. *)
Example empty_packet :
  mx6q_tx 2048 never env1 s0 {| m_id := 4; m_chain := [{| m_data := 0; m_phys := 0; m_lead := [];
    m_bytes := [] |}]; m_pkthdr_len := 0 |} = Err BadAccess.
Proof. vm_compute. done. Qed.
