(* ===== verification/DemoEnetRx.v ===== *)
(** * DemoEnetRx: an interface that receives, run step by step, for the theorems of EnetRxRun.v and
    EnetClock.v, and the cases the receive side and the clock do not handle. *)

From stdpp Require Import relations.
From S2P Require Import Prelude.
From S2P Require Import Sections.
From S2P Require Import EnetPtp.
From S2P Require Import EnetClock.
From S2P Require Import EnetRx.
From S2P Require Import EnetRxRing.
From S2P Require Import EnetRxOps.
From S2P Require Import EnetRxRun.

(** ** The headers *)

#[export] Instance net : NetHeaders := {
  ETHERTYPE_IP := 0x800; ETHERTYPE_PTP := 0x88F7; IPPROTO_UDP := 17; PTP_UDP_PORT := 319;
  SIZEOF_PTPV2HDR := 34; off_messageId := 0; off_version := 1; off_sequenceId := 30;
  off_clockIdentity := 20; SIZEOF_CLOCK_IDENTITY := 8; off_sportId := 28
}.
#[export] Instance net_laws : NetHeaderLaws.
Proof. split; cbn; lia. Qed.
#[export] Instance rxh : RxHeaders := { ETHERTYPE_VLAN := 0x8100; ETHERTYPE_1722 := 0x22F0; IFQ_MAXLEN := 3 }.

(** ** Running the steps *)

Definition BUF : Z := 64.

Inductive act : Type :=
  | APiece (p : list Z)
  | ALast (p : list Z) (flags : Z)
  | AIsr
  | APulse
  | ATurn (a : option (Z * mbuf * list Z))
  | ADrain
  | ADrained
  | AUpdown (b : bool).

#[export] Instance fresh_dec s a : Decision (fresh BUF s a).
Proof. destruct a as [[id m] bytes]. unfold fresh, fits. apply _. Defined.

Definition last_pieceb (s : rx) : bool :=
  match rx_bd (rng s) !! Z.to_nat (rx_cidx (rng s)) with
  | Some b => negb (Z.land (rb_status b) RXBD_E =? 0) || negb (Z.land (rb_status b) RXBD_L =? 0)
  | None => true
  end.

Definition alloc_mayb (s : rx) (a : option (Z * mbuf * list Z)) : bool :=
  match a with Some a => bool_decide (fresh BUF s a) | None => last_pieceb s end.

Definition frame_okb (f : frame) : bool :=
  negb (bool_decide (fr_pieces f = [])) &&
  forallb (fun p => (0 <? zlen p) && (zlen p <=? BUF)) (fr_pieces f) &&
  (0 <=? fr_flags f) && (fr_flags f <? 512) && (zlen (frame_bytes f) <? 2 ^ 16) &&
  (bad_frame f || (18 <=? zlen (default [] (head (fr_pieces f))))).

(** One action, if it is possible. *)
Definition perform (u : bool) (x : sys) (a : act) : option sys :=
  let next := (hw_idx (hw x) + 1) mod num_rx_descriptors (dev x) in
  match a with
  | APiece p =>
      if (0 <? zlen p) && (zlen p <=? BUF) && (zlen (concat (hw_pre (hw x) ++ [p])) <? 2 ^ 16) then
        s' ← hw_fill (middle p) 0 (hw_idx (hw x)) (dev x);
        Some {| dev := s'; hw := {| hw_idx := next; hw_pre := hw_pre (hw x) ++ [p]; wire := wire (hw x) |};
                in_rx := in_rx x; pulses := pulses x |}
      else None
  | ALast p flags =>
      let f := {| fr_pieces := hw_pre (hw x) ++ [p]; fr_flags := flags |} in
      if frame_okb f then
        s' ← hw_fill {| ck_bytes := p; ck_last := Some (zlen (frame_bytes f), fr_flags f) |} 0
               (hw_idx (hw x)) (dev x);
        Some {| dev := s'; hw := {| hw_idx := next; hw_pre := []; wire := wire (hw x) ++ [f] |};
                in_rx := in_rx x; pulses := pulses x |}
      else None
  | AIsr =>
      let '(s', kick, r) := mx6q_isr 0 false false (dev x) in
      Some {| dev := s'; hw := hw x; in_rx := in_rx x;
              pulses := match r with IsrRx => S (pulses x) | _ => pulses x end |}
  | APulse =>
      match in_rx x, pulses x with
      | false, S k => Some {| dev := rx_pulse_begin (dev x); hw := hw x; in_rx := true; pulses := k |}
      | _, _ => None
      end
  | ATurn a =>
      if in_rx x && alloc_mayb (dev x) a then
        match receive_turn a (dev x) with Ok (s', r) => Some (after_turn x s' r) | Err _ => None end
      else None
  | ADrain =>
      match rx_running (upq (dev x)), process_turn (dev x) with
      | true, Ok (s', true) => Some {| dev := s'; hw := hw x; in_rx := in_rx x; pulses := pulses x |}
      | _, _ => None
      end
  | ADrained =>
      match rx_running (upq (dev x)), process_turn (dev x) with
      | true, Ok (s', false) =>
          Some {| dev := mx6q_enable_queue s'; hw := hw x; in_rx := in_rx x; pulses := pulses x |}
      | _, _ => None
      end
  | AUpdown b =>
      if u then Some {| dev := set_running (dev x) b; hw := hw x; in_rx := in_rx x; pulses := pulses x |}
      else None
  end.

Lemma frame_okb_ok f : frame_okb f = true -> frame_ok BUF f.
Proof.
  unfold frame_okb. rewrite !andb_true_iff, negb_true_iff, orb_true_iff.
  intros (((((H1 & H2) & H3) & H4) & H5) & H6). split; [by apply bool_decide_eq_false in H1|].
  split.
  { apply Forall_forall. intros p Hp. rewrite forallb_forall in H2.
    specialize (H2 p (proj1 (list_elem_of_In _ _) Hp)). lia. }
  split; [lia|]. split; [lia|]. intros Hb. destruct H6 as [H6|H6]; [congruence|lia].
Qed.

Lemma perform_step u x a y : perform u x a = Some y -> step BUF false u x y.
Proof.
  destruct a as [p|p fl| | |a| | |b]; cbn [perform].
  - destruct (_ && _) eqn:E; [|done]. rewrite !andb_true_iff in E.
    destruct (hw_fill _ _ _ _) as [s'|] eqn:Ef; [|done]. intros [= <-]. eapply step_piece; [lia|lia|exact Ef].
  - destruct (frame_okb _) eqn:E; [|done]. destruct (hw_fill _ _ _ _) as [s'|] eqn:Ef; [|done].
    intros [= <-]. eapply step_last; [by apply frame_okb_ok|done|exact Ef].
  - destruct (mx6q_isr _ _ _ _) as [[s' k] r] eqn:E. intros [= <-]. by eapply step_isr.
  - destruct (in_rx x) eqn:E1; [done|]. destruct (pulses x) eqn:E2; [done|]. intros [= <-]. by apply step_pulse.
  - destruct (in_rx x) eqn:E1; [|done]. destruct (alloc_mayb _ _) eqn:E2; [|done].
    destruct (receive_turn _ _) as [[s' r]|] eqn:E3; [|done]. intros [= <-]. eapply step_turn; [done| |exact E3].
    unfold alloc_mayb in E2. destruct a as [a|]; [by apply bool_decide_eq_true in E2|].
    right. intros bd Hbd He Hl. unfold last_pieceb in E2. rewrite Hbd, He, Hl in E2. done.
  - destruct (rx_running _) eqn:E1; [|done]. destruct (process_turn _) as [[s' []]|] eqn:E2; [|done..].
    intros [= <-]. by apply step_drain.
  - destruct (rx_running _) eqn:E1; [|done]. destruct (process_turn _) as [[s' []]|] eqn:E2; [done| |done].
    intros [= <-]. by apply step_drained.
  - destruct u; [|done]. intros [= <-]. by apply step_updown.
Qed.

Fixpoint performs (u : bool) (x : sys) (l : list act) : option sys :=
  match l with [] => Some x | a :: l => x ← perform u x a; performs u x l end.

Lemma performs_rtc u l x y : performs u x l = Some y -> relations.rtc (step BUF false u) x y.
Proof.
  revert x. induction l as [|a l IH]; intros x; cbn [performs]; [by intros [= <-]|].
  destruct (perform u x a) as [z|] eqn:E; [|done]. intros Hl. eapply rtc_l; [by eapply perform_step|].
  by apply IH.
Qed.

(** ** An interface with 16 descriptors *)

Definition mb (k : Z) : Z * mbuf * list Z :=
  (100 + k, {| m_phys := 0x10000 + 2048 * k; m_ext_size := 96; m_next := None; m_len := 0;
               m_pkthdr_len := 0; m_rcvif := false; m_hasfcs := false |}, replicate 96 0).

Definition clock0 : ptp :=
  {| rtc := 5; rtc_half := false; rx_ts := replicate 64 zero_ts; rx_ts_cnt := 0;
     tx_ts := replicate 16 zero_ts; tx_ts_cnt := 0 |}.

Definition allocs0 : list (option (Z * mbuf * list Z)) := map (fun k => Some (mb (Z.of_nat k))) (seq 0 16).

Definition no_store : store := {| mbufs := ∅; dma := ∅ |}.

(** A state that is there for the case that cannot be: no ring. *)
Definition no_rx : rx :=
  {| num_rx_descriptors := 0; flow_status := 0; if_running := false;
     rng := {| rx_bd := []; rx_pkts := []; rx_cidx := 0 |}; part := no_partial;
     upq := {| rx_queue := []; rx_running := false; rx_full := 0 |};
     cnt := {| if_ierrors := 0; if_ipackets := 0; rx_failed_allocs := 0; octets_rxed_ok := 0; rxed_ok := 0;
               rxed_broadcast := 0; rxed_multicast := 0 |};
     sto := no_store; imask := 0; ievent := 0; clk := clock0; trace := [] |}.

Definition begin (flow : Z) : sys :=
  {| dev := default no_rx (init_rx 16 flow allocs0 no_store clock0);
     hw := {| hw_idx := 0; hw_pre := []; wire := [] |}; in_rx := false; pulses := 0 |}.

Lemma begin_starts flow : starts BUF (begin flow).
Proof.
  exists 16, flow, allocs0, no_store, clock0. split; [|by vm_compute].
  split; [|split; apply (bool_decide_unpack _); vm_compute; exact I].
  apply Forall_forall. intros a Ha. apply list_elem_of_In, in_map_iff in Ha as (k & <- & Hk).
  apply in_seq in Hk. cbn. unfold fits. change (2 ^ 32) with 4294967296. split; [done|].
  split; [lia|]. by vm_compute.
Qed.

Definition after (u : bool) (flow : Z) (l : list act) : sys := default (begin flow) (performs u (begin flow) l).

Lemma after_reachable u flow l :
  (if performs u (begin flow) l then True else False) -> reachable BUF false u (after u flow l).
Proof.
  intros Hl. exists (begin flow). split; [apply begin_starts|]. unfold after.
  destruct (performs u (begin flow) l) as [y|] eqn:E; [|done]. by eapply performs_rtc.
Qed.

(** A frame of two pieces, one with a checksum error, one for the 1722 stack, and a short one. *)
Definition long1 : list Z := replicate 12 2 ++ replicate 52 3.
Definition long2 : list Z := replicate 10 4.
Definition avb : list Z := replicate 12 1 ++ [0x81; 0; 0; 5; 0x22; 0xF0] ++ replicate 6 7.
Definition short : list Z := replicate 6 255 ++ replicate 20 8.

Definition arrive : list act := [APiece long1; ALast long2 0; ALast short RXBD_CR; ALast avb 0].
Definition traffic : list act :=
  arrive ++ [AIsr; APulse; ATurn (Some (mb 16)); ATurn (Some (mb 17)); ATurn None; ATurn (Some (mb 18));
             ATurn None; ALast short 0; AIsr; APulse; ATurn (Some (mb 19)); ATurn None; ADrain].

Lemma traffic_reachable : reachable BUF false false (after false 0 traffic).
Proof. apply after_reachable. by vm_compute. Qed.

(** What has come up: the 1722 packet at once, the long frame from the queue; the short one waits. *)
Example traffic_result :
  let x := after false 0 traffic in
  map pk_bytes (inputs (trace (dev x))) = [avb; long1 ++ long2] /\
  map pk_len (inputs (trace (dev x))) = [24; 74] /\
  zlen (rx_queue (upq (dev x))) = 1 /\ if_ierrors (cnt (dev x)) = 1 /\ rfi (dev x) = true.
Proof. by vm_compute. Qed.

Lemma queue_length : 2 <= IFQ_MAXLEN.
Proof. by vm_compute. Qed.

Lemma receive_exact_witness :
  exists done todo waiting,
    wire (hw (after false 0 traffic)) = map fst done ++ todo /\ Forall fair done /\
    filter (fun k => is_avb_packet k = true) (inputs (trace (dev (after false 0 traffic))))
      = map packet_of (with_fate Direct done) /\
    filter (fun k => is_avb_packet k = false) (inputs (trace (dev (after false 0 traffic))))
      ++ map packet_of waiting = map packet_of (with_fate Queued done) /\
    Forall2 (fun p f => packet_at (sto (dev (after false 0 traffic))) p = Ok (packet_of f))
      (rx_queue (upq (dev (after false 0 traffic)))) waiting /\
    if_ierrors (cnt (dev (after false 0 traffic))) = zlen (dropped done) /\
    (forall a, alloc_may BUF false (dev (after false 0 traffic)) a ->
       exists r, receive_turn a (dev (after false 0 traffic)) = Ok r) /\
    (exists r, process_turn (dev (after false 0 traffic)) = Ok r).
Proof. apply (receive_exact BUF queue_length false _ traffic_reachable). Defined.

(** Frames are in the ring, and nobody has looked yet. *)
Lemma arrive_reachable : reachable BUF false false (after false 0 arrive).
Proof. apply after_reachable. by vm_compute. Qed.

Lemma no_lost_wakeup_witness :
  rfi (dev (after false 0 arrive)) = true /\ rfint (dev (after false 0 arrive)) = true.
Proof.
  assert (Hf : flow_control (dev (after false 0 arrive)) = false) by (vm_compute; reflexivity).
  assert (Hb : exists b, rx_bd (rng (dev (after false 0 arrive))) !! Z.to_nat 1 = Some b /\
            Z.land (rb_status b) RXBD_E = 0 /\ Z.land (rb_status b) RXBD_L <> 0).
  { eexists. split; [vm_compute; reflexivity|]. split; [reflexivity|discriminate]. }
  assert (Hn : 0 <= 1 < num_rx_descriptors (dev (after false 0 arrive))) by (vm_compute; split; congruence).
  assert (Hp : pulses (after false 0 arrive) = O) by (vm_compute; reflexivity).
  assert (Hi : in_rx (after false 0 arrive) = false) by (vm_compute; reflexivity).
  destruct Hb as (b & Hb & H1 & H2).
  destruct (no_lost_wakeup BUF queue_length _ arrive_reachable) as [_ Hw].
  specialize (Hw Hf 1 b Hn Hb H1 H2). rewrite Hp, Hi in Hw. destruct Hw as [[]|[|Hw]]; [done|done|exact Hw].
Defined.

(** ** A whole call *)

Fixpoint allocs_mayb (l : list (option (Z * mbuf * list Z))) (s : rx) : bool :=
  match l with
  | [] => true
  | a :: l =>
      alloc_mayb s a &&
      match receive_turn a s with Ok (s', None) => allocs_mayb l s' | _ => true end
  end.

Lemma alloc_mayb_ok s a : alloc_mayb s a = true -> alloc_may BUF false s a.
Proof.
  unfold alloc_mayb. destruct a as [a|]; [by intros H%bool_decide_eq_true|].
  intros H. right. intros bd Hbd He Hl. unfold last_pieceb in H. by rewrite Hbd, He, Hl in H.
Qed.

Lemma allocs_mayb_ok l s : allocs_mayb l s = true -> allocs_may BUF l s.
Proof.
  revert s. induction l as [|a l IH]; intros s; [done|]. cbn [allocs_mayb allocs_may].
  rewrite andb_true_iff. intros [Ha Hl]. split; [by apply alloc_mayb_ok|].
  intros s' E. rewrite E in Hl. by apply IH.
Qed.

(** The whole frame and the short one are lost for want of a buffer, the rest is received. *)
Definition call_allocs : list (option (Z * mbuf * list Z)) :=
  [Some (mb 16); Some (mb 17); None] ++ map (fun k => Some (mb (18 + Z.of_nat k))) (seq 0 14).

Lemma receive_returns_witness :
  exists s' r, mx6q_receive call_allocs (dev (after false 0 (arrive ++ [AIsr; APulse]))) = Ok (s', r) /\
    (r = 1 /\ (forall i b, 0 <= i < num_rx_descriptors s' -> rx_bd (rng s') !! Z.to_nat i = Some b ->
                  Z.land (rb_status b) RXBD_E <> 0)
     \/ r = 0 /\ flow_control s' = true).
Proof.
  apply (receive_returns BUF queue_length false).
  - apply after_reachable. by vm_compute.
  - apply allocs_mayb_ok. by vm_compute.
  - by vm_compute.
Defined.

(** ** A clock that runs *)

(** The clock after [n] nanoseconds, every interrupt handled. *)
Definition clock_at (p : ptp) (n : Z) : ptp :=
  set_rtc p (u32 (EnetPtp.rtc p + n / SECOND)) (HALF <=? n mod SECOND).

Definition world_at (p : ptp) (n : Z) : world :=
  {| epoch := EnetPtp.rtc p; now := n; EnetClock.clk := clock_at p n; second_at := None; half_at := None |}.

Lemma clock_runs p n : fits 32 (EnetPtp.rtc p) -> 0 <= n -> clock_run true p (world_at p n).
Proof.
  intros Hp. revert n. apply natlike_ind.
  { unfold world_at, clock_at. cbn. rewrite Z.add_0_r, wrap_id by done. apply rtc_refl. }
  intros n Hn IH. unfold clock_run. eapply relations.rtc_trans; [exact IH|].
  unfold Z.succ. pose proof (step_tick true (world_at p n) I I) as Ht. cbn [world_at epoch now EnetClock.clk second_at half_at] in Ht.
  unfold raise_at in Ht. destruct (second_next n Hn) as [(D & E1 & E2)|(D & E1 & E2)]; rewrite E2 in Ht.
  - pose proof (second_split n Hn) as [_ Hb]. rewrite (proj2 (Z.eqb_neq _ 0)) in Ht by lia.
    destruct (Z.eqb_spec (n mod SECOND + 1) HALF) as [Eh|Eh].
    + eapply rtc_l; [exact Ht|]. apply rtc_once.
      pose proof (step_half true {| epoch := EnetPtp.rtc p; now := n + 1; EnetClock.clk := clock_at p n; second_at := None;
                               half_at := Some (n + 1) |} _ eq_refl) as Hs.
      cbn in Hs. unfold world_at, clock_at. rewrite E1, E2, Eh. exact Hs.
    + apply rtc_once. unfold world_at, clock_at in *. rewrite E1, E2.
      replace (HALF <=? n mod SECOND + 1) with (HALF <=? n mod SECOND); [exact Ht|].
      zbool; lia.
  - eapply rtc_l; [exact Ht|]. apply rtc_once. change (0 =? 0) with true. change (0 =? HALF) with false.
    pose proof (step_second true {| epoch := EnetPtp.rtc p; now := n + 1; EnetClock.clk := clock_at p n; second_at := Some (n + 1);
                               half_at := None |} _ eq_refl) as Hs.
    cbn in Hs. unfold world_at, clock_at. rewrite E1, E2.
    replace (u32 (EnetPtp.rtc p + (n / SECOND + 1)))
      with (u32 (u32 (EnetPtp.rtc p + n / SECOND) + 1)); [exact Hs|].
    unfold wrap. rewrite Zplus_mod_idemp_l. f_equal. lia.
Qed.

(** A PTP header of message [k], version 2. *)
Definition hdr (k : Z) : list Z := [0; 2] ++ replicate 28 9 ++ [0; k; 0; 0].

(** Captured just before the second ends, read just after, found after two more: still of the second
    it was captured in. *)
Definition set100 : ptp := (mx6q_ptp_set_cnt clock0 100 0).1.
Definition stamped : ptp := clock_at set100 (2 * SECOND + 50).

(** The clock is started, set, and runs on. *)
Lemma set_runs n : 0 <= n -> clock_run true clock0 (world_at set100 n).
Proof.
  intros Hn. eapply rtc_l; [|by apply clock_runs].
  apply (step_set true (started clock0) 100 0); unfold fits, SECOND; cbn; [lia..|]. by vm_compute.
Qed.

Lemma time_stamp_exact_witness :
  exists e p1 p2,
    entry_of stamped (hdr 1) 999999900 = Ok (Some e) /\
    mx6q_ptp_add_rx_timestamp stamped (Some (hdr 1)) 999999900 = Ok p1 /\
    stamp_all p1 [(Some (hdr 2), 100); (None, 200); (Some (hdr 3), 300)] = Ok p2 /\
    mx6q_ptp_get_rx_timestamp p2 e = Some (101, 999999900).
Proof.
  do 3 eexists. split; [vm_compute; reflexivity|]. split; [vm_compute; reflexivity|].
  split; [vm_compute; reflexivity|].
  eapply (time_stamp_exact clock0 (world_at set100 (2 * SECOND + 50)) (2 * SECOND - 100) (hdr 1) _
           _ [(Some (hdr 2), 100); (None, 200); (Some (hdr 3), 300)]).
  - by vm_compute.
  - by apply set_runs.
  - by vm_compute.
  - by vm_compute.
  - by vm_compute.
  - vm_compute; reflexivity.
  - by repeat constructor.
  - vm_compute; reflexivity.
  - repeat constructor; intros p ph e; cbn [fst snd]; try discriminate.
    all: intros [= <-]; cbn; by intros [= <-].
  - cbn. lia.
  - vm_compute; reflexivity.
Defined.

(** At 125 MHz, 7000001 ns a second. *)
Lemma compensation_best_witness :
  exists i,
    1 <= i <= 8 /\
    (forall j, 1 <= j <= 8 -> 0 <= excess 125000000 7000001 i <= excess 125000000 7000001 j) /\
    let step := 8 + i in
    mx6q_ptp_set_compensation 8 125000000 7000001 true
    = Ok [(TIMER_INCR, 8 + 256 * step); (TIMER_CORR, test_period 125000000 7000001 i)].
Proof. apply (compensation_best 8 125000000 7000001 true); by vm_compute. Defined.

(** It is six nanoseconds every 107 ticks. *)
Example compensation_best_value :
  mx6q_ptp_set_compensation 8 125000000 7000001 true = Ok [(TIMER_INCR, 8 + 256 * 14); (TIMER_CORR, 107)].
Proof. by vm_compute. Qed.

(** ** Cases the code does not handle *)

(** The allocation fails at the first piece of a long frame and succeeds at its last: what is left of
    the frame goes up as a packet of the whole length, of which the controller wrote ten bytes. *)
Example lost_piece :
  let x := after false 0 [APiece long1; ALast long2 0; AIsr; APulse] in
  match mx6q_receive [None; Some (mb 16); Some (mb 17)] (dev x) with
  | Ok (s, 1) =>
      match rx_queue (upq s) with
      | [p] => match packet_at (sto s) p with
               | Ok k => pk_len k = 74 /\ take 12 (pk_bytes k) = long2 ++ [0; 0]
               | Err _ => False
               end
      | _ => False
      end
  | _ => False
  end.
Proof. by vm_compute. Qed.

(** Flow control stops receiving; the stack takes the packets while the interface is down, and the
    interface comes up again: nothing will enable the receive interrupt. *)
Definition stopped (flow : Z) : sys :=
  after true flow [ALast short 0; ALast short 0; ALast short 0; AIsr; APulse; ATurn (Some (mb 16));
                   ATurn (Some (mb 17))].

Example down_forgets_interrupt :
  match performs true (stopped MX6_FLOW_BOTH) [AUpdown false; ADrain; ADrain; ADrained; AUpdown true] with
  | Some x =>
      if_running (dev x) = true /\ rfi (dev x) = false /\ pulses x = O /\ in_rx x = false /\
      rx_running (upq (dev x)) = false
  | None => False
  end.
Proof. by vm_compute. Qed.

(** The same without taking the interface down: the interrupt is enabled, but the third frame, which
    was in the ring when receiving stopped, is not announced by it. *)
Example stop_leaves_frame :
  match performs true (stopped MX6_FLOW_BOTH) [ADrain; ADrain; ADrained] with
  | Some x =>
      rfi (dev x) = true /\ rfint (dev x) = false /\ pulses x = O /\ in_rx x = false /\
      rx_running (upq (dev x)) = false /\
      match rx_bd (rng (dev x)) !! 2%nat with
      | Some b => Z.land (rb_status b) RXBD_E = 0 /\ Z.land (rb_status b) RXBD_L <> 0
      | None => False
      end
  | None => False
  end.
Proof. by vm_compute. Qed.

(** A link that may only answer pauses, not send them, stops receiving like one that sends them. *)
Example rx_pause_stops :
  in_rx (stopped MX6_FLOW_RX) = false /\ rfi (dev (stopped MX6_FLOW_RX)) = false /\
  flow_control (dev (stopped MX6_FLOW_RX)) = true.
Proof. by vm_compute. Qed.

(** A compensation of twice the clock's frequency is within the half the code allows, and divides by
    zero. *)
Example compensation_crash :
  mx6q_ptp_set_compensation 8 125000000 250000000 true = Err (Crash "division by zero") /\
  (125000000 / 2 <? 250000000 / 125000000) = false.
Proof. by vm_compute. Qed.

(** The base increment goes up for a compensation of either sign. *)
Example compensation_sign :
  mx6q_ptp_set_compensation 8 125000000 125000000 false = Ok [(TIMER_INCR, 9 + 256 * 8); (TIMER_CORR, 1)].
Proof. by vm_compute. Qed.

(** The time is set late in a second, with the half flag as it was, and read at once: a second less. *)
Example set_then_get :
  let p := (mx6q_ptp_set_cnt clock0 100 800000000).1 in
  match mx6q_ptp_get_cnt p [0; 0] 800000000 with
  | Ok (t, _, failed) => t = (99, 800000000) /\ failed = false
  | Err _ => False
  end.
Proof. by vm_compute. Qed.
