(* ===== verification/DemoNor.v ===== *)
(** * DemoNor: the flash driver on a simulated controller and chip.

    A chip and a controller that satisfy what NorChip.v and EcspiPort.v ask of them, the theorems
    applied to them, and runs of the driver, register by register. *)

From S2P Require Import Prelude.
From S2P Require Import Sections.
From S2P Require Import Nor.
From S2P Require Import NorChip.
From S2P Require Import NorFlash.
From S2P Require Import Ecspi.
From S2P Require Import EcspiPort.

(** ** A chip *)

(** The cells by address, the write enable latch, the polls left. *)
Record sim_chip := mk_sim_chip { sc_cell : Z -> Z; sc_wel : bool; sc_work : nat }.

Definition sc_contents (c : sim_chip) : list Z := (fun i => u8 (sc_cell c i)) <$> seqZ 0 TOTAL_SIZE_BYTES.

Definition sc_status (c : sim_chip) : Z :=
  if bool_decide (sc_work c = O) then (if sc_wel c then 2 else 0) else 1.

Definition sc_poll (c : sim_chip) : sim_chip :=
  match sc_work c with
  | O => c
  | S n => mk_sim_chip (sc_cell c) (match n with O => false | _ => sc_wel c end) n
  end.

Definition sc_program (c : sim_chip) (a : Z) (data : list Z) : sim_chip :=
  mk_sim_chip (fun i => if (a <=? i) && (i <? a + zlen data)
                        then Z.land (u8 (sc_cell c i)) (nth (Z.to_nat (i - a)) data 0) else sc_cell c i)
              false 3.
Definition sc_erase (c : sim_chip) (a : Z) : sim_chip :=
  mk_sim_chip (fun i => if i / SECTOR_BYTES =? a / SECTOR_BYTES then 255 else sc_cell c i) false 5.

(** The answer to a command with these arguments, and its effect on a chip that is not busy. *)
Definition sc_command (cmd : Z) (args : list Z) (c : sim_chip) : list Z * sim_chip :=
  let nothing := replicate (length args) 255 in
  if cmd =? CMD_WREN then (nothing, mk_sim_chip (sc_cell c) true (sc_work c))
  else if cmd =? CMD_PP then
    (nothing, match args with
              | a2 :: a1 :: a0 :: data =>
                  if sc_wel c && negb (bool_decide (data = [])) then sc_program c (address [a2; a1; a0]) data else c
              | _ => c end)
  else if cmd =? CMD_SE then
    (nothing, match args with
              | [a2; a1; a0] => if sc_wel c then sc_erase c (address [a2; a1; a0]) else c
              | _ => c end)
  else if cmd =? CMD_READ then
    (match args with
     | a2 :: a1 :: a0 :: zs =>
         [255; 255; 255] ++ ((fun i => u8 (sc_cell c (address [a2; a1; a0] + i))) <$> seqZ 0 (zlen zs))
     | _ => nothing end, c)
  else if cmd =? CMD_RDID then (take (length args) ([0x20; 0xba; 0x16] ++ replicate (length args) 0), c)
  else (nothing, c).

Definition sc_transact (bs : list Z) (c : sim_chip) : list Z * sim_chip :=
  match bs with
  | [] => ([], c)
  | cmd :: args =>
      if cmd =? CMD_RDSR then (255 :: replicate (length args) (sc_status c), sc_poll c)
      else if bool_decide (sc_work c = O) then let '(a, c') := sc_command cmd args c in (255 :: a, c')
      else (replicate (length bs) 255, c)
  end.

#[export] Instance sim_nor_chip : NorChip sim_chip := {|
  transact := sc_transact; contents := sc_contents; enabled := sc_wel; work := sc_work
|}.

Lemma sc_lookup c i : sc_contents c !! i =
  if decide (Z.of_nat i < TOTAL_SIZE_BYTES) then Some (u8 (sc_cell c (Z.of_nat i))) else None.
Proof.
  unfold sc_contents. rewrite list_lookup_fmap. destruct (decide (Z.of_nat i < TOTAL_SIZE_BYTES)) as [Hi|Hi].
  - rewrite (lookup_seqZ_lt 0 TOTAL_SIZE_BYTES i) by lia. done.
  - rewrite (lookup_seqZ_ge 0 TOTAL_SIZE_BYTES i) by lia. done.
Qed.

Lemma sc_size c : zlen (sc_contents c) = TOTAL_SIZE_BYTES.
Proof. unfold zlen, sc_contents. rewrite length_fmap, length_seqZ, Z2Nat.id; done. Qed.

Lemma sc_bytes c : bytes (sc_contents c).
Proof. apply Forall_fmap, Forall_forall. intros i _. apply wrap_fits. lia. Qed.

Lemma sc_same c c' : sc_cell c' = sc_cell c -> contents c' = contents c.
Proof. intros E. cbn [contents sim_nor_chip]. unfold sc_contents. by rewrite E. Qed.

#[local] Opaque TOTAL_SIZE_BYTES SECTOR_BYTES sc_contents.

Lemma sc_idle cmd args c : cmd <> CMD_RDSR -> sc_work c = O ->
  transact (cmd :: args) c = let '(a, c') := sc_command cmd args c in (255 :: a, c').
Proof.
  intros Hc Hw. cbn [transact sim_nor_chip sc_transact]. rewrite (proj2 (Z.eqb_neq _ _)) by done.
  by rewrite bool_decide_eq_true_2.
Qed.

Lemma nth_zip (m d : list Z) n : (n < length d)%nat -> (n < length m)%nat ->
  zip_with Z.land m d !! n = Some (Z.land (nth n m 0) (nth n d 0)).
Proof.
  intros Hd Hm. rewrite lookup_zip_with. destruct (lookup_lt_is_Some_2 m n Hm) as [x Hx].
  destruct (lookup_lt_is_Some_2 d n Hd) as [y Hy]. rewrite Hx, Hy. cbn.
  by rewrite (nth_lookup_Some m n 0 x Hx), (nth_lookup_Some d n 0 y Hy).
Qed.

Lemma u8_land x y : u8 (Z.land (u8 x) y) = Z.land (u8 x) y.
Proof.
  apply wrap_id. unfold fits. rewrite wrap_land by lia. rewrite (Z.land_comm x), <- Z.land_assoc.
  rewrite Z.land_comm, Z.land_ones by lia. by apply Z.mod_pos_bound.
Qed.

Lemma sc_program_contents c a data : 0 <= a -> a + zlen data <= TOTAL_SIZE_BYTES ->
  sc_contents (sc_program c a data) = programmed (sc_contents c) a data.
Proof.
  intros Ha Hl. pose proof (sc_size c) as Hs. unfold programmed.
  assert (Hsl : length (slice (sc_contents c) a (zlen data)) = length data).
  { unfold slice, zlen in *. rewrite length_take, length_drop. lia. }
  assert (Hz : zlen (zip_with Z.land (slice (sc_contents c) a (zlen data)) data) = zlen data).
  { unfold zlen at 1. rewrite length_zip_with, Hsl. unfold zlen. lia. }
  apply list_eq. intros i. rewrite lookup_splice by lia. rewrite !sc_lookup.
  cbn [sc_program sc_cell]. rewrite length_zip_with, Hsl, Nat.min_id.
  destruct (decide (Z.to_nat a <= i < Z.to_nat a + length data)%nat) as [Hi|Hi].
  - rewrite decide_True by (unfold zlen in *; lia).
    rewrite nth_zip by (rewrite ?Hsl; lia).
    rewrite (proj2 (Z.leb_le _ _)), (proj2 (Z.ltb_lt _ _)) by (unfold zlen in *; lia). cbn [andb].
    rewrite u8_land. do 2 f_equal; [|f_equal; lia].
    assert (Hx : slice (sc_contents c) a (zlen data) !! (i - Z.to_nat a)%nat = Some (u8 (sc_cell c (Z.of_nat i)))).
    { rewrite slice_lookup by (unfold zlen; lia). rewrite sc_lookup.
      replace (Z.to_nat a + (i - Z.to_nat a))%nat with i by lia. by rewrite decide_True by (unfold zlen in *; lia). }
    by rewrite (nth_lookup_Some _ _ 0 _ Hx).
  - destruct (decide (Z.of_nat i < TOTAL_SIZE_BYTES)); [|done].
    replace ((a <=? Z.of_nat i) && (Z.of_nat i <? a + zlen data)) with false; [done|].
    symmetry. apply andb_false_iff. unfold zlen in *. destruct (Z.leb_spec a (Z.of_nat i)); [right|by left].
    apply Z.ltb_ge. lia.
Qed.

Lemma sc_erase_contents c a : 0 <= a < TOTAL_SIZE_BYTES ->
  sc_contents (sc_erase c a) = erased (sc_contents c) a.
Proof.
  intros Ha. pose proof (sc_size c) as Hs. destruct (sector_bounds a Ha) as (H1 & H2 & H3).
  assert (Hff : zlen (replicate (Z.to_nat SECTOR_BYTES) 255) = SECTOR_BYTES).
  { unfold zlen. by rewrite length_replicate, Z2Nat.id by done. }
  unfold erased. apply list_eq. intros i. rewrite lookup_splice by lia. rewrite !sc_lookup. cbn [sc_erase sc_cell].
  set (base := a / SECTOR_BYTES * SECTOR_BYTES) in *. unfold zlen in Hff. rewrite length_replicate in *.
  destruct (decide (Z.to_nat base <= i < Z.to_nat base + Z.to_nat SECTOR_BYTES)%nat) as [Hi|Hi].
  - rewrite decide_True by lia. rewrite lookup_replicate_2 by lia.
    replace (Z.of_nat i / SECTOR_BYTES) with (a / SECTOR_BYTES); [by rewrite Z.eqb_refl|].
    apply Z.div_unique with (Z.of_nat i - base); [left; lia|]. unfold base. lia.
  - destruct (decide (Z.of_nat i < TOTAL_SIZE_BYTES)) as [Hlt|]; [|done].
    rewrite (proj2 (Z.eqb_neq _ _)); [done|]. intros E. destruct (sector_bounds (Z.of_nat i) ltac:(lia)) as (H4 & H5 & _).
    rewrite E in H4, H5. fold base in H4, H5. lia.
Qed.

Lemma address_fits a : bytes a -> length a = 3%nat -> 0 <= address a.
Proof.
  intros Hb Hl. destruct a as [|a2 [|a1 [|a0 [|]]]]; try discriminate Hl. cbn [address].
  apply Forall_cons in Hb as [H2 Hb]. apply Forall_cons in Hb as [H1 Hb]. apply Forall_cons in Hb as [H0 _].
  unfold fits in *. lia.
Qed.

(** A program command stays in its page, so inside the array. *)
Lemma page_inside a n : 0 <= a < TOTAL_SIZE_BYTES -> a mod PAGE_SIZE + n <= PAGE_SIZE -> a + n <= TOTAL_SIZE_BYTES.
Proof.
  change TOTAL_SIZE_BYTES with (16384 * 256). unfold PAGE_SIZE. intros Ha Hn.
  pose proof (Z.div_mod a 256 ltac:(lia)). pose proof (Z.mod_pos_bound a 256 ltac:(lia)). lia.
Qed.

Lemma sc_command_length cmd args c : zlen (fst (sc_command cmd args c)) = zlen args.
Proof.
  unfold sc_command, zlen. repeat case_match; cbn [fst];
    rewrite ?length_replicate, ?length_app, ?length_fmap, ?length_seqZ, ?length_take, ?length_app,
      ?length_replicate; cbn [length]; unfold zlen; lia.
Qed.

Lemma sc_command_bytes cmd args c : bytes (fst (sc_command cmd args c)).
Proof.
  assert (Hr : forall n x, fits 8 x -> bytes (replicate n x)) by (intros; by apply Forall_replicate).
  assert (H255 : fits 8 255) by done. assert (H0 : fits 8 0) by done.
  unfold sc_command. repeat case_match; cbn [fst]; auto.
  - apply Forall_app. split; [bytes_here|]. apply Forall_fmap, Forall_forall. intros i _.
    apply wrap_fits. lia.
  - apply Forall_take, Forall_app. split; [bytes_here; done|by apply Hr].
Qed.

#[export] Instance sim_nor_laws : NorChipLaws sim_chip.
Proof.
  refine {| chip_id := (0x20, 0xba, 0x16) |}.
  - exact sc_size.
  - exact sc_bytes.
  - intros bs c Hbs. cbn [transact sim_nor_chip]. unfold sc_transact. destruct bs as [|cmd args]; [by split|].
    assert (H255 : fits 8 255) by done. destruct (cmd =? CMD_RDSR).
    + split; [unfold zlen; cbn [fst length]; by rewrite length_replicate|]. cbn [fst]. constructor; [done|].
      apply Forall_replicate. unfold sc_status. repeat case_match; done.
    + destruct (bool_decide (sc_work c = O)).
      * pose proof (sc_command_length cmd args c) as Hl. pose proof (sc_command_bytes cmd args c) as Hb.
        destruct (sc_command cmd args c) as [a c']. cbn [fst] in *. rewrite !zlen_cons. split; [lia|by constructor].
      * cbn [fst]. split; [unfold zlen; by rewrite length_replicate|]. by apply Forall_replicate.
  - intros bs c Hw. cbn [transact sim_nor_chip work contents enabled]. unfold sc_transact. destruct bs as [|cmd args].
    { cbn [snd]. split; [by apply sc_same|]. cbn [work sim_nor_chip] in Hw. split; [lia|]. intros. lia. }
    destruct (cmd =? CMD_RDSR); [|destruct (bool_decide (sc_work c = O)) eqn:E].
    + cbn [snd]. unfold sc_poll. cbn [work sim_nor_chip] in Hw.
      destruct (sc_work c) as [|n] eqn:En; [lia|]. cbn [sc_work sc_wel]. split; [by apply sc_same|]. split; [lia|]. by intros ->.
    + apply bool_decide_eq_true in E. cbn [work sim_nor_chip] in Hw. lia.
    + cbn [snd]. split; [by apply sc_same|]. split; [lia|]. cbn [work sim_nor_chip] in Hw. intros. lia.
  - intros bs c. cbn [transact sim_nor_chip sc_transact work contents]. rewrite Z.eqb_refl. split_and!.
    + apply sc_same. unfold sc_poll. by destruct (sc_work c).
    + unfold sc_poll. destruct (sc_work c) eqn:E; cbn [sc_work]; lia.
    + intros j v Hj. cbn [lookup list_lookup] in Hj. apply lookup_replicate in Hj as [-> _].
      unfold sc_status, sc_poll, DEVICE_SR_WIP. destruct (sc_work c) as [|n] eqn:E.
      * left. rewrite bool_decide_eq_true_2 by done. by destruct (sc_wel c).
      * right. rewrite bool_decide_eq_false_2 by done. split; [done|lia].
  - intros c Hw. rewrite sc_idle by done. split; [by apply sc_same|]. done.
  - intros cmd bs c Hw Hen Hin. assert (Hc : cmd <> CMD_RDSR) by (destruct Hin as [<-|[<-|[]]]; done).
    cbn [enabled sim_nor_chip] in Hen. rewrite sc_idle by done.
    destruct Hin as [<-|[<-|[]]]; unfold sc_command; cbn [Z.eqb Pos.eqb CMD_PP CMD_SE CMD_WREN snd]; rewrite Hen;
      repeat case_match; (split; [by apply sc_same|done]).
  - intros a data c Hw Hen Ha Hd Hl Hne Hlt Hpg. cbn [enabled sim_nor_chip] in Hen. rewrite sc_idle by done.
    pose proof (address_fits a Ha Hl) as H0. destruct a as [|a2 [|a1 [|a0 [|]]]]; try discriminate Hl.
    change ([a2; a1; a0] ++ data) with (a2 :: a1 :: a0 :: data).
    unfold sc_command. cbn [Z.eqb Pos.eqb CMD_PP CMD_WREN snd]. rewrite Hen, bool_decide_eq_false_2 by done.
    cbn [andb negb]. split; [|change (3 < Z.to_nat 2500)%nat; lia].
    apply sc_program_contents; [done|]. by apply page_inside.
  - intros a c Hw Hen Ha Hl Hlt. cbn [enabled sim_nor_chip] in Hen. rewrite sc_idle by done.
    pose proof (address_fits a Ha Hl) as H0. destruct a as [|a2 [|a1 [|a0 [|]]]]; try discriminate Hl.
    unfold sc_command. cbn [Z.eqb Pos.eqb CMD_PP CMD_SE CMD_WREN snd]. rewrite Hen.
    by apply sc_erase_contents.
  - intros a zs c Hw Ha Hl Hle. rewrite sc_idle by done.
    pose proof (address_fits a Ha Hl) as H0. destruct a as [|a2 [|a1 [|a0 [|]]]]; try discriminate Hl.
    change ([a2; a1; a0] ++ zs) with (a2 :: a1 :: a0 :: zs).
    unfold sc_command. cbn [Z.eqb Pos.eqb CMD_PP CMD_SE CMD_READ CMD_WREN app skipn]. split; [|by split; [apply sc_same|]].
    set (b := address [a2; a1; a0]) in *. cbn [contents sim_nor_chip]. apply list_eq. intros i.
    rewrite drop_0, list_lookup_fmap. unfold zlen in *. destruct (decide (i < length zs)%nat) as [Hi|Hi].
    + rewrite (lookup_seqZ_lt 0) by lia. cbn [fmap option_fmap option_map]. rewrite slice_lookup by lia.
      rewrite sc_lookup, decide_True by lia. do 3 f_equal. lia.
    + rewrite (lookup_seqZ_ge 0) by lia. symmetry. apply lookup_ge_None_2. unfold slice. rewrite length_take. lia.
  - intros zs c Hw Hl. rewrite sc_idle by done. unfold sc_command.
    cbn [Z.eqb Pos.eqb CMD_PP CMD_SE CMD_READ CMD_WREN CMD_RDID]. rewrite Hl. split; [done|]. split; [by apply sc_same|done].
  - intros zs c Hw. rewrite sc_idle by done. split; [by apply sc_same|done].
Qed.

(** ** A controller *)

(** The registers' view, and how many ends of exchanges will not be heard of. *)
Record sim_spi := mk_sim_spi { ss_view : ecspi_view sim_chip; ss_lost : nat }.

Definition ss_control (v : Z) (u : ecspi_view sim_chip) : ecspi_view sim_chip :=
  if negb (Z.testbit v 0) then mk_view false (v_bcnt u) (v_int u) [] [] None (v_chip u)
  else if negb (Z.testbit v 2) then
    mk_view true (Z.shiftr v ECSPI_CONTROLREG_BCNT_POS) (v_int u) (if v_on u then v_tx u else [])
            (if v_on u then v_rx u else []) None (v_chip u)
  else
    let n := (v_bcnt u + 1) / 8 in
    let '(a, c) := transact (burst n (v_tx u)) (v_chip u) in
    mk_view true (v_bcnt u) (v_int u) [] [] (Some (v_rx u ++ received n a, c)) (v_chip u).

Definition ss_write (r v : Z) (u : ecspi_view sim_chip) : ecspi_view sim_chip :=
  if r =? MX_ECSPI_CONTROLREG then ss_control v u
  else if r =? MX_ECSPI_INTREG then mk_view (v_on u) (v_bcnt u) v (v_tx u) (v_rx u) (v_run u) (v_chip u)
  else if r =? MX_ECSPI_TXDATA then
    mk_view (v_on u) (v_bcnt u) (v_int u) (v_tx u ++ [v]) (v_rx u) (v_run u) (v_chip u)
  else u.

Definition ss_out (r v : Z) (g : sim_spi) : sim_spi := mk_sim_spi (ss_write r v (ss_view g)) (ss_lost g).

Definition ss_in (r : Z) (g : sim_spi) : Z * sim_spi :=
  let u := ss_view g in
  match v_rx u with
  | w :: l => (w, mk_sim_spi (mk_view (v_on u) (v_bcnt u) (v_int u) (v_tx u) l (v_run u) (v_chip u)) (ss_lost g))
  | [] => (0, g)
  end.

(** The exchange ends; its interrupt is handled, or lost. *)
Definition ss_pulse (g : sim_spi) : option Z * sim_spi :=
  let u := ss_view g in
  match v_run u with
  | Some (l, c) =>
      let g' n := mk_sim_spi (mk_view (v_on u) (v_bcnt u) (v_int u) (v_tx u) l None c) n in
      match ss_lost g with
      | O => (Some MX_ECSPI_EVENT, ss_out MX_ECSPI_INTREG 0 (g' O))
      | S n => (None, g' n)
      end
  | None => (None, g)
  end.

#[export] Instance sim_device : EcspiDevice sim_spi := {|
  in32 := ss_in; out32 := ss_out; MsgReceivePulse := ss_pulse; TimerTimeout := fun _ g => g;
  sys := fun _ _ => 1; MAP_FAILED := -1; ecspi_fuel := 1
|}.

#[export] Instance sim_ecspi_laws : EcspiLaws sim_spi sim_chip.
Proof.
  refine {| ec_view := ss_view; ec_steady := fun g => ss_lost g = O |}.
  - intros to g. cbn. unfold ss_pulse. destruct (v_run (ss_view g)) as [[l c]|]; [|done].
    destruct (ss_lost g); [by left|done].
  - done.
  - done.
  - intros r g Hg. cbn. unfold ss_in. by destruct (v_rx (ss_view g)).
  - intros g Hg Hr _. cbn. unfold ss_pulse. destruct (v_run (ss_view g)) as [[l c]|]; [|done]. by rewrite Hg.
  - intros v g _ H0 H2. cbn. unfold ss_write. cbn. unfold ss_control. by rewrite H0, H2.
  - intros v g _ H0. cbn. unfold ss_write. cbn. unfold ss_control. by rewrite H0.
  - done.
  - done.
  - intros w g u Hon Hrun _. subst u. cbn in *. by rewrite <- Hon, <- Hrun.
  - intros w l g u Hon Hrun Hrx. subst u. cbn in *. unfold ss_in. rewrite Hrx. cbn. by rewrite <- Hon, <- Hrun.
  - intros v n g u Hon Hrun Hn Hb Hv H0 H2 Hq Hrx. subst u. cbn [out32 sim_device].
    change (ss_view (ss_out MX_ECSPI_CONTROLREG v g)) with (ss_control v (ss_view g)).
    unfold ss_control. rewrite H0, H2. cbn [negb]. rewrite Hb, Hrx.
    replace ((8 * n - 1 + 1) / 8) with n by (rewrite Z.sub_add, Z.mul_comm, Z.div_mul; lia).
    by destruct (transact (burst n (v_tx (ss_view g))) (v_chip (ss_view g))).
  - intros l c g u Hr _. subst u. cbn [MsgReceivePulse sim_device]. unfold ss_pulse. rewrite Hr.
    destruct (ss_lost g) as [|n]; [|done]. cbn [Z.eqb Pos.eqb MX_ECSPI_EVENT]. eexists. split; [reflexivity|]. done.
Defined.

(** ** The theorems on it *)

#[export] Instance sim_f3s : F3sHeader := {|
  F3S_LIST_ALL := 1; F3S_VERIFY_WRITE := 2; EIO := 5; ERANGE := 34; EBUSY := 16; EAGAIN := 11; ENOENT := 2
|}.

(** A chip with a counter in its cells, on a controller after reset; the driver is not open yet. *)
Definition counting_chip : sim_chip := mk_sim_chip (fun i => i) false 0.
Definition reset_view : ecspi_view sim_chip := mk_view false 0 0 [] [] None counting_chip.
Definition new_driver (lost : nat) : nor (ecspi sim_spi) :=
  mk_nor 0 (mk_socket 0 0 0 0) 0 0 (mk_ecspi None (mk_sim_spi reset_view lost) []).

Definition hello : list Z := chars "hello, flash".

(** The text goes over the end of a page. *)
Lemma norspi_round_trip_witness :
  exists s0 s1 n s2 s3 s4, f3s_spi_open (new_driver 0) = Ok (EOK, s0) /\
    f3s_spi_erase 65786 s0 = Ok (EOK, s1) /\ wait_erased n 65786 s1 = Ok (EOK, s2) /\
    write_all (length hello) 2 65786 hello s2 = Ok (true, s3) /\
    read_all (length hello) 65786 (zlen hello) s3 = Ok (Some hello, s4) /\
    contents (chip s4) = splice (erased (contents (chip (new_driver 0))) 65786) 65786 hello.
Proof.
  apply (norspi_round_trip 2 65786 hello (new_driver 0)).
  - intros t. split_and!; done.
  - reflexivity.
  - reflexivity.
  - reflexivity.
  - reflexivity.
  - discriminate.
  - lia.
  - discriminate.
  - change (zlen hello) with 12. change TOTAL_SIZE_BYTES with 4194304. lia.
  - unfold bytes, fits. cbn. repeat constructor; lia.
  - change (zlen hello) with 12. intros i Hi. change SECTOR_BYTES with 65536.
    transitivity 1; [|done]. symmetry. apply Z.div_unique with (i - 65536); lia.
Defined.

(** The driver open. *)
Definition open_driver (lost : nat) : nor (ecspi sim_spi) :=
  mk_nor 0 (mk_socket TOTAL_SIZE_BYTES TOTAL_SIZE_BYTES 0 0) 1 0
    (mk_ecspi (Some (mk_mx_ecspi 1 1 1 1 1 8192 CLOCK_RATE 0 1))
       (mk_sim_spi (mk_view true 0 0 [] [] None counting_chip) lost) []).

Lemma open_driver_ready : ready (open_driver 0).
Proof.
  split; [discriminate| |reflexivity]. eexists. split; [reflexivity|].
  split; [split; [cbn; lia|reflexivity]|by split].
Qed.

Definition some_calls : list call := [Read 0 4; Erase 0; Write 2 0 3 [1; 2; 3]; Sync 0; Read 4194304 1].

Lemma norspi_correct_witness :
  (forall c, In c some_calls -> exists a s', perform c (open_driver 0) = Ok (a, s') /\
     outcome c (open_driver 0) a s') /\
  (exists l s', perform_all some_calls (open_driver 0) = Ok (l, s') /\ ready s' /\ steady s' /\
     flash_run (view (open_driver 0)) some_calls l (view s')).
Proof.
  destruct (norspi_correct (SL := ecspi_laws) some_calls (open_driver 0) open_driver_ready) as [H1 H2].
  - assert (Hb : bytes [1; 2; 3]) by (bytes_here; unfold fits; lia).
    unfold some_calls. repeat (apply Forall_cons; split); try apply Forall_nil; try exact Hb; cbn; try lia.
    split; [lia|]. split; [unfold zlen; cbn [length]; lia|exact Hb].
  - split; [exact H1|]. apply H2. reflexivity.
Defined.

Lemma ecspi_port_witness : SpiLaws (ecspi sim_spi) sim_chip.
Proof. apply ecspi_port_correct. Defined.

(** ** Runs *)

Definition answers (m : io (ecspi sim_spi) (list answer)) (s : nor (ecspi sim_spi)) : res (list answer) :=
  '(l, _) ← m s; Ok l.

(** A write after the erase has been waited for, and what reading gives: in an erased page, and over a
    page's end, where the call takes the bytes of the first page only. *)
Example erase_write_read :
  answers (perform_all [Read 512 3; Erase 512; Sync 512; Sync 512; Sync 512; Sync 512; Sync 512; Sync 512;
                        Write 2 510 4 [1; 2; 3; 4]; Read 509 6]) (open_driver 0) =
  Ok [Bytes (Some [0; 1; 2]); Code EOK; Code EAGAIN; Code EAGAIN; Code EAGAIN; Code EAGAIN; Code EAGAIN;
      Code EOK; Code 2; Bytes (Some [255; 1; 2; 255; 255; 255])].
Proof. vm_compute. reflexivity. Qed.

(** A write that is not verified, while an erase is under way, reports four bytes written; the chip has
    ignored it. *)
Example write_while_erasing :
  answers (perform_all [Erase 0; Write 0 0 4 [1; 2; 3; 4]; Read 0 4]) (open_driver 0) =
  Ok [Code EOK; Code 4; Bytes (Some [255; 255; 255; 255])].
Proof. vm_compute. reflexivity. Qed.

(** After a wait that failed the queue of received words is not emptied: the next read gives the bytes
    of the read that failed. *)
Example stale_bytes :
  answers (perform_all [Read 16 4; Read 32 4]) (open_driver 1) =
  Ok [Bytes None; Bytes (Some [16; 17; 18; 19])].
Proof. vm_compute. reflexivity. Qed.

(** On a bus where every wait fails the chip is identified by what was on the stack. *)
Example ident_of_garbage :
  exists s, f3s_spi_ident (0x20, 0xba, 4194304) 0 virtual (open_driver 2) = Ok ((EOK, virtual), s).
Proof. eexists. vm_compute. reflexivity. Qed.

(** Where the system refuses the I/O privilege, [f3s_spi_open] goes on with the handle -1. *)
Definition refusing_device : EcspiDevice sim_spi := {|
  in32 := ss_in; out32 := ss_out; MsgReceivePulse := ss_pulse; TimerTimeout := fun _ g => g;
  sys := fun _ _ => -1; MAP_FAILED := -1; ecspi_fuel := 1
|}.
Example open_refused : f3s_spi_open (H := @ecspi_port _ refusing_device) (new_driver 0) = Err BadAccess.
Proof. vm_compute. reflexivity. Qed.

(** The function for SST chips reads past its caller's buffer of eight bytes. *)
Example sst_write_overrun :
  spi_nor_flash_write [CMD_PP; 0; 0; 0; 7; 0; 0; 0] 5 (port (open_driver 0)) = Err BadAccess.
Proof. vm_compute. reflexivity. Qed.
