(* ===== verification/DemoSdio.v ===== *)
(** * DemoSdio: the SD/MMC bus layer on a simulated controller and card, and concrete inputs for its
    theorems. *)

From coqutil Require Import Datatypes.RecordSetters.
From S2P Require Import Prelude.
From S2P Require Import SdioConst.
From S2P Require Import Sdio.
From S2P Require Import SdioSd.
From S2P Require Import SdioMmc.
From S2P Require Import SdioBase.
From S2P Require Import SdioFacts.
From S2P Require Import SdioRun.
From S2P Require Import SdioCard.
From S2P Require Import SdioBits.
From S2P Require Import SdioPool.

(** ** A card of 8 GB *)

(** Its registers, as a card of that size has them. *)
Definition card_csd : words4 := W4 0x400e0032 0x5b590000 0x3b377f80 0x0a404001.
Definition card_cid : words4 := W4 0x03534453 0x55303847 0x801e5f31 0x5b00b6c5.
Definition card_scr : list Z := [0x02; 0x35; 0; 0; 0; 0; 0; 0].
(** High speed is there, and is what is selected. *)
Definition card_switch : list Z := zeros 13 ++ [0x03; 0; 0; 0x01] ++ zeros 47.

(** What it answers: the response and the data. *)
Definition card_answer (c : sdio_cmd) : words4 * list Z :=
  let r1 st := W4 st 0 0 0 in
  let op := opcode c in
  if has (flags c) SCF_APP_CMD then
    if op =? SD_AC_SEND_OP_COND then (r1 0xc0ff8000, [])
    else if op =? SD_AC_SEND_SCR then (r1 0x920, card_scr)
    else (r1 0x920, zeros 64)
  else if op =? SD_SEND_IF_COND then (r1 (arg c), [])
  else if op =? SD_APP_CMD then (r1 0x920, [])
  else if op =? MMC_ALL_SEND_CID then (card_cid, [])
  else if op =? SD_SEND_RELATIVE_ADDR then (r1 0x12340520, [])
  else if op =? MMC_SEND_CSD then (card_csd, [])
  else if op =? SD_SWITCH_FUNC then (r1 0x900, card_switch)
  else (r1 0x900, []).

(** The machine is the list of the events that are reported while commands are waited for, and of whether the
    card answers. *)
Definition sim : Type := list (bool * list Z).

Definition set_of (k : knob) (v : Z) (st : hc_settings) : hc_settings :=
  match k with
  | Clk => st <| clk := v |>
  | Pwr => st <| vdd := v |>
  | BusWidth => st <| bus_width := v |>
  | Timing => st <| timing := v |>
  | BusMode => st <| bus_mode := v |>
  | SignalVoltage => st <| signal_voltage := v |>
  | DrvType => st <| drv_type := v |>
  | _ => st
  end.

#[local] Instance sim_host : HostEntry sim := {|
  e_has _ := true;
  e_set k v h b := (EOK, set_of k v (settings h), b);
  e_driver_strength := None;
  e_cmd _ _ b := (EOK, b);
  e_wait c _ _ b :=
    let '(ok, evs) := default (true, []) (head b) in
    let '(r, d) := if ok : bool then card_answer c else (words0, []) in
    {| w_done := Some (if ok then CS_CMD_CMP else CS_CMD_TO_ERR); w_rsp := r; w_data := d;
       w_events := evs; w_bus := tail b |};
  e_abort _ _ b := b;
  e_cd _ b := (CD_INS, b);
  e_delay _ b := b;
  e_calloc b := (true, b)
|}.

(** A controller with four lines, high speed and sleep, at rest. *)
Definition host0 : sdio_hc := {|
  hc_flags := 0; hc_caps := Z.lor HC_CAP_BW4 (Z.lor HC_CAP_HS (Z.lor HC_CAP_SLEEP HC_CAP_ACMD12)); pm_state := PM_IDLE; tuning_count := 0;
  active := false; clk_min := 100000; clk_max := 200000000; clk_init := 400000; hc_ocr := 0x300000;
  settings := {| clk := 0; vdd := 0; timing := 0; drv_type := 0; bus_mode := 0; bus_width := 0; signal_voltage := 0 |};
  bus_errs := 0
|}.
Definition start (b : sim) : sdio sim :=
  {| hc := host0; dev := dev0; pool := {| free_cmds := 1; lent_cmds := 0 |}; cd_pulses := 0; calls := []; bus := b |}.
Definition bound : nat := 2.

(** The outcome of a run that matters. *)
Definition outcome {A} (r : res (A * sdio sim)) : option (A * hc_settings * cmd_pool) :=
  match r with Ok (a, s) => Some (a, settings (hc s), pool s) | Err _ => None end.
(** The calls of the controller, the first one first: a function and its argument, or a command. *)
Definition history {A} (r : res (A * sdio sim)) : list (knob * Z + Z) :=
  match r with
  | Ok (_, s) => rev (map (fun x => match x with CallSet k v _ => inl (k, v) | CallCmd c _ => inr (opcode c) end)
                        (calls s))
  | Err _ => []
  end.

(** ** Attaching the card *)

(** The card is found at high speed, on four lines, at 50 MHz; every command was given back. *)
Example card_attached :
  outcome (_sdio_attach bound (start [])) =
  Some (EOK, {| clk := 50000000; vdd := 0x100000; timing := TIMING_HS; drv_type := 0;
                bus_mode := BUS_MODE_PUSH_PULL; bus_width := BUS_WIDTH_4;
                signal_voltage := SIGNAL_VOLTAGE_3_3 |}, {| free_cmds := 2; lent_cmds := 0 |}).
Proof. vm_compute. reflexivity. Qed.

(** What a client is told of it: 15523840 blocks of 512 bytes. *)
Example card_info :
  match _sdio_attach bound (start []) with
  | Ok (_, s) => let i := sdio_dev_info (dev s) in Some (di_sector_size i, di_sectors i, di_flags i)
  | Err _ => None
  end = Some (512, 15523840, 0).
Proof. vm_compute. reflexivity. Qed.

(** The way there: power, identification, capabilities, bus. *)
Example card_history :
  history (_sdio_attach bound (start [])) =
  [inl (Pwr, 0); inl (Pwr, 0x200000); inl (Clk, 400000); inl (BusWidth, 1); inl (Preset, 0); inl (Timing, TIMING_LS);
   inl (BusMode, BUS_MODE_OPEN_DRAIN); inl (SignalVoltage, SIGNAL_VOLTAGE_3_3); inl (Pm, PM_ACTIVE);
   inr 0; inr 8; inr 55; inr 41; inl (Pwr, 0x100000); inr 8; inr 0; inr 8; inr 55; inr 41; inr 2; inr 3;
   inl (BusMode, BUS_MODE_PUSH_PULL); inr 9; inr 7; inr 55; inr 51; inr 55; inr 13; inr 6; inr 6; inr 55; inr 6;
   inl (BusWidth, 4); inl (Timing, TIMING_HS); inl (Clk, 50000000); inr 16; inl (Pm, PM_IDLE)].
Proof. vm_compute. reflexivity. Qed.

(** In an empty slot nothing is found, and the power is off. *)
Example empty_slot :
  option_map (fun x => (fst (fst x), vdd (snd (fst x)))) (outcome (_sdio_attach bound (start (repeat (false, []) 200)))) =
  Some (EIO, 0).
Proof. vm_compute. reflexivity. Qed.

(** ** Every operation returns *)



(** A card that offers the lower voltage without having been asked, and refuses the switch, is asked for
    ever: the loop of [sd_init_device] has no bound. *)
#[local] Definition stubborn_host : HostEntry sim := {|
  e_has _ := true;
  e_set k v h b := (EOK, set_of k v (settings h), b);
  e_driver_strength := None;
  e_cmd _ _ b := (EOK, b);
  e_wait c _ _ b :=
    let '(r, d) := card_answer c in
    {| w_done := Some (if opcode c =? SD_VOLTAGE_SWITCH then CS_CMD_TO_ERR else CS_CMD_CMP);
       w_rsp := if opcode c =? SD_AC_SEND_OP_COND then W4 0xc1ff8000 0 0 0 else r; w_data := d; w_events := [];
       w_bus := b |};
  e_abort _ _ b := b;
  e_cd _ b := (CD_INS, b);
  e_delay _ b := b;
  e_calloc b := (true, b)
|}.
Example stubborn_card :
  op_cond_switch (H := stubborn_host) (send (H := stubborn_host) 100) 100 0x40100000 (start []) = Err NoFuel.
Proof. vm_compute. reflexivity. Qed.

(** ** Commands *)

(** A tuning may come between the prefix of an application command and the command. *)
Example tuned_between :
  take 6 (drop 9 (history (_sdio_attach bound (start [(true, []); (true, []); (true, [HC_EV_TUNE])])))) =
  [inr 0; inr 8; inr 55; inl (Tune, SD_SEND_TUNING_BLOCK); inr 41; inl (Pwr, 0x100000)].
Proof. vm_compute. reflexivity. Qed.

Lemma app_commands_prefixed_witness :
  match _sdio_attach bound (start []) with Ok (_, s) => prefixed (calls s) | Err _ => False end.
Proof.
  destruct (app_commands_prefixed bound cmd0 0 0) as (_ & Ha & _). specialize (Ha (start [])).
  destruct (_sdio_attach bound (start [])) as [[r s]|e] eqn:E.
  - exact (Ha r s eq_refl I).
  - revert E. vm_compute. discriminate.
Defined.


(** A controller that cannot start a command is taken for a card that does not answer: the number of the error,
    which is stored as the status of the command, is the status "timeout". *)
#[local] Definition broken_host : HostEntry sim := {|
  e_has _ := true;
  e_set k v h b := (EOK, settings h, b);
  e_driver_strength := None;
  e_cmd _ _ b := (EIO, b);
  e_wait c _ _ b := {| w_done := None; w_rsp := words0; w_data := []; w_events := []; w_bus := b |};
  e_abort _ _ b := b;
  e_cd _ b := (CD_INS, b);
  e_delay _ b := b;
  e_calloc b := (true, b)
|}.
Example errno_as_status :
  match sd_send_if_cond (H := broken_host) (send (H := broken_host) bound) SD_SIC_VHS_27_36V (start []) with
  | Ok (r, _) => r
  | Err _ => EOK
  end = ETIMEDOUT.
Proof. vm_compute. reflexivity. Qed.

(** ** Capabilities *)

(** A controller with SDR50 as its only mode is taken to have SDR104 (the mask of the modes starts one bit
    below them); one with DDR50 is taken to have none. *)
Example uhs_mask_shifted :
  sd_select_bus_mode HC_CAP_SDR50 SD_BUS_MODE_MSK = SD_BUS_MODE_SDR104 /\
  sd_select_bus_mode HC_CAP_DDR50 SD_BUS_MODE_MSK = SD_BUS_MODE_SDR12 /\
  HC_CAP_XPC HC_CAP_XPC_1_8V = 0 /\ HC_CAP_CURRENT HC_CAP_800MA = 0.
Proof. vm_compute. done. Qed.

(** Erasing a large card takes so long that its milliseconds do not fit: the timeout is a short one. *)
Example erase_timeout_wraps :
  sd_erase_timeout dev0 (2 ^ 32 / SD_ERASE_TIMEOUT + 1) < SD_ERASE_TIMEOUT.
Proof. vm_compute. reflexivity. Qed.

(** ** Registers *)

Lemma extract_bits_correct_witness :
  sdio_extract_bits (words card_csd) 128 48 22 = Ok (field (reg_num (words card_csd)) 48 22).
Proof.
  apply (extract_bits_correct (words card_csd) 128 48 22); [|reflexivity|lia..].
  repeat constructor; vm_compute; congruence.
Defined.

Lemma sd_capacity_correct_witness :
  exists c, sd_parse_csd card_csd = Ok (EOK, c, true) /\ csd_sectors c = 15523840.
Proof.
  destruct (sd_capacity_correct card_csd) as (st & c & high & E & Hn).
  - repeat constructor; vm_compute; congruence.
  - exists c. vm_compute in Hn. destruct Hn as (-> & -> & _ & Hc). by split.
Defined.

(** ** The removal of a card *)

(** Two threads of a client, and no card. *)
Definition two_threads : cdstate := {| hflags := 0; handle := None; cd := CdOut; inside := [false; false] |}.
Definition in_use (pc : cd_pc) (f df : Z) (u : Z) (l : list bool) : cdstate :=
  {| hflags := f; handle := Some {| d_flags := df; usage := u |}; cd := pc; inside := l |}.

Lemma step_to s1 s2 s3 : cd_step s1 s2 -> rtc cd_step s2 s3 -> rtc cd_step s1 s3.
Proof. apply rtc_l. Defined.

(** A card is put in, the first thread starts an operation, the controller reports a change: the detecting
    thread has cleared the flags, but not marked the device. *)
Lemma detected_reachable : reachable (in_use CdCleared 0 0 1 [true; false]).
Proof.
  exists two_threads. split; [by vm_compute|].
  eapply step_to; [by apply step_insert|]. eapply step_to; [eapply (step_enter _ 0); reflexivity|].
  eapply step_to; [apply step_event|]. eapply step_to; [by apply (step_detect _ true)|]. reflexivity.
Defined.
(** It has marked it, and sleeps. *)
Lemma asleep_reachable : reachable (in_use CdAsleep 0 DEV_FLAG_RMV_PENDING 1 [true; false]).
Proof.
  destruct detected_reachable as (s0 & Hs & Hr). exists s0. split; [done|].
  eapply rtc_r; [exact Hr|]. by apply step_mark.
Defined.

Lemma removal_correct_witness :
  exists s', rtc cd_step (in_use CdAsleep 0 DEV_FLAG_RMV_PENDING 1 [true; false]) s' /\ cd s' = CdRemoval.
Proof.
  destruct (removal_correct _ asleep_reachable) as (_ & _ & _ & Hgo). apply Hgo. by left.
Defined.

(** Between the two an operation may still begin, on the card that is gone: the change is no longer recorded,
    and the removal not yet. *)
Example change_window :
  reachable (in_use CdCleared 0 0 1 [true; false]) /\
  cd_step (in_use CdCleared 0 0 1 [true; false]) (in_use CdCleared 0 0 2 [true; true]).
Proof.
  split; [exact detected_reachable|].
  exact (step_enter (in_use CdCleared 0 0 1 [true; false]) 1 _ {| d_flags := 0; usage := 2 |} false
           eq_refl eq_refl eq_refl).
Qed.

(** An extended register of version 4.41 that states an access size of 33: the shift by 32. *)
Example access_size_shift :
  mmc_parse_ext_csd (<[Z.to_nat ECSD_ACC_SIZE := 33]> (<[Z.to_nat ECSD_REV := ECSD_REV_V4_41]>
    (zeros MMC_EXT_CSD_SIZE))) 0 dev0 = Err (Crash "shift").
Proof. by vm_compute. Qed.

(** One that says its erase groups are in force, and that they have no blocks: the next erase divides by
    zero. *)
Example erase_group_empty :
  match mmc_parse_ext_csd (<[Z.to_nat ECSD_ERASE_GRP_DEF := 1]> (zeros MMC_EXT_CSD_SIZE)) 0 dev0 with
  | Ok (r, d) => r = EOK /\ mmc_erase_timeout d MMC_ERASE_NORM 8 = Err (Crash "division by zero")
  | Err _ => False
  end.
Proof. by vm_compute. Qed.
