(* ===== verification/DemoI2c.v ===== *)
(** * DemoI2c: the I2C driver on a simulated controller and chip.

    A controller whose registers do what I2cXfer.v asks of them, with a small memory chip on its bus, the theorems
    applied to them, and runs of the driver, interrupt by interrupt. *)

From Stdlib Require Import Ascii.
From coqutil Require Import Datatypes.RecordSetters.
From S2P Require Import Prelude.
From S2P Require Import I2c.
From S2P Require Import I2cBus.
From S2P Require Import I2cXfer.
From S2P Require Import I2cSpeed.
From S2P Require Import I2cInit.

(** ** The chip *)

(** A memory with a pointer: the first byte written sets the pointer, the others are stored; bytes read come from the
    pointer on. Its 7-bit address is 0x50; it also acknowledges the first byte of the 10-bit addresses from 0x100 to
    0x1ff, as a chip with one of these does, but has none of them.  [ch_log] is what was on the bus. *)
Inductive phase := Waiting | Started | Pointer | Storing | Giving | TenBit.
Inductive on_bus := Start | Stop | Sent (b : Z) (ack : bool) | Received (b : Z) (ack : bool).
Record chip := Chip { ch_cells : list Z; ch_ptr : nat; ch_phase : phase; ch_log : list on_bus }.

Definition logged (p : phase) (e : on_bus) (c : chip) : chip := Chip (ch_cells c) (ch_ptr c) p (e :: ch_log c).

Definition chip_send (b : Z) (c : chip) : bool * chip :=
  match ch_phase c with
  | Started =>
      if b =? 0xA0 then (true, logged Pointer (Sent b true) c)
      else if b =? 0xA1 then (true, logged Giving (Sent b true) c)
      else if (b =? 0xF2) || (b =? 0xF3) then (true, logged TenBit (Sent b true) c)
      else (false, logged Waiting (Sent b false) c)
  | Pointer => (true, Chip (ch_cells c) (Z.to_nat b) Storing (Sent b true :: ch_log c))
  | Storing =>
      let ack := (ch_ptr c <? length (ch_cells c))%nat in
      (ack, Chip (<[ch_ptr c := b]> (ch_cells c)) (S (ch_ptr c)) Storing (Sent b ack :: ch_log c))
  | _ => (false, logged Waiting (Sent b false) c)
  end.
Definition chip_recv (ack : bool) (c : chip) : Z * chip :=
  match ch_phase c with
  | Giving =>
      let b := nth (ch_ptr c) (ch_cells c) 255 in
      (b, Chip (ch_cells c) (S (ch_ptr c)) Giving (Received b ack :: ch_log c))
  | _ => (255, logged Waiting (Received 255 ack) c)
  end.

#[export] Instance chip_slaves : I2cSlaves chip := {
  b_start := logged Started Start;
  b_stop := logged Waiting Stop;
  b_send := chip_send;
  b_recv := chip_recv
}.

(** ** The controller *)

Definition status_of (v : view chip) : Z :=
  Z.lor (if v_nak v then STSREG_RXAK else 0)
    (if master (v_ctl v) || negb (v_busy v =? 0)%nat then STSREG_IBB else 0).
Definition sim_in (r : Z) (v : view chip) : Z * view chip :=
  if r =? IMX_I2C_CTRREG_OFF then (v_ctl v, v)
  else if r =? IMX_I2C_STSREG_OFF then (status_of v, polled v)
  else if r =? IMX_I2C_DATREG_OFF then (v_data v, data_in v)
  else (0, v).
Definition sim_out (r x : Z) (v : view chip) : view chip :=
  if r =? IMX_I2C_CTRREG_OFF then ctl_out x 2 v
  else if r =? IMX_I2C_DATREG_OFF then with_run (Some (Some x)) v
  else v.
(** A byte takes nine bits at 100 kHz. *)
Definition sim_byte_ns : Z := 90000.
Definition sim_irq (v : view chip) : bool * view chip :=
  match v_run v with
  | Some x =>
      if sim_byte_ns <=? v_left v then (true, with_left (v_left v - sim_byte_ns) (byte_done x v)) else (false, v)
  | None => (false, v)
  end.

(** Every call succeeds. *)
Definition sim_sys (tr : list (syscall * Z)) (c : syscall) : Z :=
  match c with
  | ThreadCtl | ConnectDetach _ | ChannelDestroy _ | MunmapDeviceIo _ _ | Free => 0
  | Malloc => 0x1000
  | MmapDeviceIo _ _ => 0x2000
  | ChannelCreate => 1
  | ConnectAttach _ => 2
  | InterruptAttach _ => 3
  end.

#[export] Instance sim_device : I2cDevice (view chip) := {
  in16 := sim_in;
  out16 := sim_out;
  TimerTimeout := with_left;
  next_irq := sim_irq;
  i2c_sys := sim_sys;
  MAP_FAILED := 2 ^ 32 - 1;
  hwi_find_bus := fun unit => if unit =? 1 then Some (Some (0x021a4000, 69)) else None
}.

Lemma status_of_ok v : status_ok (status_of v) v.
Proof.
  unfold status_ok, status_of, master. destruct (v_nak v), (has_bit (v_ctl v) CTRREG_MSTA), (v_busy v); by split_and!.
Qed.

#[export] Program Instance sim_laws : I2cLaws (view chip) chip := {
  i2c_view := fun v => v;
  byte_ns := sim_byte_ns;
  stop_polls := 2
}.
Next Obligation. done. Qed.
Next Obligation. done. Qed.
Next Obligation. intros c g _. by exists 2%nat. Qed.
Next Obligation. intros g. split; [apply status_of_ok|done]. Qed.
Next Obligation. done. Qed.
Next Obligation. done. Qed.
Next Obligation. done. Qed.
Next Obligation. done. Qed.
Next Obligation. done. Qed.
Next Obligation.
  intros x g Hr Hl. exists (v_left g - sim_byte_ns). split; [apply Z.le_refl|]. cbn [next_irq sim_device]. unfold sim_irq.
  rewrite Hr. rewrite (proj2 (Z.leb_le _ _)) by exact Hl. done.
Qed.

(** ** The driver on it *)

Definition blank : view chip := View 0 None false 0 0 0 (Chip (seqZ 16 8) 0 Waiting []).
Definition unstarted : i2c (view chip) := {| idev := imx_dev0; pulses := 0; trace := []; regs := blank |}.

(** The state in which a call leaves the driver. *)
Definition after {A} (s0 : i2c (view chip)) (m : M (view chip) A) : i2c (view chip) :=
  match m s0 with Ok (_, s) => s | Err _ => s0 end.

(** Started, with the chip's address set. *)
Definition started : i2c (view chip) :=
  Eval vm_compute in
    after unstarted (_ ← imx_i2c_init 1 [Opt "v"%char 0; NoMore]; imx_i2c_set_slave_addr 0x50 I2C_ADDRFMT_7BIT).

Example started_by_init :
  (_ ← imx_i2c_init 1 [Opt "v"%char 0; NoMore]; imx_i2c_set_slave_addr 0x50 I2C_ADDRFMT_7BIT) unstarted = Ok (0, started).
Proof. vm_compute. reflexivity. Qed.

Example init_takes_hwinfo : physbase (idev started) = 0x021a4000 /\ intr (idev started) = 69.
Proof. split; reflexivity. Qed.

Lemma started_can_transfer len : 0 < len < 1000 -> CanTransfer len (v_bus (regs started)) started.
Proof.
  intros Hlen. split; [|split|split; [reflexivity|cbn; lia]|lia].
  - exists 0xC0, false, 0, 0%nat, 0. split; [|by split_and!]. split; [by left|cbn; lia].
  - cbn. unfold sim_byte_ns. lia.
  - cbn. lia.
Qed.

Lemma ready_bus bus s : Ready bus s -> v_bus (regs s) = bus.
Proof. intros (? & ? & ? & ? & ? & _ & _ & _ & Hv). change (i2c_view (regs s)) with (regs s) in Hv. by rewrite Hv. Qed.


(** Three cells are read from number 5 on. *)
Lemma register_read_witness :
  exists s1 s2, imx_i2c_send [5] 0 started = Ok (I2C_STATUS_DONE, s1) /\
    imx_i2c_recv [0; 0; 0] 1 s1 = Ok ((I2C_STATUS_DONE, [21; 22; 23]), s2) /\
    ch_log (v_bus (regs s2)) =
      [Stop; Received 23 false; Received 22 true; Received 21 true; Sent 0xA1 true; Start;
       Sent 5 true; Sent 0xA0 true; Start].
Proof.
  destruct (started_can_transfer 3 ltac:(lia)) as [_ Hp _ _].
  destruct (register_read_correct [5] [0; 0; 0] (v_bus (regs started)) started
    (write_all [0xA0; 5] (b_start (v_bus (regs started)))).2
    (b_send 0xA1 (b_start (write_all [0xA0; 5] (b_start (v_bus (regs started)))).2)).2 [21; 22; 23]
    (read_n 3 (b_send 0xA1 (b_start (write_all [0xA0; 5] (b_start (v_bus (regs started)))).2)).2).2)
    as (s1 & s2 & Hs & Hr & Hready & _); [apply started_can_transfer; by split|by repeat constructor|done..|].
  exists s1, s2. split; [exact Hs|]. split; [exact Hr|]. apply ready_bus in Hready. rewrite Hready. done.
Defined.

Lemma i2c_returns_witness :
  exists st s', imx_i2c_send [1; 2] 1 started = Ok (st, s') /\ left_as 1 st (bus_state (idev s')).
Proof.
  destruct (proj1 (i2c_returns [1; 2] 1 started ltac:(done))) as (st & s' & Hrun & _ & _ & Hst).
  exists st, s'. split; [exact Hrun|]. by apply Hst.
Defined.

Lemma bus_speed_witness :
  exists div s', imx_i2c_set_bus_speed 400000 started = Ok ((0, 60000000 / div), s') /\
    byte_at I2C_Divs (i2c_freq_val (idev s')) = Some div /\ 150 <= div.
Proof.
  destruct (bus_speed_correct 400000 started) as (div & s' & Hrun & Hdiv & _ & _ & Hq & _); [done..|].
  exists div, s'. split; [exact Hrun|]. split; [exact Hdiv|]. exact Hq.
Defined.

Lemma i2c_init_witness :
  exists p s', imx_i2c_init 1 [NoMore] unstarted = Ok (p, s') /\ init_leaves (owned (trace s')) p.
Proof.
  destruct (i2c_init_resources 1 [NoMore] unstarted) as (p & s' & Hrun & Hl & _); [done|set_solver|].
  exists p, s'. split; [exact Hrun|exact Hl].
Defined.

(** ** Runs that show what the code does not do *)

(** The test for a missing acknowledge names the first byte of a 10-bit address twice and the second not at all: a read
    from a chip that is not there succeeds, with bytes that nobody sent. *)
Example ten_bit_not_there :
  exists s', (_ ← imx_i2c_set_slave_addr 0x155 I2C_ADDRFMT_10BIT; imx_i2c_recv [0; 0] 1) started
      = Ok ((I2C_STATUS_DONE, [255; 255]), s') /\
    ch_log (v_bus (regs s')) =
      [Stop; Received 255 false; Received 255 true; Sent 0x55 false; Sent 0xF3 true; Start].
Proof. eexists. split; vm_compute; reflexivity. Qed.

(** A controller that is too slow for the limit: sending gives up. *)
Definition hasty : i2c (view chip) :=
  Eval vm_compute in after started (modify (fun d => d <| slave_timeout_multiplier := 10 |>)).
Definition gave_up : i2c (view chip) := Eval vm_compute in after hasty (imx_i2c_send [2; 7] 1).

(** The state of the bus then is that of an address on its way, so that the next call makes no start condition. *)
Definition with_time : M (view chip) unit := modify (fun d => d <| slave_timeout_multiplier := sim_byte_ns |>).
Example timeout_leaves_state :
  imx_i2c_send [2; 7] 1 hasty = Ok (I2C_STATUS_BUSY, gave_up) /\ bus_state (idev gave_up) = TX_ADDR_7BIT /\
  exists s', (_ ← with_time; imx_i2c_send [3; 7] 1) gave_up = Ok (I2C_STATUS_DONE, s') /\
    ch_log (v_bus (regs s')) = [Stop; Sent 7 true; Sent 3 true; Sent 0xA0 true; Start].
Proof. split; [reflexivity|]. split; [reflexivity|]. eexists. split; vm_compute; reflexivity. Qed.

(** If the interrupts come after the call instead, the transfer is finished, and its pulse stays on the channel: it ends
    the wait of the next call, which gives up before its first byte is sent. *)
Definition late_irq : M (view chip) unit :=
  irq ← on_regs (fun v => next_irq (with_left sim_byte_ns v)); if irq : bool then interrupt else mret tt.
Definition stale : i2c (view chip) :=
  Eval vm_compute in after gave_up (_ ← late_irq; _ ← late_irq; late_irq).
Example stale_pulse :
  ch_log (v_bus (regs stale)) = [Stop; Sent 7 true; Sent 2 true; Sent 0xA0 true; Start] /\ pulses stale = 1%nat /\
  exists s', (_ ← with_time; imx_i2c_send [3; 7] 1) stale = Ok (I2C_STATUS_BUSY, s') /\
    ch_log (v_bus (regs s')) = Start :: ch_log (v_bus (regs stale)).
Proof. split; [reflexivity|]. split; [reflexivity|]. eexists. split; vm_compute; reflexivity. Qed.

(** 10 kHz of a clock of 60 MHz is below what the dividers reach: the bus runs with 78 kHz. *)
Example slow_bus_is_fast :
  exists s', imx_i2c_set_bus_speed 10000 started = Ok ((0, 78125), s') /\ speed (idev s') = 10000.
Proof. eexists. split; vm_compute; reflexivity. Qed.
Example speed_zero : imx_i2c_set_bus_speed 0 started = Err (Crash "division by zero").
Proof. vm_compute. reflexivity. Qed.

(** After the end the interrupt is still attached to a handler with the structure that has been freed, and the
    registers are still mapped. *)
Example fini_keeps :
  owned (trace (after started imx_i2c_fini)) = [RIrq; RConn; RChan; RMap 0x2000].
Proof. vm_compute. reflexivity. Qed.
